(* ===== verification/_CoqProject ===== *)
-Q . S2P
Prelude.v
PyStr.v
PyRe.v
PyReGroups.v
PyFloat.v
PyCodec.v
PyHash.v
PyJson.v
PyNum.v
Effects.v
PyLib.v
IniFile.v
PyJsonIndent.v
TextFiles.v
Paths.v
ScriptUtils.v
Commands.v
OdbcBenchmarkGate.v
BenchmarkMetrics.v
BenchmarkSummary.v
CompareBenchmark.v
TransportComparison.v
BenchmarkMigrate.v
OdbcBenchmarkRunner.v
NativePackage.v
Crypto.v
Xml.v
ReleaseGates.v
UpdaterManifest.v
PublishRelease.v
AppcastSigning.v
AppcastManager.v
AppcastCommands.v
ValidateRelease.v
InstallerKeyEvidence.v
ReleasePreflight.v
WindowsVersionInfo.v
BuildInstaller.v
UpdateVersion.v
WindowsFixture.v
LifecycleHandoff.v
LifecyclePayload.v
SignpathStaging.v
HubHomologation.v
OdbcReleaseGate.v
OdbcValidation.v
PrePush.v
CiConfiguration.v
ElevatedRunner.v
ApplicationSource.v
PinnedNative.v
BenchmarkCollect.v
TransportQualification.v
DriverMatrix.v
BenchmarkSuite.v
PromoteBaseline.v
IsolatedRuntime.v
ApplicationBuild.v
ApplicationBuilder.v
WindowsHost.v
LifecycleDriver.v
InstallationValidation.v
ExistingInstallation.v
FixtureBuild.v
