(* ===== verification/Prelude.v ===== *)
(** * Verification of the plug_agente release, update and benchmark tooling

    plug_agente is a Windows agent. The agent itself is written in Dart; the
    Python programs of the repository build it, sign and publish its updates,
    test the installed update and judge its benchmarks. This library models those
    programs and proves what a user of them relies on. Source paths below are
    relative to the repository.

    ** How the parts work together

    - [tool/release/release_preflight.py] decides that a version may be released,
      [tool/githooks/pre-push.py] and [tool/ci] guard what is pushed;
      [installer/build_installer.py] builds the installer around the helper of
      [tool/elevated] and the native library of [tool/odbc], and
      [tool/release/installer_key_evidence.py] records which update keys its
      payloads carry.
    - [tool/appcast] keeps the update feed: [appcast_manager.py] adds an item per
      release, signs it through [appcast_signing.py], validates the feed and
      checks what is published; [validate_release.py] compares a feed with the
      release asset on GitHub.
    - [tool/updater/manifest.py] signs a second document about the same asset, the
      manifest; [tool/release/publish_release.py] uploads the assets of a draft
      release, verifies what GitHub then holds and makes it public.
    - [tool/updater/isolated_windows_fixture.py] builds a copy of the product
      under a private identity; [application_source.py],
      [build_isolated_application.py] and [application_build_proof.py] build the
      application for it, and [isolated_runtime.py] binds its libraries.
      [validate_isolated_windows_lifecycle.py] then runs the update on a test
      machine in two phases that hand over through the files of
      [lifecycle_handoff.py]; the other two validators do the same for a
      disposable machine and for an installation that has to survive.
    - [tool/py/odbc_benchmark_runner.py] runs a benchmark program, reads its
      metrics through [benchmark_common.py] and gates them through
      [odbc_benchmark_gate.py]; [tool/benchmarks/run_benchmark_suite.py] makes a
      summary of several of them. Summaries are compared by
      [compare_benchmark_summary.py], converted by [benchmark_migrate.py] and
      become the baseline through [promote_benchmark_baseline.py], which wants
      the approved comparison that [run_transport_comparison.py] writes.

    ** How programs are modelled

    A Python function without effects is a function into [res A], a value or an
    exception of [exn], or into a plain type when it cannot raise. A function
    with effects is a computation of the monad [Effects.M]: a function of a
    [world] (the files by path, the environment, the log of actions) to a result
    and the world it leaves, an exception keeping the effects made before it.
    Programs that are started, network requests, the console and written files
    are events of the log, oldest first, so that theorems state which actions a
    run performed and in which order. [Effects.runs m w o w'] is the judgement
    behind most proofs: [m] leads from [w] to the outcome [o] and the world [w'].
    A phase that keeps a record across exceptions is a computation of a monad on
    top of it, which threads the record and keeps it when an exception ends the
    phase: [WindowsHost] for the lifecycle tools, [OdbcValidation] for the
    operational validation. A Python value of any type that a program reads from
    JSON is [PyJson.json]; the functions over it say what Python does with a
    value of the wrong type.

    What is not code of the repository is a parameter, a type class with a
    concrete instance for the witnesses:
    - [Effects.Host] (programs, network and console), [WindowsHost.WindowsHost]
      (registry, elevation, access control, locks, SQLite, clock and programs
      with input), [WindowsVersionInfo.WinApi] (the resource API);
    - [BuildInstaller.Machine], [BenchmarkCollect.Platform],
      [CiConfiguration.Modules], [TransportQualification.Heartbeat],
      [OdbcBenchmarkRunner.Clock], [ApplicationBuilder.BuildClock] (what the
      machine and the interpreter answer);
    - [WindowsFixture.Filesystem], [Commands.Symlinks], [SignpathStaging.RealPath]
      (links of the file system), [ApplicationSource.Tar] (the entries of an
      archive), [ExistingInstallation.Database] (SQLite databases on disk);
    - [LifecycleHandoff.Secrets], [FixtureBuild.FixtureSecrets] (random values);
    - [Crypto.Ed25519], [Crypto.Canonical], [Xml.XmlText] (libraries).

    Where a theorem needs documented behaviour of such a parameter it is a class
    of laws: [Crypto.Ed25519Laws] (lengths, and a signature verifies under its
    own key) and [LifecycleHandoff.FilesystemLaws] (creating or renaming a file
    makes no other entry a link).

    ** The files

    The Python language and its standard library:
    - [Prelude]: exceptions, results, their monad, notations and generic lemmas.
    - [PyStr] text, [PyRe] regular expressions and [PyReGroups] their groups,
      [PyFloat] binary64 numbers, [PyNum] their text and conversions, [PyCodec]
      base64 and byte order, [PyHash] SHA-256 and SHA-1, [PyLib] URLs, shell
      quoting and dates, [IniFile] configparser, [Paths] path arithmetic.
    - [PyJson] JSON and the round trip of its compact text, [PyJsonIndent] the
      round trip of its indented text, [TextFiles] the same through a file.
    - [Effects] the monad, its primitives and their lemmas; [Commands] sequences
      of programs that have to succeed.
    - [Crypto] and [Xml]: the interfaces of two libraries.

    Release and feed:
    - [ScriptUtils]: tool/py/script_utils.py.
    - [ReleaseGates]: tool/release/check_changelog.py, check_persona_release.py.
    - [UpdaterManifest]: tool/updater/manifest.py, verify_release.py.
    - [PublishRelease]: tool/release/publish_release.py.
    - [AppcastSigning], [AppcastManager], [AppcastCommands], [ValidateRelease]:
      tool/appcast.
    - [InstallerKeyEvidence], [ReleasePreflight], [WindowsVersionInfo]: the other
      files of tool/release.
    - [BuildInstaller], [UpdateVersion], [SignpathStaging]: installer.
    - [ElevatedRunner]: tool/elevated/build_elevated_runner.py.
    - [PrePush]: tool/githooks/pre-push.py. [CiConfiguration]:
      tool/ci/validate_ci_configuration.py.
    - [HubHomologation]: tool/agent_actions/homologate_hub_agent_actions.py.

    The tests of an installation:
    - [WindowsFixture] and [FixtureBuild]: the guards and the build of
      tool/updater/isolated_windows_fixture.py.
    - [LifecycleHandoff], [LifecyclePayload]: tool/updater/lifecycle_*.py.
    - [IsolatedRuntime]: tool/updater/isolated_runtime.py.
    - [ApplicationSource]: tool/updater/application_source.py.
    - [ApplicationBuild]: tool/updater/application_build_proof.py,
      application_package_binding.py. [ApplicationBuilder]:
      build_isolated_application.py.
    - [WindowsHost] the host and the monad of the phases; [LifecycleDriver]:
      tool/updater/validate_isolated_windows_lifecycle.py.
    - [InstallationValidation]: tool/updater/validate_windows_installation.py.
      [ExistingInstallation]: validate_existing_windows_installation.py.

    ODBC and benchmarks:
    - [NativePackage]: tool/odbc/prepare_package_native.py. [PinnedNative]:
      tool/odbc/build_pinned_native.py and the command of the former.
    - [OdbcReleaseGate], [OdbcValidation]: tool/odbc/run_odbc_*.py.
    - [OdbcBenchmarkGate], [OdbcBenchmarkRunner]: tool/py/odbc_benchmark_*.py.
    - [BenchmarkMetrics], [BenchmarkSummary], [BenchmarkCollect]:
      tool/py/benchmark_common.py. [BenchmarkMigrate]:
      tool/py/benchmark_migrate.py.
    - [CompareBenchmark], [DriverMatrix], [BenchmarkSuite], [PromoteBaseline],
      [TransportComparison] (compare_transport_repetitions.py),
      [TransportQualification] (run_transport_comparison.py,
      prepare_transport_comparison.py, measurement_guard.py): tool/benchmarks.

    Every definition that models code carries a comment [src:] with the file,
    the lines and the name of what it models.

    ** What the theorems show

    - C1-C3, C11-C16, the update feed: after an update, with or without signing,
      the feed validates for that release; a feed that validates under a key is
      signed by it; validation accepts an item exactly when the fields agree
      with the context; an update keeps the items of other releases and is
      idempotent; the check of the published feed ends, and succeeds when the
      feed turns valid within its attempts; the signed text determines the
      enclosure.
    - C4, C5, C17, the manifest: signing and verifying returns the payload; a
      release is accepted only with the asset its manifest describes; the payload
      check accepts exactly the payloads of the documented contract.
    - C6, C7, publication and preflight: a release becomes public only after its
      assets were downloaded again and verified, and public assets are never
      overwritten; what has been established when the preflight passes.
    - C18-C20, C39, the installer: the version resource reads back, what the
      release policy and a finished build establish, and that signing changes
      nothing but the signature.
    - C21-C23, the handoff: the interleaved steps of several phases, each guarded
      by the exclusive creation of a file, refine a protocol with one owner; a
      claim returns what was offered.
    - C8, C9, C27, C28, the lifecycle driver: both phases report success only for
      what they have proved, a loaded fixture is bound to what is on disk, and
      the wait between the phases ends.
    - C10, C26, C29, C32-C34, sources and builds: the sources of a build are those
      of the commit, an exported archive is its inventory, a fixture that was
      built keeps its promises, a runtime and a pinned library are what was
      bound, a verified payload is the inventory that was approved.
    - C30, C31, the other validators: a result that says "passed" was earned, also
      for an installation that must not change.
    - C24, C25, C35-C38, the benchmarks: what a passing comparison, a run that
      exits with 0 and a qualification establish; a run that qualifies is
      approved, and a baseline is replaced by a qualified run or not at all; the
      layout of migrated summaries.
    - C40: the batches of a test manifest.

    ** Bounds and fuel

    Recursion that is not structural has fuel, and each bound is one that the
    input cannot exceed. The payload walk visits a directory once: one more than
    the number of entries on disk is enough ([LifecyclePayload.capture_terminates]).
    The wait for the other phase pauses for 200 ms and gives up after five
    minutes: 1502 rounds are enough with a clock that advances in every pause
    ([LifecycleDriver.wait_terminates]). The JSON parser uses two units per
    nesting level and every level consumes a character: twice the length of the
    text plus two; the round trips prove that rendered text is parsed within it.
    [finditer] and the hash blocks consume a character or a block per unit and
    start with the length. The ancestors of a path are shorter than the path. The
    shortest decimal text of a float has at most 17 digits. Machine integers keep
    their width in [WindowsVersionInfo] and [PyCodec] ([struct], which raises out
    of range) and in [PyHash] (modulo 2^32); Python's own integers are unbounded.

    ** Limits of the model

    - Text has code points below 256, and a character or escape above that is
      refused like malformed input; the title of the Markdown report therefore
      stands as its bytes.
    - A file has one spelling: paths are written with "/" and are not resolved
      through "..". A walk takes the entries of a directory by name.
    - [json.loads] has no limit on the digits of an integer, and the compact
      rendering of the handoff has no floats. Two lists that hold the same NaN
      object are compared as different.
    - [sum] of floats adds from left to right, as Python 3.11 does.
    - pubspec.yaml and the manifest of a transport comparison are read as UTF-8.
    - Times of one run are written with one offset.
    - The archive that the pinned library is built from has files and directories;
      one with a link in it cannot be extracted. (The archive of the application
      sources may have one, and the code refuses it.)
    - A registry value that is no text is refused when the machine is examined.
    - Element trees are values: no element occurs twice in one tree.
    - Parsing command lines is [argparse]'s business: a command starts from its
      arguments.

    ** Not modelled

    - tool/elevated/homologate_elevated_runner.py, which registers and removes a
      scheduled task of a live host.
    - tool/benchmarks/run_streaming_tuning.py, action_ui_resources.py,
      benchmark_evolution_report.py, migrate_benchmark_logs.py and the launchers
      odbc_async_benchmark.py and odbc_streaming_benchmark.py: they sample the
      machine, draw a page or start a modelled program.
    - The scripts of tool/agent_actions and tool/dev that rewrite the repository
      once, and the gate that starts the Dart tests.
    - The agent itself, which is Dart, and its C++ runner. *)

From Stdlib Require Export ZArith Lia Ascii String.
From stdpp Require Export base tactics numbers list strings gmap pretty.

#[global] Arguments String.append : simpl nomatch.

Declare Scope py_scope.
Delimit Scope py_scope with py.
#[global] Open Scope py_scope.

(** String equality and inequality tests, [a == b] and [a != b]. *)
Infix "==" := String.eqb (at level 70, no associativity) : py_scope.
Notation "a != b" := (negb (String.eqb a b)) (at level 70, no associativity) : py_scope.

(** ** Python exceptions and results *)

(** What [SystemExit] carries: an exit status or a message. *)
Inductive exit_status : Type :=
| ExitCode (code : Z)
| ExitMsg (msg : string).

(** The exceptions the modelled code raises or catches. [ForeignError] is any
    exception of a package outside the repository. *)
Inductive exn : Type :=
| ValueError (msg : string)
| JSONDecodeError
| UnicodeDecodeError
| BinasciiError
| TypeError (msg : string)
| KeyError (key : string)
| AttributeError (attr : string)
| IndexError
| OverflowError
| ZeroDivisionError
| StructError
| RuntimeError (msg : string)
| OSError (msg : string)
| FileNotFoundError (path : string)
| FileExistsError (path : string)
| PermissionError (path : string)
| CalledProcessError (returncode : Z) (cmd : list string) (output : string)
| TimeoutExpired
| SystemExit (status : exit_status)
| ForeignError (msg : string).

#[global] Instance exit_status_eq_dec : EqDecision exit_status.
Proof. solve_decision. Defined.
#[global] Instance exn_eq_dec : EqDecision exn.
Proof. solve_decision. Defined.

(** The exception classes used in [except] clauses, as predicates that follow
    Python's class hierarchy. *)
Definition is_ValueError (e : exn) : bool :=
  match e with
  | ValueError _ | JSONDecodeError | UnicodeDecodeError | BinasciiError => true
  | _ => false
  end.

Definition is_OSError (e : exn) : bool :=
  match e with
  | OSError _ | FileNotFoundError _ | FileExistsError _ | PermissionError _ => true
  | _ => false
  end.

Definition is_SubprocessError (e : exn) : bool :=
  match e with CalledProcessError _ _ _ | TimeoutExpired => true | _ => false end.

Definition is_RuntimeError (e : exn) : bool :=
  match e with RuntimeError _ => true | _ => false end.

Definition is_TypeError (e : exn) : bool :=
  match e with TypeError _ => true | _ => false end.

Definition is_AttributeError (e : exn) : bool :=
  match e with AttributeError _ => true | _ => false end.

Definition is_KeyError (e : exn) : bool :=
  match e with KeyError _ => true | _ => false end.

(** [except Exception] catches everything but [SystemExit]. *)
Definition is_Exception (e : exn) : bool :=
  match e with SystemExit _ => false | _ => true end.

(** Result of a computation that may raise. *)
Inductive res (A : Type) : Type :=
| Ok (a : A)
| Raise (e : exn).
Arguments Ok {A} a.
Arguments Raise {A} e.

#[global] Instance res_eq_dec {A} `{EqDecision A} : EqDecision (res A).
Proof. solve_decision. Defined.

#[global] Instance Ok_inj {A} : Inj (=) (=) (@Ok A).
Proof. by intros a b [= ->]. Qed.

#[global] Instance res_ret : MRet res := λ A a, Ok a.
#[global] Instance res_bind : MBind res := λ A B f m,
  match m with Ok a => f a | Raise e => Raise e end.
#[global] Instance res_fmap : FMap res := λ A B f m,
  match m with Ok a => Ok (f a) | Raise e => Raise e end.

(** [if b: raise e] *)
Definition raise_if (b : bool) (e : exn) : res unit :=
  if b then Raise e else Ok tt.

(** A value that must be present, [x\[k\]] or a check for [None]. *)
Definition from_option {A} (o : option A) (e : exn) : res A :=
  match o with Some a => Ok a | None => Raise e end.

(** [try: m except <classes> : h e] *)
Definition try_except {A} (m : res A) (classes : exn → bool) (h : exn → res A) : res A :=
  match m with
  | Ok a => Ok a
  | Raise e => if classes e then h e else Raise e
  end.

Definition is_ok {A} (r : res A) : bool := match r with Ok _ => true | Raise _ => false end.

(** [for x in l: f(x)], stopping at the first exception. *)
Fixpoint for_each {A} (f : A → res unit) (l : list A) : res unit :=
  match l with
  | [] => Ok tt
  | x :: l => _ ← f x; for_each f l
  end.

(** [\[f(x) for x in l\]], stopping at the first exception. *)
Fixpoint res_map {A B} (f : A → res B) (l : list A) : res (list B) :=
  match l with
  | [] => Ok []
  | x :: l => y ← f x; ys ← res_map f l; Ok (y :: ys)
  end.

(** ** Lemmas on results *)

Section results.
Context {A B : Type}.
Implicit Types (m : res A) (k : A → res B) (e : exn).

Lemma res_bind_Ok m k b : m ≫= k = Ok b ↔ ∃ a, m = Ok a ∧ k a = Ok b.
Proof.
  destruct m; simpl; split; [by eauto|by intros (? & [= <-] & ?)|done|by intros (? & ? & ?)].
Qed.

Lemma res_bind_Raise m k e :
  m ≫= k = Raise e ↔ m = Raise e ∨ ∃ a, m = Ok a ∧ k a = Raise e.
Proof.
  destruct m as [a|e']; simpl; split.
  - eauto.
  - by intros [?|(? & [= <-] & ?)].
  - intros [= ->]. by left.
  - by intros [[= ->]|(? & ? & ?)].
Qed.

Lemma raise_if_Ok b e : raise_if b e = Ok tt ↔ b = false.
Proof. by destruct b. Qed.

Lemma raise_if_Raise b e e' : raise_if b e = Raise e' ↔ b = true ∧ e = e'.
Proof. destruct b; simpl; split; [by intros [= ->]|by intros [_ ->]|done|by intros [? _]]. Qed.

Lemma from_option_Ok (o : option A) e a : from_option o e = Ok a ↔ o = Some a.
Proof. destruct o; simpl; split; by intros [= ->]. Qed.
End results.

Lemma for_each_Ok {A} (f : A → res unit) l :
  for_each f l = Ok tt ↔ Forall (λ x, f x = Ok tt) l.
Proof.
  induction l as [|x l IH]; simpl; [by split|].
  rewrite res_bind_Ok, Forall_cons, <- IH. split.
  - by intros ([] & -> & ?).
  - intros [-> ?]. by exists tt.
Qed.

Lemma res_map_Ok {A B} (f : A → res B) l ys :
  res_map f l = Ok ys ↔ Forall2 (λ x y, f x = Ok y) l ys.
Proof.
  revert ys. induction l as [|x l IH]; intros ys; simpl.
  - split; [by intros [= <-]|by inversion 1].
  - rewrite res_bind_Ok. split.
    + intros (y & ? & (ys' & ? & [= <-])%res_bind_Ok). constructor; [done|by apply IH].
    + inversion 1 as [|? y ? ys' Hy Hys]; subst. exists y. split; [done|].
      apply res_bind_Ok. exists ys'. by rewrite IH.
Qed.

(** [inv_res] turns hypotheses that say how a monadic computation ended into
    hypotheses about its steps. *)
Ltac inv_res1 :=
  match goal with
  | u : unit |- _ => destruct u
  | H : Ok _ = Ok _ |- _ => injection H as H; try subst
  | H : Raise _ = Raise _ |- _ => injection H as H; try subst
  | H : Ok _ = Raise _ |- _ => discriminate H
  | H : Raise _ = Ok _ |- _ => discriminate H
  | H : mret _ = _ |- _ => progress unfold mret, res_ret in H
  | H : mbind _ _ = Ok _ |- _ =>
      apply res_bind_Ok in H; let a := fresh "a" in destruct H as (a & ? & H)
  | H : raise_if _ _ = Ok ?u |- _ => destruct u; apply raise_if_Ok in H
  | H : raise_if _ _ = Raise _ |- _ => apply raise_if_Raise in H as [H ?]
  | H : from_option _ _ = Ok _ |- _ => apply from_option_Ok in H
  end.
Ltac inv_res := repeat inv_res1.

(** Two results of the same computation are the same. *)
Ltac same_res :=
  repeat match goal with
  | H1 : ?e = Ok ?x, H2 : ?e = Ok ?y |- _ => rewrite H1 in H2; apply (inj Ok) in H2; simplify_eq
  end.

(** Case analysis on the boolean or option a goal or hypothesis branches on. *)
Ltac case_match_eq := case_match; simplify_eq/=; try done.

(** [bool_simpl] turns boolean tests into propositions. *)
Ltac bool_simpl :=
  repeat match goal with
  | H : (_ && _)%bool = true |- _ => apply andb_prop in H as [??]
  | H : (_ || _)%bool = false |- _ => apply orb_false_elim in H as [??]
  | H : negb _ = true |- _ => apply negb_true_iff in H
  | H : negb _ = false |- _ => apply negb_false_iff in H
  | H : (_ =? _)%string = true |- _ => apply String.eqb_eq in H
  | H : (_ =? _)%string = false |- _ => apply String.eqb_neq in H
  | H : (_ =? _)%Z = true |- _ => apply Z.eqb_eq in H
  | H : (_ =? _)%Z = false |- _ => apply Z.eqb_neq in H
  | H : (_ <? _)%Z = true |- _ => apply Z.ltb_lt in H
  | H : (_ <? _)%Z = false |- _ => apply Z.ltb_ge in H
  | H : (_ <=? _)%Z = true |- _ => apply Z.leb_le in H
  | H : (_ <=? _)%Z = false |- _ => apply Z.leb_gt in H
  | H : (_ =? _)%nat = true |- _ => apply Nat.eqb_eq in H
  | H : (_ =? _)%nat = false |- _ => apply Nat.eqb_neq in H
  | H : (_ <? _)%nat = true |- _ => apply Nat.ltb_lt in H
  | H : (_ <? _)%nat = false |- _ => apply Nat.ltb_ge in H
  | H : (_ <=? _)%nat = true |- _ => apply Nat.leb_le in H
  | H : (_ <=? _)%nat = false |- _ => apply Nat.leb_gt in H
  | H : bool_decide _ = true |- _ => apply bool_decide_eq_true in H
  | H : bool_decide _ = false |- _ => apply bool_decide_eq_false in H
  end.

(** ** Hint databases *)

(** [py_str] rewrites with the string lemmas, [py] resolves the closure lemmas
    of the effect predicates. *)
Create HintDb py discriminated.
Create Rewrite HintDb res.
#[export] Hint Rewrite @res_bind_Ok @raise_if_Ok @from_option_Ok : res.

(** ** Lists *)

Section lists.
Context {A : Type}.
Implicit Types (l : list A) (f : A → bool).

(** Membership test of a string in a literal collection. *)
Definition one_of (s : string) (l : list string) : bool := existsb (String.eqb s) l.

Lemma one_of_true s ss : one_of s ss = true ↔ s ∈ ss.
Proof.
  unfold one_of. rewrite existsb_exists. setoid_rewrite String.eqb_eq.
  rewrite list_elem_of_In. naive_solver.
Qed.

Lemma one_of_false s ss : one_of s ss = false ↔ s ∉ ss.
Proof. rewrite <- one_of_true. destruct (one_of s ss); naive_solver. Qed.

Lemma filter_all f l : Forall (λ x, f x = true) l → List.filter f l = l.
Proof. induction 1 as [|x l Hx _ IH]; simpl; [done|]. by rewrite Hx, IH. Qed.

Lemma filter_idem f l : List.filter f (List.filter f l) = List.filter f l.
Proof.
  apply filter_all. induction l as [|x l IH]; simpl; [constructor|].
  destruct (f x) eqn:E; [by constructor|done].
Qed.

Lemma Forall_filter_true f l : Forall (λ x, f x = true) (List.filter f l).
Proof.
  induction l as [|x l IH]; simpl; [constructor|].
  destruct (f x) eqn:E; [by constructor|done].
Qed.

(** The first element that satisfies a test, [next(... if f(x))]. *)
Lemma find_filter f l : List.find f l = head (List.filter f l).
Proof. induction l as [|x l IH]; simpl; [done|]. by destruct (f x). Qed.
End lists.
