(* ===== verification/PyStr.v ===== *)
(** * Python text

    A Python [str] is modelled by a Rocq [string]: one [ascii] per code point,
    so text ranges over the code points below 256 (Latin-1). On that range the
    character classes of [str] and [re] below are the exact ones. A Python
    [bytes] value is a [string] too, one [ascii] per byte. *)

From S2P Require Import Prelude.

Local Open Scope nat_scope.

(** ** Characters *)

Definition ord (c : ascii) : N := N_of_ascii c.

Definition in_range (lo hi : N) (c : ascii) : bool := ((lo <=? ord c) && (ord c <=? hi))%N.

(** [str.isspace], also [re]'s [\s]. *)
Definition is_space (c : ascii) : bool :=
  in_range 9 13 c || in_range 28 32 c || (ord c =? 133)%N || (ord c =? 160)%N.

(** [re]'s [\d]: the decimal digits. *)
Definition is_digit (c : ascii) : bool := in_range 48 57 c.

Definition is_lower_hex (c : ascii) : bool := is_digit c || in_range 97 102 c.

(** [re]'s [\w]: alphanumeric (including the Latin-1 numerics) or underscore. *)
Definition is_word (c : ascii) : bool :=
  is_digit c || in_range 65 90 c || in_range 97 122 c || (ord c =? 95)%N
  || existsb (N.eqb (ord c)) [170; 178; 179; 181; 185; 186; 188; 189; 190]%N
  || in_range 192 214 c || in_range 216 246 c || in_range 248 255 c.

Definition lower_char (c : ascii) : ascii :=
  if in_range 65 90 c || in_range 192 214 c || in_range 216 222 c
  then ascii_of_N (ord c + 32) else c.

Definition upper_char (c : ascii) : string :=
  if (ord c =? 223)%N then "SS"
  else String (if in_range 97 122 c || in_range 224 246 c || in_range 248 254 c
               then ascii_of_N (ord c - 32) else c) EmptyString.

Definition chr (n : N) : string := String (ascii_of_N n) EmptyString.
(** Newline, carriage return and the double quote. *)
Definition nl : string := chr 10.
Definition cr : string := chr 13.
Definition dq : string := chr 34.

(** ** Operations on strings *)

Definition len (s : string) : Z := Z.of_nat (String.length s).

Fixpoint str_all (f : ascii → bool) (s : string) : bool :=
  match s with EmptyString => true | String c s => f c && str_all f s end.

Fixpoint str_any (f : ascii → bool) (s : string) : bool :=
  match s with EmptyString => false | String c s => f c || str_any f s end.

Fixpoint str_map (f : ascii → ascii) (s : string) : string :=
  match s with EmptyString => EmptyString | String c s => String (f c) (str_map f s) end.

Fixpoint str_filter (f : ascii → bool) (s : string) : string :=
  match s with
  | EmptyString => EmptyString
  | String c s => if f c then String c (str_filter f s) else str_filter f s
  end.

(** [s\[:n\]] and [s\[n:\]] for a non-negative [n]. *)
Fixpoint str_take (n : nat) (s : string) : string :=
  match n, s with S n, String c s => String c (str_take n s) | _, _ => EmptyString end.

Fixpoint str_drop (n : nat) (s : string) : string :=
  match n, s with S n, String _ s => str_drop n s | O, s => s | _, EmptyString => EmptyString end.

(** [re.fullmatch("\[0-9a-f\]{64}", s)] *)
Definition is_hex64 (s : string) : bool := (String.length s =? 64)%nat && str_all is_lower_hex s.

Definition py_lower : string → string := str_map lower_char.

Fixpoint py_upper (s : string) : string :=
  match s with EmptyString => EmptyString | String c s => upper_char c +:+ py_upper s end.

Fixpoint lstrip_by (f : ascii → bool) (s : string) : string :=
  match s with
  | EmptyString => EmptyString
  | String c s' => if f c then lstrip_by f s' else s
  end.

Fixpoint rstrip_by (f : ascii → bool) (s : string) : string :=
  match s with
  | EmptyString => EmptyString
  | String c s' =>
      match rstrip_by f s' with
      | EmptyString => if f c then EmptyString else String c EmptyString
      | r => String c r
      end
  end.

Definition strip_by (f : ascii → bool) (s : string) : string := rstrip_by f (lstrip_by f s).

(** [s.strip()], [s.lstrip()], [s.rstrip()] and [s.strip(chars)]. *)
Definition strip : string → string := strip_by is_space.
Definition char_in (chars : string) (c : ascii) : bool := str_any (Ascii.eqb c) chars.
Definition strip_chars (chars : string) : string → string := strip_by (char_in chars).
Definition rstrip_chars (chars : string) : string → string := rstrip_by (char_in chars).

(** The truth value of a string. *)
Definition nonempty (s : string) : bool := match s with EmptyString => false | _ => true end.

(** [a or b] on strings. *)
Definition str_or (a b : string) : string := if nonempty a then a else b.

Definition startswith (s pre : string) : bool := String.prefix pre s.
#[global] Arguments startswith : simpl never.

Definition endswith (s suf : string) : bool :=
  (String.length suf <=? String.length s) &&
  (str_drop (String.length s - String.length suf) s == suf).

(** [sub in s] *)
Fixpoint contains (s sub : string) : bool :=
  startswith s sub || match s with EmptyString => false | String _ s => contains s sub end.

(** [s.removeprefix(pre)] and [s.removesuffix(suf)] *)
Definition removeprefix (s pre : string) : string :=
  if startswith s pre then str_drop (String.length pre) s else s.

Definition removesuffix (s suf : string) : string :=
  if nonempty suf && endswith s suf then str_take (String.length s - String.length suf) s else s.

(** [s.partition(sep)]: the text before and after the first separator, [None]
    when it does not occur. *)
Fixpoint partition (sep s : string) : option (string * string) :=
  if startswith s sep then Some (EmptyString, str_drop (String.length sep) s)
  else match s with
       | EmptyString => None
       | String c s => '(a, b) ← partition sep s; Some (String c a, b)
       end.

(** [s.split(sep, 1)\[0\]] *)
Definition before (sep s : string) : string :=
  match partition sep s with Some (a, _) => a | None => s end.

(** [s.partition(sep)\[2\]] *)
Definition after (sep s : string) : string :=
  match partition sep s with Some (_, b) => b | None => EmptyString end.

(** [s.split(c)] for a one-character separator. *)
Fixpoint split_char (c : ascii) (s : string) : list string :=
  match s with
  | EmptyString => [EmptyString]
  | String d s =>
      if Ascii.eqb d c then EmptyString :: split_char c s
      else match split_char c s with
           | [] => [String d EmptyString]
           | h :: t => String d h :: t
           end
  end.

(** [s.split()]: the maximal runs of non-whitespace. *)
Fixpoint split_ws_go (acc : string) (s : string) : list string :=
  match s with
  | EmptyString => if nonempty acc then [acc] else []
  | String c s =>
      if is_space c then (if nonempty acc then [acc] else []) ++ split_ws_go EmptyString s
      else split_ws_go (acc +:+ String c EmptyString) s
  end.
Definition split_ws (s : string) : list string := split_ws_go EmptyString s.

(** [s.rsplit(c, 1)\[-1\]] for a one-character separator. *)
Definition after_last (c : ascii) (s : string) : string :=
  List.last (split_char c s) EmptyString.

(** Line boundaries of [str.splitlines] below code point 256. *)
Definition is_linebreak (c : ascii) : bool :=
  in_range 10 13 c || in_range 28 30 c || (ord c =? 133)%N.

Fixpoint splitlines_go (acc : string) (s : string) : list string :=
  match s with
  | EmptyString => if nonempty acc then [acc] else []
  | String c s =>
      if is_linebreak c then
        acc :: match s with
               | String d s' =>
                   if ((ord c =? 13)%N && (ord d =? 10)%N)%bool
                   then splitlines_go EmptyString s' else splitlines_go EmptyString s
               | EmptyString => []
               end
      else splitlines_go (acc +:+ String c EmptyString) s
  end.
Definition splitlines (s : string) : list string := splitlines_go EmptyString s.

(** [sep.join(l)] *)
Definition join (sep : string) (l : list string) : string := String.concat sep l.

Definition concat_all (l : list string) : string := join EmptyString l.

(** [s.replace(old, new)] for a non-empty [old]: scan left to right, [skip]
    characters of the last match still being consumed. *)
Fixpoint replace_go (old new : string) (skip : nat) (s : string) : string :=
  match s with
  | EmptyString => EmptyString
  | String c s' =>
      match skip with
      | S k => replace_go old new k s'
      | O => if startswith s old
             then new +:+ replace_go old new (String.length old - 1) s'
             else String c (replace_go old new 0 s')
      end
  end.
Definition replace (old new s : string) : string := replace_go old new 0 s.

(** [s.count(sub)] for a non-empty [sub]. *)
Fixpoint count_go (sub : string) (skip : nat) (s : string) : nat :=
  match s with
  | EmptyString => 0
  | String _ s' =>
      match skip with
      | S k => count_go sub k s'
      | O => if startswith s sub then S (count_go sub (String.length sub - 1) s')
             else count_go sub 0 s'
      end
  end.
Definition count (sub s : string) : nat := count_go sub 0 s.

(** ** Numbers *)

Definition digit_val (c : ascii) : Z := Z.of_N (ord c) - 48.

(** Value of a string of decimal digits, most significant first. *)
Fixpoint digits_val (acc : Z) (s : string) : Z :=
  match s with EmptyString => acc | String c s => digits_val (acc * 10 + digit_val c) s end%Z.

(** Digits with single underscores between them, as [int] accepts; the digits
    without the underscores. [prev] says whether the last character was a digit. *)
Fixpoint int_digits (prev : bool) (s : string) : option string :=
  match s with
  | EmptyString => if prev then Some EmptyString else None
  | String c s =>
      if is_digit c then r ← int_digits true s; Some (String c r)
      else if (ord c =? 95)%N && prev then int_digits false s
      else None
  end.

(** [int(s)]: surrounding whitespace, an optional sign, digits. Python refuses
    more than 4300 digits. *)
Definition py_int (s : string) : option Z :=
  let t := strip s in
  let '(sign, t) := match t with
                    | String c r => if (ord c =? 45)%N then (-1, r)%Z
                                    else if (ord c =? 43)%N then (1, r)%Z else (1, t)%Z
                    | EmptyString => (1, t)%Z
                    end in
  ds ← int_digits false t;
  if (4300 <? len ds)%Z then None else Some (sign * digits_val 0 ds)%Z.

(** [str(n)] for an integer. *)
Definition py_str_int (n : Z) : string := pretty n.

(** [repr(s)] *)
Definition hex_digit (n : N) : ascii :=
  ascii_of_N (if (n <? 10)%N then 48 + n else 87 + n)%N.
Definition repr_char (quote : ascii) (c : ascii) : string :=
  let bs := chr 92 in
  if Ascii.eqb c quote || (ord c =? 92)%N then bs +:+ String c EmptyString
  else if (ord c =? 10)%N then bs +:+ "n"
  else if (ord c =? 13)%N then bs +:+ "r"
  else if (ord c =? 9)%N then bs +:+ "t"
  else if in_range 32 126 c || (in_range 161 255 c && negb (ord c =? 173)%N)
  then String c EmptyString
  else bs +:+ "x" +:+ String (hex_digit (ord c / 16)) (String (hex_digit (ord c mod 16)) EmptyString).
Fixpoint repr_go (quote : ascii) (s : string) : string :=
  match s with EmptyString => EmptyString | String c s => repr_char quote c +:+ repr_go quote s end.
Definition py_repr (s : string) : string :=
  let q := if contains s "'" && negb (contains s dq) then ascii_of_N 34 else ascii_of_N 39 in
  String q (repr_go q s +:+ String q EmptyString).

(** [int(s)] of a text. *)
Definition int_of (s : string) : res Z :=
  from_option (py_int s) (ValueError ("invalid literal for int() with base 10: " +:+ py_repr s)).

(** ** UTF-8

    [s.encode("utf-8")] on code points below 256, and the decoder, which
    refuses what is not the encoding of such a text. *)

Definition utf8_char (c : ascii) : string :=
  if (ord c <? 128)%N then String c EmptyString
  else String (ascii_of_N (192 + ord c / 64)) (String (ascii_of_N (128 + ord c mod 64)) EmptyString).

Fixpoint utf8_encode (s : string) : string :=
  match s with EmptyString => EmptyString | String c s => utf8_char c +:+ utf8_encode s end.

Fixpoint utf8_decode (s : string) : option string :=
  match s with
  | EmptyString => Some EmptyString
  | String c s =>
      if (ord c <? 128)%N then r ← utf8_decode s; Some (String c r)
      else match s with
           | String d s' =>
               if in_range 194 195 c && in_range 128 191 d
               then r ← utf8_decode s';
                    Some (String (ascii_of_N ((ord c - 192) * 64 + (ord d - 128))) r)
               else None
           | EmptyString => None
           end
  end.

(** Text that is plain ASCII. *)
Definition is_ascii (s : string) : bool := str_all (λ c, ord c <? 128)%N s.

(** ** Lemmas: append and length *)

Lemma str_app_nil_r s : s +:+ EmptyString = s.
Proof. induction s as [|c s IH]; simpl; [done|by rewrite IH]. Qed.

Lemma concat_all_cons x l : concat_all (x :: l) = x +:+ concat_all l.
Proof. unfold concat_all, join. destruct l as [|y l]; [by rewrite str_app_nil_r|done]. Qed.
Lemma str_app_assoc a b c : (a +:+ b) +:+ c = a +:+ (b +:+ c).
Proof. induction a as [|x a IH]; simpl; [done|by rewrite IH]. Qed.

Lemma length_str_app a b : String.length (a +:+ b) = String.length a + String.length b.
Proof. induction a as [|x a IH]; simpl; [done|by rewrite IH]. Qed.

Lemma str_drop_app a b : str_drop (String.length a) (a +:+ b) = b.
Proof. induction a as [|x a IH]; simpl; [done|by rewrite IH]. Qed.

Lemma str_drop_ge n s : String.length s ≤ n → str_drop n s = EmptyString.
Proof. revert n. induction s as [|c s IH]; intros [|n]; simpl; try done; [lia|]. intros; apply IH; lia. Qed.

Lemma str_take_app_drop n s : str_take n s +:+ str_drop n s = s.
Proof. revert n. induction s as [|c s IH]; intros [|n]; simpl; try done. by rewrite IH. Qed.

Lemma length_str_take n s : String.length (str_take n s) = Nat.min n (String.length s).
Proof. revert n. induction s as [|c s IH]; intros [|n]; simpl; try done. by rewrite IH. Qed.

Lemma length_str_drop n s : String.length (str_drop n s) = String.length s - n.
Proof. revert n. induction s as [|c s IH]; intros [|n]; simpl; rewrite ?IH; done. Qed.

Lemma str_app_inj_1 a b c d :
  String.length a = String.length b → a +:+ c = b +:+ d → a = b ∧ c = d.
Proof.
  revert b. induction a as [|x a IH]; intros [|y b]; simpl; try done.
  intros Hl He. injection Hl as Hl. injection He as -> He.
  by destruct (IH _ Hl He) as [-> ->].
Qed.

Lemma nonempty_false s : nonempty s = false ↔ s = EmptyString.
Proof. by destruct s. Qed.

Lemma nonempty_true s : nonempty s = true ↔ s ≠ EmptyString.
Proof. by destruct s. Qed.

(** ** Lemmas: characterwise tests *)

Lemma str_all_app f a b : str_all f (a +:+ b) = str_all f a && str_all f b.
Proof. induction a as [|x a IH]; simpl; [done|]. by rewrite IH, andb_assoc. Qed.

Lemma str_all_impl (f g : ascii → bool) s :
  (∀ c, f c = true → g c = true) → str_all f s = true → str_all g s = true.
Proof.
  intros Hfg. induction s as [|c s IH]; simpl; [done|]. intros [? ?]%andb_prop.
  rewrite Hfg, IH; done.
Qed.

Lemma str_map_id f s : str_all (λ c, bool_decide (f c = c)) s = true → str_map f s = s.
Proof.
  induction s as [|c s IH]; simpl; [done|].
  intros [->%bool_decide_eq_true ?]%andb_prop. by rewrite IH.
Qed.

(** A property of every character, decided by enumerating the 256 of them. *)
Definition ascii_forall (P : ascii → bool) : bool :=
  List.forallb P (List.map ascii_of_nat (List.seq 0 256)).

Lemma ascii_forall_spec P : ascii_forall P = true → ∀ c, P c = true.
Proof.
  unfold ascii_forall. rewrite forallb_forall. intros H c. apply H.
  rewrite <- (ascii_nat_embedding c). apply in_map, in_seq.
  pose proof (nat_ascii_bounded c). lia.
Qed.

Lemma lower_char_idem c : lower_char (lower_char c) = lower_char c.
Proof.
  revert c. assert (H : ascii_forall (λ c, bool_decide (lower_char (lower_char c) = lower_char c)) = true)
    by (vm_compute; done).
  intros c. exact (proj1 (bool_decide_eq_true _) (ascii_forall_spec _ H c)).
Qed.

Lemma py_lower_idem s : py_lower (py_lower s) = py_lower s.
Proof.
  unfold py_lower. induction s as [|c s IH]; simpl; [done|]. by rewrite lower_char_idem, IH.
Qed.

Lemma py_lower_app a b : py_lower (a +:+ b) = py_lower a +:+ py_lower b.
Proof. unfold py_lower. induction a as [|x a IH]; simpl; [done|]. by rewrite IH. Qed.

Lemma length_py_lower s : String.length (py_lower s) = String.length s.
Proof. unfold py_lower. induction s as [|c s IH]; simpl; [done|]. by rewrite IH. Qed.

(** ** Lemmas: stripping *)

(** A string that a strip by [f] leaves alone. *)
Definition lstripped (f : ascii → bool) (s : string) : bool :=
  match s with EmptyString => true | String c _ => negb (f c) end.
Fixpoint rstripped (f : ascii → bool) (s : string) : bool :=
  match s with
  | EmptyString => true
  | String c EmptyString => negb (f c)
  | String _ s => rstripped f s
  end.
Definition stripped (f : ascii → bool) (s : string) : bool := lstripped f s && rstripped f s.

Lemma lstrip_by_stripped f s : lstripped f (lstrip_by f s) = true.
Proof. induction s as [|c s IH]; simpl; [done|]. destruct (f c) eqn:E; simpl; [done|by rewrite E]. Qed.

Lemma rstrip_by_stripped f s : rstripped f (rstrip_by f s) = true.
Proof.
  induction s as [|c s IH]; simpl; [done|].
  destruct (rstrip_by f s) as [|d r] eqn:E; [|done].
  destruct (f c) eqn:Ef; simpl; [done|by rewrite Ef].
Qed.

Lemma lstrip_by_id f s : lstripped f s = true → lstrip_by f s = s.
Proof. destruct s as [|c s]; simpl; [done|]. by destruct (f c). Qed.

Lemma rstrip_by_id f s : rstripped f s = true → rstrip_by f s = s.
Proof.
  induction s as [|c s IH]; [done|]. intros H. simpl in *.
  destruct s as [|d s]; [by destruct (f c)|]. by rewrite IH.
Qed.

Lemma rstrip_by_lstripped f s : lstripped f s = true → lstripped f (rstrip_by f s) = true.
Proof.
  destruct s as [|c s]; simpl; [done|]. intros H.
  destruct (rstrip_by f s); [|exact H]. destruct (f c) eqn:E; [done|]. simpl. by rewrite E.
Qed.

Lemma strip_by_stripped f s : stripped f (strip_by f s) = true.
Proof.
  unfold stripped, strip_by. rewrite rstrip_by_stripped, andb_true_r.
  apply rstrip_by_lstripped, lstrip_by_stripped.
Qed.

Lemma strip_by_id f s : stripped f s = true → strip_by f s = s.
Proof.
  unfold stripped, strip_by. intros [? ?]%andb_prop. by rewrite lstrip_by_id, rstrip_by_id.
Qed.

Lemma strip_by_fixed f s : strip_by f s = s ↔ stripped f s = true.
Proof. split; [intros <-; apply strip_by_stripped|apply strip_by_id]. Qed.

Lemma strip_idem s : strip (strip s) = strip s.
Proof. apply strip_by_id, strip_by_stripped. Qed.

Lemma str_all_stripped f s : str_all (λ c, negb (f c)) s = true → stripped f s = true.
Proof.
  unfold stripped. intros H. apply andb_true_intro. split.
  - destruct s; simpl in *; [done|]. by apply andb_prop in H as [? _].
  - induction s as [|c [|d s] IH]; [done| |]; simpl in *.
    + by rewrite andb_true_r in H.
    + apply andb_prop in H as [_ H]. by apply IH.
Qed.

Lemma str_all_strip_by (f g : ascii → bool) s :
  str_all g s = true → str_all g (strip_by f s) = true.
Proof.
  unfold strip_by. intros H.
  assert (Hl : str_all g (lstrip_by f s) = true).
  { induction s as [|c s IH]; simpl in *; [done|]. apply andb_prop in H as [Hc Hs].
    destruct (f c); [by apply IH|]. simpl. by rewrite Hc, Hs. }
  revert Hl. generalize (lstrip_by f s). intros t.
  induction t as [|c t IH]; simpl in *; [done|]. intros [Hc Ht]%andb_prop. specialize (IH Ht).
  destruct (rstrip_by f t); [|simpl in *; by rewrite Hc, IH].
  destruct (f c); simpl; [done|by rewrite Hc].
Qed.

(** ** Lemmas: prefixes, suffixes, splitting *)

Lemma startswith_spec s p : startswith s p = true ↔ ∃ t, s = p +:+ t.
Proof.
  unfold startswith. revert s. induction p as [|c p IH]; intros [|d s]; simpl.
  - split; [by exists EmptyString|done].
  - split; [by eexists|done].
  - split; [done|by intros (t & ?)].
  - destruct (ascii_dec c d) as [->|Hne].
    + rewrite IH. split; intros (t & Ht); exists t; [by rewrite Ht|by injection Ht].
    + split; [done|]. intros (t & [= -> _]). done.
Qed.

Lemma startswith_app p s : startswith (p +:+ s) p = true.
Proof. apply startswith_spec. by exists s. Qed.

Lemma removeprefix_app p s : removeprefix (p +:+ s) p = s.
Proof. unfold removeprefix. by rewrite startswith_app, str_drop_app. Qed.

Lemma endswith_spec s p : endswith s p = true ↔ ∃ t, s = t +:+ p.
Proof.
  unfold endswith. split.
  - intros [Hl%Nat.leb_le He%String.eqb_eq]%andb_prop.
    exists (str_take (String.length s - String.length p) s).
    rewrite <- He at 2. by rewrite str_take_app_drop.
  - intros (t & ->). rewrite length_str_app.
    replace (String.length t + String.length p - String.length p) with (String.length t) by lia.
    rewrite str_drop_app, String.eqb_refl, andb_true_r. apply Nat.leb_le. lia.
Qed.

Lemma startswith_nil s : startswith s EmptyString = true.
Proof. apply startswith_spec. by exists s. Qed.

Lemma contains_spec s p : contains s p = true ↔ ∃ a b, s = a +:+ p +:+ b.
Proof.
  induction s as [|c s IH]; simpl.
  - rewrite orb_false_r, startswith_spec. split.
    + intros (t & Ht). by exists EmptyString, t.
    + intros ([|? a] & b & Hab); [by exists b|done].
  - rewrite orb_true_iff, IH, startswith_spec. split.
    + intros [(t & ->)|(a & b & ->)]; [by exists EmptyString, t|by exists (String c a), b].
    + intros ([|x a] & b & Hab); [by left; exists b|].
      injection Hab as -> ->. right. by exists a, b.
Qed.

Lemma contains_app_r a s p : contains s p = true → contains (a +:+ s) p = true.
Proof.
  rewrite !contains_spec. intros (x & y & ->). exists (a +:+ x), y. by rewrite str_app_assoc.
Qed.

(** The text before the first separator character, when the prefix has none. *)
Lemma partition_char c a b :
  str_all (λ d, negb (Ascii.eqb d c)) a = true →
  partition (String c EmptyString) (a +:+ String c b) = Some (a, b).
Proof.
  induction a as [|x a IH]; simpl.
  - unfold startswith. simpl. by destruct (ascii_dec c c); [destruct b|].
  - intros [Hx Ha]%andb_prop. rewrite (IH Ha). unfold startswith. simpl.
    destruct (ascii_dec c x) as [->|]; [|done]. by rewrite Ascii.eqb_refl in Hx.
Qed.

Lemma after_char c a b : str_all (λ d, negb (Ascii.eqb d c)) a = true →
  after (String c EmptyString) (a +:+ String c b) = b.
Proof. intros Ha. unfold after. by rewrite partition_char. Qed.

Lemma partition_char_None c s :
  str_all (λ d, negb (Ascii.eqb d c)) s = true → partition (String c EmptyString) s = None.
Proof.
  induction s as [|x s IH]; simpl; [done|]. intros [Hx Hs]%andb_prop.
  unfold startswith. simpl. destruct (ascii_dec c x) as [->|]; [by rewrite Ascii.eqb_refl in Hx|].
  by rewrite IH.
Qed.

Lemma split_char_nonnil c s : split_char c s ≠ [].
Proof. destruct s as [|d s]; simpl; [done|]. destruct (Ascii.eqb d c); [done|]. by destruct (split_char c s). Qed.

Lemma join_split_char c s : join (String c EmptyString) (split_char c s) = s.
Proof.
  induction s as [|d s IH]; simpl; [done|].
  destruct (Ascii.eqb_spec d c) as [->|Hd].
  - pose proof (split_char_nonnil c s). unfold join in *. simpl.
    destruct (split_char c s); [done|]. simpl in *. by rewrite IH.
  - unfold join in *. pose proof (split_char_nonnil c s).
    destruct (split_char c s) as [|h t]; [done|]. destruct t; simpl in *; by rewrite IH.
Qed.

(** ** Lemmas: decimal numerals *)

Section numerals.
Local Open Scope N_scope.

Lemma pretty_N_char_digit x : x < 10 →
  is_digit (pretty_N_char x) = true ∧ digit_val (pretty_N_char x) = Z.of_N x.
Proof.
  intros Hx.
  assert (x = 0 ∨ x = 1 ∨ x = 2 ∨ x = 3 ∨ x = 4 ∨ x = 5 ∨ x = 6 ∨ x = 7 ∨ x = 8 ∨ x = 9)
    as H by lia.
  by destruct_or!; subst.
Qed.

Lemma pretty_N_go_spec x s :
  digits_val 0 (pretty_N_go x s) = digits_val (Z.of_N x) s ∧
  (str_all is_digit s = true → str_all is_digit (pretty_N_go x s) = true).
Proof.
  revert s. induction (N.lt_wf_0 x) as [x _ IH]; intros s.
  destruct (decide (x = 0)) as [->|Hx]; [by rewrite pretty_N_go_0|].
  rewrite pretty_N_go_step by lia.
  assert (x / 10 < x) as Hlt by (apply N.div_lt; lia).
  destruct (IH _ Hlt (String (pretty_N_char (x `mod` 10)) s)) as [Hv Hd].
  assert (x `mod` 10 < 10) as Hm by (apply N.mod_lt; lia).
  destruct (pretty_N_char_digit _ Hm) as [Hcd Hcv].
  split.
  - rewrite Hv. simpl. rewrite Hcv. f_equal.
    pose proof (N.div_mod x 10 ltac:(lia)). lia.
  - intros Hs. apply Hd. simpl. by rewrite Hcd, Hs.
Qed.
End numerals.

Lemma pretty_N_digits (x : N) :
  str_all is_digit (pretty x) = true ∧ digits_val 0 (pretty x) = Z.of_N x ∧ pretty x ≠ EmptyString.
Proof.
  unfold pretty, pretty_N. case_decide as Hx; [by subst|].
  destruct (pretty_N_go_spec x EmptyString) as [Hv Hd]. split; [by apply Hd|]. split; [by rewrite Hv|].
  intros H. rewrite H in Hv. simpl in Hv. lia.
Qed.

Lemma int_digits_all prev s :
  str_all is_digit s = true → (prev = true ∨ s ≠ EmptyString) → int_digits prev s = Some s.
Proof.
  revert prev. induction s as [|c s IH]; intros prev; simpl.
  - intros _ [->|?]; done.
  - intros [-> Hs]%andb_prop _. by rewrite (IH true Hs) by (by left).
Qed.

Lemma digit_not_space c : is_digit c = true → is_space c = false.
Proof.
  assert (H : ascii_forall (λ c, implb (is_digit c) (negb (is_space c))) = true) by (vm_compute; done).
  intros Hc. specialize (ascii_forall_spec _ H c) as Hi. cbv beta in Hi.
  rewrite Hc in Hi. simpl in Hi.
  by apply negb_true_iff in Hi.
Qed.

Lemma digits_stripped s : str_all is_digit s = true → strip s = s.
Proof.
  intros H. apply strip_by_id, str_all_stripped. revert H. apply str_all_impl.
  intros c Hc. by rewrite digit_not_space.
Qed.

(** [int(str(n)) == n] for a non-negative [n] that Python agrees to parse. *)
Lemma py_int_str (n : Z) : (0 ≤ n)%Z → (len (py_str_int n) ≤ 4300)%Z →
  py_int (py_str_int n) = Some n.
Proof.
  intros Hn Hl. assert (∃ x, n = Z.of_N x) as [x ->] by (exists (Z.to_N n); lia).
  assert (py_str_int (Z.of_N x) = pretty x) as Hp by (by destruct x).
  rewrite Hp in *. destruct (pretty_N_digits x) as (Hd & Hv & Hne).
  unfold py_int. rewrite digits_stripped by done.
  destruct (pretty x) as [|c r]; [done|].
  assert (is_digit c = true) as Hc by (simpl in Hd; by apply andb_prop in Hd as [? _]).
  assert ((ord c =? 45)%N = false ∧ (ord c =? 43)%N = false) as [-> ->].
  { unfold is_digit, in_range in Hc. apply andb_prop in Hc as [Hlo _].
    apply N.leb_le in Hlo. split; apply N.eqb_neq; lia. }
  rewrite int_digits_all by (try done; by right). cbn [mbind option_bind].
  destruct (Z.ltb_spec 4300 (len (String c r))) as [?|?]; [lia|].
  f_equal. rewrite Hv. lia.
Qed.

(** ** Lemmas: UTF-8 *)

Lemma utf8_decode_char c s :
  utf8_decode (utf8_char c +:+ s) = r ← utf8_decode s; Some (String c r).
Proof.
  unfold utf8_char. destruct (ord c <? 128)%N eqn:E; simpl; rewrite ?E; [done|].
  assert (H : ascii_forall (λ c, implb (negb (ord c <? 128)%N)
    (negb (ord (ascii_of_N (192 + ord c / 64)) <? 128)%N &&
     in_range 194 195 (ascii_of_N (192 + ord c / 64)) &&
     in_range 128 191 (ascii_of_N (128 + ord c mod 64)) &&
     bool_decide (ascii_of_N ((ord (ascii_of_N (192 + ord c / 64)) - 192) * 64 +
       (ord (ascii_of_N (128 + ord c mod 64)) - 128)) = c))) = true) by (vm_compute; done).
  pose proof (ascii_forall_spec _ H c) as Hc. cbv beta in Hc. rewrite E in Hc. simpl in Hc.
  apply andb_prop in Hc as [Hc H4%bool_decide_eq_true].
  apply andb_prop in Hc as [Hc H3]. apply andb_prop in Hc as [H1%negb_true_iff H2].
  by rewrite H1, H2, H3, H4.
Qed.

Lemma utf8_roundtrip s : utf8_decode (utf8_encode s) = Some s.
Proof.
  induction s as [|c s IH]; [done|]. cbn [utf8_encode]. by rewrite utf8_decode_char, IH.
Qed.

Lemma utf8_encode_inj a b : utf8_encode a = utf8_encode b → a = b.
Proof. intros H. apply (f_equal utf8_decode) in H. rewrite !utf8_roundtrip in H. congruence. Qed.

Lemma utf8_encode_ascii s : is_ascii s = true → utf8_encode s = s.
Proof.
  unfold is_ascii. induction s as [|c s IH]; simpl; [done|]. intros [Hc Hs]%andb_prop.
  unfold utf8_char. by rewrite Hc, IH.
Qed.

Lemma utf8_encode_app a b : utf8_encode (a +:+ b) = utf8_encode a +:+ utf8_encode b.
Proof. induction a as [|c a IH]; simpl; [done|]. by rewrite IH, str_app_assoc. Qed.

(** ** Trimming and lower case *)

Lemma lower_char_space c : is_space (lower_char c) = is_space c.
Proof.
  assert (H : ascii_forall (λ c, eqb (is_space (lower_char c)) (is_space c)) = true) by (vm_compute; done).
  apply eqb_prop. exact (ascii_forall_spec _ H c).
Qed.

Lemma lstrip_by_map g f s : (∀ c, g (f c) = g c) → lstrip_by g (str_map f s) = str_map f (lstrip_by g s).
Proof. intros Hg. induction s as [|c s IH]; simpl; [done|]. rewrite Hg. by destruct (g c). Qed.

Lemma rstrip_by_map g f s : (∀ c, g (f c) = g c) → rstrip_by g (str_map f s) = str_map f (rstrip_by g s).
Proof.
  intros Hg. induction s as [|c s IH]; simpl; [done|]. rewrite IH.
  destruct (rstrip_by g s); simpl; [rewrite Hg; by destruct (g c)|done].
Qed.

Lemma strip_lower s : strip (py_lower s) = py_lower (strip s).
Proof.
  unfold strip, strip_by, py_lower. rewrite lstrip_by_map by apply lower_char_space.
  rewrite rstrip_by_map; [done|apply lower_char_space].
Qed.

(** ** Hexadecimal digests *)

Lemma lower_hex_facts c : is_lower_hex c = true → is_space c = false ∧ lower_char c = c.
Proof.
  assert (H : ascii_forall (λ c, implb (is_lower_hex c) (negb (is_space c) && Ascii.eqb (lower_char c) c)) = true)
    by (vm_compute; done).
  intros Hc. pose proof (ascii_forall_spec _ H c) as Hi. cbv beta in Hi. rewrite Hc in Hi.
  apply andb_prop in Hi as [Hs Hl]. apply negb_true_iff in Hs. by apply Ascii.eqb_eq in Hl.
Qed.

Lemma hex_strip s : str_all is_lower_hex s = true → strip s = s.
Proof.
  intros Hs. apply strip_by_id, str_all_stripped. eapply str_all_impl; [|done].
  intros c [-> _]%lower_hex_facts. done.
Qed.

Lemma hex_lower s : str_all is_lower_hex s = true → py_lower s = s.
Proof.
  intros Hs. apply str_map_id. eapply str_all_impl; [|done].
  intros c [_ ?]%lower_hex_facts. by apply bool_decide_eq_true.
Qed.

Lemma hex_head s p : str_all is_lower_hex s = true →
  match p with String c _ => is_lower_hex c = false | EmptyString => False end → startswith s p = false.
Proof.
  destruct p as [|c p]; [done|]. intros Hs Hc. apply not_true_iff_false. intros [t ->]%startswith_spec.
  simpl in Hs. by rewrite Hc in Hs.
Qed.

Lemma is_hex64_spec s : is_hex64 s = true ↔ String.length s = 64%nat ∧ str_all is_lower_hex s = true.
Proof. unfold is_hex64. by rewrite andb_true_iff, Nat.eqb_eq. Qed.

Lemma hex_strip_by s : str_all is_lower_hex s = true → stripped is_space s = true.
Proof. intros Hs. apply strip_by_fixed. by apply hex_strip. Qed.

Lemma rstripped_app f a b : b ≠ EmptyString → rstripped f b = true → rstripped f (a +:+ b) = true.
Proof.
  intros Hne Hb. induction a as [|c a IH]; simpl; [done|].
  destruct (a +:+ b) eqn:E; [|done]. destruct a; [by subst|done].
Qed.

Lemma stripped_app f c a b : f c = false → stripped f b = true → b ≠ EmptyString →
  stripped f (String c a +:+ b) = true.
Proof.
  intros Hc [_ Hb]%andb_prop Hne. unfold stripped.
  change (negb (f c) && rstripped f (String c a +:+ b) = true).
  rewrite Hc. by apply rstripped_app.
Qed.
