(* ===== verification/PyRe.v ===== *)
(** * Python regular expressions

    A backtracking matcher with the semantics of Python's [re] for the patterns
    of the modelled code: greedy and lazy repetition, numbered groups, [^] and
    [$] with and without [MULTILINE], [\b] and look-ahead. The matcher tries the
    alternatives in [re]'s order, so the first result it returns is the match
    [re] returns; a repetition stops on an iteration that consumes nothing.

    For patterns without anchors [fullmatch_matches] relates the matcher to the
    declarative language [matches] of a pattern. *)

From S2P Require Import Prelude PyStr.

Local Open Scope nat_scope.

Inductive regex : Type :=
| REps
| RChar (f : ascii → bool)
| RSeq (r1 r2 : regex)
| RAlt (r1 r2 : regex)
| RStar (greedy : bool) (r : regex)
| RGroup (n : nat) (r : regex)
| RBol            (* ^ with MULTILINE *)
| REol            (* $ with MULTILINE *)
| REos            (* $ without MULTILINE *)
| RWordB          (* \b *)
| RLook (r : regex).

(** A position in the subject: the character before it, the text after it and
    the groups captured so far, latest first. *)
Record mstate : Type := MState {
  m_prev : option ascii;
  m_rest : string;
  m_caps : list (nat * string)
}.

Definition start (s : string) : mstate := MState None s [].

Definition is_nl (c : ascii) : bool := (ord c =? 10)%N.

Definition at_bol (st : mstate) : bool :=
  match m_prev st with None => true | Some c => is_nl c end.
Definition at_eol (st : mstate) : bool :=
  match m_rest st with EmptyString => true | String c _ => is_nl c end.
Definition at_eos (st : mstate) : bool :=
  match m_rest st with
  | EmptyString => true | String c EmptyString => is_nl c | _ => false end.
Definition opt_word (o : option ascii) : bool :=
  match o with Some c => is_word c | None => false end.
Definition at_wordb (st : mstate) : bool :=
  xorb (opt_word (m_prev st))
       (match m_rest st with String c _ => is_word c | EmptyString => false end).

Definition rest_len (st : mstate) : nat := String.length (m_rest st).

(** The text consumed between two positions. *)
Definition consumed (st st' : mstate) : string := str_take (rest_len st - rest_len st') (m_rest st).

Definition or_else {A} (x : option A) (y : unit → option A) : option A :=
  match x with Some a => Some a | None => y tt end.

Section matcher.
Context {R : Type}.

(** The iterations of a repetition whose body is matched by [body]. *)
Fixpoint star_loop (body : mstate → (mstate → option R) → option R) (greedy : bool)
    (n : nat) (st : mstate) (k : mstate → option R) : option R :=
  match n with
  | O => k st
  | S n =>
      let more (_ : unit) :=
        body st (λ st', if rest_len st' <? rest_len st
                        then star_loop body greedy n st' k else None) in
      if greedy then or_else (more tt) (λ _, k st) else or_else (k st) more
  end.

Fixpoint m (r : regex) (st : mstate) (k : mstate → option R) : option R :=
  match r with
  | REps => k st
  | RChar f =>
      match m_rest st with
      | String c s => if f c then k (MState (Some c) s (m_caps st)) else None
      | EmptyString => None
      end
  | RSeq r1 r2 => m r1 st (λ st', m r2 st' k)
  | RAlt r1 r2 => or_else (m r1 st k) (λ _, m r2 st k)
  | RStar greedy r => star_loop (m r) greedy (S (rest_len st)) st k
  | RGroup n r =>
      m r st (λ st', k (MState (m_prev st') (m_rest st') ((n, consumed st st') :: m_caps st')))
  | RBol => if at_bol st then k st else None
  | REol => if at_eol st then k st else None
  | REos => if at_eos st then k st else None
  | RWordB => if at_wordb st then k st else None
  | RLook r => m r st (λ _, k st)
  end.
End matcher.

(** ** The functions of the [re] module *)

(** A match: the text before it, the matched text, the final position. *)
Record match_obj : Type := MatchObj { mo_pre : string; mo_text : string; mo_end : mstate }.

Definition group (n : nat) (mo : match_obj) : option string :=
  snd <$> List.find (λ p, Nat.eqb (fst p) n) (m_caps (mo_end mo)).

(** [m.group(n)] of a group that took part in the match. *)
Definition group_str (n : nat) (mo : match_obj) : string := default EmptyString (group n mo).

Definition match_at (r : regex) (st : mstate) : option mstate := m r st Some.

Definition re_match (r : regex) (s : string) : option match_obj :=
  st ← match_at r (start s); Some (MatchObj EmptyString (consumed (start s) st) st).

Definition re_fullmatch (r : regex) (s : string) : option match_obj :=
  st ← m r (start s) (λ st, if rest_len st =? 0 then Some st else None);
  Some (MatchObj EmptyString s st).

Definition fullmatch (r : regex) (s : string) : bool :=
  match re_fullmatch r s with Some _ => true | None => false end.

(** The first match at or after a position; [pre] is the text skipped. *)
Fixpoint search_go (r : regex) (prev : option ascii) (pre s : string) : option match_obj :=
  match match_at r (MState prev s []) with
  | Some st => Some (MatchObj pre (consumed (MState prev s []) st) st)
  | None => match s with
            | EmptyString => None
            | String c s => search_go r (Some c) (pre +:+ String c EmptyString) s
            end
  end.

Definition re_search (r : regex) (s : string) : option match_obj := search_go r None EmptyString s.
Definition search (r : regex) (s : string) : bool :=
  match re_search r s with Some _ => true | None => false end.

(** [re.finditer]: the matches from left to right and the text after the last
    one. After an empty match the scan skips one character, which then belongs
    to the text before the next match. *)
Fixpoint finditer_go (r : regex) (fuel : nat) (prev : option ascii) (pre s : string)
    : list match_obj * string :=
  match fuel with
  | O => ([], pre +:+ s)
  | S fuel =>
      match search_go r prev pre s with
      | None => ([], pre +:+ s)
      | Some mo =>
          let st := mo_end mo in
          let '(ms, tl) :=
            if nonempty (mo_text mo)
            then finditer_go r fuel (m_prev st) EmptyString (m_rest st)
            else match m_rest st with
                 | EmptyString => ([], EmptyString)
                 | String c s' => finditer_go r fuel (Some c) (String c EmptyString) s'
                 end in
          (mo :: ms, tl)
      end
  end.
Definition finditer (r : regex) (s : string) : list match_obj * string :=
  finditer_go r (S (String.length s)) None EmptyString s.

Definition re_finditer (r : regex) (s : string) : list match_obj := fst (finditer r s).

(** [re.findall] of a pattern with one group. *)
Definition re_findall1 (r : regex) (s : string) : list string := group_str 1 <$> re_finditer r s.

(** [re.split] of a pattern without groups. *)
Definition re_split (r : regex) (s : string) : list string :=
  let '(ms, tl) := finditer r s in (mo_pre <$> ms) ++ [tl].

(** [re.subn] with a constant replacement. *)
Definition re_subn (r : regex) (new s : string) : string * nat :=
  let '(ms, tl) := finditer r s in
  (concat_all ((λ mo, mo_pre mo +:+ new) <$> ms) +:+ tl, length ms).
Definition re_sub (r : regex) (new s : string) : string := fst (re_subn r new s).

(** ** Pattern combinators *)

Definition RNone : regex := RChar (λ _, false).
Definition ch (c : ascii) : regex := RChar (Ascii.eqb c).
Fixpoint lit (s : string) : regex :=
  match s with EmptyString => REps | String c s => RSeq (ch c) (lit s) end.
Definition anyc (s : string) : regex := RChar (char_in s).
Definition dot : regex := RChar (λ c, negb (is_nl c)).
Definition digit : regex := RChar is_digit.
Definition space : regex := RChar is_space.
Definition star (r : regex) : regex := RStar true r.
Definition star_lazy (r : regex) : regex := RStar false r.
Definition plus (r : regex) : regex := RSeq r (RStar true r).
Definition plus_lazy (r : regex) : regex := RSeq r (RStar false r).
Definition opt (r : regex) : regex := RAlt r REps.
Fixpoint times (n : nat) (r : regex) : regex :=
  match n with O => REps | S n => RSeq r (times n r) end.
(** [r{0,n}] *)
Fixpoint upto (n : nat) (r : regex) : regex :=
  match n with O => REps | S n => opt (RSeq r (upto n r)) end.
Definition seqs (l : list regex) : regex := foldr RSeq REps l.
Definition alts (l : list regex) : regex := foldr RAlt RNone l.
(** A literal under [IGNORECASE]. *)
Fixpoint lit_i (s : string) : regex :=
  match s with
  | EmptyString => REps
  | String c s => RSeq (RChar (λ d, Ascii.eqb (lower_char d) (lower_char c))) (lit_i s)
  end.

(** ** The language of a pattern *)

Fixpoint plain (r : regex) : bool :=
  match r with
  | REps | RChar _ => true
  | RSeq r1 r2 | RAlt r1 r2 => plain r1 && plain r2
  | RStar _ r | RGroup _ r => plain r
  | RBol | REol | REos | RWordB | RLook _ => false
  end.

Inductive matches : regex → string → Prop :=
| MEps : matches REps EmptyString
| MChar f c : f c = true → matches (RChar f) (String c EmptyString)
| MSeq r1 r2 a b : matches r1 a → matches r2 b → matches (RSeq r1 r2) (a +:+ b)
| MAltL r1 r2 a : matches r1 a → matches (RAlt r1 r2) a
| MAltR r1 r2 a : matches r2 a → matches (RAlt r1 r2) a
| MStarNil g r : matches (RStar g r) EmptyString
| MStarCons g r a b : a ≠ EmptyString → matches r a → matches (RStar g r) b →
    matches (RStar g r) (a +:+ b)
| MGroup n r a : matches r a → matches (RGroup n r) a.

#[export] Hint Constructors matches : py.

(** What a matcher for [r] has to satisfy. *)
Definition sound {R} (r : regex) (f : mstate → (mstate → option R) → option R) : Prop :=
  ∀ st k x, f st k = Some x →
    ∃ a st', m_rest st = a +:+ m_rest st' ∧ matches r a ∧ k st' = Some x.

Definition complete {R} (r : regex) (f : mstate → (mstate → option R) → option R) : Prop :=
  ∀ a b st k, matches r a → m_rest st = a +:+ b →
    (∀ st', m_rest st' = b → is_Some (k st')) → is_Some (f st k).

Lemma star_loop_sound {R} g r (body : mstate → (mstate → option R) → option R) n :
  sound r body → sound (RStar g r) (star_loop body g n).
Proof.
  intros Hb. induction n as [|n IH]; intros st k x; simpl.
  - intros Hk. exists EmptyString, st. eauto with py.
  - assert (Hmore : body st (λ st', if rest_len st' <? rest_len st
       then star_loop body g n st' k else None) = Some x →
      ∃ a st', m_rest st = a +:+ m_rest st' ∧ matches (RStar g r) a ∧ k st' = Some x).
    { intros (a & st1 & Ha & Hm & Hk)%Hb.
      destruct (Nat.ltb_spec (rest_len st1) (rest_len st)) as [Hlt|]; [|done].
      apply IH in Hk as (b & st2 & Hb' & Hm2 & Hk).
      exists (a +:+ b), st2. rewrite Ha, Hb', str_app_assoc. split; [done|]. split; [|done].
      constructor; [|done..]. intros ->. unfold rest_len in Hlt. rewrite Ha in Hlt. simpl in Hlt. lia. }
    destruct g; unfold or_else.
    + destruct (body _ _) eqn:E; [intros [= ->]; by apply Hmore|].
      intros Hk. exists EmptyString, st. eauto with py.
    + destruct (k st) eqn:E; [|by apply Hmore].
      intros [= ->]. exists EmptyString, st. eauto with py.
Qed.

Lemma m_sound {R} (r : regex) : plain r = true → sound (R:=R) r (m r).
Proof.
  induction r; simpl; intros Hp st k x Hm; try done;
    try (apply andb_prop in Hp as [Hp1 Hp2]).
  - exists EmptyString, st. eauto with py.
  - destruct (m_rest st) as [|c s] eqn:E; [done|]. destruct (f c) eqn:Ef; [|done].
    exists (String c EmptyString), (MState (Some c) s (m_caps st)). eauto with py.
  - apply IHr1 in Hm as (a & st1 & Ha & Hm1 & Hm); [|done].
    apply IHr2 in Hm as (b & st2 & Hb & Hm2 & Hk); [|done].
    exists (a +:+ b), st2. rewrite Ha, Hb, str_app_assoc. eauto with py.
  - unfold or_else in Hm. destruct (m r1 st k) eqn:E.
    + injection Hm as ->. apply IHr1 in E as (a & st1 & ? & ? & ?); eauto 6 with py.
    + apply IHr2 in Hm as (a & st1 & ? & ? & ?); eauto 6 with py.
  - change (star_loop (m r) greedy (S (rest_len st)) st k = Some x) in Hm.
    eapply star_loop_sound; [|exact Hm]. by apply IHr.
  - apply IHr in Hm as (a & st1 & Ha & ? & ?); [|done]. eexists a, _. split; [|eauto with py]. done.
Qed.

Lemma star_loop_complete {R} g r (body : mstate → (mstate → option R) → option R) n :
  complete r body → ∀ a b st k, matches (RStar g r) a → m_rest st = a +:+ b →
    String.length a < n → (∀ st', m_rest st' = b → is_Some (k st')) →
    is_Some (star_loop body g n st k).
Proof.
  intros Hb. induction n as [|n IH]; intros a b st k Hm Ha Hn Hk; [lia|]. simpl.
  inversion Hm as [| | | | |g' r'|g' r' a1 a2 Hne Hm1 Hm2|]; subst.
  - destruct (Hk st Ha) as [x Hx]. destruct g; unfold or_else; [|by rewrite Hx].
    destruct (body _ _); [done|by rewrite Hx].
  - assert (Hmore : is_Some (body st (λ st', if rest_len st' <? rest_len st
       then star_loop body g n st' k else None))).
    { eapply (Hb a1 (a2 +:+ b)); [done|by rewrite Ha, str_app_assoc|].
      intros st' Hst'. unfold rest_len. rewrite Ha, Hst', str_app_assoc, !length_str_app.
      rewrite length_str_app in Hn. destruct a1 as [|c a1]; [done|]. simpl in *.
      destruct (Nat.ltb_spec (String.length a2 + String.length b)
        (S (String.length a1 + (String.length a2 + String.length b)))); [|lia].
      eapply (IH a2 b); [done|done|lia|done]. }
    destruct g; unfold or_else.
    + destruct (body _ _); [done|by destruct Hmore].
    + destruct (k st); done.
Qed.

Lemma m_complete {R} (r : regex) : plain r = true → complete (R:=R) r (m r).
Proof.
  induction r; simpl; intros Hp a b st k Hm Ha Hk; try done;
    try (apply andb_prop in Hp as [Hp1 Hp2]).
  - inversion Hm; subst. by apply Hk.
  - inversion Hm; subst. rewrite Ha. simpl. destruct (f c) eqn:Ef; [|done]. by apply Hk.
  - inversion Hm as [| |? ? a1 a2 Hm1 Hm2| | | | |]; subst.
    eapply (IHr1 Hp1 a1 (a2 +:+ b)); [done|by rewrite Ha, str_app_assoc|].
    intros st' Hst'. by eapply (IHr2 Hp2 a2 b).
  - unfold or_else. inversion Hm; subst.
    + destruct (IHr1 Hp1 a b st k) as [x ->]; done.
    + destruct (m r1 st k); [done|]. by apply (IHr2 Hp2 a b st k).
  - change (is_Some (star_loop (m r) greedy (S (rest_len st)) st k)).
    eapply star_loop_complete; [by apply IHr|done|done| |done].
    unfold rest_len. rewrite Ha, length_str_app. lia.
  - inversion Hm; subst. eapply (IHr Hp a b); [done|done|]. intros st' Hst'. by apply Hk.
Qed.

Lemma fullmatch_matches r s : plain r = true → fullmatch r s = true ↔ matches r s.
Proof.
  intros Hp. unfold fullmatch, re_fullmatch. split.
  - destruct (m r (start s) _) as [st|] eqn:E; [|done]. intros _.
    apply m_sound in E as (a & st' & Ha & Hm & Hk); [|done].
    destruct (Nat.eqb_spec (rest_len st') 0) as [Hl|]; [|done]. simpl in Ha. subst s.
    unfold rest_len in Hl. destruct (m_rest st'); [|done]. by rewrite str_app_nil_r.
  - intros Hm.
    assert (is_Some (m r (start s) (λ st, if rest_len st =? 0 then Some st else None))) as [st ->];
      [|done].
    eapply (m_complete r Hp s EmptyString); [done|by rewrite str_app_nil_r|].
    intros st' Hst'. unfold rest_len. rewrite Hst'. simpl. eauto.
Qed.

(** ** Languages of the combinators *)

Lemma matches_char f s : matches (RChar f) s ↔ ∃ c, s = String c EmptyString ∧ f c = true.
Proof. split; [inversion 1; eauto|intros (c & -> & ?); eauto with py]. Qed.

Lemma matches_seq r1 r2 s :
  matches (RSeq r1 r2) s ↔ ∃ a b, s = a +:+ b ∧ matches r1 a ∧ matches r2 b.
Proof. split; [inversion 1; subst; eauto 6|intros (a & b & -> & ? & ?); eauto with py]. Qed.

Lemma matches_eps s : matches REps s ↔ s = EmptyString.
Proof. split; [by inversion 1|intros ->; eauto with py]. Qed.

Lemma matches_group n r s : matches (RGroup n r) s ↔ matches r s.
Proof. split; [by inversion 1|eauto with py]. Qed.

Lemma matches_alt r1 r2 s : matches (RAlt r1 r2) s ↔ matches r1 s ∨ matches r2 s.
Proof. split; [inversion 1; eauto|intros [?|?]; eauto with py]. Qed.

Lemma matches_lit t s : matches (lit t) s ↔ s = t.
Proof.
  revert s. induction t as [|c t IH]; intros s; simpl; [apply matches_eps|].
  rewrite matches_seq. split.
  - intros (a & b & -> & (d & -> & ->%Ascii.eqb_eq)%matches_char & ->%IH). done.
  - intros ->. exists (String c EmptyString), t. split; [done|]. split; [|by apply IH].
    apply matches_char. exists c. by rewrite Ascii.eqb_refl.
Qed.

Lemma matches_star_char g f s : matches (RStar g (RChar f)) s ↔ str_all f s = true.
Proof.
  split.
  - remember (RStar g (RChar f)) as r eqn:Hr. induction 1; try done; injection Hr as -> ->.
    rewrite str_all_app, IHmatches2 by done.
    apply matches_char in H0 as (c & -> & Hc). simpl. by rewrite Hc.
  - induction s as [|c s IH]; simpl; [eauto with py|]. intros [Hc Hs]%andb_prop.
    change (String c s) with (String c EmptyString +:+ s). eauto with py.
Qed.

Lemma matches_plus_char g f s :
  matches (RSeq (RChar f) (RStar g (RChar f))) s ↔ str_all f s = true ∧ s ≠ EmptyString.
Proof.
  rewrite matches_seq. split.
  - intros (a & b & -> & (c & -> & Hc)%matches_char & Hb%matches_star_char). simpl.
    by rewrite Hc, Hb.
  - intros [Hs Hne]. destruct s as [|c s]; [done|]. simpl in Hs. apply andb_prop in Hs as [Hc Hs].
    exists (String c EmptyString), s. split; [done|].
    split; [apply matches_char; eauto|by apply matches_star_char].
Qed.

Lemma matches_times_char n f s :
  matches (times n (RChar f)) s ↔ str_all f s = true ∧ String.length s = n.
Proof.
  revert s. induction n as [|n IH]; intros s; simpl.
  - rewrite matches_eps. split; [by intros ->|]. intros [_ ?]. by destruct s.
  - rewrite matches_seq. split.
    + intros (a & b & -> & (c & -> & Hc)%matches_char & [Hb Hl]%IH). simpl. by rewrite Hc, Hb, Hl.
    + intros [Hs Hl]. destruct s as [|c s]; [done|]. simpl in *. apply andb_prop in Hs as [Hc Hs].
      exists (String c EmptyString), s. split; [done|].
      split; [apply matches_char; eauto|]. apply IH. split; [done|lia].
Qed.

(** Examples of the matcher at work. *)
Example search_bol : group_str 1 <$> re_search (seqs [RBol; lit "v: "; RGroup 1 (plus digit)])
  ("xv: 1" +:+ nl +:+ "v: 27") = Some "27".
Proof. vm_compute. reflexivity. Qed.
Example split_heads : re_split (seqs [RBol; lit "## "]) ("## a" +:+ nl +:+ "## b") =
  [EmptyString; "a" +:+ nl; "b"].
Proof. vm_compute. reflexivity. Qed.
