(* ===== verification/PyReGroups.v ===== *)
(** * What the groups of a match capture

    A group that took part in a match holds a text of its own pattern, whatever
    anchors and look-ahead surround the group. *)

From S2P Require Import Prelude PyStr PyRe.

(** The groups of a pattern whose captures survive, with their patterns. *)
Fixpoint bodies (r : regex) : list (nat * regex) :=
  match r with
  | RSeq r1 r2 | RAlt r1 r2 => bodies r1 ++ bodies r2
  | RStar _ r => bodies r
  | RGroup n r => (n, r) :: bodies r
  | _ => []
  end.

(** The captures of [st'] are those of [st] and texts of the groups of [r]. *)
Definition captures (r : regex) (st st' : mstate) : Prop :=
  ∀ n t, (n, t) ∈ m_caps st' → (n, t) ∈ m_caps st ∨ ∃ r', (n, r') ∈ bodies r ∧ (plain r' = true → matches r' t).

(** [f] matches [r] and captures texts of its groups. *)
Definition capturing {R} (r : regex) (f : mstate → (mstate → option R) → option R) : Prop :=
  ∀ st k x, f st k = Some x →
    ∃ a st', m_rest st = a +:+ m_rest st' ∧ (plain r = true → matches r a) ∧ captures r st st' ∧ k st' = Some x.

Lemma captures_refl r st : captures r st st.
Proof. intros n t. by left. Qed.
Lemma captures_trans r st1 st2 st3 : captures r st1 st2 → captures r st2 st3 → captures r st1 st3.
Proof. intros H1 H2 n t [H|H]%H2; [by apply H1|by right]. Qed.
Lemma captures_sub r r' st st' : (∀ b, b ∈ bodies r → b ∈ bodies r') → captures r st st' → captures r' st st'.
Proof. intros Hs Hc n t [H|(b & ? & ?)]%Hc; [by left|right; eauto]. Qed.

Lemma capturing_star {R} g r (body : mstate → (mstate → option R) → option R) n :
  capturing r body → capturing (RStar g r) (star_loop body g n).
Proof.
  intros Hb. induction n as [|n IH]; intros st k x; simpl.
  - intros Hk. exists EmptyString, st. split_and!; [done|eauto with py|apply captures_refl|done].
  - assert (Hmore : body st (λ st', if (rest_len st' <? rest_len st)%nat then star_loop body g n st' k else None) = Some x →
      ∃ a st', m_rest st = a +:+ m_rest st' ∧ (plain (RStar g r) = true → matches (RStar g r) a) ∧
        captures (RStar g r) st st' ∧ k st' = Some x).
    { intros (a & st1 & Ha & Hm & Hc & Hk)%Hb.
      destruct (Nat.ltb_spec (rest_len st1) (rest_len st)) as [Hlt|]; [|done].
      apply IH in Hk as (b & st2 & Hb' & Hm2 & Hc2 & Hk). exists (a +:+ b), st2. rewrite Ha, Hb', str_app_assoc.
      split_and!; [done| |eapply captures_trans; [exact Hc|exact Hc2]|done].
      intros Hp. constructor; [|by apply Hm|by apply Hm2]. intros ->. unfold rest_len in Hlt. rewrite Ha in Hlt. simpl in Hlt. lia. }
    assert (Hstop : k st = Some x → ∃ a st', m_rest st = a +:+ m_rest st' ∧ (plain (RStar g r) = true → matches (RStar g r) a) ∧
        captures (RStar g r) st st' ∧ k st' = Some x).
    { intros Hk. exists EmptyString, st. split_and!; [done|eauto with py|apply captures_refl|done]. }
    destruct g; unfold or_else.
    + destruct (body _ _) eqn:E; [intros [= ->]; by apply Hmore|done].
    + destruct (k st) eqn:E; [intros [= ->]; by apply Hstop|done].
Qed.

Lemma m_capturing {R} (r : regex) : capturing (R:=R) r (m r).
Proof.
  induction r; simpl; intros st k x Hm.
  - exists EmptyString, st. split_and!; [done|eauto with py|apply captures_refl|done].
  - destruct (m_rest st) as [|c s] eqn:E; [done|]. destruct (f c) eqn:Ef; [|done].
    exists (String c EmptyString), (MState (Some c) s (m_caps st)). split_and!; [done|eauto with py|by left|done].
  - apply IHr1 in Hm as (a & st1 & Ha & Hm1 & Hc1 & Hm). apply IHr2 in Hm as (b & st2 & Hb & Hm2 & Hc2 & Hk).
    exists (a +:+ b), st2. rewrite Ha, Hb, str_app_assoc. split_and!; [done| | |done].
    + intros [??]%andb_prop. constructor; auto.
    + eapply captures_trans; (eapply captures_sub; [|eassumption]); simpl; intros b0 ?; apply elem_of_app; auto.
  - unfold or_else in Hm. destruct (m r1 st k) eqn:E.
    + injection Hm as ->. apply IHr1 in E as (a & st1 & ? & Hm & Hc & ?). exists a, st1. split_and!; [done| | |done].
      * intros [??]%andb_prop. apply MAltL. auto.
      * eapply captures_sub; [|exact Hc]. simpl. intros b ?. apply elem_of_app. by left.
    + apply IHr2 in Hm as (a & st1 & ? & Hm & Hc & ?). exists a, st1. split_and!; [done| | |done].
      * intros [??]%andb_prop. apply MAltR. auto.
      * eapply captures_sub; [|exact Hc]. simpl. intros b ?. apply elem_of_app. by right.
  - change (star_loop (m r) greedy (S (rest_len st)) st k = Some x) in Hm.
    eapply capturing_star; [|exact Hm]. exact IHr.
  - apply IHr in Hm as (a & st1 & Ha & Hm & Hc & Hk). eexists a, _. split; [|split; [|split; [|exact Hk]]].
    + done.
    + intros Hp. constructor. auto.
    + intros n0 t. cbn [m_caps]. rewrite elem_of_cons. intros [[= -> ->]|Hin].
      * right. exists r. split; [by left|]. intros Hp. unfold consumed, rest_len. rewrite Ha, length_str_app.
        replace (String.length a + String.length (m_rest st1) - String.length (m_rest st1))%nat with (String.length a) by lia.
        assert (str_take (String.length a) (a +:+ m_rest st1) = a) as ->; [|by apply Hm].
        clear. induction a as [|c a IH]; simpl; [done|by rewrite IH].
      * apply Hc in Hin as [Hin|(r' & Hr' & Hp)]; [by left|right]. exists r'. split; [by right|done].
  - destruct (at_bol st); [|done]. exists EmptyString, st. split_and!; [done|done|apply captures_refl|done].
  - destruct (at_eol st); [|done]. exists EmptyString, st. split_and!; [done|done|apply captures_refl|done].
  - destruct (at_eos st); [|done]. exists EmptyString, st. split_and!; [done|done|apply captures_refl|done].
  - destruct (at_wordb st); [|done]. exists EmptyString, st. split_and!; [done|done|apply captures_refl|done].
  - apply IHr in Hm as (a & st1 & Ha & Hm & Hc & Hk). exists EmptyString, st.
    split_and!; [done|done|apply captures_refl|done].
Qed.

Lemma search_go_captures r prev pre s mo : search_go r prev pre s = Some mo →
  ∀ n t, (n, t) ∈ m_caps (mo_end mo) → ∃ r', (n, r') ∈ bodies r ∧ (plain r' = true → matches r' t).
Proof.
  revert prev pre. induction s as [|c s IH]; intros prev pre; cbn [search_go]; unfold match_at;
    (destruct (m r _ Some) as [st|] eqn:Hm;
      [intros [= <-]; apply m_capturing in Hm as (a & st' & _ & _ & Hc & [= ->]); intros n t [Hin%elem_of_nil|Hr]%Hc; done|]).
  - done.
  - apply IH.
Qed.

Lemma group_elem n mo t : group n mo = Some t → (n, t) ∈ m_caps (mo_end mo).
Proof.
  unfold group. intros (p & Hf & ->)%fmap_Some. apply List.find_some in Hf as [Hin Hn].
  apply Nat.eqb_eq in Hn as <-. apply list_elem_of_In. by destruct p.
Qed.

(** The only group [n] of a pattern captures a text of its pattern. *)
Lemma search_group r r' n s mo t : re_search r s = Some mo → group n mo = Some t →
  (∀ r1, (n, r1) ∈ bodies r → r1 = r') → plain r' = true → matches r' t.
Proof.
  intros Hs Hg Hb Hp. apply group_elem in Hg. eapply search_go_captures in Hg as (r1 & Hin & Hm); [|exact Hs].
  apply Hb in Hin as ->. by apply Hm.
Qed.
