(* ===== verification/PyFloat.v ===== *)
(** * Python floats

    A Python [float] is an IEEE 754 binary64 number, here Rocq's executable
    [spec_float] at precision 53 and maximal exponent 1024. Conversions from
    integers and decimal text round to nearest, ties to even, in one step, as
    Python does. *)

From S2P Require Import Prelude PyStr.
From Stdlib Require Import Floats.SpecFloat.

Local Open Scope Z_scope.

Definition float : Type := spec_float.

Definition prec : Z := 53.
Definition emax : Z := 1024.

Definition fadd : float → float → float := SFadd prec emax.
Definition fsub : float → float → float := SFsub prec emax.
Definition fmul : float → float → float := SFmul prec emax.
Definition fdiv : float → float → float := SFdiv prec emax.

(** [a == b], [a < b], [a <= b] on floats; all false on a NaN. *)
Definition feqb : float → float → bool := SFeqb.
Definition fltb : float → float → bool := SFltb.
Definition fleb : float → float → bool := SFleb.

Definition f_zero : float := S754_zero false.
Definition f_inf (neg : bool) : float := S754_infinity neg.
Definition f_nan : float := S754_nan.

(** [math.isfinite], [f.is_integer()] follows from [f_to_Z]. *)
Definition isfinite (f : float) : bool :=
  match f with S754_zero _ | S754_finite _ _ _ => true | _ => false end.

(** The float nearest to [n / d], with the sign [neg]. *)
Definition float_of_ratio (neg : bool) (n d : positive) : float :=
  let '(mz, ez, lz) := SFdiv_core_binary prec emax (Zpos n) 0 (Zpos d) 0 in
  binary_round_aux prec emax neg mz ez lz.

(** [float(z)] for an integer; [None] stands for [OverflowError]. *)
Definition float_of_Z (z : Z) : option float :=
  let f := match z with
           | Z0 => f_zero
           | Zpos p => float_of_ratio false p 1
           | Zneg p => float_of_ratio true p 1
           end in
  if isfinite f then Some f else None.

(** The integer a float is equal to, when it is integral. *)
Definition f_to_Z (f : float) : option Z :=
  match f with
  | S754_zero _ => Some 0
  | S754_finite s m e =>
      let signed (z : Z) := if s then - z else z in
      if 0 <=? e then Some (signed (Zpos m * 2 ^ e))
      else if Zpos m mod 2 ^ (- e) =? 0 then Some (signed (Zpos m / 2 ^ (- e))) else None
  | _ => None
  end.

(** The decimal number [(-1)^neg * digits * 10^e]. Exponents beyond the range
    of binary64 give the infinity or zero that rounding gives, without
    computing the power of ten. *)
Definition float_of_decimal (neg : bool) (digits : string) (e : Z) : float :=
  match digits_val 0 digits with
  | Zpos p =>
      let mag := e + len digits in
      if (0 <? e) && (400 <? e) then f_inf neg
      else if mag <? -400 then S754_zero neg
      else if 0 <=? e then float_of_ratio neg (p * Z.to_pos (10 ^ e)) 1
      else float_of_ratio neg p (Z.to_pos (10 ^ (- e)))
  | _ => S754_zero neg
  end.

(** Digits of a numeral up to the first other character, with the underscores
    [float] accepts between digits removed; the rest of the text. *)
Fixpoint take_digits (us prev : bool) (s : string) : string * string :=
  match s with
  | String c r =>
      if is_digit c then let '(d, t) := take_digits us true r in (String c d, t)
      else match r with
           | String d _ => if us && prev && (ord c =? 95)%N && is_digit d
                           then take_digits us false r else (EmptyString, s)
           | EmptyString => (EmptyString, s)
           end
  | EmptyString => (EmptyString, EmptyString)
  end.

Definition take_sign (s : string) : bool * string :=
  match s with
  | String c r => if (ord c =? 45)%N then (true, r)
                  else if (ord c =? 43)%N then (false, r) else (false, s)
  | EmptyString => (false, s)
  end.

(** The exponent part [e<sign><digits>], if there is one. *)
Definition take_exponent (us : bool) (s : string) : option (Z * string) :=
  match s with
  | String c r =>
      if (ord c =? 101)%N || (ord c =? 69)%N then
        let '(neg, r) := take_sign r in
        let '(ds, t) := take_digits us false r in
        if nonempty ds then Some (if neg then - digits_val 0 ds else digits_val 0 ds, t) else None
      else Some (0, s)
  | EmptyString => Some (0, s)
  end.

(** [float(s)]; [None] stands for [ValueError]. *)
Definition py_float (s : string) : option float :=
  let '(neg, t) := take_sign (strip s) in
  let l := py_lower t in
  if (l == "inf") || (l == "infinity") then Some (f_inf neg)
  else if l == "nan" then Some f_nan
  else
    let '(ip, t) := take_digits true false t in
    let '(fp, t) := match t with
                    | String c r => if (ord c =? 46)%N then take_digits true false r
                                    else (EmptyString, t)
                    | EmptyString => (EmptyString, t)
                    end in
    if negb (nonempty (ip +:+ fp)) then None
    else '(e, t) ← take_exponent true t;
         if nonempty t then None
         else Some (float_of_decimal neg (ip +:+ fp) (e - len fp)).

(** Decimal literals of the source, written [f_lit "1.30"]. *)
Definition f_lit (s : string) : float := default f_nan (py_float s).

(** ** The order of floats

    Numbers other than NaN are ordered as the triples of class, exponent and
    mantissa that [fkey] gives, lexicographically. *)
Definition fkey (f : float) : option (Z * Z * Z) :=
  match f with
  | S754_infinity s => Some (if s then -2 else 2, 0, 0)
  | S754_zero _ => Some (0, 0, 0)
  | S754_finite s m e => Some (if s then (-1, - e, Zneg m) else (1, e, Zpos m))
  | S754_nan => None
  end.

Definition key_lt (a b : Z * Z * Z) : Prop :=
  let '(a1, a2, a3) := a in let '(b1, b2, b3) := b in
  a1 < b1 ∨ a1 = b1 ∧ (a2 < b2 ∨ a2 = b2 ∧ a3 < b3).

Lemma SFcompare_key f g : SFcompare f g =
  match fkey f, fkey g with
  | Some (a1, a2, a3), Some (b1, b2, b3) =>
      Some match a1 ?= b1 with
           | Eq => match a2 ?= b2 with Eq => a3 ?= b3 | c => c end
           | c => c
           end
  | _, _ => None
  end.
Proof.
  destruct f as [[]|[]| |[] m e], g as [[]|[]| |[] n d]; try reflexivity; simpl.
  by rewrite Z.compare_opp, (Z.compare_antisym e d); destruct (e ?= d).
Qed.

Lemma fltb_key f g : fltb f g = true ↔ ∃ a b, fkey f = Some a ∧ fkey g = Some b ∧ key_lt a b.
Proof.
  unfold fltb, SFltb. rewrite SFcompare_key.
  destruct (fkey f) as [[[a1 a2] a3]|]; [|split; [done|by intros (? & ? & ? & _)]].
  destruct (fkey g) as [[[b1 b2] b3]|]; [|split; [done|by intros (? & ? & _ & ? & _)]].
  split.
  - intros Hc. do 2 eexists. split_and!; [done..|]. simpl.
    destruct (Z.compare_spec a1 b1), (Z.compare_spec a2 b2), (Z.compare_spec a3 b3); try done; lia.
  - intros (? & ? & [= <-] & [= <-] & Hc). simpl in Hc.
    destruct (Z.compare_spec a1 b1), (Z.compare_spec a2 b2), (Z.compare_spec a3 b3); try done; lia.
Qed.

Lemma fleb_key f g : fleb f g = true ↔ ∃ a b, fkey f = Some a ∧ fkey g = Some b ∧ ¬ key_lt b a.
Proof.
  unfold fleb, SFleb. rewrite SFcompare_key.
  destruct (fkey f) as [[[a1 a2] a3]|]; [|split; [done|by intros (? & ? & ? & _)]].
  destruct (fkey g) as [[[b1 b2] b3]|]; [|split; [done|by intros (? & ? & _ & ? & _)]].
  split.
  - intros Hc. do 2 eexists. split_and!; [done..|]. simpl.
    destruct (Z.compare_spec a1 b1), (Z.compare_spec a2 b2), (Z.compare_spec a3 b3); try done; lia.
  - intros (? & ? & [= <-] & [= <-] & Hc). simpl in Hc.
    destruct (Z.compare_spec a1 b1), (Z.compare_spec a2 b2), (Z.compare_spec a3 b3); try done; lia.
Qed.

Lemma key_lt_trans a b c : key_lt a b → key_lt b c → key_lt a c.
Proof. destruct a as [[??]?], b as [[??]?], c as [[??]?]. simpl. lia. Qed.

(** What is not below a float that is not above another is not below that one. *)
Lemma fltb_le_trans f g h : fltb f g = false → fltb f h = true → fkey g ≠ None → fltb g h = true.
Proof.
  intros Hfg (a & c & Ha & Hc & Hac)%fltb_key Hg. destruct (fkey g) as [b|] eqn:Hb; [|done].
  apply fltb_key. exists b, c. split_and!; [done..|].
  assert (¬ key_lt a b) as Hab.
  { intros Hab. assert (fltb f g = true) by (apply fltb_key; eauto). congruence. }
  destruct a as [[??]?], b as [[??]?], c as [[??]?]. simpl in *. lia.
Qed.

Lemma fltb_trans f g h : fltb f g = true → fltb g h = true → fltb f h = true.
Proof.
  intros (a & b & Ha & Hb & Hab)%fltb_key (b' & c & Hb' & Hc & Hbc)%fltb_key. simplify_eq.
  apply fltb_key. exists a, c. split_and!; [done..|]. by eapply key_lt_trans.
Qed.

Lemma fltb_fleb_trans f g h : fltb f g = true → fleb g h = true → fltb f h = true.
Proof.
  intros ([[a1 a2] a3] & b & Ha & Hb & Hab)%fltb_key (b' & c & Hb' & Hc & Hbc)%fleb_key.
  rewrite Hb in Hb'. injection Hb' as <-. apply fltb_key. exists (a1, a2, a3), c.
  split_and!; [done..|]. destruct b as [[??]?], c as [[??]?]. simpl in *. lia.
Qed.

Lemma fltb_nan_l f g : fkey f = None → fltb f g = false.
Proof.
  intros Hf. apply not_true_iff_false. intros (a & b & Ha & _)%fltb_key. by rewrite Ha in Hf.
Qed.

Lemma fltb_fleb f g : fltb f g = true → fleb g f = false.
Proof.
  intros (a & b & Ha & Hb & Hab)%fltb_key. apply not_true_iff_false.
  intros (b' & a' & Hb' & Ha' & Hn)%fleb_key. by simplify_eq.
Qed.

Lemma fltb_irrefl f : fltb f f = false.
Proof.
  apply not_true_iff_false. intros ([[? ?] ?] & b & Ha & Hb & Hl)%fltb_key.
  rewrite Ha in Hb. injection Hb as <-. simpl in Hl. lia.
Qed.

Example float_third : fdiv (f_lit "1") (f_lit "3") = S754_finite false 6004799503160661 (-54).
Proof. vm_compute. reflexivity. Qed.
Example float_tenth : f_lit "0.1" = S754_finite false 7205759403792794 (-56).
Proof. vm_compute. reflexivity. Qed.
Example float_sum : feqb (fadd (f_lit "0.1") (f_lit "0.2")) (f_lit "0.3") = false.
Proof. vm_compute. reflexivity. Qed.
Example float_exp : f_lit "-2.5e-1" = S754_finite true 4503599627370496 (-54).
Proof. vm_compute. reflexivity. Qed.
Example float_big : py_float "1e400" = Some (f_inf false) ∧ py_float "1_0" = py_float "10" ∧
  py_float "1__0" = None ∧ py_float "." = None ∧ py_float "5." = py_float "5".
Proof. vm_compute. done. Qed.
