(* ===== verification/PyCodec.v ===== *)
(** * Byte codecs of the Python standard library

    [base64], [hashlib]'s SHA-256 and SHA-1, hexadecimal digests and the
    little-endian integers of [struct]. A byte string is a [string]. *)

From S2P Require Import Prelude PyStr.

Local Open Scope Z_scope.
#[local] Ltac Zify.zify_post_hook ::= Z.to_euclidean_division_equations.

(** ** Bytes and words *)

Definition byte_of_Z (z : Z) : ascii := ascii_of_N (Z.to_N (z mod 256)).
Definition Z_of_byte (c : ascii) : Z := Z.of_N (ord c).

Fixpoint bytes_to_list (s : string) : list Z :=
  match s with EmptyString => [] | String c s => Z_of_byte c :: bytes_to_list s end.
Fixpoint bytes_of_list (l : list Z) : string :=
  match l with [] => EmptyString | z :: l => String (byte_of_Z z) (bytes_of_list l) end.

Lemma Z_of_byte_range c : 0 ≤ Z_of_byte c < 256.
Proof. unfold Z_of_byte, ord. pose proof (N_ascii_bounded c). lia. Qed.

Lemma byte_of_Z_of_byte c : byte_of_Z (Z_of_byte c) = c.
Proof.
  pose proof (Z_of_byte_range c). unfold byte_of_Z. rewrite Z.mod_small by done.
  unfold Z_of_byte, ord. by rewrite N2Z.id, ascii_N_embedding.
Qed.

Lemma Z_of_byte_of_Z z : Z_of_byte (byte_of_Z z) = z mod 256.
Proof.
  pose proof (Z.mod_pos_bound z 256 ltac:(lia)). unfold byte_of_Z, Z_of_byte, ord.
  rewrite N_ascii_embedding by lia. lia.
Qed.

Lemma bytes_of_to_list s : bytes_of_list (bytes_to_list s) = s.
Proof. induction s as [|c s IH]; simpl; [done|]. by rewrite byte_of_Z_of_byte, IH. Qed.

(** ** [struct]: little-endian unsigned integers *)

(** [struct.pack("<...", z)] of an integer of [n] bytes, for a value in range. *)
Fixpoint le_pack (n : nat) (z : Z) : string :=
  match n with O => EmptyString | S n => String (byte_of_Z z) (le_pack n (z / 256)) end.

(** Packing checks the range: [struct.error] outside. *)
Definition pack_uint (n : nat) (z : Z) : res string :=
  if (0 <=? z) && (z <? 256 ^ Z.of_nat n) then Ok (le_pack n z) else Raise StructError.

Fixpoint le_unpack (s : string) : Z :=
  match s with EmptyString => 0 | String c s => Z_of_byte c + 256 * le_unpack s end.

(** [struct.unpack_from("<...", data, off)] of an integer of [n] bytes: the
    buffer must hold them. The offsets of the code are never negative. *)
Definition unpack_at (n : nat) (data : string) (off : Z) : res Z :=
  if (0 <=? off) && (off + Z.of_nat n <=? len data)
  then Ok (le_unpack (str_take n (str_drop (Z.to_nat off) data)))
  else Raise StructError.

Lemma length_le_pack n z : String.length (le_pack n z) = n.
Proof. revert z. induction n as [|n IH]; intros z; simpl; [done|by rewrite IH]. Qed.

Lemma le_unpack_range s : 0 ≤ le_unpack s < 256 ^ len s.
Proof.
  induction s as [|c s IH]; [done|].
  cbn [le_unpack]. replace (len (String c s)) with (Z.succ (len s)) by (unfold len; simpl; lia).
  rewrite Z.pow_succ_r by (unfold len; lia). pose proof (Z_of_byte_range c). lia.
Qed.

Lemma le_unpack_pack n z : le_unpack (le_pack n z) = z mod 256 ^ Z.of_nat n.
Proof.
  revert z. induction n as [|n IH]; intros z; cbn [le_pack le_unpack]; [by rewrite Z.mod_1_r|].
  rewrite IH, Z_of_byte_of_Z.
  replace (Z.of_nat (S n)) with (Z.succ (Z.of_nat n)) by lia.
  rewrite Z.pow_succ_r by lia. rewrite Z.rem_mul_r; [done|lia|].
  apply Z.pow_pos_nonneg; lia.
Qed.

Lemma le_pack_unpack s : le_pack (String.length s) (le_unpack s) = s.
Proof.
  induction s as [|c s IH]; [done|]. cbn [String.length le_unpack le_pack].
  pose proof (Z_of_byte_range c).
  assert ((Z_of_byte c + 256 * le_unpack s) / 256 = le_unpack s) as -> by lia.
  rewrite IH. f_equal. unfold byte_of_Z.
  assert ((Z_of_byte c + 256 * le_unpack s) mod 256 = Z_of_byte c) as -> by lia.
  unfold Z_of_byte, ord. by rewrite N2Z.id, ascii_N_embedding.
Qed.

(** ** [base64] *)

Definition b64_char (n : Z) : ascii :=
  ascii_of_N (Z.to_N (if n <? 26 then 65 + n else if n <? 52 then 71 + n
                      else if n <? 62 then n - 4 else if n =? 62 then 43 else 47)).

Definition b64_val (c : ascii) : option Z :=
  let n := Z_of_byte c in
  if (65 <=? n) && (n <=? 90) then Some (n - 65)
  else if (97 <=? n) && (n <=? 122) then Some (n - 71)
  else if (48 <=? n) && (n <=? 57) then Some (n + 4)
  else if n =? 43 then Some 62 else if n =? 47 then Some 63 else None.

Definition pad_char : ascii := "="%char.

(** [base64.b64encode(bytes).decode("ascii")] *)
Fixpoint b64encode (s : string) : string :=
  match s with
  | String a (String b (String c s)) =>
      let '(a, b, c) := (Z_of_byte a, Z_of_byte b, Z_of_byte c) in
      String (b64_char (a / 4)) (String (b64_char (a mod 4 * 16 + b / 16))
        (String (b64_char (b mod 16 * 4 + c / 64)) (String (b64_char (c mod 64)) (b64encode s))))
  | String a (String b EmptyString) =>
      let '(a, b) := (Z_of_byte a, Z_of_byte b) in
      String (b64_char (a / 4)) (String (b64_char (a mod 4 * 16 + b / 16))
        (String (b64_char (b mod 16 * 4)) (String pad_char EmptyString)))
  | String a EmptyString =>
      let a := Z_of_byte a in
      String (b64_char (a / 4)) (String (b64_char (a mod 4 * 16))
        (String pad_char (String pad_char EmptyString)))
  | EmptyString => EmptyString
  end.

(** The decoder's loop: position in the group of four, bits left over, pads
    seen in a row, whether any pad was seen, output so far (reversed order is
    avoided by consing on the way back). [strict] is [validate=True]. *)
Fixpoint b64_loop (strict : bool) (quad left pads : Z) (padded : bool) (s : string)
    : option string :=
  match s with
  | EmptyString => if quad =? 0 then Some EmptyString else None
  | String c s =>
      if Ascii.eqb c pad_char then
        if strict && (quad =? 0) then None
        else if (2 <=? quad) && (4 <=? quad + (pads + 1)) then
          if strict && nonempty s then None else Some EmptyString
        else b64_loop strict quad left (if 2 <=? quad then pads + 1 else pads) true s
      else match b64_val c with
           | None => if strict then None else b64_loop strict quad left pads padded s
           | Some v =>
               if strict && padded then None
               else if quad =? 0 then b64_loop strict 1 v 0 padded s
               else if quad =? 1 then
                 r ← b64_loop strict 2 (v mod 16) 0 padded s; Some (String (byte_of_Z (left * 4 + v / 16)) r)
               else if quad =? 2 then
                 r ← b64_loop strict 3 (v mod 4) 0 padded s; Some (String (byte_of_Z (left * 16 + v / 4)) r)
               else
                 r ← b64_loop strict 0 0 0 padded s; Some (String (byte_of_Z (left * 64 + v)) r)
           end
  end.

(** [base64.b64decode(s, validate=strict)] of a [str]: non-ASCII text is a
    [ValueError], malformed data a [binascii.Error]. *)
Definition b64decode (strict : bool) (s : string) : res string :=
  if negb (is_ascii s) then Raise (ValueError "string argument should contain only ASCII characters")
  else from_option (b64_loop strict 0 0 0 false s) BinasciiError.

Lemma b64_char_spec n : 0 ≤ n < 64 →
  b64_val (b64_char n) = Some n ∧ Ascii.eqb (b64_char n) pad_char = false ∧
  (ord (b64_char n) <? 128)%N = true.
Proof.
  intros Hn. assert (H : List.forallb (λ n, bool_decide (b64_val (b64_char (Z.of_nat n)) = Some (Z.of_nat n))
    && negb (Ascii.eqb (b64_char (Z.of_nat n)) pad_char) && (ord (b64_char (Z.of_nat n)) <? 128)%N)
    (List.seq 0 64) = true) by (vm_compute; done).
  rewrite forallb_forall in H. specialize (H (Z.to_nat n)).
  rewrite Z2Nat.id in H by lia.
  apply andb_prop in H as [H ?]; [|apply in_seq; lia].
  apply andb_prop in H as [H%bool_decide_eq_true H2%negb_true_iff]. done.
Qed.

(** Induction in steps of three bytes. *)
Lemma bytes_ind3 (P : string → Prop) :
  P EmptyString → (∀ a, P (String a EmptyString)) → (∀ a b, P (String a (String b EmptyString))) →
  (∀ a b c s, P s → P (String a (String b (String c s)))) → ∀ s, P s.
Proof.
  intros H0 H1 H2 H3. fix IH 1. intros [|a [|b [|c s]]]; [done|done|done|]. apply H3, IH.
Qed.

Lemma b64_loop_quad0 strict v s : 0 ≤ v < 64 →
  b64_loop strict 0 0 0 false (String (b64_char v) s) = b64_loop strict 1 v 0 false s.
Proof. intros Hv. destruct (b64_char_spec v Hv) as (E1 & E2 & _). simpl. rewrite E2, E1. by destruct strict. Qed.

Lemma b64_loop_quad1 strict l v s : 0 ≤ v < 64 →
  b64_loop strict 1 l 0 false (String (b64_char v) s) =
  r ← b64_loop strict 2 (v mod 16) 0 false s; Some (String (byte_of_Z (l * 4 + v / 16)) r).
Proof. intros Hv. destruct (b64_char_spec v Hv) as (E1 & E2 & _). cbn [b64_loop]. rewrite E2, E1. by destruct strict. Qed.

Lemma b64_loop_quad2 strict l v s : 0 ≤ v < 64 →
  b64_loop strict 2 l 0 false (String (b64_char v) s) =
  r ← b64_loop strict 3 (v mod 4) 0 false s; Some (String (byte_of_Z (l * 16 + v / 4)) r).
Proof. intros Hv. destruct (b64_char_spec v Hv) as (E1 & E2 & _). cbn [b64_loop]. rewrite E2, E1. by destruct strict. Qed.

Lemma b64_loop_quad3 strict l v s : 0 ≤ v < 64 →
  b64_loop strict 3 l 0 false (String (b64_char v) s) =
  r ← b64_loop strict 0 0 0 false s; Some (String (byte_of_Z (l * 64 + v)) r).
Proof. intros Hv. destruct (b64_char_spec v Hv) as (E1 & E2 & _). cbn [b64_loop]. rewrite E2, E1. by destruct strict. Qed.

Lemma byte_join (z : Z) c : z = Z_of_byte c → byte_of_Z z = c.
Proof. intros ->. apply byte_of_Z_of_byte. Qed.

Lemma b64_loop_encode strict s : b64_loop strict 0 0 0 false (b64encode s) = Some s.
Proof.
  induction s as [|a|a b|a b c s IH] using bytes_ind3; [done| | |]; cbn [b64encode];
    pose proof (Z_of_byte_range a); try (pose proof (Z_of_byte_range b));
    try (pose proof (Z_of_byte_range c)).
  - rewrite b64_loop_quad0, b64_loop_quad1 by lia.
    replace (b64_loop strict 2 _ 0 false _) with (Some EmptyString) by (by destruct strict).
    cbn [mbind option_bind]. do 2 f_equal. apply byte_join. lia.
  - rewrite b64_loop_quad0, b64_loop_quad1, b64_loop_quad2 by lia.
    replace (b64_loop strict 3 _ 0 false _) with (Some EmptyString) by (by destruct strict).
    cbn [mbind option_bind]. do 2 f_equal; [|f_equal]; apply byte_join; lia.
  - rewrite b64_loop_quad0, b64_loop_quad1, b64_loop_quad2, b64_loop_quad3, IH by lia.
    cbn [mbind option_bind]. do 2 f_equal; [|f_equal; [|f_equal]]; apply byte_join; lia.
Qed.

Lemma b64_char_ascii n : 0 ≤ n < 64 → (ord (b64_char n) <? 128)%N = true.
Proof. intros Hn. by destruct (b64_char_spec n Hn) as (_ & _ & ?). Qed.

Lemma b64encode_ascii s : is_ascii (b64encode s) = true.
Proof.
  unfold is_ascii. induction s as [|a|a b|a b c s IH] using bytes_ind3; [done| | |]; cbn [b64encode str_all];
    pose proof (Z_of_byte_range a); try (pose proof (Z_of_byte_range b));
    try (pose proof (Z_of_byte_range c));
    rewrite ?b64_char_ascii by lia; [done|done|by rewrite IH].
Qed.

Lemma b64_roundtrip strict s : b64decode strict (b64encode s) = Ok s.
Proof. unfold b64decode. by rewrite b64encode_ascii, b64_loop_encode. Qed.

Lemma b64_char_no_space n : 0 ≤ n < 64 → negb (is_space (b64_char n)) = true.
Proof.
  intros Hn.
  assert (H : forallb (λ n, negb (is_space (b64_char (Z.of_nat n)))) (seq 0 64) = true) by (vm_compute; done).
  rewrite forallb_forall in H. specialize (H (Z.to_nat n)). rewrite Z2Nat.id in H by lia.
  apply H, in_seq. lia.
Qed.

Lemma b64encode_no_space s : str_all (λ c, negb (is_space c)) (b64encode s) = true.
Proof.
  induction s as [|a|a b|a b c s IH] using bytes_ind3; [done| | |]; cbn [b64encode str_all];
    pose proof (Z_of_byte_range a); try (pose proof (Z_of_byte_range b));
    try (pose proof (Z_of_byte_range c));
    rewrite ?b64_char_no_space by lia; [done|done|by rewrite IH].
Qed.
