(* ===== verification/PyHash.v ===== *)
(** * [hashlib]: SHA-256 and SHA-1

    The two digests the tooling computes, on byte strings, following FIPS 180-4.
    The test vectors at the end pin the definitions to the standard. *)

From S2P Require Import Prelude PyStr PyCodec.

Local Open Scope Z_scope.

Definition w32 (z : Z) : Z := Z.land z 4294967295.
Definition rotr (n x : Z) : Z := Z.lor (Z.shiftr x n) (w32 (Z.shiftl x (32 - n))).
Definition rotl (n x : Z) : Z := rotr (32 - n) x.
Definition not32 (x : Z) : Z := 4294967295 - x.

(** The big-endian bytes of an [n]-byte integer, and the integer of some bytes. *)
Fixpoint be_bytes (n : nat) (z : Z) : list Z :=
  match n with O => [] | S m => z / 256 ^ Z.of_nat m mod 256 :: be_bytes m z end.
Definition be_word (l : list Z) : Z := fold_left (λ acc b, acc * 256 + b) l 0.

(** Padding: a one bit, zeros, and the bit length on eight bytes. *)
Definition sha_pad (l : list Z) : list Z :=
  let n := Z.of_nat (length l) in
  l ++ [128] ++ repeat 0 (Z.to_nat ((55 - n) mod 64)) ++ be_bytes 8 (8 * n).

Fixpoint chunks (fuel k : nat) (l : list Z) : list (list Z) :=
  match fuel with
  | O => []
  | S fuel => match l with [] => [] | _ => take k l :: chunks fuel k (drop k l) end
  end.
Definition blocks (l : list Z) : list (list Z) :=
  let p := sha_pad l in (λ b, be_word <$> chunks 16 4 b) <$> chunks (length p) 64 p.

Definition nthz (l : list Z) (i : nat) : Z := nth i l 0.

Definition sha256_k : list Z :=
  [1116352408; 1899447441; 3049323471; 3921009573; 961987163; 1508970993;
   2453635748; 2870763221; 3624381080; 310598401; 607225278; 1426881987;
   1925078388; 2162078206; 2614888103; 3248222580; 3835390401; 4022224774;
   264347078; 604807628; 770255983; 1249150122; 1555081692; 1996064986;
   2554220882; 2821834349; 2952996808; 3210313671; 3336571891; 3584528711;
   113926993; 338241895; 666307205; 773529912; 1294757372; 1396182291;
   1695183700; 1986661051; 2177026350; 2456956037; 2730485921; 2820302411;
   3259730800; 3345764771; 3516065817; 3600352804; 4094571909; 275423344;
   430227734; 506948616; 659060556; 883997877; 958139571; 1322822218;
   1537002063; 1747873779; 1955562222; 2024104815; 2227730452; 2361852424;
   2428436474; 2756734187; 3204031479; 3329325298].
Definition sha256_h : list Z :=
  [1779033703; 3144134277; 1013904242; 2773480762; 1359893119; 2600822924;
   528734635; 1541459225].

(** The message schedule, latest word first. *)
Fixpoint sha256_sched (n : nat) (rev_w : list Z) : list Z :=
  match n with
  | O => rev_w
  | S n =>
      let w2 := nthz rev_w 1 in let w15 := nthz rev_w 14 in
      let s0 := Z.lxor (Z.lxor (rotr 7 w15) (rotr 18 w15)) (Z.shiftr w15 3) in
      let s1 := Z.lxor (Z.lxor (rotr 17 w2) (rotr 19 w2)) (Z.shiftr w2 10) in
      sha256_sched n (w32 (s1 + nthz rev_w 6 + s0 + nthz rev_w 15) :: rev_w)
  end.

Definition sha256_round (st : list Z) (kw : Z * Z) : list Z :=
  match st with
  | [a; b; c; d; e; f; g; h] =>
      let s1 := Z.lxor (Z.lxor (rotr 6 e) (rotr 11 e)) (rotr 25 e) in
      let chf := Z.lxor (Z.land e f) (Z.land (not32 e) g) in
      let t1 := h + s1 + chf + fst kw + snd kw in
      let s0 := Z.lxor (Z.lxor (rotr 2 a) (rotr 13 a)) (rotr 22 a) in
      let maj := Z.lxor (Z.lxor (Z.land a b) (Z.land a c)) (Z.land b c) in
      [w32 (t1 + s0 + maj); a; b; c; w32 (d + t1); e; f; g]
  | _ => st
  end.

Definition add_state (a b : list Z) : list Z := zip_with (λ x y, w32 (x + y)) a b.

Definition sha256_block (h : list Z) (block : list Z) : list Z :=
  let w := rev (sha256_sched 48 (rev block)) in
  add_state h (fold_left sha256_round (zip sha256_k w) h).

(** [hashlib.sha256(data)] as its eight words. *)
Definition sha256_words (data : string) : list Z :=
  fold_left sha256_block (blocks (bytes_to_list data)) sha256_h.

Definition sha1_h : list Z := [1732584193; 4023233417; 2562383102; 271733878; 3285377520].

Fixpoint sha1_sched (n : nat) (rev_w : list Z) : list Z :=
  match n with
  | O => rev_w
  | S n => sha1_sched n (rotl 1 (Z.lxor (Z.lxor (nthz rev_w 2) (nthz rev_w 7))
                                        (Z.lxor (nthz rev_w 13) (nthz rev_w 15))) :: rev_w)
  end.

Definition sha1_fk (t b c d : Z) : Z * Z :=
  if t <? 20 then (Z.lxor (Z.land b c) (Z.land (not32 b) d), 1518500249)
  else if t <? 40 then (Z.lxor (Z.lxor b c) d, 1859775393)
  else if t <? 60 then (Z.lxor (Z.lxor (Z.land b c) (Z.land b d)) (Z.land c d), 2400959708)
  else (Z.lxor (Z.lxor b c) d, 3395469782).

Definition sha1_round (st : list Z) (tw : Z * Z) : list Z :=
  match st with
  | [a; b; c; d; e] =>
      let '(f, k) := sha1_fk (fst tw) b c d in
      [w32 (rotl 5 a + f + e + k + snd tw); a; rotl 30 b; c; d]
  | _ => st
  end.

Definition sha1_block (h : list Z) (block : list Z) : list Z :=
  let w := rev (sha1_sched 64 (rev block)) in
  add_state h (fold_left sha1_round (zip (Z.of_nat <$> seq 0 80) w) h).

Definition sha1_words (data : string) : list Z :=
  fold_left sha1_block (blocks (bytes_to_list data)) sha1_h.

(** ** Hexadecimal digests *)

(** The [n] lowercase hexadecimal digits of a word, most significant first. *)
Fixpoint hex_word (n : nat) (z : Z) : string :=
  match n with
  | O => EmptyString
  | S m => String (hex_digit (Z.to_N (z / 16 ^ Z.of_nat m mod 16))) (hex_word m z)
  end.

Fixpoint hex_words (l : list Z) : string :=
  match l with [] => EmptyString | w :: l => hex_word 8 w +:+ hex_words l end.

(** [hashlib.sha256(data).hexdigest()] and [hashlib.sha1(data).hexdigest()] *)
Definition sha256_hex (data : string) : string := hex_words (take 8 (sha256_words data)).
Definition sha1_hex (data : string) : string := hex_words (take 5 (sha1_words data)).

(** ** Shape of a digest *)

Lemma hex_digit_lower n : (n < 16)%N → is_lower_hex (hex_digit n) = true.
Proof.
  intros Hn. assert (H : List.forallb (λ n, is_lower_hex (hex_digit (N.of_nat n))) (List.seq 0 16) = true)
    by (vm_compute; done).
  rewrite forallb_forall in H. specialize (H (N.to_nat n)). rewrite N2Nat.id in H. apply H, in_seq. lia.
Qed.

Lemma hex_word_shape n z :
  str_all is_lower_hex (hex_word n z) = true ∧ String.length (hex_word n z) = n.
Proof.
  induction n as [|n [IH1 IH2]]; cbn [hex_word str_all String.length]; [done|].
  rewrite IH1, IH2, hex_digit_lower; [done|].
  pose proof (Z.mod_pos_bound (z / 16 ^ Z.of_nat n) 16 ltac:(lia)). lia.
Qed.

Lemma hex_words_shape l :
  str_all is_lower_hex (hex_words l) = true ∧ String.length (hex_words l) = (8 * length l)%nat.
Proof.
  induction l as [|w l [IH1 IH2]]; [done|]. cbn [hex_words].
  destruct (hex_word_shape 8 w) as [H1 H2].
  rewrite str_all_app, length_str_app, H1, H2, IH1, IH2. simpl. split; [done|lia].
Qed.

Lemma length_sha256_round st kw : length st = 8%nat → length (sha256_round st kw) = 8%nat.
Proof. intros H. by do 9 (destruct st as [|? st]; [done|]). Qed.

Lemma length_fold_preserved {A B} (f : list A → B → list A) n l st :
  (∀ st b, length st = n → length (f st b) = n) → length st = n → length (fold_left f l st) = n.
Proof. intros Hf. revert st. induction l as [|b l IH]; intros st Hst; simpl; [done|]. apply IH, Hf, Hst. Qed.

Lemma length_sha256_words data : length (sha256_words data) = 8%nat.
Proof.
  apply length_fold_preserved; [|done]. intros st b Hst. unfold sha256_block, add_state.
  rewrite length_zip_with, Hst, length_fold_preserved with (n:=8%nat); [done| |done].
  intros; by apply length_sha256_round.
Qed.

(** A SHA-256 digest is 64 lowercase hexadecimal characters. *)
Lemma sha256_hex_shape data :
  str_all is_lower_hex (sha256_hex data) = true ∧ String.length (sha256_hex data) = 64%nat.
Proof.
  destruct (hex_words_shape (take 8 (sha256_words data))) as [H1 H2]. split; [done|].
  unfold sha256_hex. rewrite H2, length_take, length_sha256_words. done.
Qed.

Example sha256_abc :
  sha256_hex "abc" = "ba7816bf8f01cfea414140de5dae2223b00361a396177a9cb410ff61f20015ad".
Proof. vm_compute. reflexivity. Qed.
Example sha256_two_blocks :
  sha256_hex "abcdbcdecdefdefgefghfghighijhijkijkljklmklmnlmnomnopnopq" =
  "248d6a61d20638b8e5c026930c3e6039a33ce45964ff2167f6ecedd419db06c1".
Proof. vm_compute. reflexivity. Qed.
Example sha1_abc : sha1_hex "abc" = "a9993e364706816aba3e25717850c26c9cd0d89d".
Proof. vm_compute. reflexivity. Qed.
