(* ===== verification/PyJson.v ===== *)
(** * [json]

    JSON values as Python has them, [json.loads] and [json.dumps]. Objects keep
    their members in insertion order. Text is restricted to code points below
    256 as everywhere in the development: a [\u] escape above that range is
    refused like malformed input. *)

From Stdlib Require Import Sorting.Sorted.
From S2P Require Import Prelude PyStr PyFloat.

Inductive json : Type :=
| JNull
| JBool (b : bool)
| JInt (z : Z)
| JFloat (f : float)
| JStr (s : string)
| JArr (l : list json)
| JObj (l : list (string * json)).

(** Induction that reaches the elements of arrays and the values of objects. *)
Section json_ind.
Context (P : json → Prop).
Context (Hnull : P JNull) (Hbool : ∀ b, P (JBool b)) (Hint : ∀ z, P (JInt z)).
Context (Hfloat : ∀ f, P (JFloat f)) (Hstr : ∀ s, P (JStr s)).
Context (Harr : ∀ l, Forall P l → P (JArr l)).
Context (Hobj : ∀ l, Forall (λ kv, P (snd kv)) l → P (JObj l)).

Fixpoint json_nested_ind (v : json) : P v :=
  match v with
  | JNull => Hnull
  | JBool b => Hbool b
  | JInt z => Hint z
  | JFloat f => Hfloat f
  | JStr s => Hstr s
  | JArr l => Harr l ((fix go l := match l return Forall P l with
      | [] => Forall_nil_2 P
      | x :: l => Forall_cons_2 P x l (json_nested_ind x) (go l) end) l)
  | JObj l => Hobj l ((fix go l := match l return Forall (λ kv, P (snd kv)) l with
      | [] => Forall_nil_2 _
      | kv :: l => Forall_cons_2 (λ kv, P (snd kv)) kv l (json_nested_ind (snd kv)) (go l) end) l)
  end.
End json_ind.

(** ** Objects as dictionaries *)

Section assoc.
Context {A : Type}.

Fixpoint assoc (k : string) (l : list (string * A)) : option A :=
  match l with
  | [] => None
  | (k', v) :: l => if k == k' then Some v else assoc k l
  end.

(** [d\[k\] = v]: in place when the key is there, at the end otherwise. *)
Fixpoint assoc_set (k : string) (v : A) (l : list (string * A)) : list (string * A) :=
  match l with
  | [] => [(k, v)]
  | (k', v') :: l => if k == k' then (k, v) :: l else (k', v') :: assoc_set k v l
  end.

(** [dict(pairs)] *)
Definition dict_of (pairs : list (string * A)) : list (string * A) :=
  fold_left (λ d kv, assoc_set (fst kv) (snd kv) d) pairs [].

Lemma assoc_None k (l : list (string * A)) : assoc k l = None ↔ k ∉ l.*1.
Proof.
  induction l as [|[k' v] l IH]; simpl; [split; [by intros _ ?%not_elem_of_nil|done]|].
  rewrite not_elem_of_cons. destruct (String.eqb_spec k k') as [->|Hne]; [naive_solver|].
  rewrite IH. naive_solver.
Qed.

Lemma assoc_Some_elem k v (l : list (string * A)) : assoc k l = Some v → (k, v) ∈ l.
Proof.
  induction l as [|[k' v'] l IH]; simpl; [done|].
  destruct (String.eqb_spec k k') as [->|]; [intros [= ->]; left|]. intros H. right. by apply IH.
Qed.

Lemma assoc_set_elem k v (l : list (string * A)) x : x ∈ assoc_set k v l → x ∈ l ∨ x = (k, v).
Proof.
  induction l as [|[k' v'] l IH]; simpl; [rewrite elem_of_cons, elem_of_nil; naive_solver|].
  destruct (k =? k')%string eqn:E; rewrite !elem_of_cons; [apply String.eqb_eq in E as ->; naive_solver|]. naive_solver.
Qed.

Lemma assoc_set_new k v (l : list (string * A)) : k ∉ l.*1 → assoc_set k v l = l ++ [(k, v)].
Proof.
  induction l as [|[k' v'] l IH]; simpl; [done|]. rewrite not_elem_of_cons. intros [Hne Hk].
  destruct (String.eqb_spec k k') as [->|_]; [done|]. by rewrite IH.
Qed.

Lemma assoc_set_same k (v : A) l : assoc k (assoc_set k v l) = Some v.
Proof.
  induction l as [|[k' v'] l IH]; simpl; [by rewrite String.eqb_refl|].
  destruct (String.eqb_spec k k') as [->|Hne]; simpl; [by rewrite String.eqb_refl|].
  by rewrite (proj2 (String.eqb_neq _ _) Hne).
Qed.
Lemma assoc_set_other k k' (v : A) l : k ≠ k' → assoc k (assoc_set k' v l) = assoc k l.
Proof.
  intros Hne. induction l as [|[k2 v2] l IH]; simpl; [by rewrite (proj2 (String.eqb_neq _ _) Hne)|].
  destruct (String.eqb_spec k' k2) as [->|Hne2]; simpl; [by rewrite (proj2 (String.eqb_neq _ _) Hne)|].
  by destruct (k == k2).
Qed.

Lemma dict_of_id (l : list (string * A)) : NoDup l.*1 → dict_of l = l.
Proof.
  unfold dict_of. intros Hnd.
  cut (∀ d, NoDup (d ++ l).*1 → fold_left (λ d kv, assoc_set (fst kv) (snd kv) d) l d = d ++ l).
  { intros H. by apply (H []). }
  clear Hnd. induction l as [|[k v] l IH]; intros d Hd; simpl; [by rewrite app_nil_r|].
  assert (k ∉ d.*1) as Hk.
  { rewrite fmap_app in Hd. apply NoDup_app in Hd as (_ & Hd & _). intros Hin.
    apply (Hd k Hin). simpl. left. }
  rewrite assoc_set_new by done. rewrite IH; by rewrite <- app_assoc.
Qed.
End assoc.

(** [x\[k\]] and [x.get(k)] of a JSON value that should be an object. *)
Definition jget (k : string) (v : json) : res (option json) :=
  match v with
  | JObj l => Ok (assoc k l)
  | JNull => Raise (AttributeError "get")
  | _ => Raise (AttributeError "get")
  end.
Definition jitem (k : string) (v : json) : res json :=
  match v with
  | JObj l => from_option (assoc k l) (KeyError k)
  | _ => Raise (TypeError "subscript")
  end.

(** Truth value of a JSON value. *)
Definition truthy (v : json) : bool :=
  match v with
  | JNull => false
  | JBool b => b
  | JInt z => negb (z =? 0)%Z
  | JFloat f => negb (feqb f f_zero)
  | JStr s => nonempty s
  | JArr l => match l with [] => false | _ => true end
  | JObj l => match l with [] => false | _ => true end
  end.

(** [a or b], and [x.get(k)] with [None] for a missing key. *)
Definition jor (a b : json) : json := if truthy a then a else b.
Definition jget_or_null (k : string) (v : json) : res json := o ← jget k v; Ok (default JNull o).

(** Iterating over a JSON value. *)
Definition items_of (v : json) : res (list json) :=
  match v with
  | JArr l => Ok l
  | JObj l => Ok (JStr <$> l.*1)
  | JStr s => Ok ((λ c, JStr (String c EmptyString)) <$> list_ascii_of_string s)
  | _ => Raise (TypeError "object is not iterable")
  end.

(** ** Python's [==] on JSON values: [True == 1 == 1.0]; objects compare by key. *)

(** Exact comparison of an integer with a float. *)
Definition int_float_eq (z : Z) (f : float) : bool :=
  match f_to_Z f with Some y => (z =? y)%Z | None => false end.

Definition Z_of_bool (b : bool) : Z := if b then 1%Z else 0%Z.

Fixpoint jeq (a b : json) {struct a} : bool :=
  let num_eq (x : Z) (b : json) :=
    match b with
    | JBool c => (x =? Z_of_bool c)%Z
    | JInt y => (x =? y)%Z
    | JFloat f => int_float_eq x f
    | _ => false
    end in
  match a with
  | JNull => match b with JNull => true | _ => false end
  | JBool c => num_eq (Z_of_bool c) b
  | JInt x => num_eq x b
  | JFloat f => match b with
                | JBool c => int_float_eq (Z_of_bool c) f
                | JInt y => int_float_eq y f
                | JFloat g => feqb f g
                | _ => false
                end
  | JStr s => match b with JStr t => s == t | _ => false end
  | JArr l =>
      match b with
      | JArr l' =>
          (fix go l l' := match l, l' with
                          | [], [] => true
                          | x :: l, y :: l' => jeq x y && go l l'
                          | _, _ => false
                          end) l l'
      | _ => false
      end
  | JObj l =>
      match b with
      | JObj l' =>
          (length l =? length l')%nat &&
          (fix go l := match l with
                       | [] => true
                       | (k, x) :: l => match assoc k l' with
                                        | Some y => jeq x y && go l
                                        | None => false
                                        end
                       end) l
      | _ => false
      end
  end.

Lemma jeq_str v s : jeq v (JStr s) = true → v = JStr s.
Proof. destruct v; simpl; try done. by intros ->%String.eqb_eq. Qed.

(** ** [json.dumps] *)

(** The escape of one character; [asc] is [ensure_ascii]. *)
Definition bs : string := chr 92.
Definition esc_char (asc : bool) (c : ascii) : string :=
  let n := ord c in
  if (n =? 34)%N then bs +:+ dq
  else if (n =? 92)%N then bs +:+ bs
  else if (n =? 10)%N then bs +:+ "n"
  else if (n =? 13)%N then bs +:+ "r"
  else if (n =? 9)%N then bs +:+ "t"
  else if (n =? 12)%N then bs +:+ "f"
  else if (n =? 8)%N then bs +:+ "b"
  else if (n <? 32)%N || (asc && (126 <? n)%N)
  then bs +:+ "u00" +:+ String (hex_digit (n / 16)) (String (hex_digit (n mod 16)) EmptyString)
  else String c EmptyString.
Fixpoint esc_go (asc : bool) (s : string) : string :=
  match s with EmptyString => EmptyString | String c s => esc_char asc c +:+ esc_go asc s end.
Definition dump_str (asc : bool) (s : string) : string := dq +:+ esc_go asc s +:+ dq.

(** Members in key order. *)
Fixpoint insert_key {A} (kv : string * A) (l : list (string * A)) : list (string * A) :=
  match l with
  | [] => [kv]
  | kv' :: l' => if String.leb (fst kv) (fst kv') then kv :: l else kv' :: insert_key kv l'
  end.
Definition sort_keys {A} (l : list (string * A)) : list (string * A) := foldr insert_key [] l.

Fixpoint sorted_json (v : json) : json :=
  match v with
  | JArr l => JArr (List.map sorted_json l)
  | JObj l => JObj (sort_keys (List.map (λ kv, (fst kv, sorted_json (snd kv))) l))
  | _ => v
  end.

(** The texts of the elements, separated. *)
Definition join_opt {A} (f : A → option string) (sep : string) : list A → option string :=
  fix go l := match l with
              | [] => Some EmptyString
              | [x] => f x
              | x :: l => a ← f x; b ← go l; Some (a +:+ sep +:+ b)
              end.

Section render.
Context (asc : bool) (isep ksep : string).

(** [json.dumps] without [sort_keys] and indentation, with the given item and
    key separators. The text of a float is its shortest decimal
    representation, which the code never needs here: a float gives [None]. *)
Fixpoint render (v : json) : option string :=
  match v with
  | JNull => Some "null"
  | JBool b => Some (if b then "true" else "false")
  | JInt z => Some (py_str_int z)
  | JFloat _ => None
  | JStr s => Some (dump_str asc s)
  | JArr l => body ← join_opt render isep l; Some ("[" +:+ body +:+ "]")
  | JObj l =>
      body ← join_opt (λ kv, a ← render (snd kv); Some (dump_str asc (fst kv) +:+ ksep +:+ a)) isep l;
      Some ("{" +:+ body +:+ "}")
  end.
End render.

(** [json.dumps(v, ensure_ascii=asc, sort_keys=True, separators=(",", ":"))] *)
Definition dumps_compact (asc : bool) (v : json) : option string := render asc "," ":" (sorted_json v).

(** [json.dumps(v, indent=2, ensure_ascii=asc)]; [pad] is the margin of the
    enclosing value. *)
Fixpoint render_indent (asc : bool) (pad : string) (v : json) : option string :=
  let inner := pad +:+ "  " in
  match v with
  | JArr [] => Some "[]"
  | JObj [] => Some "{}"
  | JArr l =>
      body ← join_opt (render_indent asc inner) ("," +:+ nl +:+ inner) l;
      Some ("[" +:+ nl +:+ inner +:+ body +:+ nl +:+ pad +:+ "]")
  | JObj l =>
      body ← join_opt (λ kv, a ← render_indent asc inner (snd kv); Some (dump_str asc (fst kv) +:+ ": " +:+ a))
               ("," +:+ nl +:+ inner) l;
      Some ("{" +:+ nl +:+ inner +:+ body +:+ nl +:+ pad +:+ "}")
  | v => render asc "," ":" v
  end.
Definition dumps_indent (asc : bool) (v : json) : option string := render_indent asc EmptyString v.

(** ** [json.loads] *)

Definition is_json_space (c : ascii) : bool :=
  ((ord c =? 32) || (ord c =? 9) || (ord c =? 10) || (ord c =? 13))%N.
Definition skip_ws : string → string := lstrip_by is_json_space.

Definition hex_val (c : ascii) : option N :=
  if in_range 48 57 c then Some (ord c - 48)%N
  else if in_range 97 102 c then Some (ord c - 87)%N
  else if in_range 65 70 c then Some (ord c - 55)%N else None.

(** The characters of a string up to the closing quote. *)
Fixpoint scan_str (s : string) : option (string * string) :=
  match s with
  | EmptyString => None
  | String c s =>
      if (ord c =? 34)%N then Some (EmptyString, s)
      else if (ord c =? 92)%N then
        match s with
        | EmptyString => None
        | String e s =>
            let n := ord e in
            if (n =? 117)%N then
              match s with
              | String h1 (String h2 (String h3 (String h4 s))) =>
                  a ← hex_val h1; b ← hex_val h2; x ← hex_val h3; y ← hex_val h4;
                  if ((a =? 0) && (b =? 0))%N
                  then '(r, t) ← scan_str s; Some (String (ascii_of_N (x * 16 + y)) r, t)
                  else None
              | _ => None
              end
            else
              d ← (if (n =? 34)%N then Some 34 else if (n =? 92)%N then Some 92
                   else if (n =? 47)%N then Some 47 else if (n =? 98)%N then Some 8
                   else if (n =? 102)%N then Some 12 else if (n =? 110)%N then Some 10
                   else if (n =? 114)%N then Some 13 else if (n =? 116)%N then Some 9
                   else None)%N;
              '(r, t) ← scan_str s; Some (String (ascii_of_N d) r, t)
        end
      else if (ord c <? 32)%N then None
      else '(r, t) ← scan_str s; Some (String c r, t)
  end.

(** A number: an optional minus, a zero or digits that do not start with one,
    and for a float a fraction and an exponent. *)
Definition scan_int (t : string) : option (string * string) :=
  match t with
  | String c r => if (ord c =? 48)%N then Some (String c EmptyString, r)
                  else let '(d, t') := take_digits false false t in
                       if nonempty d then Some (d, t') else None
  | EmptyString => None
  end.

Definition scan_frac (t : string) : string * string :=
  match t with
  | String c r => if (ord c =? 46)%N then
                    let '(d, t') := take_digits false false r in
                    if nonempty d then (d, t') else (EmptyString, t)
                  else (EmptyString, t)
  | EmptyString => (EmptyString, t)
  end.

Definition scan_exp (t : string) : option Z * string :=
  match take_exponent false t with
  | Some (e, t') => if (String.length t' <? String.length t)%nat then (Some e, t') else (None, t)
  | None => (None, t)
  end.

Definition scan_num (s : string) : option (json * string) :=
  let '(neg, t) := match s with
                   | String c r => if (ord c =? 45)%N then (true, r) else (false, s)
                   | EmptyString => (false, s)
                   end in
  '(ip, t) ← scan_int t;
  let '(fp, t) := scan_frac t in
  let '(ex, t) := scan_exp t in
  match fp, ex with
  | EmptyString, None =>
      Some (JInt (if neg then - digits_val 0 ip else digits_val 0 ip)%Z, t)
  | _, _ => Some (JFloat (float_of_decimal neg (ip +:+ fp) (default 0%Z ex - len fp)), t)
  end.

Section parser.
(** [object_pairs_hook] *)
Context (hook : list (string * json) → res json).

Definition fail_json {A} : res A := Raise JSONDecodeError.

Fixpoint parse (fuel : nat) (s : string) : res (json * string) :=
  match fuel with
  | O => fail_json
  | S fuel =>
      match s with
      | EmptyString => fail_json
      | String c r =>
          if (ord c =? 34)%N then
            match scan_str r with Some (a, t) => Ok (JStr a, t) | None => fail_json end
          else if (ord c =? 91)%N then
            match skip_ws r with
            | String d t => if (ord d =? 93)%N then Ok (JArr [], t)
                            else '(l, t) ← parse_items fuel (String d t); Ok (JArr l, t)
            | EmptyString => fail_json
            end
          else if (ord c =? 123)%N then
            match skip_ws r with
            | String d t =>
                if (ord d =? 125)%N then v ← hook []; Ok (v, t)
                else '(l, t) ← parse_members fuel (String d t); v ← hook l; Ok (v, t)
            | EmptyString => fail_json
            end
          else if startswith s "null" then Ok (JNull, str_drop 4 s)
          else if startswith s "true" then Ok (JBool true, str_drop 4 s)
          else if startswith s "false" then Ok (JBool false, str_drop 5 s)
          else if startswith s "NaN" then Ok (JFloat f_nan, str_drop 3 s)
          else if startswith s "Infinity" then Ok (JFloat (f_inf false), str_drop 8 s)
          else if startswith s "-Infinity" then Ok (JFloat (f_inf true), str_drop 9 s)
          else match scan_num s with Some a => Ok a | None => fail_json end
      end
  end
with parse_items (fuel : nat) (s : string) : res (list json * string) :=
  match fuel with
  | O => fail_json
  | S fuel =>
      '(v, t) ← parse fuel (skip_ws s);
      match skip_ws t with
      | String c t =>
          if (ord c =? 44)%N then '(l, t) ← parse_items fuel t; Ok (v :: l, t)
          else if (ord c =? 93)%N then Ok ([v], t) else fail_json
      | EmptyString => fail_json
      end
  end
with parse_members (fuel : nat) (s : string) : res (list (string * json) * string) :=
  match fuel with
  | O => fail_json
  | S fuel =>
      match skip_ws s with
      | String q r =>
          if (ord q =? 34)%N then
            match scan_str r with
            | Some (k, t) =>
                match skip_ws t with
                | String c t =>
                    if (ord c =? 58)%N then
                      '(v, t) ← parse fuel (skip_ws t);
                      match skip_ws t with
                      | String c t =>
                          if (ord c =? 44)%N
                          then '(l, t) ← parse_members fuel t; Ok ((k, v) :: l, t)
                          else if (ord c =? 125)%N then Ok ([(k, v)], t) else fail_json
                      | EmptyString => fail_json
                      end
                    else fail_json
                | EmptyString => fail_json
                end
            | None => fail_json
            end
          else fail_json
      | EmptyString => fail_json
      end
  end.

(** [json.loads(s, object_pairs_hook=hook)]. Every call consumes a character,
    so the length of the text is enough fuel. *)
Definition loads_hook (s : string) : res json :=
  '(v, t) ← parse (S (S (2 * String.length s))) (skip_ws s);
  if nonempty (skip_ws t) then fail_json else Ok v.
End parser.

Definition dict_hook (pairs : list (string * json)) : res json := Ok (JObj (dict_of pairs)).

(** [json.loads(s)] *)
Definition loads (s : string) : res json := loads_hook dict_hook s.

(** [json.loads(raw)] of UTF-8 bytes. *)
Definition loads_bytes (hook : list (string * json) → res json) (raw : string) : res json :=
  s ← from_option (utf8_decode raw) UnicodeDecodeError; loads_hook hook s.

(** ** Reading back what [dumps] wrote *)

(** No float, and no object with a repeated key: what [json.dumps] of a Python
    value without floats produces. *)
Fixpoint plain_json (v : json) : bool :=
  match v with
  | JFloat _ => false
  | JArr l => forallb plain_json l
  | JObj l => bool_decide (NoDup l.*1) && forallb (λ kv, plain_json (snd kv)) l
  | _ => true
  end.

(** Text after a number that does not continue it. *)
Definition num_end (s : string) : bool :=
  match s with
  | EmptyString => true
  | String c _ => negb (is_digit c || (ord c =? 46) || (ord c =? 101) || (ord c =? 69))%N
  end.

Lemma scan_str_esc_char asc c s :
  scan_str (esc_char asc c +:+ s) = '(r, t) ← scan_str s; Some (String c r, t).
Proof. destruct asc, c as [[] [] [] [] [] [] [] []]; reflexivity. Qed.

Lemma scan_str_esc asc k s : scan_str (esc_go asc k +:+ dq +:+ s) = Some (k, s).
Proof.
  induction k as [|c k IH]; [done|]. cbn [esc_go].
  by rewrite str_app_assoc, scan_str_esc_char, IH.
Qed.

Lemma take_digits_app ds s prev : str_all is_digit ds = true → num_end s = true →
  take_digits false prev (ds +:+ s) = (ds, s).
Proof.
  revert prev. induction ds as [|c ds IH]; intros prev.
  - intros _ Hs. destruct s as [|c s]; [done|]. simpl in *.
    apply negb_true_iff in Hs. repeat apply orb_false_elim in Hs as [Hs ?].
    rewrite Hs. by destruct s.
  - cbn [str_all String.append take_digits]. intros [-> Hd]%andb_prop Hs. by rewrite IH.
Qed.

Lemma pretty_N_go_head x s : (0 < x)%N →
  ∃ c r, pretty_N_go x s = String c r ∧ (ord c =? 48)%N = false.
Proof.
  revert s. induction (N.lt_wf_0 x) as [x _ IH]; intros s Hx.
  rewrite pretty_N_go_step by done. destruct (decide (x < 10)%N) as [Hlt|Hge].
  - rewrite N.div_small, pretty_N_go_0, N.mod_small by done. do 2 eexists. split; [done|].
    assert (x = 1 ∨ x = 2 ∨ x = 3 ∨ x = 4 ∨ x = 5 ∨ x = 6 ∨ x = 7 ∨ x = 8 ∨ x = 9)%N as H by lia.
    by destruct_or!; subst.
  - apply IH; [apply N.div_lt; lia|]. apply N.div_str_pos. lia.
Qed.

Lemma num_end_no_exponent s : num_end s = true → take_exponent false s = Some (0%Z, s).
Proof.
  destruct s as [|c s]; [done|]. simpl. intros Hs. apply negb_true_iff in Hs.
  repeat apply orb_false_elim in Hs as [Hs ?]. 
  by repeat match goal with H : _ = false |- _ => try rewrite H; clear H end.
Qed.

Lemma num_end_no_dot c s : num_end (String c s) = true → (ord c =? 46)%N = false.
Proof. simpl. intros Hs. apply negb_true_iff in Hs. by repeat apply orb_false_elim in Hs as [Hs ?]. Qed.

Lemma scan_int_digits ip s : num_end s = true →
  ip ≠ EmptyString → str_all is_digit ip = true → (∀ r, ip = String "0" r → r = EmptyString) →
  scan_int (ip +:+ s) = Some (ip, s).
Proof.
  intros Hs Hne Hd H0. destruct ip as [|c ip]; [done|]. cbn [String.append scan_int].
  destruct (N.eqb_spec (ord c) 48) as [E|_].
  - assert (c = "0"%char) as -> by (rewrite <- (ascii_N_embedding c); unfold ord in E; by rewrite E).
    by rewrite (H0 ip).
  - change (String c (ip +:+ s)) with (String c ip +:+ s). by rewrite take_digits_app.
Qed.

Lemma scan_num_digits (neg : bool) ip s : num_end s = true →
  ip ≠ EmptyString → str_all is_digit ip = true → (∀ r, ip = String "0" r → r = EmptyString) →
  scan_num ((if neg then "-" else EmptyString) +:+ ip +:+ s) =
  Some (JInt (if neg then - digits_val 0 ip else digits_val 0 ip)%Z, s).
Proof.
  intros Hs Hne Hd H0. pose proof (scan_int_digits ip s Hs Hne Hd H0) as Hip.
  assert (Hfrac : scan_frac s = (EmptyString, s)).
  { destruct s as [|d s]; [done|]. cbn [scan_frac]. by rewrite (num_end_no_dot _ _ Hs). }
  assert (Hexp : scan_exp s = (None, s)).
  { unfold scan_exp. by rewrite (num_end_no_exponent s Hs), Nat.ltb_irrefl. }
  unfold scan_num. destruct neg.
  - cbn [String.append]. change (ord "-" =? 45)%N with true. cbv iota beta zeta.
    rewrite Hip. cbn [mbind option_bind]. by rewrite Hfrac, Hexp.
  - change (EmptyString +:+ ip +:+ s) with (ip +:+ s).
    destruct ip as [|c ip]; [done|]. cbn [String.append].
    assert ((ord c =? 45)%N = false) as ->.
    { apply N.eqb_neq. simpl in Hd. apply andb_prop in Hd as [Hc _].
      unfold is_digit, in_range in Hc. apply andb_prop in Hc as [Hc%N.leb_le _]. lia. }
    change (String c (ip +:+ s)) with (String c ip +:+ s).
    rewrite Hip. cbn [mbind option_bind]. by rewrite Hfrac, Hexp.
Qed.

(** [str(n)] is an optional minus and digits without a leading zero. *)
Lemma py_str_int_shape z : ∃ neg ip,
  py_str_int z = (if neg : bool then "-" else EmptyString) +:+ ip ∧ ip ≠ EmptyString ∧
  str_all is_digit ip = true ∧ (∀ r, ip = String "0" r → r = EmptyString) ∧
  z = (if neg then - digits_val 0 ip else digits_val 0 ip)%Z.
Proof.
  assert (Hpos : ∀ p, pretty (Npos p) ≠ EmptyString ∧ str_all is_digit (pretty (Npos p)) = true ∧
     (∀ r, pretty (Npos p) = String "0" r → r = EmptyString) ∧ Zpos p = digits_val 0 (pretty (Npos p))).
  { intros p. destruct (pretty_N_digits (Npos p)) as (Hd & Hv & Hne). split_and!; try done.
    intros r Hr. unfold pretty, pretty_N in Hr. case_decide; [done|].
    destruct (pretty_N_go_head (Npos p) EmptyString) as (c & t & Ht & Hc); [done|].
    rewrite Ht in Hr. by injection Hr as -> _. }
  destruct z as [|p|p].
  - exists false, "0". split_and!; try done. by intros r [= <-].
  - destruct (Hpos p) as (? & ? & ? & ?). by exists false, (pretty (Npos p)).
  - destruct (Hpos p) as (? & ? & ? & Hv). exists true, (pretty (Npos p)). split_and!; try done.
    rewrite <- Hv. done.
Qed.

Lemma scan_num_str z s : num_end s = true → scan_num (py_str_int z +:+ s) = Some (JInt z, s).
Proof.
  intros Hs. destruct (py_str_int_shape z) as (neg & ip & -> & Hne & Hd & H0 & Hz).
  rewrite str_app_assoc, scan_num_digits by done. by rewrite <- Hz.
Qed.

Lemma skip_ws_cons c s : is_json_space c = false → skip_ws (String c s) = String c s.
Proof. intros Hc. unfold skip_ws. cbn [lstrip_by]. by rewrite Hc. Qed.

Section roundtrip.
Context (asc : bool) (hook : list (string * json) → res json).
(** The hook keeps the members of an object without repeated keys. *)
Context (Hhook : ∀ l, NoDup l.*1 → hook l = Ok (JObj l)).

Local Abbreviation rend := (render asc "," ":").
Local Abbreviation rend_kv :=
  (λ kv : string * json, a ← rend (snd kv); Some (dump_str asc (fst kv) +:+ ":" +:+ a)).

(** Fuel that is enough to read the text of a value. *)
Fixpoint jfuel (v : json) : nat :=
  match v with
  | JArr l => S (foldr (λ x n, S (jfuel x + n)) O l)%nat
  | JObj l => S (foldr (λ kv n, S (jfuel (snd kv) + n)) O l)%nat
  | _ => 1%nat
  end.

(** A value's text starts with a character that is not white space and does
    not close a bracket. *)
Definition starts_value (t : string) : Prop := ∃ c r, t = String c r ∧
  is_json_space c = false ∧ (ord c =? 93)%N = false ∧ (ord c =? 125)%N = false.

Lemma starts_value_ws t s : starts_value t → skip_ws (t +:+ s) = t +:+ s.
Proof. intros (c & r & -> & Hc & _). unfold skip_ws. simpl. by rewrite Hc. Qed.

Lemma digit_starts c r : is_digit c = true → starts_value (String c r).
Proof.
  intros Hc. exists c, r. split; [done|]. unfold is_digit, in_range in Hc.
  apply andb_prop in Hc as [H1%N.leb_le H2%N.leb_le]. unfold is_json_space.
  rewrite !(proj2 (N.eqb_neq _ _)) by lia. done.
Qed.

Lemma render_starts v t : rend v = Some t → starts_value t.
Proof.
  destruct v as [|b|z|f|s|l|l]; cbn [render].
  - intros [= <-]. by do 2 eexists.
  - intros [= <-]. destruct b; by do 2 eexists.
  - intros [= <-]. destruct (py_str_int_shape z) as (neg & ip & -> & Hne & Hd & _).
    destruct neg; [by do 2 eexists|]. destruct ip as [|c ip]; [done|].
    apply digit_starts. simpl in Hd. by apply andb_prop in Hd as [? _].
  - done.
  - intros [= <-]. by do 2 eexists.
  - destruct (join_opt _ _ l); [|done]. intros [= <-]. by do 2 eexists.
  - destruct (join_opt _ _ l); [|done]. intros [= <-]. by do 2 eexists.
Qed.

Definition reads (v : json) : Prop := ∀ t s fuel,
  plain_json v = true → rend v = Some t → num_end s = true → (jfuel v ≤ fuel)%nat →
  parse hook fuel (t +:+ s) = Ok (v, s).

Lemma startswith_ne c d r p : c ≠ d → startswith (String c r) (String d p) = false.
Proof.
  intros Hne. apply not_true_is_false. rewrite startswith_spec. intros (t & [= -> _]). done.
Qed.

Lemma parse_int z s fuel : num_end s = true → parse hook (S fuel) (py_str_int z +:+ s) = Ok (JInt z, s).
Proof.
  intros Hs. pose proof (scan_num_str z s Hs) as Hscan.
  destruct (py_str_int_shape z) as (neg & ip & Hz & Hne & Hd & _). rewrite Hz in *. clear Hz.
  destruct ip as [|c ip]; [done|]. simpl in Hd. apply andb_prop in Hd as [Hc _].
  unfold is_digit, in_range in Hc. apply andb_prop in Hc as [H1%N.leb_le H2%N.leb_le].
  assert (Hcne : ∀ d, (ord d <? 48)%N || (57 <? ord d)%N = true → c ≠ d).
  { intros d Hd ->. apply orb_prop in Hd as [?%N.ltb_lt|?%N.ltb_lt]; lia. }
  destruct neg; cbn [String.append] in *; cbn [parse].
  - change (ord "-" =? 34)%N with false. change (ord "-" =? 91)%N with false.
    change (ord "-" =? 123)%N with false. cbv iota.
    rewrite !startswith_ne by done.
    assert (startswith (String "-" (String c (ip +:+ s))) "-Infinity" = false) as ->.
    { apply not_true_is_false. rewrite startswith_spec. intros (t & [= -> _]). by vm_compute in H1. }
    by rewrite Hscan.
  - rewrite !(proj2 (N.eqb_neq _ _)) by lia.
    rewrite !startswith_ne by (apply Hcne; done). by rewrite Hscan.
Qed.

Lemma num_end_sep c s : ((ord c =? 44) || (ord c =? 93) || (ord c =? 125))%N = true →
  num_end (String c s) = true.
Proof.
  intros Hc. simpl. apply negb_true_iff.
  assert (ord c = 44 ∨ ord c = 93 ∨ ord c = 125)%N as Hcc.
  { apply orb_prop in Hc as [Hc|?%N.eqb_eq]; [|by eauto].
    apply orb_prop in Hc as [?%N.eqb_eq|?%N.eqb_eq]; eauto. }
  unfold is_digit, in_range. by destruct_or!; rewrite Hcc.
Qed.

Lemma join_opt_cons {A} (f : A → option string) sep x y l t :
  join_opt f sep (x :: y :: l) = Some t ↔
  ∃ a b, f x = Some a ∧ join_opt f sep (y :: l) = Some b ∧ t = a +:+ sep +:+ b.
Proof.
  change (join_opt f sep (x :: y :: l)) with
    (a ← f x; b ← join_opt f sep (y :: l); Some (a +:+ sep +:+ b)).
  generalize (join_opt f sep (y :: l)). intros o.
  destruct (f x) as [a|]; [|split; [done|by intros (? & ? & ? & _)]].
  destruct o as [b|]; simpl; [|split; [done|by intros (? & ? & _ & ? & _)]].
  split; [intros [= <-]; by eauto|by intros (? & ? & [= <-] & [= <-] & ->)].
Qed.

Lemma parse_items_ok l body s fuel : l ≠ [] → Forall reads l → forallb plain_json l = true →
  join_opt rend "," l = Some body → (foldr (λ x n, S (jfuel x + n)) O l ≤ fuel)%nat →
  parse_items hook fuel (body +:+ "]" +:+ s) = Ok (l, s).
Proof.
  intros Hne Hl. revert body fuel Hne. induction Hl as [|v l Hv Hl IH]; intros body fuel Hne; [done|].
  cbn [forallb foldr]. intros [Hpv Hpl]%andb_prop Hb Hf. destruct fuel as [|fuel]; [lia|].
  cbn [parse_items]. destruct l as [|v' l].
  - change (rend v = Some body) in Hb.
    rewrite starts_value_ws by (by eapply render_starts).
    rewrite (Hv body) by (done || (simpl in Hf; lia)). reflexivity.
  - apply join_opt_cons in Hb as (a & b & Ha & Hb & ->). rewrite !str_app_assoc.
    rewrite starts_value_ws by (by eapply render_starts).
    rewrite (Hv a) by (done || lia).
    cbn [mbind res_bind String.append]. rewrite skip_ws_cons by done. cbv iota. change (ord "," =? 44)%N with true. cbv iota.
    rewrite (IH b) by (done || lia). done.
Qed.

Lemma parse_members_ok l body s fuel : l ≠ [] → Forall (λ kv, reads (snd kv)) l →
  forallb (λ kv, plain_json (snd kv)) l = true → join_opt rend_kv "," l = Some body →
  (foldr (λ kv n, S (jfuel (snd kv) + n)) O l ≤ fuel)%nat →
  parse_members hook fuel (body +:+ "}" +:+ s) = Ok (l, s).
Proof.
  intros Hne Hl. revert body fuel Hne. induction Hl as [|[k v] l Hv Hl IH]; intros body fuel Hne; [done|].
  cbn [forallb foldr snd] in *. intros [Hpv Hpl]%andb_prop Hb Hf. destruct fuel as [|fuel]; [lia|].
  assert (Hone : ∀ a c t, rend v = Some a → num_end (String c t) = true → is_json_space c = false →
    parse_members hook (S fuel) ((dump_str asc k +:+ ":" +:+ a) +:+ String c t) =
    if (ord c =? 44)%N then '(l, t) ← parse_members hook fuel t; Ok ((k, v) :: l, t)
    else if (ord c =? 125)%N then Ok ([(k, v)], t) else fail_json).
  { intros a c t Ha Hc Hsp. unfold dump_str. rewrite !str_app_assoc. cbn [parse_members].
    unfold dq at 1, chr at 1. cbn [String.append].
    rewrite skip_ws_cons by done.
    cbv iota. change (ord (ascii_of_N 34) =? 34)%N with true. cbv iota.
    rewrite scan_str_esc. cbv iota beta.
    cbn [String.append]. rewrite skip_ws_cons by done. cbv iota.
    change (ord ":" =? 58)%N with true. cbv iota.
    rewrite starts_value_ws by (by eapply render_starts).
    rewrite (Hv a) by (done || lia). cbn [mbind res_bind].
    by rewrite skip_ws_cons. }
  destruct l as [|kv' l].
  - change (rend_kv (k, v) = Some body) in Hb. simpl in Hb.
    destruct (rend v) as [a|] eqn:Ha; [|done]. injection Hb as <-.
    change ("}" +:+ s) with (String "}"%char s). by rewrite (Hone a).
  - apply join_opt_cons in Hb as (a & b & Ha & Hb & ->). simpl in Ha.
    destruct (rend v) as [a'|] eqn:Ha'; [|done]. injection Ha as <-.
    rewrite str_app_assoc.
    change (("," +:+ b) +:+ "}" +:+ s) with (String ","%char (b +:+ "}" +:+ s)).
    rewrite (Hone a') by done. change (ord "," =? 44)%N with true. cbv iota.
    rewrite (IH b) by (done || lia). done.
Qed.

Lemma reads_all v : reads v.
Proof.
  induction v as [|b|z|f|k|l IH|l IH] using json_nested_ind; intros t s fuel Hp Ht Hs Hf;
    cbn [jfuel] in Hf; (destruct fuel as [|fuel]; [lia|]); cbn [render] in Ht.
  - injection Ht as <-. cbn [parse]. by rewrite startswith_app.
  - injection Ht as <-. destruct b; cbn [parse]; rewrite startswith_app;
      cbn [String.append]; by rewrite !startswith_ne.
  - injection Ht as <-. by apply parse_int.
  - done.
  - injection Ht as <-. unfold dump_str. rewrite !str_app_assoc. cbn [parse].
    unfold dq at 1, chr at 1. cbn [String.append].
    change (ord (ascii_of_N 34) =? 34)%N with true. cbv iota. by rewrite scan_str_esc.
  - destruct (join_opt rend "," l) as [body|] eqn:Eb; [|done]. injection Ht as <-.
    destruct l as [|v l]; [by injection Eb as <-|]. cbn [String.append].
    rewrite str_app_assoc. cbn [parse]. change (ord "[" =? 34)%N with false. change (ord "[" =? 91)%N with true. cbv iota.
    assert (Hst : starts_value body).
    { destruct l as [|v' l]; [by eapply render_starts|].
      apply join_opt_cons in Eb as (a & b & Ha & _ & ->).
      apply render_starts in Ha as (c & r & -> & ?). by eexists c, _. }
    rewrite starts_value_ws by done.
    assert (Hit : parse_items hook fuel (body +:+ "]" +:+ s) = Ok (v :: l, s))
      by (apply parse_items_ok; done || lia).
    destruct Hst as (c & r & -> & _ & Hc & _). cbn [String.append] in *. by rewrite Hc, Hit.
  - destruct (join_opt rend_kv "," l) as [body|] eqn:Eb; [|done].
    injection Ht as <-. cbn [plain_json] in Hp.
    apply andb_prop in Hp as [Hnd%bool_decide_eq_true Hp].
    destruct l as [|[k v] l].
    { injection Eb as <-. cbn [String.append parse]. 
      change (ord "{" =? 34)%N with false. change (ord "{" =? 91)%N with false.
      change (ord "{" =? 123)%N with true. cbv iota.
      rewrite skip_ws_cons by done. cbv iota.
      change (ord "}" =? 125)%N with true. cbv iota. by rewrite Hhook by constructor. }
    cbn [String.append]. rewrite str_app_assoc. cbn [parse].
    change (ord "{" =? 34)%N with false. change (ord "{" =? 91)%N with false.
    change (ord "{" =? 123)%N with true. cbv iota.
    assert (Hst : ∃ r, body = dq +:+ r).
    { destruct l as [|kv' l].
      - change (rend_kv (k, v) = Some body) in Eb. simpl in Eb. destruct (rend v); [|done].
        injection Eb as <-. unfold dump_str. rewrite !str_app_assoc. by eexists.
      - apply join_opt_cons in Eb as (a & b & Ha & _ & ->). simpl in Ha. destruct (rend v); [|done].
        injection Ha as <-. unfold dump_str. rewrite !str_app_assoc. by eexists. }
    assert (Hit : parse_members hook fuel (body +:+ "}" +:+ s) = Ok ((k, v) :: l, s))
      by (apply parse_members_ok; done || lia).
    destruct Hst as (r & ->). unfold dq, chr in *. cbn [String.append] in *.
    rewrite skip_ws_cons by done. cbv iota.
    change (ord (ascii_of_N 34) =? 125)%N with false. cbv iota.
    rewrite Hit. cbn [mbind res_bind]. by rewrite Hhook.
Qed.

Lemma length_join_opt {A} (f : A → option string) (g : A → nat) l body :
  Forall (λ x, ∀ t, f x = Some t → g x ≤ 2 * String.length t)%nat l →
  join_opt f "," l = Some body →
  (foldr (λ x n, S (g x + n)) O l ≤ 2 * String.length body + 1)%nat.
Proof.
  intros Hl. revert body. induction Hl as [|x l Hx Hl IH]; intros body Hb; [simpl; lia|].
  destruct l as [|y l].
  - change (f x = Some body) in Hb. apply Hx in Hb. simpl. lia.
  - apply join_opt_cons in Hb as (a & b & Ha & Hb & ->). apply Hx in Ha. apply IH in Hb.
    cbn [foldr] in *. rewrite !length_str_app. simpl. lia.
Qed.

Lemma jfuel_length v t : rend v = Some t → (jfuel v ≤ 2 * String.length t)%nat.
Proof.
  revert t. induction v as [|b|z|f|k|l IH|l IH] using json_nested_ind; intros t Ht.
  1-5: destruct (render_starts _ _ Ht) as (c & r & -> & _); simpl; lia.
  - cbn [render] in Ht. destruct (join_opt rend "," l) as [body|] eqn:Eb; [|done].
    injection Ht as <-. apply (length_join_opt _ jfuel) in Eb; [|done].
    cbn [jfuel String.append String.length]. rewrite length_str_app. simpl. lia.
  - cbn [render] in Ht. destruct (join_opt rend_kv "," l) as [body|] eqn:Eb; [|done].
    injection Ht as <-.
    apply (length_join_opt _ (λ kv, jfuel (snd kv))) in Eb.
    + cbn [jfuel String.append String.length]. rewrite length_str_app. simpl. lia.
    + eapply Forall_impl; [exact IH|]. intros [k v] Hv t. cbn [fst snd] in *.
      destruct (rend v) as [a|]; [|done]. intros [= <-]. specialize (Hv a eq_refl).
      cbn [String.length]. rewrite length_str_app. cbn [String.length]. lia.
Qed.

(** Reading the text of a value gives the value back. *)
Lemma loads_render v t : plain_json v = true → rend v = Some t → loads_hook hook t = Ok v.
Proof.
  intros Hp Ht. unfold loads_hook.
  rewrite <- (str_app_nil_r t) at 2. rewrite starts_value_ws by (by eapply render_starts).
  rewrite (reads_all v t EmptyString) by (done || (apply jfuel_length in Ht; lia)). done.
Qed.
End roundtrip.

(** ** Sorting the keys *)

Lemma insert_key_perm {A} (kv : string * A) l : insert_key kv l ≡ₚ kv :: l.
Proof.
  induction l as [|kv' l IH]; simpl; [done|]. destruct (String.leb _ _); [done|].
  rewrite IH. by rewrite Permutation_swap.
Qed.

Lemma sort_keys_perm {A} (l : list (string * A)) : sort_keys l ≡ₚ l.
Proof. induction l as [|kv l IH]; simpl; [done|]. by rewrite insert_key_perm, IH. Qed.

(** Adjacent keys in order. *)
Definition key_le {A} (a b : string * A) : Prop := String.leb (fst a) (fst b) = true.

Lemma insert_key_hd {A} (kv x : string * A) l :
  key_le x kv → HdRel key_le x l → HdRel key_le x (insert_key kv l).
Proof.
  intros Hx Hl. destruct l as [|kv' l]; simpl; [by constructor|].
  inversion Hl; subst. destruct (String.leb _ _); by constructor.
Qed.

Lemma insert_key_sorted {A} (kv : string * A) l : Sorted key_le l → Sorted key_le (insert_key kv l).
Proof.
  induction 1 as [|kv' l Hl IH Hhd]; simpl; [by repeat constructor|].
  destruct (String.leb (fst kv) (fst kv')) eqn:E.
  - constructor; [by constructor|]. by constructor.
  - constructor; [done|]. apply insert_key_hd; [|done].
    unfold key_le. destruct (String.leb_total (fst kv) (fst kv')) as [?|?]; congruence.
Qed.

Lemma sort_keys_sorted {A} (l : list (string * A)) : Sorted key_le (sort_keys l).
Proof. induction l as [|kv l IH]; simpl; [constructor|]. by apply insert_key_sorted. Qed.

Lemma sort_keys_id {A} (l : list (string * A)) : Sorted key_le l → sort_keys l = l.
Proof.
  induction 1 as [|kv l Hl IH Hhd]; simpl; [done|]. rewrite IH.
  destruct Hhd as [|kv' l' Hle]; simpl; [done|]. unfold key_le in Hle. by rewrite Hle.
Qed.

(** Sorting commutes with a map on the values. *)
Lemma sort_keys_map {A B} (f : A → B) (l : list (string * A)) :
  sort_keys (List.map (λ kv, (fst kv, f (snd kv))) l) =
  List.map (λ kv, (fst kv, f (snd kv))) (sort_keys l).
Proof.
  induction l as [|kv l IH]; simpl; [done|]. rewrite IH. generalize (sort_keys l). intros m.
  induction m as [|kv' m IHm]; simpl; [done|]. destruct (String.leb _ _); simpl; [done|by rewrite IHm].
Qed.

Lemma sorted_json_idem v : sorted_json (sorted_json v) = sorted_json v.
Proof.
  induction v as [| | | | |l IH|l IH] using json_nested_ind; simpl; try done; f_equal.
  - rewrite List.map_map. induction IH as [|x l Hx _ IH]; simpl; [done|by rewrite Hx, IH].
  - rewrite (sort_keys_map sorted_json (sort_keys _)), (sort_keys_id (sort_keys _)),
      (sort_keys_map sorted_json l), List.map_map by apply sort_keys_sorted.
    simpl.
    assert (Forall (λ kv, sorted_json (sorted_json (snd kv)) = sorted_json (snd kv)) (sort_keys l)) as H
      by (by rewrite sort_keys_perm).
    clear IH. induction H as [|x m Hx _ IH]; simpl; [done|by rewrite Hx, IH].
Qed.

Lemma fmap_fst_map {A B} (f : A → B) (l : list (string * A)) :
  (List.map (λ kv, (fst kv, f (snd kv))) l).*1 = l.*1.
Proof. induction l as [|kv l IH]; [done|]. cbn. f_equal. exact IH. Qed.

Lemma sorted_json_plain v : plain_json v = true → plain_json (sorted_json v) = true.
Proof.
  induction v as [| | | | |l IH|l IH] using json_nested_ind; simpl; try done.
  - rewrite !forallb_forall. intros Hl x (y & <- & Hy)%in_map_iff.
    rewrite Forall_forall in IH. apply IH; [by apply list_elem_of_In|by apply Hl].
  - intros [Hnd%bool_decide_eq_true Hl]%andb_prop. apply andb_true_intro. split.
    + apply bool_decide_eq_true. rewrite (sort_keys_map sorted_json), (fmap_fst_map sorted_json).
      by rewrite sort_keys_perm.
    + apply forallb_forall. intros kv Hkv. rewrite (sort_keys_map sorted_json) in Hkv.
      apply in_map_iff in Hkv as (kv' & <- & Hin). simpl.
      rewrite <- list_elem_of_In, sort_keys_perm in Hin.
      rewrite Forall_forall in IH. apply IH; [done|].
      rewrite forallb_forall in Hl. by apply (Hl kv'), list_elem_of_In.
Qed.

(** Every value without floats has a text. *)
Lemma join_opt_Some {A} (f : A → option string) sep l :
  Forall (λ x, is_Some (f x)) l → is_Some (join_opt f sep l).
Proof.
  induction 1 as [|x l [a Ha] Hl IH]; [by eexists|]. destruct l as [|y l].
  - by exists a.
  - destruct IH as [b Hb]. exists (a +:+ sep +:+ b). apply join_opt_cons. by exists a, b.
Qed.

Lemma render_Some asc isep ksep v : plain_json v = true → is_Some (render asc isep ksep v).
Proof.
  induction v as [| | | | |l IH|l IH] using json_nested_ind; cbn [render plain_json];
    try (intros _; eexists; reflexivity); try done.
  - intros Hl. destruct (join_opt_Some (render asc isep ksep) isep l) as [t ->]; [|eexists; reflexivity].
    rewrite forallb_forall in Hl. eapply Forall_impl; [|intros x Hx; exact Hx].
    rewrite Forall_forall in *. intros x Hx. apply IH; [done|]. by apply Hl, list_elem_of_In.
  - intros [_ Hl]%andb_prop.
    destruct (join_opt_Some (λ kv, a ← render asc isep ksep (snd kv);
      Some (dump_str asc (fst kv) +:+ ksep +:+ a)) isep l) as [t ->]; [|eexists; reflexivity].
    rewrite forallb_forall in Hl. rewrite Forall_forall in *. intros kv Hkv.
    destruct (IH kv Hkv) as [a ->]; [by apply Hl, list_elem_of_In|]. eexists; reflexivity.
Qed.

(** [json.loads] of [json.dumps] gives the value with sorted keys, and that
    value has the same text again. *)
Lemma loads_dumps asc hook v t : (∀ l, NoDup l.*1 → hook l = Ok (JObj l)) →
  plain_json v = true → dumps_compact asc v = Some t →
  loads_hook hook t = Ok (sorted_json v) ∧ dumps_compact asc (sorted_json v) = Some t.
Proof.
  unfold dumps_compact. intros Hh Hp Ht. split.
  - eapply loads_render; [done|by apply sorted_json_plain|done].
  - by rewrite sorted_json_idem.
Qed.
