(* ===== verification/PyNum.v ===== *)
(** * Python numbers: text and conversions

    The text of a float ([str(f)] and the format specifications [.3f], [+.2f] and
    [.4g]), the conversions [float(v)] and [int(v)], and the comparisons of JSON
    numbers. A finite float is an exact ratio of integers, so each of them is integer arithmetic:
    rounding to a number of decimals is one exact division with ties to even,
    and [str] takes the fewest digits that read back as the same float. *)

From S2P Require Import Prelude PyStr PyFloat PyJson.
From Stdlib Require Import Floats.SpecFloat.

Local Open Scope Z_scope.

(** The sign of a float and its magnitude as a ratio of integers. *)
Definition sign_bit (f : float) : bool :=
  match f with S754_zero s | S754_infinity s | S754_finite s _ _ => s | S754_nan => false end.

Definition ratio (f : float) : option (Z * Z) :=
  match f with
  | S754_zero _ => Some (0, 1)
  | S754_finite _ m e => Some (if 0 <=? e then (Zpos m * 2 ^ e, 1) else (Zpos m, 2 ^ (- e)))
  | _ => None
  end.

(** [n / d] rounded to an integer, ties to even. *)
Definition round_even (n d : Z) : Z :=
  let q := n / d in
  match 2 * (n mod d) ?= d with
  | Lt => q
  | Gt => q + 1
  | Eq => if Z.even q then q else q + 1
  end.

Fixpoint zeros (n : nat) : string :=
  match n with O => EmptyString | S n => String "0" (zeros n) end.

(** Decimal digits, padded with zeros on the left. *)
Definition digits (width : nat) (z : Z) : string :=
  let s := py_str_int z in zeros (width - String.length s) +:+ s.

Definition sign_text (plus : bool) (f : float) : string :=
  if sign_bit f then "-" else if plus then "+" else EmptyString.

Definition special (f : float) : string :=
  match f with S754_infinity _ => "inf" | _ => "nan" end.

(** [q / 10^k] written with [k] decimals. *)
Definition point (k : nat) (q : Z) : string :=
  let s := digits (S k) q in
  let i := (String.length s - k)%nat in
  if (k =? 0)%nat then s else str_take i s +:+ "." +:+ str_drop i s.

(** [format(f, '.<k>f')], and with a sign [format(f, '+.<k>f')]. *)
Definition fixed (plus : bool) (k : nat) (f : float) : string :=
  sign_text plus f +:+
  match ratio f with
  | Some (n, d) => point k (round_even (n * 10 ^ Z.of_nat k) d)
  | None => special f
  end.

(** ** Scientific notation *)

Definition ndigits (z : Z) : Z := len (py_str_int z).

(** The exponent [x] with [10^x <= n / d < 10^(x+1)], for positive [n], [d]. *)
Definition exponent10 (n d : Z) : Z :=
  if d <=? n then ndigits (n / d) - 1 else - ndigits ((d + n - 1) / n - 1).

(** [n / d * 10^s] as a ratio. *)
Definition scale (n d s : Z) : Z * Z := if 0 <=? s then (n * 10 ^ s, d) else (n, d * 10 ^ (- s)).

(** [p] significant digits [m] with [n / d ~ m * 10^(x - p + 1)]. *)
Definition significant (p : Z) (n d : Z) : Z * Z :=
  let x := exponent10 n d in
  let '(n', d') := scale n d (p - 1 - x) in
  let m := round_even n' d' in
  if m =? 10 ^ p then (10 ^ (p - 1), x + 1) else (m, x).

Definition exp_text (x : Z) : string :=
  "e" +:+ (if x <? 0 then "-" else "+") +:+ digits 2 (Z.abs x).

Definition mantissa_text (ds : string) : string :=
  let r := str_drop 1 ds in str_take 1 ds +:+ (if nonempty r then "." +:+ r else EmptyString).

Definition drop_zeros : string → string := rstrip_chars "0".

(** [format(f, '.<p>g')] *)
Definition general (p : nat) (f : float) : string :=
  sign_text false f +:+
  match ratio f with
  | None => special f
  | Some (n, d) =>
      if n =? 0 then "0" else
      let P := Z.max 1 (Z.of_nat p) in
      let '(m, x) := significant P n d in
      if (-4 <=? x) && (x <? P) then
        let k := Z.to_nat (P - 1 - x) in
        if (k =? 0)%nat then point k m else rstrip_chars "." (drop_zeros (point k m))
      else mantissa_text (drop_zeros (py_str_int m)) +:+ exp_text x
  end.

(** ** [str(f)] *)

(** The float nearest to [m * 10^e]. *)
Definition of_scaled (m e : Z) : float :=
  match m with
  | Zpos q => if 0 <=? e then float_of_ratio false (q * Z.to_pos (10 ^ e)) 1
              else float_of_ratio false q (Z.to_pos (10 ^ (- e)))
  | _ => f_zero
  end.

(** The number of [p] digits closest to [n / d] among the two around it that
    read back as [f]. *)
Definition reads_back (p x n d : Z) (f : float) : option Z :=
  let '(n', d') := scale n d (p - 1 - x) in
  let lo := n' / d' in
  let near := round_even n' d' in
  let far := if near =? lo then lo + 1 else lo in
  let ok (m : Z) := feqb (of_scaled m (x - p + 1)) f in
  if ok near then Some near else if ok far then Some far else None.

(** The shortest digits: 17 always are enough for a binary64 number. *)
Fixpoint shortest (fuel : nat) (p x n d : Z) (f : float) : Z * Z :=
  match fuel with
  | O => (fst (significant 17 n d), 17)
  | S fuel => match reads_back p x n d f with
              | Some m => (m, p)
              | None => shortest fuel (p + 1) x n d f
              end
  end.

Definition float_repr (f : float) : string :=
  sign_text false f +:+
  match ratio f with
  | None => special f
  | Some (n, d) =>
      if n =? 0 then "0.0" else
      let x := exponent10 n d in
      let '(m, p) := shortest 17 1 x n d (SFabs f) in
      let '(m, x) := if m =? 10 ^ p then (1, x + 1) else (m, x) in
      let ds := drop_zeros (py_str_int m) in
      let l := len ds in
      if (-4 <=? x) && (x <? 16) then
        if x <? 0 then "0." +:+ zeros (Z.to_nat (- x - 1)) +:+ ds
        else if l <=? x + 1 then ds +:+ zeros (Z.to_nat (x + 1 - l)) +:+ ".0"
        else str_take (Z.to_nat (x + 1)) ds +:+ "." +:+ str_drop (Z.to_nat (x + 1)) ds
      else mantissa_text ds +:+ exp_text x
  end.

(** Checked against CPython. *)
Example repr_examples :
  (float_repr ∘ f_lit <$> ["0.1"; "1.3"; "2"; "1e16"; "123456789012345678"; "1e-5"; "0.0001"; "-2.5e-7";
     "5684341886080801.5e-29"; "1e23"; "9007199254740993"; "nan"; "-inf"; "-0"])
  = ["0.1"; "1.3"; "2.0"; "1e+16"; "1.2345678901234568e+17"; "1e-05"; "0.0001"; "-2.5e-07";
     "5.684341886080802e-14"; "1e+23"; "9007199254740992.0"; "nan"; "-inf"; "-0.0"].
Proof. vm_compute. reflexivity. Qed.

Example format_examples :
  (fixed false 3 ∘ f_lit <$> ["0.0005"; "1.2345"; "2.5"; "-0.0001"; "999.9995"; "inf"]) =
    ["0.001"; "1.234"; "2.500"; "-0.000"; "1000.000"; "inf"] ∧
  (fixed false 0 ∘ f_lit <$> ["0.5"; "1.5"; "2.5"; "1234.5"]) = ["0"; "2"; "2"; "1234"] ∧
  (fixed true 2 ∘ f_lit <$> ["0.125"; "-3.14159"; "100"; "nan"]) = ["+0.12"; "-3.14"; "+100.00"; "+nan"] ∧
  (general 4 ∘ f_lit <$> ["0.1"; "123.456"; "12345"; "99999"; "0.00001234"; "0.0001"; "100"; "0"; "9999.5"]) =
    ["0.1"; "123.5"; "1.234e+04"; "1e+05"; "1.234e-05"; "0.0001"; "100"; "0"; "1e+04"].
Proof. vm_compute. done. Qed.

(** ** Conversions of JSON values *)

(** The integer part of a finite float. *)
Definition f_trunc (f : float) : option Z :=
  n_d ← ratio f; Some (if sign_bit f then - (n_d.1 / n_d.2) else n_d.1 / n_d.2).

(** [float(n)] of an integer *)
Definition float_of_int (z : Z) : res float := from_option (float_of_Z z) OverflowError.
(** [float(s)] of a text *)
Definition float_of_str (s : string) : res float :=
  from_option (py_float s) (ValueError "could not convert string to float").

(** [float(v)] *)
Definition float_of_json (v : json) : res float :=
  match v with
  | JFloat f => Ok f
  | JInt z => float_of_int z
  | JBool b => float_of_int (Z_of_bool b)
  | JStr s => float_of_str s
  | _ => Raise (TypeError "float() argument")
  end.

(** [int(v)] *)
Definition int_of_json (v : json) : res Z :=
  match v with
  | JFloat S754_nan => Raise (ValueError "cannot convert float NaN to integer")
  | JFloat f => from_option (f_trunc f) OverflowError
  | JInt z => Ok z
  | JBool b => Ok (Z_of_bool b)
  | JStr s => int_of s
  | _ => Raise (TypeError "int() argument")
  end.

(** [isinstance(v, bool)], [isinstance(v, (int, float))] and [isinstance(v, int)]:
    a [bool] is an [int]. *)
Definition is_bool (v : json) : bool := match v with JBool _ => true | _ => false end.
Definition is_number (v : json) : bool :=
  match v with JBool _ | JInt _ | JFloat _ => true | _ => false end.
Definition is_int (v : json) : bool := match v with JBool _ | JInt _ => true | _ => false end.

(** The argument of a [math] function: a text is not converted. *)
Definition real_of_json (v : json) : res float :=
  match v with JStr _ => Raise (TypeError "must be real number") | v => float_of_json v end.
(** [math.isfinite(v)] *)
Definition isfinite_json (v : json) : res bool := f ← real_of_json v; Ok (isfinite f).

(** [v <= 0] of a JSON value. *)
Definition nonpositive (v : json) : res bool :=
  match v with
  | JFloat f => Ok (fleb f f_zero)
  | JInt z => Ok (z <=? 0)
  | JBool b => Ok (negb b)
  | _ => Raise (TypeError "'<=' not supported")
  end.

(** [hash(v)]: lists and dicts have none. *)
Definition hashable (v : json) : res unit :=
  raise_if (match v with JArr _ | JObj _ => true | _ => false end) (TypeError "unhashable type").

(** [a / b] of floats *)
Definition div_float (a b : float) : res float :=
  if feqb b f_zero then Raise ZeroDivisionError else Ok (fdiv a b).

Example conversions :
  int_of_json (JFloat (f_lit "-2.7")) = Ok (-2) ∧ int_of_json (JStr " 12 ") = Ok 12 ∧
  float_of_json (JInt 3) = Ok (f_lit "3") ∧ float_of_json (JInt (10 ^ 400)) = Raise OverflowError ∧
  int_of_json (JFloat (f_inf true)) = Raise OverflowError ∧
  div_float (f_lit "1") (f_lit "-0") = Raise ZeroDivisionError.
Proof. vm_compute. done. Qed.

(** ** Comparing numbers

    Python compares an integer with a float exactly. *)

(** A JSON number as a float or an exact integer. *)
Inductive num : Type := NInt (z : Z) | NFloat (f : float).
Definition num_of (v : json) : option num :=
  match v with
  | JBool b => Some (NInt (Z_of_bool b))
  | JInt z => Some (NInt z)
  | JFloat f => Some (NFloat f)
  | _ => None
  end.

(** How a finite float compares with an integer. *)
Definition compare_ratio (f : float) (z : Z) : option comparison :=
  '(n, d) ← ratio f; Some (((if sign_bit f then - n else n) ?= z * d)).

Definition num_compare (a b : num) : option comparison :=
  match a, b with
  | NInt x, NInt y => Some (x ?= y)
  | NFloat f, NFloat g => SFcompare f g
  | NFloat (S754_infinity s), NInt _ => Some (if s then Lt else Gt)
  | NInt _, NFloat (S754_infinity s) => Some (if s then Gt else Lt)
  | NFloat f, NInt z => compare_ratio f z
  | NInt z, NFloat f => CompOpp <$> compare_ratio f z
  end.

(** [a < b] and [a > b]: false when one is NaN. *)
Definition num_lt (a b : num) : bool := match num_compare a b with Some Lt => true | _ => false end.

(** [a < b] on JSON values *)
Definition json_lt (a b : json) : res bool :=
  match num_of a, num_of b with
  | Some x, Some y => Ok (num_lt x y)
  | _, _ => Raise (TypeError "'<' not supported")
  end.

(** [math.isclose(a, b)] with the default tolerances. *)
Definition fabs (f : float) : float := SFabs f.
Definition isclose (a b : float) : bool :=
  if feqb a b then true
  else match a, b with
       | S754_infinity _, _ | _, S754_infinity _ => false
       | _, _ =>
           let diff := fabs (fsub b a) in
           fleb diff (fabs (fmul (f_lit "1e-9") b)) || fleb diff (fabs (fmul (f_lit "1e-9") a)) || fleb diff f_zero
       end.

(** [sum(l)] of floats, and [max(a, b)], [min(a, b)]. *)
Definition sum_floats (l : list float) : float := foldl fadd f_zero l.
Definition fmax (a b : float) : float := if fltb a b then b else a.
Definition fmin (a b : float) : float := if fltb b a then b else a.

Example comparisons :
  json_lt (JInt 9007199254740993) (JFloat (f_lit "9007199254740992")) = Ok false ∧
  json_lt (JFloat (f_lit "9007199254740992")) (JInt 9007199254740993) = Ok true ∧
  json_lt (JFloat f_nan) (JInt 1) = Ok false ∧ json_lt (JBool true) (JFloat (f_lit "1.5")) = Ok true ∧
  isclose (fmul (f_lit "0.1") (f_lit "3")) (f_lit "0.3") = true ∧ isclose (f_lit "1") (f_lit "1.00001") = false.
Proof. vm_compute. done. Qed.

(** ** Products of finite floats are not NaN *)

Lemma shr_1_nonneg mrs : 0 <= shr_m mrs → 0 <= shr_m (shr_1 mrs).
Proof. destruct mrs as [[|[p|p|]|[p|p|]] r s]; simpl; lia. Qed.
Lemma iter_nonneg p mrs : 0 <= shr_m mrs → 0 <= shr_m (iter_pos shr_1 p mrs).
Proof. revert mrs. induction p as [p IH|p IH|]; intros mrs Hm; simpl; auto using shr_1_nonneg. Qed.
Lemma shr_nonneg mrs e n : 0 <= shr_m mrs → 0 <= shr_m (fst (shr mrs e n)).
Proof. intros Hm. destruct n; simpl; [done|by apply iter_nonneg|done]. Qed.
Lemma shr_fexp_nonneg m e l : 0 <= m → 0 <= shr_m (fst (shr_fexp prec emax m e l)).
Proof. intros Hm. apply shr_nonneg. by destruct l as [|[]]. Qed.
Lemma round_nonneg m l : 0 <= m → 0 <= round_nearest_even m l.
Proof. intros Hm. unfold round_nearest_even. destruct l as [|[]]; [done| |done|lia]. destruct (Z.even m); lia. Qed.
Lemma round_aux_not_nan s m e l : 0 <= m → binary_round_aux prec emax s m e l ≠ S754_nan.
Proof.
  intros Hm. unfold binary_round_aux. pose proof (shr_fexp_nonneg m e l Hm) as H1. destruct (shr_fexp prec emax m e l) as [r1 e1].
  pose proof (shr_fexp_nonneg _ e1 loc_Exact (round_nonneg _ (loc_of_shr_record r1) H1)) as H2.
  destruct (shr_fexp prec emax _ e1 loc_Exact) as [r2 e2]. cbn [fst] in H2. destruct (shr_m r2); [done| |lia]. by destruct (_ <=? _).
Qed.
Lemma fmul_not_nan a b : isfinite a = true → isfinite b = true → fmul a b ≠ S754_nan.
Proof. destruct a, b; try done. intros _ _. by apply round_aux_not_nan. Qed.
Lemma feqb_refl f : f ≠ S754_nan → feqb f f = true.
Proof.
  intros Hf. unfold feqb, SFeqb. destruct f as [s|s| |s m e]; [done|by destruct s|done|].
  simpl. destruct s; rewrite Z.compare_refl, Pos.compare_cont_refl; done.
Qed.

(** ** [json.dumps] of values with floats *)

Definition json_float (f : float) : string :=
  match f with
  | S754_nan => "NaN"
  | S754_infinity s => if s then "-Infinity" else "Infinity"
  | f => float_repr f
  end.

(** [json.dumps(v, indent=2, ensure_ascii=asc)] *)
Fixpoint dump_report (asc : bool) (pad : string) (v : json) : string :=
  let inner := pad +:+ "  " in
  match v with
  | JNull => "null"
  | JBool b => if b then "true" else "false"
  | JInt z => py_str_int z
  | JFloat f => json_float f
  | JStr s => dump_str asc s
  | JArr [] => "[]"
  | JObj [] => "{}"
  | JArr l => "[" +:+ nl +:+ inner +:+ join ("," +:+ nl +:+ inner) (dump_report asc inner <$> l) +:+ nl +:+ pad +:+ "]"
  | JObj l =>
      "{" +:+ nl +:+ inner +:+
      join ("," +:+ nl +:+ inner) ((λ kv, dump_str asc (fst kv) +:+ ": " +:+ dump_report asc inner (snd kv)) <$> l) +:+
      nl +:+ pad +:+ "}"
  end.

Lemma join_opt_total {A} (f : A → option string) (g : A → string) sep l :
  Forall (λ x, f x = Some (g x)) l → join_opt f sep l = Some (join sep (g <$> l)).
Proof.
  induction 1 as [|x l Hx Hl IH]; [done|]. destruct l as [|y l]; [done|].
  cbn [join_opt] in *. rewrite Hx. cbn [mbind option_bind]. cbn [join_opt] in IH. by rewrite IH.
Qed.

Lemma forallb_Forall {A} (p : A → bool) (P : A → Prop) l :
  forallb p l = true → Forall (λ x, p x = true → P x) l → Forall P l.
Proof.
  intros Hp. induction 1 as [|x l Hx Hl IH]; [done|]. simpl in Hp. apply andb_prop in Hp as [??]. constructor; auto.
Qed.

(** Without floats it is the text of [PyJson.dumps_indent]. *)
Lemma dump_report_plain asc v : plain_json v = true → ∀ pad, render_indent asc pad v = Some (dump_report asc pad v).
Proof.
  induction v as [|b|z|f|k|l IH|l IH] using json_nested_ind; intros Hp pad; try done; cbn [plain_json] in Hp.
  - destruct l as [|v l]; [done|]. cbn [render_indent dump_report].
    rewrite (join_opt_total _ (dump_report asc (pad +:+ "  "))); [done|].
    eapply forallb_Forall; [exact Hp|]. eapply Forall_impl; [exact IH|]. simpl. auto.
  - apply andb_prop in Hp as [_ Hp]. destruct l as [|v l]; [done|]. cbn [render_indent dump_report].
    rewrite (join_opt_total _ (λ kv, dump_str asc (fst kv) +:+ ": " +:+ dump_report asc (pad +:+ "  ") (snd kv))); [done|].
    eapply forallb_Forall; [exact Hp|]. eapply Forall_impl; [exact IH|].
    intros kv Hkv Hpk. cbv beta in *. by rewrite Hkv.
Qed.
