(* ===== verification/Effects.v ===== *)
(** * Effects of the command-line tools

    The tools read and write files, the environment and the console, and start
    other programs. Their effects are modelled in a state and exception monad
    [M] over a [world]: the files by path, the environment variables and the log
    of the actions so far, oldest first. What other programs, the network and
    the operating system answer is a parameter, the class [Host]. *)

From S2P Require Import Prelude PyStr PyJson PyNum.

(** ** Worlds *)

(** What a path holds: a regular file with its bytes, or a directory. *)
Inductive node : Type :=
| File (bytes : string)
| Dir.

(** One observable action. *)
Inductive event : Type :=
| EvRun (argv : list string) (cwd : string)
| EvOut (text : string)
| EvErr (text : string)
| EvWrite (path bytes : string)
| EvAppend (path bytes : string)
| EvUnlink (path : string)
| EvMkdir (path : string)
| EvCopy (src dst : string)
| EvRename (src dst : string)
| EvSetenv (key value : string)
| EvSleep (seconds : Z)
| EvFetch (url : string).

#[global] Instance node_eq_dec : EqDecision node.
Proof. solve_decision. Defined.
#[global] Instance event_eq_dec : EqDecision event.
Proof. solve_decision. Defined.

Record world : Type := World {
  w_fs : gmap string node;
  w_env : gmap string string;
  w_log : list event
}.

(** [subprocess.CompletedProcess] *)
Record proc : Type := Proc { returncode : Z; stdout : string; stderr : string }.

(** The operating system, the other programs and the network. Every answer may
    depend on everything that happened before. [host_run] also says what files
    are there once the program ended. *)
Class Host : Type := {
  host_nt : bool;
  host_run : list string → string → world → res proc * gmap string node;
  host_which : string → world → option string;
  host_fetch : string → world → res string;
  (** [time.time()] in whole seconds, and the local zone's offset from UTC. *)
  host_now : world → Z;
  host_utcoffset : Z;
  (** [str(error)] of the exceptions whose text the code does not choose. *)
  host_exn_str : exn → string;
  (** [str(v)] of lists and dicts. *)
  host_repr : json → string;
  (** [tempfile.mkdtemp]: a fresh directory. *)
  host_tmp : world → string;
  (** [sys.stdout.isatty()] *)
  host_isatty : bool;
  (** The directory of the repository. *)
  host_root : string
}.

(** ** The monad *)

Definition M (A : Type) : Type := world → res A * world.

#[global] Instance M_ret : MRet M := λ A a w, (Ok a, w).
#[global] Instance M_bind : MBind M := λ A B f m w,
  match m w with
  | (Ok a, w') => f a w'
  | (Raise e, w') => (Raise e, w')
  end.

Definition lift {A} (r : res A) : M A := λ w, (r, w).
Definition raise {A} (e : exn) : M A := lift (Raise e).
Definition raise_when (b : bool) (e : exn) : M unit := lift (raise_if b e).
Definition when (b : bool) (m : M unit) : M unit := if b then m else mret tt.

(** [try: m except <classes> as e: h e] *)
Definition try_catch {A} (m : M A) (classes : exn → bool) (h : exn → M A) : M A := λ w,
  match m w with
  | (Ok a, w') => (Ok a, w')
  | (Raise e, w') => if classes e then h e w' else (Raise e, w')
  end.

(** [try: m finally: f] for a clean-up [f] that does not raise or return. *)
Definition try_finally {A} (m : M A) (f : M unit) : M A := λ w,
  let '(r, w1) := m w in
  match f w1 with
  | (Ok _, w2) => (r, w2)
  | (Raise e, w2) => (Raise e, w2)
  end.

Fixpoint for_M {A} (f : A → M unit) (l : list A) : M unit :=
  match l with
  | [] => mret tt
  | x :: l => _ ← f x; for_M f l
  end.

Fixpoint map_M {A B} (f : A → M B) (l : list A) : M (list B) :=
  match l with
  | [] => mret []
  | x :: l => y ← f x; ys ← map_M f l; mret (y :: ys)
  end.

(** ** Primitive actions *)

Definition get_world : M world := λ w, (Ok w, w).
Definition log_event (e : event) : M unit := λ w,
  (Ok tt, World (w_fs w) (w_env w) (w_log w ++ [e])).
Definition set_fs (fs : gmap string node) : M unit := λ w,
  (Ok tt, World fs (w_env w) (w_log w)).
Definition set_env (env : gmap string string) : M unit := λ w,
  (Ok tt, World (w_fs w) env (w_log w)).

Definition print (s : string) : M unit := log_event (EvOut s).
Definition eprint (s : string) : M unit := log_event (EvErr s).

(** [os.environ.get(k)] and [os.environ\[k\] = v] *)
Definition getenv (k : string) : M (option string) := λ w, (Ok (w_env w !! k), w).
Definition setenv (k v : string) : M unit := λ w,
  (Ok tt, World (w_fs w) (<[k:=v]> (w_env w)) (w_log w ++ [EvSetenv k v])).
(** [os.environ.get(k, d)] *)
Definition getenv_or (k d : string) : M string := o ← getenv k; mret (default d o).

(** [path.exists()], [path.is_file()], [path.is_dir()] *)
Definition path_exists (p : string) : M bool := λ w, (Ok (bool_decide (is_Some (w_fs w !! p))), w).
Definition is_file (p : string) : M bool := λ w,
  (Ok (match w_fs w !! p with Some (File _) => true | _ => false end), w).
Definition is_dir (p : string) : M bool := λ w,
  (Ok (match w_fs w !! p with Some Dir => true | _ => false end), w).

(** [path.read_bytes()] *)
Definition read_bytes (p : string) : M string := λ w,
  (match w_fs w !! p with
   | Some (File b) => Ok b
   | Some Dir => Raise (OSError p)
   | None => Raise (FileNotFoundError p)
   end, w).

(** The newline translation of text files on reading and on writing. *)
Definition universal_newlines (s : string) : string := replace cr nl (replace (cr +:+ nl) nl s).
Definition to_linesep (nt : bool) (s : string) : string := if nt then replace nl (cr +:+ nl) s else s.

Definition decode (b : string) : res string := from_option (utf8_decode b) UnicodeDecodeError.

(** [path.read_text(encoding="utf-8")] *)
Definition read_text (p : string) : M string :=
  b ← read_bytes p; s ← lift (decode b); mret (universal_newlines s).

(** Opening for writing replaces the content; a directory cannot be opened. *)
Definition write_bytes (p bytes : string) : M unit := λ w,
  match w_fs w !! p with
  | Some Dir => (Raise (OSError p), w)
  | _ => (Ok tt, World (<[p:=File bytes]> (w_fs w)) (w_env w) (w_log w ++ [EvWrite p bytes]))
  end.

(** [open(p, "a")] and one write. *)
Definition append_bytes (p bytes : string) : M unit := λ w,
  match w_fs w !! p with
  | Some Dir => (Raise (OSError p), w)
  | Some (File b) =>
      (Ok tt, World (<[p:=File (b +:+ bytes)]> (w_fs w)) (w_env w) (w_log w ++ [EvAppend p bytes]))
  | None => (Ok tt, World (<[p:=File bytes]> (w_fs w)) (w_env w) (w_log w ++ [EvAppend p bytes]))
  end.

(** [open(p, "x")] and one write: refuses an existing path. *)
Definition create_bytes (p bytes : string) : M unit := λ w,
  match w_fs w !! p with
  | Some _ => (Raise (FileExistsError p), w)
  | None => (Ok tt, World (<[p:=File bytes]> (w_fs w)) (w_env w) (w_log w ++ [EvWrite p bytes]))
  end.

(** [path.mkdir(parents=True, exist_ok=True)] *)
Definition mkdir (p : string) : M unit := λ w,
  match w_fs w !! p with
  | Some (File _) => (Raise (FileExistsError p), w)
  | Some Dir => (Ok tt, w)
  | None => (Ok tt, World (<[p:=Dir]> (w_fs w)) (w_env w) (w_log w ++ [EvMkdir p]))
  end.

(** [path.unlink()] *)
Definition unlink (p : string) : M unit := λ w,
  match w_fs w !! p with
  | Some (File _) => (Ok tt, World (delete p (w_fs w)) (w_env w) (w_log w ++ [EvUnlink p]))
  | Some Dir => (Raise (OSError p), w)
  | None => (Raise (FileNotFoundError p), w)
  end.

(** [os.replace(src, dst)] of a file. *)
Definition os_replace (src dst : string) : M unit := λ w,
  match w_fs w !! src with
  | Some (File b) =>
      match w_fs w !! dst with
      | Some Dir => (Raise (OSError dst), w)
      | _ => (Ok tt, World (<[dst:=File b]> (delete src (w_fs w))) (w_env w)
                           (w_log w ++ [EvRename src dst]))
      end
  | _ => (Raise (FileNotFoundError src), w)
  end.

(** [shutil.copy2(src, dst)] of a file to a file name. *)
Definition copy_file (src dst : string) : M unit := λ w,
  match w_fs w !! src with
  | Some (File b) =>
      match w_fs w !! dst with
      | Some Dir => (Raise (OSError dst), w)
      | _ => (Ok tt, World (<[dst:=File b]> (w_fs w)) (w_env w) (w_log w ++ [EvCopy src dst]))
      end
  | Some Dir => (Raise (OSError src), w)
  | None => (Raise (FileNotFoundError src), w)
  end.

Section host.
Context `{Host}.

(** [path.write_text(s, encoding="utf-8")] *)
Definition write_text (p s : string) : M unit :=
  write_bytes p (utf8_encode (to_linesep host_nt s)).
Definition append_text (p s : string) : M unit :=
  append_bytes p (utf8_encode (to_linesep host_nt s)).

(** [subprocess.run(argv, cwd=cwd, ...)] *)
Definition run_proc (argv : list string) (cwd : string) : M proc := λ w,
  let w1 := World (w_fs w) (w_env w) (w_log w ++ [EvRun argv cwd]) in
  let '(r, fs) := host_run argv cwd w in
  (r, World fs (w_env w1) (w_log w1)).

(** [subprocess.run(argv, cwd=cwd, env=env)]: the program sees another environment. *)
Definition run_proc_env (env : gmap string string) (argv : list string) (cwd : string) : M proc := λ w,
  let '(r, fs) := host_run argv cwd (World (w_fs w) env (w_log w)) in
  (r, World fs (w_env w) (w_log w ++ [EvRun argv cwd])).

Definition which (cmd : string) : M (option string) := λ w, (Ok (host_which cmd w), w).

(** [urllib.request.urlopen(url).read()] *)
Definition fetch (url : string) : M string := λ w,
  (host_fetch url w, World (w_fs w) (w_env w) (w_log w ++ [EvFetch url])).

Definition now : M Z := λ w, (Ok (host_now w), w).
(** [str(error)] *)
Definition exn_str (e : exn) : string :=
  match e with
  | ValueError m | RuntimeError m | TypeError m => m
  | KeyError k => py_repr k
  | SystemExit (ExitMsg m) => m
  | SystemExit (ExitCode n) => py_str_int n
  | e => host_exn_str e
  end.

(** [str(v)] of a JSON value. *)
Definition str_of (v : json) : string :=
  match v with
  | JNull => "None"
  | JBool b => if b then "True" else "False"
  | JInt z => py_str_int z
  | JFloat f => float_repr f
  | JStr s => s
  | v => host_repr v
  end.

Definition sleep (n : Z) : M unit := log_event (EvSleep n).
End host.

(** [shutil.rmtree(p)]: everything at or below [p]. *)
Definition below (p q : string) : bool := (q == p) || startswith q (p +:+ "/").
Definition remove_tree (p : string) : M unit := λ w,
  (Ok tt, World (filter (λ kv, below p (fst kv) = false) (w_fs w)) (w_env w) (w_log w ++ [EvUnlink p])).

(** [with tempfile.TemporaryDirectory() as d: body(d)] *)
Definition with_temp_dir `{Host} {A} (body : string → M A) : M A :=
  w ← get_world;
  let d := host_tmp w in
  _ ← mkdir d;
  try_finally (body d) (remove_tree d).

(** [a / b] on paths. *)
Definition path_join (a b : string) : string := a +:+ "/" +:+ b.
Infix "//" := path_join (at level 40, left associativity) : py_scope.

(** Paths as Windows reads them: both separators count. *)
Definition posix (p : string) : string := replace "\" "/" p.
(** [str(path)] *)
Definition path_str `{Host} (p : string) : string := if host_nt then replace "/" "\" p else p.
(** [PurePath(p).name], [PurePath(p).suffix] and [PurePath(p).stem]. *)
Definition path_name (p : string) : string := after_last "/"%char (rstrip_chars "/" (posix p)).
Definition path_suffix (p : string) : string :=
  let n := path_name p in
  match List.rev (split_char "."%char n) with
  | ext :: _ :: _ =>
      let stem_len := (String.length n - String.length ext - 1)%nat in
      if nonempty ext && (0 <? stem_len)%nat then "." +:+ ext else EmptyString
  | _ => EmptyString
  end.
(** [p.with_suffix(s)] of a path with a name. *)
Definition with_suffix (p s : string) : string :=
  str_take (String.length p - String.length (path_suffix p)) p +:+ s.
(** [PurePath(p).parent] and [PurePath(p).parents], nearest first. *)
Definition path_parent (p : string) : string :=
  let p := rstrip_chars "/" (posix p) in
  str_take (String.length p - String.length (after_last "/"%char p) - 1) p.
Fixpoint path_parents_go (fuel : nat) (p : string) : list string :=
  match fuel with
  | O => []
  | S n => let q := path_parent p in if nonempty q then q :: path_parents_go n q else []
  end.
Definition path_parents (p : string) : list string := path_parents_go (String.length p) p.
Definition is_absolute (p : string) : bool :=
  startswith (posix p) "/" || match posix p with String _ (String c (String s _)) => Ascii.eqb c ":" && Ascii.eqb s "/" | _ => false end.

Definition path_stem (p : string) : string :=
  let n := path_name p in str_take (String.length n - String.length (path_suffix p)) n.

(** ** Reasoning about runs *)

(** [runs m w a w']: started in [w], [m] returns [a] and leaves [w']. *)
Definition runs {A} (m : M A) (w : world) (a : A) (w' : world) : Prop := m w = (Ok a, w').
Definition fails {A} (m : M A) (w : world) (e : exn) (w' : world) : Prop := m w = (Raise e, w').

Section runs.
Context {A B : Type}.

Lemma runs_ret (a b : A) w w' : runs (mret a) w b w' ↔ a = b ∧ w = w'.
Proof. unfold runs, mret, M_ret. naive_solver. Qed.

Lemma runs_bind (m : M A) (k : A → M B) w b w' :
  runs (m ≫= k) w b w' ↔ ∃ a w1, runs m w a w1 ∧ runs (k a) w1 b w'.
Proof.
  unfold runs, mbind, M_bind. destruct (m w) as [[a|e] w1]; split; try naive_solver.
Qed.

Lemma fails_bind (m : M A) (k : A → M B) w e w' :
  fails (m ≫= k) w e w' ↔
  fails m w e w' ∨ ∃ a w1, runs m w a w1 ∧ fails (k a) w1 e w'.
Proof.
  unfold runs, fails, mbind, M_bind. destruct (m w) as [[a|e'] w1]; split; try naive_solver.
Qed.

Lemma runs_lift (r : res A) w a w' : runs (lift r) w a w' ↔ r = Ok a ∧ w = w'.
Proof. unfold runs, lift. naive_solver. Qed.

Lemma runs_raise e w (a : A) w' : ¬ runs (raise e) w a w'.
Proof. unfold runs, raise, lift. naive_solver. Qed.
End runs.

Lemma runs_raise_when b e w u w' : runs (raise_when b e) w u w' ↔ b = false ∧ w = w'.
Proof. unfold raise_when. rewrite runs_lift. destruct u, b; simpl; naive_solver. Qed.

Lemma runs_try_catch {A} (m : M A) c h w a w' : runs (try_catch m c h) w a w' ↔
  runs m w a w' ∨ ∃ e w1, fails m w e w1 ∧ c e = true ∧ runs (h e) w1 a w'.
Proof.
  unfold runs, fails, try_catch. destruct (m w) as [[b|e] w1]; [naive_solver|].
  destruct (c e) eqn:E; split; try naive_solver. all: intros [?|(? & ? & [= <- <-] & ? & ?)]; congruence.
Qed.

Lemma runs_try_finally {A} (m : M A) f w a w' : runs (try_finally m f) w a w' ↔
  ∃ w1, runs m w a w1 ∧ runs f w1 tt w'.
Proof.
  unfold runs, try_finally. destruct (m w) as [r w1]. split.
  - destruct (f w1) as [[[]|e] w2] eqn:Ef; [|done]. intros [= -> ->]. by exists w1.
  - intros (w2 & [= -> ->] & ->). done.
Qed.

Lemma runs_print s w u w' : runs (print s) w u w' ↔ w' = World (w_fs w) (w_env w) (w_log w ++ [EvOut s]).
Proof. unfold runs, print, log_event. destruct u. naive_solver. Qed.

Lemma runs_eprint s w u w' : runs (eprint s) w u w' ↔ w' = World (w_fs w) (w_env w) (w_log w ++ [EvErr s]).
Proof. unfold runs, eprint, log_event. destruct u. naive_solver. Qed.

Lemma runs_read_bytes p w b w' : runs (read_bytes p) w b w' ↔ w = w' ∧ w_fs w !! p = Some (File b).
Proof. unfold runs, read_bytes. destruct (w_fs w !! p) as [[]|]; naive_solver. Qed.

Lemma runs_read_text p w s w' : runs (read_text p) w s w' ↔
  w = w' ∧ ∃ b t, w_fs w !! p = Some (File b) ∧ decode b = Ok t ∧ s = universal_newlines t.
Proof.
  unfold read_text. rewrite runs_bind. split.
  - intros (b & w1 & [<- Hb]%runs_read_bytes & Hr). apply runs_bind in Hr as (t & w2 & [Ht <-]%runs_lift & Hr).
    apply runs_ret in Hr as [<- <-]. eauto 6.
  - intros [<- (b & t & Hb & Ht & ->)]. exists b, w. split; [by apply runs_read_bytes|].
    apply runs_bind. exists t, w. split; [by apply runs_lift|by apply runs_ret].
Qed.

Lemma runs_getenv k w o w' : runs (getenv k) w o w' ↔ w = w' ∧ o = w_env w !! k.
Proof. unfold runs, getenv. naive_solver. Qed.

Lemma runs_getenv_or k d w v w' : runs (getenv_or k d) w v w' ↔ w = w' ∧ v = default d (w_env w !! k).
Proof.
  unfold getenv_or. rewrite runs_bind. setoid_rewrite runs_getenv. setoid_rewrite runs_ret. naive_solver.
Qed.

Lemma runs_setenv k v w u w' : runs (setenv k v) w u w' ↔
  w' = World (w_fs w) (<[k:=v]> (w_env w)) (w_log w ++ [EvSetenv k v]).
Proof. unfold runs, setenv. destruct u. naive_solver. Qed.

Lemma runs_write_bytes p b w u w' : runs (write_bytes p b) w u w' →
  w_fs w' = <[p:=File b]> (w_fs w) ∧ w_env w' = w_env w ∧ w_log w' = w_log w ++ [EvWrite p b].
Proof. unfold runs, write_bytes. destruct (w_fs w !! p) as [[]|]; naive_solver. Qed.

Lemma runs_write_text `{Host} p s w u w' : runs (write_text p s) w u w' →
  ∃ b, w_fs w' = <[p:=File b]> (w_fs w) ∧ w_env w' = w_env w ∧ w_log w' = w_log w ++ [EvWrite p b].
Proof. intros Hr. eexists. by eapply runs_write_bytes. Qed.

Lemma runs_os_replace src dst w u w' : runs (os_replace src dst) w u w' →
  ∃ b, w_fs w !! src = Some (File b) ∧ w_fs w' = <[dst:=File b]> (delete src (w_fs w)).
Proof.
  unfold runs, os_replace. destruct (w_fs w !! src) as [[b|]|]; try done. exists b.
  destruct (w_fs w !! dst) as [[]|]; naive_solver.
Qed.

Lemma runs_copy_file src dst w u w' : runs (copy_file src dst) w u w' →
  ∃ b, w_fs w !! src = Some (File b) ∧ w_fs w' = <[dst:=File b]> (w_fs w).
Proof.
  unfold runs, copy_file. destruct (w_fs w !! src) as [[b|]|]; try done. exists b.
  destruct (w_fs w !! dst) as [[]|]; naive_solver.
Qed.

Lemma runs_mkdir p w u w' q : runs (mkdir p) w u w' →
  w_fs w' !! q = w_fs w !! q ∨ (q = p ∧ w_fs w !! q = None ∧ w_fs w' !! q = Some Dir).
Proof.
  unfold runs, mkdir. destruct (w_fs w !! p) as [[]|] eqn:Hp; intros [=]; simplify_eq; [by left|].
  cbn [w_fs]. destruct (decide (q = p)) as [->|]; [right|left]; by rewrite ?lookup_insert_eq, ?lookup_insert_ne.
Qed.
Lemma runs_mkdir_ne p w u w' q : runs (mkdir p) w u w' → q ≠ p → w_fs w' !! q = w_fs w !! q.
Proof. intros [?|(-> & _)]%(runs_mkdir _ _ _ _ q); done. Qed.

Lemma runs_fetch `{Host} u w b w' : runs (fetch u) w b w' →
  host_fetch u w = Ok b ∧ w_fs w' = w_fs w ∧ w_env w' = w_env w ∧ w_log w' = w_log w ++ [EvFetch u].
Proof. unfold runs, fetch. naive_solver. Qed.

Lemma runs_path_exists p w b w' : runs (path_exists p) w b w' ↔ w = w' ∧ b = bool_decide (is_Some (w_fs w !! p)).
Proof. unfold runs, path_exists. naive_solver. Qed.

Lemma runs_is_file p w b w' : runs (is_file p) w b w' → w' = w ∧ (b = true ↔ ∃ bytes, w_fs w !! p = Some (File bytes)).
Proof.
  unfold runs, is_file. intros Hr. assert (w' = w ∧ b = match w_fs w !! p with Some (File _) => true | _ => false end) as [-> ->]
    by (by inversion Hr). split; [done|]. destruct (w_fs w !! p) as [[]|]; naive_solver.
Qed.

Lemma runs_for_M {A} (f : A → M unit) (P : A → world → Prop) l w u w' :
  (∀ x w1 w2, runs (f x) w1 tt w2 → P x w2) →
  (∀ x y w1 w2, P x w1 → runs (f y) w1 tt w2 → P x w2) →
  runs (for_M f l) w u w' → Forall (λ x, P x w') l.
Proof.
  intros Hf Hstab. revert w. induction l as [|x l IH]; intros w; simpl; [constructor|].
  rewrite runs_bind. intros ([] & w1 & Hx & Hl). constructor; [|by eapply IH].
  apply Hf in Hx. clear IH. revert w1 Hx Hl. induction l as [|y l IH]; intros w1 Hx; simpl.
  - rewrite runs_ret. by intros [_ <-].
  - rewrite runs_bind. intros ([] & w2 & Hy & Hl). eapply IH; [|done]. by eapply Hstab.
Qed.

(** ** What a computation may do to the world

    [steps R m]: from any world, whether it returns or raises, [m] ends in a
    world related to the first by the preorder [R]. *)
Definition steps {A} (R : relation world) (m : M A) : Prop := ∀ w, R w (snd (m w)).

(** The log grows by events that satisfy [P]. *)
Definition log_ext (P : event → Prop) : relation world := λ w w',
  ∃ evs, w_log w' = w_log w ++ evs ∧ Forall P evs.
Definition same_fs : relation world := λ w w', w_fs w' = w_fs w.
Definition same_env : relation world := λ w w', w_env w' = w_env w.

Definition same_log : relation world := λ w w', w_log w' = w_log w.
#[export] Instance same_log_preorder : PreOrder same_log.
Proof. split; [done|]. intros w1 w2 w3. unfold same_log. by intros -> ->. Qed.
#[export] Instance log_ext_preorder P : PreOrder (log_ext P).
Proof.
  split.
  - intros w. exists []. by rewrite app_nil_r.
  - intros w1 w2 w3 (a & Ha & ?) (b & Hb & ?). exists (a ++ b).
    rewrite Hb, Ha, <- app_assoc. split; [done|by apply Forall_app].
Qed.
#[export] Instance same_fs_preorder : PreOrder same_fs.
Proof. split; [done|]. intros w1 w2 w3. unfold same_fs. by intros -> ->. Qed.
#[export] Instance same_env_preorder : PreOrder same_env.
Proof. split; [done|]. intros w1 w2 w3. unfold same_env. by intros -> ->. Qed.

Section steps.
Context (R : relation world) `{!PreOrder R}.

Lemma steps_ret {A} (a : A) : steps R (mret a).
Proof. intros w. reflexivity. Qed.

Lemma steps_lift {A} (r : res A) : steps R (lift r).
Proof. intros w. reflexivity. Qed.

Lemma steps_raise {A} e : steps R (raise e : M A).
Proof. intros w. reflexivity. Qed.

Lemma steps_bind {A B} (m : M A) (k : A → M B) :
  steps R m → (∀ a, steps R (k a)) → steps R (m ≫= k).
Proof.
  intros Hm Hk w. unfold mbind, M_bind. specialize (Hm w).
  destruct (m w) as [[a|e] w1]; simpl in *; [|done]. etrans; [done|apply Hk].
Qed.

Lemma steps_when b m : steps R m → steps R (when b m).
Proof. intros. destruct b; [done|apply steps_ret]. Qed.

Lemma steps_try_catch {A} (m : M A) c h :
  steps R m → (∀ e, steps R (h e)) → steps R (try_catch m c h).
Proof.
  intros Hm Hh w. unfold try_catch. specialize (Hm w).
  destruct (m w) as [[a|e] w1]; simpl in *; [done|].
  destruct (c e); simpl; [|done]. etrans; [done|apply Hh].
Qed.

Lemma steps_try_finally {A} (m : M A) f : steps R m → steps R f → steps R (try_finally m f).
Proof.
  intros Hm Hf w. unfold try_finally. specialize (Hm w).
  destruct (m w) as [r w1]; simpl in *. specialize (Hf w1).
  destruct (f w1) as [[u|e] w2]; simpl in *; by etrans.
Qed.

Lemma steps_for_M {A} (f : A → M unit) l : (∀ x, steps R (f x)) → steps R (for_M f l).
Proof.
  intros Hf. induction l as [|x l IH]; simpl; [apply steps_ret|].
  apply steps_bind; [apply Hf|done].
Qed.

Lemma steps_map_M {A B} (f : A → M B) l : (∀ x, steps R (f x)) → steps R (map_M f l).
Proof.
  intros Hf. induction l as [|x l IH]; simpl; [apply steps_ret|].
  apply steps_bind; [apply Hf|]. intros y. apply steps_bind; [done|]. intros ys. apply steps_ret.
Qed.

Lemma steps_get_world : steps R get_world.
Proof. intros w. reflexivity. Qed.
Lemma steps_getenv k : steps R (getenv k).
Proof. intros w. reflexivity. Qed.
Lemma steps_getenv_or k d : steps R (getenv_or k d).
Proof. apply steps_bind; [apply steps_getenv|]. intros; apply steps_ret. Qed.
Lemma steps_path_exists p : steps R (path_exists p).
Proof. intros w. reflexivity. Qed.
Lemma steps_is_file p : steps R (is_file p).
Proof. intros w. reflexivity. Qed.
Lemma steps_is_dir p : steps R (is_dir p).
Proof. intros w. reflexivity. Qed.
Lemma steps_read_bytes p : steps R (read_bytes p).
Proof. intros w. reflexivity. Qed.
Lemma steps_read_text p : steps R (read_text p).
Proof.
  apply steps_bind; [apply steps_read_bytes|]. intros b.
  apply steps_bind; [apply steps_lift|]. intros s. apply steps_ret.
Qed.
Lemma steps_which `{Host} c : steps R (which c).
Proof. intros w. reflexivity. Qed.
Lemma steps_now `{Host} : steps R now.
Proof. intros w. reflexivity. Qed.
Lemma steps_raise_when b e : steps R (raise_when b e).
Proof. apply steps_lift. Qed.
End steps.

#[export] Hint Resolve steps_ret steps_lift steps_raise steps_bind steps_when steps_try_catch
  steps_try_finally steps_for_M steps_map_M steps_get_world steps_getenv steps_getenv_or
  steps_path_exists steps_is_file steps_is_dir steps_read_bytes steps_read_text steps_which
  steps_now steps_raise_when : py.

Lemma log_ext_one P w w' e : w_log w' = w_log w ++ [e] → P e → log_ext P w w'.
Proof. intros Hw He. exists [e]. split; [done|]. by constructor. Qed.

(** The log of the primitive actions that write. *)
Section log_primitives.
Context (P : event → Prop).

Lemma logs_print s : P (EvOut s) → steps (log_ext P) (print s).
Proof. intros HP w. by eapply log_ext_one. Qed.
Lemma logs_eprint s : P (EvErr s) → steps (log_ext P) (eprint s).
Proof. intros HP w. by eapply log_ext_one. Qed.
Lemma logs_setenv k v : P (EvSetenv k v) → steps (log_ext P) (setenv k v).
Proof. intros HP w. by eapply log_ext_one. Qed.
Lemma logs_write_bytes p b : P (EvWrite p b) → steps (log_ext P) (write_bytes p b).
Proof.
  intros HP w. unfold write_bytes.
  destruct (w_fs w !! p) as [[]|]; simpl; try reflexivity; by eapply log_ext_one.
Qed.
Lemma logs_append_bytes p b : P (EvAppend p b) → steps (log_ext P) (append_bytes p b).
Proof.
  intros HP w. unfold append_bytes.
  destruct (w_fs w !! p) as [[]|]; simpl; try reflexivity; by eapply log_ext_one.
Qed.
Lemma logs_create_bytes p b : P (EvWrite p b) → steps (log_ext P) (create_bytes p b).
Proof.
  intros HP w. unfold create_bytes.
  destruct (w_fs w !! p); simpl; try reflexivity; by eapply log_ext_one.
Qed.
Lemma logs_mkdir p : P (EvMkdir p) → steps (log_ext P) (mkdir p).
Proof.
  intros HP w. unfold mkdir.
  destruct (w_fs w !! p) as [[]|]; simpl; try reflexivity; by eapply log_ext_one.
Qed.
Lemma logs_unlink p : P (EvUnlink p) → steps (log_ext P) (unlink p).
Proof.
  intros HP w. unfold unlink.
  destruct (w_fs w !! p) as [[]|]; simpl; try reflexivity; by eapply log_ext_one.
Qed.
Lemma logs_os_replace a b : P (EvRename a b) → steps (log_ext P) (os_replace a b).
Proof.
  intros HP w. unfold os_replace. destruct (w_fs w !! a) as [[]|]; simpl; try reflexivity.
  destruct (w_fs w !! b) as [[]|]; simpl; try reflexivity; by eapply log_ext_one.
Qed.
Lemma logs_copy_file a b : P (EvCopy a b) → steps (log_ext P) (copy_file a b).
Proof.
  intros HP w. unfold copy_file. destruct (w_fs w !! a) as [[]|]; simpl; try reflexivity.
  destruct (w_fs w !! b) as [[]|]; simpl; try reflexivity; by eapply log_ext_one.
Qed.
Lemma logs_run_proc `{Host} a c : P (EvRun a c) → steps (log_ext P) (run_proc a c).
Proof.
  intros HP w. unfold run_proc. destruct (host_run a c w) as [r fs]. by eapply log_ext_one.
Qed.
Lemma logs_run_proc_env `{Host} env a c : P (EvRun a c) → steps (log_ext P) (run_proc_env env a c).
Proof.
  intros HP w. unfold run_proc_env. destruct (host_run a c _) as [r fs]. by eapply log_ext_one.
Qed.
Lemma logs_remove_tree p : P (EvUnlink p) → steps (log_ext P) (remove_tree p).
Proof. intros HP w. by eapply log_ext_one. Qed.
Lemma logs_with_temp_dir `{Host} {A} (body : string → M A) :
  (∀ d, P (EvMkdir d)) → (∀ d, P (EvUnlink d)) → (∀ d, steps (log_ext P) (body d)) →
  steps (log_ext P) (with_temp_dir body).
Proof.
  intros Hm Hu Hb. apply steps_bind; [apply _|intros w; reflexivity|]. intros w.
  apply steps_bind; [apply _|by apply logs_mkdir|]. intros _.
  apply steps_try_finally; [apply _|apply Hb|by apply logs_remove_tree].
Qed.
Lemma logs_fetch `{Host} u : P (EvFetch u) → steps (log_ext P) (fetch u).
Proof. intros HP w. by eapply log_ext_one. Qed.
Lemma logs_sleep n : P (EvSleep n) → steps (log_ext P) (sleep n).
Proof. intros HP w. by eapply log_ext_one. Qed.
End log_primitives.

#[export] Hint Resolve logs_print logs_eprint logs_setenv logs_write_bytes logs_append_bytes
  logs_create_bytes logs_mkdir logs_unlink logs_os_replace logs_copy_file logs_run_proc
  logs_fetch logs_sleep logs_remove_tree logs_with_temp_dir logs_run_proc_env : py.

(** Every run only adds to the log. *)
Lemma steps_log_ext_runs {A} P (m : M A) w r w' :
  steps (log_ext P) m → m w = (r, w') → ∃ evs, w_log w' = w_log w ++ evs ∧ Forall P evs.
Proof. intros Hm Hw. specialize (Hm w). by rewrite Hw in Hm. Qed.

Lemma log_ext_impl (P Q : event → Prop) w w' :
  (∀ e, P e → Q e) → log_ext P w w' → log_ext Q w w'.
Proof. intros HPQ (evs & ? & ?). exists evs. split; [done|]. by eapply Forall_impl. Qed.

(** [inv_runs] is [inv_res] for runs of the monad. *)
Ltac inv_runs1 :=
  match goal with
  | H : runs (mret _) _ _ _ |- _ => apply runs_ret in H as [??]; subst
  | H : runs (mbind _ _) _ _ _ |- _ =>
      let a := fresh "a" in let w := fresh "w" in
      apply runs_bind in H as (a & w & ? & H)
  | u : unit |- _ => destruct u
  | H : runs (raise_when _ _) _ _ _ |- _ => apply runs_raise_when in H as [??]; subst
  | H : runs (lift _) _ _ _ |- _ => apply runs_lift in H as [??]; subst
  | H : runs (raise _) _ _ _ |- _ => by apply runs_raise in H
  end.
Ltac inv_runs := repeat inv_runs1.

(** [solve_steps] follows the structure of a computation down to its actions. *)
Ltac solve_steps1 :=
  match goal with
  | |- PreOrder _ => apply _
  | |- steps _ (mbind _ _) => apply steps_bind; [try apply _| |intros ?]
  | |- steps _ (mret _) => apply steps_ret; apply _
  | |- steps _ (lift _) => apply steps_lift; apply _
  | |- steps _ (raise _) => apply steps_raise; apply _
  | |- steps _ (raise_when _ _) => apply steps_raise_when; apply _
  | |- steps _ (when _ _) => apply steps_when; [try apply _|]
  | |- steps _ (try_catch _ _ _) => apply steps_try_catch; [try apply _| |intros ?]
  | |- steps _ (try_finally _ _) => apply steps_try_finally; [try apply _| |]
  | |- steps _ (for_M _ _) => apply steps_for_M; [try apply _|intros ?]
  | |- steps _ (map_M _ _) => apply steps_map_M; [try apply _|intros ?]
  | |- steps _ (match ?x with _ => _ end) => destruct x
  | |- steps _ _ => solve [eauto with py typeclass_instances]
  end.
Ltac solve_steps := intros; repeat solve_steps1.

(** ** Moments of a run *)

(** One world comes later in the same run. *)
Abbreviation later := (log_ext (λ _, True)).

(** [chain_later] links the moments of a run. *)
Ltac chain_later := first [eassumption | reflexivity | etrans; [eassumption|chain_later]].

(** Something held at some moment of the run. *)
Definition once (w w' : world) (P : world → Prop) : Prop := ∃ w1, later w w1 ∧ later w1 w' ∧ P w1.

Lemma later_runs {A} (m : M A) w a w' : steps later m → runs m w a w' → later w w'.
Proof. intros Hm Hr. specialize (Hm w). by rewrite Hr in Hm. Qed.

Lemma runs_same {A} (m : M A) w a w' : steps (=) m → runs m w a w' → w' = w.
Proof. intros Hm Hr. specialize (Hm w). rewrite Hr in Hm. by simpl in Hm. Qed.

Lemma later_log w w' e : later w w' → e ∈ w_log w → e ∈ w_log w'.
Proof. intros (evs & -> & _) He. apply elem_of_app. by left. Qed.

Lemma once_mono w0 w w' w1 P : later w0 w → later w' w1 → once w w' P → once w0 w1 P.
Proof. intros H0 H1 (w2 & ? & ? & ?). exists w2. split_and!; [by etrans|by etrans|done]. Qed.

(** [run_vm] evaluates a concrete run, or a concrete side of an equation, and
    leaves the check of the result to the kernel. *)
Ltac run_vm :=
  lazymatch goal with
  | |- runs _ _ ?a ?w' => vm_cast_no_check (eq_refl (Ok a, w'))
  | |- _ = ?b => vm_cast_no_check (eq_refl b)
  end.

(** A host without programs and network, for theorems at work. *)
Definition idle_host : Host := {|
  host_nt := false;
  host_run := λ _ _ w, (Raise (FileNotFoundError "program"), w_fs w);
  host_which := λ _ _, None;
  host_fetch := λ _ _, Raise (OSError "offline");
  host_now := λ _, 1767225600%Z;
  host_utcoffset := (-10800)%Z;
  host_exn_str := λ _, "error";
  host_repr := λ _, "value";
  host_tmp := λ _, "tmp";
  host_isatty := false;
  host_root := "C:/plug_agente"
|}.
