(* ===== verification/PyLib.v ===== *)
(** * URLs, shell quoting and dates of the standard library

    [urllib.parse] (urlparse, urlunparse, parse_qsl, urlencode), [shlex.quote]
    and the date formats the tools write. Two simplifications: the IPv6 literal
    between the brackets of a host is not checked, and query values are kept as
    their UTF-8 bytes, which [urlencode] quotes again. *)

From S2P Require Import Prelude PyStr PyRe PyJson.

Local Open Scope Z_scope.

(** ** URLs *)

Record url : Type := Url {
  u_scheme : string; u_netloc : string; u_path : string;
  u_params : string; u_query : string; u_fragment : string
}.

Definition is_alpha (c : ascii) : bool := in_range 65 90 c || in_range 97 122 c.
Definition is_scheme_char (c : ascii) : bool := is_alpha c || is_digit c || char_in "+-." c.

(** The longest prefix without the given characters, and what follows it. *)
Fixpoint span_until (f : ascii → bool) (s : string) : string * string :=
  match s with
  | EmptyString => (EmptyString, EmptyString)
  | String c s' =>
      if f c then (EmptyString, s)
      else let '(a, b) := span_until f s' in (String c a, b)
  end.

Definition uses_params : list string :=
  [""; "ftp"; "hdl"; "prospero"; "http"; "imap"; "https"; "shttp"; "rtsp"; "rtspu"; "sip"; "sips";
   "mms"; "sftp"; "tel"].

Definition split_scheme (s : string) : string * string :=
  match partition ":" s with
  | Some (String c a, b) =>
      if is_alpha c && str_all is_scheme_char (String c a) then (py_lower (String c a), b)
      else (EmptyString, s)
  | _ => (EmptyString, s)
  end.

Definition split_netloc (s : string) : string * string :=
  if startswith s "//" then span_until (char_in "/?#") (str_drop 2 s) else (EmptyString, s).

(** [url\[:i\], url\[i+1:\]] at the first ";" of the last path segment. *)
Definition split_params (s : string) : string * string :=
  let last := after_last "/"%char s in
  match partition ";" last with
  | None => (s, EmptyString)
  | Some (a, b) => (str_take (String.length s - String.length last) s +:+ a, b)
  end.

Definition split_at (sep s : string) : string * string := default (s, EmptyString) (partition sep s).

Definition urlparse (s : string) : res url :=
  let s := lstrip_by (λ c, ord c <=? 32)%N s in
  let s := str_filter (λ c, negb (char_in (chr 9 +:+ cr +:+ nl) c)) s in
  let '(scheme, s) := split_scheme s in
  let '(netloc, s) := split_netloc s in
  _ ← raise_if (xorb (contains netloc "[") (contains netloc "]")) (ValueError "Invalid IPv6 URL");
  let '(s, fragment) := split_at "#" s in
  let '(s, query) := split_at "?" s in
  let '(path, params) :=
    if one_of scheme uses_params && contains s ";" then split_params s else (s, EmptyString) in
  Ok (Url scheme netloc path params query fragment).

Definition uses_netloc : list string :=
  [""; "ftp"; "http"; "gopher"; "nntp"; "telnet"; "imap"; "wais"; "file"; "mms"; "https"; "shttp";
   "snews"; "prospero"; "rtsp"; "rtsps"; "rtspu"; "rsync"; "svn"; "svn+ssh"; "sftp"; "nfs"; "git";
   "git+ssh"; "ws"; "wss"; "itms-services"].

Definition urlunparse (u : url) : string :=
  let p := if nonempty (u_params u) then u_path u +:+ ";" +:+ u_params u else u_path u in
  let p :=
    if nonempty (u_netloc u) ||
       (nonempty (u_scheme u) && one_of (u_scheme u) uses_netloc && negb (startswith p "//"))
    then "//" +:+ u_netloc u +:+ (if nonempty p && negb (startswith p "/") then "/" +:+ p else p)
    else p in
  let p := if nonempty (u_scheme u) then u_scheme u +:+ ":" +:+ p else p in
  let p := if nonempty (u_query u) then p +:+ "?" +:+ u_query u else p in
  if nonempty (u_fragment u) then p +:+ "#" +:+ u_fragment u else p.

(** [unquote], to bytes. *)
Fixpoint unquote_go (s : string) : string :=
  match s with
  | String p (String a (String b s') as s1) =>
      if char_in "%" p then
        match hex_val a, hex_val b with
        | Some x, Some y => String (ascii_of_N (16 * x + y)) (unquote_go s')
        | _, _ => String p (unquote_go s1)
        end
      else String p (unquote_go s1)
  | _ => s
  end.
Definition unquote_plus (s : string) : string := unquote_go (replace "+" " " (utf8_encode s)).

Definition parse_qsl (keep_blank : bool) (qs : string) : list (string * string) :=
  let one nv :=
    match partition "=" nv with
    | Some (k, v) =>
        if nonempty v || keep_blank then Some (unquote_plus k, unquote_plus v) else None
    | None => if keep_blank then Some (unquote_plus nv, EmptyString) else None
    end in
  omap one (List.filter nonempty (split_char "&" qs)).

Definition is_unreserved (c : ascii) : bool := is_alpha c || is_digit c || char_in "_.-~" c.
Definition upper_hex (n : N) : ascii := ascii_of_N (if n <? 10 then 48 + n else 55 + n)%N.
Fixpoint quote_plus (s : string) : string :=
  match s with
  | EmptyString => EmptyString
  | String c s =>
      (if is_unreserved c then String c EmptyString
       else if char_in " " c then "+"
       else String "%" (String (upper_hex (ord c / 16)) (String (upper_hex (ord c mod 16)) EmptyString)))
      +:+ quote_plus s
  end.
Definition urlencode (query : list (string * string)) : string :=
  join "&" ((λ kv, quote_plus (fst kv) +:+ "=" +:+ quote_plus (snd kv)) <$> query).

(** ** Shell quoting *)

Definition is_shell_safe (c : ascii) : bool := is_alpha c || is_digit c || char_in "_@%+=:,./-" c.
Definition shlex_quote (s : string) : string :=
  if negb (nonempty s) then "''"
  else if str_all is_shell_safe s then s
  else "'" +:+ replace "'" ("'" +:+ dq +:+ "'" +:+ dq +:+ "'") s +:+ "'".

(** ** Dates *)

(** Days since 1970-01-01 of a proleptic Gregorian date, and back. *)
Definition days_from_civil (y m d : Z) : Z :=
  let y := if m <=? 2 then y - 1 else y in
  let era := y / 400 in
  let yoe := y - era * 400 in
  let doy := (153 * (if 2 <? m then m - 3 else m + 9) + 2) / 5 + d - 1 in
  let doe := yoe * 365 + yoe / 4 - yoe / 100 + doy in
  era * 146097 + doe - 719468.

Definition civil_from_days (z : Z) : Z * Z * Z :=
  let z := z + 719468 in
  let era := z / 146097 in
  let doe := z - era * 146097 in
  let yoe := (doe - doe / 1460 + doe / 36524 - doe / 146096) / 365 in
  let doy := doe - (365 * yoe + yoe / 4 - yoe / 100) in
  let mp := (5 * doy + 2) / 153 in
  let d := doy - (153 * mp + 2) / 5 + 1 in
  let m := if mp <? 10 then mp + 3 else mp - 9 in
  (yoe + era * 400 + (if m <=? 2 then 1 else 0), m, d).

Definition is_leap (y : Z) : bool := (y mod 4 =? 0) && (negb (y mod 100 =? 0) || (y mod 400 =? 0)).
Definition days_in_month (y m : Z) : Z :=
  if m =? 2 then (if is_leap y then 29 else 28)
  else if (m =? 4) || (m =? 6) || (m =? 9) || (m =? 11) then 30 else 31.

Definition pad (n : nat) (z : Z) : string :=
  let s := py_str_int z in String.concat "" (repeat "0" (n - String.length s)) +:+ s.

Definition weekday_names : list string := ["Thu"; "Fri"; "Sat"; "Sun"; "Mon"; "Tue"; "Wed"].
Definition month_names : list string :=
  ["Jan"; "Feb"; "Mar"; "Apr"; "May"; "Jun"; "Jul"; "Aug"; "Sep"; "Oct"; "Nov"; "Dec"].

(** [strftime("%a, %d %b %Y %H:%M:%S +0000")] of a UTC time in seconds, with the
    names of the C locale. *)
Definition rfc822_utc (t : Z) : string :=
  let days := t / 86400 in
  let secs := t mod 86400 in
  let '(y, m, d) := civil_from_days days in
  nth (Z.to_nat (days mod 7)) weekday_names "" +:+ ", " +:+ pad 2 d +:+ " " +:+
  nth (Z.to_nat (m - 1)) month_names "" +:+ " " +:+ pad 4 y +:+ " " +:+ pad 2 (secs / 3600) +:+ ":" +:+
  pad 2 (secs / 60 mod 60) +:+ ":" +:+ pad 2 (secs mod 60) +:+ " +0000".

(** [strftime("%Y%m%d_%H%M%S")] of a time in seconds. *)
Definition compact_stamp (t : Z) : string :=
  let '(y, m, d) := civil_from_days (t / 86400) in
  let secs := t mod 86400 in
  pad 4 y +:+ pad 2 m +:+ pad 2 d +:+ "_" +:+ pad 2 (secs / 3600) +:+ pad 2 (secs / 60 mod 60) +:+
  pad 2 (secs mod 60).

Example rfc822_example : rfc822_utc 1767225600 = "Thu, 01 Jan 2026 00:00:00 +0000".
Proof. reflexivity. Qed.
Example civil_example : days_from_civil 2026 1 1 = 20454 ∧ civil_from_days 20454 = (2026, 1, 1).
Proof. split; reflexivity. Qed.
Example url_example :
  urlparse "https://h.example/a/b.json;v=1?q=1&c=#f" =
  Ok (Url "https" "h.example" "/a/b.json" "v=1" "q=1&c=" "f").
Proof. reflexivity. Qed.
