(* ===== verification/IniFile.v ===== *)
(** * [configparser] with its defaults

    What [ConfigParser().read(path)] keeps of an INI file and what
    [get(section, option, fallback=...)] answers: sections, options in lower
    case, values that go on over indented lines, the section DEFAULT, and the
    interpolation of [%(name)s]. *)

From S2P Require Import Prelude PyStr PyRe PyJson.

Local Open Scope Z_scope.

Abbreviation options := (list (string * string)).

(** A value is kept as its lines until the file has been read. *)
Abbreviation raw_options := (list (string * list string)).

(** The reader: the sections and the defaults so far, the section and the option
    of the last line, the margin of that option, and whether a line was no option. *)
Inductive section_name : Type := Named (name : string) | Defaults.
Record reader : Type := Reader {
  r_sections : list (string * raw_options); r_defaults : raw_options;
  r_section : option section_name; r_option : option string; r_margin : nat; r_malformed : bool }.
Record ini : Type := Ini { i_sections : list (string * options); i_defaults : options }.

Definition config_error (what : string) : exn := ForeignError ("configparser." +:+ what).

Definition current_options (st : reader) : raw_options :=
  match r_section st with
  | Some (Named name) => default [] (assoc name (r_sections st))
  | Some Defaults => r_defaults st
  | None => []
  end.
Definition set_options (o : raw_options) (st : reader) : reader :=
  match r_section st with
  | Some (Named name) =>
      Reader (assoc_set name o (r_sections st)) (r_defaults st) (r_section st) (r_option st) (r_margin st) (r_malformed st)
  | Some Defaults => Reader (r_sections st) o (r_section st) (r_option st) (r_margin st) (r_malformed st)
  | None => st
  end.

(** One more line of the value of the current option. *)
Definition continue_value (line : string) (st : reader) : reader :=
  match r_option st with
  | Some o => set_options (assoc_set o (default [] (assoc o (current_options st)) ++ [line]) (current_options st)) st
  | None => st
  end.

Definition comment (line : string) : bool := startswith line "#" || startswith line ";".
Definition margin (line : string) : nat := String.length line - String.length (lstrip_by is_space line).

(** [\[(?P<header>.+)\]] at the start of a line. *)
Definition header_re : regex := seqs [lit "["; RGroup 1 (plus (RChar (λ c, negb (Ascii.eqb c (ascii_of_N 10))))); lit "]"].

(** An option and its value: the text on both sides of the first delimiter. *)
Definition is_delimiter (c : ascii) : bool := Ascii.eqb c "=" || Ascii.eqb c ":".
Fixpoint split_option (line : string) : option (string * string) :=
  match line with
  | EmptyString => None
  | String c rest =>
      if is_delimiter c then Some (EmptyString, rest)
      else match split_option rest with Some (name, value) => Some (String c name, value) | None => None end
  end.

Definition at_line (option_name : option string) (m : nat) (section : option section_name) (st : reader) : reader :=
  Reader (r_sections st) (r_defaults st) section option_name m (r_malformed st).
Definition malformed (m : nat) (st : reader) : reader :=
  Reader (r_sections st) (r_defaults st) (r_section st) (r_option st) m true.

(** A line that starts something new: a section, or an option of the current one. *)
Definition new_entry (value : string) (m : nat) (st : reader) : res reader :=
  match re_match header_re value with
  | Some mo =>
      let name := group_str 1 mo in
      if one_of name (r_sections st).*1 then Raise (config_error "DuplicateSectionError")
      else if name == "DEFAULT" then Ok (at_line None m (Some Defaults) st)
      else Ok (at_line None m (Some (Named name))
                 (Reader (r_sections st ++ [(name, [])]) (r_defaults st) (r_section st) (r_option st) m (r_malformed st)))
  | None =>
      match r_section st with
      | None => Raise (config_error "MissingSectionHeaderError")
      | Some section =>
          match split_option value with
          | None => Ok (malformed m st)
          | Some (name, text) =>
              let name := py_lower (rstrip_by is_space name) in
              let st := if nonempty name then st else malformed m st in
              if one_of name (current_options st).*1 then Raise (config_error "DuplicateOptionError")
              else Ok (set_options (current_options st ++ [(name, [strip text])]) (at_line (Some name) m (Some section) st))
          end
      end
  end.

Definition read_line (st : reader) (line : string) : res reader :=
  let value := strip line in
  if comment value then Ok st
  else if negb (nonempty value) then Ok (continue_value EmptyString st)
  else if nonempty (default EmptyString (r_option st)) && (r_margin st <? margin line)%nat then Ok (continue_value value st)
  else new_entry value (margin line) st.

Fixpoint read_lines (st : reader) (lines : list string) : res reader :=
  match lines with
  | [] => Ok st
  | line :: lines => st ← read_line st line; read_lines st lines
  end.

Definition joined (o : raw_options) : options := (λ kv, (fst kv, rstrip_by is_space (join nl (snd kv)))) <$> o.

(** The content of a file that was read to its end. *)
Definition parse_ini (text : string) : res ini :=
  st ← read_lines (Reader [] [] None None 0 false) (split_char "010"%char text);
  if r_malformed st then Raise (config_error "ParsingError")
  else Ok (Ini ((λ s, (fst s, joined (snd s))) <$> r_sections st) (joined (r_defaults st))).

(** ** Interpolation *)

(** The name between [%(] and [)s], and the text after it. *)
Definition reference_re : regex := seqs [lit "%("; RGroup 1 (plus (RChar (λ c, negb (Ascii.eqb c ")")))); lit ")s"].

(** A value with its references replaced, ten levels deep at most. *)
Fixpoint interpolate (depth : nat) (values : options) : string → res string :=
  match depth with
  | O => λ _, Raise (config_error "InterpolationDepthError")
  | S depth => λ s,
      (fix go (fuel : nat) (rest : string) {struct fuel} : res string :=
        match fuel, rest with
        | O, _ | _, EmptyString => Ok EmptyString
        | S fuel, String c after =>
            if negb (Ascii.eqb c "%") then t ← go fuel after; Ok (String c t)
            else match after with
                 | String d after' =>
                     if Ascii.eqb d "%" then t ← go fuel after'; Ok (String c t)
                     else if Ascii.eqb d "(" then
                       match re_match reference_re rest with
                       | None => Raise (config_error "InterpolationSyntaxError")
                       | Some mo =>
                           v ← from_option (assoc (py_lower (group_str 1 mo)) values) (config_error "InterpolationMissingOptionError");
                           v ← (if contains v "%" then interpolate depth values v else Ok v);
                           t ← go fuel (str_drop (String.length (mo_text mo)) rest);
                           Ok (v +:+ t)
                       end
                     else Raise (config_error "InterpolationSyntaxError")
                 | EmptyString => Raise (config_error "InterpolationSyntaxError")
                 end
        end) (String.length s) s
  end.

(** [get(section, option, fallback=fallback)]: the options of the section come
    before the defaults. *)
Definition ini_get (i : ini) (section option_name fallback : string) : res string :=
  match (if section == "DEFAULT" then Some [] else assoc section (i_sections i)) with
  | None => Ok fallback
  | Some o =>
      let values := o ++ i_defaults i in
      match assoc (py_lower option_name) values with
      | None => Ok fallback
      | Some v => interpolate 10 values v
      end
  end.

Definition ini_text (text section option_name : string) : res string := i ← parse_ini text; ini_get i section option_name "(none)".
Example ini_values :
  let text := join nl ["; install"; "[DEFAULT]"; "Build = 7"; "[installation]"; "workerVersion: 1.8.%(build)s+1"; "notes = a"; "  b"; EmptyString] in
  ini_text text "installation" "WorkerVersion" = Ok "1.8.7+1" ∧ ini_text text "installation" "notes" = Ok ("a" +:+ nl +:+ "b") ∧
  ini_text text "installation" "other" = Ok "(none)" ∧ ini_text text "missing" "build" = Ok "(none)" ∧
  ini_text text "DEFAULT" "build" = Ok "7".
Proof. by vm_compute. Qed.
Example ini_errors :
  ini_text ("a=1" +:+ nl) "s" "a" = Raise (config_error "MissingSectionHeaderError") ∧
  ini_text (join nl ["[s]"; "a=1"; "A=2"]) "s" "a" = Raise (config_error "DuplicateOptionError") ∧
  ini_text (join nl ["[s]"; "[s]"]) "s" "a" = Raise (config_error "DuplicateSectionError") ∧
  ini_text (join nl ["[s]"; "a"]) "s" "a" = Raise (config_error "ParsingError") ∧
  ini_text (join nl ["[s]"; "a=%(a)s"]) "s" "a" = Raise (config_error "InterpolationDepthError") ∧
  ini_text (join nl ["[s]"; "a=5%"]) "s" "a" = Raise (config_error "InterpolationSyntaxError").
Proof. by vm_compute. Qed.
