(* ===== verification/PyJsonIndent.v ===== *)
(** * Reading back what [json.dumps] wrote with white space

    The reports and records of the tools are written with indentation. Reading
    such a text gives the value back. *)

From S2P Require Import Prelude PyStr PyJson.

(** White space between two tokens. *)
Definition json_ws (s : string) : bool := str_all is_json_space s.

Lemma skip_ws_app s t : json_ws s = true → skip_ws (s +:+ t) = skip_ws t.
Proof.
  unfold json_ws. induction s as [|c s IH]; [done|]. cbn [str_all String.append].
  intros [Hc Hs]%andb_prop. unfold skip_ws in *. cbn [lstrip_by]. rewrite Hc. by apply IH.
Qed.

Lemma json_ws_app s t : json_ws (s +:+ t) = json_ws s && json_ws t.
Proof. unfold json_ws. induction s as [|c s IH]; [done|]. cbn [str_all String.append]. rewrite IH. by destruct (is_json_space c). Qed.

Section roundtrip.
Context (asc : bool) (hook : list (string * json) → res json).
Context (Hhook : ∀ l, NoDup l.*1 → hook l = Ok (JObj l)).

Local Abbreviation rendi := (render_indent asc).
Local Abbreviation rendi_kv pad :=
  (λ kv : string * json, a ← rendi pad (snd kv); Some (dump_str asc (fst kv) +:+ ": " +:+ a)).

Definition reads_indent (v : json) : Prop := ∀ pad t s fuel, json_ws pad = true →
  plain_json v = true → rendi pad v = Some t → num_end s = true → (jfuel v ≤ fuel)%nat →
  parse hook fuel (t +:+ s) = Ok (v, s).

Lemma render_indent_starts pad v t : rendi pad v = Some t → starts_value t.
Proof.
  destruct v as [|b|z|f|k|[|v l]|[|kv l]]; intros Ht; try (by eapply render_starts).
  1, 3: cbn [render_indent] in Ht; injection Ht as <-; by do 2 eexists.
  all: cbn [render_indent] in Ht; destruct (join_opt _ _ _); [|done]; injection Ht as <-; by do 2 eexists.
Qed.

Lemma parse_items_indent pre pad l body s fuel : l ≠ [] → json_ws pre = true → json_ws pad = true →
  Forall reads_indent l → forallb plain_json l = true →
  join_opt (rendi (pad +:+ "  ")) ("," +:+ nl +:+ pad +:+ "  ") l = Some body →
  (foldr (λ x n, S (jfuel x + n)) O l ≤ fuel)%nat →
  parse_items hook fuel (pre +:+ body +:+ nl +:+ pad +:+ "]" +:+ s) = Ok (l, s).
Proof.
  intros Hne Hpre Hpad Hl. assert (Hin : json_ws (pad +:+ "  ") = true) by (by rewrite json_ws_app, Hpad).
  revert pre Hpre body fuel Hne. induction Hl as [|v l Hv Hl IH]; intros pre Hpre body fuel Hne; [done|].
  cbn [forallb foldr]. intros [Hpv Hpl]%andb_prop Hb Hf. destruct fuel as [|fuel]; [lia|].
  cbn [parse_items]. rewrite skip_ws_app by done. destruct l as [|v' l].
  - change (rendi (pad +:+ "  ") v = Some body) in Hb.
    rewrite starts_value_ws by (by eapply render_indent_starts).
    rewrite (Hv (pad +:+ "  ") body) by first [assumption|reflexivity|simpl in Hf; lia]. cbn [mbind res_bind].
    rewrite <- str_app_assoc, skip_ws_app by (rewrite json_ws_app; by rewrite Hpad).
    reflexivity.
  - apply join_opt_cons in Hb as (a & b & Ha & Hb & ->). rewrite !str_app_assoc.
    rewrite starts_value_ws by (by eapply render_indent_starts).
    rewrite (Hv (pad +:+ "  ") a) by first [assumption|reflexivity|lia].
    cbn [mbind res_bind].
    change (skip_ws ("," +:+ ?x)) with (String ","%char x). cbv iota.
    change (ord "," =? 44)%N with true. cbv iota.
    rewrite <- (str_app_assoc pad), <- (str_app_assoc nl).
    rewrite (IH (nl +:+ pad +:+ "  ") ltac:(done) b fuel) by (done || lia). done.
Qed.

Lemma parse_members_indent pre pad l body s fuel : l ≠ [] → json_ws pre = true → json_ws pad = true →
  Forall (λ kv, reads_indent (snd kv)) l → forallb (λ kv, plain_json (snd kv)) l = true →
  join_opt (rendi_kv (pad +:+ "  ")) ("," +:+ nl +:+ pad +:+ "  ") l = Some body →
  (foldr (λ kv n, S (jfuel (snd kv) + n)) O l ≤ fuel)%nat →
  parse_members hook fuel (pre +:+ body +:+ nl +:+ pad +:+ "}" +:+ s) = Ok (l, s).
Proof.
  intros Hne Hpre Hpad Hl. assert (Hin : json_ws (pad +:+ "  ") = true) by (by rewrite json_ws_app, Hpad).
  revert pre Hpre body fuel Hne. induction Hl as [|[k v] l Hv Hl IH]; intros pre Hpre body fuel Hne; [done|].
  cbn [forallb foldr snd] in *. intros [Hpv Hpl]%andb_prop Hb Hf. destruct fuel as [|fuel]; [lia|].
  assert (Hone : ∀ a ws c t, rendi (pad +:+ "  ") v = Some a → json_ws ws = true →
    num_end (ws +:+ String c t) = true → is_json_space c = false →
    parse_members hook (S fuel) (pre +:+ (dump_str asc k +:+ ": " +:+ a) +:+ ws +:+ String c t) =
    if (ord c =? 44)%N then '(l, t) ← parse_members hook fuel t; Ok ((k, v) :: l, t)
    else if (ord c =? 125)%N then Ok ([(k, v)], t) else fail_json).
  { intros a ws c t Ha Hws Hc Hsp. unfold dump_str. rewrite !str_app_assoc. cbn [parse_members].
    rewrite skip_ws_app by done.
    unfold dq at 1, chr at 1. cbn [String.append].
    rewrite skip_ws_cons by done.
    cbv iota. change (ord (ascii_of_N 34) =? 34)%N with true. cbv iota.
    rewrite scan_str_esc. cbv iota beta.
    cbn [String.append]. rewrite skip_ws_cons by done. cbv iota.
    change (ord ":" =? 58)%N with true. cbv iota.
    change (String " " (a +:+ ws +:+ String c t)) with (" " +:+ (a +:+ ws +:+ String c t)).
    rewrite skip_ws_app by done.
    rewrite starts_value_ws by (by eapply render_indent_starts).
    rewrite (Hv (pad +:+ "  ") a) by first [assumption|reflexivity|lia]. cbn [mbind res_bind].
    by rewrite skip_ws_app, skip_ws_cons by done. }
  destruct l as [|kv' l].
  - change (rendi_kv (pad +:+ "  ") (k, v) = Some body) in Hb. cbn [fst snd] in Hb.
    destruct (rendi _ v) as [a|] eqn:Ha; [|done]. injection Hb as <-.
    rewrite <- (str_app_assoc nl pad).
    change ("}" +:+ s) with (String "}"%char s). by rewrite (Hone a) by (done || by rewrite json_ws_app, Hpad).
  - apply join_opt_cons in Hb as (a & b & Ha & Hb & ->). cbn [fst snd] in Ha.
    destruct (rendi _ v) as [a'|] eqn:Ha'; [|done]. injection Ha as <-.
    rewrite (str_app_assoc _ _ (nl +:+ pad +:+ "}" +:+ s)).
    change ((("," +:+ nl +:+ pad +:+ "  ") +:+ b) +:+ nl +:+ pad +:+ "}" +:+ s)
      with (EmptyString +:+ String ","%char (((nl +:+ pad +:+ "  ") +:+ b) +:+ nl +:+ pad +:+ "}" +:+ s)).
    rewrite (Hone a' EmptyString) by done. change (ord "," =? 44)%N with true. cbv iota.
    rewrite (str_app_assoc (nl +:+ pad +:+ "  ")).
    rewrite (IH (nl +:+ pad +:+ "  ") ltac:(done) b fuel) by (done || lia). done.
Qed.

(** A property of the first element's text that appending keeps holds of the
    whole text. *)
Lemma join_opt_head {A} (f : A → option string) sep (P : string → Prop) x l body :
  (∀ a t, P a → P (a +:+ t)) → (∀ a, f x = Some a → P a) → join_opt f sep (x :: l) = Some body → P body.
Proof.
  intros Happ Hx Hb. destruct l as [|y l]; [by apply Hx|].
  apply join_opt_cons in Hb as (a & b & Ha & _ & ->). apply Happ, Hx, Ha.
Qed.

Lemma render_indent_arr pad v l t : rendi pad (JArr (v :: l)) = Some t →
  ∃ body, join_opt (rendi (pad +:+ "  ")) ("," +:+ nl +:+ pad +:+ "  ") (v :: l) = Some body ∧
    t = "[" +:+ nl +:+ pad +:+ "  " +:+ body +:+ nl +:+ pad +:+ "]".
Proof.
  cbn [render_indent]. destruct (join_opt _ _ (v :: l)) as [body|]; [|done]. intros [= <-].
  exists body. by rewrite !str_app_assoc.
Qed.

Lemma render_indent_obj pad kv l t : rendi pad (JObj (kv :: l)) = Some t →
  ∃ body, join_opt (rendi_kv (pad +:+ "  ")) ("," +:+ nl +:+ pad +:+ "  ") (kv :: l) = Some body ∧
    t = "{" +:+ nl +:+ pad +:+ "  " +:+ body +:+ nl +:+ pad +:+ "}".
Proof.
  cbn [render_indent]. destruct (join_opt _ _ (kv :: l)) as [body|]; [|done]. intros [= <-].
  exists body. by rewrite !str_app_assoc.
Qed.

Lemma reads_indent_all v : reads_indent v.
Proof.
  induction v as [|b|z|f|k|l IH|l IH] using json_nested_ind; intros pad t s fuel Hpad Hp Ht Hs Hf.
  1-5: by eapply (reads_all asc hook Hhook).
  - destruct l as [|v l]; [by eapply (reads_all asc hook Hhook (JArr []))|].
    apply render_indent_arr in Ht as (body & Hb & ->). cbn [jfuel] in Hf. destruct fuel as [|fuel]; [lia|].
    rewrite !str_app_assoc, <- (str_app_assoc pad "  "), <- (str_app_assoc nl (pad +:+ "  ")).
    change ("[" +:+ ?x) with (String "["%char x). cbn [parse].
    change (ord "[" =? 34)%N with false. change (ord "[" =? 91)%N with true. cbv iota.
    assert (Hst : starts_value body).
    { eapply join_opt_head; [| |done]; [|by apply render_indent_starts].
      intros a t (c & r & -> & ?). by eexists c, _. }
    rewrite skip_ws_app, starts_value_ws by (done || by rewrite !json_ws_app, Hpad).
    assert (Hit : parse_items hook fuel (EmptyString +:+ body +:+ nl +:+ pad +:+ "]" +:+ s) = Ok (v :: l, s))
      by (apply parse_items_indent; done || lia).
    destruct Hst as (c & r & -> & _ & Hc & _). cbn [String.append] in *. by rewrite Hc, Hit.
  - destruct l as [|kv l]; [by eapply (reads_all asc hook Hhook (JObj []))|].
    apply render_indent_obj in Ht as (body & Hb & ->). cbn [jfuel] in Hf. destruct fuel as [|fuel]; [lia|].
    cbn [plain_json] in Hp. apply andb_prop in Hp as [Hnd%bool_decide_eq_true Hp].
    rewrite !str_app_assoc, <- (str_app_assoc pad "  "), <- (str_app_assoc nl (pad +:+ "  ")).
    change ("{" +:+ ?x) with (String "{"%char x). cbn [parse].
    change (ord "{" =? 34)%N with false. change (ord "{" =? 91)%N with false.
    change (ord "{" =? 123)%N with true. cbv iota.
    assert (Hst : ∃ r, body = dq +:+ r).
    { apply (join_opt_head _ _ (λ b, ∃ r, b = dq +:+ r) _ _ _) in Hb; [done| |].
      - intros a t (r & ->). by eexists.
      - intros a. cbn beta. destruct (rendi _ (snd kv)); [|done]. intros [= <-].
        unfold dump_str. rewrite !str_app_assoc. by eexists. }
    assert (Hit : parse_members hook fuel (EmptyString +:+ body +:+ nl +:+ pad +:+ "}" +:+ s) = Ok (kv :: l, s))
      by (apply parse_members_indent; done || lia).
    rewrite skip_ws_app by (by rewrite !json_ws_app, Hpad).
    destruct Hst as (r & ->). unfold dq, chr in *. cbn [String.append] in *.
    rewrite skip_ws_cons by done. cbv iota.
    change (ord (ascii_of_N 34) =? 125)%N with false. cbv iota.
    rewrite Hit. cbn [mbind res_bind]. by rewrite Hhook.
Qed.

Lemma length_join_sep {A} (f : A → option string) (g : A → nat) sep l body : (1 ≤ String.length sep)%nat →
  Forall (λ x, ∀ t, f x = Some t → g x ≤ 2 * String.length t)%nat l →
  join_opt f sep l = Some body →
  (foldr (λ x n, S (g x + n)) O l ≤ 2 * String.length body + 1)%nat.
Proof.
  intros Hsep Hl. revert body. induction Hl as [|x l Hx Hl IH]; intros body Hb; [simpl; lia|].
  destruct l as [|y l].
  - change (f x = Some body) in Hb. apply Hx in Hb. simpl. lia.
  - apply join_opt_cons in Hb as (a & b & Ha & Hb & ->). apply Hx in Ha. apply IH in Hb.
    cbn [foldr] in *. rewrite !length_str_app. lia.
Qed.

Lemma jfuel_length_indent v pad t : rendi pad v = Some t → (jfuel v ≤ 2 * String.length t)%nat.
Proof.
  revert pad t. induction v as [|b|z|f|k|l IH|l IH] using json_nested_ind; intros pad t Ht.
  1-5: destruct (render_indent_starts _ _ _ Ht) as (c & r & -> & _); simpl; lia.
  - destruct l as [|v l]; [injection Ht as <-; simpl; lia|].
    apply render_indent_arr in Ht as (body & Hb & ->). apply (length_join_sep _ jfuel) in Hb; [|simpl; lia|].
    + cbn [jfuel]. rewrite !length_str_app. cbn [foldr] in *. simpl String.length. lia.
    + eapply Forall_impl; [exact IH|]. eauto.
  - destruct l as [|kv l]; [injection Ht as <-; simpl; lia|].
    apply render_indent_obj in Ht as (body & Hb & ->).
    apply (length_join_sep _ (λ kv, jfuel (snd kv))) in Hb; [|simpl; lia|].
    + cbn [jfuel]. rewrite !length_str_app. cbn [foldr] in *. simpl String.length. lia.
    + eapply Forall_impl; [exact IH|]. intros [k v] Hv t. cbn [fst snd] in *.
      destruct (rendi _ v) as [a|] eqn:Ha; [|done]. intros [= <-]. specialize (Hv _ _ Ha).
      cbn [String.length]. rewrite !length_str_app. cbn [String.length]. lia.
Qed.

(** Reading an indented text gives the value back, with white space after it. *)
Lemma loads_indent v t ws : plain_json v = true → json_ws ws = true → dumps_indent asc v = Some t →
  loads_hook hook (t +:+ ws) = Ok v.
Proof.
  intros Hp Hws Ht. unfold loads_hook.
  rewrite starts_value_ws by (by eapply render_indent_starts).
  rewrite (reads_indent_all v EmptyString t ws).
  - cbn [mbind res_bind]. rewrite <- (str_app_nil_r ws), skip_ws_app by done. done.
  - done.
  - done.
  - done.
  - destruct ws as [|c ws]; [done|]. unfold json_ws in Hws. cbn [str_all] in Hws.
    apply andb_prop in Hws as [Hc _]. unfold is_json_space in Hc. simpl. apply negb_true_iff.
    repeat apply orb_prop in Hc as [Hc|Hc]; apply N.eqb_eq in Hc; unfold is_digit, in_range; by rewrite Hc.
  - apply jfuel_length_indent in Ht. rewrite length_str_app. lia.
Qed.
End roundtrip.

(** [json.loads(json.dumps(v, indent=2) + ws)] *)
Lemma loads_dumps_indent asc v t ws : plain_json v = true → json_ws ws = true →
  dumps_indent asc v = Some t → loads (t +:+ ws) = Ok v.
Proof.
  apply (loads_indent asc dict_hook). intros l Hl. unfold dict_hook. by rewrite dict_of_id.
Qed.

(** ** Objects of strings in the default format *)

Section flat.
Context (asc : bool) (hook : list (string * json) → res json).

Local Abbreviation flat_kv :=
  (λ kv : string * json, a ← render asc ", " ": " (snd kv); Some (dump_str asc (fst kv) +:+ ": " +:+ a)).

Definition is_string (v : json) : bool := match v with JStr _ => true | _ => false end.

Lemma parse_str k s fuel : parse hook (S fuel) (dump_str asc k +:+ s) = Ok (JStr k, s).
Proof.
  unfold dump_str. rewrite !str_app_assoc. unfold dq at 1, chr at 1. cbn [String.append parse].
  change (ord (ascii_of_N 34) =? 34)%N with true. cbv iota. by rewrite scan_str_esc.
Qed.

Lemma parse_flat_member pre k v c t fuel : json_ws pre = true → is_json_space c = false →
  parse_members hook (S (S fuel)) (pre +:+ (dump_str asc k +:+ ": " +:+ dump_str asc v) +:+ String c t) =
  if (ord c =? 44)%N then '(l, t) ← parse_members hook (S fuel) t; Ok ((k, JStr v) :: l, t)
  else if (ord c =? 125)%N then Ok ([(k, JStr v)], t) else fail_json.
Proof.
  intros Hpre Hc. remember (S fuel) as f eqn:Hf. unfold dump_str at 1. rewrite !str_app_assoc. cbn [parse_members].
  rewrite skip_ws_app by done. unfold dq at 1, chr at 1. cbn [String.append]. rewrite skip_ws_cons by done.
  cbv iota. change (ord (ascii_of_N 34) =? 34)%N with true. cbv iota. rewrite scan_str_esc. cbv iota beta.
  cbn [String.append]. rewrite skip_ws_cons by done. cbv iota. change (ord ":" =? 58)%N with true. cbv iota.
  change (String " " (dump_str asc v +:+ String c t)) with (" " +:+ (dump_str asc v +:+ String c t)).
  rewrite skip_ws_app by done. rewrite starts_value_ws by (eapply (render_starts asc (JStr v)); reflexivity).
  subst f. rewrite parse_str. cbn [mbind res_bind]. by rewrite skip_ws_cons.
Qed.

Lemma parse_flat pre l body s fuel : l ≠ [] → json_ws pre = true → forallb (λ kv, is_string (snd kv)) l = true →
  join_opt flat_kv ", " l = Some body → (length l < fuel)%nat →
  parse_members hook fuel (pre +:+ body +:+ "}" +:+ s) = Ok (l, s).
Proof.
  intros Hne Hpre Hl. revert pre Hpre body fuel Hne. induction l as [|[k v] l IH]; intros pre Hpre body fuel Hne; [done|].
  cbn [forallb snd length] in *. apply andb_prop in Hl as [Hv Hl]. destruct v as [| | | |v| |]; try done.
  intros Hb Hf. destruct fuel as [|[|fuel]]; [lia|lia|]. destruct l as [|kv' l].
  - cbn [join_opt fst snd render mbind option_bind] in Hb. apply (inj Some) in Hb as <-.
    change ("}" +:+ s) with (String "}" s). by rewrite parse_flat_member.
  - apply join_opt_cons in Hb as (a & b & Ha & Hb & ->). cbn [fst snd render mbind option_bind] in Ha. apply (inj Some) in Ha as <-.
    assert (pre +:+ ((dump_str asc k +:+ ": " +:+ dump_str asc v) +:+ ", " +:+ b) +:+ "}" +:+ s =
      pre +:+ (dump_str asc k +:+ ": " +:+ dump_str asc v) +:+ String "," (" " +:+ b +:+ "}" +:+ s)) as ->
      by (by rewrite !str_app_assoc).
    rewrite parse_flat_member by done.
    change (ord "," =? 44)%N with true. cbv iota.
    rewrite (IH Hl " " ltac:(done) b (S fuel)) by (done || simpl in *; lia). done.
Qed.
End flat.

(** [json.loads(json.dumps(d))] of a non-empty dict of strings. *)
Lemma loads_dumps_strings asc l t : l ≠ [] → NoDup l.*1 → forallb (λ kv, is_string (snd kv)) l = true →
  render asc ", " ": " (JObj l) = Some t → loads t = Ok (JObj l).
Proof.
  intros Hne Hnd Hl. cbn [render]. destruct (join_opt _ _ l) as [body|] eqn:Hb; [|done]. intros Ht. apply (inj Some) in Ht as <-.
  assert (Hst : ∃ r, body = dq +:+ r).
  { destruct l as [|[k v] l]; [done|]. cbn [forallb snd] in Hl. apply andb_prop in Hl as [Hv _]. destruct v; try done.
    apply (join_opt_head _ _ (λ b, ∃ r, b = dq +:+ r)) in Hb; [done|intros a t (r & ->); by eexists|].
    intros a [= <-]. unfold dump_str. rewrite !str_app_assoc. by eexists. }
  assert (Hlen : (length l ≤ String.length body)%nat).
  { assert (Hjoin : ∀ l body, join_opt (λ kv : string * json, a ← render asc ", " ": " (snd kv);
      Some (dump_str asc (fst kv) +:+ ": " +:+ a)) ", " l = Some body → (length l ≤ String.length body)%nat); [|by eapply Hjoin].
    clear. induction l as [|kv l IH]; intros body Hb; [simpl; lia|]. destruct l as [|kv' l].
    - cbn [join_opt] in Hb. destruct (render _ _ _ _); [|done]. injection Hb as <-. unfold dump_str. simpl. lia.
    - apply join_opt_cons in Hb as (a & b & _ & Hb & ->). apply IH in Hb. rewrite !length_str_app. simpl in *. lia. }
  unfold loads, loads_hook. change ("{" +:+ body +:+ "}") with (String "{" (body +:+ "}")).
  rewrite skip_ws_cons by done. cbn [parse]. change (ord "{" =? 34)%N with false. change (ord "{" =? 91)%N with false.
  change (ord "{" =? 123)%N with true. cbv iota.
  assert (Hm : parse_members dict_hook (S (2 * String.length (String "{" (body +:+ "}")))) (EmptyString +:+ body +:+ "}" +:+ EmptyString)
               = Ok (l, EmptyString)) by (apply (parse_flat asc); [done..|cbn [String.length]; rewrite length_str_app; lia]).
  destruct Hst as (r & ->). unfold dq, chr in *. cbn [String.append] in *. rewrite skip_ws_cons by done. cbv iota.
  change (ord (ascii_of_N 34) =? 125)%N with false. cbv iota. rewrite Hm. cbn [mbind res_bind].
  unfold dict_hook. by rewrite dict_of_id.
Qed.
