(* ===== verification/TextFiles.v ===== *)
(** * Text and JSON files are read back as they were written

    Writing a text file translates line ends, reading it translates them back:
    a text without carriage returns survives, and so does every JSON value
    that is written with indentation. *)

From S2P Require Import Prelude PyStr PyJson Effects PyJsonIndent.

(** The carriage return and the test that a text has none. *)
Definition is_cr (c : ascii) : bool := Ascii.eqb c (ascii_of_N 13).
Definition no_cr (s : string) : bool := str_all (λ c, negb (is_cr c)) s.

Lemma no_cr_app a b : no_cr (a +:+ b) = no_cr a && no_cr b.
Proof. apply str_all_app. Qed.

Lemma startswith_char c d r : startswith (String c r) (String d EmptyString) = Ascii.eqb d c.
Proof.
  destruct (Ascii.eqb_spec d c) as [->|Hne].
  - apply startswith_spec. by exists r.
  - by apply startswith_ne; intros ->.
Qed.

Lemma replace_absent c new s : str_all (λ d, negb (Ascii.eqb d c)) s = true →
  replace (String c EmptyString) new s = s.
Proof.
  unfold replace. induction s as [|d s IH]; [done|]. cbn [str_all replace_go].
  intros [Hd%negb_true_iff Hs]%andb_prop. rewrite startswith_char, Ascii.eqb_sym, Hd. by rewrite IH.
Qed.

(** Universal newlines undo the line ends of either system. *)
Lemma crlf_undone s : no_cr s = true → replace (cr +:+ nl) nl (replace nl (cr +:+ nl) s) = s.
Proof.
  unfold replace, no_cr. induction s as [|c s IH]; [done|]. cbn [str_all replace_go].
  intros [Hc%negb_true_iff Hs]%andb_prop. unfold nl, chr. rewrite startswith_char.
  destruct (Ascii.eqb_spec (ascii_of_N 10) c) as [<-|Hne].
  - cbn [String.append String.length Nat.sub]. change (cr +:+ String (ascii_of_N 10) "") with
      (String (ascii_of_N 13) (String (ascii_of_N 10) EmptyString)). cbn [String.append replace_go].
    assert (∀ t, startswith (String (ascii_of_N 13) (String (ascii_of_N 10) t))
                   (String (ascii_of_N 13) (String (ascii_of_N 10) "")) = true) as ->.
    { intros t. apply startswith_spec. by exists t. }
    cbn [String.append String.length Nat.sub replace_go]. f_equal. by apply IH.
  - cbn [replace_go]. assert (startswith (String c (replace_go (String (ascii_of_N 10) "")
        (cr +:+ String (ascii_of_N 10) "") 0 s)) (cr +:+ String (ascii_of_N 10) "") = false) as ->.
    { apply not_true_is_false. rewrite startswith_spec. intros (t & [= -> _]). done. }
    f_equal. by apply IH.
Qed.

Lemma no_lone_cr s : no_cr s = true → replace cr nl s = s.
Proof. apply replace_absent. Qed.

Lemma newlines_undone nt s : no_cr s = true → universal_newlines (to_linesep nt s) = s.
Proof.
  intros Hs. unfold universal_newlines, to_linesep. destruct nt.
  - by rewrite crlf_undone, no_lone_cr.
  - assert (replace (cr +:+ nl) nl s = s) as ->; [|by apply no_lone_cr].
    unfold replace, no_cr in *. induction s as [|c s IH]; [done|]. cbn [str_all replace_go] in *.
    apply andb_prop in Hs as [Hc%negb_true_iff Hs].
    assert (startswith (String c s) (cr +:+ nl) = false) as ->; [|by rewrite IH].
    apply not_true_is_false. rewrite startswith_spec. intros (t & [= -> _]). done.
Qed.

(** ** No carriage return in JSON *)

Lemma no_cr_esc asc s : no_cr (esc_go asc s) = true.
Proof.
  induction s as [|c s IH]; [done|]. cbn [esc_go]. rewrite no_cr_app, IH.
  destruct asc, c as [[] [] [] [] [] [] [] []]; reflexivity.
Qed.

Lemma no_cr_dump_str asc s : no_cr (dump_str asc s) = true.
Proof. unfold dump_str. rewrite !no_cr_app, no_cr_esc. done. Qed.

Lemma no_cr_join {A} (f : A → option string) sep l body : no_cr sep = true →
  Forall (λ x, ∀ t, f x = Some t → no_cr t = true) l → join_opt f sep l = Some body → no_cr body = true.
Proof.
  intros Hsep Hl. revert body. induction Hl as [|x l Hx Hl IH]; intros body Hb; [by injection Hb as <-|].
  destruct l as [|y l]; [by apply Hx|].
  apply join_opt_cons in Hb as (a & b & Ha & Hb & ->). by rewrite !no_cr_app, (Hx a), Hsep, (IH b).
Qed.

Lemma no_cr_digits s : str_all is_digit s = true → no_cr s = true.
Proof.
  apply str_all_impl. intros c. unfold is_digit, in_range, is_cr.
  destruct (Ascii.eqb_spec c (ascii_of_N 13)) as [->|]; done.
Qed.

Lemma no_cr_str_int z : no_cr (py_str_int z) = true.
Proof.
  destruct (py_str_int_shape z) as (neg & ip & -> & _ & Hd & _).
  rewrite no_cr_app, (no_cr_digits ip) by done. by destruct neg.
Qed.

Lemma no_cr_indent asc pad v t : no_cr pad = true → render_indent asc pad v = Some t → no_cr t = true.
Proof.
  revert pad t. induction v as [|b|z|f|k|l IH|l IH] using json_nested_ind; intros pad t Hpad Ht.
  - by injection Ht as <-.
  - injection Ht as <-. by destruct b.
  - injection Ht as <-. apply no_cr_str_int.
  - done.
  - injection Ht as <-. apply no_cr_dump_str.
  - destruct l as [|v l]; [by injection Ht as <-|].
    apply render_indent_arr in Ht as (body & Hb & ->). apply no_cr_join in Hb.
    + by rewrite !no_cr_app, Hpad, Hb.
    + by rewrite !no_cr_app, Hpad.
    + eapply Forall_impl; [exact IH|]. intros x Hx t. apply (Hx (pad +:+ "  ")). by rewrite no_cr_app, Hpad.
  - destruct l as [|kv l]; [by injection Ht as <-|].
    apply render_indent_obj in Ht as (body & Hb & ->). apply no_cr_join in Hb.
    + by rewrite !no_cr_app, Hpad, Hb.
    + by rewrite !no_cr_app, Hpad.
    + eapply Forall_impl; [exact IH|]. intros [k x] Hx t. cbn [fst snd] in *.
      destruct (render_indent _ _ x) as [a|] eqn:Ha; [|done]. intros Heq. apply (inj Some) in Heq as <-.
      apply Hx in Ha; [|by rewrite no_cr_app, Hpad]. by rewrite !no_cr_app, no_cr_dump_str, Ha.
Qed.

Lemma no_cr_render asc isep ksep v t : no_cr isep = true → no_cr ksep = true → render asc isep ksep v = Some t →
  no_cr t = true.
Proof.
  intros Hi Hk. revert t. induction v as [|b|z|f|k|l IH|l IH] using json_nested_ind; intros t Ht.
  - by injection Ht as <-.
  - injection Ht as <-. by destruct b.
  - injection Ht as <-. apply no_cr_str_int.
  - done.
  - injection Ht as <-. apply no_cr_dump_str.
  - cbn [render] in Ht. destruct (join_opt _ _ l) as [body|] eqn:Hb; [|done]. apply (inj Some) in Ht as <-.
    rewrite !no_cr_app. by rewrite (no_cr_join _ _ _ _ Hi IH Hb).
  - cbn [render] in Ht. destruct (join_opt _ _ l) as [body|] eqn:Hb; [|done]. apply (inj Some) in Ht as <-.
    apply no_cr_join in Hb; [by rewrite !no_cr_app, Hb|done|]. eapply Forall_impl; [exact IH|].
    intros [k x] Hx t. cbn [fst snd] in *. destruct (render asc isep ksep x) as [a|] eqn:Ha; [|done].
    intros Heq. apply (inj Some) in Heq as <-. by rewrite !no_cr_app, no_cr_dump_str, Hk, (Hx a).
Qed.

(** ** Files *)

Section files.
Context `{Host}.

(** The bytes of a text file. *)
Definition text_bytes (s : string) : string := utf8_encode (to_linesep host_nt s).

Lemma runs_write_text_bytes p s w u w' : runs (write_text p s) w u w' →
  w_fs w' = <[p:=File (text_bytes s)]> (w_fs w) ∧ w_env w' = w_env w ∧ w_log w' = w_log w ++ [EvWrite p (text_bytes s)].
Proof. apply runs_write_bytes. Qed.

Lemma read_text_back p s w : no_cr s = true → w_fs w !! p = Some (File (text_bytes s)) → runs (read_text p) w s w.
Proof.
  intros Hs Hw. apply runs_read_text. split; [done|]. exists (text_bytes s), (to_linesep host_nt s).
  split_and!; [done| |by rewrite newlines_undone]. unfold decode, text_bytes. by rewrite utf8_roundtrip.
Qed.

(** A JSON file that was written with indentation. *)
Definition json_file (asc : bool) (v : json) (ws : string) (bytes : string) : Prop :=
  ∃ t, dumps_indent asc v = Some t ∧ bytes = text_bytes (t +:+ ws).

Lemma read_json_back asc p v ws w bytes : plain_json v = true → json_ws ws = true → no_cr ws = true →
  json_file asc v ws bytes → w_fs w !! p = Some (File bytes) →
  ∃ text, runs (read_text p) w text w ∧ loads text = Ok v.
Proof.
  intros Hv Hws Hcr (t & Ht & ->) Hw. exists (t +:+ ws). split.
  - apply read_text_back; [|done]. rewrite no_cr_app, Hcr. by rewrite (no_cr_indent asc EmptyString v t).
  - by eapply loads_dumps_indent.
Qed.
End files.
