(* ===== verification/Paths.v ===== *)
(** * Paths

    What the models need of path arithmetic: joining is injective, and the parent
    and the name of a joined path are its parts when the directory is written
    with "/" and the name is plain. *)

From S2P Require Import Prelude PyStr TextFiles Effects.

(** A file name: not empty, without separators. *)
Definition is_sep (c : ascii) : bool := Ascii.eqb c "/" || Ascii.eqb c "\".
Definition plain_name (n : string) : bool := nonempty n && str_all (λ c, negb (is_sep c)) n.

Lemma path_join_inj d a b : d // a = d // b → a = b.
Proof. unfold path_join. induction d as [|c d IH]; simpl; [by intros [=]|]. intros [=]. by apply IH. Qed.

Lemma path_join_ne d a b : a ≠ b → d // a ≠ d // b.
Proof. by intros Hne Hj%path_join_inj. Qed.

Lemma posix_app a b : posix (a +:+ b) = posix a +:+ posix b.
Proof.
  unfold posix, replace. induction a as [|c a IH]; [done|]. cbn [String.append replace_go].
  rewrite !startswith_char. destruct (Ascii.eqb "\" c); cbn [String.length Nat.sub String.append]; by rewrite IH.
Qed.

Lemma posix_plain n : plain_name n = true → posix n = n.
Proof.
  intros [_ Hs]%andb_prop. apply replace_absent. revert Hs. apply str_all_impl.
  intros c H%negb_true_iff%orb_false_iff. by rewrite (proj2 H).
Qed.

Lemma split_plain n : plain_name n = true → split_char "/" n = [n].
Proof.
  intros [_ Hs]%andb_prop. induction n as [|c n IH]; [done|]. cbn [str_all] in Hs. apply andb_prop in Hs as [Hc Hs].
  apply negb_true_iff, orb_false_iff in Hc as [Hc _]. simpl. by rewrite (IH Hs), Hc.
Qed.

Lemma split_joined d n : plain_name n = true → ∃ h l, split_char "/" (d // n) = h :: l ++ [n].
Proof.
  intros Hn. unfold path_join. induction d as [|c d (h & l & Hl)].
  - exists EmptyString, []. simpl. by rewrite (split_plain n Hn).
  - change (String c d +:+ "/" +:+ n) with (String c (d +:+ String "/" n)). change (d +:+ "/" +:+ n) with (d +:+ String "/" n) in Hl.
    cbn [split_char]. rewrite Hl. destruct (Ascii.eqb c "/").
    + by exists EmptyString, (h :: l).
    + by exists (String c h), l.
Qed.

Lemma after_last_joined d n : plain_name n = true → after_last "/" (d // n) = n.
Proof.
  intros (h & l & Hl)%(split_joined d). unfold after_last. rewrite Hl. change (h :: l ++ [n]) with ((h :: l) ++ [n]).
  apply List.last_last.
Qed.

Lemma rstrip_joined d n : plain_name n = true → rstrip_chars "/" (d // n) = d // n.
Proof.
  intros Hn. apply rstrip_by_id. unfold path_join. apply andb_prop in Hn as [Hne Hs].
  assert (Hr : rstripped (char_in "/") n = true).
  { assert (Hst : stripped (char_in "/") n = true).
    { apply str_all_stripped. revert Hs. apply str_all_impl. intros c H%negb_true_iff%orb_false_iff.
      unfold char_in. simpl. by rewrite (proj1 H). }
    by apply andb_prop in Hst as [_ Hst]. }
  rewrite <- str_app_assoc. apply rstripped_app; [by destruct n|done].
Qed.

Lemma posix_joined d n : plain_name n = true → posix d = d → posix (d // n) = d // n.
Proof. intros Hn Hd. unfold path_join. by rewrite !posix_app, Hd, (posix_plain n Hn). Qed.

Lemma path_name_joined d n : plain_name n = true → posix d = d → path_name (d // n) = n.
Proof. intros Hn Hd. unfold path_name. by rewrite (posix_joined d n Hn Hd), (rstrip_joined d n Hn), (after_last_joined d n Hn). Qed.

Lemma path_parent_joined d n : plain_name n = true → posix d = d → path_parent (d // n) = d.
Proof.
  intros Hn Hd. unfold path_parent. rewrite (posix_joined d n Hn Hd), (rstrip_joined d n Hn), (after_last_joined d n Hn).
  unfold path_join. rewrite !length_str_app. replace (_ - _ - 1)%nat with (String.length d) by (cbn [String.length]; lia).
  clear. change ("/" +:+ n) with (String "/" n). induction d as [|c d IH]; simpl; [done|by rewrite IH].
Qed.
