(* ===== verification/ScriptUtils.v ===== *)
(** * Shared helpers of the tools (tool/py/script_utils.py)

    Console output, resolving and starting programs, the environment file, the
    effective value of a setting, test manifests and what is known about ODBC
    drivers. *)

From S2P Require Import Prelude PyStr PyJson PyLib Effects.

Local Open Scope Z_scope.

Definition esc_seq (code : string) : string := chr 27 +:+ "[" +:+ code +:+ "m".

Section script_utils.
Context `{Host}.

(** src: tool/py/script_utils.py:13-14 PROJECT_ROOT *)
Definition PROJECT_ROOT : string := host_root.
(** src: tool/py/script_utils.py:15-15 AGENT_ACTIONS_MANIFESTS_DIR *)
Definition AGENT_ACTIONS_MANIFESTS_DIR : string := PROJECT_ROOT // "tool/agent_actions/manifests".
(** src: tool/py/script_utils.py:16-16 BENCHMARKS_MANIFESTS_DIR *)
Definition BENCHMARKS_MANIFESTS_DIR : string := PROJECT_ROOT // "tool/benchmarks/manifests".

(** src: tool/py/script_utils.py:44-49 Console._emit *)
Definition emit (color message : string) : M unit :=
  if host_isatty then print (esc_seq color +:+ message +:+ esc_seq "0") else print message.

(** src: tool/py/script_utils.py:51-54 Console.step *)
Definition console_step (message : string) : M unit :=
  _ ← print EmptyString; emit "36" ("==> " +:+ message).
(** src: tool/py/script_utils.py:56-58 Console.pass_ *)
Definition console_pass (message : string) : M unit := emit "32" ("  [ok] " +:+ message).
(** src: tool/py/script_utils.py:60-62 Console.warn *)
Definition console_warn (message : string) : M unit := emit "33" ("  [warn] " +:+ message).
(** src: tool/py/script_utils.py:64-66 Console.fail *)
Definition console_fail (message : string) : M unit := emit "31" ("  [fail] " +:+ message).
(** src: tool/py/script_utils.py:68-70 Console.hint *)
Definition console_hint (message : string) : M unit := emit "90" ("  [hint] " +:+ message).

(** src: tool/py/script_utils.py:19-25 ensure_utf8_stdio
    The encoding of the streams is not observable here. *)
Definition ensure_utf8_stdio : M unit :=
  o ← getenv "PYTHONIOENCODING";
  match o with Some _ => mret tt | None => setenv "PYTHONIOENCODING" "utf-8" end.

(** src: tool/py/script_utils.py:73-77 canonical_windows_executable *)
Definition canonical_windows_executable (path : string) : string :=
  if (py_lower (path_suffix path) == ".exe") && (path_suffix path != ".exe")
  then with_suffix path ".exe" else path.

Definition is_batch (path : string) : bool := one_of (py_lower (path_suffix path)) [".bat"; ".cmd"].

(** src: tool/py/script_utils.py:80-97 resolve_dart_sdk_executable *)
Definition resolve_dart_sdk_executable : M string :=
  flutter ← which "flutter";
  let sdk_dart := path_parent (default EmptyString flutter) // "cache/dart-sdk/bin/dart.exe" in
  bundled ← (if nonempty (default EmptyString flutter) && is_batch (default EmptyString flutter)
             then is_file sdk_dart else mret false);
  if (bundled : bool) then mret sdk_dart
  else
    which_dart ← which "dart";
    mret (if nonempty (default EmptyString which_dart)
          then canonical_windows_executable (default EmptyString which_dart) else "dart").

(** src: tool/py/script_utils.py:100-109 resolve_command *)
Definition resolve_command (cmd : list string) : M (list string) :=
  match cmd with
  | [] => raise (RuntimeError "Command cannot be empty.")
  | executable :: args =>
      found ← which executable;
      let resolved := str_or (default EmptyString found) executable in
      mret (if is_batch resolved then ["cmd.exe"; "/d"; "/c"; resolved] ++ args
            else canonical_windows_executable resolved :: args)
  end.

(** src: tool/py/script_utils.py:112-130 run *)
Definition run (cmd : list string) (cwd : option string) (env : option (gmap string string)) (check : bool)
    : M proc :=
  argv ← resolve_command cmd;
  let dir := default PROJECT_ROOT cwd in
  result ← match env with
           | Some e => run_proc_env e argv dir
           | None => run_proc argv dir
           end;
  _ ← raise_when (check && negb (returncode result =? 0))
        (CalledProcessError (returncode result) argv (stdout result));
  mret result.

Definition get_env : M (gmap string string) := w ← get_world; mret (w_env w).

(** src: tool/py/script_utils.py:133-165 run_streaming
    The output arrives line by line; here the lines are printed and logged once
    the program ended. *)
Definition run_streaming (cmd : list string) (cwd : option string) (env : option (gmap string string))
    (log_path : option string) : M Z :=
  _ ← ensure_utf8_stdio;
  current ← get_env;
  let merged_env := default ∅ env ∪ current in
  argv ← resolve_command cmd;
  result ← run_proc_env merged_env argv (default PROJECT_ROOT cwd);
  _ ← print (stdout result);
  _ ← match log_path with Some p => append_text p (stdout result) | None => mret tt end;
  mret (returncode result).

(** One line of the environment file: a key and its value. *)
Definition dotenv_entry (raw_line : string) : option (string * string) :=
  let line := strip raw_line in
  if negb (nonempty line) || startswith line "#" then None
  else match partition "=" line with
       | None => None
       | Some (key, value) => if nonempty (strip key) then Some (strip key, strip value) else None
       end.

(** src: tool/py/script_utils.py:168-184 import_dotenv_if_present *)
Definition import_dotenv_if_present (path : string) : M unit :=
  present ← is_file path;
  if negb (present : bool) then mret tt
  else
    text ← read_text path;
    for_M (λ raw_line,
      match dotenv_entry raw_line with
      | None => mret tt
      | Some (key, value) =>
          current ← getenv_or key EmptyString;
          if nonempty current then mret tt else setenv key value
      end) (splitlines text).

(** src: tool/py/script_utils.py:187-191 resolve_env_path *)
Definition resolve_env_path (env_path : string) : string :=
  if is_absolute env_path then env_path else PROJECT_ROOT // env_path.

(** src: tool/py/script_utils.py:194-199 get_effective_env_value *)
Fixpoint get_effective_env_value (keys : list string) : M string :=
  match keys with
  | [] => mret EmptyString
  | key :: keys =>
      value ← getenv_or key EmptyString;
      if nonempty (strip value) then mret (strip value) else get_effective_env_value keys
  end.

(** src: tool/py/script_utils.py:202-211 get_git_commit_or_default *)
Definition get_git_commit_or_default : M string :=
  found ← try_catch
    (result ← run ["git"; "rev-parse"; "--short"; "HEAD"] None None false;
     mret (if returncode result =? 0 then strip (stdout result) else EmptyString))
    (λ e, is_OSError e || is_SubprocessError e) (λ _, mret EmptyString);
  mret (str_or found "(not resolved)").

(** src: tool/py/script_utils.py:214-224 read_manifest_test_paths *)
Definition read_manifest_test_paths (file_name : string) : M (list string) :=
  let manifest_path := AGENT_ACTIONS_MANIFESTS_DIR // file_name in
  present ← is_file manifest_path;
  _ ← raise_when (negb present) (FileNotFoundError ("Missing test manifest: " +:+ manifest_path));
  text ← read_text manifest_path;
  mret (List.filter (λ line, nonempty line && negb (startswith line "#")) (strip <$> splitlines text)).

(** The local offset from UTC as [%z] spells it. *)
Definition utc_offset : string :=
  let m := Z.abs host_utcoffset / 60 in
  (if host_utcoffset <? 0 then "-" else "+") +:+ pad 2 (m / 60) +:+ pad 2 (m mod 60).

(** src: tool/py/script_utils.py:227-228 format_timestamp *)
Definition format_timestamp : M string :=
  t ← now;
  let t := t + host_utcoffset in
  let '(y, m, d) := civil_from_days (t / 86400) in
  let s := t mod 86400 in
  mret (pad 4 y +:+ "-" +:+ pad 2 m +:+ "-" +:+ pad 2 d +:+ " " +:+ pad 2 (s / 3600) +:+ ":" +:+
        pad 2 (s / 60 mod 60) +:+ ":" +:+ pad 2 (s mod 60) +:+ " " +:+ utc_offset).

(** src: tool/py/script_utils.py:231-249 invoke_step *)
Definition invoke_step (name : string) (command : M Z) (log_path : option string)
    : M (bool * string * string) :=
  _ ← console_step name;
  started_at ← format_timestamp;
  _ ← match log_path with
      | None => mret tt
      | Some p =>
          _ ← mkdir (path_parent p);
          old ← path_exists p;
          when old (unlink p)
      end;
  exit_code ← command;
  finished_at ← format_timestamp;
  if negb (exit_code =? 0) then
    _ ← console_fail (name +:+ " failed."); mret (false, started_at, finished_at)
  else
    _ ← console_pass (name +:+ " completed."); mret (true, started_at, finished_at).

(** src: tool/py/script_utils.py:252-263 get_dsn_driver_family *)
Definition get_dsn_driver_family (connection_string : string) : string :=
  if negb (nonempty connection_string) || (connection_string == "(not configured)") then "(not configured)"
  else
    let upper := py_upper connection_string in
    if contains upper "POSTGRE" then "PostgreSQL"
    else if contains upper "ANYWHERE" || contains upper "SYBASE" || contains upper "SQLA" then "SQL Anywhere"
    else if contains upper "SQL SERVER" || contains upper "ODBC DRIVER" || contains upper "NATIVE CLIENT"
    then "SQL Server"
    else "unknown".

(** src: tool/py/script_utils.py:266-271 get_native_adaptive_eligibility *)
Definition get_native_adaptive_eligibility (driver_family : string) : string :=
  if one_of driver_family ["SQL Server"; "PostgreSQL"] then "eligible"
  else if driver_family == "SQL Anywhere" then "blocked (lease/direct path)"
  else "unknown".

(** src: tool/py/script_utils.py:274-292 get_driver_tuning_recommendation *)
Definition get_driver_tuning_recommendation (driver_family : string) : string :=
  default "Configure a representative DSN and run the driver matrix before changing pool defaults."
    (assoc driver_family
      [("SQL Server", "Validate native/adaptive pool with driver matrix; tune ODBC_POOL_SIZE and " +:+
          "SQL_QUEUE_MAX_WORKERS together, then watch transactional_native_pool_fallback.");
       ("PostgreSQL", "Validate native/adaptive pool with driver matrix; prefer batched streaming " +:+
          "for large SELECTs and watch pending saturation.");
       ("SQL Anywhere", "Keep lease/direct path; tune SQL queue, direct limiter and bulkInsert " +:+
          "instead of native pool.")]).

(** Copies the settings that are present from a section of the snapshot. *)
Fixpoint copy_settings (section : json) (keys : list (string * string)) (context : list (string * string))
    : res (list (string * string)) :=
  match keys with
  | [] => Ok context
  | (key, context_key) :: keys =>
      value ← jget_or_null key section;
      copy_settings section keys
        (match value with JNull => context | v => assoc_set context_key (str_of v) context end)
  end.

(** src: tool/py/script_utils.py:308-332 update_context_from_health_snapshot_template *)
Definition context_from_snapshot (snapshot : json) (context : list (string * string))
    : res (list (string * string)) :=
  runtime ← jget_or_null "odbc_runtime_tuning" snapshot;
  context ← copy_settings (jor runtime (JObj []))
    [("pool_size", "OdbcPoolSize"); ("async_worker_count", "OdbcAsyncWorkerCount");
     ("async_max_pending_requests", "OdbcAsyncMaxPendingRequests");
     ("result_encoding", "OdbcResultEncoding")] context;
  sql_queue ← jget_or_null "sql_queue" snapshot;
  context ← copy_settings (jor sql_queue (JObj []))
    [("max_size", "SqlQueueMaxSize"); ("max_workers", "SqlQueueMaxWorkers");
     ("enqueue_timeout_seconds", "SqlQueueTimeoutSec")] context;
  pool ← jget_or_null "pool" snapshot;
  copy_settings (jor pool (JObj [])) [("acquire_timeout_seconds", "PoolAcquireTimeoutSec")] context.

(** src: tool/py/script_utils.py:295-332 update_context_from_health_snapshot_template
    The context after the update. *)
Definition update_context_from_health_snapshot_template (context : list (string * string)) (template_path : string)
    : M (list (string * string)) :=
  present ← is_file template_path;
  if negb (present : bool) then mret context
  else
    snapshot ← try_catch (text ← read_text template_path; v ← lift (loads text); mret (Some v))
      (λ e, is_OSError e || match e with JSONDecodeError => true | _ => false end) (λ _, mret None);
    match snapshot with
    | None => _ ← console_warn "Could not parse health snapshot template for effective tuning."; mret context
    | Some snapshot => lift (context_from_snapshot snapshot context)
    end.

(** src: tool/py/script_utils.py:335-350 get_long_query_for_driver *)
Definition get_long_query_for_driver (driver_family : string) : M string :=
  get_effective_env_value
    (default ["ODBC_INTEGRATION_LONG_QUERY"]
      (assoc driver_family
        [("SQL Anywhere", ["ODBC_INTEGRATION_LONG_QUERY_SQL_ANYWHERE"; "ODBC_INTEGRATION_LONG_QUERY"]);
         ("SQL Server", ["ODBC_INTEGRATION_LONG_QUERY_SQL_SERVER"; "ODBC_INTEGRATION_LONG_QUERY"]);
         ("PostgreSQL", ["ODBC_INTEGRATION_LONG_QUERY_POSTGRESQL"; "ODBC_INTEGRATION_LONG_QUERY"])])).

(** The first path whose directory has a [pubspec.yaml]. *)
Fixpoint find_package (paths : list string) : M (option string) :=
  match paths with
  | [] => mret None
  | p :: paths =>
      here ← is_file (p // "pubspec.yaml");
      if (here : bool) then mret (Some p) else find_package paths
  end.

(** src: tool/py/script_utils.py:353-358 resolve_benchmark_package
    For an absolute path without links. *)
Definition resolve_benchmark_package (benchmark_path : string) : M (string * string * string) :=
  present ← path_exists benchmark_path;
  _ ← raise_when (negb present) (FileNotFoundError benchmark_path);
  package_root ← find_package (path_parents benchmark_path);
  match package_root with
  | None => raise (ValueError ("No pubspec.yaml found above benchmark: " +:+ path_name benchmark_path))
  | Some root => mret (root, benchmark_path, str_drop (S (String.length root)) (posix benchmark_path))
  end.

(** src: tool/py/script_utils.py:361-364 forward_script_args *)
Definition forward_script_args (argv : list string) (skip_help : bool) : list string :=
  if skip_help && one_of "--help" argv then [] else List.filter (λ arg, arg != "--") argv.
End script_utils.

(** ** The environment file *)

(** The first text that is not empty. *)
Fixpoint first_nonempty (l : list string) : string :=
  match l with [] => EmptyString | s :: l => if nonempty s then s else first_nonempty l end.

(** The values a text gives to a key, in order. *)
Definition dotenv_values (key text : string) : list string :=
  omap (λ raw_line, match dotenv_entry raw_line with
                    | Some (k, v) => if k == key then Some v else None
                    | None => None
                    end) (splitlines text).

Definition env_value (w : world) (key : string) : string := default EmptyString (w_env w !! key).

Lemma dotenv_loop lines w w' key :
  runs (for_M (λ raw_line,
      match dotenv_entry raw_line with
      | None => mret tt
      | Some (key, value) =>
          current ← getenv_or key EmptyString;
          if nonempty current then mret tt else setenv key value
      end) lines) w tt w' →
  env_value w' key = first_nonempty (env_value w key :: omap (λ raw_line,
    match dotenv_entry raw_line with
    | Some (k, v) => if k == key then Some v else None
    | None => None
    end) lines) ∧ w_fs w' = w_fs w.
Proof.
  revert w. induction lines as [|line lines IH]; intros w Hrun.
  - cbn [for_M] in Hrun. inv_runs. simpl. by destruct (env_value w' key).
  - cbn [for_M] in Hrun. apply runs_bind in Hrun as ([] & w1 & Hline & Hrun).
    destruct (IH _ Hrun) as [-> ->]. clear IH Hrun. simpl.
    destruct (dotenv_entry line) as [[k v]|]; [|inv_runs; done].
    apply runs_bind in Hline as (cur & w2 & [<- ->]%runs_getenv_or & Hline). fold (env_value w k) in Hline.
    destruct (nonempty (env_value w k)) eqn:Ec.
    + inv_runs. destruct (String.eqb_spec k key) as [->|]; [|done]. by rewrite Ec.
    + apply runs_setenv in Hline as ->. unfold env_value. simpl. split; [|done].
      destruct (String.eqb_spec k key) as [->|].
      * rewrite lookup_insert_eq. simpl. unfold env_value in Ec. by rewrite Ec.
      * by rewrite lookup_insert_ne.
Qed.

(** Reading the environment file never overrides a variable that is set:
    afterwards a variable has the first value that is not empty, of the
    environment first and then of the file's lines in order. *)
Theorem dotenv_first_wins (path bytes text key : string) (w w' : world)
    (Hfile : w_fs w !! path = Some (File bytes)) (Htext : decode bytes = Ok text)
    (Hrun : runs (import_dotenv_if_present path) w tt w') :
  env_value w' key = first_nonempty (env_value w key :: dotenv_values key (universal_newlines text)) ∧
  w_fs w' = w_fs w.
Proof.
  unfold import_dotenv_if_present in Hrun. apply runs_bind in Hrun as (b & w1 & Hb & Hrun).
  unfold runs, is_file in Hb. rewrite Hfile in Hb. injection Hb as <- <-. simpl in Hrun.
  apply runs_bind in Hrun as (t & w2 & Ht & Hrun).
  apply runs_read_text in Ht as [<- (b' & t' & Hb' & Hd & ->)].
  assert (b' = bytes) as -> by congruence. assert (t' = text) as -> by congruence.
  exact (dotenv_loop _ _ _ key Hrun).
Qed.

Definition dotenv_text : string := "# dsn" +:+ nl +:+ "A = 1" +:+ nl +:+ "B=" +:+ nl +:+ "B=2" +:+ nl.
Definition dotenv_world : world :=
  World {["C:/plug_agente/.env" := File dotenv_text]} {["A" := "from the shell"]} [].
Definition dotenv_loaded : world := snd (import_dotenv_if_present "C:/plug_agente/.env" dotenv_world).

Theorem dotenv_first_wins_witness :
  env_value dotenv_loaded "A" = "from the shell" ∧ env_value dotenv_loaded "B" = "2".
Proof.
  split; (etrans; [refine (proj1 (dotenv_first_wins "C:/plug_agente/.env" dotenv_text dotenv_text _ dotenv_world
      dotenv_loaded _ _ _)); vm_compute; reflexivity|vm_compute; reflexivity]).
Defined.

(** The effective value of a setting is that of the first variable whose
    trimmed value is not empty, trimmed; it is empty only when all are blank. *)
Theorem effective_env_value_spec (keys : list string) (w : world) :
  get_effective_env_value keys w = (Ok (first_nonempty ((λ k, strip (env_value w k)) <$> keys)), w).
Proof.
  induction keys as [|k keys IH]; [done|]. cbn [get_effective_env_value fmap list_fmap first_nonempty].
  unfold getenv_or, mbind, M_bind, getenv, mret, M_ret. fold (env_value w k).
  change (default EmptyString (w_env w !! k)) with (env_value w k).
  destruct (nonempty (strip (env_value w k))); [done|exact IH].
Qed.
