(* ===== verification/Commands.v ===== *)
(** * Steps of a command

    The tools are sequences of programs that have to succeed. This file holds
    what their models share: how a command line is quoted, the moment of a run
    at which a step ended, and a step whose failure ends the run. *)

From S2P Require Import Prelude PyStr PyJson PyLib Effects ScriptUtils.

Local Open Scope Z_scope.

(** ** [subprocess.list2cmdline] *)

Definition backslash : ascii := "\"%char.
Definition quote_char : ascii := ascii_of_nat 34.
Fixpoint backslashes (n : nat) : string := match n with O => EmptyString | S n => String backslash (backslashes n) end.

(** The characters of an argument behind [n] pending backslashes; they are
    doubled before a quote, and at the end of a quoted argument. *)
Fixpoint quote_go (n : nat) (quoted : bool) (arg : string) : string :=
  match arg with
  | EmptyString => backslashes (if quoted then 2 * n else n)
  | String c arg =>
      if Ascii.eqb c backslash then quote_go (S n) quoted arg
      else if Ascii.eqb c quote_char then backslashes (2 * n) +:+ String backslash (String c (quote_go 0 quoted arg))
      else backslashes n +:+ String c (quote_go 0 quoted arg)
  end.
Definition quote_arg (arg : string) : string :=
  if negb (nonempty arg) || str_any (char_in (" " +:+ chr 9)) arg
  then dq +:+ quote_go 0 true arg +:+ dq else quote_go 0 false arg.
Definition list2cmdline (seq : list string) : string := join " " (quote_arg <$> seq).

(** ** Trees of files *)

(** [path.is_symlink()] *)
Class Symlinks : Type := { is_symlink : string → world → bool }.

(** [path.mkdir(parents=True, exist_ok=False)] *)
Definition mkdir_new (p : string) : M unit := λ w,
  match w_fs w !! p with
  | Some _ => (Raise (FileExistsError p), w)
  | None => mkdir p w
  end.

(** Where an entry below [src] goes when the tree is copied to [dst]; an ignored
    name leaves out everything below it. *)
Definition copied_entry (ignored : string → bool) (src dst : string) (kv : string * node) : option (string * node) :=
  let rest := str_drop (String.length src) (fst kv) in
  if below src (fst kv) && negb (existsb ignored (split_char "/" (str_drop 1 rest)))
  then Some (dst +:+ rest, snd kv) else None.

(** [shutil.copytree(src, dst, ignore=...)] of a tree without links. *)
Definition copy_tree (ignored : string → bool) (src dst : string) : M unit := λ w,
  match w_fs w !! src, w_fs w !! dst with
  | Some Dir, None =>
      (Ok tt, World (list_to_map (omap (copied_entry ignored src dst) (map_to_list (w_fs w))) ∪ w_fs w) (w_env w)
                    (w_log w ++ [EvCopy src dst]))
  | Some Dir, Some _ => (Raise (FileExistsError dst), w)
  | Some (File _), _ => (Raise (OSError src), w)
  | None, _ => (Raise (FileNotFoundError src), w)
  end.

(** [shutil.rmtree(p)] of an existing path. *)
Definition rmtree (p : string) : M unit := λ w,
  match w_fs w !! p with
  | Some Dir => remove_tree p w
  | Some (File _) => (Raise (OSError p), w)
  | None => (Raise (FileNotFoundError p), w)
  end.

Lemma later_mkdir_new p : steps later (mkdir_new p).
Proof.
  intros w. unfold mkdir_new. destruct (w_fs w !! p); [reflexivity|]. by apply (logs_mkdir (λ _, True)).
Qed.
Lemma later_copy_tree f a b : steps later (copy_tree f a b).
Proof.
  intros w. unfold copy_tree. destruct (w_fs w !! a) as [[]|]; try reflexivity.
  destruct (w_fs w !! b); [reflexivity|]. by eapply log_ext_one.
Qed.
Lemma later_rmtree p : steps later (rmtree p).
Proof. intros w. unfold rmtree. destruct (w_fs w !! p) as [[]|]; try reflexivity. by apply (logs_remove_tree (λ _, True)). Qed.
#[export] Hint Resolve later_mkdir_new later_copy_tree later_rmtree : py.

(** ** Moments *)

(** [m] ran between [w] and [w'], and returned [a]. *)
Definition during {A} (m : M A) (a : A) (w w' : world) : Prop :=
  ∃ w1 w2, later w w1 ∧ runs m w1 a w2 ∧ later w2 w'.

Lemma during_mono {A} (m : M A) a w0 w w' w1 :
  later w0 w → later w' w1 → during m a w w' → during m a w0 w1.
Proof. intros H0 H1 (u & v & ? & ? & ?). exists u, v. split_and!; [by etrans|done|by etrans]. Qed.

Lemma during_runs {A} (m : M A) a w w1 w' : runs m w a w1 → later w1 w' → during m a w w'.
Proof. intros. by exists w, w1. Qed.

(** Two steps, one after the other. *)
Definition then_during (P Q : world → world → Prop) (w w' : world) : Prop := ∃ w1, P w w1 ∧ Q w1 w'.

Section commands.
Context `{Host}.

(** [run(cmd, check=False).returncode] and [run(cmd, cwd=cwd, check=False).returncode] *)
Definition run_code (cmd : list string) (cwd : option string) : M Z :=
  p ← run cmd cwd None false; mret (returncode p).

(** A step that has to return 0: its failure is reported and ends the run with
    its code. *)
Definition require_step (code : M Z) (failed passed : M unit) (rest : M Z) : M Z :=
  c ← code;
  if negb (c =? 0) then _ ← failed; mret c else _ ← passed; rest.

Lemma runs_require_step code failed passed rest w c w' : steps later passed → steps later failed →
  runs (require_step code failed passed rest) w c w' →
  (∃ w1 w2, runs code w 0 w1 ∧ later w1 w2 ∧ runs rest w2 c w') ∨
  (c ≠ 0 ∧ ∃ w1, runs code w c w1 ∧ later w1 w').
Proof.
  intros Hp Hf Hr. apply runs_bind in Hr as (c' & w1 & Hc & Hr). destruct (Z.eqb_spec c' 0) as [->|Hne]; cbn [negb] in Hr.
  - left. apply runs_bind in Hr as ([] & w2 & Hpass & Hr). exists w1, w2. split_and!; [done|exact (later_runs _ _ _ _ Hp Hpass)|done].
  - right. apply runs_bind in Hr as ([] & w2 & Hfail & Hr). apply runs_ret in Hr as [<- <-].
    split; [done|]. exists w1. split; [done|exact (later_runs _ _ _ _ Hf Hfail)].
Qed.

Lemma require_step_ok code failed passed rest w w' : steps later passed → steps later failed →
  runs (require_step code failed passed rest) w 0 w' →
  ∃ w1 w2, runs code w 0 w1 ∧ later w1 w2 ∧ runs rest w2 0 w'.
Proof.
  intros Hp Hf Hr. destruct (runs_require_step _ _ _ _ _ _ _ Hp Hf Hr) as [Hok|[Hne _]]; [done|by destruct Hne].
Qed.

Lemma later_console_step m : steps later (console_step m).
Proof. unfold console_step, emit. destruct host_isatty; solve_steps. Qed.
Lemma later_console_pass m : steps later (console_pass m).
Proof. unfold console_pass, emit. destruct host_isatty; solve_steps. Qed.
Lemma later_console_fail m : steps later (console_fail m).
Proof. unfold console_fail, emit. destruct host_isatty; solve_steps. Qed.
Lemma later_console_warn m : steps later (console_warn m).
Proof. unfold console_warn, emit. destruct host_isatty; solve_steps. Qed.
Lemma later_emit c m : steps later (emit c m).
Proof. unfold emit. destruct host_isatty; solve_steps. Qed.
Lemma later_run_command cmd cwd env check : steps later (run cmd cwd env check).
Proof. unfold run, resolve_command. solve_steps. Qed.
Lemma later_run_streaming cmd cwd env log : steps later (run_streaming cmd cwd env log).
Proof. unfold run_streaming, ensure_utf8_stdio, resolve_command, get_env, append_text. solve_steps. Qed.
Lemma later_run_code cmd cwd : steps later (run_code cmd cwd).
Proof. unfold run_code, run, resolve_command. solve_steps. Qed.
End commands.

#[export] Hint Resolve later_console_step later_console_pass later_console_fail later_console_warn later_emit
  later_run_command later_run_streaming later_run_code : py.

Example list2cmdline_quotes : list2cmdline ["a b"; "c" +:+ dq +:+ "d"; EmptyString; "e\"; "f g\"] =
  dq +:+ "a b" +:+ dq +:+ " c\" +:+ dq +:+ "d " +:+ dq +:+ dq +:+ " e\ " +:+ dq +:+ "f g\\" +:+ dq.
Proof. reflexivity. Qed.

(** A host where every program is installed and succeeds silently. *)
Definition willing_host : Host := {|
  host_nt := false;
  host_run := λ _ _ w, (Ok (Proc 0 EmptyString EmptyString), w_fs w);
  host_which := λ c _, Some ("/usr/bin/" +:+ c);
  host_fetch := λ _ _, Raise (OSError "offline");
  host_now := λ _, 1767225600;
  host_utcoffset := 0;
  host_exn_str := λ _, "error";
  host_repr := λ _, "value";
  host_tmp := λ _, "/tmp/x";
  host_isatty := false;
  host_root := "/r"
|}.

(** A run that returns: its result is the one it computes. *)
Lemma runs_eval {A} (m : M A) w a : fst (m w) = Ok a → runs m w a (snd (m w)).
Proof. intros Ha. unfold runs. rewrite <- Ha. apply surjective_pairing. Qed.

(** ** Which exceptions a computation may raise *)

Definition raises {A} (P : exn → Prop) (m : M A) : Prop := ∀ w e w', m w = (Raise e, w') → P e.

Section raises.
Context (P : exn → Prop).

Lemma raises_ret {A} (a : A) : raises P (mret a).
Proof. by intros w e w'. Qed.
Lemma raises_bind {A B} (m : M A) (k : A → M B) : raises P m → (∀ a, raises P (k a)) → raises P (m ≫= k).
Proof.
  intros Hm Hk w e w'. unfold mbind, M_bind. destruct (m w) as [[a|e'] w1] eqn:Hw; [by apply Hk|].
  intros [= -> ->]. by eapply Hm.
Qed.
Lemma raises_lift {A} (r : res A) : (∀ e, r = Raise e → P e) → raises P (lift r).
Proof. intros Hr w e w' [= -> _]. by apply Hr. Qed.
Lemma raises_when b m : raises P m → raises P (when b m).
Proof. intros. destruct b; [done|apply raises_ret]. Qed.
Lemma raises_for_M {A} (f : A → M unit) l : (∀ x, raises P (f x)) → raises P (for_M f l).
Proof. intros Hf. induction l; cbn [for_M]; [apply raises_ret|]. by apply raises_bind. Qed.
Lemma raises_try_catch {A} (m : M A) c h : (∀ w e w', m w = (Raise e, w') → c e = false → P e) →
  (∀ e, raises P (h e)) → raises P (try_catch m c h).
Proof.
  intros Hm Hh w e w'. unfold try_catch. destruct (m w) as [[a|e'] w1] eqn:Hw; [done|].
  destruct (c e') eqn:Hc; [by apply Hh|]. intros [= -> ->]. by eapply Hm.
Qed.
(** Computations that never raise. *)
Lemma raises_total {A} (m : M A) (f : world → A) (g : world → world) : (∀ w, m w = (Ok (f w), g w)) → raises P m.
Proof. intros Hm w e w'. by rewrite Hm. Qed.
End raises.

Ltac solve_raises1 :=
  match goal with
  | |- raises _ (mret _) => apply raises_ret
  | |- raises _ (mbind _ _) => apply raises_bind; [|intros ?]
  | |- raises _ (when _ _) => apply raises_when
  | |- raises _ (for_M _ _) => apply raises_for_M; intros ?
  | |- raises _ (match ?x with _ => _ end) => destruct x
  | |- raises _ (print _) => by intros ???
  | |- raises _ (eprint _) => by intros ???
  | |- raises _ (getenv _) => by intros ???
  | |- raises _ (getenv_or _ _) => by intros ???
  | |- raises _ (setenv _ _) => by intros ???
  | |- raises _ (which _) => by intros ???
  | |- raises _ now => by intros ???
  | |- raises _ get_world => by intros ???
  | |- raises _ get_env => by intros ???
  | |- raises _ (path_exists _) => by intros ???
  | |- raises _ (is_file _) => by intros ???
  | |- raises _ (is_dir _) => by intros ???
  | |- raises _ _ => solve [eauto with py]
  end.
Ltac solve_raises := intros; repeat solve_raises1.

(** Exceptions other than [RuntimeError]. *)
Abbreviation not_runtime := (λ e, is_RuntimeError e = false).

Lemma not_runtime_mkdir p : raises not_runtime (mkdir p).
Proof. intros w e w'. unfold mkdir. destruct (w_fs w !! p) as [[]|]; by intros [= <- <-]. Qed.
Lemma not_runtime_unlink p : raises not_runtime (unlink p).
Proof. intros w e w'. unfold unlink. destruct (w_fs w !! p) as [[]|]; by intros [= <- <-]. Qed.
Lemma not_runtime_append p b : raises not_runtime (append_bytes p b).
Proof. intros w e w'. unfold append_bytes. destruct (w_fs w !! p) as [[]|]; by intros [= <- <-]. Qed.
Lemma not_runtime_read p : raises not_runtime (read_bytes p).
Proof. intros w e w'. unfold read_bytes. destruct (w_fs w !! p) as [[]|]; by intros [= <- <-]. Qed.
Lemma not_runtime_read_text p : raises not_runtime (read_text p).
Proof.
  unfold read_text. apply raises_bind; [apply not_runtime_read|intros b]. apply raises_bind; [|intros; apply raises_ret].
  apply raises_lift. intros e. unfold decode, from_option. destruct (utf8_decode b); by intros [= <-].
Qed.

#[export] Hint Resolve not_runtime_mkdir not_runtime_unlink not_runtime_append not_runtime_read not_runtime_read_text : py.

(** [subprocess] raises [OSError], [ValueError] or its own exceptions. *)
Definition host_raises_no_runtime `{Host} : Prop :=
  ∀ argv cwd w, match fst (host_run argv cwd w) with Raise e => is_RuntimeError e = false | Ok _ => True end.

Section programs.
Context `{Host}.
Context (Hhost : host_raises_no_runtime).

Lemma not_runtime_run_proc_env env argv cwd : raises not_runtime (run_proc_env env argv cwd).
Proof.
  intros w e w'. unfold run_proc_env. specialize (Hhost argv cwd (World (w_fs w) env (w_log w))).
  destruct (host_run argv cwd _) as [[p|e'] fs]; simpl in *; [done|]. by intros [= <- <-].
Qed.

Lemma not_runtime_run_streaming x cmd cwd env log : raises not_runtime (run_streaming (x :: cmd) cwd env log).
Proof.
  pose proof not_runtime_run_proc_env. unfold run_streaming, ensure_utf8_stdio, resolve_command, append_text. solve_raises.
Qed.
End programs.

Lemma not_runtime_console_step `{Host} m : raises not_runtime (console_step m).
Proof. unfold console_step, emit. solve_raises. Qed.
Lemma not_runtime_console_pass `{Host} m : raises not_runtime (console_pass m).
Proof. unfold console_pass, emit. solve_raises. Qed.
Lemma not_runtime_console_fail `{Host} m : raises not_runtime (console_fail m).
Proof. unfold console_fail, emit. solve_raises. Qed.
Lemma not_runtime_console_warn `{Host} m : raises not_runtime (console_warn m).
Proof. unfold console_warn, emit. solve_raises. Qed.
Lemma not_runtime_timestamp `{Host} : raises not_runtime format_timestamp.
Proof. unfold format_timestamp. solve_raises. Qed.
#[export] Hint Resolve not_runtime_console_step not_runtime_console_pass not_runtime_console_fail
  not_runtime_console_warn not_runtime_timestamp : py.

Lemma not_runtime_invoke_step `{Host} name (command : M Z) log : raises not_runtime command →
  raises not_runtime (invoke_step name command log).
Proof. intros Hc. unfold invoke_step. solve_raises. Qed.

(** [json.loads] raises nothing but [JSONDecodeError]. *)
Ltac raise_step :=
  match goal with
  | H : mbind _ _ = Raise _ |- _ => apply res_bind_Raise in H as [H|([? ?] & ? & H)]
  | H : Ok _ = Raise _ |- _ => discriminate H
  | H : fail_json = Raise _ |- _ => unfold fail_json in H; injection H as <-; done
  | H : dict_hook _ = Raise _ |- _ => discriminate H
  | H : context [match ?x with _ => _ end] |- _ => destruct x
  | IH : ∀ s e, parse _ ?f s = Raise e → _, H : parse _ ?f _ = Raise _ |- _ => by apply IH in H
  | IH : ∀ s e, parse_items _ ?f s = Raise e → _, H : parse_items _ ?f _ = Raise _ |- _ => by apply IH in H
  | IH : ∀ s e, parse_members _ ?f s = Raise e → _, H : parse_members _ ?f _ = Raise _ |- _ => by apply IH in H
  end.
Lemma parse_raises fuel :
  (∀ s e, parse dict_hook fuel s = Raise e → e = JSONDecodeError) ∧
  (∀ s e, parse_items dict_hook fuel s = Raise e → e = JSONDecodeError) ∧
  (∀ s e, parse_members dict_hook fuel s = Raise e → e = JSONDecodeError).
Proof.
  induction fuel as [|fuel (IH1 & IH2 & IH3)]; (split_and!; intros s e Hr; cbn [parse parse_items parse_members] in Hr).
  all: try (unfold fail_json in Hr; by injection Hr).
  - destruct s as [|c r]; [by injection Hr|].
    repeat (first [raise_step | apply res_bind_Raise in Hr as [Hr|(? & ? & Hr)]]).
  - repeat raise_step.
  - repeat raise_step.
Qed.

Lemma loads_raises s e : loads s = Raise e → e = JSONDecodeError.
Proof.
  unfold loads, loads_hook. intros [Hr|([v t] & _ & Hr)]%res_bind_Raise.
  - by apply parse_raises in Hr.
  - destruct (nonempty _); [by injection Hr|done].
Qed.
