(* ===== verification/OdbcBenchmarkGate.v ===== *)
(** * Gates on the ODBC benchmarks (tool/py/odbc_benchmark_gate.py)

    Reads the scenarios that the asynchronous and the streaming ODBC benchmark
    print, as a JSON line or as log lines, and enforces the limits the
    environment sets: the number of encoding fallbacks, the speed-up of the
    columnar encodings and of batched streaming. *)

From S2P Require Import Prelude PyStr PyRe PyFloat PyJson PyNum Effects.

Local Open Scope Z_scope.

(** ** Parsing *)

Definition digit_dot : regex := RChar (λ c, is_digit c || Ascii.eqb c ".").
Definition letter : regex := RChar (λ c, in_range 65 90 c || in_range 97 122 c).
Definition any_text : regex := star_lazy dot.

(** src: tool/py/odbc_benchmark_gate.py:11-15 _ASYNC_SCENARIO_RE
    The groups are label, ms, encoding and fallbacks. *)
Definition ASYNC_SCENARIO_RE : regex :=
  seqs [RBol; RGroup 1 (plus_lazy dot); lit ": "; RGroup 2 (plus digit_dot); lit " ms,";
        any_text; lit "encoding="; RGroup 3 (plus letter); lit ",";
        any_text; lit "fallbacks="; RGroup 4 (plus digit)].

Definition stream_label : regex :=
  alts [lit_i "streamQueryBatched"; lit_i "streamQueryBuffer"; lit_i "streamQuery"].

(** src: tool/py/odbc_benchmark_gate.py:17-20 _STREAM_ROWS_PER_SEC_RE *)
Definition STREAM_ROWS_PER_SEC_RE : regex :=
  seqs [RGroup 1 stream_label; star space; lit ":"; any_text; lit_i "rowsPerSecond=";
        RGroup 2 (plus digit_dot)].

(** src: tool/py/odbc_benchmark_gate.py:22-25 _STREAM_ROWS_FALLBACK_RE *)
Definition STREAM_ROWS_FALLBACK_RE : regex :=
  seqs [RGroup 1 stream_label; star space; lit ":"; star space; RGroup 2 (plus digit_dot);
        star space; lit_i "ms,"; star space; lit_i "rows="; RGroup 3 (plus digit)].

(** src: tool/py/odbc_benchmark_gate.py:28-33 AsyncBenchmarkScenario
    A JSON report may hold any value as its label and its encoding. *)
Record AsyncBenchmarkScenario : Type := AsyncScenario {
  a_label : json; duration_ms : float; encoding : json; fallbacks : Z }.

(** src: tool/py/odbc_benchmark_gate.py:36-39 StreamingBenchmarkScenario *)
Record StreamingBenchmarkScenario : Type := StreamScenario {
  s_label : json; rows_per_second : float }.

(** src: tool/py/odbc_benchmark_gate.py:73-79 parse_streaming_benchmark_scenarios
    The scenarios of the first line that holds a JSON report of [benchmark]. *)
Fixpoint find_report (clean : string → string) (benchmark : string) (lines : list string) : res (option json) :=
  match lines with
  | [] => Ok None
  | line :: lines =>
      match loads (clean line) with
      | Ok (JObj d) =>
          if jeq (default JNull (assoc "benchmark" d)) (JStr benchmark)
          then s ← jitem "scenarios" (JObj d); Ok (Some s)
          else find_report clean benchmark lines
      | Ok _ | Raise JSONDecodeError => find_report clean benchmark lines
      | Raise e => Raise e
      end
  end.

(** src: tool/py/odbc_benchmark_gate.py:50-50 parse_async_benchmark_scenarios *)
Definition async_of_row (row : json) : res AsyncBenchmarkScenario :=
  scenario ← jitem "scenario" row;
  elapsed ← jitem "elapsed_ms" row;
  ms ← float_of_json elapsed;
  enc ← jitem "encoding" row;
  f ← jitem "fallbacks" row;
  n ← int_of_json f;
  Ok (AsyncScenario scenario ms enc n).

(** src: tool/py/odbc_benchmark_gate.py:53-60 parse_async_benchmark_scenarios *)
Definition async_of_match (mo : match_obj) : res AsyncBenchmarkScenario :=
  ms ← float_of_str (group_str 2 mo);
  n ← int_of (group_str 4 mo);
  Ok (AsyncScenario (JStr (strip (group_str 1 mo))) ms (JStr (group_str 3 mo)) n).

(** src: tool/py/odbc_benchmark_gate.py:42-61 parse_async_benchmark_scenarios *)
Definition parse_async_benchmark_scenarios (output : string) : res (list AsyncBenchmarkScenario) :=
  report ← find_report (λ line, strip (removeprefix line "Shell:")) "native_odbc_async" (splitlines output);
  match report with
  | Some rows => l ← items_of rows; res_map async_of_row l
  | None =>
      let output := join nl ((λ line, strip (removeprefix (strip line) "Shell:")) <$> splitlines output) in
      res_map async_of_match (re_finditer ASYNC_SCENARIO_RE output)
  end.

(** src: tool/py/odbc_benchmark_gate.py:64-67 _rows_per_second_from_match *)
Definition rows_per_second_from_match (rows : Z) (elapsed_ms : float) : res float :=
  if fleb elapsed_ms f_zero then Ok f_zero
  else
    seconds ← div_float elapsed_ms (f_lit "1000.0");
    n ← float_of_int rows;
    div_float n seconds.

(** src: tool/py/odbc_benchmark_gate.py:79-79 parse_streaming_benchmark_scenarios *)
Definition stream_of_row (row : json) : res StreamingBenchmarkScenario :=
  scenario ← jitem "scenario" row;
  rps ← jitem "rows_per_second" row;
  f ← float_of_json rps;
  Ok (StreamScenario scenario f).

(** src: tool/py/odbc_benchmark_gate.py:81-85 parse_streaming_benchmark_scenarios
    The two loops that fill [by_label]. *)
Fixpoint add_rates (ms : list match_obj) (by_label : list (string * float)) : res (list (string * float)) :=
  match ms with
  | [] => Ok by_label
  | mo :: ms =>
      f ← float_of_str (group_str 2 mo);
      add_rates ms (assoc_set (group_str 1 mo) f by_label)
  end.

(** src: tool/py/odbc_benchmark_gate.py:87-96 parse_streaming_benchmark_scenarios *)
Fixpoint add_fallbacks (ms : list match_obj) (by_label : list (string * float)) : res (list (string * float)) :=
  match ms with
  | [] => Ok by_label
  | mo :: ms =>
      let label := group_str 1 mo in
      match assoc label by_label with
      | Some _ => add_fallbacks ms by_label
      | None =>
          rows ← int_of (group_str 3 mo);
          elapsed_ms ← float_of_str (group_str 2 mo);
          rps ← rows_per_second_from_match rows elapsed_ms;
          add_fallbacks ms (assoc_set label rps by_label)
      end
  end.

(** src: tool/py/odbc_benchmark_gate.py:70-99 parse_streaming_benchmark_scenarios *)
Definition parse_streaming_benchmark_scenarios (output : string) : res (list StreamingBenchmarkScenario) :=
  report ← find_report (λ line, strip (removeprefix (strip line) "Shell:")) "native_odbc_streaming" (splitlines output);
  match report with
  | Some rows => l ← items_of rows; res_map stream_of_row l
  | None =>
      rates ← add_rates (re_finditer STREAM_ROWS_PER_SEC_RE output) [];
      rates ← add_fallbacks (re_finditer STREAM_ROWS_FALLBACK_RE output) rates;
      Ok ((λ kv : string * float, StreamScenario (JStr (fst kv)) (snd kv)) <$> (rates : list (string * float)))
  end.

(** ** Settings *)

Definition environment : Type := gmap string string.
Definition env_text (env : environment) (name : string) : string := strip (default EmptyString (env !! name)).

(** src: tool/py/odbc_benchmark_gate.py:102-107 _benchmark_gates_enabled *)
Definition benchmark_gates_enabled (env : environment) : bool :=
  one_of (py_lower (env_text env "BENCHMARK_ENFORCE_ODBC_GATES")) ["1"; "true"; "yes"].

(** src: tool/py/odbc_benchmark_gate.py:110-122 _read_positive_float_env *)
Definition read_positive_float_env (name : string) (env : environment) (dflt : option float)
    (allow_zero : bool) : M (option float) :=
  let raw := env_text env name in
  if negb (nonempty raw) then mret dflt
  else
    match py_float raw with
    | None =>
        _ ← eprint ("Invalid " +:+ name +:+ ": " +:+ raw);
        raise (SystemExit (ExitCode 2))
    | Some value =>
        if negb (isfinite value) || fltb value f_zero || (feqb value f_zero && negb allow_zero) then
          _ ← eprint (name +:+ " must be > 0 (got " +:+ float_repr value +:+ ")");
          raise (SystemExit (ExitCode 2))
        else mret (Some value)
    end.

(** src: tool/py/odbc_benchmark_gate.py:125-134 _find_async_scenario *)
Definition find_async_scenario (scenarios : list AsyncBenchmarkScenario) (label enc : string) :
    option AsyncBenchmarkScenario :=
  List.find (λ s, jeq (a_label s) (JStr label) && jeq (encoding s) (JStr enc)) scenarios.

(** src: tool/py/odbc_benchmark_gate.py:137-140 _columnar_speedup *)
Definition columnar_speedup (row_major_ms encoding_ms : float) : res float :=
  if fleb encoding_ms f_zero then Ok f_zero else div_float row_major_ms encoding_ms.

(** ** The asynchronous gate *)

Definition sum_Z (l : list Z) : Z := foldl Z.add 0 l.

(** [max(l, key=f)] of a list that is not empty: the first of the largest. *)
Fixpoint max_by {A} (f : A → float) (best : A) (l : list A) : A :=
  match l with
  | [] => best
  | x :: l => max_by f (if fltb (f best) (f x) then x else best) l
  end.

(** An encoding with its duration and its speed-up over row-major. *)
Definition speedup : Type := string * float * float.
Definition speedup_of (s : speedup) : float := snd s.

(** src: tool/py/odbc_benchmark_gate.py:196-211 enforce_async_benchmark_gates *)
Definition speedup_entry (name : string) (row_major : AsyncBenchmarkScenario)
    (o : option AsyncBenchmarkScenario) : res (list speedup) :=
  match o with
  | None => Ok []
  | Some s => x ← columnar_speedup (duration_ms row_major) (duration_ms s); Ok [(name, duration_ms s, x)]
  end.

Section gates.
Context `{Host}.

(** src: tool/py/odbc_benchmark_gate.py:188-193 enforce_async_benchmark_gates
    Exit status 3 when the gates are on, 2 for an inconclusive run. *)
Definition missing (gates_enabled : bool) (message : string) : M Z :=
  if gates_enabled then _ ← eprint message; mret 3
  else _ ← eprint (message +:+ " Inconclusive."); mret 2.

(** src: tool/py/odbc_benchmark_gate.py:157-162 enforce_async_benchmark_gates
    The number of fallbacks the run may have. *)
Definition max_fallbacks (env : environment) : M Z :=
  if benchmark_gates_enabled env || nonempty (env_text env "BENCHMARK_ODBC_FALLBACKS_MAX") then
    o ← read_positive_float_env "BENCHMARK_ODBC_FALLBACKS_MAX" env (Some f_zero) true;
    match f_to_Z (default f_zero o) with
    | Some n => mret n
    | None => raise (SystemExit (ExitCode 2))
    end
  else mret 0.

(** src: tool/py/odbc_benchmark_gate.py:223-248 enforce_async_benchmark_gates
    The last part: the best speed-up against the minimum. *)
Definition judge_speedups (row_major : AsyncBenchmarkScenario) (min_speedup : float)
    (first : speedup) (others : list speedup) : M Z :=
  let speedups := first :: others in
  let '(best_label, _, best_speedup) := max_by speedup_of first others in
  let row_ms := float_repr (duration_ms row_major) in
  if fltb best_speedup min_speedup then
    let details := join ", " ((λ '(label, ms, s),
      label +:+ "=" +:+ fixed false 3 s +:+ " (" +:+ float_repr ms +:+ "ms)") <$> speedups) in
    _ ← eprint ("Columnar speedup gate failed: best " +:+ best_label +:+ " " +:+ fixed false 3 best_speedup +:+
                " < " +:+ float_repr min_speedup +:+ " (rowMajor=" +:+ row_ms +:+ "ms; " +:+ details +:+ ").");
    mret 3
  else
    let details := join ", " ((λ '(label, _, s), label +:+ "=" +:+ fixed false 3 s) <$> speedups) in
    _ ← when (1 <? length speedups)%nat
         (eprint ("Columnar speedup gate passed via " +:+ best_label +:+ ": " +:+ fixed false 3 best_speedup +:+
                  " >= " +:+ float_repr min_speedup +:+ " (" +:+ details +:+ "; rowMajor=" +:+ row_ms +:+ "ms)."));
    mret 0.

(** src: tool/py/odbc_benchmark_gate.py:180-248 enforce_async_benchmark_gates
    The part on speed-ups, for a minimum that is set. *)
Definition enforce_speedups (gates_enabled : bool) (scenarios : list AsyncBenchmarkScenario)
    (min_speedup : float) : M Z :=
  match find_async_scenario scenarios "workerCount=4" "rowMajor" with
  | None => missing gates_enabled "Columnar speedup gate failed: missing workerCount=4 rowMajor scenario."
  | Some row_major =>
      a ← lift (speedup_entry "columnar" row_major
                  (find_async_scenario scenarios "workerCount=4 columnar" "columnar"));
      b ← lift (speedup_entry "columnarCompressed" row_major
                  (find_async_scenario scenarios "workerCount=4 columnar compressed" "columnarCompressed"));
      match a ++ b with
      | [] => missing gates_enabled
                "Columnar speedup gate failed: missing workerCount=4 columnar/columnarCompressed scenarios."
      | first :: others => judge_speedups row_major min_speedup first others
      end
  end.

(** [os.environ if environment is None else environment] *)
Definition resolve_environment (o : option environment) : M environment := λ w,
  (Ok (default (w_env w) o), w).

(** src: tool/py/odbc_benchmark_gate.py:143-248 enforce_async_benchmark_gates *)
Definition enforce_async_benchmark_gates (output : string) (environment : option environment) : M Z :=
  env ← resolve_environment environment;
  scenarios ← lift (parse_async_benchmark_scenarios output);
  let gates_enabled := benchmark_gates_enabled env in
  match scenarios with
  | [] =>
      if gates_enabled then
        _ ← eprint "Async benchmark gate failed: no recognizable scenario lines in output."; mret 3
      else mret 0
  | _ =>
      limit ← max_fallbacks env;
      let total := sum_Z (fallbacks <$> scenarios) in
      if limit <? total then
        let offenders := List.filter (λ s, limit <? fallbacks s) scenarios in
        let details := join ", " ((λ s, str_of (a_label s) +:+ "=" +:+ py_str_int (fallbacks s)) <$> offenders) in
        _ ← eprint ("Async benchmark gate failed: fallbacks must be <= " +:+ py_str_int limit +:+
                    " (observed " +:+ py_str_int total +:+ ": " +:+ details +:+ ").");
        mret 3
      else
        min_speedup ← read_positive_float_env "BENCHMARK_COLUMNAR_MIN_SPEEDUP" env
                        (if gates_enabled then Some (f_lit "1.30") else None) false;
        match min_speedup with
        | None => mret 0
        | Some min_speedup => enforce_speedups gates_enabled scenarios min_speedup
        end
  end.

(** ** The streaming gate *)

(** src: tool/py/odbc_benchmark_gate.py:254-254 enforce_streaming_benchmark_gates
    [by_label.get(label)] in [{s.label: s for s in scenarios}]: the last one wins. *)
Definition by_label (scenarios : list StreamingBenchmarkScenario) (label : string) :
    option StreamingBenchmarkScenario :=
  List.find (λ s, jeq (s_label s) (JStr label)) (List.rev scenarios).

(** src: tool/py/odbc_benchmark_gate.py:251-290 enforce_streaming_benchmark_gates *)
Definition enforce_streaming_benchmark_gates (output : string) (environment : option environment) : M Z :=
  env ← resolve_environment environment;
  scenarios ← lift (parse_streaming_benchmark_scenarios output);
  _ ← lift (for_each (λ s, hashable (s_label s)) scenarios);
  let gates_enabled := benchmark_gates_enabled env in
  min_speedup ← read_positive_float_env "BENCHMARK_STREAMING_MIN_SPEEDUP" env
                  (if gates_enabled then Some (f_lit "2.0") else None) false;
  match min_speedup with
  | None => mret 0
  | Some min_speedup =>
      let stream := match by_label scenarios "streamQueryBuffer" with
                    | Some s => Some s | None => by_label scenarios "streamQuery" end in
      match stream, by_label scenarios "streamQueryBatched" with
      | Some stream, Some batched =>
          if fleb (rows_per_second stream) f_zero then
            _ ← eprint "Streaming speedup gate failed: streamQuery rows/s must be > 0."; mret 3
          else
            speedup ← lift (div_float (rows_per_second batched) (rows_per_second stream));
            if fltb speedup min_speedup then
              _ ← eprint ("Streaming speedup gate failed: batched/streamQuery " +:+ fixed false 3 speedup +:+
                          " < " +:+ float_repr min_speedup +:+ " (streamQuery=" +:+
                          fixed false 0 (rows_per_second stream) +:+ " rows/s streamQueryBatched=" +:+
                          fixed false 0 (rows_per_second batched) +:+ " rows/s).");
              mret 3
            else mret 0
      | _, _ => missing gates_enabled "Streaming speedup gate failed: missing streamQuery or streamQueryBatched rows/s."
      end
  end.
End gates.

(** ** The largest speed-up *)

Lemma max_by_elem {A} (f : A → float) best l : max_by f best l ∈ best :: l.
Proof.
  revert best. induction l as [|x l IH]; intros best; simpl; [by left|].
  specialize (IH (if fltb (f best) (f x) then x else best)).
  apply elem_of_cons in IH as [->|?]; [case_match; by set_unfold; auto|by do 2 right].
Qed.

Lemma max_by_nan {A} (f : A → float) best l : fkey (f best) = None → max_by f best l = best.
Proof. intros Hn. induction l as [|x l IH]; simpl; [done|]. by rewrite fltb_nan_l. Qed.

Lemma max_by_ge {A} (f : A → float) best l : fkey (f best) ≠ None →
  Forall (λ x, fltb (f (max_by f best l)) (f x) = false) (best :: l).
Proof.
  revert best. induction l as [|x l IH]; intros best Hk; simpl.
  { repeat constructor. apply fltb_irrefl. }
  destruct (fltb (f best) (f x)) eqn:E.
  - assert (fkey (f x) ≠ None) as Hkx by (apply fltb_key in E as (? & ? & _ & -> & _); done).
    pose proof (IH x Hkx) as Hx. inversion Hx as [|?? Hmx]; subst. constructor; [|done].
    apply not_true_iff_false. intros Hmb. rewrite (fltb_trans _ _ _ Hmb E) in Hmx. done.
  - pose proof (IH best Hk) as Hb. inversion Hb as [|?? Hmb Hl]; subst. constructor; [done|].
    constructor; [|done]. apply not_true_iff_false. intros Hmx.
    by rewrite (fltb_le_trans _ _ _ Hmb Hmx Hk) in E.
Qed.

(** If the result is below a limit, no candidate reaches it. *)
Lemma max_by_below {A} (f : A → float) best l lim :
  fltb (f (max_by f best l)) lim = true → Forall (λ x, fleb lim (f x) = false) (best :: l).
Proof.
  intros Hmax. destruct (fkey (f best)) eqn:Hk.
  - eapply Forall_impl; [apply (max_by_ge f best l); congruence|]. intros x Hx. cbv beta in *.
    apply not_true_iff_false. intros Hle. by rewrite (fltb_fleb_trans _ _ _ Hmax Hle) in Hx.
  - rewrite max_by_nan in Hmax by done. by rewrite fltb_nan_l in Hmax.
Qed.

(** ** What the verdicts mean *)

Section verdicts.
Context `{Host}.

Lemma runs_read_positive_float name env dflt zero w o w' :
  runs (read_positive_float_env name env dflt zero) w o w' →
  w' = w ∧ (o = dflt ∨ ∃ v, o = Some v ∧ py_float (env_text env name) = Some v ∧
            isfinite v = true ∧ fltb v f_zero = false ∧ (zero = false → feqb v f_zero = false)).
Proof.
  unfold read_positive_float_env. intros Hr. case_match; [inv_runs; by split; [|left]|].
  case_match; [|by inv_runs]. case_match eqn:E; inv_runs. split; [done|]. right.
  apply orb_false_elim in E as [[Ef El]%orb_false_elim Ez]. apply negb_false_iff in Ef.
  eexists. split_and!; try done. intros ->. by rewrite andb_true_r in Ez.
Qed.

Lemma judge_verdict row min first others w r w' :
  runs (judge_speedups row min first others) w r w' →
  (r = 0 ∨ r = 3) ∧
  (r = 0 → Exists (λ s, fltb (speedup_of s) min = false) (first :: others)) ∧
  (r = 3 → Forall (λ s, fleb min (speedup_of s) = false) (first :: others)).
Proof.
  unfold judge_speedups. pose proof (max_by_elem speedup_of first others) as Hel.
  pose proof (max_by_below speedup_of first others min) as Hbelow.
  destruct (max_by speedup_of first others) as [[bl bm] bs] eqn:Em. simpl in Hbelow.
  intros Hr. case_match eqn:E; inv_runs.
  - split_and!; [by right|done|]. intros _. by apply Hbelow.
  - split_and!; [by left| |done]. intros _. apply Exists_exists. eexists. split; [exact Hel|done].
Qed.

(** A limit the environment sets, or its default when it sets none. *)
Definition configured (env : environment) (name : string) (dflt v : float) (zero : bool) : Prop :=
  v = dflt ∨ py_float (env_text env name) = Some v ∧ isfinite v = true ∧ fltb v f_zero = false ∧
             (zero = false → feqb v f_zero = false).

(** The environment a gate reads. *)
Definition read_env (o : option environment) (w : world) : environment := default (w_env w) o.

Lemma runs_environment {A} o (k : environment → M A) w a w' :
  runs (env ← resolve_environment o; k env) w a w' → runs (k (read_env o w)) w a w'.
Proof. done. Qed.

Lemma runs_max_fallbacks env w n w' : runs (max_fallbacks env) w n w' →
  w' = w ∧ (n = 0 ∨ ∃ v, configured env "BENCHMARK_ODBC_FALLBACKS_MAX" f_zero v true ∧ f_to_Z v = Some n).
Proof.
  unfold max_fallbacks. intros Hr. case_match; [|inv_runs; split; [done|by left]]. inv_runs.
  apply runs_read_positive_float in H1 as [-> Ho]. case_match eqn:E; inv_runs. split; [done|].
  destruct Ho as [->|(v & -> & Hv)]; simpl in E; [left; vm_compute in E; by injection E|].
  right. exists v. split; [by right|done].
Qed.

Lemma speedup_entry_elem name row o l s : speedup_entry name row o = Ok l → s ∈ l →
  ∃ sc, o = Some sc ∧ columnar_speedup (duration_ms row) (duration_ms sc) = Ok (speedup_of s).
Proof.
  unfold speedup_entry. destruct o as [sc|]; intros Hl Hs; inv_res; subst; [|by apply not_elem_of_nil in Hs].
  apply list_elem_of_singleton in Hs as ->. by exists sc.
Qed.

Lemma runs_missing_status gates msg w r w' : runs (missing gates msg) w r w' → r = if gates then 3 else 2.
Proof. unfold missing. intros. case_match; by inv_runs. Qed.

(** The accelerated scenarios that may reach the minimum. *)
Definition accelerated (scenarios : list AsyncBenchmarkScenario) (s : AsyncBenchmarkScenario) : Prop :=
  find_async_scenario scenarios "workerCount=4 columnar" "columnar" = Some s ∨
  find_async_scenario scenarios "workerCount=4 columnar compressed" "columnarCompressed" = Some s.

Lemma speedups_verdict gates scenarios min w r w' : runs (enforce_speedups gates scenarios min) w r w' →
  (r = 0 ∨ r = 3 ∨ r = 2 ∧ gates = false) ∧
  (r = 0 → ∃ row s x, find_async_scenario scenarios "workerCount=4" "rowMajor" = Some row ∧
     accelerated scenarios s ∧ columnar_speedup (duration_ms row) (duration_ms s) = Ok x ∧ fltb x min = false).
Proof.
  unfold enforce_speedups. intros Hr. destruct (find_async_scenario _ "workerCount=4" _) as [row|] eqn:Erow.
  2: { apply runs_missing_status in Hr as ->. destruct gates; split; auto; done. }
  inv_runs. rename a into la, a0 into lb. destruct (la ++ lb) as [|s l] eqn:El.
  { apply runs_missing_status in Hr as ->. destruct gates; split; auto; done. }
  apply judge_verdict in Hr as (Hr & Hok & _). split; [tauto|]. intros Hz.
  apply Hok, Exists_exists in Hz as (x & Hx & Hlt). rewrite <- El in Hx.
  apply elem_of_app in Hx as [Hx|Hx]; (eapply speedup_entry_elem in Hx as (sc & Hsc & Hs); [|done]);
    exists row, sc, (speedup_of x); split_and!; try done; [by left|by right].
Qed.

(** A gate that is on and passes has measured what it promises: the run has
    scenarios, their fallbacks are within the configured limit, and one of the
    columnar encodings is at least as many times faster than row-major as the
    configured minimum, 1.30 unless the environment says otherwise. *)
Theorem async_gate_sound (output : string) (o : option environment) (w w' : world)
    (Hrun : runs (enforce_async_benchmark_gates output o) w 0 w')
    (Hon : benchmark_gates_enabled (read_env o w) = true) :
  ∃ scenarios limit row s x min,
    parse_async_benchmark_scenarios output = Ok scenarios ∧
    sum_Z (fallbacks <$> scenarios) ≤ limit ∧
    (limit = 0 ∨ ∃ v, configured (read_env o w) "BENCHMARK_ODBC_FALLBACKS_MAX" f_zero v true ∧ f_to_Z v = Some limit) ∧
    configured (read_env o w) "BENCHMARK_COLUMNAR_MIN_SPEEDUP" (f_lit "1.30") min false ∧
    find_async_scenario scenarios "workerCount=4" "rowMajor" = Some row ∧ accelerated scenarios s ∧
    columnar_speedup (duration_ms row) (duration_ms s) = Ok x ∧ fltb x min = false.
Proof.
  unfold enforce_async_benchmark_gates in Hrun. apply runs_environment in Hrun.
  rewrite Hon in Hrun. inv_runs. destruct a as [|sc scs]; [by inv_runs|]. inv_runs.
  apply runs_max_fallbacks in H1 as [-> Hlim]. case_match eqn:Esum; inv_runs; [done|].
  apply runs_read_positive_float in H1 as [-> Hmin]. destruct a0 as [min|];
    [|by destruct Hmin as [?|(? & ? & _)]].
  apply speedups_verdict in Hrun as [_ Hz]. destruct (Hz eq_refl) as (row & s & x & Hrow & Hacc & Hx & Hlt).
  apply Z.ltb_ge in Esum. exists (sc :: scs), a, row, s, x, min. split_and!; try done.
  destruct Hmin as [Hd|(v & Hd & Hv)]; apply (inj Some) in Hd as ->; [by left|by right].
Qed.

(** A streaming gate that is on and passes has measured batched streaming at
    least as many times faster as the configured minimum. *)
Theorem streaming_gate_sound (output : string) (o : option environment) (w w' : world)
    (Hrun : runs (enforce_streaming_benchmark_gates output o) w 0 w')
    (Hon : benchmark_gates_enabled (read_env o w) = true) :
  ∃ scenarios stream batched x min,
    parse_streaming_benchmark_scenarios output = Ok scenarios ∧
    configured (read_env o w) "BENCHMARK_STREAMING_MIN_SPEEDUP" (f_lit "2.0") min false ∧
    (by_label scenarios "streamQueryBuffer" = Some stream ∨
     by_label scenarios "streamQueryBuffer" = None ∧ by_label scenarios "streamQuery" = Some stream) ∧
    by_label scenarios "streamQueryBatched" = Some batched ∧
    fleb (rows_per_second stream) f_zero = false ∧
    div_float (rows_per_second batched) (rows_per_second stream) = Ok x ∧ fltb x min = false.
Proof.
  unfold enforce_streaming_benchmark_gates in Hrun. apply runs_environment in Hrun.
  rewrite Hon in Hrun. revert Hrun. generalize (read_env o w). intros env Hrun. inv_runs. rename a into scenarios.
  match goal with Hm : runs (read_positive_float_env _ _ _ _) _ _ _ |- _ =>
    apply runs_read_positive_float in Hm as [-> Hmin] end.
  destruct a1 as [min|]; [|by destruct Hmin as [?|(? & ? & _)]].
  assert (configured env "BENCHMARK_STREAMING_MIN_SPEEDUP" (f_lit "2.0") min false) as Hc.
  { destruct Hmin as [Hd|(v & Hd & Hv)]; apply (inj Some) in Hd as ->; [by left|by right]. }
  destruct (by_label scenarios "streamQueryBuffer") as [sb|] eqn:Eb;
    [|destruct (by_label scenarios "streamQuery") as [sb|] eqn:Eq; [|by inv_runs]].
  all: destruct (by_label scenarios "streamQueryBatched") as [batched|] eqn:Ebat; [|by inv_runs].
  all: destruct (fleb (rows_per_second sb) f_zero) eqn:Ez; inv_runs; [done|].
  all: case_match eqn:Elt; inv_runs; [done|].
  all: exists scenarios, sb, batched; do 2 eexists; split_and!; try done; auto.
Qed.

Lemma async_gate_status output o w r w' : runs (enforce_async_benchmark_gates output o) w r w' →
  r = 0 ∨ r = 3 ∨ r = 2 ∧ benchmark_gates_enabled (read_env o w) = false.
Proof.
  unfold enforce_async_benchmark_gates. intros Hrun. apply runs_environment in Hrun. inv_runs.
  destruct a as [|sc scs]; [case_match; inv_runs; auto|]. inv_runs.
  case_match; inv_runs; [auto|]. destruct a0; [|inv_runs; auto].
  by apply speedups_verdict in Hrun as [? _].
Qed.

Lemma streaming_gate_status output o w r w' : runs (enforce_streaming_benchmark_gates output o) w r w' →
  r = 0 ∨ r = 3 ∨ r = 2 ∧ benchmark_gates_enabled (read_env o w) = false.
Proof.
  unfold enforce_streaming_benchmark_gates. intros Hrun. apply runs_environment in Hrun. inv_runs.
  destruct a1 as [min|]; [|inv_runs; auto].
  match type of Hrun with runs (match ?s with _ => _ end) _ _ _ => destruct s as [sb|] end.
  2: { apply runs_missing_status in Hrun as ->. case_match; auto. }
  destruct (by_label a _) as [sc|].
  2: { apply runs_missing_status in Hrun as ->. case_match; auto. }
  destruct (fleb (rows_per_second sb) f_zero); inv_runs; [auto|]. destruct (fltb _ min); inv_runs; auto.
Qed.

Lemma missing_only_warns g msg : steps (log_ext (λ e, ∃ t, e = EvErr t)) (missing g msg).
Proof. unfold missing. solve_steps. Qed.
End verdicts.

(** The sample output of the repository's tests. *)
Definition sample_async : string := join nl [
  "workerCount=1: 20 ms, workers=1, encoding=rowMajor, units=24, timeouts=0, fallbacks=0";
  "workerCount=4: 10 ms, workers=4, encoding=rowMajor, units=24, timeouts=0, fallbacks=0";
  "workerCount=4 columnar: 18 ms, workers=4, encoding=columnar, units=24, timeouts=0, fallbacks=0";
  "Shell: workerCount=4 columnar compressed: 6 ms, encoding=columnarCompressed, timeouts=0, fallbacks=0"].
Definition sample_stream : string := join nl [
  "streamQuery: 104 ms, rows=1969, chunks=1, rowsPerSecond=18933, fetchSize=0";
  "streamQueryBatched: 40 ms, rows=1000, chunks=2, fetchSize=1000"].
Definition gates_on : world := World ∅ {["BENCHMARK_ENFORCE_ODBC_GATES" := " Yes "]} [].

Example sample_verdicts :
  fst (enforce_async_benchmark_gates (H:=idle_host) sample_async None gates_on) = Ok 0 ∧
  fst (enforce_async_benchmark_gates (H:=idle_host) (replace "compressed: 6 ms" "compressed: 18 ms" sample_async)
         None gates_on) = Ok 3 ∧
  fst (enforce_async_benchmark_gates (H:=idle_host) "" (Some ∅) gates_on) = Ok 0 ∧
  fst (enforce_streaming_benchmark_gates sample_stream None gates_on) = Ok 3 ∧
  fst (enforce_streaming_benchmark_gates (replace "18933" "12500" sample_stream) None gates_on) = Ok 0 ∧
  fst (enforce_streaming_benchmark_gates "" (Some {["BENCHMARK_STREAMING_MIN_SPEEDUP" := "2.0"]}) gates_on) = Ok 2 ∧
  enforce_streaming_benchmark_gates "" (Some {["BENCHMARK_STREAMING_MIN_SPEEDUP" := "nan"]}) gates_on =
    (Raise (SystemExit (ExitCode 2)), World ∅ (w_env gates_on)
       [EvErr "BENCHMARK_STREAMING_MIN_SPEEDUP must be > 0 (got nan)"]).
Proof. vm_compute. done. Qed.

(** A verdict is one of three exit statuses, and with the gates on a run is
    never merely inconclusive. *)
Theorem gate_statuses `{Host} (gate : string → option environment → M Z) (output : string)
    (o : option environment) (w w' : world) (r : Z)
    (Hgate : gate = enforce_async_benchmark_gates ∨ gate = enforce_streaming_benchmark_gates)
    (Hrun : runs (gate output o) w r w') :
  r = 0 ∨ r = 3 ∨ r = 2 ∧ benchmark_gates_enabled (read_env o w) = false.
Proof.
  destruct Hgate as [-> | ->]; [by eapply async_gate_status|by eapply streaming_gate_status].
Qed.

Theorem gate_statuses_witness :
  ∃ w', (0 = 0 ∨ 0 = 3 ∨ 0 = 2 ∧ benchmark_gates_enabled (read_env None gates_on) = false) ∧
        runs (enforce_async_benchmark_gates (H:=idle_host) sample_async None) gates_on 0 w'.
Proof.
  eexists. split.
  - eapply (gate_statuses (H:=idle_host) _ sample_async None gates_on); [by left|].
    vm_compute. reflexivity.
  - vm_compute. reflexivity.
Defined.

Theorem async_gate_sound_witness :
  ∃ scenarios limit row s x min,
    parse_async_benchmark_scenarios sample_async = Ok scenarios ∧
    sum_Z (fallbacks <$> scenarios) ≤ limit ∧
    (limit = 0 ∨ ∃ v, configured (read_env None gates_on) "BENCHMARK_ODBC_FALLBACKS_MAX" f_zero v true ∧
       f_to_Z v = Some limit) ∧
    configured (read_env None gates_on) "BENCHMARK_COLUMNAR_MIN_SPEEDUP" (f_lit "1.30") min false ∧
    find_async_scenario scenarios "workerCount=4" "rowMajor" = Some row ∧ accelerated scenarios s ∧
    columnar_speedup (duration_ms row) (duration_ms s) = Ok x ∧ fltb x min = false.
Proof.
  eapply (async_gate_sound (H:=idle_host) sample_async None gates_on);
    [vm_compute; reflexivity|vm_compute; reflexivity].
Defined.

Theorem streaming_gate_sound_witness :
  let output := replace "18933" "12500" sample_stream in
  ∃ scenarios stream batched x min,
    parse_streaming_benchmark_scenarios output = Ok scenarios ∧
    configured (read_env None gates_on) "BENCHMARK_STREAMING_MIN_SPEEDUP" (f_lit "2.0") min false ∧
    (by_label scenarios "streamQueryBuffer" = Some stream ∨
     by_label scenarios "streamQueryBuffer" = None ∧ by_label scenarios "streamQuery" = Some stream) ∧
    by_label scenarios "streamQueryBatched" = Some batched ∧
    fleb (rows_per_second stream) f_zero = false ∧
    div_float (rows_per_second batched) (rows_per_second stream) = Ok x ∧ fltb x min = false.
Proof.
  intros output. eapply (streaming_gate_sound output None gates_on);
    [vm_compute; reflexivity|vm_compute; reflexivity].
Defined.

(** A report with a NaN duration passes: a NaN speed-up is not below the minimum. *)
Definition nan_report : string := replace "'" dq
  "{'benchmark':'native_odbc_async','scenarios':[{'scenario':'workerCount=4','elapsed_ms':10,'encoding':'rowMajor','fallbacks':0},{'scenario':'workerCount=4 columnar','elapsed_ms':NaN,'encoding':'columnar','fallbacks':0}]}".

Theorem nan_duration_passes :
  fst (enforce_async_benchmark_gates (H:=idle_host) nan_report None gates_on) = Ok 0.
Proof. vm_compute. reflexivity. Qed.
