(* ===== verification/BenchmarkMetrics.v ===== *)
(** * Reading the metrics of benchmark runs (tool/py/benchmark_common.py, first part)

    The benchmark programs print their measurements as JSON lines, as Markdown
    tables or as log lines, possibly behind the prefix that the Flutter shell
    adds. These functions turn the output into metrics by name and decide
    whether a native report is complete. *)

From S2P Require Import Prelude PyStr PyRe PyFloat PyJson PyNum Effects OdbcBenchmarkGate.

Local Open Scope Z_scope.

(** A [dict] from metric names to floats, in order of insertion. *)
Definition metrics : Type := list (string * float).

(** [re.IGNORECASE] literals and the numeral [[0-9.]+] in a group. *)
Definition number (n : nat) : regex := RGroup n (plus digit_dot).
Definition spaces : regex := star space.

Definition timing (n : nat) : regex := RGroup n (RSeq (plus digit_dot) (opt (alts [lit "ms"; lit "us"]))).

(** src: tool/py/benchmark_common.py:38-40 TIMING_TRIPLE_RE *)
Definition TIMING_TRIPLE_RE : regex :=
  seqs [timing 1; spaces; lit "/"; spaces; timing 2; spaces; lit "/"; spaces; timing 3].

(** src: tool/py/benchmark_common.py:42-49 STREAMING_BENCHMARK_RESULT_RE
    The groups are label, elapsed_ms, rows, chunks, rows_per_second,
    fetch_size and chunk_size. *)
Definition STREAMING_BENCHMARK_RESULT_RE : regex :=
  seqs [RGroup 1 stream_label; lit ":"; spaces; number 2; spaces; lit_i "ms,"; spaces;
        lit_i "rows="; RGroup 3 (plus digit); lit ","; spaces; lit_i "chunks="; RGroup 4 (plus digit); lit ",";
        spaces; lit_i "rowsPerSecond="; number 5; lit ","; spaces;
        lit_i "fetchSize="; RGroup 6 (plus digit); lit ","; spaces; lit_i "chunkSize="; RGroup 7 (plus digit)].

(** src: tool/py/benchmark_common.py:278-282 strip_shell_log_prefix *)
Definition strip_shell_log_prefix (line : string) : string :=
  let candidate := strip line in
  if startswith candidate "Shell:" then strip (str_drop 6 candidate) else candidate.

(** src: tool/py/benchmark_common.py:285-289 is_dart_ffi_compile_failure *)
Definition is_dart_ffi_compile_failure (exit_code : Z) (output : string) : bool :=
  (exit_code =? 252) || existsb (contains output) ["InvalidType"; "_FfiUseSiteTransformer"].

(** [isinstance(value, (int, float))] and then [float(value)]. *)
Definition set_number (key : string) (value : json) (m : metrics) : res metrics :=
  if is_number value then f ← float_of_json value; Ok (assoc_set key f m) else Ok m.

(** [obj.get(key, default)] *)
Definition jget_default (key : string) (d v : json) : res json := o ← jget key v; Ok (default d o).

Fixpoint fold_res {A B} (f : B → A → res B) (l : list A) (b : B) : res B :=
  match l with [] => Ok b | x :: l => b' ← f b x; fold_res f l b' end.

(** src: tool/py/benchmark_common.py:566-572 _timing_to_micros *)
Definition timing_to_micros (value : string) : res float :=
  let text := py_lower (strip value) in
  let body := str_take (String.length text - 2) text in
  if endswith text "ms" then f ← float_of_str body; Ok (fmul f (f_lit "1000.0"))
  else if endswith text "us" then float_of_str body
  else f ← float_of_str text; Ok (fmul f (f_lit "1000.0")).

(** src: tool/py/benchmark_common.py:459-466 _parse_metric_cell *)
Definition parse_metric_cell (value : string) : option float :=
  let text := strip value in
  if negb (nonempty text) || (text == "-") then None else py_float (replace "," "" text).

(** [s.isdigit()]: the superscripts 1, 2 and 3 count as digits. *)
Definition isdigit (s : string) : bool :=
  nonempty s && str_all (λ c, is_digit c || existsb (N.eqb (ord c)) [178; 179; 185]%N) s.

Definition table_cells (candidate : string) : list string :=
  strip <$> split_char "|" (strip_chars "|" candidate).
Definition cell (parts : list string) (i : nat) : string := nth i parts EmptyString.
Definition py_bool (b : bool) : string := if b then "True" else "False".

(** src: tool/py/benchmark_common.py:313-320 parse_transport_markdown_metrics
    The three times of one cell, when it has them. *)
Definition set_triple (prefix side text : string) (m : metrics) : res metrics :=
  match re_search TIMING_TRIPLE_RE text with
  | None => Ok m
  | Some mo =>
      p50 ← timing_to_micros (group_str 1 mo);
      p95 ← timing_to_micros (group_str 2 mo);
      p99 ← timing_to_micros (group_str 3 mo);
      let key q := prefix +:+ "." +:+ side +:+ "_" +:+ q +:+ "_us" in
      Ok (assoc_set (key "p99") p99 (assoc_set (key "p95") p95 (assoc_set (key "p50") p50 m)))
  end.

(** src: tool/py/benchmark_common.py:295-323 parse_transport_markdown_metrics *)
Definition transport_line (m : metrics) (line : string) : res metrics :=
  let candidate := strip_shell_log_prefix line in
  if negb (startswith candidate "|") || startswith candidate "| ---" then Ok m
  else if contains (py_lower candidate) "case |" || contains (py_lower candidate) "send p50" then Ok m
  else
    let parts := table_cells candidate in
    if (length parts <? 10)%nat then Ok m
    else
      let signed := py_lower (cell parts 3) == "true" in
      let prefix := cell parts 0 +:+ "." +:+ cell parts 1 +:+ "." +:+ cell parts 2 +:+ ".signed_" +:+ py_bool signed in
      m ← set_triple prefix "send" (cell parts 8) m;
      m ← set_triple prefix "receive" (cell parts 9) m;
      if (10 <? length parts)%nat && isdigit (cell parts 10)
      then f ← float_of_str (cell parts 10); Ok (assoc_set (prefix +:+ ".isolate_operations") f m)
      else Ok m.

(** src: tool/py/benchmark_common.py:292-324 parse_transport_markdown_metrics
    The two searches come before the assignments; neither can fail. *)
Definition parse_transport_markdown_metrics (output : string) : res metrics :=
  fold_res transport_line (splitlines output) [].

(** src: tool/py/benchmark_common.py:355-368 extract_json_object_from_output *)
Fixpoint last_object (lines : list string) : res (option (list (string * json))) :=
  match lines with
  | [] => Ok None
  | line :: lines =>
      let candidate := strip_shell_log_prefix line in
      if negb (startswith candidate "{") then last_object lines
      else match loads candidate with
           | Ok (JObj d) => Ok (Some d)
           | Ok _ | Raise JSONDecodeError => last_object lines
           | Raise e => Raise e
           end
  end.
Definition extract_json_object_from_output (output : string) : res (option (list (string * json))) :=
  last_object (List.rev (splitlines output)).

(** src: tool/py/benchmark_common.py:418-435 parse_plug_agente_stack_metrics
    A cell that holds a number. *)
Definition set_cell (parts : list string) (i : nat) (key : string) (m : metrics) : metrics :=
  if (i <? length parts)%nat then
    match parse_metric_cell (cell parts i) with Some f => assoc_set key f m | None => m end
  else m.

(** src: tool/py/benchmark_common.py:384-402 parse_plug_agente_stack_metrics *)
Definition stack_row (m : metrics) (row : json) : res metrics :=
  match row with
  | JObj _ =>
      scenario ← jget_or_null "scenario" row;
      variant ← jget_or_null "variant" row;
      match scenario, variant with
      | JStr scenario, JStr variant =>
          fold_res (λ m key, v ← jget_or_null key row; set_number (scenario +:+ "." +:+ variant +:+ "." +:+ key) v m)
            ["median_us"; "p95_us"; "speedup"; "rows_per_sec"] m
      | _, _ => Ok m
      end
  | _ => Ok m
  end.

(** src: tool/py/benchmark_common.py:375-435 parse_plug_agente_stack_metrics *)
Definition stack_line (m : metrics) (line : string) : res metrics :=
  let candidate := strip_shell_log_prefix line in
  if startswith candidate ("{" +:+ dq +:+ "benchmark" +:+ dq +:+ ":" +:+ dq +:+ "plug_agente_stack" +:+ dq) then
    match loads candidate with
    | Ok payload => rows ← jget_default "rows" (JArr []) payload; rows ← items_of rows; fold_res stack_row rows m
    | Raise JSONDecodeError => Ok m
    | Raise e => Raise e
    end
  else if negb (startswith candidate "|") || startswith candidate "| ---" then Ok m
  else if contains (py_lower candidate) "scenario |" then Ok m
  else
    let parts := table_cells candidate in
    if (length parts <? 4)%nat then Ok m
    else
      let prefix := cell parts 0 +:+ "." +:+ cell parts 1 in
      Ok (set_cell parts 6 (prefix +:+ ".rows_per_sec") (set_cell parts 5 (prefix +:+ ".speedup")
         (set_cell parts 4 (prefix +:+ ".p95_us") (set_cell parts 3 (prefix +:+ ".median_us") m)))).

(** src: tool/py/benchmark_common.py:371-437 parse_plug_agente_stack_metrics *)
Definition parse_plug_agente_stack_metrics (output : string) : res metrics :=
  fold_res stack_line (splitlines output) [].

(** src: tool/py/benchmark_common.py:447-455 parse_gateway_encoding_metrics *)
Definition gateway_scenario (m : metrics) (scenario : json) : res metrics :=
  match scenario with
  | JObj _ =>
      name ← jget_or_null "scenario" scenario;
      median ← jget_or_null "median_us" scenario;
      match name with
      | JStr name =>
          if is_number median then
            m ← set_number ("median_us_" +:+ name) median m;
            fold_res (λ m key, v ← jget_or_null key scenario; set_number (name +:+ "." +:+ key) v m)
              ["rows"; "iterations"] m
          else Ok m
      | _ => Ok m
      end
  | _ => Ok m
  end.

(** src: tool/py/benchmark_common.py:440-456 parse_gateway_encoding_metrics *)
Definition parse_gateway_encoding_metrics (output : string) : res metrics :=
  payload ← extract_json_object_from_output output;
  match payload with
  | None => Ok []
  | Some d =>
      l ← jget_default "scenarios" (JArr []) (JObj d);
      l ← items_of l;
      fold_res gateway_scenario l []
  end.

(** ** Native ODBC reports *)

(** src: tool/py/benchmark_common.py:471-479 parse_odbc_benchmark_metrics *)
Definition ODBC_PATTERNS : list (string * regex) :=
  [("wall_ms", seqs [alts [lit_i "wall"; lit_i "total"]; spaces; opt (lit_i "time"); spaces; anyc ":="; spaces;
                     number 1; spaces; lit_i "ms"]);
   ("ops_per_sec", seqs [number 1; plus space; lit_i "ops/s"]);
   ("rows_per_sec", seqs [number 1; plus space; lit_i "rows/s"]);
   ("throughput_mbps", seqs [number 1; plus space; lit_i "MB/s"]);
   ("p50_ms", seqs [lit_i "p50"; spaces; anyc ":="; spaces; number 1; spaces; lit_i "ms"]);
   ("p95_ms", seqs [lit_i "p95"; spaces; anyc ":="; spaces; number 1; spaces; lit_i "ms"]);
   ("p99_ms", seqs [lit_i "p99"; spaces; anyc ":="; spaces; number 1; spaces; lit_i "ms"])].

(** src: tool/py/benchmark_common.py:481-487 parse_odbc_benchmark_metrics
    The mean of the values of one pattern, and their maximum when there are several. *)
Definition pattern_metrics (output : string) (m : metrics) (p : string * regex) : res metrics :=
  values ← res_map float_of_str (re_findall1 (snd p) output);
  match values with
  | [] => Ok m
  | v :: vs =>
      n ← float_of_int (Z.of_nat (length values));
      mean ← div_float (sum_floats values) n;
      let m := assoc_set (fst p) mean m in
      Ok (if (1 <? length values)%nat then assoc_set (fst p +:+ "_max") (foldl fmax v vs) m else m)
  end.

(** [isinstance(value, (int, float)) and not isinstance(value, bool)] *)
Definition set_measure (key : string) (value : json) (m : metrics) : res metrics :=
  if is_bool value then Ok m else set_number key value m.

(** src: tool/py/benchmark_common.py:491-495 parse_odbc_benchmark_metrics
    Every measure of a scenario, by the scenario's name. *)
Definition scenario_metrics (m : metrics) (scenario : json) : res metrics :=
  name ← jget_or_null "scenario" scenario;
  match name, scenario with
  | JStr name, JObj d => fold_res (λ m kv, set_measure (name +:+ "." +:+ fst kv) (snd kv) m) d m
  | _, _ => Ok m
  end.

(** src: tool/py/benchmark_common.py:503-503 parse_odbc_benchmark_metrics *)
Definition LOG_FIELDS : list (string * string) :=
  [("workers", "workers"); ("poolSize", "pool_size"); ("maxInFlight", "max_in_flight");
   ("units", "units"); ("routed", "routed"); ("timeouts", "timeouts")].

(** [payload and payload.get("benchmark") == name] *)
Definition report_of (payload : option (list (string * json))) (name : string) : option (list (string * json)) :=
  d ← payload;
  if negb (bool_decide (d = [])) && jeq (default JNull (assoc "benchmark" d)) (JStr name) then Some d else None.

Section metrics.
Context `{Host}.

(** src: tool/py/benchmark_common.py:331-351 parse_transport_json_metrics *)
Definition transport_result (path : string) (m : metrics) (result : json) : res metrics :=
  match result with
  | JObj d =>
      let field k dflt := str_of (default (JStr dflt) (assoc k d)) in
      let signed := truthy (default JNull (assoc "signed" d)) in
      let prefix := field "case" "unknown" +:+ "." +:+ path +:+ "." +:+ field "requested_compression" "unknown" +:+
                    ".signed_" +:+ py_bool signed in
      fold_res (λ m key, set_number (prefix +:+ "." +:+ key) (default JNull (assoc key d)) m)
        ["send_p50_us"; "send_p95_us"; "send_p99_us"; "receive_p50_us"; "receive_p95_us"; "receive_p99_us";
         "isolate_operations"; "wire_bytes"; "original_bytes"; "bytes_saved"] m
  | _ => Ok m
  end.

(** src: tool/py/benchmark_common.py:327-352 parse_transport_json_metrics *)
Definition parse_transport_json_metrics (payload : json) : res metrics :=
  path ← jget_default "path" (JStr "unknown") payload;
  results ← jget_default "results" (JArr []) payload;
  results ← items_of results;
  fold_res (transport_result (str_of path)) results [].

(** src: tool/py/benchmark_common.py:499-506 parse_odbc_benchmark_metrics
    The metrics of one scenario of the log lines. *)
Definition async_log_metrics (lines : list string) (m : metrics) (s : AsyncBenchmarkScenario) : res metrics :=
  let prefix := str_of (a_label s) +:+ "." +:+ str_of (encoding s) in
  let m := assoc_set (prefix +:+ ".elapsed_ms") (duration_ms s) m in
  f ← float_of_int (fallbacks s);
  let m := assoc_set (prefix +:+ ".fallbacks") f m in
  line ← match a_label s, lines with
         | _, [] => Ok EmptyString
         | JStr label, _ =>
             Ok (default EmptyString (List.find (λ l, startswith l (label +:+ ":")) (strip_shell_log_prefix <$> lines)))
         | _, _ => Raise (TypeError "unsupported operand type(s) for +")
         end;
  fold_res (λ m st, match re_search (seqs [RWordB; lit (fst st +:+ "="); RGroup 1 (plus digit)]) line with
                    | Some mo => v ← float_of_str (group_str 1 mo); Ok (assoc_set (prefix +:+ "." +:+ snd st) v m)
                    | None => Ok m
                    end) LOG_FIELDS m.

(** src: tool/py/benchmark_common.py:469-507 parse_odbc_benchmark_metrics *)
Definition parse_odbc_benchmark_metrics (output : string) : res metrics :=
  m ← fold_res (pattern_metrics output) ODBC_PATTERNS [];
  payload ← extract_json_object_from_output output;
  match report_of payload "native_odbc_async" with
  | Some d =>
      l ← jget_default "scenarios" (JArr []) (JObj d);
      l ← items_of l;
      fold_res scenario_metrics l m
  | None =>
      scenarios ← parse_async_benchmark_scenarios output;
      fold_res (async_log_metrics (splitlines output)) scenarios m
  end.
End metrics.

(** src: tool/py/benchmark_common.py:522-528 parse_odbc_streaming_benchmark_metrics *)
Definition streaming_match (m : metrics) (mo : match_obj) : res metrics :=
  let label := group_str 1 mo in
  fold_res (λ m kn, f ← float_of_str (group_str (snd kn) mo); Ok (assoc_set (label +:+ "." +:+ fst kn) f m))
    [("elapsed_ms", 2%nat); ("rows", 3%nat); ("chunks", 4%nat); ("rows_per_second", 5%nat);
     ("fetch_size", 6%nat); ("chunk_size", 7%nat)] m.

(** src: tool/py/benchmark_common.py:510-529 parse_odbc_streaming_benchmark_metrics *)
Definition parse_odbc_streaming_benchmark_metrics (output : string) : res metrics :=
  payload ← extract_json_object_from_output output;
  match report_of payload "native_odbc_streaming" with
  | Some d =>
      l ← jget_default "scenarios" (JArr []) (JObj d);
      l ← items_of l;
      fold_res scenario_metrics l []
  | None => fold_res streaming_match (re_finditer STREAMING_BENCHMARK_RESULT_RE output) []
  end.

(** ** Complete native reports *)

(** [if b: return False] *)
Definition refuse (b : bool) (k : res bool) : res bool := if b then Ok false else k.

(** src: tool/py/benchmark_common.py:539-541 valid_native_benchmark_report *)
Definition expected_scenarios (mode : string) : list string :=
  if mode == "streaming" then ["streamQueryBuffer"; "streamQueryBatched"]
  else ["workerCount=1"; "workerCount=4"; "workerCount=4 columnar"; "workerCount=4 columnar compressed";
        "native pool"; "prepared reuse"].

Definition is_obj (v : json) : bool := match v with JObj _ => true | _ => false end.

(** src: tool/py/benchmark_common.py:545-545 valid_native_benchmark_report
    [{row.get('scenario') for row in rows} == expected] *)
Definition same_names (rows : list json) (expected : list string) : res bool :=
  names ← res_map (jget_or_null "scenario") rows;
  _ ← for_each hashable names;
  Ok (forallb (λ n, existsb (λ e, jeq n (JStr e)) expected) names &&
      forallb (λ e, existsb (λ n, jeq n (JStr e)) names) expected).

Definition as_text (v : json) : res string :=
  match v with JStr s => Ok s | _ => Raise (AttributeError "endswith") end.

(** src: tool/py/benchmark_common.py:558-558 valid_native_benchmark_report *)
Definition expected_encoding (scenario : string) : string :=
  if endswith scenario "compressed" then "columnarCompressed"
  else if endswith scenario "columnar" then "columnar" else "rowMajor".

(** [sample.get(key) != value] *)
Definition differs (sample : json) (key : string) (value : json) : res bool :=
  v ← jget_or_null key sample; Ok (negb (jeq v value)).

(** [a or b] of tests that may raise. *)
Definition or_test (a b : res bool) : res bool := x ← a; if (x : bool) then Ok true else b.

(** [sample.get(key, 0) <= 0] *)
Definition unset (sample : json) (key : string) : res bool := v ← jget_default key (JInt 0) sample; nonpositive v.

(** src: tool/py/benchmark_common.py:552-562 valid_native_benchmark_report
    Whether a row or one of its samples is refused. *)
Definition bad_sample (mode : string) (row sample : json) : res bool :=
  or_test (Ok (negb (is_obj sample)))
  (or_test (differs sample "rows" (JInt 8000))
  (elapsed ← jget_or_null "elapsed_ms" sample;
   or_test (Ok (negb (is_number elapsed)))
   (or_test (f ← isfinite_json elapsed; Ok (negb f))
   (or_test (nonpositive elapsed)
   (scenario ← jitem "scenario" row;
    if mode == "async" then
      name ← as_text scenario;
      or_test (differs sample "timeouts" (JInt 0))
      (or_test (differs sample "fallbacks" (JInt 0))
      (or_test (differs sample "encoding" (JStr (expected_encoding name)))
       (differs sample "actual_encoding" (JStr (expected_encoding name)))))
    else
      chunks ← jget_or_null "chunks" sample;
      or_test (Ok (negb (is_int chunks)))
      (or_test (nonpositive chunks)
      (or_test (unset sample "chunk_size")
       (if jeq scenario (JStr "streamQueryBatched") then unset sample "fetch_size" else Ok false)))))))).

(** [all(not bad(x) for x in l)], stopping at the first that is. *)
Fixpoint none_bad {A} (bad : A → res bool) (l : list A) : res bool :=
  match l with
  | [] => Ok true
  | x :: l => b ← bad x; if (b : bool) then Ok false else none_bad bad l
  end.

(** src: tool/py/benchmark_common.py:548-562 valid_native_benchmark_report *)
Definition good_row (mode : string) (repeats : json) (row : json) : res bool :=
  samples ← jget_or_null "samples" row;
  match samples with
  | JArr l => refuse (negb (jeq (JInt (Z.of_nat (length l))) repeats)) (none_bad (bad_sample mode row) (row :: l))
  | _ => Ok false
  end.

(** src: tool/py/benchmark_common.py:532-563 valid_native_benchmark_report *)
Definition valid_native_benchmark_report (output mode : string) : res bool :=
  payload ← extract_json_object_from_output output;
  match payload with
  | None => Ok false
  | Some d =>
      let has k v := jeq (default JNull (assoc k d)) v in
      refuse (bool_decide (d = []) || negb (has "benchmark" (JStr ("native_odbc_" +:+ mode))) ||
              negb (has "harness_version" (JInt 2)))
      (let repeats := default JNull (assoc "repeats" d) in
       refuse (negb (has "workload" (JStr "deterministic_8000_rows_v1")) || negb (has "rows" (JInt 8000)) ||
               negb (has "warmup" (JInt 1)) || negb (jeq repeats (JInt 3) || jeq repeats (JInt 9)))
       match default (JArr []) (assoc "scenarios" d) with
       | JArr rows =>
           refuse (existsb (negb ∘ is_obj) rows)
           (refuse (negb (length rows =? length (expected_scenarios mode))%nat)
            (same ← same_names rows (expected_scenarios mode);
             refuse (negb same) (none_bad (λ row, g ← good_row mode repeats row; Ok (negb g)) rows)))
       | _ => Ok false
       end)
  end.

(** ** Lemmas on tests *)

Lemma refuse_true b k : refuse b k = Ok true ↔ b = false ∧ k = Ok true.
Proof. destruct b; simpl; naive_solver. Qed.

Lemma or_test_false a b : or_test a b = Ok false ↔ a = Ok false ∧ b = Ok false.
Proof. destruct a as [[]|]; simpl; naive_solver. Qed.

Lemma none_bad_true {A} (bad : A → res bool) l : none_bad bad l = Ok true ↔ Forall (λ x, bad x = Ok false) l.
Proof.
  induction l as [|x l IH]; simpl; [by split|]. rewrite Forall_cons, <- IH.
  destruct (bad x) as [[]|]; simpl; naive_solver.
Qed.

(** [test ≫= λ g, Ok (negb g)] *)
Lemma negb_test (t : res bool) : (g ← t; Ok (negb g)) = Ok false ↔ t = Ok true.
Proof. destruct t as [[]|]; simpl; naive_solver. Qed.

Lemma differs_false sample key v : differs sample key v = Ok false →
  ∃ x, jget_or_null key sample = Ok x ∧ jeq x v = true.
Proof.
  unfold differs. intros Hd. inv_res. eexists. split; [done|].
  match goal with Hn : negb _ = false |- _ => by apply negb_false_iff in Hn end.
Qed.

(** ** What a valid report promises *)

(** A sample of a valid report: 8000 rows in a finite and positive time, and
    in an asynchronous run no timeout, no fallback and the encoding that the
    scenario's name asks for, requested and actual. *)
Record sound_sample (mode : string) (row sample : json) : Prop := SoundSample {
  sample_rows : ∃ x, jget_or_null "rows" sample = Ok x ∧ jeq x (JInt 8000) = true;
  sample_elapsed : ∃ e, jget_or_null "elapsed_ms" sample = Ok e ∧ isfinite_json e = Ok true ∧
    nonpositive e = Ok false;
  sample_async : mode = "async" → ∃ name, jitem "scenario" row = Ok (JStr name) ∧
    Forall (λ kv : string * json, ∃ x, jget_or_null (fst kv) sample = Ok x ∧ jeq x (snd kv) = true)
      [("timeouts", JInt 0); ("fallbacks", JInt 0); ("encoding", JStr (expected_encoding name));
       ("actual_encoding", JStr (expected_encoding name))]
}.

Lemma bad_sample_false mode row sample : bad_sample mode row sample = Ok false → sound_sample mode row sample.
Proof.
  unfold bad_sample. rewrite !or_test_false. intros (_ & Hr & Hb). apply res_bind_Ok in Hb as (e & He & Hb).
  rewrite !or_test_false in Hb. destruct Hb as (_ & Hfin & Hpos & Hb). rewrite negb_test in Hfin.
  apply differs_false in Hr. constructor; [done|by exists e|].
  intros ->. apply res_bind_Ok in Hb as (sc & Hsc & Hb). simpl in Hb. apply res_bind_Ok in Hb as (name & Hn & Hb).
  rewrite !or_test_false in Hb. destruct Hb as (H1 & H2 & H3 & H4).
  destruct sc; try discriminate Hn. injection Hn as <-. exists s. split; [done|].
  repeat constructor; by apply differs_false.
Qed.

Lemma jget_obj k d : jget_or_null k (JObj d) = Ok (default JNull (assoc k d)).
Proof. done. Qed.

Lemma jget_JStr k v s : jget_or_null k v = Ok (JStr s) → ∃ d, v = JObj d ∧ assoc k d = Some (JStr s).
Proof.
  unfold jget_or_null, jget. destruct v as [| | | | | |d]; intros Hg; try discriminate Hg.
  simpl in Hg. exists d. split; [done|]. destruct (assoc k d) as [x|]; simpl in Hg; congruence.
Qed.

(** Equality of numbers through a JSON value. *)
Lemma jeq_count (n k : Z) r : jeq (JInt n) r = true → jeq r (JInt k) = true → n = k.
Proof.
  intros Hn Hr. destruct r as [|b|z|f|s|l|l]; simpl in *; try done; rewrite ?Z.eqb_eq in *; try lia.
  unfold int_float_eq in *. destruct (f_to_Z f); [|done]. rewrite ?Z.eqb_eq in *. lia.
Qed.

(** A row of a valid report with its [n] samples. *)
Definition sound_row (mode : string) (n : nat) (row : json) : Prop :=
  ∃ samples, jget_or_null "samples" row = Ok (JArr samples) ∧ length samples = n ∧
             Forall (sound_sample mode row) (row :: samples).

Lemma good_row_sound mode r k row : good_row mode r row = Ok true → jeq r (JInt (Z.of_nat k)) = true →
  sound_row mode k row.
Proof.
  unfold good_row. intros Hg Hr. inv_res. destruct a as [| | | | |l|]; try discriminate Hg.
  apply refuse_true in Hg as [Hlen%negb_false_iff Hall]. apply none_bad_true in Hall.
  exists l. split_and!; [done|pose proof (jeq_count _ _ _ Hlen Hr); lia|].
  eapply Forall_impl; [exact Hall|apply bad_sample_false].
Qed.

Lemma existsb_elem {A} (f : A → bool) l : existsb f l = true ↔ ∃ x, x ∈ l ∧ f x = true.
Proof.
  rewrite existsb_exists. split; intros (x & Hx & Hf); exists x; (split; [|done]); by apply list_elem_of_In.
Qed.

Lemma same_names_true rows expected : same_names rows expected = Ok true →
  Forall (λ e, ∃ d, JObj d ∈ rows ∧ assoc "scenario" d = Some (JStr e)) expected.
Proof.
  unfold same_names. intros Hs. apply res_bind_Ok in Hs as (names & H & Hs). apply res_map_Ok in H.
  apply res_bind_Ok in Hs as ([] & _ & Hs). apply (inj Ok) in Hs. apply andb_prop in Hs as [_ He]. apply Forall_forall. intros e Hin.
  rewrite forallb_forall in He. specialize (He e (proj1 (list_elem_of_In _ _) Hin)).
  apply existsb_elem in He as (v & Hv & ->%jeq_str).
  apply list_elem_of_lookup in Hv as (i & Hi). destruct (Forall2_lookup_r _ _ _ _ _ H Hi) as (row & Hrow & Hg).
  apply jget_JStr in Hg as (d & -> & Hd). exists d. split; [|done]. by eapply list_elem_of_lookup_2.
Qed.

(** The rows of an accepted report and their number of repetitions. *)
Lemma valid_report_rows output mode : valid_native_benchmark_report output mode = Ok true →
  ∃ d rows, extract_json_object_from_output output = Ok (Some d) ∧
    assoc "scenarios" d = Some (JArr rows) ∧ length rows = length (expected_scenarios mode) ∧
    Forall (λ e, ∃ d, JObj d ∈ rows ∧ assoc "scenario" d = Some (JStr e)) (expected_scenarios mode) ∧
    jeq (default JNull (assoc "repeats" d)) (JInt 3) || jeq (default JNull (assoc "repeats" d)) (JInt 9) = true ∧
    ∀ k, jeq (default JNull (assoc "repeats" d)) (JInt (Z.of_nat k)) = true → Forall (sound_row mode k) rows.
Proof.
  unfold valid_native_benchmark_report. intros Hvalid. inv_res. destruct a as [d|]; [|discriminate Hvalid].
  apply refuse_true in Hvalid as [_ Hvalid]. apply refuse_true in Hvalid as [Hrep Hvalid].
  apply orb_false_elim in Hrep as [_ Hrep]. apply negb_false_iff in Hrep.
  destruct (assoc "scenarios" d) as [v|] eqn:Esc; simpl in Hvalid.
  2: { exfalso. revert Hvalid. unfold expected_scenarios. by destruct (mode == "streaming"). }
  destruct v as [| | | | |rows|]; try discriminate Hvalid.
  apply refuse_true in Hvalid as [_ Hvalid]. apply refuse_true in Hvalid as [Hlen Hvalid].
  apply negb_false_iff, Nat.eqb_eq in Hlen. inv_res.
  apply refuse_true in Hvalid as [Hsame Hvalid]. apply negb_false_iff in Hsame. subst.
  apply none_bad_true in Hvalid. exists d, rows. split_and!; try done; [by apply same_names_true|].
  intros k Hk. eapply Forall_impl; [exact Hvalid|]. intros row Hrow%negb_test. by eapply good_row_sound.
Qed.

(** A native report that is accepted is complete: every scenario of the mode
    is there exactly once, and each is backed by the same number of samples,
    three or nine, of 8000 rows each, measured in a finite and positive time
    without timeouts, fallbacks or a change of encoding. *)
Theorem valid_report_sound (output mode : string) (Hvalid : valid_native_benchmark_report output mode = Ok true) :
  ∃ d rows, extract_json_object_from_output output = Ok (Some d) ∧
    assoc "scenarios" d = Some (JArr rows) ∧ length rows = length (expected_scenarios mode) ∧
    Forall (λ e, ∃ d, JObj d ∈ rows ∧ assoc "scenario" d = Some (JStr e)) (expected_scenarios mode) ∧
    (Forall (sound_row mode 3) rows ∨ Forall (sound_row mode 9) rows).
Proof.
  destruct (valid_report_rows _ _ Hvalid) as (d & rows & Hd & Hs & Hl & Hn & Hr & Hk).
  exists d, rows. split_and!; try done. apply orb_true_iff in Hr as [Hr|Hr]; [left|right]; by apply Hk.
Qed.

(** A complete streaming report. *)
Definition example_measures : list (string * json) :=
  [("rows", JInt 8000); ("elapsed_ms", JInt 12); ("chunks", JInt 2); ("chunk_size", JInt 65536); ("fetch_size", JInt 1000)].
Definition example_row (name : string) : json :=
  JObj (("scenario", JStr name) :: ("samples", JArr (replicate 3 (JObj example_measures))) :: example_measures).
Definition example_report : string :=
  "Running" +:+ nl +:+ "Shell: " +:+ default EmptyString (render false ", " ": " (JObj
    [("benchmark", JStr "native_odbc_streaming"); ("harness_version", JInt 2); ("repeats", JInt 3);
     ("workload", JStr "deterministic_8000_rows_v1"); ("rows", JInt 8000); ("warmup", JInt 1);
     ("scenarios", JArr [example_row "streamQueryBatched"; example_row "streamQueryBuffer"])])).

Theorem valid_report_sound_witness :
  ∃ d rows, extract_json_object_from_output example_report = Ok (Some d) ∧
    assoc "scenarios" d = Some (JArr rows) ∧ length rows = length (expected_scenarios "streaming") ∧
    Forall (λ e, ∃ d, JObj d ∈ rows ∧ assoc "scenario" d = Some (JStr e)) (expected_scenarios "streaming") ∧
    (Forall (sound_row "streaming" 3) rows ∨ Forall (sound_row "streaming" 9) rows).
Proof. apply (valid_report_sound example_report "streaming"). vm_compute. reflexivity. Defined.

Definition transport_table : string := join nl [
  "| case | path | mode | signed | a | b | c | d | send p50/p95/p99 | receive | ops |";
  "| --- | --- |";
  "| small | p | gzip | TRUE | 1 | 2 | 3 | 4 | 1.5ms / 20us / 3 | 7us/8us/9us | 12 |"].
Example transport_metrics :
  parse_transport_markdown_metrics transport_table = Ok
    [("small.p.gzip.signed_True.send_p50_us", f_lit "1500"); ("small.p.gzip.signed_True.send_p95_us", f_lit "20");
     ("small.p.gzip.signed_True.send_p99_us", f_lit "3000"); ("small.p.gzip.signed_True.receive_p50_us", f_lit "7");
     ("small.p.gzip.signed_True.receive_p95_us", f_lit "8"); ("small.p.gzip.signed_True.receive_p99_us", f_lit "9");
     ("small.p.gzip.signed_True.isolate_operations", f_lit "12")].
Proof. vm_compute. reflexivity. Qed.

Example stack_metrics :
  parse_plug_agente_stack_metrics ("| a | b | 10 | 1,250.5 | - | x | 9 |" +:+ nl +:+ "| scenario | b | c | d |") =
    Ok [("a.b.median_us", f_lit "1250.5"); ("a.b.rows_per_sec", f_lit "9")].
Proof. vm_compute. reflexivity. Qed.

Example odbc_metrics :
  parse_odbc_benchmark_metrics (H:=idle_host)
    ("Total time: 10 ms" +:+ nl +:+ "wall=20ms; 300 rows/s" +:+ nl +:+
     "workerCount=1: 20 ms, workers=1, encoding=rowMajor, fallbacks=0") =
  Ok [("wall_ms", f_lit "15"); ("wall_ms_max", f_lit "20"); ("rows_per_sec", f_lit "300");
      ("workerCount=1.rowMajor.elapsed_ms", f_lit "20"); ("workerCount=1.rowMajor.fallbacks", f_zero);
      ("workerCount=1.rowMajor.workers", f_lit "1")].
Proof. vm_compute. reflexivity. Qed.

Example streaming_metrics :
  parse_odbc_streaming_benchmark_metrics
    "streamQueryBuffer: 10.5 ms, rows=8000, chunks=2, rowsPerSecond=761904.7, fetchSize=1000, chunkSize=65536" =
  Ok [("streamQueryBuffer.elapsed_ms", f_lit "10.5"); ("streamQueryBuffer.rows", f_lit "8000");
      ("streamQueryBuffer.chunks", f_lit "2"); ("streamQueryBuffer.rows_per_second", f_lit "761904.7");
      ("streamQueryBuffer.fetch_size", f_lit "1000"); ("streamQueryBuffer.chunk_size", f_lit "65536")].
Proof. vm_compute. reflexivity. Qed.
