(* ===== verification/BenchmarkSummary.v ===== *)
(** * Benchmark summaries (tool/py/benchmark_common.py, second part)

    A run leaves a summary: the machine, the sources and the metrics of its
    suites. This file models what makes two summaries comparable, which metrics
    of a summary count, how a metric is classified, and the approval of a
    controlled comparison. *)

From S2P Require Import Prelude PyStr PyRe PyFloat PyHash PyJson PyNum PyLib Effects ScriptUtils BenchmarkMetrics.

Local Open Scope Z_scope.

(** ** Classes of metrics *)

Record metadata : Type := Metadata { category : string; unit_name : string; direction : string }.

Definition any_token (tokens : list string) (s : string) : bool := existsb (contains s) tokens.
Definition ends_in (suffixes : list string) (s : string) : bool := existsb (endswith s) suffixes.

(** src: tool/py/benchmark_common.py:663-676 metric_metadata *)
Definition metric_metadata (key : string) : metadata :=
  let lower := py_lower key in
  if lower == "wall_ms" then Metadata "configuration" "ms" "none"
  else if ends_in ["_us"; "_ms"] lower || contains lower "median_us_" then
    Metadata "latency" (if contains lower "_us" then "us" else "ms") "lower"
  else if any_token ["rows_per_sec"; "queries_per_sec"; "ops_per_sec"; "throughput"; "speedup"] lower then
    Metadata "throughput" (if contains lower "speedup" then "ratio"
                           else if contains lower "queries_per_sec" then "queries/s"
                           else if contains lower "rows_per_sec" then "rows/s" else "ops/s") "higher"
  else if any_token ["heap_growth"; "rss_peak"] lower then Metadata "memory" "bytes" "lower"
  else
    Metadata (if any_token ["errors"; "timeouts"; "fallbacks"; "chunks"; "routed"; "completed_requests"; "failed_requests"] lower
              then "counter" else "configuration")
             (if endswith lower "_bytes" || contains lower "chunk_size" then "bytes"
              else if endswith lower ".rows" || (lower == "rows") || contains lower "fetch_size" then "rows"
              else "count") "none".

(** src: tool/py/benchmark_common.py:647-660 metric_lower_is_better *)
Definition metric_lower_is_better (metric_key : string) : bool :=
  if direction (metric_metadata metric_key) == "higher" then false
  else
    let lower := py_lower metric_key in
    if ends_in ["_ms"; "_us"] lower || any_token ["latency"; "duration"; "median_us"; "p50"; "p95"; "p99"] lower then true
    else if any_token ["rows_per_sec"; "ops_per_sec"; "throughput"; "ops/s"; "rows/s"; "speedup"] lower then false
    else true.

(** ** Comparable suites *)

(** The suites of a summary that have an id, by that id; the last one counts. *)
Definition suites_of (summary : json) : res (list json) := v ← jget_default "suites" (JArr []) summary; items_of v.

Definition suite_id (suite : json) : option string :=
  match suite with
  | JObj d => match assoc "id" d with Some (JStr id) => Some id | _ => None end
  | _ => None
  end.

(** src: tool/py/benchmark_common.py:586-591 suites_by_id *)
Definition suites_by_id (summary : json) : res (list (string * json)) :=
  l ← suites_of summary;
  Ok (dict_of (omap (λ s, id ← suite_id s; Some (id, s)) l)).

(** src: tool/py/benchmark_common.py:593-602 comparison_identity
    The non-empty texts of the comparison identity, when there are any. *)
Definition comparison_identity (suite : json) : option (list (string * json)) :=
  match suite with
  | JObj d =>
      match assoc "comparison_identity" d with
      | Some (JObj raw) =>
          match List.filter (λ kv, match snd kv with JStr s => nonempty s | _ => false end) raw with
          | [] => None
          | texts => Some texts
          end
      | _ => None
      end
  | _ => None
  end.

(** src: tool/py/benchmark_common.py:608-615 incompatible_benchmark_suite_reasons
    Why two suites with the same id cannot be compared. *)
Definition incompatible (same_machine : bool) (baseline current : json) : option string :=
  match comparison_identity baseline, comparison_identity current with
  | Some b, Some c =>
      if negb (jeq (JObj b) (JObj c)) then Some "comparison identity differs"
      else if negb same_machine then Some "machine or SDK differs" else None
  | _, _ => Some "missing comparison identity"
  end.

(** src: tool/py/benchmark_common.py:575-616 incompatible_benchmark_suite_reasons *)
Definition incompatible_benchmark_suite_reasons (baseline_summary current_summary : json) :
    res (list (string * string)) :=
  baseline_suites ← suites_by_id baseline_summary;
  current_suites ← suites_by_id current_summary;
  bm ← jget_or_null "machine" baseline_summary;
  cm ← jget_or_null "machine" current_summary;
  Ok (omap (λ kv, c ← assoc (fst kv) current_suites;
                  reason ← incompatible (jeq bm cm) (snd kv) c;
                  Some (fst kv, reason)) (sort_keys baseline_suites)).

(** ** Flattened metrics *)

Definition counted : list string := ["latency"; "throughput"; "memory"].

(** src: tool/py/benchmark_common.py:641-642 flatten_suite_metrics
    [{"category": ...}.get("category") in {...}] of a given metadata value, or
    of the one the key implies. *)
Definition counts (given : option json) (key : string) : res bool :=
  match given with
  | None => Ok (one_of (category (metric_metadata key)) counted)
  | Some v =>
      c ← jget_or_null "category" v;
      _ ← hashable c;
      Ok (existsb (λ k, jeq c (JStr k)) counted)
  end.

Section summary.
Context `{Host}.

(** src: tool/py/benchmark_common.py:638-643 flatten_suite_metrics *)
Definition flatten_metric (suite : json) (id : string) (m : metrics) (kv : string * json) : res metrics :=
  let '(key, value) := kv in
  if is_bool value || negb (is_number value) then Ok m
  else
    given ← jget_default "metric_metadata" (JObj []) suite;
    given ← jget key given;
    c ← counts given key;
    if negb (c : bool) then Ok m
    else
      finite ← isfinite_json value;
      if (finite : bool) then f ← float_of_json value; Ok (assoc_set (id +:+ "." +:+ key) f m) else Ok m.

(** src: tool/py/benchmark_common.py:629-629 flatten_suite_metrics *)
Definition suite_name (d : list (string * json)) : string := str_of (default (JStr "unknown") (assoc "id" d)).

(** src: tool/py/benchmark_common.py:627-643 flatten_suite_metrics *)
Definition flatten_suite (excluded : list string) (m : metrics) (suite : json) : res metrics :=
  match suite with
  | JObj d =>
      if one_of (suite_name d) excluded then Ok m
      else if negb (jeq (default (JStr "pass") (assoc "status" d)) (JStr "pass")) then Ok m
      else match assoc "metrics" d with
           | Some (JObj ms) => fold_res (flatten_metric suite (suite_name d)) ms m
           | _ => Ok m
           end
  | _ => Ok m
  end.

(** src: tool/py/benchmark_common.py:619-644 flatten_suite_metrics *)
Definition flatten_suite_metrics (summary : json) (excluded_suite_ids : list string) : res metrics :=
  l ← suites_of summary; fold_res (flatten_suite excluded_suite_ids) l [].
End summary.

(** ** Controlled comparisons *)

Definition CASES : list string := ["small_sql_repetitive"; "large_sql_low_compressibility"; "large_incompressible_blob"].

(** src: tool/py/benchmark_common.py:687-688 approved_controlled_comparison
    The rows a comparison must have, as case, compression and signed. *)
Definition expected_rows : list (json * json * json) :=
  case ← CASES; mode ← ["none"; "auto"; "gzip"]; signed ← [false; true];
  [(JStr case, JStr mode, JBool signed)].

Definition row_eq (a b : json * json * json) : bool :=
  let '(a1, a2, a3) := a in let '(b1, b2, b3) := b in jeq a1 b1 && jeq a2 b2 && jeq a3 b3.

(** src: tool/py/benchmark_common.py:695-695 approved_controlled_comparison *)
Definition row_key (row : json) : res (json * json * json) :=
  c ← jitem "case" row; m ← jitem "compression" row; s ← jitem "signed" row;
  _ ← hashable c; _ ← hashable m; _ ← hashable s; Ok (c, m, s).

(** [len(v)] *)
Definition json_len (v : json) : res nat :=
  match v with
  | JArr l => Ok (length l)
  | JObj l => Ok (length l)
  | JStr s => Ok (String.length s)
  | _ => Raise (TypeError "object has no len()")
  end.

(** src: tool/py/benchmark_common.py:702-702 approved_controlled_comparison
    A value that [isinstance(v, (int, float))], finite and not negative. *)
Definition bad_value (v : json) : res bool :=
  if is_bool v || negb (is_number v) then Ok true
  else f ← isfinite_json v; if negb f then Ok true else json_lt v (JInt 0).

(** src: tool/py/benchmark_common.py:701-705 approved_controlled_comparison
    One metric against its limit [before * factor]. *)
Definition within (mf : json * float) : res bool :=
  let '(m, factor) := mf in
  before ← jitem "base" m;
  after ← jitem "candidate" m;
  bad ← or_test (bad_value before) (bad_value after);
  refuse bad
  (limit ← jitem "limit" m;
   limit ← real_of_json limit;
   b ← float_of_json before;
   if negb (isclose limit (fmul b factor)) then Ok false
   else over ← json_lt (JFloat (fmul b factor)) after; Ok (negb over)).

(** src: tool/py/benchmark_common.py:699-699 approved_controlled_comparison *)
Definition row_metrics (row : json) : res (list (json * float)) :=
  s ← jitem "send_p95_us" row; r ← jitem "receive_p95_us" row; Ok [(s, f_lit "1.05"); (r, f_lit "1.05")].

(** src: tool/py/benchmark_common.py:691-705 approved_controlled_comparison
    One of the sections control, forward and reverse. *)
Definition good_section (report : json) (name : string) : res bool :=
  section ← jitem name report;
  status ← jget_or_null "status" section;
  refuse (negb (jeq status (JStr "pass")))
  (failures ← jget_or_null "failures" section;
   refuse (negb (jeq failures (JArr [])))
   (pending ← jget_or_null "pending_metrics" section;
    refuse (negb (jeq pending (JArr [])))
    (heap ← jget_or_null "heap_gate_evaluated" section;
     refuse (negb (match heap with JBool true => true | _ => false end))
     (scenarios ← jitem "scenarios" section;
      n ← json_len scenarios;
      refuse (negb (n =? length expected_rows)%nat)
      (rows ← items_of scenarios;
       keys ← res_map row_key rows;
       refuse (negb (forallb (λ k, existsb (row_eq k) expected_rows) keys &&
                     forallb (λ e, existsb (row_eq e) keys) expected_rows))
       (ratio ← jitem "throughput_ratio" section;
        finite ← isfinite_json ratio;
        refuse (negb finite)
        (low ← json_lt ratio (JFloat (f_lit "0.85"));
         refuse low
         (heap_growth ← jitem "heap_growth_bytes" section;
          pairs ← res_map row_metrics rows;
          none_bad (λ mf, ok ← within mf; Ok (negb ok)) ((heap_growth, f_lit "1.1") :: concat pairs))))))))).

(** src: tool/py/benchmark_common.py:684-708 approved_controlled_comparison *)
Definition approved_controlled_comparison (report : json) : res bool :=
  status ← jget_or_null "status" report;
  refuse (negb (jeq status (JStr "pass")))
  (try_except (none_bad (λ name, g ← good_section report name; Ok (negb g)) ["control"; "forward"; "reverse"])
     (λ e, is_KeyError e || is_TypeError e || is_ValueError e || is_AttributeError e) (λ _, Ok false)).

(** ** Identity of the sources and the machine *)

(** src: tool/py/benchmark_common.py:19-19 SCHEMA_VERSION *)
Definition SCHEMA_VERSION : Z := 2.

(** src: tool/py/benchmark_common.py:27-36 SAFE_ENV_KEYS *)
Definition SAFE_ENV_KEYS : list string :=
  ["ODBC_POOL_SIZE"; "ODBC_ASYNC_WORKER_COUNT"; "ODBC_ASYNC_MAX_PENDING_REQUESTS"; "ODBC_STREAM_BENCH_FETCH_SIZE";
   "ODBC_STREAM_BENCH_CHUNK_SIZE"; "RUN_LIVE_API_TESTS"; "ODBC_E2E_DML_PERF_ROW_COUNT"; "ODBC_E2E_DML_BULK_ROW_COUNT"].

(** The header line of a package in the lock file. *)
Definition is_package_line (line : string) : bool :=
  startswith line "  " && negb (startswith line "    ") && endswith line ":".
Definition package_of (line : string) : string := removesuffix (strip line) ":".

(** src: tool/py/benchmark_common.py:126-129 collect_dependency_versions
    The state of the loop: the package the line belongs to and what was found. *)
Definition version_line (st : option string * list (string * string)) (line : string) :
    option string * list (string * string) :=
  let '(package, versions) := st in
  if is_package_line line then (Some (package_of line), versions)
  else match package with
       | Some p => if nonempty p && startswith line "    version:"
                   then (package, assoc_set p (strip_chars (dq +:+ "'") (strip (after ":" line))) versions)
                   else st
       | None => st
       end.

(** The loop of the provenance: the lines of the entry are collected until the
    next package or the end of the section. *)
Record prov : Type := Prov { p_package : option string; p_lines : list string; p_entries : list (string * string) }.

(** src: tool/py/benchmark_common.py:148-149 collect_dependency_provenance *)
Definition close_entry (st : prov) : list (string * string) :=
  match p_package st with
  | Some p => if nonempty p then assoc_set p (join nl (p_lines st)) (p_entries st) else p_entries st
  | None => p_entries st
  end.
Definition in_package (st : prov) : bool := match p_package st with Some p => nonempty p | None => false end.

(** src: tool/py/benchmark_common.py:139-147 collect_dependency_provenance *)
Definition provenance_line (st : prov) (line : string) : prov :=
  if is_package_line line then Prov (Some (package_of line)) [] (close_entry st)
  else if in_package st && startswith line "    " then
    Prov (p_package st) (p_lines st ++ [strip line]) (p_entries st)
  else if in_package st && nonempty line && negb (startswith line " ") then
    Prov None (p_lines st) (close_entry st)
  else st.

(** src: tool/py/benchmark_common.py:249-258 _resolve_locked_odbc_fast_version
    Lines up to the first that satisfies a test, and the search in the section. *)
Fixpoint locked_version (in_section : bool) (lines : list string) : option string :=
  match lines with
  | [] => None
  | line :: lines =>
      if startswith line "  odbc_fast:" then locked_version true lines
      else if in_section && startswith line "  " && negb (startswith line "    ") then None
      else if in_section && startswith (strip line) "version:" then
        Some (strip_chars "'" (strip_chars dq (strip (after ":" line))))
      else locked_version in_section lines
  end.

Section files.
Context `{Host}.

(** src: tool/py/benchmark_common.py:20-20 BENCHMARKS_DIR *)
Definition BENCHMARKS_DIR : string := PROJECT_ROOT // "benchmarks".
(** src: tool/py/benchmark_common.py:22-22 RESULTS_DIR *)
Definition RESULTS_DIR : string := BENCHMARKS_DIR // "results".

(** src: tool/py/benchmark_common.py:122-130 collect_dependency_versions *)
Definition collect_dependency_versions (root : string) : M (list (string * string)) :=
  text ← read_text (root // "pubspec.lock");
  mret (snd (foldl version_line (None, []) (splitlines text))).

(** src: tool/py/benchmark_common.py:133-150 collect_dependency_provenance *)
Definition collect_dependency_provenance (root : string) : M (list (string * string)) :=
  text ← read_text (root // "pubspec.lock");
  mret (close_entry (foldl provenance_line (Prov None [] []) (splitlines text))).

(** src: tool/py/benchmark_common.py:244-258 _resolve_locked_odbc_fast_version *)
Definition resolve_locked_odbc_fast_version : M (option string) :=
  let lockfile := PROJECT_ROOT // "pubspec.lock" in
  present ← is_file lockfile;
  if negb (present : bool) then mret None
  else text ← read_text lockfile; mret (locked_version false (splitlines text)).

(** src: tool/py/benchmark_common.py:168-178 odbc_dsn_configured *)
Definition odbc_dsn_configured (env : gmap string string) : bool :=
  existsb (λ k, nonempty (strip (default EmptyString (env !! k))))
    ["ODBC_TEST_DSN_SQL_SERVER"; "ODBC_DSN_SQL_SERVER"; "ODBC_TEST_DSN"; "ODBC_DSN"].

(** src: tool/py/benchmark_common.py:194-205 collect_env_flags
    The value of a setting that may be published. *)
Definition flag_value (value : string) : json :=
  if one_of (py_lower value) ["true"; "false"] then JBool (py_lower value == "true")
  else if contains value "." then
    match py_float value with
    | Some f => if isfinite f then JFloat f else JStr "invalid"
    | None => JStr "invalid"
    end
  else match py_int value with Some z => JInt z | None => JStr "invalid" end.

(** src: tool/py/benchmark_common.py:190-205 collect_env_flags *)
Definition flag_of (env : gmap string string) (key : string) : option (string * json) :=
  raw ← env !! key;
  if nonempty (strip raw) then Some (py_lower key, flag_value (strip raw)) else None.

(** src: tool/py/benchmark_common.py:186-186 collect_env_flags *)
Definition dsn_of (env : gmap string string) : string :=
  str_or (default EmptyString (env !! "ODBC_TEST_DSN")) (default EmptyString (env !! "ODBC_DSN")).

(** src: tool/py/benchmark_common.py:181-206 collect_env_flags *)
Definition collect_env_flags (env : gmap string string) : list (string * json) :=
  ("odbc_test_dsn_configured", JBool (odbc_dsn_configured env)) ::
  (if odbc_dsn_configured env then [("odbc_driver_family", JStr (get_dsn_driver_family (dsn_of env)))] else []) ++
  omap (flag_of env) SAFE_ENV_KEYS.

(** src: tool/py/benchmark_common.py:679-681 write_json
    The file ends with a line end. *)
Definition write_json (path : string) (payload : json) : M unit :=
  _ ← mkdir (path_parent path);
  write_text path (dump_report false EmptyString payload +:+ nl).

(** src: tool/py/benchmark_common.py:711-715 load_summary *)
Definition load_summary (path : string) : M json :=
  text ← read_text path;
  summary ← lift (loads text);
  version ← lift (jget_default "schema_version" (JInt 1) summary);
  _ ← raise_when (negb (jeq version (JInt 1) || jeq version (JInt 2)))
        (ValueError "Unsupported benchmark summary version");
  mret summary.

(** src: tool/py/benchmark_common.py:718-721 bootstrap_env *)
Definition bootstrap_env (env_path : string) : M unit :=
  _ ← import_dotenv_if_present env_path;
  test_dsn ← getenv_or "ODBC_TEST_DSN" EmptyString;
  dsn ← getenv_or "ODBC_DSN" EmptyString;
  when (negb (nonempty test_dsn) && nonempty dsn) (setenv "ODBC_TEST_DSN" dsn).
End files.

(** ** Metadata is well formed *)

(** The three fields of a metric's metadata take the values the reports know,
    and the direction follows the category. *)
Definition well_formed (m : metadata) : Prop :=
  (category m, direction m) ∈ [("latency", "lower"); ("throughput", "higher"); ("memory", "lower");
                               ("counter", "none"); ("configuration", "none")] ∧
  unit_name m ∈ ["ms"; "us"; "ratio"; "queries/s"; "rows/s"; "ops/s"; "bytes"; "rows"; "count"].

Ltac by_category := let H := fresh in intros H; simpl in H; repeat case_match; discriminate H.
Ltac solve_elem := repeat first [apply list_elem_of_here | apply list_elem_of_further].

(** Every name gets well-formed metadata, and for the metrics that are compared
    between runs the direction of the metadata is the one the comparison uses:
    latencies are better when lower and throughputs when higher. *)
Theorem metric_metadata_type (key : string) :
  well_formed (metric_metadata key) ∧
  (category (metric_metadata key) = "latency" → metric_lower_is_better key = true) ∧
  (category (metric_metadata key) = "throughput" → metric_lower_is_better key = false).
Proof.
  unfold metric_lower_is_better, metric_metadata.
  destruct (py_lower key == "wall_ms"); [split_and!; [split; simpl; solve_elem|by_category|by_category]|].
  destruct (ends_in ["_us"; "_ms"] (py_lower key) || contains (py_lower key) "median_us_") eqn:El.
  - split_and!; [|intros _|by_category].
    + split; simpl; [solve_elem|]. destruct (contains (py_lower key) "_us"); solve_elem.
    + cbn [direction]. change ("lower" == "higher") with false. cbv iota.
      destruct (ends_in ["_ms"; "_us"] (py_lower key)) eqn:Ee; [done|].
      cbn [ends_in existsb] in El, Ee. rewrite orb_false_r in *. apply orb_false_elim in Ee as [E1 E2].
      rewrite E1, E2 in El. simpl in El.
      assert (contains (py_lower key) "median_us" = true) as Hm.
      { apply contains_spec in El as (a & b & ->). apply contains_spec. exists a, ("_" +:+ b). done. }
      unfold any_token. cbn [existsb]. rewrite Hm. by rewrite !orb_true_r.
  - destruct (any_token ["rows_per_sec"; "queries_per_sec"; "ops_per_sec"; "throughput"; "speedup"] (py_lower key)).
    + split_and!; [|by_category|done]. split; simpl; [solve_elem|].
      destruct (contains (py_lower key) "speedup"), (contains (py_lower key) "queries_per_sec"),
        (contains (py_lower key) "rows_per_sec"); solve_elem.
    + destruct (any_token ["heap_growth"; "rss_peak"] (py_lower key));
        [split_and!; [split; simpl; solve_elem|by_category|by_category]|].
      destruct (any_token ["errors"; "timeouts"; "fallbacks"; "chunks"; "routed"; "completed_requests"; "failed_requests"] (py_lower key));
        (split_and!; [split; simpl; [solve_elem|]|by_category|by_category]);
        destruct (endswith (py_lower key) "_bytes" || contains (py_lower key) "chunk_size"),
          (endswith (py_lower key) ".rows" || (py_lower key == "rows") || contains (py_lower key) "fetch_size"); solve_elem.
Qed.

(** ** Comparable suites *)

(** A suite that both summaries have and that no reason excludes has the same
    identity in both, measured on the same machine. *)
Theorem comparable_suites (baseline current : json) (reasons : list (string * string))
    (bs cs : list (string * json)) (id : string) (b c : json)
    (Hreasons : incompatible_benchmark_suite_reasons baseline current = Ok reasons)
    (Hbs : suites_by_id baseline = Ok bs) (Hcs : suites_by_id current = Ok cs)
    (Hb : (id, b) ∈ bs) (Hc : assoc id cs = Some c) (Hid : id ∉ reasons.*1) :
  ∃ ib ic, comparison_identity b = Some ib ∧ comparison_identity c = Some ic ∧
    jeq (JObj ib) (JObj ic) = true ∧
    ∃ mb mc, jget_or_null "machine" baseline = Ok mb ∧ jget_or_null "machine" current = Ok mc ∧ jeq mb mc = true.
Proof.
  unfold incompatible_benchmark_suite_reasons in Hreasons. rewrite Hbs, Hcs in Hreasons. simpl in Hreasons.
  apply res_bind_Ok in Hreasons as (mb & Hmb & Hr). apply res_bind_Ok in Hr as (mc & Hmc & Hr).
  apply (inj Ok) in Hr as <-.
  destruct (incompatible (jeq mb mc) b c) as [reason|] eqn:Ei.
  - exfalso. apply Hid. apply list_elem_of_fmap. exists (id, reason). split; [done|].
    apply list_elem_of_omap. exists (id, b). split; [by rewrite sort_keys_perm|].
    simpl. rewrite Hc. simpl. by rewrite Ei.
  - unfold incompatible in Ei. destruct (comparison_identity b) as [ib|]; [|done].
    destruct (comparison_identity c) as [ic|]; [|done].
    destruct (jeq (JObj ib) (JObj ic)) eqn:Ej; [|discriminate Ei]. destruct (jeq mb mc) eqn:Em; [|discriminate Ei].
    exists ib, ic. split_and!; try done. by exists mb, mc.
Qed.

(** ** The metrics that count *)

Section flattened.
Context `{Host}.

(** Where a flattened metric comes from: a suite that passed and is not
    excluded, and a finite measure of a category that counts. *)
Definition counted_metric (excluded : list string) (suites : list json) (k : string) (v : float) : Prop :=
  ∃ d ms key value, (JObj d ∈ suites) ∧
    k = (suite_name d +:+ "." +:+ key) ∧ (suite_name d ∉ excluded) ∧ default (JStr "pass") (assoc "status" d) = JStr "pass" ∧
    assoc "metrics" d = Some (JObj ms) ∧ (key, value) ∈ ms ∧ is_bool value = false ∧
    float_of_json value = Ok v ∧ isfinite v = true ∧
    ∃ given, counts given key = Ok true ∧
      (given = None ∨ ∃ mm, assoc "metric_metadata" d = Some (JObj mm) ∧ assoc key mm = given).

Lemma fold_res_inv {A B} (f : B → A → res B) (P : B → Prop) l b b' :
  fold_res f l b = Ok b' → P b → (∀ b x b', x ∈ l → f b x = Ok b' → P b → P b') → P b'.
Proof.
  revert b. induction l as [|x l IH]; intros b Hf Hb Hstep; simpl in Hf; [by injection Hf as <-|].
  inv_res. eapply IH; [done| |].
  - eapply Hstep; [by left|done|done].
  - intros ???? . eapply Hstep. by right.
Qed.

Lemma float_of_number value f : is_number value = true → real_of_json value = Ok f → float_of_json value = Ok f.
Proof. by destruct value. Qed.

(** Every metric of [flatten_suite_metrics] counts. *)
Theorem flattened_metrics_count (summary : json) (excluded : list string) (m : metrics)
    (Hflat : flatten_suite_metrics summary excluded = Ok m) :
  ∃ suites, suites_of summary = Ok suites ∧ ∀ k v, (k, v) ∈ m → counted_metric excluded suites k v.
Proof.
  unfold flatten_suite_metrics in Hflat. apply res_bind_Ok in Hflat as (suites & Hs & Hflat).
  exists suites. split; [done|].
  apply (fold_res_inv _ (λ m, ∀ k v, (k, v) ∈ m → counted_metric excluded suites k v) _ _ _ Hflat).
  { intros k v Hin. by apply not_elem_of_nil in Hin. }
  clear Hflat m. intros m suite m' Hsuite Hf Hm. unfold flatten_suite in Hf.
  destruct suite as [| | | | | |d]; try (by injection Hf as <-).
  destruct (one_of (suite_name d) excluded) eqn:Eex; [by injection Hf as <-|]. apply one_of_false in Eex.
  destruct (jeq _ _) eqn:Est; [|by injection Hf as <-]. apply jeq_str in Est. simpl in Hf.
  destruct (assoc "metrics" d) as [[| | | | | |ms]|] eqn:Ems; try (by injection Hf as <-).
  apply (fold_res_inv _ (λ m, ∀ k v, (k, v) ∈ m → counted_metric excluded suites k v) _ _ _ Hf Hm).
  clear Hf Hm m m'. intros m [key value] m' Hkv Hf Hm. unfold flatten_metric in Hf.
  destruct (is_bool value || negb (is_number value)) eqn:Eb; [by injection Hf as <-|].
  apply orb_false_elim in Eb as [Eb En%negb_false_iff].
  apply res_bind_Ok in Hf as (mm & Hmm & Hf). apply res_bind_Ok in Hf as (given & Hg & Hf).
  apply res_bind_Ok in Hf as (c & Hc & Hf). destruct c; [|by injection Hf as <-]. simpl in Hf.
  unfold isfinite_json in Hf. apply res_bind_Ok in Hf as (fin & Hfin & Hf).
  apply res_bind_Ok in Hfin as (f & Hreal & Hfin). injection Hfin as <-.
  destruct (isfinite f) eqn:Efin; [|by injection Hf as <-].
  rewrite (float_of_number _ _ En Hreal) in Hf. injection Hf as <-.
  intros k v [Hold|Hnew]%assoc_set_elem; [by apply Hm|]. injection Hnew as -> ->.
  exists d, ms, key, value. split_and!; try done; try (by apply float_of_number).
  exists given. split; [done|]. unfold jget_default in Hmm. simpl in Hmm. injection Hmm as <-.
  destruct (assoc "metric_metadata" d) as [v|] eqn:Emm; simpl in Hg; [|left; by injection Hg as <-].
  destruct v as [| | | | | |md]; try discriminate Hg. injection Hg as <-. right. by exists md.
Qed.
End flattened.

Definition example_suite (status id key : string) (v : json) : json :=
  JObj [("id", JStr id); ("status", JStr status); ("metrics", JObj [(key, v); ("wall_ms", JInt 3)])].
Definition example_summary : json := JObj [("schema_version", JInt 2); ("machine", JObj [("platform", JStr "w")]);
  ("suites", JArr [example_suite "pass" "odbc" "p95_us" (JInt 100); example_suite "fail" "x" "p95_us" (JInt 1);
                   example_suite "pass" "transport" "rows_per_sec" (JFloat (f_lit "1e4"))])].

Example flattened_example : flatten_suite_metrics (H:=idle_host) example_summary ["none"] =
  Ok [("odbc.p95_us", f_lit "100"); ("transport.rows_per_sec", f_lit "10000")].
Proof. vm_compute. reflexivity. Qed.

Theorem flattened_metrics_count_witness :
  ∃ suites, suites_of example_summary = Ok suites ∧
    ∀ k v, (k, v) ∈ default [] (match flatten_suite_metrics (H:=idle_host) example_summary [] with
                                | Ok m => Some m | _ => None end) →
           counted_metric (H:=idle_host) [] suites k v.
Proof. apply (flattened_metrics_count (H:=idle_host) example_summary []). vm_compute. reflexivity. Defined.

(** ** What an approved comparison promises *)

(** The candidate is at most [factor] times the base, and both are finite and
    not negative. *)
Definition bounded (m : json) (factor : float) : Prop :=
  ∃ before after b, jitem "base" m = Ok before ∧ jitem "candidate" m = Ok after ∧
    bad_value before = Ok false ∧ bad_value after = Ok false ∧ float_of_json before = Ok b ∧
    json_lt (JFloat (fmul b factor)) after = Ok false.

Lemma within_bounded m factor : within (m, factor) = Ok true → bounded m factor.
Proof.
  unfold within. intros Hw. apply res_bind_Ok in Hw as (before & Hb & Hw).
  apply res_bind_Ok in Hw as (after & Ha & Hw). apply res_bind_Ok in Hw as (bad & Hbad & Hw).
  apply refuse_true in Hw as [-> Hw]. apply or_test_false in Hbad as [Hbb Hba].
  apply res_bind_Ok in Hw as (limit & _ & Hw). apply res_bind_Ok in Hw as (l & _ & Hw).
  apply res_bind_Ok in Hw as (b & Hfb & Hw). destruct (negb _); [discriminate Hw|].
  apply res_bind_Ok in Hw as ([] & Hlt & Hw); [discriminate Hw|]. by exists before, after, b.
Qed.

(** An approved section: every combination of case, compression and signing is
    measured, throughput is at least 0.85 of the base, and heap growth and the
    95th percentiles stay within their factors. *)
Definition approved_section (report : json) (name : string) : Prop :=
  ∃ section scenarios rows ratio heap,
    jitem name report = Ok section ∧ jitem "scenarios" section = Ok scenarios ∧ items_of scenarios = Ok rows ∧
    Forall (λ e, ∃ row k, row ∈ rows ∧ row_key row = Ok k ∧ row_eq e k = true) expected_rows ∧
    jitem "throughput_ratio" section = Ok ratio ∧ isfinite_json ratio = Ok true ∧
    json_lt ratio (JFloat (f_lit "0.85")) = Ok false ∧
    jitem "heap_growth_bytes" section = Ok heap ∧ bounded heap (f_lit "1.1") ∧
    Forall (λ row, ∃ s r, jitem "send_p95_us" row = Ok s ∧ jitem "receive_p95_us" row = Ok r ∧
                          bounded s (f_lit "1.05") ∧ bounded r (f_lit "1.05")) rows.

Lemma rows_bounded rows pairs : res_map row_metrics rows = Ok pairs →
  Forall (λ mf : json * float, bounded (fst mf) (snd mf)) (concat pairs) →
  Forall (λ row, ∃ s r, jitem "send_p95_us" row = Ok s ∧ jitem "receive_p95_us" row = Ok r ∧
                        bounded s (f_lit "1.05") ∧ bounded r (f_lit "1.05")) rows.
Proof.
  intros Hp%res_map_Ok Hall. induction Hp as [|row p rows pairs Hrow Hp IH]; constructor.
  - unfold row_metrics in Hrow. apply res_bind_Ok in Hrow as (s & Hs & Hrow).
    apply res_bind_Ok in Hrow as (r & Hr & Hrow). apply (inj Ok) in Hrow as <-. cbn [concat] in Hall.
    apply Forall_app in Hall as [Hall _]. apply Forall_cons in Hall as [H1 Hall].
    apply Forall_cons in Hall as [H2 _]. by exists s, r.
  - apply IH. cbn [concat] in Hall. by apply Forall_app in Hall as [_ ?].
Qed.

Lemma rows_present rows keys : res_map row_key rows = Ok keys →
  forallb (λ e, existsb (row_eq e) keys) expected_rows = true →
  Forall (λ e, ∃ row k, row ∈ rows ∧ row_key row = Ok k ∧ row_eq e k = true) expected_rows.
Proof.
  intros Hk%res_map_Ok He. apply Forall_forall. intros e Hin. rewrite forallb_forall in He.
  specialize (He e (proj1 (list_elem_of_In _ _) Hin)). apply existsb_elem in He as (k & Hkin & Heq).
  apply list_elem_of_lookup in Hkin as (i & Hi). destruct (Forall2_lookup_r _ _ _ _ _ Hk Hi) as (row & Hrow & Hkey).
  exists row, k. split_and!; try done. by eapply list_elem_of_lookup_2.
Qed.

Lemma good_section_approved report name : good_section report name = Ok true → approved_section report name.
Proof.
  unfold good_section. intros Hg.
  repeat match goal with
  | H : mbind _ _ = Ok true |- _ => apply res_bind_Ok in H; let a := fresh "a" in destruct H as (a & ? & H)
  | H : refuse _ _ = Ok true |- _ => apply refuse_true in H as [? H]
  end.
  apply none_bad_true in Hg. apply Forall_cons in Hg as [Hheap Hrows].
  apply negb_test, within_bounded in Hheap.
  assert (Forall (λ mf : json * float, bounded (fst mf) (snd mf)) (concat a12)) as Hb.
  { eapply Forall_impl; [exact Hrows|]. intros [m f] Hm%negb_test. by apply within_bounded. }
  repeat match goal with H : negb _ = false |- _ => apply negb_false_iff in H end. subst.
  match goal with H : _ && _ = true |- _ => apply andb_prop in H as [_ Hp] end.
  exists a, a4, a6, a8, a11.
  split_and!; try done; first [by eapply rows_present|by eapply rows_bounded|idtac].
Qed.

(** A comparison is approved only when all three of its sections are. *)
Theorem approved_comparison_sound (report : json) (Hok : approved_controlled_comparison report = Ok true) :
  jget_or_null "status" report = Ok (JStr "pass") ∧
  Forall (approved_section report) ["control"; "forward"; "reverse"].
Proof.
  unfold approved_controlled_comparison in Hok. apply res_bind_Ok in Hok as (status & Hs & Hok).
  apply refuse_true in Hok as [Hst%negb_false_iff%jeq_str Hok]. subst. split; [done|].
  unfold try_except in Hok. destruct (none_bad _ _) as [b|e] eqn:En; [injection Hok as ->|case_match; discriminate Hok].
  apply none_bad_true in En. eapply Forall_impl; [exact En|]. intros name Hn%negb_test. by apply good_section_approved.
Qed.

Definition example_metric (n limit : Z) : json :=
  JObj [("base", JInt n); ("candidate", JInt n); ("limit", JInt limit)].
Definition example_section : json := JObj
  [("status", JStr "pass"); ("failures", JArr []); ("pending_metrics", JArr []); ("heap_gate_evaluated", JBool true);
   ("throughput_ratio", JInt 1); ("heap_growth_bytes", example_metric 10 11);
   ("scenarios", JArr ((λ '(c, m, s), JObj [("case", c); ("compression", m); ("signed", s);
      ("send_p95_us", example_metric 100 105); ("receive_p95_us", example_metric 40 42)]) <$> expected_rows))].
Definition example_comparison : json :=
  JObj [("status", JStr "pass"); ("control", example_section); ("forward", example_section); ("reverse", example_section)].

Theorem approved_comparison_sound_witness :
  jget_or_null "status" example_comparison = Ok (JStr "pass") ∧
  Forall (approved_section example_comparison) ["control"; "forward"; "reverse"].
Proof. apply (approved_comparison_sound example_comparison). vm_compute. reflexivity. Defined.

Example slow_comparison : approved_controlled_comparison (JObj [("status", JStr "pass"); ("control", JObj [])]) = Ok false.
Proof. vm_compute. reflexivity. Qed.

Definition example_suites : list (string * json) :=
  [("a", JObj [("id", JStr "a"); ("comparison_identity", JObj [("build", JStr "1"); ("empty", JStr "")])])].
Definition identified (machine build : string) : json :=
  JObj [("machine", JStr machine); ("suites", JArr [JObj [("id", JStr "a");
    ("comparison_identity", JObj [("build", JStr build); ("empty", JStr "")])]])].
Example incompatible_reasons :
  incompatible_benchmark_suite_reasons (identified "m" "1") (identified "m" "2") =
    Ok [("a", "comparison identity differs")] ∧
  incompatible_benchmark_suite_reasons (identified "m" "1") (identified "n" "1") = Ok [("a", "machine or SDK differs")] ∧
  incompatible_benchmark_suite_reasons (identified "m" "1") example_summary = Ok [].
Proof. vm_compute. done. Qed.

Theorem comparable_suites_witness :
  ∃ ib ic, comparison_identity (snd (hd ("", JNull) example_suites)) = Some ib ∧
    comparison_identity (snd (hd ("", JNull) example_suites)) = Some ic ∧ jeq (JObj ib) (JObj ic) = true ∧
    ∃ mb mc, jget_or_null "machine" (identified "m" "1") = Ok mb ∧
             jget_or_null "machine" (identified "m" "1") = Ok mc ∧ jeq mb mc = true.
Proof.
  apply (comparable_suites (identified "m" "1") (identified "m" "1") [] example_suites example_suites "a");
    [vm_compute; reflexivity..|by left|vm_compute; reflexivity|by apply not_elem_of_nil].
Defined.

(** ** The published flags *)

Definition driver_families : list string := ["(not configured)"; "PostgreSQL"; "SQL Anywhere"; "SQL Server"; "unknown"].

Lemma driver_family_known dsn : get_dsn_driver_family dsn ∈ driver_families.
Proof. unfold get_dsn_driver_family. repeat case_match; solve_elem. Qed.

(** What a summary publishes of the environment: only the flags of the known
    settings, whether a DSN is configured and its driver family, and never a
    text of the environment. *)
Theorem env_flags_no_secret (env : gmap string string) (k : string) (v : json)
    (Hin : (k, v) ∈ collect_env_flags env) :
  k ∈ "odbc_test_dsn_configured" :: "odbc_driver_family" :: (py_lower <$> SAFE_ENV_KEYS) ∧
  (is_number v = true ∨ v = JStr "invalid" ∨ ∃ f, f ∈ driver_families ∧ v = JStr f).
Proof.
  unfold collect_env_flags in Hin. apply elem_of_cons in Hin as [[= -> ->]|Hin]; [split; [solve_elem|by left]|].
  apply elem_of_app in Hin as [Hin|Hin].
  - destruct (odbc_dsn_configured env); [|by apply not_elem_of_nil in Hin].
    apply list_elem_of_singleton in Hin. injection Hin as -> ->.
    split; [solve_elem|]. do 2 right. eexists. split; [apply driver_family_known|done].
  - apply list_elem_of_omap in Hin as (key & Hkey & Hf). split.
    + apply elem_of_cons. right. apply elem_of_cons. right. apply list_elem_of_fmap. exists key.
      split; [|done]. unfold flag_of in Hf. destruct (env !! key) as [raw|]; [|done]. simpl in Hf.
      destruct (nonempty (strip raw)); [|done]. by injection Hf as <- _.
    + unfold flag_of in Hf. destruct (env !! key) as [raw|]; [|done]. simpl in Hf.
      destruct (nonempty (strip raw)); [|done]. injection Hf as _ <-. unfold flag_value.
      repeat case_match; auto.
Qed.

Definition secret_env : gmap string string :=
  {["ODBC_DSN" := "Driver={SQL Server};PWD=secret"; "ODBC_POOL_SIZE" := " 8 "; "RUN_LIVE_API_TESTS" := "TRUE";
    "ODBC_ASYNC_WORKER_COUNT" := "PWD=secret"]}.
Theorem env_flags_no_secret_witness :
  ("odbc_driver_family", JStr "SQL Server") ∈ collect_env_flags secret_env ∧
  "odbc_driver_family" ∈ "odbc_test_dsn_configured" :: "odbc_driver_family" :: (py_lower <$> SAFE_ENV_KEYS) ∧
  (is_number (JStr "SQL Server") = true ∨ JStr "SQL Server" = JStr "invalid" ∨
   ∃ f, f ∈ driver_families ∧ JStr "SQL Server" = JStr f).
Proof.
  assert (("odbc_driver_family", JStr "SQL Server") ∈ collect_env_flags secret_env) as Hin.
  { vm_compute. apply list_elem_of_further, list_elem_of_here. }
  split; [exact Hin|apply (env_flags_no_secret secret_env); exact Hin].
Defined.
Example published_flags : collect_env_flags secret_env =
  [("odbc_test_dsn_configured", JBool true); ("odbc_driver_family", JStr "SQL Server"); ("odbc_pool_size", JInt 8);
   ("odbc_async_worker_count", JStr "invalid"); ("run_live_api_tests", JBool true)].
Proof. vm_compute. reflexivity. Qed.

(** The lock file of a workspace. *)
Definition example_lock : string := join nl
  ["packages:"; "  http:"; "    dependency: transitive"; ("    version: " +:+ dq +:+ "1.2.0" +:+ dq);
   "  odbc_fast:"; "    source: hosted"; "    version: '4.1.0'"; "sdks:"; "  dart: any"].
Definition lock_world : world := World {[("" // "pubspec.lock") := File example_lock]} ∅ [].
Example locked_dependencies :
  fst (collect_dependency_versions "" lock_world) = Ok [("http", "1.2.0"); ("odbc_fast", "4.1.0")] ∧
  fst (collect_dependency_provenance "" lock_world) =
    Ok [("http", "dependency: transitive" +:+ nl +:+ "version: " +:+ dq +:+ "1.2.0" +:+ dq);
        ("odbc_fast", "source: hosted" +:+ nl +:+ "version: '4.1.0'")] ∧
  locked_version false (splitlines example_lock) = Some "4.1.0".
Proof. vm_compute. done. Qed.
