(* ===== verification/CompareBenchmark.v ===== *)
(** * Comparing two benchmark summaries (tool/benchmarks/compare_benchmark_summary.py)

    Flags the metrics of a run that got worse than the baseline allows. The
    verdict is an exit status: 0 for a comparable run without regressions, 1
    for regressions, 2 for a comparison that proves nothing. *)

From S2P Require Import Prelude PyStr PyFloat PyJson PyNum Effects ScriptUtils BenchmarkMetrics BenchmarkSummary.

Local Open Scope Z_scope.

(** src: tool/benchmarks/compare_benchmark_summary.py:40-47 MetricDiff *)
Record MetricDiff : Type := Diff {
  metric : string; baseline : float; current : float; delta_pct : option float;
  direction_text : string; regression : bool }.

(** src: tool/benchmarks/compare_benchmark_summary.py:57-59 compare_metrics
    [key in set(a) & set(b)], sorted, with both values. *)
Definition common_metrics (a b : metrics) : list (string * (float * float)) :=
  omap (λ kv, c ← assoc (fst kv) b; Some (fst kv, (snd kv, c))) (sort_keys a).

(** src: tool/benchmarks/compare_benchmark_summary.py:61-68 compare_metrics
    The change a metric may make. *)
Definition limit_of (key : string) (threshold : float) : float :=
  if contains (py_lower key) "p95" then fmin threshold (f_lit "0.05")
  else if category (metric_metadata key) == "throughput" then fmin threshold (f_lit "0.15")
  else if contains (py_lower key) "heap_growth" then fmin threshold (f_lit "0.10")
  else threshold.

(** src: tool/benchmarks/compare_benchmark_summary.py:60-60 compare_metrics *)
Definition delta_of (b c : float) : option float :=
  if feqb b f_zero then if feqb c f_zero then Some f_zero else None
  else Some (fmul (fdiv (fsub c b) b) (f_lit "100.0")).

(** src: tool/benchmarks/compare_benchmark_summary.py:69-75 compare_metrics *)
Definition regressed (key : string) (b c limit : float) : bool :=
  if metric_lower_is_better key then fltb (fmul b (fadd (f_lit "1.0") limit)) c
  else fltb c (fmul b (fsub (f_lit "1.0") limit)).

(** src: tool/benchmarks/compare_benchmark_summary.py:58-85 compare_metrics *)
Definition diff_of (threshold : float) (kv : string * (float * float)) : MetricDiff :=
  let '(key, (b, c)) := kv in
  Diff key b c (delta_of b c)
    (if metric_lower_is_better key then "lower is better" else "higher is better")
    (regressed key b c (limit_of key threshold)).

(** src: tool/benchmarks/compare_benchmark_summary.py:50-86 compare_metrics *)
Definition compare_metrics (baseline_metrics current_metrics : metrics) (threshold : float) : list MetricDiff :=
  diff_of threshold <$> common_metrics baseline_metrics current_metrics.

(** ** The table *)

Fixpoint spaces (n : nat) : string := match n with O => EmptyString | S n => String " " (spaces n) end.
Definition ljust (n : nat) (s : string) : string := s +:+ spaces (n - String.length s).
Definition dashes (n : nat) : string := str_map (λ _, "-"%char) (spaces n).

(** src: tool/benchmarks/compare_benchmark_summary.py:93-93 format_table *)
Definition headers : list string := ["metric"; "baseline"; "current"; "delta %"; "direction"; "regression"].
(** src: tool/benchmarks/compare_benchmark_summary.py:95-102 format_table *)
Definition row_of (d : MetricDiff) : list string :=
  [metric d; general 4 (baseline d); general 4 (current d);
   match delta_pct d with Some p => fixed true 2 p +:+ "%" | None => "n/a (zero baseline)" end;
   direction_text d; if regression d then "YES" else "no"].

(** src: tool/benchmarks/compare_benchmark_summary.py:107-108 format_table *)
Definition widen (widths : list nat) (row : list string) : list nat :=
  zip_with Nat.max widths (String.length <$> row).
(** src: tool/benchmarks/compare_benchmark_summary.py:110-111 format_table *)
Definition table_line (widths : list nat) (cells : list string) : string :=
  join "  " (zip_with ljust widths cells).

(** src: tool/benchmarks/compare_benchmark_summary.py:89-115 format_table *)
Definition format_table (diffs : list MetricDiff) : string :=
  match diffs with
  | [] => "No overlapping numeric metrics to compare."
  | _ =>
      let rows := row_of <$> diffs in
      let widths := foldl widen (String.length <$> headers) rows in
      join nl (table_line widths headers :: table_line widths (dashes <$> widths) :: (table_line widths <$> rows))
  end.

(** ** The command *)

(** src: tool/benchmarks/compare_benchmark_summary.py:121-125 resolve_latest_results_summary
    The directories in a directory, last name first. *)
Definition run_directories (results_dir : string) (w : world) : list string :=
  let dirs := List.filter (λ kv : string * node, (path_parent (fst kv) == results_dir) && (fst kv != results_dir) &&
                match snd kv with Dir => true | File _ => false end) (map_to_list (w_fs w)) in
  List.rev (snd <$> sort_keys ((λ kv : string * node, (path_name (fst kv), fst kv)) <$> dirs)).

(** src: tool/benchmarks/compare_benchmark_summary.py:126-129 resolve_latest_results_summary *)
Fixpoint first_file (paths : list string) : M (option string) :=
  match paths with
  | [] => mret None
  | p :: paths => here ← is_file p; if (here : bool) then mret (Some p) else first_file paths
  end.

(** src: tool/benchmarks/compare_benchmark_summary.py:118-129 resolve_latest_results_summary *)
Definition resolve_latest_results_summary (results_dir : string) : M (option string) :=
  here ← is_dir results_dir;
  if negb (here : bool) then mret None
  else w ← get_world; first_file ((λ p, p // "summary.json") <$> run_directories results_dir w).

(** src: tool/benchmarks/compare_benchmark_summary.py:134-147 main *)
Record args : Type := Args { a_baseline : string; a_current : option string; threshold : float }.

(** src: tool/benchmarks/compare_benchmark_summary.py:187-187 main
    [suite.get("status", "pass") not in {"pass", "skipped"}] *)
Definition invalid_suite (suite : json) : res bool :=
  status ← jget_default "status" (JStr "pass") suite;
  _ ← hashable status;
  Ok (negb (jeq status (JStr "pass") || jeq status (JStr "skipped"))).

Fixpoint any_res {A} (f : A → res bool) (l : list A) : res bool :=
  match l with [] => Ok false | x :: l => b ← f x; if (b : bool) then Ok true else any_res f l end.

(** src: tool/benchmarks/compare_benchmark_summary.py:189-189 main
    The sources that the current summary names. *)
Definition source_of (summary : json) : res (json * json) :=
  git ← jget_default "git" (JObj []) summary;
  commit ← jget_or_null "commit_sha" git;
  git ← jget_default "git" (JObj []) summary;
  digest ← jget_or_null "source_sha256" git;
  Ok (commit, digest).

(** [a and b] of tests that may raise. *)
Definition and_test (a b : res bool) : res bool := x ← a; if (x : bool) then b else Ok false.

(** src: tool/benchmarks/compare_benchmark_summary.py:190-190 main
    Whether a controlled comparison of the current sources qualifies the run. *)
Definition qualified (summary comparison : json) (source : json * json) : res bool :=
  and_test (q ← jget_or_null "qualification" summary; Ok (jeq q (JStr "pass")))
  (and_test (approved_controlled_comparison comparison)
  (and_test (Ok (truthy (fst source) && truthy (snd source)))
   (candidate ← jget_or_null "candidate" comparison;
    Ok (jeq candidate (JObj [("commit_sha", fst source); ("source_sha256", snd source)]))))).

(** [set(a) == set(b)] of the names of two dicts *)
Definition same_keys (a b : metrics) : bool :=
  forallb (λ k, one_of k b.*1) a.*1 && forallb (λ k, one_of k a.*1) b.*1.

Section compare.
Context `{Host}.

(** src: tool/benchmarks/compare_benchmark_summary.py:164-172 main
    The comparison of two loaded summaries: the reasons that exclude suites,
    the metrics of both, the differences and whether the run proves anything. *)
Definition assess (t : float) (baseline_summary current_summary : json) :
    res (list (string * string) * metrics * metrics) :=
  excluded ← incompatible_benchmark_suite_reasons baseline_summary current_summary;
  bm ← flatten_suite_metrics baseline_summary excluded.*1;
  cm ← flatten_suite_metrics current_summary excluded.*1;
  Ok (excluded, bm, cm).

(** src: tool/benchmarks/compare_benchmark_summary.py:177-180 main *)
Definition print_skipped (excluded : list (string * string)) : M unit :=
  when (negb (bool_decide (excluded = [])))
    (_ ← print "Skipped non-comparable suites:";
     for_M (λ kv : string * string, print ("  - " +:+ fst kv +:+ ": " +:+ snd kv)) excluded).

(** src: tool/benchmarks/compare_benchmark_summary.py:191-202 main
    The exit status for the differences of a run. *)
Definition verdict (conclusive : bool) (diffs : list MetricDiff) : M Z :=
  let regressions := List.filter regression diffs in
  if negb conclusive then
    _ ← print EmptyString;
    _ ← print "Comparison inconclusive: incomplete metrics, incompatible profiles or missing controlled qualification.";
    mret 2
  else match regressions with
       | [] => _ ← print EmptyString; _ ← print "No regressions above threshold."; mret 0
       | _ => _ ← print EmptyString;
              _ ← print ("Regression detected in " +:+ py_str_int (Z.of_nat (length regressions)) +:+ " metric(s).");
              mret 1
       end.

(** src: tool/benchmarks/compare_benchmark_summary.py:151-160 main *)
Definition current_path (a : args) : M (option string) :=
  match a_current a with Some p => mret (Some p) | None => resolve_latest_results_summary RESULTS_DIR end.

(** src: tool/benchmarks/compare_benchmark_summary.py:132-202 main
    After the command line is parsed; a bad threshold is a usage error. *)
Definition main (a : args) : M Z :=
  _ ← raise_when (negb (isfinite (threshold a)) || fltb (threshold a) f_zero) (SystemExit (ExitCode 2));
  path ← current_path a;
  match path with
  | None =>
      _ ← print "No current summary provided and no benchmarks/results/<run_id>/summary.json found."; mret 2
  | Some path =>
      baseline_summary ← load_summary (a_baseline a);
      current_summary ← load_summary path;
      found ← lift (assess (threshold a) baseline_summary current_summary);
      let '(excluded, bm, cm) := found in
      _ ← print ("Baseline: " +:+ path_str (a_baseline a));
      _ ← print ("Current:  " +:+ path_str path);
      _ ← print ("Threshold: " +:+ fixed false 0 (fmul (threshold a) (f_lit "100")) +:+ "%");
      _ ← print_skipped excluded;
      _ ← print EmptyString;
      let diffs := compare_metrics bm cm (threshold a) in
      _ ← print (format_table diffs);
      invalid ← lift (l ← suites_of current_summary; any_res invalid_suite l);
      comparison ← lift (jget_default "comparison" (JObj []) current_summary);
      source ← lift (source_of current_summary);
      q ← lift (qualified current_summary comparison source);
      verdict (negb (bool_decide (diffs = [])) && bool_decide (excluded = []) && same_keys bm cm && negb invalid && q) diffs
  end.
End compare.

(** ** The limits *)

Lemma fmin_l a b : isfinite a = true → fltb a (fmin a b) = false.
Proof.
  intros _. unfold fmin. destruct (fltb b a) eqn:E; [|apply fltb_irrefl].
  apply not_true_iff_false. intros Hab. pose proof (fltb_trans _ _ _ Hab E) as Hc. by rewrite fltb_irrefl in Hc.
Qed.

Lemma fmin_r a b : fltb b (fmin a b) = false.
Proof. unfold fmin. destruct (fltb b a) eqn:E; [apply fltb_irrefl|done]. Qed.

(** The change a metric may make is never above the requested threshold, nor
    above 5 % for a 95th percentile and 15 % for a throughput, nor above 10 %
    for the growth of the heap. *)
Theorem regression_limits (key : string) (t : float) (Hfin : isfinite t = true) :
  fltb t (limit_of key t) = false ∧
  (contains (py_lower key) "p95" = true → fltb (f_lit "0.05") (limit_of key t) = false) ∧
  (contains (py_lower key) "p95" = false → category (metric_metadata key) = "throughput" →
   fltb (f_lit "0.15") (limit_of key t) = false) ∧
  (contains (py_lower key) "p95" = false → category (metric_metadata key) = "memory" →
   contains (py_lower key) "heap_growth" = true → fltb (f_lit "0.10") (limit_of key t) = false).
Proof.
  unfold limit_of. destruct (contains (py_lower key) "p95").
  { split_and!; [by apply fmin_l|intros _; apply fmin_r|done|done]. }
  destruct (String.eqb_spec (category (metric_metadata key)) "throughput") as [->|Hne].
  { split_and!; [by apply fmin_l|done|intros _ _; apply fmin_r|done]. }
  destruct (contains (py_lower key) "heap_growth").
  - split_and!; [by apply fmin_l|done|done|intros _ _ _; apply fmin_r].
  - split_and!; [apply fltb_irrefl|done|done|done].
Qed.

Theorem regression_limits_witness :
  isfinite (f_lit "0.2") = true ∧ fltb (f_lit "0.05") (limit_of "transport.send_p95_us" (f_lit "0.2")) = false.
Proof.
  split; [reflexivity|].
  refine (proj1 (proj2 (regression_limits "transport.send_p95_us" (f_lit "0.2") _)) _); vm_compute; reflexivity.
Defined.

(** ** What a passing comparison promises *)

Section passed.
Context `{Host}.

Lemma steps_eq_first_file paths : steps (=) (first_file paths).
Proof. induction paths as [|p paths IH]; simpl; solve_steps. Qed.
Lemma steps_eq_load p : steps (=) (load_summary p).
Proof. unfold load_summary. solve_steps. Qed.
Lemma steps_eq_current a : steps (=) (current_path a).
Proof.
  unfold current_path, resolve_latest_results_summary. destruct (a_current a); solve_steps; apply steps_eq_first_file.
Qed.

Lemma common_elem a b k x y : (k, x) ∈ a → assoc k b = Some y → (k, (x, y)) ∈ common_metrics a b.
Proof.
  intros Ha Hb. unfold common_metrics. apply list_elem_of_omap. exists (k, x). split; [by rewrite sort_keys_perm|].
  simpl. by rewrite Hb.
Qed.

Lemma no_regression t a b k x y : List.filter regression (compare_metrics a b t) = [] →
  (k, x) ∈ a → assoc k b = Some y → regressed k x y (limit_of k t) = false.
Proof.
  intros Hf Ha Hb. apply not_true_iff_false. intros Hr.
  assert (diff_of t (k, (x, y)) ∈ List.filter regression (compare_metrics a b t)) as Hin.
  { apply list_elem_of_In, filter_In. split; [|done]. apply list_elem_of_In, list_elem_of_fmap.
    eexists. split; [done|]. by apply common_elem. }
  rewrite Hf in Hin. by apply not_elem_of_nil in Hin.
Qed.

Lemma any_res_false {A} (f : A → res bool) l : any_res f l = Ok false → Forall (λ x, f x = Ok false) l.
Proof.
  induction l as [|x l IH]; simpl; [by constructor|]. intros Ha.
  apply res_bind_Ok in Ha as ([] & Hx & Ha); [discriminate Ha|]. constructor; auto.
Qed.

Lemma and_test_true a b : and_test a b = Ok true ↔ a = Ok true ∧ b = Ok true.
Proof. destruct a as [[]|]; simpl; naive_solver. Qed.

Lemma verdict_zero c diffs w w' : runs (verdict c diffs) w 0 w' → c = true ∧ List.filter regression diffs = [].
Proof.
  unfold verdict. intros Hr. destruct c; [|inv_runs; done]. split; [done|].
  simpl in Hr. destruct (List.filter regression diffs); [done|inv_runs; done].
Qed.

(** What the run behind a conclusive comparison has to be. *)
Definition qualified_run (summary : json) : Prop :=
  ∃ suites comparison commit digest,
    suites_of summary = Ok suites ∧ Forall (λ s, invalid_suite s = Ok false) suites ∧
    jget_default "comparison" (JObj []) summary = Ok comparison ∧
    approved_controlled_comparison comparison = Ok true ∧
    source_of summary = Ok (commit, digest) ∧ truthy commit = true ∧ truthy digest = true ∧
    ∃ candidate, jget_or_null "candidate" comparison = Ok candidate ∧
      jeq candidate (JObj [("commit_sha", commit); ("source_sha256", digest)]) = true.

Lemma qualified_true summary comparison source : qualified summary comparison source = Ok true →
  approved_controlled_comparison comparison = Ok true ∧ truthy (fst source) = true ∧ truthy (snd source) = true ∧
  ∃ candidate, jget_or_null "candidate" comparison = Ok candidate ∧
    jeq candidate (JObj [("commit_sha", fst source); ("source_sha256", snd source)]) = true.
Proof.
  unfold qualified. rewrite !and_test_true. intros (_ & Ha & Ht & Hc). apply (inj Ok), andb_prop in Ht as [??].
  apply res_bind_Ok in Hc as (c & Hc & Hj). apply (inj Ok) in Hj. split_and!; try done. by exists c.
Qed.

(** C24. A comparison that exits with 0 has shown that the run is as good as the
    baseline: every suite is comparable, both summaries have the same counted
    metrics, at least one, none of them is past its limit, no suite failed,
    and an approved controlled comparison of these very sources backs it. *)
Theorem comparison_passed (a : args) (w w' : world) (Hrun : runs (main a) w 0 w') :
  ∃ path bs cs bm cm,
    runs (current_path a) w (Some path) w ∧ runs (load_summary (a_baseline a)) w bs w ∧
    runs (load_summary path) w cs w ∧
    incompatible_benchmark_suite_reasons bs cs = Ok [] ∧
    flatten_suite_metrics bs [] = Ok bm ∧ flatten_suite_metrics cs [] = Ok cm ∧
    same_keys bm cm = true ∧ common_metrics bm cm ≠ [] ∧
    (∀ k x y, (k, x) ∈ bm → assoc k cm = Some y → regressed k x y (limit_of k (threshold a)) = false) ∧
    qualified_run cs.
Proof.
  unfold main in Hrun. apply runs_bind in Hrun as ([] & w1 & [_ <-]%runs_raise_when & Hrun).
  apply runs_bind in Hrun as (o & w1 & Hpath & Hrun).
  pose proof (runs_same _ _ _ _ (steps_eq_current a) Hpath) as ->. destruct o as [path|]; [|inv_runs; done].
  apply runs_bind in Hrun as (bs & w1 & Hbs & Hrun). pose proof (runs_same _ _ _ _ (steps_eq_load _) Hbs) as ->.
  apply runs_bind in Hrun as (cs & w1 & Hcs & Hrun). pose proof (runs_same _ _ _ _ (steps_eq_load _) Hcs) as ->.
  apply runs_bind in Hrun as ([[excluded bm] cm] & w1 & [Hassess <-]%runs_lift & Hrun). inv_runs.
  apply verdict_zero in Hrun as [Hc Hno].
  repeat match goal with Hx : _ && _ = true |- _ => apply andb_prop in Hx as [Hx ?] end. subst.
  repeat match goal with Hx : bool_decide _ = true |- _ => apply bool_decide_eq_true in Hx end. subst.
  unfold assess in Hassess. apply res_bind_Ok in Hassess as (ex & Hex & Ha).
  apply res_bind_Ok in Ha as (b' & Hb' & Ha). apply res_bind_Ok in Ha as (c' & Hc' & Ha).
  apply (inj Ok) in Ha. injection Ha as -> -> ->.
  exists path, bs, cs, bm, cm. split_and!; try done.
  - intros Hn. unfold compare_metrics in Hc. rewrite Hn in Hc. done.
  - intros k x y. by apply no_regression.
  - match goal with Hq : qualified _ _ _ = Ok true |- _ => apply qualified_true in Hq as (Hq & ? & ? & ?) end.
    match goal with Hs : suites_of _ ≫= _ = Ok _ |- _ => apply res_bind_Ok in Hs as (suites & Hs & Hi) end.
    match goal with Hi : negb ?i = true |- _ => apply negb_true_iff in Hi; subst i end.
    match goal with s : (json * json)%type |- _ => destruct s as [commit digest] end.
    exists suites; do 3 eexists. split_and!; try done. by apply any_res_false.
Qed.
End passed.

(** ** Comparisons at work *)

Definition example_run (p95 : json) (comparison : json) : json := JObj
  [("schema_version", JInt 2); ("machine", JObj [("platform", JStr "Windows")]);
   ("git", JObj [("commit_sha", JStr "c0ffee"); ("source_sha256", JStr "abc")]);
   ("suites", JArr [JObj [("id", JStr "odbc"); ("status", JStr "pass");
      ("comparison_identity", JObj [("build", JStr "4.1.0")]);
      ("metrics", JObj [("p95_us", p95); ("rows_per_sec", JInt 1000); ("wall_ms", JInt 5)])]]);
   ("qualification", JStr "pass"); ("comparison", comparison)].
(** The approved comparison of the example, of the sources of the run. *)
Definition approved_here : json :=
  match example_comparison with
  | JObj d => JObj (d ++ [("candidate", JObj [("source_sha256", JStr "abc"); ("commit_sha", JStr "c0ffee")])])
  | v => v
  end.
Definition summary_text (v : json) : string := default EmptyString (render false "," ":" v).
Definition compare_world (baseline current : json) : world := World
  {["b.json" := File (summary_text baseline); "c.json" := File (summary_text current)]} ∅ [].
Definition example_args : args := Args "b.json" (Some "c.json") (f_lit "0.20").
Definition passing : world := compare_world (example_run (JInt 100) (JObj [])) (example_run (JInt 104) approved_here).
Definition unqualified : world := compare_world (example_run (JInt 100) (JObj [])) (example_run (JInt 104) (JObj [])).

Example comparison_verdicts :
  fst (main (H:=idle_host) example_args unqualified) = Ok 2 ∧
  fst (main (H:=idle_host) (Args "b.json" None (f_lit "0.20")) unqualified) = Ok 2 ∧
  fst (main (H:=idle_host) (Args "b.json" None f_nan) unqualified) = Raise (SystemExit (ExitCode 2)) ∧
  fst (verdict true (compare_metrics [("p95_us", f_lit "100")] [("p95_us", f_lit "106")] (f_lit "0.2")) unqualified) = Ok 1.
Proof. vm_compute. done. Qed.

Theorem comparison_passed_witness :
  ∃ path bs cs bm cm,
    runs (current_path (H:=idle_host) example_args) passing (Some path) passing ∧
    runs (load_summary "b.json") passing bs passing ∧ runs (load_summary path) passing cs passing ∧
    incompatible_benchmark_suite_reasons bs cs = Ok [] ∧
    flatten_suite_metrics (H:=idle_host) bs [] = Ok bm ∧ flatten_suite_metrics (H:=idle_host) cs [] = Ok cm ∧
    same_keys bm cm = true ∧ common_metrics bm cm ≠ [] ∧
    (∀ k x y, (k, x) ∈ bm → assoc k cm = Some y → regressed k x y (limit_of k (threshold example_args)) = false) ∧
    qualified_run cs.
Proof.
  eapply (comparison_passed (H:=idle_host) example_args passing (snd (main (H:=idle_host) example_args passing))).
  vm_compute. reflexivity.
Defined.

Example table_example :
  format_table (compare_metrics [("b_ms", f_lit "0"); ("a_us", f_lit "10")] [("a_us", f_lit "12.5"); ("b_ms", f_lit "1")] (f_lit "0.2")) =
  join nl ["metric  baseline  current  delta %              direction        regression";
           "------  --------  -------  -------------------  ---------------  ----------";
           "a_us    10        12.5     +25.00%              lower is better  YES       ";
           "b_ms    0         1        n/a (zero baseline)  lower is better  YES       "].
Proof. vm_compute. reflexivity. Qed.
