(* ===== verification/TransportComparison.v ===== *)
(** * Comparing transport measurements (tool/benchmarks/compare_transport_repetitions.py)

    Two reports of the same harness, nine repetitions each, are compared by
    their medians: no 95th percentile may grow by more than 5 %, the throughput
    may fall to 85 % and the heap may grow by 10 %. *)

From S2P Require Import Prelude PyStr PyFloat PyJson PyNum Effects ScriptUtils BenchmarkMetrics BenchmarkSummary TextFiles.
From S2P Require CompareBenchmark.
From Stdlib Require Import Floats.SpecFloat.
Import CompareBenchmark (any_res).

Local Open Scope Z_scope.

(** ** Sorting and medians

    [list.sort] of fewer than 64 elements: the run at the front, reversed when
    it descends, and the rest inserted by binary search. *)
Section sort.
Context {A : Type} (lt : A → A → bool).

Fixpoint ascending (prev : A) (l : list A) : list A * list A :=
  match l with
  | x :: l' => if lt x prev then ([], l) else let '(run, rest) := ascending x l' in (x :: run, rest)
  | [] => ([], [])
  end.
Fixpoint descending (prev : A) (l : list A) : list A * list A :=
  match l with
  | x :: l' => if lt x prev then let '(run, rest) := descending x l' in (x :: run, rest) else ([], l)
  | [] => ([], [])
  end.
Definition first_run (l : list A) : list A * list A :=
  match l with
  | [] => ([], [])
  | [x] => ([x], [])
  | x :: (y :: _) as l' =>
      if lt y x then let '(run, rest) := descending x l' in (rev (x :: run), rest)
      else let '(run, rest) := ascending x l' in (x :: run, rest)
  end.
(** Where the pivot goes between the positions [l] and [r]. *)
Fixpoint bisect (fuel : nat) (pivot : A) (a : list A) (l r : nat) : nat :=
  match fuel with
  | O => l
  | S fuel =>
      if (l <? r)%nat then
        let p := (l + (r - l) / 2)%nat in
        match a !! p with
        | Some x => if lt pivot x then bisect fuel pivot a l p else bisect fuel pivot a (S p) r
        | None => l
        end
      else l
  end.
Definition insert_sorted (a : list A) (pivot : A) : list A :=
  let i := bisect (length a) pivot a 0 (length a) in take i a ++ pivot :: drop i a.
Definition py_sort (l : list A) : list A := let '(run, rest) := first_run l in foldl insert_sorted run rest.

Lemma ascending_split prev l : (ascending prev l).1 ++ (ascending prev l).2 = l.
Proof.
  revert prev. induction l as [|x l IH]; intros prev; cbn; [done|]. destruct (lt x prev); [done|].
  specialize (IH x). destruct (ascending x l). cbn in *. by rewrite IH.
Qed.
Lemma descending_split prev l : (descending prev l).1 ++ (descending prev l).2 = l.
Proof.
  revert prev. induction l as [|x l IH]; intros prev; cbn; [done|]. destruct (lt x prev); [|done].
  specialize (IH x). destruct (descending x l). cbn in *. by rewrite IH.
Qed.
Lemma py_sort_perm l : py_sort l ≡ₚ l.
Proof.
  assert (Hins : ∀ rest run, foldl insert_sorted run rest ≡ₚ run ++ rest).
  { induction rest as [|x rest IH]; intros run; cbn [foldl]; [by rewrite app_nil_r|]. rewrite IH. unfold insert_sorted.
    rewrite <- app_assoc, <- app_comm_cons, <- Permutation_middle, app_assoc, take_drop. apply Permutation_middle. }
  unfold py_sort, first_run. destruct l as [|x [|y l]]; [done|done|]. destruct (lt y x).
  - pose proof (descending_split x (y :: l)) as Hs. destruct (descending x (y :: l)) as [run rest]. cbn [fst snd] in Hs.
    rewrite Hins, <- Permutation_rev, <- Hs. done.
  - pose proof (ascending_split x (y :: l)) as Hs. destruct (ascending x (y :: l)) as [run rest]. cbn [fst snd] in Hs.
    rewrite Hins, <- Hs. done.
Qed.
End sort.

(** [a < b] of numbers, for values that are known to be numbers. *)
Definition lt_number (a b : json) : bool := match json_lt a b with Ok b => b | Raise _ => false end.

(** [statistics.median(l)]: the middle of an odd number of values. *)
Definition half_sum (a b : json) : res json :=
  match a, b with
  | JFloat _, _ | _, JFloat _ => x ← float_of_json a; y ← float_of_json b; Ok (JFloat (fdiv (fadd x y) (f_lit "2")))
  | _, _ => x ← int_of_json a; y ← int_of_json b;
            f ← (if x + y =? 0 then Ok f_zero else Ok (float_of_ratio (x + y <? 0) (Z.to_pos (Z.abs (x + y))) 2));
            Ok (JFloat f)
  end.
Definition median (l : list json) : res json :=
  _ ← raise_if (negb (length l =? 1)%nat && negb (forallb is_number l)) (TypeError "'<' not supported");
  let sorted := py_sort lt_number l in
  let n := length l in
  match l with
  | [] => Raise (ValueError "no median for empty data")
  | _ => if Nat.odd n then Ok (nth (n / 2) sorted JNull)
         else half_sum (nth (n / 2 - 1) sorted JNull) (nth (n / 2) sorted JNull)
  end.
Example medians :
  median (JInt <$> [5; 1; 4; 2; 3; 9; 7; 8; 6]) = Ok (JInt 5) ∧ median [JInt 3; JInt 1; JFloat (f_lit "2.5")] = Ok (JFloat (f_lit "2.5")) ∧
  median [JInt 3; JInt 2] = Ok (JFloat (f_lit "2.5")) ∧ median [JStr "a"; JInt 1] = Raise (TypeError "'<' not supported").
Proof. by vm_compute. Qed.

Lemma median_in l m : Nat.odd (length l) = true → median l = Ok m → m ∈ l.
Proof.
  unfold median. intros Hodd Hm. apply res_bind_Ok in Hm as (u & _ & Hm). destruct l as [|x l]; [done|]. rewrite Hodd in Hm.
  injection Hm as Hm. pose proof (py_sort_perm lt_number (x :: l)) as Hp.
  assert (m ∈ py_sort lt_number (x :: l)) as Hin; [|by rewrite Hp in Hin].
  rewrite <- Hm. apply list_elem_of_In, nth_In. rewrite (Permutation_length Hp). apply (Nat.div_lt (length (x :: l)) 2); cbn; lia.
Qed.

(** [a * f], and [a / b] of numbers: the quotient of two integers is rounded once. *)
Definition scaled (a : json) (f : float) : res float := x ← float_of_json a; Ok (fmul x f).
Definition true_div (a b : json) : res float :=
  match a, b with
  | JFloat _, _ | _, JFloat _ => x ← real_of_json a; y ← real_of_json b; div_float x y
  | _, _ =>
      x ← int_of_json a; y ← int_of_json b;
      if y =? 0 then Raise ZeroDivisionError
      else if x =? 0 then Ok (if y <? 0 then fdiv f_zero (f_lit "-1") else f_zero)
      else let q := float_of_ratio (xorb (x <? 0) (y <? 0)) (Z.to_pos (Z.abs x)) (Z.to_pos (Z.abs y)) in
           if isfinite q then Ok q else Raise OverflowError
  end.

(** ** The scenarios of a report *)

(** The case, the compression and whether the frames are signed. *)
Abbreviation scenario_key := (json * json * json)%type.

(** src: tool/benchmarks/compare_transport_repetitions.py:27-27 profiles *)
Definition key_of (row : json) : res scenario_key :=
  c ← jitem "case" row; m ← jitem "requested_compression" row; s ← jitem "signed" row; Ok (c, m, s).
Definition hashable_key (k : scenario_key) : res unit :=
  let '(c, m, s) := k in _ ← hashable c; _ ← hashable m; hashable s.

(** src: tool/benchmarks/compare_transport_repetitions.py:30-30 profiles *)
Fixpoint keys_eq (a b : list scenario_key) : bool :=
  match a, b with
  | [], [] => true
  | x :: a, y :: b => row_eq x y && keys_eq a b
  | _, _ => false
  end.
(** src: tool/benchmarks/compare_transport_repetitions.py:30-30 profiles
    [set(keys)]: the first of equal keys. *)
Fixpoint distinct (keys : list scenario_key) : list scenario_key :=
  match keys with
  | [] => []
  | k :: keys => k :: List.filter (λ k', negb (row_eq k k')) (distinct keys)
  end.
(** src: tool/benchmarks/compare_transport_repetitions.py:26-28 profiles
    [set(keys) == required] *)
Definition all_required (keys : list scenario_key) : bool :=
  forallb (λ k, existsb (row_eq k) expected_rows) keys && forallb (λ e, existsb (row_eq e) keys) expected_rows.

(** src: tool/benchmarks/compare_transport_repetitions.py:34-34 profiles
    A timing that is not finite or negative. *)
Definition bad_timing (row : json) (field : string) : res bool :=
  v ← jitem field row; finite ← isfinite_json v; if negb finite then Ok true else json_lt v (JInt 0).

(** [a or b] of tests that may raise *)
Fixpoint first_true (tests : list (res bool)) : res bool :=
  match tests with [] => Ok false | t :: tests => b ← t; if (b : bool) then Ok true else first_true tests end.

(** src: tool/benchmarks/compare_transport_repetitions.py:34-37 profiles
    A row measured as often as the configuration says, without codec errors. *)
Definition check_row (iterations : res json) (key : scenario_key) (row : json) : res unit :=
  bad ← first_true
    [own ← jitem "iterations" row; configured ← iterations; Ok (negb (jeq own configured));
     sent ← jget_or_null "send_sample_count" row; own ← jitem "iterations" row; Ok (negb (jeq sent own));
     received ← jget_or_null "receive_sample_count" row; own ← jitem "iterations" row; Ok (negb (jeq received own));
     any_res (bad_timing row) ["send_p95_us"; "receive_p95_us"]];
  _ ← raise_if bad (ValueError "Invalid timing or sample count");
  summary ← jitem "summary" row;
  errors ← jitem "error_count" summary;
  raise_if (truthy errors) (ValueError "Codec errors").

(** [result.setdefault(key, \[\]).append(row)] *)
Definition profile : Type := list (scenario_key * list json).
(** src: tool/benchmarks/compare_transport_repetitions.py:38-38 profiles *)
Fixpoint add_row (key : scenario_key) (row : json) (p : profile) : profile :=
  match p with
  | [] => [(key, [row])]
  | (k, rows) :: p => if row_eq k key then (k, rows ++ [row]) :: p else (k, rows) :: add_row key row p
  end.

(** src: tool/benchmarks/compare_transport_repetitions.py:33-38 profiles *)
Fixpoint add_rows (iterations : res json) (keyed : list (scenario_key * json)) (p : profile) : res profile :=
  match keyed with
  | [] => Ok p
  | (key, row) :: keyed => _ ← check_row iterations key row; add_rows iterations keyed (add_row key row p)
  end.

(** src: tool/benchmarks/compare_transport_repetitions.py:25-38 profiles
    One repetition. *)
Definition add_repetition (iterations : res json) (st : option (list scenario_key) * profile) (repetition : json) :
    res (option (list scenario_key) * profile) :=
  rows ← items_of repetition;
  keys ← res_map key_of rows;
  _ ← for_each hashable_key keys;
  _ ← raise_if (negb (all_required keys)) (ValueError "Incomplete transport scenario set");
  _ ← raise_if (negb (length (distinct keys) =? length keys)%nat ||
                match fst st with Some expected => negb (keys_eq keys expected) | None => false end)
        (ValueError "Scenario order or membership differs between repetitions");
  p ← add_rows iterations (zip keys rows) (snd st);
  Ok (Some keys, p).

(** src: tool/benchmarks/compare_transport_repetitions.py:19-39 profiles *)
Definition profiles (report : json) : res profile :=
  repetitions ← jitem "repetitions" report;
  n ← json_len repetitions;
  incomplete ← (if (n =? 9)%nat then elapsed ← jitem "elapsed_us" report; m ← json_len elapsed; Ok (negb (m =? 9)%nat) else Ok true);
  _ ← raise_if incomplete (ValueError "Incomplete repetitions");
  repetitions ← items_of repetitions;
  st ← fold_res (add_repetition (config ← jitem "config" report; jitem "iterations" config)) repetitions (None, []);
  Ok (snd st).

(** ** The comparison *)

(** src: tool/benchmarks/compare_transport_repetitions.py:11-17 compare *)
Definition same_harness (base candidate : json) : res unit :=
  _ ← for_each (λ name, b ← jitem name base; c ← jitem name candidate;
                  raise_if (negb (jeq b c)) (ValueError ("Incompatible " +:+ name +:+ "; measurements cannot be compared")))
        ["harness_version"; "dart_version"; "platform"; "config"];
  config ← jitem "config" base;
  repeats ← jitem "repeats" config;
  _ ← raise_if (negb (jeq repeats (JInt 9))) (ValueError "Nine repetitions are required");
  unqualified ← first_true
    [version ← jitem "harness_version" base; Ok (negb (jeq version (JInt 2)));
     iterations ← jitem "iterations" config; json_lt iterations (JInt 100);
     warmup ← jget_default "warmup_iterations" (JInt 0) config; json_lt warmup (JInt 10)];
  raise_if unqualified (ValueError "Qualification requires v2, 100 measurements and ten warmup iterations").

(** src: tool/benchmarks/compare_transport_repetitions.py:47-49 compare *)
Definition same_field (rows updated : list json) (field : string) : res unit :=
  differs ← any_res (λ row, v ← jitem field row;
                            first ← (match rows with r :: _ => jitem field r | [] => Raise IndexError end);
                            Ok (negb (jeq v first))) (rows ++ updated);
  raise_if differs (ValueError "Different dataset or wire profile").

(** src: tool/benchmarks/compare_transport_repetitions.py:51-51 compare *)
Definition P95_FIELDS : list string := ["send_p95_us"; "receive_p95_us"].
(** src: tool/benchmarks/compare_transport_repetitions.py:47-47 compare *)
Definition WIRE_FIELDS : list string := ["iterations"; "original_bytes"; "wire_bytes"; "effective_compression"].

Section compare.
Context `{Host}.

(** src: tool/benchmarks/compare_transport_repetitions.py:56-56 compare
    [str(key)] of a tuple; the texts of a scenario need no escapes. *)
Definition key_text (key : scenario_key) : string :=
  let text v := match v with JStr s => "'" +:+ s +:+ "'" | v => str_of v end in
  let '(c, m, s) := key in "(" +:+ text c +:+ ", " +:+ text m +:+ ", " +:+ text s +:+ ")".

(** src: tool/benchmarks/compare_transport_repetitions.py:51-56 compare
    A percentile of a scenario, and the failure it may be. *)
Definition judge_field (key : scenario_key) (rows updated : list json) (field : string) : res (string * json * list string) :=
  values ← res_map (jitem field) rows;
  first ← median values;
  values ← res_map (jitem field) updated;
  current ← median values;
  limit ← scaled first (f_lit "1.05");
  over ← json_lt (JFloat limit) current;
  Ok (field, JObj [("base", first); ("candidate", current); ("limit", JFloat limit)],
      if (over : bool) then [key_text key +:+ " " +:+ field +:+ ": " +:+ str_of current +:+ " > " +:+ float_repr limit] else []).

(** src: tool/benchmarks/compare_transport_repetitions.py:44-57 compare
    The scenario of a key in both reports. *)
Definition judge_scenario (after : profile) (entry : scenario_key * list json) : res (json * list string) :=
  let '(key, rows) := entry in
  found ← from_option (List.find (λ kr, row_eq (fst kr) key) after) (KeyError "scenario");
  let updated := snd found in
  _ ← for_each (same_field rows updated) WIRE_FIELDS;
  judged ← res_map (judge_field key rows updated) P95_FIELDS;
  let '(c, m, s) := key in
  Ok (JObj ([("case", c); ("compression", m); ("signed", s)] ++ ((λ j, (fst (fst j), snd (fst j))) <$> judged)),
      concat ((λ j, snd j) <$> judged)).

(** src: tool/benchmarks/compare_transport_repetitions.py:58-64 compare
    The throughput of the whole harness, and the failure it may be. *)
Definition judge_throughput (base candidate : json) : res (float * list string) :=
  elapsed ← jitem "elapsed_us" base; values ← items_of elapsed; elapsed_base ← median values;
  elapsed ← jitem "elapsed_us" candidate; values ← items_of elapsed; elapsed_candidate ← median values;
  invalid ← first_true
    [f ← isfinite_json elapsed_base; Ok (negb f); f ← isfinite_json elapsed_candidate; Ok (negb f);
     nonpositive elapsed_base; nonpositive elapsed_candidate];
  _ ← raise_if invalid (ValueError "Invalid elapsed time");
  ratio ← true_div elapsed_base elapsed_candidate;
  Ok (ratio, if fltb ratio (f_lit "0.85") then ["Whole harness throughput ratio " +:+ float_repr ratio +:+ " < 0.85"] else []).

(** src: tool/benchmarks/compare_transport_repetitions.py:67-67 compare
    A heap growth that is no number, not finite or negative. *)
Definition bad_heap (report : json) : res bool :=
  v ← jitem "heap_growth_bytes" report;
  if negb (is_number v) then Ok true
  else finite ← isfinite_json v; if negb finite then Ok true else json_lt v (JInt 0).

(** src: tool/benchmarks/compare_transport_repetitions.py:66-66 compare *)
Definition has_heap (report : json) : bool :=
  match report with JObj d => one_of "heap_growth_bytes" d.*1 | _ => false end.

(** src: tool/benchmarks/compare_transport_repetitions.py:66-72 compare
    What the heap says: the failures, what is pending, and the entry. *)
Definition judge_heap (base candidate : json) : res (list string * list string * json) :=
  if has_heap base && has_heap candidate then
    invalid ← any_res bad_heap [base; candidate];
    _ ← raise_if invalid (ValueError "Invalid Dart heap growth");
    b ← jitem "heap_growth_bytes" base;
    c ← jitem "heap_growth_bytes" candidate;
    limit ← scaled b (f_lit "1.1");
    over ← json_lt (JFloat limit) c;
    Ok (if (over : bool) then ["Heap growth exceeds 110% of base"] else [],
        if jeq b (JInt 0) then ["Zero heap baseline requires repeated retention diagnostics"] else [],
        JObj [("base", b); ("candidate", c); ("limit", JFloat limit)])
  else Ok ([], ["Dart heap growth"], JNull).

(** src: tool/benchmarks/compare_transport_repetitions.py:10-83 compare *)
Definition compare (base candidate : json) : res json :=
  _ ← same_harness base candidate;
  before ← profiles base;
  after ← profiles candidate;
  _ ← raise_if (negb (keys_eq before.*1 after.*1)) (ValueError "Scenario sets differ");
  scenarios ← res_map (judge_scenario after) before;
  '(ratio, slow) ← judge_throughput base candidate;
  '(grown, pending, heap) ← judge_heap base candidate;
  rss_base ← jitem "rss_peak_bytes" base;
  rss_candidate ← jitem "rss_peak_bytes" candidate;
  let failures := concat (snd <$> scenarios) ++ slow ++ grown in
  Ok (JObj
    [("status", JStr (match pending, failures with _ :: _, _ => "inconclusive" | [], _ :: _ => "fail" | [], [] => "pass" end));
     ("scenarios", JArr (fst <$> scenarios));
     ("throughput_ratio", JFloat ratio);
     ("rss_peak_bytes", JObj [("base", rss_base); ("candidate", rss_candidate)]);
     ("heap_gate_evaluated", JBool (has_heap base && has_heap candidate));
     ("heap_growth_bytes", heap);
     ("pending_metrics", JArr (JStr <$> pending));
     ("failures", JArr (JStr <$> failures))]).

(** src: tool/benchmarks/compare_transport_repetitions.py:87-91 main *)
Record args : Type := Args { a_base : string; a_candidate : string; a_output : string }.

(** src: tool/benchmarks/compare_transport_repetitions.py:101-104 main
    The texts of a list of a report, and the exit code of its status. *)
Definition texts_of (key : string) (report : json) : res (list string) :=
  l ← jitem key report; items ← items_of l; Ok (List.map str_of items).
(** src: tool/benchmarks/compare_transport_repetitions.py:105-105 main *)
Definition status_code (report : json) : res Z :=
  status ← jitem "status" report;
  match status with
  | JStr "pass" => Ok 0 | JStr "fail" => Ok 1 | JStr "inconclusive" => Ok 2
  | _ => Raise (KeyError "status")
  end.

(** src: tool/benchmarks/compare_transport_repetitions.py:86-105 main *)
Definition main (a : args) : M Z :=
  report ← try_catch
    (text ← read_text (a_base a); base ← lift (loads text);
     text ← read_text (a_candidate a); candidate ← lift (loads text);
     lift (compare base candidate))
    (λ e, is_ValueError e || is_KeyError e || match e with ZeroDivisionError => true | _ => false end)
    (λ _, raise (SystemExit (ExitCode 2)));
  _ ← mkdir (path_parent (a_output a));
  _ ← write_text (a_output a) (dump_report true EmptyString report);
  failures ← lift (texts_of "failures" report);
  _ ← for_M print failures;
  pending ← lift (texts_of "pending_metrics" report);
  _ ← when (match pending with [] => false | _ => true end) (print ("Not fully validated: " +:+ join ", " pending));
  lift (status_code report).
End compare.

(** ** The scenarios of a profile *)

Lemma expected_shape k : k ∈ expected_rows → ∃ a b c, k = (JStr a, JStr b, JBool c).
Proof.
  intros Hk. unfold expected_rows in Hk. apply list_elem_of_bind in Hk as (a & Hk & _).
  apply list_elem_of_bind in Hk as (b & Hk & _). apply list_elem_of_bind in Hk as (c & Hk & _).
  apply list_elem_of_singleton in Hk. by exists a, b, c.
Qed.
Lemma expected_NoDup : NoDup expected_rows.
Proof.
  apply (NoDup_fmap_1 (λ k : scenario_key, let '(c, m, s) := k in
    (match c with JStr c => c | _ => EmptyString end, match m with JStr m => m | _ => EmptyString end, match s with JBool b => b | _ => false end))).
  apply (bool_decide_unpack _). vm_compute. done.
Qed.
Lemma row_eq_expected k k' : k ∈ expected_rows → k' ∈ expected_rows → row_eq k k' = true ↔ k = k'.
Proof.
  intros (a & b & c & ->)%expected_shape (a' & b' & c' & ->)%expected_shape. cbn [row_eq jeq].
  destruct (String.eqb_spec a a') as [->|]; [|split; [done|congruence]].
  destruct (String.eqb_spec b b') as [->|]; [|split; [done|congruence]].
  destruct c, c'; cbn; split; congruence.
Qed.
Lemma row_eq_false k k' : k ∈ expected_rows → k' ∈ expected_rows → k ≠ k' → row_eq k k' = false.
Proof. intros Hk Hk' Hne. apply not_true_iff_false. by rewrite row_eq_expected. Qed.
Lemma row_eq_self k : k ∈ expected_rows → row_eq k k = true.
Proof. intros Hk. by apply row_eq_expected. Qed.

(** A key whose last part is a Boolean is one of the expected ones. *)
Lemma matched_key k e : row_eq k e = true → e ∈ expected_rows → (∃ c m b, k = (c, m, JBool b)) → k = e.
Proof.
  intros He (a & b & c & ->)%expected_shape (x & y & z & ->). cbn in He.
  apply andb_prop in He as [[->%jeq_str ->%jeq_str]%andb_prop Hz]. by destruct z, c.
Qed.

#[local] Opaque expected_rows row_eq.
Lemma keys_eq_expected a b : a ⊆ expected_rows → b ⊆ expected_rows → keys_eq a b = true → a = b.
Proof.
  revert b. induction a as [|x a IH]; intros [|y b] Ha Hb; cbn; try done. intros [Hx Hr]%andb_prop. f_equal.
  - apply row_eq_expected in Hx; [done|set_solver|set_solver].
  - apply IH; [set_solver|set_solver|done].
Qed.

Lemma filter_shrinks {A} (f : A → bool) l x : x ∈ l → f x = false → (length (List.filter f l) < length l)%nat.
Proof.
  induction l as [|y l IH]; [set_solver|]. intros Hin Hf. pose proof (List.filter_length_le f l). cbn.
  apply elem_of_cons in Hin as [<-|Hin]; [rewrite Hf; lia|]. specialize (IH Hin Hf). destruct (f y); cbn; lia.
Qed.
Lemma distinct_in k keys : keys ⊆ expected_rows → k ∈ keys → k ∈ distinct keys.
Proof.
  induction keys as [|k' keys IH]; intros Hsub Hin; [done|]. cbn. apply elem_of_cons in Hin as [->|Hin]; [left|].
  destruct (row_eq k' k) eqn:He.
  - apply row_eq_expected in He as ->; [left|set_solver|set_solver].
  - right. apply list_elem_of_In, filter_In. split; [apply list_elem_of_In, IH; set_solver|by rewrite He].
Qed.
Lemma distinct_length keys : (length (distinct keys) ≤ length keys)%nat.
Proof. induction keys as [|k keys IH]; cbn [distinct length]; [done|]. apply le_n_S. etrans; [apply List.filter_length_le|done]. Qed.
Lemma distinct_keys_NoDup keys : keys ⊆ expected_rows → length (distinct keys) = length keys → NoDup keys.
Proof.
  induction keys as [|k keys IH]; intros Hsub Hlen; [constructor|]. cbn [distinct length] in Hlen. injection Hlen as Hlen.
  pose proof (distinct_length keys) as Hd.
  pose proof (List.filter_length_le (λ k', negb (row_eq k k')) (distinct keys)) as Hf. rewrite Hlen in Hf.
  constructor; [|apply IH; [set_solver|by apply Nat.le_antisymm]]. intros Hin.
  pose proof (filter_shrinks (λ k', negb (row_eq k k')) (distinct keys) k) as Hs. rewrite Hlen in Hs.
  apply (Nat.lt_irrefl (length keys)), (Nat.lt_le_trans _ (length (distinct keys))); [|done].
  apply Hs; [apply distinct_in; [set_solver|done]|]. rewrite row_eq_self; [done|set_solver].
Qed.

(** ** Building a profile *)

Lemma add_row_new key row p : key ∈ expected_rows → p.*1 ⊆ expected_rows → key ∉ p.*1 → add_row key row p = p ++ [(key, [row])].
Proof.
  intros Hk. induction p as [|[k rows] p IH]; cbn; [done|]. intros Hsub Hin. rewrite row_eq_false; [|set_solver..].
  f_equal. apply IH; set_solver.
Qed.
Lemma add_row_old key row p rows q : key ∈ expected_rows → p.*1 ⊆ expected_rows → key ∉ p.*1 →
  add_row key row (p ++ (key, rows) :: q) = p ++ (key, rows ++ [row]) :: q.
Proof.
  intros Hk. induction p as [|[k rs] p IH]; cbn; intros Hsub Hin; [by rewrite row_eq_self|]. rewrite row_eq_false; [|set_solver..].
  f_equal. apply IH; set_solver.
Qed.

Definition extend (p : profile) (rows : list json) : profile := zip_with (λ kr row, (fst kr, snd kr ++ [row])) p rows.
Lemma extend_keys p rows : length p = length rows → (extend p rows).*1 = p.*1.
Proof. revert rows. induction p as [|kr p IH]; intros [|row rows] Hl; try done. cbn. f_equal. apply IH. by injection Hl. Qed.

Lemma add_rows_first iterations keys rows pre p : length keys = length rows → pre.*1 ++ keys ⊆ expected_rows →
  NoDup (pre.*1 ++ keys) → add_rows iterations (zip keys rows) pre = Ok p →
  p = pre ++ zip_with (λ k row, (k, [row])) keys rows ∧ Forall2 (λ k row, check_row iterations k row = Ok tt) keys rows.
Proof.
  revert rows pre. induction keys as [|k keys IH]; intros [|row rows] pre Hl Hsub Hnd; try done; cbn.
  - intros [= <-]. split; [by rewrite app_nil_r|constructor].
  - intros ([] & Hc & Hr)%res_bind_Ok. rewrite add_row_new in Hr.
    + apply IH in Hr as [-> Hall].
      * rewrite <- app_assoc. split; [done|by constructor].
      * by injection Hl.
      * rewrite fmap_app. cbn. rewrite <- app_assoc. set_solver.
      * rewrite fmap_app. cbn. by rewrite <- app_assoc.
    + set_solver.
    + set_solver.
    + apply NoDup_app in Hnd as (_ & Hd & _). intros Hin. apply (Hd _ Hin). set_solver.
Qed.

Lemma add_rows_again iterations rows p pre q : length p = length rows → pre.*1 ++ p.*1 ⊆ expected_rows →
  NoDup (pre.*1 ++ p.*1) → add_rows iterations (zip p.*1 rows) (pre ++ p) = Ok q →
  q = pre ++ extend p rows ∧ Forall2 (λ k row, check_row iterations k row = Ok tt) p.*1 rows.
Proof.
  revert rows pre. induction p as [|[k rs] p IH]; intros [|row rows] pre Hl Hsub Hnd; try done; cbn.
  - intros [= <-]. split; [done|constructor].
  - intros ([] & Hc & Hr)%res_bind_Ok. cbn in Hsub, Hnd. rewrite add_row_old in Hr.
    + change ((k, rs ++ [row]) :: p) with ([(k, rs ++ [row])] ++ p) in Hr. rewrite app_assoc in Hr. apply IH in Hr as [-> Hall].
      * rewrite <- app_assoc. split; [done|by constructor].
      * by injection Hl.
      * rewrite fmap_app. cbn. rewrite <- app_assoc. set_solver.
      * rewrite fmap_app. cbn. by rewrite <- app_assoc.
    + set_solver.
    + set_solver.
    + apply NoDup_app in Hnd as (_ & Hd & _). intros Hin. apply (Hd _ Hin). set_solver.
Qed.

(** A row whose fields have the types the harness writes. *)
Definition typed_row (row : json) : Prop :=
  (∀ s, jitem "signed" row = Ok s → is_bool s = true) ∧
  (∀ field v, field ∈ P95_FIELDS → jitem field row = Ok v → is_bool v = false).
Definition typed_repetition (repetition : json) : Prop := ∀ rows, items_of repetition = Ok rows → Forall typed_row rows.
Definition typed_report (report : json) : Prop :=
  (∀ repetitions l, jitem "repetitions" report = Ok repetitions → items_of repetitions = Ok l → Forall typed_repetition l) ∧
  (∀ v, jitem "heap_growth_bytes" report = Ok v → is_bool v = false).

(** Every scenario once. *)
Definition all_scenarios (keys : list scenario_key) : Prop := NoDup keys ∧ keys ⊆ expected_rows ∧ expected_rows ⊆ keys.

Lemma all_scenarios_length keys : all_scenarios keys → length keys = length expected_rows.
Proof.
  intros (Hnd & H1 & H2). apply Nat.le_antisymm; apply NoDup_incl_length.
  all: try (apply NoDup_ListNoDup; done || apply expected_NoDup).
  all: intros k Hk%list_elem_of_In; apply list_elem_of_In; auto.
Qed.

(** The rows of a scenario: [n] measured ones of this key. *)
Definition measured_row (iterations : res json) (key : scenario_key) (row : json) : Prop :=
  check_row iterations key row = Ok tt ∧ typed_row row.
Definition measured_profile (iterations : res json) (keys : list scenario_key) (n : nat) (p : profile) : Prop :=
  p.*1 = keys ∧ Forall (λ kr, length (snd kr) = n ∧ Forall (measured_row iterations (fst kr)) (snd kr)) p.

Lemma key_matched row k : typed_row row → key_of row = Ok k → existsb (row_eq k) expected_rows = true → k ∈ expected_rows.
Proof.
  intros [Hs _] Hk He. apply existsb_exists in He as (e & Hin%list_elem_of_In & He).
  apply res_bind_Ok in Hk as (c & _ & (m & _ & (s & Hsig & [= <-])%res_bind_Ok)%res_bind_Ok).
  apply matched_key in He as ->; [done|done|]. specialize (Hs _ Hsig). destruct s as [|b| | | | |]; try done. by exists c, m, b.
Qed.

Lemma keys_required rows keys : Forall typed_row rows → res_map key_of rows = Ok keys → all_required keys = true →
  keys ⊆ expected_rows ∧ expected_rows ⊆ keys.
Proof.
  intros Ht Hk%res_map_Ok [H1 H2]%andb_prop. rewrite forallb_forall in H1, H2.
  assert (Hsub : keys ⊆ expected_rows).
  { intros k Hin. apply list_elem_of_lookup in Hin as [i Hi]. destruct (Forall2_lookup_r _ _ _ _ _ Hk Hi) as (row & Hrow & Hkey).
    apply (key_matched row); [by eapply Forall_lookup_1|done|]. apply H1. apply list_elem_of_In. by eapply list_elem_of_lookup_2. }
  split; [done|]. intros e He. specialize (H2 e (proj1 (list_elem_of_In _ _) He)).
  apply existsb_exists in H2 as (k & Hin%list_elem_of_In & Heq). apply row_eq_expected in Heq as ->; [done|done|by apply Hsub].
Qed.

Lemma length_zip_first (keys : list scenario_key) rows : length keys = length rows →
  (zip_with (λ k (row : json), (k, [row])) keys rows).*1 = keys.
Proof. revert rows. induction keys as [|k keys IH]; intros [|row rows] Hl; try done. cbn. f_equal. apply IH. by injection Hl. Qed.

Lemma measured_first iterations keys rows : length keys = length rows → Forall typed_row rows →
  Forall2 (λ k row, check_row iterations k row = Ok tt) keys rows →
  measured_profile iterations keys 1 (zip_with (λ k row, (k, [row])) keys rows).
Proof.
  intros Hl Ht Hc. split; [by apply length_zip_first|]. clear Hl. induction Hc as [|k row keys rows Hk Hc IH]; [constructor|].
  apply Forall_cons in Ht as [Htr Ht]. constructor; [|by apply IH]. split; [done|]. apply Forall_singleton. by split.
Qed.
Lemma measured_again iterations n p rows : length p = length rows → Forall typed_row rows →
  Forall (λ kr, length (snd kr) = n ∧ Forall (measured_row iterations (fst kr)) (snd kr)) p →
  Forall2 (λ k row, check_row iterations k row = Ok tt) p.*1 rows →
  Forall (λ kr, length (snd kr) = S n ∧ Forall (measured_row iterations (fst kr)) (snd kr)) (extend p rows).
Proof.
  revert rows. induction p as [|[k rs] p IH]; intros [|row rows] Hl Ht Hp Hc; try done.
  apply Forall_cons in Ht as [Htr Ht]. apply Forall_cons in Hp as [[Hn Hrs] Hp]. inversion Hc; subst. cbn [fst snd] in *. constructor.
  - cbn [fst snd]. rewrite length_app. split; [cbn; lia|]. apply Forall_app. split; [done|]. apply Forall_singleton. by split.
  - apply IH; [by injection Hl|done..].
Qed.

(** The state between repetitions: nothing yet, or [n] measured repetitions. *)
Definition repeated (iterations : res json) (n : nat) (st : option (list scenario_key) * profile) : Prop :=
  match n with
  | O => st = (None, [])
  | _ => ∃ keys, fst st = Some keys ∧ all_scenarios keys ∧ measured_profile iterations keys n (snd st)
  end.

Lemma add_repetition_measured iterations n st repetition st' : typed_repetition repetition → repeated iterations n st →
  add_repetition iterations st repetition = Ok st' → repeated iterations (S n) st'.
Proof.
  intros Ht Hst Hadd. unfold add_repetition in Hadd. apply res_bind_Ok in Hadd as (rows & Hrows & Hadd). specialize (Ht _ Hrows).
  apply res_bind_Ok in Hadd as (keys & Hkeys & Hadd). apply res_bind_Ok in Hadd as (u1 & _ & Hadd).
  apply res_bind_Ok in Hadd as (u2 & Hreq & Hadd). apply res_bind_Ok in Hadd as (u3 & Hsame & Hadd).
  apply res_bind_Ok in Hadd as (p & Hp & [= <-]). destruct (all_required keys) eqn:Er; [|done].
  destruct (keys_required _ _ Ht Hkeys Er) as [H1 H2]. destruct (length (distinct keys) =? length keys)%nat eqn:Ed; [|done].
  apply Nat.eqb_eq in Ed. pose proof (distinct_keys_NoDup _ H1 Ed) as Hnd.
  assert (Hl : length keys = length rows) by (apply res_map_Ok, Forall2_length in Hkeys; done).
  exists keys. split; [done|]. split; [done|]. cbn [snd]. destruct n as [|n].
  - rewrite Hst in Hp. cbn [snd] in Hp. apply add_rows_first in Hp as [-> Hc]; [by apply measured_first|done|done|done].
  - destruct Hst as (keys' & Hfst & (Hnd' & H1' & H2') & Hpk & Hpr). destruct st as [o q]. cbn [fst snd] in *. subst o.
    destruct (keys_eq keys keys') eqn:Ek; [|done]. apply keys_eq_expected in Ek as ->; [|done..].
    assert (Hlq : length q = length rows) by (rewrite <- Hl, <- Hpk; by rewrite length_fmap).
    rewrite <- Hpk in Hp. apply (add_rows_again _ _ q []) in Hp as [-> Hc]; [|done|by rewrite Hpk..]. split.
    + by rewrite app_nil_l, extend_keys.
    + by apply measured_again.
Qed.

Lemma json_len_items v n l : json_len v = Ok n → items_of v = Ok l → length l = n.
Proof.
  destruct v; try done; cbn; intros [= <-] [= <-]; [|done|by rewrite !length_fmap].
  rewrite length_map. induction s; cbn; [done|by f_equal].
Qed.

Lemma profiles_measured report p : typed_report report → profiles report = Ok p →
  ∃ keys, all_scenarios keys ∧
    measured_profile (config ← jitem "config" report; jitem "iterations" config) keys 9 p.
Proof.
  intros [Ht _] Hp. unfold profiles in Hp. apply res_bind_Ok in Hp as (repetitions & Hrep & Hp).
  apply res_bind_Ok in Hp as (n & Hn & Hp). apply res_bind_Ok in Hp as (incomplete & Hinc & Hp).
  apply res_bind_Ok in Hp as (u & Hu & Hp). apply res_bind_Ok in Hp as (l & Hl & Hp). specialize (Ht _ _ Hrep Hl).
  destruct (Nat.eqb_spec n 9) as [->|]; [|by injection Hinc as <-]. apply (json_len_items _ _ _ Hn) in Hl as Hlen.
  apply res_bind_Ok in Hp as (st & Hfold & [= <-]). set (iterations := (config ← _; _) : res json) in *. clearbody iterations.
  assert (Hgen : ∀ l m st0 st1, Forall typed_repetition l → repeated iterations m st0 →
    fold_res (add_repetition iterations) l st0 = Ok st1 → repeated iterations (m + length l) st1).
  { clear. induction l as [|r l IH]; intros m st0 st1 Ht Hst Hf; [injection Hf as <-; by rewrite Nat.add_0_r|].
    apply Forall_cons in Ht as [Hr Ht]. apply res_bind_Ok in Hf as (st' & Hadd & Hf).
    replace (m + length (r :: l))%nat with (S m + length l)%nat by (cbn; lia).
    eapply IH; [done| |exact Hf]. by eapply add_repetition_measured. }
  apply (Hgen l 0%nat) in Hfold; [|done|done]. rewrite Hlen in Hfold. destruct Hfold as (keys & _ & Hall & Hm). by exists keys.
Qed.

(** ** What passes is approved *)

(** A number that is no Boolean, finite and not negative. *)
Definition sound_value (v : json) : Prop :=
  is_bool v = false ∧ isfinite_json v = Ok true ∧ json_lt v (JInt 0) = Ok false.

Lemma sound_number v : sound_value v → is_number v = true.
Proof. intros (_ & Hf & _). by destruct v. Qed.
Lemma sound_not_bad v : sound_value v → bad_value v = Ok false.
Proof.
  intros Hv. pose proof (sound_number _ Hv) as Hn. destruct Hv as (Hb & Hf & Hl). unfold bad_value. by rewrite Hb, Hn, Hf.
Qed.

#[local] Arguments json_lt : simpl never.
#[local] Arguments isclose : simpl never.
Lemma within_sound b c f limit : sound_value b → sound_value c → isfinite f = true → scaled b f = Ok limit →
  json_lt (JFloat limit) c = Ok false →
  within (JObj [("base", b); ("candidate", c); ("limit", JFloat limit)], f) = Ok true.
Proof.
  intros Hb Hc Hf Ht Ho. unfold within. cbn. unfold or_test. rewrite (sound_not_bad _ Hb), (sound_not_bad _ Hc). cbn.
  apply res_bind_Ok in Ht as (x & Hx & [= <-]). rewrite Hx. cbn.
  assert (isfinite x = true) as Hfin.
  { destruct Hb as (_ & Hfb & _). apply res_bind_Ok in Hfb as (y & Hy & [= Hfy]). destruct b; cbn in *; try done; congruence. }
  unfold isclose. rewrite feqb_refl by (by apply fmul_not_nan). cbn. by rewrite Ho.
Qed.

Lemma checked_value iterations key row field v : measured_row iterations key row → field ∈ P95_FIELDS →
  jitem field row = Ok v → sound_value v.
Proof.
  intros [Hc [_ Ht]] Hfield Hv. split; [by eapply Ht|]. unfold check_row in Hc. apply res_bind_Ok in Hc as (bad & Hbad & Hc).
  apply res_bind_Ok in Hc as (u & Hu & _). destruct bad; [done|]. clear Hu. unfold first_true in Hbad.
  apply res_bind_Ok in Hbad as ([] & _ & Hbad); [done|]. apply res_bind_Ok in Hbad as ([] & _ & Hbad); [done|].
  apply res_bind_Ok in Hbad as ([] & _ & Hbad); [done|]. apply res_bind_Ok in Hbad as ([] & Hbad & Hx); [done|].
  assert (bad_timing row field = Ok false) as Hf.
  { apply res_bind_Ok in Hbad as ([] & H1 & Hbad); [done|]. apply res_bind_Ok in Hbad as ([] & H2 & Hy); [done|].
    apply elem_of_cons in Hfield as [->|Hfield]; [done|]. by apply list_elem_of_singleton in Hfield as ->. }
  unfold bad_timing in Hf. rewrite Hv in Hf. apply res_bind_Ok in Hf as (v' & [= <-] & Hf).
  apply res_bind_Ok in Hf as ([] & Hfin & Hf); [|done]. done.
Qed.

Lemma median_sound iterations key rows field values m : length rows = 9%nat → Forall (measured_row iterations key) rows →
  field ∈ P95_FIELDS → res_map (jitem field) rows = Ok values → median values = Ok m → sound_value m.
Proof.
  intros Hl Hr Hf Hv%res_map_Ok Hm. pose proof (Forall2_length _ _ _ Hv) as Hlv. rewrite Hl in Hlv.
  apply median_in in Hm; [|by rewrite <- Hlv]. apply list_elem_of_lookup in Hm as [i Hi].
  destruct (Forall2_lookup_r _ _ _ _ _ Hv Hi) as (row & Hrow & Hval).
  eapply checked_value; [|exact Hf|exact Hval]. by eapply Forall_lookup_1.
Qed.

Section passing.
Context `{Host}.

Lemma judged_field after_it it key rows updated field entry :
  length rows = 9%nat → Forall (measured_row it key) rows → length updated = 9%nat → Forall (measured_row after_it key) updated →
  field ∈ P95_FIELDS → judge_field key rows updated field = Ok (entry, []) →
  fst entry = field ∧ within (snd entry, f_lit "1.05") = Ok true.
Proof.
  intros Hl Hr Hl' Hr' Hf Hj. unfold judge_field in Hj. apply res_bind_Ok in Hj as (values & Hv & Hj).
  apply res_bind_Ok in Hj as (first & Hfirst & Hj). apply res_bind_Ok in Hj as (values' & Hv' & Hj).
  apply res_bind_Ok in Hj as (current & Hcur & Hj). apply res_bind_Ok in Hj as (limit & Hlim & Hj).
  apply res_bind_Ok in Hj as (over & Hover & [= <- Hnone]). split; [done|]. cbn [snd]. destruct over; [done|].
  apply within_sound; [by eapply (median_sound it key rows)|by eapply (median_sound after_it key updated)|by vm_compute|done|done].
Qed.

(** What a scenario of a report without failures is: a row of its key whose
    percentiles are within the limits. *)
Definition within_limits (key : scenario_key) (row : json) : Prop :=
  row_key row = Ok key ∧ ∃ s r, row_metrics row = Ok [(s, f_lit "1.05"); (r, f_lit "1.05")] ∧
    within (s, f_lit "1.05") = Ok true ∧ within (r, f_lit "1.05") = Ok true.

Lemma judged_scenario after_it it after key rows row : key ∈ expected_rows →
  length rows = 9%nat → Forall (measured_row it key) rows →
  after.*1 ⊆ expected_rows →
  Forall (λ kr, length (snd kr) = 9%nat ∧ Forall (measured_row after_it (fst kr)) (snd kr)) after →
  judge_scenario after (key, rows) = Ok (row, []) → within_limits key row.
Proof.
  intros Hkey Hl Hr Hsub Hafter Hj. unfold judge_scenario in Hj. apply res_bind_Ok in Hj as ([key' updated] & Hfound & Hj).
  destruct (List.find _ after) as [kr|] eqn:Hfind; [|done]. injection Hfound as ->.
  apply List.find_some in Hfind as [Hin%list_elem_of_In Heq]. cbn [fst] in Heq.
  rewrite Forall_forall in Hafter. destruct (Hafter _ Hin) as [Hl' Hr']. cbn [fst snd] in Hl', Hr'.
  apply row_eq_expected in Heq as ->; [|apply Hsub, list_elem_of_fmap; by exists (key', updated)|done].
  apply res_bind_Ok in Hj as (u & _ & Hj). apply res_bind_Ok in Hj as (judged & Hjudged & Hj). cbn [snd] in Hjudged.
  apply res_map_Ok in Hjudged. unfold P95_FIELDS in Hjudged.
  inversion Hjudged as [|? [send f1] ? ? Hsend Hrest]; subst. inversion Hrest as [|? [receive f2] ? ? Hreceive Hnil]; subst.
  inversion Hnil; subst. destruct (expected_shape _ Hkey) as (a & b & c & ->). injection Hj as <- Hnone.
  cbn in Hnone. rewrite app_nil_r in Hnone. apply app_nil in Hnone as [-> ->].
  apply (judged_field after_it it) in Hsend as [Hn1 Hw1]; [|done..|set_solver].
  apply (judged_field after_it it) in Hreceive as [Hn2 Hw2]; [|done..|set_solver].
  destruct send as [n1 v1], receive as [n2 v2]. cbn [fst snd] in *. subst. split; [done|]. by exists v1, v2.
Qed.

Lemma concat_nil {A} (l : list (list A)) : concat l = [] → Forall (λ x, x = []) l.
Proof. induction l as [|x l IH]; cbn; [constructor|]. intros [-> Hl]%app_nil. constructor; [done|by apply IH]. Qed.

Lemma judged_scenarios after_it it before after scenarios : all_scenarios before.*1 → all_scenarios after.*1 →
  measured_profile it before.*1 9 before → measured_profile after_it after.*1 9 after →
  res_map (judge_scenario after) before = Ok scenarios → concat (snd <$> scenarios) = [] →
  Forall2 within_limits before.*1 (fst <$> scenarios).
Proof.
  intros (_ & Hsub & _) (_ & Hsub' & _) [_ Hb] [_ Ha] Hj%res_map_Ok Hnone%concat_nil.
  apply Forall2_fmap_2. apply Forall2_same_length_lookup. split; [by eapply Forall2_length|].
  intros i [key rows] [row failures] Hi Hi'. cbn [fst snd].
  pose proof (Forall_lookup_1 _ _ _ _ Hb Hi) as [Hl Hr]. cbn [fst snd] in Hl, Hr.
  pose proof (Forall2_lookup_lr _ _ _ _ _ _ Hj Hi Hi') as Hji. cbn beta in Hji.
  assert (failures = []) as ->.
  { rewrite Forall_fmap in Hnone. by pose proof (Forall_lookup_1 _ _ _ _ Hnone Hi'). }
  eapply judged_scenario; [|exact Hl|exact Hr|exact Hsub'|exact Ha|exact Hji].
  apply Hsub, list_elem_of_fmap. exists (key, rows). split; [done|]. by eapply list_elem_of_lookup_2.
Qed.

Lemma judged_heap base candidate pending grown heap : typed_report base → typed_report candidate →
  judge_heap base candidate = Ok (grown, pending, heap) → grown = [] → pending = [] →
  has_heap base && has_heap candidate = true ∧ within (heap, f_lit "1.1") = Ok true.
Proof.
  intros [_ Hb] [_ Hc] Hj -> ->. unfold judge_heap in Hj. destruct (has_heap base && has_heap candidate); [|done]. split; [done|].
  apply res_bind_Ok in Hj as (invalid & Hinv & Hj). apply res_bind_Ok in Hj as (u & Hu & Hj). destruct invalid; [done|]. clear Hu.
  apply res_bind_Ok in Hj as (b & Hbv & Hj). apply res_bind_Ok in Hj as (c & Hcv & Hj).
  apply res_bind_Ok in Hj as (limit & Hlim & Hj). apply res_bind_Ok in Hj as (over & Hover & Hj). destruct over; [done|].
  injection Hj as Hz <-.
  apply res_bind_Ok in Hinv as ([] & H1 & Hinv); [done|]. apply res_bind_Ok in Hinv as ([] & H2 & Hy); [done|].
  assert (Hsound : ∀ r v, (∀ v, jitem "heap_growth_bytes" r = Ok v → is_bool v = false) → bad_heap r = Ok false →
    jitem "heap_growth_bytes" r = Ok v → sound_value v).
  { intros r v Hty Hbad Hv. split; [by apply Hty|]. unfold bad_heap in Hbad. rewrite Hv in Hbad.
    apply res_bind_Ok in Hbad as (v' & [= <-] & Hbad). destruct (is_number v); [|done]. cbn [negb] in Hbad.
    apply res_bind_Ok in Hbad as ([] & Hfin & Hbad); [|done]. done. }
  apply within_sound; [by apply (Hsound base)|by apply (Hsound candidate)|by vm_compute|done|done].
Qed.

Lemma rows_within keys rows : Forall2 within_limits keys rows →
  ∃ pairs, res_map row_metrics rows = Ok pairs ∧ Forall (λ mf, within mf = Ok true) (concat pairs).
Proof.
  induction 1 as [|k row keys rows (_ & s & r & Hm & H1 & H2) Hrows (pairs & Hp & Hall)]; [by exists []|].
  exists ([(s, f_lit "1.05"); (r, f_lit "1.05")] :: pairs). split.
  - apply res_map_Ok. apply res_map_Ok in Hp. by constructor.
  - cbn [concat]. apply Forall_app. split; [by repeat constructor|done].
Qed.

Lemma scenarios_expected keys : all_scenarios keys →
  forallb (λ k, existsb (row_eq k) expected_rows) keys && forallb (λ e, existsb (row_eq e) keys) expected_rows = true.
Proof.
  intros (_ & H1 & H2). apply andb_true_intro; split; apply forallb_forall; intros k Hk%list_elem_of_In; apply existsb_exists;
    exists k; (split; [apply list_elem_of_In; auto|apply row_eq_self; auto]).
Qed.

(** What the comparison passes, the approval accepts. When two reports whose
    fields have the types the harness writes compare with the status [pass] and
    a finite throughput ratio, the section that the comparison wrote is a good
    section of a controlled comparison: the promotion of a baseline, which
    checks the numbers again, does not refuse it. *)
Theorem passing_section_approved (base candidate section report : json) (name : string) (ratio : float)
    (Hbase : typed_report base) (Hcandidate : typed_report candidate) (Hcompare : compare base candidate = Ok section)
    (Hpass : jitem "status" section = Ok (JStr "pass")) (Hratio : jitem "throughput_ratio" section = Ok (JFloat ratio))
    (Hfinite : isfinite ratio = true) (Hname : jitem name report = Ok section) :
  good_section report name = Ok true.
Proof.
  unfold compare in Hcompare. apply res_bind_Ok in Hcompare as (u & _ & Hcompare).
  apply res_bind_Ok in Hcompare as (before & Hbefore & Hcompare). apply res_bind_Ok in Hcompare as (after & Hafter & Hcompare).
  apply res_bind_Ok in Hcompare as (u2 & _ & Hcompare). apply res_bind_Ok in Hcompare as (scenarios & Hscen & Hcompare).
  apply res_bind_Ok in Hcompare as ([ratio' slow] & Hthr & Hcompare).
  apply res_bind_Ok in Hcompare as ([[grown pending] heap] & Hheap & Hcompare).
  apply res_bind_Ok in Hcompare as (rb & _ & Hcompare). apply res_bind_Ok in Hcompare as (rc & _ & [= <-]).
  injection Hratio as ->. destruct pending as [|? ?]; [|done].
  destruct (concat (snd <$> scenarios) ++ slow ++ grown) eqn:Hfail; [|done]. clear Hpass.
  apply app_nil in Hfail as [Hnone [-> ->]%app_nil].
  destruct (judged_heap _ _ _ _ _ Hbase Hcandidate Hheap eq_refl eq_refl) as [Hhas Hw].
  destruct (profiles_measured _ _ Hbase Hbefore) as (keys & Hall & Hmb). pose proof Hmb as [Hkeys _].
  destruct (profiles_measured _ _ Hcandidate Hafter) as (keys' & Hall' & Hma). pose proof Hma as [Hkeys' _]. subst keys keys'.
  pose proof (judged_scenarios _ _ _ _ _ Hall Hall' Hmb Hma Hscen Hnone) as Hrows.
  assert (Hslow : fltb ratio (f_lit "0.85") = false).
  { unfold judge_throughput in Hthr. do 7 (apply res_bind_Ok in Hthr as (? & _ & Hthr)).
    apply res_bind_Ok in Hthr as (? & _ & Hthr). apply res_bind_Ok in Hthr as (r & _ & [= -> Hs]).
    by destruct (fltb ratio (f_lit "0.85")). }
  rewrite Hhas in Hname. unfold good_section. rewrite Hname.
  assert (Hlen : length scenarios = length expected_rows).
  { rewrite <- (all_scenarios_length _ Hall), length_fmap. symmetry. apply res_map_Ok in Hscen. by eapply Forall2_length. }
  assert (Hks : res_map row_key (fst <$> scenarios) = Ok before.*1).
  { apply res_map_Ok, Forall2_flip. eapply Forall2_impl; [exact Hrows|]. by intros k row [? _]. }
  destruct (rows_within _ _ Hrows) as (pairs & Hpairs & Hin).
  cbn -[isfinite_json row_key res_map row_metrics within f_lit expected_rows].
  rewrite length_fmap, Hlen, Nat.eqb_refl. cbn [negb refuse]. rewrite Hks.
  cbn -[isfinite_json row_key res_map row_metrics within f_lit expected_rows].
  rewrite (scenarios_expected _ Hall). cbn -[isfinite_json row_key res_map row_metrics within f_lit expected_rows].
  assert (Hlt : json_lt (JFloat ratio) (JFloat (f_lit "0.85")) = Ok false).
  { unfold json_lt, num_lt. cbn -[f_lit]. f_equal. unfold fltb, SFltb in Hslow. destruct ratio; by destruct (SFcompare _ (f_lit "0.85")) as [[]|]. }
  change (isfinite_json (JFloat ratio)) with (Ok (isfinite ratio)). rewrite Hfinite, Hlt, Hpairs, Hw.
  cbn -[none_bad within]. apply none_bad_true. eapply Forall_impl; [exact Hin|]. intros mf ->. done.
Qed.
End passing.

(** ** At work *)

Definition typed_rowb (row : json) : bool :=
  match jitem "signed" row with Ok s => is_bool s | Raise _ => true end &&
  forallb (λ field, match jitem field row with Ok v => negb (is_bool v) | Raise _ => true end) P95_FIELDS.
Definition typed_reportb (report : json) : bool :=
  match jitem "repetitions" report with
  | Ok repetitions =>
      match items_of repetitions with
      | Ok l => forallb (λ r, match items_of r with Ok rows => forallb typed_rowb rows | Raise _ => true end) l
      | Raise _ => true
      end
  | Raise _ => true
  end &&
  match jitem "heap_growth_bytes" report with Ok v => negb (is_bool v) | Raise _ => true end.

Lemma typed_rowb_ok row : typed_rowb row = true → typed_row row.
Proof.
  intros [Hs Hf]%andb_prop. split.
  - intros s Hj. by rewrite Hj in Hs.
  - intros field v Hin Hj. rewrite forallb_forall in Hf. specialize (Hf field (proj1 (list_elem_of_In _ _) Hin)).
    rewrite Hj in Hf. by apply negb_true_iff.
Qed.
Lemma typed_reportb_ok report : typed_reportb report = true → typed_report report.
Proof.
  intros [Hr Hh]%andb_prop. split.
  - intros repetitions l Hj Hl. rewrite Hj, Hl in Hr. apply Forall_forall. intros r Hin rows Hrows.
    rewrite forallb_forall in Hr. specialize (Hr r (proj1 (list_elem_of_In _ _) Hin)). rewrite Hrows in Hr.
    apply Forall_forall. intros row Hrow. rewrite forallb_forall in Hr. by apply typed_rowb_ok, Hr, list_elem_of_In.
  - intros v Hv. rewrite Hv in Hh. by apply negb_true_iff.
Qed.

(** A report whose percentiles and heap are [p95] and [heap]. *)
Definition example_report (p95 heap : Z) : json :=
  let row (k : scenario_key) := let '(c, m, s) := k in JObj
    [("case", c); ("requested_compression", m); ("signed", s); ("iterations", JInt 100); ("send_sample_count", JInt 100);
     ("receive_sample_count", JInt 100); ("send_p95_us", JInt p95); ("receive_p95_us", JFloat (f_lit "40.5"));
     ("original_bytes", JInt 10); ("wire_bytes", JInt 5); ("effective_compression", m); ("summary", JObj [("error_count", JInt 0)])] in
  JObj
    [("harness_version", JInt 2); ("dart_version", JStr "3.8"); ("platform", JStr "windows");
     ("config", JObj [("repeats", JInt 9); ("iterations", JInt 100); ("warmup_iterations", JInt 10)]);
     ("repetitions", JArr (repeat (JArr (row <$> expected_rows)) 9)); ("elapsed_us", JArr (JInt <$> [5; 4; 6; 3; 7; 2; 8; 1; 9]));
     ("rss_peak_bytes", JInt 1000); ("heap_growth_bytes", JInt heap)].
Definition example_result (p95 heap : Z) : res json := compare (H:=idle_host) (example_report 100 50) (example_report p95 heap).
Example comparison_statuses :
  (r ← example_result 105 55; jitem "status" r) = Ok (JStr "pass") ∧ (r ← example_result 106 55; jitem "status" r) = Ok (JStr "fail") ∧
  (r ← example_result 100 56; jitem "status" r) = Ok (JStr "fail") ∧
  (r ← compare (H:=idle_host) (example_report 100 0) (example_report 100 0); jitem "status" r) = Ok (JStr "inconclusive").
Proof. by vm_compute. Qed.

Definition example_passed : json := Eval vm_compute in match example_result 105 55 with Ok r => r | Raise _ => JNull end.
Theorem passing_section_approved_witness : good_section (JObj [("control", example_passed)]) "control" = Ok true.
Proof.
  apply (passing_section_approved (H:=idle_host) (example_report 100 50) (example_report 105 55) example_passed _ "control" (f_lit "1")).
  - apply typed_reportb_ok. vm_compute. reflexivity.
  - apply typed_reportb_ok. vm_compute. reflexivity.
  - vm_compute. reflexivity.
  - reflexivity.
  - vm_compute. reflexivity.
  - vm_compute. reflexivity.
  - reflexivity.
Defined.
