(* ===== verification/BenchmarkMigrate.v ===== *)
(** * Migrating legacy benchmark summaries (tool/py/benchmark_migrate.py)

    Turns the summary of an old end-to-end run into one of the current layout:
    suites with their status and metrics, and of the configuration only the
    settings that are known to be harmless. *)

From S2P Require Import Prelude PyStr PyRe PyFloat PyJson PyNum PyLib Effects BenchmarkMetrics BenchmarkSummary.

Local Open Scope Z_scope.

(** src: tool/py/benchmark_migrate.py:10-17 _LEGACY_STATUS_MAP *)
Definition LEGACY_STATUS_MAP : list (string * string) :=
  [("pass", "pass"); ("partial_fail", "fail"); ("fail", "fail"); ("fail_on_sql_server_run", "fail");
   ("skipped", "skipped"); ("error", "error")].

(** src: tool/py/benchmark_migrate.py:19-22 _SECRET_KEY_RE *)
Definition SECRET_KEY_RE : regex :=
  RGroup 1 (alts (lit_i <$> ["url"; "token"; "secret"; "password"; "dsn"; "jwt"; "credential"; "connection_string"])).
(** src: tool/py/benchmark_migrate.py:23-23 _URL_RE *)
Definition URL_RE : regex := seqs [lit_i "http"; opt (lit_i "s"); lit "://"].

(** src: tool/py/benchmark_migrate.py:25-48 _METRIC_KEYS *)
Definition METRIC_KEYS : list string :=
  ["wall_ms"; "wall_s"; "insert_ms"; "update_ms"; "delete_ms"; "total_ms"; "queued_elapsed_ms"; "create_ms"; "drop_ms";
   "insert_rows_per_sec"; "update_rows_per_sec"; "delete_rows_per_sec"; "passed"; "failed"; "skipped"; "cases"; "rows";
   "concurrency"; "bulk_insert_parallel_total"; "bulk_insert_chunked_total"].

(** ** Time stamps *)

Definition range (a b : ascii) : regex := RChar (in_range (ord a) (ord b)).
(** The fields of [strptime] that the format uses; a field may have one digit. *)
Definition re_month : regex := alts [RSeq (lit "1") (range "0" "2"); RSeq (lit "0") (range "1" "9"); range "1" "9"].
Definition re_day : regex :=
  alts [RSeq (lit "3") (range "0" "1"); RSeq (range "1" "2") digit; RSeq (lit "0") (range "1" "9"); range "1" "9";
        RSeq (lit " ") (range "1" "9")].
Definition re_hour : regex := alts [RSeq (lit "2") (range "0" "3"); RSeq (range "0" "1") digit; digit].
Definition re_minute : regex := alts [RSeq (range "0" "5") digit; digit].
Definition re_second : regex := alts [RSeq (lit "6") (range "0" "1"); RSeq (range "0" "5") digit; digit].
Definition STAMP_RE : regex :=
  seqs [RGroup 1 (times 4 digit); RGroup 2 re_month; RGroup 3 re_day; lit "_";
        RGroup 4 re_hour; RGroup 5 re_minute; RGroup 6 re_second].

(** [datetime.strptime(s, "%Y%m%d_%H%M%S")], when it is a date. *)
Definition parse_stamp (s : string) : option (Z * Z * Z * Z * Z * Z) :=
  mo ← re_match STAMP_RE s;
  if nonempty (m_rest (mo_end mo)) then None else
  let n i := default 0 (py_int (group_str i mo)) in
  if (1 <=? n 1%nat) && (n 3%nat <=? days_in_month (n 1%nat) (n 2%nat)) && (n 6%nat <=? 59)
  then Some (n 1%nat, n 2%nat, n 3%nat, n 4%nat, n 5%nat, n 6%nat) else None.

(** src: tool/py/benchmark_migrate.py:51-56 _run_timestamp_to_iso *)
Definition run_timestamp_to_iso (run_timestamp : string) : string :=
  match parse_stamp run_timestamp with
  | Some (y, mo, d, h, mi, s) =>
      pad 4 y +:+ "-" +:+ pad 2 mo +:+ "-" +:+ pad 2 d +:+ "T" +:+ pad 2 h +:+ ":" +:+ pad 2 mi +:+ ":" +:+ pad 2 s
  | None => run_timestamp
  end.

(** ** The configuration *)

(** src: tool/py/benchmark_migrate.py:69-75 _sanitize_config *)
Definition extra_keys : list string :=
  ["odbc_e2e_dml_stress_tests"; "odbc_e2e_dml_bulk_tests"; "odbc_e2e_codcliente_tests"; "odbc_e2e_transactional_batch";
   "odbc_e2e_dml_bulk_chunk_size"; "method"].
(** src: tool/py/benchmark_migrate.py:63-76 _sanitize_config *)
Definition allowed_key (key : string) : bool := one_of key (py_lower <$> SAFE_ENV_KEYS) || one_of key extra_keys.

(** src: tool/py/benchmark_migrate.py:80-93 _sanitize_config
    What a text in the configuration becomes, when it is kept. *)
Definition text_flag (value : string) : option json :=
  let text := strip value in
  if one_of (py_lower text) ["true"; "false"] then Some (JBool (py_lower text == "true"))
  else if search URL_RE text then None
  else
    let number := if contains text "." then JFloat <$> py_float text else JInt <$> py_int text in
    match number with
    | Some v => Some v
    | None => if nonempty text && (len text <? 64) then Some (JStr text) else None
    end.

Section migrate.
Context `{Host}.

(** src: tool/py/benchmark_migrate.py:65-97 _sanitize_config *)
Definition sanitize_entry (flags : list (string * json)) (kv : string * json) : list (string * json) :=
  let '(key, raw) := kv in
  if search SECRET_KEY_RE key || search URL_RE (str_of raw) then flags
  else
    let normalized := py_lower key in
    if negb (allowed_key normalized) then flags
    else match raw with
         | JStr s => match text_flag s with Some v => assoc_set normalized v flags | None => flags end
         | JBool _ | JInt _ | JFloat _ => assoc_set normalized raw flags
         | _ => flags
         end.

(** src: tool/py/benchmark_migrate.py:59-99 _sanitize_config *)
Definition sanitize_config (config : option (list (string * json))) : list (string * json) :=
  match config with
  | None | Some [] => []
  | Some config =>
      let flags := foldl sanitize_entry [] config in
      match assoc "odbc_test_dsn_configured" flags with
      | Some _ => flags
      | None => assoc_set "odbc_test_dsn_configured" (JBool true) flags
      end
  end.

(** ** Suites *)

(** src: tool/py/benchmark_migrate.py:105-111 _extract_metrics *)
Definition migrate_metric (m : metrics) (kv : string * json) : res metrics :=
  let '(key, value) := kv in
  if one_of key METRIC_KEYS && is_number value then
    f ← float_of_json value;
    Ok (if key == "wall_s" then assoc_set "wall_ms" (fmul f (f_lit "1000.0")) m else assoc_set key f m)
  else Ok m.

(** src: tool/py/benchmark_migrate.py:102-112 _extract_metrics *)
Definition extract_metrics (entry : list (string * json)) : res metrics := fold_res migrate_metric entry [].

Definition metrics_json (m : metrics) : json := JObj ((λ kv : string * float, (fst kv, JFloat (snd kv))) <$> m).

(** [entry.get(key, default)] of a dict, as text. *)
Definition field (entry : list (string * json)) (key dflt : string) : string :=
  str_of (default (JStr dflt) (assoc key entry)).
(** src: tool/py/benchmark_migrate.py:118-118 _suite_from_result *)
Definition status_of (entry : list (string * json)) : string :=
  default "error" (assoc (field entry "status" "error") LEGACY_STATUS_MAP).

(** The fields a suite has from its metrics. *)
Definition metric_fields (m : metrics) : list (string * json) :=
  match m with [] => [] | _ => [("metrics", metrics_json m)] end.

Definition get_or_null (entry : list (string * json)) (key : string) : json := default JNull (assoc key entry).

(** src: tool/py/benchmark_migrate.py:115-134 _suite_from_result *)
Definition suite_from_result (entry : list (string * json)) : res json :=
  let status := status_of entry in
  m ← extract_metrics entry;
  wall ← match assoc "wall_ms" m, assoc "wall_s" entry with
         | Some f, _ => Ok [("wall_ms", JFloat f)]
         | None, Some v => if is_number v then f ← float_of_json v; Ok [("wall_ms", JFloat (fmul f (f_lit "1000.0")))]
                           else Ok []
         | None, None => Ok []
         end;
  let reason := jor (get_or_null entry "reason") (get_or_null entry "note") in
  Ok (JObj ([("id", JStr (field entry "test" "unknown" +:+ "." +:+ field entry "driver" "unknown"));
             ("kind", JStr "flutter_test"); ("status", JStr status)] ++ metric_fields m ++ wall ++
            (if truthy reason && one_of status ["skipped"; "fail"; "error"]
             then [("reason", JStr (str_take 500 (str_of reason)))] else []))).

(** src: tool/py/benchmark_migrate.py:137-155 _suite_from_suite_result *)
Definition suite_from_suite_result (suite_id : string) (entry : list (string * json)) : res json :=
  m ← extract_metrics entry;
  let failures := get_or_null entry "failures" in
  reason ← (if truthy failures then l ← items_of failures; Ok [("reason", JStr (str_take 500 (join "; " (str_of <$> l))))]
            else Ok []);
  Ok (JObj ([("id", JStr suite_id); ("kind", JStr "flutter_test"); ("status", JStr (status_of entry))] ++
            metric_fields m ++
            match assoc "wall_ms" m with Some f => [("wall_ms", JFloat f)] | None => [] end ++
            match assoc "log" entry with
            | Some (JStr log) => if nonempty log then [("log_file", JStr log)] else []
            | _ => []
            end ++ reason)).

(** ** Summaries *)

(** src: tool/py/benchmark_migrate.py:162-164 migrate_legacy_summary
    The suites of a list of results and of a dict of results. *)
Fixpoint results_suites (entries : list json) : res (list json) :=
  match entries with
  | [] => Ok []
  | JObj entry :: entries => s ← suite_from_result entry; l ← results_suites entries; Ok (s :: l)
  | _ :: entries => results_suites entries
  end.

(** src: tool/py/benchmark_migrate.py:168-171 migrate_legacy_summary *)
Fixpoint suite_results_suites (entries : list (string * json)) : res (list json) :=
  match entries with
  | [] => Ok []
  | (suite_id, JObj entry) :: entries =>
      if suite_id == "totals" then suite_results_suites entries
      else s ← suite_from_suite_result suite_id entry; l ← suite_results_suites entries; Ok (s :: l)
  | _ :: entries => suite_results_suites entries
  end.

(** src: tool/py/benchmark_migrate.py:173-180 migrate_legacy_summary *)
Definition notes_of (legacy : list (string * json)) (source_path : option string) : list string :=
  ["Migrated from legacy benchmark_logs/ E2E summary (schema v1).";
   "Connection strings, URLs, tokens and host-specific config were stripped."] ++
  (if truthy (get_or_null legacy "scope") then ["Legacy scope: " +:+ str_of (get_or_null legacy "scope")] else []) ++
  match source_path with Some p => ["Source: " +:+ p] | None => [] end.

(** src: tool/py/benchmark_migrate.py:159-159 migrate_legacy_summary *)
Definition run_id_of (legacy : list (string * json)) : string :=
  str_of (jor (jor (get_or_null legacy "run_timestamp") (get_or_null legacy "run_id")) (JStr "unknown")).

(** src: tool/py/benchmark_migrate.py:158-200 migrate_legacy_summary
    The fields of the result, in order. *)
Definition migrate_legacy_summary (legacy : list (string * json)) (source_path : option string) :
    res (list (string * json)) :=
  let run_id := run_id_of legacy in
  results ← items_of (default (JArr []) (assoc "results" legacy));
  from_results ← results_suites results;
  from_suites ← match assoc "suite_results" legacy with
                | Some (JObj d) => suite_results_suites d
                | _ => Ok []
                end;
  Ok [("$schema", JStr "../schema/summary.schema.json"); ("schema_version", JInt 1); ("run_id", JStr run_id);
      ("captured_at", JStr (run_timestamp_to_iso run_id));
      ("git", JObj [("commit_sha", JStr "migrated-legacy"); ("branch", JStr "migrated-legacy"); ("dirty", JBool false)]);
      ("machine", JObj [("platform", JStr "legacy-e2e"); ("machine", JStr "migrated"); ("processor", JStr "benchmark_logs-import")]);
      ("env_flags", JObj (sanitize_config match assoc "config" legacy with Some (JObj d) => Some d | _ => None end));
      ("suites", JArr (from_results ++ from_suites));
      ("notes", JArr (JStr <$> notes_of legacy source_path))].

(** [directory / name]: an absolute name replaces the directory. *)
Definition join_name (directory name : string) : string := if is_absolute name then posix name else directory // name.

(** src: tool/py/benchmark_migrate.py:203-210 migrate_legacy_file *)
Definition migrate_legacy_file (source output_dir : string) : M string :=
  text ← read_text source;
  legacy ← lift (loads text);
  match legacy with
  | JObj d =>
      summary ← lift (migrate_legacy_summary d (Some source));
      let destination := join_name output_dir (run_id_of d) // "summary.json" in
      _ ← write_json destination (JObj summary);
      mret destination
  | _ => raise (AttributeError "get")
  end.
End migrate.

(** ** The layout of a summary

    The part of benchmarks/schema/summary.schema.json on the types, the fields
    and their required presence; lengths, ranges and the pattern of a run id
    are left out. *)

Definition is_str (v : json) : bool := match v with JStr _ => true | _ => false end.
Definition scalar (v : json) : bool := match v with JArr _ | JObj _ => false | _ => true end.
(** JSON Schema does not count a boolean as a number. *)
Definition schema_number (v : json) : bool := match v with JInt _ | JFloat _ => true | _ => false end.
Definition all_fields (p : string → json → bool) (v : json) : bool :=
  match v with JObj d => forallb (λ kv, p (fst kv) (snd kv)) d | _ => false end.
Definition has_fields (required : list string) (v : json) : bool :=
  match v with JObj d => forallb (λ k, one_of k d.*1) required | _ => false end.
Definition one_of_texts (texts : list string) (v : json) : bool :=
  match v with JStr s => one_of s texts | _ => false end.

Definition suite_field (k : string) (v : json) : bool :=
  if one_of k ["id"; "log_file"; "reason"] then is_str v
  else if k == "kind" then one_of_texts ["flutter_test"; "dart_tool"; "dart_odbc_fast"] v
  else if k == "status" then one_of_texts ["pass"; "fail"; "skipped"; "error"; "inconclusive"] v
  else if k == "wall_ms" then schema_number v
  else if k == "metrics" then all_fields (λ _ x, scalar x) v
  else false.
Definition schema_suite (v : json) : bool := has_fields ["id"; "kind"; "status"] v && all_fields suite_field v.

Definition git_field (k : string) (v : json) : bool :=
  if one_of k ["commit_sha"; "branch"] then is_str v else if k == "dirty" then is_bool v else false.
Definition machine_field (k : string) (v : json) : bool :=
  if one_of k ["platform"; "machine"; "processor"; "python_version"] then is_str v else true.

Definition summary_field (k : string) (v : json) : bool :=
  if one_of k ["$schema"; "run_id"; "captured_at"] then is_str v
  else if k == "schema_version" then jeq v (JInt 1) || jeq v (JInt 2)
  else if k == "git" then has_fields ["commit_sha"; "branch"; "dirty"] v && all_fields git_field v
  else if k == "machine" then has_fields ["platform"; "machine"] v && all_fields machine_field v
  else if k == "env_flags" then all_fields (λ _ x, scalar x) v
  else if k == "suites" then match v with JArr l => forallb schema_suite l | _ => false end
  else if k == "notes" then match v with JArr l => forallb is_str l | _ => false end
  else false.
Definition schema_summary (v : json) : bool :=
  has_fields ["schema_version"; "run_id"; "captured_at"; "git"; "machine"; "env_flags"; "suites"] v &&
  all_fields summary_field v.

Section typed.
Context `{Host}.

Lemma metrics_json_scalar m : all_fields (λ _ x, scalar x) (metrics_json m) = true.
Proof. simpl. apply forallb_forall. intros kv Hin. apply list_elem_of_In, list_elem_of_fmap in Hin as ([k f] & -> & _). done. Qed.

Lemma status_known entry : one_of (status_of entry) ["pass"; "fail"; "skipped"; "error"; "inconclusive"] = true.
Proof.
  unfold status_of. generalize (field entry "status" "error"). intros s. cbn [LEGACY_STATUS_MAP assoc].
  repeat case_match; done.
Qed.

Lemma schema_suite_fields d : forallb (λ k, one_of k d.*1) ["id"; "kind"; "status"] = true →
  Forall (λ kv : string * json, suite_field (fst kv) (snd kv) = true) d → schema_suite (JObj d) = true.
Proof.
  intros Hr Hf. unfold schema_suite, has_fields, all_fields. rewrite Hr. simpl.
  apply forallb_forall. rewrite Forall_forall in Hf. intros kv Hin. by apply Hf, list_elem_of_In.
Qed.

Lemma metric_fields_ok m : Forall (λ kv : string * json, suite_field (fst kv) (snd kv) = true) (metric_fields m).
Proof. unfold metric_fields. destruct m; [constructor|]. constructor; [|constructor]. apply metrics_json_scalar. Qed.

Lemma header_ok id status : one_of status ["pass"; "fail"; "skipped"; "error"; "inconclusive"] = true →
  Forall (λ kv : string * json, suite_field (fst kv) (snd kv) = true)
    [("id", JStr id); ("kind", JStr "flutter_test"); ("status", JStr status)].
Proof. intros Hs. repeat constructor; done. Qed.

Lemma suite_from_result_typed entry s : suite_from_result entry = Ok s → schema_suite s = true.
Proof.
  unfold suite_from_result. intros Hs. apply res_bind_Ok in Hs as (m & Hm & Hs).
  apply res_bind_Ok in Hs as (wall & Hw & Hs). apply (inj Ok) in Hs as <-.
  apply schema_suite_fields; [done|]. rewrite !Forall_app.
  split; [apply header_ok, status_known|]. split; [apply metric_fields_ok|]. split.
  - destruct (assoc "wall_ms" m); [apply (inj Ok) in Hw as <-; repeat constructor|].
    destruct (assoc "wall_s" entry) as [v|]; [|apply (inj Ok) in Hw as <-; constructor].
    destruct (is_number v); [|apply (inj Ok) in Hw as <-; constructor].
    apply res_bind_Ok in Hw as (f & _ & Hw). apply (inj Ok) in Hw as <-. repeat constructor.
  - destruct (truthy _ && _); repeat constructor.
Qed.

Lemma suite_from_suite_result_typed id entry s : suite_from_suite_result id entry = Ok s → schema_suite s = true.
Proof.
  unfold suite_from_suite_result. intros Hs. apply res_bind_Ok in Hs as (m & Hm & Hs).
  apply res_bind_Ok in Hs as (reason & Hr & Hs). apply (inj Ok) in Hs as <-.
  apply schema_suite_fields; [done|]. repeat apply Forall_app_2.
  - apply header_ok, status_known.
  - apply metric_fields_ok.
  - destruct (assoc "wall_ms" m); repeat constructor.
  - destruct (assoc "log" entry) as [[| | | |log| |]|]; try constructor. destruct (nonempty log); repeat constructor.
  - destruct (truthy _); [|apply (inj Ok) in Hr as <-; constructor].
    apply res_bind_Ok in Hr as (l & _ & Hr). apply (inj Ok) in Hr as <-. repeat constructor.
Qed.

Lemma results_suites_typed entries l : results_suites entries = Ok l → Forall (λ s, schema_suite s = true) l.
Proof.
  revert l. induction entries as [|e entries IH]; intros l Hl; simpl in Hl; [inv_res; constructor|].
  destruct e as [| | | | | |d]; try by apply IH. inv_res. constructor; [by eapply suite_from_result_typed|by apply IH].
Qed.

Lemma suite_results_typed entries l : suite_results_suites entries = Ok l → Forall (λ s, schema_suite s = true) l.
Proof.
  revert l. induction entries as [|[id e] entries IH]; intros l Hl; simpl in Hl; [inv_res; constructor|].
  destruct e as [| | | | | |d]; try by apply IH. destruct (id == "totals"); [by apply IH|]. inv_res.
  constructor; [by eapply suite_from_suite_result_typed|by apply IH].
Qed.

(** ** The settings that are kept *)

(** A setting that a migrated summary may publish. *)
Definition harmless (kv : string * json) : Prop :=
  (allowed_key (fst kv) = true ∨ kv = ("odbc_test_dsn_configured", JBool true)) ∧
  scalar (snd kv) = true ∧
  ∀ s, snd kv = JStr s → search URL_RE s = false ∧ len s < 64.

Lemma text_flag_harmless key value v : allowed_key key = true → text_flag value = Some v → harmless (key, v).
Proof.
  unfold text_flag. intros Hk Hv. assert (∀ x, scalar x = true → is_str x = false → harmless (key, x)) as Hother.
  { intros x Hx Hn. split_and!; [by left|done|]. simpl. intros s ->. done. }
  destruct (one_of _ ["true"; "false"]); [injection Hv as <-; by apply Hother|].
  destruct (search URL_RE (strip value)) eqn:Eu; [done|].
  destruct (if contains (strip value) "." then _ else _) as [x|] eqn:En.
  - injection Hv as <-. case_match; [destruct (py_float _)|destruct (py_int _)]; try discriminate En;
      injection En as <-; by apply Hother.
  - destruct (nonempty (strip value) && (len (strip value) <? 64)) eqn:El; [|done]. injection Hv as <-.
    apply andb_prop in El as [_ El%Z.ltb_lt]. split_and!; [by left|done|]. by intros s [= <-].
Qed.

Lemma sanitize_entry_harmless flags kv : Forall harmless flags → Forall harmless (sanitize_entry flags kv).
Proof.
  destruct kv as [key raw]. intros Hf. unfold sanitize_entry.
  assert (∀ v, harmless (py_lower key, v) → Forall harmless (assoc_set (py_lower key) v flags)) as Hset.
  { intros v Hv. apply Forall_forall. intros x [Hx| ->]%assoc_set_elem; [|done]. by eapply Forall_forall in Hf. }
  destruct (_ || _); [done|]. destruct (allowed_key (py_lower key)) eqn:Ek; [|done]. simpl.
  destruct raw; try done; try (apply Hset; split_and!; [by left|done|done]).
  destruct (text_flag s) eqn:Et; [|done]. apply Hset. by eapply text_flag_harmless.
Qed.

Lemma sanitize_harmless config : Forall harmless (sanitize_config config).
Proof.
  destruct config as [[|kv config]|]; [constructor| |constructor]. unfold sanitize_config.
  assert (∀ l flags, Forall harmless flags → Forall harmless (foldl sanitize_entry flags l)) as Hfold.
  { induction l as [|x l IH]; intros flags Hf; simpl; [done|]. by apply IH, sanitize_entry_harmless. }
  specialize (Hfold (kv :: config) [] (proj2 (Forall_nil _) I)).
  destruct (assoc "odbc_test_dsn_configured" _); [done|].
  apply Forall_forall. intros x [Hx| ->]%assoc_set_elem; [by eapply Forall_forall in Hfold|].
  split_and!; [by right|done|done].
Qed.

End typed.

(** ** A legacy summary *)

Definition example_legacy : list (string * json) :=
  [("run_timestamp", JStr "20250131_101502"); ("scope", JStr "PWD=secret");
   ("results", JArr [JObj [("test", JStr "dml"); ("driver", JStr "sqlserver"); ("status", JStr "partial_fail");
                           ("wall_s", JFloat (f_lit "1.5")); ("note", JStr "one case failed")]; JStr "skipped line"]);
   ("suite_results", JObj [("totals", JObj []); ("stress", JObj [("status", JStr "unknown"); ("rows", JInt 10);
                           ("failures", JArr [JStr "a"; JInt 2])])]);
   ("config", JObj [("ODBC_POOL_SIZE", JStr "8"); ("hub_url", JStr "x"); ("method", JStr " bulk "); ("other", JInt 1);
                    ("RUN_LIVE_API_TESTS", JStr "http://host"); ("ODBC_E2E_DML_STRESS_TESTS", JStr "False")])].

Example migrated_example :
  (d ← migrate_legacy_summary (H:=idle_host) example_legacy None;
   Ok (assoc "captured_at" d, assoc "env_flags" d, assoc "suites" d)) =
  Ok (Some (JStr "2025-01-31T10:15:02"),
      Some (JObj [("odbc_pool_size", JInt 8); ("method", JStr "bulk"); ("odbc_e2e_dml_stress_tests", JBool false);
                  ("odbc_test_dsn_configured", JBool true)]),
      Some (JArr [JObj [("id", JStr "dml.sqlserver"); ("kind", JStr "flutter_test"); ("status", JStr "fail");
                        ("metrics", JObj [("wall_ms", JFloat (f_lit "1500"))]); ("wall_ms", JFloat (f_lit "1500"));
                        ("reason", JStr "one case failed")];
                  JObj [("id", JStr "stress"); ("kind", JStr "flutter_test"); ("status", JStr "error");
                        ("metrics", JObj [("rows", JFloat (f_lit "10"))]); ("reason", JStr "a; 2")]])).
Proof. vm_compute. reflexivity. Qed.

Example stamps : run_timestamp_to_iso "20250229_101502" = "20250229_101502" ∧
  run_timestamp_to_iso "2025131_10159" = "2025-01-31T10:15:09" ∧ run_timestamp_to_iso "baseline" = "baseline".
Proof. vm_compute. done. Qed.

(** The notes promise that connection strings were stripped, and repeat the
    scope of the legacy summary as it is. *)
Theorem scope_kept `{Host} (legacy : list (string * json)) (scope : string) :
  assoc "scope" legacy = Some (JStr scope) → scope ≠ EmptyString →
  "Connection strings, URLs, tokens and host-specific config were stripped." ∈ notes_of legacy None ∧
  ("Legacy scope: " +:+ scope) ∈ notes_of legacy None.
Proof.
  intros Hs Hn. unfold notes_of, get_or_null. rewrite Hs. simpl. apply nonempty_true in Hn. rewrite Hn.
  split; solve_elem.
Qed.

