(* ===== verification/OdbcBenchmarkRunner.v ===== *)
(** * Running the native ODBC benchmarks (tool/py/odbc_benchmark_runner.py)

    Chooses the data source, prepares the environment of the Dart program, runs
    it with its output going to a log, reads the metrics back and decides
    whether the run may count: a complete report with nine repetitions and
    gates that hold. *)

From S2P Require Import Prelude PyStr PyRe PyFloat PyJson PyNum Effects ScriptUtils OdbcBenchmarkGate BenchmarkMetrics.

Local Open Scope Z_scope.

(** [time.perf_counter()] *)
Class Clock : Type := { perf_counter : world → float }.

(** src: tool/py/odbc_benchmark_runner.py:20-20 DEFAULT_ASYNC_BENCHMARK *)
Definition DEFAULT_ASYNC_BENCHMARK : string := "tool/benchmarks/native_odbc_benchmark.dart".

(** src: tool/py/odbc_benchmark_runner.py:24-35 _resolve_benchmark_dsn *)
Definition resolve_benchmark_dsn (env : environment) : string :=
  default EmptyString (List.find nonempty (env_text env <$>
    ["ODBC_BENCH_DRIVER_DSN"; "ODBC_TEST_DSN_SQL_SERVER"; "ODBC_DSN_SQL_SERVER"; "ODBC_TEST_DSN"; "ODBC_DSN"])).

(** src: tool/py/odbc_benchmark_runner.py:38-43 _apply_benchmark_dsn_preference *)
Definition apply_benchmark_dsn_preference (env : environment) : environment :=
  let dsn := resolve_benchmark_dsn env in
  if nonempty dsn then <["ODBC_TEST_DSN" := dsn]> env else env.

(** src: tool/py/odbc_benchmark_runner.py:62-62 _native_environment *)
Definition version_re : regex :=
  seqs [RBol; lit "version:"; star space; RGroup 1 (plus (RChar (λ c, negb (is_space c) && negb (Ascii.eqb c "#"))))].

(** What one benchmark is called with. *)
Record request : Type := Request {
  package_root : string; log_path : string; extra_args : list string;
  benchmark_path : option string; environment_arg : option environment }.

Definition result : Type := Z * metrics * string.

Section runner.
Context `{Host} `{Clock}.

(** src: tool/py/odbc_benchmark_runner.py:46-50 resolve_benchmark_driver_family *)
Definition resolve_benchmark_driver_family (o : option environment) : M string :=
  env ← resolve_environment o; mret (get_dsn_driver_family (resolve_benchmark_dsn env)).

(** src: tool/py/odbc_benchmark_runner.py:53-55 _reset_benchmark_log *)
Definition reset_benchmark_log (log_path : string) : M unit :=
  _ ← mkdir (path_parent log_path); write_text log_path EmptyString.

Definition platform_dir : string := if host_nt then "windows_x64" else "linux_x64".
Definition library : string := if host_nt then "odbc_engine.dll" else "libodbc_engine.so".
Definition path_key : string := if host_nt then "PATH" else "LD_LIBRARY_PATH".
Definition pathsep : string := if host_nt then ";" else ":".

(** src: tool/py/odbc_benchmark_runner.py:58-71 _native_environment
    For a package description in UTF-8. *)
Definition native_environment (package_root : string) (source : option environment) : M environment :=
  env ← resolve_environment source;
  text ← read_text (package_root // "pubspec.yaml");
  let home := str_or (default EmptyString (env !! "USERPROFILE")) (default EmptyString (env !! "HOME")) in
  match re_search version_re text with
  | Some mo =>
      if nonempty home then
        let artifact := posix home // ".cache/odbc_fast" // group_str 1 mo // platform_dir in
        here ← is_file (artifact // library);
        mret (if (here : bool)
              then <[path_key := path_str artifact +:+ pathsep +:+ default EmptyString (env !! path_key)]> env
              else env)
      else mret env
  | None => mret env
  end.

Definition perf_now : M float := λ w, (Ok (perf_counter w), w).

(** src: tool/py/odbc_benchmark_runner.py:96-96 run_odbc_async_benchmark
    [log_path.read_text() if log_path.is_file() else ""] *)
Definition read_log (log_path : string) : M string :=
  here ← is_file log_path; if (here : bool) then read_text log_path else mret EmptyString.

Definition benchmark_file (r : request) : string :=
  default (PROJECT_ROOT // DEFAULT_ASYNC_BENCHMARK) (benchmark_path r).

(** src: tool/py/odbc_benchmark_runner.py:100-100 run_odbc_async_benchmark
    Whether the report is complete and of nine repetitions. *)
Definition complete_report (output mode : string) : res bool :=
  and_then ← valid_native_benchmark_report output mode;
  if negb and_then then Ok false
  else
    payload ← extract_json_object_from_output output;
    match payload with
    | Some d => Ok (jeq (default JNull (assoc "repeats" d)) (JInt 9))
    | None => Raise (AttributeError "get")
    end.

(** src: tool/py/odbc_benchmark_runner.py:108-109 run_odbc_async_benchmark
    [required.issubset({row.label for row in scenarios})] *)
Definition has_labels (required : list string) (scenarios : list AsyncBenchmarkScenario) : res bool :=
  _ ← for_each (λ s, hashable (a_label s)) scenarios;
  Ok (forallb (λ k, existsb (λ s, jeq (a_label s) (JStr k)) scenarios) required).

(** src: tool/py/odbc_benchmark_runner.py:100-111 run_odbc_async_benchmark
    The part after the program ended with 0. *)
Definition check_async (env : environment) (m : metrics) (output : string) : M result :=
  complete ← lift (complete_report output "async");
  if negb complete then mret (2, m, output)
  else
    gate_exit ← enforce_async_benchmark_gates output (Some env);
    if negb (gate_exit =? 0) then mret (gate_exit, m, output)
    else
      scenarios ← lift (parse_async_benchmark_scenarios output);
      ok ← lift (has_labels (expected_scenarios "async") scenarios);
      mret (if (ok : bool) then 0 else 2, m, output).

(** src: tool/py/odbc_benchmark_runner.py:74-111 run_odbc_async_benchmark *)
Definition run_odbc_async_benchmark (r : request) : M result :=
  env ← native_environment (package_root r) (environment_arg r);
  let env := apply_benchmark_dsn_preference env in
  let env := <["ODBC_BENCH_REPRO_DIR" := path_str (path_parent (log_path r) // "native_reproducer")]> env in
  found ← resolve_benchmark_package (benchmark_file r);
  let '(execution_root, _, relative_path) := found in
  _ ← reset_benchmark_log (log_path r);
  started ← perf_now;
  exit_code ← run_streaming (["dart"; "run"; relative_path; "--mode"; "async"] ++ extra_args r)
                (Some execution_root) (Some env) (Some (log_path r));
  ended ← perf_now;
  output ← read_log (log_path r);
  m ← lift (parse_odbc_benchmark_metrics output);
  let m := assoc_set "wall_ms" (fmul (fsub ended started) (f_lit "1000.0")) m in
  if exit_code =? 0 then check_async env m output else mret (exit_code, m, output).

(** [stream_metrics.get(f"{label}.rows", 0)] *)
Definition rows_of (m : metrics) (label : string) : float := default f_zero (assoc (label +:+ ".rows") m).

(** src: tool/py/odbc_benchmark_runner.py:141-152 run_odbc_streaming_benchmark *)
Definition check_streaming (env : environment) (m stream_metrics : metrics) (output : string) : M result :=
  complete ← lift (complete_report output "streaming");
  let buffer := rows_of stream_metrics "streamQueryBuffer" in
  let batched := rows_of stream_metrics "streamQueryBatched" in
  if negb complete then mret (2, m, output)
  else if fleb buffer f_zero || fleb batched f_zero then mret (2, m, output)
  else if negb (feqb buffer batched) then mret (2, m, output)
  else
    gate_exit ← enforce_streaming_benchmark_gates output (Some env);
    mret (gate_exit, m, output).

(** src: tool/py/odbc_benchmark_runner.py:114-152 run_odbc_streaming_benchmark *)
Definition run_odbc_streaming_benchmark (r : request) : M result :=
  env ← native_environment (package_root r) (environment_arg r);
  let env := apply_benchmark_dsn_preference env in
  found ← resolve_benchmark_package (benchmark_file r);
  let '(execution_root, _, relative_path) := found in
  _ ← reset_benchmark_log (log_path r);
  started ← perf_now;
  exit_code ← run_streaming (["dart"; "run"; relative_path; "--mode"; "streaming"] ++ extra_args r)
                (Some execution_root) (Some env) (Some (log_path r));
  output ← read_log (log_path r);
  ended ← perf_now;
  m ← lift (parse_odbc_benchmark_metrics output);
  let m := assoc_set "wall_ms" (fmul (fsub ended started) (f_lit "1000.0")) m in
  if exit_code =? 0 then
    stream_metrics ← lift (parse_odbc_streaming_benchmark_metrics output);
    let m := foldl (λ m kv, assoc_set (fst kv) (snd kv) m) m stream_metrics in
    check_streaming env m stream_metrics output
  else mret (exit_code, m, output).
End runner.

(** ** What a run that counts has measured *)

Section passed.
Context `{Host} `{Clock}.

Lemma complete_report_true output mode : complete_report output mode = Ok true →
  valid_native_benchmark_report output mode = Ok true ∧
  ∃ d, extract_json_object_from_output output = Ok (Some d) ∧
       jeq (default JNull (assoc "repeats" d)) (JInt 9) = true.
Proof.
  unfold complete_report. intros Hc. apply res_bind_Ok in Hc as ([] & Hv & Hc); [|discriminate Hc].
  split; [done|]. simpl in Hc. apply res_bind_Ok in Hc as ([d|] & Hd & Hc); [|discriminate Hc].
  exists d. split; [done|]. by apply (inj Ok) in Hc.
Qed.

(** A report of nine repetitions of every scenario of the mode. *)
Definition measured (output mode : string) : Prop :=
  ∃ d rows, extract_json_object_from_output output = Ok (Some d) ∧ assoc "scenarios" d = Some (JArr rows) ∧
    length rows = length (expected_scenarios mode) ∧
    Forall (λ e, ∃ d, JObj d ∈ rows ∧ assoc "scenario" d = Some (JStr e)) (expected_scenarios mode) ∧
    Forall (sound_row mode 9) rows.

Lemma complete_measured output mode : complete_report output mode = Ok true → measured output mode.
Proof.
  intros (Hv & d & Hd & Hr)%complete_report_true.
  destruct (valid_report_rows _ _ Hv) as (d' & rows & Hd' & Hs & Hl & Hn & _ & Hk). same_res.
  exists d', rows. split_and!; try done. by apply Hk.
Qed.

Lemma check_async_zero env m output w m' out w' : runs (check_async env m output) w (0, m', out) w' →
  out = output ∧ measured output "async" ∧ ∃ w1, runs (enforce_async_benchmark_gates output (Some env)) w 0 w1.
Proof.
  unfold check_async. intros Hr. apply runs_bind in Hr as (c & w1 & [Hc <-]%runs_lift & Hr).
  destruct c; [|inv_runs; done]. apply runs_bind in Hr as (g & w1 & Hg & Hr).
  destruct (g =? 0) eqn:Eg; simpl in Hr; [apply Z.eqb_eq in Eg as ->|inv_runs; by simplify_eq]. inv_runs.
  simplify_eq. split_and!; [done|by apply complete_measured|by eexists].
Qed.

Lemma check_streaming_zero env m sm output w m' out w' : runs (check_streaming env m sm output) w (0, m', out) w' →
  out = output ∧ measured output "streaming" ∧
  feqb (rows_of sm "streamQueryBuffer") (rows_of sm "streamQueryBatched") = true ∧
  ∃ w1, runs (enforce_streaming_benchmark_gates output (Some env)) w 0 w1.
Proof.
  unfold check_streaming. intros Hr. apply runs_bind in Hr as (c & w1 & [Hc <-]%runs_lift & Hr).
  destruct c; [|inv_runs; done]. simpl in Hr. destruct (_ || _); [inv_runs; done|].
  destruct (negb _) eqn:En; [inv_runs; done|]. apply negb_false_iff in En. inv_runs.
  simplify_eq. split_and!; [done|by apply complete_measured|done|]. by eexists.
Qed.

(** A benchmark that exits with 0 counts: its log holds a complete report with
    nine repetitions of every scenario, and the gates on the output passed. A
    streaming run has also read the same number of rows both ways. *)
Theorem benchmark_counts (r : request) (w w' : world) (m : metrics) (output : string) :
  (runs (run_odbc_async_benchmark r) w (0, m, output) w' →
   measured output "async" ∧ ∃ env w1 w2, runs (enforce_async_benchmark_gates output (Some env)) w1 0 w2) ∧
  (runs (run_odbc_streaming_benchmark r) w (0, m, output) w' →
   measured output "streaming" ∧
   (∃ sm, parse_odbc_streaming_benchmark_metrics output = Ok sm ∧
          feqb (rows_of sm "streamQueryBuffer") (rows_of sm "streamQueryBatched") = true) ∧
   ∃ env w1 w2, runs (enforce_streaming_benchmark_gates output (Some env)) w1 0 w2).
Proof.
  split; intros Hrun.
  - unfold run_odbc_async_benchmark in Hrun. inv_runs. destruct a0 as [[root bench] rel]. inv_runs.
    case_match eqn:Ez; [|inv_runs; by simplify_eq].
    apply check_async_zero in Hrun as (-> & Hm & w1' & Hg). split; [done|]. by do 3 eexists.
  - unfold run_odbc_streaming_benchmark in Hrun. inv_runs. destruct a0 as [[root bench] rel]. inv_runs.
    case_match eqn:Ez; [|inv_runs; by simplify_eq]. inv_runs.
    apply check_streaming_zero in Hrun as (-> & Hm & Hf & w1' & Hg). split_and!; [done|by eexists|by do 3 eexists].
Qed.
End passed.

(** ** A streaming run *)

Definition nine_report : string := Eval vm_compute in default EmptyString (render false "," ":" (JObj
  [("benchmark", JStr "native_odbc_streaming"); ("harness_version", JInt 2); ("repeats", JInt 9);
   ("workload", JStr "deterministic_8000_rows_v1"); ("rows", JInt 8000); ("warmup", JInt 1);
   ("scenarios", JArr ((λ n, JObj (("scenario", JStr n) :: ("samples", JArr (replicate 9 (JObj example_measures))) ::
      ("rows_per_second", JInt 100) :: example_measures)) <$> ["streamQueryBatched"; "streamQueryBuffer"]))])).

(** A host whose Dart program prints the report. *)
Definition dart_host : Host := {|
  host_nt := true;
  host_run := λ _ _ w, (Ok (Proc 0 ("Shell: " +:+ nine_report +:+ nl) ""), w_fs w);
  host_which := λ c _, Some c;
  host_fetch := λ _ _, Raise (OSError "offline");
  host_now := λ _, 0; host_utcoffset := 0; host_exn_str := λ _, "error"; host_repr := λ _, "value";
  host_tmp := λ _, "tmp"; host_isatty := false; host_root := "C:/repo" |}.
Definition still_clock : Clock := {| perf_counter := λ _, f_lit "1.5" |}.
Definition dart_world : world := World
  {["C:/repo/tool/bench.dart" := File "main"; "C:/repo/pubspec.yaml" := File ("name: x" +:+ nl +:+ "version: 1.2.3")]}
  {["ODBC_DSN" := "dsn"; "USERPROFILE" := "C:\Users\me"]} [].
Definition dart_request : request := Request "C:/repo" "C:/logs/run.log" ["--repeats"; "9"] (Some "C:/repo/tool/bench.dart") None.
Definition dart_run : res result * world := Eval vm_compute in
  run_odbc_streaming_benchmark (H:=dart_host) (H0:=still_clock) dart_request dart_world.
Definition dart_result : result := match fst dart_run with Ok r => r | Raise _ => (1, [], EmptyString) end.

Example dart_run_counts : fst (fst dart_result) = 0 ∧
  assoc "wall_ms" (snd (fst dart_result)) = Some f_zero ∧
  assoc "streamQueryBuffer.rows_per_second" (snd (fst dart_result)) = Some (f_lit "100") ∧
  w_fs (snd dart_run) !! "C:/logs/run.log" = Some (File ("Shell: " +:+ nine_report +:+ cr +:+ nl)).
Proof. vm_compute. done. Qed.

Theorem benchmark_counts_witness :
  measured (snd dart_result) "streaming" ∧
  (∃ sm, parse_odbc_streaming_benchmark_metrics (snd dart_result) = Ok sm ∧
         feqb (rows_of sm "streamQueryBuffer") (rows_of sm "streamQueryBatched") = true) ∧
  ∃ env w1 w2, runs (enforce_streaming_benchmark_gates (snd dart_result) (Some env)) w1 0 w2.
Proof.
  refine (proj2 (benchmark_counts (H:=dart_host) (H0:=still_clock) dart_request dart_world (snd dart_run)
                   (snd (fst dart_result)) (snd dart_result)) _).
  run_vm.
Defined.
