(* ===== verification/NativePackage.v ===== *)
(** * The published native library (tool/odbc/prepare_package_native.py)

    The ODBC package the lock file pins, and its native library: taken from the
    cache when the cached copy is the recorded one, and downloaded and checked
    against the published checksum otherwise. *)

From S2P Require Import Prelude PyStr PyRe PyHash PyJson Effects PyLib Paths.

Local Open Scope Z_scope.

(** ** The patterns *)

Definition any : regex := RChar (λ _, true).
Definition hex_any (c : ascii) : bool := is_lower_hex (lower_char c) && negb (is_space c).
Definition package_block_re : regex :=
  seqs [RBol; lit ("  odbc_fast:" +:+ nl); RGroup 1 (star_lazy any);
        RLook (alts [seqs [RBol; lit "  "; RChar is_word]; seqs [RBol; lit "sdks:"]])].
Definition suffix_char (c : ascii) : bool := is_digit c || is_alpha c || char_in ".-" c.
Definition locked_version_re : regex :=
  seqs [RBol; lit ("    version: " +:+ dq);
        RGroup 1 (seqs [plus digit; lit "."; plus digit; lit "."; plus digit;
                        opt (RSeq (anyc "-+") (plus (RChar suffix_char)))]); lit dq].
Definition locked_digest_re : regex :=
  seqs [RBol; lit "      sha256: "; opt (anyc (dq +:+ "'")); RGroup 1 (times 64 (RChar is_lower_hex))].
Definition pubspec_version_re : regex :=
  seqs [RBol; lit "version:"; star space; RGroup 1 (plus (RChar (λ c, negb (is_space c))))].

(** The directory a package's [rootUri] names: a [file:] URI, or a reference
    relative to the directory of the package configuration. *)
Fixpoint join_segments (base : list string) (segments : list string) : list string :=
  match segments with
  | [] => base
  | ".." :: segments => join_segments (removelast base) segments
  | "." :: segments => join_segments base segments
  | s :: segments => join_segments (base ++ [s]) segments
  end.
Definition package_directory (config_dir uri : string) : string :=
  let path := if startswith uri "file://" then removeprefix uri "file://"
              else join "/" (join_segments (split_char "/" config_dir) (split_char "/" uri)) in
  rstrip_chars "/" (unquote_go path).

(** The first package entry with the given name: [next(...)]. *)
Fixpoint package_uri (name : string) (packages : list json) : res json :=
  match packages with
  | [] => Raise (ForeignError "StopIteration")
  | p :: packages =>
      n ← jitem "name" p;
      if jeq n (JStr name) then jitem "rootUri" p else package_uri name packages
  end.

(** What the lock file says of the package: version and digest. *)
Definition locked (lock : string) : res (string * string) :=
  let refuse := ValueError "odbc_fast must be locked to its published pub.dev package" in
  block ← from_option (re_search package_block_re lock) refuse;
  let block := group_str 1 block in
  _ ← raise_if (negb (contains block "source: hosted") || negb (contains block "https://pub.dev")) refuse;
  match re_search locked_version_re block, re_search locked_digest_re block with
  | Some version, Some digest => Ok (group_str 1 version, group_str 1 digest)
  | _, _ => Raise (ValueError "The hosted lock must contain the exact version and package SHA-256")
  end.

Section native_package.
Context `{Host}.

(** src: tool/odbc/prepare_package_native.py:19-35 locked_package *)
Definition locked_package (root : string) : M (string * string * string) :=
  lock ← read_text (root // "pubspec.lock");
  '(version, digest) ← lift (locked lock);
  let config := root // ".dart_tool/package_config.json" in
  text ← read_text config;
  v ← lift (loads text);
  packages ← lift (jitem "packages" v);
  packages ← lift (items_of packages);
  uri ← lift (package_uri "odbc_fast" packages);
  uri ← lift (match uri with JStr s => Ok s | _ => Raise (TypeError "Cannot mix str and non-str arguments") end);
  let package := package_directory (root // ".dart_tool") uri in
  pubspec ← read_text (package // "pubspec.yaml");
  _ ← raise_when (match re_search pubspec_version_re pubspec with
                  | Some actual => group_str 1 actual != version
                  | None => true
                  end)
        (ValueError "Resolved package version differs from pubspec.lock");
  mret (package, version, digest).

(** src: tool/odbc/prepare_package_native.py:38-45 download
    The body comes in full chunks; an asset that is too large leaves the chunks
    written before the limit was passed. *)
Definition download (url destination : string) (limit : Z) : M unit :=
  body ← fetch url;
  if limit <? len body then
    _ ← write_bytes destination (str_take (Z.to_nat (limit / 65536 * 65536)) body);
    raise (ValueError "Published native asset exceeds its size limit")
  else write_bytes destination body.

(** src: tool/odbc/prepare_package_native.py:48-50 checksum *)
Definition checksum (path : string) : M string := b ← read_bytes path; mret (sha256_hex b).

(** [path.unlink(missing_ok=True)] *)
Definition unlink_missing_ok (path : string) : M unit :=
  try_catch (unlink path) (λ e, match e with FileNotFoundError _ => true | _ => false end) (λ _, mret tt).

(** The cached library is the recorded one. *)
Definition record_differs (record : json) (version package_digest url : string) (digest : string) : res bool :=
  v ← jget_or_null "version" record;
  if negb (jeq v (JStr version)) then Ok true else
  p ← jget_or_null "package_sha256" record;
  if negb (jeq p (JStr package_digest)) then Ok true else
  u ← jget_or_null "url" record;
  if negb (jeq u (JStr url)) then Ok true else
  s ← jget_or_null "sha256" record;
  Ok (negb (jeq s (JStr digest))).

(** The download and its check. *)
Definition install_native (url temporary sidecar binary manifest version package_digest : string) : M unit :=
  _ ← download (url +:+ ".sha256") sidecar 4096;
  text ← read_text sidecar;
  expected ← lift (match split_ws (strip text) with
                   | field :: _ =>
                       if (String.length field =? 64)%nat && str_all hex_any field then Ok (py_lower field)
                       else Raise (ValueError "Published native asset checksum is invalid")
                   | [] => Raise (ValueError "Published native asset checksum is invalid")
                   end);
  _ ← download url temporary (128 * 1024 * 1024);
  actual ← checksum temporary;
  _ ← raise_when (actual != expected) (ValueError "Published native asset SHA-256 mismatch");
  _ ← os_replace temporary binary;
  record ← lift (from_option (dumps_indent true (JObj
    [("source", JStr "pub.dev"); ("version", JStr version); ("package_sha256", JStr package_digest);
     ("url", JStr url); ("sha256", JStr expected)])) (ValueError "not serializable"));
  write_text manifest record.

(** src: tool/odbc/prepare_package_native.py:53-88 prepare_native_library *)
Definition prepare_native_library (root : string) : M string :=
  '(_, version, package_digest) ← locked_package root;
  let platform := if host_nt then "windows_x64" else "linux_x64" in
  let name := if host_nt then "odbc_engine.dll" else "libodbc_engine.so" in
  let directory := root // "build/odbc-native/packages" // version // platform in
  _ ← mkdir directory;
  let binary := directory // name in
  let manifest := directory // "manifest.json" in
  let url := "https://github.com/cesar-carlos/dart_odbc_fast/releases/download/v" +:+ version +:+ "/" +:+ name in
  has_binary ← path_exists binary;
  has_manifest ← path_exists manifest;
  if has_binary && has_manifest then
    text ← read_text manifest;
    record ← lift (loads text);
    digest ← checksum binary;
    differs ← lift (record_differs record version package_digest url digest);
    _ ← raise_when differs (ValueError "Cached published native asset differs from its manifest");
    mret binary
  else
    let temporary := directory // (name +:+ ".part") in
    let sidecar := directory // (name +:+ ".sha256.part") in
    _ ← try_finally (install_native url temporary sidecar binary manifest version package_digest)
          (_ ← unlink_missing_ok temporary; unlink_missing_ok sidecar);
    mret binary.
End native_package.

(** ** The library that is handed out is the published one *)

Lemma str_app_inj_r a b c : a +:+ b = a +:+ c → b = c.
Proof. induction a as [|x a IH]; simpl; [done|]. intros [= Hb]. by apply IH. Qed.

Lemma str_app_longer a b : b ≠ EmptyString → a ≠ a +:+ b.
Proof.
  intros Hb He. apply Hb. assert (a +:+ EmptyString = a +:+ b) as H by (by rewrite str_app_nil_r).
  by apply str_app_inj_r in H.
Qed.

Section native_proofs.
Context `{Host}.

Lemma unlink_missing_ok_keeps p q w u w' : p ≠ q → runs (unlink_missing_ok p) w u w' → w_fs w' !! q = w_fs w !! q.
Proof.
  intros Hne. unfold unlink_missing_ok. intros [Hr|(e & w1 & Hf & He & Hr)]%runs_try_catch.
  - unfold runs, unlink in Hr. destruct (w_fs w !! p) as [[]|]; simplify_eq. simpl. by apply lookup_delete_ne.
  - inv_runs. unfold fails, unlink in Hf. destruct (w_fs w !! p) as [[]|]; simplify_eq; done.
Qed.

Lemma later_native root : steps later (prepare_native_library root).
Proof.
  assert (∀ u d n, steps later (download u d n)) as Hd
    by (intros; unfold download; solve_steps).
  assert (∀ p, steps later (unlink_missing_ok p)) as Hu
    by (intros; unfold unlink_missing_ok; solve_steps).
  unfold prepare_native_library, locked_package, install_native,
    checksum, write_text. solve_steps.
Qed.

(** The published checksum as the sidecar file gives it. *)
Definition published_digest (text : string) : option string := py_lower <$> head (split_ws (strip text)).

Lemma runs_download url d limit w u w' : runs (download url d limit) w u w' →
  ∃ body, host_fetch url w = Ok body ∧ len body ≤ limit ∧ w_fs w' = <[d:=File body]> (w_fs w).
Proof.
  unfold download. intros Hrun. inv_runs. exists a.
  match goal with Hf : runs (fetch _) _ _ _ |- _ => apply runs_fetch in Hf as (Hf & <- & _) end.
  destruct (Z.ltb_spec limit (len a)); inv_runs. by apply runs_write_bytes in Hrun as [? _].
Qed.

Lemma install_native_spec url temporary sidecar binary manifest version package_digest w u w' :
  manifest ≠ binary →
  runs (install_native url temporary sidecar binary manifest version package_digest) w u w' →
  ∃ bytes text w1 w2 body, w_fs w' !! binary = Some (File bytes) ∧
    host_fetch (url +:+ ".sha256") w1 = Ok body ∧ decode body = Ok text ∧
    published_digest (universal_newlines text) = Some (sha256_hex bytes) ∧
    host_fetch url w2 = Ok bytes ∧ len bytes ≤ 134217728.
Proof.
  intros Hmb. unfold install_native, checksum. intros Hrun. inv_runs.
  repeat match goal with Hd : runs (download _ _ _) _ _ _ |- _ => apply runs_download in Hd as (? & ? & ? & ?) end.
  match goal with Hr : runs (read_text _) _ _ _ |- _ => apply runs_read_text in Hr as [<- (b & t & Hb & Ht & ->)] end.
  match goal with Hr : runs (read_bytes _) _ _ _ |- _ => apply runs_read_bytes in Hr as [<- Hbytes] end.
  match goal with Hr : runs (os_replace _ _) _ _ _ |- _ => apply runs_os_replace in Hr as (moved & Hmoved & Hfs) end.
  apply runs_write_text in Hrun as (? & Hfs' & _).
  repeat match goal with Hf : w_fs _ = <[?p:=_]> _, Hl : w_fs _ !! ?p = Some (File _) |- _ =>
    rewrite Hf, lookup_insert_eq in Hl; injection Hl as <- end.
  bool_simpl. do 5 eexists. split_and!; [|done|done| |done|done].
  - by rewrite Hfs', lookup_insert_ne, Hfs, lookup_insert_eq.
  - unfold published_digest. destruct (split_ws _) as [|field ?]; [done|].
    destruct (_ && _); [|done]. simplify_eq/=. congruence.
Qed.

(** What [prepare_native_library] has checked about the library it returns:
    the cached copy is the one its manifest records for this package, or the
    bytes are a published asset whose published checksum is theirs. *)
Definition library_checked (version package_digest : string) (bytes : string) : Prop :=
  (∃ record, jget "version" record = Ok (Some (JStr version)) ∧
     jget "package_sha256" record = Ok (Some (JStr package_digest)) ∧
     jget "sha256" record = Ok (Some (JStr (sha256_hex bytes)))) ∨
  (∃ url w1 w2 body text, host_fetch (url +:+ ".sha256") w1 = Ok body ∧ decode body = Ok text ∧
     published_digest (universal_newlines text) = Some (sha256_hex bytes) ∧
     host_fetch url w2 = Ok bytes ∧ len bytes ≤ 134217728).

Lemma jget_or_null_str k v x s : jget_or_null k v = Ok x → negb (jeq x (JStr s)) = false →
  jget k v = Ok (Some (JStr s)).
Proof.
  unfold jget_or_null. intros Hx Hs. inv_res. destruct a as [y|]; simpl in Hs; [|done].
  destruct y; try done. apply negb_false_iff, String.eqb_eq in Hs as ->. done.
Qed.

Lemma record_same record version package_digest url digest :
  record_differs record version package_digest url digest = Ok false →
  jget "version" record = Ok (Some (JStr version)) ∧ jget "package_sha256" record = Ok (Some (JStr package_digest)) ∧
  jget "sha256" record = Ok (Some (JStr digest)).
Proof.
  unfold record_differs. intros Hr.
  apply res_bind_Ok in Hr as (v & Hv & Hr). destruct (negb (jeq v _)) eqn:Ev; [done|].
  apply res_bind_Ok in Hr as (p & Hp & Hr). destruct (negb (jeq p _)) eqn:Ep; [done|].
  apply res_bind_Ok in Hr as (u & Hu & Hr). destruct (negb (jeq u _)) eqn:Eu; [done|].
  apply res_bind_Ok in Hr as (s & Hs & Hr). apply (inj Ok) in Hr.
  split_and!; by eapply jget_or_null_str.
Qed.

(** The native library that is handed out exists, for the version and
    package digest the lock file pins, and its bytes were checked: against the
    record of the cache, or against the checksum published next to it. *)
Theorem native_library_checked (root binary : string) (w w' : world)
    (Hrun : runs (prepare_native_library root) w binary w') :
  ∃ version package_digest bytes, w_fs w' !! binary = Some (File bytes) ∧
    (∃ lock, locked lock = Ok (version, package_digest)) ∧ library_checked version package_digest bytes.
Proof.
  unfold prepare_native_library in Hrun. apply runs_bind in Hrun as ([[package version] digest] & w1 & Hl & Hrun).
  assert (∃ lock, locked lock = Ok (version, digest)) as Hlock.
  { unfold locked_package in Hl. apply runs_bind in Hl as (lock & w2 & _ & Hl).
    apply runs_bind in Hl as ([v d] & w3 & [Hlock <-]%runs_lift & Hl). inv_runs. simplify_eq. eauto. }
  clear Hl. inv_runs. exists version, digest.
  match goal with Hr : runs (if ?b then _ else _) _ _ _ |- _ => destruct b end; unfold checksum in *; inv_runs.
  - repeat match goal with
    | Hr : runs (read_text _) _ _ _ |- _ => apply runs_read_text in Hr as [<- _]
    | Hr : runs (read_bytes _) _ _ _ |- _ => apply runs_read_bytes in Hr as [<- ?]
    end.
    eexists. split_and!; [done|done|]. left. eexists. by eapply record_same.
  - match goal with Hf : runs (try_finally _ _) _ _ _ |- _ => apply runs_try_finally in Hf as (w9 & Hi & Hc) end.
    apply install_native_spec in Hi as (bytes & text & wa & wb & body & Hb & ? & ? & ? & ? & ?);
      [|by apply path_join_ne; destruct host_nt].
    inv_runs. exists bytes. split_and!; [|done|right; by do 5 eexists].
    repeat match goal with Hu : runs (unlink_missing_ok _) _ _ _ |- _ =>
      eapply unlink_missing_ok_keeps in Hu; [rewrite Hu; clear Hu|apply path_join_ne; by destruct host_nt] end.
    done.
Qed.
End native_proofs.

Definition example_lock : string :=
  "packages:" +:+ nl +:+ "  odbc_fast:" +:+ nl +:+ "    dependency: direct main" +:+ nl +:+
  "    description:" +:+ nl +:+ "      name: odbc_fast" +:+ nl +:+
  "      sha256: " +:+ dq +:+ sha256_hex "package" +:+ dq +:+ nl +:+
  "      url: " +:+ dq +:+ "https://pub.dev" +:+ dq +:+ nl +:+ "    source: hosted" +:+ nl +:+
  "    version: " +:+ dq +:+ "1.2.3" +:+ dq +:+ nl +:+ "sdks:" +:+ nl.

Definition example_cache : string := "/r/build/odbc-native/packages/1.2.3/linux_x64".
Definition cache_world : world :=
  World (<["/r/pubspec.lock" := File example_lock]>
        (<["/r/.dart_tool/package_config.json" := File (default "" (dumps_compact true (JObj [("packages",
             JArr [JObj [("name", JStr "odbc_fast"); ("rootUri", JStr "file:///pub/odbc_fast-1.2.3")]])])))]>
        (<["/pub/odbc_fast-1.2.3/pubspec.yaml" := File ("version: 1.2.3" +:+ nl)]>
        (<[(example_cache // "libodbc_engine.so") := File "ELF"]>
        {[(example_cache // "manifest.json") := File (default "" (dumps_compact true (JObj
             [("version", JStr "1.2.3"); ("package_sha256", JStr (sha256_hex "package"));
              ("url", JStr "https://github.com/cesar-carlos/dart_odbc_fast/releases/download/v1.2.3/libodbc_engine.so");
              ("sha256", JStr (sha256_hex "ELF"))])))]})))) ∅ [].

Theorem native_library_checked_witness :
  ∃ version package_digest bytes,
    w_fs (snd (prepare_native_library (H:=idle_host) "/r" cache_world)) !! (example_cache // "libodbc_engine.so") =
      Some (File bytes) ∧
    (∃ lock, locked lock = Ok (version, package_digest)) ∧
    library_checked (H:=idle_host) version package_digest bytes.
Proof.
  apply (native_library_checked (H:=idle_host) "/r" (example_cache // "libodbc_engine.so") cache_world).
  vm_compute. reflexivity.
Defined.
