(* ===== verification/Crypto.v ===== *)
(** * The Ed25519 implementation of the [cryptography] package

    The package is not part of the repository: its operations are the class
    [Ed25519] and what the code relies on is the class [Ed25519Laws], which
    states documented behaviour of Ed25519. [toy_ed25519] is a concrete instance
    with keyed hashes, used where a theorem is applied to concrete data. *)

From S2P Require Import Prelude PyStr PyCodec PyHash.

Class Ed25519 : Type := {
  (** The raw public key of a 32-byte private seed. *)
  ed_public : string → string;
  (** [private.sign(message)] *)
  ed_sign : string → string → string;
  (** [public.verify(signature, message)] returns instead of raising
      [InvalidSignature]. *)
  ed_verify : string → string → string → bool
}.

Class Ed25519Laws `{Ed25519} : Prop := {
  ed_public_length : ∀ seed, String.length (ed_public seed) = 32%nat;
  ed_sign_length : ∀ seed msg, String.length (ed_sign seed msg) = 64%nat;
  ed_sign_verify : ∀ seed msg, ed_verify (ed_public seed) (ed_sign seed msg) msg = true
}.

(** Objects that can be signed: duck typing on [canonical_bytes]. *)
Class Canonical (P : Type) : Type := canonical_bytes : P → res string.

Definition toy_public (seed : string) : string := str_take 32 (sha256_hex seed).

#[global] Instance toy_ed25519 : Ed25519 | 100 := {|
  ed_public := toy_public;
  ed_sign := λ seed msg, sha256_hex (toy_public seed +:+ msg);
  ed_verify := λ pub sig msg, sig == sha256_hex (pub +:+ msg)
|}.

#[global] Instance toy_ed25519_laws : Ed25519Laws.
Proof.
  split; intros; simpl.
  - unfold toy_public. rewrite length_str_take. by destruct (sha256_hex_shape seed) as [_ ->].
  - by destruct (sha256_hex_shape (toy_public seed +:+ msg)) as [_ ->].
  - apply String.eqb_refl.
Qed.

(** A 32-byte key: the length [from_private_bytes] and [from_public_bytes] insist on. *)
Definition is_key (raw : string) : bool := (len raw =? 32)%Z.

Lemma ed_public_is_key `{Ed25519Laws} seed : is_key (ed_public seed) = true.
Proof. unfold is_key, len. by rewrite ed_public_length. Qed.
