(* ===== verification/Xml.v ===== *)
(** * Element trees

    What the tools use of [xml.etree.ElementTree]: elements with attributes,
    text, tail and children, the lookups and [indent]. Parsing and printing XML
    text is the expat parser's and the library's business: the class [XmlText]. *)

From S2P Require Import Prelude PyStr PyJson.

Inductive element : Type :=
| Elem (tag : string) (attrib : list (string * string)) (text tail : option string)
    (children : list element).

Definition e_tag (e : element) : string := let 'Elem t _ _ _ _ := e in t.
Definition e_attrib (e : element) : list (string * string) := let 'Elem _ a _ _ _ := e in a.
Definition e_text (e : element) : option string := let 'Elem _ _ t _ _ := e in t.
Definition e_tail (e : element) : option string := let 'Elem _ _ _ t _ := e in t.
Definition e_children (e : element) : list element := let 'Elem _ _ _ _ c := e in c.
Definition with_children (e : element) (c : list element) : element :=
  let 'Elem t a x y _ := e in Elem t a x y c.

(** [et.Element(tag)], and an element with text only. *)
Definition new_element (tag : string) : element := Elem tag [] None None [].
Definition text_element (tag text : string) : element := Elem tag [] (Some text) None [].

(** [e.get(k)] and [e.set(k, v)] *)
Definition attr (k : string) (e : element) : option string := assoc k (e_attrib e).
Definition set_attr (k v : string) (e : element) : element :=
  let 'Elem t a x y c := e in Elem t (assoc_set k v a) x y c.

(** [e.get(k, "")] and [e.get(a) or e.get(b) or d] *)
Definition attr_or_empty (k : string) (e : element) : string := default EmptyString (attr k e).
Definition attr2 (a b d : string) (e : element) : string :=
  str_or (attr_or_empty a e) (str_or (attr_or_empty b e) d).

Definition has_tag (tag : string) (e : element) : bool := e_tag e == tag.
(** [e.findall(tag)], [e.find(tag)] and [e.findtext(tag) or ""] *)
Definition findall (tag : string) (e : element) : list element := List.filter (has_tag tag) (e_children e).
Definition find_elem (tag : string) (e : element) : option element := List.find (has_tag tag) (e_children e).
Definition findtext (tag : string) (e : element) : string :=
  match find_elem tag e with Some c => default EmptyString (e_text c) | None => EmptyString end.

(** Replaces the first child with the tag, the one [find] returned, after its
    content was changed in place. *)
Fixpoint update_first (tag : string) (c' : element) (l : list element) : list element :=
  match l with
  | [] => []
  | c :: l => if has_tag tag c then c' :: l else c :: update_first tag c' l
  end.

(** [not s or not s.strip()] *)
Definition blank (o : option string) : bool :=
  match o with Some s => negb (nonempty (strip s)) | None => true end.

Definition indentation (space : string) (level : nat) : string := nl +:+ concat_all (repeat space level).

(** [et.indent(tree, space)] *)
Fixpoint indent_children (space : string) (level : nat) (e : element) : element :=
  match e with
  | Elem tag a text tail [] => Elem tag a text tail []
  | Elem tag a text tail children =>
      let child_indent := indentation space (S level) in
      let last_indent := indentation space level in
      let set_tail (ind : string) (c : element) :=
        let 'Elem t a x y k := c in Elem t a x (if blank y then Some ind else y) k in
      Elem tag a (if blank text then Some child_indent else text) tail
        ((fix go l := match l with
           | [] => []
           | [c] => [set_tail last_indent (indent_children space (S level) c)]
           | c :: l => set_tail child_indent (indent_children space (S level) c) :: go l
           end) children)
  end.
Definition indent (space : string) (e : element) : element := indent_children space 0 e.

(** [et.fromstring(bytes)] and [tree.write(fh, encoding="utf-8")] with the
    namespaces the code registered. *)
Class XmlText : Type := {
  xml_parse : string → res element;
  xml_write : element → string
}.

Lemma find_findall tag e : find_elem tag e = head (findall tag e).
Proof. apply find_filter. Qed.

Lemma findall_tag tag e : Forall (λ c, has_tag tag c = true) (findall tag e).
Proof. apply Forall_filter_true. Qed.
