(* ===== verification/ReleaseGates.v ===== *)
(** * Release gates (tool/release/check_changelog.py, check_persona_release.py)

    The release history a version needs before it is published, and the
    coordinated persona-v2 gate with its accepted exceptions. *)

From Stdlib Require Import Sorting.Sorted.
From S2P Require Import Prelude PyStr PyRe PyJson PyLib Effects.

Local Open Scope Z_scope.

(** ** Python values the checks compare *)

(** [date.fromisoformat(day)] of a text [dddd-dd-dd]. *)
Definition date_of (day : string) : res (Z * Z * Z) :=
  match split_char "-" day with
  | [y; m; d] =>
      y ← int_of y; m ← int_of m; d ← int_of d;
      _ ← raise_if ((y <? 1) || (m <? 1) || (12 <? m) || (d <? 1) || (days_in_month y m <? d))
            (ValueError ("Invalid isoformat string: " +:+ py_repr day));
      Ok (y, m, d)
  | _ => Raise (ValueError ("Invalid isoformat string: " +:+ py_repr day))
  end.

(** [a < b] on tuples of integers of the same length. *)
Fixpoint tuple_lt (a b : list Z) : bool :=
  match a, b with
  | [], _ :: _ => true
  | x :: a, y :: b => (x <? y) || ((x =? y) && tuple_lt a b)
  | _, [] => false
  end.
Definition date_tuple (d : Z * Z * Z) : list Z := let '(y, m, d) := d in [y; m; d].

(** ** The patterns *)

Definition num : regex := plus digit.
Definition version3 : regex := seqs [num; lit "."; num; lit "."; num].
Definition section_re : regex := seqs [RBol; lit "## "].
Definition heading_re : regex :=
  seqs [opt (lit "["); RGroup 1 version3; opt (lit "]"); lit " - ";
        RGroup 2 (seqs [times 4 digit; lit "-"; times 2 digit; lit "-"; times 2 digit])].
Definition status_re : regex :=
  seqs [RBol; lit "Status: "; alts [lit "tagged"; lit "local"; lit "baseline"; lit "prepared"]; REol].
Definition build_re (number : string) : regex :=
  seqs [RBol; lit "Build: "; lit number; opt (seqs [lit "+"; num]); REol].
Definition notes_re : regex := seqs [RBol; lit "- "; RChar (λ c, negb (is_space c))].
Definition subheading_re : regex := seqs [RBol; lit "### "; star dot; REol].

(** One release of the history: its number, its key and its notes. *)
Record entry : Type := MkEntry { e_number : string; e_key : list Z; e_date : Z * Z * Z; e_body : string }.

(** src: tool/release/check_changelog.py:16-36 validate
    One section of the history, after the [previous] one. *)
Definition read_entry (entries : list entry) (chunk : string) : res entry :=
  let heading := before nl chunk in
  let body := after nl chunk in
  match re_fullmatch heading_re heading with
  | None => Raise (ValueError ("Invalid CHANGELOG heading: " +:+ heading))
  | Some mo =>
      let number := group_str 1 mo in
      entry_date ← date_of (group_str 2 mo);
      let previous := last entries in
      _ ← raise_if (match previous with
                    | Some p => tuple_lt (date_tuple (e_date p)) (date_tuple entry_date)
                    | None => false
                    end)
            (ValueError "CHANGELOG dates must be descending");
      key ← res_map int_of (split_char "." number);
      _ ← raise_if (one_of number (e_number <$> entries) ||
                    match previous with Some p => negb (tuple_lt key (e_key p)) | None => false end)
            (ValueError "CHANGELOG versions must be unique and descending");
      _ ← raise_if (negb (search status_re body)) (ValueError ("Missing or invalid status for " +:+ number));
      _ ← raise_if (negb (search (build_re number) body))
            (ValueError ("Missing or mismatched build for " +:+ number));
      _ ← raise_if (negb (search notes_re body)) (ValueError ("Missing change notes for " +:+ number));
      Ok (MkEntry number key entry_date body)
  end.

Fixpoint read_entries (entries : list entry) (chunks : list string) : res (list entry) :=
  match chunks with
  | [] => Ok entries
  | chunk :: chunks => e ← read_entry entries chunk; read_entries (entries ++ [e]) chunks
  end.

(** src: tool/release/check_changelog.py:8-47 validate *)
Definition validate (text version : string) (release : bool) : res string :=
  let chunks := tail (re_split section_re text) in
  match chunks with
  | [] => Raise (ValueError "CHANGELOG must start with one Unreleased section")
  | first :: chunks =>
      title ← from_option (head (splitlines first)) IndexError;
      _ ← raise_if (negb (one_of title ["Unreleased"; "[Unreleased]"]))
            (ValueError "CHANGELOG must start with one Unreleased section");
      let pending := after nl first in
      entries ← read_entries [] chunks;
      let short := before "+" version in
      found ← from_option (List.find (λ e, e_number e == short) entries)
                (ValueError ("Missing CHANGELOG entry for " +:+ version));
      _ ← raise_if (match entries with e :: _ => short != e_number e | [] => true end)
            (ValueError "Current version must be the latest CHANGELOG entry");
      let body := e_body found in
      _ ← raise_if (negb (one_of ("Build: " +:+ version) (splitlines body)))
            (ValueError ("CHANGELOG build does not match " +:+ version));
      _ ← raise_if (release && (negb (one_of "Status: prepared" (splitlines body)) ||
                                nonempty (strip (re_sub subheading_re EmptyString pending))))
            (ValueError "Release requires prepared notes and no pending Unreleased changes");
      Ok body
  end.

(** src: tool/release/check_changelog.py:50-51 check *)
Definition check (root version : string) (release : bool) : M string :=
  text ← read_text (root // "CHANGELOG.md"); lift (validate text version release).

(** ** The persona-v2 gate *)

(** src: tool/release/check_persona_release.py:7-7 REQUIRED *)
Definition REQUIRED : list string :=
  ["shared-knowledge-and-compatibility"; "identity-and-authorization"; "training-and-local-query"; "federation";
   "agent-operation-journal"; "hub-operation-contract"; "operation-approval-and-reconciliation";
   "external-rest-and-mcp"; "oauth-and-console"; "postgres-real"; "mssql-real"; "sybase-real";
   "coordinated-cutover"].

(** src: tool/release/check_persona_release.py:9-16 ready *)
Definition ready (manifest : json) : res bool :=
  generation ← jget_or_null "generation" manifest;
  if negb (jeq generation (JStr "persona-v2")) then Ok false
  else
    is_ready ← jget_or_null "ready" manifest;
    match is_ready with
    | JBool true =>
        required ← jget_or_null "requiredGates" manifest;
        if negb (jeq required (JArr (JStr <$> REQUIRED))) then Ok false
        else
          completed ← jget_or_null "completedGates" manifest;
          match completed with
          | JArr l => Ok (forallb (λ item, existsb (jeq (JStr item)) l) REQUIRED)
          | _ => Ok false
          end
    | _ => Ok false
    end.

(** src: tool/release/check_persona_release.py:19-22 ACCEPTED_RISK *)
Definition ACCEPTED_RISK : list (string * string * string) :=
  [("v1.9.0", "1.9.0+1", "stable"); ("v1.9.1", "1.9.1+1", "stable")].

Definition pubspec_version_re : regex :=
  seqs [RBol; lit "version:"; star space; RGroup 1 (plus (RChar (λ c, negb (is_space c)))); star space; REol].

(** src: tool/release/check_persona_release.py:24-28 accepted_risk
    An option that was not given is [None]. *)
Definition accepted_risk (tag build channel : option string) (pubspec : string) : bool :=
  match tag, build, channel with
  | Some tag, Some build, Some channel =>
      existsb (λ r, let '(t, b, c) := r in (t == tag) && (b == build) && (c == channel)) ACCEPTED_RISK &&
      bool_decide (re_findall1 pubspec_version_re pubspec = [build])
  | _, _, _ => false
  end.

(** src: tool/release/check_persona_release.py:31-41 __main__ *)
Definition persona_main (root : string) (tag build channel : option string) : M unit :=
  text ← read_text (root // "contracts/persona-v2-release.json");
  manifest ← lift (loads text);
  done_ ← lift (ready manifest);
  if (done_ : bool) then mret tt
  else
    pubspec ← read_text (root // "pubspec.yaml");
    if accepted_risk tag build channel pubspec
    then print ("Applying the documented " +:+ default EmptyString tag +:+
                " stable risk acceptance. Persona-v2 gates remain open.")
    else raise (SystemExit (ExitMsg "Publication blocked: persona-v2 coordinated acceptance is incomplete.")).

(** ** The history is in order *)

Lemma tuple_lt_irrefl a : tuple_lt a a = false.
Proof. induction a as [|x a IH]; simpl; [done|]. by rewrite Z.ltb_irrefl, Z.eqb_refl, IH. Qed.

Lemma tuple_lt_trans a b c : tuple_lt a b = true → tuple_lt b c = true → tuple_lt a c = true.
Proof.
  revert b c. induction a as [|x a IH]; intros [|y b] [|z c]; simpl; try done.
  intros [Hxy|[Hxy Hab]%andb_prop]%orb_prop [Hyz|[Hyz Hbc]%andb_prop]%orb_prop; bool_simpl; subst.
  - by assert ((x <? z)%Z = true) as -> by (apply Z.ltb_lt; lia).
  - by apply Z.ltb_lt in Hxy as ->.
  - by apply Z.ltb_lt in Hyz as ->.
  - rewrite Z.eqb_refl, (IH b c) by done. apply orb_true_r.
Qed.

Lemma Sorted_snoc {A} (R : relation A) l x : Sorted R l → match last l with Some y => R y x | None => True end →
  Sorted R (l ++ [x]).
Proof.
  induction 1 as [|a l Hs IH Hhd]; simpl; intros Hl; [by repeat constructor|].
  constructor; [apply IH; by destruct l|]. destruct l as [|b l]; simpl; constructor; [done|by inversion Hhd].
Qed.

(** Later entries are older: smaller version, no later date. *)
Definition older (newer e : entry) : Prop :=
  tuple_lt (e_key e) (e_key newer) = true ∧
  tuple_lt (date_tuple (e_date newer)) (date_tuple (e_date e)) = false.

(** What an entry of the history has been checked for. *)
Definition entry_checked (e : entry) : Prop :=
  res_map int_of (split_char "." (e_number e)) = Ok (e_key e) ∧
  search status_re (e_body e) = true ∧ search (build_re (e_number e)) (e_body e) = true ∧
  search notes_re (e_body e) = true.

Lemma read_entry_spec entries chunk e : read_entry entries chunk = Ok e →
  entry_checked e ∧ (e_number e ∉ (e_number <$> entries)) ∧
  match last entries with Some p => older p e | None => True end.
Proof.
  unfold read_entry. destruct (re_fullmatch heading_re (before nl chunk)) as [mo|]; [|done].
  intros He. inv_res. unfold entry_checked, older. simpl.
  match goal with Hu : one_of _ _ || _ = false |- _ => apply orb_false_elim in Hu as [Hu1 Hu2] end.
  bool_simpl. split_and!; try done; [by apply one_of_false|].
  destruct (last entries) as [p|]; [|done]. by bool_simpl.
Qed.

Lemma read_entries_spec entries chunks l :
  Forall entry_checked entries → NoDup (e_number <$> entries) → Sorted older entries →
  read_entries entries chunks = Ok l →
  Forall entry_checked l ∧ NoDup (e_number <$> l) ∧ Sorted older l ∧ ∃ tl, l = entries ++ tl.
Proof.
  revert entries. induction chunks as [|chunk chunks IH]; intros entries Hc Hn Hs Hl; simpl in Hl.
  - injection Hl as <-. split_and!; try done. exists []. by rewrite app_nil_r.
  - apply res_bind_Ok in Hl as (e & (He & Hne & Hlast)%read_entry_spec & Hl).
    apply IH in Hl as (? & ? & ? & tl & ->).
    + split_and!; try done. exists (e :: tl). by rewrite <- app_assoc.
    + apply Forall_app. split; [done|by constructor].
    + rewrite fmap_app. apply NoDup_app. split_and!; [done| |apply NoDup_singleton].
      intros x Hx ->%list_elem_of_singleton. done.
    + by apply Sorted_snoc.
Qed.

Lemma Sorted_older_strong l : Sorted older l →
  StronglySorted (λ a b, tuple_lt (e_key b) (e_key a) = true) l.
Proof.
  intros Hs. apply Sorted_StronglySorted.
  - intros a b c Hab Hbc. by eapply tuple_lt_trans.
  - induction Hs as [|a l _ IH Hhd]; constructor; [done|]. destruct Hhd as [|b l [? _]]; by constructor.
Qed.

(** A release whose history passes the gate has it in order: every section
    after [Unreleased] is a version with a date, a known status, its build and
    notes; versions occur once and strictly descend through the whole file; the
    release is the first of them, its notes name this very build, and for a
    publication they say [prepared] and nothing else is pending. *)
Theorem changelog_validated (text version body : string) (release : bool)
    (Hv : validate text version release = Ok body) :
  ∃ e entries, e_number e = before "+" version ∧ e_body e = body ∧
    Forall entry_checked (e :: entries) ∧ NoDup (e_number <$> (e :: entries)) ∧
    StronglySorted (λ a b, tuple_lt (e_key b) (e_key a) = true) (e :: entries) ∧
    ("Build: " +:+ version) ∈ splitlines body ∧
    (release = true → "Status: prepared" ∈ splitlines body ∧
       ∃ title sections, re_split section_re text = title :: sections ∧
         strip (re_sub subheading_re EmptyString (after nl (default EmptyString (head sections)))) = EmptyString).
Proof.
  unfold validate in Hv. destruct (re_split section_re text) as [|t0 [|first chunks]] eqn:Hsplit; simpl in Hv; [done|done|].
  inv_res. match goal with He : read_entries [] _ = Ok _ |- _ =>
    apply read_entries_spec in He as (Hc & Hn & Hs & _); [|repeat constructor..] end.
  match goal with Hf : List.find _ ?es = Some ?f |- _ => destruct es as [|e entries]; [done|]; rename Hf into Hfind end.
  bool_simpl. simpl in Hfind.
  match goal with He : before "+" version = e_number e |- _ => rewrite He, String.eqb_refl in Hfind;
    injection Hfind as <-; rename He into Hshort end.
  exists e, entries. split_and!; try done; [by apply Sorted_older_strong|by apply one_of_true|].
  intros ->. match goal with Hr : true && _ = false |- _ => apply orb_false_elim in Hr as [Hp Hr] end.
  bool_simpl. split; [by apply one_of_true|]. exists t0, (first :: chunks). split; [done|]. by apply nonempty_false.
Qed.

Definition example_changelog : string :=
  "# Changelog" +:+ nl +:+ "## Unreleased" +:+ nl +:+ "### Changed" +:+ nl +:+
  "## [1.9.1] - 2026-02-01" +:+ nl +:+ "Status: prepared" +:+ nl +:+ "Build: 1.9.1+1" +:+ nl +:+ "- Fixes" +:+ nl +:+
  "## 1.9.0 - 2026-01-15" +:+ nl +:+ "Status: tagged" +:+ nl +:+ "Build: 1.9.0+1" +:+ nl +:+ "- News" +:+ nl.

Theorem changelog_validated_witness :
  match validate example_changelog "1.9.1+1" true with
  | Ok body => ∃ e entries, e_number e = "1.9.1" ∧ e_body e = body ∧
      Forall entry_checked (e :: entries) ∧ NoDup (e_number <$> (e :: entries)) ∧
      StronglySorted (λ a b, tuple_lt (e_key b) (e_key a) = true) (e :: entries) ∧
      "Build: 1.9.1+1" ∈ splitlines body ∧
      (true = true → "Status: prepared" ∈ splitlines body ∧
        ∃ title sections, re_split section_re example_changelog = title :: sections ∧
         strip (re_sub subheading_re EmptyString (after nl (default EmptyString (head sections)))) = EmptyString)
  | Raise _ => False
  end.
Proof.
  destruct (validate example_changelog "1.9.1+1" true) as [body|e] eqn:Hv;
    [|apply (f_equal is_ok) in Hv; vm_compute in Hv; discriminate Hv].
  apply (changelog_validated example_changelog "1.9.1+1" body true Hv).
Defined.

Lemma jget_or_null_present k v x : x ≠ JNull → jget_or_null k v = Ok x → jget k v = Ok (Some x).
Proof.
  unfold jget_or_null. intros Hx Hg. inv_res.
  match goal with H : jget k v = Ok ?o |- _ => destruct o; simpl in *; congruence end.
Qed.

(** The manifest that opens the gate. *)
Definition persona_complete (manifest : json) : Prop :=
  jget "generation" manifest = Ok (Some (JStr "persona-v2")) ∧ jget "ready" manifest = Ok (Some (JBool true)) ∧
  ∃ l, jget "completedGates" manifest = Ok (Some (JArr l)) ∧
    ∀ gate, gate ∈ REQUIRED → existsb (jeq (JStr gate)) l = true.

Lemma ready_complete manifest : ready manifest = Ok true → persona_complete manifest.
Proof.
  unfold ready. intros Hr. apply res_bind_Ok in Hr as (g & Hg & Hr).
  destruct (jeq g (JStr "persona-v2")) eqn:Eg; cbn [negb] in Hr; [|done].
  destruct g; try done. apply String.eqb_eq in Eg as ->.
  apply res_bind_Ok in Hr as (r & Hready & Hr). destruct r as [|[]| | | | |]; try done.
  apply res_bind_Ok in Hr as (q & _ & Hr). destruct (negb _) in Hr; [done|].
  apply res_bind_Ok in Hr as (c & Hc & Hr). destruct c as [| | | | |l|]; try done.
  apply (inj Ok) in Hr. rewrite forallb_forall in Hr.
  split_and!; [by apply jget_or_null_present|by apply jget_or_null_present|].
  exists l. split; [by apply jget_or_null_present|]. intros gate Hin. by apply Hr, list_elem_of_In.
Qed.

(** The persona gate lets a publication through only when every required
    gate is complete in a ready persona-v2 manifest, or when tag, build and
    channel are one of the accepted builds and the package is that build. *)
Theorem persona_gate_sound (root : string) (tag build channel : option string) (w w' : world)
    (Hrun : runs (persona_main root tag build channel) w tt w') :
  (∃ text manifest, loads text = Ok manifest ∧ persona_complete manifest) ∨
  (∃ t b c pubspec, tag = Some t ∧ build = Some b ∧ channel = Some c ∧ (t, b, c) ∈ ACCEPTED_RISK ∧
     re_findall1 pubspec_version_re pubspec = [b]).
Proof.
  unfold persona_main in Hrun. inv_runs.
  match goal with Hr : ready ?m = Ok ?b |- _ => destruct b; [left|right]; inv_runs end.
  - do 2 eexists. split; [done|by apply ready_complete].
  - match goal with Hr : runs (if accepted_risk _ _ _ ?p then _ else _) _ _ _ |- _ =>
      destruct (accepted_risk tag build channel p) eqn:Ha; [|inv_runs] end.
    unfold accepted_risk in Ha. destruct tag as [t|], build as [b|], channel as [c|]; try done.
    bool_simpl. do 4 eexists. split_and!; try done.
    match goal with He : existsb _ _ = true |- _ => apply existsb_exists in He as ([[t' b'] c'] & Hin & He) end.
    bool_simpl. subst. by apply list_elem_of_In.
Qed.

Definition gate_world : world :=
  World (<["./contracts/persona-v2-release.json" := File "{}"]>
        {["./pubspec.yaml" := File ("name: plug" +:+ nl +:+ "version: 1.9.1+1" +:+ nl)]}) ∅ [].

Theorem persona_gate_sound_witness :
  (∃ text manifest, loads text = Ok manifest ∧ persona_complete manifest) ∨
  (∃ t b c pubspec, Some "v1.9.1" = Some t ∧ Some "1.9.1+1" = Some b ∧ Some "stable" = Some c ∧
     (t, b, c) ∈ ACCEPTED_RISK ∧ re_findall1 pubspec_version_re pubspec = [b]).
Proof.
  apply (persona_gate_sound "." (Some "v1.9.1") (Some "1.9.1+1") (Some "stable") gate_world
    (snd (persona_main "." (Some "v1.9.1") (Some "1.9.1+1") (Some "stable") gate_world))).
  vm_compute. reflexivity.
Defined.
