(* ===== verification/UpdaterManifest.v ===== *)
(** * The signed updater manifest (tool/updater/manifest.py, verify_release.py)

    The contract a manifest payload has to meet, its canonical bytes, the signed
    envelope, and the check of a manifest against a release asset. A payload is
    any JSON value; every step says what Python does with a value of the wrong
    type. *)

From S2P Require Import Prelude PyStr PyRe PyFloat PyCodec PyHash PyJson Effects Crypto.

Local Open Scope Z_scope.

(** src: tool/updater/manifest.py:14-14 FORMAT_VERSION *)
Definition FORMAT_VERSION : Z := 1.
(** src: tool/updater/manifest.py:15-15 MAX_ENVELOPE_BYTES *)
Definition MAX_ENVELOPE_BYTES : Z := 65536.
(** src: tool/updater/manifest.py:16-16 DEFAULT_CAPABILITIES *)
Definition DEFAULT_CAPABILITIES : list string :=
  ["app.files"; "app.protocol"; "autostart.user"; "runtime.vc"; "updater.worker"].

(** ** Python operations on a JSON value *)

Definition hashable (v : json) : bool := match v with JArr _ | JObj _ => false | _ => true end.

(** [set(v)]: the elements, which have to be hashable. *)
Definition set_of (v : json) : res (list json) :=
  match v with
  | JObj l => Ok (JStr <$> l.*1)
  | JArr l => if forallb hashable l then Ok l else Raise (TypeError "unhashable type")
  | JStr s => Ok ((λ c, JStr (String c EmptyString)) <$> list_ascii_of_string s)
  | _ => Raise (TypeError "object is not iterable")
  end.

(** The elements are exactly the given texts. *)
Definition set_is (l : list json) (names : list string) : bool :=
  forallb (λ v, match v with JStr s => one_of s names | _ => false end) l &&
  forallb (λ n, existsb (jeq (JStr n)) l) names.

(** The number of elements of [set(l)]. *)
Fixpoint distinct (l : list json) : list json :=
  match l with
  | [] => []
  | v :: l => if existsb (jeq v) l then distinct l else v :: distinct l
  end.

Definition is_int (v : json) : bool := match v with JInt _ => true | _ => false end.

(** [type(v) is int and v <op> n], left to right. *)
Definition int_value (v : json) : Z := match v with JInt z => z | _ => 0 end.

(** [len(v)] *)
Definition len_of (v : json) : res Z :=
  match v with
  | JStr s => Ok (len s)
  | JArr l => Ok (Z.of_nat (length l))
  | JObj l => Ok (Z.of_nat (length l))
  | _ => Raise (TypeError "object has no len()")
  end.

(** [re.fullmatch(pattern, v)] for a value that should be a text. *)
Definition fullmatch_value (p : string → bool) (v : json) : res bool :=
  match v with JStr s => Ok (p s) | _ => Raise (TypeError "expected string or bytes-like object") end.

(** [v not in {...}] for a set of texts. *)
Definition not_in (v : json) (names : list string) : res bool :=
  match v with
  | JStr s => Ok (negb (one_of s names))
  | JArr _ | JObj _ => Raise (TypeError "unhashable type")
  | _ => Ok true
  end.

(** [a or b], where [a] may raise and [b] is only evaluated when needed. *)
Definition por (a b : res bool) : res bool := x ← a; if (x : bool) then Ok true else b.

(** [if test: raise ValueError(msg)] *)
Definition reject_if (test : res bool) (msg : string) : res unit := x ← test; raise_if x (ValueError msg).

(** ** The patterns *)

Definition num : regex := plus digit.
Definition version_re : regex := seqs [num; lit "."; num; lit "."; num; lit "+"; num].
Definition is_hex40 (s : string) : bool := (String.length s =? 40)%nat && str_all is_lower_hex s.
Definition is_capability_char (c : ascii) : bool := in_range 97 122 c || is_digit c || char_in "._-" c.
Definition is_capability (s : string) : bool :=
  match s with
  | String c r => in_range 97 122 c && (String.length r <=? 63)%nat && str_all is_capability_char r
  | EmptyString => false
  end.

Definition text_of (v : json) : string := match v with JStr s => s | _ => EmptyString end.

(** src: tool/updater/manifest.py:24-54 validate_payload *)
Definition validate_payload (payload : json) : res unit :=
  _ ← reject_if
        (por (keys ← set_of payload;
              Ok (negb (set_is keys ["formatVersion"; "version"; "channel"; "installer"; "requirements";
                                     "protocol"; "data"; "release"])))
             (fv ← jitem "formatVersion" payload;
              Ok (negb (is_int fv) || negb (int_value fv =? FORMAT_VERSION))))
        "Unsupported manifest contract";
  version ← jitem "version" payload;
  _ ← reject_if
        (por (n ← len_of version; Ok (128 <? n))
             (ok ← fullmatch_value (fullmatch version_re) version; Ok (negb ok)))
        "Invalid manifest version";
  let short := before "+" (text_of version) in
  channel ← jitem "channel" payload;
  _ ← reject_if (not_in channel ["stable"; "beta"; "internal"]) "Invalid channel";
  release ← jitem "release" payload;
  _ ← reject_if
        (por (keys ← set_of release; Ok (negb (set_is keys ["commit"; "tag"])))
        (por (commit ← jitem "commit" release; ok ← fullmatch_value is_hex40 commit; Ok (negb ok))
             (tag ← jitem "tag" release; Ok (negb (jeq tag (JStr ("v" +:+ short)))))))
        "Invalid release source identity";
  installer ← jitem "installer" payload;
  _ ← reject_if (keys ← set_of installer; Ok (negb (set_is keys ["name"; "size"; "sha256"])))
        "Invalid installer metadata";
  let expected_name := "PlugAgente-Setup-" +:+ short +:+ ".exe" in
  _ ← reject_if
        (por (name ← jitem "name" installer; Ok (negb (jeq name (JStr expected_name))))
             (size ← jitem "size" installer; Ok (negb (is_int size) || (int_value size <=? 0))))
        "Invalid installer identity or size";
  sha256 ← jitem "sha256" installer;
  _ ← reject_if (ok ← fullmatch_value is_hex64 sha256; Ok (negb ok)) "Invalid installer hash";
  protocol ← jitem "protocol" payload;
  _ ← reject_if
        (por (keys ← set_of protocol; Ok (negb (set_is keys ["host"; "worker"])))
             (Ok (negb (jeq protocol (JObj [("host", JInt 1); ("worker", JInt 1)])))))
        "Unsupported updater protocol";
  _ ← raise_if (match protocol with JObj l => existsb (λ kv, negb (is_int (snd kv))) l | _ => false end)
        (ValueError "Invalid protocol types");
  requirements ← jitem "requirements" payload;
  _ ← reject_if
        (match requirements with
         | JArr l =>
             if forallb hashable l then Ok (negb (length l =? length (distinct l))%nat)
             else Raise (TypeError "unhashable type")
         | _ => Ok true
         end)
        "Duplicate or invalid requirements";
  _ ← raise_if (match requirements with
                | JArr l => existsb (λ v, match v with JStr s => negb (is_capability s) | _ => true end) l
                | _ => false
                end)
        (ValueError "Invalid capability");
  data ← jitem "data" payload;
  reject_if
    (por (keys ← set_of data; Ok (negb (set_is keys ["schema"; "rollbackProtocol"])))
    (por (schema ← jitem "schema" data; Ok (negb (is_int schema) || (int_value schema <? 1)))
         (rollback ← jitem "rollbackProtocol" data; Ok (negb (is_int rollback) || negb (int_value rollback =? 1)))))
    "Invalid data compatibility".

(** src: tool/updater/manifest.py:19-21 canonical_payload *)
Definition canonical_payload (payload : json) : res string :=
  _ ← validate_payload payload;
  text ← from_option (dumps_compact false payload) (ValueError "Out of range float values are not JSON compliant");
  Ok (utf8_encode text).

(** src: tool/updater/manifest.py:85-91 _unique_object *)
Definition unique_object (pairs : list (string * json)) : res json :=
  result ← (fix go (result pairs : list (string * json)) : res (list (string * json)) :=
    match pairs with
    | [] => Ok result
    | (key, value) :: pairs =>
        _ ← raise_if (one_of key result.*1) (ValueError "Duplicate manifest field");
        go (assoc_set key value result) pairs
    end) [] pairs;
  Ok (JObj result).

(** [base64.b64decode(v, validate=True)] of a JSON value. *)
Definition b64decode_value (v : json) : res string :=
  match v with
  | JStr s => b64decode true s
  | _ => Raise (TypeError "argument should be a bytes-like object or ASCII string")
  end.

(** src: tool/updater/manifest.py:108-112 main
    The payload for an installer file. *)
Definition manifest_payload (name : string) (size : Z) (digest version channel : string) (schema : Z)
    (source_commit : string) : json :=
  JObj [("formatVersion", JInt 1); ("version", JStr version); ("channel", JStr channel);
        ("installer", JObj [("name", JStr name); ("size", JInt size); ("sha256", JStr digest)]);
        ("requirements", JArr (JStr <$> DEFAULT_CAPABILITIES));
        ("protocol", JObj [("host", JInt 1); ("worker", JInt 1)]);
        ("data", JObj [("schema", JInt schema); ("rollbackProtocol", JInt 1)]);
        ("release", JObj [("commit", JStr source_commit); ("tag", JStr ("v" +:+ before "+" version))])].

Section manifest.
Context `{Ed25519}.

(** src: tool/updater/manifest.py:57-61 sign *)
Definition sign (payload : json) (private_key_b64 : string) : res json :=
  raw ← canonical_payload payload;
  private ← b64decode true private_key_b64;
  _ ← raise_if (negb (is_key private)) (ValueError "An Ed25519 private key is 32 bytes long");
  Ok (JObj [("formatVersion", JInt FORMAT_VERSION); ("payloadBase64", JStr (b64encode raw));
            ("signatureBase64", JStr (b64encode (ed_sign private raw)))]).

(** The loop over the trusted keys. A signature that does not verify is the only
    thing that lets it go on to the next key. *)
Fixpoint try_keys (raw signature : string) (public_keys : list string) : res json :=
  match public_keys with
  | [] => Raise (ValueError "Manifest signature does not match a trusted key")
  | key :: public_keys =>
      public ← b64decode true key;
      _ ← raise_if (negb (is_key public)) (ValueError "An Ed25519 public key is 32 bytes long");
      if ed_verify public signature raw then
        payload ← loads_bytes unique_object raw;
        match canonical_payload payload with
        | Ok canonical =>
            if canonical != raw then Raise (ValueError "Noncanonical manifest") else Ok payload
        | Raise e =>
            if is_ValueError e || is_TypeError e then Raise e
            else try_keys raw signature public_keys
        end
      else try_keys raw signature public_keys
  end.

(** src: tool/updater/manifest.py:64-82 verify *)
Definition verify (envelope : json) (public_keys : list string) : res json :=
  _ ← reject_if
        (por (keys ← set_of envelope;
              Ok (negb (set_is keys ["formatVersion"; "payloadBase64"; "signatureBase64"])))
             (fv ← jitem "formatVersion" envelope;
              Ok (negb (is_int fv) || negb (int_value fv =? FORMAT_VERSION))))
        "Unsupported envelope";
  payload64 ← jitem "payloadBase64" envelope;
  raw ← b64decode_value payload64;
  signature64 ← jitem "signatureBase64" envelope;
  signature ← b64decode_value signature64;
  _ ← raise_if ((MAX_ENVELOPE_BYTES <? len raw) || negb (len signature =? 64))
        (ValueError "Invalid envelope size");
  try_keys raw signature public_keys.

Context `{Host}.

(** [path.stat().st_size] *)
Definition file_size (p : string) : M Z := b ← read_bytes p; mret (len b).

(** src: tool/updater/manifest.py:94-114 main
    The manifest of an installer, signed with the key of the environment. *)
Definition manifest_main (installer version channel : string) (schema : Z) (source_commit output : string)
    : M unit :=
  key ← getenv_or "APPCAST_SIGNING_PRIVATE_KEY" EmptyString;
  _ ← raise_when (negb (nonempty key)) (SystemExit (ExitMsg "Manifest signing key is required"));
  bytes ← read_bytes installer;
  let payload := manifest_payload (path_name installer) (len bytes) (sha256_hex bytes) version channel schema
                   source_commit in
  envelope ← lift (sign payload key);
  text ← lift (from_option (dumps_compact true envelope) (ValueError "not serializable"));
  write_text output (text +:+ nl).

(** src: tool/updater/verify_release.py:13-26 verify_release *)
Definition verify_release (manifest installer keys version channel : string) (source_commit : option string)
    : M json :=
  size ← file_size manifest;
  _ ← raise_when (131072 <? size) (ValueError "Manifest exceeds size limit");
  text ← read_text manifest;
  envelope ← lift (loads text);
  payload ← lift (verify envelope (List.filter nonempty (strip <$> split_char "," keys)));
  bytes ← read_bytes installer;
  let digest := sha256_hex bytes in
  p_version ← lift (jitem "version" payload);
  p_channel ← lift (jitem "channel" payload);
  _ ← raise_when (negb (jeq p_version (JStr version)) || negb (jeq p_channel (JStr channel)))
        (ValueError "Release manifest identity mismatch");
  _ ← match source_commit with
      | None => mret tt
      | Some wanted =>
          release ← lift (jitem "release" payload);
          commit ← lift (jitem "commit" release);
          raise_when (negb (jeq commit (JStr wanted)))
            (ValueError "Release source commit does not match signed manifest")
      end;
  p_installer ← lift (jitem "installer" payload);
  p_size ← lift (jitem "size" p_installer);
  p_sha256 ← lift (jitem "sha256" p_installer);
  _ ← raise_when (negb (jeq p_size (JInt (len bytes))) || negb (jeq p_sha256 (JStr digest)))
        (ValueError "Release asset does not match signed manifest");
  mret payload.

(** src: tool/updater/verify_release.py:29-41 main *)
Definition verify_release_main (manifest installer version channel source_commit : string) : M unit :=
  keys ← getenv_or "AUTO_UPDATE_FEED_PUBLIC_KEY" EmptyString;
  _ ← raise_when (negb (nonempty keys)) (SystemExit (ExitMsg "Trusted manifest public keys are required"));
  _ ← verify_release manifest installer keys version channel (Some source_commit);
  print "Signed manifest and release asset verified".
End manifest.

#[local] Arguments is_key : simpl never.
#[local] Arguments canonical_payload : simpl never.
#[local] Arguments loads_bytes : simpl never.

(** ** The order of the members does not matter *)

Lemma assoc_perm {A} k (l l' : list (string * A)) : NoDup l.*1 → l ≡ₚ l' → assoc k l = assoc k l'.
Proof.
  intros Hnd Hp. induction Hp as [|[k1 v] l l' Hp IH|[k1 v1] [k2 v2] l|l1 l2 l3 H12 IH1 H23 IH2]; simpl in *.
  - done.
  - apply NoDup_cons in Hnd as [_ Hnd]. destruct (k == k1); [done|by apply IH].
  - apply NoDup_cons in Hnd as [Hk _]. destruct (String.eqb_spec k k1), (String.eqb_spec k k2); try done.
    subst. destruct Hk. left.
  - rewrite IH1 by done. apply IH2. by rewrite <- H12.
Qed.

Lemma assoc_map {A B} (f : A → B) k (l : list (string * A)) :
  assoc k (List.map (λ kv, (fst kv, f (snd kv))) l) = f <$> assoc k l.
Proof. induction l as [|[k' v] l IH]; simpl; [done|]. by destruct (k == k'). Qed.

Lemma forallb_perm {A} (f : A → bool) l l' : l ≡ₚ l' → forallb f l = forallb f l'.
Proof. induction 1 as [|x l l' _ IH|x y l|l1 l2 l3 _ IH1 _ IH2]; simpl; [done|by rewrite IH|by destruct (f x), (f y)|congruence]. Qed.

Lemma existsb_perm {A} (f : A → bool) l l' : l ≡ₚ l' → existsb f l = existsb f l'.
Proof. induction 1 as [|x l l' _ IH|x y l|l1 l2 l3 _ IH1 _ IH2]; simpl; [done|by rewrite IH|by destruct (f x), (f y)|congruence]. Qed.

Lemma forallb_ext_eq {A} (f g : A → bool) l : (∀ x, f x = g x) → forallb f l = forallb g l.
Proof. intros Hfg. induction l as [|x l IH]; simpl; [done|]. by rewrite Hfg, IH. Qed.

Lemma forallb_map {A B} (f : B → bool) (g : A → B) l : forallb f (List.map g l) = forallb (λ x, f (g x)) l.
Proof. induction l as [|x l IH]; simpl; [done|]. by rewrite IH. Qed.

Lemma set_is_perm l l' names : l ≡ₚ l' → set_is l names = set_is l' names.
Proof.
  intros Hp. unfold set_is. rewrite (forallb_perm _ _ _ Hp). f_equal. apply forallb_ext_eq.
  intros n. by apply existsb_perm.
Qed.

Lemma hashable_sorted v : hashable (sorted_json v) = hashable v ∧ (hashable v = true → sorted_json v = v).
Proof. by destruct v. Qed.

Lemma map_hashable l : forallb hashable (List.map sorted_json l) = forallb hashable l ∧
  (forallb hashable l = true → List.map sorted_json l = l).
Proof.
  induction l as [|x l [IH1 IH2]]; simpl; [done|]. destruct (hashable_sorted x) as [-> Hx]. rewrite IH1.
  split; [done|]. intros [??]%andb_prop. by rewrite Hx, IH2.
Qed.

Lemma set_test_sorted v names :
  (keys ← set_of (sorted_json v); Ok (negb (set_is keys names))) =
  (keys ← set_of v; Ok (negb (set_is keys names))).
Proof.
  destruct v as [| | | | |l|l]; simpl; try done.
  - destruct (map_hashable l) as [-> Hl]. destruct (forallb hashable l); [|done]. by rewrite Hl.
  - f_equal. f_equal. apply set_is_perm. rewrite sort_keys_perm.
    by rewrite (fmap_fst_map sorted_json l).
Qed.

Lemma jitem_sorted k v : plain_json v = true →
  jitem k (sorted_json v) = (x ← jitem k v; Ok (sorted_json x)).
Proof.
  destruct v as [| | | | |l|l]; simpl; try done. intros [Hnd%bool_decide_eq_true _]%andb_prop.
  rewrite (sort_keys_map sorted_json), assoc_map, <- (assoc_perm k l) by (try done; by rewrite sort_keys_perm).
  by destruct (assoc k l).
Qed.

Lemma jitem_plain k v x : plain_json v = true → jitem k v = Ok x → plain_json x = true.
Proof.
  destruct v as [| | | | |l|l]; simpl; try done. intros [_ Hl]%andb_prop. rewrite from_option_Ok.
  intros Hx%assoc_Some_elem. rewrite forallb_forall in Hl. by apply (Hl (k, x)), list_elem_of_In.
Qed.

Lemma jeq_str_sorted v s : jeq (sorted_json v) (JStr s) = jeq v (JStr s).
Proof. by destruct v. Qed.
Lemma jeq_int_sorted v z : jeq (sorted_json v) (JInt z) = jeq v (JInt z).
Proof. by destruct v. Qed.
Lemma len_of_sorted v : len_of (sorted_json v) = len_of v.
Proof.
  destruct v as [| | | | |l|l]; simpl; try done; do 2 f_equal; [apply List.length_map|].
  by rewrite sort_keys_perm, List.length_map.
Qed.
Lemma fullmatch_value_sorted p v : fullmatch_value p (sorted_json v) = fullmatch_value p v.
Proof. by destruct v. Qed.
Lemma not_in_sorted v l : not_in (sorted_json v) l = not_in v l.
Proof. by destruct v. Qed.
Lemma is_int_sorted v : is_int (sorted_json v) = is_int v.
Proof. by destruct v. Qed.
Lemma int_value_sorted v : int_value (sorted_json v) = int_value v.
Proof. by destruct v. Qed.
Lemma text_of_sorted v : text_of (sorted_json v) = text_of v.
Proof. by destruct v. Qed.

(** Comparing an object with one whose values are numbers. *)
Lemma jeq_obj l l' : jeq (JObj l) (JObj l') =
  (length l =? length l')%nat &&
  forallb (λ kv, match assoc (fst kv) l' with Some y => jeq (snd kv) y | None => false end) l.
Proof.
  simpl. f_equal. induction l as [|[k x] l IH]; simpl; [done|].
  destruct (assoc k l'); [by rewrite IH|done].
Qed.

Definition the_protocol : json := JObj [("host", JInt 1); ("worker", JInt 1)].

Lemma jeq_protocol_sorted v : jeq (sorted_json v) the_protocol = jeq v the_protocol.
Proof.
  destruct v as [| | | | |l|l]; try done. unfold the_protocol. cbn [sorted_json]. rewrite !jeq_obj.
  rewrite (Permutation_length (sort_keys_perm _)), List.length_map. f_equal.
  rewrite (forallb_perm _ _ _ (sort_keys_perm _)), forallb_map. apply forallb_ext_eq. intros [k x]. simpl.
  destruct (k == "host"); [by rewrite jeq_int_sorted|]. destruct (k == "worker"); [by rewrite jeq_int_sorted|done].
Qed.

Lemma protocol_types_sorted v :
  match sorted_json v with JObj l => existsb (λ kv, negb (is_int (snd kv))) l | _ => false end =
  match v with JObj l => existsb (λ kv, negb (is_int (snd kv))) l | _ => false end.
Proof.
  destruct v as [| | | | |l|l]; try done. simpl. rewrite (existsb_perm _ _ _ (sort_keys_perm _)).
  induction l as [|[k x] l IH]; simpl; [done|]. by rewrite IH, is_int_sorted.
Qed.

Lemma jitem_bind_sorted {A} k v (K K' : json → res A) : plain_json v = true →
  (∀ x, plain_json x = true → K (sorted_json x) = K' x) → (jitem k (sorted_json v) ≫= K) = (jitem k v ≫= K').
Proof.
  intros Hv HK. rewrite jitem_sorted by done. destruct (jitem k v) as [x|e] eqn:E; [|done].
  apply (HK x). by eapply jitem_plain.
Qed.

Lemma res_bind_cong {A B} (m m' : res A) (K K' : A → res B) : m = m' → (∀ x, K x = K' x) → (m ≫= K) = (m' ≫= K').
Proof. intros -> HK. destruct m'; [apply HK|done]. Qed.

Lemma por_cong a a' b b' : a = a' → b = b' → por a b = por a' b'.
Proof. by intros -> ->. Qed.

Lemma reject_if_cong t t' msg : t = t' → reject_if t msg = reject_if t' msg.
Proof. by intros ->. Qed.

(** Walks through two computations that differ in [sorted_json] only. *)
Ltac sorted_congr :=
  repeat lazymatch goal with
  | |- (jitem ?k (sorted_json ?v) ≫= _) = _ => apply jitem_bind_sorted; [assumption|intros ? ?; cbv beta zeta]
  | |- (set_of _ ≫= _) = _ => apply set_test_sorted
  | |- (_ ≫= _) = (_ ≫= _) => apply res_bind_cong; [|intros ?; cbv beta zeta]
  | |- reject_if _ _ = reject_if _ _ => apply reject_if_cong
  | |- por _ _ = por _ _ => apply por_cong
  end;
  rewrite ?is_int_sorted, ?int_value_sorted, ?len_of_sorted, ?fullmatch_value_sorted,
      ?not_in_sorted, ?text_of_sorted, ?jeq_str_sorted, ?jeq_protocol_sorted, ?protocol_types_sorted; try reflexivity.

Lemma requirements_sorted v :
  (match sorted_json v with
   | JArr l => if forallb hashable l then Ok (negb (length l =? length (distinct l))%nat)
               else Raise (TypeError "unhashable type")
   | _ => Ok true
   end) =
  (match v with
   | JArr l => if forallb hashable l then Ok (negb (length l =? length (distinct l))%nat)
               else Raise (TypeError "unhashable type")
   | _ => Ok true
   end).
Proof.
  destruct v as [| | | | |l|l]; try done. cbn [sorted_json]. destruct (map_hashable l) as [-> Hl].
  destruct (forallb hashable l); [by rewrite Hl|done].
Qed.

Lemma capabilities_sorted v :
  (match sorted_json v with
   | JArr l => existsb (λ v, match v with JStr s => negb (is_capability s) | _ => true end) l
   | _ => false
   end) =
  (match v with
   | JArr l => existsb (λ v, match v with JStr s => negb (is_capability s) | _ => true end) l
   | _ => false
   end).
Proof.
  destruct v as [| | | | |l|l]; try done. cbn [sorted_json]. induction l as [|x l IH]; [done|].
  cbn [List.map existsb]. rewrite IH. by destruct x.
Qed.

(** [validate_payload] does not look at the order of the members. *)
Lemma validate_payload_sorted payload : plain_json payload = true →
  validate_payload (sorted_json payload) = validate_payload payload.
Proof.
  intros Hp. unfold validate_payload. sorted_congr.
  - apply requirements_sorted.
  - by rewrite capabilities_sorted.
Qed.

(** ** Signing and verifying *)

Lemma unique_object_go acc l : NoDup (acc ++ l).*1 →
  (fix go (result pairs : list (string * json)) : res (list (string * json)) :=
    match pairs with
    | [] => Ok result
    | (key, value) :: pairs =>
        _ ← raise_if (one_of key result.*1) (ValueError "Duplicate manifest field");
        go (assoc_set key value result) pairs
    end) acc l = Ok (acc ++ l).
Proof.
  revert acc. induction l as [|[k v] l IH]; intros acc Hnd; [by rewrite app_nil_r|].
  assert (k ∉ acc.*1) as Hk.
  { rewrite fmap_app in Hnd. apply NoDup_app in Hnd as (_ & Hnd & _). intros Hin. apply (Hnd k Hin). left. }
  rewrite (proj2 (one_of_false _ _) Hk). cbn [raise_if mbind res_bind].
  rewrite assoc_set_new by done. rewrite IH; by rewrite <- app_assoc.
Qed.

Lemma unique_object_ok l : NoDup l.*1 → unique_object l = Ok (JObj l).
Proof. intros Hnd. unfold unique_object. by rewrite (unique_object_go [] l). Qed.

Lemma canonical_payload_sorted payload raw : plain_json payload = true → canonical_payload payload = Ok raw →
  loads_bytes unique_object raw = Ok (sorted_json payload) ∧ canonical_payload (sorted_json payload) = Ok raw.
Proof.
  intros Hp. unfold canonical_payload. intros Hc. inv_res.
  match goal with Hd : dumps_compact _ _ = Some ?t |- _ =>
    destruct (loads_dumps false unique_object payload t unique_object_ok Hp Hd) as [Hl Hs] end.
  split.
  - unfold loads_bytes. rewrite utf8_roundtrip. exact Hl.
  - rewrite validate_payload_sorted by done. by rewrite H, Hs.
Qed.

Lemma reject_if_Ok t msg u : reject_if t msg = Ok u ↔ t = Ok false.
Proof.
  unfold reject_if. destruct t as [[]|]; simpl; [done| |done]. destruct u. done.
Qed.

Lemma por_false a b : por a b = Ok false ↔ a = Ok false ∧ b = Ok false.
Proof. unfold por. destruct a as [[]|]; simpl; naive_solver. Qed.

(** Keys that cannot stop the search: well-formed, but not the signer's. *)
Definition passed_over `{Ed25519} (raw signature key : string) : Prop :=
  ∃ public, b64decode true key = Ok public ∧ is_key public = true ∧ ed_verify public signature raw = false.

Lemma try_keys_skip `{Ed25519} raw signature keys rest : Forall (passed_over raw signature) keys →
  try_keys raw signature (keys ++ rest) = try_keys raw signature rest.
Proof.
  induction 1 as [|key keys (public & Hd & Hk & Hv) _ IH]; [done|]. simpl. rewrite Hd. simpl. by rewrite Hk, Hv.
Qed.

(** C4. The manifest round trip: the envelope made from a valid payload is
    accepted under the matching public key, after any number of other well-formed
    keys, and gives back the payload (its members in key order). *)
Theorem manifest_sign_verify `{Ed25519Laws} (payload envelope : json) (key seed raw : string)
    (others rest : list string)
    (Hplain : plain_json payload = true)
    (Hraw : canonical_payload payload = Ok raw) (Hsize : len raw ≤ MAX_ENVELOPE_BYTES)
    (Hkey : b64decode true key = Ok seed)
    (Hothers : Forall (passed_over raw (ed_sign seed raw)) others)
    (Hsign : sign payload key = Ok envelope) :
  verify envelope (others ++ b64encode (ed_public seed) :: rest) = Ok (sorted_json payload).
Proof.
  unfold sign in Hsign. rewrite Hraw, Hkey in Hsign. cbn [mbind res_bind] in Hsign. inv_res.
  destruct (canonical_payload_sorted _ _ Hplain Hraw) as [Hload Hcanon].
  unfold verify. change (reject_if _ "Unsupported envelope") with (Ok tt).
  cbn [mbind res_bind jitem assoc from_option String.eqb Ascii.eqb Bool.eqb b64decode_value].
  rewrite !b64_roundtrip. cbn [mbind res_bind].
  assert ((MAX_ENVELOPE_BYTES <? len raw) || negb (len (ed_sign seed raw) =? 64) = false) as ->.
  { apply orb_false_intro; [by apply Z.ltb_ge|]. unfold len. by rewrite ed_sign_length. }
  cbn [raise_if mbind res_bind]. rewrite try_keys_skip by done. simpl.
  rewrite b64_roundtrip. simpl. rewrite ed_public_is_key. simpl. rewrite ed_sign_verify, Hload. simpl.
  by rewrite Hcanon, String.eqb_refl.
Qed.

Lemma try_keys_sound `{Ed25519} raw signature keys payload : try_keys raw signature keys = Ok payload →
  ∃ key public, key ∈ keys ∧ b64decode true key = Ok public ∧ is_key public = true ∧
    ed_verify public signature raw = true ∧ loads_bytes unique_object raw = Ok payload ∧
    canonical_payload payload = Ok raw.
Proof.
  induction keys as [|key keys IH]; simpl; [done|]. intros Ht. inv_res. bool_simpl.
  destruct (ed_verify a signature raw) eqn:Hv.
  - inv_res. destruct (canonical_payload a0) as [canonical|e] eqn:Hc.
    + destruct (String.eqb_spec canonical raw) as [->|]; simpl in Ht; [|done]. injection Ht as ->.
      exists key, a. split_and!; try done. left.
    + destruct (is_ValueError e || is_TypeError e); [done|].
      destruct (IH Ht) as (k & p & Hk & Hrest). exists k, p. split; [by right|done].
  - destruct (IH Ht) as (k & p & Hk & Hrest). exists k, p. split; [by right|done].
Qed.

Lemma verify_sound `{Ed25519} envelope keys payload : verify envelope keys = Ok payload →
  ∃ key public signature raw, key ∈ keys ∧ b64decode true key = Ok public ∧ is_key public = true ∧
    len signature = 64 ∧ len raw ≤ MAX_ENVELOPE_BYTES ∧ ed_verify public signature raw = true ∧
    loads_bytes unique_object raw = Ok payload ∧ canonical_payload payload = Ok raw.
Proof.
  unfold verify. intros Hv. inv_res. bool_simpl.
  apply try_keys_sound in Hv as (key & public & ?). naive_solver.
Qed.

(** ** What a valid manifest says *)

(** The content of a valid payload, field by field. *)
Record manifest_says (payload : json) (version channel commit : string) (size schema : Z) (sha256 : string)
    (requirements : list string) (release installer data : json) : Prop := {
  ms_version : jitem "version" payload = Ok (JStr version);
  ms_version_shape : matches version_re version ∧ len version ≤ 128;
  ms_channel : jitem "channel" payload = Ok (JStr channel) ∧ channel ∈ ["stable"; "beta"; "internal"];
  ms_release : jitem "release" payload = Ok release;
  ms_commit : jitem "commit" release = Ok (JStr commit) ∧ is_hex40 commit = true;
  ms_tag : jitem "tag" release = Ok (JStr ("v" +:+ before "+" version));
  ms_installer : jitem "installer" payload = Ok installer;
  ms_name : jitem "name" installer = Ok (JStr ("PlugAgente-Setup-" +:+ before "+" version +:+ ".exe"));
  ms_size : jitem "size" installer = Ok (JInt size) ∧ 0 < size;
  ms_sha256 : jitem "sha256" installer = Ok (JStr sha256) ∧ is_hex64 sha256 = true;
  ms_requirements : jitem "requirements" payload = Ok (JArr (JStr <$> requirements)) ∧
    NoDup requirements ∧ Forall (λ r, is_capability r = true) requirements;
  ms_data : jitem "data" payload = Ok data ∧ jitem "schema" data = Ok (JInt schema) ∧ 1 ≤ schema ∧
    jitem "rollbackProtocol" data = Ok (JInt 1)
}.

Lemma text_check v p : (ok ← fullmatch_value p v; Ok (negb ok)) = Ok false → ∃ s, v = JStr s ∧ p s = true.
Proof. destruct v; simpl; try done. intros [= ?%negb_false_iff]. eauto. Qed.

Lemma text_field k v p : (x ← jitem k v; ok ← fullmatch_value p x; Ok (negb ok)) = Ok false →
  ∃ s, jitem k v = Ok (JStr s) ∧ p s = true.
Proof. destruct (jitem k v) as [x|]; simpl; [|done]. intros (s & -> & ?)%text_check. eauto. Qed.

Lemma eq_field k v s : (x ← jitem k v; Ok (negb (jeq x (JStr s)))) = Ok false → jitem k v = Ok (JStr s).
Proof. destruct (jitem k v) as [x|]; simpl; [|done]. by intros [= ->%negb_false_iff%jeq_str]. Qed.

Lemma int_field k v (t : Z → bool) : (x ← jitem k v; Ok (negb (is_int x) || t (int_value x))) = Ok false →
  ∃ z, jitem k v = Ok (JInt z) ∧ t z = false.
Proof. destruct (jitem k v) as [x|]; simpl; [|done]. destruct x; simpl; try done. intros [= ?]. eauto. Qed.

Lemma channel_check v l : not_in v l = Ok false → ∃ s, v = JStr s ∧ s ∈ l.
Proof. destruct v; simpl; try done. intros [= ?%negb_false_iff%one_of_true]. eauto. Qed.

Lemma length_distinct l : (length (distinct l) ≤ length l)%nat.
Proof. induction l as [|v l IH]; simpl; [done|]. destruct (existsb (jeq v) l); simpl; lia. Qed.

Lemma distinct_NoDup names : length (JStr <$> names) = length (distinct (JStr <$> names)) → NoDup names.
Proof.
  induction names as [|n names IH]; [constructor|]. cbn [fmap list_fmap distinct length].
  pose proof (length_distinct (JStr <$> names)) as Hle.
  destruct (existsb (jeq (JStr n)) (JStr <$> names)) eqn:E; simpl; intros Hlen; [lia|].
  constructor; [|apply IH; lia]. intros Hin. rewrite <- not_true_iff_false in E. apply E, existsb_exists.
  exists (JStr n). split; [by apply list_elem_of_In, list_elem_of_fmap_2|]. simpl. apply String.eqb_refl.
Qed.

Lemma capability_list l :
  existsb (λ v, match v with JStr s => negb (is_capability s) | _ => true end) l = false →
  ∃ names, l = JStr <$> names ∧ Forall (λ r, is_capability r = true) names.
Proof.
  induction l as [|v l IH]; simpl; [by exists []|]. intros [Hv Hl]%orb_false_elim.
  destruct (IH Hl) as (names & -> & Hn). destruct v; try done. exists (s :: names). split; [done|].
  constructor; [by apply negb_false_iff|done].
Qed.

Lemma validate_payload_says payload : validate_payload payload = Ok tt →
  ∃ version channel commit size schema sha256 requirements release installer data,
    manifest_says payload version channel commit size schema sha256 requirements release installer data.
Proof.
  unfold validate_payload. intros Hv. inv_res.
  repeat match goal with H : reject_if _ _ = Ok _ |- _ => apply reject_if_Ok in H end.
  repeat match goal with H : por _ _ = Ok false |- _ => apply por_false in H as [? H] end.
  repeat match goal with
  | H : (ok ← fullmatch_value _ _; Ok (negb ok)) = Ok false |- _ => apply text_check in H as (? & -> & ?)
  | H : (_ ← jitem _ _; ok ← fullmatch_value _ _; Ok (negb ok)) = Ok false |- _ => apply text_field in H as (? & ? & ?)
  | H : (_ ← jitem _ _; Ok (negb (jeq _ (JStr _)))) = Ok false |- _ => apply eq_field in H
  | H : not_in _ _ = Ok false |- _ => apply channel_check in H as (? & -> & ?)
  end.
  match goal with H : (_ ← jitem "size" _; _) = Ok false |- _ =>
    apply (int_field _ _ (λ z, z <=? 0)) in H as (size & ? & ?) end.
  match goal with H : (_ ← jitem "schema" _; _) = Ok false |- _ =>
    apply (int_field _ _ (λ z, z <? 1)) in H as (schema & ? & ?) end.
  match goal with H : (_ ← jitem "rollbackProtocol" _; _) = Ok false |- _ =>
    apply (int_field _ _ (λ z, negb (z =? 1))) in H as (rollback & ? & ?) end.
  match goal with H : jitem "requirements" payload = Ok ?r |- _ => destruct r as [| | | | |reqs|]; try done end.
  destruct (forallb hashable reqs); [|done].
  match goal with H : existsb _ reqs = false |- _ => apply capability_list in H as (names & -> & ?) end.
  inv_res. bool_simpl. simpl in *. inv_res. bool_simpl. subst.
  do 10 eexists. split; try done.
  - split; [by apply fullmatch_matches|done].
  - split_and!; [done|by apply distinct_NoDup|done].
Qed.

(** A manifest is only accepted when a trusted 32-byte key verifies the
    64-byte signature over the exact bytes of the payload, the payload is their
    canonical reading, and it says what a release manifest has to say: a version,
    its tag and asset name, a commit, a positive size, a digest, and so on. *)
Theorem manifest_verify_sound `{Ed25519} (envelope payload : json) (keys : list string)
    (Hv : verify envelope keys = Ok payload) :
  ∃ key public signature raw, key ∈ keys ∧ b64decode true key = Ok public ∧ is_key public = true ∧
    len signature = 64 ∧ len raw ≤ MAX_ENVELOPE_BYTES ∧ ed_verify public signature raw = true ∧
    loads_bytes unique_object raw = Ok payload ∧ canonical_payload payload = Ok raw ∧
    ∃ version channel commit size schema sha256 requirements release installer data,
      manifest_says payload version channel commit size schema sha256 requirements release installer data.
Proof.
  apply verify_sound in Hv as (key & public & signature & raw & Hin & Hd & Hk & Hs & Hr & Hver & Hl & Hc).
  exists key, public, signature, raw. split_and!; try done.
  apply validate_payload_says. unfold canonical_payload in Hc. by inv_res.
Qed.

Lemma jeq_str_refl s : jeq (JStr s) (JStr s) = true.
Proof. apply String.eqb_refl. Qed.

(** C17. The payload the tool builds for an installer is valid exactly when its
    arguments are: version, channel, commit, schema, and an installer that is not
    empty and has the name of its version. *)
Theorem manifest_payload_valid_iff (name digest version channel commit : string) (size schema : Z) :
  validate_payload (manifest_payload name size digest version channel schema commit) = Ok tt ↔
  matches version_re version ∧ len version ≤ 128 ∧ channel ∈ ["stable"; "beta"; "internal"] ∧
  is_hex40 commit = true ∧ name = "PlugAgente-Setup-" +:+ before "+" version +:+ ".exe" ∧ 0 < size ∧
  is_hex64 digest = true ∧ 1 ≤ schema.
Proof.
  split.
  - intros (v & ch & co & sz & sc & sha & reqs & rel & inst & dat & [])%validate_payload_says.
    unfold manifest_payload in *. simpl in *.
    repeat match goal with H : _ ∧ _ |- _ => destruct H end. simplify_eq/=. done.
  - intros (Hv & Hl & Hc & Hco & -> & Hs & Hd & Hsc). apply fullmatch_matches in Hv; [|done].
    apply one_of_true in Hc. apply Z.ltb_ge in Hl. apply Z.leb_gt in Hs. apply Z.ltb_ge in Hsc.
    unfold validate_payload, manifest_payload, reject_if, por.
    cbn [mbind res_bind jitem assoc from_option String.eqb Ascii.eqb Bool.eqb raise_if set_of len_of fullmatch_value text_of not_in].
    change (int_value (JInt size)) with size. change (int_value (JInt schema)) with schema.
    rewrite Hl, Hv, Hc, Hco, Hd, Hs, Hsc, !jeq_str_refl. reflexivity.
Qed.

Lemma verify_release_matches `{Ed25519} `{Host} (manifest installer keys version channel commit : string)
    (payload : json) (w w' : world)
    (Hrun : runs (verify_release manifest installer keys version channel (Some commit)) w payload w') :
  w' = w ∧ ∃ bytes text envelope, w_fs w !! installer = Some (File bytes) ∧
    loads text = Ok envelope ∧ verify envelope (List.filter nonempty (strip <$> split_char "," keys)) = Ok payload ∧
    ∃ schema requirements release p_installer data,
      manifest_says payload version channel commit (len bytes) schema (sha256_hex bytes) requirements
        release p_installer data.
Proof.
  unfold verify_release, file_size in Hrun. inv_runs.
  repeat match goal with Hr : runs (read_bytes _) _ _ _ |- _ => apply runs_read_bytes in Hr as [<- ?] end.
  match goal with Hr : runs (read_text _) _ _ _ |- _ => apply runs_read_text in Hr as [<- _] end.
  bool_simpl. split; [done|].
  match goal with Hv : verify _ _ = Ok _ |- _ => pose proof Hv as Hver; apply verify_sound in Hv as
    (? & ? & ? & ? & _ & _ & _ & _ & _ & _ & _ & Hcan) end.
  do 3 eexists. split_and!; try done.
  unfold canonical_payload in Hcan. inv_res.
  match goal with Hv : validate_payload _ = Ok _ |- _ => apply validate_payload_says in Hv as
    (v & ch & co & sz & sc & sha & reqs & rel & inst & dat & Hsays) end.
  pose proof Hsays as []. destruct_and?. same_res.
  repeat match goal with He : jeq (JStr _) (JStr _) = true |- _ => apply String.eqb_eq in He; subst
         | He : jeq (JInt _) (JInt _) = true |- _ => apply Z.eqb_eq in He; subst end.
  by do 5 eexists.
Qed.


(** ** The theorems at work *)

Definition example_seed : string := "0123456789abcdef0123456789abcdef".
Definition example_commit : string := concat_all (repeat "0123456789" 4).
Definition example_installer : string := "MZ installer".
Definition example_manifest_payload : json :=
  manifest_payload "PlugAgente-Setup-1.9.1.exe" (len example_installer) (sha256_hex example_installer)
    "1.9.1+1" "stable" 3 example_commit.
Definition example_envelope : json := default JNull
  (match sign example_manifest_payload (b64encode example_seed) with Ok e => Some e | Raise _ => None end).
Definition example_keys : list string := [b64encode example_seed; b64encode (toy_public example_seed)].

Theorem manifest_sign_verify_witness :
  verify example_envelope ([b64encode example_seed] ++ b64encode (ed_public example_seed) :: []) =
    Ok (sorted_json example_manifest_payload).
Proof.
  destruct (canonical_payload example_manifest_payload) as [raw|e] eqn:Hraw;
    [|apply (f_equal is_ok) in Hraw; vm_compute in Hraw; discriminate Hraw].
  apply (manifest_sign_verify example_manifest_payload example_envelope (b64encode example_seed) example_seed raw
    [b64encode example_seed] []); [vm_compute; reflexivity|exact Hraw| | | |vm_compute; reflexivity].
  - assert (match canonical_payload example_manifest_payload with Ok r => len r <=? MAX_ENVELOPE_BYTES | _ => false end
      = true) as Hr by (vm_compute; reflexivity).
    rewrite Hraw in Hr. apply Z.leb_le. exact Hr.
  - vm_compute. reflexivity.
  - assert (match canonical_payload example_manifest_payload with
            | Ok r => ed_verify example_seed (ed_sign example_seed r) r | _ => true end = false) as Hr
      by (vm_compute; reflexivity).
    rewrite Hraw in Hr. constructor; [|constructor]. exists example_seed.
    split; [vm_compute; reflexivity|split; [reflexivity|exact Hr]].
Defined.

Theorem manifest_verify_sound_witness :
  ∃ key public signature raw, key ∈ example_keys ∧ b64decode true key = Ok public ∧ is_key public = true ∧
    len signature = 64 ∧ len raw ≤ MAX_ENVELOPE_BYTES ∧ ed_verify public signature raw = true ∧
    loads_bytes unique_object raw = Ok (sorted_json example_manifest_payload) ∧
    canonical_payload (sorted_json example_manifest_payload) = Ok raw ∧
    ∃ version channel commit size schema sha256 requirements release installer data,
      manifest_says (sorted_json example_manifest_payload) version channel commit size schema sha256 requirements
        release installer data.
Proof.
  apply (manifest_verify_sound example_envelope (sorted_json example_manifest_payload) example_keys).
  vm_compute. reflexivity.
Defined.

Definition example_release_world : world :=
  World (<["manifest.json" := File (default EmptyString (dumps_compact true example_envelope))]>
        (<["installer.exe" := File example_installer]> ∅)) ∅ [].

