(* ===== verification/PublishRelease.v ===== *)
(** * Publishing a release (tool/release/publish_release.py)

    Publication talks to git and GitHub through their command line programs:
    every call is an event of the log. The release is created as a draft, its
    assets are uploaded, downloaded again and verified, and only then is it made
    public; a release that is already public keeps its assets. *)

From S2P Require Import Prelude PyStr PyRe PyHash PyJson Effects Crypto PyCodec ReleaseGates UpdaterManifest.

Local Open Scope Z_scope.

(** src: tool/release/publish_release.py:20-26 Release *)
Record Release : Type := MkRelease {
  r_version : string; r_full_version : string; r_channel : string; r_repository : string; r_public_keys : string
}.

Definition repo_char : regex := RChar (λ c, is_word c || char_in ".-" c).

(** src: tool/release/publish_release.py:28-36 Release.__post_init__ *)
Definition new_release (version full_version channel repository public_keys : string) : res Release :=
  _ ← raise_if (negb (fullmatch version3 version))
        (ValueError "VERSION_SHORT must contain three numeric components");
  _ ← raise_if (negb (fullmatch (seqs [lit version; lit "+"; plus digit]) full_version))
        (ValueError "FULL_VERSION must match VERSION_SHORT and include a build number");
  _ ← raise_if (negb (one_of channel ["stable"; "beta"])) (ValueError "RELEASE_CHANNEL must be stable or beta");
  _ ← raise_if (negb (fullmatch (seqs [plus repo_char; lit "/"; plus repo_char]) repository))
        (ValueError "GITHUB_REPOSITORY must identify the release repository");
  Ok (MkRelease version full_version channel repository public_keys).

(** src: tool/release/publish_release.py:38-40 Release.tag *)
Definition tag (r : Release) : string := "v" +:+ r_version r.

(** src: tool/release/publish_release.py:42-44 Release.asset_names *)
Definition installer_name (r : Release) : string := "PlugAgente-Setup-" +:+ r_version r +:+ ".exe".
Definition manifest_name (r : Release) : string := "PlugAgente-Manifest-" +:+ r_version r +:+ ".json".
Definition asset_names (r : Release) : list string := [installer_name r; manifest_name r].

Section publish.
Context `{Host} `{Ed25519}.

(** src: tool/release/publish_release.py:47-51 command *)
Definition command (arguments : list string) (root : string) (check : bool) : M proc :=
  result ← run_proc arguments root;
  _ ← raise_when (check && negb (returncode result =? 0))
        (RuntimeError (join " " (take 3 arguments) +:+ " failed: " +:+
                       str_or (strip (stderr result)) (strip (stdout result))));
  mret result.

(** src: tool/release/publish_release.py:54-68 tagged_source *)
Definition tagged_source (release : Release) (root : string) : M (option string) :=
  let ref := "refs/tags/" +:+ tag release in
  exists_ ← command ["git"; "show-ref"; "--verify"; "--quiet"; ref] root false;
  if returncode exists_ =? 1 then mret None
  else
    _ ← raise_when (negb (returncode exists_ =? 0))
          (RuntimeError ("Unable to inspect release tag: " +:+ strip (stderr exists_)));
    commit ← command ["git"; "rev-parse"; ref +:+ "^{commit}"] root true;
    let commit := strip (stdout commit) in
    difference ← command ["git"; "diff"; "--quiet"; commit; "--"; "."; ":(exclude)appcast.xml"] root false;
    _ ← raise_when (returncode difference =? 1)
          (ValueError ("Tag " +:+ tag release +:+ " belongs to different source; use a new release version"));
    _ ← raise_when (negb (returncode difference =? 0))
          (RuntimeError ("Unable to compare release source: " +:+ strip (stderr difference)));
    mret (Some commit).

(** [existing or git rev-parse HEAD] *)
Definition or_head (existing : option string) (root : string) : M string :=
  if nonempty (default EmptyString existing) then mret (default EmptyString existing)
  else out ← command ["git"; "rev-parse"; "HEAD"] root true; mret (strip (stdout out)).

(** src: tool/release/publish_release.py:71-72 source_commit *)
Definition source_commit (release : Release) (root : string) : M string :=
  existing ← tagged_source release root; or_head existing root.

Definition metadata_query : string :=
  "query($owner: String!, $repository: String!, $tag: String!) {" +:+ nl +:+
  "      repository(owner: $owner, name: $repository) {" +:+ nl +:+
  "        release(tagName: $tag) { tagName isDraft isPrerelease }" +:+ nl +:+
  "      }" +:+ nl +:+ "    }".

(** What is read from GitHub's answer: [None] without a release, and otherwise
    whether it is a draft. *)
Definition read_metadata (release : Release) (response : json) : res (option json) :=
  errors ← jget_or_null "errors" response;
  _ ← raise_if (truthy errors) (RuntimeError ("Unable to inspect GitHub release: " +:+ str_of errors));
  data ← jget "data" response;
  repository_data ← jget_or_null "repository" (default (JObj []) data);
  match repository_data with
  | JNull => Raise (RuntimeError
      "Release repository is unavailable; check GITHUB_REPOSITORY and token permissions")
  | _ =>
      entry ← jitem "release" repository_data;
      match entry with
      | JNull => Ok None
      | _ =>
          tag_name ← jitem "tagName" entry;
          draft ← jitem "isDraft" entry;
          prerelease ← jitem "isPrerelease" entry;
          _ ← raise_if (negb (jeq tag_name (JStr (tag release))) ||
                        negb (jeq prerelease (JBool (r_channel release == "beta"))))
                (ValueError "Existing release tag or prerelease status does not match requested release");
          Ok (Some draft)
      end
  end.

(** src: tool/release/publish_release.py:75-99 release_metadata *)
Definition release_metadata (release : Release) (root : string) : M (option json) :=
  let '(owner, repository) := default (r_repository release, EmptyString) (partition "/" (r_repository release)) in
  result ← command ["gh"; "api"; "graphql"; "-f"; "query=" +:+ metadata_query; "-f"; "owner=" +:+ owner;
                    "-f"; "repository=" +:+ repository; "-f"; "tag=" +:+ tag release] root false;
  _ ← raise_when (negb (returncode result =? 0))
        (RuntimeError ("Unable to inspect GitHub release: " +:+ strip (stderr result)));
  response ← lift (loads (stdout result));
  lift (read_metadata release response).

(** src: tool/release/publish_release.py:102-109 verify_assets
    The digests of the installer and of the manifest. *)
Definition verify_assets (release : Release) (directory commit : string) : M (list (string * json)) :=
  _ ← raise_when (negb (nonempty (strip (r_public_keys release))))
        (ValueError "AUTO_UPDATE_FEED_PUBLIC_KEY is required to publish");
  let installer := directory // installer_name release in
  let manifest := directory // manifest_name release in
  payload ← verify_release manifest installer (r_public_keys release) (r_full_version release)
              (r_channel release) (Some commit);
  bytes ← read_bytes manifest;
  p_installer ← lift (jitem "installer" payload);
  p_sha256 ← lift (jitem "sha256" p_installer);
  mret (assoc_set (manifest_name release) (JStr (sha256_hex bytes)) [(installer_name release, p_sha256)]).

(** src: tool/release/publish_release.py:112-123 verify_uploaded_assets *)
Definition verify_uploaded_assets (release : Release) (root commit : string)
    (expected_digests : option (list (string * json))) : M unit :=
  with_temp_dir (λ destination,
    _ ← command (["gh"; "release"; "download"; tag release; "--repo"; r_repository release; "--dir"; destination;
                  "--pattern"; installer_name release; "--pattern"; manifest_name release]) root true;
    uploaded_digests ← verify_assets release destination commit;
    match expected_digests with
    | None => mret tt
    | Some expected =>
        for_M (λ name,
          a ← lift (from_option (assoc name expected) (KeyError name));
          b ← lift (from_option (assoc name uploaded_digests) (KeyError name));
          raise_when (negb (jeq a b))
            (ValueError ("Uploaded asset differs from verified local artifact: " +:+ name))) (asset_names release)
    end).

Definition edit_command (release : Release) : list string :=
  ["gh"; "release"; "edit"; tag release; "--repo"; r_repository release; "--draft=false";
   if r_channel release == "stable" then "--latest" else "--latest=false"].

Definition upload_command (release : Release) (artifacts : string) : list string :=
  ["gh"; "release"; "upload"; tag release; "--repo"; r_repository release] ++
  ((λ name, artifacts // name) <$> asset_names release) ++ ["--clobber"].

Definition create_command (release : Release) : list string :=
  ["gh"; "release"; "create"; tag release; "--repo"; r_repository release; "--draft"; "--verify-tag";
   "--generate-notes"; "--title"; "Version " +:+ r_version release] ++
  (if r_channel release == "beta" then ["--prerelease"] else []).

(** src: tool/release/publish_release.py:128-133 publish
    The checks that come first: history, tag, commit, local assets, GitHub. *)
Definition prepare (release : Release) (root : string)
    : M (option string * string * list (string * json) * option json) :=
  _ ← check root (r_full_version release) true;
  existing_source ← tagged_source release root;
  commit ← or_head existing_source root;
  local_digests ← verify_assets release (root // "installer/dist") commit;
  metadata ← release_metadata release root;
  mret (existing_source, commit, local_digests, metadata).

(** src: tool/release/publish_release.py:141-152 publish
    A new release is tagged from a clean tree and pushed. *)
Definition tag_and_push (release : Release) (root commit : string) : M unit :=
  _ ← for_M (λ scope,
    difference ← command (["git"; "diff"; "--no-ext-diff"; "--exit-code"] ++ scope ++ ["--"]) root false;
    if returncode difference =? 1 then
      paths ← command (["git"; "diff"; "--name-only"] ++ scope ++ ["--"]) root true;
      raise (ValueError ("Commit tracked source changes before publishing a new release: " +:+ strip (stdout paths)))
    else
      raise_when (negb (returncode difference =? 0))
        (RuntimeError ("Unable to compare release source: " +:+ strip (stderr difference)))) [["--cached"]; []];
  _ ← command ["git"; "tag"; tag release; commit] root true;
  _ ← command ["git"; "push"; "--atomic"; "origin"; "HEAD:refs/heads/main"; "refs/tags/" +:+ tag release] root true;
  mret tt.

(** src: tool/release/publish_release.py:126-165 publish *)
Definition publish (release : Release) (root : string) : M unit :=
  '(existing_source, commit, local_digests, metadata) ← prepare release root;
  if match metadata with Some draft => negb (truthy draft) | None => false end then
    _ ← raise_when (match existing_source with None => true | Some _ => false end)
          (ValueError "Published release has no checked-out tag; fetch tags before retrying");
    _ ← verify_uploaded_assets release root commit None;
    print ("Release " +:+ tag release +:+ " is already published and verified; keeping its assets")
  else
    _ ← match existing_source with None => tag_and_push release root commit | Some _ => mret tt end;
    _ ← match metadata with
        | None => _ ← command (create_command release) root true; mret tt
        | Some _ => mret tt
        end;
    _ ← command (upload_command release (root // "installer/dist")) root true;
    _ ← verify_uploaded_assets release root commit (Some local_digests);
    _ ← command (edit_command release) root true;
    print ("Published and verified release " +:+ tag release).

(** What the command line asks for. *)
Inductive publish_mode : Type := CheckTag | SourceCommit | Publish.

Definition is_reported (e : exn) : bool := is_OSError e || is_ValueError e || is_RuntimeError e.

(** src: tool/release/publish_release.py:168-190 main *)
Definition main (mode : publish_mode) (root : string) : M Z :=
  try_catch
    (version ← getenv_or "VERSION_SHORT" EmptyString;
     full_version ← getenv_or "FULL_VERSION" EmptyString;
     channel ← getenv_or "RELEASE_CHANNEL" EmptyString;
     repository ← getenv_or "GITHUB_REPOSITORY" EmptyString;
     keys ← getenv_or "AUTO_UPDATE_FEED_PUBLIC_KEY" EmptyString;
     release ← lift (new_release version full_version channel repository keys);
     wanted ← getenv_or "RELEASE_TAG" (tag release);
     _ ← raise_when (wanted != tag release) (ValueError "RELEASE_TAG does not match VERSION_SHORT");
     _ ← match mode with
         | CheckTag =>
             _ ← tagged_source release root;
             print ("Release tag " +:+ tag release +:+ " source is compatible")
         | SourceCommit => commit ← source_commit release root; print commit
         | Publish => publish release root
         end;
     mret 0)
    is_reported
    (λ error, _ ← eprint ("Release publication failed: " +:+ exn_str error); mret 1).
End publish.

(** ** What a publication does, and when *)

(** The commands that change the repository or the release. *)
Definition changes_release (argv : list string) : bool :=
  match argv with
  | "git" :: c :: _ => one_of c ["tag"; "push"]
  | "gh" :: "release" :: c :: _ => one_of c ["create"; "upload"; "edit"]
  | _ => false
  end.
Definition makes_public (argv : list string) : bool :=
  match argv with "gh" :: "release" :: "edit" :: _ => true | _ => false end.

Definition only_runs (ok : list string → bool) (e : event) : Prop :=
  match e with EvRun argv _ => ok argv = true | _ => True end.
Definition only_looks : event → Prop := only_runs (λ argv, negb (changes_release argv)).
Definition not_public : event → Prop := only_runs (λ argv, negb (makes_public argv)).

Lemma only_looks_not_public e : only_looks e → not_public e.
Proof.
  destruct e as [argv cwd| | | | | | | | | | |]; try done. unfold only_looks, not_public, only_runs.
  destruct (makes_public argv) eqn:E; [|done]. unfold makes_public in E.
  destruct argv as [|a [|b [|c l]]]; try done; repeat (case_match; try done).
Qed.

Section steps.
Context `{Host} `{Ed25519}.

Lemma logs_command P args root chk : P (EvRun args root) → steps (log_ext P) (command args root chk).
Proof. intros HP. unfold command. solve_steps. Qed.

Lemma logs_verify_release P m i k v c s : steps (log_ext P) (verify_release m i k v c s).
Proof. unfold verify_release, file_size. solve_steps. Qed.
End steps.
#[local] Hint Resolve logs_command logs_verify_release : py.
#[local] Hint Extern 1 (only_looks _) => first [exact I|reflexivity] : py.
#[local] Hint Extern 1 (not_public _) => first [exact I|reflexivity] : py.

Section publish_steps.
Context `{Host} `{Ed25519}.
Implicit Types (release : Release) (root commit : string).

Lemma looks_tagged_source release root : steps (log_ext only_looks) (tagged_source release root).
Proof. unfold tagged_source. solve_steps. Qed.

Lemma looks_or_head existing root : steps (log_ext only_looks) (or_head existing root).
Proof. unfold or_head. solve_steps. Qed.

Lemma looks_release_metadata release root : steps (log_ext only_looks) (release_metadata release root).
Proof. unfold release_metadata. solve_steps. Qed.

Lemma looks_verify_assets release d commit P : steps (log_ext P) (verify_assets release d commit).
Proof. unfold verify_assets. solve_steps. Qed.

Lemma looks_verify_uploaded release root commit e :
  steps (log_ext only_looks) (verify_uploaded_assets release root commit e).
Proof.
  unfold verify_uploaded_assets. apply logs_with_temp_dir; [done|done|]. intros d.
  pose proof (looks_verify_assets release d commit only_looks). solve_steps.
Qed.

Lemma looks_prepare release root : steps (log_ext only_looks) (prepare release root).
Proof.
  pose proof (looks_tagged_source release root). pose proof (λ e, looks_or_head e root).
  pose proof (looks_release_metadata release root). pose proof (looks_verify_assets release).
  unfold prepare, check. solve_steps.
Qed.

Lemma public_tag_and_push release root commit : steps (log_ext not_public) (tag_and_push release root commit).
Proof. unfold tag_and_push. solve_steps. Qed.

Lemma steps_weaken {A} (P Q : event → Prop) (m : M A) : (∀ e, P e → Q e) → steps (log_ext P) m → steps (log_ext Q) m.
Proof. intros HPQ Hm w. eapply log_ext_impl; [exact HPQ|apply Hm]. Qed.

(** What [verify_uploaded_assets] has compared when it returns: the downloaded
    assets are signed for this release, and are the local ones byte for byte. *)
Definition uploaded_verified release root commit (digests : list (string * json)) (w : world) : Prop :=
  ∃ w0, runs (verify_uploaded_assets release root commit (Some digests)) w0 tt w.

(** The part of [publish] after the checks, for a release that is not public. *)
Definition complete release root (existing_source : option string) commit local_digests (metadata : option json) : M unit :=
  _ ← match existing_source with None => tag_and_push release root commit | Some _ => mret tt end;
  _ ← match metadata with
      | None => _ ← command (create_command release) root true; mret tt
      | Some _ => mret tt
      end;
  _ ← command (upload_command release (root // "installer/dist")) root true;
  _ ← verify_uploaded_assets release root commit (Some local_digests);
  _ ← command (edit_command release) root true;
  print ("Published and verified release " +:+ tag release).

Lemma bind_log {A B} P (m : M A) (k : A → M B) w r w' : steps (log_ext P) m → (m ≫= k) w = (r, w') →
  (log_ext P w w' ∧ is_ok r = false) ∨ ∃ a w1, runs m w a w1 ∧ log_ext P w w1 ∧ k a w1 = (r, w').
Proof.
  intros Hm. unfold runs, mbind, M_bind. specialize (Hm w). destruct (m w) as [[a|e] w1]; simpl in Hm.
  - intros Hk. right. eauto.
  - intros [= <- <-]. by left.
Qed.

Lemma steps_any {A} P (m : M A) : steps (log_ext P) m → steps (log_ext (λ _, True)) m.
Proof. by apply steps_weaken. Qed.

(** A command is in the log before anything that follows it. *)
Lemma command_first {B} args root chk (k : proc → M B) w r w' :
  (∀ p, steps (log_ext (λ _, True)) (k p)) → (command args root chk ≫= k) w = (r, w') →
  ∃ rest, w_log w' = w_log w ++ EvRun args root :: rest.
Proof.
  intros Hk. unfold command, run_proc, mbind, M_bind. destruct (host_run args root w) as [[p|e] fs].
  - unfold raise_when, lift. destruct (raise_if _ _) as [u|e].
    + unfold mret, M_ret. intros Hr. specialize (Hk p (World fs (w_env w) (w_log w ++ [EvRun args root]))).
      simpl in *. rewrite Hr in Hk. destruct Hk as (evs & Hl & _). exists evs. simpl in Hl. rewrite Hl. simpl. by rewrite <- app_assoc.
    + intros [= _ <-]. by exists [].
  - intros [= _ <-]. by exists [].
Qed.

Lemma complete_order release root existing_source commit digests metadata w r w' :
  complete release root existing_source commit digests metadata w = (r, w') →
  log_ext not_public w w' ∨
  ∃ w1 rest, log_ext not_public w w1 ∧ uploaded_verified release root commit digests w1 ∧
    w_log w' = w_log w1 ++ EvRun (edit_command release) root :: rest.
Proof.
  unfold complete. intros Hr.
  assert (steps (log_ext not_public)
    (match existing_source with None => tag_and_push release root commit | Some _ => mret tt end)) as H1.
  { pose proof (public_tag_and_push release root commit). solve_steps. }
  destruct (bind_log _ _ _ _ _ _ H1 Hr) as [[? _]|(u1 & w1 & _ & L1 & Hr1)]; [by left|].
  assert (steps (log_ext not_public) (match metadata with
      | None => _ ← command (create_command release) root true; mret tt | Some _ => mret tt end)) as H2 by solve_steps.
  destruct (bind_log _ _ _ _ _ _ H2 Hr1) as [[? _]|(u2 & w2 & _ & L2 & Hr2)]; [left; by etrans|].
  assert (steps (log_ext not_public) (command (upload_command release (root // "installer/dist")) root true)) as H3
    by solve_steps.
  destruct (bind_log _ _ _ _ _ _ H3 Hr2) as [[? _]|(u3 & w3 & _ & L3 & Hr3)];
    [left; etrans; [done|]; by etrans|].
  pose proof (steps_weaken _ _ _ only_looks_not_public
    (looks_verify_uploaded release root commit (Some digests))) as H4.
  destruct (bind_log _ _ _ _ _ _ H4 Hr3) as [[? _]|(u4 & w4 & Hv & L4 & Hr4)];
    [left; etrans; [done|]; etrans; [done|]; by etrans|].
  right. exists w4. destruct u4.
  destruct (command_first _ _ _ _ _ _ _ (λ _, logs_print (λ _, True) _ I) Hr4) as [rest Hl].
  exists rest. split_and!; [|by exists w3|done]. etrans; [done|]. etrans; [done|]. by etrans.
Qed.

(** C6. What a publication may do, in any run, whether it succeeds or fails.
    Nothing is tagged, pushed, created, uploaded or edited unless the checks
    passed first; when GitHub already has the release in public, nothing is
    changed at all; and a release only becomes public after its uploaded assets
    were downloaded and verified against the local ones. *)
Theorem publish_safe release root (w w' : world) (r : res unit)
    (Hrun : publish release root w = (r, w')) :
  log_ext only_looks w w' ∨
  ∃ existing commit digests metadata w1,
    runs (prepare release root) w (existing, commit, digests, metadata) w1 ∧ log_ext only_looks w w1 ∧
    (∀ draft, metadata = Some draft → truthy draft = true) ∧
    (log_ext not_public w1 w' ∨
     ∃ w2 rest, log_ext not_public w1 w2 ∧ uploaded_verified release root commit digests w2 ∧
       w_log w' = w_log w2 ++ EvRun (edit_command release) root :: rest).
Proof.
  unfold publish in Hrun.
  destruct (bind_log _ _ _ _ _ _ (looks_prepare release root) Hrun) as [[? _]|([[[existing commit] digests] metadata] & w1 & Hp & L1 & Hr)];
    [by left|].
  destruct (match metadata with Some draft => negb (truthy draft) | None => false end) eqn:Hm.
  - left. etrans; [done|]. pose proof (looks_verify_uploaded release root commit None).
    match type of Hr with ?m w1 = _ => assert (steps (log_ext only_looks) m) as Hs by solve_steps end.
    specialize (Hs w1). by rewrite Hr in Hs.
  - right. exists existing, commit, digests, metadata, w1. split_and!; [done|done| |].
    + intros draft ->. by apply negb_false_iff in Hm.
    + by eapply complete_order.
Qed.
End publish_steps.

(** ** What was uploaded is what was verified *)

Lemma verify_assets_sound `{Host} `{Ed25519} (release : Release) (d commit : string) (digests : list (string * json)) (w w' : world) :
  runs (verify_assets release d commit) w digests w' →
  w' = w ∧ ∃ ib mb payload schema requirements p_release p_installer data,
    w_fs w !! (d // installer_name release) = Some (File ib) ∧
    w_fs w !! (d // manifest_name release) = Some (File mb) ∧
    manifest_says payload (r_full_version release) (r_channel release) commit (len ib) schema (sha256_hex ib)
      requirements p_release p_installer data ∧
    digests = [(installer_name release, JStr (sha256_hex ib)); (manifest_name release, JStr (sha256_hex mb))].
Proof.
  unfold verify_assets. intros Hrun. inv_runs.
  match goal with Hv : runs (verify_release _ _ _ _ _ _) _ ?p _ |- _ =>
    apply verify_release_matches in Hv as (-> & ib & text & envelope & Hib & _ & _ & sc & rq & rl & inst & dt & Hsays) end.
  match goal with Hr : runs (read_bytes _) _ ?b _ |- _ => apply runs_read_bytes in Hr as [<- Hmb]; rename b into mb end.
  split; [done|]. pose proof Hsays as []. destruct_and?. same_res.
  do 8 eexists. split_and!; [exact Hib|exact Hmb|exact Hsays|].
  simpl. by destruct (String.eqb_spec (manifest_name release) (installer_name release)).
Qed.

(** Verification of the uploaded assets compares bytes: when it returns,
    the installer and the manifest downloaded from the release have the SHA-256
    digests that were expected, the manifest is for this version, channel and
    commit, and the installer has its size and digest. *)
Theorem verify_uploaded_sound `{Host} `{Ed25519} (release : Release) (root commit : string)
    (expected : list (string * json)) (w w' : world)
    (Hrun : runs (verify_uploaded_assets release root commit (Some expected)) w tt w') :
  ∃ wd d ib mb payload schema requirements p_release p_installer data,
    w_fs wd !! (d // installer_name release) = Some (File ib) ∧
    w_fs wd !! (d // manifest_name release) = Some (File mb) ∧
    manifest_says payload (r_full_version release) (r_channel release) commit (len ib) schema (sha256_hex ib)
      requirements p_release p_installer data ∧
    assoc (installer_name release) expected = Some (JStr (sha256_hex ib)) ∧
    assoc (manifest_name release) expected = Some (JStr (sha256_hex mb)).
Proof.
  unfold verify_uploaded_assets, with_temp_dir in Hrun. inv_runs.
  match goal with Hf : runs (try_finally _ _) _ _ _ |- _ => apply runs_try_finally in Hf as (w9 & Hb & _) end.
  inv_runs.
  match goal with Hv : runs (verify_assets _ _ _) _ _ _ |- _ =>
    apply verify_assets_sound in Hv as (-> & ib & mb & payload & sc & rq & rl & inst & dt & Hib & Hmb & Hsays & ->) end.
  unfold asset_names in *. cbn [for_M] in *. inv_runs. inv_res. bool_simpl.
  assert ((manifest_name release == installer_name release) = false) as Hne by reflexivity.
  repeat match goal with Ha : assoc _ [_; _] = Some _ |- _ =>
    cbn [assoc] in Ha; rewrite ?String.eqb_refl, ?Hne in Ha; injection Ha as <- end.
  do 10 eexists. split_and!; [exact Hib|exact Hmb|exact Hsays|..].
  - match goal with He : jeq ?x _ = true, Ha : assoc (installer_name release) expected = Some ?x |- _ =>
      by rewrite Ha, (jeq_str _ _ He) end.
  - match goal with He : jeq ?x _ = true, Ha : assoc (manifest_name release) expected = Some ?x |- _ =>
      by rewrite Ha, (jeq_str _ _ He) end.
Qed.

(** ** A publication from start to end *)

Definition example_release : Release :=
  MkRelease "1.9.1" "1.9.1+1" "stable" "cesar-carlos/plug_agente" (b64encode (toy_public example_seed)).

(** Git and GitHub answer that the release is new; a download gives back what
    lies in [installer/dist]. *)
Definition forge : Host := {|
  host_nt := false;
  host_run := λ argv _ w,
    match argv with
    | "git" :: "show-ref" :: _ => (Ok (Proc 1 "" ""), w_fs w)
    | "git" :: "rev-parse" :: _ => (Ok (Proc 0 (example_commit +:+ nl) ""), w_fs w)
    | "gh" :: "api" :: _ =>
        (Ok (Proc 0 (default "" (dumps_compact true (JObj [("data", JObj [("repository", JObj [("release", JNull)])])]))) ""),
         w_fs w)
    | "gh" :: "release" :: "download" :: _ =>
        let copy n fs := match w_fs w !! ("./installer/dist" // n) with
                         | Some f => <[("tmp" // n) := f]> fs | None => fs end in
        (Ok (Proc 0 "" ""), copy (installer_name example_release) (copy (manifest_name example_release) (w_fs w)))
    | _ => (Ok (Proc 0 "" ""), w_fs w)
    end;
  host_which := λ _ _, None;
  host_fetch := λ _ _, Raise (OSError "offline");
  host_now := λ _, 1767225600;
  host_utcoffset := 0;
  host_exn_str := λ _, "error";
  host_repr := λ _, "value";
  host_tmp := λ _, "tmp";
  host_isatty := false;
  host_root := "."
|}.

Definition release_world : world :=
  World (<["./CHANGELOG.md" := File example_changelog]>
        (<["./installer/dist/PlugAgente-Setup-1.9.1.exe" := File example_installer]>
        {["./installer/dist/PlugAgente-Manifest-1.9.1.json" :=
            File (default "" (dumps_compact true example_envelope))]})) ∅ [].

Theorem publish_safe_witness :
  match publish (H:=forge) example_release "." release_world with
  | (r, w') => r = Ok tt ∧
      (log_ext only_looks release_world w' ∨
       ∃ existing commit digests metadata w1,
         runs (prepare (H:=forge) example_release ".") release_world (existing, commit, digests, metadata) w1 ∧
         log_ext only_looks release_world w1 ∧
         (∀ draft, metadata = Some draft → truthy draft = true) ∧
         (log_ext not_public w1 w' ∨
          ∃ w2 rest, log_ext not_public w1 w2 ∧
            uploaded_verified (H:=forge) example_release "." commit digests w2 ∧
            w_log w' = w_log w2 ++ EvRun (edit_command example_release) "." :: rest))
  end.
Proof.
  destruct (publish (H:=forge) example_release "." release_world) as [r w'] eqn:Hrun. split.
  - assert (fst (publish (H:=forge) example_release "." release_world) = Ok tt) as Hok by (vm_compute; reflexivity).
    rewrite Hrun in Hok. exact Hok.
  - exact (publish_safe (H:=forge) example_release "." release_world w' r Hrun).
Defined.

Definition local_digests : list (string * json) :=
  [(installer_name example_release, JStr (sha256_hex example_installer));
   (manifest_name example_release, JStr (sha256_hex (default "" (dumps_compact true example_envelope))))].

Theorem verify_uploaded_sound_witness :
  ∃ wd d ib mb payload schema requirements p_release p_installer data,
    w_fs wd !! (d // installer_name example_release) = Some (File ib) ∧
    w_fs wd !! (d // manifest_name example_release) = Some (File mb) ∧
    manifest_says payload "1.9.1+1" "stable" example_commit (len ib) schema (sha256_hex ib)
      requirements p_release p_installer data ∧
    assoc (installer_name example_release) local_digests = Some (JStr (sha256_hex ib)) ∧
    assoc (manifest_name example_release) local_digests = Some (JStr (sha256_hex mb)).
Proof.
  destruct (verify_uploaded_assets (H:=forge) example_release "." example_commit (Some local_digests) release_world)
    as [r w'] eqn:Hrun.
  assert (fst (verify_uploaded_assets (H:=forge) example_release "." example_commit (Some local_digests) release_world)
    = Ok tt) as Hok by (vm_compute; reflexivity).
  rewrite Hrun in Hok. change (r = Ok tt) in Hok. rewrite Hok in Hrun.
  exact (verify_uploaded_sound (H:=forge) example_release "." example_commit local_digests release_world w' Hrun).
Defined.
