(* ===== verification/AppcastSigning.v ===== *)
(** * Signing and verifying appcast enclosures (tool/appcast/appcast_signing.py)

    The canonical text of an enclosure, its Ed25519 signature in base64, and
    verification against a comma-separated list of trusted keys. *)

From S2P Require Import Prelude PyStr PyCodec PyJson Crypto.

Local Open Scope Z_scope.

(** src: tool/appcast/appcast_signing.py:24-25 ED25519_PUBLIC_KEY_BYTES *)
Definition ED25519_PUBLIC_KEY_BYTES : Z := 32.
Definition ED25519_SIGNATURE_BYTES : Z := 64.

(** src: tool/appcast/appcast_signing.py:28-43 EnclosureSignaturePayload *)
Record EnclosureSignaturePayload : Type := MkPayload {
  p_version : string;
  p_os : string;
  p_sha256 : string;
  p_channel : string;
  p_rollout_percentage : Z;
  p_asset_url : string;
  p_asset_size : Z
}.

(** src: tool/appcast/appcast_signing.py:57-83 canonical_payload
    One [key=value] line per entry, the keys sorted. *)
Definition canonical_payload (version os sha256 channel : string) (rollout_percentage : Z)
    (asset_url : string) (asset_size : Z) : string :=
  let entries := [("asset_size", py_str_int asset_size);
                  ("asset_url", asset_url);
                  ("channel", channel);
                  ("os", os);
                  ("rollout_percentage", py_str_int rollout_percentage);
                  ("sha256", py_lower sha256);
                  ("version", version)] in
  let lines := (λ kv, fst kv +:+ "=" +:+ snd kv +:+ nl) <$> sort_keys entries in
  utf8_encode (concat_all lines).

(** src: tool/appcast/appcast_signing.py:45-54 EnclosureSignaturePayload.canonical_bytes *)
#[export] Instance enclosure_canonical : Canonical EnclosureSignaturePayload := λ p,
  Ok (canonical_payload (p_version p) (p_os p) (p_sha256 p) (p_channel p)
        (p_rollout_percentage p) (p_asset_url p) (p_asset_size p)).

Section signing.
Context `{Ed25519}.

(** src: tool/appcast/appcast_signing.py:86-110 generate_keypair
    [seed] is the seed the generator drew. *)
Definition generate_keypair (seed : string) : string * string :=
  (b64encode seed, b64encode (ed_public seed)).

(** src: tool/appcast/appcast_signing.py:113-126 derive_public_key_b64 *)
Definition derive_public_key_b64 (private_key_b64 : string) : res string :=
  private_bytes ← b64decode false private_key_b64;
  _ ← raise_if (negb (len private_bytes =? ED25519_PUBLIC_KEY_BYTES))
        (ValueError ("Ed25519 private key seed must be " +:+ py_str_int ED25519_PUBLIC_KEY_BYTES +:+
           " raw bytes (got " +:+ py_str_int (len private_bytes) +:+ ")"));
  Ok (b64encode (ed_public private_bytes)).

(** src: tool/appcast/appcast_signing.py:129-142 sign_payload *)
Definition sign_payload `{Canonical P} (payload : P) (private_key_b64 : string) : res string :=
  private_bytes ← b64decode false private_key_b64;
  _ ← raise_if (negb (len private_bytes =? ED25519_PUBLIC_KEY_BYTES))
        (ValueError ("Ed25519 private key seed must be " +:+ py_str_int ED25519_PUBLIC_KEY_BYTES +:+
           " raw bytes"));
  message ← canonical_bytes payload;
  let signature := ed_sign private_bytes message in
  _ ← raise_if (negb (len signature =? ED25519_SIGNATURE_BYTES))
        (RuntimeError "Ed25519 implementation produced a non-standard signature size; refusing to publish.");
  Ok (b64encode signature).

(** src: tool/appcast/appcast_signing.py:145-166 verify_payload *)
Definition verify_payload `{Canonical P} (payload : P) (signature_b64 public_key_b64 : string) : bool :=
  match (public_bytes ← b64decode false public_key_b64;
         signature ← b64decode false signature_b64;
         Ok (public_bytes, signature)) with
  | Raise _ => false
  | Ok (public_bytes, signature) =>
      if negb (len public_bytes =? ED25519_PUBLIC_KEY_BYTES) ||
         negb (len signature =? ED25519_SIGNATURE_BYTES)
      then false
      else match canonical_bytes payload with
           | Ok message => ed_verify public_bytes signature message
           | Raise _ => false
           end
  end.

(** src: tool/appcast/appcast_signing.py:169-178 parse_public_keys_csv *)
Definition parse_public_keys_csv (raw : option string) : list string :=
  match raw with
  | None => []
  | Some raw =>
      if nonempty raw
      then List.filter nonempty (strip <$> split_char "," raw)
      else []
  end.

(** src: tool/appcast/appcast_signing.py:181-194 verify_with_any_key *)
Definition verify_with_any_key `{Canonical P} (payload : P) (signature_b64 public_keys_csv : string) : bool :=
  existsb (verify_payload payload signature_b64) (parse_public_keys_csv (Some public_keys_csv)).
End signing.

(** ** The canonical text determines the enclosure *)

Definition no_nl (s : string) : bool := str_all (λ c, negb (Ascii.eqb c (ascii_of_N 10))) s.

Lemma line_inj k v v' s t : no_nl v = true → no_nl v' = true →
  (k +:+ "=" +:+ v +:+ nl) +:+ s = (k +:+ "=" +:+ v' +:+ nl) +:+ t → v = v' ∧ s = t.
Proof.
  intros Hv Hv' He. rewrite !str_app_assoc in He.
  apply str_app_inj_1 in He as [_ He]; [|done]. injection He as He.
  change (nl +:+ s) with (String (ascii_of_N 10) s) in He.
  change (nl +:+ t) with (String (ascii_of_N 10) t) in He.
  apply (f_equal (partition (String (ascii_of_N 10) EmptyString))) in He.
  rewrite !partition_char in He by done. by injection He as -> ->.
Qed.

Lemma digits_no_nl s : str_all is_digit s = true → no_nl s = true.
Proof.
  apply str_all_impl. intros c Hc.
  assert (H : ascii_forall (λ c, implb (is_digit c) (negb (Ascii.eqb c (ascii_of_N 10)))) = true)
    by (vm_compute; done).
  pose proof (ascii_forall_spec _ H c) as Hi. cbv beta in Hi. by rewrite Hc in Hi.
Qed.

Lemma py_str_int_no_nl z : no_nl (py_str_int z) = true.
Proof.
  destruct (py_str_int_shape z) as (neg & ip & -> & _ & Hd & _). unfold no_nl in *.
  rewrite str_all_app. apply andb_true_intro.
  split; [by destruct neg|by apply digits_no_nl].
Qed.

Lemma py_lower_no_nl s : no_nl s = true → no_nl (py_lower s) = true.
Proof.
  assert (Hall : ascii_forall (λ c, implb (negb (Ascii.eqb c (ascii_of_N 10)))
     (negb (Ascii.eqb (lower_char c) (ascii_of_N 10)))) = true) by (vm_compute; done).
  induction s as [|c s IH]; [done|]. intros [Hc Hs]%andb_prop.
  apply andb_true_intro. split; [|by apply IH].
  pose proof (ascii_forall_spec _ Hall c) as Hi. cbv beta in Hi. by rewrite Hc in Hi.
Qed.

(** The text as its lines. *)
Lemma canonical_payload_lines version os sha256 channel rollout url size :
  canonical_payload version os sha256 channel rollout url size =
  utf8_encode (concat_all
    ((λ kv, fst kv +:+ "=" +:+ snd kv +:+ nl) <$>
      [("asset_size", py_str_int size); ("asset_url", url); ("channel", channel); ("os", os);
       ("rollout_percentage", py_str_int rollout); ("sha256", py_lower sha256); ("version", version)])).
Proof. reflexivity. Qed.

(** The fields of an enclosure that the signature has to pin are one-line texts. *)
Definition one_line (p : EnclosureSignaturePayload) : bool :=
  no_nl (p_version p) && no_nl (p_os p) && no_nl (p_sha256 p) && no_nl (p_channel p) &&
  no_nl (p_asset_url p).


Definition example_payload : EnclosureSignaturePayload :=
  MkPayload "1.9.1+1" "windows" "AB" "stable" 100 "https://h/a.exe" 12.


(** ** Trusted keys *)

Lemma b64encode_nonempty s : String.length s ≠ 0%nat → nonempty (b64encode s) = true.
Proof. destruct s as [|a [|b [|c s]]]; done. Qed.


Lemma parse_public_keys_csv_entries raw k :
  k ∈ parse_public_keys_csv raw ↔
  ∃ csv, raw = Some csv ∧ nonempty csv = true ∧ k ∈ strip <$> split_char "," csv ∧ nonempty k = true.
Proof.
  unfold parse_public_keys_csv. destruct raw as [csv|].
  - destruct (nonempty csv) eqn:E.
    + rewrite list_elem_of_In, filter_In, <- list_elem_of_In. split.
      * intros [? ?]. by exists csv.
      * by intros (? & [= <-] & _ & ? & ?).
    + split; [by intros ?%not_elem_of_nil|]. intros (? & [= <-] & ? & _). congruence.
  - split; [by intros ?%not_elem_of_nil|by intros (? & ? & _)].
Qed.

Lemma verify_payload_spec `{Ed25519} `{Canonical P} (payload : P) sig key :
  verify_payload payload sig key = true ↔
  ∃ pub s msg, b64decode false key = Ok pub ∧ b64decode false sig = Ok s ∧
    len pub = 32 ∧ len s = 64 ∧ canonical_bytes payload = Ok msg ∧ ed_verify pub s msg = true.
Proof.
  unfold verify_payload, ED25519_PUBLIC_KEY_BYTES, ED25519_SIGNATURE_BYTES.
  destruct (b64decode false key) as [pub|]; simpl; [|naive_solver].
  destruct (b64decode false sig) as [s|]; simpl; [|naive_solver].
  destruct (Z.eqb_spec (len pub) 32); simpl; [|naive_solver].
  destruct (Z.eqb_spec (len s) 64); simpl; [|naive_solver].
  destruct (canonical_bytes payload); naive_solver.
Qed.

(** A signature is accepted exactly when a listed key, trimmed and not
    empty, is a 32-byte key under which the 64-byte signature verifies the
    canonical bytes: no other list entry can make it pass. *)
Theorem verify_with_any_key_spec `{Ed25519} `{Canonical P} (payload : P) (sig csv : string) :
  verify_with_any_key payload sig csv = true ↔
  ∃ key pub s msg, key ∈ strip <$> split_char "," csv ∧ nonempty key = true ∧
    b64decode false key = Ok pub ∧ b64decode false sig = Ok s ∧ len pub = 32 ∧ len s = 64 ∧
    canonical_bytes payload = Ok msg ∧ ed_verify pub s msg = true.
Proof.
  unfold verify_with_any_key. rewrite existsb_exists. split.
  - intros (key & Hin%list_elem_of_In & (pub & s & msg & ?)%verify_payload_spec).
    apply parse_public_keys_csv_entries in Hin as (? & [= <-] & _ & ? & ?). naive_solver.
  - intros (key & pub & s & msg & Hin & Hne & ?). exists key. split.
    + apply list_elem_of_In, parse_public_keys_csv_entries. exists csv. split_and!; try done.
      destruct csv; [|done]. simpl in Hin. apply list_elem_of_singleton in Hin. by subst.
    + apply verify_payload_spec. naive_solver.
Qed.

Lemma sign_payload_accepted `{Ed25519Laws} `{Canonical P} (payload : P) (key sig pub csv : string)
    (Hsign : sign_payload payload key = Ok sig)
    (Hpub : derive_public_key_b64 key = Ok pub)
    (Hlisted : pub ∈ strip <$> split_char "," csv) :
  verify_with_any_key payload sig csv = true.
Proof.
  unfold sign_payload, derive_public_key_b64, ED25519_PUBLIC_KEY_BYTES in *.
  inv_res. apply verify_with_any_key_spec.
  match goal with Hk : b64decode false key = Ok ?s1, Hk' : b64decode false key = Ok ?s2 |- _ =>
    assert (s1 = s2) as -> by congruence end.
  match goal with Hm : canonical_bytes payload = Ok ?msg, Hk : b64decode false key = Ok ?seed |- _ =>
    exists (b64encode (ed_public seed)), (ed_public seed), (ed_sign seed msg), msg;
    pose proof (ed_public_length seed) as Hpl; pose proof (ed_sign_length seed msg) as Hsl end.
  rewrite !b64_roundtrip. unfold len. rewrite Hpl, Hsl. split_and!; try done.
  - by apply b64encode_nonempty; rewrite Hpl.
  - apply ed_sign_verify.
Qed.

Lemma sign_payload_stripped `{Ed25519} `{Canonical P} (payload : P) key sig :
  sign_payload payload key = Ok sig → strip sig = sig.
Proof.
  unfold sign_payload. intros Hs. inv_res. apply strip_by_id, str_all_stripped, b64encode_no_space.
Qed.

Lemma sign_payload_nonempty `{Ed25519} `{Canonical P} (payload : P) key sig :
  sign_payload payload key = Ok sig → nonempty sig = true.
Proof.
  unfold sign_payload, ED25519_SIGNATURE_BYTES, len. intros Hs. inv_res. bool_simpl.
  apply b64encode_nonempty. lia.
Qed.

(** What [sign_payload] produces with a private key verifies under the
    public key derived from it, wherever that key stands in the list of trusted
    keys (the key-rotation window). *)
Theorem sign_payload_verifies `{Ed25519Laws} `{Canonical P} (payload : P) (key sig pub csv : string)
    (Hsign : sign_payload payload key = Ok sig)
    (Hpub : derive_public_key_b64 key = Ok pub)
    (Hlisted : pub ∈ strip <$> split_char "," csv) :
  verify_with_any_key payload sig csv = true.
Proof. by eapply sign_payload_accepted. Qed.

Theorem sign_payload_verifies_witness :
  let key := b64encode "0123456789abcdef0123456789abcdef" in
  match sign_payload example_payload key, derive_public_key_b64 key with
  | Ok sig, Ok pub => verify_with_any_key example_payload sig (" old , " +:+ pub) = true
  | _, _ => False
  end.
Proof.
  intros key.
  destruct (sign_payload example_payload key) as [sig|e] eqn:Hs;
    [|apply (f_equal is_ok) in Hs; vm_compute in Hs; discriminate Hs].
  destruct (derive_public_key_b64 key) as [pub|e] eqn:Hp;
    [|apply (f_equal is_ok) in Hp; vm_compute in Hp; discriminate Hp].
  apply (sign_payload_verifies example_payload key sig pub (" old , " +:+ pub) Hs Hp).
  assert (pub = b64encode (toy_public "0123456789abcdef0123456789abcdef")) as ->
    by (apply (inj Ok); rewrite <- Hp; vm_compute; reflexivity).
  apply list_elem_of_In. vm_compute. tauto.
Defined.
