(* ===== verification/AppcastManager.v ===== *)
(** * The appcast feed (tool/appcast/appcast_manager.py)

    The publication context, the feed item built from it, the update of the feed
    tree, its validation, the smoke check of the published feed and the
    commands. Feed trees are values: the code changes them in place and no
    element occurs twice in a tree. *)

From S2P Require Import Prelude PyStr PyJson Effects PyLib Xml Crypto AppcastSigning PyHash PyCodec.

Local Open Scope Z_scope.

Definition SPARKLE_NS : string := "http://www.andymatuschak.org/xml-namespaces/sparkle".
Definition PLUG_NS : string := "https://plug.se7esistemas.com/appcast".
Definition APPCAST_TITLE : string := "Plug Agente Updates".
Definition APPCAST_LINK : string := "https://github.com/cesar-carlos/plug_agente/releases".
Definition APPCAST_DESCRIPTION : string := "Atualizacoes do Plug Agente".
Definition ENCLOSURE_MIME_TYPE : string := "application/octet-stream".
Definition WINDOWS_OS_NAME : string := "windows".
Definition DEFAULT_CHANNEL : string := "stable".
Definition DEFAULT_ROLLOUT_PERCENTAGE : Z := 100.

(** src: tool/appcast/appcast_manager.py:35-35 CONTROL_CHAR_RE *)
Definition is_control (c : ascii) : bool :=
  (ord c <=? 8)%N || (ord c =? 11)%N || (ord c =? 12)%N || in_range 14 31 c.

(** src: tool/appcast/appcast_manager.py:97-100 sanitize_release_notes
    The byte order mark it also drops is not a character of the texts modelled. *)
Definition sanitize_release_notes (raw : string) : string :=
  str_take 2000 (str_filter (λ c, negb (is_control c)) (replace cr nl (replace (cr +:+ nl) nl raw))).

(** src: tool/appcast/appcast_manager.py:103-109 normalize_sha256 *)
Definition normalize_sha256 (value : string) : res string :=
  let normalized := py_lower (strip value) in
  let normalized := if startswith normalized "sha256:" then strip (after ":" normalized) else normalized in
  _ ← raise_if (negb (is_hex64 normalized))
        (ValueError "asset SHA-256 must be a 64-character lowercase hexadecimal digest");
  Ok normalized.

(** src: tool/appcast/appcast_manager.py:41-54 AppcastContext *)
Record AppcastContext : Type := MkContext {
  version_short : string;
  full_version : string;
  asset_url : string;
  asset_size : string;
  asset_sha256 : string;
  release_body : string;
  asset_name : string;
  channel : string;
  rollout_percentage : Z;
  max_items : Z;
  manifest_url : string;
  manifest_sha256 : string
}.

(** src: tool/appcast/appcast_manager.py:56-58 AppcastContext.version *)
Definition version (c : AppcastContext) : string := str_or (full_version c) (version_short c).

(** src: tool/appcast/appcast_manager.py:60-62 AppcastContext.expected_title *)
Definition expected_title (c : AppcastContext) : string := "Version " +:+ version c.

(** src: tool/appcast/appcast_manager.py:64-68 AppcastContext.expected_description *)
Definition expected_description (c : AppcastContext) : string :=
  if nonempty (release_body c) then sanitize_release_notes (release_body c)
  else "Nova Versao " +:+ version c +:+ " - Atualizacao automatica via GitHub Release.".

(** src: tool/appcast/appcast_manager.py:70-76 AppcastContext.expected_asset_name *)
Definition expected_asset_name (c : AppcastContext) : string :=
  if nonempty (asset_name c) then asset_name c
  else if nonempty (asset_url c) then after_last "/"%char (asset_url c)
  else EmptyString.

(** src: tool/appcast/appcast_manager.py:78-80 AppcastContext.expected_asset_sha256 *)
Definition expected_asset_sha256 (c : AppcastContext) : res string := normalize_sha256 (asset_sha256 c).

(** src: tool/appcast/appcast_manager.py:82-87 AppcastContext.expected_channel *)
Definition expected_channel (c : AppcastContext) : string :=
  str_or (py_lower (strip (str_or (channel c) DEFAULT_CHANNEL))) DEFAULT_CHANNEL.

(** src: tool/appcast/appcast_manager.py:89-94 AppcastContext.expected_rollout_percentage *)
Definition expected_rollout_percentage (c : AppcastContext) : res Z :=
  let percentage := rollout_percentage c in
  _ ← raise_if ((percentage <? 0) || (100 <? percentage))
        (ValueError "rollout percentage must be between 0 and 100");
  Ok percentage.

(** src: tool/appcast/appcast_manager.py:112-113 _sparkle_attr *)
Definition sparkle_attr (name : string) : string := "{" +:+ SPARKLE_NS +:+ "}" +:+ name.
(** src: tool/appcast/appcast_manager.py:116-117 _plug_attr *)
Definition plug_attr (name : string) : string := "{" +:+ PLUG_NS +:+ "}" +:+ name.

(** src: tool/appcast/appcast_manager.py:120-123 _sparkle_version *)
Definition sparkle_version (enclosure : option element) : string :=
  match enclosure with
  | None => EmptyString
  | Some e => strip (attr2 (sparkle_attr "version") "sparkle:version" EmptyString e)
  end.

(** src: tool/appcast/appcast_manager.py:126-129 _sparkle_os *)
Definition sparkle_os (enclosure : option element) : string :=
  match enclosure with
  | None => EmptyString
  | Some e => strip (attr2 (sparkle_attr "os") "sparkle:os" EmptyString e)
  end.

(** src: tool/appcast/appcast_manager.py:132-136 _plug_sha256 *)
Definition plug_sha256 (enclosure : option element) : res string :=
  match enclosure with
  | None => Ok EmptyString
  | Some e => normalize_sha256 (attr2 (plug_attr "sha256") "plug:sha256" EmptyString e)
  end.

(** src: tool/appcast/appcast_manager.py:139-143 _plug_channel *)
Definition plug_channel (enclosure : option element) : string :=
  match enclosure with
  | None => DEFAULT_CHANNEL
  | Some e => str_or (py_lower (strip (attr2 (plug_attr "channel") "plug:channel" DEFAULT_CHANNEL e)))
                     DEFAULT_CHANNEL
  end.

(** src: tool/appcast/appcast_manager.py:146-155 _plug_rollout_percentage *)
Definition plug_rollout_percentage (enclosure : option element) : res Z :=
  match enclosure with
  | None => Ok DEFAULT_ROLLOUT_PERCENTAGE
  | Some e =>
      let raw := attr2 (plug_attr "rolloutPercentage") "plug:rolloutPercentage" EmptyString e in
      if negb (nonempty (strip raw)) then Ok DEFAULT_ROLLOUT_PERCENTAGE
      else percentage ← int_of (strip raw);
           _ ← raise_if ((percentage <? 0) || (100 <? percentage))
                 (ValueError "plug:rolloutPercentage must be between 0 and 100");
           Ok percentage
  end.

(** src: tool/appcast/appcast_manager.py:158-162 _cache_busted_url *)
Definition cache_busted_url (now : Z) (feed_url : string) : res string :=
  parsed ← urlparse feed_url;
  let query := dict_of (parse_qsl true (u_query parsed)) in
  let query := assoc_set "cb" (py_str_int now) query in
  Ok (urlunparse (Url (u_scheme parsed) (u_netloc parsed) (u_path parsed) (u_params parsed)
                      (urlencode query) (u_fragment parsed))).

(** src: tool/appcast/appcast_manager.py:165-174 _ensure_channel
    The root with its channel, and the channel. *)
Definition ensure_channel (root : element) : element * element :=
  match find_elem "channel" root with
  | Some channel => (root, channel)
  | None =>
      let channel := with_children (new_element "channel")
        [text_element "title" APPCAST_TITLE; text_element "link" APPCAST_LINK;
         text_element "description" APPCAST_DESCRIPTION] in
      (with_children root (e_children root ++ [channel]), channel)
  end.

(** The test of the two loops that look for the published release. *)
Definition item_is_for (c : AppcastContext) (item : element) : bool :=
  let enclosure := find_elem "enclosure" item in
  one_of (sparkle_version enclosure) [version c; version_short c] &&
  (sparkle_os enclosure == WINDOWS_OS_NAME) &&
  (plug_channel enclosure == expected_channel c).

(** src: tool/appcast/appcast_manager.py:177-184 _find_matching_item *)
Definition find_matching_item (channel : element) (c : AppcastContext) : option element :=
  List.find (item_is_for c) (findall "item" channel).

(** src: tool/appcast/appcast_manager.py:387-437 validate_item *)
Definition validate_item (item : element) (c : AppcastContext) : res unit :=
  let title := strip (findtext "title" item) in
  let description := strip (findtext "description" item) in
  enclosure ← from_option (find_elem "enclosure" item) (ValueError "missing <enclosure> in latest item");
  let item_version := sparkle_version (Some enclosure) in
  let latest_url := strip (attr_or_empty "url" enclosure) in
  let latest_size := strip (attr_or_empty "length" enclosure) in
  let mime_type := strip (attr_or_empty "type" enclosure) in
  let os_name := sparkle_os (Some enclosure) in
  sha256 ← plug_sha256 (Some enclosure);
  let item_channel := plug_channel (Some enclosure) in
  item_rollout ← plug_rollout_percentage (Some enclosure);
  _ ← raise_if (title != expected_title c)
        (ValueError ("unexpected title " +:+ py_repr title +:+ ", expected " +:+ py_repr (expected_title c)));
  _ ← raise_if (description != expected_description c)
        (ValueError "latest item description does not match release body");
  _ ← raise_if (item_version != version c)
        (ValueError ("unexpected version " +:+ py_repr item_version +:+ ", expected " +:+ py_repr (version c)));
  _ ← raise_if (latest_url != asset_url c)
        (ValueError "latest enclosure URL does not match release asset URL");
  _ ← raise_if (latest_size != asset_size c)
        (ValueError "latest enclosure length does not match release asset size");
  wanted_sha256 ← expected_asset_sha256 c;
  _ ← raise_if (sha256 != wanted_sha256)
        (ValueError "latest enclosure plug:sha256 does not match release asset SHA-256");
  _ ← raise_if (item_channel != expected_channel c)
        (ValueError "latest enclosure plug:channel does not match release channel");
  wanted_rollout ← expected_rollout_percentage c;
  _ ← raise_if (negb (item_rollout =? wanted_rollout))
        (ValueError "latest enclosure plug:rolloutPercentage does not match release rollout percentage");
  _ ← raise_if ((attr_or_empty (plug_attr "manifestUrl") enclosure != manifest_url c) ||
                (attr_or_empty (plug_attr "manifestSha256") enclosure != manifest_sha256 c))
        (ValueError "latest enclosure manifest identity does not match publication context");
  _ ← raise_if (mime_type != ENCLOSURE_MIME_TYPE) (ValueError ("invalid enclosure type: " +:+ py_repr mime_type));
  _ ← raise_if (os_name != WINDOWS_OS_NAME) (ValueError ("invalid sparkle:os value: " +:+ py_repr os_name));
  _ ← raise_if (nonempty (expected_asset_name c) && negb (contains latest_url (expected_asset_name c)))
        (ValueError "latest enclosure URL does not include expected asset name");
  _ ← raise_if (negb (startswith latest_url "https://" && endswith (py_lower latest_url) ".exe"))
        (ValueError ("invalid enclosure url: " +:+ py_repr latest_url));
  try_except
    (size ← int_of latest_size; raise_if (size <=? 0) (ValueError EmptyString))
    is_ValueError (λ _, Raise (ValueError ("invalid enclosure length: " +:+ py_repr latest_size))).

(** src: tool/appcast/appcast_manager.py:187-192 _item_matches_context
    Every exception of [validate_item] is caught. *)
Definition item_matches_context (item : element) (c : AppcastContext) : bool := is_ok (validate_item item c).

(** src: tool/appcast/appcast_manager.py:351-358 ManifestBindingPayload *)
Record ManifestBindingPayload (P : Type) : Type := MkBinding { mb_enclosure : P; mb_url : string; mb_sha256 : string }.
Arguments MkBinding {P}. Arguments mb_enclosure {P}. Arguments mb_url {P}. Arguments mb_sha256 {P}.

(** src: tool/appcast/appcast_manager.py:357-358 ManifestBindingPayload.canonical_bytes *)
#[export] Instance binding_canonical `{Canonical P} : Canonical (ManifestBindingPayload P) := λ b,
  enclosure ← canonical_bytes (mb_enclosure b);
  sha256 ← normalize_sha256 (mb_sha256 b);
  Ok (enclosure +:+ utf8_encode ("manifest_sha256=" +:+ sha256 +:+ nl +:+
                                 "manifest_url=" +:+ mb_url b +:+ nl)).

(** The payload both [_build_appcast_item] and [validate_signatures] build. *)
Definition signature_payload (c : AppcastContext) : res EnclosureSignaturePayload :=
  sha256 ← expected_asset_sha256 c;
  rollout ← expected_rollout_percentage c;
  size ← int_of (asset_size c);
  Ok (MkPayload (version c) WINDOWS_OS_NAME sha256 (expected_channel c) rollout (asset_url c) size).

(** The truth value of an optional text. *)
Definition given (o : option string) : bool := nonempty (default EmptyString o).

Section appcast.
Context `{Ed25519}.

(** src: tool/appcast/appcast_manager.py:195-240 _build_appcast_item *)
Definition build_appcast_item (c : AppcastContext) (pub_date : string)
    (signing_private_key_b64 : option string) : res element :=
  sha256 ← expected_asset_sha256 c;
  rollout ← expected_rollout_percentage c;
  let enclosure := new_element "enclosure" in
  let enclosure := set_attr "url" (asset_url c) enclosure in
  let enclosure := set_attr (sparkle_attr "version") (version c) enclosure in
  let enclosure := set_attr (sparkle_attr "os") WINDOWS_OS_NAME enclosure in
  let enclosure := set_attr (plug_attr "sha256") sha256 enclosure in
  let enclosure := set_attr (plug_attr "channel") (expected_channel c) enclosure in
  let enclosure := set_attr (plug_attr "rolloutPercentage") (py_str_int rollout) enclosure in
  let enclosure := set_attr "length" (asset_size c) enclosure in
  let enclosure := set_attr "type" ENCLOSURE_MIME_TYPE enclosure in
  _ ← raise_if (xorb (nonempty (manifest_url c)) (nonempty (manifest_sha256 c)))
        (ValueError "Manifest URL and hash must be supplied together");
  enclosure ←
    (if nonempty (manifest_url c) then
       uri ← urlparse (manifest_url c);
       _ ← raise_if ((u_scheme uri != "https") || negb (nonempty (u_netloc uri)) ||
                     negb (endswith (u_path uri) ".json"))
             (ValueError "Manifest URL must be HTTPS JSON");
       _ ← raise_if (negb (given signing_private_key_b64))
             (ValueError "Manifest feed binding requires signing");
       manifest_hash ← normalize_sha256 (manifest_sha256 c);
       Ok (set_attr (plug_attr "manifestSha256") manifest_hash
            (set_attr (plug_attr "manifestUrl") (manifest_url c) enclosure))
     else Ok enclosure);
  enclosure ←
    (if given signing_private_key_b64 then
       let key := default EmptyString signing_private_key_b64 in
       payload ← signature_payload c;
       signature ← sign_payload payload key;
       let enclosure := set_attr (plug_attr "edSignature") signature enclosure in
       if nonempty (manifest_url c) then
         manifest_signature ← sign_payload (MkBinding payload (manifest_url c) (manifest_sha256 c)) key;
         Ok (set_attr (plug_attr "manifestSignature") manifest_signature enclosure)
       else Ok enclosure
     else Ok enclosure);
  Ok (with_children (new_element "item")
        [text_element "title" (expected_title c); text_element "pubDate" pub_date;
         text_element "description" (expected_description c); enclosure]).

(** [l\[:n\]] *)
Definition slice_to {A} (n : Z) (l : list A) : list A :=
  take (Z.to_nat (if n <? 0 then Z.of_nat (length l) + n else n)) l.

(** src: tool/appcast/appcast_manager.py:243-246 _base_rss_root *)
Definition base_rss_root : element := set_attr "version" "2.0" (new_element "rss").

(** src: tool/appcast/appcast_manager.py:267-287 update_appcast_tree
    The item the update puts first: the published one when it is still right
    and nothing has to be signed, and otherwise a new one that keeps its date. *)
Definition choose_item (channel : element) (c : AppcastContext) (published : string)
    (signing_private_key_b64 : option string) : res element :=
  let matching_item := find_matching_item channel c in
  let existing_pub_date :=
    match matching_item with Some item => strip (findtext "pubDate" item) | None => EmptyString end in
  let rebuild := build_appcast_item c (str_or existing_pub_date published) signing_private_key_b64 in
  match matching_item with
  | Some item =>
      if negb (given signing_private_key_b64) && nonempty existing_pub_date && item_matches_context item c
      then Ok item
      else rebuild
  | None => rebuild
  end.

(** src: tool/appcast/appcast_manager.py:255-305 update_appcast_tree
    [published] is the publication time as the date header spells it. *)
Definition update_appcast_tree (root : element) (c : AppcastContext) (published : string)
    (signing_private_key_b64 : option string) : res element :=
  let '(root, channel) := ensure_channel root in
  let remaining :=
    List.filter (λ child, negb (has_tag "item" child && item_is_for c child)) (e_children channel) in
  item ← choose_item channel c published signing_private_key_b64;
  let children := item :: remaining in
  let preserved := List.filter (λ child, one_of (e_tag child) ["title"; "link"; "description"]) children in
  let items := slice_to (max_items c) (List.filter (has_tag "item") children) in
  let head :=
    match preserved with
    | [] => [text_element "title" APPCAST_TITLE; text_element "link" APPCAST_LINK;
             text_element "description" APPCAST_DESCRIPTION]
    | _ => preserved
    end in
  Ok (with_children root (update_first "channel" (with_children channel (head ++ items)) (e_children root))).

(** src: tool/appcast/appcast_manager.py:361-384 validate_signatures *)
Definition validate_signatures (item : element) (c : AppcastContext) (public_keys : string) : res unit :=
  let enclosure := find_elem "enclosure" item in
  payload ← signature_payload c;
  enclosure ← from_option enclosure (AttributeError "get");
  let signature := strip (attr_or_empty (plug_attr "edSignature") enclosure) in
  _ ← raise_if (negb (nonempty signature))
        (ValueError ("Feed signature is absent for version " +:+ version c +:+ ": missing plug:edSignature. " +:+
           "The published feed must be signed through the approved release workflow; " +:+
           "do not disable signature verification."));
  _ ← raise_if (negb (verify_with_any_key payload signature public_keys))
        (ValueError ("Feed signature is invalid for version " +:+ version c +:+ ". " +:+
           "Check the published payload and the configured trusted public keys."));
  if nonempty (manifest_url c) then
    _ ← raise_if (negb (bool_decide (attr (plug_attr "manifestUrl") enclosure = Some (manifest_url c))) ||
                  negb (bool_decide (attr (plug_attr "manifestSha256") enclosure = Some (manifest_sha256 c))))
          (ValueError "Feed manifest identity mismatch");
    let binding := MkBinding payload (manifest_url c) (manifest_sha256 c) in
    raise_if (negb (verify_with_any_key binding
                      (attr_or_empty (plug_attr "manifestSignature") enclosure) public_keys))
      (ValueError "Feed manifest signature is absent or invalid")
  else Ok tt.

(** src: tool/appcast/appcast_manager.py:324-348 validate_appcast_tree *)
Definition validate_appcast_tree (root : element) (c : AppcastContext) (public_keys : string) : res unit :=
  channel ← from_option (find_elem "channel" root) (ValueError "appcast.xml missing <channel>.");
  let items := findall "item" channel in
  let n := Z.of_nat (length items) in
  latest_item ← from_option (head items) (ValueError "appcast.xml missing <item>.");
  _ ← raise_if (max_items c <? n)
        (ValueError ("invalid item count in appcast.xml: " +:+ py_str_int n +:+
           " (expected between 1 and " +:+ py_str_int (max_items c) +:+ ")."));
  let latest_version := sparkle_version (find_elem "enclosure" latest_item) in
  _ ← raise_if (latest_version != version c)
        (ValueError ("latest appcast item version mismatch: expected " +:+ py_repr (version c) +:+
           ", actual " +:+ py_repr latest_version));
  _ ← validate_item latest_item c;
  if nonempty public_keys then validate_signatures latest_item c public_keys else Ok tt.

(** src: tool/appcast/appcast_manager.py:451-482 context_from_latest_item *)
Definition context_from_latest_item (item : element) (max_items : Z) : res AppcastContext :=
  let description := strip (findtext "description" item) in
  enclosure ← from_option (find_elem "enclosure" item) (ValueError "missing <enclosure> in latest item");
  let item_version := sparkle_version (Some enclosure) in
  _ ← raise_if (negb (nonempty item_version)) (ValueError "latest item missing sparkle:version");
  let asset_url := strip (attr_or_empty "url" enclosure) in
  let asset_size := strip (attr_or_empty "length" enclosure) in
  asset_sha256 ← plug_sha256 (Some enclosure);
  let channel := plug_channel (Some enclosure) in
  rollout_percentage ← plug_rollout_percentage (Some enclosure);
  uri ← urlparse asset_url;
  let context :=
    MkContext (before "+" item_version) item_version asset_url asset_size asset_sha256 description
      (path_name (u_path uri)) channel rollout_percentage max_items
      (attr_or_empty (plug_attr "manifestUrl") enclosure)
      (attr_or_empty (plug_attr "manifestSha256") enclosure) in
  _ ← validate_item item context;
  Ok context.
End appcast.

#[local] Arguments sparkle_version : simpl never.
#[local] Arguments sparkle_os : simpl never.
#[local] Arguments plug_sha256 : simpl never.
#[local] Arguments plug_channel : simpl never.
#[local] Arguments plug_rollout_percentage : simpl never.

(** ** Digests *)

Lemma normalize_sha256_hex v d : normalize_sha256 v = Ok d → is_hex64 d = true.
Proof. unfold normalize_sha256. intros H. inv_res. by bool_simpl. Qed.

Lemma normalize_sha256_fixed d : is_hex64 d = true → normalize_sha256 d = Ok d.
Proof.
  intros Hd. pose proof Hd as [_ Hhex]%is_hex64_spec. unfold normalize_sha256.
  rewrite hex_strip, hex_lower by done. rewrite (hex_head d "sha256:") by done. by rewrite Hd.
Qed.

(** A digest that is accepted comes out as 64 lower-case hexadecimal digits
    and is its own normal form; an upper-case or [sha256:]-prefixed spelling of
    a normal digest normalises to it. *)
Theorem normalize_sha256_normal (v d : string) (Hv : normalize_sha256 v = Ok d) :
  is_hex64 d = true ∧ normalize_sha256 d = Ok d ∧ normalize_sha256 ("sha256:" +:+ d) = Ok d ∧
  normalize_sha256 (" SHA256: " +:+ py_lower d) = Ok d.
Proof.
  apply normalize_sha256_hex in Hv as Hd. split_and!; [done|by apply normalize_sha256_fixed|..].
  all: pose proof Hd as [Hlen Hhex]%is_hex64_spec; unfold normalize_sha256;
    assert (d ≠ EmptyString) by (by intros ->).
  - rewrite <- strip_lower, py_lower_app, (hex_lower d) by done.
    assert (strip (py_lower "sha256:" +:+ d) = "sha256:" +:+ d) as ->
      by (apply strip_by_id, (stripped_app _ "s" "ha256:"); [done|by apply hex_strip_by|done]).
    rewrite startswith_app. change ("sha256:" +:+ d) with ("sha256" +:+ String ":" d). rewrite (after_char ":" "sha256") by done.
    by rewrite hex_strip, Hd.
  - rewrite <- strip_lower, py_lower_app, !(hex_lower d) by done.
    assert (strip (py_lower " SHA256: " +:+ d) = "sha256: " +:+ d) as ->.
    { change (strip (String " " ("sha256: " +:+ d)) = "sha256: " +:+ d).
      change (strip_by is_space ("sha256: " +:+ d) = "sha256: " +:+ d).
      apply strip_by_id, (stripped_app _ "s" "ha256: "); [done|by apply hex_strip_by|done]. }
    change (startswith ("sha256: " +:+ d) "sha256:") with (startswith ("sha256:" +:+ (" " +:+ d)) "sha256:").
    rewrite startswith_app.
    change ("sha256: " +:+ d) with ("sha256" +:+ String ":" (String " " d)).
    rewrite (after_char ":" "sha256") by done.
    change (strip (String " " d)) with (strip d). by rewrite hex_strip, Hd.
Qed.

Theorem normalize_sha256_normal_witness :
  normalize_sha256 (" SHA256: " +:+ py_lower (sha256_hex "abc")) = Ok (sha256_hex "abc").
Proof.
  apply (normalize_sha256_normal (sha256_hex "abc") (sha256_hex "abc")). vm_compute. reflexivity.
Defined.

(** ** The item that is built is the item that validates *)

Lemma attr_set k v k' e : attr k (set_attr k' v e) = if k == k' then Some v else attr k e.
Proof.
  destruct e as [t a x y c]. unfold attr, set_attr. simpl.
  induction a as [|[k2 v2] a IH]; simpl; [done|].
  destruct (String.eqb_spec k' k2) as [->|Hne]; simpl.
  - by destruct (k == k2).
  - rewrite IH. destruct (String.eqb_spec k k2) as [->|]; [|done].
    destruct (String.eqb_spec k2 k'); [congruence|done].
Qed.

Lemma attr_new k tag : attr k (new_element tag) = None.
Proof. done. Qed.

Lemma expected_channel_fixed c :
  str_or (py_lower (strip (str_or (expected_channel c) DEFAULT_CHANNEL))) DEFAULT_CHANNEL = expected_channel c.
Proof.
  unfold expected_channel, str_or.
  destruct (nonempty (py_lower (strip (if nonempty (channel c) then channel c else DEFAULT_CHANNEL)))) eqn:E;
    [|reflexivity].
  rewrite E, <- strip_lower, py_lower_idem, <- strip_lower, strip_idem, strip_lower, E. done.
Qed.

Lemma expected_channel_nonempty c : nonempty (expected_channel c) = true.
Proof.
  unfold expected_channel. generalize (py_lower (strip (str_or (channel c) DEFAULT_CHANNEL))).
  intros s. unfold str_or. by destruct (nonempty s) eqn:E.
Qed.

Lemma rollout_text r : 0 ≤ r ≤ 100 → int_of (strip (py_str_int r)) = Ok r ∧ nonempty (strip (py_str_int r)) = true.
Proof.
  intros Hr.
  assert (H : forallb (λ n, bool_decide (int_of (strip (py_str_int (Z.of_nat n))) = Ok (Z.of_nat n)) &&
    nonempty (strip (py_str_int (Z.of_nat n)))) (seq 0 101) = true) by (vm_compute; reflexivity).
  rewrite forallb_forall in H. specialize (H (Z.to_nat r)).
  rewrite Z2Nat.id in H by lia. rewrite in_seq in H.
  assert (0 ≤ Z.to_nat r < 0 + 101)%nat as Hin by lia. apply H in Hin.
  apply andb_prop in Hin as [Hd ?]. by apply bool_decide_eq_true in Hd.
Qed.

(** What the release workflow passes: values without surrounding white space, an
    HTTPS URL of an [.exe] that ends in the asset name, a positive size, and a
    manifest digest in normal form. *)
Definition publishable (c : AppcastContext) : bool :=
  (strip (version c) == version c) && nonempty (version c) &&
  (strip (expected_description c) == expected_description c) &&
  (strip (asset_url c) == asset_url c) &&
  startswith (asset_url c) "https://" && endswith (py_lower (asset_url c)) ".exe" &&
  contains (asset_url c) (expected_asset_name c) &&
  (strip (asset_size c) == asset_size c) &&
  match py_int (asset_size c) with Some n => 0 <? n | None => false end &&
  (negb (nonempty (manifest_sha256 c)) || is_hex64 (manifest_sha256 c)).

Lemma strip_title v : nonempty v = true → strip v = v → strip ("Version " +:+ v) = "Version " +:+ v.
Proof.
  intros Hne%nonempty_true Hv. apply strip_by_id, (stripped_app _ "V" "ersion "); [done| |done].
  by apply strip_by_fixed.
Qed.

Lemma bool_decide_eqb (b : bool) : negb b = false → b = true.
Proof. by destruct b. Qed.

(** The attributes of a built enclosure. *)
Record enclosure_of (c : AppcastContext) (sha256 : string) (rollout : Z) (e : element) : Prop := {
  eo_url : attr "url" e = Some (asset_url c);
  eo_version : attr (sparkle_attr "version") e = Some (version c);
  eo_os : attr (sparkle_attr "os") e = Some WINDOWS_OS_NAME;
  eo_sha256 : attr (plug_attr "sha256") e = Some sha256;
  eo_channel : attr (plug_attr "channel") e = Some (expected_channel c);
  eo_rollout : attr (plug_attr "rolloutPercentage") e = Some (py_str_int rollout);
  eo_length : attr "length" e = Some (asset_size c);
  eo_type : attr "type" e = Some ENCLOSURE_MIME_TYPE
}.

Record built (c : AppcastContext) (pub_date : string) (sha256 : string) (rollout : Z) (item enc : element)
    : Prop := {
  bt_item : item = Elem "item" [] None None
    [text_element "title" (expected_title c); text_element "pubDate" pub_date;
     text_element "description" (expected_description c); enc];
  bt_tag : e_tag enc = "enclosure";
  bt_sha256 : expected_asset_sha256 c = Ok sha256;
  bt_rollout : expected_rollout_percentage c = Ok rollout;
  bt_enclosure : enclosure_of c sha256 rollout enc;
  bt_manifest_url : attr (plug_attr "manifestUrl") enc =
    if nonempty (manifest_url c) then Some (manifest_url c) else None;
  bt_manifest_sha256 : if nonempty (manifest_url c)
    then nonempty (manifest_sha256 c) = true ∧
         ∃ h, normalize_sha256 (manifest_sha256 c) = Ok h ∧ attr (plug_attr "manifestSha256") enc = Some h
    else manifest_sha256 c = EmptyString ∧ attr (plug_attr "manifestSha256") enc = None
}.

(** What signing adds to the enclosure. *)
Definition signed_with `{Ed25519} (c : AppcastContext) (key : option string) (enc : element) : Prop :=
  if given key then
    ∃ payload sig, signature_payload c = Ok payload ∧ sign_payload payload (default EmptyString key) = Ok sig ∧
      attr (plug_attr "edSignature") enc = Some sig ∧
      (nonempty (manifest_url c) = true → ∃ msig,
         sign_payload (MkBinding payload (manifest_url c) (manifest_sha256 c)) (default EmptyString key) = Ok msig ∧
         attr (plug_attr "manifestSignature") enc = Some msig)
  else attr (plug_attr "edSignature") enc = None ∧ nonempty (manifest_url c) = false.

Lemma build_appcast_item_built `{Ed25519} c d key item :
  build_appcast_item c d key = Ok item →
  ∃ sha256 rollout enc, built c d sha256 rollout item enc ∧ signed_with c key enc.
Proof.
  unfold build_appcast_item, signed_with. intros Hb. inv_res.
  rename a into sha256, a0 into rollout. exists sha256, rollout.
  destruct (nonempty (manifest_url c)) eqn:Hm, (given key) eqn:Hk; inv_res; try discriminate.
  all: eexists; split; [split; [reflexivity|reflexivity|done|done|split; reflexivity|rewrite Hm; reflexivity|rewrite Hm]|].
  - split; [by destruct (nonempty (manifest_sha256 c))|]. eexists. split; [done|reflexivity].
  - do 2 eexists. split_and!; [done|done|reflexivity|]. intros _. eexists. split; [done|reflexivity].
  - split; [by destruct (manifest_sha256 c)|reflexivity].
  - do 2 eexists. split_and!; [done|done|reflexivity|done].
  - split; [by destruct (manifest_sha256 c)|reflexivity].
  - split; reflexivity.
Qed.

Lemma built_find_enclosure c d sha256 rollout item enc :
  built c d sha256 rollout item enc → find_elem "enclosure" item = Some enc.
Proof.
  intros Hb. rewrite (bt_item _ _ _ _ _ _ Hb). unfold find_elem, has_tag. simpl.
  by rewrite (bt_tag _ _ _ _ _ _ Hb).
Qed.

Lemma str_or_nonempty a b : nonempty a = true → str_or a b = a.
Proof. unfold str_or. by intros ->. Qed.

Lemma attr2_Some a b d e v : attr a e = Some v → nonempty v = true → attr2 a b d e = v.
Proof. intros Ha Hv. unfold attr2, attr_or_empty. rewrite Ha. by apply str_or_nonempty. Qed.

Lemma attr_or_empty_Some a e v : attr a e = Some v → attr_or_empty a e = v.
Proof. unfold attr_or_empty. by intros ->. Qed.

Lemma is_hex64_nonempty d : is_hex64 d = true → nonempty d = true.
Proof. by destruct d. Qed.

Lemma pretty_nonempty r : 0 ≤ r ≤ 100 → nonempty (py_str_int r) = true.
Proof. intros [_ Hn]%rollout_text. by destruct (py_str_int r). Qed.

Lemma expected_rollout_Ok c r : expected_rollout_percentage c = Ok r → r = rollout_percentage c ∧ 0 ≤ r ≤ 100.
Proof. unfold expected_rollout_percentage. intros Hr. inv_res. bool_simpl. lia. Qed.

(** What the readers of the enclosure see of a built one. *)
Lemma enclosure_of_reads c sha256 rollout e :
  enclosure_of c sha256 rollout e → nonempty (version c) = true → is_hex64 sha256 = true → 0 ≤ rollout ≤ 100 →
  sparkle_version (Some e) = strip (version c) ∧ sparkle_os (Some e) = WINDOWS_OS_NAME ∧
  plug_sha256 (Some e) = Ok sha256 ∧ plug_channel (Some e) = expected_channel c ∧
  plug_rollout_percentage (Some e) = Ok rollout.
Proof.
  intros He Hv Hs Hr. unfold sparkle_version, sparkle_os, plug_sha256, plug_channel, plug_rollout_percentage.
  rewrite (attr2_Some _ _ _ _ _ (eo_version _ _ _ _ He)) by done.
  rewrite (attr2_Some _ _ _ _ _ (eo_os _ _ _ _ He)) by done.
  rewrite (attr2_Some _ _ _ _ _ (eo_sha256 _ _ _ _ He)) by (by apply is_hex64_nonempty).
  rewrite (attr2_Some _ _ _ _ _ (eo_channel _ _ _ _ He)) by apply expected_channel_nonempty.
  rewrite (attr2_Some _ _ _ _ _ (eo_rollout _ _ _ _ He)) by (by apply pretty_nonempty).
  apply rollout_text in Hr as Ht. destruct Ht as [Hi Hn]. rewrite Hn, Hi.
  rewrite normalize_sha256_fixed by done. split_and!; try done.
  - pose proof (expected_channel_fixed c) as Hc. rewrite (str_or_nonempty (expected_channel c)) in Hc by apply expected_channel_nonempty. done.
  - simpl. assert ((rollout <? 0) || (100 <? rollout) = false) as ->; [|done].
    apply orb_false_intro; [apply Z.ltb_ge|apply Z.ltb_ge]; lia.
Qed.

Lemma built_manifest_identity c d sha256 rollout item enc :
  built c d sha256 rollout item enc →
  negb (nonempty (manifest_sha256 c)) || is_hex64 (manifest_sha256 c) = true →
  (attr_or_empty (plug_attr "manifestUrl") enc != manifest_url c)
  || (attr_or_empty (plug_attr "manifestSha256") enc != manifest_sha256 c) = false.
Proof.
  intros Hb Hm. unfold attr_or_empty. rewrite (bt_manifest_url _ _ _ _ _ _ Hb).
  pose proof (bt_manifest_sha256 _ _ _ _ _ _ Hb) as Hs.
  destruct (nonempty (manifest_url c)) eqn:Hu.
  - destruct Hs as (Hne & h & Hh & ->). rewrite Hne in Hm. simpl in *.
    rewrite normalize_sha256_fixed in Hh by done. injection Hh as <-. by rewrite !String.eqb_refl.
  - destruct Hs as [-> ->]. apply nonempty_false in Hu as ->. done.
Qed.

Lemma built_item_validates_lemma `{Ed25519} (c : AppcastContext) (pub_date : string) (key : option string)
    (item : element)
    (Hc : publishable c = true)
    (Hb : build_appcast_item c pub_date key = Ok item) :
  validate_item item c = Ok tt.
Proof.
  apply build_appcast_item_built in Hb as (sha256 & rollout & enc & Hb & _).
  unfold publishable in Hc. bool_simpl.
  pose proof (normalize_sha256_hex _ _ (bt_sha256 _ _ _ _ _ _ Hb)) as Hhex.
  pose proof (expected_rollout_Ok _ _ (bt_rollout _ _ _ _ _ _ Hb)) as [_ Hrange].
  destruct (enclosure_of_reads c sha256 rollout enc (bt_enclosure _ _ _ _ _ _ Hb)) as (Hver & Hos & Hsha & Hch & Hro);
    try done.
  pose proof (bt_enclosure _ _ _ _ _ _ Hb) as Henc.
  unfold validate_item. rewrite (built_find_enclosure _ _ _ _ _ _ Hb). simpl.
  rewrite Hsha, Hro. simpl.
  rewrite (attr_or_empty_Some _ _ _ (eo_url _ _ _ _ Henc)), (attr_or_empty_Some _ _ _ (eo_length _ _ _ _ Henc)),
    (attr_or_empty_Some _ _ _ (eo_type _ _ _ _ Henc)).
  rewrite Hver, Hos, Hch, (bt_sha256 _ _ _ _ _ _ Hb), (bt_rollout _ _ _ _ _ _ Hb). simpl.
  rewrite (bt_item _ _ _ _ _ _ Hb).
  change (findtext "title" _) with (expected_title c).
  change (findtext "description" _) with (expected_description c).
  unfold expected_title. rewrite strip_title by done.
  repeat match goal with Hs : strip ?x = ?x |- _ => rewrite Hs; clear Hs end.
  rewrite !String.eqb_refl, Z.eqb_refl. simpl.
  rewrite (built_manifest_identity _ _ _ _ _ _ Hb) by done. simpl.
  match goal with Hs : contains _ _ = true |- _ => rewrite Hs end.
  rewrite andb_false_r. simpl.
  repeat match goal with Hs : startswith _ _ = true |- _ => rewrite Hs | Hs : endswith _ _ = true |- _ => rewrite Hs end.
  simpl. unfold int_of. destruct (py_int (asset_size c)) as [n|]; [|done]. simpl.
  bool_simpl. assert ((n <=? 0) = false) as -> by (apply Z.leb_gt; lia). done.
Qed.

(** Whatever item the tool builds from a publishable context passes the
    tool's own validation against that context. *)
Theorem built_item_validates `{Ed25519} (c : AppcastContext) (pub_date : string) (key : option string)
    (item : element)
    (Hc : publishable c = true)
    (Hb : build_appcast_item c pub_date key = Ok item) :
  validate_item item c = Ok tt.
Proof. by eapply built_item_validates_lemma. Qed.

Definition example_context : AppcastContext :=
  MkContext "1.9.1" "1.9.1+1" "https://github.com/r/v1.9.1/PlugAgente-Setup-1.9.1.exe" "52428800"
    ("sha256:" +:+ py_upper (sha256_hex "installer")) "Fixes" "PlugAgente-Setup-1.9.1.exe" " Stable " 25 10 "" "".

Theorem built_item_validates_witness :
  match build_appcast_item example_context "Thu, 01 Jan 2026 00:00:00 +0000" None with
  | Ok item => validate_item item example_context = Ok tt
  | Raise _ => False
  end.
Proof.
  destruct (build_appcast_item example_context _ None) as [item|e] eqn:Hb;
    [|apply (f_equal is_ok) in Hb; vm_compute in Hb; discriminate Hb].
  apply (built_item_validates example_context "Thu, 01 Jan 2026 00:00:00 +0000" None item); [|exact Hb].
  vm_compute. reflexivity.
Defined.

(** ** The updated tree *)

Lemma update_first_find tag c' l : has_tag tag c' = true → is_Some (List.find (has_tag tag) l) →
  List.find (has_tag tag) (update_first tag c' l) = Some c'.
Proof.
  intros Hc' [x Hx]. induction l as [|c l IH]; simpl in *; [done|].
  destruct (has_tag tag c) eqn:E; simpl; [by rewrite Hc'|]. rewrite E. by apply IH.
Qed.

Lemma find_app_tag tag l c : List.find (has_tag tag) l = None → has_tag tag c = true →
  List.find (has_tag tag) (l ++ [c]) = Some c.
Proof.
  intros Hl Hc. induction l as [|x l IH]; simpl in *; [by rewrite Hc|].
  destruct (has_tag tag x); [done|by apply IH].
Qed.

Lemma e_children_with e c : e_children (with_children e c) = c.
Proof. by destruct e. Qed.
Lemma e_tag_with e c : e_tag (with_children e c) = e_tag e.
Proof. by destruct e. Qed.

Lemma ensure_channel_spec root root1 channel : ensure_channel root = (root1, channel) →
  has_tag "channel" channel = true ∧ find_elem "channel" root1 = Some channel ∧
  findall "item" channel = match find_elem "channel" root with Some ch => findall "item" ch | None => [] end.
Proof.
  unfold ensure_channel. destruct (find_elem "channel" root) as [ch|] eqn:E; intros [= <- <-].
  - split_and!; try done. by apply find_some in E as [_ ?].
  - split_and!; try done. unfold find_elem. rewrite e_children_with. by apply find_app_tag.
Qed.

(** The items of the published channel before the update. *)
Definition channel_items (root : element) : list element :=
  match find_elem "channel" root with Some channel => findall "item" channel | None => [] end.

Lemma filter_filter {A} (f g : A → bool) l : List.filter f (List.filter g l) = List.filter (λ x, f x && g x) l.
Proof.
  induction l as [|x l IH]; simpl; [done|]. destruct (g x); simpl; rewrite IH; by destruct (f x).
Qed.

Lemma filter_ext_in {A} (f g : A → bool) l : (∀ x, f x = g x) → List.filter f l = List.filter g l.
Proof. intros Hfg. induction l as [|x l IH]; simpl; [done|]. by rewrite Hfg, IH. Qed.

Lemma filter_none {A} (f : A → bool) l : Forall (λ x, f x = false) l → List.filter f l = [].
Proof. induction 1 as [|x l Hx _ IH]; simpl; [done|]. by rewrite Hx. Qed.

Lemma tags_disjoint e : one_of (e_tag e) ["title"; "link"; "description"] = true → has_tag "item" e = false.
Proof.
  intros Ht%one_of_true. unfold has_tag. apply String.eqb_neq. intros He. rewrite He in Ht.
  rewrite !elem_of_cons in Ht. destruct Ht as [?|[?|[?|?%elem_of_nil]]]; congruence.
Qed.

(** What [update_appcast_tree] puts first: the matching item itself when it is
    still valid and the feed is not signed, and otherwise a newly built one. *)
Definition update_item `{Ed25519} (root : element) (c : AppcastContext) (published : string)
    (key : option string) (item : element) : Prop :=
  (∃ channel, find_elem "channel" root = Some channel ∧ find_matching_item channel c = Some item ∧
     given key = false ∧ nonempty (strip (findtext "pubDate" item)) = true ∧ validate_item item c = Ok tt) ∨
  (∃ pub_date, build_appcast_item c pub_date key = Ok item ∧
     (nonempty published = true → nonempty pub_date = true ∧ (strip published = published → strip pub_date = pub_date))).

Lemma is_ok_unit (r : res unit) : is_ok r = true → r = Ok tt.
Proof. by destruct r as [[]|]. Qed.

Lemma choose_item_spec `{Ed25519} root root1 channel c published key item :
  ensure_channel root = (root1, channel) → choose_item channel c published key = Ok item →
  update_item root c published key item ∧ has_tag "item" item = true.
Proof.
  intros He Hitem.
  assert (∀ d, build_appcast_item c d key = Ok item → has_tag "item" item = true) as Hbt.
  { intros d (s & r & enc & Hb & _)%build_appcast_item_built. by rewrite (bt_item _ _ _ _ _ _ Hb). }
  unfold choose_item in Hitem. destruct (find_matching_item channel c) as [old|] eqn:Hm.
  - destruct (_ && item_matches_context old c) eqn:Hr.
    + injection Hitem as <-. bool_simpl. split.
      * left. exists channel. split_and!; try done; [|by apply is_ok_unit].
        unfold ensure_channel in He. destruct (find_elem "channel" root); [by injection He as _ <-|].
        injection He as _ <-. by vm_compute in Hm.
      * by apply find_some in Hm as [[_ ?]%filter_In _].
    + split; [|by eapply Hbt]. right. eexists. split; [done|]. intros Hp. unfold str_or.
      destruct (nonempty (strip (findtext "pubDate" old))) eqn:Hs; [|done]. split; [done|]. intros _. apply strip_idem.
  - split; [|by eapply Hbt]. right. eexists. split; [done|]. intros Hp. by unfold str_or.
Qed.

(** The updated tree: the channel's texts, the item and the other items. *)
Lemma update_tree_shape `{Ed25519} root c published key root' :
  update_appcast_tree root c published key = Ok root' →
  ∃ root1 channel item texts,
    find_elem "channel" root1 = Some channel ∧ has_tag "channel" channel = true ∧
    update_item root c published key item ∧ has_tag "item" item = true ∧
    texts ≠ [] ∧ Forall (λ e, one_of (e_tag e) ["title"; "link"; "description"] = true) texts ∧
    root' = with_children root1 (update_first "channel" (with_children channel
      (texts ++ slice_to (max_items c) (item :: List.filter (λ i, negb (item_is_for c i)) (channel_items root))))
      (e_children root1)).
Proof.
  unfold update_appcast_tree. destruct (ensure_channel root) as [root1 channel] eqn:He.
  pose proof (ensure_channel_spec _ _ _ He) as (Htag & Hfind & Hitems). intros Hu.
  apply res_bind_Ok in Hu as (item & Hitem & Hu). apply (inj Ok) in Hu.
  destruct (choose_item_spec _ _ _ _ _ _ _ He Hitem) as [Hui Hit].
  assert (List.filter (has_tag "item") (item :: List.filter (λ child, negb (has_tag "item" child && item_is_for c child))
     (e_children channel)) = item :: List.filter (λ i, negb (item_is_for c i)) (channel_items root)) as Hf.
  { simpl. rewrite Hit. f_equal. rewrite filter_filter. unfold channel_items. rewrite <- Hitems.
    unfold findall. rewrite filter_filter. apply filter_ext_in. intros x.
    by destruct (has_tag "item" x), (item_is_for c x). }
  rewrite Hf in Hu. destruct (List.filter (λ child, one_of _ _) _) as [|t ts] eqn:Ep.
  - eexists root1, channel, item, _. split_and!; [done|done|done|done| | |done]; [done|by repeat constructor].
  - exists root1, channel, item, (t :: ts). split_and!; [done|done|done|done|done| |done].
    rewrite <- Ep. apply Forall_filter_true.
Qed.

Lemma update_tree_items `{Ed25519} root c published key root' :
  update_appcast_tree root c published key = Ok root' →
  ∃ item channel', update_item root c published key item ∧ has_tag "item" item = true ∧
    find_elem "channel" root' = Some channel' ∧
    findall "item" channel' =
      slice_to (max_items c) (item :: List.filter (λ i, negb (item_is_for c i)) (channel_items root)).
Proof.
  intros (root1 & channel & item & texts & Hfind & Htag & Hui & Hit & _ & Htexts & ->)%update_tree_shape.
  eexists item, _. split_and!; [done|done|..].
  - unfold find_elem. rewrite e_children_with. unfold find_elem in Hfind.
    apply update_first_find; [|by rewrite Hfind]. unfold has_tag. by rewrite e_tag_with.
  - unfold findall. rewrite e_children_with, List.filter_app.
    rewrite filter_none by (eapply Forall_impl; [done|]; apply tags_disjoint).
    apply filter_all, Forall_take. constructor; [done|].
    eapply incl_Forall; [|apply (Forall_filter_true (has_tag "item") (match find_elem "channel" root with
      Some ch => e_children ch | None => [] end))].
    intros x [Hx _]%filter_In. unfold channel_items in Hx. by destruct (find_elem "channel" root).
Qed.

Lemma length_slice_to {A} n (l : list A) : 0 ≤ n → Z.of_nat (length (slice_to n l)) ≤ n.
Proof.
  intros Hn. unfold slice_to. assert ((n <? 0) = false) as -> by (apply Z.ltb_ge; lia).
  rewrite length_take. lia.
Qed.

Lemma slice_to_nonneg {A} n (l : list A) : 0 ≤ n → slice_to n l = take (Z.to_nat n) l.
Proof. intros Hn. unfold slice_to. assert ((n <? 0) = false) as -> by (apply Z.ltb_ge; lia). done. Qed.

Lemma slice_to_cons {A} n x (l : list A) : 1 ≤ n → slice_to n (x :: l) = x :: slice_to (n - 1) l.
Proof.
  intros Hn. unfold slice_to. assert ((n <? 0) = false) as -> by (apply Z.ltb_ge; lia).
  assert ((n - 1 <? 0) = false) as -> by (apply Z.ltb_ge; lia).
  by replace (Z.to_nat n) with (S (Z.to_nat (n - 1))) by lia.
Qed.

Lemma update_item_validates `{Ed25519} root c published key item :
  publishable c = true → update_item root c published key item → validate_item item c = Ok tt.
Proof. intros Hc [(? & ? & ? & ? & ? & ?)|(d & Hb & _)]; [done|]. by eapply built_item_validates_lemma. Qed.

(** What [validate_item] compares. *)
Lemma validate_item_version item c : validate_item item c = Ok tt →
  sparkle_version (find_elem "enclosure" item) = version c.
Proof.
  unfold validate_item. destruct (find_elem "enclosure" item) as [e|]; simpl; [|done].
  intros Hv. inv_res. by bool_simpl.
Qed.

Lemma validate_item_is_for item c : validate_item item c = Ok tt → item_is_for c item = true.
Proof.
  intros Hv. unfold item_is_for. rewrite (validate_item_version _ _ Hv).
  unfold validate_item in Hv. destruct (find_elem "enclosure" item) as [e|]; simpl in Hv; [|done].
  inv_res. bool_simpl. apply andb_true_intro; split; [apply andb_true_intro; split|].
  - apply one_of_true. left.
  - by apply String.eqb_eq.
  - by apply String.eqb_eq.
Qed.



(** ** Signed feeds *)

Lemma built_signatures_validate `{Ed25519Laws} c d key pub csv item :
  publishable c = true → build_appcast_item c d (Some key) = Ok item → nonempty key = true →
  derive_public_key_b64 key = Ok pub → pub ∈ strip <$> split_char "," csv →
  validate_signatures item c csv = Ok tt.
Proof.
  intros Hc Hb Hk Hpub Hin. apply build_appcast_item_built in Hb as (sha256 & rollout & enc & Hb & Hs).
  unfold signed_with, given in Hs. simpl in Hs. rewrite Hk in Hs.
  destruct Hs as (payload & sig & Hp & Hsig & Hattr & Hman).
  unfold validate_signatures. rewrite Hp, (built_find_enclosure _ _ _ _ _ _ Hb). simpl.
  rewrite (attr_or_empty_Some _ _ _ Hattr), (sign_payload_stripped _ _ _ Hsig).
  assert (verify_with_any_key payload sig csv = true) as Hv by (by eapply sign_payload_accepted).
  rewrite (sign_payload_nonempty _ _ _ Hsig), Hv. simpl. destruct (nonempty (manifest_url c)) eqn:Hm; [|done].
  destruct (Hman eq_refl) as (msig & Hmsig & Hmattr).
  rewrite (attr_or_empty_Some _ _ _ Hmattr), (bt_manifest_url _ _ _ _ _ _ Hb), Hm.
  pose proof (bt_manifest_sha256 _ _ _ _ _ _ Hb) as Hms. rewrite Hm in Hms.
  destruct Hms as (Hne & h & Hh & ->).
  unfold publishable in Hc. apply andb_prop in Hc as [_ Hc]. rewrite Hne in Hc. simpl in Hc.
  rewrite normalize_sha256_fixed in Hh by done. injection Hh as <-.
  rewrite !bool_decide_eq_true_2 by done. simpl.
  by assert (verify_with_any_key (MkBinding payload (manifest_url c) (manifest_sha256 c)) msig csv = true) as ->
    by (by eapply sign_payload_accepted).
Qed.


Definition example_key : string := b64encode "0123456789abcdef0123456789abcdef".
Definition example_public : string := b64encode (toy_public "0123456789abcdef0123456789abcdef").


(** C3. Signature validation is sound: when a feed passes with trusted keys,
    its latest item carries a signature that a trusted key verifies over exactly
    the context's version, digest, channel, rollout, URL and size; and with a
    manifest, a second one over the manifest's URL and digest as well. *)
Theorem validated_feed_is_signed `{Ed25519} (root : element) (c : AppcastContext) (keys : string)
    (Hkeys : nonempty keys = true)
    (Hv : validate_appcast_tree root c keys = Ok tt) :
  ∃ item enc payload, head (channel_items root) = Some item ∧ find_elem "enclosure" item = Some enc ∧
    validate_item item c = Ok tt ∧ signature_payload c = Ok payload ∧
    verify_with_any_key payload (strip (attr_or_empty (plug_attr "edSignature") enc)) keys = true ∧
    (nonempty (manifest_url c) = true →
     verify_with_any_key (MkBinding payload (manifest_url c) (manifest_sha256 c))
       (attr_or_empty (plug_attr "manifestSignature") enc) keys = true).
Proof.
  unfold validate_appcast_tree, channel_items in *. inv_res. bool_simpl.
  match goal with Hf : find_elem "channel" root = Some _ |- _ => rewrite Hf end.
  rewrite Hkeys in Hv. unfold validate_signatures in Hv. inv_res. bool_simpl.
  do 3 eexists. split_and!; try done.
  intros Hm. rewrite Hm in Hv. inv_res. by bool_simpl.
Qed.

Definition example_feed : element :=
  match update_appcast_tree base_rss_root example_context "Thu, 01 Jan 2026 00:00:00 +0000" (Some example_key) with
  | Ok root => root
  | Raise _ => base_rss_root
  end.

Theorem validated_feed_is_signed_witness :
  ∃ item enc payload, head (channel_items example_feed) = Some item ∧ find_elem "enclosure" item = Some enc ∧
    validate_item item example_context = Ok tt ∧ signature_payload example_context = Ok payload ∧
    verify_with_any_key payload (strip (attr_or_empty (plug_attr "edSignature") enc)) example_public = true ∧
    (nonempty (manifest_url example_context) = true →
     verify_with_any_key (MkBinding payload (manifest_url example_context) (manifest_sha256 example_context))
       (attr_or_empty (plug_attr "manifestSignature") enc) example_public = true).
Proof. apply (validated_feed_is_signed example_feed example_context example_public); vm_compute; reflexivity. Defined.

(** ** What the update keeps *)

(** C12. The update replaces the published release and nothing else: the first
    item is for this version, system and channel, the others are the earlier
    items for other releases in their order, cut to the limit; so the release
    occurs exactly once. *)
Theorem update_keeps_other_releases `{Ed25519} (root root' : element) (c : AppcastContext) (published : string)
    (key : option string)
    (Hc : publishable c = true) (Hmax : 1 ≤ max_items c)
    (Hu : update_appcast_tree root c published key = Ok root') :
  ∃ item, item_is_for c item = true ∧
    channel_items root' =
      item :: take (Z.to_nat (max_items c - 1)) (List.filter (λ i, negb (item_is_for c i)) (channel_items root)) ∧
    List.filter (item_is_for c) (channel_items root') = [item] ∧
    Z.of_nat (length (channel_items root')) ≤ max_items c.
Proof.
  apply update_tree_items in Hu as (item & channel' & Hitem & _ & Hfind & Hitems).
  apply update_item_validates in Hitem as Hv; [|done].
  apply validate_item_is_for in Hv as Hfor. exists item.
  unfold channel_items at 1 3 4. rewrite Hfind, Hitems.
  split_and!; [done| | |by apply length_slice_to; lia].
  - rewrite slice_to_cons by done. rewrite slice_to_nonneg; [done|lia].
  - rewrite slice_to_cons by done. simpl. rewrite Hfor. f_equal. apply filter_none.
    apply Forall_take. eapply Forall_impl; [apply Forall_filter_true|]. intros x Hx. by apply negb_true_iff in Hx.
Qed.

Theorem update_keeps_other_releases_witness :
  ∃ item, item_is_for example_context item = true ∧
    channel_items example_feed = item :: take 9
      (List.filter (λ i, negb (item_is_for example_context i)) (channel_items base_rss_root)) ∧
    List.filter (item_is_for example_context) (channel_items example_feed) = [item] ∧
    Z.of_nat (length (channel_items example_feed)) ≤ 10.
Proof.
  apply (update_keeps_other_releases base_rss_root example_feed example_context
    "Thu, 01 Jan 2026 00:00:00 +0000" (Some example_key));
    [vm_compute; reflexivity|vm_compute; discriminate|vm_compute; reflexivity].
Defined.

Lemma update_first_same tag c l : List.find (has_tag tag) l = Some c → update_first tag c l = l.
Proof.
  induction l as [|x l IH]; simpl; [done|]. destruct (has_tag tag x); [by intros [= ->]|].
  intros Hl. by rewrite IH.
Qed.

Lemma find_app_none {A} (f : A → bool) l1 l2 : Forall (λ x, f x = false) l1 → List.find f (l1 ++ l2) = List.find f l2.
Proof. induction 1 as [|x l Hx _ IH]; simpl; [done|]. by rewrite Hx. Qed.

Lemma update_item_reused `{Ed25519} root c published published' item channel :
  publishable c = true → nonempty published = true → strip published = published →
  update_item root c published None item → find_matching_item channel c = Some item →
  choose_item channel c published' None = Ok item.
Proof.
  intros Hc Hp Hps Hui Hm. unfold choose_item. rewrite Hm.
  unfold item_matches_context. rewrite (update_item_validates _ _ _ _ _ Hc Hui).
  assert (nonempty (strip (findtext "pubDate" item)) = true) as ->; [|done].
  destruct Hui as [(? & _ & _ & _ & ? & _)|(d & Hb & Hd)]; [done|].
  apply build_appcast_item_built in Hb as (s & r & enc & Hb & _). rewrite (bt_item _ _ _ _ _ _ Hb).
  change (findtext "pubDate" _) with d. destruct (Hd Hp) as [Hne ->]; done.
Qed.

Lemma filter_cons_if {A} (f : A → bool) x l :
  List.filter f (x :: l) = if f x then x :: List.filter f l else List.filter f l.
Proof. done. Qed.

(** The channel of an updated tree, taken apart. *)
Lemma updated_channel_facts c texts item rest :
  Forall (λ e, one_of (e_tag e) ["title"; "link"; "description"] = true) texts →
  has_tag "item" item = true → item_is_for c item = true →
  Forall (λ i, has_tag "item" i = true ∧ item_is_for c i = false) rest →
  List.filter (λ child, negb (has_tag "item" child && item_is_for c child)) (texts ++ item :: rest) = texts ++ rest ∧
  List.filter (λ child, one_of (e_tag child) ["title"; "link"; "description"]) (item :: texts ++ rest) = texts ∧
  List.filter (has_tag "item") (item :: texts ++ rest) = item :: rest ∧
  List.find (item_is_for c) (List.filter (has_tag "item") (texts ++ item :: rest)) = Some item.
Proof.
  intros Ht Hit Hfor Hrest.
  assert (Forall (λ e, has_tag "item" e = false) texts) as Htn by (eapply Forall_impl; [done|]; apply tags_disjoint).
  assert (Forall (λ e, has_tag "item" e = true) rest) as Hrn by (eapply Forall_impl; [done|]; naive_solver).
  assert (∀ e, has_tag "item" e = true → one_of (e_tag e) ["title"; "link"; "description"] = false) as Hdis.
  { intros e He. destruct (one_of _ _) eqn:E; [|done]. apply tags_disjoint in E. congruence. }
  rewrite !List.filter_app, !filter_cons_if, !List.filter_app, (Hdis item Hit), Hit, Hfor.
  rewrite (filter_none (has_tag "item") texts), (filter_all (has_tag "item") rest) by done.
  cbn [andb negb app List.find]. rewrite Hfor. split_and!; try done.
  - f_equal; apply filter_all.
    + eapply Forall_impl; [exact Htn|]. intros x Hx. simpl in Hx. by rewrite Hx.
    + eapply Forall_impl; [exact Hrest|]. intros x [_ Hx]. by rewrite Hx, andb_false_r.
  - rewrite (filter_all _ texts) by done. rewrite filter_none by (eapply Forall_impl; [exact Hrn|]; apply Hdis).
    apply app_nil_r.
Qed.

(** C13. Publishing the same release again leaves the feed as it is, down to
    the publication date, when the feed is not signed. *)
Theorem update_idempotent `{Ed25519} (root root1 : element) (c : AppcastContext) (published published' : string)
    (Hc : publishable c = true) (Hmax : 1 ≤ max_items c)
    (Hp : nonempty published = true) (Hps : strip published = published)
    (Hu : update_appcast_tree root c published None = Ok root1) :
  update_appcast_tree root1 c published' None = Ok root1.
Proof.
  apply update_tree_shape in Hu as (r & channel & item & texts & Hfind & Htag & Hui & Hit & Hne & Htexts & ->).
  pose proof (validate_item_is_for _ _ (update_item_validates _ _ _ _ _ Hc Hui)) as Hfor.
  rewrite slice_to_cons by done.
  set (rest := slice_to (max_items c - 1) _).
  assert (Forall (λ i, has_tag "item" i = true ∧ item_is_for c i = false) rest) as Hrest.
  { unfold rest, slice_to. apply Forall_take, Forall_forall. intros x Hx%list_elem_of_In.
    apply filter_In in Hx as [Hx Hn]. bool_simpl. split; [|done]. unfold channel_items in Hx.
    destruct (find_elem "channel" root); [|done]. by apply filter_In in Hx as [_ ?]. }
  assert (slice_to (max_items c) (item :: rest) = item :: rest) as Hslice.
  { rewrite slice_to_cons by done. f_equal. unfold rest. rewrite !slice_to_nonneg by lia. by rewrite take_take, Nat.min_id. }
  destruct (updated_channel_facts c texts item rest Htexts Hit Hfor Hrest) as (Hf1 & Hf2 & Hf3 & Hf4).
  set (channel' := with_children channel (texts ++ item :: rest)).
  set (root1 := with_children r _).
  assert (find_elem "channel" root1 = Some channel') as Hfind1.
  { unfold find_elem, root1. rewrite e_children_with. unfold find_elem in Hfind. apply update_first_find; [|by rewrite Hfind].
    unfold has_tag, channel'. by rewrite e_tag_with. }
  unfold update_appcast_tree, ensure_channel. rewrite Hfind1.
  rewrite (update_item_reused root c published published' item) by
    (try done; unfold find_matching_item, findall, channel'; by rewrite e_children_with).
  cbn beta iota delta [mbind res_bind].
  assert (e_children channel' = texts ++ item :: rest) as -> by apply e_children_with.
  cbv zeta. rewrite Hf1, Hf2, Hf3, Hslice.
  f_equal. destruct texts as [|t ts]; [done|].
  assert (with_children channel' ((t :: ts) ++ item :: rest) = channel') as -> by (unfold channel'; by destruct channel).
  rewrite update_first_same by done. unfold root1. by destruct r.
Qed.

Theorem update_idempotent_witness :
  match update_appcast_tree base_rss_root example_context "Thu, 01 Jan 2026 00:00:00 +0000" None with
  | Ok root1 => update_appcast_tree root1 example_context "Fri, 02 Jan 2026 00:00:00 +0000" None = Ok root1
  | Raise _ => False
  end.
Proof.
  destruct (update_appcast_tree base_rss_root example_context _ None) as [root1|e] eqn:Hb;
    [|apply (f_equal is_ok) in Hb; vm_compute in Hb; discriminate Hb].
  apply (update_idempotent base_rss_root root1 example_context "Thu, 01 Jan 2026 00:00:00 +0000");
    [vm_compute; reflexivity|vm_compute; discriminate|reflexivity|reflexivity|exact Hb].
Defined.

(** ** What validation establishes *)

(** The published item says what the context says. *)
Record item_valid (item : element) (c : AppcastContext) (enc : element) : Prop := {
  iv_enclosure : find_elem "enclosure" item = Some enc;
  iv_title : strip (findtext "title" item) = expected_title c;
  iv_description : strip (findtext "description" item) = expected_description c;
  iv_version : sparkle_version (Some enc) = version c;
  iv_os : sparkle_os (Some enc) = WINDOWS_OS_NAME;
  iv_url : strip (attr_or_empty "url" enc) = asset_url c;
  iv_https : startswith (asset_url c) "https://" = true;
  iv_exe : endswith (py_lower (asset_url c)) ".exe" = true;
  iv_name : nonempty (expected_asset_name c) = true → contains (asset_url c) (expected_asset_name c) = true;
  iv_length : strip (attr_or_empty "length" enc) = asset_size c;
  iv_positive : ∃ n, py_int (asset_size c) = Some n ∧ 0 < n;
  iv_type : strip (attr_or_empty "type" enc) = ENCLOSURE_MIME_TYPE;
  iv_sha256 : ∃ d, plug_sha256 (Some enc) = Ok d ∧ normalize_sha256 (asset_sha256 c) = Ok d;
  iv_channel : plug_channel (Some enc) = expected_channel c;
  iv_rollout : plug_rollout_percentage (Some enc) = Ok (rollout_percentage c) ∧ 0 ≤ rollout_percentage c ≤ 100;
  iv_manifest_url : attr_or_empty (plug_attr "manifestUrl") enc = manifest_url c;
  iv_manifest_sha256 : attr_or_empty (plug_attr "manifestSha256") enc = manifest_sha256 c
}.

Lemma size_check s : (try_except (n ← int_of s; raise_if (n <=? 0) (ValueError EmptyString)) is_ValueError
    (λ _, Raise (ValueError ("invalid enclosure length: " +:+ py_repr s)))) = Ok tt ↔
  ∃ n, py_int s = Some n ∧ 0 < n.
Proof.
  unfold int_of. destruct (py_int s) as [n|]; simpl.
  - destruct (Z.leb_spec n 0); simpl; split; try done; [|by exists n].
    intros (? & [= <-] & ?). lia.
  - split; [done|]. by intros (? & ? & _).
Qed.

Lemma validate_item_sound item c : validate_item item c = Ok tt → ∃ enc, item_valid item c enc.
Proof.
  unfold validate_item. intros Hv. inv_res. exists a. bool_simpl. unfold expected_asset_sha256 in *.
  match goal with Hr : expected_rollout_percentage c = Ok _ |- _ => apply expected_rollout_Ok in Hr as [-> Hr] end.
  apply size_check in Hv.
  repeat match goal with Hs : strip _ = asset_url c |- _ => rewrite Hs in *; revert Hs
         | Hs : strip _ = asset_size c |- _ => rewrite Hs in *; revert Hs end. intros.
  split; try done.
  - intros Hn. match goal with Hc : nonempty _ && _ = false |- _ => rewrite Hn in Hc; by apply negb_false_iff in Hc end.
  - eexists. split; [done|congruence].
  - split; [congruence|done].
Qed.

Lemma validate_item_complete item c enc : item_valid item c enc → validate_item item c = Ok tt.
Proof.
  intros [He Ht Hd Hv Ho Hu Hh Hx Hn Hl Hp Hty (d & Hs1 & Hs2) Hc [Hr1 Hr2] Hmu Hms].
  unfold validate_item. rewrite He. simpl. rewrite Hs1, Hr1. simpl.
  rewrite Ht, Hd, Hv, Hu, Hl, Hty, Hc, Ho. unfold expected_asset_sha256. rewrite Hs2.
  rewrite !String.eqb_refl. simpl. rewrite String.eqb_refl. simpl.
  assert (expected_rollout_percentage c = Ok (rollout_percentage c)) as ->.
  { unfold expected_rollout_percentage.
    assert ((rollout_percentage c <? 0) || (100 <? rollout_percentage c) = false) as ->; [|done].
    apply orb_false_intro; apply Z.ltb_ge; lia. }
  simpl. rewrite Z.eqb_refl, Hmu, Hms, !String.eqb_refl, Hh, Hx. simpl.
  assert (nonempty (expected_asset_name c) && negb (contains (asset_url c) (expected_asset_name c)) = false) as ->.
  { destruct (nonempty (expected_asset_name c)); [|done]. by rewrite Hn. }
  by apply size_check.
Qed.

(** C11. [validate_item] accepts exactly the items that say what the context
    says: title, description, version, system, an HTTPS [.exe] URL with the asset
    name, a positive size, the digest, channel, rollout and manifest identity.
    Nothing it compares can differ, and nothing else makes it fail. *)
Theorem validate_item_exact (item : element) (c : AppcastContext) :
  validate_item item c = Ok tt ↔ ∃ enc, item_valid item c enc.
Proof. split; [apply validate_item_sound|]. intros [enc ?]. by eapply validate_item_complete. Qed.

(** A release body whose sanitised text starts or ends with white space
    cannot be published: no feed at all passes validation for it, not even the
    one the tool has just written from it. *)
Theorem untrimmed_description_rejected (root : element) (c : AppcastContext) (keys : string)
    `{Ed25519} (Hd : strip (expected_description c) ≠ expected_description c) :
  validate_appcast_tree root c keys ≠ Ok tt.
Proof.
  unfold validate_appcast_tree. intros Hv. inv_res.
  match goal with Hi : validate_item _ c = Ok tt |- _ => apply validate_item_sound in Hi as [enc Hitem] end.
  apply Hd. rewrite <- (iv_description _ _ _ Hitem). apply strip_idem.
Qed.

(** A release body as GitHub returns it, with its last line end. *)
Theorem untrimmed_description_rejected_witness :
  match update_appcast_tree base_rss_root
          (MkContext "1.9.1" "1.9.1+1" "https://h/PlugAgente-Setup-1.9.1.exe" "52428800" (sha256_hex "installer")
             ("Fixes" +:+ nl) "" "stable" 100 10 "" "") "now" None with
  | Ok root => validate_appcast_tree root
      (MkContext "1.9.1" "1.9.1+1" "https://h/PlugAgente-Setup-1.9.1.exe" "52428800" (sha256_hex "installer")
             ("Fixes" +:+ nl) "" "stable" 100 10 "" "") "" ≠ Ok tt
  | Raise _ => False
  end.
Proof.
  set (c := MkContext _ _ _ _ _ _ _ _ _ _ _ _).
  destruct (update_appcast_tree base_rss_root c _ None) as [root|e] eqn:Hb;
    [|apply (f_equal is_ok) in Hb; vm_compute in Hb; discriminate Hb].
  apply (untrimmed_description_rejected root c ""). vm_compute. discriminate.
Defined.
