(* ===== verification/AppcastCommands.v ===== *)
(** * Commands over the appcast feed (tool/appcast/appcast_manager.py)

    Reading and writing the feed file, fetching the published feed, the smoke
    check with its retries, and the four commands. *)

From S2P Require Import Prelude PyStr PyJson Effects PyLib Xml Crypto AppcastSigning AppcastManager.

Local Open Scope Z_scope.

(** The parsed command line; an option a command does not have keeps its default. *)
Record appcast_args : Type := MkArgs {
  a_version_short : string; a_full_version : string; a_asset_url : string; a_asset_size : string;
  a_asset_sha256 : string; a_asset_name : string; a_channel : string; a_rollout_percentage : Z;
  a_release_body_file : option string; a_max_items : Z; a_manifest_url : string;
  a_manifest_sha256 : string; a_public_keys : string;
  a_appcast : string; a_preserve_existing_rollout : bool; a_github_output : option string;
  a_signing_private_key : string;
  a_feed_url : string; a_attempts : Z; a_delay_seconds : Z; a_no_cache_bust : bool; a_env_file : string
}.

Section commands.
Context `{Host} `{XmlText} `{Ed25519}.

(** src: tool/appcast/appcast_manager.py:440-448 fetch_feed_root *)
Definition fetch_feed_root (feed_url : string) (cache_bust : bool) : M element :=
  t ← now;
  request_url ← (if cache_bust then lift (cache_busted_url t feed_url) else mret feed_url);
  body ← fetch request_url;
  lift (xml_parse body).

(** src: tool/appcast/appcast_manager.py:249-252 load_or_create_tree *)
Definition load_or_create_tree (appcast_path : string) : M element :=
  exists_ ← path_exists appcast_path;
  if (exists_ : bool) then body ← read_bytes appcast_path; lift (xml_parse body) else mret base_rss_root.

Definition xml_declaration : string :=
  "<?xml version=" +:+ dq +:+ "1.0" +:+ dq +:+ " encoding=" +:+ dq +:+ "UTF-8" +:+ dq +:+ "?>" +:+ nl.

(** src: tool/appcast/appcast_manager.py:308-321 write_appcast_tree
    [temporary] is the name the system gives the temporary file. *)
Definition write_appcast_tree (tree : element) (appcast_path : string) : M unit :=
  w ← get_world;
  let temporary := host_tmp w in
  try_finally
    (_ ← write_bytes temporary (xml_declaration +:+ xml_write (indent " " tree));
     os_replace temporary appcast_path)
    (left_over ← path_exists temporary; when (left_over : bool) (unlink temporary)).

(** src: tool/appcast/appcast_manager.py:485-500 inspect_feed_url *)
Definition inspect_feed_url (feed_url : string) (max_items : Z) (cache_bust : bool) (public_keys : string)
    : M AppcastContext :=
  root ← fetch_feed_root feed_url cache_bust;
  channel ← lift (from_option (find_elem "channel" root) (ValueError "missing <channel>"));
  let items := findall "item" channel in
  let n := Z.of_nat (length items) in
  latest ← lift (from_option (head items) (ValueError "missing <item>"));
  _ ← raise_when (max_items <? n)
        (ValueError ("item count " +:+ py_str_int n +:+ " exceeds limit " +:+ py_str_int max_items));
  context ← lift (context_from_latest_item latest max_items);
  _ ← (if nonempty public_keys then lift (validate_signatures latest context public_keys) else mret tt);
  mret context.

(** src: tool/appcast/appcast_manager.py:503-519 write_shell_env *)
Definition shell_env (c : AppcastContext) : res string :=
  sha256 ← expected_asset_sha256 c;
  rollout ← expected_rollout_percentage c;
  let values :=
    [("VERSION_SHORT", version_short c); ("FULL_VERSION", full_version c); ("ASSET_URL", asset_url c);
     ("ASSET_SIZE", asset_size c); ("ASSET_NAME", expected_asset_name c); ("ASSET_SHA256", sha256);
     ("CHANNEL", expected_channel c); ("ROLLOUT_PERCENTAGE", py_str_int rollout);
     ("MANIFEST_URL", manifest_url c); ("MANIFEST_SHA256", manifest_sha256 c)] in
  Ok (concat_all ((λ kv, fst kv +:+ "=" +:+ shlex_quote (snd kv) +:+ nl) <$> values)).

Definition write_shell_env (path : string) (c : AppcastContext) : M unit :=
  text ← lift (shell_env c); write_text path text.

(** One attempt of the smoke check: the body of the [try]. *)
Definition smoke_attempt (feed_url : string) (c : AppcastContext) (cache_bust : bool) (public_keys : string)
    : M unit :=
  root ← fetch_feed_root feed_url cache_bust;
  channel ← lift (from_option (find_elem "channel" root) (ValueError "missing <channel>"));
  let items := findall "item" channel in
  let n := Z.of_nat (length items) in
  latest ← lift (from_option (head items) (ValueError "missing <item>"));
  _ ← raise_when (max_items c <? n)
        (ValueError ("item count " +:+ py_str_int n +:+ " exceeds limit " +:+ py_str_int (max_items c)));
  _ ← lift (validate_item latest c);
  if nonempty public_keys then lift (validate_signatures latest c public_keys) else mret tt.

(** The attempts [attempt .. attempt + tries - 1]; [last] is [last_error]. *)
Fixpoint smoke_loop (feed_url : string) (c : AppcastContext) (attempts delay_seconds : Z)
    (cache_bust : bool) (public_keys : string) (tries : nat) (last : string) : M unit :=
  match tries with
  | O => raise (RuntimeError ("published appcast smoke validation failed: " +:+ last))
  | S n =>
      let attempt := attempts - Z.of_nat n in
      outcome ← try_catch
        (_ ← smoke_attempt feed_url c cache_bust public_keys; mret None)
        is_Exception
        (λ error,
           _ ← when (attempt <? attempts)
             (_ ← print ("Attempt " +:+ py_str_int attempt +:+ "/" +:+ py_str_int attempts +:+
                    " failed while checking published appcast: " +:+ exn_str error +:+ ". " +:+
                    "Retrying in " +:+ py_str_int delay_seconds +:+ " seconds...");
              sleep delay_seconds);
           mret (Some (exn_str error)));
      match outcome with
      | None => mret tt
      | Some error => smoke_loop feed_url c attempts delay_seconds cache_bust public_keys n error
      end
  end.

(** src: tool/appcast/appcast_manager.py:522-555 smoke_validate_feed *)
Definition smoke_validate_feed (feed_url : string) (c : AppcastContext) (attempts delay_seconds : Z)
    (cache_bust : bool) (public_keys : string) : M unit :=
  smoke_loop feed_url c attempts delay_seconds cache_bust public_keys (Z.to_nat attempts) "None".

(** src: tool/appcast/appcast_manager.py:558-561 load_release_body *)
Definition load_release_body (path : option string) : M string :=
  match path with
  | None => mret EmptyString
  | Some p =>
      exists_ ← path_exists p;
      if (exists_ : bool) then body ← read_text p; mret (strip body) else mret EmptyString
  end.

(** src: tool/appcast/appcast_manager.py:564-578 build_context_from_args *)
Definition build_context_from_args (args : appcast_args) : M AppcastContext :=
  body ← load_release_body (a_release_body_file args);
  mret (MkContext (a_version_short args) (a_full_version args) (a_asset_url args) (a_asset_size args)
          (a_asset_sha256 args) body (a_asset_name args) (a_channel args) (a_rollout_percentage args)
          (a_max_items args) (a_manifest_url args) (a_manifest_sha256 args)).

(** [dataclasses.replace(context, rollout_percentage=r)] *)
Definition with_rollout (c : AppcastContext) (r : Z) : AppcastContext :=
  MkContext (version_short c) (full_version c) (asset_url c) (asset_size c) (asset_sha256 c)
    (release_body c) (asset_name c) (channel c) r (max_items c) (manifest_url c) (manifest_sha256 c).

(** The rollout of the release the feed already has, when there is one. *)
Definition preserve_rollout (tree : element) (c : AppcastContext) : res AppcastContext :=
  match (channel ← find_elem "channel" tree; find_matching_item channel c) with
  | Some existing =>
      r ← plug_rollout_percentage (find_elem "enclosure" existing);
      Ok (with_rollout c r)
  | None => Ok c
  end.

(** src: tool/appcast/appcast_manager.py:581-597 command_update *)
Definition command_update (args : appcast_args) : M Z :=
  context ← build_context_from_args args;
  tree ← load_or_create_tree (a_appcast args);
  context ← lift (if a_preserve_existing_rollout args then preserve_rollout tree context else Ok context);
  let signing_key := if nonempty (a_signing_private_key args) then Some (a_signing_private_key args) else None in
  t ← now;
  tree ← lift (update_appcast_tree tree context (rfc822_utc t) signing_key);
  _ ← write_appcast_tree tree (a_appcast args);
  _ ← match a_github_output args with
      | Some out =>
          rollout ← lift (expected_rollout_percentage context);
          append_text out ("rollout_percentage=" +:+ py_str_int rollout +:+ nl)
      | None => mret tt
      end;
  _ ← print ("Successfully updated " +:+ a_appcast args +:+ " with version " +:+ version context +:+
             (if given signing_key then " (signed)" else EmptyString));
  mret 0.

(** src: tool/appcast/appcast_manager.py:600-608 command_validate_file *)
Definition command_validate_file (args : appcast_args) : M Z :=
  context ← build_context_from_args args;
  body ← read_bytes (a_appcast args);
  tree ← lift (xml_parse body);
  _ ← lift (validate_appcast_tree tree context (a_public_keys args));
  let n := match find_elem "channel" tree with Some ch => length (findall "item" ch) | None => O end in
  _ ← print ("appcast.xml validation passed (version=" +:+ version context +:+ ", item_count=" +:+
             py_str_int (Z.of_nat n) +:+ ")");
  mret 0.

(** src: tool/appcast/appcast_manager.py:611-625 command_smoke_validate_url *)
Definition command_smoke_validate_url (args : appcast_args) : M Z :=
  context ← build_context_from_args args;
  _ ← smoke_validate_feed (a_feed_url args) context (a_attempts args) (a_delay_seconds args)
        (negb (a_no_cache_bust args)) (a_public_keys args);
  _ ← print ("Published appcast smoke validation passed (version=" +:+ version context +:+ ", feed=" +:+
             a_feed_url args +:+ ").");
  mret 0.

(** src: tool/appcast/appcast_manager.py:628-641 command_inspect_url *)
Definition command_inspect_url (args : appcast_args) : M Z :=
  context ← inspect_feed_url (a_feed_url args) (a_max_items args) (negb (a_no_cache_bust args))
              (a_public_keys args);
  _ ← write_shell_env (a_env_file args) context;
  _ ← write_text (default EmptyString (a_release_body_file args)) (release_body context);
  _ ← print ("Current appcast inspection passed (version=" +:+ version context +:+ ", asset=" +:+
             expected_asset_name context +:+ ").");
  mret 0.

(** The command the arguments selected. *)
Inductive appcast_command : Type := CUpdate | CValidateFile | CSmokeValidateUrl | CInspectUrl.
Definition func (cmd : appcast_command) : appcast_args → M Z :=
  match cmd with
  | CUpdate => command_update
  | CValidateFile => command_validate_file
  | CSmokeValidateUrl => command_smoke_validate_url
  | CInspectUrl => command_inspect_url
  end.

(** src: tool/appcast/appcast_manager.py:712-719 main *)
Definition main (cmd : appcast_command) (args : appcast_args) : M Z :=
  try_catch (func cmd args) is_Exception
    (λ error, _ ← eprint ("Error: " +:+ exn_str error); mret 1).
End commands.

(** ** The smoke check *)

Definition is_fetch (e : event) : bool := match e with EvFetch _ => true | _ => false end.
Definition fetches (evs : list event) : nat := length (List.filter is_fetch evs).

Lemma fetches_app a b : fetches (a ++ b) = (fetches a + fetches b)%nat.
Proof. unfold fetches. by rewrite List.filter_app, length_app. Qed.

(** The address the feed is fetched from can be built. *)
Definition fetchable (feed_url : string) (cache_bust : bool) : Prop :=
  cache_bust = true → ∀ t, is_ok (cache_busted_url t feed_url) = true.

Section smoke.
Context `{Host} `{XmlText} `{Ed25519}.
Context (feed_url : string) (c : AppcastContext) (attempts delay_seconds : Z) (cache_bust : bool) (keys : string).

Lemma fetch_feed_root_log w r w' : fetch_feed_root feed_url cache_bust w = (r, w') →
  ∃ evs, w_log w' = w_log w ++ evs ∧ (evs = [] ∧ is_ok r = false ∧ ¬ fetchable feed_url cache_bust ∨
    ∃ u, evs = [EvFetch u]).
Proof.
  assert (∀ u, ∃ w1, w_log w1 = w_log w ++ [EvFetch u] ∧
    (body ← fetch u; lift (xml_parse body)) w = ((body ← host_fetch u w; xml_parse body), w1)) as Hfetch.
  { intros u. eexists (World _ _ _). split; [reflexivity|]. unfold fetch, lift, mbind, M_bind, res_bind.
    by destruct (host_fetch u w). }
  assert (∀ u, (body ← fetch u; lift (xml_parse body)) w = (r, w') → ∃ evs, w_log w' = w_log w ++ evs ∧
    (evs = [] ∧ is_ok r = false ∧ ¬ fetchable feed_url cache_bust ∨ ∃ u, evs = [EvFetch u])) as Hok.
  { intros u Hr. destruct (Hfetch u) as (w1 & Hlog & Hw). rewrite Hw in Hr. injection Hr as _ <-. eauto. }
  unfold fetch_feed_root, now. destruct cache_bust; [|exact (Hok feed_url)].
  destruct (cache_busted_url (host_now w) feed_url) as [u|e] eqn:Eu.
  - intros Hr. apply (Hok u). revert Hr. unfold mbind, M_bind, lift. by rewrite Eu.
  - unfold mbind, M_bind, lift. rewrite Eu. intros [= <- <-]. exists []. rewrite app_nil_r. split; [done|].
    left. split_and!; [done|done|]. intros Hf. specialize (Hf eq_refl (host_now w)). by rewrite Eu in Hf.
Qed.

(** One attempt asks the network at most once, and once when the URL parses. *)
Lemma smoke_attempt_log w r w' : smoke_attempt feed_url c cache_bust keys w = (r, w') →
  ∃ evs, w_log w' = w_log w ++ evs ∧ (fetches evs ≤ 1)%nat ∧
    (fetchable feed_url cache_bust → fetches evs = 1%nat).
Proof.
  unfold smoke_attempt. unfold mbind at 1, M_bind at 1.
  destruct (fetch_feed_root feed_url cache_bust w) as [[root|e] w1] eqn:Ef;
    apply fetch_feed_root_log in Ef as (evs & Hlog & Hevs).
  - intros Hk.
    match type of Hk with ?k w1 = _ => assert (steps same_log k) as Hs by solve_steps end.
    specialize (Hs w1). rewrite Hk in Hs. unfold same_log in Hs. simpl in Hs.
    exists evs. rewrite Hs. split; [done|]. by destruct Hevs as [(_ & ? & _)|[u ->]].
  - intros [= _ <-]. exists evs. split; [done|]. destruct Hevs as [(-> & _ & ?)|[u ->]]; [|done].
    unfold fetches. simpl. split; [lia|done].
Qed.

Lemma smoke_loop_S n last w :
  smoke_loop feed_url c attempts delay_seconds cache_bust keys (S n) last w =
  match smoke_attempt feed_url c cache_bust keys w with
  | (Ok _, w1) => (Ok tt, w1)
  | (Raise e, w1) =>
      if is_Exception e then
        smoke_loop feed_url c attempts delay_seconds cache_bust keys n (exn_str e)
          (if attempts - Z.of_nat n <? attempts then
             World (w_fs w1) (w_env w1) ((w_log w1 ++
               [EvOut ("Attempt " +:+ py_str_int (attempts - Z.of_nat n) +:+ "/" +:+ py_str_int attempts +:+
                  " failed while checking published appcast: " +:+ exn_str e +:+ ". " +:+
                  "Retrying in " +:+ py_str_int delay_seconds +:+ " seconds...")]) ++ [EvSleep delay_seconds])
           else w1)
      else (Raise e, w1)
  end.
Proof.
  cbn [smoke_loop]. unfold try_catch, mbind, M_bind, mret, M_ret.
  destruct (smoke_attempt feed_url c cache_bust keys w) as [[[]|e] w1]; [done|].
  destruct (is_Exception e); [|done]. by destruct (attempts - Z.of_nat n <? attempts).
Qed.

Lemma smoke_loop_spec n last w r w' :
  smoke_loop feed_url c attempts delay_seconds cache_bust keys n last w = (r, w') →
  ∃ evs, w_log w' = w_log w ++ evs ∧ (fetches evs ≤ n)%nat ∧
    match r with
    | Ok _ => ∃ w1, smoke_attempt feed_url c cache_bust keys w1 = (Ok tt, w')
    | Raise e => is_Exception e = true →
        (∃ msg, e = RuntimeError msg) ∧ (fetchable feed_url cache_bust → fetches evs = n)
    end.
Proof.
  revert last w. induction n as [|n IH]; intros last w.
  - intros [= <- <-]. exists []. rewrite app_nil_r. split_and!; [done|done|]. intros _. split; [by eexists|done].
  - rewrite smoke_loop_S. destruct (smoke_attempt feed_url c cache_bust keys w) as [[[]|e] w1] eqn:Ea.
    + intros [= <- <-]. apply smoke_attempt_log in Ea as Hl. destruct Hl as (evs & Hlog & Hle & _).
      exists evs. split_and!; [done|lia|by eexists].
    + apply smoke_attempt_log in Ea as Hl. destruct Hl as (evs & Hlog & Hle & Hone).
      destruct (is_Exception e) eqn:He.
      * intros (evs2 & Hlog2 & Hle2 & Hr)%IH.
        assert (∃ pre, w_log w' = w_log w ++ (evs ++ pre) ++ evs2 ∧ fetches pre = O) as (pre & -> & Hpre).
        { destruct (attempts - Z.of_nat n <? attempts); simpl in Hlog2; rewrite Hlog2, Hlog.
          - eexists [_; _]. rewrite <- !app_assoc. split; reflexivity.
          - exists []. rewrite app_nil_r, <- app_assoc. split; reflexivity. }
        exists ((evs ++ pre) ++ evs2). rewrite !fetches_app, Hpre. split_and!; [done|lia|].
        destruct r as [u|e2]; [done|]. intros He2. destruct (Hr He2) as [? Hn]. split; [done|].
        intros Hf. rewrite Hn, Hone by done. lia.
      * intros [= <- <-]. exists evs. split_and!; [done|lia|]. by rewrite He.
Qed.
End smoke.

(** C15. The smoke check is bounded and sound: it asks for the feed at most
    [attempts] times; when it returns, its last attempt validated the feed it
    fetched; when it gives up it has made all the attempts, and it says so with
    the one error the callers expect. *)
Theorem smoke_validate_feed_bounded `{Host} `{XmlText} `{Ed25519} (feed_url : string) (c : AppcastContext)
    (attempts delay_seconds : Z) (cache_bust : bool) (keys : string) (w w' : world) (r : res unit)
    (Hrun : smoke_validate_feed feed_url c attempts delay_seconds cache_bust keys w = (r, w')) :
  ∃ evs, w_log w' = w_log w ++ evs ∧ (fetches evs ≤ Z.to_nat attempts)%nat ∧
    match r with
    | Ok _ => ∃ w1, smoke_attempt feed_url c cache_bust keys w1 = (Ok tt, w')
    | Raise e => is_Exception e = true →
        (∃ msg, e = RuntimeError msg) ∧ (fetchable feed_url cache_bust → fetches evs = Z.to_nat attempts)
    end.
Proof. by apply smoke_loop_spec in Hrun. Qed.

(** C14. A feed that is published late is still found: when every attempt made
    after [k] requests validates, and [k] is less than the number of attempts,
    the smoke check succeeds, with at most [k + 1] requests. *)
Theorem smoke_validate_feed_eventually `{Host} `{XmlText} `{Ed25519} (feed_url : string) (c : AppcastContext)
    (attempts delay_seconds : Z) (cache_bust : bool) (keys : string) (w : world) (k : nat)
    (Hurl : fetchable feed_url cache_bust)
    (Hexn : ∀ w1 e w2, smoke_attempt feed_url c cache_bust keys w1 = (Raise e, w2) → is_Exception e = true)
    (Hlate : ∀ w1, (fetches (w_log w) + k ≤ fetches (w_log w1))%nat →
       is_ok (fst (smoke_attempt feed_url c cache_bust keys w1)) = true)
    (Hk : Z.of_nat k < attempts) :
  ∃ w', smoke_validate_feed feed_url c attempts delay_seconds cache_bust keys w = (Ok tt, w') ∧
    (fetches (w_log w') ≤ fetches (w_log w) + k + 1)%nat.
Proof.
  unfold smoke_validate_feed. assert (k < Z.to_nat attempts)%nat as Hk' by lia. clear Hk.
  generalize "None" as last. revert Hk' w Hlate. generalize (Z.to_nat attempts) as n. intros n.
  revert k. induction n as [|n IH]; intros k Hk w Hlate last; [lia|]. rewrite smoke_loop_S.
  destruct (smoke_attempt feed_url c cache_bust keys w) as [[[]|e] w1] eqn:Ea;
    apply smoke_attempt_log in Ea as Hl; destruct Hl as (evs & Hlog & Hle & Hone).
  - eexists. split; [done|]. rewrite Hlog, fetches_app. lia.
  - rewrite (Hexn _ _ _ Ea). destruct k as [|k].
    { specialize (Hlate w ltac:(lia)). by rewrite Ea in Hlate. }
    match goal with |- context [smoke_loop _ _ _ _ _ _ n _ ?w2] => set (w2' := w2) end.
    assert (fetches (w_log w2') = fetches (w_log w) + 1)%nat as Hw2.
    { unfold w2'. destruct (_ <? attempts); simpl; rewrite Hlog, !fetches_app, Hone by done; [|done].
      unfold fetches. simpl. lia. }
    destruct (IH k ltac:(lia) w2') with (last := exn_str e) as (w' & Hrun & Hf).
    { intros w3 Hw3. apply Hlate. lia. }
    exists w'. split; [done|]. lia.
Qed.

(** ** A host that publishes the feed after the first request *)

Definition late_host : Host := {|
  host_nt := true;
  host_run := λ _ _ w, (Raise (FileNotFoundError "program"), w_fs w);
  host_which := λ _ _, None;
  host_fetch := λ _ w, if (1 <=? fetches (w_log w))%nat then Ok "feed" else Raise (OSError "not found");
  host_now := λ _, 1767225600;
  host_utcoffset := -10800;
  host_exn_str := λ _, "error";
  host_repr := λ _, "value";
  host_tmp := λ _, "tmp";
  host_isatty := false;
  host_root := "."
|}.

Definition one_feed : XmlText := {|
  xml_parse := λ s, if s == "feed" then Ok example_feed else Raise (ForeignError "parse");
  xml_write := λ _, "feed"
|}.

Definition empty_world : world := World ∅ ∅ [].

Definition late_attempt : M unit :=
  smoke_attempt (H:=late_host) (H0:=one_feed) "https://h/appcast.xml" example_context false example_public.

Lemma late_attempt_eval w : late_attempt w =
  (if (1 <=? fetches (w_log w))%nat then Ok tt else Raise (OSError "not found"),
   World (w_fs w) (w_env w) (w_log w ++ [EvFetch "https://h/appcast.xml"])).
Proof.
  unfold late_attempt, smoke_attempt, fetch_feed_root, fetch, now, mbind, M_bind, mret, M_ret.
  change (host_fetch "https://h/appcast.xml" w) with
    (if (1 <=? fetches (w_log w))%nat then Ok "feed" else Raise (OSError "not found") : res string).
  destruct (1 <=? fetches (w_log w))%nat; [|reflexivity]. unfold lift.
  change (xml_parse "feed") with (Ok example_feed). cbv beta iota.
  destruct (find_elem "channel" example_feed) as [ch|] eqn:Ech; [|vm_compute in Ech; discriminate Ech].
  cbv beta iota delta [from_option]. destruct (head (findall "item" ch)) as [item|] eqn:Eit.
  - assert (validate_item item example_context = Ok tt ∧
      validate_signatures item example_context example_public = Ok tt ∧
      (max_items example_context <? Z.of_nat (length (findall "item" ch))) = false) as (Hv & Hs & Hm).
    { vm_compute in Ech. injection Ech as <-. vm_compute in Eit. injection Eit as <-.
      split_and!; vm_compute; reflexivity. }
    unfold raise_when, lift. rewrite Hm. unfold raise_if. rewrite Hv, Hs. reflexivity.
  - vm_compute in Ech. injection Ech as <-. vm_compute in Eit. discriminate Eit.
Qed.

Theorem smoke_validate_feed_bounded_witness :
  ∃ evs, w_log (snd (smoke_validate_feed (H:=late_host) (H0:=one_feed) "https://h/appcast.xml" example_context 6 5
      false example_public empty_world)) = [] ++ evs ∧ (fetches evs ≤ 6)%nat.
Proof.
  destruct (smoke_validate_feed (H:=late_host) (H0:=one_feed) "https://h/appcast.xml" example_context 6 5
    false example_public empty_world) as [r w'] eqn:Hrun.
  destruct (smoke_validate_feed_bounded (H:=late_host) (H0:=one_feed) "https://h/appcast.xml" example_context 6 5
    false example_public empty_world w' r Hrun) as (evs & Hlog & Hle & _).
  exists evs. split; [exact Hlog|exact Hle].
Defined.

Theorem smoke_validate_feed_eventually_witness :
  ∃ w', smoke_validate_feed (H:=late_host) (H0:=one_feed) "https://h/appcast.xml" example_context 6 5
      false example_public empty_world = (Ok tt, w') ∧ (fetches (w_log w') ≤ 2)%nat.
Proof.
  apply (smoke_validate_feed_eventually (H:=late_host) (H0:=one_feed) "https://h/appcast.xml" example_context 6 5
    false example_public empty_world 1); [discriminate| | |reflexivity].
  - intros w1 e w2 Ha. pose proof (late_attempt_eval w1) as He. unfold late_attempt in He.
    rewrite Ha in He. destruct (1 <=? fetches (w_log w1))%nat; [discriminate He|]. injection He as -> _. reflexivity.
  - intros w1 Hw1. change (is_ok (fst (late_attempt w1)) = true). rewrite late_attempt_eval.
    assert ((1 <=? fetches (w_log w1))%nat = true) as -> by (apply Nat.leb_le; exact Hw1). reflexivity.
Defined.
