(* ===== verification/ValidateRelease.v ===== *)
(** * Validating a published release (tool/appcast/validate_release.py)

    The release asset GitHub reports, and the check of a feed against it. *)

From S2P Require Import Prelude PyStr PyJson Effects Xml Crypto AppcastSigning AppcastManager AppcastCommands PyHash.

Local Open Scope Z_scope.

(** src: tool/appcast/validate_release.py:29-34 ReleaseAsset *)
Record ReleaseAsset : Type := MkAsset { ra_name : string; ra_url : string; ra_size : string; ra_digest : string }.

(** src: tool/appcast/validate_release.py:37-42 ReleaseInfo *)
Record ReleaseInfo : Type := MkRelease { ri_tag : string; ri_name : string; ri_body : string; ri_asset : ReleaseAsset }.

(** The parsed command line. *)
Record release_args : Type := MkReleaseArgs {
  v_repo : string; v_tag : string; v_full_version : option string; v_channel : string;
  v_rollout_percentage : Z; v_appcast : option string; v_feed_url : option string;
  v_max_items : Z; v_no_cache_bust : bool
}.

Section validate_release.
Context `{Host} `{XmlText} `{Ed25519}.

(** src: tool/appcast/validate_release.py:45-55 github_request_json
    The request headers, with the token of the environment, are not part of the
    address that is fetched. *)
Definition github_request_json (url : string) : M json :=
  body ← fetch url;
  text ← lift (decode body);
  lift (loads text).

(** The assets with the expected name. *)
Fixpoint matching_assets (name : string) (assets : list json) : res (list json) :=
  match assets with
  | [] => Ok []
  | asset :: assets =>
      n ← jget_or_null "name" asset;
      rest ← matching_assets name assets;
      Ok (if jeq n (JStr name) then asset :: rest else rest)
  end.

Definition asset_names (assets : list json) : res (list string) :=
  res_map (λ asset, n ← jget_or_null "name" asset; Ok (str_of n)) assets.

(** [str(x.get(k) or d)] *)
Definition str_field (k d : string) (v : json) : res string :=
  x ← jget_or_null k v; Ok (str_of (jor x (JStr d))).

(** src: tool/appcast/validate_release.py:58-83 load_release
    What is read from the answer of GitHub. *)
Definition release_of (tag : string) (data : json) : res ReleaseInfo :=
  let version := removeprefix tag "v" in
  let expected_asset_name := "PlugAgente-Setup-" +:+ version +:+ ".exe" in
  assets ← jget_or_null "assets" data;
  assets ← items_of (jor assets (JArr []));
  matching ← matching_assets expected_asset_name assets;
  match matching with
  | [] =>
      names ← asset_names assets;
      Raise (ValueError ("Release asset " +:+ py_repr expected_asset_name +:+
        " not found. Available assets: " +:+ str_or (join ", " names) "<none>"))
  | asset :: _ =>
      asset_digest ← str_field "digest" EmptyString asset;
      _ ← raise_if (negb (nonempty asset_digest))
            (ValueError ("Release asset " +:+ py_repr expected_asset_name +:+ " is missing GitHub digest."));
      asset_sha256 ← normalize_sha256 asset_digest;
      rel_tag ← str_field "tag_name" tag data;
      rel_name ← str_field "name" EmptyString data;
      rel_body ← str_field "body" EmptyString data;
      name ← str_field "name" EmptyString asset;
      url ← str_field "browser_download_url" EmptyString asset;
      size ← str_field "size" EmptyString asset;
      Ok (MkRelease rel_tag rel_name rel_body (MkAsset name url size asset_sha256))
  end.

(** src: tool/appcast/validate_release.py:58-59 load_release *)
Definition load_release (repo tag : string) : M ReleaseInfo :=
  data ← github_request_json ("https://api.github.com/repos/" +:+ repo +:+ "/releases/tags/" +:+ tag);
  lift (release_of tag data).

(** src: tool/appcast/validate_release.py:86-96 load_appcast_tree *)
Definition load_appcast_tree (args : release_args) : M (option element) :=
  if given (v_appcast args) then
    body ← read_bytes (default EmptyString (v_appcast args));
    tree ← lift (xml_parse body);
    mret (Some tree)
  else if given (v_feed_url args) then
    tree ← fetch_feed_root (default EmptyString (v_feed_url args)) (negb (v_no_cache_bust args));
    mret (Some tree)
  else mret None.

(** src: tool/appcast/validate_release.py:99-113 latest_version_from_appcast *)
Definition latest_version_from_appcast (tree : element) (version_short : string) : res string :=
  channel ← from_option (find_elem "channel" tree) (ValueError "appcast missing <channel>.");
  latest ← from_option (head (findall "item" channel)) (ValueError "appcast missing <item>.");
  let latest_version := sparkle_version (find_elem "enclosure" latest) in
  _ ← raise_if (before "+" latest_version != version_short)
        (ValueError ("latest appcast version " +:+ py_repr latest_version +:+
           " does not match release version " +:+ py_repr version_short +:+ "."));
  Ok latest_version.

(** The context the release is checked with. *)
Definition release_context (args : release_args) (release : ReleaseInfo) (version_short full_version : string)
    : AppcastContext :=
  MkContext version_short full_version (ra_url (ri_asset release)) (ra_size (ri_asset release))
    (ra_digest (ri_asset release)) (ri_body release) (ra_name (ri_asset release)) (v_channel args)
    (v_rollout_percentage args) (v_max_items args) EmptyString EmptyString.

(** src: tool/appcast/validate_release.py:116-136 validate_appcast *)
Definition validate_appcast (args : release_args) (release : ReleaseInfo) : M (option string) :=
  tree ← load_appcast_tree args;
  match tree with
  | None => mret None
  | Some tree =>
      let version_short := removeprefix (ri_tag release) "v" in
      full_version ← lift (if given (v_full_version args) then Ok (default EmptyString (v_full_version args))
                           else latest_version_from_appcast tree version_short);
      _ ← lift (validate_appcast_tree tree (release_context args release version_short full_version) EmptyString);
      mret (Some full_version)
  end.

(** src: tool/appcast/validate_release.py:157-177 main *)
Definition main (args : release_args) : M Z :=
  outcome ← try_catch
    (release ← load_release (v_repo args) (v_tag args);
     full_version ← validate_appcast args release;
     mret (Some (release, full_version)))
    is_Exception
    (λ error, _ ← eprint ("Release validation failed: " +:+ exn_str error); mret None);
  match outcome with
  | None => mret 1
  | Some (release, full_version) =>
      let details :=
        ["tag=" +:+ ri_tag release; "asset=" +:+ ra_name (ri_asset release); "size=" +:+ ra_size (ri_asset release)] ++
        (if given full_version then ["appcast_version=" +:+ default EmptyString full_version] else []) ++
        (if nonempty (ra_digest (ri_asset release)) then ["digest=" +:+ ra_digest (ri_asset release)] else []) in
      _ ← print ("Release validation passed (" +:+ join ", " details +:+ ").");
      mret 0
  end.
End validate_release.

(** ** The release that is read *)

Lemma matching_assets_name name assets l : matching_assets name assets = Ok l →
  Forall (λ a, a ∈ assets ∧ ∃ n, jget_or_null "name" a = Ok n ∧ jeq n (JStr name) = true) l.
Proof.
  revert l. induction assets as [|a assets IH]; simpl; intros l Hl; [by injection Hl as <-|].
  apply res_bind_Ok in Hl as (n & Hn & Hl). apply res_bind_Ok in Hl as (rest & Hrest & Hl).
  apply (inj Ok) in Hl as <-. apply IH in Hrest.
  assert (Forall (λ b, b ∈ a :: assets ∧ ∃ n, jget_or_null "name" b = Ok n ∧ jeq n (JStr name) = true) rest) as Hr.
  { eapply Forall_impl; [exact Hrest|]. intros b [? ?]. split; [by right|done]. }
  destruct (jeq n (JStr name)) eqn:E; [|done]. constructor; [|done]. split; [left|eauto].
Qed.

Lemma release_of_asset `{Host} tag data r : release_of tag data = Ok r →
  ra_name (ri_asset r) = "PlugAgente-Setup-" +:+ removeprefix tag "v" +:+ ".exe" ∧
  is_hex64 (ra_digest (ri_asset r)) = true.
Proof.
  unfold release_of. intros Hr. apply res_bind_Ok in Hr as (a0 & _ & Hr).
  apply res_bind_Ok in Hr as (assets & _ & Hr). apply res_bind_Ok in Hr as (matching & Hm & Hr).
  destruct matching as [|asset rest]; [by inv_res|].
  apply matching_assets_name, Forall_cons in Hm as [(_ & n & Hn & Heq) _].
  unfold str_field in Hr. rewrite Hn in Hr. inv_res. simpl. split; [|by eapply normalize_sha256_hex].
  match type of Heq with jeq ?v _ = _ => destruct v; try done end. apply String.eqb_eq in Heq as ->. unfold jor. simpl. by destruct (removeprefix tag "v").
Qed.

(** When the validator exits with 0 and was given a feed, the release has
    the installer of its tag with a normal SHA-256 digest, and the latest item of
    that feed says exactly what the release says: its asset URL, size, digest and
    body, for the requested channel and rollout, with no manifest binding. *)
Theorem validate_release_passed `{Host} `{XmlText} `{Ed25519} (args : release_args) (w w' : world)
    (Hfeed : given (v_appcast args) || given (v_feed_url args) = true)
    (Hrun : main args w = (Ok 0, w')) :
  ∃ release tree full_version item enc,
    ra_name (ri_asset release) = "PlugAgente-Setup-" +:+ removeprefix (v_tag args) "v" +:+ ".exe" ∧
    is_hex64 (ra_digest (ri_asset release)) = true ∧
    head (channel_items tree) = Some item ∧
    item_valid item (release_context args release (removeprefix (ri_tag release) "v") full_version) enc.
Proof.
  apply (runs_bind (B:=Z)) in Hrun as (outcome & w1 & Ht & Hrun).
  apply runs_try_catch in Ht as [Ht|(e & w2 & _ & _ & Ht)]; [|inv_runs; done].
  inv_runs. unfold load_release in *. inv_runs.
  match goal with Hr : release_of _ _ = Ok ?r |- _ => destruct (release_of_asset _ _ _ Hr) as [Hname Hhex] end.
  match goal with Ha : runs (validate_appcast _ _) _ _ _ |- _ => unfold validate_appcast in Ha; inv_runs;
    match goal with Hl : runs (load_appcast_tree _) _ ?t _ |- _ => destruct t as [tree|]; inv_runs end end.
  - match goal with Hv : validate_appcast_tree _ ?c _ = Ok _ |- _ =>
      unfold validate_appcast_tree in Hv; inv_res end.
    match goal with Hi : validate_item _ _ = Ok _ |- _ => apply validate_item_sound in Hi as [enc Hi'] end.
    do 5 eexists. split_and!; [done|done| |exact Hi']. unfold channel_items.
    match goal with Hf : find_elem "channel" _ = Some _ |- _ => by rewrite Hf end.
  - exfalso. match goal with Hl : runs (load_appcast_tree _) _ None _ |- _ => unfold load_appcast_tree in Hl end.
    destruct (given (v_appcast args)), (given (v_feed_url args)); inv_runs; done.
Qed.

(** ** The theorem at work *)

Definition example_release : json :=
  JObj [("tag_name", JStr "v1.9.1"); ("name", JStr "Version 1.9.1"); ("body", JStr "Fixes");
        ("assets", JArr [JObj [("name", JStr "PlugAgente-Setup-1.9.1.exe"); ("size", JInt 52428800);
                               ("digest", JStr ("sha256:" +:+ sha256_hex "installer"));
                               ("browser_download_url",
                                JStr "https://github.com/r/v1.9.1/PlugAgente-Setup-1.9.1.exe")]])].

Definition github_host : Host := {|
  host_nt := false;
  host_run := λ _ _ w, (Raise (FileNotFoundError "program"), w_fs w);
  host_which := λ _ _, None;
  host_fetch := λ _ _, Ok (default EmptyString (dumps_compact true example_release));
  host_now := λ _, 1767225600;
  host_utcoffset := 0;
  host_exn_str := λ _, "error";
  host_repr := λ _, "value";
  host_tmp := λ _, "tmp";
  host_isatty := false;
  host_root := "."
|}.

Definition example_args : release_args :=
  MkReleaseArgs "cesar-carlos/plug_agente" "v1.9.1" None "stable" 25 (Some "appcast.xml") None 10 true.

Definition feed_world : world := World {["appcast.xml" := File "feed"]} ∅ [].

Theorem validate_release_passed_witness :
  ∃ release tree full_version item enc,
    ra_name (ri_asset release) = "PlugAgente-Setup-" +:+ removeprefix (v_tag example_args) "v" +:+ ".exe" ∧
    is_hex64 (ra_digest (ri_asset release)) = true ∧
    head (channel_items tree) = Some item ∧
    item_valid item (release_context example_args release (removeprefix (ri_tag release) "v") full_version) enc.
Proof.
  apply (validate_release_passed (H:=github_host) (H0:=one_feed) example_args feed_world
    (snd (main (H:=github_host) (H0:=one_feed) example_args feed_world))); vm_compute; reflexivity.
Defined.
