(* ===== verification/InstallerKeyEvidence.v ===== *)
(** * Evidence of the keys in an installer (tool/release/installer_key_evidence.py)

    After packaging, a record next to the installer says which payloads carried
    the update keys; before publishing, the record is checked against the
    installer and the payloads. *)

From S2P Require Import Prelude PyStr PyCodec PyHash PyJson Effects PyJsonIndent TextFiles.

Local Open Scope Z_scope.

(** src: tool/release/installer_key_evidence.py:7-7 KEY_PAYLOADS *)
Definition KEY_PAYLOADS : list string := ["data/app.so"; "updater/plug_update_client.exe"].

(** src: tool/release/installer_key_evidence.py:10-12 digest *)
Definition digest (path : string) : M string := b ← read_bytes path; mret (sha256_hex b).

(** [any(len(base64.b64decode(key, validate=True)) != 32 for key in keys)] *)
Fixpoint any_wrong_key (keys : list string) : res bool :=
  match keys with
  | [] => Ok false
  | key :: keys =>
      raw ← b64decode true key;
      if negb (len raw =? 32) then Ok true else any_wrong_key keys
  end.

(** [\[key.strip() for key in csv_keys.split(",") if key.strip()\]] *)
Definition csv_list (csv_keys : string) : list string :=
  List.filter nonempty (strip <$> split_char "," csv_keys).

Fixpoint inspect_payloads (bundle : string) (keys names : list string) (hashes : list (string * json))
    : M (list (string * json)) :=
  match names with
  | [] => mret hashes
  | name :: names =>
      data ← read_bytes (bundle // name);
      _ ← raise_when (existsb (λ key, negb (contains data key)) keys)
            (RuntimeError (name +:+ " is missing AUTO_UPDATE_FEED_PUBLIC_KEY"));
      inspect_payloads bundle keys names (assoc_set name (JStr (sha256_hex data)) hashes)
  end.

(** src: tool/release/installer_key_evidence.py:15-26 inspect_payload *)
Definition inspect_payload (bundle csv_keys : string) : M (list (string * json)) :=
  let keys := csv_list csv_keys in
  wrong ← lift (match keys with [] => Ok true | _ => any_wrong_key keys end);
  _ ← raise_when wrong (ValueError "Expected base64 Ed25519 public keys");
  inspect_payloads bundle keys KEY_PAYLOADS [].

Definition evidence_path (installer : string) : string := with_suffix installer ".keys.json".

Definition evidence_of (installer_sha256 : string) (payloads : list (string * json)) : json :=
  JObj [("format", JInt 1); ("installerSha256", JStr installer_sha256); ("payloads", JObj payloads)].

(** The tests of [verify], each only when the ones before it passed. *)
Definition evidence_differs (evidence : json) (installer bundle csv_keys : string) : M bool :=
  format ← lift (jget_or_null "format" evidence);
  if negb (jeq format (JInt 1)) then mret true else
  recorded ← lift (jget_or_null "installerSha256" evidence);
  actual ← digest installer;
  if negb (jeq recorded (JStr actual)) then mret true else
  payloads ← lift (jget_or_null "payloads" evidence);
  found ← inspect_payload bundle csv_keys;
  mret (negb (jeq payloads (JObj found))).

Section evidence.
Context `{Host}.

(** src: tool/release/installer_key_evidence.py:29-34 record *)
Definition record (installer bundle csv_keys : string) (before : list (string * json)) : M unit :=
  after ← inspect_payload bundle csv_keys;
  _ ← raise_when (negb (jeq (JObj before) (JObj after)))
        (RuntimeError "Key-bearing payload changed during installer compilation");
  sha256 ← digest installer;
  text ← lift (from_option (dumps_indent true (evidence_of sha256 after)) (TypeError "not serializable"));
  write_text (evidence_path installer) (text +:+ nl).

(** src: tool/release/installer_key_evidence.py:37-44 verify *)
Definition verify (installer bundle csv_keys : string) : M unit :=
  try_catch
    (text ← read_text (evidence_path installer);
     evidence ← lift (loads text);
     differs ← evidence_differs evidence installer bundle csv_keys;
     raise_when differs (ValueError "Installer/payload evidence mismatch"))
    (λ e, is_OSError e || is_ValueError e || is_TypeError e || is_AttributeError e)
    (λ _, raise (RuntimeError "Missing or invalid installer key evidence; rebuild with build_installer.py")).
End evidence.

(** ** What the evidence says *)

(** Every listed key is a 32-byte key, and there is one. *)
Definition keys_valid (csv_keys : string) : Prop :=
  csv_list csv_keys ≠ [] ∧ Forall (λ key, ∃ raw, b64decode true key = Ok raw ∧ len raw = 32) (csv_list csv_keys).

(** The payload [name] of the bundle holds every key and has this content. *)
Definition carries_keys (w : world) (bundle csv_keys name data : string) : Prop :=
  w_fs w !! (bundle // name) = Some (File data) ∧ Forall (λ key, contains data key = true) (csv_list csv_keys).

Definition payload_hashes (app client : string) : list (string * json) :=
  [("data/app.so", JStr (sha256_hex app)); ("updater/plug_update_client.exe", JStr (sha256_hex client))].

Lemma any_wrong_key_Ok keys : any_wrong_key keys = Ok false ↔
  Forall (λ key, ∃ raw, b64decode true key = Ok raw ∧ len raw = 32) keys.
Proof.
  induction keys as [|key keys IH]; simpl; [by split|]. rewrite res_bind_Ok, Forall_cons, <- IH. split.
  - intros (raw & Hraw & Hw). destruct (Z.eqb_spec (len raw) 32); [by eauto|done].
  - intros [(raw & Hraw & Hlen) Hw]. exists raw. split; [done|]. by rewrite Hlen.
Qed.

Lemma forallb_keys data keys : existsb (λ key, negb (contains data key)) keys = false ↔
  Forall (λ key, contains data key = true) keys.
Proof.
  induction keys as [|key keys IH]; simpl; [by split|].
  rewrite orb_false_iff, Forall_cons, IH, negb_false_iff. done.
Qed.

Lemma runs_digest p w s w' : runs (digest p) w s w' ↔ w = w' ∧ ∃ b, w_fs w !! p = Some (File b) ∧ s = sha256_hex b.
Proof.
  unfold digest. rewrite runs_bind. setoid_rewrite runs_read_bytes. setoid_rewrite runs_ret. naive_solver.
Qed.

Lemma runs_inspect_step bundle keys name names hashes w hs w' :
  runs (inspect_payloads bundle keys (name :: names) hashes) w hs w' ↔
  ∃ data, w_fs w !! (bundle // name) = Some (File data) ∧ Forall (λ key, contains data key = true) keys ∧
    runs (inspect_payloads bundle keys names (assoc_set name (JStr (sha256_hex data)) hashes)) w hs w'.
Proof.
  cbn [inspect_payloads]. split.
  - intros Hr. apply runs_bind in Hr as (data & w1 & [<- Hd]%runs_read_bytes & Hr).
    apply runs_bind in Hr as ([] & w2 & [Hk%forallb_keys <-]%runs_raise_when & Hr). eauto.
  - intros (data & Hd & Hk & Hr). apply runs_bind. exists data, w. split; [by apply runs_read_bytes|].
    apply runs_bind. exists tt, w. split; [|done]. apply runs_raise_when. by rewrite forallb_keys.
Qed.

Lemma runs_inspect_payload bundle csv_keys w hs w' : runs (inspect_payload bundle csv_keys) w hs w' ↔
  w = w' ∧ keys_valid csv_keys ∧ ∃ app client, hs = payload_hashes app client ∧
    carries_keys w bundle csv_keys "data/app.so" app ∧
    carries_keys w bundle csv_keys "updater/plug_update_client.exe" client.
Proof.
  unfold inspect_payload, keys_valid, carries_keys, KEY_PAYLOADS. split.
  - intros Hr. apply runs_bind in Hr as (b & w1 & [Hb <-]%runs_lift & Hr).
    apply runs_bind in Hr as ([] & w1 & [-> <-]%runs_raise_when & Hr).
    apply runs_inspect_step in Hr as (app & Ha & Hka & Hr).
    apply runs_inspect_step in Hr as (client & Hc & Hkc & Hr). apply runs_ret in Hr as [<- <-].
    destruct (csv_list csv_keys) as [|key keys] eqn:E; [done|]. rewrite <- any_wrong_key_Ok.
    split_and!; try done. by exists app, client.
  - intros (<- & [Hne Hb] & app & client & -> & [Ha Hka] & Hc & Hkc). rewrite <- any_wrong_key_Ok in Hb.
    apply runs_bind. exists false, w. split; [apply runs_lift; split; [by destruct (csv_list csv_keys)|done]|].
    apply runs_bind. exists tt, w. split; [by apply runs_raise_when|].
    apply runs_inspect_step. exists app. split_and!; [done..|].
    apply runs_inspect_step. exists client. split_and!; [done..|]. by apply runs_ret.
Qed.

(** The evidence file next to the installer says what the installer and the
    payloads are. *)
Definition evidence_holds (w : world) (installer bundle csv_keys : string) : Prop :=
  ∃ bytes text evidence image app client,
    w_fs w !! evidence_path installer = Some (File bytes) ∧ decode bytes = Ok text ∧
    loads (universal_newlines text) = Ok evidence ∧ w_fs w !! installer = Some (File image) ∧
    keys_valid csv_keys ∧ carries_keys w bundle csv_keys "data/app.so" app ∧
    carries_keys w bundle csv_keys "updater/plug_update_client.exe" client ∧
    (∃ v, jget_or_null "format" evidence = Ok v ∧ jeq v (JInt 1) = true) ∧
    (∃ v, jget_or_null "installerSha256" evidence = Ok v ∧ jeq v (JStr (sha256_hex image)) = true) ∧
    (∃ v, jget_or_null "payloads" evidence = Ok v ∧ jeq v (JObj (payload_hashes app client)) = true).

(** A value read from the record, compared with what it should be. *)
Lemma runs_if_differs (r : bool) (m : M bool) w b w' :
  runs (if r then mret true else m) w b w' → b = false → r = false ∧ runs m w b w'.
Proof. destruct r; [|done]. intros [<- _]%runs_ret. done. Qed.

Lemma evidence_differs_spec evidence installer bundle csv_keys w w' :
  runs (evidence_differs evidence installer bundle csv_keys) w false w' ↔
  w = w' ∧ ∃ image app client, w_fs w !! installer = Some (File image) ∧
    keys_valid csv_keys ∧ carries_keys w bundle csv_keys "data/app.so" app ∧
    carries_keys w bundle csv_keys "updater/plug_update_client.exe" client ∧
    (∃ v, jget_or_null "format" evidence = Ok v ∧ jeq v (JInt 1) = true) ∧
    (∃ v, jget_or_null "installerSha256" evidence = Ok v ∧ jeq v (JStr (sha256_hex image)) = true) ∧
    (∃ v, jget_or_null "payloads" evidence = Ok v ∧ jeq v (JObj (payload_hashes app client)) = true).
Proof.
  unfold evidence_differs. split.
  - intros Hr. apply runs_bind in Hr as (f & w1 & [Hf <-]%runs_lift & Hr).
    apply runs_if_differs in Hr as [Hf1%negb_false_iff Hr]; [|done].
    apply runs_bind in Hr as (s & w1 & [Hs <-]%runs_lift & Hr).
    apply runs_bind in Hr as (d & w1 & [<- (image & Hi & ->)]%runs_digest & Hr).
    apply runs_if_differs in Hr as [Hs1%negb_false_iff Hr]; [|done].
    apply runs_bind in Hr as (p & w1 & [Hp <-]%runs_lift & Hr).
    apply runs_bind in Hr as (hs & w1 & (<- & Hk & app & client & -> & Ha & Hc)%runs_inspect_payload & Hr).
    apply runs_ret in Hr as [Hp1%negb_false_iff <-]. split; [done|]. exists image, app, client. split_and!; eauto.
  - intros (<- & image & app & client & Hi & Hk & Ha & Hc & (f & Hf & Hf1) & (s & Hs & Hs1) & p & Hp & Hp1).
    apply runs_bind. exists f, w. split; [by apply runs_lift|]. rewrite Hf1. cbn [negb].
    apply runs_bind. exists s, w. split; [by apply runs_lift|].
    apply runs_bind. exists (sha256_hex image), w. split; [apply runs_digest; by eauto|]. rewrite Hs1. cbn [negb].
    apply runs_bind. exists p, w. split; [by apply runs_lift|].
    apply runs_bind. exists (payload_hashes app client), w.
    split; [apply runs_inspect_payload; by eauto 10|]. apply runs_ret. by rewrite Hp1.
Qed.

Section proofs.
Context `{Host}.

Lemma runs_verify installer bundle csv_keys w w' : runs (verify installer bundle csv_keys) w tt w' ↔
  w' = w ∧ evidence_holds w installer bundle csv_keys.
Proof.
  unfold verify. split.
  - intros [Hr|(e & w1 & _ & _ & Hr)]%runs_try_catch; [|by apply runs_raise in Hr].
    apply runs_bind in Hr as (text & w1 & [<- (b & t & Hb & Ht & ->)]%runs_read_text & Hr).
    apply runs_bind in Hr as (evidence & w1 & [He <-]%runs_lift & Hr).
    apply runs_bind in Hr as (d & w1 & Hd & Hr). apply runs_raise_when in Hr as [-> <-].
    apply evidence_differs_spec in Hd as (<- & image & app & client & Hd). split; [done|].
    exists b, t, evidence, image, app, client. tauto.
  - intros (-> & b & t & evidence & image & app & client & Hb & Ht & He & Hd).
    apply runs_try_catch. left. apply runs_bind. exists (universal_newlines t), w.
    split; [apply runs_read_text; by eauto 6|]. apply runs_bind. exists evidence, w. split; [by apply runs_lift|].
    apply runs_bind. exists false, w. split; [|by apply runs_raise_when].
    apply evidence_differs_spec. split; [done|]. exists image, app, client. tauto.
Qed.

(** The evidence check accepts exactly the installers that have it: the
    record next to the installer names the digest of this installer and of both
    key-bearing payloads as they are now, every trusted key is a 32-byte key,
    and every one of them is in both payloads. The check changes nothing. *)
Theorem verify_exact (installer bundle csv_keys : string) (w w' : world) :
  runs (verify installer bundle csv_keys) w tt w' ↔ w' = w ∧ evidence_holds w installer bundle csv_keys.
Proof. apply runs_verify. Qed.

Lemma record_verifies (installer bundle csv_keys : string) (before : list (string * json)) (w w' : world)
    (Hinstaller : evidence_path installer ≠ installer)
    (Hpayloads : ∀ name, name ∈ KEY_PAYLOADS → evidence_path installer ≠ bundle // name)
    (Hrecord : runs (record installer bundle csv_keys before) w tt w') :
  runs (verify installer bundle csv_keys) w' tt w'.
Proof.
  unfold record in Hrecord.
  apply runs_bind in Hrecord as (hs & w1 & (<- & Hk & app & client & -> & [Ha Hka] & [Hc Hkc])%runs_inspect_payload & Hr).
  apply runs_bind in Hr as ([] & w1 & [_ <-]%runs_raise_when & Hr).
  apply runs_bind in Hr as (d & w1 & [<- (image & Hi & ->)]%runs_digest & Hr).
  apply runs_bind in Hr as (text & w1 & [Ht <-]%runs_lift & Hr). apply from_option_Ok in Ht.
  apply runs_write_text_bytes in Hr as (Hfs & _ & _). apply runs_verify. split; [done|].
  destruct (read_json_back true (evidence_path installer) (evidence_of (sha256_hex image) (payload_hashes app client))
    nl w' (text_bytes (text +:+ nl))) as (s & Hs & Hl); [reflexivity|done|done|by exists text|by rewrite Hfs, lookup_insert_eq|].
  apply runs_read_text in Hs as [_ (b & t & Hb & Hd & ->)].
  assert (Hother : ∀ p, evidence_path installer ≠ p → w_fs w' !! p = w_fs w !! p)
    by (intros p Hp; by rewrite Hfs, lookup_insert_ne).
  exists b, t, (evidence_of (sha256_hex image) (payload_hashes app client)), image, app, client.
  unfold carries_keys.
  rewrite (Hother _ Hinstaller), (Hother _ (Hpayloads "data/app.so" ltac:(unfold KEY_PAYLOADS; set_solver))),
    (Hother _ (Hpayloads "updater/plug_update_client.exe" ltac:(unfold KEY_PAYLOADS; set_solver))).
  split_and!; try done; eexists; (split; [reflexivity|]); simpl; by rewrite ?String.eqb_refl.
Qed.

(** What was recorded verifies: after [record], for the same installer,
    payloads and keys, [verify] succeeds, provided the record does not replace
    the installer or a payload. *)
Theorem record_then_verify (installer bundle csv_keys : string) (before : list (string * json)) (w w' : world)
    (Hinstaller : evidence_path installer ≠ installer)
    (Hpayloads : ∀ name, name ∈ KEY_PAYLOADS → evidence_path installer ≠ bundle // name)
    (Hrecord : runs (record installer bundle csv_keys before) w tt w') :
  runs (verify installer bundle csv_keys) w' tt w'.
Proof. by apply (record_verifies installer bundle csv_keys before w). Qed.

Lemma later_inspect bundle keys names hashes : steps later (inspect_payloads bundle keys names hashes).
Proof. revert hashes. induction names as [|n names IH]; intros hashes; simpl; solve_steps; done. Qed.
Lemma later_inspect_payload bundle keys : steps later (inspect_payload bundle keys).
Proof. pose proof later_inspect. unfold inspect_payload. solve_steps; done. Qed.
Lemma later_record installer bundle keys before : steps later (record installer bundle keys before).
Proof. pose proof later_inspect_payload. unfold record, digest, write_text. solve_steps. Qed.
Lemma later_verify installer bundle keys : steps later (verify installer bundle keys).
Proof. pose proof later_inspect_payload. unfold verify, evidence_differs, digest. solve_steps. Qed.
End proofs.

(** ** At work *)

Definition example_key : string := b64encode (str_take 32 (sha256_hex "key")).
Definition packaged : world :=
  World (<["dist/setup.exe" := File "MZ"]> (<["bundle/data/app.so" := File ("code " +:+ example_key)]>
        {["bundle/updater/plug_update_client.exe" := File (example_key +:+ " client")]})) ∅ [].
Definition packaged_hashes : list (string * json) :=
  payload_hashes ("code " +:+ example_key) (example_key +:+ " client").

Theorem record_then_verify_witness :
  let w' := snd (record (H:=idle_host) "dist/setup.exe" "bundle" example_key packaged_hashes packaged) in
  runs (verify "dist/setup.exe" "bundle" example_key) w' tt w'.
Proof.
  apply (record_then_verify (H:=idle_host) "dist/setup.exe" "bundle" example_key packaged_hashes packaged).
  - by vm_compute.
  - intros name. unfold KEY_PAYLOADS. rewrite !elem_of_cons, elem_of_nil.
    intros [->|[->|[]]]; by vm_compute.
  - vm_compute. reflexivity.
Defined.
