(* ===== verification/ReleasePreflight.v ===== *)
(** * The local release gate (tool/release/release_preflight.py)

    Before a release is published the preflight checks that versions, history,
    working tree, tools, tag and installer are ready, and runs the checks that
    were asked for. *)

From S2P Require Import Prelude PyStr PyRe PyHash PyJson Effects.
From S2P Require ReleaseGates NativePackage InstallerKeyEvidence.

Local Open Scope Z_scope.

(** src: tool/release/release_preflight.py:39-44 VersionState *)
Record VersionState : Type := MkVersionState {
  full_version : string; short_version : string; setup_version : string; generated_version : string
}.

(** The options of the command line. *)
(** src: tool/release/release_preflight.py:359-426 build_parser *)
Record args : Type := MkArgs {
  a_version : option string; a_allow_dirty : bool; a_allow_existing_tag : bool; a_require_iscc : bool;
  a_compile_iss : bool; a_check_installer : bool; a_check_pages : bool; a_repo : string;
  a_signing_provider : string; a_analyze : bool; a_tests : bool; a_tests_ci : bool; a_architecture : bool;
  a_appcast_tooling : bool; a_gate : bool; a_early : bool; a_build_number : string; a_print_publish_hints : bool;
  a_check_secrets : bool; a_feed_public_key : string
}.

(** Without any option. *)
Definition default_args : args := {|
  a_version := None; a_allow_dirty := false; a_allow_existing_tag := false; a_require_iscc := false;
  a_compile_iss := false; a_check_installer := false; a_check_pages := false;
  a_repo := "cesar-carlos/plug_agente"; a_signing_provider := "manifest"; a_analyze := false; a_tests := false;
  a_tests_ci := false; a_architecture := false; a_appcast_tooling := false; a_gate := false; a_early := false;
  a_build_number := "1"; a_print_publish_hints := false; a_check_secrets := false; a_feed_public_key := EmptyString
|}.

(** The patterns of the three versions. *)
Definition quote_opt : regex := opt (anyc (dq +:+ "'")).
Definition pubspec_re : regex :=
  seqs [RBol; lit "version:"; star space; quote_opt;
        RGroup 1 (seqs [plus digit; lit "."; plus digit; lit "."; plus digit; opt (RSeq (lit "+") (plus digit))]);
        quote_opt; star space; RAlt (lit "#") REol].
Definition quoted : regex := RGroup 1 (plus (RChar (λ c, negb (Ascii.eqb c (ascii_of_N 34))))).
Definition setup_re : regex := seqs [RBol; lit "#define MyAppVersion"; plus space; lit dq; quoted; lit dq].
Definition generated_re : regex := seqs [RBol; lit ("const String appVersion = " +:+ dq); quoted; lit (dq +:+ ";")].

(** src: tool/release/release_preflight.py:78-82 parse_required *)
Definition parse_required (pattern : regex) (content label : string) : res string :=
  match re_search pattern content with
  | None => Raise (ValueError ("Unable to parse " +:+ label +:+ "."))
  | Some mo => Ok (strip (group_str 1 mo))
  end.

(** [path.read_text(encoding="utf-8-sig")] *)
Definition read_text_sig (p : string) : M string :=
  b ← read_bytes p;
  s ← lift (decode (removeprefix b (chr 239 +:+ chr 187 +:+ chr 191)));
  mret (universal_newlines s).

(** src: tool/release/release_preflight.py:117-129 ensure_version_sync *)
Definition ensure_version_sync (state : VersionState) (expected_version : option string) : res unit :=
  _ ← raise_if (nonempty (default EmptyString expected_version) &&
                (short_version state != default EmptyString expected_version))
        (RuntimeError ("pubspec short version " +:+ py_repr (short_version state) +:+
           " does not match expected version " +:+ py_repr (default EmptyString expected_version) +:+ "."));
  _ ← raise_if (setup_version state != short_version state)
        (RuntimeError ("installer/setup.iss version " +:+ py_repr (setup_version state) +:+
           " does not match pubspec " +:+ py_repr (short_version state) +:+ "."));
  raise_if (generated_version state != full_version state)
    (RuntimeError ("app_version.g.dart version " +:+ py_repr (generated_version state) +:+
       " does not match pubspec " +:+ py_repr (full_version state) +:+ ".")).

Section preflight.
Context `{Host}.

(** src: tool/release/release_preflight.py:26-30 PROJECT_ROOT *)
Definition PROJECT_ROOT : string := host_root.
Definition PUBSPEC : string := PROJECT_ROOT // "pubspec.yaml".
Definition SETUP_ISS : string := PROJECT_ROOT // "installer" // "setup.iss".
Definition APP_VERSION_DART : string := PROJECT_ROOT // "lib/core/constants/app_version.g.dart".
Definition DIST_DIR : string := PROJECT_ROOT // "installer" // "dist".

(** src: tool/release/release_preflight.py:32-36 ISCC_PATHS *)
Definition ISCC_PATHS : list string :=
  ["ISCC"; "C:\Program Files (x86)\Inno Setup 6\ISCC.exe"; "C:\Program Files\Inno Setup 6\ISCC.exe"].

(** src: tool/release/release_preflight.py:47-56 resolve_command *)
Definition resolve_command (cmd : list string) : M (list string) :=
  match cmd with
  | [] => raise (RuntimeError "Command cannot be empty.")
  | executable :: arguments =>
      found ← which executable;
      let resolved := str_or (default EmptyString found) executable in
      mret (if one_of (py_lower (path_suffix resolved)) [".bat"; ".cmd"]
            then ["cmd.exe"; "/d"; "/c"; resolved] ++ arguments else resolved :: arguments)
  end.

(** src: tool/release/release_preflight.py:59-75 run
    Error output is part of the output. *)
Definition run_in (cwd : string) (cmd : list string) (check : bool) : M proc :=
  argv ← resolve_command cmd;
  result ← run_proc argv cwd;
  _ ← raise_when (check && negb (returncode result =? 0))
        (CalledProcessError (returncode result) cmd (strip (stdout result)));
  mret result.
Definition run (cmd : list string) (check : bool) : M proc := run_in PROJECT_ROOT cmd check.

(** src: tool/release/release_preflight.py:85-106 load_version_state *)
Definition load_version_state : M VersionState :=
  pubspec ← read_text PUBSPEC;
  full ← lift (parse_required pubspec_re pubspec "pubspec.yaml version");
  setup ← read_text_sig SETUP_ISS;
  setup ← lift (parse_required setup_re setup "installer/setup.iss MyAppVersion");
  generated ← read_text APP_VERSION_DART;
  generated ← lift (parse_required generated_re generated "app_version.g.dart appVersion");
  mret (MkVersionState full (before "+" full) setup generated).

(** src: tool/release/release_preflight.py:109-114 ensure_clean_worktree *)
Definition ensure_clean_worktree (allow_dirty : bool) : M unit :=
  if allow_dirty then mret tt
  else
    status ← run ["git"; "status"; "--porcelain"] true;
    raise_when (nonempty (strip (stdout status)))
      (RuntimeError "Working tree is not clean. Commit or stash changes, or pass --allow-dirty.").

(** src: tool/release/release_preflight.py:132-133 command_exists *)
Definition command_exists (command : string) : M bool :=
  found ← which command; mret (match found with Some _ => true | None => false end).

(** src: tool/release/release_preflight.py:136-142 find_iscc *)
Fixpoint find_iscc_in (paths : list string) : M (option string) :=
  match paths with
  | [] => mret None
  | path :: paths =>
      if path == "ISCC" then
        here ← command_exists "ISCC"; if (here : bool) then mret (Some "ISCC") else find_iscc_in paths
      else
        here ← path_exists path; if (here : bool) then mret (Some path) else find_iscc_in paths
  end.
Definition find_iscc : M (option string) := find_iscc_in ISCC_PATHS.

(** src: tool/release/release_preflight.py:145-161 compile_iss_syntax *)
Definition compile_iss_syntax : M unit :=
  iscc ← find_iscc;
  match iscc with
  | None => raise (RuntimeError "ISCC is required for --compile-iss.")
  | Some iscc =>
      with_temp_dir (λ output_dir,
        _ ← run_in (PROJECT_ROOT // "installer")
              [iscc; "/Q"; "/DCOMPILE_SCRIPT_ONLY"; "/O" +:+ output_dir; SETUP_ISS] true;
        mret tt)
  end.

(** [\[command for command in commands if not command_exists(command)\]] *)
Fixpoint missing_commands (commands : list string) : M (list string) :=
  match commands with
  | [] => mret []
  | command :: commands =>
      here ← command_exists command;
      missing ← missing_commands commands;
      mret (if (here : bool) then missing else command :: missing)
  end.

Definition refuse_missing (missing : list string) : M unit :=
  raise_when (match missing with [] => false | _ => true end)
    (RuntimeError ("Missing required command(s): " +:+ join ", " missing)).

(** The Inno Setup compiler, when it is required. *)
Definition missing_iscc (require_iscc : bool) : M (list string) :=
  if require_iscc then
    iscc ← find_iscc; mret (match iscc with None => ["ISCC"] | Some _ => [] end)
  else mret [].

(** src: tool/release/release_preflight.py:164-171 ensure_tools *)
Definition ensure_tools (require_iscc check_pages : bool) : M unit :=
  missing ← missing_commands ["git"; "python"; "flutter"];
  gh ← if check_pages then missing_commands ["gh"] else mret [];
  iscc ← missing_iscc require_iscc;
  refuse_missing (missing ++ gh ++ iscc).

(** src: tool/release/release_preflight.py:174-180 ensure_tag_available *)
Definition ensure_tag_available (tag : string) : M unit :=
  local_ ← run ["git"; "tag"; "--list"; tag] true;
  _ ← raise_when (nonempty (strip (stdout local_))) (RuntimeError ("Local tag already exists: " +:+ tag));
  remote ← run ["git"; "ls-remote"; "--tags"; "origin"; tag] true;
  raise_when (nonempty (strip (stdout remote))) (RuntimeError ("Remote tag already exists: " +:+ tag)).

Definition installer_path (version : string) : string := DIST_DIR // ("PlugAgente-Setup-" +:+ version +:+ ".exe").

(** The size the file system reports; a directory has none. *)
Definition st_size (p : string) : M Z := λ w,
  (match w_fs w !! p with
   | Some (File b) => Ok (len b)
   | Some Dir => Ok 0
   | None => Raise (FileNotFoundError p)
   end, w).

(** src: tool/release/release_preflight.py:183-188 ensure_installer_exists *)
Definition ensure_installer_exists (version : string) : M unit :=
  let installer := installer_path version in
  here ← path_exists installer;
  _ ← raise_when (negb here) (RuntimeError ("Installer not found: " +:+ installer));
  size ← st_size installer;
  raise_when (size <=? 0) (RuntimeError ("Installer is empty: " +:+ installer)).

(** src: tool/release/release_preflight.py:193-198 ensure_feed_public_key_embedded *)
Definition ensure_feed_public_key_embedded (version csv_keys : string) : M unit :=
  if negb (nonempty (strip csv_keys)) then mret tt
  else InstallerKeyEvidence.verify (installer_path version) (PROJECT_ROOT // "build/windows/x64/runner/Release") csv_keys.

Definition is_JSONDecodeError (e : exn) : bool := match e with JSONDecodeError => true | _ => false end.

(** src: tool/release/release_preflight.py:201-221 ensure_github_pages_workflow_ready *)
Definition ensure_github_pages_workflow_ready (repo : string) : M unit :=
  result ← run ["gh"; "api"; "repos/" +:+ repo +:+ "/pages"] false;
  let details := strip (stdout result) in
  _ ← raise_when (negb (returncode result =? 0))
        (RuntimeError ("GitHub Pages is not enabled for this repository. " +:+
           "Enable Pages with GitHub Actions as the build source before publishing." +:+
           (if nonempty details then " Details: " +:+ details else EmptyString)));
  payload ← try_catch (lift (loads (stdout result))) is_JSONDecodeError
              (λ _, raise (RuntimeError "Unable to parse GitHub Pages API response."));
  v ← lift (jget_or_null "build_type" payload);
  let build_type := str_of (jor v (JStr EmptyString)) in
  raise_when (build_type != "workflow")
    (RuntimeError ("GitHub Pages must use GitHub Actions as the build source " +:+
       "(expected build_type='workflow', actual=" +:+ py_repr build_type +:+ ").")).

(** src: tool/release/release_preflight.py:224-239 ensure_appcast_signing_tests_not_skipped *)
Definition ensure_appcast_signing_tests_not_skipped : M unit :=
  result ← run ["python"; "-m"; "unittest"; "tool.appcast.test_appcast_signing"; "-v"] false;
  let combined := strip (stdout result) in
  _ ← raise_when (negb (returncode result =? 0))
        (RuntimeError ("tool.appcast.test_appcast_signing failed. Install cryptography and re-run preflight." +:+
           (if nonempty combined then nl +:+ combined else EmptyString)));
  raise_when (contains combined "skipped=")
    (RuntimeError ("tool.appcast.test_appcast_signing reported skipped tests " +:+
                   "(cryptography missing or suite disabled).")).

(** src: tool/release/release_preflight.py:242-248 ensure_early_tools *)
Definition ensure_early_tools (require_iscc : bool) : M unit :=
  missing ← missing_commands ["git"; "python"];
  iscc ← missing_iscc require_iscc;
  refuse_missing (missing ++ iscc).

(** src: tool/release/release_preflight.py:251-255 run_early_checks *)
Definition run_early_checks (a : args) (version_short : string) : M unit :=
  _ ← ensure_early_tools (a_require_iscc a);
  when (negb (a_allow_existing_tag a)) (ensure_tag_available ("v" +:+ version_short)).

(** src: tool/release/release_preflight.py:259-267 run_optional_checks.check *)
Definition check_command (command : list string) (artifact : string) : M unit :=
  _ ← print ("Running " +:+ join " " command);
  result ← run command false;
  let directory := PROJECT_ROOT // "build/release-preflight" in
  _ ← mkdir directory;
  _ ← write_text (directory // (artifact +:+ ".log")) (stdout result);
  _ ← raise_when (negb (returncode result =? 0))
        (CalledProcessError (returncode result) command (stdout result));
  print ("Passed " +:+ artifact +:+ "; evidence: build/release-preflight/" +:+ artifact +:+ ".log").

(** src: tool/release/release_preflight.py:258-298 run_optional_checks *)
Definition run_optional_checks (a : args) : M unit :=
  _ ← when (a_tests a || a_tests_ci a)
        (_ ← run ["flutter"; "pub"; "get"] true;
         library ← NativePackage.prepare_native_library PROJECT_ROOT;
         setenv "ODBC_FAST_NATIVE_LIBRARY" library);
  _ ← when (a_analyze a) (check_command ["flutter"; "analyze"] "analyze");
  _ ← when (a_tests a) (check_command ["flutter"; "test"] "tests");
  _ ← when (a_tests_ci a)
        (check_command ["flutter"; "test"; "--exclude-tags"; "live || slow || perf"] "tests-ci");
  _ ← when (a_architecture a)
        (check_command ["flutter"; "test"; "test/architecture/layer_boundaries_test.dart"] "architecture");
  when (a_appcast_tooling a)
    (_ ← check_command ["python"; "-m"; "unittest"; "tool.appcast.test_appcast_manager";
           "tool.appcast.test_validate_release"; "tool.appcast.test_appcast_signing";
           "tool.appcast.test_validate_launcher_status"; "tool.updater.test_manifest";
           "tool.updater.test_verify_release"; "tool.updater.test_installer"; "-v"] "appcast-tooling";
     ensure_appcast_signing_tests_not_skipped).

(** src: tool/release/release_preflight.py:301-305 list_github_actions_secrets *)
Definition list_github_actions_secrets (repo : string) : M (list string) :=
  result ← run ["gh"; "secret"; "list"; "--repo"; repo] false;
  mret (if negb (returncode result =? 0) then []
        else omap (λ line, head (split_ws line)) (splitlines (stdout result))).

(** src: tool/release/release_preflight.py:308-324 collect_publish_secret_warnings *)
Definition collect_publish_secret_warnings (repo signing_provider : string) : M (list string) :=
  secrets ← list_github_actions_secrets repo;
  let required := if signing_provider == "signpath" then "SIGNPATH_API_TOKEN" else "WINDOWS_CODE_SIGNING_CERT_BASE64" in
  mret ((if (signing_provider != "manifest") && negb (one_of required secrets)
         then [required +:+ " is not configured: production publication is blocked."] else []) ++
        (if signing_provider == "signpath"
         then ["SignPath additionally requires approved organization/project/policy and both artifact configurations."]
         else []) ++
        (if negb (one_of "AUTO_UPDATE_FEED_PUBLIC_KEY" secrets)
         then ["AUTO_UPDATE_FEED_PUBLIC_KEY is not configured: production publication is blocked."] else []) ++
        (if negb (one_of "APPCAST_SIGNING_PRIVATE_KEY" secrets)
         then ["APPCAST_SIGNING_PRIVATE_KEY is not configured: signed manifest and feed publication is blocked."]
         else [])).

(** src: tool/release/release_preflight.py:327-356 print_publish_workflow_hints *)
Definition print_publish_workflow_hints (version_short build_number repo : string) (signing_provider : string) : M unit :=
  secrets ← list_github_actions_secrets repo;
  let signing_secret := if signing_provider == "signpath" then "SIGNPATH_API_TOKEN" else "WINDOWS_CODE_SIGNING_CERT_BASE64" in
  let has_signing := one_of signing_secret secrets in
  let signed := signing_provider != "manifest" in
  let workflow := "gh workflow run " +:+ dq +:+ "Publish Windows Release" +:+ dq +:+ " --ref main" in
  let version := "-f version=" +:+ version_short +:+ " -f build_number=" +:+ build_number +:+ " " in
  _ ← print (nl +:+ "Publish workflow hints:");
  _ ← print ("  1. Optional dry run: " +:+ workflow);
  _ ← print ("     " +:+ version +:+ "-f dry_run=true");
  _ ← print "  2. Production publish:";
  _ ← print ("     " +:+ workflow +:+ " " +:+ version +:+ "-f run_tests=true -f dry_run=false -f signing_provider=manifest");
  _ ← when (signed && negb has_signing)
        (print ("  WARN: " +:+ signing_secret +:+ " is not configured; production requires trusted signing."));
  print "  Appcast publication uses workflow_call with GITHUB_TOKEN; no PAT is required.".

Definition py_bool (b : bool) : string := if b then "True" else "False".

(** [--gate] turns its checks on. *)
Definition apply_gate (a : args) : args :=
  if a_gate a then
    {| a_version := a_version a; a_allow_dirty := a_allow_dirty a; a_allow_existing_tag := a_allow_existing_tag a;
       a_require_iscc := a_require_iscc a; a_compile_iss := a_compile_iss a; a_check_installer := a_check_installer a;
       a_check_pages := a_check_pages a; a_repo := a_repo a; a_signing_provider := a_signing_provider a;
       a_analyze := true; a_tests := a_tests a; a_tests_ci := true; a_architecture := true;
       a_appcast_tooling := true; a_gate := a_gate a; a_early := a_early a; a_build_number := a_build_number a;
       a_print_publish_hints := a_print_publish_hints a; a_check_secrets := a_check_secrets a;
       a_feed_public_key := a_feed_public_key a |}
  else a.

(** The checks of a full preflight. *)
Definition full_checks (a : args) : M VersionState :=
  state ← load_version_state;
  _ ← ensure_clean_worktree (a_allow_dirty a);
  _ ← lift (ensure_version_sync state (a_version a));
  _ ← ReleaseGates.check PROJECT_ROOT (full_version state) false;
  _ ← ensure_tools (a_require_iscc a) (a_check_pages a);
  _ ← when (negb (a_allow_existing_tag a)) (ensure_tag_available ("v" +:+ short_version state));
  _ ← when (a_check_installer a)
        (_ ← ensure_installer_exists (short_version state);
         when (nonempty (a_feed_public_key a))
           (ensure_feed_public_key_embedded (short_version state) (a_feed_public_key a)));
  _ ← when (a_check_pages a) (ensure_github_pages_workflow_ready (a_repo a));
  _ ← run_optional_checks a;
  mret state.

(** The body of the [try]: [None] when it returned 0 early. *)
Definition main_body (a : args) : M (option VersionState) :=
  _ ← when (a_check_secrets a || a_print_publish_hints a || a_early a)
        (warnings ← collect_publish_secret_warnings (a_repo a) (a_signing_provider a);
         for_M (λ warning, eprint ("WARN: " +:+ warning)) warnings);
  if a_compile_iss a then
    _ ← compile_iss_syntax;
    _ ← print "ISCC syntax compile passed (COMPILE_SCRIPT_ONLY).";
    mret None
  else if a_early a then
    let version := default EmptyString (a_version a) in
    _ ← raise_when (negb (nonempty version)) (RuntimeError "--early requires --version (target short version).");
    _ ← run_early_checks a version;
    _ ← print ("Early release preflight passed (target=v" +:+ version +:+ ", tag_available=" +:+
               py_bool (a_allow_existing_tag a) +:+ ").");
    mret None
  else state ← full_checks a; mret (Some state).

Definition report_failure (e : exn) : M unit :=
  match e with
  | CalledProcessError code cmd output =>
      _ ← eprint ("Release preflight failed: Command " +:+ host_repr (JArr (JStr <$> cmd)) +:+
                  " returned non-zero exit status " +:+ py_str_int code +:+ ".");
      when (nonempty (strip output)) (eprint (strip output))
  | e => eprint ("Release preflight failed: " +:+ exn_str e)
  end.

(** src: tool/release/release_preflight.py:429-497 main *)
Definition main (a : args) : M Z :=
  let a := apply_gate a in
  outcome ← try_catch (state ← main_body a; mret (inl state)) is_Exception
              (λ e, _ ← report_failure e; mret (inr 1));
  match outcome with
  | inr code => mret code
  | inl None => mret 0
  | inl (Some state) =>
      _ ← print ("Release preflight passed (version=" +:+ full_version state +:+ ", tag=v" +:+
                 short_version state +:+ ", setup=" +:+ setup_version state +:+ ").");
      _ ← when (a_print_publish_hints a)
            (_ ← list_github_actions_secrets (a_repo a);
             print_publish_workflow_hints
               (str_or (default EmptyString (a_version a)) (short_version state))
               (str_or (strip (a_build_number a)) "1") (a_repo a) (a_signing_provider a));
      mret 0
  end.
End preflight.

(** ** What a passed preflight has checked *)

Section proofs.
Context `{Host}.

Lemma later_resolve cmd : steps later (resolve_command cmd).
Proof. destruct cmd; simpl; solve_steps. Qed.

Lemma later_run_in cwd cmd check : steps later (run_in cwd cmd check).
Proof.
  apply steps_bind; [apply _|apply later_resolve|intros argv]. solve_steps.
Qed.
Lemma later_run cmd check : steps later (run cmd check).
Proof. apply later_run_in. Qed.

Lemma later_find_iscc paths : steps later (find_iscc_in paths).
Proof. induction paths as [|p paths IH]; simpl; [solve_steps|]. unfold command_exists. solve_steps; done. Qed.

Lemma later_missing_commands l : steps later (missing_commands l).
Proof. induction l as [|c l IH]; simpl; [solve_steps|]. unfold command_exists. solve_steps; done. Qed.

Lemma later_version_state : steps later load_version_state.
Proof. unfold load_version_state, read_text_sig. solve_steps. Qed.
Lemma later_changelog root version release : steps later (ReleaseGates.check root version release).
Proof. unfold ReleaseGates.check. solve_steps. Qed.

Lemma later_missing_iscc b : steps later (missing_iscc b).
Proof. unfold missing_iscc. destruct b; [|solve_steps].
  apply steps_bind; [apply _|apply later_find_iscc|]. solve_steps. Qed.

Lemma later_st_size p : steps later (st_size p).
Proof. intros w. reflexivity. Qed.

#[local] Hint Resolve later_resolve later_run_in later_run later_find_iscc later_missing_commands later_version_state
  later_changelog later_missing_iscc later_st_size InstallerKeyEvidence.later_verify : py.

#[local] Hint Resolve NativePackage.later_native : py.

Lemma later_write_text p s : steps later (write_text p s).
Proof. unfold write_text. solve_steps. Qed.
#[local] Hint Resolve later_write_text : py.

Lemma later_optional a : steps later (run_optional_checks a).
Proof.
  unfold run_optional_checks, check_command, ensure_appcast_signing_tests_not_skipped. solve_steps.
Qed.

Lemma later_pages repo : steps later (ensure_github_pages_workflow_ready repo).
Proof. unfold ensure_github_pages_workflow_ready. solve_steps. Qed.

Lemma later_secrets repo : steps later (list_github_actions_secrets repo).
Proof. unfold list_github_actions_secrets. solve_steps. Qed.
#[local] Hint Resolve later_secrets : py.

Lemma later_hints v b r s : steps later (print_publish_workflow_hints v b r s).
Proof. unfold print_publish_workflow_hints. solve_steps. Qed.

(** [cmd] was run in the repository between [w] and [w'] and ended with [p]. *)
Definition answered (w w' : world) (cmd : list string) (p : proc) : Prop :=
  ∃ w1 argv fs, later w w1 ∧ later w1 w' ∧ runs (resolve_command cmd) w1 argv w1 ∧
    host_run argv PROJECT_ROOT w1 = (Ok p, fs) ∧ EvRun argv PROJECT_ROOT ∈ w_log w'.

Lemma answered_mono w0 w w' w1 cmd p : later w0 w → later w' w1 → answered w w' cmd p → answered w0 w1 cmd p.
Proof.
  intros H0 H1 (w2 & argv & fs & ? & ? & ? & ? & He). exists w2, argv, fs.
  split_and!; [by etrans|by etrans|done|done|by eapply later_log].
Qed.

Lemma runs_resolve cmd w argv w' : runs (resolve_command cmd) w argv w' → w' = w.
Proof. destruct cmd; unfold resolve_command; intros Hr; inv_runs; unfold which, runs in *; naive_solver. Qed.

Lemma runs_run cmd check w p w' : runs (run cmd check) w p w' →
  answered w w' cmd p ∧ (check = true → returncode p = 0).
Proof.
  intros Hr. unfold run, run_in in Hr. apply runs_bind in Hr as (argv & w1 & Ha & Hr).
  pose proof (runs_resolve _ _ _ _ Ha) as ->. inv_runs.
  match goal with Hp : runs (run_proc _ _) _ _ _ |- _ => unfold runs, run_proc in Hp;
    destruct (host_run argv PROJECT_ROOT w) as [r fs] eqn:E; injection Hp as -> <- end.
  split.
  - exists w, argv, fs. split_and!; [done| |done|done|].
    + by eapply log_ext_one.
    + simpl. apply elem_of_app. right. by apply list_elem_of_singleton.
  - intros ->. simpl in *. by bool_simpl.
Qed.

(** The command succeeded without output. *)
Definition silent (w w' : world) (cmd : list string) : Prop :=
  ∃ p, answered w w' cmd p ∧ returncode p = 0 ∧ strip (stdout p) = EmptyString.
(** The command succeeded. *)
Definition succeeded (w w' : world) (cmd : list string) : Prop := ∃ p, answered w w' cmd p ∧ returncode p = 0.

Lemma runs_clean_worktree w w' : runs (ensure_clean_worktree false) w tt w' → silent w w' ["git"; "status"; "--porcelain"].
Proof.
  unfold ensure_clean_worktree. intros Hr. apply runs_bind in Hr as (p & w1 & [Hp Hc]%runs_run & [He <-]%runs_raise_when).
  apply nonempty_false in He. exists p. eauto.
Qed.

Lemma runs_tag_available tag w w' : runs (ensure_tag_available tag) w tt w' →
  silent w w' ["git"; "tag"; "--list"; tag] ∧ silent w w' ["git"; "ls-remote"; "--tags"; "origin"; tag].
Proof.
  unfold ensure_tag_available. intros Hr. apply runs_bind in Hr as (p & w1 & Hp & Hr).
  pose proof (later_runs _ _ _ _ (later_run _ _) Hp) as Hl1. apply runs_run in Hp as [Hp Hc].
  apply runs_bind in Hr as ([] & w2 & [He <-]%runs_raise_when & Hr). apply nonempty_false in He.
  apply runs_bind in Hr as (q & w2 & Hq & Hr).
  pose proof (later_runs _ _ _ _ (later_run _ _) Hq) as Hl2. apply runs_run in Hq as [Hq Hcq].
  apply runs_raise_when in Hr as [Heq <-]. apply nonempty_false in Heq. split.
  - exists p. split_and!; eauto. eapply answered_mono; [reflexivity|done|done].
  - exists q. split_and!; eauto. eapply answered_mono; [done|reflexivity|done].
Qed.

Lemma runs_missing_commands l w missing w' : runs (missing_commands l) w missing w' →
  w' = w ∧ (missing = [] → ∀ c, c ∈ l → is_Some (host_which c w)).
Proof.
  revert missing. induction l as [|c l IH]; intros missing; simpl.
  - rewrite runs_ret. intros [<- <-]. split; [done|]. intros _ c Hc. by apply not_elem_of_nil in Hc.
  - unfold command_exists. intros Hr. inv_runs.
    match goal with Hw : runs (which _) _ _ _ |- _ => unfold runs, which in Hw; injection Hw as <- <- end.
    match goal with Hx : runs (missing_commands l) _ _ _ |- _ => apply IH in Hx as [-> Hm] end.
    split; [done|]. destruct (host_which c w) eqn:E; [|done]. intros Hnil d [->|Hd]%elem_of_cons; [by eexists|by apply Hm].
Qed.

Lemma later_missing_of b w x w' : runs (missing_iscc b) w x w' → later w w'.
Proof. apply later_runs, later_missing_iscc. Qed.

Lemma runs_tools iscc pages w w' : runs (ensure_tools iscc pages) w tt w' →
  later w w' ∧ ∀ c, c ∈ ["git"; "python"; "flutter"] ++ (if pages then ["gh"] else []) → is_Some (host_which c w).
Proof.
  unfold ensure_tools, refuse_missing. intros Hr.
  apply runs_bind in Hr as (m1 & w1 & [-> Hm1]%runs_missing_commands & Hr).
  apply runs_bind in Hr as (m2 & w1 & Hm2 & Hr).
  assert (w1 = w ∧ (m2 = [] → ∀ c, c ∈ (if pages then ["gh"] else []) → is_Some (host_which c w))) as [-> Hg].
  { destruct pages; [by apply runs_missing_commands|]. apply runs_ret in Hm2 as [<- <-]. split; [done|].
    intros _ c Hc. by apply not_elem_of_nil in Hc. }
  apply runs_bind in Hr as (m3 & w1 & Hm3%later_missing_of & Hr). apply runs_raise_when in Hr as [He <-].
  split; [done|]. destruct m1, m2; [|done..]. intros c [?|?]%elem_of_app; eauto.
Qed.

Lemma runs_installer_exists version w w' : runs (ensure_installer_exists version) w tt w' →
  w' = w ∧ ∃ image, w_fs w !! installer_path version = Some (File image) ∧ image ≠ EmptyString.
Proof.
  unfold ensure_installer_exists, st_size. intros Hr. apply runs_bind in Hr as (h & w1 & [<- ->]%runs_path_exists & Hr).
  apply runs_bind in Hr as ([] & w1 & [_ <-]%runs_raise_when & Hr).
  apply runs_bind in Hr as (size & w1 & Hs & Hr). apply runs_raise_when in Hr as [Hz <-].
  unfold runs in Hs. destruct (w_fs w !! _) as [[image|]|]; [| |done]; injection Hs as <- <-; [|done].
  split; [done|]. exists image. split; [done|]. intros ->. done.
Qed.

Lemma runs_pages repo w w' : runs (ensure_github_pages_workflow_ready repo) w tt w' →
  ∃ p payload v, answered w w' ["gh"; "api"; "repos/" +:+ repo +:+ "/pages"] p ∧ returncode p = 0 ∧
    loads (stdout p) = Ok payload ∧ jget_or_null "build_type" payload = Ok v ∧
    str_of (jor v (JStr EmptyString)) = "workflow".
Proof.
  unfold ensure_github_pages_workflow_ready. intros Hr. apply runs_bind in Hr as (p & w1 & [Hp _]%runs_run & Hr).
  apply runs_bind in Hr as ([] & w2 & [Hc%negb_false_iff <-]%runs_raise_when & Hr).
  apply runs_bind in Hr as (payload & w2 & Hl & Hr).
  apply runs_try_catch in Hl as [[Hl <-]%runs_lift|(? & ? & _ & _ & Hl)]; [|by apply runs_raise in Hl].
  apply runs_bind in Hr as (v & w2 & [Hv <-]%runs_lift & Hr). apply runs_raise_when in Hr as [Hb%negb_false_iff <-].
  apply Z.eqb_eq in Hc. apply String.eqb_eq in Hb. by exists p, payload, v.
Qed.

(** The commands the options ask for, all of which must succeed. *)
Definition optional_commands (a : args) : list (list string) :=
  (if a_tests a || a_tests_ci a then [["flutter"; "pub"; "get"]] else []) ++
  (if a_analyze a then [["flutter"; "analyze"]] else []) ++
  (if a_tests a then [["flutter"; "test"]] else []) ++
  (if a_tests_ci a then [["flutter"; "test"; "--exclude-tags"; "live || slow || perf"]] else []) ++
  (if a_architecture a then [["flutter"; "test"; "test/architecture/layer_boundaries_test.dart"]] else []) ++
  (if a_appcast_tooling a then [["python"; "-m"; "unittest"; "tool.appcast.test_appcast_signing"; "-v"]] else []).

Lemma succeeded_mono w0 w w' w1 cmd : later w0 w → later w' w1 → succeeded w w' cmd → succeeded w0 w1 cmd.
Proof. intros H0 H1 (p & Hp & Hc). exists p. split; [by eapply answered_mono|done]. Qed.

Lemma silent_mono w0 w w' w1 cmd : later w0 w → later w' w1 → silent w w' cmd → silent w0 w1 cmd.
Proof. intros H0 H1 (p & Hp & Hc). exists p. split; [by eapply answered_mono|done]. Qed.

Lemma later_check_command cmd artifact : steps later (check_command cmd artifact).
Proof. unfold check_command. solve_steps. Qed.

Lemma runs_check_command cmd artifact w w' : runs (check_command cmd artifact) w tt w' → succeeded w w' cmd.
Proof.
  unfold check_command. intros Hr. apply runs_bind in Hr as ([] & w1 & Hpr & Hr).
  apply (later_runs (print _)) in Hpr; [|solve_steps].
  apply runs_bind in Hr as (p & w2 & [Hp _]%runs_run & Hr).
  apply runs_bind in Hr as ([] & w3 & Hm & Hr). apply (later_runs (mkdir _)) in Hm; [|solve_steps].
  apply runs_bind in Hr as ([] & w4 & Hwr & Hr). apply (later_runs (write_text _ _)) in Hwr; [|solve_steps].
  apply runs_bind in Hr as ([] & w5 & [Hc%negb_false_iff <-]%runs_raise_when & Hr).
  apply (later_runs (print _)) in Hr; [|solve_steps]. apply Z.eqb_eq in Hc.
  exists p. split; [|done]. eapply answered_mono; [exact Hpr| |exact Hp].
  etrans; [exact Hm|]. etrans; [exact Hwr|exact Hr].
Qed.

(** A step that may be skipped, after which its commands have succeeded. *)
Lemma runs_when_succeeded (b : bool) m w w' cmds :
  (∀ w1 w2, runs m w1 tt w2 → Forall (succeeded w1 w2) cmds) → steps later m →
  runs (when b m) w tt w' → later w w' ∧ Forall (succeeded w w') (if b then cmds else []).
Proof.
  intros Hm Hl. destruct b; simpl.
  - intros Hr. split; [by eapply later_runs|by apply Hm].
  - intros [_ <-]%runs_ret. split; [reflexivity|constructor].
Qed.

Lemma Forall_succeeded_mono w0 w w' w1 cmds : later w0 w → later w' w1 →
  Forall (succeeded w w') cmds → Forall (succeeded w0 w1) cmds.
Proof. intros H0 H1 Hs. eapply Forall_impl; [exact Hs|]. intros cmd. by apply succeeded_mono. Qed.

Lemma runs_prepare_step w w' :
  runs (_ ← run ["flutter"; "pub"; "get"] true;
        library ← NativePackage.prepare_native_library PROJECT_ROOT;
        setenv "ODBC_FAST_NATIVE_LIBRARY" library) w tt w' → Forall (succeeded w w') [["flutter"; "pub"; "get"]].
Proof.
  intros Hr. apply runs_bind in Hr as (p & w1 & [Hp Hc]%runs_run & Hr). repeat constructor. exists p. split; [|by apply Hc].
  eapply answered_mono; [reflexivity| |exact Hp]. revert Hr. apply later_runs. solve_steps.
Qed.

Lemma later_skipped : steps later ensure_appcast_signing_tests_not_skipped.
Proof. unfold ensure_appcast_signing_tests_not_skipped. solve_steps. Qed.

Lemma runs_signing_tests w w' :
  runs ensure_appcast_signing_tests_not_skipped w tt w' →
  Forall (succeeded w w') [["python"; "-m"; "unittest"; "tool.appcast.test_appcast_signing"; "-v"]].
Proof.
  unfold ensure_appcast_signing_tests_not_skipped. intros Hr.
  apply runs_bind in Hr as (p & w1 & [Hp _]%runs_run & Hr).
  apply runs_bind in Hr as ([] & w2 & [Hc%negb_false_iff <-]%runs_raise_when & Hr).
  apply runs_raise_when in Hr as [_ <-]. apply Z.eqb_eq in Hc. repeat constructor. by exists p.
Qed.

Lemma runs_check_commands cmd artifact w w' : runs (check_command cmd artifact) w tt w' → Forall (succeeded w w') [cmd].
Proof. intros Hr. repeat constructor. by eapply runs_check_command. Qed.

Lemma runs_optional a w w' : runs (run_optional_checks a) w tt w' → Forall (succeeded w w') (optional_commands a).
Proof.
  unfold run_optional_checks, optional_commands. intros Hr.
  apply runs_bind in Hr as ([] & w1 & H1 & Hr). apply runs_bind in Hr as ([] & w2 & H2 & Hr).
  apply runs_bind in Hr as ([] & w3 & H3 & Hr). apply runs_bind in Hr as ([] & w4 & H4 & Hr).
  apply runs_bind in Hr as ([] & w5 & H5 & H6).
  apply (runs_when_succeeded _ _ _ _ _ runs_prepare_step ltac:(solve_steps)) in H1 as [L1 H1].
  apply (runs_when_succeeded _ _ _ _ _ (runs_check_commands _ _) (later_check_command _ _)) in H2 as [L2 H2], H3 as [L3 H3], H4 as [L4 H4], H5 as [L5 H5].
  eapply runs_when_succeeded in H6 as [L6 H6].
  - repeat apply Forall_app_2.
    + eapply Forall_succeeded_mono; [reflexivity| |exact H1]. chain_later.
    + eapply Forall_succeeded_mono; [exact L1| |exact H2]. chain_later.
    + eapply Forall_succeeded_mono; [| |exact H3]; chain_later.
    + eapply Forall_succeeded_mono; [| |exact H4]; chain_later.
    + eapply Forall_succeeded_mono; [|exact L6|exact H5]; chain_later.
    + eapply Forall_succeeded_mono; [|reflexivity|exact H6]; chain_later.
  - intros v1 v2 Hv. apply runs_bind in Hv as ([] & v3 & Hc & Hv).
    apply later_runs in Hc; [|apply later_check_command].
    eapply Forall_succeeded_mono; [exact Hc|reflexivity|by apply runs_signing_tests].
  - apply steps_bind; [apply _|apply later_check_command|intros _; apply later_skipped].
Qed.

(** What a full preflight has established about [state]. *)
Record preflight_ok (a : args) (w w' : world) (state : VersionState) : Prop := {
  ok_short : short_version state = before "+" (full_version state);
  ok_setup : setup_version state = short_version state;
  ok_generated : generated_version state = full_version state;
  ok_expected : ∀ v, a_version a = Some v → v ≠ EmptyString → short_version state = v;
  ok_clean : a_allow_dirty a = false → silent w w' ["git"; "status"; "--porcelain"];
  ok_changelog : once w w' (λ w1, ∃ bytes text body,
    w_fs w1 !! (PROJECT_ROOT // "CHANGELOG.md") = Some (File bytes) ∧ decode bytes = Ok text ∧
    ReleaseGates.validate (universal_newlines text) (full_version state) false = Ok body);
  ok_tools : once w w' (λ w1, ∀ c, c ∈ ["git"; "python"; "flutter"] ++ (if a_check_pages a then ["gh"] else []) →
    is_Some (host_which c w1));
  ok_tag : a_allow_existing_tag a = false →
    silent w w' ["git"; "tag"; "--list"; "v" +:+ short_version state] ∧
    silent w w' ["git"; "ls-remote"; "--tags"; "origin"; "v" +:+ short_version state];
  ok_installer : a_check_installer a = true → once w w' (λ w1, ∃ image,
    w_fs w1 !! installer_path (short_version state) = Some (File image) ∧ image ≠ EmptyString ∧
    (strip (a_feed_public_key a) ≠ EmptyString →
     InstallerKeyEvidence.evidence_holds w1 (installer_path (short_version state))
       (PROJECT_ROOT // "build/windows/x64/runner/Release") (a_feed_public_key a)));
  ok_pages : a_check_pages a = true → ∃ p payload v,
    answered w w' ["gh"; "api"; "repos/" +:+ a_repo a +:+ "/pages"] p ∧ returncode p = 0 ∧
    loads (stdout p) = Ok payload ∧ jget_or_null "build_type" payload = Ok v ∧
    str_of (jor v (JStr EmptyString)) = "workflow";
  ok_optional : Forall (succeeded w w') (optional_commands a)
}.

Lemma runs_version_state w state w' : runs load_version_state w state w' →
  w' = w ∧ short_version state = before "+" (full_version state).
Proof.
  unfold load_version_state, read_text_sig. intros Hr. inv_runs. simpl. split; [|done].
  repeat match goal with
  | Hr : runs (read_text _) _ _ _ |- _ => apply runs_read_text in Hr as [<- _]
  | Hr : runs (read_bytes _) _ _ _ |- _ => apply runs_read_bytes in Hr as [<- _]
  end. done.
Qed.

Lemma version_sync_spec state expected : ensure_version_sync state expected = Ok tt →
  setup_version state = short_version state ∧ generated_version state = full_version state ∧
  ∀ v, expected = Some v → v ≠ EmptyString → short_version state = v.
Proof.
  unfold ensure_version_sync. intros Hr. inv_res. bool_simpl. split_and!; [done|done|].
  intros v -> Hv. simpl in *. destruct (String.eqb_spec (short_version state) v) as [->|Hne]; [done|].
  destruct v; [done|]. done.
Qed.

Lemma runs_check root version w body w' : runs (ReleaseGates.check root version false) w body w' →
  w' = w ∧ ∃ bytes text, w_fs w !! (root // "CHANGELOG.md") = Some (File bytes) ∧ decode bytes = Ok text ∧
    ReleaseGates.validate (universal_newlines text) version false = Ok body.
Proof.
  unfold ReleaseGates.check. intros Hr. apply runs_bind in Hr as (text & w1 & [<- (b & t & Hb & Ht & ->)]%runs_read_text & Hr).
  apply runs_lift in Hr as [Hv <-]. eauto 6.
Qed.

Lemma runs_when (b : bool) m w w' : runs (when b m) w tt w' → if b then runs m w tt w' else w' = w.
Proof. destruct b; [done|]. by intros [_ <-]%runs_ret. Qed.

(** The installer checks look at one and the same moment. *)
Lemma runs_installer_checks (a : args) version w w' :
  runs (when (a_check_installer a)
    (_ ← ensure_installer_exists version;
     when (nonempty (a_feed_public_key a)) (ensure_feed_public_key_embedded version (a_feed_public_key a)))) w tt w' →
  w' = w ∧ (a_check_installer a = true → ∃ image,
    w_fs w !! installer_path version = Some (File image) ∧ image ≠ EmptyString ∧
    (strip (a_feed_public_key a) ≠ EmptyString →
     InstallerKeyEvidence.evidence_holds w (installer_path version)
       (PROJECT_ROOT // "build/windows/x64/runner/Release") (a_feed_public_key a))).
Proof.
  intros Hr%runs_when. destruct (a_check_installer a); [|by subst].
  apply runs_bind in Hr as ([] & w1 & [-> (image & Hi & Hne)]%runs_installer_exists & Hr%runs_when).
  assert (w' = w ∧ (strip (a_feed_public_key a) ≠ EmptyString → InstallerKeyEvidence.evidence_holds w (installer_path version)
       (PROJECT_ROOT // "build/windows/x64/runner/Release") (a_feed_public_key a))) as [-> Hk]; [|by eauto].
  destruct (a_feed_public_key a) as [|c key] eqn:E; simpl in Hr; [by subst|].
  unfold ensure_feed_public_key_embedded in Hr. destruct (nonempty (strip (String c key))) eqn:Es; cbn [negb] in Hr.
  - apply InstallerKeyEvidence.runs_verify in Hr as [-> ?]. done.
  - apply runs_ret in Hr as [_ <-]. apply nonempty_false in Es. done.
Qed.

Lemma runs_full_checks a w state w' : runs (full_checks a) w state w' → preflight_ok a w w' state.
Proof.
  unfold full_checks. intros Hr.
  apply runs_bind in Hr as (st & w0 & [-> Hshort]%runs_version_state & Hr).
  apply runs_bind in Hr as ([] & w1 & H1 & Hr).
  apply runs_bind in Hr as ([] & w2 & [(Hsetup & Hgen & Hexp)%version_sync_spec <-]%runs_lift & Hr).
  apply runs_bind in Hr as (body & w2 & [-> (bytes & text & Hc)]%runs_check & Hr).
  apply runs_bind in Hr as ([] & w3 & [L3 H3]%runs_tools & Hr).
  apply runs_bind in Hr as ([] & w4 & H4%runs_when & Hr).
  apply runs_bind in Hr as ([] & w5 & [-> H5]%runs_installer_checks & Hr).
  apply runs_bind in Hr as ([] & w6 & H6%runs_when & Hr).
  apply runs_bind in Hr as ([] & w7 & H7 & [<- <-]%runs_ret).
  pose proof (later_runs _ _ _ _ (later_optional a) H7) as L7. apply runs_optional in H7.
  assert (later w w1) as L1.
  { revert H1. apply later_runs. unfold ensure_clean_worktree. solve_steps. }
  assert (later w3 w4) as L4.
  { destruct (a_allow_existing_tag a); simpl in H4; [subst; reflexivity|].
    revert H4. apply later_runs. unfold ensure_tag_available. solve_steps. }
  assert (later w4 w6) as L6.
  { destruct (a_check_pages a); [|subst; reflexivity]. revert H6. apply later_runs, later_pages. }
  split; try done.
  - intros Hd. rewrite Hd in H1. apply runs_clean_worktree in H1.
    eapply silent_mono; [reflexivity| |exact H1]. chain_later.
  - exists w1. split_and!; [done|chain_later|]. by exists bytes, text, body.
  - exists w1. split_and!; [done|chain_later|done].
  - intros Ht. rewrite Ht in H4. apply runs_tag_available in H4 as [Ha Hb].
    split; (eapply silent_mono; [| |eassumption]); chain_later.
  - intros Hi. exists w4. split_and!; [chain_later|chain_later|by apply H5].
  - intros Hp. rewrite Hp in H6. apply runs_pages in H6 as (p & payload & v & Hans & ?).
    exists p, payload, v. split; [|done]. eapply answered_mono; [| |exact Hans]; chain_later.
  - eapply Forall_succeeded_mono; [|reflexivity|exact H7]. chain_later.
Qed.

(** A later world for what is reported after the checks. *)
Lemma preflight_ok_mono a w0 w w' w1 state : later w0 w → later w' w1 →
  preflight_ok a w w' state → preflight_ok a w0 w1 state.
Proof.
  intros L0 L1 [H1 H2 H3 H4 H5 H6 H7 H8 H9 H10 H11]. split; try done.
  - intros Hd. by eapply silent_mono; [..|apply H5].
  - by eapply once_mono.
  - by eapply once_mono.
  - intros Ht. apply H8 in Ht as [Ha Hb]. split; by eapply silent_mono.
  - intros Hi. by eapply once_mono; [..|apply H9].
  - intros Hp. apply H10 in Hp as (p & payload & v & Hans & ?). exists p, payload, v.
    split; [by eapply answered_mono|done].
  - by eapply Forall_succeeded_mono.
Qed.

Lemma main_checked (a : args) (w w' : world)
    (Hfull : a_compile_iss a = false ∧ a_early a = false) (Hrun : runs (main a) w 0 w') :
  ∃ state, preflight_ok (apply_gate a) w w' state.
Proof.
  unfold main in Hrun. apply runs_bind in Hrun as (outcome & w1 & Ht & Hr).
  assert (∃ state, outcome = inl (Some state) ∧ preflight_ok (apply_gate a) w w1 state) as (state & -> & Hok).
  { apply runs_try_catch in Ht as [Ht|(e & w2 & _ & _ & Ht)].
    - apply runs_bind in Ht as (o & w2 & Hb & [<- <-]%runs_ret). unfold main_body in Hb.
      apply runs_bind in Hb as ([] & w3 & Hw & Hb).
      assert (later w w3) as L3.
      { revert Hw. apply later_runs. unfold collect_publish_secret_warnings. solve_steps. }
      assert (a_compile_iss (apply_gate a) = false ∧ a_early (apply_gate a) = false) as [E1 E2]
        by (unfold apply_gate; by destruct (a_gate a)).
      rewrite E1, E2 in Hb.
      apply runs_bind in Hb as (state & w4 & Hf%runs_full_checks & [<- <-]%runs_ret). exists state.
      split; [done|]. by eapply preflight_ok_mono; [| |exact Hf].
    - exfalso. apply runs_bind in Ht as ([] & w3 & _ & [<- <-]%runs_ret).
      apply runs_ret in Hr as [? _]. done. }
  exists state. eapply preflight_ok_mono; [reflexivity| |exact Hok].
  revert Hr. apply later_runs. pose proof later_hints as Hh. solve_steps.
Qed.


(** The gate leaves nothing out: with [--gate], a full preflight that exits
    with 0 has seen [flutter analyze], the CI tests, the architecture tests and
    the signing tests succeed, whatever the other options say. *)
Theorem gate_runs_all (a : args) (w w' : world) (Hgate : a_gate a = true)
    (Hfull : a_compile_iss a = false ∧ a_early a = false) (Hrun : runs (main a) w 0 w') (cmd : list string)
    (Hcmd : cmd ∈ [["flutter"; "analyze"]; ["flutter"; "test"; "--exclude-tags"; "live || slow || perf"];
                   ["flutter"; "test"; "test/architecture/layer_boundaries_test.dart"];
                   ["python"; "-m"; "unittest"; "tool.appcast.test_appcast_signing"; "-v"]]) :
  succeeded w w' cmd.
Proof.
  destruct (main_checked a w w' Hfull Hrun) as [state [_ _ _ _ _ _ _ _ _ _ Hopt]].
  eapply Forall_forall in Hopt; [exact Hopt|]. unfold optional_commands, apply_gate. rewrite Hgate. cbn [a_tests a_tests_ci a_analyze a_architecture a_appcast_tooling].
  destruct (a_tests a); set_solver.
Qed.
End proofs.

(** ** At work *)

(** A machine where every tool is installed and every command succeeds silently. *)
Definition quiet_host : Host := {|
  host_nt := false;
  host_run := λ _ _ w, (Ok (Proc 0 EmptyString EmptyString), w_fs w);
  host_which := λ c _, Some ("/usr/bin/" +:+ c);
  host_fetch := λ _ _, Raise (OSError "offline");
  host_now := λ _, 1767225600%Z;
  host_utcoffset := 0;
  host_exn_str := λ _, "error";
  host_repr := λ _, "value";
  host_tmp := λ _, "/tmp/x";
  host_isatty := false;
  host_root := "/r"
|}.

Definition ready_files : list (string * string) :=
  [("/r/pubspec.yaml", "name: plug" +:+ nl +:+ "version: 1.9.1+1" +:+ nl);
   ("/r/installer/setup.iss", "#define MyAppVersion " +:+ dq +:+ "1.9.1" +:+ dq +:+ nl);
   ("/r/lib/core/constants/app_version.g.dart",
     "const String appVersion = " +:+ dq +:+ "1.9.1+1" +:+ dq +:+ ";" +:+ nl);
   ("/r/CHANGELOG.md", ReleaseGates.example_changelog);
   ("/r/installer/dist/PlugAgente-Setup-1.9.1.exe", "MZ");
   ("/r/build/windows/x64/runner/Release/data/app.so", InstallerKeyEvidence.example_key);
   ("/r/build/windows/x64/runner/Release/updater/plug_update_client.exe", InstallerKeyEvidence.example_key)].
Definition ready_world : world :=
  snd (InstallerKeyEvidence.record (H:=quiet_host) "/r/installer/dist/PlugAgente-Setup-1.9.1.exe"
         "/r/build/windows/x64/runner/Release" InstallerKeyEvidence.example_key
         (InstallerKeyEvidence.payload_hashes InstallerKeyEvidence.example_key InstallerKeyEvidence.example_key)
         (World (foldr (λ kv fs, <[fst kv := File (snd kv)]> fs) (w_fs NativePackage.cache_world) ready_files) ∅ [])).

(** The gate with the installer and its keys. *)
Definition gate_args : args :=
  {| a_version := Some "1.9.1"; a_allow_dirty := false; a_allow_existing_tag := false; a_require_iscc := true;
     a_compile_iss := false; a_check_installer := true; a_check_pages := false; a_repo := "o/r";
     a_signing_provider := "manifest"; a_analyze := false; a_tests := false; a_tests_ci := false;
     a_architecture := false; a_appcast_tooling := false; a_gate := true; a_early := false; a_build_number := "1";
     a_print_publish_hints := true; a_check_secrets := true; a_feed_public_key := InstallerKeyEvidence.example_key |}.

Lemma gate_passes : runs (main (H:=quiet_host) gate_args) ready_world 0 (snd (main (H:=quiet_host) gate_args ready_world)).
Proof.
  assert (E : fst (main (H:=quiet_host) gate_args ready_world) = Ok 0) by (vm_compute; reflexivity).
  unfold runs. rewrite <- E. apply surjective_pairing.
Qed.


Theorem gate_runs_all_witness :
  succeeded (H:=quiet_host) ready_world (snd (main (H:=quiet_host) gate_args ready_world)) ["flutter"; "analyze"].
Proof.
  apply (gate_runs_all (H:=quiet_host) gate_args ready_world _ eq_refl); [by split|exact gate_passes|left].
Defined.
