(* ===== verification/WindowsVersionInfo.v ===== *)
(** * Version resources of the executables (tool/release/windows_version_info.py)

    The application version, its four 16-bit numbers, the bytes of the
    VS_VERSION_INFO resource, and the data behind the sections of a Windows
    executable, which has to survive when the resource is replaced. *)

From S2P Require Import Prelude PyStr PyRe PyCodec PyJson PyJsonIndent Effects TextFiles.

Local Open Scope Z_scope.

(** src: tool/release/windows_version_info.py:13-13 PRODUCT_NAME *)
Definition PRODUCT_NAME : string := "Plug Agente".

Definition full_version_re : regex :=
  seqs [plus digit; lit "."; plus digit; lit "."; plus digit; lit "+"; plus digit].
Definition application_version_re : regex :=
  seqs [RBol; lit "version:"; star space; RGroup 1 full_version_re; star space; REol].

(** src: tool/release/windows_version_info.py:25-31 version_parts *)
Definition version_parts (version : string) : res (list Z) :=
  _ ← raise_if (negb (fullmatch full_version_re version)) (ValueError "Invalid Windows product version");
  parts ← res_map int_of (split_char "." (replace "+" "." version));
  _ ← raise_if (existsb (λ part, 65535 <? part) parts)
        (ValueError "Windows version components must be at most 65535");
  Ok parts.

(** ** The resource *)

Definition zeros (n : Z) : string := bytes_of_list (replicate (Z.to_nat n) 0).

(** [s.encode("utf-16-le")] *)
Fixpoint utf16 (s : string) : string :=
  match s with EmptyString => EmptyString | String c s => String c (String zero (utf16 s)) end.

(** Zeros up to a multiple of four, counted from the start of the block. *)
Definition align (body : string) : string := body +:+ zeros (- (len body + 6) mod 4).

(** src: tool/release/windows_version_info.py:34-41 _block *)
Definition block (key value children : string) (text : bool) : res string :=
  let body := utf16 key +:+ zeros 2 in
  let body := align body in
  let body := body +:+ value in
  let body := align body in
  let body := body +:+ children in
  let value_length := if text then len value / 2 else len value in
  length_ ← pack_uint 2 (len body + 6);
  value_length ← pack_uint 2 value_length;
  kind ← pack_uint 2 (if text then 1 else 0);
  Ok (length_ +:+ value_length +:+ kind +:+ body).

(** [struct.pack("<nI", ...)] *)
Definition pack_u32s (l : list Z) : res string := parts ← res_map (pack_uint 4) l; Ok (concat_all parts).

(** The fields of VS_FIXEDFILEINFO. *)
Definition fixed_info (major minor patch build : Z) : list Z :=
  [0xFEEF04BD; 0x10000;
   Z.lor (Z.shiftl major 16) minor; Z.lor (Z.shiftl patch 16) build;
   Z.lor (Z.shiftl major 16) minor; Z.lor (Z.shiftl patch 16) build;
   0x3F; 0; 0x40004; 1; 0; 0; 0].

Definition version_strings (version filename : string) : list (string * string) :=
  [("CompanyName", "Se7e Sistemas"); ("FileDescription", PRODUCT_NAME); ("FileVersion", version);
   ("InternalName", path_stem filename); ("LegalCopyright", "Copyright (c) 2026 Se7e Sistemas");
   ("OriginalFilename", filename); ("ProductName", PRODUCT_NAME); ("ProductVersion", version)].

(** One entry of the string table. *)
Definition string_block (kv : string * string) : res string :=
  block (fst kv) (utf16 (snd kv +:+ chr 0)) EmptyString true.

(** src: tool/release/windows_version_info.py:44-63 version_resource *)
Definition version_resource (version filename : string) : res string :=
  parts ← version_parts version;
  match parts with
  | [major; minor; patch; build] =>
      fixed ← pack_u32s (fixed_info major minor patch build);
      strings ← res_map string_block (version_strings version filename);
      table ← block "040904b0" EmptyString (concat_all strings) true;
      string_info ← block "StringFileInfo" EmptyString table true;
      language ← pack_uint 2 0x409;
      encoding ← pack_uint 2 1200;
      translation ← block "Translation" (language +:+ encoding) EmptyString false;
      var_info ← block "VarFileInfo" EmptyString translation true;
      block "VS_VERSION_INFO" fixed (string_info +:+ var_info) false
  | _ => Raise (ValueError "not enough values to unpack")
  end.

(** ** The overlay *)

(** [data\[a:b\]] *)
Definition slice (a b : Z) (data : string) : string := str_take (Z.to_nat (b - a)) (str_drop (Z.to_nat a) data).

(** The end of the last section, at least [end_]. *)
Fixpoint sections_end (data : string) (first : Z) (count : nat) (index : Z) (end_ : Z) : res Z :=
  match count with
  | O => Ok end_
  | S count =>
      let section := first + index * 40 in
      size ← unpack_at 4 data (section + 16);
      offset ← unpack_at 4 data (section + 16 + 4);
      sections_end data first count (index + 1) (Z.max end_ (offset + size))
  end.

(** Where the overlay starts. *)
Definition overlay_start (data : string) : res Z :=
  _ ← raise_if (negb (startswith data "MZ")) (ValueError "Not a Windows executable");
  pe ← unpack_at 4 data 0x3C;
  _ ← raise_if (negb (slice pe (pe + 4) data == "PE" +:+ chr 0 +:+ chr 0)) (ValueError "Invalid PE header");
  count ← unpack_at 2 data (pe + 6);
  optional_size ← unpack_at 2 data (pe + 20);
  let optional := pe + 24 in
  magic ← unpack_at 2 data optional;
  let directories := optional + (if magic =? 0x20B then 112 else 96) in
  _ ← raise_if (negb ((magic =? 0x10B) || (magic =? 0x20B))) (ValueError "Unsupported PE format");
  certificate_offset ← unpack_at 4 data (directories + 4 * 8);
  certificate_size ← unpack_at 4 data (directories + 4 * 8 + 4);
  _ ← raise_if (negb (certificate_offset =? 0) || negb (certificate_size =? 0))
        (ValueError "Refusing to modify an already signed executable");
  headers ← unpack_at 4 data (optional + 60);
  end_ ← sections_end data (optional + optional_size) (Z.to_nat count) 0 headers;
  _ ← raise_if (len data <? end_) (ValueError "Truncated executable");
  Ok end_.

(** src: tool/release/windows_version_info.py:66-89 executable_overlay *)
Definition executable_overlay (data : string) : res string :=
  end_ ← overlay_start data; Ok (str_drop (Z.to_nat end_) data).

(** ** The calls of the Windows API *)

(** What the version and kernel libraries answer, on the bytes of a file:
    [BeginUpdateResourceW] to [EndUpdateResourceW] with one resource,
    [GetFileVersionInfoW], and [VerQueryValueW] on its buffer. *)
Class WinApi : Type := {
  win_update_resource : string → string → res string;
  win_version_info : string → res string;
  win_query_bytes : string → string → option string;
  win_query_text : string → string → option string
}.

(** [f"{n:04x}"] *)
Definition hex4 (n : Z) : string :=
  let digit (k : Z) := String (hex_digit (Z.to_N (n / 16 ^ k mod 16))) EmptyString in
  digit 3 +:+ digit 2 +:+ digit 1 +:+ digit 0.

Section windows.
Context `{Host} `{WinApi}.

(** src: tool/release/windows_version_info.py:16-22 application_version *)
Definition application_version : M string :=
  pubspec ← read_text (host_root // "pubspec.yaml");
  match re_search application_version_re pubspec with
  | None => raise (ValueError "Expected an application version including the build number")
  | Some mo => _ ← lift (version_parts (group_str 1 mo)); mret (group_str 1 mo)
  end.

(** [path.resolve(strict=True)] of an absolute path *)
Definition resolve_strict (path : string) : M unit :=
  here ← path_exists path; raise_when (negb here) (FileNotFoundError path).

Fixpoint query_keys (path buffer prefix : string) (keys : list string) : res (list (string * string)) :=
  match keys with
  | [] => Ok []
  | key :: keys =>
      value ← from_option (win_query_text buffer (prefix +:+ key))
                (ValueError ("Missing version attribute " +:+ key +:+ ": " +:+ path));
      rest ← query_keys path buffer prefix keys;
      Ok ((key, value) :: rest)
  end.

(** src: tool/release/windows_version_info.py:92-121 read_version_info *)
Definition read_version_info (path : string) : M (list (string * string)) :=
  _ ← raise_when (negb host_nt) (OSError "Windows version resources require Windows");
  _ ← resolve_strict path;
  data ← read_bytes path;
  buffer ← lift (win_version_info data);
  translation ← lift (match win_query_bytes buffer "\VarFileInfo\Translation" with
                      | Some t => if len t <? 4 then Raise (ValueError ("Missing version translation: " +:+ path)) else Ok t
                      | None => Raise (ValueError ("Missing version translation: " +:+ path))
                      end);
  language ← lift (unpack_at 2 translation 0);
  encoding ← lift (unpack_at 2 translation 2);
  lift (query_keys path buffer ("\StringFileInfo\" +:+ hex4 language +:+ hex4 encoding +:+ "\")
          ["ProductName"; "ProductVersion"; "OriginalFilename"]).

(** [info\[key\]] *)
Definition info_item (key : string) (info : list (string * string)) : string :=
  default EmptyString (snd <$> List.find (λ kv, fst kv == key) info).

(** src: tool/release/windows_version_info.py:124-163 set_version_info *)
Definition set_version_info (path version : string) : M unit :=
  _ ← raise_when (negb host_nt) (OSError "Windows version resources require Windows");
  _ ← resolve_strict path;
  resource ← lift (version_resource version (path_name path));
  data ← read_bytes path;
  overlay ← lift (executable_overlay data);
  with_temp_dir (λ temporary,
    let candidate := temporary // path_name path in
    _ ← copy_file path candidate;
    copied ← read_bytes candidate;
    updated ← lift (win_update_resource copied resource);
    _ ← write_bytes candidate updated;
    current ← (b ← read_bytes candidate; lift (executable_overlay b));
    _ ← (if current != overlay then
           _ ← raise_when (nonempty current)
                 (ValueError "Resource editing changed the executable overlay unexpectedly");
           append_bytes candidate overlay
         else mret tt);
    info ← read_version_info candidate;
    _ ← raise_when ((info_item "ProductName" info != PRODUCT_NAME) || (info_item "ProductVersion" info != version))
          (ValueError "Windows product metadata verification failed");
    os_replace candidate path).
End windows.

(** ** Lemmas on slices *)

Lemma len_app a b : len (a +:+ b) = len a + len b.
Proof. unfold len. rewrite length_str_app. lia. Qed.
Lemma len_nonneg s : 0 ≤ len s.
Proof. unfold len. lia. Qed.

Lemma str_take_app a b : str_take (String.length a) (a +:+ b) = a.
Proof. induction a as [|c a IH]; simpl; [by destruct b|]. by rewrite IH. Qed.

Lemma str_take_app_le n a b : (n ≤ String.length a)%nat → str_take n (a +:+ b) = str_take n a.
Proof.
  revert a. induction n as [|n IH]; intros a Hn; [done|]. destruct a as [|c a]; simpl in *; [lia|].
  rewrite IH by lia. done.
Qed.

Lemma str_drop_app_le n a b : (n ≤ String.length a)%nat → str_drop n (a +:+ b) = str_drop n a +:+ b.
Proof.
  revert a. induction n as [|n IH]; intros a Hn; [done|]. destruct a as [|c a]; simpl in *; [lia|].
  apply IH. lia.
Qed.

Lemma unpack_at_app n data extra off z : unpack_at n data off = Ok z → unpack_at n (data +:+ extra) off = Ok z.
Proof.
  unfold unpack_at. rewrite len_app. pose proof (len_nonneg extra).
  destruct (Z.leb_spec 0 off); [|done]. destruct (Z.leb_spec (off + Z.of_nat n) (len data)); [|done].
  cbn [andb]. rewrite (proj2 (Z.leb_le _ _)) by lia. intros <-. unfold len in *.
  rewrite str_drop_app_le, str_take_app_le by (rewrite ?length_str_drop; lia). done.
Qed.

Lemma unpack_at_range n data off z : unpack_at n data off = Ok z → 0 ≤ z < 256 ^ Z.of_nat n.
Proof.
  unfold unpack_at. destruct (Z.leb_spec 0 off); [|done]. destruct (Z.leb_spec (off + Z.of_nat n) (len data)); [|done].
  cbn [andb]. intros [= <-]. pose proof (le_unpack_range (str_take n (str_drop (Z.to_nat off) data))) as Hr.
  assert (len (str_take n (str_drop (Z.to_nat off) data)) = Z.of_nat n) as Hl.
  { unfold len in *. rewrite length_str_take, length_str_drop. lia. }
  by rewrite Hl in Hr.
Qed.

(** ** The overlay *)

Lemma slice_app a b data extra s : 0 ≤ a < b → slice a b data = s → len s = b - a → slice a b (data +:+ extra) = s.
Proof.
  unfold slice, len. intros Hab Hs Hl.
  assert (Hle : (Z.to_nat b ≤ String.length data)%nat).
  { rewrite <- Hs, length_str_take, length_str_drop in Hl. lia. }
  rewrite str_drop_app_le, str_take_app_le by (rewrite ?length_str_drop; lia). done.
Qed.

Lemma sections_end_app data extra first count index end_ z :
  sections_end data first count index end_ = Ok z → sections_end (data +:+ extra) first count index end_ = Ok z.
Proof.
  revert index end_. induction count as [|count IH]; intros index end_; simpl; [done|].
  intros Hz. apply res_bind_Ok in Hz as (size & Hs & Hz). apply res_bind_Ok in Hz as (offset & Ho & Hz).
  rewrite (unpack_at_app _ _ _ _ _ Hs). simpl. rewrite (unpack_at_app _ _ _ _ _ Ho). simpl. by apply IH.
Qed.

Lemma sections_end_spec data first count index end_ z : sections_end data first count index end_ = Ok z →
  end_ ≤ z ∧ ∀ i, index ≤ i < index + Z.of_nat count → ∃ size offset,
    unpack_at 4 data (first + i * 40 + 16) = Ok size ∧ unpack_at 4 data (first + i * 40 + 20) = Ok offset ∧
    offset + size ≤ z.
Proof.
  revert index end_. induction count as [|count IH]; intros index end_; simpl.
  - intros [= <-]. split; [lia|]. intros i Hi. lia.
  - intros Hz. apply res_bind_Ok in Hz as (size & Hs & Hz). apply res_bind_Ok in Hz as (offset & Ho & Hz).
    apply IH in Hz as [Hend Hsec]. split; [lia|]. intros i Hi.
    destruct (Z.eq_dec i index) as [->|Hne]; [|apply Hsec; lia].
    exists size, offset. replace (first + index * 40 + 20) with (first + index * 40 + 16 + 4) by lia.
    split_and!; [done|done|lia].
Qed.

Lemma startswith_app_r s extra p : startswith s p = true → startswith (s +:+ extra) p = true.
Proof. rewrite !startswith_spec. intros (t & ->). exists (t +:+ extra). by rewrite str_app_assoc. Qed.

Lemma overlay_start_app data extra z : overlay_start data = Ok z → overlay_start (data +:+ extra) = Ok z ∧ 0 ≤ z ≤ len data.
Proof.
  unfold overlay_start. intros Hz.
  apply res_bind_Ok in Hz as ([] & Hmz%raise_if_Ok%negb_false_iff & Hz). rewrite startswith_app_r by done. simpl.
  apply res_bind_Ok in Hz as (pe & Hpe & Hz). rewrite (unpack_at_app _ _ _ _ _ Hpe). simpl.
  pose proof (unpack_at_range _ _ _ _ Hpe) as Hper.
  apply res_bind_Ok in Hz as ([] & Hsig%raise_if_Ok%negb_false_iff%String.eqb_eq & Hz).
  rewrite (slice_app pe (pe + 4) data extra _ ltac:(lia) Hsig) by (transitivity 4; [reflexivity|lia]).
  rewrite String.eqb_refl. simpl.
  apply res_bind_Ok in Hz as (count & Hc & Hz). rewrite (unpack_at_app _ _ _ _ _ Hc). simpl.
  apply res_bind_Ok in Hz as (osize & Ho & Hz). rewrite (unpack_at_app _ _ _ _ _ Ho). simpl.
  apply res_bind_Ok in Hz as (magic & Hm & Hz). rewrite (unpack_at_app _ _ _ _ _ Hm). simpl.
  apply res_bind_Ok in Hz as ([] & Hmg%raise_if_Ok & Hz). rewrite Hmg. simpl.
  apply res_bind_Ok in Hz as (coff & Hco & Hz). rewrite (unpack_at_app _ _ _ _ _ Hco). simpl.
  apply res_bind_Ok in Hz as (csize & Hcs & Hz). rewrite (unpack_at_app _ _ _ _ _ Hcs). simpl.
  apply res_bind_Ok in Hz as ([] & Hcert%raise_if_Ok & Hz). rewrite Hcert. simpl.
  apply res_bind_Ok in Hz as (headers & Hh & Hz). rewrite (unpack_at_app _ _ _ _ _ Hh). simpl.
  apply res_bind_Ok in Hz as (end_ & He & Hz). rewrite (sections_end_app _ _ _ _ _ _ _ He). simpl.
  apply res_bind_Ok in Hz as ([] & Ht%raise_if_Ok & [= <-]). apply Z.ltb_ge in Ht.
  pose proof (len_nonneg extra). rewrite len_app, (proj2 (Z.ltb_ge _ _)) by lia. split; [done|].
  apply sections_end_spec in He as [He _]. apply unpack_at_range in Hh. lia.
Qed.

Lemma overlay_of_append data extra overlay : executable_overlay data = Ok overlay →
  executable_overlay (data +:+ extra) = Ok (overlay +:+ extra).
Proof.
  unfold executable_overlay. intros Ho. apply res_bind_Ok in Ho as (z & Hz & [= <-]).
  apply (overlay_start_app _ extra) in Hz as [-> Hr]. simpl. f_equal.
  apply str_drop_app_le. unfold len in Hr. lia.
Qed.

(** The overlay is what lies behind the image: it is a suffix of the file,
    no section and no header reaches into it, and bytes appended to the file are
    appended to the overlay. So appending a lost overlay to a file whose overlay
    is empty restores exactly that overlay. *)
Theorem overlay_is_the_tail (data overlay : string) (Ho : executable_overlay data = Ok overlay) :
  (∃ image, data = image +:+ overlay ∧ overlay_start data = Ok (len image) ∧
     ∀ pe count osize i, unpack_at 4 data 0x3C = Ok pe → unpack_at 2 data (pe + 6) = Ok count →
       unpack_at 2 data (pe + 20) = Ok osize → 0 ≤ i < count →
       ∃ size offset, unpack_at 4 data (pe + 24 + osize + i * 40 + 16) = Ok size ∧
         unpack_at 4 data (pe + 24 + osize + i * 40 + 20) = Ok offset ∧ offset + size ≤ len image) ∧
  ∀ extra, executable_overlay (data +:+ extra) = Ok (overlay +:+ extra).
Proof.
  split; [|intros extra; by apply overlay_of_append].
  unfold executable_overlay in Ho. apply res_bind_Ok in Ho as (z & Hz & [= <-]).
  destruct (overlay_start_app _ EmptyString _ Hz) as [_ Hr].
  assert (Hlen : len (str_take (Z.to_nat z) data) = z) by (unfold len in *; rewrite length_str_take; lia).
  exists (str_take (Z.to_nat z) data). rewrite Hlen. split_and!; [by rewrite str_take_app_drop|done|].
  intros pe count osize i Hpe Hc Hs Hi. unfold overlay_start in Hz. rewrite Hpe in Hz.
  apply res_bind_Ok in Hz as ([] & _ & Hz). apply res_bind_Ok in Hz as (pe' & [= <-] & Hz).
  apply res_bind_Ok in Hz as ([] & _ & Hz).
  rewrite Hc, Hs in Hz. do 2 (apply res_bind_Ok in Hz as (? & [= <-] & Hz)).
  apply res_bind_Ok in Hz as (magic & _ & Hz). apply res_bind_Ok in Hz as ([] & _ & Hz).
  apply res_bind_Ok in Hz as (? & _ & Hz). apply res_bind_Ok in Hz as (? & _ & Hz).
  apply res_bind_Ok in Hz as ([] & _ & Hz). apply res_bind_Ok in Hz as (headers & _ & Hz).
  apply res_bind_Ok in Hz as (end_ & He & Hz). apply res_bind_Ok in Hz as ([] & _ & [= <-]).
  apply sections_end_spec in He as [_ He]. apply He. apply unpack_at_range in Hc. lia.
Qed.

(** ** A reference reader of version resources *)

(** One block: its key, its value and what its value is, and its children. *)
Record vblock : Type := MkBlock { b_key : string; b_value : string; b_text : bool; b_children : string }.

(** A UTF-16 text up to its terminator, for characters below 256. *)
Fixpoint read_utf16z (s : string) : option (string * string) :=
  match s with
  | String c (String d s) =>
      if negb (Ascii.eqb d zero) then None
      else if Ascii.eqb c zero then Some (EmptyString, s)
      else '(t, rest) ← read_utf16z s; Some (String c t, rest)
  | _ => None
  end.

(** The padding that brings a position to a multiple of four. *)
Definition padding (n : Z) : nat := Z.to_nat (- n mod 4).

(** A block at the start of [s] and what follows it. *)
Definition read_block (s : string) : option (vblock * string) :=
  match unpack_at 2 s 0, unpack_at 2 s 2, unpack_at 2 s 4 with
  | Ok length_, Ok vlen, Ok kind =>
      if (length_ <? 6) || (len s <? length_) then None
      else
        let body := str_take (Z.to_nat length_ - 6) (str_drop 6 s) in
        '(key, after_key) ← read_utf16z body;
        let p1 := 6 + (len body - len after_key) in
        let after_key := str_drop (padding p1) after_key in
        let vsize := if kind =? 1 then 2 * vlen else vlen in
        let value := str_take (Z.to_nat vsize) after_key in
        let p2 := p1 + Z.of_nat (padding p1) + vsize in
        let children := str_drop (padding p2) (str_drop (Z.to_nat vsize) after_key) in
        Some (MkBlock key value (kind =? 1) children, str_drop (Z.to_nat length_) s)
  | _, _, _ => None
  end.

Fixpoint read_blocks (fuel : nat) (s : string) : option (list vblock) :=
  match s with
  | EmptyString => Some []
  | _ => match fuel with
         | O => None
         | S fuel => '(b, s) ← read_block s; bs ← read_blocks fuel s; Some (b :: bs)
         end
  end.

Definition children_of (b : vblock) : option (list vblock) := read_blocks (String.length (b_children b)) (b_children b).

Definition child (key : string) (b : vblock) : option vblock :=
  bs ← children_of b; List.find (λ c, b_key c == key) bs.

(** Name and text of a string entry. *)
Definition read_string (b : vblock) : option (string * string) :=
  '(text, _) ← read_utf16z (b_value b); Some (b_key b, text).

(** The strings of the string table for US English. *)
Definition read_strings (resource : string) : option (list (string * string)) :=
  '(root, _) ← read_block resource;
  info ← child "StringFileInfo" root;
  table ← child "040904b0" info;
  entries ← children_of table;
  mapM read_string entries.

(** The four numbers of the product version. *)
Definition read_product_version (resource : string) : option (list Z) :=
  '(root, _) ← read_block resource;
  match unpack_at 4 (b_value root) 16, unpack_at 4 (b_value root) 20 with
  | Ok high, Ok low => Some [Z.shiftr high 16; Z.land high 65535; Z.shiftr low 16; Z.land low 65535]
  | _, _ => None
  end.

Example read_back_strings :
  match version_resource "1.9.1+1" "plug_agente.exe" with
  | Ok r => (read_strings r, read_product_version r)
  | Raise _ => (None, None)
  end = (Some (version_strings "1.9.1+1" "plug_agente.exe"), Some [1; 9; 1; 1]).
Proof. vm_compute. reflexivity. Qed.

(** ** Reading back what [block] wrote *)

Definition no_nul (s : string) : bool := str_all (λ c, negb (Ascii.eqb c zero)) s.

Lemma len_utf16 s : len (utf16 s) = 2 * len s.
Proof. unfold len. induction s as [|c s IH]; [done|]. cbn [utf16 String.length]. lia. Qed.

Lemma utf16_app a b : utf16 (a +:+ b) = utf16 a +:+ utf16 b.
Proof. induction a as [|c a IH]; [done|]. cbn [utf16 String.append]. by rewrite IH. Qed.

Lemma len_zeros n : 0 ≤ n → len (zeros n) = n.
Proof.
  intros Hn. unfold zeros, len. rewrite <- (Z2Nat.id n) at 2 by done. f_equal.
  induction (Z.to_nat n) as [|k IH]; [done|]. cbn [replicate bytes_of_list String.length]. by rewrite IH.
Qed.

Lemma read_utf16z_spec s t : no_nul s = true → read_utf16z (utf16 s +:+ zeros 2 +:+ t) = Some (s, t).
Proof.
  unfold no_nul. induction s as [|c s IH]; [done|]. cbn [str_all]. intros [Hc%negb_true_iff Hs]%andb_prop.
  cbn [utf16 String.append read_utf16z]. rewrite Hc. cbn [negb]. by rewrite IH.
Qed.

Lemma unpack_pack_at n a z c off : off = len a → 0 ≤ z < 256 ^ Z.of_nat n →
  unpack_at n (a +:+ le_pack n z +:+ c) off = Ok z.
Proof.
  intros -> Hz. unfold unpack_at. rewrite !len_app. pose proof (len_nonneg a). pose proof (len_nonneg c).
  assert (len (le_pack n z) = Z.of_nat n) as Hl by (unfold len; by rewrite length_le_pack).
  rewrite !(proj2 (Z.leb_le _ _)) by lia. cbn [andb]. unfold len. rewrite Nat2Z.id, str_drop_app.
  rewrite <- (length_le_pack n z) at 1. rewrite str_take_app, le_unpack_pack. by rewrite Z.mod_small.
Qed.

Lemma len_le_pack n z : len (le_pack n z) = Z.of_nat n.
Proof. unfold len. by rewrite length_le_pack. Qed.

Lemma pack_uint_Ok n z s : pack_uint n z = Ok s ↔ s = le_pack n z ∧ 0 ≤ z < 256 ^ Z.of_nat n.
Proof.
  unfold pack_uint. destruct (Z.leb_spec 0 z), (Z.ltb_spec z (256 ^ Z.of_nat n)); cbn [andb];
    split; try done; try lia; [by intros [= <-]|by intros [-> _]].
Qed.

Lemma len_align body : len (align body) = len body + (- (len body + 6) mod 4).
Proof. unfold align. rewrite len_app, len_zeros; [done|]. by apply Z.mod_pos_bound. Qed.

Lemma align_len_mod body : (len (align body) + 6) mod 4 = 0.
Proof.
  rewrite len_align. replace (len body + - (len body + 6) mod 4 + 6) with ((len body + 6) + (- (len body + 6)) mod 4) by lia.
  rewrite Z.add_mod_idemp_r by done. by rewrite Z.add_opp_diag_r.
Qed.

Lemma str_drop_align p body t : p = 6 + len body → str_drop (padding p) (zeros (- (len body + 6) mod 4) +:+ t) = t.
Proof.
  intros ->. unfold padding. rewrite (Z.add_comm 6).
  assert (Z.to_nat (- (len body + 6) mod 4) = String.length (zeros (- (len body + 6) mod 4))) as ->.
  { rewrite <- (len_zeros (- (len body + 6) mod 4)) at 1 by (by apply Z.mod_pos_bound).
    unfold len. by rewrite Nat2Z.id. }
  apply str_drop_app.
Qed.

Lemma str_take_len a b : str_take (Z.to_nat (len a)) (a +:+ b) = a.
Proof. unfold len. rewrite Nat2Z.id. apply str_take_app. Qed.
Lemma str_drop_len a b : str_drop (Z.to_nat (len a)) (a +:+ b) = b.
Proof. unfold len. rewrite Nat2Z.id. apply str_drop_app. Qed.

(** The bytes of a block behind its six-byte head. *)
Definition block_body (key value children : string) : string :=
  align (align (utf16 key +:+ zeros 2) +:+ value) +:+ children.

Lemma block_Ok key value children text b : block key value children text = Ok b ↔
  let vlen := if text then len value / 2 else len value in
  b = le_pack 2 (len (block_body key value children) + 6) +:+ le_pack 2 vlen +:+
      le_pack 2 (if text then 1 else 0) +:+ block_body key value children ∧
  len (block_body key value children) + 6 < 65536 ∧ 0 ≤ vlen < 65536.
Proof.
  unfold block. cbv zeta. fold (block_body key value children).
  pose proof (len_nonneg (block_body key value children)). split.
  - intros Hb. apply res_bind_Ok in Hb as (l & [-> Hl]%pack_uint_Ok & Hb).
    apply res_bind_Ok in Hb as (v & [-> Hv]%pack_uint_Ok & Hb).
    apply res_bind_Ok in Hb as (k & [-> Hk]%pack_uint_Ok & [= <-]).
    change (256 ^ Z.of_nat 2) with 65536 in *. split_and!; [done|lia..].
  - intros (-> & Hl & Hv). apply res_bind_Ok. eexists. split; [apply pack_uint_Ok; split; [done|]|].
    { change (256 ^ Z.of_nat 2) with 65536. lia. }
    apply res_bind_Ok. eexists. split; [by apply pack_uint_Ok|].
    apply res_bind_Ok. eexists. split; [|done]. apply pack_uint_Ok. split; [done|]. by destruct text.
Qed.

(** A block is read back, whatever follows it, and keeps the alignment. *)
Lemma read_block_block key value children text b rest : no_nul key = true →
  (text = true → len value mod 2 = 0) → block key value children text = Ok b →
  read_block (b +:+ rest) = Some (MkBlock key value text children, rest) ∧ 6 ≤ len b ∧
  (len children mod 4 = 0 → len b mod 4 = 0).
Proof.
  intros Hkey Hval Hb. apply block_Ok in Hb as (Hb & Hl & Hv). cbv zeta in *.
  set (B := block_body key value children) in *. set (vlen := if text then len value / 2 else len value) in *.
  pose proof (len_nonneg B) as HB.
  assert (Hlb : len b = len B + 6).
  { rewrite Hb, !len_app, !len_le_pack. lia. }
  split_and!; [|lia|].
  - unfold read_block.
    assert (unpack_at 2 (b +:+ rest) 0 = Ok (len B + 6)) as ->.
    { rewrite Hb, str_app_assoc. apply (unpack_pack_at 2 EmptyString); [done|]. change (256 ^ _) with 65536. lia. }
    assert (unpack_at 2 (b +:+ rest) 2 = Ok vlen) as ->.
    { rewrite Hb, !str_app_assoc. apply unpack_pack_at; [by rewrite len_le_pack|done]. }
    assert (unpack_at 2 (b +:+ rest) 4 = Ok (if text then 1 else 0)) as ->.
    { rewrite Hb, !str_app_assoc. rewrite <- (str_app_assoc (le_pack 2 (len B + 6))). apply unpack_pack_at.
      - by rewrite len_app, !len_le_pack.
      - by destruct text. }
    rewrite len_app, (proj2 (Z.ltb_ge _ 6)), (proj2 (Z.ltb_ge _ (len B + 6))) by (pose proof (len_nonneg rest); lia).
    cbn [orb].
    assert (str_drop 6 (b +:+ rest) = B +:+ rest) as ->.
    { rewrite Hb, <- !str_app_assoc. rewrite (str_app_assoc _ B).
      rewrite <- (str_drop_app (((le_pack 2 (len B + 6) +:+ le_pack 2 vlen) +:+ le_pack 2 (if text then 1 else 0))) (B +:+ rest)) at 2.
      by rewrite !length_str_app, !length_le_pack. }
    assert (str_take (Z.to_nat (len B + 6) - 6) (B +:+ rest) = B) as ->.
    { replace (Z.to_nat (len B + 6) - 6)%nat with (Z.to_nat (len B)) by lia. apply str_take_len. }
    assert (str_drop (Z.to_nat (len B + 6)) (b +:+ rest) = rest) as -> by (rewrite <- Hlb; apply str_drop_len).
    assert (HBeq : B = utf16 key +:+ zeros 2 +:+ zeros (- (len (utf16 key +:+ zeros 2) + 6) mod 4) +:+ value +:+
      zeros (- (len (align (utf16 key +:+ zeros 2) +:+ value) + 6) mod 4) +:+ children).
    { unfold B, block_body, align. by rewrite !str_app_assoc. }
    rewrite HBeq at 1. rewrite read_utf16z_spec by done. cbn [mbind option_bind].
    match goal with |- context [6 + (len B - len ?a)] =>
      assert (6 + (len B - len a) = 6 + len (utf16 key +:+ zeros 2)) as ->
        by (rewrite HBeq; rewrite !len_app; lia) end.
    rewrite str_drop_align by done.
    assert ((if (if text then 1 else 0) =? 1 then 2 * vlen else vlen) = len value) as ->.
    { unfold vlen. destruct text; simpl; [|done]. specialize (Hval eq_refl). rewrite (Z.div_mod (len value) 2) at 2; lia. }
    rewrite str_take_len, str_drop_len.
    assert (Z.of_nat (padding (6 + len (utf16 key +:+ zeros 2))) = len (align (utf16 key +:+ zeros 2)) - len (utf16 key +:+ zeros 2)) as ->.
    { rewrite len_align. unfold padding. rewrite Z2Nat.id by (by apply Z.mod_pos_bound). rewrite (Z.add_comm 6). lia. }
    rewrite str_drop_align by (rewrite !len_app; lia). by destruct text.
  - intros Hc. rewrite Hlb. unfold B, block_body. rewrite len_app.
    replace (len (align (align (utf16 key +:+ zeros 2) +:+ value)) + len children + 6)
      with ((len (align (align (utf16 key +:+ zeros 2) +:+ value)) + 6) + len children) by lia.
    rewrite Z.add_mod, align_len_mod, Hc by done. done.
Qed.

(** ** The version resource is read back *)

(** A written block: its key, value and children, and the bytes. *)
Definition writes (b : vblock) (bytes : string) : Prop :=
  no_nul (b_key b) = true ∧ (b_text b = true → len (b_value b) mod 2 = 0) ∧
  block (b_key b) (b_value b) (b_children b) (b_text b) = Ok bytes.

Lemma read_block_writes b bytes rest : writes b bytes → read_block (bytes +:+ rest) = Some (b, rest).
Proof.
  intros (Hk & Hv & Hb). destruct (read_block_block _ _ _ _ _ rest Hk Hv Hb) as [-> _]. by destruct b.
Qed.

Lemma writes_len b bytes : writes b bytes → 6 ≤ len bytes ∧ (len (b_children b) mod 4 = 0 → len bytes mod 4 = 0).
Proof. intros (Hk & Hv & Hb). by destruct (read_block_block _ _ _ _ _ EmptyString Hk Hv Hb) as (_ & ? & ?). Qed.

Lemma read_blocks_writes bs bytes fuel : Forall2 writes bs bytes → (String.length (concat_all bytes) ≤ fuel)%nat →
  read_blocks fuel (concat_all bytes) = Some bs.
Proof.
  intros Hbs. revert fuel. induction Hbs as [|b x bs bytes Hb Hbs IH]; intros fuel Hf; [by destruct fuel|].
  rewrite concat_all_cons in *. pose proof (writes_len _ _ Hb) as [Hl _]. unfold len in Hl.
  rewrite length_str_app in Hf. destruct fuel as [|fuel]; [lia|].
  destruct (x +:+ concat_all bytes) as [|c s] eqn:E; [apply (f_equal String.length) in E; rewrite length_str_app in E; simpl in E; lia|].
  cbn [read_blocks]. rewrite <- E, (read_block_writes b x) by done. cbn [mbind option_bind].
  by rewrite IH by lia.
Qed.

Lemma children_of_writes key value text bs bytes : Forall2 writes bs bytes →
  children_of (MkBlock key value text (concat_all bytes)) = Some bs.
Proof. intros Hbs. by apply read_blocks_writes. Qed.

(** A string entry and the block that holds it. *)
Definition entry_block (kv : string * string) : vblock := MkBlock (fst kv) (utf16 (snd kv +:+ chr 0)) true EmptyString.

Lemma string_block_writes kv bytes : no_nul (fst kv) = true → string_block kv = Ok bytes →
  writes (entry_block kv) bytes.
Proof.
  intros Hk Hb. split_and!; [done| |done]. intros _. simpl. rewrite len_utf16. rewrite Z.mul_comm. by rewrite Z.mod_mul.
Qed.

Lemma string_blocks_writes l bytes : Forall (λ kv, no_nul (fst kv) = true) l → res_map string_block l = Ok bytes →
  Forall2 writes (entry_block <$> l) bytes.
Proof.
  intros Hl Hb. apply res_map_Ok in Hb. induction Hb as [|kv x l bytes Hx Hb IH]; [constructor|].
  inversion Hl; subst. constructor; [by apply string_block_writes|by apply IH].
Qed.

Lemma read_string_back kv : no_nul (snd kv) = true → read_string (entry_block kv) = Some kv.
Proof.
  destruct kv as [k v]. cbn [snd]. intros Hv. unfold read_string, entry_block. cbn [b_value b_key fst snd].
  assert (utf16 (v +:+ chr 0) = utf16 v +:+ zeros 2 +:+ EmptyString) as -> by (by rewrite utf16_app).
  by rewrite read_utf16z_spec.
Qed.

Lemma read_entries_back l : Forall (λ kv, no_nul (snd kv) = true) l → mapM read_string (entry_block <$> l) = Some l.
Proof. intros Hl. apply mapM_Some. induction Hl; [constructor|]. constructor; [by apply read_string_back|done]. Qed.

(** The whole tree of the resource. *)
Lemma resource_tree version filename r : version_resource version filename = Ok r →
  ∃ major minor patch build fixed table info var strings,
    version_parts version = Ok [major; minor; patch; build] ∧
    pack_u32s (fixed_info major minor patch build) = Ok fixed ∧
    Forall2 writes (entry_block <$> version_strings version filename) strings ∧
    writes (MkBlock "040904b0" EmptyString true (concat_all strings)) table ∧
    writes (MkBlock "StringFileInfo" EmptyString true (concat_all [table])) info ∧
    (∃ v, writes (MkBlock "VarFileInfo" EmptyString true v) var ∧ len v mod 4 = 0) ∧
    writes (MkBlock "VS_VERSION_INFO" fixed false (concat_all [info; var])) r.
Proof.
  unfold version_resource. intros Hr. apply res_bind_Ok in Hr as (parts & Hp & Hr).
  destruct parts as [|major [|minor [|patch [|build []]]]]; try done.
  apply res_bind_Ok in Hr as (fixed & Hf & Hr). apply res_bind_Ok in Hr as (strings & Hs & Hr).
  apply res_bind_Ok in Hr as (table & Ht & Hr). apply res_bind_Ok in Hr as (info & Hi & Hr).
  apply res_bind_Ok in Hr as (language & _ & Hr). apply res_bind_Ok in Hr as (encoding & _ & Hr).
  apply res_bind_Ok in Hr as (translation & Htr & Hr). apply res_bind_Ok in Hr as (var & Hv & Hr).
  exists major, minor, patch, build, fixed, table, info, var, strings.
  split_and!; [done|done| |done|done| |done].
  2: { exists translation. split; [done|]. destruct (read_block_block "Translation" (language +:+ encoding) EmptyString false translation EmptyString eq_refl ltac:(done) Htr) as (_ & _ & Hm). by apply Hm. }
  apply string_blocks_writes; [|done]. by repeat constructor.
Qed.

(** ** The version numbers *)

Definition digits (s : string) : Prop := str_all is_digit s = true ∧ s ≠ EmptyString.

Lemma version_shape version : fullmatch full_version_re version = true ↔
  ∃ a b c d, version = a +:+ "." +:+ b +:+ "." +:+ c +:+ "+" +:+ d ∧ digits a ∧ digits b ∧ digits c ∧ digits d.
Proof.
  rewrite fullmatch_matches by done. unfold full_version_re, seqs. cbn [foldr]. unfold plus, digit, digits. split.
  - intros (a & t & -> & Ha%matches_plus_char & (? & u & -> & ->%matches_lit & Hu)%matches_seq)%matches_seq.
    apply matches_seq in Hu as (b & v & -> & Hb%matches_plus_char & (? & w & -> & ->%matches_lit & Hw)%matches_seq).
    apply matches_seq in Hw as (c & x & -> & Hc%matches_plus_char & (? & y & -> & ->%matches_lit & Hy)%matches_seq).
    apply matches_seq in Hy as (d & z & -> & Hd%matches_plus_char & ->%matches_eps).
    exists a, b, c, d. by rewrite str_app_nil_r.
  - intros (a & b & c & d & -> & Ha & Hb & Hc & Hd).
    rewrite <- (str_app_nil_r d).
    do 3 (apply MSeq; [by apply matches_plus_char|]; apply MSeq; [by apply matches_lit|]).
    apply MSeq; [by apply matches_plus_char|constructor].
Qed.

Lemma digits_no c s : is_digit c = false → str_all is_digit s = true → str_all (λ d, negb (Ascii.eqb d c)) s = true.
Proof. intros Hc. apply str_all_impl. intros d Hd. destruct (Ascii.eqb_spec d c) as [->|]; [by rewrite Hc in Hd|done]. Qed.

Lemma replace_char_app c new a b :
  replace (String c EmptyString) new (a +:+ b) = replace (String c EmptyString) new a +:+ replace (String c EmptyString) new b.
Proof.
  unfold replace. induction a as [|d a IH]; [done|]. cbn [String.append replace_go]. rewrite !startswith_char.
  cbn [String.length Nat.sub]. rewrite IH. destruct (Ascii.eqb c d); [by rewrite str_app_assoc|done].
Qed.

Lemma split_char_app c a b : str_all (λ d, negb (Ascii.eqb d c)) a = true →
  split_char c (a +:+ String c b) = a :: split_char c b.
Proof.
  induction a as [|d a IH]; cbn [str_all String.append split_char]; [by rewrite Ascii.eqb_refl|].
  intros [->%negb_true_iff Ha]%andb_prop. by rewrite IH.
Qed.

Lemma split_char_id c a : str_all (λ d, negb (Ascii.eqb d c)) a = true → split_char c a = [a].
Proof.
  induction a as [|d a IH]; cbn [str_all split_char]; [done|]. intros [->%negb_true_iff Ha]%andb_prop. by rewrite IH.
Qed.

Lemma version_fields a b c d : digits a → digits b → digits c → digits d →
  split_char "." (replace "+" "." (a +:+ "." +:+ b +:+ "." +:+ c +:+ "+" +:+ d)) = [a; b; c; d].
Proof.
  intros [Ha _] [Hb _] [Hc _] [Hd _]. rewrite !replace_char_app.
  rewrite (replace_absent _ _ a), (replace_absent _ _ b), (replace_absent _ _ c), (replace_absent _ _ d) by (by apply digits_no).
  change (replace "+" "." ".") with "."%string. change (replace "+" "." "+") with "."%string. cbn [String.append].
  rewrite (split_char_app _ a), (split_char_app _ b), (split_char_app _ c), (split_char_id _ d) by (by apply digits_no). done.
Qed.

Lemma int_of_digits s z : digits s → int_of s = Ok z ↔ len s ≤ 4300 ∧ z = digits_val 0 s.
Proof.
  intros [Hs Hne]. unfold int_of. rewrite from_option_Ok. unfold py_int. rewrite digits_stripped by done.
  destruct s as [|c s]; [done|]. cbn [str_all] in Hs. pose proof Hs as Hall. apply andb_prop in Hs as [Hc _].
  unfold is_digit, in_range in Hc. apply andb_prop in Hc as [H1%N.leb_le H2%N.leb_le].
  rewrite !(proj2 (N.eqb_neq _ _)) by lia. rewrite int_digits_all by (done || by right). cbn [mbind option_bind].
  destruct (Z.ltb_spec 4300 (len (String c s))).
  - split; [done|]. intros [? _]. lia.
  - rewrite Z.mul_1_l. split; [by intros [= <-]|]. by intros [_ ->].
Qed.

Lemma digits_val_nonneg s acc : 0 ≤ acc → str_all is_digit s = true → 0 ≤ digits_val acc s.
Proof.
  revert acc. induction s as [|c s IH]; intros acc Hacc; [done|]. cbn [str_all digits_val].
  intros [Hc Hs]%andb_prop. apply IH; [|done]. unfold is_digit, in_range in Hc.
  apply andb_prop in Hc as [H1%N.leb_le _]. unfold digit_val. lia.
Qed.

(** The four numbers a version text spells. *)
Definition spells (version : string) (parts : list Z) : Prop :=
  ∃ a b c d, version = a +:+ "." +:+ b +:+ "." +:+ c +:+ "+" +:+ d ∧
    digits a ∧ digits b ∧ digits c ∧ digits d ∧ Forall (λ s, len s ≤ 4300) [a; b; c; d] ∧
    parts = [digits_val 0 a; digits_val 0 b; digits_val 0 c; digits_val 0 d].

Lemma version_parts_Ok version parts : version_parts version = Ok parts ↔
  spells version parts ∧ Forall (λ p, 0 ≤ p ≤ 65535) parts.
Proof.
  unfold version_parts, spells. split.
  - intros Hp. apply res_bind_Ok in Hp as ([] & Hm%raise_if_Ok%negb_false_iff & Hp).
    apply version_shape in Hm as (a & b & c & d & -> & Ha & Hb & Hc & Hd).
    rewrite version_fields in Hp by done. apply res_bind_Ok in Hp as (l & Hl%res_map_Ok & Hp).
    apply res_bind_Ok in Hp as ([] & Hbig%raise_if_Ok & [= <-]).
    apply Forall2_cons_inv_l in Hl as (? & ? & [La ->]%(int_of_digits a _ Ha) & Hl & ->).
    apply Forall2_cons_inv_l in Hl as (? & ? & [Lb ->]%(int_of_digits b _ Hb) & Hl & ->).
    apply Forall2_cons_inv_l in Hl as (? & ? & [Lc ->]%(int_of_digits c _ Hc) & Hl & ->).
    apply Forall2_cons_inv_l in Hl as (? & ? & [Ld ->]%(int_of_digits d _ Hd) & ->%Forall2_nil_inv_l & ->).
    split; [by exists a, b, c, d; split_and!; try done; repeat constructor|].
    cbn [existsb] in Hbig. rewrite !orb_false_iff, !Z.ltb_ge in Hbig.
    repeat constructor; try (apply digits_val_nonneg; [done|by destruct Ha, Hb, Hc, Hd]); tauto.
  - intros [(a & b & c & d & -> & Ha & Hb & Hc & Hd & Hl & ->) Hr]. apply res_bind_Ok. exists tt.
    split; [apply raise_if_Ok, negb_false_iff, version_shape; by exists a, b, c, d|].
    rewrite version_fields by done. apply res_bind_Ok. eexists. split.
    + apply res_map_Ok. rewrite !Forall_cons in Hl. destruct Hl as (? & ? & ? & ? & _).
      repeat (constructor; [by apply int_of_digits|]). constructor.
    + apply res_bind_Ok. exists tt. split; [|done]. apply raise_if_Ok. cbn [existsb].
      rewrite !Forall_cons in Hr. rewrite !orb_false_iff, !Z.ltb_ge. lia.
Qed.

(** [version_parts] accepts exactly the texts of the form
    [major.minor.patch+build] whose four numbers fit in 16 bits, and returns
    those numbers. *)
Theorem version_parts_exact (version : string) (parts : list Z) :
  version_parts version = Ok parts ↔ spells version parts ∧ Forall (λ p, 0 ≤ p ≤ 65535) parts.
Proof. apply version_parts_Ok. Qed.

(** ** Reading the resource back *)

Lemma spells_no_nul version parts : spells version parts → no_nul version = true.
Proof.
  intros (a & b & c & d & -> & [Ha _] & [Hb _] & [Hc _] & [Hd _] & _). unfold no_nul. rewrite !str_all_app.
  by rewrite (digits_no zero a), (digits_no zero b), (digits_no zero c), (digits_no zero d).
Qed.

(** The parts of a path have only characters of the path. *)
Lemma str_all_replace f old new s : str_all f new = true → str_all f s = true → str_all f (replace old new s) = true.
Proof.
  intros Hn. unfold replace. generalize 0%nat. induction s as [|c s IH]; intros skip; [done|]. cbn [str_all replace_go].
  intros [Hc Hs]%andb_prop. destruct skip as [|k]; [|by apply IH].
  destruct (startswith _ _); [by rewrite str_all_app, Hn, IH|]. cbn [str_all]. by rewrite Hc, IH.
Qed.

Lemma str_all_rstrip f g s : str_all f s = true → str_all f (rstrip_by g s) = true.
Proof.
  induction s as [|c s IH]; [done|]. cbn [str_all rstrip_by]. intros [Hc Hs]%andb_prop. specialize (IH Hs).
  destruct (rstrip_by g s); [by destruct (g c); cbn [str_all]; rewrite ?Hc|]. cbn [str_all] in *. by rewrite Hc.
Qed.

Lemma str_all_split f c s : str_all f s = true → Forall (λ p, str_all f p = true) (split_char c s).
Proof.
  induction s as [|d s IH]; [by repeat constructor|]. cbn [str_all split_char]. intros [Hd Hs]%andb_prop. specialize (IH Hs).
  destruct (Ascii.eqb d c); [by constructor|]. destruct (split_char c s) as [|h t]; [by repeat constructor; cbn [str_all]; rewrite Hd|].
  inversion IH; subst. constructor; [|done]. cbn [str_all]. by rewrite Hd.
Qed.

Lemma str_all_last f l : Forall (λ p, str_all f p = true) l → str_all f (List.last l EmptyString) = true.
Proof. induction 1 as [|x [|y l] Hx Hl IH]; [done|done|done]. Qed.

Lemma str_all_take f n s : str_all f s = true → str_all f (str_take n s) = true.
Proof.
  revert s. induction n as [|n IH]; intros [|c s]; try done. cbn [str_all str_take].
  intros [-> Hs]%andb_prop. by rewrite IH.
Qed.

Lemma path_stem_no_nul filename : no_nul filename = true → no_nul (path_stem filename) = true.
Proof.
  intros Hf. unfold path_stem, no_nul. apply str_all_take. unfold path_name, after_last.
  apply str_all_last, str_all_split, str_all_rstrip. unfold posix. by apply str_all_replace.
Qed.

Lemma version_strings_no_nul version filename : no_nul version = true → no_nul filename = true →
  Forall (λ kv, no_nul (snd kv) = true) (version_strings version filename).
Proof. intros Hv Hf. repeat constructor; try done. by apply path_stem_no_nul. Qed.

(** The two halves of a packed pair of 16-bit numbers. *)
Lemma packed_halves a b : 0 ≤ a ≤ 65535 → 0 ≤ b ≤ 65535 →
  Z.shiftr (Z.lor (Z.shiftl a 16) b) 16 = a ∧ Z.land (Z.lor (Z.shiftl a 16) b) 65535 = b.
Proof.
  intros Ha Hb. assert (Hb0 : Z.shiftr b 16 = 0) by (rewrite Z.shiftr_div_pow2 by lia; apply Z.div_small; lia).
  change 65535 with (Z.ones 16). split.
  - rewrite Z.shiftr_lor, Z.shiftr_shiftl_l by lia. rewrite Hb0. simpl. by rewrite Z.lor_0_r, Z.shiftl_0_r.
  - rewrite Z.land_ones, <- Z.land_ones by lia. rewrite Z.land_lor_distr_l.
    rewrite !Z.land_ones by lia. rewrite Z.shiftl_mul_pow2, Z.mod_mul, Z.mod_small by lia. done.
Qed.

Lemma read_packed l s : pack_u32s l = Ok s → ∀ i z, nth_error l i = Some z → unpack_at 4 s (4 * Z.of_nat i) = Ok z.
Proof.
  unfold pack_u32s. intros Hs. apply res_bind_Ok in Hs as (parts & Hp%res_map_Ok & [= <-]).
  intros i z Hz. cut (∀ pre, unpack_at 4 (pre +:+ concat_all parts) (len pre + 4 * Z.of_nat i) = Ok z).
  { intros Hcut. apply (Hcut EmptyString). }
  revert i z Hz. induction Hp as [|x p l parts Hx Hp IH]; intros i z Hz pre; [by destruct i|].
  apply pack_uint_Ok in Hx as [-> Hx]. rewrite concat_all_cons. destruct i as [|i].
  - injection Hz as <-. apply unpack_pack_at; [lia|done].
  - rewrite <- str_app_assoc. rewrite <- (IH i z Hz (pre +:+ le_pack 4 x)). f_equal. rewrite len_app, len_le_pack. lia.
Qed.

Lemma len_concat_mod l : Forall (λ s, len s mod 4 = 0) l → len (concat_all l) mod 4 = 0.
Proof.
  induction 1 as [|x l Hx Hl IH]; [done|]. rewrite concat_all_cons, len_app, Z.add_mod, Hx, IH by done. done.
Qed.

Lemma writes_mod b bytes : writes b bytes → len (b_children b) mod 4 = 0 → len bytes mod 4 = 0.
Proof. intros Hw. by apply writes_len in Hw as [_ ?]. Qed.

Lemma entries_mod l strings : Forall2 writes (entry_block <$> l) strings → Forall (λ s, len s mod 4 = 0) strings.
Proof.
  revert strings. induction l as [|kv l IH]; intros strings Hs; cbn [fmap list_fmap] in Hs.
  - apply Forall2_nil_inv_l in Hs as ->. constructor.
  - apply Forall2_cons_inv_l in Hs as (x & strings' & Hx & Hs & ->). constructor; [|by apply IH].
    by eapply writes_mod.
Qed.

Lemma child_first key b c bs : children_of b = Some (c :: bs) → b_key c = key → child key b = Some c.
Proof. unfold child. intros -> <-. cbn [mbind option_bind List.find]. by rewrite String.eqb_refl. Qed.

(** C18. What is written into an executable can be read back: a reader of the
    documented VS_VERSION_INFO layout finds in the resource exactly the eight
    strings and the four product version numbers, and the resource is a whole
    number of 32-bit words. *)
Theorem version_resource_readback (version filename r : string) (Hfile : no_nul filename = true)
    (Hr : version_resource version filename = Ok r) :
  read_strings r = Some (version_strings version filename) ∧
  (∃ parts, version_parts version = Ok parts ∧ read_product_version r = Some parts) ∧ len r mod 4 = 0.
Proof.
  apply resource_tree in Hr as (major & minor & patch & build & fixed & table & info & var & strings &
    Hp & Hfix & Hs & Ht & Hi & (v & Hv & Hvm) & Hroot).
  assert (Hread : read_block r = Some (MkBlock "VS_VERSION_INFO" fixed false (concat_all [info; var]), EmptyString)).
  { rewrite <- (str_app_nil_r r). by apply read_block_writes. }
  assert (Hch : Forall2 writes [_; _] [info; var]) by (constructor; [exact Hi|constructor; [exact Hv|constructor]]).
  assert (Hct : Forall2 writes [_] [table]) by (constructor; [exact Ht|constructor]).
  pose proof (proj1 (version_parts_Ok _ _) Hp) as [Hsp Hrange]. split_and!.
  - unfold read_strings. rewrite Hread. cbn [mbind option_bind].
    rewrite (child_first _ _ _ _ (children_of_writes _ _ _ _ _ Hch)) by done. cbn [mbind option_bind].
    rewrite (child_first _ _ _ _ (children_of_writes _ _ _ _ _ Hct)) by done. cbn [mbind option_bind].
    rewrite (children_of_writes _ _ _ _ strings Hs). cbn [mbind option_bind].
    apply read_entries_back, version_strings_no_nul; [by eapply spells_no_nul|done].
  - exists [major; minor; patch; build]. split; [done|]. unfold read_product_version. rewrite Hread.
    cbn [mbind option_bind b_value].
    change 16 with (4 * Z.of_nat 4) at 1. rewrite (read_packed _ _ Hfix 4 _ eq_refl).
    change 20 with (4 * Z.of_nat 5). rewrite (read_packed _ _ Hfix 5 _ eq_refl).
    rewrite !Forall_cons in Hrange. destruct Hrange as (H1 & H2 & H3 & H4 & _).
    destruct (packed_halves major minor H1 H2) as [-> ->]. by destruct (packed_halves patch build H3 H4) as [-> ->].
  - eapply writes_mod; [exact Hroot|]. apply len_concat_mod. repeat constructor.
    + eapply writes_mod; [exact Hi|]. apply len_concat_mod. repeat constructor.
      eapply writes_mod; [exact Ht|]. apply entries_mod in Hs. by apply len_concat_mod.
    + by eapply writes_mod.
Qed.

(** ** Replacing the resource of an executable *)

Section set_version.
Context `{Host} `{WinApi}.

Lemma runs_with_temp_dir {A} (body : string → M A) w a w' : runs (with_temp_dir body) w a w' →
  ∃ w1 w2, runs (mkdir (host_tmp w)) w tt w1 ∧ runs (body (host_tmp w)) w1 a w2 ∧
    w_fs w' = filter (λ kv, below (host_tmp w) (fst kv) = false) (w_fs w2).
Proof.
  unfold with_temp_dir. intros Hr. apply runs_bind in Hr as (w0 & w1 & Hg & Hr).
  unfold runs, get_world in Hg. injection Hg as <- <-.
  apply runs_bind in Hr as ([] & w1 & Hm & Hr). apply runs_try_finally in Hr as (w2 & Hb & Hf).
  exists w1, w2. split_and!; [done|done|]. unfold runs, remove_tree in Hf. by injection Hf as <-.
Qed.

Lemma runs_append_bytes p s w u w' : runs (append_bytes p s) w u w' →
  ∀ b, w_fs w !! p = Some (File b) → w_fs w' = <[p:=File (b +:+ s)]> (w_fs w).
Proof. unfold runs, append_bytes. intros Hr b Hb. rewrite Hb in Hr. by injection Hr as <- <-. Qed.

(** The metadata a version query finds in a file. *)
Definition has_metadata (data version : string) : Prop :=
  ∃ buffer prefix, win_version_info data = Ok buffer ∧
    win_query_text buffer (prefix +:+ "ProductName") = Some PRODUCT_NAME ∧
    win_query_text buffer (prefix +:+ "ProductVersion") = Some version.

Lemma runs_read_version_info path w info w' : runs (read_version_info path) w info w' →
  w' = w ∧ ∃ data buffer prefix, w_fs w !! path = Some (File data) ∧ win_version_info data = Ok buffer ∧
    win_query_text buffer (prefix +:+ "ProductName") = Some (info_item "ProductName" info) ∧
    win_query_text buffer (prefix +:+ "ProductVersion") = Some (info_item "ProductVersion" info).
Proof.
  unfold read_version_info, resolve_strict. intros Hr. inv_runs.
  match goal with Hp : runs (path_exists _) _ _ _ |- _ => apply runs_path_exists in Hp as [<- _] end.
  match goal with Hp : runs (read_bytes _) _ _ _ |- _ => apply runs_read_bytes in Hp as [<- Hd] end.
  split; [done|]. do 3 eexists. split; [exact Hd|]. split; [eassumption|].
  match goal with Hq : query_keys _ _ _ _ = Ok _ |- _ => revert Hq end. cbn [query_keys]. intros Hq. inv_res.
  cbn [info_item List.find fst]. split; eassumption.
Qed.

Lemma tmp_below d n : below d (d // n) = true.
Proof. unfold below, path_join. apply orb_true_iff. right. apply startswith_spec. exists n. by rewrite str_app_assoc. Qed.

(** Setting the version information keeps the data behind the image: when it
    succeeds, the file at [path] has the overlay it had before, byte for byte,
    and its version resource names the product and this version. *)
Theorem set_version_info_sound (path version : string) (w w' : world)
    (Htmp : below (host_tmp w) path = false) (Hrun : runs (set_version_info path version) w tt w') :
  ∃ old new overlay, w_fs w !! path = Some (File old) ∧ w_fs w' !! path = Some (File new) ∧
    executable_overlay old = Ok overlay ∧ executable_overlay new = Ok overlay ∧ has_metadata new version.
Proof.
  unfold set_version_info, resolve_strict in Hrun.
  apply runs_bind in Hrun as ([] & w1 & [_ <-]%runs_raise_when & Hrun).
  apply runs_bind in Hrun as ([] & w1 & Hres & Hrun).
  apply runs_bind in Hres as (h & w2 & [<- _]%runs_path_exists & [_ <-]%runs_raise_when).
  apply runs_bind in Hrun as (resource & w1 & [Hresource <-]%runs_lift & Hrun).
  apply runs_bind in Hrun as (old & w1 & [<- Hold]%runs_read_bytes & Hrun).
  apply runs_bind in Hrun as (overlay & w1 & [Hov <-]%runs_lift & Hrun).
  apply runs_with_temp_dir in Hrun as (w1 & w9 & Hm & Hb & Hfs). set (candidate := host_tmp w // path_name path) in *.
  assert (Hpc : candidate ≠ path) by (intros He; rewrite <- He in Htmp; unfold candidate in Htmp; by rewrite tmp_below in Htmp).
  apply runs_bind in Hb as ([] & w2 & Hcopy & Hb). apply runs_copy_file in Hcopy as (c & _ & Hw2).
  apply runs_bind in Hb as (copied & w3 & [<- _]%runs_read_bytes & Hb).
  apply runs_bind in Hb as (updated & w3 & [Hu <-]%runs_lift & Hb).
  apply runs_bind in Hb as ([] & w3 & Hw & Hb). apply runs_write_bytes in Hw as (Hw3 & _).
  apply runs_bind in Hb as (current & w4 & Hcur & Hb).
  apply runs_bind in Hcur as (b & w5 & [<- Hb3]%runs_read_bytes & [Hcur <-]%runs_lift).
  assert (Hbu : b = updated) by (rewrite Hw3, lookup_insert_eq in Hb3; by injection Hb3). subst b.
  apply runs_bind in Hb as ([] & w5 & Hfix & Hb).
  assert (∃ new, w_fs w5 !! candidate = Some (File new) ∧ executable_overlay new = Ok overlay) as (new & Hnew & Hnov).
  { destruct (current != overlay) eqn:E.
    - apply runs_bind in Hfix as ([] & w6 & [->%nonempty_false <-]%runs_raise_when & Hap).
      exists (updated +:+ overlay). rewrite (runs_append_bytes _ _ _ _ _ Hap _ Hb3), lookup_insert_eq. split; [done|].
      by apply (overlay_of_append _ overlay) in Hcur.
    - apply runs_ret in Hfix as [_ <-]. exists updated. apply negb_false_iff, String.eqb_eq in E as ->. done. }
  apply runs_bind in Hb as (info & w6 & [-> (data & buffer & prefix & Hd & Hbuf & Hname & Hver)]%runs_read_version_info & Hb).
  rewrite Hnew in Hd. injection Hd as <-.
  apply runs_bind in Hb as ([] & w6 & [Hchk <-]%runs_raise_when & Hb).
  apply orb_false_iff in Hchk as [Hn%negb_false_iff%String.eqb_eq Hv%negb_false_iff%String.eqb_eq].
  apply runs_os_replace in Hb as (moved & Hmoved & Hw9). rewrite Hnew in Hmoved. injection Hmoved as <-.
  exists old, new, overlay. split_and!; [done| |done|done|].
  - rewrite Hfs. apply map_lookup_filter_Some. split; [|done]. by rewrite Hw9, lookup_insert_eq.
  - exists buffer, prefix. split_and!; [done|by rewrite Hname, Hn|by rewrite Hver, Hv].
Qed.
End set_version.

(** ** At work *)

(** A small 64-bit executable with one section and data behind it. *)
Definition example_exe (tail : string) : string :=
  "MZ" +:+ zeros 58 +:+ le_pack 4 64 +:+ "PE" +:+ zeros 2 +:+
  zeros 2 +:+ le_pack 2 1 +:+ zeros 12 +:+ le_pack 2 240 +:+ zeros 2 +:+
  le_pack 2 0x20B +:+ zeros 58 +:+ le_pack 4 400 +:+ zeros 176 +:+
  zeros 16 +:+ le_pack 4 8 +:+ le_pack 4 400 +:+ zeros 48 +:+ "sections" +:+ tail.

Example example_exe_overlay : executable_overlay (example_exe "AOT") = Ok "AOT".
Proof. vm_compute. reflexivity. Qed.

Theorem overlay_is_the_tail_witness :
  (∃ image, example_exe "AOT" = image +:+ "AOT" ∧ overlay_start (example_exe "AOT") = Ok (len image) ∧
     ∀ pe count osize i, unpack_at 4 (example_exe "AOT") 0x3C = Ok pe → unpack_at 2 (example_exe "AOT") (pe + 6) = Ok count →
       unpack_at 2 (example_exe "AOT") (pe + 20) = Ok osize → 0 ≤ i < count →
       ∃ size offset, unpack_at 4 (example_exe "AOT") (pe + 24 + osize + i * 40 + 16) = Ok size ∧
         unpack_at 4 (example_exe "AOT") (pe + 24 + osize + i * 40 + 20) = Ok offset ∧ offset + size ≤ len image) ∧
  ∀ extra, executable_overlay (example_exe "AOT" +:+ extra) = Ok ("AOT" +:+ extra).
Proof. apply (overlay_is_the_tail (example_exe "AOT") "AOT"). vm_compute. reflexivity. Defined.

Theorem version_resource_readback_witness :
  match version_resource "1.9.1+1" "plug_agente.exe" with
  | Ok r => read_strings r = Some (version_strings "1.9.1+1" "plug_agente.exe") ∧
      (∃ parts, version_parts "1.9.1+1" = Ok parts ∧ read_product_version r = Some parts) ∧ len r mod 4 = 0
  | Raise _ => False
  end.
Proof.
  destruct (version_resource "1.9.1+1" "plug_agente.exe") as [r|e] eqn:E.
  - apply (version_resource_readback "1.9.1+1" "plug_agente.exe" r eq_refl E).
  - assert (is_ok (version_resource "1.9.1+1" "plug_agente.exe") = true) as Hok by (vm_compute; reflexivity).
    rewrite E in Hok. discriminate Hok.
Defined.

(** A Windows machine whose resource editing drops the overlay. *)
Definition windows_host : Host := {|
  host_nt := true;
  host_run := λ _ _ w, (Raise (FileNotFoundError "program"), w_fs w);
  host_which := λ _ _, None;
  host_fetch := λ _ _, Raise (OSError "offline");
  host_now := λ _, 1767225600%Z;
  host_utcoffset := 0;
  host_exn_str := λ _, "error";
  host_repr := λ _, "value";
  host_tmp := λ _, "C:/work/tmp";
  host_isatty := false;
  host_root := "C:/plug_agente"
|}.
Definition dropping_api : WinApi := {|
  win_update_resource := λ data resource, Ok (example_exe EmptyString);
  win_version_info := λ data, if startswith data "MZ" then Ok data else Raise (OSError "no version");
  win_query_bytes := λ _ _, Some (le_pack 2 0x409 +:+ le_pack 2 1200);
  win_query_text := λ _ q, if endswith q "ProductName" then Some PRODUCT_NAME else Some "1.9.1+1"
|}.
Definition built_exe : world := World {["C:/work/plug_agente.exe" := File (example_exe "AOT")]} ∅ [].

Theorem set_version_info_sound_witness :
  ∃ old new overlay, w_fs built_exe !! "C:/work/plug_agente.exe" = Some (File old) ∧
    w_fs (snd (set_version_info (H:=windows_host) (H0:=dropping_api) "C:/work/plug_agente.exe" "1.9.1+1" built_exe))
      !! "C:/work/plug_agente.exe" = Some (File new) ∧
    executable_overlay old = Ok overlay ∧ executable_overlay new = Ok overlay ∧
    has_metadata (H0:=dropping_api) new "1.9.1+1".
Proof.
  apply (set_version_info_sound (H:=windows_host) (H0:=dropping_api) "C:/work/plug_agente.exe" "1.9.1+1" built_exe).
  - reflexivity.
  - assert (E : fst (set_version_info (H:=windows_host) (H0:=dropping_api) "C:/work/plug_agente.exe" "1.9.1+1" built_exe) = Ok tt)
      by (vm_compute; reflexivity).
    unfold runs. rewrite <- E. apply surjective_pairing.
Defined.
