(* ===== verification/BuildInstaller.v ===== *)
(** * Building the installer (installer/build_installer.py)

    The orchestration of an official build: the release policy, the update keys,
    the Flutter build, the checks of the bundle, the version resources, the Inno
    Setup compilation and the evidence of the keys. Authenticode signing is
    modelled as it is written, though an official build never uses it. *)

From S2P Require Import Prelude PyStr PyRe PyCodec PyHash PyJson PyJsonIndent Effects TextFiles WindowsVersionInfo.
From S2P Require NativePackage InstallerKeyEvidence.

Local Open Scope Z_scope.

(** The user's home directory and the running interpreter. *)
Class Machine : Type := {
  (** [Path(p).expanduser()] *)
  expanduser : string → world → res string;
  sys_executable : string
}.

(** src: installer/build_installer.py:36-36 DEFAULT_TIMESTAMP_URL *)
Definition DEFAULT_TIMESTAMP_URL : string := "http://timestamp.digicert.com".
(** src: installer/build_installer.py:37-37 REQUIRED_VC_RUNTIME_DLLS *)
Definition REQUIRED_VC_RUNTIME_DLLS : list string := ["msvcp140.dll"; "vcruntime140.dll"; "vcruntime140_1.dll"].
(** src: installer/build_installer.py:38-42 PROJECT_EXECUTABLES *)
Definition PROJECT_EXECUTABLES : list string :=
  ["plug_agente.exe"; "plug_update_helper.exe"; "plug_install_check.exe"; "plug_agente_elevated_runner.exe";
   "updater/plug_update_service.exe"; "updater/plug_update_client.exe"; "updater/plug_update_worker.exe"].
(** src: installer/build_installer.py:44-48 ISCC_PATHS *)
Definition ISCC_PATHS : list string :=
  ["ISCC"; "C:\Program Files (x86)\Inno Setup 6\ISCC.exe"; "C:\Program Files\Inno Setup 6\ISCC.exe"].
(** src: installer/build_installer.py:50-54 SIGNTOOL_PATHS *)
Definition SIGNTOOL_PATHS : list string :=
  ["signtool"; "C:\Program Files (x86)\Windows Kits\10\bin"; "C:\Program Files\Windows Kits\10\bin"].

Definition exit_with {A} (message : string) : M A := raise (SystemExit (ExitMsg message)).
Definition exit_when (b : bool) (message : string) : M unit := raise_when b (SystemExit (ExitMsg message)).

(** The file's text; a byte order mark is read as one character that is neither
    white space nor part of a name. *)
Definition BOM : string := chr 239 +:+ chr 187 +:+ chr 191.
Definition decode_bom (b : string) : res string :=
  if startswith b BOM then s ← decode (removeprefix b BOM); Ok (chr 0 +:+ s) else decode b.
Definition read_utf8 (p : string) : M string :=
  b ← read_bytes p; s ← lift (decode_bom b); mret (universal_newlines s).

(** The first existing path, the command itself standing for the search path. *)
Fixpoint find_tool `{Host} (command : string) (paths : list string) : M (option string) :=
  match paths with
  | [] => mret None
  | path :: paths =>
      here ← (if path == command then found ← which command; mret (nonempty (default EmptyString found))
              else path_exists path);
      if (here : bool) then mret (Some path) else find_tool command paths
  end.

(** [sorted(root.glob(r"*\x64\signtool.exe"), key=as_posix, reverse=True)\[0\]]: the last of the
    paths with one directory between the root and [x64]. *)
Definition sdk_tool (root path : string) : bool :=
  startswith path (root +:+ "/") && endswith path "/x64/signtool.exe" &&
  (let middle := removesuffix (removeprefix path (root +:+ "/")) "/x64/signtool.exe" in
   nonempty middle && negb (contains middle "/")) &&
  (len root + 1 + 17 <? len path).
Definition later_path (a b : string) : string := if String.leb (posix a) (posix b) then b else a.
Definition last_path (paths : list string) : option string :=
  match paths with [] => None | p :: paths => Some (fold_left later_path paths p) end.
Definition paths_of (w : world) : list string := (map_to_list (w_fs w)).*1.

Fixpoint find_sdk_tool (roots : list string) : M (option string) :=
  match roots with
  | [] => mret None
  | root :: roots =>
      here ← path_exists root;
      if negb (here : bool) then find_sdk_tool roots
      else
        w ← get_world;
        match last_path (List.filter (sdk_tool root) (paths_of w)) with
        | Some tool => mret (Some tool)
        | None => find_sdk_tool roots
        end
  end.

(** One line of the environment file: key and value. *)
Definition env_entry (raw_line : string) : option (string * string) :=
  let line := strip raw_line in
  if negb (nonempty line) || startswith line "#" then None
  else '(key, value) ← partition "=" line; Some (strip key, strip_chars "'" (strip_chars dq (strip value))).

(** The value of the first line for a key, unless it is empty. *)
Fixpoint env_lookup (key : string) (lines : list string) : option string :=
  match lines with
  | [] => None
  | line :: lines =>
      match env_entry line with
      | Some (k, value) => if k != key then env_lookup key lines else if nonempty value then Some value else None
      | None => env_lookup key lines
      end
  end.

(** [value.strip().lower()], the word a flag is compared with. *)
Definition flag_word (value : string) : string := py_lower (strip value).

Definition installer_version_re : regex :=
  seqs [RBol; lit ("#define MyAppVersion " +:+ dq); RGroup 1 (seqs [plus digit; lit "."; plus digit; lit "."; plus digit]); lit dq; REol].
Definition pubspec_full_version_re : regex :=
  seqs [RBol; lit "version:"; star space; RGroup 1 full_version_re; star space; REol].

(** [b.decode("utf-16-le")] of code points below 256. *)
Fixpoint decode_utf16 (b : string) : res string :=
  match b with
  | EmptyString => Ok EmptyString
  | String c (String d b) =>
      if Ascii.eqb d zero then s ← decode_utf16 b; Ok (String c s) else Raise UnicodeDecodeError
  | _ => Raise UnicodeDecodeError
  end.

(** Members of a set have to be hashable. *)
Definition hashable (v : json) : res json :=
  match v with JArr _ | JObj _ => Raise (TypeError "unhashable type") | v => Ok v end.

(** The registered font assets of one family. *)
Definition family_assets (family : json) : res (list json) :=
  name ← jget_or_null "family" family;
  if negb (jeq name (JStr "Montserrat")) then Ok []
  else
    fonts ← jget "fonts" family;
    fonts ← items_of (default (JArr []) fonts);
    res_map (λ font, v ← jitem "asset" font; hashable v) fonts.
Definition registered_assets (manifest : json) : res (list json) :=
  families ← items_of manifest; assets ← res_map family_assets families; Ok (List.concat assets).

(** [text.split(sep, 1)\[1\]] and [\[0\]] *)
Definition notice_of (text : string) : string :=
  strip (before (nl +:+ "## ") (after "## Privacy policy" text)) +:+ nl.

(** The settings an official build insists on. *)
Definition official_settings : list (string * bool) :=
  [("AUTO_UPDATE_REQUIRE_VALID_SIGNATURE", false); ("WINDOWS_CODE_SIGNING_REQUIRED", false);
   ("AUTO_UPDATE_REQUIRE_FEED_SIGNATURE", true)].
Definition bool_word (b : bool) : string := if b then "true" else "false".
Definition conflicts (value : string) (expected : bool) : bool :=
  let v := py_lower value in
  negb (one_of v ["0"; "false"; "no"; "nao"; "1"; "true"; "yes"; "sim"]) ||
  negb (Bool.eqb (one_of v ["1"; "true"; "yes"; "sim"]) expected).

(** The options of the command line. *)
Record build_args : Type := MkBuildArgs { sync_version : bool; prepare_signpath : bool; manifest_only : bool }.

(** [sha256(path.read_bytes()).digest()] of two files differ. *)
Definition files_differ (a b : string) : M bool :=
  x ← read_bytes a; y ← read_bytes b; mret (sha256_hex x != sha256_hex y).

Section build.
Context `{Host} `{WinApi} `{Machine}.

(** src: installer/build_installer.py:27-35 PROJECT_ROOT *)
Definition PROJECT_ROOT : string := host_root.
Definition INSTALLER_DIR : string := PROJECT_ROOT // "installer".
Definition BUILD_DIR : string := PROJECT_ROOT // "build/windows/x64/runner/Release".
Definition SETUP_ISS : string := INSTALLER_DIR // "setup.iss".
Definition DIST_DIR : string := INSTALLER_DIR // "dist".
Definition ENV_FILE : string := PROJECT_ROOT // ".env".

(** src: installer/build_installer.py:57-67 find_iscc *)
Definition find_iscc : M string :=
  found ← find_tool "ISCC" ISCC_PATHS;
  match found with
  | Some path => mret path
  | None => exit_with "Inno Setup (ISCC) nao encontrado. Instale em https://jrsoftware.org/isinfo.php"
  end.

(** src: installer/build_installer.py:70-85 find_signtool *)
Definition find_signtool : M (option string) :=
  found ← which "signtool";
  if nonempty (default EmptyString found) then mret (Some "signtool") else find_sdk_tool (tail SIGNTOOL_PATHS).

(** src: installer/build_installer.py:88-100 resolve_command *)
Definition resolve_command (cmd : list string) : M (list string) :=
  match cmd with
  | [] => exit_with "Comando vazio"
  | executable :: arguments =>
      executable ← (if nonempty (path_parent executable) || is_absolute executable then mret executable
                    else found ← which executable; mret (str_or (default EmptyString found) executable));
      mret (if one_of (py_lower (path_suffix executable)) [".bat"; ".cmd"]
            then ["cmd.exe"; "/d"; "/c"; executable] ++ arguments else executable :: arguments)
  end.

(** src: installer/build_installer.py:103-115 run *)
Definition run (cmd : list string) (cwd : option string) : M unit :=
  resolved_cmd ← resolve_command cmd;
  try_catch
    (result ← run_proc resolved_cmd (default PROJECT_ROOT cwd);
     raise_when (negb (returncode result =? 0))
       (CalledProcessError (returncode result) resolved_cmd (stdout result)))
    (λ e, match e with FileNotFoundError _ | CalledProcessError _ _ _ => true | _ => false end)
    (λ e, match e with
          | CalledProcessError code _ _ => raise (SystemExit (ExitCode code))
          | _ => exit_with ("Comando nao encontrado: " +:+ default "command" (head resolved_cmd))
          end).

(** src: installer/build_installer.py:168-181 read_env_value *)
Definition read_env_value (key : string) : M (option string) :=
  present ← path_exists ENV_FILE;
  if negb (present : bool) then mret None
  else text ← read_utf8 ENV_FILE; mret (env_lookup key (splitlines text)).

(** src: installer/build_installer.py:129-130 resolve_auto_update_define *)
Definition resolve_auto_update_define (key : string) : M (option string) :=
  value ← getenv_or key EmptyString;
  if nonempty value then mret (Some value) else read_env_value key.

(** src: installer/build_installer.py:118-122 read_env_flag *)
Definition read_env_flag (key : string) (default_ : bool) : M bool :=
  value ← resolve_auto_update_define key;
  mret (match value with
        | None => default_
        | Some value => one_of (flag_word value) ["1"; "true"; "yes"; "on"]
        end).

(** src: installer/build_installer.py:125-126 resolve_auto_update_feed_url *)
Definition resolve_auto_update_feed_url : M (option string) := resolve_auto_update_define "AUTO_UPDATE_FEED_URL".

(** src: installer/build_installer.py:194-200 signing_cert_path *)
Definition signing_cert_path : M (option string) :=
  value ← resolve_auto_update_define "WINDOWS_CODE_SIGNING_CERT_PATH";
  match value with
  | None => mret None
  | Some value => w ← get_world; path ← lift (expanduser value w); mret (Some path)
  end.

(** src: installer/build_installer.py:203-206 signing_password *)
Definition signing_password : M (option string) := resolve_auto_update_define "WINDOWS_CODE_SIGNING_CERT_PASSWORD".

(** src: installer/build_installer.py:209-214 timestamp_url *)
Definition timestamp_url : M string :=
  value ← resolve_auto_update_define "WINDOWS_CODE_SIGNING_TIMESTAMP_URL"; mret (default DEFAULT_TIMESTAMP_URL value).

(** src: installer/build_installer.py:217-218 should_sign_artifacts *)
Definition should_sign_artifacts : M bool :=
  path ← signing_cert_path;
  match path with Some _ => mret true | None => read_env_flag "WINDOWS_CODE_SIGNING_REQUIRED" false end.

(** src: installer/build_installer.py:221-231 auto_update_requires_valid_signature *)
Definition auto_update_requires_valid_signature : M bool :=
  value ← resolve_auto_update_define "AUTO_UPDATE_REQUIRE_VALID_SIGNATURE";
  mret (match value with
        | None => true
        | Some value => if nonempty (strip value) then negb (one_of (flag_word value) ["0"; "false"; "no"; "nao"]) else true
        end).

(** src: installer/build_installer.py:234-251 ensure_signing_matches_runtime *)
Definition ensure_signing_matches_runtime : M unit :=
  requires ← auto_update_requires_valid_signature;
  if negb (requires : bool) then mret tt
  else
    signs ← should_sign_artifacts;
    exit_when (negb signs)
      ("Refusing to build: AUTO_UPDATE_REQUIRE_VALID_SIGNATURE resolves to " +:+
       "true (the runtime default) but code signing is not configured, so " +:+
       "the update helper would reject the resulting installer and break " +:+
       "auto-update. Configure WINDOWS_CODE_SIGNING_CERT_PATH (or set " +:+
       "WINDOWS_CODE_SIGNING_REQUIRED=true), or set " +:+
       "AUTO_UPDATE_REQUIRE_VALID_SIGNATURE=false for unsigned dev builds.").

(** One listed key decodes to 32 bytes. *)
Definition check_feed_key (key : string) : M unit :=
  decoded ← try_catch (lift (b64decode true key)) is_ValueError
    (λ _, exit_with "AUTO_UPDATE_FEED_PUBLIC_KEY must contain base64 Ed25519 public keys.");
  exit_when (negb (len decoded =? 32)) "AUTO_UPDATE_FEED_PUBLIC_KEY entries must decode to 32 bytes.".

(** src: installer/build_installer.py:133-153 configure_native_feed_keys *)
Definition configure_native_feed_keys : M (option string) :=
  value ← resolve_auto_update_define "AUTO_UPDATE_FEED_PUBLIC_KEY";
  if negb (nonempty (strip (default EmptyString value))) then
    signs ← should_sign_artifacts;
    _ ← exit_when signs
      ("Refusing to build a signed installer without AUTO_UPDATE_FEED_PUBLIC_KEY. " +:+
       "Configure the feed signing public key before rebuilding; otherwise " +:+
       "updater enrollment fails with feed_keys_unavailable.");
    mret None
  else
    let keys := strip <$> split_char "," (default EmptyString value) in
    _ ← for_M check_feed_key keys;
    let normalized := join "," keys in
    _ ← setenv "AUTO_UPDATE_FEED_PUBLIC_KEY" normalized;
    mret (Some normalized).

(** src: installer/build_installer.py:156-165 verify_native_feed_keys *)
Definition verify_native_feed_keys (keys : option string) : M unit :=
  if negb (nonempty (default EmptyString keys)) then mret tt
  else
    let client := BUILD_DIR // "updater" // "plug_update_client.exe" in
    there ← is_file client;
    embedded ← (if (there : bool)
                then data ← read_bytes client; mret (contains data (default EmptyString keys +:+ chr 0))
                else mret false);
    exit_when (negb embedded)
      ("Native updater is missing the configured AUTO_UPDATE_FEED_PUBLIC_KEY. " +:+
       "Rebuild the Windows bundle with the feed public keys available to CMake " +:+
       "before packaging the installer.").

(** src: installer/build_installer.py:184-191 find_generated_installer *)
Definition find_generated_installer : M string :=
  setup ← read_utf8 SETUP_ISS;
  match re_search installer_version_re setup with
  | None => exit_with "Invalid installer version"
  | Some version =>
      let name := "PlugAgente-Setup-" +:+ group_str 1 version +:+ ".exe" in
      there ← is_file (DIST_DIR // name);
      _ ← exit_when (negb there) ("Erro: instalador esperado nao encontrado: " +:+ name);
      mret (DIST_DIR // name)
  end.

Definition signtool_missing : string := "signtool nao encontrado. Instale Windows SDK ou coloque signtool no PATH.".

(** src: installer/build_installer.py:254-273 build_iscc_signtool_command *)
Definition build_iscc_signtool_command : M (option string) :=
  cert ← signing_cert_path;
  match cert with
  | None => mret None
  | Some cert_path =>
      there ← path_exists cert_path;
      _ ← exit_when (negb there) ("Certificado de assinatura nao encontrado: " +:+ cert_path);
      signtool ← find_signtool;
      match signtool with
      | None => exit_with signtool_missing
      | Some signtool =>
          url ← timestamp_url;
          password ← signing_password;
          mret (Some (dq +:+ signtool +:+ dq +:+ " sign /f " +:+ dq +:+ cert_path +:+ dq +:+ " /fd SHA256 /tr " +:+ url +:+
                      " /td SHA256" +:+
                      match password with Some p => " /p " +:+ dq +:+ p +:+ dq | None => EmptyString end +:+ " $f"))
      end
  end.

(** A file that is there with some content. *)
Definition file_missing (path : string) : M bool :=
  there ← is_file path;
  if negb (there : bool) then mret true else b ← read_bytes path; mret (len b =? 0).

Fixpoint missing_files (directory : string) (names : list string) : M (list string) :=
  match names with
  | [] => mret []
  | name :: names =>
      gone ← file_missing (directory // name);
      missing ← missing_files directory names;
      mret (if (gone : bool) then name :: missing else missing)
  end.

(** src: installer/build_installer.py:276-285 verify_bundled_vc_runtime *)
Definition verify_bundled_vc_runtime : M unit :=
  missing ← missing_files BUILD_DIR REQUIRED_VC_RUNTIME_DLLS;
  exit_when (match missing with [] => false | _ => true end)
    ("Visual C++ runtime missing from the application bundle: " +:+ join ", " missing +:+
     ". Rebuild Windows with the Visual Studio C++ redistributable components installed.").

(** The bundled copy of a font is registered and the project's. *)
Definition verify_font (assets : string) (registered : list json) (name : string) : M unit :=
  let relative := "assets/fonts/montserrat/" +:+ name in
  let bundled := assets // relative in
  bad ← (if negb (existsb (jeq (JStr relative)) registered) then mret true
         else there ← is_file bundled;
              if negb (there : bool) then mret true else files_differ bundled (PROJECT_ROOT // relative));
  exit_when bad ("Bundled Montserrat font is missing or stale: " +:+ name +:+ ". Check flutter.fonts in pubspec.yaml.").

(** src: installer/build_installer.py:288-298 verify_bundled_fonts *)
Definition verify_bundled_fonts : M unit :=
  let assets := BUILD_DIR // "data/flutter_assets" in
  text ← read_utf8 (assets // "FontManifest.json");
  manifest ← lift (loads text);
  registered ← lift (registered_assets manifest);
  for_M (verify_font assets registered) ["Montserrat.ttf"; "Montserrat-Italic.ttf"].

(** src: installer/build_installer.py:301-310 prepare_privacy_notice *)
Definition prepare_privacy_notice : M string :=
  readme ← read_bytes (PROJECT_ROOT // "readme.md");
  text ← lift (if contains (str_take 100 readme) (chr 0) then decode_utf16 readme else decode_bom readme);
  _ ← exit_when (negb (contains text "## Privacy policy")) "Installer requires the project's privacy policy";
  let notice := DIST_DIR // "privacy-notice.txt" in
  _ ← mkdir DIST_DIR;
  _ ← write_bytes notice (BOM +:+ text_bytes (notice_of text));
  mret notice.

(** src: installer/build_installer.py:313-336 build_iscc_command *)
Definition build_iscc_command (signed_uninstaller_dir : option string) : M (list string) :=
  iscc ← find_iscc;
  pubspec ← read_utf8 (PROJECT_ROOT // "pubspec.yaml");
  match re_search pubspec_full_version_re pubspec with
  | None => exit_with "Installer worker requires the exact application version including build number"
  | Some version =>
      let version := group_str 1 version in
      setup ← read_utf8 SETUP_ISS;
      _ ← exit_when (match re_search installer_version_re setup with
                     | None => true
                     | Some setup_version => group_str 1 setup_version != before "+" version
                     end)
            "Installer version differs from pubspec.yaml; run installer/update_version.py";
      channel ← resolve_auto_update_define "AUTO_UPDATE_CHANNEL";
      let channel := default "stable" channel in
      _ ← exit_when (negb (one_of channel ["stable"; "beta"; "internal"])) "Invalid installer update channel";
      notice ← prepare_privacy_notice;
      sign_command ← match signed_uninstaller_dir with
                     | Some _ => mret None
                     | None => build_iscc_signtool_command
                     end;
      _ ← match sign_command with
          | Some _ => print "   ISCC SignTool habilitado (SignedUninstaller)."
          | None => mret tt
          end;
      mret ([iscc; "/DMyAppWorkerVersion=" +:+ version; "/DMyAppChannel=" +:+ channel;
             "/DPrivacyNoticeFile=" +:+ notice] ++
            match signed_uninstaller_dir with
            | Some d => ["/DExternalSignedUninstallerDir=" +:+ d]
            | None => []
            end ++
            match sign_command with
            | Some c => ["/DSIGN_INSTALLER"; "/Smysigntool=" +:+ c]
            | None => []
            end ++ [SETUP_ISS])
  end.

(** src: installer/build_installer.py:339-345 verify_signed_file *)
Definition verify_signed_file (path : string) : M unit :=
  signtool ← find_signtool;
  match signtool with
  | None => exit_with signtool_missing
  | Some signtool => run [signtool; "verify"; "/pa"; "/v"; path] None
  end.

(** src: installer/build_installer.py:348-380 sign_file *)
Definition sign_file (path : string) : M unit :=
  cert ← signing_cert_path;
  required ← read_env_flag "WINDOWS_CODE_SIGNING_REQUIRED" false;
  match cert with
  | None =>
      _ ← exit_when required
            "WINDOWS_CODE_SIGNING_REQUIRED=true, mas WINDOWS_CODE_SIGNING_CERT_PATH nao foi definido.";
      print ("   Assinatura ignorada para " +:+ path_name path +:+ ": certificado nao configurado.")
  | Some cert_path =>
      there ← path_exists cert_path;
      _ ← exit_when (negb there) ("Certificado de assinatura nao encontrado: " +:+ cert_path);
      signtool ← find_signtool;
      match signtool with
      | None => exit_with signtool_missing
      | Some signtool =>
          url ← timestamp_url;
          password ← signing_password;
          _ ← run ([signtool; "sign"; "/f"; cert_path; "/fd"; "SHA256"; "/tr"; url; "/td"; "SHA256"] ++
                   match password with Some p => ["/p"; p] | None => [] end ++ [path]) None;
          verify_signed_file path
      end
  end.

(** src: tool/odbc/build_pinned_native.py:39-40 sha256 *)
Definition sha256 (path : string) : M string := b ← read_bytes path; mret (sha256_hex b).

Fixpoint any_other_digest (binary : string) (paths : list string) : M bool :=
  match paths with
  | [] => mret false
  | path :: paths =>
      a ← sha256 path; b ← sha256 binary;
      if a != b then mret true else any_other_digest binary paths
  end.

(** src: tool/odbc/build_pinned_native.py:54-57 verify_native_bundle *)
Definition verify_native_bundle (bundle binary : string) : M unit :=
  w ← get_world;
  let found := List.filter (λ p, startswith p (bundle +:+ "/") && (path_name p == path_name binary)) (paths_of w) in
  bad ← match found with [] => mret true | _ => any_other_digest binary found end;
  raise_when bad (ValueError "Flutter bundle does not contain the locked native artifact").

(** ** The build *)

(** src: installer/build_installer.py:407-414 main
    One insisted-on setting: checked against what is configured, then set. *)
Definition insist (setting : string * bool) : M unit :=
  let '(key, expected) := setting in
  value ← resolve_auto_update_define key;
  _ ← exit_when (match value with None => false | Some value => conflicts value expected end)
        ("Conflicting " +:+ key +:+ ": official builds require " +:+ bool_word expected);
  setenv key (bool_word expected).

(** src: installer/build_installer.py:400-420 main
    The release policy, before anything is built. *)
Definition release_policy (a : build_args) : M string :=
  cert ← (if prepare_signpath a then mret None else signing_cert_path);
  _ ← exit_when (prepare_signpath a || match cert with Some _ => true | None => false end)
        "Manifest-only mode cannot use SignPath or a local signing certificate; historical tools are not official release paths";
  provider ← resolve_auto_update_define "SIGNING_PROVIDER";
  _ ← exit_when (default "manifest" provider != "manifest") "Official builds require SIGNING_PROVIDER=manifest";
  _ ← for_M insist official_settings;
  _ ← ensure_signing_matches_runtime;
  feed_keys ← configure_native_feed_keys;
  _ ← exit_when (negb (nonempty (default EmptyString feed_keys)))
        "Manifest-only updates require the Ed25519 feed public key";
  requires ← auto_update_requires_valid_signature;
  _ ← setenv "AUTO_UPDATE_REQUIRE_VALID_SIGNATURE" (bool_word requires);
  mret (default EmptyString feed_keys).

(** One [--dart-define] of the Flutter build. *)
Fixpoint dart_defines (keys : list string) : M (list string) :=
  match keys with
  | [] => mret []
  | key :: keys =>
      value ← resolve_auto_update_define key;
      here ← match value with
             | Some v => _ ← print ("   " +:+ key +:+ " injetado via --dart-define: " +:+ v);
                         mret ["--dart-define=" +:+ key +:+ "=" +:+ v]
             | None => mret []
             end;
      rest ← dart_defines keys;
      mret (here ++ rest)
  end.

(** src: installer/build_installer.py:431-451 main
    The Flutter build itself. *)
Definition flutter_build : M unit :=
  feed_url ← resolve_auto_update_feed_url;
  url_define ← match feed_url with
               | Some url => _ ← print ("   AUTO_UPDATE_FEED_URL injetado via --dart-define: " +:+ url);
                             mret ["--dart-define=AUTO_UPDATE_FEED_URL=" +:+ url]
               | None => _ ← print "   AUTO_UPDATE_FEED_URL nao encontrado no .env; usando feed oficial padrao"; mret []
               end;
  defines ← dart_defines ["AUTO_UPDATE_CHANNEL"; "AUTO_UPDATE_REQUIRE_VALID_SIGNATURE";
                          "AUTO_UPDATE_FEED_PUBLIC_KEY"; "AUTO_UPDATE_REQUIRE_FEED_SIGNATURE"];
  run (["flutter"; "build"; "windows"; "--release"] ++ url_define ++ defines) None.

(** src: installer/build_installer.py:453-460 main
    What the built bundle must contain. *)
Definition check_bundle (feed_keys : string) : M unit :=
  there ← path_exists BUILD_DIR;
  _ ← exit_when (negb there) ("Erro: pasta de build nao encontrada: " +:+ BUILD_DIR);
  _ ← verify_bundled_vc_runtime;
  _ ← verify_bundled_fonts;
  _ ← verify_native_feed_keys (Some feed_keys);
  native ← getenv "ODBC_FAST_NATIVE_LIBRARY";
  native ← lift (from_option native (KeyError "ODBC_FAST_NATIVE_LIBRARY"));
  _ ← verify_native_bundle BUILD_DIR native;
  copy_file (path_parent native // "manifest.json") (BUILD_DIR // "data/odbc_native_manifest.json").

Definition require_built (name : string) : M unit :=
  there ← path_exists (BUILD_DIR // name);
  exit_when (negb there)
    ("Erro: " +:+ name +:+ " nao encontrado no build" +:+
     (if name == "plug_agente_elevated_runner.exe"
      then ". Execute python tool/elevated/build_elevated_runner.py antes do instalador." else EmptyString)).

Definition step_line (step : Z) (text : string) : M unit := print (nl +:+ py_str_int step +:+ text).

(** src: installer/build_installer.py:501-511 main
    Signing of the artifacts. *)
Definition sign_artifacts (step : Z) : M unit :=
  _ ← step_line step ".1. Assinando executavel Windows...";
  _ ← sign_file (BUILD_DIR // "plug_agente.exe");
  _ ← step_line step ".2. Assinando helper de update Windows...";
  _ ← sign_file (BUILD_DIR // "plug_update_helper.exe");
  _ ← sign_file (BUILD_DIR // "plug_install_check.exe");
  _ ← step_line step ".3. Assinando elevated action runner...";
  _ ← sign_file (BUILD_DIR // "plug_agente_elevated_runner.exe");
  for_M (λ name, sign_file (BUILD_DIR // "updater" // name))
    ["plug_update_service.exe"; "plug_update_client.exe"; "plug_update_worker.exe"].

(** src: installer/build_installer.py:513-525 main
    Compiling the installer and recording its evidence. *)
Definition compile_installer (step : Z) (feed_keys : string) : M unit :=
  _ ← step_line step ". Compilando instalador Inno Setup...";
  key_payload ← InstallerKeyEvidence.inspect_payload BUILD_DIR feed_keys;
  command ← build_iscc_command None;
  _ ← run command (Some INSTALLER_DIR);
  _ ← mkdir DIST_DIR;
  installer_path ← find_generated_installer;
  _ ← InstallerKeyEvidence.record installer_path BUILD_DIR feed_keys key_payload;
  signs ← should_sign_artifacts;
  cert ← (if (signs : bool) then signing_cert_path else mret None);
  _ ← match cert with
      | Some _ => _ ← step_line step ".1. Verificando assinatura do instalador Windows...";
                  verify_signed_file installer_path
      | None => mret tt
      end;
  print (nl +:+ "Instalador gerado em: " +:+ installer_path).

(** src: installer/build_installer.py:421-484 main
    Everything before the installer is compiled; the step number it reached. *)
Definition build_application (a : build_args) (feed_keys : string) : M Z :=
  _ ← run ["flutter"; "pub"; "get"] None;
  library ← NativePackage.prepare_native_library PROJECT_ROOT;
  _ ← setenv "ODBC_FAST_NATIVE_LIBRARY" library;
  _ ← when (sync_version a)
        (_ ← print "1. Executando update_version.py...";
         run [sys_executable; INSTALLER_DIR // "update_version.py"] None);
  let step := if sync_version a then 2 else 1 in
  _ ← step_line step ". Build Flutter (windows --release)...";
  _ ← flutter_build;
  _ ← check_bundle feed_keys;
  let step := step + 1 in
  _ ← step_line step ". Build elevated action runner helper...";
  let script := PROJECT_ROOT // "tool" // "elevated" // "build_elevated_runner.py" in
  there ← path_exists script;
  _ ← (if (there : bool) then run [sys_executable; script; "--release-only"] None
       else exit_with "Erro: tool/elevated/build_elevated_runner.py nao encontrado");
  _ ← for_M require_built ["plug_agente.exe"; "plug_update_helper.exe"; "plug_install_check.exe";
                           "plug_agente_elevated_runner.exe"];
  _ ← for_M (λ name, version ← application_version; set_version_info (BUILD_DIR // name) version) PROJECT_EXECUTABLES;
  _ ← run [BUILD_DIR // "plug_agente_elevated_runner.exe"; "--help"] None;
  mret step.

(** src: installer/build_installer.py:399-525 main
    [prepare] is [signpath_staging.prepare]. *)
Definition main (prepare : M unit) (a : build_args) : M unit :=
  feed_keys ← release_policy a;
  step ← build_application a feed_keys;
  if prepare_signpath a then
    try_catch prepare (λ e, is_OSError e || is_ValueError e || is_SubprocessError e)
      (λ e, exit_with ("SignPath preparation failed: " +:+ exn_str e))
  else
    _ ← for_M (λ name, there ← path_exists (BUILD_DIR // "updater" // name);
                       exit_when (negb there) ("Updater artifact missing: " +:+ name))
          ["plug_update_service.exe"; "plug_update_client.exe"; "plug_update_worker.exe"];
    signs ← should_sign_artifacts;
    _ ← when signs (sign_artifacts (step + 1));
    compile_installer (if (signs : bool) then step + 2 else step + 1) feed_keys.
End build.

(** ** The log only grows *)

Section later.
Context `{Host} `{WinApi} `{Machine}.

Lemma later_read_utf8 p : steps later (read_utf8 p).
Proof. unfold read_utf8. solve_steps. Qed.
Lemma later_find_tool c paths : steps later (find_tool c paths).
Proof. induction paths as [|p paths IH]; simpl; solve_steps; done. Qed.
Lemma later_find_sdk_tool roots : steps later (find_sdk_tool roots).
Proof. induction roots as [|p roots IH]; simpl; solve_steps; done. Qed.
#[local] Hint Resolve later_read_utf8 later_find_tool later_find_sdk_tool : py.

Lemma later_find_signtool : steps later find_signtool.
Proof. unfold find_signtool. solve_steps. Qed.
Lemma later_env_value key : steps later (read_env_value key).
Proof. unfold read_env_value. solve_steps. Qed.
#[local] Hint Resolve later_find_signtool later_env_value : py.
Lemma later_define key : steps later (resolve_auto_update_define key).
Proof. unfold resolve_auto_update_define. solve_steps. Qed.
#[local] Hint Resolve later_define : py.
Lemma later_flag key d : steps later (read_env_flag key d).
Proof. unfold read_env_flag. solve_steps. Qed.
Lemma later_cert : steps later signing_cert_path.
Proof. unfold signing_cert_path. solve_steps. Qed.
#[local] Hint Resolve later_flag later_cert : py.
Lemma later_signs : steps later should_sign_artifacts.
Proof. unfold should_sign_artifacts. solve_steps. Qed.
Lemma later_requires : steps later auto_update_requires_valid_signature.
Proof. unfold auto_update_requires_valid_signature. solve_steps. Qed.
Lemma later_timestamp : steps later timestamp_url.
Proof. unfold timestamp_url. solve_steps. Qed.
Lemma later_password : steps later signing_password.
Proof. unfold signing_password. solve_steps. Qed.
#[local] Hint Resolve later_signs later_requires later_timestamp later_password : py.

Lemma later_resolve_command cmd : steps later (resolve_command cmd).
Proof. destruct cmd; simpl; unfold exit_with; solve_steps. Qed.
#[local] Hint Resolve later_resolve_command : py.
Lemma later_build_run cmd cwd : steps later (run cmd cwd).
Proof. unfold run, exit_with. solve_steps. Qed.
#[local] Hint Resolve later_build_run : py.

Lemma later_policy a : steps later (release_policy a).
Proof.
  unfold release_policy, ensure_signing_matches_runtime, configure_native_feed_keys, check_feed_key, insist, exit_when, exit_with.
  solve_steps.
Qed.
Lemma later_dart_defines keys : steps later (dart_defines keys).
Proof. induction keys as [|k keys IH]; simpl; solve_steps; done. Qed.
Lemma later_missing_files d names : steps later (missing_files d names).
Proof. induction names as [|n names IH]; simpl; unfold file_missing; solve_steps; done. Qed.
Lemma later_other_digest b paths : steps later (any_other_digest b paths).
Proof. induction paths as [|p paths IH]; simpl; unfold sha256; solve_steps; done. Qed.
#[local] Hint Resolve later_dart_defines later_missing_files later_other_digest : py.

Lemma later_check_bundle keys : steps later (check_bundle keys).
Proof.
  unfold check_bundle, verify_bundled_vc_runtime, verify_bundled_fonts, verify_font, verify_native_feed_keys,
    verify_native_bundle, files_differ, exit_when. solve_steps.
Qed.
Lemma later_flutter_build : steps later flutter_build.
Proof. unfold flutter_build, resolve_auto_update_feed_url. solve_steps. Qed.
#[local] Hint Resolve later_check_bundle later_flutter_build : py.

Lemma later_read_version_info p : steps later (read_version_info p).
Proof. unfold read_version_info, resolve_strict. solve_steps. Qed.
#[local] Hint Resolve later_read_version_info : py.
Lemma later_set_version_info p v : steps later (set_version_info p v).
Proof.
  unfold set_version_info, resolve_strict. solve_steps. apply logs_with_temp_dir; [done|done|]. solve_steps.
Qed.
Lemma later_application_version : steps later application_version.
Proof. unfold application_version. solve_steps. Qed.
#[local] Hint Resolve later_set_version_info later_application_version NativePackage.later_native : py.

Lemma later_build_application a keys : steps later (build_application a keys).
Proof. unfold build_application, step_line, require_built, exit_when, exit_with. solve_steps. Qed.

Lemma later_find_installer : steps later find_generated_installer.
Proof. unfold find_generated_installer, exit_when, exit_with. solve_steps. Qed.
Lemma later_verify_signed p : steps later (verify_signed_file p).
Proof. unfold verify_signed_file, exit_with. solve_steps. Qed.
#[local] Hint Resolve later_find_installer later_verify_signed : py.
Lemma later_sign_artifacts step : steps later (sign_artifacts step).
Proof. unfold sign_artifacts, sign_file, step_line, exit_when, exit_with. solve_steps. Qed.
Lemma later_iscc_command d : steps later (build_iscc_command d).
Proof.
  unfold build_iscc_command, find_iscc, build_iscc_signtool_command, prepare_privacy_notice, exit_when, exit_with.
  solve_steps.
Qed.
End later.

(** ** The release policy *)

(** Nothing but settings: no program is run, no file is touched. *)
Definition only_settings : relation world := λ w w',
  w_fs w' = w_fs w ∧ log_ext (λ e, match e with EvSetenv _ _ => True | _ => False end) w w'.
#[export] Instance only_settings_preorder : PreOrder only_settings.
Proof.
  split; [by intros w; split; [|reflexivity]|]. intros w1 w2 w3 [H1 L1] [H2 L2]. split; [by rewrite H2, H1|by etrans].
Qed.

Lemma settings_setenv k v : steps only_settings (setenv k v).
Proof. intros w. split; [done|]. by eapply log_ext_one. Qed.
#[local] Hint Resolve settings_setenv : py.

(** Looks a key up in a chain of insertions. *)
Ltac find_key := repeat (rewrite lookup_insert_ne by done); apply lookup_insert_eq.

(** A valid list of update keys. *)
Definition valid_keys (keys : list string) : Prop :=
  keys ≠ [] ∧ Forall (λ key, ∃ raw, b64decode true key = Ok raw ∧ len raw = 32) keys.

(** The settings of an official build, with these update keys. *)
Definition official (w : world) (feed_keys : string) : Prop :=
  w_env w !! "AUTO_UPDATE_REQUIRE_VALID_SIGNATURE" = Some "false" ∧
  w_env w !! "WINDOWS_CODE_SIGNING_REQUIRED" = Some "false" ∧
  w_env w !! "AUTO_UPDATE_REQUIRE_FEED_SIGNATURE" = Some "true" ∧
  w_env w !! "AUTO_UPDATE_FEED_PUBLIC_KEY" = Some feed_keys ∧
  ∃ keys, feed_keys = join "," keys ∧ valid_keys keys.

Section policy.
Context `{Host} `{WinApi} `{Machine}.

Lemma same_define key : steps (=) (resolve_auto_update_define key).
Proof. unfold resolve_auto_update_define, read_env_value, read_utf8. solve_steps. Qed.
#[local] Hint Resolve same_define : py.
Lemma same_flag key d : steps (=) (read_env_flag key d).
Proof. unfold read_env_flag. solve_steps. Qed.
Lemma same_cert : steps (=) signing_cert_path.
Proof. unfold signing_cert_path. solve_steps. Qed.
#[local] Hint Resolve same_flag same_cert : py.
Lemma same_signs : steps (=) should_sign_artifacts.
Proof. unfold should_sign_artifacts. solve_steps. Qed.
#[local] Hint Resolve same_signs : py.
Lemma same_runtime : steps (=) ensure_signing_matches_runtime.
Proof. unfold ensure_signing_matches_runtime, auto_update_requires_valid_signature, exit_when. solve_steps. Qed.

Lemma settings_same {A} (m : M A) : steps (=) m → steps only_settings m.
Proof. intros Hm w. rewrite <- (Hm w). reflexivity. Qed.

Lemma settings_policy a : steps only_settings (release_policy a).
Proof.
  pose proof (settings_same _ same_cert). pose proof (λ k, settings_same _ (same_define k)).
  pose proof (settings_same _ same_runtime). pose proof (settings_same _ same_signs).
  unfold release_policy, insist, configure_native_feed_keys, check_feed_key, auto_update_requires_valid_signature,
    exit_when, exit_with. solve_steps.
Qed.

(** A setting that is there wins over the file. *)
Lemma define_set key v w r w' : w_env w !! key = Some v → v ≠ EmptyString →
  runs (resolve_auto_update_define key) w r w' → r = Some v.
Proof.
  intros Hk Hv Hr. unfold resolve_auto_update_define in Hr. apply runs_bind in Hr as (e & w1 & [<- ->]%runs_getenv_or & Hr).
  rewrite Hk in Hr. change (default EmptyString (Some v)) with v in Hr. apply nonempty_true in Hv. rewrite Hv in Hr. by apply runs_ret in Hr as [<- _].
Qed.

Lemma runs_insist key expected w w' : runs (insist (key, expected)) w tt w' →
  w_env w' = <[key := bool_word expected]> (w_env w).
Proof.
  unfold insist. intros Hr. apply runs_bind in Hr as (v & w1 & ->%(runs_same _ _ _ _ (same_define key)) & Hr).
  apply runs_bind in Hr as ([] & w1 & [_ <-]%runs_raise_when & Hr). by apply runs_setenv in Hr as ->.
Qed.

Lemma runs_check_feed_key key w w' : runs (check_feed_key key) w tt w' →
  w' = w ∧ ∃ raw, b64decode true key = Ok raw ∧ len raw = 32.
Proof.
  unfold check_feed_key, exit_when. intros Hr. apply runs_bind in Hr as (raw & w1 & Hd & [Hl%negb_false_iff <-]%runs_raise_when).
  apply runs_try_catch in Hd as [[Hd <-]%runs_lift|(e & w2 & _ & _ & Hd)]; [|by apply runs_raise in Hd].
  apply Z.eqb_eq in Hl. eauto.
Qed.

Lemma runs_check_feed_keys keys w w' : runs (for_M check_feed_key keys) w tt w' →
  w' = w ∧ Forall (λ key, ∃ raw, b64decode true key = Ok raw ∧ len raw = 32) keys.
Proof.
  revert w. induction keys as [|k keys IH]; intros w; simpl.
  - intros [_ <-]%runs_ret. by split.
  - intros Hr. apply runs_bind in Hr as ([] & w1 & [-> Hk]%runs_check_feed_key & [-> Hks]%IH). split; [done|by constructor].
Qed.

Lemma runs_configure w keys w' : runs configure_native_feed_keys w (Some keys) w' →
  w_env w' = <["AUTO_UPDATE_FEED_PUBLIC_KEY" := keys]> (w_env w) ∧ ∃ l, keys = join "," l ∧ valid_keys l.
Proof.
  unfold configure_native_feed_keys. intros Hr.
  apply runs_bind in Hr as (v & w1 & ->%(runs_same _ _ _ _ (same_define _)) & Hr).
  destruct (negb _).
  - apply runs_bind in Hr as (s & w1 & _ & Hr). apply runs_bind in Hr as ([] & w2 & _ & Hr). by apply runs_ret in Hr as [? _].
  - apply runs_bind in Hr as ([] & w1 & [-> Hk]%runs_check_feed_keys & Hr).
    apply runs_bind in Hr as ([] & w1 & ->%runs_setenv & [[= <-] <-]%runs_ret). split; [done|].
    eexists. split; [done|]. split; [|done]. intros Hnil%fmap_nil_inv. by apply split_char_nonnil in Hnil.
Qed.

Lemma env_insist_all w w' : runs (for_M insist official_settings) w tt w' →
  w_env w' !! "AUTO_UPDATE_REQUIRE_VALID_SIGNATURE" = Some "false" ∧
  w_env w' !! "WINDOWS_CODE_SIGNING_REQUIRED" = Some "false" ∧
  w_env w' !! "AUTO_UPDATE_REQUIRE_FEED_SIGNATURE" = Some "true".
Proof.
  unfold official_settings. cbn [for_M]. intros Hr.
  apply runs_bind in Hr as ([] & w1 & E1%runs_insist & Hr). apply runs_bind in Hr as ([] & w2 & E2%runs_insist & Hr).
  apply runs_bind in Hr as ([] & w3 & E3%runs_insist & [_ <-]%runs_ret). rewrite E3, E2, E1. by split_and!; find_key.
Qed.

Lemma policy_official a w keys w' : runs (release_policy a) w keys w' → prepare_signpath a = false ∧ official w' keys.
Proof.
  unfold release_policy. intros Hr.
  apply runs_bind in Hr as (cert & w1 & Hc & Hr).
  apply runs_bind in Hr as ([] & w2 & [[Hsp Hcert]%orb_false_iff <-]%runs_raise_when & Hr). split; [done|].
  apply runs_bind in Hr as (provider & w2 & _ & Hr). apply runs_bind in Hr as ([] & w3 & [_ <-]%runs_raise_when & Hr).
  apply runs_bind in Hr as ([] & w3 & (E1 & E2 & E3)%env_insist_all & Hr).
  apply runs_bind in Hr as ([] & w4 & ->%(runs_same _ _ _ _ same_runtime) & Hr).
  apply runs_bind in Hr as (feed & w4 & Hf & Hr).
  apply runs_bind in Hr as ([] & w5 & [Hne%negb_false_iff <-]%runs_raise_when & Hr).
  destruct feed as [feed|]; [|done]. apply runs_configure in Hf as (He & l & -> & Hl).
  apply runs_bind in Hr as (requires & w5 & Hreq & Hr).
  assert (Hsig : w_env w4 !! "AUTO_UPDATE_REQUIRE_VALID_SIGNATURE" = Some "false") by (rewrite He; by rewrite lookup_insert_ne).
  assert (w5 = w4 ∧ requires = false) as [-> ->].
  { unfold auto_update_requires_valid_signature in Hreq. apply runs_bind in Hreq as (v & w6 & Hv & Hreq).
    pose proof (define_set _ _ _ _ _ Hsig ltac:(done) Hv) as ->. apply (runs_same _ _ _ _ (same_define _)) in Hv as ->.
    by apply runs_ret in Hreq as [<- <-]. }
  apply runs_bind in Hr as ([] & w5 & ->%runs_setenv & [<- <-]%runs_ret).
  unfold official. cbn [w_env]. rewrite He. split_and!; [by find_key| | |by find_key|by exists l];
    by rewrite !lookup_insert_ne.
Qed.

(** C19. The policy of an official build comes first and is all or nothing:
    whatever happens, it runs no program and touches no file; when it passes,
    SignPath was not asked for, the three insisted-on settings have their
    official values whatever was configured, and the update keys that the build
    will embed are a non-empty list of 32-byte keys. *)
Theorem release_policy_sound (a : build_args) (w w' : world) (r : res string)
    (Hrun : release_policy a w = (r, w')) :
  only_settings w w' ∧ ∀ keys, r = Ok keys → prepare_signpath a = false ∧ official w' keys.
Proof.
  split.
  - pose proof (settings_policy a w) as Hs. by rewrite Hrun in Hs.
  - intros keys ->. by apply (policy_official a w).
Qed.

(** [--prepare-signpath] is accepted by the command line and always
    refused: no run with it ever starts to build or prepares anything. *)
Theorem prepare_signpath_refused (prepare : M unit) (a : build_args) (w : world) :
  prepare_signpath a = true →
  main prepare a w =
    (Raise (SystemExit (ExitMsg ("Manifest-only mode cannot use SignPath or a local signing certificate; " +:+
       "historical tools are not official release paths"))), w).
Proof. intros Ha. unfold main, release_policy. unfold mbind, M_bind, exit_when, raise_when, lift. by rewrite Ha. Qed.
End policy.

(** ** The evidence of a finished build *)

(** The last character of a text, which tells the paths of a build apart. *)
Fixpoint last_char (s : string) : option ascii :=
  match s with
  | EmptyString => None
  | String c EmptyString => Some c
  | String _ s => last_char s
  end.

Lemma last_char_app a b : b ≠ EmptyString → last_char (a +:+ b) = last_char b.
Proof.
  intros Hb. induction a as [|c a IH]; [done|]. cbn [String.append last_char].
  destruct (a +:+ b) as [|d s] eqn:E; [|done]. destruct a; [done|discriminate E].
Qed.

Lemma evidence_path_last installer : last_char (InstallerKeyEvidence.evidence_path installer) = Some "n"%char.
Proof. unfold InstallerKeyEvidence.evidence_path, with_suffix. by rewrite last_char_app. Qed.

Section evidence.
Context `{Host} `{WinApi} `{Machine}.

(** The installer of a version. *)
Definition installer_of (version : string) : string := DIST_DIR // ("PlugAgente-Setup-" +:+ version +:+ ".exe").

Lemma runs_find_generated_installer w p w' : runs find_generated_installer w p w' →
  w' = w ∧ ∃ version image, p = installer_of version ∧ w_fs w !! p = Some (File image).
Proof.
  unfold find_generated_installer. intros Hr. apply runs_bind in Hr as (setup & w1 & Hs & Hr).
  assert (w1 = w) as ->.
  { unfold read_utf8 in Hs. apply runs_bind in Hs as (b & w2 & [<- _]%runs_read_bytes & Hs).
    by apply runs_bind in Hs as (s & w2 & [_ <-]%runs_lift & [_ <-]%runs_ret). }
  destruct (re_search _ _) as [mo|]; [|by apply runs_raise in Hr].
  apply runs_bind in Hr as (there & w1 & [-> Ht]%runs_is_file & Hr).
  apply runs_bind in Hr as ([] & w1 & [Hf%negb_false_iff <-]%runs_raise_when & [<- <-]%runs_ret). split; [done|].
  apply Ht in Hf as (image & Hi). by exists (group_str 1 mo), image.
Qed.

(** The paths of the evidence, the installer and the payloads are different. *)
Lemma evidence_apart version : InstallerKeyEvidence.evidence_path (installer_of version) ≠ installer_of version ∧
  ∀ name, name ∈ InstallerKeyEvidence.KEY_PAYLOADS → InstallerKeyEvidence.evidence_path (installer_of version) ≠ BUILD_DIR // name.
Proof.
  split.
  - intros He. apply (f_equal last_char) in He. rewrite evidence_path_last in He.
    unfold installer_of, path_join in He. rewrite <- !str_app_assoc in He. by rewrite last_char_app in He.
  - intros name Hn He. apply (f_equal last_char) in He. rewrite evidence_path_last in He. unfold path_join in He.
    unfold InstallerKeyEvidence.KEY_PAYLOADS in Hn. rewrite !elem_of_cons, elem_of_nil in Hn.
    rewrite <- str_app_assoc in He. destruct Hn as [->|[->|[]]]; by rewrite last_char_app in He.
Qed.

Lemma runs_compile_installer step keys w w' : runs (compile_installer step keys) w tt w' →
  ∃ version, once w w' (λ w1, InstallerKeyEvidence.evidence_holds w1 (installer_of version) BUILD_DIR keys).
Proof.
  unfold compile_installer. intros Hr.
  apply runs_bind in Hr as ([] & w1 & L1%later_runs & Hr); [|unfold step_line; solve_steps].
  apply runs_bind in Hr as (before & w2 & (<- & _)%InstallerKeyEvidence.runs_inspect_payload & Hr).
  apply runs_bind in Hr as (command & w2 & L2%later_runs & Hr); [|apply later_iscc_command].
  apply runs_bind in Hr as ([] & w3 & L3%later_runs & Hr); [|apply later_build_run].
  apply runs_bind in Hr as ([] & w4 & L4%later_runs & Hr); [|solve_steps].
  apply runs_bind in Hr as (p & w5 & [-> (version & image & -> & _)]%runs_find_generated_installer & Hr).
  apply runs_bind in Hr as ([] & w5 & Hrec & Hr).
  destruct (evidence_apart version) as [Ha1 Ha2].
  pose proof (InstallerKeyEvidence.record_verifies _ _ _ _ _ _ Ha1 Ha2 Hrec) as [_ Hev]%InstallerKeyEvidence.runs_verify.
  apply (later_runs (InstallerKeyEvidence.record _ _ _ _)) in Hrec; [|apply InstallerKeyEvidence.later_record].
  exists version, w5. split_and!; [chain_later| |done].
  revert Hr. apply later_runs. pose proof later_signs. pose proof later_cert. pose proof later_verify_signed.
  unfold step_line. solve_steps.
Qed.

End evidence.

(** ** At work *)

(** A Windows machine where every command succeeds and the files of a build are
    there already. *)
Definition builder_host : Host := {|
  host_nt := true;
  host_run := λ _ _ w, (Ok (Proc 0 EmptyString EmptyString), w_fs w);
  host_which := λ c _, Some c;
  host_fetch := λ _ _, Raise (OSError "offline");
  host_now := λ _, 1767225600%Z;
  host_utcoffset := 0;
  host_exn_str := λ _, "error";
  host_repr := λ _, "value";
  host_tmp := λ _, "/tmp/x";
  host_isatty := false;
  host_root := "/r"
|}.
Definition builder : Machine := {| expanduser := λ p _, Ok p; sys_executable := "python" |}.

Definition jtext (v : json) : string := default EmptyString (dumps_indent true v).
Definition bundle_dir : string := "/r/build/windows/x64/runner/Release".
Definition native_dir : string := "/r/build/odbc-native/packages/1.2.3/windows_x64".
Definition key_exe : string := example_exe (InstallerKeyEvidence.example_key +:+ chr 0).

Definition build_files : list (string * string) :=
  [("/r/.env", "AUTO_UPDATE_FEED_PUBLIC_KEY=" +:+ InstallerKeyEvidence.example_key +:+ nl);
   ("/r/pubspec.yaml", "version: 1.9.1+1" +:+ nl);
   ("/r/installer/setup.iss", "#define MyAppVersion " +:+ dq +:+ "1.9.1" +:+ dq +:+ nl);
   ("/r/readme.md", "# Plug" +:+ nl +:+ "## Privacy policy" +:+ nl +:+ "None." +:+ nl);
   ("/r/installer/dist/PlugAgente-Setup-1.9.1.exe", "MZ");
   ("/r/tool/elevated/build_elevated_runner.py", "");
   ("/r/assets/fonts/montserrat/Montserrat.ttf", "font"); ("/r/assets/fonts/montserrat/Montserrat-Italic.ttf", "italic");
   (bundle_dir // "data/flutter_assets/assets/fonts/montserrat/Montserrat.ttf", "font");
   (bundle_dir // "data/flutter_assets/assets/fonts/montserrat/Montserrat-Italic.ttf", "italic");
   (bundle_dir // "data/flutter_assets/FontManifest.json",
     jtext (JArr [JObj [("family", JStr "Montserrat");
       ("fonts", JArr [JObj [("asset", JStr "assets/fonts/montserrat/Montserrat.ttf")];
                       JObj [("asset", JStr "assets/fonts/montserrat/Montserrat-Italic.ttf")]])]]));
   (bundle_dir // "data/app.so", InstallerKeyEvidence.example_key);
   (bundle_dir // "odbc_engine.dll", "DLL"); (native_dir // "odbc_engine.dll", "DLL");
   (native_dir // "manifest.json", jtext (JObj
     [("version", JStr "1.2.3"); ("package_sha256", JStr (sha256_hex "package"));
      ("url", JStr "https://github.com/cesar-carlos/dart_odbc_fast/releases/download/v1.2.3/odbc_engine.dll");
      ("sha256", JStr (sha256_hex "DLL"))]));
   (bundle_dir // "msvcp140.dll", "d"); (bundle_dir // "vcruntime140.dll", "d"); (bundle_dir // "vcruntime140_1.dll", "d")] ++
  ((λ name, (bundle_dir // name, key_exe)) <$> PROJECT_EXECUTABLES).

Definition build_world : world :=
  World (<[bundle_dir := Dir]> (foldr (λ kv fs, <[fst kv := File (snd kv)]> fs) (w_fs NativePackage.cache_world) build_files)) ∅ [].
Definition plain_args : build_args := MkBuildArgs false false false.

Theorem release_policy_sound_witness :
  let p := release_policy (H:=builder_host) (H1:=builder) plain_args build_world in
  only_settings build_world (snd p) ∧
  ∀ keys, fst p = Ok keys → prepare_signpath plain_args = false ∧ official (snd p) keys.
Proof.
  apply (release_policy_sound (H:=builder_host) (H1:=builder) plain_args build_world).
  apply surjective_pairing.
Defined.

Theorem prepare_signpath_refused_witness :
  main (H:=builder_host) (H0:=dropping_api) (H1:=builder) (mret tt) (MkBuildArgs false true false) build_world =
    (Raise (SystemExit (ExitMsg ("Manifest-only mode cannot use SignPath or a local signing certificate; " +:+
       "historical tools are not official release paths"))), build_world).
Proof. apply (prepare_signpath_refused (H:=builder_host) (H0:=dropping_api) (H1:=builder)). reflexivity. Defined.

