(* ===== verification/UpdateVersion.v ===== *)
(** * Synchronising the version (installer/update_version.py)

    The version of pubspec.yaml is written into the installer script and into
    the generated Dart constant. *)

From S2P Require Import Prelude PyStr PyRe Effects PyJson PyJsonIndent TextFiles.
From S2P Require ReleasePreflight.

Local Open Scope Z_scope.

Definition exit_with {A} (message : string) : M A := raise (SystemExit (ExitMsg message)).

(** The define as it is replaced: to the last quote of its line. *)
Definition define_re : regex :=
  seqs [lit "#define MyAppVersion"; plus space; lit dq; star dot; lit dq].
Definition define_line (version : string) : string := "#define MyAppVersion " +:+ dq +:+ version +:+ dq.

(** The generated Dart file. *)
Definition dart_file (full_version : string) : string :=
  "// Generated by installer/update_version.py - do not edit manually." +:+ nl +:+
  "const String appVersion = " +:+ dq +:+ full_version +:+ dq +:+ ";" +:+ nl.

Section update.
Context `{Host}.

(** src: installer/update_version.py:17-20 PROJECT_ROOT *)
Definition PROJECT_ROOT : string := host_root.
Definition PUBSPEC : string := PROJECT_ROOT // "pubspec.yaml".
Definition SETUP_ISS : string := PROJECT_ROOT // "installer" // "setup.iss".
Definition APP_VERSION_DART : string := PROJECT_ROOT // "lib/core/constants/app_version.g.dart".

(** src: installer/update_version.py:23-37 get_version_from_pubspec
    The short and the full version. *)
Definition get_version_from_pubspec : M (string * string) :=
  present ← path_exists PUBSPEC;
  _ ← raise_when (negb present) (SystemExit (ExitMsg ("Error: pubspec.yaml not found at " +:+ PUBSPEC)));
  content ← read_text PUBSPEC;
  match re_search ReleasePreflight.pubspec_re content with
  | None => exit_with "Error: version not found in pubspec.yaml"
  | Some mo => let full_version := strip (group_str 1 mo) in mret (before "+" full_version, full_version)
  end.

(** src: installer/update_version.py:40-56 update_setup_iss *)
Definition update_setup_iss (version : string) : M unit :=
  present ← path_exists SETUP_ISS;
  _ ← raise_when (negb present) (SystemExit (ExitMsg ("Error: setup.iss not found at " +:+ SETUP_ISS)));
  content ← ReleasePreflight.read_text_sig SETUP_ISS;
  let '(new_content, replacements) := re_subn define_re (define_line version) content in
  _ ← raise_when (negb (replacements =? 1)%nat)
        (SystemExit (ExitMsg ("Error: expected exactly one MyAppVersion define in installer/setup.iss, found " +:+
                              py_str_int (Z.of_nat replacements))));
  _ ← write_bytes SETUP_ISS (chr 239 +:+ chr 187 +:+ chr 191 +:+ text_bytes new_content);
  print ("  setup.iss: MyAppVersion = " +:+ version).

(** src: installer/update_version.py:59-65 update_app_version_dart *)
Definition update_app_version_dart (full_version : string) : M unit :=
  _ ← mkdir (path_parent APP_VERSION_DART);
  _ ← write_text APP_VERSION_DART (dart_file full_version);
  print ("  app_version.g.dart: appVersion = " +:+ full_version).

(** src: installer/update_version.py:68-73 main *)
Definition main : M unit :=
  '(short_version, full_version) ← get_version_from_pubspec;
  _ ← print ("pubspec.yaml version: " +:+ full_version);
  _ ← update_setup_iss short_version;
  _ ← update_app_version_dart full_version;
  print "Synchronization completed.".
End update.
