(* ===== verification/WindowsFixture.v ===== *)
(** * The private Windows fixture (tool/updater/isolated_windows_fixture.py)

    The guards that keep a lifecycle test inside its own directory: which
    identity, root and artifact it accepts, how sources are rewritten for the
    private identity, and the checks of the rewritten sources and of the
    historical supervisor. Links are the operating system's: the class
    [Filesystem] says which entries are links and how many names a file has.
    Building the fixture itself is in FixtureBuild.v. *)

From S2P Require Import Prelude PyStr PyRe PyJson Effects TextFiles Paths.
From S2P Require ReleasePreflight.

Local Open Scope Z_scope.

(** What the operating system knows of a path beyond its content. *)
Class Filesystem : Type := {
  (** The entry itself is a symbolic link or another reparse point. *)
  linked : string → world → bool;
  (** [path.stat().st_nlink] *)
  nlink : string → world → Z;
  (** [os.getcwd()], a path on a drive. *)
  host_cwd : string
}.

(** ** Paths *)

Fixpoint norm_segments (acc l : list string) : list string :=
  match l with
  | [] => acc
  | s :: l =>
      norm_segments (if negb (nonempty s) || (s == ".") then acc
                     else if s == ".." then removelast acc else acc ++ [s]) l
  end.

(** The drive or root stays, the rest is normalised. *)
Definition normpath (p : string) : string :=
  match split_char "/" p with
  | root :: segments => join "/" (root :: norm_segments [] segments)
  | [] => p
  end.

Definition has_drive (p : string) : bool :=
  match p with String _ (String c _) => Ascii.eqb c ":" | _ => false end.

Section paths.
Context `{Host} `{Filesystem}.

(** The path below the current directory, as Windows resolves it: a rooted path
    stays on the current drive, and a drive without a root is its current
    directory when it is the current drive and its root otherwise. *)
Definition absolute_nt (p : string) : string :=
  if has_drive p then
    if startswith (str_drop 2 p) "/" then p
    else if py_lower (str_take 2 p) == py_lower (str_take 2 host_cwd) then host_cwd // str_drop 2 p
    else str_take 2 p // str_drop 2 p
  else if startswith p "//" then p
  else if startswith p "/" then str_take 2 host_cwd +:+ p
  else host_cwd // p.

(** [os.path.abspath(p)] *)
Definition abspath (p : string) : string :=
  normpath (if host_nt then absolute_nt (posix p) else if startswith p "/" then p else host_cwd // p).

(** Two paths are equal; Windows does not look at the case. *)
Definition path_key (p : string) : string := if host_nt then py_lower (posix p) else p.
Definition same_path (a b : string) : bool := path_key a == path_key b.

(** [a.relative_to(b)] as its parts. *)
Definition relative_parts (a b : string) : option (list string) :=
  if same_path a b then Some []
  else if same_path (str_take (String.length b + 1) a) (b +:+ "/")
       then Some (split_char "/" (str_drop (String.length b + 1) a)) else None.

(** [path.lstat()]: whether the entry is a link. *)
Definition lstat (p : string) : M bool := λ w,
  (if linked p w then Ok true
   else match w_fs w !! p with Some _ => Ok false | None => Raise (FileNotFoundError p) end, w).

Definition is_missing (e : exn) : bool := match e with FileNotFoundError _ => true | _ => false end.

(** [path.stat().st_size] *)
Definition file_size (p : string) : M Z := b ← read_bytes p; mret (len b).
Definition link_count (p : string) : M Z := w ← get_world; mret (nlink p w).
End paths.

(** ** Patterns *)

Definition identity_re : regex := seqs [lit "PlugAgenteHomologacao_"; times 12 (RChar is_lower_hex)].
Definition fixture_char (c : ascii) : bool := in_range 97 122 c || is_digit c || char_in "-" c.
Definition fixture_name_re : regex :=
  seqs [lit "windows-lifecycle-"; RChar fixture_char; upto 79 (RChar fixture_char)].
Definition revision_re : regex := times 40 (RChar is_lower_hex).

(** [int(s, 16)] is defined: white space, a sign, a prefix, digits. *)
Definition is_hex_any (c : ascii) : bool := is_digit c || in_range 97 102 (lower_char c).
Fixpoint hex_digits (prev : bool) (s : string) : bool :=
  match s with
  | EmptyString => prev
  | String c s => if is_hex_any c then hex_digits true s else Ascii.eqb c "_" && prev && hex_digits false s
  end.
Definition hex_int (s : string) : bool :=
  let t := strip s in
  let t := if startswith t "-" || startswith t "+" then str_drop 1 t else t in
  if startswith (py_lower t) "0x" then hex_digits true (str_drop 2 t) && nonempty (str_drop 2 t) else hex_digits false t.

(** [uuid.UUID(text)] is defined. *)
Definition is_uuid (text : string) : bool :=
  let hex := replace "-" "" (strip_chars "{}" (replace "uuid:" "" (replace "urn:" "" text))) in
  (len hex =? 32) && hex_int hex.

(** [identity\[-12:\]] *)
Definition identity_tail (identity : string) : string := str_drop (String.length identity - 12) identity.

(** [source.replace(a, b)] for each pair in turn. *)
Definition replace_all (pairs : list (string * string)) (source : string) : string :=
  fold_left (λ s ab, replace (fst ab) (snd ab) s) pairs source.

Definition APP_GUID : string := "{A1B2C3D4-E5F6-4A5B-8C9D-0E1F2A3B4C5E}".

(** src: tool/updater/isolated_windows_fixture.py:32-35 require_identity *)
Definition require_identity (name : string) : res string :=
  _ ← raise_if (negb (fullmatch identity_re name))
        (ValueError "An exclusive PlugAgenteHomologacao_<12 hex> identity is required");
  Ok name.

(** src: tool/updater/isolated_windows_fixture.py:79-86 rewrite_native *)
Definition rewrite_native (source identity : string) : res string :=
  _ ← require_identity identity;
  Ok (replace_all
        [("PlugAgente.Install.v1", identity +:+ ".Install.v1");
         ("PlugAgenteUpdateHelper", identity +:+ "UpdateHelper");
         ("PlugAgenteUpdater", identity +:+ "Updater");
         ("L" +:+ dq +:+ "PlugAgente" +:+ dq, "L" +:+ dq +:+ identity +:+ dq);
         ("Plug Agente Updater", "Plug Agente Homologacao " +:+ identity_tail identity +:+ " Updater");
         ("PlugAgenteSetup", identity +:+ "Setup")] source).

(** The identity of the product, which no source of the fixture may keep. *)
Definition forbidden : list string :=
  ["PlugAgente.Install.v1"; "PlugAgenteUpdateHelper"; "CloseApplications=yes"; "PlugAgenteUpdater";
   "L" +:+ dq +:+ "PlugAgente" +:+ dq; "Classes\plugdb"; "Global\PlugAgenteSetup"; "{commonappdata}\PlugAgente\"; APP_GUID].

Definition recovery_v1 (contract : string) : bool :=
  contains contract "kRecoveryContractVersion = 1;" && contains contract "kApplicationContractImplemented = false;".

Section fixture.
Context `{Host} `{Filesystem}.

(** src: tool/updater/isolated_windows_fixture.py:28-28 PROJECT *)
Definition PROJECT : string := host_root.


(** src: tool/updater/isolated_windows_fixture.py:38-41 reject_reparse *)
Definition reject_reparse (path : string) : M unit :=
  link ← lstat path;
  raise_when link (RuntimeError "Linked lifecycle fixture paths are not accepted").

(** One directory on the way to the root. *)
Definition require_directory (fresh : bool) (candidate : string) : M unit :=
  gone ← try_catch (_ ← reject_reparse candidate; mret false) is_missing
           (λ e, if fresh then mret true else raise e);
  if (gone : bool) then mret tt
  else directory ← is_dir candidate;
       raise_when (negb directory) (RuntimeError "Lifecycle fixture directory is invalid").

(** src: tool/updater/isolated_windows_fixture.py:44-60 require_fixture_root *)
Definition require_fixture_root (path : string) (fresh : bool) : M string :=
  let owned := abspath path in
  let parent := PROJECT // "build/homologation" in
  _ ← raise_when (negb (same_path (path_parent owned) parent) || negb (fullmatch fixture_name_re (path_name owned)))
        (RuntimeError "Only an owned workspace lifecycle fixture is accepted");
  _ ← for_M (require_directory fresh) [PROJECT // "build"; parent; owned];
  there ← path_exists owned;
  _ ← raise_when (fresh && there) (RuntimeError "Refusing an existing lifecycle fixture");
  mret owned.

(** Each component below [current] in turn. *)
Fixpoint reject_components (current : string) (parts : list string) : M unit :=
  match parts with
  | [] => mret tt
  | part :: parts =>
      let current := current // part in
      _ ← reject_reparse current;
      reject_components current parts
  end.

(** src: tool/updater/isolated_windows_fixture.py:63-76 require_fixture_artifact *)
Definition require_fixture_artifact (root path : string) : M string :=
  let artifact := abspath path in
  match relative_parts artifact root with
  | None => raise (RuntimeError "Lifecycle artifact is outside its owned fixture")
  | Some parts =>
      _ ← reject_reparse root;
      _ ← reject_components root parts;
      regular ← is_file artifact;
      _ ← raise_when (negb regular) (RuntimeError "Lifecycle fixture artifact is not a regular file");
      mret artifact
  end.

(** src: tool/updater/isolated_windows_fixture.py:89-106 rewrite_installer *)
Definition rewrite_installer (source identity app_id payload : string) : res string :=
  _ ← require_identity identity;
  _ ← raise_if (negb (is_uuid app_id)) (ValueError "badly formed hexadecimal UUID string");
  let source := replace_all
    [("CloseApplications=yes", "CloseApplications=no");
     ("{commonappdata}\PlugAgente", "{commonappdata}\" +:+ identity);
     ("PlugAgenteUpdater", identity +:+ "Updater");
     (dq +:+ "Plug Agente" +:+ dq, dq +:+ "Plug Agente Homologacao " +:+ identity_tail identity +:+ dq);
     (APP_GUID, "{" +:+ app_id +:+ "}");
     ("Classes\plugdb", "Classes\" +:+ replace "_" "-" (py_lower identity));
     ("PlugAgenteSetup", identity +:+ "Setup")] source in
  Ok (replace_all
    [("..\build\windows\x64\runner\Release", path_str payload);
     ("..\LICENSE", path_str (PROJECT // "LICENSE"));
     ("..\assets\fonts\montserrat\OFL.txt", path_str (PROJECT // "assets/fonts/montserrat/OFL.txt"));
     ("..\windows\runner\resources\app_icon.ico", path_str (PROJECT // "windows/runner/resources/app_icon.ico"));
     ("wizard\wizard-image.png", path_str (PROJECT // "installer/wizard/wizard-image.png"));
     ("wizard\wizard-small-image.png", path_str (PROJECT // "installer/wizard/wizard-small-image.png"))] source).

(** The files [directory.rglob("*")] lists, in the order the map has them. *)
Definition rglob (directory : string) (w : world) : list string :=
  List.filter (λ p, startswith p (directory +:+ "/")) (map_to_list (w_fs w)).*1.

(** [directory.iterdir()] *)
Definition iterdir (directory : string) (w : world) : list string :=
  List.filter (λ p, (path_parent p == directory) && (p != directory)) (map_to_list (w_fs w)).*1.

(** One source of the fixture. *)
Definition assert_isolated_source (extensions : list string) (path : string) : M unit :=
  if negb (one_of (path_suffix path) extensions) || one_of "third_party" (split_char "/" path) then mret tt
  else
    source ← ReleasePreflight.read_text_sig path;
    raise_when (existsb (contains source) forbidden)
      (RuntimeError ("Operational identity remains in fixture source: " +:+ path_name path)).

Definition source_directories (root : string) : list (string * list string) :=
  [(root // "installer", [".iss"]); (root // "windows/updater", [".cpp"; ".h"]);
   (root // "windows/update_helper", [".cpp"; ".h"]); (root // "windows/install_channel", [".cpp"; ".h"])].

(** src: tool/updater/isolated_windows_fixture.py:109-124 assert_isolated_sources *)
Definition assert_isolated_sources (root identity : string) : M unit :=
  _ ← lift (require_identity identity);
  _ ← for_M (λ de, w ← get_world; for_M (assert_isolated_source (snd de)) (rglob (fst de) w)) (source_directories root);
  contract ← read_text (root // "windows/updater/contract.h");
  raise_when (negb (contains contract "constexpr bool kApplicationContractImplemented = false;"))
    (RuntimeError "Fixture must preserve the production activation gate").

(** src: tool/updater/isolated_windows_fixture.py:127-134 cmake_path *)
Definition cmake_path : M string :=
  command ← which "cmake";
  if nonempty (default EmptyString command) then mret (default EmptyString command)
  else
    let candidate := "C:\Program Files\Microsoft Visual Studio\2022\Community\Common7\IDE\CommonExtensions\Microsoft\CMake\CMake\bin\cmake.exe" in
    there ← is_file candidate;
    _ ← raise_when (negb there) (RuntimeError "CMake from Visual Studio 2022 is required");
    mret candidate.

(** [subprocess.run(argv, cwd=PROJECT, check=True).stdout] *)
Definition checked_output (argv : list string) : M string :=
  r ← run_proc argv PROJECT;
  _ ← raise_when (negb (returncode r =? 0)) (CalledProcessError (returncode r) argv (stdout r));
  mret (stdout r).

(** src: tool/updater/isolated_windows_fixture.py:137-149 require_legacy_revision *)
Definition require_legacy_revision (revision : string) : M string :=
  _ ← raise_when (negb (fullmatch revision_re revision)) (RuntimeError "An explicit full historical commit is required");
  contract ← try_catch
    (_ ← checked_output ["git"; "merge-base"; "--is-ancestor"; revision; "HEAD"];
     checked_output ["git"; "show"; revision +:+ ":windows/updater/contract.h"])
    (λ e, match e with CalledProcessError _ _ _ => true | _ => false end)
    (λ _, raise (RuntimeError "Historical supervisor must exist in the local ancestry"));
  _ ← raise_when (negb (recovery_v1 contract))
        (RuntimeError "The explicit historical source must be the disabled recovery-v1 supervisor");
  mret revision.
End fixture.

(** ** What the guards guarantee *)

Section guards.
Context `{Host} `{Filesystem}.

Lemma same_lstat p : steps (=) (lstat p).
Proof. by intros w. Qed.
Lemma same_link_count p : steps (=) (link_count p).
Proof. by intros w. Qed.
Lemma same_file_size p : steps (=) (file_size p).
Proof. unfold file_size. solve_steps. Qed.
#[local] Hint Resolve same_lstat same_link_count same_file_size : py.
Lemma same_reject p : steps (=) (reject_reparse p).
Proof. unfold reject_reparse. solve_steps. Qed.
#[local] Hint Resolve same_reject : py.
Lemma same_components root parts : steps (=) (reject_components root parts).
Proof. revert root. induction parts as [|part parts IH]; intros root; simpl; solve_steps; apply IH. Qed.
#[local] Hint Resolve same_components : py.
Lemma same_fixture_root p fresh : steps (=) (require_fixture_root p fresh).
Proof. unfold require_fixture_root, require_directory. solve_steps. Qed.
Lemma same_fixture_artifact root p : steps (=) (require_fixture_artifact root p).
Proof. unfold require_fixture_artifact. solve_steps. Qed.

Lemma runs_lstat p w b w' : runs (lstat p) w b w' →
  w' = w ∧ b = linked p w ∧ (b = true ∨ is_Some (w_fs w !! p)).
Proof.
  unfold runs, lstat. destruct (linked p w); [naive_solver|]. destruct (w_fs w !! p) eqn:E; naive_solver.
Qed.

(** A path that is there and is not a link. *)
Definition plain_entry (w : world) (p : string) : Prop := linked p w = false ∧ is_Some (w_fs w !! p).

Lemma runs_reject_reparse p w w' : runs (reject_reparse p) w tt w' ↔ w' = w ∧ plain_entry w p.
Proof.
  unfold reject_reparse, plain_entry. split.
  - intros Hr. apply runs_bind in Hr as (b & w1 & (-> & Hb & Hp)%runs_lstat & Hr).
    apply runs_raise_when in Hr as [-> <-]. split; [done|]. split; [done|]. by destruct Hp.
  - intros (-> & Hl & Hp). apply runs_bind. exists false, w. split; [|by apply runs_raise_when].
    unfold runs, lstat. rewrite Hl. destruct Hp as [n ->]. done.
Qed.

(** The components of a path below [current]. *)
Fixpoint components (current : string) (parts : list string) : list string :=
  match parts with
  | [] => []
  | part :: parts => (current // part) :: components (current // part) parts
  end.

Lemma runs_reject_components current parts w w' : runs (reject_components current parts) w tt w' ↔
  w' = w ∧ Forall (plain_entry w) (components current parts).
Proof.
  revert current. induction parts as [|part parts IH]; intros current; cbn [reject_components components].
  - rewrite runs_ret, Forall_nil. naive_solver.
  - rewrite runs_bind, Forall_cons. split.
    + intros ([] & w1 & [-> Hp]%runs_reject_reparse & [-> Hr]%IH). done.
    + intros (-> & Hp & Hr). exists tt, w. rewrite runs_reject_reparse, IH. done.
Qed.

Lemma runs_fixture_artifact root path w a w' : runs (require_fixture_artifact root path) w a w' ↔
  w' = w ∧ a = abspath path ∧ ∃ parts bytes, relative_parts a root = Some parts ∧
    Forall (plain_entry w) (root :: components root parts) ∧ w_fs w !! a = Some (File bytes).
Proof.
  unfold require_fixture_artifact. destruct (relative_parts (abspath path) root) as [parts|] eqn:Hparts.
  - split.
    + intros Hr. apply runs_bind in Hr as ([] & w1 & [-> Hroot]%runs_reject_reparse & Hr).
      apply runs_bind in Hr as ([] & w1 & [-> Hc]%runs_reject_components & Hr).
      apply runs_bind in Hr as (b & w1 & [-> Hb]%runs_is_file & Hr).
      apply runs_bind in Hr as ([] & w1 & [Hb1%negb_false_iff <-]%runs_raise_when & Hr).
      apply runs_ret in Hr as [<- <-]. apply Hb in Hb1 as [bytes Hbytes]. split; [done|]. split; [done|].
      exists parts, bytes. rewrite Forall_cons. done.
    + intros (-> & -> & ps & bytes & Hps & [Hroot Hc]%Forall_cons & Hb).
      rewrite Hparts in Hps. apply (inj Some) in Hps as <-.
      apply runs_bind. exists tt, w. rewrite runs_reject_reparse. split; [done|].
      apply runs_bind. exists tt, w. rewrite runs_reject_components. split; [done|].
      apply runs_bind. exists true, w. split; [unfold runs, is_file; by rewrite Hb|].
      apply runs_bind. exists tt, w. by rewrite runs_raise_when, runs_ret.
  - split; [by intros ?%runs_raise|]. intros (_ & -> & ps & _ & Hps & _). by rewrite Hparts in Hps.
Qed.

Lemma path_key_app a b : path_key (a +:+ b) = path_key a +:+ path_key b.
Proof. unfold path_key. destruct host_nt; [|done]. by rewrite posix_app, py_lower_app. Qed.

Lemma relative_parts_key a root parts : relative_parts a root = Some parts →
  same_path a (join "/" (root :: parts)) = true.
Proof.
  unfold relative_parts, same_path. destruct (String.eqb_spec (path_key a) (path_key root)) as [Heq|_].
  - intros [= <-]. by rewrite Heq, String.eqb_refl.
  - destruct (String.eqb_spec (path_key (str_take (String.length root + 1) a)) (path_key (root +:+ "/"))) as [Heq|]; [|done].
    intros Hp. apply (inj Some) in Hp as <-. apply String.eqb_eq.
    rewrite <- (str_take_app_drop (String.length root + 1) a) at 1. rewrite path_key_app, Heq, <- path_key_app.
    rewrite <- (join_split_char "/" (str_drop (String.length root + 1) a)) at 1. rewrite str_app_assoc.
    pose proof (split_char_nonnil "/" (str_drop (String.length root + 1) a)).
    by destruct (split_char "/" (str_drop (String.length root + 1) a)).
Qed.

(** An accepted artifact is a regular file of the fixture: its path, made
    absolute, is the root followed by some components, and neither the root nor
    any path on the way down is a link or missing, so that it does not lead out
    of the fixture. The guard changes nothing. *)
Theorem artifact_contained (root path : string) (w : world) (a : string) (w' : world)
    (Hrun : runs (require_fixture_artifact root path) w a w') :
  w' = w ∧ a = abspath path ∧ (∃ bytes, w_fs w !! a = Some (File bytes)) ∧
  ∃ parts, same_path a (join "/" (root :: parts)) = true ∧
    Forall (plain_entry w) (root :: components root parts).
Proof.
  apply runs_fixture_artifact in Hrun as (-> & -> & parts & bytes & Hparts & Hplain & Hb).
  split_and!; [done|done|by exists bytes|]. exists parts. split; [by apply relative_parts_key|done].
Qed.

Lemma runs_fixture_root path w a w' : runs (require_fixture_root path false) w a w' → w' = w ∧ a = abspath path.
Proof.
  intros Hr. assert (w' = w) as -> by (eapply runs_same; [apply same_fixture_root|done]). split; [done|].
  unfold require_fixture_root in Hr. inv_runs. done.
Qed.
End guards.

#[export] Hint Resolve same_lstat same_link_count same_file_size same_fixture_root same_fixture_artifact : py.

(** ** At work *)

(** A Windows host whose clock, programs and network play no role. *)
Definition fixture_host : Host := {|
  host_nt := true; host_run := λ _ _ w, (Raise (FileNotFoundError "program"), w_fs w);
  host_which := λ _ _, None; host_fetch := λ _ _, Raise (OSError "offline");
  host_now := λ _, 0; host_utcoffset := 0; host_exn_str := λ _, "error"; host_repr := λ _, "value";
  host_tmp := λ _, "C:/tmp"; host_isatty := false; host_root := "C:/plug_agente"
|}.
Definition linkless : Filesystem := {| linked := λ _ _, false; nlink := λ _ _, 1; host_cwd := "C:/plug_agente" |}.

Definition fixture_dir : string := "C:/plug_agente/build/homologation/windows-lifecycle-a".
Definition fixture_world : world :=
  World (<[(fixture_dir +:+ "/fixture.json")%string := File "{}"]> (<[fixture_dir := Dir]>
        (<["C:/plug_agente/build/homologation" := Dir]> {["C:/plug_agente/build" := Dir]}))) ∅ [].

Theorem artifact_contained_witness :
  let path := "build\homologation\windows-lifecycle-a\x\..\fixture.json" in
  let artifact := fixture_dir +:+ "/fixture.json" in
  same_path (H:=fixture_host) artifact artifact = true ∧
  ∃ parts, same_path (H:=fixture_host) artifact (join "/" (fixture_dir :: parts)) = true ∧
    Forall (plain_entry (H0:=linkless) fixture_world) (fixture_dir :: components fixture_dir parts).
Proof.
  split; [reflexivity|].
  apply (artifact_contained (H:=fixture_host) (H0:=linkless) fixture_dir
    "build\homologation\windows-lifecycle-a\x\..\fixture.json" fixture_world
    (fixture_dir +:+ "/fixture.json") fixture_world).
  vm_compute. reflexivity.
Defined.
