(* ===== verification/LifecycleHandoff.v ===== *)
(** * The handoff between the two lifecycle phases (tool/updater/lifecycle_handoff.py)

    The administrator phase leaves a handoff, one standard-user phase claims it
    and publishes one result. Each step is guarded by the exclusive creation of
    a file, so that several claimants may run at the same time. The guarded
    steps are separate definitions, [claim_handoff] and [write_result] are their
    composition, and the interleaving of several phases refines a protocol with
    one owner. JSON values with floats are outside the model. *)

From S2P Require Import Prelude PyStr PyCodec PyHash PyJson Effects PyJsonIndent TextFiles WindowsFixture Paths.

Local Open Scope Z_scope.

(** src: tool/updater/lifecycle_handoff.py:11-11 READY *)
Definition READY : string := "standard-phase-ready".
(** src: tool/updater/lifecycle_handoff.py:12-12 CLAIM *)
Definition CLAIM : string := "standard-phase-claim.json".
(** src: tool/updater/lifecycle_handoff.py:13-13 RESULT *)
Definition RESULT : string := "standard-result.json".
Definition PENDING : string := RESULT +:+ ".tmp".
(** src: tool/updater/lifecycle_handoff.py:14-21 CHECKS *)
Definition CHECKS : list string :=
  ["real_scm_pipe_identity_and_activation_gate"; "control_directory_write_denied"; "protected_policy_read_denied";
   "unregistered_client_image_refused"; "administrative_transitions_denied"; "real_user_dpapi_roundtrip";
   "replay_channel_capability_and_signature_refused"; "real_signed_staging_idempotence_blocked_apply_and_cancel";
   "twenty_signed_prepare_cancel_cycles"].

(** [Path(state\[key\])] *)
Definition path_item (key : string) (state : json) : res string :=
  v ← jitem key state;
  match v with JStr p => Ok p | _ => Raise (TypeError "expected str, bytes or os.PathLike object") end.

(** [json.dumps(v)] *)
Definition dumps (v : json) : res string :=
  from_option (render true ", " ": " v) (TypeError "Object is not JSON serializable").
Definition dumps_canonical (v : json) : res string :=
  from_option (dumps_compact true v) (TypeError "Object is not JSON serializable").

(** The members of an object have exactly these names. *)
Definition names_are (names : list string) (v : json) : bool :=
  match v with
  | JObj l => forallb (λ n, one_of n l.*1) names && forallb (λ n, one_of n names) l.*1
  | _ => false
  end.

Definition handoff_value (phase binding : string) : json :=
  JObj [("format", JStr "isolated-lifecycle-handoff-v1"); ("phaseId", JStr phase); ("fixtureBinding", JStr binding)].

(** [any(result.get(key) != value for key, value in binding.items())] *)
Fixpoint any_differs (result : json) (binding : list (string * json)) : res bool :=
  match binding with
  | [] => Ok false
  | (key, value) :: binding =>
      v ← jget_or_null key result;
      if negb (jeq v value) then Ok true else any_differs result binding
  end.

(** src: tool/updater/lifecycle_handoff.py:87-89 result_binding *)
Definition result_binding (handoff : json) : res (list (string * json)) :=
  phase ← jitem "phaseId" handoff;
  binding ← jitem "fixtureBinding" handoff;
  Ok [("format", JStr "isolated-standard-result-v1"); ("phaseId", phase); ("fixtureBinding", binding)].

(** All the checks, each once. *)
Definition checks_complete (checks : json) : bool :=
  match checks with
  | JArr l =>
      forallb (λ v, match v with JStr _ => true | _ => false end) l &&
      (length l =? length CHECKS)%nat &&
      forallb (λ c, existsb (jeq (JStr c)) l) CHECKS &&
      forallb (λ v, existsb (λ c, jeq (JStr c) v) CHECKS) l
  | _ => false
  end.

(** The tests of [verify_result] on a result, each only when the ones before it passed. *)
Definition result_incomplete (result handoff : json) : res bool :=
  checks ← jget_or_null "checks" result;
  binding ← result_binding handoff;
  differs ← any_differs result binding;
  if (differs : bool) then Ok true else
  status ← jget_or_null "status" result;
  if negb (jeq status (JStr "passed")) then Ok true else
  elevated ← jget_or_null "elevated" result;
  Ok (match elevated with JBool false => negb (checks_complete checks) | _ => true end).

(** [secrets.token_hex(n)] *)
Class Secrets : Type := { token_hex : Z → world → string }.

Section handoff.
Context `{Host} `{Filesystem} `{Secrets}.

(** src: tool/updater/lifecycle_handoff.py:24-29 has_entry *)
Definition has_entry (path : string) : M bool :=
  try_catch (_ ← lstat path; mret true) is_missing (λ _, mret false).

Fixpoint any_entry (root : string) (names : list string) : M bool :=
  match names with
  | [] => mret false
  | name :: names => there ← has_entry (root // name); if (there : bool) then mret true else any_entry root names
  end.

(** src: tool/updater/lifecycle_handoff.py:32-35 assert_fresh *)
Definition assert_fresh (state : json) : M unit :=
  root ← lift (path_item "root" state);
  stale ← any_entry root [READY; CLAIM; RESULT; PENDING];
  raise_when stale (RuntimeError "Refusing previous standard-user phase evidence; provision a new fixture").

(** A regular file with one name and a bounded size. *)
Definition bounded_file (path : string) (limit : Z) : M bool :=
  links ← link_count path;
  if negb (links =? 1) then mret false else size ← file_size path; mret (size <=? limit).

(** src: tool/updater/lifecycle_handoff.py:38-45 read_owned *)
Definition read_owned (root name : string) : M json :=
  path ← require_fixture_artifact root (root // name);
  bounded ← bounded_file path 8192;
  _ ← raise_when (negb bounded) (RuntimeError "Invalid lifecycle phase evidence file");
  text ← read_text path;
  value ← lift (loads text);
  _ ← raise_when (match value with JObj _ => false | _ => true end)
        (RuntimeError "Invalid lifecycle phase evidence object");
  mret value.

(** src: tool/updater/lifecycle_handoff.py:48-56 fixture_binding *)
Definition fixture_binding (state : json) : M string :=
  path ← lift (path_item "root" state);
  root ← require_fixture_root path false;
  manifest ← require_fixture_artifact root (root // "fixture.json");
  bounded ← bounded_file manifest (256 * 1024);
  _ ← raise_when (negb bounded) (RuntimeError "Invalid lifecycle manifest for phase binding");
  bytes ← read_bytes manifest;
  identity ← lift (jitem "identity" state);
  installer ← lift (jitem "installerSha256" state);
  payload ← lift (jitem "payloadTreeSha256" state);
  text ← lift (dumps_canonical (JObj [("root", JStr (path_str root)); ("manifest", JStr (sha256_hex bytes));
                                      ("identity", identity); ("installer", installer); ("payload", payload)]));
  mret (sha256_hex (utf8_encode text)).

(** [path.open("x", encoding="utf-8")] and the text: an entry is never replaced. *)
Definition create_text (path text : string) : M unit := λ w,
  if linked path w then (Raise (FileExistsError path), w) else create_bytes path (text_bytes text) w.

(** src: tool/updater/lifecycle_handoff.py:59-66 create_handoff *)
Definition create_handoff (state : json) : M json :=
  _ ← assert_fresh state;
  path ← lift (path_item "root" state);
  root ← require_fixture_root path false;
  w ← get_world;
  binding ← fixture_binding state;
  let handoff := handoff_value (token_hex 32 w) binding in
  text ← lift (dumps handoff);
  _ ← create_text (root // READY) text;
  mret handoff.

(** The tests of a handoff, each only when the ones before it passed. *)
Definition handoff_differs (state handoff : json) : M bool :=
  if negb (names_are ["format"; "phaseId"; "fixtureBinding"] handoff) then mret true else
  format ← lift (jget_or_null "format" handoff);
  if negb (jeq format (JStr "isolated-lifecycle-handoff-v1")) then mret true else
  phase ← lift (jget_or_null "phaseId" handoff);
  if negb (match phase with JStr s => is_hex64 s | _ => false end) then mret true else
  binding ← lift (jget_or_null "fixtureBinding" handoff);
  expected ← fixture_binding state;
  mret (negb (jeq binding (JStr expected))).

(** src: tool/updater/lifecycle_handoff.py:69-81 claim_handoff
    Everything [claim_handoff] does before it creates the claim: the root and
    the handoff it found. *)
Definition claim_check (state : json) : M (string * json) :=
  path ← lift (path_item "root" state);
  root ← require_fixture_root path false;
  ended ← has_entry (root // "lifecycle-result.json");
  _ ← raise_when ended (RuntimeError "Administrator phase already ended; never resume the standard-user phase");
  published ← has_entry (root // RESULT);
  _ ← raise_when published (RuntimeError "Standard-user result already exists; never repeat the phase");
  handoff ← read_owned root READY;
  differs ← handoff_differs state handoff;
  _ ← raise_when differs (RuntimeError "Standard-user handoff does not match the current fixture");
  mret (root, handoff).

(** src: tool/updater/lifecycle_handoff.py:82-83 claim_handoff
    The creation of the claim. *)
Definition claim_commit (root : string) (handoff : json) : M unit :=
  text ← lift (dumps handoff); create_text (root // CLAIM) text.

(** src: tool/updater/lifecycle_handoff.py:69-84 claim_handoff *)
Definition claim_handoff (state : json) : M json :=
  '(root, handoff) ← claim_check state;
  _ ← claim_commit root handoff;
  mret handoff.

(** src: tool/updater/lifecycle_handoff.py:92-102 verify_result *)
Definition verify_result (state handoff : json) : M unit :=
  path ← lift (path_item "root" state);
  root ← require_fixture_root path false;
  bound ← lift (jitem "fixtureBinding" handoff);
  binding ← fixture_binding state;
  changed ← (if negb (jeq bound (JStr binding)) then mret true
             else claim ← read_owned root CLAIM; mret (negb (jeq claim handoff)));
  _ ← raise_when changed (RuntimeError "Standard-user phase binding changed");
  result ← read_owned root RESULT;
  incomplete ← lift (result_incomplete result handoff);
  raise_when incomplete
    (RuntimeError "Standard-user phase evidence is incomplete or belongs to another attempt").

(** [src.rename(dst)] on Windows: an entry is never replaced. *)
Definition rename_new (src dst : string) : M unit := λ w,
  if linked dst w || bool_decide (is_Some (w_fs w !! dst)) then (Raise (FileExistsError dst), w)
  else os_replace src dst w.

(** src: tool/updater/lifecycle_handoff.py:105-116 write_result
    Everything [write_result] does before it renames the pending result: the root. *)
Definition publish_check (state result : json) : M string :=
  _ ← raise_when (negb host_nt) (RuntimeError "Atomic lifecycle result publication requires Windows");
  path ← lift (path_item "root" state);
  root ← require_fixture_root path false;
  published ← has_entry (root // RESULT);
  _ ← raise_when published (RuntimeError "Standard-user result already exists; never overwrite evidence");
  text ← lift (from_option (dumps_indent true result) (TypeError "Object is not JSON serializable"));
  _ ← create_text (root // PENDING) text;
  mret root.

(** src: tool/updater/lifecycle_handoff.py:117-118 write_result
    The publication. *)
Definition publish_commit (root : string) : M unit := rename_new (root // PENDING) (root // RESULT).

(** src: tool/updater/lifecycle_handoff.py:105-118 write_result *)
Definition write_result (state result : json) : M unit :=
  root ← publish_check state result; publish_commit root.
End handoff.

(** ** One owner *)

(** What a standard-user phase has done: nothing, checked a handoff, claimed
    it, written its pending result, published it. *)
Inductive stage : Type :=
| Idle
| Checked (root : string) (handoff : json)
| Claiming (handoff : json)
| Pending (root : string)
| Published.

Record system : Type := System { s_world : world; s_phases : gmap nat stage }.

Section system.
Context `{Host} `{Filesystem} `{Secrets} (state : json).

(** The evidence at [root]: the handoff, the claim, the pending and the
    published result. *)
Definition entry (w : world) (p : string) : bool := linked p w || bool_decide (is_Some (w_fs w !! p)).
Definition evidence (w : world) (root : string) : bool * bool * bool * bool :=
  (entry w (root // READY), entry w (root // CLAIM), entry w (root // PENDING), entry w (root // RESULT)).

(** One step of the administrator phase, of one of the standard-user phases, or
    of anything else on the machine that leaves the evidence alone. *)
Inductive step (root : string) : system → system → Prop :=
| StepHandoff w ps h w' : runs (create_handoff state) w h w' →
    step root (System w ps) (System w' ps)
| StepCheck i w ps rh w' : ps !! i = Some Idle → runs (claim_check state) w rh w' →
    step root (System w ps) (System w' (<[i := Checked rh.1 rh.2]> ps))
| StepClaim i w ps r h w' : ps !! i = Some (Checked r h) → runs (claim_commit r h) w tt w' →
    step root (System w ps) (System w' (<[i := Claiming h]> ps))
| StepPending i w ps h result r w' : ps !! i = Some (Claiming h) → runs (publish_check state result) w r w' →
    step root (System w ps) (System w' (<[i := Pending r]> ps))
| StepPublish i w ps r w' : ps !! i = Some (Pending r) → runs (publish_commit r) w tt w' →
    step root (System w ps) (System w' (<[i := Published]> ps))
| StepOther w ps w' : evidence w' root = evidence w root → step root (System w ps) (System w' ps).

(** The protocol that is promised: one owner from the claim on. *)
Inductive protocol : Type :=
| Fresh
| Offered
| Owned (i : nat)
| Finishing (i : nat)
| Finished (i : nat).

Inductive protocol_step : protocol → protocol → Prop :=
| Offer : protocol_step Fresh Offered
| Own i : protocol_step Offered (Owned i)
| Finish i : protocol_step (Owned i) (Finishing i)
| Publish i : protocol_step (Finishing i) (Finished i).

(** Not beyond the check, and checked only for this root. *)
Definition waiting (root : string) (s : stage) : Prop :=
  match s with Idle => True | Checked r _ => r = root | _ => False end.
Definition others_wait (root : string) (i : nat) (ps : gmap nat stage) : Prop :=
  ∀ j s, ps !! j = Some s → j ≠ i → waiting root s.

(** The state of the protocol that a system is in. *)
Definition implements (root : string) (p : protocol) (s : system) : Prop :=
  let ps := s_phases s in
  match p with
  | Fresh => evidence (s_world s) root = (false, false, false, false) ∧ map_Forall (λ _ s, s = Idle) ps
  | Offered => evidence (s_world s) root = (true, false, false, false) ∧ map_Forall (λ _, waiting root) ps
  | Owned i => evidence (s_world s) root = (true, true, false, false) ∧
               (∃ h, ps !! i = Some (Claiming h)) ∧ others_wait root i ps
  | Finishing i => evidence (s_world s) root = (true, true, true, false) ∧
                   ps !! i = Some (Pending root) ∧ others_wait root i ps
  | Finished i => (∃ e, evidence (s_world s) root = (true, true, e, true)) ∧
                  ps !! i = Some Published ∧ others_wait root i ps
  end.
End system.

(** ** The steps of the protocol *)

(** Creating or renaming a file makes no other entry a link or a file. *)
Class FilesystemLaws `{Filesystem} : Prop := {
  linked_create p b w q : q ≠ p → linked q (snd (create_bytes p b w)) = linked q w;
  linked_rename a b w q : q ≠ a → q ≠ b → linked q (snd (os_replace a b w)) = linked q w
}.

Section steps.
Context `{Host} `{Filesystem} `{Secrets}.

Lemma same_has_entry p : steps (=) (has_entry p).
Proof. unfold has_entry. solve_steps. Qed.
#[local] Hint Resolve same_has_entry : py.
Lemma same_any_entry root names : steps (=) (any_entry root names).
Proof. induction names as [|n names IH]; simpl; solve_steps; apply IH. Qed.
#[local] Hint Resolve same_any_entry : py.
Lemma same_bounded p limit : steps (=) (bounded_file p limit).
Proof. unfold bounded_file. solve_steps. Qed.
#[local] Hint Resolve same_bounded : py.
Lemma same_read_owned root name : steps (=) (read_owned root name).
Proof. unfold read_owned. solve_steps. Qed.
Lemma same_binding state : steps (=) (fixture_binding state).
Proof. unfold fixture_binding. solve_steps. Qed.
#[local] Hint Resolve same_read_owned same_binding : py.
Lemma same_claim_check state : steps (=) (claim_check state).
Proof. unfold claim_check, handoff_differs. solve_steps. Qed.

Lemma runs_has_entry p w b w' : runs (has_entry p) w b w' ↔ w' = w ∧ b = entry w p.
Proof.
  unfold has_entry, entry, runs, try_catch, mbind, M_bind, lstat.
  destruct (linked p w); [|destruct (w_fs w !! p) as [n|]]; (split; [by intros [= <- <-]|by intros [-> ->]]).
Qed.

Lemma runs_any_entry root names w b w' : runs (any_entry root names) w b w' →
  w' = w ∧ b = existsb (λ n, entry w (root // n)) names.
Proof.
  induction names as [|n names IH]; cbn [any_entry existsb]; [by intros [<- <-]%runs_ret|].
  intros Hr. apply runs_bind in Hr as (e & w1 & [-> ->]%runs_has_entry & Hr).
  destruct (entry w (root // n)); [by apply runs_ret in Hr as [<- <-]|by apply IH].
Qed.

Lemma create_text_entry `{!FilesystemLaws} p t w w' : runs (create_text p t) w tt w' →
  entry w p = false ∧ entry w' p = true ∧ w_fs w' = <[p := File (text_bytes t)]> (w_fs w) ∧
  ∀ q, q ≠ p → entry w' q = entry w q.
Proof.
  unfold create_text, runs. destruct (linked p w) eqn:Hl; [done|]. intros Hr.
  pose proof (linked_create p (text_bytes t) w) as Hkeep. rewrite Hr in Hkeep. simpl in Hkeep.
  unfold create_bytes in Hr. destruct (w_fs w !! p) eqn:Hp; [done|]. injection Hr as <-.
  unfold entry. simpl. split_and!.
  - by rewrite Hl, Hp.
  - rewrite lookup_insert_eq. apply orb_true_r.
  - done.
  - intros q Hq. by rewrite Hkeep, lookup_insert_ne by done.
Qed.

Lemma rename_new_entry `{!FilesystemLaws} a b w w' : a ≠ b → runs (rename_new a b) w tt w' →
  entry w b = false ∧ entry w' b = true ∧ ∀ q, q ≠ a → q ≠ b → entry w' q = entry w q.
Proof.
  intros Hab. unfold rename_new, runs. destruct (linked b w || _) eqn:Hb; [done|]. intros Hr.
  split; [exact Hb|]. pose proof (linked_rename a b w) as Hkeep. rewrite Hr in Hkeep. simpl in Hkeep.
  unfold os_replace in Hr. destruct (w_fs w !! a) as [[bytes|]|]; [|done..].
  destruct (w_fs w !! b) as [[]|]; [|done|]; injection Hr as <-.
  all: unfold entry; simpl; split; [|intros q Hqa Hqb;
    by rewrite Hkeep, lookup_insert_ne, lookup_delete_ne by done].
  all: rewrite lookup_insert_eq; apply orb_true_r.
Qed.

End steps.

Lemma names_apart root : root // READY ≠ root // CLAIM ∧ root // READY ≠ root // PENDING ∧ root // READY ≠ root // RESULT ∧
  root // CLAIM ≠ root // PENDING ∧ root // CLAIM ≠ root // RESULT ∧ root // PENDING ≠ root // RESULT.
Proof. split_and!; intros Heq%path_join_inj; vm_compute in Heq; discriminate. Qed.

(** The root the state names is an absolute path in normal form. *)
Definition names_root `{Host} `{Filesystem} (state : json) (root : string) : Prop :=
  path_item "root" state = Ok root ∧ abspath root = root ∧ abspath (root // READY) = root // READY.

Section evidence.
Context `{Host} `{Filesystem} `{Secrets} `{!FilesystemLaws} (state : json) (root : string).
Context (Hroot : names_root state root).

Lemma handoff_evidence w h w' : runs (create_handoff state) w h w' →
  evidence w root = (false, false, false, false) ∧ evidence w' root = (true, false, false, false).
Proof.
  destruct Hroot as (Hitem & Habs & _). unfold create_handoff, assert_fresh. rewrite Hitem. intros Hr.
  apply runs_bind in Hr as ([] & w1 & Hf & Hr). apply runs_bind in Hf as (r & w2 & [[= <-] <-]%runs_lift & Hf).
  apply runs_bind in Hf as (b & w2 & [-> ->]%runs_any_entry & Hf). apply runs_raise_when in Hf as [Hf <-].
  apply runs_bind in Hr as (p & w2 & [[= <-] <-]%runs_lift & Hr).
  apply runs_bind in Hr as (r & w2 & [-> ->]%runs_fixture_root & Hr). rewrite Habs in Hr.
  apply runs_bind in Hr as (w2 & w3 & [= <- <-] & Hr).
  apply runs_bind in Hr as (b & w2 & ->%(runs_same _ _ _ _ (same_binding _)) & Hr).
  apply runs_bind in Hr as (t & w2 & [_ <-]%runs_lift & Hr).
  apply runs_bind in Hr as ([] & w2 & (_ & Hnew & _ & Hkeep)%create_text_entry & Hr).
  apply runs_ret in Hr as [_ <-]. destruct (names_apart root) as (? & ? & ? & _).
  cbn [existsb] in Hf. repeat apply orb_false_elim in Hf as [? Hf].
  unfold evidence. rewrite Hnew, !Hkeep by done. split; repeat f_equal; done.
Qed.

Lemma check_evidence w rh w' : runs (claim_check state) w rh w' →
  w' = w ∧ rh.1 = root ∧ entry w (root // READY) = true ∧ entry w (root // RESULT) = false.
Proof.
  intros Hr. assert (w' = w) as -> by (eapply runs_same; [apply same_claim_check|done]). split; [done|].
  destruct Hroot as (Hitem & Habs & Hready). unfold claim_check in Hr. rewrite Hitem in Hr.
  apply runs_bind in Hr as (p & w2 & [[= <-] <-]%runs_lift & Hr).
  apply runs_bind in Hr as (r & w2 & [-> ->]%runs_fixture_root & Hr). rewrite Habs in Hr.
  apply runs_bind in Hr as (e & w2 & [-> _]%runs_has_entry & Hr).
  apply runs_bind in Hr as ([] & w2 & [_ <-]%runs_raise_when & Hr).
  apply runs_bind in Hr as (e2 & w2 & [-> ->]%runs_has_entry & Hr).
  apply runs_bind in Hr as ([] & w2 & [Hres <-]%runs_raise_when & Hr).
  apply runs_bind in Hr as (h & w2 & Ho & Hr).
  unfold read_owned in Ho. apply runs_bind in Ho as (a & w3 & (-> & -> & _ & bytes & _ & _ & Hb)%runs_fixture_artifact & _).
  rewrite Hready in Hb. apply runs_bind in Hr as (d & w3 & _ & Hr). apply runs_bind in Hr as ([] & w4 & _ & Hr).
  apply runs_ret in Hr as [<- _]. split_and!; [done| |done].
  unfold entry. rewrite Hb. apply orb_true_r.
Qed.

Lemma commit_evidence h w w' : runs (claim_commit root h) w tt w' →
  entry w (root // CLAIM) = false ∧
  ∀ e1 e2 e3 e4, evidence w root = (e1, e2, e3, e4) → evidence w' root = (e1, true, e3, e4).
Proof.
  unfold claim_commit. intros Hr. apply runs_bind in Hr as (t & w1 & [_ <-]%runs_lift & Hr).
  apply create_text_entry in Hr as (Hold & Hnew & _ & Hkeep). destruct (names_apart root) as (? & ? & ? & ? & ? & ?).
  split; [done|]. unfold evidence. intros e1 e2 e3 e4 [= <- _ <- <-]. by rewrite Hnew, !Hkeep by done.
Qed.

Lemma pending_evidence result r w w' : runs (publish_check state result) w r w' →
  r = root ∧ entry w (root // RESULT) = false ∧ entry w (root // PENDING) = false ∧
  ∀ e1 e2 e3 e4, evidence w root = (e1, e2, e3, e4) → evidence w' root = (e1, e2, true, e4).
Proof.
  destruct Hroot as (Hitem & Habs & _). unfold publish_check. rewrite Hitem. intros Hr.
  apply runs_bind in Hr as ([] & w2 & [_ <-]%runs_raise_when & Hr).
  apply runs_bind in Hr as (p & w2 & [[= <-] <-]%runs_lift & Hr).
  apply runs_bind in Hr as (r' & w2 & [-> ->]%runs_fixture_root & Hr). rewrite Habs in Hr.
  apply runs_bind in Hr as (e & w2 & [-> ->]%runs_has_entry & Hr).
  apply runs_bind in Hr as ([] & w2 & [Hres <-]%runs_raise_when & Hr).
  apply runs_bind in Hr as (t & w2 & [_ <-]%runs_lift & Hr).
  apply runs_bind in Hr as ([] & w2 & (Hold & Hnew & _ & Hkeep)%create_text_entry & Hr).
  apply runs_ret in Hr as [<- <-]. destruct (names_apart root) as (? & ? & ? & ? & ? & ?).
  split_and!; [done..|]. unfold evidence. intros e1 e2 e3 e4 [= <- <- _ <-]. by rewrite Hnew, !Hkeep by done.
Qed.

Lemma publish_evidence w w' : runs (publish_commit root) w tt w' →
  entry w (root // RESULT) = false ∧
  ∀ e1 e2 e3 e4, evidence w root = (e1, e2, e3, e4) → ∃ e, evidence w' root = (e1, e2, e, true).
Proof.
  destruct (names_apart root) as (? & ? & ? & ? & ? & ?). intros Hr.
  apply rename_new_entry in Hr as (Hold & Hnew & Hkeep); [|done].
  split; [done|]. unfold evidence. intros e1 e2 e3 e4 [= <- <- _ _]. rewrite Hnew, !Hkeep by done. by eexists.
Qed.
End evidence.

(** ** The refinement *)

Section refinement.
Context `{Host} `{Filesystem} `{Secrets} `{!FilesystemLaws} (state : json) (root : string).
Context (Hroot : names_root state root).

Lemma others_wait_insert i j s ps : i ≠ j → waiting root s → others_wait root i ps → others_wait root i (<[j := s]> ps).
Proof.
  intros Hij Hs Hps k s' [[<- <-]|[Hk Hs']]%lookup_insert_Some Hki; [done|by apply (Hps k)].
Qed.

Lemma others_wait_own i s ps : others_wait root i ps → others_wait root i (<[i := s]> ps).
Proof. intros Hps k s' [[<- _]|[Hk Hs']]%lookup_insert_Some Hki; [done|by apply (Hps k)]. Qed.

Lemma others_wait_same i j s ps : others_wait root i ps → ps !! j = Some s → ¬ waiting root s → j = i.
Proof. intros Hps Hj Hs. destruct (decide (j = i)) as [|Hne]; [done|]. by destruct Hs; apply (Hps j). Qed.

Lemma simulate_handoff p w h w' ps : runs (create_handoff state) w h w' → implements root p (System w ps) →
  p = Fresh ∧ implements root Offered (System w' ps).
Proof.
  intros Hr Hi. apply (handoff_evidence state root Hroot) in Hr as [Hold Hnew]. destruct p; simpl in *; destruct Hi as [He Hi]; try congruence.
  - split_and!; [done..|]. eapply map_Forall_impl; [exact Hi|]. by intros i s ->.
  - destruct He. congruence.
Qed.

Lemma simulate_check p i w rh w' ps : ps !! i = Some Idle → runs (claim_check state) w rh w' →
  implements root p (System w ps) → implements root p (System w' (<[i := Checked rh.1 rh.2]> ps)).
Proof.
  intros Hi Hr Hp. apply (check_evidence state root Hroot) in Hr as (-> & -> & Hready & Hres).
  destruct p as [| |j|j|j]; simpl in *; unfold evidence in *.
  - destruct Hp as [He _]. congruence.
  - destruct Hp as [He Hp]. split; [done|]. by apply map_Forall_insert_2.
  - destruct Hp as (He & [h Hj] & Hp). assert (j ≠ i) by (intros ->; congruence).
    split_and!; [done|exists h; by rewrite lookup_insert_ne|by apply others_wait_insert].
  - destruct Hp as (He & Hj & Hp). assert (j ≠ i) by (intros ->; congruence).
    split_and!; [done|by rewrite lookup_insert_ne|by apply others_wait_insert].
  - destruct Hp as ([e He] & Hj & Hp). congruence.
Qed.

Lemma simulate_claim p i w r h w' ps : ps !! i = Some (Checked r h) → runs (claim_commit r h) w tt w' →
  implements root p (System w ps) → p = Offered ∧ implements root (Owned i) (System w' (<[i := Claiming h]> ps)).
Proof.
  intros Hi Hr Hp. assert (r = root) as ->.
  { destruct p as [| |j|j|j]; simpl in Hp; [by destruct Hp as [_ Hp]; apply Hp in Hi|by destruct Hp as [_ Hp]; apply Hp in Hi|..].
    all: destruct Hp as (_ & Hj & Hp). all: destruct (decide (i = j)) as [<-|Hne]; [naive_solver|].
    all: by apply (Hp i) in Hi. }
  apply commit_evidence in Hr as [Hold Hnew].
  destruct p as [| |j|j|j]; simpl in Hp; unfold evidence in Hp.
  - destruct Hp as [_ Hp]. by apply Hp in Hi.
  - destruct Hp as [He Hp]. split; [done|]. simpl. split_and!; [by apply (Hnew _ _ _ _ He)|exists h; apply lookup_insert_eq|].
    apply others_wait_own. intros k s Hk _. by apply (Hp k).
  - destruct Hp as [He _]. congruence.
  - destruct Hp as [He _]. congruence.
  - destruct Hp as [[e He] _]. congruence.
Qed.

Lemma simulate_pending p i w h result r w' ps : ps !! i = Some (Claiming h) → runs (publish_check state result) w r w' →
  implements root p (System w ps) → p = Owned i ∧ implements root (Finishing i) (System w' (<[i := Pending r]> ps)).
Proof.
  intros Hi Hr Hp. apply (pending_evidence state root Hroot) in Hr as (-> & Hres & Hpend & Hnew).
  destruct p as [| |j|j|j]; simpl in Hp; unfold evidence in Hp.
  - destruct Hp as [_ Hp]. by apply Hp in Hi.
  - destruct Hp as [_ Hp]. by apply Hp in Hi.
  - destruct Hp as (He & _ & Hp). assert (i = j) as <- by (apply (others_wait_same j i _ _ Hp Hi); by intros ?).
    split; [done|]. simpl. split_and!; [by apply (Hnew _ _ _ _ He)|apply lookup_insert_eq|by apply others_wait_own].
  - destruct Hp as (He & _). congruence.
  - destruct Hp as ([e He] & _). congruence.
Qed.

Lemma simulate_publish p i w r w' ps : ps !! i = Some (Pending r) → runs (publish_commit r) w tt w' →
  implements root p (System w ps) → p = Finishing i ∧ implements root (Finished i) (System w' (<[i := Published]> ps)).
Proof.
  intros Hi Hr Hp. destruct p as [| |j|j|j]; simpl in Hp.
  1, 2: destruct Hp as [_ Hp]; by apply Hp in Hi.
  all: destruct Hp as (He & Hj & Hp); assert (i = j) as <- by (apply (others_wait_same j i _ _ Hp Hi); by intros ?).
  - naive_solver.
  - rewrite Hi in Hj. injection Hj as ->. apply publish_evidence in Hr as [_ Hnew]. split; [done|]. simpl.
    split_and!; [by apply (Hnew _ _ _ _ He)|apply lookup_insert_eq|by apply others_wait_own].
  - congruence.
Qed.

Lemma step_simulated p s s' : implements root p s → step state root s s' →
  ∃ p', rtc protocol_step p p' ∧ implements root p' s'.
Proof.
  intros Hp Hs. inversion Hs as [w ps h w' Hr|i w ps rh w' Hi Hr|i w ps r h w' Hi Hr|i w ps h res r w' Hi Hr|i w ps r w' Hi Hr|w ps w' He];
    subst; clear Hs.
  - destruct (simulate_handoff p w h w' ps Hr Hp) as [-> Hr']. exists Offered. split; [apply rtc_once; constructor|done].
  - exists p. split; [done|]. by apply (simulate_check p i w).
  - destruct (simulate_claim p i w r h w' ps Hi Hr Hp) as [-> Hr']. eexists. split; [apply rtc_once; constructor|done].
  - destruct (simulate_pending p i w h res r w' ps Hi Hr Hp) as [-> Hr']. eexists. split; [apply rtc_once; constructor|done].
  - destruct (simulate_publish p i w r w' ps Hi Hr Hp) as [-> Hr']. eexists. split; [apply rtc_once; constructor|done].
  - exists p. split; [done|]. destruct p; simpl in *; by rewrite He.
Qed.

Lemma steps_simulated p s s' : implements root p s → rtc (step state root) s s' →
  ∃ p', rtc protocol_step p p' ∧ implements root p' s'.
Proof.
  intros Hp Hs. revert p Hp. induction Hs as [s|s1 s2 s3 Hs _ IH]; intros p Hp; [by exists p|].
  eapply step_simulated in Hs as (p1 & Hp1 & Hs); [|done]. apply IH in Hs as (p2 & Hp2 & Hs).
  exists p2. split; [by etrans|done].
Qed.

(** A fixture without evidence and phases that have not begun. *)
Definition starts_fresh (s : system) : Prop := implements root Fresh s.

(** C21. The handoff refines the protocol with one owner. From a fixture without
    evidence, however the steps of the administrator phase and of any number of
    standard-user phases interleave, with anything else on the machine that
    leaves the evidence alone in between, the files on disk and the progress of
    every phase are those of a run of the protocol: offered once, owned by one
    phase, finished by that phase. *)
Theorem handoff_refines (s s' : system) (Hstart : starts_fresh s) (Hsteps : rtc (step state root) s s') :
  ∃ p, rtc protocol_step Fresh p ∧ implements root p s'.
Proof. by apply (steps_simulated Fresh s). Qed.

(** C22. At most one standard-user phase gets beyond the claim: of two phases
    that have claimed, written or published in the same reachable state, both
    are the same one. *)
Theorem one_owner (s s' : system) (i j : nat) (a b : stage) (Hstart : starts_fresh s)
    (Hsteps : rtc (step state root) s s') (Hi : s_phases s' !! i = Some a) (Hj : s_phases s' !! j = Some b)
    (Ha : ¬ waiting root a) (Hb : ¬ waiting root b) : i = j.
Proof.
  eapply steps_simulated in Hsteps as (p & _ & Hp); [|exact Hstart]. destruct p as [| |k|k|k]; simpl in Hp.
  1: by destruct Hp as [_ Hp]; apply Hp in Hi as ->.
  1: by destruct Hp as [_ Hp]; apply Hp in Hi.
  all: destruct Hp as (_ & _ & Hp); by rewrite (others_wait_same k i a (s_phases s')), (others_wait_same k j b (s_phases s')).
Qed.
End refinement.

(** ** What is claimed and what is accepted *)

(** The evidence file holds this value. *)
Definition recorded `{Host} `{Filesystem} (w : world) (root name : string) (v : json) : Prop :=
  ∃ bytes text, w_fs w !! abspath (root // name) = Some (File bytes) ∧ nlink (abspath (root // name)) w = 1 ∧
    len bytes ≤ 8192 ∧ decode bytes = Ok text ∧ loads (universal_newlines text) = Ok v.

(** A member that equals a value. *)
Definition has_field (v : json) (key : string) (x : json) : Prop :=
  ∃ y, jget_or_null key v = Ok y ∧ jeq y x = true.

(** The result of the phase [handoff], with every check once. *)
Definition result_for (handoff result : json) : Prop :=
  (∃ phase binding, jitem "phaseId" handoff = Ok phase ∧ jitem "fixtureBinding" handoff = Ok binding ∧
    has_field result "format" (JStr "isolated-standard-result-v1") ∧ has_field result "phaseId" phase ∧
    has_field result "fixtureBinding" binding) ∧
  has_field result "status" (JStr "passed") ∧ jget_or_null "elevated" result = Ok (JBool false) ∧
  ∃ checks, jget_or_null "checks" result = Ok (JArr (JStr <$> checks)) ∧ checks ≡ₚ CHECKS.

Lemma any_differs_false result binding : any_differs result binding = Ok false ↔
  Forall (λ kv, has_field result (fst kv) (snd kv)) binding.
Proof.
  induction binding as [|[key value] binding IH]; cbn [any_differs]; [by split|].
  rewrite Forall_cons, <- IH, res_bind_Ok. unfold has_field. cbn [fst snd]. split.
  - intros (v & Hv & Hr). destruct (jeq v value) eqn:E; [|done]. eauto.
  - intros [(v & Hv & E) Hr]. exists v. by rewrite E.
Qed.

Lemma strings_of l : forallb is_string l = true → ∃ checks, l = JStr <$> checks.
Proof.
  induction l as [|v l IH]; cbn [forallb]; [by exists []|]. intros [Hv Hl]%andb_prop.
  destruct (IH Hl) as [checks ->]. destruct v as [| | | |s| |]; try done. by exists (s :: checks).
Qed.

Lemma checks_complete_perm v : checks_complete v = true → ∃ checks, v = JArr (JStr <$> checks) ∧ checks ≡ₚ CHECKS.
Proof.
  unfold checks_complete. destruct v as [| | | | |l|]; try done.
  rewrite !andb_true_iff. intros [[[Hs Hlen%Nat.eqb_eq] Hin] _].
  destruct (strings_of l Hs) as [checks ->]. exists checks. split; [done|]. symmetry.
  rewrite length_fmap in Hlen. apply submseteq_length_Permutation; [|lia].
  apply NoDup_submseteq; [apply (bool_decide_unpack _); by vm_compute|].
  intros c Hc. rewrite forallb_forall in Hin. apply list_elem_of_In, Hin, existsb_exists in Hc as (v & Hv & Hc).
  apply list_elem_of_In, list_elem_of_fmap in Hv as (s & -> & Hs'). simpl in Hc. by apply String.eqb_eq in Hc as ->.
Qed.

Lemma result_complete result handoff : result_incomplete result handoff = Ok false → result_for handoff result.
Proof.
  unfold result_incomplete, result_binding. intros Hr.
  apply res_bind_Ok in Hr as (checks & Hc & Hr). apply res_bind_Ok in Hr as (binding & Hb & Hr).
  apply res_bind_Ok in Hb as (phase & Hphase & Hb). apply res_bind_Ok in Hb as (bound & Hbound & Hb).
  apply (inj Ok) in Hb as <-. apply res_bind_Ok in Hr as ([] & Hd & Hr); [done|].
  apply any_differs_false in Hd. rewrite !Forall_cons in Hd. destruct Hd as (Hf & Hp & Hbd & _).
  apply res_bind_Ok in Hr as (status & Hst & Hr). destruct (jeq status _) eqn:Es; [|done].
  apply res_bind_Ok in Hr as (elevated & He & Hr). cbn [negb] in Hr.
  destruct elevated as [|[]| | | | |]; try done. apply (inj Ok) in Hr.
  apply negb_false_iff, checks_complete_perm in Hr as (l & -> & Hl).
  split_and!; [exists phase, bound; by split_and!|by exists status|done|by exists l].
Qed.

Section accepted.
Context `{Host} `{Filesystem} `{Secrets}.

Lemma runs_bounded_file p limit w w' : runs (bounded_file p limit) w true w' →
  w' = w ∧ nlink p w = 1 ∧ ∃ bytes, w_fs w !! p = Some (File bytes) ∧ len bytes ≤ limit.
Proof.
  unfold bounded_file. intros Hr. apply runs_bind in Hr as (n & w1 & Hn & Hr). injection Hn as <- <-.
  destruct (Z.eqb_spec (nlink p w) 1) as [Hone|]; [|by apply runs_ret in Hr as [? _]].
  apply runs_bind in Hr as (size & w1 & Hs & Hr). unfold file_size in Hs.
  apply runs_bind in Hs as (b & w2 & [<- Hb]%runs_read_bytes & Hs). apply runs_ret in Hs as [<- <-].
  apply runs_ret in Hr as [Hle%Z.leb_le <-]. split_and!; [done|done|by exists b].
Qed.

Lemma runs_read_owned root name w v w' : runs (read_owned root name) w v w' → w' = w ∧ recorded w root name v.
Proof.
  intros Hr. assert (w' = w) as -> by (eapply runs_same; [apply same_read_owned|done]). split; [done|].
  unfold read_owned in Hr.
  apply runs_bind in Hr as (a & w1 & (-> & -> & _ & b & _ & _ & Hb)%runs_fixture_artifact & Hr).
  apply runs_bind in Hr as (ok & w1 & Hok & Hr).
  apply runs_bind in Hr as ([] & w2 & [->%negb_false_iff <-]%runs_raise_when & Hr).
  apply runs_bounded_file in Hok as (-> & Hlinks & b' & Hb' & Hlen).
  apply runs_bind in Hr as (text & w1 & [<- (b2 & t & Hb2 & Ht & ->)]%runs_read_text & Hr).
  apply runs_bind in Hr as (value & w1 & [Hv <-]%runs_lift & Hr).
  apply runs_bind in Hr as ([] & w1 & [_ <-]%runs_raise_when & Hr). apply runs_ret in Hr as [<- _].
  exists b2, t. rewrite Hb2 in Hb'. by simplify_eq.
Qed.

(** A result is accepted only when it is the complete result of this
    handoff for this fixture: the handoff is bound to the fixture as it is now,
    the claim on disk is this handoff, the result on disk carries its phase and
    binding, passed without elevation, and lists each of the nine checks exactly
    once. The check changes nothing. *)
Theorem accepted_result (state handoff : json) (w w' : world) (Hrun : runs (verify_result state handoff) w tt w') :
  w' = w ∧ ∃ path binding bound claim result,
    path_item "root" state = Ok path ∧ runs (fixture_binding state) w binding w ∧
    jitem "fixtureBinding" handoff = Ok bound ∧ jeq bound (JStr binding) = true ∧
    recorded w (abspath path) CLAIM claim ∧ jeq claim handoff = true ∧
    recorded w (abspath path) RESULT result ∧ result_for handoff result.
Proof.
  unfold verify_result in Hrun. apply runs_bind in Hrun as (path & w1 & [Hpath <-]%runs_lift & Hr).
  apply runs_bind in Hr as (root & w1 & [-> ->]%runs_fixture_root & Hr).
  apply runs_bind in Hr as (bound & w1 & [Hbound <-]%runs_lift & Hr).
  apply runs_bind in Hr as (binding & w1 & Hb & Hr).
  pose proof (runs_same _ _ _ _ (same_binding state) Hb) as ->.
  apply runs_bind in Hr as (c & w1 & Hc & Hr). apply runs_bind in Hr as ([] & w2 & [-> <-]%runs_raise_when & Hr).
  destruct (jeq bound (JStr binding)) eqn:Eb; [|by apply runs_ret in Hc as [? _]]. cbn [negb] in Hc.
  apply runs_bind in Hc as (claim & w2 & [-> Hclaim]%runs_read_owned & Hc).
  apply runs_ret in Hc as [Ec%negb_false_iff <-].
  apply runs_bind in Hr as (result & w2 & [-> Hres]%runs_read_owned & Hr).
  apply runs_bind in Hr as (i & w2 & [Hi <-]%runs_lift & Hr). apply runs_raise_when in Hr as [-> <-].
  split; [done|]. exists path, binding, bound, claim, result. by apply result_complete in Hi.
Qed.

Lemma runs_create_text p t w w' : runs (create_text p t) w tt w' → w_fs w' = <[p := File (text_bytes t)]> (w_fs w).
Proof.
  unfold create_text, create_bytes, runs. destruct (linked p w); [done|].
  destruct (w_fs w !! p); [done|]. by intros [= <-].
Qed.

Lemma offered (state : json) (root : string) w h w' : names_root state root → runs (create_handoff state) w h w' →
  ∃ token binding text, h = handoff_value token binding ∧ dumps h = Ok text ∧
    w_fs w' !! (root // READY) = Some (File (text_bytes text)).
Proof.
  intros (Hitem & Habs & _). unfold create_handoff. rewrite Hitem. intros Hr.
  apply runs_bind in Hr as ([] & w1 & _ & Hr). apply runs_bind in Hr as (p & w2 & [[= <-] <-]%runs_lift & Hr).
  apply runs_bind in Hr as (r & w2 & [-> ->]%runs_fixture_root & Hr). rewrite Habs in Hr.
  apply runs_bind in Hr as (w2 & w3 & [= <- <-] & Hr). apply runs_bind in Hr as (b & w2 & _ & Hr).
  apply runs_bind in Hr as (t & w3 & [Ht <-]%runs_lift & Hr).
  apply runs_bind in Hr as ([] & w3 & Hc & Hr). apply runs_ret in Hr as [<- <-].
  apply runs_create_text in Hc. eexists _, _, t. rewrite Hc, lookup_insert_eq. done.
Qed.

Lemma handoff_readable token binding text s : dumps (handoff_value token binding) = Ok text →
  decode (text_bytes text) = Ok s → loads (universal_newlines s) = Ok (handoff_value token binding).
Proof.
  intros Ht%from_option_Ok Hs. unfold decode, text_bytes in Hs. rewrite utf8_roundtrip in Hs.
  apply (inj Ok) in Hs as <-. rewrite newlines_undone by (by eapply no_cr_render; [..|exact Ht]).
  eapply loads_dumps_strings; [done|apply (bool_decide_unpack _); by vm_compute|done|exact Ht].
Qed.

(** C23. The handoff that is claimed is the one that was offered: as long as the
    offered file has not changed, a claim, whenever and by whomever it is made,
    returns exactly the value the administrator phase returned, and leaves a
    claim with the same text. *)
Theorem claim_returns_offer (state : json) (root : string) (w w1 w2 w3 : world) (h h' : json)
    (Hroot : names_root state root) (Hoffer : runs (create_handoff state) w h w1)
    (Hkept : w_fs w2 !! (root // READY) = w_fs w1 !! (root // READY))
    (Hclaim : runs (claim_handoff state) w2 h' w3) :
  h' = h ∧ w_fs w3 !! (root // CLAIM) = w_fs w1 !! (root // READY).
Proof.
  destruct (offered _ _ _ _ _ Hroot Hoffer) as (token & binding & text & -> & Ht & Hfile).
  pose proof Hroot as (Hitem & Habs & Hready). rewrite Hfile in Hkept.
  unfold claim_handoff in Hclaim. apply runs_bind in Hclaim as ([r h2] & w4 & Hc & Hr).
  apply runs_bind in Hr as ([] & w5 & Hcommit & Hr). apply runs_ret in Hr as [<- <-].
  unfold claim_check in Hc. rewrite Hitem in Hc.
  apply runs_bind in Hc as (p & w6 & [[= <-] <-]%runs_lift & Hc).
  apply runs_bind in Hc as (r' & w6 & [-> ->]%runs_fixture_root & Hc). rewrite Habs in Hc.
  apply runs_bind in Hc as (e & w6 & [-> _]%runs_has_entry & Hc).
  apply runs_bind in Hc as ([] & w6 & [_ <-]%runs_raise_when & Hc).
  apply runs_bind in Hc as (e2 & w6 & [-> _]%runs_has_entry & Hc).
  apply runs_bind in Hc as ([] & w6 & [_ <-]%runs_raise_when & Hc).
  apply runs_bind in Hc as (h3 & w6 & [-> (bytes & s & Hb & _ & _ & Hs & Hl)]%runs_read_owned & Hc).
  rewrite Hready, Hkept in Hb. apply (inj Some) in Hb. injection Hb as <-.
  assert (h3 = handoff_value token binding) as -> by (by apply (inj Ok); rewrite <- Hl; apply (handoff_readable _ _ text)).
  apply runs_bind in Hc as (d & w6 & _ & Hc). apply runs_bind in Hc as ([] & w7 & _ & Hc).
  apply runs_ret in Hc as [[= <- <-] <-]. split; [done|].
  unfold claim_commit in Hcommit. apply runs_bind in Hcommit as (t & w8 & [Ht' <-]%runs_lift & Hcommit).
  rewrite Ht in Ht'. apply (inj Ok) in Ht' as <-. apply runs_create_text in Hcommit.
  by rewrite Hcommit, lookup_insert_eq, Hfile.
Qed.
End accepted.

(** ** At work *)

Definition example_secrets : Secrets := {| token_hex := λ _ _, sha256_hex "token" |}.
Definition example_state : json :=
  JObj [("root", JStr fixture_dir); ("identity", JStr "PlugAgenteHomologacao_0123456789ab");
        ("installerSha256", JStr "a"); ("payloadTreeSha256", JStr "b")].
Definition example_handoff : json :=
  match fst (fixture_binding (H:=fixture_host) (H0:=linkless) example_state fixture_world) with
  | Ok binding => handoff_value (sha256_hex "token") binding
  | Raise _ => JNull
  end.
Definition example_result : json :=
  JObj [("status", JStr "passed"); ("elevated", JBool false); ("checks", JArr (JStr <$> CHECKS));
        ("format", JStr "isolated-standard-result-v1");
        ("phaseId", default JNull (match jget "phaseId" example_handoff with Ok o => o | _ => None end));
        ("fixtureBinding", default JNull (match jget "fixtureBinding" example_handoff with Ok o => o | _ => None end))].

#[export] Instance linkless_laws : FilesystemLaws (H:=linkless).
Proof. by split. Qed.

Definition offered_world : world :=
  snd (create_handoff (H:=fixture_host) (H0:=linkless) (H1:=example_secrets) example_state fixture_world).
Definition claimed_world : world :=
  snd (claim_handoff (H:=fixture_host) (H0:=linkless) example_state offered_world).
Definition pending_world : world :=
  snd (publish_check (H:=fixture_host) (H0:=linkless) example_state example_result claimed_world).
Definition published_world : world := snd (publish_commit (H0:=linkless) fixture_dir pending_world).

Lemma example_root : names_root (H:=fixture_host) (H0:=linkless) example_state fixture_dir.
Proof. split_and!; vm_compute; reflexivity. Qed.
Lemma example_offer : runs (create_handoff (H:=fixture_host) (H0:=linkless) (H1:=example_secrets) example_state)
  fixture_world example_handoff offered_world.
Proof. run_vm. Qed.
Lemma example_check : runs (claim_check (H:=fixture_host) (H0:=linkless) example_state) offered_world
  (fixture_dir, example_handoff) offered_world.
Proof. run_vm. Qed.
Lemma example_commit : runs (claim_commit (H:=fixture_host) (H0:=linkless) fixture_dir example_handoff)
  offered_world tt claimed_world.
Proof. run_vm. Qed.
Lemma example_pending : runs (publish_check (H:=fixture_host) (H0:=linkless) example_state example_result)
  claimed_world fixture_dir pending_world.
Proof. run_vm. Qed.
Lemma example_publish : runs (publish_commit (H0:=linkless) fixture_dir) pending_world tt published_world.
Proof. run_vm. Qed.

(** Two phases check the same handoff, one of them claims it and publishes. *)
Definition two_phases : gmap nat stage := {[0%nat := Idle; 1%nat := Idle]}.
Definition both_checked : gmap nat stage :=
  <[1%nat := Checked fixture_dir example_handoff]> (<[0%nat := Checked fixture_dir example_handoff]> two_phases).
Definition one_published : gmap nat stage :=
  <[0%nat := Published]> (<[0%nat := Pending fixture_dir]> (<[0%nat := Claiming example_handoff]> both_checked)).

Lemma example_steps : rtc (step (H:=fixture_host) (H0:=linkless) (H1:=example_secrets) example_state fixture_dir)
  (System fixture_world two_phases) (System published_world one_published).
Proof.
  eapply rtc_l; [apply StepHandoff with (h := example_handoff), example_offer|].
  eapply rtc_l; [apply StepCheck with (i := 0%nat), example_check; by vm_compute|].
  eapply rtc_l; [apply StepCheck with (i := 1%nat), example_check; by vm_compute|].
  eapply rtc_l; [apply StepClaim with (i := 0%nat) (r := fixture_dir) (h := example_handoff), example_commit; by vm_compute|].
  eapply rtc_l; [apply StepPending with (i := 0%nat) (h := example_handoff) (result := example_result) (r := fixture_dir), example_pending; by vm_compute|].
  eapply rtc_l; [apply StepPublish with (i := 0%nat) (r := fixture_dir), example_publish; by vm_compute|]. apply rtc_refl.
Qed.

Lemma example_start : starts_fresh (H0:=linkless) fixture_dir (System fixture_world two_phases).
Proof.
  split; [by vm_compute|]. intros i s. unfold two_phases. simpl.
  intros [[_ <-]|[_ [_ <-]%lookup_singleton_Some]]%lookup_insert_Some; done.
Qed.

Theorem handoff_refines_witness :
  ∃ p, rtc protocol_step Fresh p ∧ implements (H0:=linkless) fixture_dir p (System published_world one_published).
Proof.
  apply (handoff_refines (H:=fixture_host) (H0:=linkless) (H1:=example_secrets) example_state fixture_dir
    example_root (System fixture_world two_phases)); [exact example_start|exact example_steps].
Defined.

Theorem one_owner_witness : ¬ waiting fixture_dir Published ∧ (0 = 0)%nat.
Proof.
  split; [by intros []|].
  apply (one_owner (H:=fixture_host) (H0:=linkless) (H1:=example_secrets) example_state fixture_dir example_root
    (System fixture_world two_phases) (System published_world one_published) 0 0 Published Published
    example_start example_steps); [by vm_compute|by vm_compute|by intros []|by intros []].
Defined.

Theorem accepted_result_witness :
  ∃ path binding bound claim result,
    path_item "root" example_state = Ok path ∧
    runs (fixture_binding (H:=fixture_host) (H0:=linkless) example_state) published_world binding published_world ∧
    jitem "fixtureBinding" example_handoff = Ok bound ∧ jeq bound (JStr binding) = true ∧
    recorded (H:=fixture_host) (H0:=linkless) published_world (abspath (H:=fixture_host) (H0:=linkless) path) CLAIM claim ∧
    jeq claim example_handoff = true ∧
    recorded (H:=fixture_host) (H0:=linkless) published_world (abspath (H:=fixture_host) (H0:=linkless) path) RESULT result ∧
    result_for example_handoff result.
Proof.
  apply (accepted_result (H:=fixture_host) (H0:=linkless) example_state example_handoff published_world published_world).
  run_vm.
Defined.

Theorem claim_returns_offer_witness :
  example_handoff = example_handoff ∧ w_fs claimed_world !! (fixture_dir // CLAIM) = w_fs offered_world !! (fixture_dir // READY).
Proof.
  apply (claim_returns_offer (H:=fixture_host) (H0:=linkless) (H1:=example_secrets) example_state fixture_dir
    fixture_world offered_world offered_world claimed_world); [exact example_root|exact example_offer|done|].
  run_vm.
Defined.
