(* ===== verification/LifecyclePayload.v ===== *)
(** * The payload of a lifecycle fixture (tool/updater/lifecycle_payload.py)

    The inventory of a fixture's payload: which inventories are well formed,
    their hash, the walk that captures the inventory of the files on disk, and
    the comparison of the two. The walk keeps a stack of directories; its fuel
    is one more than the number of entries on disk, which is proved enough. *)

From S2P Require Import Prelude PyStr PyRe PyHash PyJson Effects TextFiles WindowsFixture.
From S2P Require BuildInstaller UpdaterManifest.

Local Open Scope Z_scope.

(** src: tool/updater/lifecycle_payload.py:13-13 REQUIRED_PAYLOAD_FILES *)
Definition REQUIRED_PAYLOAD_FILES : list string := BuildInstaller.PROJECT_EXECUTABLES ++ ["data/app.so"].
(** src: tool/updater/lifecycle_payload.py:14-14 MAX_PAYLOAD_FILES *)
Definition MAX_PAYLOAD_FILES : Z := 4096.

(** [PurePosixPath(name).parts] without the root, and [as_posix()]. *)
Definition posix_parts (name : string) : list string :=
  List.filter (λ s, nonempty s && (s != ".")) (split_char "/" name).
Definition posix_root (name : string) : string :=
  if startswith name "/" then (if startswith name "//" && negb (startswith name "///") then "//" else "/") else EmptyString.
Definition as_posix (name : string) : string :=
  match posix_parts name with
  | [] => str_or (posix_root name) "."
  | parts => posix_root name +:+ join "/" parts
  end.

Definition entry_char (c : ascii) : bool := negb (Ascii.eqb c "\" || Ascii.eqb c ":" || (ord c <=? 31)%N).
Definition entry_name_re : regex := plus (RChar entry_char).

(** One entry of an inventory is malformed. *)
Definition bad_entry (name : string) (digest : json) : bool :=
  negb (fullmatch entry_name_re name) || startswith name "/" || (as_posix name != name) ||
  existsb (λ part, one_of part ["."; ".."]) (posix_parts name) ||
  negb (match digest with JStr s => is_hex64 s | _ => false end).

(** src: tool/updater/lifecycle_payload.py:17-28 validate_payload_files *)
Definition validate_payload_files (value : json) : res (list (string * json)) :=
  match value with
  | JObj files =>
      _ ← raise_if (match files with [] => true | _ => MAX_PAYLOAD_FILES <? Z.of_nat (length files) end)
            (RuntimeError "Invalid fixture payload inventory");
      _ ← for_each (λ nd, raise_if (bad_entry (fst nd) (snd nd)) (RuntimeError "Invalid fixture payload inventory entry")) files;
      _ ← raise_if (negb (forallb (λ name, one_of name files.*1) REQUIRED_PAYLOAD_FILES))
            (RuntimeError "Required fixture payload files are missing");
      Ok files
  | _ => Raise (RuntimeError "Invalid fixture payload inventory")
  end.

(** src: tool/updater/lifecycle_payload.py:31-33 payload_tree_hash *)
Definition payload_tree_hash (files : list (string * json)) : res string :=
  _ ← validate_payload_files (JObj files);
  text ← from_option (dumps_compact false (JObj files)) (TypeError "Object is not JSON serializable");
  Ok (sha256_hex (utf8_encode text)).

(** [relative.as_posix()] *)
Definition relative_name (parts : list string) : string := match parts with [] => "." | _ => join "/" parts end.

Section payload.
Context `{Host} `{Filesystem}.

(** [sorted(directory.iterdir())] *)
Definition sorted_entries (directory : string) (w : world) : list string :=
  (sort_keys ((λ p, (path_key p, p)) <$> iterdir directory w)).*2.

(** One entry of a directory: the stack and the files with it. *)
Definition capture_entry (root payload path : string) (pending : list string) (files : list (string * json))
    : M (list string * list (string * json)) :=
  _ ← reject_reparse path;
  directory ← is_dir path;
  if (directory : bool) then mret (path :: pending, files)
  else
    regular ← is_file path;
    _ ← raise_when (negb regular) (RuntimeError "Fixture payload contains a non-regular entry");
    links ← link_count path;
    _ ← raise_when (negb (links =? 1)) (RuntimeError "Hard-linked or unproven fixture payload file is refused");
    _ ← raise_when (MAX_PAYLOAD_FILES <=? Z.of_nat (length files))
          (RuntimeError "Fixture payload inventory exceeds its limit");
    artifact ← require_fixture_artifact root path;
    bytes ← read_bytes artifact;
    parts ← lift (from_option (relative_parts artifact payload) (ValueError "path is not in the subpath"));
    mret (pending, assoc_set (relative_name parts) (JStr (sha256_hex bytes)) files).

Fixpoint capture_entries (root payload : string) (paths pending : list string) (files : list (string * json))
    : M (list string * list (string * json)) :=
  match paths with
  | [] => mret (pending, files)
  | path :: paths =>
      '(pending, files) ← capture_entry root payload path pending files;
      capture_entries root payload paths pending files
  end.

(** The walk, the last directory found first; [None] when the fuel runs out. *)
Fixpoint capture_loop (fuel : nat) (root payload : string) (pending : list string) (files : list (string * json))
    : M (option (list (string * json))) :=
  match pending with
  | [] => mret (Some files)
  | directory :: pending =>
      match fuel with
      | O => mret None
      | S fuel =>
          w ← get_world;
          '(pending, files) ← capture_entries root payload (sorted_entries directory w) pending files;
          capture_loop fuel root payload pending files
      end
  end.

(** src: tool/updater/lifecycle_payload.py:36-60 capture_payload
    The exception of a walk without fuel is never raised. *)
Definition capture_payload (root : string) : M (list (string * json)) :=
  root ← require_fixture_root root false;
  let payload := root // "payload" in
  _ ← reject_reparse payload;
  directory ← is_dir payload;
  _ ← raise_when (negb directory) (RuntimeError "Fixture payload directory is missing");
  w ← get_world;
  found ← capture_loop (S (size (w_fs w))) root payload [payload] [];
  files ← lift (from_option found (ForeignError "out of fuel"));
  lift (validate_payload_files (JObj files)).

(** src: tool/updater/lifecycle_payload.py:63-68 verify_payload *)
Definition verify_payload (root : string) (expected tree_hash : json) : M unit :=
  files ← lift (validate_payload_files expected);
  mismatch ← lift (match tree_hash with
                   | JStr s => h ← payload_tree_hash files; Ok (s != h)
                   | _ => Ok true
                   end);
  _ ← raise_when mismatch (RuntimeError "Fixture payload inventory hash mismatch");
  captured ← capture_payload root;
  raise_when (negb (jeq (JObj captured) (JObj files)))
    (RuntimeError "Fixture payload changed; reprovision before lifecycle execution").
End payload.

(** ** The walk *)

Lemma length_posix p : String.length (posix p) = String.length p.
Proof.
  unfold posix, replace. induction p as [|c p IH]; [done|]. cbn [replace_go]. rewrite startswith_char.
  destruct (Ascii.eqb _ c); cbn [String.append String.length Nat.sub]; by rewrite IH.
Qed.

Lemma length_rstrip_by f s : (String.length (rstrip_by f s) ≤ String.length s)%nat.
Proof.
  induction s as [|c s IH]; [done|]. cbn [rstrip_by]. destruct (rstrip_by f s) as [|d r]; [destruct (f c)|]; simpl in *; lia.
Qed.

Lemma length_path_parent p : p ≠ EmptyString → (String.length (path_parent p) < String.length p)%nat.
Proof.
  intros Hp. unfold path_parent. set (q := rstrip_chars "/" (posix p)).
  assert (Hq : (String.length q ≤ String.length p)%nat).
  { unfold q, rstrip_chars, posix. rewrite <- (length_posix p). apply length_rstrip_by. }
  rewrite length_str_take. destruct p; [done|]. simpl in *. lia.
Qed.

Section walk.
Context `{Host} `{Filesystem}.

Definition dir_at (w : world) (p : string) : bool := match w_fs w !! p with Some Dir => true | _ => false end.

(** [p] is listed under [name] with the digest of its content. *)
Definition listed_as (w : world) (payload p : string) (nd : string * json) : Prop :=
  ∃ parts bytes, relative_parts (abspath p) payload = Some parts ∧ w_fs w !! abspath p = Some (File bytes) ∧
    nd = (relative_name parts, JStr (sha256_hex bytes)) ∧ plain_entry w p ∧ nlink p w = 1.

Lemma runs_capture_entry root payload p pending files w r w' :
  runs (capture_entry root payload p pending files) w r w' → w' = w ∧ plain_entry w p ∧
  (dir_at w p = true ∧ r = (p :: pending, files) ∨
   dir_at w p = false ∧ ∃ nd, listed_as w payload p nd ∧ r = (pending, assoc_set nd.1 nd.2 files)).
Proof.
  unfold capture_entry. intros Hr.
  apply runs_bind in Hr as ([] & w1 & [-> Hplain]%runs_reject_reparse & Hr).
  apply runs_bind in Hr as (d & w1 & Hd & Hr). injection Hd as <- <-. unfold dir_at.
  destruct (w_fs w !! p) as [[b|]|] eqn:Hp.
  2: apply runs_ret in Hr as [<- <-]; split_and!; [done|done|by left].
  all: apply runs_bind in Hr as (f & w1 & Hf & Hr); unfold runs, is_file in Hf; rewrite Hp in Hf; injection Hf as <- <-.
  2: by apply runs_bind in Hr as ([] & w2 & [? _]%runs_raise_when & _).
  apply runs_bind in Hr as ([] & w2 & [_ <-]%runs_raise_when & Hr).
  apply runs_bind in Hr as (n & w2 & Hn & Hr). injection Hn as <- <-.
  apply runs_bind in Hr as ([] & w2 & [Hone%negb_false_iff%Z.eqb_eq <-]%runs_raise_when & Hr).
  apply runs_bind in Hr as ([] & w2 & [_ <-]%runs_raise_when & Hr).
  apply runs_bind in Hr as (a & w2 & (-> & -> & _)%runs_fixture_artifact & Hr).
  apply runs_bind in Hr as (bytes & w2 & [<- Hb]%runs_read_bytes & Hr).
  apply runs_bind in Hr as (parts & w2 & [Hparts%from_option_Ok <-]%runs_lift & Hr). apply runs_ret in Hr as [<- <-].
  split_and!; [done|done|]. right. split; [done|]. exists (relative_name parts, JStr (sha256_hex bytes)).
  split; [by exists parts, bytes|done].
Qed.

Lemma assoc_set_keys {A} k (v : A) l : k ∈ (assoc_set k v l).*1 ∧ ∀ x, x ∈ l.*1 → x ∈ (assoc_set k v l).*1.
Proof.
  induction l as [|[k' v'] l [IH1 IH2]]; simpl; [split; [left|by intros x ?%elem_of_nil]|].
  destruct (k =? k')%string eqn:E; simpl.
  - apply String.eqb_eq in E as ->. split; [left|done].
  - split; [by right|]. intros x. rewrite !elem_of_cons. naive_solver.
Qed.

Lemma assoc_set_NoDup {A} k (v : A) l : NoDup l.*1 → NoDup (assoc_set k v l).*1.
Proof.
  destruct (decide (k ∈ l.*1)) as [Hk|Hk].
  - intros Hnd. assert ((assoc_set k v l).*1 = l.*1) as ->; [|done]. clear Hnd. revert Hk.
    induction l as [|[k' v'] l IH]; simpl; [by intros ?%elem_of_nil|].
    destruct (k =? k')%string eqn:E; [by apply String.eqb_eq in E as ->|]. intros [->|Hk]%elem_of_cons.
    + by rewrite String.eqb_refl in E.
    + cbn [fmap list_fmap]. f_equal. by apply IH.
  - intros Hnd. rewrite assoc_set_new, fmap_app by done. apply NoDup_app. split_and!; [done| |apply NoDup_singleton].
    intros x Hx. simpl. by intros ->%list_elem_of_singleton.
Qed.

(** What the entries of a directory add: its directories to the stack, last
    first, and its files to the inventory. *)
Lemma runs_capture_entries root payload paths pending files w pending' files' w' :
  runs (capture_entries root payload paths pending files) w (pending', files') w' →
  w' = w ∧ pending' = List.rev (List.filter (dir_at w) paths) ++ pending ∧
  (∀ nd, nd ∈ files' → nd ∈ files ∨ ∃ p, p ∈ paths ∧ listed_as w payload p nd) ∧
  (∀ k, k ∈ files.*1 → k ∈ files'.*1) ∧ (NoDup files.*1 → NoDup files'.*1) ∧
  (∀ p, p ∈ paths → dir_at w p = false → ∃ nd, listed_as w payload p nd ∧ nd.1 ∈ files'.*1).
Proof.
  revert pending files. induction paths as [|p paths IH]; intros pending files; cbn [capture_entries].
  - intros [[= <- <-] <-]%runs_ret. split_and!; [done|done|by left|done|done|]. by intros p ?%elem_of_nil.
  - intros Hr. apply runs_bind in Hr as ([pd fs] & w1 & (-> & _ & Hp)%runs_capture_entry & Hr).
    apply IH in Hr as (-> & -> & Hfiles & Hkeys & Hnames & Hall). split; [done|]. cbn [List.filter].
    destruct Hp as [[Hd [= -> ->]]|(Hd & nd & Hnd & [= -> ->])]; rewrite Hd.
    + cbn [List.rev]. rewrite <- app_assoc. split_and!; [done| |done|done|].
      * intros nd' [?|(q & ? & ?)]%Hfiles; [by left|right; exists q]. by rewrite elem_of_cons; auto.
      * intros q [->|Hq]%elem_of_cons Hdq; [congruence|by apply Hall].
    + destruct (assoc_set_keys nd.1 nd.2 files) as [Hk1 Hk2]. split_and!; [done| | | |].
      * intros nd' [[?| ->]%assoc_set_elem|(q & ? & ?)]%Hfiles; [by left|right; exists p|right; exists q].
        -- rewrite elem_of_cons. split; [by left|by destruct nd].
        -- rewrite elem_of_cons. auto.
      * intros k Hk. by apply Hkeys, Hk2.
      * intros Hn. by apply Hnames, assoc_set_NoDup.
      * intros q [->|Hq]%elem_of_cons Hdq; [|by apply Hall]. exists nd. split; [done|by apply Hkeys].
Qed.

Lemma sorted_entries_perm d w : sorted_entries d w ≡ₚ iterdir d w.
Proof.
  unfold sorted_entries. rewrite sort_keys_perm. by rewrite <- list_fmap_compose, list_fmap_id.
Qed.

Lemma elem_of_sorted_entries p d w : p ∈ sorted_entries d w ↔ is_Some (w_fs w !! p) ∧ path_parent p = d ∧ p ≠ d.
Proof.
  rewrite sorted_entries_perm. unfold iterdir. rewrite list_elem_of_In, filter_In, <- list_elem_of_In.
  rewrite andb_true_iff, negb_true_iff, String.eqb_eq, String.eqb_neq. rewrite list_elem_of_fmap. split.
  - intros [([q n] & -> & Hn%elem_of_map_to_list) ?]. simpl in *. by rewrite Hn.
  - intros [[n Hn] ?]. split; [|done]. exists (p, n). by rewrite elem_of_map_to_list.
Qed.

Lemma NoDup_sorted_entries d w : NoDup (sorted_entries d w).
Proof. rewrite sorted_entries_perm. apply NoDup_ListNoDup, List.NoDup_filter, NoDup_ListNoDup, NoDup_fst_map_to_list. Qed.
End walk.

(** ** Everything below the payload, once *)

Section reach.
Context `{Host} `{Filesystem} (w : world) (payload : string).

(** The entries the walk can reach: the payload, and what is in a reachable
    directory. *)
Inductive reach : string → Prop :=
| reach_root : reach payload
| reach_entry p : reach (path_parent p) → dir_at w (path_parent p) = true → is_Some (w_fs w !! p) →
    p ≠ path_parent p → reach p.

(** The stack [pending], the directories [visited] and the [files] so far. *)
Record walk_inv (pending visited : list string) (files : list (string * json)) : Prop := {
  wi_once : NoDup (pending ++ visited);
  wi_dirs d : d ∈ pending ++ visited → dir_at w d = true ∧ reach d ∧ (d = payload ∨ path_parent d ∈ visited);
  wi_root : payload ∈ pending ++ visited;
  wi_names : NoDup files.*1;
  wi_sound nd : nd ∈ files → ∃ p, reach p ∧ listed_as w payload p nd;
  wi_closed p : is_Some (w_fs w !! p) → path_parent p ∈ visited → p ≠ path_parent p →
    if dir_at w p then p ∈ pending ++ visited else ∃ nd, listed_as w payload p nd ∧ nd.1 ∈ files.*1
}.

Lemma parent_shorter p : p ≠ path_parent p → (String.length (path_parent p) < String.length p)%nat.
Proof. intros Hp. apply length_path_parent. by intros ->. Qed.

Lemma reach_length p : reach p → (String.length payload ≤ String.length p)%nat.
Proof. induction 1 as [|p _ IH _ _ Hp]; [done|]. apply parent_shorter in Hp. lia. Qed.

Lemma walk_start files : dir_at w payload = true → files = [] → walk_inv [payload] [] files.
Proof.
  intros Hd ->. split; simpl.
  - apply NoDup_singleton.
  - intros d ->%list_elem_of_singleton. split_and!; [done|constructor|by left].
  - by left.
  - apply NoDup_nil_2.
  - by intros nd ?%elem_of_nil.
  - by intros p _ ?%elem_of_nil.
Qed.

Lemma walk_step root d pending visited files pending' files' w' : payload ≠ EmptyString →
  walk_inv (d :: pending) visited files →
  runs (capture_entries root payload (sorted_entries d w) pending files) w (pending', files') w' →
  w' = w ∧ walk_inv pending' (d :: visited) files'.
Proof.
  intros Hne [Honce Hdirs Hroot Hnames Hsound Hclosed] (-> & -> & Hnew & Hkeys & Hnd & Hall)%runs_capture_entries. split; [done|].
  set (dirs := List.filter (dir_at w) (sorted_entries d w)).
  assert (Hin : ∀ p, p ∈ dirs ↔ (is_Some (w_fs w !! p) ∧ path_parent p = d ∧ p ≠ d) ∧ dir_at w p = true).
  { intros p. unfold dirs. rewrite list_elem_of_In, filter_In, <- list_elem_of_In. by rewrite elem_of_sorted_entries. }
  assert (Hmem : ∀ p, p ∈ (List.rev dirs ++ pending) ++ d :: visited ↔ p ∈ dirs ∨ p ∈ (d :: pending) ++ visited).
  { intros p. rewrite !elem_of_app, !elem_of_cons, !list_elem_of_In, <- in_rev. tauto. }
  destruct (Hdirs d ltac:(by left)) as (Hd & Hreach & _). simpl in Honce. split.
  - assert ((List.rev dirs ++ pending) ++ d :: visited ≡ₚ dirs ++ d :: pending ++ visited) as ->.
    { rewrite <- (Permutation_rev dirs), <- app_assoc. by rewrite (Permutation_middle pending visited d). }
    apply NoDup_app. split_and!; [apply NoDup_ListNoDup, List.NoDup_filter, NoDup_ListNoDup, NoDup_sorted_entries| |done].
    intros p [(_ & Hpar & Hpd) _]%Hin Hp. apply (Hdirs p) in Hp as (_ & _ & [->|Hv]).
    + assert (Hlt := reach_length _ Hreach). assert (payload ≠ path_parent payload) as Hps by (by rewrite Hpar).
      apply parent_shorter in Hps. rewrite Hpar in Hps. lia.
    + rewrite Hpar in Hv. apply NoDup_cons in Honce as [Hnv _]. apply Hnv. set_solver.
  - intros p [[(Hs & Hpar & Hpd) Hp]%Hin|Hp]%Hmem.
    + split_and!; [done| |right; rewrite Hpar; by left]. apply reach_entry; rewrite ?Hpar; done.
    + apply Hdirs in Hp as (? & ? & [?|?]); split_and!; try done; [by left|right; by right].
  - apply Hmem. by right.
  - by apply Hnd.
  - intros nd [?|(p & (Hs & Hpar & Hpd)%elem_of_sorted_entries & Hl)]%Hnew; [by apply Hsound|].
    exists p. split; [|done]. apply reach_entry; rewrite ?Hpar; done.
  - intros p Hs [Hpar|Hv]%elem_of_cons Hpp.
    + destruct (dir_at w p) eqn:Hp.
      * apply Hmem. left. apply Hin. rewrite Hpar in Hpp. done.
      * apply Hall; [|done]. apply elem_of_sorted_entries. by rewrite Hpar in Hpp.
    + specialize (Hclosed p Hs Hv Hpp). destruct (dir_at w p); [apply Hmem; by right|].
      destruct Hclosed as (nd & ? & ?). exists nd. auto.
Qed.

Lemma visited_bound pending visited files : walk_inv pending visited files → (length visited ≤ size (w_fs w))%nat.
Proof.
  intros [Honce Hdirs _ _ _ _]. apply NoDup_app in Honce as (_ & _ & Hnd).
  rewrite <- (size_list_to_set (C:=gset string)) by done. rewrite <- size_dom. apply subseteq_size.
  intros d Hd%elem_of_list_to_set. apply elem_of_dom.
  destruct (Hdirs d) as (Hat & _); [apply elem_of_app; by right|]. unfold dir_at in Hat. by destruct (w_fs w !! d).
Qed.

Lemma runs_capture_loop fuel root pending visited files o w' : payload ≠ EmptyString →
  walk_inv pending visited files → (S (size (w_fs w)) ≤ fuel + length visited)%nat →
  runs (capture_loop fuel root payload pending files) w o w' →
  w' = w ∧ ∃ files' visited', o = Some files' ∧ walk_inv [] visited' files'.
Proof.
  intros Hne. revert pending visited files. induction fuel as [|fuel IH]; intros pending visited files Hinv Hf Hr.
  - apply visited_bound in Hinv. simpl in Hf. lia.
  - destruct pending as [|d pending]; cbn [capture_loop] in Hr.
    + apply runs_ret in Hr as [<- <-]. split; [done|]. by exists files, visited.
    + apply runs_bind in Hr as (w1 & w2 & [= <- <-] & Hr). apply runs_bind in Hr as ([pd fs] & w2 & Hs & Hr).
      destruct (walk_step root d pending visited files pd fs w2 Hne Hinv Hs) as [-> Hinv'].
      apply (IH pd (d :: visited) fs) in Hr; [done|done|simpl; lia].
Qed.

(** The end of a walk: exactly what can be reached. *)
Lemma walk_done visited files p : walk_inv [] visited files → reach p →
  if dir_at w p then p ∈ visited else p ≠ payload → ∃ nd, listed_as w payload p nd ∧ nd.1 ∈ files.*1.
Proof.
  intros [_ _ Hroot _ _ Hclosed]. induction 1 as [|p Hp IH Hpar Hs Hpp].
  - by destruct (dir_at w payload).
  - rewrite Hpar in IH. specialize (Hclosed p Hs IH Hpp). by destruct (dir_at w p).
Qed.
End reach.

(** ** The theorems *)

Section theorems.
Context `{Host} `{Filesystem}.

Lemma join_nonempty a b : a // b ≠ EmptyString.
Proof. unfold path_join. by destruct a. Qed.

Lemma runs_capture_payload root w files w' : runs (capture_payload root) w files w' →
  w' = w ∧ let payload := abspath root // "payload" in
    plain_entry w payload ∧ dir_at w payload = true ∧ ∃ visited, walk_inv w payload [] visited files.
Proof.
  unfold capture_payload. intros Hr. apply runs_bind in Hr as (r & w1 & [-> ->]%runs_fixture_root & Hr).
  apply runs_bind in Hr as ([] & w1 & [-> Hplain]%runs_reject_reparse & Hr).
  apply runs_bind in Hr as (d & w1 & Hd & Hr). injection Hd as <- <-.
  apply runs_bind in Hr as ([] & w1 & [Hdir%negb_false_iff <-]%runs_raise_when & Hr).
  assert (dir_at w (abspath root // "payload") = true) as Hat by (unfold dir_at; by destruct (w_fs w !! _) as [[]|]).
  apply runs_bind in Hr as (w1 & w2 & [= <- <-] & Hr). apply runs_bind in Hr as (o & w2 & Hl & Hr).
  eapply runs_capture_loop in Hl as (-> & fs & visited & -> & Hinv);
    [|apply join_nonempty|by apply walk_start|simpl; lia].
  apply runs_bind in Hr as (fs' & w2 & [[= <-] <-]%runs_lift & Hr). apply runs_lift in Hr as [Hv <-].
  split; [done|]. split_and!; [done|done|]. exists visited.
  assert (fs = files) as ->; [|done]. unfold validate_payload_files in Hv.
  apply res_bind_Ok in Hv as (_ & _ & Hv). apply res_bind_Ok in Hv as (_ & _ & Hv).
  by apply res_bind_Ok in Hv as (_ & _ & [= ->]).
Qed.

(** The walk ends: whatever is below the payload directory, as many rounds
    as there are entries on disk, plus one, are enough, since every directory is
    taken from the stack at most once. *)
Theorem capture_terminates (root payload : string) (w : world) (fuel : nat) (Hpayload : payload ≠ EmptyString)
    (Hdir : dir_at w payload = true) (Hfuel : (S (size (w_fs w)) ≤ fuel)%nat) :
  fst (capture_loop fuel root payload [payload] [] w) ≠ Ok None.
Proof.
  destruct (capture_loop fuel root payload [payload] [] w) as [r w'] eqn:E. simpl. intros ->.
  eapply (runs_capture_loop w payload fuel root [payload] [] []) in E as (_ & fs & visited & ? & _);
    [done|done|by apply walk_start|simpl; lia].
Qed.

(** A regular file that the walk reaches under this name and with this digest. *)
Definition payload_file (w : world) (payload name : string) (digest : json) : Prop :=
  ∃ p, reach w payload p ∧ listed_as w payload p (name, digest).

Lemma jeq_JStr s v : jeq (JStr s) v = true → v = JStr s.
Proof. destruct v; try done. simpl. by intros <-%String.eqb_eq. Qed.

Lemma assoc_elem {A} k (v : A) l : NoDup l.*1 → (k, v) ∈ l → assoc k l = Some v.
Proof.
  induction l as [|[k' v'] l IH]; [by intros _ ?%elem_of_nil|]. cbn [fmap list_fmap fst assoc].
  intros [Hk Hnd]%NoDup_cons [[= -> ->]|Hin]%elem_of_cons; [by rewrite String.eqb_refl|].
  destruct (String.eqb_spec k k') as [->|]; [|by apply IH]. destruct Hk. apply list_elem_of_fmap. by exists (k', v).
Qed.

Lemma same_inventory captured files : NoDup captured.*1 → NoDup files.*1 → jeq (JObj captured) (JObj files) = true →
  (∀ k v, (k, v) ∈ captured → ∃ v', assoc k files = Some v' ∧ jeq v v' = true) ∧
  (∀ k v, (k, v) ∈ files → ∃ v', (k, v') ∈ captured ∧ jeq v' v = true).
Proof.
  rewrite UpdaterManifest.jeq_obj, andb_true_iff, Nat.eqb_eq, forallb_forall. intros Hc Hf [Hlen Hall].
  assert (Hfwd : ∀ k v, (k, v) ∈ captured → ∃ v', assoc k files = Some v' ∧ jeq v v' = true).
  { intros k v Hk. apply list_elem_of_In, Hall in Hk. cbn [fst snd] in Hk. destruct (assoc k files); eauto. done. }
  split; [done|]. intros k v Hk.
  assert (captured.*1 ≡ₚ files.*1) as Hperm.
  { apply submseteq_length_Permutation; [|by rewrite !length_fmap, Hlen].
    apply NoDup_submseteq; [done|]. intros x ([y vy] & -> & Hy)%list_elem_of_fmap. simpl.
    apply Hfwd in Hy as (v' & Hv' & _). apply assoc_Some_elem in Hv'. apply list_elem_of_fmap. by exists (y, v'). }
  assert (k ∈ captured.*1) as ([k' v'] & -> & Hv')%list_elem_of_fmap.
  { rewrite Hperm. apply list_elem_of_fmap. by exists (k, v). }
  exists v'. split; [done|]. apply Hfwd in Hv' as (v2 & Hv2 & Heq). rewrite (assoc_elem _ v) in Hv2 by done. by simplify_eq.
Qed.

Lemma listed_digest w payload p nd : listed_as w payload p nd → ∃ s, nd.2 = JStr s.
Proof. intros (parts & bytes & _ & _ & -> & _). by eexists. Qed.

(** C26. The payload is exactly the expected inventory: when the check passes,
    every regular file that can be reached below the payload directory is
    listed, every listed name is such a file, not linked from elsewhere, with
    the listed SHA-256 of its content, and the expected inventory has the
    expected hash. The check changes nothing. *)
Theorem payload_verified (root : string) (files : list (string * json)) (tree_hash : json) (w w' : world)
    (Hnames : NoDup files.*1) (Hrun : runs (verify_payload root (JObj files) tree_hash) w tt w') :
  let payload := abspath root // "payload" in
  w' = w ∧ (∃ hash, tree_hash = JStr hash ∧ payload_tree_hash files = Ok hash) ∧
  (∀ p, reach w payload p → dir_at w p = false → ∃ name, name ∈ files.*1 ∧
    ∃ digest, listed_as w payload p (name, digest)) ∧
  (∀ name digest, (name, digest) ∈ files → payload_file w payload name digest).
Proof.
  unfold verify_payload in Hrun. apply runs_bind in Hrun as (fs & w1 & [Hv <-]%runs_lift & Hr).
  assert (fs = files) as ->.
  { unfold validate_payload_files in Hv. apply res_bind_Ok in Hv as (_ & _ & Hv).
    apply res_bind_Ok in Hv as (_ & _ & Hv). by apply res_bind_Ok in Hv as (_ & _ & [= ->]). }
  apply runs_bind in Hr as (m & w1 & [Hm <-]%runs_lift & Hr).
  apply runs_bind in Hr as ([] & w1 & [-> <-]%runs_raise_when & Hr).
  apply runs_bind in Hr as (captured & w1 & (-> & Hplain & Hdir & visited & Hinv)%runs_capture_payload & Hr).
  apply runs_raise_when in Hr as [Hsame%negb_false_iff <-]. split; [done|]. split.
  { destruct tree_hash as [| | | |s| |]; try done. exists s. split; [done|].
    apply res_bind_Ok in Hm as (h & Hh & [= Hs%negb_false_iff%String.eqb_eq]). by rewrite Hs. }
  destruct (same_inventory captured files) as [Hto Hfrom]; [apply Hinv|done|done|]. split.
  - intros p Hp Hpd. pose proof (walk_done w _ visited captured p Hinv Hp) as Hdone. rewrite Hpd in Hdone.
    destruct Hdone as (nd & Hnd & Hin); [by intros ->; congruence|]. exists nd.1. split; [|exists nd.2; by destruct nd].
    apply list_elem_of_fmap in Hin as ([k v] & Hk & Hin). apply Hto in Hin as (v' & Hv' & _).
    apply assoc_Some_elem in Hv'. apply list_elem_of_fmap. by exists (k, v').
  - intros name digest Hin. apply Hfrom in Hin as (v & Hin & Heq).
    apply (wi_sound _ _ _ _ _ Hinv) in Hin as (p & Hp & Hl). exists p. split; [done|].
    destruct (listed_digest _ _ _ _ Hl) as [s Hs]. simpl in Hs. subst v. by apply jeq_JStr in Heq as ->.
Qed.
End theorems.

(** ** At work *)

Definition payload_dir : string := fixture_dir +:+ "/payload".
Definition payload_world : world :=
  World (foldr (λ name fs, <[(payload_dir +:+ "/" +:+ name)%string := File name]> fs)
    (<[payload_dir := Dir]> (<[(payload_dir +:+ "/data")%string := Dir]> (<[(payload_dir +:+ "/updater")%string := Dir]>
      (w_fs fixture_world)))) REQUIRED_PAYLOAD_FILES) ∅ [].
Definition payload_inventory : list (string * json) :=
  match fst (capture_payload (H:=fixture_host) (H0:=linkless) fixture_dir payload_world) with Ok l => l | Raise _ => [] end.
Definition payload_hash : json :=
  match payload_tree_hash payload_inventory with Ok h => JStr h | Raise _ => JNull end.

Theorem capture_terminates_witness :
  fst (capture_loop (H:=fixture_host) (H0:=linkless) 20 fixture_dir payload_dir [payload_dir] [] payload_world) ≠ Ok None.
Proof.
  apply (capture_terminates (H:=fixture_host) (H0:=linkless) fixture_dir payload_dir payload_world 20).
  - done.
  - run_vm.
  - vm_compute. lia.
Defined.

Theorem payload_verified_witness : length payload_inventory = 8%nat ∧
  ∀ name digest, (name, digest) ∈ payload_inventory →
    payload_file (H:=fixture_host) (H0:=linkless) payload_world
      (abspath (H:=fixture_host) (H0:=linkless) fixture_dir // "payload") name digest.
Proof.
  split; [vm_compute; reflexivity|].
  apply (payload_verified (H:=fixture_host) (H0:=linkless) fixture_dir payload_inventory payload_hash payload_world payload_world).
  - apply (bool_decide_unpack _). vm_compute. exact I.
  - run_vm.
Defined.
