(* ===== verification/SignpathStaging.v ===== *)
(** * Staging for SignPath (installer/signpath_staging.py)

    The executables are staged unsigned, come back signed, and are packaged only
    when signing changed nothing but the signature. The official build refuses
    this path (see [BuildInstaller.prepare_signpath_refused]); the tool itself is
    still in the repository and is modelled whole. *)

From S2P Require Import Prelude PyStr PyCodec PyHash PyJson PyJsonIndent Effects TextFiles WindowsVersionInfo WindowsFixture.
From S2P Require BuildInstaller.

Local Open Scope Z_scope.

(** [str(path.resolve())] *)
Class RealPath : Type := { real_path : string → world → string }.

(** src: installer/signpath_staging.py:17-17 UNINSTALLER_ARTIFACT *)
Definition UNINSTALLER_ARTIFACT : string := "plug_agente_uninstaller.exe".

(** ** The signature *)

Definition NUL4 : string := chr 0 +:+ chr 0 +:+ chr 0 +:+ chr 0.

(** src: installer/signpath_staging.py:42-54 _certificate_directory
    The offsets of the checksum and of the directory entry, and the entry. *)
Definition certificate_directory (data : string) : res (Z * Z * Z * Z) :=
  _ ← raise_if (negb (startswith data "MZ")) (ValueError "Signing result is not a PE file");
  pe ← unpack_at 4 data 0x3C;
  _ ← raise_if (negb (slice pe (pe + 4) data == "PE" +:+ chr 0 +:+ chr 0)) (ValueError "Invalid PE header in signing result");
  let optional := pe + 24 in
  magic ← unpack_at 2 data optional;
  _ ← raise_if (negb ((magic =? 0x10B) || (magic =? 0x20B))) (ValueError "Unsupported signing result PE format");
  let directory := optional + (if magic =? 0x20B then 112 else 96) + 4 * 8 in
  offset ← unpack_at 4 data directory;
  size ← unpack_at 4 data (directory + 4);
  Ok (optional + 64, directory, offset, size).

(** [data\[at:at+n\] = bytes] for [bytes] of length [n]. *)
Definition patch (at_ : Z) (bytes data : string) : string :=
  str_take (Z.to_nat at_) data +:+ bytes +:+ str_drop (Z.to_nat at_ + String.length bytes) data.

Definition blanked (check entry : Z) (data : string) : string := patch entry (NUL4 +:+ NUL4) (patch check NUL4 data).

(** src: installer/signpath_staging.py:60-70 require_unchanged_payload
    Signing left the content as it was; [name] is the signed file's. *)
Definition unchanged (name source result : string) : res unit :=
  '(checksum, directory, offset, size) ← certificate_directory result;
  '(source_checksum, source_directory, source_offset, source_size) ← certificate_directory source;
  _ ← raise_if (negb (source_offset =? 0) || negb (source_size =? 0)) (ValueError "Signing input was already signed");
  _ ← raise_if ((size =? 0) || (offset <? len source) || negb (offset + size =? len result) || (7 <? offset - len source))
        (ValueError ("Invalid appended Authenticode signature: " +:+ name));
  let source := blanked source_checksum source_directory source in
  let result := blanked checksum directory result in
  raise_if (negb (slice 0 (len source) result == source) ||
            str_any (λ c, negb (Ascii.eqb c zero)) (slice (len source) offset result))
    (ValueError ("Signing changed executable content: " +:+ name)).

(** ** Paths in order *)

(** Paths are ordered by their components. *)
Fixpoint parts_le (a b : list string) : bool :=
  match a, b with
  | [], _ => true
  | _, [] => false
  | x :: a, y :: b => if x == y then parts_le a b else String.leb x y
  end.

Fixpoint insert_path (le : string → string → bool) (p : string) (l : list string) : list string :=
  match l with
  | [] => [p]
  | q :: l => if le p q then p :: q :: l else q :: insert_path le p l
  end.

Section signpath.
Context `{Host} `{WinApi} `{BuildInstaller.Machine} `{Filesystem} `{RealPath}.

Definition path_le (a b : string) : bool := parts_le (split_char "/" (path_key a)) (split_char "/" (path_key b)).
Definition sort_paths (l : list string) : list string := foldr (insert_path path_le) [] l.

(** src: installer/signpath_staging.py:16-16 STAGE *)
Definition STAGE : string := BuildInstaller.INSTALLER_DIR // "signpath-work".

(** src: installer/signpath_staging.py:20-21 sha256 *)
Definition sha256 (path : string) : M string := b ← read_bytes path; mret (sha256_hex b).

(** The digests of files, by their path below [root]. *)
Fixpoint hashes_below (root : string) (paths : list string) (hashes : list (string * json)) : M (list (string * json)) :=
  match paths with
  | [] => mret hashes
  | path :: paths =>
      digest ← sha256 path;
      hashes_below root paths (assoc_set (removeprefix path (root +:+ "/")) (JStr digest) hashes)
  end.

Definition files_below (root : string) (w : world) : list string :=
  List.filter (λ p, match w_fs w !! p with Some (File _) => true | _ => false end) (sort_paths (rglob root w)).

(** src: installer/signpath_staging.py:24-26 bundle_hashes *)
Definition bundle_hashes : M (list (string * json)) :=
  w ← get_world; hashes_below BuildInstaller.BUILD_DIR (files_below BuildInstaller.BUILD_DIR w) [].

(** [directory.glob("*" + suffix)] *)
Definition glob (directory suffix : string) (w : world) : list string :=
  List.filter (λ p, endswith (path_key p) suffix) (iterdir directory w).

(** src: installer/signpath_staging.py:29-33 configuration_hashes *)
Definition configuration_hashes : M (list (string * json)) :=
  w ← get_world;
  let paths := glob BuildInstaller.INSTALLER_DIR ".iss" w ++
    [BuildInstaller.PROJECT_ROOT // "readme.md"; BuildInstaller.PROJECT_ROOT // "LICENSE"] ++
    glob (BuildInstaller.INSTALLER_DIR // "wizard") ".png" w ++
    [BuildInstaller.PROJECT_ROOT // "windows/runner/resources/app_icon.ico"] in
  hashes_below BuildInstaller.PROJECT_ROOT (sort_paths paths) [].

(** src: installer/signpath_staging.py:36-39 require_metadata *)
Definition require_metadata (path version : string) : M unit :=
  info ← read_version_info path;
  raise_when ((strip (info_item "ProductName" info) != PRODUCT_NAME) ||
              (strip (info_item "ProductVersion" info) != version))
    (ValueError ("Unexpected product metadata: " +:+ path)).

(** src: installer/signpath_staging.py:57-70 require_unchanged_payload *)
Definition require_unchanged_payload (original signed : string) : M unit :=
  source ← read_bytes original;
  result ← read_bytes signed;
  lift (unchanged signed source result).

Definition upper_hex_digit (c : ascii) : bool := char_in "0123456789ABCDEF" c.

(** src: installer/signpath_staging.py:73-83 signature_thumbprint *)
Definition signature_thumbprint (path : string) : M string :=
  w ← get_world;
  let escaped := replace "'" "''" (real_path path w) in
  let script := "$signature=Get-AuthenticodeSignature -LiteralPath '" +:+ escaped +:+ "'; " +:+
    "if ($signature.Status -ne 'Valid') { throw 'Invalid Authenticode signature' }; " +:+
    "$signature.SignerCertificate.Thumbprint" in
  let argv := ["powershell.exe"; "-NoProfile"; "-NonInteractive"; "-Command"; script] in
  result ← run_proc argv host_cwd;
  _ ← raise_when (negb (returncode result =? 0)) (CalledProcessError (returncode result) argv (stdout result));
  let thumbprint := strip (stdout result) in
  _ ← raise_when (negb (len thumbprint =? 40) || negb (str_all upper_hex_digit thumbprint))
        (ValueError "Missing signing certificate identity");
  mret thumbprint.

(** [build.resolve_auto_update_define("AUTO_UPDATE_CHANNEL") or "stable"] *)
Definition update_channel : M string :=
  channel ← BuildInstaller.resolve_auto_update_define "AUTO_UPDATE_CHANNEL";
  mret (str_or (default EmptyString channel) "stable").

Definition check_input (input : string * json) : M unit :=
  digest ← sha256 (STAGE // "unsigned-components" // fst input);
  raise_when (negb (jeq (JStr digest) (snd input))) (ValueError ("Signing input changed after staging: " +:+ fst input)).

(** [value.items()] *)
Definition members (value : json) : res (list (string * json)) :=
  match value with JObj l => Ok l | _ => Raise (AttributeError "items") end.

(** src: installer/signpath_staging.py:86-95 read_manifest *)
Definition read_manifest : M json :=
  text ← read_text (STAGE // "manifest.json");
  manifest ← lift (loads text);
  staged ← lift (jitem "version" manifest);
  version ← application_version;
  changed ← (if negb (jeq staged (JStr version)) then mret true
             else configuration ← lift (jitem "configuration" manifest);
                  hashes ← configuration_hashes;
                  mret (negb (jeq configuration (JObj hashes))));
  _ ← raise_when changed (ValueError "Application version or installer configuration changed after staging");
  staged_channel ← lift (jitem "channel" manifest);
  channel ← update_channel;
  _ ← raise_when (negb (jeq staged_channel (JStr channel))) (ValueError "Update channel changed after staging");
  inputs ← lift (jitem "inputs" manifest);
  inputs ← lift (members inputs);
  _ ← for_M check_input inputs;
  mret manifest.

(** [manifest\[key\]] where a text is needed. *)
Definition text_item (key : string) (manifest : json) : M string :=
  v ← lift (jitem key manifest);
  match v with JStr s => mret s | _ => raise (TypeError "str expected") end.

(** [path.mkdir()] in a directory that is there. *)
Definition mkdir_new (p : string) : M unit :=
  there ← path_exists p; _ ← raise_when there (FileExistsError p); mkdir p.

(** The digests of the staged inputs, by name. *)
Fixpoint input_hashes (directory : string) (names : list string) : M (list (string * json)) :=
  match names with
  | [] => mret []
  | name :: names =>
      digest ← sha256 (directory // name);
      hashes ← input_hashes directory names;
      mret ((name, JStr digest) :: hashes)
  end.

Definition STAGED_NAMES : list string := BuildInstaller.PROJECT_EXECUTABLES ++ [UNINSTALLER_ARTIFACT].

(** One executable is staged. *)
Definition stage_executable (unsigned version name : string) : M unit :=
  let source := BuildInstaller.BUILD_DIR // name in
  _ ← require_metadata source version;
  let target := unsigned // name in
  _ ← mkdir (path_parent target);
  copy_file source target.

Definition write_manifest (manifest : json) : M unit :=
  text ← lift (from_option (dumps_indent true manifest) (TypeError "Object is not JSON serializable"));
  write_text (STAGE // "manifest.json") text.

(** src: installer/signpath_staging.py:98-124 prepare *)
Definition prepare : M unit :=
  there ← path_exists STAGE;
  w ← get_world;
  _ ← raise_when (there && match iterdir STAGE w with [] => false | _ => true end)
        (ValueError ("Signing staging directory must be empty: " +:+ STAGE));
  let unsigned := STAGE // "unsigned-components" in
  _ ← mkdir STAGE;
  _ ← mkdir unsigned;
  let cache := STAGE // "uninstaller-cache" in
  _ ← mkdir_new cache;
  version ← application_version;
  _ ← for_M (stage_executable unsigned version) BuildInstaller.PROJECT_EXECUTABLES;
  w ← get_world;
  command ← BuildInstaller.build_iscc_command (Some (real_path cache w));
  result ← run_proc command BuildInstaller.INSTALLER_DIR;
  w ← get_world;
  match glob cache ".e32" w with
  | [uninstaller] =>
      _ ← raise_when (negb (returncode result =? 2) ||
                      negb (contains (stderr result) "please attach your digital signature"))
            (ValueError ("Could not stage the unsigned Inno uninstaller:" +:+ nl +:+ stdout result +:+ stderr result));
      _ ← require_metadata uninstaller version;
      _ ← copy_file uninstaller (unsigned // UNINSTALLER_ARTIFACT);
      inputs ← input_hashes unsigned STAGED_NAMES;
      channel ← update_channel;
      configuration ← configuration_hashes;
      bundle ← bundle_hashes;
      _ ← write_manifest (JObj [("version", JStr version); ("channel", JStr channel); ("configuration", JObj configuration);
            ("bundle", JObj bundle); ("uninstaller", JStr (path_name uninstaller)); ("inputs", JObj inputs)]);
      print ("SignPath unsigned inputs ready: " +:+ unsigned)
  | _ => raise (ValueError ("Could not stage the unsigned Inno uninstaller:" +:+ nl +:+ stdout result +:+ stderr result))
  end.

(** The returned component [name]: its certificate. *)
Definition check_signed (signed_directory version name : string) : M string :=
  let signed := signed_directory // name in
  _ ← require_unchanged_payload (STAGE // "unsigned-components" // name) signed;
  _ ← require_metadata signed version;
  _ ← BuildInstaller.verify_signed_file signed;
  signature_thumbprint signed.

Definition same_set (a b : list string) : bool := forallb (λ x, one_of x b) a && forallb (λ x, one_of x a) b.

(** All signed by one certificate. *)
Definition single (thumbprints : list string) : res string :=
  match thumbprints with
  | t :: ts => if forallb (String.eqb t) ts then Ok t
               else Raise (ValueError "All project components must use the same signing certificate")
  | [] => Raise (ValueError "All project components must use the same signing certificate")
  end.

(** [d\[key\] = value] of an object. *)
Definition set_item (key : string) (value manifest : json) : json :=
  match manifest with JObj l => JObj (assoc_set key value l) | v => v end.

(** What is checked of the returned components: the manifest, the names and the certificate. *)
Definition check_package (signed_directory : string) : M (json * string) :=
  manifest ← read_manifest;
  bundle ← bundle_hashes;
  staged ← lift (jitem "bundle" manifest);
  _ ← raise_when (negb (jeq (JObj bundle) staged)) (ValueError "Application bundle changed after staging");
  w ← get_world;
  let actual := (λ p, removeprefix p (signed_directory +:+ "/")) <$> files_below signed_directory w in
  inputs ← lift (jitem "inputs" manifest);
  inputs ← lift (members inputs);
  _ ← raise_when (negb (same_set actual inputs.*1))
        (ValueError "Returned signing artifact contains missing or unexpected files");
  version ← text_item "version" manifest;
  thumbprints ← map_M (check_signed signed_directory version) inputs.*1;
  thumbprint ← lift (single thumbprints);
  mret (manifest, thumbprint).

(** src: installer/signpath_staging.py:127-156 package *)
Definition package (signed_directory : string) : M unit :=
  '(manifest, thumbprint) ← check_package signed_directory;
  _ ← for_M (λ name, copy_file (signed_directory // name) (BuildInstaller.BUILD_DIR // name)) BuildInstaller.PROJECT_EXECUTABLES;
  let cache := STAGE // "uninstaller-cache" in
  uninstaller ← text_item "uninstaller" manifest;
  _ ← copy_file (signed_directory // UNINSTALLER_ARTIFACT) (cache // uninstaller);
  w ← get_world;
  command ← BuildInstaller.build_iscc_command (Some (real_path cache w));
  _ ← BuildInstaller.run command (Some BuildInstaller.INSTALLER_DIR);
  installer ← BuildInstaller.find_generated_installer;
  let unsigned_installer := STAGE // "unsigned-installer" // path_name installer in
  _ ← mkdir_new (path_parent unsigned_installer);
  _ ← copy_file installer unsigned_installer;
  let manifest := set_item "certificate" (JStr thumbprint) manifest in
  digest ← sha256 unsigned_installer;
  let manifest := set_item "installer_sha256" (JStr digest) manifest in
  bundle ← bundle_hashes;
  _ ← write_manifest (set_item "signed_bundle" (JObj bundle) manifest);
  print ("SignPath installer signing input ready: " +:+ unsigned_installer).

(** src: installer/signpath_staging.py:159-172 finalize *)
Definition finalize (signed_installer : string) : M unit :=
  manifest ← read_manifest;
  bundle ← bundle_hashes;
  signed ← lift (jitem "signed_bundle" manifest);
  _ ← raise_when (negb (jeq (JObj bundle) signed)) (ValueError "Signed application bundle changed before final verification");
  installer ← BuildInstaller.find_generated_installer;
  let original := STAGE // "unsigned-installer" // path_name installer in
  digest ← sha256 original;
  recorded ← lift (jitem "installer_sha256" manifest);
  _ ← raise_when (negb (jeq (JStr digest) recorded)) (ValueError "Installer signing input changed");
  _ ← require_unchanged_payload original signed_installer;
  version ← text_item "version" manifest;
  _ ← require_metadata signed_installer version;
  _ ← BuildInstaller.verify_signed_file signed_installer;
  thumbprint ← signature_thumbprint signed_installer;
  certificate ← lift (jitem "certificate" manifest);
  _ ← raise_when (negb (jeq (JStr thumbprint) certificate))
        (ValueError "Installer and components must use the same signing certificate");
  installer ← BuildInstaller.find_generated_installer;
  _ ← copy_file signed_installer installer;
  print "All SignPath component, uninstaller and installer signatures verified".

(** The options of the command line, one of which is required. *)
Inductive mode : Type :=
| Package (signed_components : string)
| Finalize (signed_installer : string)
| Parameters.

Definition is_KeyError_like (e : exn) : bool := is_OSError e || is_ValueError e || is_KeyError e || is_SubprocessError e.

Definition json_line (name : string) (v : json) : M unit :=
  text ← lift (from_option (render true ", " ": " v) (TypeError "Object is not JSON serializable")); print (name +:+ "=" +:+ text).

(** src: installer/signpath_staging.py:175-194 main *)
Definition main (m : mode) : M unit :=
  try_catch
    match m with
    | Parameters =>
        manifest ← read_manifest;
        info ← read_version_info (STAGE // "unsigned-components" // UNINSTALLER_ARTIFACT);
        version ← lift (jitem "version" manifest);
        _ ← json_line "version_json" version;
        _ ← json_line "inno_product_name_json" (JStr (info_item "ProductName" info));
        json_line "inno_product_version_json" (JStr (info_item "ProductVersion" info))
    | Package d => package d
    | Finalize f => finalize f
    end
    is_KeyError_like
    (λ e, raise (SystemExit (ExitMsg ("SignPath staging failed: " +:+ exn_str e)))).
End signpath.

(** ** What signing may change *)

Lemma str_take_take n k s : (n ≤ k)%nat → str_take n (str_take k s) = str_take n s.
Proof.
  revert k s. induction n as [|n IH]; intros [|k] [|c s] Hn; try done; [lia|]. simpl. by rewrite IH by lia.
Qed.

Lemma unpack_at_prefix k n a b off : str_take k a = str_take k b → off + Z.of_nat n ≤ Z.of_nat k →
  unpack_at n a off = unpack_at n b off.
Proof.
  intros Hk Hn. unfold unpack_at, len. destruct (Z.leb_spec 0 off) as [H0|]; [|done]. cbn [andb].
  assert (Hl : Nat.min k (String.length a) = Nat.min k (String.length b)) by (by rewrite <- !length_str_take, Hk).
  assert (Hin : ∀ s, str_take n (str_drop (Z.to_nat off) s) = str_take n (str_drop (Z.to_nat off) (str_take k s)) ∨
    (String.length s < Z.to_nat off + n)%nat).
  { intros s. destruct (decide (Z.to_nat off + n ≤ String.length s)%nat) as [Hs|]; [left|right; lia].
    rewrite <- (str_take_app_drop k s) at 1. rewrite str_drop_app_le by (rewrite length_str_take; lia).
    rewrite str_take_app_le; [done|]. rewrite length_str_drop, length_str_take. lia. }
  destruct (Z.leb_spec (off + Z.of_nat n) (Z.of_nat (String.length a))),
    (Z.leb_spec (off + Z.of_nat n) (Z.of_nat (String.length b))); try lia; [|done].
  destruct (Hin a) as [->|]; [|lia]. destruct (Hin b) as [->|]; [|lia]. by rewrite Hk.
Qed.

Lemma unpack_at_fits n data off z : unpack_at n data off = Ok z → 0 ≤ off ∧ off + Z.of_nat n ≤ len data.
Proof.
  unfold unpack_at. destruct (Z.leb_spec 0 off); [|done].
  destruct (Z.leb_spec (off + Z.of_nat n) (len data)); [|done]. lia.
Qed.

Lemma str_split n s : (n ≤ String.length s)%nat → ∃ a b, s = a +:+ b ∧ String.length a = n.
Proof. intros Hn. exists (str_take n s), (str_drop n s). rewrite str_take_app_drop, length_str_take. split; [done|lia]. Qed.

(** The five parts of an executable around its two fields. *)
Lemma split_fields c d s : 0 ≤ c → c + 4 ≤ d → d + 8 ≤ len s → ∃ head sum mid table rest,
  s = head +:+ sum +:+ mid +:+ table +:+ rest ∧ len head = c ∧ len sum = 4 ∧ len mid = d - c - 4 ∧ len table = 8.
Proof.
  unfold len. intros Hc Hd Hs.
  destruct (str_split (Z.to_nat c) s) as (head & s1 & -> & Hh); [lia|]. rewrite length_str_app in Hs.
  destruct (str_split 4 s1) as (sum & s2 & -> & Hsum); [lia|]. rewrite length_str_app in Hs.
  destruct (str_split (Z.to_nat (d - c - 4)) s2) as (mid & s3 & -> & Hm); [lia|]. rewrite length_str_app in Hs.
  destruct (str_split 8 s3) as (table & rest & -> & Ht); [lia|].
  exists head, sum, mid, table, rest. rewrite Hh, Hsum, Hm, Ht. split_and!; [done|lia..].
Qed.

Lemma patch_app a b old new : String.length old = String.length new → patch (len a) new (a +:+ old +:+ b) = a +:+ new +:+ b.
Proof.
  intros Hl. unfold patch. rewrite str_take_len. do 2 f_equal.
  unfold len. rewrite Nat2Z.id, <- Hl, <- length_str_app, <- str_app_assoc. apply str_drop_app.
Qed.

Lemma blanked_fields head sum mid table rest : len sum = 4 → len table = 8 →
  blanked (len head) (len head + 4 + len mid) (head +:+ sum +:+ mid +:+ table +:+ rest) =
  head +:+ NUL4 +:+ mid +:+ (NUL4 +:+ NUL4) +:+ rest.
Proof.
  unfold len at 1 2. intros Hs Ht. unfold blanked. rewrite patch_app by (simpl; lia).
  assert (len head + 4 + len mid = len (head +:+ NUL4 +:+ mid)) as -> by (rewrite !len_app; change (len NUL4) with 4; lia).
  assert (head +:+ NUL4 +:+ mid +:+ table +:+ rest = (head +:+ NUL4 +:+ mid) +:+ table +:+ rest) as -> by (by rewrite !str_app_assoc).
  rewrite patch_app by (simpl; lia). by rewrite !str_app_assoc.
Qed.

(** What [certificate_directory] reads. *)
Lemma certificate_directory_Ok data c d o s : certificate_directory data = Ok (c, d, o, s) → ∃ pe magic,
  unpack_at 4 data 0x3C = Ok pe ∧ unpack_at 2 data (pe + 24) = Ok magic ∧ 0 ≤ pe ∧ c = pe + 88 ∧
  d = pe + 24 + (if magic =? 0x20B then 112 else 96) + 32 ∧ unpack_at 4 data d = Ok o ∧ unpack_at 4 data (d + 4) = Ok s.
Proof.
  unfold certificate_directory. intros Hr. apply res_bind_Ok in Hr as (_ & _ & Hr).
  apply res_bind_Ok in Hr as (pe & Hpe & Hr). apply res_bind_Ok in Hr as (_ & _ & Hr).
  apply res_bind_Ok in Hr as (magic & Hm & Hr). apply res_bind_Ok in Hr as (_ & _ & Hr).
  apply res_bind_Ok in Hr as (o' & Ho & Hr). apply res_bind_Ok in Hr as (s' & Hs & Hr).
  apply (inj Ok) in Hr. injection Hr as <- <- <- <-. exists pe, magic.
  pose proof (unpack_at_range _ _ _ _ Hpe). split_and!; [done|done|lia|lia|lia|done|done].
Qed.

Lemma str_take_blanked k c d s : (k ≤ Z.to_nat c)%nat → c ≤ d → d + 8 ≤ len s → 0 ≤ c →
  str_take k (blanked c d s) = str_take k s.
Proof.
  unfold len. intros Hk Hc Hd H0. assert (Hp : ∀ a b data, (k ≤ Z.to_nat a ≤ String.length data)%nat →
    str_take k (patch a b data) = str_take k data).
  { intros a b data Ha. unfold patch. rewrite str_take_app_le by (rewrite length_str_take; lia). apply str_take_take. lia. }
  unfold blanked. rewrite !Hp; [done|lia|]. unfold patch. rewrite !length_str_app, length_str_take, length_str_drop.
  simpl. lia.
Qed.

(** The signed file is the original with another checksum, the table entry of
    the signature, and the signature after at most seven bytes of padding. *)
Definition signature_appended (source result : string) : Prop :=
  ∃ head sum sum' mid rest pad signature,
    source = head +:+ sum +:+ mid +:+ (NUL4 +:+ NUL4) +:+ rest ∧
    result = head +:+ sum' +:+ mid +:+ (le_pack 4 (len source + len pad) +:+ le_pack 4 (len signature)) +:+
             rest +:+ pad +:+ signature ∧
    len sum = 4 ∧ len sum' = 4 ∧ len pad ≤ 7 ∧ str_all (Ascii.eqb zero) pad = true ∧ 0 < len signature ∧
    certificate_directory source = Ok (len head, len head + 4 + len mid, 0, 0).

(** The fields of both files are in the same place. *)
Lemma same_fields source result c d o s c' d' o' s' :
  certificate_directory source = Ok (c, d, o, s) → certificate_directory result = Ok (c', d', o', s') →
  slice 0 (len source) (blanked c' d' result) = blanked c d source → len source ≤ len result →
  c' = c ∧ d' = d.
Proof.
  intros (pe & magic & Hpe & Hm & H0 & -> & -> & Ho & Hs)%certificate_directory_Ok
    (pe' & magic' & Hpe' & Hm' & H0' & -> & -> & Ho' & Hs')%certificate_directory_Ok Heq Hlen.
  pose proof (unpack_at_fits _ _ _ _ Hs) as [_ Hfit]. pose proof (unpack_at_fits _ _ _ _ Hs') as [_ Hfit'].
  assert (Hmag : ∀ m : Z, 96 ≤ (if m =? 0x20B then 112 else 96)) by (intros m; destruct (m =? 0x20B); lia).
  pose proof (Hmag magic). pose proof (Hmag magic'). unfold slice in Heq. rewrite Z.sub_0_r in Heq. change (Z.to_nat 0) with O in Heq. cbn [str_drop] in Heq.
  assert (Htake : ∀ k, (k ≤ Z.to_nat (pe + 88))%nat → (k ≤ Z.to_nat (pe' + 88))%nat → str_take k source = str_take k result).
  { intros k Hk Hk'. rewrite <- (str_take_blanked k (pe + 88) (pe + 24 + (if magic =? 0x20B then 112 else 96) + 32) source) by lia.
    rewrite <- Heq, str_take_take by (unfold len in *; lia). apply str_take_blanked; lia. }
  assert (pe' = pe) as ->.
  { rewrite (unpack_at_prefix 88 4 source result) in Hpe by (apply Htake || lia; lia). congruence. }
  rewrite (unpack_at_prefix (Z.to_nat (pe + 88)) 2 source result) in Hm by (apply Htake || lia; lia).
  rewrite Hm in Hm'. injection Hm' as <-. done.
Qed.

Lemma unpack_here a x b z : String.length x = 4%nat → unpack_at 4 (a +:+ x +:+ b) (len a) = Ok z → x = le_pack 4 z.
Proof.
  intros Hx. unfold unpack_at. destruct (_ && _); [|done]. rewrite str_drop_len. intros Hz. apply (inj Ok) in Hz.
  rewrite <- Hx, str_take_app in Hz. by rewrite <- Hz, <- Hx, le_pack_unpack.
Qed.

(** The entry of the directory is written as it is read. *)
Lemma table_read a table b o s : len table = 8 → unpack_at 4 (a +:+ table +:+ b) (len a) = Ok o →
  unpack_at 4 (a +:+ table +:+ b) (len a + 4) = Ok s → table = le_pack 4 o +:+ le_pack 4 s.
Proof.
  unfold len at 1. intros Ht Ho Hs. destruct (str_split 4 table) as (x & y & -> & Hx); [lia|].
  rewrite length_str_app in Ht. rewrite str_app_assoc in Ho, Hs. apply unpack_here in Ho as ->; [|done].
  assert (a +:+ le_pack 4 o +:+ y +:+ b = (a +:+ le_pack 4 o) +:+ y +:+ b) as Hsplit by (by rewrite !str_app_assoc).
  rewrite Hsplit in Hs. replace (len a + 4) with (len (a +:+ le_pack 4 o)) in Hs by (by rewrite len_app, len_le_pack).
  apply unpack_here in Hs as ->; [done|]. rewrite length_le_pack in Ht. lia.
Qed.

Lemma no_other_zero s : str_any (λ c, negb (Ascii.eqb c zero)) s = false → str_all (Ascii.eqb zero) s = true.
Proof.
  induction s as [|c s IH]; [done|]. cbn [str_any str_all]. intros [Hc%negb_false_iff Hs]%orb_false_elim.
  rewrite Ascii.eqb_sym, Hc. by apply IH.
Qed.

(** The parts around the same two fields agree. *)
Lemma parts_agree n head sum mid rest head' sum' mid' table' rest' :
  len sum = 4 → len head' = len head → len mid' = len mid → len sum' = 4 → len table' = 8 →
  n = len (head +:+ sum +:+ mid +:+ (NUL4 +:+ NUL4) +:+ rest) →
  n ≤ len (head' +:+ sum' +:+ mid' +:+ table' +:+ rest') →
  slice 0 n (head' +:+ NUL4 +:+ mid' +:+ (NUL4 +:+ NUL4) +:+ rest') = head +:+ NUL4 +:+ mid +:+ (NUL4 +:+ NUL4) +:+ rest →
  head' = head ∧ mid' = mid ∧ ∃ more, rest' = rest +:+ more.
Proof.
  intros Hsum Hh Hm Hsum' Ht Hn Hle Heq. rewrite !len_app in Hn, Hle. change (len (NUL4 +:+ NUL4)) with 8 in Hn.
  destruct (str_split (String.length rest) rest') as (r & more & -> & Hr); [unfold len in *; lia|].
  unfold slice in Heq. rewrite Z.sub_0_r in Heq. change (Z.to_nat 0) with O in Heq. cbn [str_drop] in Heq.
  assert (head' +:+ NUL4 +:+ mid' +:+ (NUL4 +:+ NUL4) +:+ r +:+ more =
    (head' +:+ NUL4 +:+ mid' +:+ (NUL4 +:+ NUL4) +:+ r) +:+ more) as Hassoc by (by rewrite !str_app_assoc).
  rewrite Hassoc in Heq. assert (n = len (head' +:+ NUL4 +:+ mid' +:+ (NUL4 +:+ NUL4) +:+ r)) as ->.
  { rewrite !len_app. change (len NUL4) with 4. assert (len r = len rest) by (unfold len; lia). lia. }
  rewrite str_take_len in Heq. unfold len in Hh, Hm.
  apply str_app_inj_1 in Heq as [-> Heq]; [|lia]. apply str_app_inj_1 in Heq as [_ Heq]; [|done].
  apply str_app_inj_1 in Heq as [-> Heq]; [|lia]. apply str_app_inj_1 in Heq as [_ ->]; [|done]. split_and!; [done..|by eexists].
Qed.

Lemma signature_parts head sum sum' mid table rest more source result o s :
  source = head +:+ sum +:+ mid +:+ (NUL4 +:+ NUL4) +:+ rest → result = head +:+ sum' +:+ mid +:+ table +:+ rest +:+ more →
  len sum = 4 → len sum' = 4 → len table = 8 →
  unpack_at 4 result (len head + 4 + len mid) = Ok o → unpack_at 4 result (len head + 4 + len mid + 4) = Ok s →
  len source ≤ o → o + s = len result → o - len source ≤ 7 → s ≠ 0 →
  str_any (λ c, negb (Ascii.eqb c zero)) (slice (len source) o
    (head +:+ NUL4 +:+ mid +:+ (NUL4 +:+ NUL4) +:+ rest +:+ more)) = false →
  certificate_directory source = Ok (len head, len head + 4 + len mid, 0, 0) → signature_appended source result.
Proof.
  intros Hsource Hresult Hsum Hsum' Ht Ho Hs Hle Hlen Hp Hs0 Hpad Hdir.
  assert (Hn : len source = len (head +:+ NUL4 +:+ mid +:+ (NUL4 +:+ NUL4) +:+ rest)).
  { rewrite Hsource, !len_app. change (len NUL4) with 4. lia. }
  assert (Hmore : len more = o + s - len source).
  { rewrite Hlen, Hresult, Hsource, !len_app. change (len NUL4) with 4. lia. }
  pose proof (unpack_at_range _ _ _ _ Hs) as Hsr.
  assert (table = le_pack 4 o +:+ le_pack 4 s) as Htable.
  { replace (len head + 4 + len mid) with (len (head +:+ sum' +:+ mid)) in Ho, Hs by (rewrite !len_app; lia).
    assert (Ha : result = (head +:+ sum' +:+ mid) +:+ table +:+ rest +:+ more) by (by rewrite Hresult, !str_app_assoc).
    rewrite Ha in Ho, Hs. by apply (table_read _ _ _ _ _ Ht Ho Hs). }
  destruct (str_split (Z.to_nat (o - len source)) more) as (pad & signature & -> & Hpl).
  { assert (o - len source ≤ len more) as Hm by lia. clear -Hm Hle. unfold len in *. lia. }
  rewrite len_app in Hmore. assert (len pad = o - len source) as Hlp by (unfold len at 1; rewrite Hpl; lia).
  assert (Hz : slice (len source) o (head +:+ NUL4 +:+ mid +:+ (NUL4 +:+ NUL4) +:+ rest +:+ pad +:+ signature) = pad).
  { unfold slice. rewrite Hn.
    assert (head +:+ NUL4 +:+ mid +:+ (NUL4 +:+ NUL4) +:+ rest +:+ pad +:+ signature =
      (head +:+ NUL4 +:+ mid +:+ (NUL4 +:+ NUL4) +:+ rest) +:+ pad +:+ signature) as -> by (by rewrite !str_app_assoc).
    rewrite str_drop_len, <- Hn, <- Hlp. apply str_take_len. }
  rewrite Hz in Hpad. exists head, sum, sum', mid, rest, pad, signature.
  replace (len source + len pad) with o by lia. replace (len signature) with s by lia. rewrite <- Htable.
  split_and!; [done|done|done|done|lia|by apply no_other_zero|lia|done].
Qed.

Lemma unchanged_sound name source result : unchanged name source result = Ok tt → signature_appended source result.
Proof.
  unfold unchanged. intros Hr.
  apply res_bind_Ok in Hr as ([[[c' d'] o] s] & Hres & Hr). apply res_bind_Ok in Hr as ([[[c d] so] ss] & Hsrc & Hr).
  apply res_bind_Ok in Hr as ([] & [Hso Hss]%raise_if_Ok%orb_false_elim & Hr).
  apply negb_false_iff, Z.eqb_eq in Hso as ->. apply negb_false_iff, Z.eqb_eq in Hss as ->.
  apply res_bind_Ok in Hr as ([] & Hsize%raise_if_Ok & Hr). apply raise_if_Ok, orb_false_elim in Hr as [Heq Hpad].
  rewrite !orb_false_iff, negb_false_iff, Z.eqb_neq, Z.eqb_eq, !Z.ltb_ge in Hsize.
  destruct Hsize as [[[Hs0 Ho] Hlen] Hp7]. apply negb_false_iff, String.eqb_eq in Heq.
  pose proof (certificate_directory_Ok _ _ _ _ _ Hsrc) as (pe & magic & Hpe & _ & Hpe0 & Hc & Hd & Hdo & Hds).
  pose proof (unpack_at_fits _ _ _ _ Hds) as [_ Hfit].
  assert (c + 4 ≤ d) by (destruct (magic =? 0x20B); lia).
  assert (0 ≤ c) by lia. clear Hc Hd pe magic Hpe Hpe0.
  destruct (split_fields c d source) as (head & sum & mid & table & rest & Hsource & Hh & Hsum & Hm & Ht); [lia..|].
  assert (d = len head + 4 + len mid) as -> by lia. subst c.
  assert (table = NUL4 +:+ NUL4) as ->.
  { replace (len head + 4 + len mid) with (len (head +:+ sum +:+ mid)) in Hdo, Hds by (rewrite !len_app; lia).
    assert (Ha : source = (head +:+ sum +:+ mid) +:+ table +:+ rest) by (by rewrite Hsource, !str_app_assoc).
    rewrite Ha in Hdo, Hds. rewrite (table_read _ _ _ _ _ Ht Hdo Hds). reflexivity. }
  assert (Hblank : blanked (len head) (len head + 4 + len mid) source = head +:+ NUL4 +:+ mid +:+ (NUL4 +:+ NUL4) +:+ rest)
    by (rewrite Hsource; by apply blanked_fields).
  assert (len (blanked (len head) (len head + 4 + len mid) source) = len source) as Hsame.
  { rewrite Hblank, Hsource, !len_app. change (len NUL4) with 4. lia. }
  rewrite Hsame in Heq, Hpad.
  pose proof (certificate_directory_Ok _ _ _ _ _ Hres) as (_ & _ & _ & _ & _ & _ & _ & Hro & Hrs).
  pose proof (unpack_at_range _ _ _ _ Hrs).
  destruct (same_fields source result _ _ _ _ _ _ _ _ Hsrc Hres Heq) as [-> ->]; [lia|]. rewrite Hblank in Heq. clear Hblank Hsame.
  pose proof (unpack_at_fits _ _ _ _ Hrs) as [_ Hfit'].
  destruct (split_fields (len head) (len head + 4 + len mid) result)
    as (head' & sum' & mid' & table' & rest' & Hresult & Hh' & Hsum' & Hm' & Ht'); [lia..|].
  assert (blanked (len head) (len head + 4 + len mid) result = head' +:+ NUL4 +:+ mid' +:+ (NUL4 +:+ NUL4) +:+ rest') as Hb'.
  { rewrite Hresult, <- Hh'. replace (len mid) with (len mid') by lia. by apply blanked_fields. }
  rewrite Hb' in Heq, Hpad. clear Hb'.
  apply (parts_agree _ head sum mid rest head' sum' mid' table' rest') in Heq as (-> & -> & more & ->);
    [|done|done|lia|done|done|by rewrite Hsource|rewrite <- Hresult; lia].
  exact (signature_parts head sum sum' mid table' rest more source result o s Hsource Hresult Hsum Hsum' Ht' Hro Hrs
    ltac:(lia) Hlen Hp7 Hs0 Hpad Hsrc).
Qed.

Section returned.
Context `{Host} `{WinApi} `{BuildInstaller.Machine} `{Filesystem} `{RealPath}.

(** C39. Signing may add a signature and nothing else. When a returned file is
    accepted for a staged one, the staged file had no signature, and the returned
    one is the staged file byte for byte, except for the four bytes of the
    checksum and the eight of the certificate entry of its PE header, followed by
    at most seven zero bytes and the signature; the entry names exactly where the
    signature starts and how long it is. *)
Theorem signing_unchanged (original signed : string) (w w' : world)
    (Hrun : runs (require_unchanged_payload original signed) w tt w') :
  w' = w ∧ ∃ source result, w_fs w !! original = Some (File source) ∧ w_fs w !! signed = Some (File result) ∧
    signature_appended source result.
Proof.
  unfold require_unchanged_payload in Hrun. apply runs_bind in Hrun as (source & w1 & [<- Hs]%runs_read_bytes & Hr).
  apply runs_bind in Hr as (result & w1 & [<- Hres]%runs_read_bytes & Hr). apply runs_lift in Hr as [Hr <-].
  split; [done|]. exists source, result. by apply unchanged_sound in Hr.
Qed.
End returned.

(** ** At work *)

(** A small executable, and the same one signed. *)
Definition unsigned_exe : string :=
  "MZ" +:+ zeros 58 +:+ le_pack 4 64 +:+ "PE" +:+ zeros 2 +:+ zeros 20 +:+ le_pack 2 0x10B +:+ zeros 62 +:+
  "SUM0" +:+ zeros 60 +:+ zeros 8 +:+ "code".
Definition signed_exe : string :=
  "MZ" +:+ zeros 58 +:+ le_pack 4 64 +:+ "PE" +:+ zeros 2 +:+ zeros 20 +:+ le_pack 2 0x10B +:+ zeros 62 +:+
  "SUM1" +:+ zeros 60 +:+ (le_pack 4 232 +:+ le_pack 4 9) +:+ "code" +:+ zeros 4 +:+ "signature".
Definition signing_world : world := World (<["in.exe" := File unsigned_exe]> {["out.exe" := File signed_exe]}) ∅ [].

Theorem signing_unchanged_witness :
  ∃ source result, w_fs signing_world !! "in.exe" = Some (File source) ∧
    w_fs signing_world !! "out.exe" = Some (File result) ∧ signature_appended source result.
Proof.
  apply (signing_unchanged "in.exe" "out.exe" signing_world signing_world). vm_compute. reflexivity.
Defined.
