(* ===== verification/HubHomologation.v ===== *)
(** * Homologation of the Hub's agent actions (tool/agent_actions/homologate_hub_agent_actions.py)

    Prepares and checks the environment of the Hub, and runs the contract, user
    interface and live tests. The tests of a manifest are passed to Flutter in
    batches, because the Windows shell limits the length of a command line. *)

From S2P Require Import Prelude PyStr PyLib Effects ScriptUtils Commands.

Local Open Scope Z_scope.

(** src: tool/agent_actions/homologate_hub_agent_actions.py:21-27 MANUAL_CHECKLIST *)
Definition MANUAL_CHECKLIST : string :=
  "  1. Hub must advertise extensions.agentActions in agent:capabilities (set E2E_HUB_EXPECT_AGENT_ACTIONS_CAPABILITY=true to assert)." +:+ nl +:+
  "  2. For inbound RPC smoke, hub must emit agent.action.* after agent:ready (E2E_HUB_EXPECT_AGENT_ACTION_RPC=true)." +:+ nl +:+
  "  3. Production: enforce allowlist/rate limit on Hub; agent already routes agent.action.run/validateRun/cancel/getExecution." +:+ nl +:+
  "  4. Register COM handlers in com_object_production_registrations.dart (or AGENT_ACTION_COM_STUB_* for homologation)." +:+ nl +:+
  "  5. Homologation COM stub: AGENT_ACTION_COM_STUB_ENABLED=true plus PROG_ID/MEMBER_NAME in .env (see docs/testing/e2e_setup.md)." +:+ nl +:+
  "  6. Security gate per type: dart run tool/agent_actions/agent_action_security_gate_checklist.dart [type]" +:+ nl.

(** src: tool/agent_actions/homologate_hub_agent_actions.py:29-33 HUB_SOCKET_CONNECT_FAIL *)
Definition HUB_SOCKET_CONNECT_FAIL : string :=
  "Hub Socket connect smoke failed (check E2E_HUB_URL and E2E_HUB_TOKEN)." +:+ nl +:+
  "If the error mentions jwt expired, refresh the token:" +:+ nl +:+
  "  dart run tool/e2e/fetch_e2e_hub_token_from_local_config.dart --apply-token --force" +:+ nl +:+
  "(sign in via Config, E2E_HUB_USERNAME/PASSWORD in .env, or set E2E_HUB_TOKEN from Hub admin)." +:+ nl.

(** src: tool/agent_actions/homologate_hub_agent_actions.py:35-40 SIGNED_CAPABILITIES_FAIL *)
Definition SIGNED_CAPABILITIES_FAIL : string :=
  "Signed capabilities smoke failed. Socket connect succeeded but agent:capabilities did not arrive." +:+ nl +:+
  "- Use the same PAYLOAD_SIGNING_KEY_ID and PAYLOAD_SIGNING_KEY as the deployed Hub (not e2e-dev on production)." +:+ nl +:+
  "- dart run tool/e2e/export_e2e_secrets_from_local.dart" +:+ nl +:+
  "- dart run tool/e2e/promote_e2e_signing_from_monorepo_env.dart" +:+ nl +:+
  "- dart run tool/e2e/validate_live_hub_agent_actions_env.dart" +:+ nl.

(** src: tool/agent_actions/homologate_hub_agent_actions.py:44-46 run_manifest_tests *)
Definition command_limit : Z := 6000.
Definition test_prefix : list string := ["flutter"; "test"].
(** src: tool/agent_actions/homologate_hub_agent_actions.py:49-55 run_manifest_tests *)
Definition too_long (command : list string) (path : string) : bool :=
  command_limit <? len (list2cmdline (command ++ [path])).

(** src: tool/agent_actions/homologate_hub_agent_actions.py:47-59 run_manifest_tests
    The batches, with the one that is being filled. *)
Fixpoint fill_batches (command paths : list string) : res (list (list string)) :=
  match paths with
  | [] => Ok [command]
  | path :: paths =>
      if too_long test_prefix path then Raise (ValueError "Manifest test path exceeds the command budget.")
      else if too_long command path then
        batches ← fill_batches (test_prefix ++ [path]) paths; Ok (command :: batches)
      else fill_batches (command ++ [path]) paths
  end.

(** src: tool/agent_actions/homologate_hub_agent_actions.py:44-59 run_manifest_tests
    The batches, computed before any of them runs. *)
Definition manifest_batches (paths : list string) : res (list (list string)) :=
  match paths with
  | [] => Raise (ValueError "Test manifest cannot be empty.")
  | _ => fill_batches test_prefix paths
  end.

(** src: tool/agent_actions/homologate_hub_agent_actions.py:71-74 main
    Command line options. *)
Record args : Type := Args {
  a_run_contract_tests : bool;
  a_run_live_tests : bool;
  a_validate_live_env : bool;
  a_prepare_live_env : bool
}.

Section homologation.
Context `{Host}.

(** src: tool/agent_actions/homologate_hub_agent_actions.py:60-64 run_manifest_tests
    Runs the batches until one fails. *)
Fixpoint run_batches (batches : list (list string)) : M Z :=
  match batches with
  | [] => mret 0
  | command :: batches =>
      result ← run_streaming command None None None;
      if negb (result =? 0) then mret result else run_batches batches
  end.

(** src: tool/agent_actions/homologate_hub_agent_actions.py:43-64 run_manifest_tests *)
Definition run_manifest_tests (paths : list string) : M Z :=
  batches ← lift (manifest_batches paths); run_batches batches.

(** A preparation step: its failure is only reported. *)
Definition optional_step (cmd : list string) (failed passed : M unit) : M unit :=
  c ← run_code cmd None; if negb (c =? 0) then failed else passed.

(** src: tool/agent_actions/homologate_hub_agent_actions.py:84-127 main
    The part of [--prepare-live-env]. *)
Definition prepare_live_env : M unit :=
  _ ← console_step "Prepare live Hub .env from local app storage";
  _ ← optional_step ["dart"; "run"; "tool/e2e/sync_e2e_hub_env_from_local.dart"; "--export-secure"]
        (console_warn "sync_e2e_hub_env_from_local.dart finished with missing variables (see hints above).")
        (console_pass "sync_e2e_hub_env_from_local.dart completed.");
  _ ← console_step "Promote signing from plug_server/.env (monorepo)";
  _ ← optional_step ["dart"; "run"; "tool/e2e/promote_e2e_signing_from_monorepo_env.dart"; "--force"]
        (_ ← console_step "Generate dev signing pair (agent + sibling plug_server/.env)";
         optional_step ["dart"; "run"; "tool/e2e/generate_dev_e2e_signing.dart"; "--write"]
           (console_warn "generate_dev_e2e_signing.dart failed.") (mret tt))
        (console_pass "Signing keys promoted from monorepo.");
  _ ← console_step "Refresh E2E_HUB_TOKEN (local DB, saved credentials, or E2E_HUB_USERNAME/PASSWORD)";
  optional_step ["dart"; "run"; "tool/e2e/fetch_e2e_hub_token_from_local_config.dart"; "--apply-token"; "--force"]
    (console_warn "Token refresh skipped - sign in via Config or set E2E_HUB_TOKEN / E2E_HUB_USERNAME in .env.")
    (console_pass "E2E_HUB_TOKEN refresh attempted.").

Definition env_command : list string := ["dart"; "run"; "tool/e2e/check_e2e_env.dart"].
Definition live_env_command : list string := ["dart"; "run"; "tool/e2e/validate_live_hub_agent_actions_env.dart"].
Definition preflight_command : list string :=
  ["dart"; "run"; "tool/agent_actions/preflight_agent_actions_production.dart"].
(** src: tool/agent_actions/homologate_hub_agent_actions.py:173-181 main *)
Definition hub_socket_command (name : string) : list string :=
  ["flutter"; "test"; "test/integration/hub_socket_live_e2e_test.dart"; "--name"; name].
(** src: tool/agent_actions/homologate_hub_agent_actions.py:203-211 main *)
Definition live_command : list string :=
  ["flutter"; "test"; "test/integration/hub_agent_action_rpc_live_e2e_test.dart"; "--tags"; "live"].

(** src: tool/agent_actions/homologate_hub_agent_actions.py:154-159 main
    The tests of one manifest. *)
Definition manifest_tests (file_name : string) : M Z :=
  paths ← read_manifest_test_paths file_name; run_manifest_tests paths.

(** src: tool/agent_actions/homologate_hub_agent_actions.py:142-169 main
    The part of [--run-contract-tests]. *)
Definition contract_tests (rest : M Z) : M Z :=
  _ ← console_step "Agent actions production preflight (static)";
  require_step (run_code preflight_command None)
    (console_fail "Production preflight failed.") (console_pass "Production preflight passed.")
    (_ ← console_step "Agent action contract tests (local)";
     require_step (manifest_tests "agent_actions_contract_test_paths.txt")
       (console_fail "Contract tests failed.") (console_pass "Contract tests passed.")
       (_ ← console_step "Agent actions UI regression (local)";
        require_step (manifest_tests "agent_actions_ui_test_paths.txt")
          (console_fail "UI regression tests failed.") (console_pass "UI regression tests passed.") rest)).

(** src: tool/agent_actions/homologate_hub_agent_actions.py:172-215 main
    The part of [--run-live-tests]. *)
Definition live_tests (rest : M Z) : M Z :=
  _ ← console_step "Hub Socket smoke (connect)";
  require_step (run_streaming (hub_socket_command "should connect") None None None)
    (console_fail HUB_SOCKET_CONNECT_FAIL) (console_pass "Hub Socket connect smoke passed.")
    (_ ← console_step "Hub signed capabilities smoke (PAYLOAD_SIGNING_* must match Hub)";
     require_step (run_streaming (hub_socket_command "signed PayloadFrame") None None None)
       (console_fail SIGNED_CAPABILITIES_FAIL) (console_pass "Hub signed capabilities smoke passed.")
       (_ ← console_step "Hub agent.action live tests (opt-in)";
        require_step (run_streaming live_command None None None)
          (console_fail "Live hub agent.action tests failed.")
          (console_pass "Live hub agent.action tests passed.") rest)).

(** src: tool/agent_actions/homologate_hub_agent_actions.py:219-228 main
    The end of a run whose steps all succeeded. *)
Definition finish (contract : bool) : M Z :=
  _ ← console_step "Manual checklist";
  _ ← emit "90" MANUAL_CHECKLIST;
  _ ← when contract
        (_ ← run ["dart"; "run"; "tool/agent_actions/agent_action_security_gate_checklist.dart"]
               (Some PROJECT_ROOT) None false; mret tt);
  _ ← console_pass "Homologation script finished.";
  mret 0.

(** src: tool/agent_actions/homologate_hub_agent_actions.py:67-228 main *)
Definition main (a : args) : M Z :=
  let live :=
    if a_run_live_tests a then live_tests (finish (a_run_contract_tests a))
    else _ ← console_warn "Skipped live tests (use --run-live-tests after configuring .env).";
         finish (a_run_contract_tests a) in
  let contract :=
    if a_run_contract_tests a then contract_tests live
    else _ ← console_warn "Skipped contract tests (use --run-contract-tests)."; live in
  _ ← console_step "E2E environment";
  require_step (run_code env_command None)
    (console_fail "check_e2e_env.dart failed.") (console_pass "check_e2e_env.dart completed.")
    (_ ← when (a_prepare_live_env a) prepare_live_env;
     if a_validate_live_env a then
       _ ← console_step "Live Hub agent.action preflight";
       require_step (run_code live_env_command None)
         (console_fail "validate_live_hub_agent_actions_env.dart failed.")
         (console_pass "Live Hub variables present (run --run-live-tests to execute hub_agent_action_rpc_live_e2e_test.dart).")
         contract
     else contract).
End homologation.

(** ** The batches *)

Lemma fill_batches_spec command paths batches : fill_batches command paths = Ok batches →
  (∃ files, command = test_prefix ++ files ∧ (files ≠ [] → len (list2cmdline command) ≤ command_limit)) →
  (command = test_prefix → paths ≠ []) →
  concat (drop 2 <$> batches) = drop 2 command ++ paths ∧
  Forall (λ b, ∃ files, files ≠ [] ∧ b = test_prefix ++ files ∧ len (list2cmdline b) ≤ command_limit) batches.
Proof.
  revert command batches. induction paths as [|path paths IH]; intros command batches; cbn [fill_batches].
  - intros [= <-] (files & -> & Hlen) Hne. simpl. rewrite !app_nil_r. split; [done|]. constructor; [|constructor].
    exists files. destruct files; [by destruct Hne|]. split_and!; [done|done|by apply Hlen].
  - destruct (too_long test_prefix path) eqn:Hpath; [done|]. intros Hb (files & -> & Hlen) Hne.
    unfold too_long in Hpath. apply Z.ltb_ge in Hpath. destruct (too_long (test_prefix ++ files) path) eqn:Hc.
    + apply res_bind_Ok in Hb as (rest & Hrest & [= <-]). apply IH in Hrest as [Hcat Hall].
      * cbn [fmap list_fmap concat]. rewrite Hcat. split; [done|]. constructor; [|done]. exists files.
        assert (files ≠ []) as Hf by (intros ->; unfold too_long in Hc; rewrite app_nil_r in Hc; apply Z.ltb_lt in Hc; lia).
        split_and!; [done|done|by apply Hlen].
      * by exists [path].
      * done.
    + apply IH in Hb as [Hcat Hall].
      * split; [|done]. rewrite Hcat. change (drop 2 (test_prefix ++ files)) with files.
        rewrite <- app_assoc. change (drop 2 (test_prefix ++ files ++ [path])) with (files ++ [path]). by rewrite <- app_assoc.
      * exists (files ++ [path]). rewrite app_assoc. split; [done|]. intros _. by apply Z.ltb_ge.
      * intros [=]. by destruct files.
Qed.

Lemma fill_batches_raises command paths e : fill_batches command paths = Raise e ↔
  e = ValueError "Manifest test path exceeds the command budget." ∧ ∃ path, path ∈ paths ∧ too_long test_prefix path = true.
Proof.
  revert command. induction paths as [|path paths IH]; intros command; cbn [fill_batches].
  - split; [done|]. by intros (_ & p & ?%elem_of_nil & _).
  - setoid_rewrite elem_of_cons. destruct (too_long test_prefix path) eqn:Hp.
    + split; [intros [= <-]; eauto|by intros [-> _]].
    + destruct (too_long command path).
      * rewrite res_bind_Raise, IH. split; [naive_solver|]. intros (He & p & [->|Hin] & Hl); [congruence|]. left. eauto.
      * rewrite IH. split; [naive_solver|]. intros (He & p & [->|Hin] & Hl); [congruence|]. eauto.
Qed.

Lemma fill_batches_head command paths batches : fill_batches command paths = Ok batches →
  ∃ files rest, batches = (command ++ files) :: rest.
Proof.
  revert command. induction paths as [|path paths IH]; intros command; cbn [fill_batches].
  - intros [= <-]. exists [], []. by rewrite app_nil_r.
  - destruct (too_long test_prefix path); [done|]. destruct (too_long command path).
    + intros (rest & _ & [= <-])%res_bind_Ok. exists [], rest. by rewrite app_nil_r.
    + intros (files & rest & ->)%IH. exists (path :: files), rest. by rewrite <- app_assoc.
Qed.

(** A batch is closed only because the next path does not fit. *)
Fixpoint closed_when_full (batches : list (list string)) : Prop :=
  match batches with
  | b :: ((next :: _) as rest) =>
      (∃ path, head (drop 2 next) = Some path ∧ too_long b path = true) ∧ closed_when_full rest
  | _ => True
  end.

Lemma fill_batches_full command paths batches : fill_batches command paths = Ok batches → closed_when_full batches.
Proof.
  revert command batches. induction paths as [|path paths IH]; intros command batches; cbn [fill_batches].
  - by intros [= <-].
  - destruct (too_long test_prefix path); [done|]. destruct (too_long command path) eqn:Hl; [|by apply IH].
    intros (rest & Hrest & [= <-])%res_bind_Ok.
    destruct (fill_batches_head _ _ _ Hrest) as (files & rest' & ->). split; [|by eapply IH].
    exists path. by split.
Qed.

(** C40. The batches of a manifest run every path of it once, in the order of the
    manifest: each batch is a [flutter test] command of at least one path within
    the limit of the command line, and a new batch starts only when the next
    path does not fit. There are batches unless the manifest is empty or holds
    a path that is too long on its own. *)
Theorem manifest_batches_exact (paths : list string) :
  match manifest_batches paths with
  | Ok batches =>
      concat (drop 2 <$> batches) = paths ∧ closed_when_full batches ∧
      Forall (λ b, ∃ files, files ≠ [] ∧ b = test_prefix ++ files ∧ len (list2cmdline b) ≤ command_limit) batches
  | Raise (ValueError _) => paths = [] ∨ ∃ path, path ∈ paths ∧ too_long test_prefix path = true
  | Raise _ => False
  end.
Proof.
  destruct (manifest_batches paths) as [batches|e] eqn:Hb; unfold manifest_batches in Hb; destruct paths as [|p paths]; try done.
  - destruct (fill_batches_spec _ _ _ Hb) as [Hcat Hall]; [by exists []|done|]. split_and!; [done| |done].
    by eapply fill_batches_full.
  - injection Hb as <-. by left.
  - apply fill_batches_raises in Hb as [-> ?]. by right.
Qed.

Section proofs.
Context `{Host}.

(** The commands ran one after the other, each returning 0. *)
Fixpoint all_succeeded (batches : list (list string)) (w w' : world) : Prop :=
  match batches with
  | [] => w' = w
  | b :: batches => ∃ w1, runs (run_streaming b None None None) w 0 w1 ∧ all_succeeded batches w1 w'
  end.

Lemma run_batches_spec batches w c w' : runs (run_batches batches) w c w' ↔
  (c = 0 ∧ all_succeeded batches w w') ∨
  (c ≠ 0 ∧ ∃ before b after w1, batches = before ++ b :: after ∧ all_succeeded before w w1 ∧
     runs (run_streaming b None None None) w1 c w').
Proof.
  revert w. induction batches as [|b batches IH]; intros w; cbn [run_batches all_succeeded].
  - rewrite runs_ret. split; [naive_solver|]. intros [[-> ->]|(_ & before & b & after & w1 & Hb & _)]; [done|by destruct before].
  - rewrite runs_bind. split.
    + intros (r & w1 & Hr & Hk). destruct (Z.eqb_spec r 0) as [->|Hne]; cbn [negb] in Hk.
      * apply IH in Hk as [[-> Hall]|(Hc & before & b' & after & w2 & -> & Hb & Hc')]; [left; eauto|].
        right. split; [done|]. exists (b :: before), b', after, w2. split_and!; [done|by exists w1|done].
      * apply runs_ret in Hk as [<- <-]. right. split; [done|]. by exists [], b, batches, w.
    + intros [[-> (w1 & Hr & Hall)]|(Hc & before & b' & after & w2 & Hb & Hall & Hr)].
      * exists 0, w1. split; [done|]. apply IH. by left.
      * destruct before as [|b0 before]; injection Hb as -> ->.
        -- simpl in Hall. subst. exists c, w'. split; [done|]. destruct (Z.eqb_spec c 0); [done|]. by apply runs_ret.
        -- destruct Hall as (w1 & Hr1 & Hall). exists 0, w1. split; [done|]. apply IH. right. split; [done|].
           by exists before, b', after, w2.
Qed.

Lemma later_run_batches batches : steps later (run_batches batches).
Proof. induction batches; cbn [run_batches]; solve_steps. Qed.
Lemma later_run_manifest_tests paths : steps later (run_manifest_tests paths).
Proof. pose proof later_run_batches. unfold run_manifest_tests. solve_steps. Qed.
Lemma later_manifest_tests file : steps later (manifest_tests file).
Proof. pose proof later_run_manifest_tests. unfold manifest_tests, read_manifest_test_paths. solve_steps. Qed.
Lemma later_finish b : steps later (finish b).
Proof. unfold finish. solve_steps. Qed.
Lemma later_prepare : steps later prepare_live_env.
Proof. unfold prepare_live_env, optional_step. solve_steps. Qed.

(** The tests of a manifest succeeded: those of its paths, in batches, all of them. *)
Definition manifest_succeeded (file : string) (w w' : world) : Prop :=
  ∃ paths batches w1 w2 w3, later w w1 ∧ runs (read_manifest_test_paths file) w1 paths w2 ∧
    manifest_batches paths = Ok batches ∧ all_succeeded batches w2 w3 ∧ later w3 w'.

Lemma manifest_succeeded_mono file w0 w w' w1 : later w0 w → later w' w1 →
  manifest_succeeded file w w' → manifest_succeeded file w0 w1.
Proof.
  intros H0 H1 (ps & bs & u & v & x & ? & ? & ? & ? & ?). exists ps, bs, u, v, x.
  split_and!; try done; by etrans.
Qed.

Lemma manifest_tests_succeeded file w w1 w' : runs (manifest_tests file) w 0 w1 → later w1 w' →
  manifest_succeeded file w w'.
Proof.
  intros Hr Hl. apply runs_bind in Hr as (paths & w2 & Hp & Hr).
  apply runs_bind in Hr as (batches & w3 & [Hb <-]%runs_lift & Hr).
  apply run_batches_spec in Hr as [[_ Hall]|[[] _]]; [|done]. by exists paths, batches, w, w2, w1.
Qed.

(** The three live suites succeeded, in this order. *)
Definition live_succeeded : world → world → Prop :=
  then_during (during (run_streaming (hub_socket_command "should connect") None None None) 0)
    (then_during (during (run_streaming (hub_socket_command "signed PayloadFrame") None None None) 0)
       (during (run_streaming live_command None None None) 0)).

(** What a successful run has established between two moments. *)
Record homologated (a : args) (w w' : world) : Prop := {
  hom_env : during (run_code env_command None) 0 w w';
  hom_live_env : a_validate_live_env a = true → during (run_code live_env_command None) 0 w w';
  hom_contract : a_run_contract_tests a = true →
    during (run_code preflight_command None) 0 w w' ∧
    manifest_succeeded "agent_actions_contract_test_paths.txt" w w' ∧
    manifest_succeeded "agent_actions_ui_test_paths.txt" w w';
  hom_live : a_run_live_tests a = true →
    live_succeeded w w'
}.
End proofs.

#[export] Hint Resolve later_run_batches later_run_manifest_tests later_manifest_tests later_finish later_prepare : py.

(** Turns a run of console output into the passage of time. *)
Ltac later_step Hr w1 :=
  let Hs := fresh "Hs" in
  apply runs_bind in Hr as ([] & w1 & Hs & Hr); apply later_runs in Hs; [|solve_steps].
(** Takes a required step off a run that returned 0. *)
Ltac step_ok Hr Hs w1 w2 Hl :=
  apply require_step_ok in Hr as (w1 & w2 & Hs & Hl & Hr); [|solve_steps..].

Section main_proof.
Context `{Host}.

Lemma contract_tests_ok rest w w' : runs (contract_tests rest) w 0 w' →
  ∃ w1, runs rest w1 0 w' ∧ later w w1 ∧ during (run_code preflight_command None) 0 w w1 ∧
    manifest_succeeded "agent_actions_contract_test_paths.txt" w w1 ∧
    manifest_succeeded "agent_actions_ui_test_paths.txt" w w1.
Proof.
  unfold contract_tests. intros Hr. later_step Hr w1. step_ok Hr H1 w2 w3 Hl1. later_step Hr w4.
  step_ok Hr H2 w5 w6 Hl2. later_step Hr w7. step_ok Hr H3 w8 w9 Hl3. exists w9. split; [done|].
  assert (later w1 w2) by (eapply later_runs; [|done]; solve_steps).
  assert (later w4 w5) by (eapply later_runs; [|done]; solve_steps).
  assert (later w7 w8) by (eapply later_runs; [|done]; solve_steps). split_and!.
  - chain_later.
  - eapply during_mono; [| |by eapply during_runs]; chain_later.
  - eapply manifest_succeeded_mono; [|reflexivity|apply (manifest_tests_succeeded _ _ _ w9 H2)]; chain_later.
  - eapply manifest_succeeded_mono; [|reflexivity|apply (manifest_tests_succeeded _ _ _ w9 H3)]; chain_later.
Qed.

Lemma live_tests_ok rest w w' : runs (live_tests rest) w 0 w' → steps later rest →
  live_succeeded w w'.
Proof.
  unfold live_tests. intros Hr Hrest. later_step Hr w1. step_ok Hr H1 w2 w3 Hl1. later_step Hr w4.
  step_ok Hr H2 w5 w6 Hl2. later_step Hr w7. step_ok Hr H3 w8 w9 Hl3. apply later_runs in Hr; [|done].
  exists w3. split; [by exists w1, w2|]. exists w6. split; [by exists w4, w5|].
  exists w7, w8. split_and!; [done|done|]. by etrans.
Qed.

(** A homologation that exits with 0 ran everything it was asked for: the
    environment check succeeded, the live environment check if requested, with
    [--run-contract-tests] the production preflight and every batch of both
    manifests, with [--run-live-tests] the three live suites in their order. *)
Theorem homologation_passed (a : args) (w w' : world) (Hrun : runs (main a) w 0 w') : homologated a w w'.
Proof.
  unfold main in Hrun. set (live := if a_run_live_tests a then _ else _) in Hrun.
  set (contract := if a_run_contract_tests a then _ else _) in Hrun.
  assert (Hlive : ∀ u v, runs live u 0 v → later u v ∧ (a_run_live_tests a = true → live_succeeded u v)).
  { intros u v Hr. unfold live in Hr. destruct (a_run_live_tests a).
    - split; [|intros _; apply (live_tests_ok (finish (a_run_contract_tests a))); [done|solve_steps]].
      eapply later_runs; [|exact Hr]. unfold live_tests, require_step. solve_steps.
    - split; [|done]. eapply later_runs; [|exact Hr]. solve_steps. }
  assert (Hcontract : ∀ u v, runs contract u 0 v → ∃ x, later u x ∧ runs live x 0 v ∧
    (a_run_contract_tests a = true → during (run_code preflight_command None) 0 u x ∧
       manifest_succeeded "agent_actions_contract_test_paths.txt" u x ∧
       manifest_succeeded "agent_actions_ui_test_paths.txt" u x)).
  { intros u v Hr. unfold contract in Hr. destruct (a_run_contract_tests a).
    - apply contract_tests_ok in Hr as (x & ? & ? & ?). by exists x.
    - later_step Hr x. by exists x. }
  clearbody contract live. later_step Hrun w1. step_ok Hrun Henv w2 w3 Hl. later_step Hrun w4.
  assert (∃ w5, later w4 w5 ∧ runs contract w5 0 w' ∧
    (a_validate_live_env a = true → during (run_code live_env_command None) 0 w4 w5)) as (w5 & H5 & Hr & Hval).
  { destruct (a_validate_live_env a); [|by exists w4]. later_step Hrun w5. step_ok Hrun Hv w6 w7 Hl7.
    exists w7. assert (later w5 w6) by (eapply later_runs; [|done]; solve_steps).
    split_and!; [chain_later|done|]. intros _. by exists w5, w6. }
  apply Hcontract in Hr as (w6 & H6 & Hr & Hcon). apply Hlive in Hr as [H7 Hliv].
  assert (later w1 w2) by (eapply later_runs; [|done]; solve_steps).
  assert (later w w6 ∧ later w w4 ∧ later w w5) as (? & ? & ?) by (split_and!; chain_later).
  constructor.
  - exists w1, w2. split_and!; [done|done|chain_later].
  - intros Hv. eapply during_mono; [| |by apply Hval]; chain_later.
  - intros Hc. apply Hcon in Hc as (Hp & Hm1 & Hm2). split_and!.
    + eapply during_mono; [| |done]; chain_later.
    + eapply manifest_succeeded_mono; [| |exact Hm1]; chain_later.
    + eapply manifest_succeeded_mono; [| |exact Hm2]; chain_later.
  - intros Hc. apply Hliv in Hc as (x & (u & v & ? & ? & ?) & Hc). exists x. split; [|done]. exists u, v. split_and!; try done. chain_later.
Qed.
End main_proof.

(** ** At work *)

Definition all_args : args := Args true true true true.
Definition manifest_world : world :=
  World (<["/r/tool/agent_actions/manifests/agent_actions_contract_test_paths.txt" :=
            File ("# contract" +:+ nl +:+ "test/a_test.dart" +:+ nl +:+ "test/b_test.dart" +:+ nl)]>
         {["/r/tool/agent_actions/manifests/agent_actions_ui_test_paths.txt" := File ("test/ui_test.dart" +:+ nl)]}) ∅ [].

Theorem homologation_passed_witness :
  homologated (H:=willing_host) all_args manifest_world (snd (main (H:=willing_host) all_args manifest_world)).
Proof.
  apply (homologation_passed (H:=willing_host) all_args manifest_world).
  apply runs_eval. vm_compute. reflexivity.
Defined.
