(* ===== verification/OdbcReleaseGate.v ===== *)
(** * The ODBC release gate (tool/odbc/run_odbc_release_gate.py)

    Runs the checks of the ODBC stack one after the other, each to its own log,
    and fails when one of them failed. A failing check does not stop the ones
    behind it. *)

From S2P Require Import Prelude PyStr PyJson Effects ScriptUtils Commands.
From S2P Require BuildInstaller.
Import BuildInstaller (Machine, sys_executable).

Local Open Scope Z_scope.

(** src: tool/odbc/run_odbc_release_gate.py:46-64 main
    Command line options. *)
Record args : Type := Args {
  a_env_path : string;
  a_skip_analyze : bool;
  a_skip_unit_tests : bool;
  a_require_columnar_compressed : bool;
  a_run_benchmark_gate : bool;
  a_run_operational_validation : bool;
  a_output_dir : string
}.

(** src: tool/odbc/run_odbc_release_gate.py:86-98 main *)
Definition unit_tests : list string :=
  ["test/infrastructure/external_services/odbc_columnar_stream_chunk_mapper_test.dart";
   "test/infrastructure/external_services/odbc_streaming_named_parameter_preparer_test.dart";
   "test/infrastructure/external_services/native_compatible_acquire_policy_test.dart";
   "test/infrastructure/external_services/odbc_streaming_gateway_test.dart";
   "test/infrastructure/config/odbc_stream_wire_config_test.dart";
   "test/infrastructure/config/odbc_usage_profile_config_test.dart";
   "test/infrastructure/config/odbc_performance_preset_config_test.dart"].

Section release_gate.
Context `{Host} `{Machine}.

(** src: tool/odbc/run_odbc_release_gate.py:35-41 _run
    Every caller passes a log. *)
Definition run_logged (command : list string) (log_path : string) : M Z :=
  env ← get_env;
  let env := match env !! "PYTHONIOENCODING" with Some _ => env | None => <["PYTHONIOENCODING" := "utf-8"]> env end in
  run_streaming command (Some PROJECT_ROOT) (Some env) (Some log_path).

(** [steps.append((name, _run(command, log_path=log)))] *)
Definition add_step (name : string) (command : list string) (log : string) (steps : list (string * Z))
    : M (list (string * Z)) :=
  code ← run_logged command log; mret (steps ++ [(name, code)]).

(** src: tool/odbc/run_odbc_release_gate.py:68-68 main *)
Definition output_dir (a : args) : string :=
  if nonempty (a_output_dir a) then a_output_dir a else PROJECT_ROOT // "artifacts" // "odbc_release_gate".

(** [os.environ.setdefault(key, value)] *)
Definition env_setdefault (key value : string) : M unit :=
  o ← getenv key; match o with Some _ => mret tt | None => setenv key value end.

(** src: tool/odbc/run_odbc_release_gate.py:71-157 main
    The steps with their exit codes, from the empty list. *)
Definition gate_steps (a : args) (steps : list (string * Z)) : M (list (string * Z)) :=
  let dir := output_dir a in
  steps ← (if a_skip_analyze a then mret steps
           else add_step "dart_analyze" ["dart"; "analyze"] (dir // "dart_analyze.log") steps);
  steps ← (if a_skip_unit_tests a then mret steps
           else add_step "odbc_unit_tests" (["flutter"; "test"; "--reporter"; "expanded"] ++ unit_tests)
                  (dir // "odbc_unit_tests.log") steps);
  let runtime_cmd := ["dart"; "run"; "tool/odbc/check_odbc_fast_runtime.dart"] ++
    (if a_require_columnar_compressed a then ["--require-columnar-compressed"] else []) in
  steps ← add_step "odbc_fast_runtime" runtime_cmd (dir // "odbc_fast_runtime.log") steps;
  steps ← add_step "odbc_pool_modes_launcher" ["dart"; "run"; "tool/benchmarks/benchmark_odbc_pool_modes.dart"]
            (dir // "odbc_pool_modes.log") steps;
  steps ← (if a_run_operational_validation a then
             add_step "operational_validation"
               [sys_executable; "tool/odbc/run_odbc_operational_validation.py"; "--output-directory";
                path_str (dir // "operational_validation")]
               (dir // "operational_validation.log") steps
           else mret steps);
  if a_run_benchmark_gate a then
    let benchmark_cmd := [sys_executable; "tool/benchmarks/run_benchmark_suite.py"; "--skip-dart-tool"; "--only";
                          "odbc_async,odbc_streaming"; "--output-dir"; path_str (dir // "benchmark")] in
    _ ← setenv "BENCHMARK_ENFORCE_ODBC_GATES" "1";
    _ ← env_setdefault "PYTHONIOENCODING" "utf-8";
    let benchmark_log := dir // "benchmark_gate.log" in
    old ← is_file benchmark_log;
    _ ← when old (unlink benchmark_log);
    add_step "benchmark_gate" benchmark_cmd (dir // "benchmark_gate.log") steps
  else mret steps.

(** src: tool/odbc/run_odbc_release_gate.py:159-166 main
    The summary and the exit code. *)
Definition conclude (dir : string) (steps : list (string * Z)) : M Z :=
  let failed := List.filter (λ s, negb (snd s =? 0)) steps in
  _ ← print EmptyString;
  _ ← print "ODBC release gate summary";
  _ ← for_M (λ s, print ("- " +:+ fst s +:+ ": " +:+
                         (if snd s =? 0 then "pass" else "fail (" +:+ py_str_int (snd s) +:+ ")"))) steps;
  _ ← print ("Artifacts: " +:+ path_str dir);
  mret (match failed with [] => 0 | _ => 1 end).

(** src: tool/odbc/run_odbc_release_gate.py:44-166 main *)
Definition main (a : args) : M Z :=
  _ ← import_dotenv_if_present (resolve_env_path (a_env_path a));
  _ ← mkdir (output_dir a);
  steps ← gate_steps a [];
  conclude (output_dir a) steps.

(** ** The verdict *)

(** The steps the options ask for: name, command and log. *)
Definition planned (a : args) : list (string * list string * string) :=
  let dir := output_dir a in
  (if a_skip_analyze a then [] else [("dart_analyze", ["dart"; "analyze"], dir // "dart_analyze.log")]) ++
  (if a_skip_unit_tests a then []
   else [("odbc_unit_tests", ["flutter"; "test"; "--reporter"; "expanded"] ++ unit_tests, dir // "odbc_unit_tests.log")]) ++
  [("odbc_fast_runtime", ["dart"; "run"; "tool/odbc/check_odbc_fast_runtime.dart"] ++
      (if a_require_columnar_compressed a then ["--require-columnar-compressed"] else []), dir // "odbc_fast_runtime.log")] ++
  [("odbc_pool_modes_launcher", ["dart"; "run"; "tool/benchmarks/benchmark_odbc_pool_modes.dart"], dir // "odbc_pool_modes.log")] ++
  (if a_run_operational_validation a then
     [("operational_validation", [sys_executable; "tool/odbc/run_odbc_operational_validation.py"; "--output-directory";
        path_str (dir // "operational_validation")], dir // "operational_validation.log")] else []) ++
  (if a_run_benchmark_gate a then
     [("benchmark_gate", [sys_executable; "tool/benchmarks/run_benchmark_suite.py"; "--skip-dart-tool"; "--only";
        "odbc_async,odbc_streaming"; "--output-dir"; path_str (dir // "benchmark")], dir // "benchmark_gate.log")] else []).

(** The commands ran in this order, with these exit codes. *)
Fixpoint ran_in_order (plan : list (string * list string * string)) (codes : list Z) (w w' : world) : Prop :=
  match plan, codes with
  | [], [] => later w w'
  | (name, command, log) :: plan, c :: codes =>
      ∃ w1 w2, later w w1 ∧ runs (run_logged command log) w1 c w2 ∧ ran_in_order plan codes w2 w'
  | _, _ => False
  end.

Lemma ran_later plan codes w0 w w' : later w0 w → ran_in_order plan codes w w' → ran_in_order plan codes w0 w'.
Proof.
  intros Hl. destruct plan as [|[[n c] l] plan], codes as [|z codes]; simpl; try done; [by etrans|].
  intros (w1 & w2 & ? & ? & ?). exists w1, w2. split_and!; [by etrans|done|done].
Qed.

Lemma ran_app p1 c1 p2 c2 w w1 w' : ran_in_order p1 c1 w w1 → ran_in_order p2 c2 w1 w' →
  ran_in_order (p1 ++ p2) (c1 ++ c2) w w'.
Proof.
  revert c1 w. induction p1 as [|[[n c] l] p1 IH]; intros [|z c1] w; simpl; try done.
  - intros Hl. by apply ran_later.
  - intros (u & v & ? & ? & Hr) Hr2. exists u, v. split_and!; [done|done|]. by apply (IH c1).
Qed.

Lemma later_run_logged c l : steps later (run_logged c l).
Proof. unfold run_logged, get_env. solve_steps. Qed.
Lemma later_import p : steps later (import_dotenv_if_present p).
Proof. unfold import_dotenv_if_present. solve_steps. Qed.

(** [adds plan m]: the steps [m] appends are those of the plan. *)
Definition adds (plan : list (string * list string * string)) (m : list (string * Z) → M (list (string * Z))) : Prop :=
  ∀ steps w r w', runs (m steps) w r w' →
    ∃ codes, r = steps ++ zip plan.*1.*1 codes ∧ ran_in_order plan codes w w'.

Lemma adds_none : adds [] (λ steps, mret steps).
Proof. intros steps w r w' [<- <-]%runs_ret. exists []. split; [by rewrite app_nil_r|]. simpl. reflexivity. Qed.

Lemma adds_step name command log : adds [(name, command, log)] (add_step name command log).
Proof.
  intros steps w r w' Hr. apply runs_bind in Hr as (c & w1 & Hc & [<- <-]%runs_ret). exists [c]. split; [done|].
  exists w, w1. split_and!; [reflexivity|done|]. simpl. reflexivity.
Qed.

Lemma adds_if (b : bool) p1 p2 m1 m2 : adds p1 m1 → adds p2 m2 →
  adds (if b then p1 else p2) (λ steps, if b then m1 steps else m2 steps).
Proof. by destruct b. Qed.

Lemma adds_bind p1 p2 m1 m2 : adds p1 m1 → adds p2 m2 → adds (p1 ++ p2) (λ steps, m1 steps ≫= m2).
Proof.
  intros Hm1 Hm2 steps w r w' (s & w1 & (c1 & -> & Hr1)%Hm1 & (c2 & -> & Hr2)%Hm2)%runs_bind.
  exists (c1 ++ c2). split; [|by eapply ran_app]. rewrite <- app_assoc, !fmap_app, zip_with_app; [done|].
  clear -Hr1. revert c1 w Hr1. induction p1 as [|[[n c] l] p1 IH]; intros [|z c1] w; simpl; try done.
  intros (u & v & _ & _ & Hr). f_equal. by eapply IH.
Qed.

Lemma adds_before {A} (m0 : M A) p m : steps later m0 → adds p m → adds p (λ steps, _ ← m0; m steps).
Proof.
  intros Hm0 Hm steps w r w' (u & w1 & Hu & Hr)%runs_bind. apply later_runs in Hu; [|done].
  apply Hm in Hr as (c & -> & Hr). exists c. split; [done|by eapply ran_later].
Qed.

Lemma gate_steps_adds a : adds (planned a) (gate_steps a).
Proof.
  unfold gate_steps, planned.
  apply adds_bind; [apply adds_if; [apply adds_none|apply adds_step]|].
  apply adds_bind; [apply adds_if; [apply adds_none|apply adds_step]|].
  apply adds_bind; [apply adds_step|]. apply adds_bind; [apply adds_step|].
  apply adds_bind; [apply adds_if; [apply adds_step|apply adds_none]|].
  apply adds_if; [|apply adds_none].
  do 2 (apply adds_before; [unfold env_setdefault; solve_steps|]). intros steps w r w' (o & w1 & Ho & Hr)%runs_bind.
  apply runs_is_file in Ho as [-> _]. revert steps w r w' Hr.
  apply adds_before; [solve_steps|apply adds_step].
Qed.

Lemma later_conclude dir st : steps later (conclude dir st).
Proof. unfold conclude. solve_steps. Qed.

(** The release gate runs exactly the checks its options ask for, in the
    planned order and whatever the earlier ones returned, and exits with 0 when
    all of them returned 0 and with 1 otherwise. *)
Theorem release_gate_exact (a : args) (w w' : world) (c : Z) (Hrun : runs (main a) w c w') :
  ∃ codes, ran_in_order (planned a) codes w w' ∧
    ((c = 0 ∧ Forall (λ code, code = 0) codes) ∨ (c = 1 ∧ Exists (λ code, code ≠ 0) codes)).
Proof.
  unfold main in Hrun. apply runs_bind in Hrun as ([] & w1 & H1 & Hrun). apply later_runs in H1; [|apply later_import].
  apply runs_bind in Hrun as ([] & w2 & H2 & Hrun). apply later_runs in H2; [|solve_steps].
  apply runs_bind in Hrun as (st & w3 & Hst & Hrun). apply gate_steps_adds in Hst as (codes & -> & Hran).
  exists codes. split.
  - eapply ran_later; [by etrans|]. assert (Hl : later w3 w') by (eapply later_runs; [apply later_conclude|done]).
    replace (planned a) with (planned a ++ []) by apply app_nil_r. replace codes with (codes ++ []) by apply app_nil_r.
    eapply ran_app; [done|exact Hl].
  - assert (length codes = length (planned a).*1.*1) as Hlen.
    { rewrite !length_fmap. clear -Hran. revert codes w2 Hran. induction (planned a) as [|[[n k] l] p IH]; intros [|z codes] w2; simpl; try done.
      intros (u & v & _ & _ & Hr). f_equal. by eapply IH. }
    unfold conclude in Hrun. inv_runs. simpl app. clear -Hlen. revert codes Hlen.
    induction (planned a).*1.*1 as [|n ns IH]; intros [|z codes]; simpl; try done; [by left|].
    intros [= Hlen]. apply IH in Hlen. destruct (Z.eqb_spec z 0) as [->|Hz]; simpl.
    + destruct Hlen as [[? ?]|[? ?]]; [left; split; [done|by constructor]|right; split; [done|by apply Exists_cons_tl]].
    + right. split; [done|by apply Exists_cons_hd].
Qed.
End release_gate.

(** ** At work *)

Definition python : BuildInstaller.Machine := {| BuildInstaller.expanduser := λ p _, Ok p; sys_executable := "python" |}.
Definition full_args : args := Args ".env" false false true true true "out".

Theorem release_gate_exact_witness :
  let m := main (H:=willing_host) (H0:=python) full_args in
  ∃ codes, ran_in_order (H:=willing_host) (planned (H:=willing_host) (H0:=python) full_args) codes (World ∅ ∅ []) (snd (m (World ∅ ∅ []))) ∧
    ((0 = 0 ∧ Forall (λ code, code = 0) codes) ∨ (0 = 1 ∧ Exists (λ code, code ≠ 0) codes)).
Proof.
  apply (release_gate_exact (H:=willing_host) (H0:=python) full_args). apply runs_eval. vm_compute. reflexivity.
Defined.
