(* ===== verification/OdbcValidation.v ===== *)
(** * ODBC operational validation (tool/odbc/run_odbc_operational_validation.py)

    Runs the requested live checks of the ODBC stack until one fails, and writes
    a worksheet about them whatever happened. The settings and the state of the
    steps are dictionaries that the run updates and that survive an exception:
    the body of the [try] is a computation of [V], which keeps them. *)

From S2P Require Import Prelude PyStr PyJson PyLib Effects ScriptUtils Commands.
From S2P Require BuildInstaller.
Import BuildInstaller (Machine, sys_executable).

Local Open Scope Z_scope.

(** ** The worksheet *)

(** One entry of [steps]. *)
Record step : Type := Step {
  s_status : string;
  s_command : string;
  s_log : string;
  s_started_at : string;
  s_finished_at : string
}.
Abbreviation context := (list (string * string)).

Definition step_labels : list (string * string) :=
  [("OdbcRuntime", "ODBC runtime"); ("Preflight", "Preflight"); ("Smoke", "Smoke"); ("Burst", "Burst");
   ("Benchmark", "Benchmark"); ("StreamingBenchmark", "Streaming benchmark");
   ("DriverMatrixBenchmark", "Driver matrix benchmark")].

Definition tick (s : string) : string := "`" +:+ s +:+ "`".

(** The lines of a part: text, with [context\[key\]] between a prefix and a suffix. *)
Inductive line : Type :=
| Text (s : string)
| Field (prefix key suffix : string).

Definition render_line (ctx : context) (l : line) : res string :=
  match l with
  | Text s => Ok s
  | Field prefix key suffix => v ← from_option (assoc key ctx) (KeyError key); Ok (prefix +:+ v +:+ suffix)
  end.

Definition head_lines : list line :=
  [Text "# ODBC Operational Validation Report"; Text "";
   Field "Generated at: " "GeneratedAt" "";
   Text ""; Text "## Environment"; Text ""; Text "| Field | Value |"; Text "| --- | --- |";
   Field "| Operator | " "Operator" " |";
   Field "| Host | " "Host" " |";
   Field "| Repo root | `" "RepoRoot" "` |";
   Field "| Run directory | `" "RunDirectory" "` |";
   Field "| Build / commit | `" "Commit" "` |";
   Field "| DSN used | `" "DsnUsed" "` |";
   Field "| Driver family | " "DriverFamily" " |";
   Field "| Native/adaptive pool eligibility | " "NativeAdaptiveEligibility" " |";
   Field "| Smoke query | `" "SmokeQuery" "` |";
   Field "| Long query | `" "LongQuery" "` |";
   Text ""; Text "## Effective Tuning"; Text ""; Text "```env";
   Field "ODBC_POOL_SIZE=" "OdbcPoolSize" "";
   Field "ODBC_ASYNC_WORKER_COUNT=" "OdbcAsyncWorkerCount" "";
   Field "ODBC_ASYNC_MAX_PENDING_REQUESTS=" "OdbcAsyncMaxPendingRequests" "";
   Field "ODBC_RESULT_ENCODING=" "OdbcResultEncoding" "";
   Field "SQL_QUEUE_MAX_SIZE=" "SqlQueueMaxSize" "";
   Field "SQL_QUEUE_MAX_WORKERS=" "SqlQueueMaxWorkers" "";
   Field "SQL_QUEUE_TIMEOUT_SEC=" "SqlQueueTimeoutSec" "";
   Field "ODBC_POOL_ACQUIRE_TIMEOUT_SEC=" "PoolAcquireTimeoutSec" "";
   Field "CIRCUIT_BREAKER_FAILURE_THRESHOLD=" "CircuitBreakerFailureThreshold" "";
   Field "CIRCUIT_BREAKER_RESET_SEC=" "CircuitBreakerResetSec" "";
   Field "RUN_ODBC_BURST_TESTS=" "RunOdbcBurstTests" "";
   Text "```"; Text ""; Text "Driver recommendation:"; Text "";
   Field "> " "DriverTuningRecommendation" "";
   Text ""; Text "## Step Status"; Text ""; Text "| Step | Status | Command |"; Text "| --- | --- | --- |"].

Definition tail_lines : list string :=
  [""; "## Auxiliary Artifacts"; ""; "| Artifact | Purpose |"; "| --- | --- |";
   "| `health_snapshot_template.json` | Template no shape atual de `agent.getHealth` com tuning efetivo do ambiente local. |";
   "| `odbc_runtime.log` | Smoke sem DSN para inicializacao do `odbc_fast`, worker async e exports columnar/compressed. |";
   "| `health_burst_*_before.json` / `health_burst_*_after.json` | Snapshots reais de `HealthService.getHealthStatusAsync()` gravados pelo teste de burst quando burst/all roda. |";
   "| `driver_matrix_*_async.log` / `driver_matrix_*_streaming.log` | Benchmark por driver configurado; drivers sem DSN sao pulados. |";
   ""; "## Automated Health Snapshots"; "";
   "When Burst runs, `sql_queue_burst_test.dart` receives `ODBC_BURST_HEALTH_SNAPSHOT_DIR` and writes before/after health JSON files into the run directory. If the Burst step is not requested, collect `agent.getHealth` manually before making tuning decisions.";
   ""; "## Quick Comparison"; ""; "| Field | Before | After | Notes |"; "| --- | --- | --- | --- |";
   "| `odbc_runtime_tuning.async_worker_count` | | | |";
   "| `odbc_runtime_tuning.async_max_pending_requests` | | | |";
   "| `pool.active_count` | | | |"; "| `pool.fallbacks_total` | | | |";
   "| `sql_queue.rejections_total` | | | |"; "| `sql_queue.timeouts_total` | | | |";
   "| `sql_queue.p95_wait_time_ms` | | | |"; "| `queries.p95_latency_ms` | | | |";
   "| `queries.p99_latency_ms` | | | |"; "| `timeouts.pool_total` | | | |";
   ""; "## Notes"; ""; "- Tuning decision:"; "- Risks observed:"; "- Follow-up:"; ""].

Definition find_step (steps : list (string * step)) (key : string) : res step := from_option (assoc key steps) (KeyError key).

(** src: tool/odbc/run_odbc_operational_validation.py:38-151 build_validation_report *)
Definition build_validation_report (ctx : context) (steps : list (string * step)) : res string :=
  head ← res_map (render_line ctx) head_lines;
  status ← res_map (λ kl, s ← find_step steps (fst kl);
    Ok ("| " +:+ snd kl +:+ " | " +:+ s_status s +:+ " | " +:+ tick (s_command s) +:+ " |")) step_labels;
  artifacts ← res_map (λ kl, s ← find_step steps (fst kl);
    Ok ("| " +:+ snd kl +:+ " | " +:+ s_log s +:+ " | " +:+ s_started_at s +:+ " | " +:+ s_finished_at s +:+ " |")) step_labels;
  Ok (join nl (head ++ status ++
               [""; "## Step Artifacts"; ""; "| Step | Log | Started at | Finished at |"; "| --- | --- | --- | --- |"] ++
               artifacts ++ tail_lines)).

(** src: tool/odbc/run_odbc_operational_validation.py:156-164 main
    ** The run *)
Record args : Type := Args {
  a_run_smoke : bool;
  a_run_burst : bool;
  a_run_benchmark : bool;
  a_run_streaming_benchmark : bool;
  a_run_driver_matrix_benchmark : bool;
  a_all : bool;
  a_skip_preflight : bool;
  a_env_path : string;
  a_output_path : string
}.

(** src: tool/odbc/run_odbc_operational_validation.py:167-172 main *)
Definition apply_all (a : args) : args :=
  if a_all a then {| a_run_smoke := true; a_run_burst := true; a_run_benchmark := true;
    a_run_streaming_benchmark := true; a_run_driver_matrix_benchmark := true; a_all := a_all a;
    a_skip_preflight := a_skip_preflight a; a_env_path := a_env_path a; a_output_path := a_output_path a |}
  else a.

Definition pending (requested : bool) (command log : string) : step :=
  Step (if requested then "pending" else "not requested") command (if requested then log else "(not requested)") "-" "-".

(** src: tool/odbc/run_odbc_operational_validation.py:239-289 main
    The steps before the run. *)
Definition initial_steps (a : args) : list (string * step) :=
  [("OdbcRuntime", pending true "flutter test test/tool/odbc_fast_runtime_check_test.dart" "odbc_runtime.log");
   ("Preflight", Step (if a_skip_preflight a then "skipped" else "pending") "dart run tool/e2e/check_e2e_env.dart"
      (if a_skip_preflight a then "(not requested)" else "preflight.log") "-" "-");
   ("Smoke", pending (a_run_smoke a) "flutter test test/integration/odbc_queued_gateway_smoke_live_e2e_test.dart" "smoke.log");
   ("Burst", pending (a_run_burst a) "flutter test test/integration/sql_queue_burst_test.dart" "burst.log");
   ("Benchmark", pending (a_run_benchmark a) "python tool/benchmarks/odbc_async_benchmark.py" "benchmark.log");
   ("StreamingBenchmark", pending (a_run_streaming_benchmark a) "python tool/benchmarks/odbc_streaming_benchmark.py"
      "streaming_benchmark.log");
   ("DriverMatrixBenchmark", pending (a_run_driver_matrix_benchmark a)
      "python tool/benchmarks/odbc_driver_matrix_benchmark.py --output-directory <runDirectory>" "driver_matrix.log")].

(** What the run changes besides the world. *)
Record vstate : Type := VState {
  v_context : context;
  v_steps : list (string * step);
  v_failed : bool
}.

(** Computations that keep the state when they raise. *)
Definition V (A : Type) : Type := vstate → world → res A * vstate * world.
#[global] Instance V_ret : MRet V := λ A a s w, (Ok a, s, w).
#[global] Instance V_bind : MBind V := λ A B f m s w,
  match m s w with
  | (Ok a, s', w') => f a s' w'
  | (Raise e, s', w') => (Raise e, s', w')
  end.
Definition act {A} (m : M A) : V A := λ s w, let '(r, w') := m w in (r, s, w').
Definition modify (f : vstate → vstate) : V unit := λ s w, (Ok tt, f s, w).
Definition get_state : V vstate := λ s w, (Ok s, s, w).
Definition v_when (b : bool) (m : V unit) : V unit := if b then m else mret tt.

Definition set_context (key value : string) (s : vstate) : vstate :=
  VState (assoc_set key value (v_context s)) (v_steps s) (v_failed s).
Definition finish_step (key : string) (succeeded : bool) (started finished : string) (s : vstate) : vstate :=
  VState (v_context s)
    ((λ ks, if fst ks == key
            then (key, Step (if succeeded then "passed" else "failed") (s_command (snd ks)) (s_log (snd ks)) started finished)
            else ks) <$> v_steps s)
    (negb succeeded || v_failed s).

Section validation.
Context `{Host} `{Machine}.

(** src: tool/odbc/run_odbc_operational_validation.py:332-342 main
    One step: its status and times are recorded, and a failure ends the run. The
    code repeats this for every step. *)
Definition run_step (run_directory key label : string) (command : list string) : V unit :=
  s ← get_state;
  entry ← act (lift (find_step (v_steps s) key));
  let log_path := run_directory // s_log entry in
  '(succeeded, started, finished) ← act
    (invoke_step label (run_streaming command None None (Some log_path)) (Some log_path));
  _ ← modify (finish_step key succeeded started finished);
  if (succeeded : bool) then mret tt else act (raise (RuntimeError (label +:+ " failed."))).

Definition TOOL_DIR : string := PROJECT_ROOT // "tool".

(** src: tool/odbc/run_odbc_operational_validation.py:306-320 main
    The settings as the application itself reports them. *)
Definition health_snapshot (template_path : string) : V unit :=
  _ ← act (console_step "Health snapshot template");
  template_exit ← act (run_streaming ["dart"; "run"; "tool/odbc/export_odbc_health_snapshot_template.dart";
                                      "--output"; path_str template_path] None None None);
  if negb (template_exit =? 0) then act (console_warn "Health snapshot template generation failed.")
  else
    s ← get_state;
    ctx ← act (update_context_from_health_snapshot_template (v_context s) template_path);
    _ ← modify (λ s, VState ctx (v_steps s) (v_failed s));
    act (console_pass "Health snapshot template generated.").

(** src: tool/odbc/run_odbc_operational_validation.py:305-465 main
    The body of the [try]. *)
Definition run_steps (a : args) (run_directory template_path : string) : V unit :=
  _ ← health_snapshot template_path;
  _ ← run_step run_directory "OdbcRuntime" "ODBC runtime" ["flutter"; "test"; "test/tool/odbc_fast_runtime_check_test.dart"];
  _ ← v_when (negb (a_skip_preflight a))
        (run_step run_directory "Preflight" "Preflight" ["dart"; "run"; "tool/e2e/check_e2e_env.dart"]);
  _ ← v_when (a_run_smoke a)
        (run_step run_directory "Smoke" "Smoke"
           ["flutter"; "test"; "test/integration/odbc_queued_gateway_smoke_live_e2e_test.dart"]);
  _ ← v_when (a_run_burst a)
        (_ ← act (setenv "RUN_ODBC_BURST_TESTS" "true");
         _ ← act (setenv "ODBC_BURST_HEALTH_SNAPSHOT_DIR" (path_str run_directory));
         _ ← modify (set_context "RunOdbcBurstTests" "true");
         run_step run_directory "Burst" "Burst" ["flutter"; "test"; "test/integration/sql_queue_burst_test.dart"]);
  _ ← v_when (a_run_benchmark a)
        (run_step run_directory "Benchmark" "Benchmark"
           [sys_executable; path_str (TOOL_DIR // "benchmarks" // "odbc_async_benchmark.py")]);
  _ ← v_when (a_run_streaming_benchmark a)
        (run_step run_directory "StreamingBenchmark" "Streaming benchmark"
           [sys_executable; path_str (TOOL_DIR // "benchmarks" // "odbc_streaming_benchmark.py")]);
  v_when (a_run_driver_matrix_benchmark a)
    (run_step run_directory "DriverMatrixBenchmark" "Driver matrix benchmark"
       [sys_executable; path_str (TOOL_DIR // "benchmarks" // "odbc_driver_matrix_benchmark.py");
        "--output-directory"; path_str run_directory]).

Definition env_or (k1 k2 d : string) : M string :=
  a ← getenv_or k1 EmptyString; b ← getenv_or k2 EmptyString; mret (str_or a (str_or b d)).

(** src: tool/odbc/run_odbc_operational_validation.py:179-237 main
    The settings before the run. *)
Definition initial_context (run_directory : string) : M context :=
  generated ← format_timestamp;
  operator ← env_or "USERNAME" "USER" "(unknown)";
  host ← env_or "COMPUTERNAME" "HOSTNAME" "(unknown)";
  commit ← get_git_commit_or_default;
  dsn ← get_effective_env_value ["ODBC_E2E_RPC_DSN"; "ODBC_TEST_DSN"; "ODBC_DSN"; "ODBC_TEST_DSN_SQL_SERVER";
                                 "ODBC_DSN_SQL_SERVER"; "ODBC_TEST_DSN_POSTGRESQL"; "ODBC_DSN_POSTGRESQL"];
  smoke ← get_effective_env_value ["ODBC_INTEGRATION_SMOKE_QUERY"];
  long ← get_effective_env_value ["ODBC_INTEGRATION_LONG_QUERY"; "ODBC_INTEGRATION_LONG_QUERY_SQL_ANYWHERE";
                                  "ODBC_INTEGRATION_LONG_QUERY_SQL_SERVER"; "ODBC_INTEGRATION_LONG_QUERY_POSTGRESQL"];
  pool ← get_effective_env_value ["ODBC_POOL_SIZE"];
  workers ← get_effective_env_value ["ODBC_ASYNC_WORKER_COUNT"];
  max_pending ← get_effective_env_value ["ODBC_ASYNC_MAX_PENDING_REQUESTS"];
  encoding ← get_effective_env_value ["ODBC_RESULT_ENCODING"];
  queue_size ← get_effective_env_value ["SQL_QUEUE_MAX_SIZE"];
  queue_workers ← get_effective_env_value ["SQL_QUEUE_MAX_WORKERS"];
  queue_timeout ← get_effective_env_value ["SQL_QUEUE_TIMEOUT_SEC"];
  acquire ← get_effective_env_value ["ODBC_POOL_ACQUIRE_TIMEOUT_SEC"];
  threshold ← get_effective_env_value ["CIRCUIT_BREAKER_FAILURE_THRESHOLD"];
  reset ← get_effective_env_value ["CIRCUIT_BREAKER_RESET_SEC"];
  burst ← get_effective_env_value ["RUN_ODBC_BURST_TESTS"];
  let dsn := str_or dsn "(not configured)" in
  let family := get_dsn_driver_family dsn in
  mret [("GeneratedAt", generated); ("Operator", operator); ("Host", host);
        ("RepoRoot", path_str PROJECT_ROOT); ("RunDirectory", path_str run_directory); ("Commit", commit);
        ("DsnUsed", dsn); ("SmokeQuery", str_or smoke "SELECT 1");
        ("LongQuery", str_or long "(not configured)"); ("OdbcPoolSize", pool); ("OdbcAsyncWorkerCount", workers);
        ("OdbcAsyncMaxPendingRequests", max_pending); ("OdbcResultEncoding", str_or encoding "rowMajor");
        ("SqlQueueMaxSize", queue_size); ("SqlQueueMaxWorkers", queue_workers); ("SqlQueueTimeoutSec", queue_timeout);
        ("PoolAcquireTimeoutSec", acquire); ("CircuitBreakerFailureThreshold", str_or threshold "5");
        ("CircuitBreakerResetSec", str_or reset "30"); ("RunOdbcBurstTests", burst);
        ("DriverFamily", family); ("NativeAdaptiveEligibility", get_native_adaptive_eligibility family);
        ("DriverTuningRecommendation", get_driver_tuning_recommendation family)].

(** src: tool/odbc/run_odbc_operational_validation.py:291-299 main
    Where the worksheet goes; its directory is created. *)
Definition report_location (a : args) (run_directory : string) : M string :=
  if nonempty (a_output_path a) then
    let output_path := if is_absolute (a_output_path a) then a_output_path a else PROJECT_ROOT // a_output_path a in
    _ ← mkdir (path_parent output_path); mret output_path
  else _ ← mkdir run_directory; mret (run_directory // "odbc_operational_validation_report.md").

(** src: tool/odbc/run_odbc_operational_validation.py:469-476 main
    The [finally] clause. *)
Definition write_report (report_path run_directory : string) (s : vstate) : M unit :=
  report ← lift (build_validation_report (v_context s) (v_steps s));
  _ ← write_text report_path report;
  _ ← print EmptyString;
  _ ← emit "90" ("Validation worksheet: " +:+ path_str report_path);
  _ ← emit "90" ("Run artifacts directory: " +:+ path_str run_directory);
  emit "90" "Burst health snapshots are written automatically when --run-burst or --all is used.".

(** src: tool/odbc/run_odbc_operational_validation.py:305-478 main
    [try: run_steps except RuntimeError: pass finally: write_report], and the exit code. *)
Definition conclude (body : V unit) (report_path run_directory : string) (s0 : vstate) : M Z := λ w,
  let '(r, s, w1) := body s0 w in
  match write_report report_path run_directory s w1 with
  | (Raise e, w2) => (Raise e, w2)
  | (Ok _, w2) =>
      match r with
      | Raise e => if is_RuntimeError e then (Ok (if v_failed s then 1 else 0), w2) else (Raise e, w2)
      | Ok _ => (Ok (if v_failed s then 1 else 0), w2)
      end
  end.

(** src: tool/odbc/run_odbc_operational_validation.py:154-478 main *)
Definition main (options : args) : M Z :=
  let a := apply_all options in
  t ← now;
  let run_directory := PROJECT_ROOT // "artifacts" // "odbc_validation" // compact_stamp (t + host_utcoffset) in
  _ ← import_dotenv_if_present (resolve_env_path (a_env_path a));
  ctx ← initial_context run_directory;
  report_path ← report_location a run_directory;
  _ ← mkdir run_directory;
  conclude (run_steps a run_directory (run_directory // "health_snapshot_template.json")) report_path run_directory
    (VState ctx (initial_steps a) false).
End validation.

(** ** What the worksheet says *)

Definition status (st : list (string * step)) (key : string) : option string := s_status <$> assoc key st.

(** The steps in the order they run, and whether the options ask for them. *)
Definition requested (a : args) : list (string * bool) :=
  [("OdbcRuntime", true); ("Preflight", negb (a_skip_preflight a)); ("Smoke", a_run_smoke a); ("Burst", a_run_burst a);
   ("Benchmark", a_run_benchmark a); ("StreamingBenchmark", a_run_streaming_benchmark a);
   ("DriverMatrixBenchmark", a_run_driver_matrix_benchmark a)].

(** All steps that were asked for passed. *)
Definition all_passed (req : list (string * bool)) (st st' : list (string * step)) : Prop :=
  ∀ key, status st' key = if decide ((key, true) ∈ req) then Some "passed" else status st key.
(** One step failed, those before it passed, those behind it did not run. *)
Definition one_failed (req : list (string * bool)) (st st' : list (string * step)) : Prop :=
  ∃ before failed after, req = before ++ (failed, true) :: after ∧ ∀ key,
    status st' key = if decide (key = failed) then Some "failed"
                     else if decide ((key, true) ∈ before) then Some "passed" else status st key.

(** How a part of the run ends, from the state [s] to [s']. *)
Definition part_outcome (req : list (string * bool)) (s : vstate) (r : res unit) (s' : vstate) : Prop :=
  match r with
  | Ok _ => v_failed s' = v_failed s ∧ all_passed req (v_steps s) (v_steps s')
  | Raise e => is_RuntimeError e = true → v_failed s' = true ∧ one_failed req (v_steps s) (v_steps s')
  end.
Definition part (req : list (string * bool)) (m : V unit) : Prop :=
  ∀ s w r s' w', m s w = (r, s', w') → part_outcome req s r s'.

Lemma v_bind_inv {A B} (m : V A) (k : A → V B) s w r s' w' : (m ≫= k) s w = (r, s', w') →
  (∃ e, m s w = (Raise e, s', w') ∧ r = Raise e) ∨ ∃ a s1 w1, m s w = (Ok a, s1, w1) ∧ k a s1 w1 = (r, s', w').
Proof.
  unfold mbind, V_bind. destruct (m s w) as [[[a|e] s1] w1]; [naive_solver|]. intros [= <- <- <-]. eauto.
Qed.

Lemma part_bind req1 req2 m1 (m2 : V unit) : part req1 m1 → part req2 m2 → part (req1 ++ req2) (_ ← m1; m2).
Proof.
  intros Hm1 Hm2 s w r s' w' [(e & Hr & ->)|([] & s1 & w1 & Hr & Hk)]%v_bind_inv.
  - intros He. destruct (Hm1 _ _ _ _ _ Hr He) as [Hf (before & key & after & -> & Hst)]. split; [done|].
    exists before, key, (after ++ req2). split; [by rewrite <- app_assoc|done].
  - apply Hm1 in Hr as [Hf1 Hp1]. apply Hm2 in Hk. destruct r as [[]|e]; simpl in *.
    + destruct Hk as [Hf2 Hp2]. split; [congruence|]. intros key. rewrite Hp2, Hp1.
      repeat case_decide; try done; set_solver.
    + intros He. destruct (Hk He) as [Hf2 (before & key & after & -> & Hst)]. split; [done|].
      exists (req1 ++ before), key, after. split; [by rewrite <- app_assoc|]. intros k. rewrite Hst, Hp1.
      repeat case_decide; try done; set_solver.
Qed.

Lemma part_when key (b : bool) m : part [(key, true)] m → part [(key, b)] (v_when b m).
Proof.
  intros Hm. destruct b; [done|]. intros s w r s' w' [= <- <- <-]. split; [done|]. intros k.
  rewrite decide_False; [done|]. set_solver.
Qed.

(** Computations that touch neither the steps nor the flag, and raise no [RuntimeError]. *)
Lemma part_quiet {A} req (m : V A) (k : A → V unit) :
  (∀ s w r s' w', m s w = (r, s', w') → v_failed s' = v_failed s ∧ v_steps s' = v_steps s ∧
     ∀ e, r = Raise e → is_RuntimeError e = false) →
  (∀ a, part req (k a)) → part req (m ≫= k).
Proof.
  intros Hm Hk s w r s' w' [(e & Hr & ->)|(a & s1 & w1 & Hr & Hk')]%v_bind_inv.
  - apply Hm in Hr as (_ & _ & He). intros Ht. by rewrite (He e eq_refl) in Ht.
  - apply Hm in Hr as (Hf & Hs & _). apply Hk in Hk'. unfold part_outcome, all_passed, one_failed in *.
    by rewrite Hf, Hs in Hk'.
Qed.

Lemma act_quiet {A} (m : M A) s w r s' w' : raises not_runtime m → act m s w = (r, s', w') →
  v_failed s' = v_failed s ∧ v_steps s' = v_steps s ∧ ∀ e, r = Raise e → is_RuntimeError e = false.
Proof.
  unfold act. intros Hm. destruct (m w) as [r1 w1] eqn:Hw. intros [= <- <- <-]. split_and!; [done|done|].
  intros e ->. by eapply Hm.
Qed.

Lemma status_finish key b t1 t2 s k : is_Some (assoc key (v_steps s)) →
  status (v_steps (finish_step key b t1 t2 s)) k =
  if decide (k = key) then Some (if b then "passed" else "failed") else status (v_steps s) k.
Proof.
  unfold status, finish_step. cbn [v_steps]. induction (v_steps s) as [|[k' st] l IH]; simpl; [by intros []|].
  rewrite (String.eqb_sym key k'). destruct (String.eqb_spec k' key) as [->|Hne]; simpl.
  - intros _. destruct (String.eqb_spec k key) as [->|Hk]; [by rewrite decide_True|].
    rewrite decide_False by done. clear IH. induction l as [|[k2 st2] l IH]; [done|]. simpl.
    destruct (String.eqb_spec k2 key) as [->|]; simpl; destruct (String.eqb_spec k key); done || (destruct (k =? k2)%string; done) || done.
  - intros Hin. destruct (String.eqb_spec k k') as [->|]; [by rewrite decide_False|]. by apply IH.
Qed.

Section outcome.
Context `{Host} `{Machine}.
Context (Hhost : host_raises_no_runtime).

Lemma part_step dir key label x cmd : part [(key, true)] (run_step dir key label (x :: cmd)).
Proof.
  unfold run_step. intros s w r s' w' Hr. apply v_bind_inv in Hr as [(e & [=] & _)|(s1 & ? & ? & [= <- <- <-] & Hr)].
  apply v_bind_inv in Hr as [(e & He & ->)|(entry & s1 & w1 & He & Hr)].
  { injection He as He _ _. unfold find_step in He. destruct (assoc key (v_steps s)); [done|]. injection He as <-. done. }
  injection He as He <- <-. apply from_option_Ok in He. assert (Hin : is_Some (assoc key (v_steps s))) by eauto.
  apply v_bind_inv in Hr as [(e & Hr & ->)|([[ok t1] t2] & s1 & w1 & Hr & Hk)].
  { apply act_quiet in Hr as (_ & _ & Hr); [intros Ht; by rewrite (Hr e eq_refl) in Ht|].
    apply not_runtime_invoke_step. by apply not_runtime_run_streaming. }
  unfold act in Hr. destruct (invoke_step _ _ _ w) as [r1 w2]. injection Hr as -> <- <-.
  apply v_bind_inv in Hk as [(e & [=] & _)|([] & ? & ? & [= <- <-] & Hk)].
  destruct ok; [injection Hk as <- <- <-|unfold act, raise, lift in Hk; injection Hk as <- <- <-].
  - split; [done|]. intros k. rewrite status_finish by done. repeat case_decide; try done; set_solver.
  - intros _. split; [done|]. exists [], key, []. split; [done|]. intros k. rewrite status_finish by done.
    repeat case_decide; try done; set_solver.
Qed.

Lemma not_runtime_context snapshot ctx e : context_from_snapshot snapshot ctx = Raise e → is_RuntimeError e = false.
Proof.
  assert (Hget : ∀ k v e', jget_or_null k v = Raise e' → is_RuntimeError e' = false).
  { unfold jget_or_null, jget. intros k v e'. destruct v; by intros [= <-]. }
  assert (Hcopy : ∀ section keys c e', copy_settings section keys c = Raise e' → is_RuntimeError e' = false).
  { intros sec keys. induction keys as [|[k ck] keys IH]; intros c e'; cbn [copy_settings]; [done|].
    intros [Hr|(v & _ & Hr)]%res_bind_Raise; [by eapply Hget|by eapply IH]. }
  unfold context_from_snapshot. intros [Hr|(? & _ & Hr)]%res_bind_Raise; [by eapply Hget|].
  apply res_bind_Raise in Hr as [Hr|(? & _ & Hr)]; [by eapply Hcopy|].
  apply res_bind_Raise in Hr as [Hr|(? & _ & Hr)]; [by eapply Hget|].
  apply res_bind_Raise in Hr as [Hr|(? & _ & Hr)]; [by eapply Hcopy|].
  apply res_bind_Raise in Hr as [Hr|(? & _ & Hr)]; [by eapply Hget|by eapply Hcopy].
Qed.

Lemma not_runtime_update ctx p : raises not_runtime (update_context_from_health_snapshot_template ctx p).
Proof.
  unfold update_context_from_health_snapshot_template. apply raises_bind; [solve_raises|]. intros b.
  destruct (negb b); [solve_raises|]. apply raises_bind; [|intros [v|]; [|solve_raises]].
  - apply raises_try_catch; [|solve_raises]. intros w e w' Hr _. revert w e w' Hr.
    apply raises_bind; [solve_raises|]. intros t. apply raises_bind; [|solve_raises].
    apply raises_lift. by intros e ->%loads_raises.
  - apply raises_lift. intros e. apply not_runtime_context.
Qed.

Lemma quiet_snapshot p s w r s' w' : health_snapshot p s w = (r, s', w') →
  v_failed s' = v_failed s ∧ v_steps s' = v_steps s ∧ ∀ e, r = Raise e → is_RuntimeError e = false.
Proof.
  unfold health_snapshot. intros [(e & Hr & ->)|(u & s1 & w1 & Hr & Hk)]%v_bind_inv.
  { by apply act_quiet in Hr; [|solve_raises]. }
  apply act_quiet in Hr as (Hf & Hst & _); [|solve_raises].
  apply v_bind_inv in Hk as [(e & Hr & ->)|(c & s2 & w2 & Hr & Hk)].
  { apply act_quiet in Hr as (? & ? & ?); [split_and!; congruence || naive_solver|by apply not_runtime_run_streaming]. }
  apply act_quiet in Hr as (Hf2 & Hst2 & _); [|by apply not_runtime_run_streaming].
  destruct (negb (c =? 0)).
  { apply act_quiet in Hk as (? & ? & ?); [split_and!; congruence || naive_solver|solve_raises]. }
  apply v_bind_inv in Hk as [(e & [=] & _)|(s3 & ? & ? & [= <- <- <-] & Hk)].
  apply v_bind_inv in Hk as [(e & Hr & ->)|(ctx & s3 & w3 & Hr & Hk)].
  { apply act_quiet in Hr as (? & ? & ?); [split_and!; congruence || naive_solver|apply not_runtime_update]. }
  apply act_quiet in Hr as (Hf3 & Hst3 & _); [|apply not_runtime_update].
  apply v_bind_inv in Hk as [(e & [=] & _)|([] & ? & ? & [= <- <-] & Hk)].
  apply act_quiet in Hk as (Hf4 & Hst4 & ?); [simpl in *; split_and!; congruence || naive_solver|solve_raises].
Qed.

Lemma run_steps_part a dir template : part (requested a) (run_steps a dir template).
Proof.
  unfold run_steps. apply part_quiet; [intros *; apply quiet_snapshot|intros _].
  change (requested a) with ([("OdbcRuntime", true)] ++ [("Preflight", negb (a_skip_preflight a))] ++
    [("Smoke", a_run_smoke a)] ++ [("Burst", a_run_burst a)] ++ [("Benchmark", a_run_benchmark a)] ++
    [("StreamingBenchmark", a_run_streaming_benchmark a)] ++ [("DriverMatrixBenchmark", a_run_driver_matrix_benchmark a)]).
  apply part_bind; [apply part_step|]. do 2 (apply part_bind; [apply part_when, part_step|]).
  apply part_bind; [|do 2 (apply part_bind; [apply part_when, part_step|]); apply part_when, part_step].
  apply part_when. apply part_quiet; [intros *; apply act_quiet; solve_raises|intros _].
  apply part_quiet; [intros *; apply act_quiet; solve_raises|intros _].
  apply part_quiet; [by intros s w r s' w' [= <- <- <-]|intros _]. apply part_step.
Qed.
End outcome.

(** ** The theorem *)

Section validation_theorem.
Context `{Host} `{Machine}.

(** The run directory of a run that starts in [w], and where its worksheet goes. *)
Definition run_directory (w : world) : string :=
  PROJECT_ROOT // "artifacts" // "odbc_validation" // compact_stamp (host_now w + host_utcoffset).
Definition report_path (a : args) (w : world) : string :=
  if nonempty (a_output_path a) then
    if is_absolute (a_output_path a) then a_output_path a else PROJECT_ROOT // a_output_path a
  else run_directory w // "odbc_operational_validation_report.md".

Lemma same_fs_emit color m : steps same_fs (emit color m).
Proof. unfold emit. destruct host_isatty; by intros w. Qed.

Lemma runs_write_report path dir s w u w' : runs (write_report path dir s) w u w' →
  ∃ report, build_validation_report (v_context s) (v_steps s) = Ok report ∧
    w_fs w' !! path = Some (File (utf8_encode (to_linesep host_nt report))).
Proof.
  unfold write_report. intros Hr. apply runs_bind in Hr as (report & w1 & [Hrep <-]%runs_lift & Hr).
  apply runs_bind in Hr as ([] & w2 & Hw & Hr). apply runs_write_bytes in Hw as (Hfs & _). exists report. split; [done|].
  assert (w_fs w' = w_fs w2) as ->; [|by rewrite Hfs, lookup_insert_eq].
  set (k := (_ ← print _; _)) in Hr. assert (Hk : steps same_fs k).
  { unfold k. pose proof same_fs_emit. assert (∀ x, steps same_fs (print x)) by (by intros x w0). solve_steps. }
  specialize (Hk w2). by rewrite Hr in Hk.
Qed.

(** A validation that returns leaves a worksheet, and the worksheet and the
    exit code tell the truth about the steps: either the exit code is 0 and
    every step that was asked for passed, or it is 1, exactly one step failed,
    the requested ones before it passed, and none behind it ran. A step that did
    not run keeps the status it had before. *)
Theorem validation_outcome (options : args) (w w' : world) (c : Z) (Hhost : host_raises_no_runtime)
    (Hrun : runs (main options) w c w') :
  let a := apply_all options in
  ∃ ctx steps report, build_validation_report ctx steps = Ok report ∧
    w_fs w' !! report_path a w = Some (File (utf8_encode (to_linesep host_nt report))) ∧
    ((c = 0 ∧ all_passed (requested a) (initial_steps a) steps) ∨
     (c = 1 ∧ one_failed (requested a) (initial_steps a) steps)).
Proof.
  intros a. unfold main in Hrun. apply runs_bind in Hrun as (t & w1 & [= <- <-] & Hrun). fold a (run_directory w) in Hrun.
  apply runs_bind in Hrun as ([] & w2 & _ & Hrun). apply runs_bind in Hrun as (ctx0 & w3 & _ & Hrun).
  apply runs_bind in Hrun as (path & w4 & Hpath & Hrun). apply runs_bind in Hrun as ([] & w5 & _ & Hrun).
  assert (path = report_path a w) as ->.
  { unfold report_location, report_path in *. destruct (nonempty _); inv_runs; done. }
  clear Hpath. unfold runs, conclude in Hrun.
  destruct (run_steps _ _ _ _ w5) as [[r s] w6] eqn:Hs. apply (run_steps_part Hhost) in Hs.
  destruct (write_report _ _ s w6) as [[[]|e] w7] eqn:Hw; [|done]. apply runs_write_report in Hw as (report & Hrep & Hfs).
  exists (v_context s), (v_steps s), report. split; [done|].
  destruct r as [[]|e]; simpl in Hs.
  - destruct Hs as [Hf Hp]. rewrite Hf in Hrun. injection Hrun as <- <-. split; [done|]. by left.
  - destruct (is_RuntimeError e); [|done]. destruct (Hs eq_refl) as [Hf Hp]. rewrite Hf in Hrun. injection Hrun as <- <-.
    split; [done|]. by right.
Qed.
End validation_theorem.

(** ** At work *)

Definition python : BuildInstaller.Machine := {| BuildInstaller.expanduser := λ p _, Ok p; sys_executable := "python" |}.
(** A host whose smoke test fails. *)
Definition smokeless_host : Host := {|
  host_nt := false;
  host_run := λ argv _ w, (Ok (Proc (if one_of "test/integration/odbc_queued_gateway_smoke_live_e2e_test.dart" argv
                                     then 1 else 0) EmptyString EmptyString), w_fs w);
  host_which := λ c _, Some ("/usr/bin/" +:+ c);
  host_fetch := λ _ _, Raise (OSError "offline");
  host_now := λ _, 1767225600;
  host_utcoffset := 0;
  host_exn_str := λ _, "error";
  host_repr := λ _, "value";
  host_tmp := λ _, "/tmp/x";
  host_isatty := false;
  host_root := "/r"
|}.
Definition everything : args := Args false false false false false true false ".env" "out.md".

Theorem validation_outcome_witness :
  let w' := snd (main (H:=smokeless_host) (H0:=python) everything (World ∅ ∅ [])) in
  let a := apply_all everything in
  ∃ ctx steps report, build_validation_report ctx steps = Ok report ∧
    w_fs w' !! report_path (H:=smokeless_host) a (World ∅ ∅ []) =
      Some (File (utf8_encode (to_linesep (@host_nt smokeless_host) report))) ∧
    ((1 = 0 ∧ all_passed (requested a) (initial_steps a) steps) ∨
     (1 = 1 ∧ one_failed (requested a) (initial_steps a) steps)).
Proof.
  apply (validation_outcome (H:=smokeless_host) (H0:=python) everything); [by intros argv cwd w|].
  apply runs_eval. vm_compute. reflexivity.
Defined.
