(* ===== verification/PrePush.v ===== *)
(** * The push hook (tool/githooks/pre-push.py)

    Before a push to main the hook looks at the changed files and runs the
    release gate when one of them matters for a release. *)

From S2P Require Import Prelude PyStr PyRe Effects ScriptUtils Commands.
From S2P Require BuildInstaller.
Import BuildInstaller (Machine, sys_executable).

Local Open Scope Z_scope.

(** The dot before [py] is any character in the pattern.
    The pattern is anchored and tried at the start of a path. *)
Definition script_re (name : string) : regex := RSeq (lit ("tool/release/" +:+ name)) (RSeq dot (lit "py")).

(** src: tool/githooks/pre-push.py:11-13 RELEASE_SENSITIVE_PATTERN *)
Definition RELEASE_SENSITIVE_PATTERN : regex :=
  RSeq RBol (RGroup 1 (alts [lit "pubspec.yaml"; lit "lib/"; lit "test/"; script_re "release_preflight"; script_re "pre_publish_release"])).

(** src: tool/githooks/pre-push.py:11-13 RELEASE_SENSITIVE_PATTERN *)
Definition is_sensitive (path : string) : bool :=
  nonempty (strip path) && match re_match RELEASE_SENSITIVE_PATTERN (strip path) with Some _ => true | None => false end.

(** src: tool/githooks/pre-push.py:30-37 main
    The remote reference in the first line git gives the hook is not main. *)
Definition pushes_elsewhere (stdin : string) : bool :=
  match splitlines (strip stdin) with
  | [] => false
  | first_line :: _ =>
      match split_ws (strip first_line) with
      | _ :: _ :: remote_ref :: _ => nonempty remote_ref && negb (endswith remote_ref "refs/heads/main")
      | _ => false
      end
  end.

Section pre_push.
Context `{Host} `{Machine}.

(** [subprocess.run(argv, cwd=PROJECT_ROOT, check=False).stdout] *)
Definition output_of (argv : list string) : M string := p ← run_proc argv PROJECT_ROOT; mret (stdout p).

(** src: tool/githooks/pre-push.py:20-21 main *)
Definition branch_command : list string := ["git"; "rev-parse"; "--abbrev-ref"; "HEAD"].
Definition diff_command : list string := ["git"; "diff"; "--name-only"; "origin/main...HEAD"].
Definition staged_command : list string := ["git"; "diff"; "--name-only"; "--cached"].
(** src: tool/githooks/pre-push.py:60-67 main *)
Definition gate_command : list string :=
  [sys_executable; "tool/release/release_preflight.py"; "--gate"; "--allow-dirty"; "--allow-existing-tag"; "--check-secrets"].

(** src: tool/githooks/pre-push.py:39-53 main
    The files this push changes. *)
Definition changed_files : M (list string) :=
  out ← output_of diff_command;
  match splitlines out with
  | [] => staged ← output_of staged_command; mret (splitlines staged)
  | changed => mret changed
  end.

(** src: tool/githooks/pre-push.py:16-74 main
    With what git wrote to the standard input. *)
Definition main (stdin : string) : M Z :=
  skip ← getenv "SKIP_RELEASE_GATE";
  if bool_decide (skip = Some "1") then mret 0
  else
    branch ← output_of branch_command;
    if strip branch != "main" then mret 0
    else if pushes_elsewhere stdin then mret 0
    else
      changed ← changed_files;
      if negb (existsb is_sensitive changed) then mret 0
      else
        _ ← print "pre-push: running release gate (--gate) for release-sensitive changes on main...";
        result ← run_proc gate_command PROJECT_ROOT;
        if negb (returncode result =? 0) then
          _ ← print "pre-push: release gate failed. Fix issues or push with SKIP_RELEASE_GATE=1.";
          mret 1
        else mret 0.

(** ** When a push passes *)

(** Why the gate need not run. *)
Inductive exempt (stdin : string) (w w' : world) : Prop :=
| exempt_skipped : w_env w !! "SKIP_RELEASE_GATE" = Some "1" → exempt stdin w w'
| exempt_branch branch : during (output_of branch_command) branch w w' → strip branch ≠ "main" → exempt stdin w w'
| exempt_ref : pushes_elsewhere stdin = true → exempt stdin w w'
| exempt_files changed : during changed_files changed w w' → Forall (λ p, is_sensitive p = false) changed → exempt stdin w w'.

(** The gate ran to its end with this code. *)
Definition gate_returned (w w' : world) (code : Z) : Prop :=
  ∃ p, during (run_proc gate_command PROJECT_ROOT) p w w' ∧ returncode p = code.

Lemma later_output_of argv : steps later (output_of argv).
Proof. unfold output_of. solve_steps. Qed.
Lemma later_changed_files : steps later changed_files.
Proof. pose proof later_output_of. unfold changed_files. solve_steps. Qed.

(** The hook lets a push pass exactly when the gate need not run or has
    succeeded: it returns 0 only if the gate is skipped by the environment, the
    branch is not main, the pushed reference is not main, no changed file
    matters for a release, or the release gate ran and returned 0; and it
    returns 1 only if the gate ran and failed on a change that does matter. *)
Theorem push_gated (stdin : string) (w w' : world) (c : Z) (Hrun : runs (main stdin) w c w') :
  (c = 0 ∧ (exempt stdin w w' ∨ gate_returned w w' 0)) ∨
  (c = 1 ∧ (∃ code, code ≠ 0 ∧ gate_returned w w' code) ∧
   ∃ changed path, during changed_files changed w w' ∧ path ∈ changed ∧ is_sensitive path = true).
Proof.
  unfold main in Hrun. apply runs_bind in Hrun as (skip & w1 & [-> ->]%runs_getenv & Hrun).
  case_bool_decide; [apply runs_ret in Hrun as [<- _]; left; split; [done|left; by apply exempt_skipped]|].
  apply runs_bind in Hrun as (branch & w2 & Hb & Hrun). pose proof (later_runs _ _ _ _ (later_output_of _) Hb) as Hl1.
  destruct (strip branch != "main") eqn:Hbr.
  { apply runs_ret in Hrun as [<- <-]. left. split; [done|]. left. apply (exempt_branch _ _ _ branch).
    - by eapply during_runs.
    - by apply negb_true_iff, String.eqb_neq in Hbr. }
  destruct (pushes_elsewhere stdin) eqn:Href; [apply runs_ret in Hrun as [<- _]; left; split; [done|left; by apply exempt_ref]|].
  apply runs_bind in Hrun as (changed & w3 & Hc & Hrun). pose proof (later_runs _ _ _ _ later_changed_files Hc) as Hl2.
  destruct (existsb is_sensitive changed) eqn:Hs; cbn [negb] in Hrun.
  2: { apply runs_ret in Hrun as [<- <-]. left. split; [done|]. left. apply (exempt_files _ _ _ changed).
       - exists w2, w3. by split_and!.
       - apply Forall_forall. intros p Hp. destruct (is_sensitive p) eqn:Hsp; [|done].
         assert (existsb is_sensitive changed = true) as Hx; [|congruence]. apply existsb_exists. exists p.
         by rewrite <- list_elem_of_In. }
  apply runs_bind in Hrun as ([] & w4 & Hp & Hrun). apply later_runs in Hp; [|solve_steps].
  apply runs_bind in Hrun as (p & w5 & Hg & Hrun).
  assert (Hl5 : later w4 w5) by (eapply later_runs; [|exact Hg]; solve_steps).
  destruct (Z.eqb_spec (returncode p) 0) as [Hz|Hz]; cbn [negb] in Hrun.
  - apply runs_ret in Hrun as [<- <-]. left. split; [done|]. right. exists p. split; [|done].
    exists w4, w5. split_and!; [chain_later|done|reflexivity].
  - apply runs_bind in Hrun as ([] & w6 & H6 & Hrun). apply later_runs in H6; [|solve_steps].
    apply runs_ret in Hrun as [<- <-]. right. split; [done|]. split.
    + exists (returncode p). split; [done|]. exists p. split; [|done]. exists w4, w5. split_and!; [chain_later|done|done].
    + apply existsb_exists in Hs as (path & Hin & Hsp). exists changed, path. rewrite list_elem_of_In.
      split_and!; [|done|done]. exists w2, w3. split_and!; [done|done|chain_later].
Qed.
End pre_push.

(** ** At work *)

(** A checkout of main with a changed library file, whose gate fails. *)
Definition main_host : Host := {|
  host_nt := false;
  host_run := λ argv _ w,
    (Ok (if one_of "rev-parse" argv then Proc 0 ("main" +:+ nl) ""
         else if one_of "diff" argv then Proc 0 ("docs/a.md" +:+ nl +:+ "lib/main.dart" +:+ nl) ""
         else Proc 2 "" ""), w_fs w);
  host_which := λ c _, Some c;
  host_fetch := λ _ _, Raise (OSError "offline");
  host_now := λ _, 0;
  host_utcoffset := 0;
  host_exn_str := λ _, "error";
  host_repr := λ _, "value";
  host_tmp := λ _, "/tmp/x";
  host_isatty := false;
  host_root := "/r"
|}.
Definition python : BuildInstaller.Machine := {| BuildInstaller.expanduser := λ p _, Ok p; sys_executable := "python" |}.
Definition push_line (ref : string) : string := ref +:+ " 1111 " +:+ ref +:+ " 2222" +:+ nl.

Theorem push_gated_witness :
  let w' := snd (main (H:=main_host) (H0:=python) (push_line "refs/heads/main") (World ∅ ∅ [])) in
  (1 = 0 ∧ (exempt (H:=main_host) (push_line "refs/heads/main") (World ∅ ∅ []) w' ∨ gate_returned (H:=main_host) (H0:=python) (World ∅ ∅ []) w' 0)) ∨
  (1 = 1 ∧ (∃ code, code ≠ 0 ∧ gate_returned (H:=main_host) (H0:=python) (World ∅ ∅ []) w' code) ∧
   ∃ changed path, during (changed_files (H:=main_host)) changed (World ∅ ∅ []) w' ∧ path ∈ changed ∧ is_sensitive path = true).
Proof.
  apply (push_gated (H:=main_host) (H0:=python) (push_line "refs/heads/main")). apply runs_eval. vm_compute. reflexivity.
Defined.

(** Only the first pushed reference is looked at: main pushed behind another
    branch passes without the gate. *)
Example second_reference_passes :
  fst (main (H:=main_host) (H0:=python) (push_line "refs/heads/topic" +:+ push_line "refs/heads/main") (World ∅ ∅ [])) = Ok 0.
Proof. reflexivity. Qed.
