(* ===== verification/CiConfiguration.v ===== *)
(** * The configuration of continuous integration (tool/ci/validate_ci_configuration.py)

    The workflows name test modules that have to exist, and the options of the
    analyzer may not use plugins. Whether Python finds a module is a parameter,
    the class [Modules]. *)

From S2P Require Import Prelude PyStr PyRe PyJson Effects WindowsFixture Commands.

Local Open Scope Z_scope.

(** [importlib.util.find_spec(module) is not None], with the repository in front
    of the search path: raises when a parent package is missing. *)
Class Modules : Type := { find_spec : string → string → world → res bool }.

(** src: tool/ci/validate_ci_configuration.py:13-13 _UNITTEST_COMMAND *)
Definition UNITTEST_COMMAND : regex :=
  seqs [RWordB; lit "python"; opt (lit "3"); plus space; lit "-m"; plus space; lit "unittest"; plus space;
        RGroup 1 (plus (RChar (λ c, negb (char_in (cr +:+ nl) c))))].
(** src: tool/ci/validate_ci_configuration.py:14-14 _UNITTEST_MODULE *)
Definition UNITTEST_MODULE : regex :=
  seqs [RWordB; lit "tool";
        plus (seqs [lit "."; RChar (λ c, in_range 65 90 c || in_range 97 122 c || Ascii.eqb c "_"); star (RChar is_word)]);
        RWordB].
(** src: tool/ci/validate_ci_configuration.py:15-15 _LINE_CONTINUATION *)
Definition LINE_CONTINUATION : regex := seqs [lit "\"; star space; opt (lit cr); lit nl].
(** src: tool/ci/validate_ci_configuration.py:16-16 _ANALYZER_PLUGIN *)
Definition ANALYZER_PLUGIN : regex := seqs [RBol; star space; lit "plugins"; star space; lit ":"; star space; REol].

(** src: tool/ci/validate_ci_configuration.py:18-18 _WORKFLOW_DIRECTORY *)
Definition WORKFLOW_DIRECTORY : string := ".github/workflows".

(** [pattern.findall(s)] of a pattern without groups. *)
Definition re_findall (r : regex) (s : string) : list string := mo_text <$> re_finditer r s.

(** src: tool/ci/validate_ci_configuration.py:21-27 collect_unittest_modules *)
Definition collect_unittest_modules (workflow_source : string) : list string :=
  let normalized_source := re_sub LINE_CONTINUATION " " workflow_source in
  concat (re_findall UNITTEST_MODULE <$> re_findall1 UNITTEST_COMMAND normalized_source).

(** src: tool/ci/validate_ci_configuration.py:30-37 validate_analysis_options *)
Definition validate_analysis_options (analysis_options : string) : list string :=
  if search ANALYZER_PLUGIN analysis_options then
    ["analysis_options.yaml uses deprecated analyzer plugins. Use build_runner for code generation instead."]
  else [].

Definition workflow_name : regex := seqs [star (RChar (λ _, true)); lit ".y"; star (RChar (λ _, true)); lit "ml"].

Section configuration.
Context `{Host} `{Modules}.

(** src: tool/ci/validate_ci_configuration.py:45-46 validate_configuration
    [sorted(directory.glob("*.y*ml"))] *)
Definition workflow_files (directory : string) (w : world) : list string :=
  (sort_keys ((λ p, (path_key p, p)) <$>
     List.filter (λ p, fullmatch workflow_name (path_key (path_name p))) (iterdir directory w))).*2.

(** src: tool/ci/validate_ci_configuration.py:54-55 validate_configuration
    One module of a workflow. *)
Definition check_module (repo_root relative_path : string) (module : string) : M (list string) :=
  w ← get_world;
  found ← lift (find_spec repo_root module w);
  mret (if (found : bool) then []
        else [path_str relative_path +:+ " references unavailable Python module: " +:+ module]).

(** src: tool/ci/validate_ci_configuration.py:50-55 validate_configuration
    One workflow. *)
Definition check_workflow (repo_root workflow_path : string) : M (list string) :=
  let relative_path := removeprefix workflow_path (repo_root +:+ "/") in
  source ← read_text workflow_path;
  errors ← map_M (check_module repo_root relative_path) (collect_unittest_modules source);
  mret (concat errors).

(** src: tool/ci/validate_ci_configuration.py:40-63 validate_configuration *)
Definition validate_configuration (repo_root : string) : M (list string) :=
  let workflow_directory := repo_root // WORKFLOW_DIRECTORY in
  there ← is_dir workflow_directory;
  w ← get_world;
  let workflow_paths := if (there : bool) then workflow_files workflow_directory w else [] in
  let missing := match workflow_paths with
                 | [] => ["Workflow directory is missing or empty: " +:+ path_str WORKFLOW_DIRECTORY]
                 | _ => []
                 end in
  found ← map_M (check_workflow repo_root) workflow_paths;
  let analysis_options_path := repo_root // "analysis_options.yaml" in
  has_options ← is_file analysis_options_path;
  options ← (if negb has_options then mret ["analysis_options.yaml is missing"]
             else text ← read_text analysis_options_path; mret (validate_analysis_options text));
  mret (missing ++ concat found ++ options).

(** src: tool/ci/validate_ci_configuration.py:66-82 main
    For a resolved root. *)
Definition main (repo_root : string) : M Z :=
  errors ← validate_configuration repo_root;
  match errors with
  | [] => _ ← print "CI configuration is valid."; mret 0
  | _ => _ ← for_M (λ error, eprint ("ERROR: " +:+ error)) errors; mret 1
  end.

(** ** The verdict *)

(** The text of a file as [read_text] reads it. *)
Definition text_at (w : world) (p text : string) : Prop :=
  ∃ b t, w_fs w !! p = Some (File b) ∧ decode b = Ok t ∧ text = universal_newlines t.

(** Every module the workflow names is found. *)
Definition workflow_ok (repo_root : string) (w : world) (path : string) : Prop :=
  ∀ text, text_at w path text → Forall (λ module, find_spec repo_root module w = Ok true) (collect_unittest_modules text).

(** The configuration is valid: there are workflows, every module their unittest
    commands name is found, and the analyzer options exist and use no plugins. *)
Record ci_valid (repo_root : string) (w : world) : Prop := {
  ci_workflows : w_fs w !! (repo_root // WORKFLOW_DIRECTORY) = Some Dir ∧
    workflow_files (repo_root // WORKFLOW_DIRECTORY) w ≠ [];
  ci_modules : Forall (workflow_ok repo_root w) (workflow_files (repo_root // WORKFLOW_DIRECTORY) w);
  ci_options : ∃ text, text_at w (repo_root // "analysis_options.yaml") text ∧ search ANALYZER_PLUGIN text = false
}.

Lemma runs_map_M_pure {A B} (f : A → M (list B)) (P : A → Prop) l w r w' :
  (∀ x r w', runs (f x) w r w' → w' = w ∧ (r = [] ↔ P x)) →
  runs (map_M f l) w r w' → w' = w ∧ (concat r = [] ↔ Forall P l).
Proof.
  intros Hf. revert r w'. induction l as [|x l IH]; intros r w'; cbn [map_M].
  - intros [<- <-]%runs_ret. split; [done|]. by split.
  - intros (y & w1 & [-> Hy]%Hf & (ys & w2 & [-> Hys]%IH & [<- <-]%runs_ret)%runs_bind)%runs_bind.
    split; [done|]. cbn [concat]. rewrite Forall_cons, <- Hy, <- Hys. split; [by intros [? ?]%app_nil|by intros [-> ->]].
Qed.

Lemma text_at_fun w p t1 t2 : text_at w p t1 → text_at w p t2 → t1 = t2.
Proof. intros (b1 & u1 & H1 & D1 & ->) (b2 & u2 & H2 & D2 & ->). congruence. Qed.

Lemma runs_check_workflow root path w r w' : runs (check_workflow root path) w r w' →
  w' = w ∧ (r = [] ↔ workflow_ok root w path).
Proof.
  unfold check_workflow. intros (text & w1 & [<- (b & t & Hb & Ht & ->)]%runs_read_text & Hr)%runs_bind.
  apply runs_bind in Hr as (errors & w2 & Hm & [<- <-]%runs_ret).
  apply (runs_map_M_pure _ (λ module, find_spec root module w = Ok true)) in Hm as [-> Hm].
  - split; [done|]. assert (Htext : text_at w path (universal_newlines t)) by (by exists b, t). rewrite Hm. split.
    + intros Hall text Ht'. by rewrite (text_at_fun _ _ _ _ Ht' Htext).
    + intros Hok. by apply Hok.
  - intros module r0 w0 (w3 & w4 & [= <- <-] & (found & w5 & [Hf <-]%runs_lift & [<- <-]%runs_ret)%runs_bind)%runs_bind.
    split; [done|]. rewrite Hf. by destruct found.
Qed.

(** For a repository whose workflows and options can be read, the validation
    exits with 0 exactly when the configuration is valid, and with 1 otherwise. *)
Theorem configuration_verdict (repo_root : string) (w w' : world) (c : Z) (Hrun : runs (main repo_root) w c w') :
  (c = 0 ↔ ci_valid repo_root w) ∧ (c = 0 ∨ c = 1).
Proof.
  unfold main in Hrun. apply runs_bind in Hrun as (errors & w1 & Hv & Hrun).
  assert (Hc : (c = 0 ↔ errors = []) ∧ (c = 0 ∨ c = 1)).
  { destruct errors; apply runs_bind in Hrun as ([] & w2 & _ & Hrun); apply runs_ret in Hrun as [<- _]; naive_solver. }
  clear Hrun. destruct Hc as [-> Hc]. split; [|done]. unfold validate_configuration in Hv.
  apply runs_bind in Hv as (there & w2 & Hdir & Hv). apply runs_bind in Hv as (w3 & w4 & [= <- <-] & Hv).
  injection Hdir as Hdir <-. apply runs_bind in Hv as (found & w5 & Hfound & Hv).
  apply runs_bind in Hv as (has & w6 & Hhas & Hv). apply runs_bind in Hv as (options & w7 & Hopt & [<- <-]%runs_ret).
  set (paths := if there then _ else _) in *.
  apply (runs_map_M_pure _ (workflow_ok repo_root w)) in Hfound as [-> Hfound]; [|by intros *; apply runs_check_workflow].
  apply runs_is_file in Hhas as [-> Hhas].
  assert (options = [] ↔ ∃ text, text_at w (repo_root // "analysis_options.yaml") text ∧ search ANALYZER_PLUGIN text = false) as Ho.
  { destruct has; cbn [negb] in Hopt.
    - apply runs_bind in Hopt as (text & w8 & [<- (b & t & Hb & Ht & ->)]%runs_read_text & [<- <-]%runs_ret).
      unfold validate_analysis_options. destruct (search _ _) eqn:Hs; split; try done.
      + intros (t' & (b' & u' & Hb' & Hu' & ->) & Hs'). simplify_eq. congruence.
      + intros _. eexists. split; [by exists b, t|done].
    - apply runs_ret in Hopt as [<- <-]. split; [done|]. intros (t & (b & u & Hb & _) & _).
      destruct Hhas as [_ Hhas]. discriminate Hhas. by exists b. }
  rewrite !app_nil, Hfound, Ho. clear Hfound Ho Hopt. subst paths.
  destruct (w_fs w !! (repo_root // WORKFLOW_DIRECTORY)) as [[b|]|] eqn:Hd; subst there.
  - split; [by intros [[=] _]|]. intros [[Hd' _] _ _]. congruence.
  - destruct (workflow_files _ _) as [|p ps] eqn:Hp.
    + split; [by intros [[=] _]|]. intros [[_ Hne] _ _]. congruence.
    + rewrite <- Hp. split.
      * intros (_ & Hall & Hoo). constructor; [split; [done|by rewrite Hp]|done|done].
      * intros [Hw Hm Hoo]. by split_and!.
  - split; [by intros [[=] _]|]. intros [[Hd' _] _ _]. congruence.
Qed.
End configuration.

(** ** At work *)

Definition known_modules : Modules := {| find_spec := λ _ module _,
  if startswith module "tool.release." then Ok (one_of module ["tool.release.test_publish_release"])
  else Raise (ForeignError "ModuleNotFoundError") |}.
Definition workflow : string :=
  "jobs:" +:+ nl +:+ "  - run: python3 -m unittest \" +:+ nl +:+ "      tool.release.test_publish_release -v" +:+ nl.
Definition ci_world (workflow : string) : world :=
  World (<["/r/.github/workflows" := Dir]> (<["/r/.github/workflows/ci.yml" := File workflow]>
        {["/r/analysis_options.yaml" := File ("analyzer:" +:+ nl)]})) ∅ [].

Theorem configuration_verdict_witness :
  (0 = 0 ↔ ci_valid (H:=willing_host) (H0:=known_modules) "/r" (ci_world workflow)) ∧ (0 = 0 ∨ 0 = 1).
Proof.
  apply (configuration_verdict (H:=willing_host) (H0:=known_modules) "/r" (ci_world workflow)
           (snd (main (H:=willing_host) (H0:=known_modules) "/r" (ci_world workflow)))).
  apply runs_eval. vm_compute. reflexivity.
Defined.

Example collects_continued_line : collect_unittest_modules workflow = ["tool.release.test_publish_release"].
Proof. vm_compute. reflexivity. Qed.

(** A module of a package that does not exist ends the check with an exception. *)
Example missing_package_raises :
  fst (main (H:=willing_host) (H0:=known_modules) "/r"
         (ci_world ("  - run: python -m unittest tool.gone.test_x" +:+ nl))) = Raise (ForeignError "ModuleNotFoundError").
Proof. vm_compute. reflexivity. Qed.
