(* ===== verification/ElevatedRunner.v ===== *)
(** * Building the elevated helper (tool/elevated/build_elevated_runner.py)

    The helper is built twice: once as a normal command line program, whose
    SQLite library is kept, and once from a private copy of the package that
    loads this library under a name of its own. The result is copied next to
    the application. *)

From S2P Require Import Prelude PyStr PyRe PyReGroups PyJson Effects ScriptUtils WindowsFixture WindowsVersionInfo Commands Paths.
From S2P Require SignpathStaging.
Import SignpathStaging (RealPath, real_path).

Local Open Scope Z_scope.

Definition sidecar_re : regex := RSeq (plus (RChar (λ c, in_range 97 122 c || is_digit c || Ascii.eqb c "_"))) (lit ".dll").
Definition sidecar_contract_re : regex := seqs [lit "sqliteSidecarFileName = '"; RGroup 1 sidecar_re; lit "'"].
Definition hooks_re : regex := RSeq RBol (lit "hooks:").
Definition helper_name : string := "plug_agente_elevated_runner.exe".

Section elevated.
Context `{Host} `{WinApi} `{RealPath} `{Symlinks}.

(** src: tool/elevated/build_elevated_runner.py:22-22 PACKAGE_DIR *)
Definition PACKAGE_DIR : string := PROJECT_ROOT // "tool" // "plug_agente_elevated_runner".
(** src: tool/elevated/build_elevated_runner.py:23-23 OUTPUT_DIR *)
Definition OUTPUT_DIR : string := PROJECT_ROOT // "build" // "elevated_runner".
(** src: tool/elevated/build_elevated_runner.py:24-24 OUTPUT_EXE *)
Definition OUTPUT_EXE : string := OUTPUT_DIR // helper_name.
(** src: tool/elevated/build_elevated_runner.py:25-25 CLI_BUILD_DIR *)
Definition CLI_BUILD_DIR : string := OUTPUT_DIR // "cli_out".
(** src: tool/elevated/build_elevated_runner.py:26-26 FLAT_PACKAGE_DIR *)
Definition FLAT_PACKAGE_DIR : string := OUTPUT_DIR // "flat_package".
(** src: tool/elevated/build_elevated_runner.py:27-27 FLAT_BUILD_DIR *)
Definition FLAT_BUILD_DIR : string := OUTPUT_DIR // "flat_cli_out".

(** src: tool/elevated/build_elevated_runner.py:30-35 _remove_private_build_directory *)
Definition remove_private_build_directory (directory : string) : M unit :=
  w ← get_world;
  let expected_root := real_path PROJECT_ROOT w // "build/elevated_runner" in
  _ ← raise_when ((real_path OUTPUT_DIR w != expected_root) || (path_parent (real_path directory w) != expected_root) ||
                  is_symlink directory w)
        (ValueError "Unexpected private helper build directory");
  there ← path_exists directory;
  when there (rmtree directory).

(** src: tool/elevated/build_elevated_runner.py:38-44 _built_executable *)
Definition built_executable (bundle_bin : string) : M string :=
  w ← get_world;
  let found := List.filter (λ p, startswith (path_key (path_name p)) "plug_agente_elevated_runner") (iterdir bundle_bin w) in
  match (sort_keys ((λ p, (path_key p, p)) <$> found)).*2 with
  | [] => raise (FileNotFoundError ("dart build cli did not produce plug_agente_elevated_runner in " +:+ path_str bundle_bin))
  | first :: _ => mret first
  end.

(** src: tool/elevated/build_elevated_runner.py:47-52 _sqlite_sidecar_name *)
Definition sqlite_sidecar_name (package : string) : M string :=
  contract ← read_text (package // "lib/src/elevated_contract.dart");
  match re_search sidecar_contract_re contract with
  | Some mo =>
      _ ← raise_when (group_str 1 mo == "sqlite3.dll") (ValueError "Missing elevated SQLite sidecar contract");
      mret (group_str 1 mo)
  | None => raise (ValueError "Missing elevated SQLite sidecar contract")
  end.

(** src: tool/elevated/build_elevated_runner.py:55-60 _install_flat_helper *)
Definition install_flat_helper (executable sqlite destination sidecar_name : string) : M unit :=
  _ ← raise_when ((sidecar_name == "sqlite3.dll") || (path_name sidecar_name != sidecar_name))
        (ValueError "Elevated SQLite must use a dedicated sidecar filename");
  _ ← mkdir destination;
  _ ← copy_file executable (destination // helper_name);
  copy_file sqlite (destination // sidecar_name).

(** src: tool/elevated/build_elevated_runner.py:63-75 _prepare_flat_package *)
Definition prepare_flat_package (source destination runtime_package sidecar_name : string) : M unit :=
  _ ← mkdir_new destination;
  _ ← for_M (λ name, copy_tree (λ _, false) (source // name) (destination // name)) ["lib"; "bin"];
  _ ← copy_file (source // "pubspec.lock") (destination // "pubspec.lock");
  pubspec ← read_text (source // "pubspec.yaml");
  let expected := "path: ../../packages/windows_action_runtime" in
  _ ← raise_when (negb (contains pubspec expected) || search hooks_re pubspec)
        (ValueError "Unexpected helper package configuration");
  w ← get_world;
  let pubspec := replace expected ("path: " +:+ dq +:+ posix (real_path runtime_package w) +:+ dq) pubspec in
  write_text (destination // "pubspec.yaml")
    (pubspec +:+ nl +:+ "hooks:" +:+ nl +:+ "  user_defines:" +:+ nl +:+ "    sqlite3:" +:+ nl +:+ "      source: system" +:+ nl +:+
     "      name_windows: " +:+ path_stem sidecar_name +:+ nl).

(** [run(cmd, cwd=cwd)] *)
Definition run_in (cmd : list string) (cwd : string) : M unit := _ ← run cmd (Some cwd) None true; mret tt.

(** src: tool/elevated/build_elevated_runner.py:121-123 main *)
Definition bundle_targets (release_only : bool) : list string :=
  let runner := PROJECT_ROOT // "build" // "windows" // "x64" // "runner" in
  [runner // "Release"] ++ (if release_only then [] else [runner // "Debug"]).

(** src: tool/elevated/build_elevated_runner.py:125-127 main
    Copies the helper to a bundle that exists. *)
Definition copy_to_bundle (sqlite sidecar_name bundle_dir : string) : M unit :=
  there ← is_dir bundle_dir;
  when there
    (_ ← install_flat_helper OUTPUT_EXE sqlite bundle_dir sidecar_name;
     print ("Copied helper to: " +:+ path_str bundle_dir)).

(** src: tool/elevated/build_elevated_runner.py:82-119 main
    Everything up to the helper in the output directory: the SQLite library of
    the first build and the name it goes by. *)
Definition build_helper : M (string * string) :=
  dart ← resolve_dart_sdk_executable;
  _ ← run_in [dart; "pub"; "get"] PACKAGE_DIR;
  _ ← mkdir OUTPUT_DIR;
  _ ← remove_private_build_directory CLI_BUILD_DIR;
  _ ← run_in [dart; "build"; "cli"; "-t"; "bin/plug_agente_elevated_runner.dart"; "-o"; path_str CLI_BUILD_DIR] PACKAGE_DIR;
  let bundle := CLI_BUILD_DIR // "bundle" in
  let sqlite := bundle // "lib/sqlite3.dll" in
  there ← is_file sqlite;
  _ ← raise_when (negb there) (FileNotFoundError "The pinned helper build did not produce sqlite3.dll");
  sidecar_name ← sqlite_sidecar_name PACKAGE_DIR;
  _ ← for_M remove_private_build_directory [FLAT_PACKAGE_DIR; FLAT_BUILD_DIR];
  _ ← prepare_flat_package PACKAGE_DIR FLAT_PACKAGE_DIR (PROJECT_ROOT // "packages/windows_action_runtime") sidecar_name;
  _ ← run_in [dart; "pub"; "get"] FLAT_PACKAGE_DIR;
  _ ← run_in [dart; "build"; "cli"; "-t"; "bin/plug_agente_elevated_runner.dart"; "-o"; path_str FLAT_BUILD_DIR] FLAT_PACKAGE_DIR;
  built ← built_executable (FLAT_BUILD_DIR // "bundle/bin");
  _ ← install_flat_helper built sqlite OUTPUT_DIR sidecar_name;
  version ← application_version;
  _ ← set_version_info OUTPUT_EXE version;
  _ ← run [path_str OUTPUT_EXE; "--help"] None None true;
  _ ← print ("Built elevated runner helper: " +:+ path_str OUTPUT_EXE);
  mret (sqlite, sidecar_name).

(** src: tool/elevated/build_elevated_runner.py:78-128 main *)
Definition main (release_only : bool) : M Z :=
  '(sqlite, sidecar_name) ← build_helper;
  _ ← for_M (copy_to_bundle sqlite sidecar_name) (bundle_targets release_only);
  mret 0.

(** src: tool/elevated/build_elevated_runner.py:131-136 main
    The entry point of the program. *)
Definition entry_point (release_only : bool) : M Z :=
  try_catch (code ← main release_only; raise (SystemExit (ExitCode code))) is_SubprocessError
    (λ _, _ ← console_fail "build_elevated_runner.py failed."; raise (SystemExit (ExitCode 1))).

(** ** Removal stays inside the private directory *)

Lemma runs_remove_private directory w u w' : runs (remove_private_build_directory directory) w u w' →
  path_parent (real_path directory w) = real_path PROJECT_ROOT w // "build/elevated_runner" ∧
  is_symlink directory w = false ∧
  (∀ p, below directory p = false → w_fs w' !! p = w_fs w !! p) ∧
  (∀ p, w_fs w !! directory ≠ None → below directory p = true → w_fs w' !! p = None).
Proof.
  unfold remove_private_build_directory. intros Hr. inv_runs. injection H3 as <- <-. bool_simpl.
  apply runs_path_exists in H5 as [<- ->]. split; [done|]. split; [done|].
  case_bool_decide as Hex; cbn [when] in Hr.
  - unfold runs, rmtree in Hr. destruct (w_fs w !! directory) as [[]|] eqn:Hd; try done. injection Hr as <-. cbn [w_fs].
    split; intros p; [intros Hp; apply option_eq; intros x; rewrite map_lookup_filter_Some; simpl; naive_solver|].
    intros _ Hp. apply map_lookup_filter_None. right. intros x _. simpl. by rewrite Hp.
  - apply runs_ret in Hr as [_ <-]. split; [done|]. intros p Hd. destruct (w_fs w !! directory); [|done]. by destruct Hex.
Qed.

(** ** Every bundle gets the same helper *)

(** The two files of the helper in [dir] are [exe] and [dll]. *)
Definition helper_at (w : world) (dir sidecar_name exe dll : string) : Prop :=
  w_fs w !! (dir // helper_name) = Some (File exe) ∧ w_fs w !! (dir // sidecar_name) = Some (File dll).

Lemma install_flat_helper_spec exe_path sqlite dir sidecar w u w' : runs (install_flat_helper exe_path sqlite dir sidecar) w u w' →
  exe_path ≠ dir → sqlite ≠ dir → sqlite ≠ dir // helper_name → dir // helper_name ≠ dir // sidecar →
  ∃ exe dll, w_fs w !! exe_path = Some (File exe) ∧ w_fs w !! sqlite = Some (File dll) ∧ helper_at w' dir sidecar exe dll ∧
    (∀ q, q ≠ dir → q ≠ dir // helper_name → q ≠ dir // sidecar → w_fs w' !! q = w_fs w !! q).
Proof.
  unfold install_flat_helper. intros Hr He Hs Hsh Hne. inv_runs.
  match goal with Hc : runs (copy_file exe_path _) _ _ _ |- _ => apply runs_copy_file in Hc as (exe & Hexe & Hfs1) end.
  apply runs_copy_file in Hr as (dll & Hdll & Hfs2).
  match goal with Hm : runs (mkdir _) _ _ _ |- _ => pose proof (λ q, runs_mkdir_ne _ _ _ _ q Hm) as Hkeep end.
  exists exe, dll. rewrite Hkeep in Hexe by done. rewrite Hfs1, lookup_insert_ne, Hkeep in Hdll by done.
  split_and!; [done|done| |].
  - split; rewrite Hfs2; [by rewrite lookup_insert_ne, Hfs1, lookup_insert_eq|by rewrite lookup_insert_eq].
  - intros q H1q H2q H3q. by rewrite Hfs2, lookup_insert_ne, Hfs1, lookup_insert_ne, Hkeep.
Qed.

Lemma sidecar_not_helper package w name w' : runs (sqlite_sidecar_name package) w name w' → name ≠ helper_name ∧ w' = w.
Proof.
  unfold sqlite_sidecar_name. intros (contract & w1 & [<- _]%runs_read_text & Hr)%runs_bind.
  destruct (re_search _ _) as [mo|] eqn:Hs; [|by apply runs_raise in Hr]. inv_runs. split; [|done].
  unfold group_str. destruct (group 1 mo) as [t|] eqn:Hg; [|done]. simpl. intros ->.
  apply (search_group _ sidecar_re _ _ _ _ Hs) in Hg; [|intros r1; change (bodies sidecar_contract_re) with [(1%nat, sidecar_re)];
    rewrite list_elem_of_singleton; by intros [= ->]|done].
  apply matches_seq in Hg as (a & b & Hab & _ & ->%matches_lit).
  assert (Hend : endswith helper_name ".dll" = true); [|by vm_compute in Hend]. apply endswith_spec. by exists a.
Qed.

(** Two paths below the repository differ when the parts below it differ. *)
Lemma root_ne a b : a ≠ b → PROJECT_ROOT +:+ a ≠ PROJECT_ROOT +:+ b.
Proof. intros Hne He. apply Hne. revert He. induction PROJECT_ROOT as [|c s IH]; simpl; [done|]. intros [=]. by apply IH. Qed.
Ltac path_ne := unfold OUTPUT_EXE, CLI_BUILD_DIR, OUTPUT_DIR, path_join; rewrite ?str_app_assoc; apply root_ne; simpl; by intros [=].

Definition sqlite_path : string := CLI_BUILD_DIR // "bundle" // "lib/sqlite3.dll".

(** A bundle directory lies apart from the output directory. *)
Definition apart (dir : string) : Prop := (∀ t, OUTPUT_EXE ≠ dir +:+ t) ∧ (∀ t, sqlite_path ≠ dir +:+ t).

Lemma targets_apart release_only : Forall apart (bundle_targets release_only).
Proof.
  assert (apart (PROJECT_ROOT // "build" // "windows" // "x64" // "runner" // "Release")) as Hrel
    by (split; intros t; unfold sqlite_path; path_ne).
  assert (apart (PROJECT_ROOT // "build" // "windows" // "x64" // "runner" // "Debug")) as Hdbg
    by (split; intros t; unfold sqlite_path; path_ne).
  unfold bundle_targets. destruct release_only; simpl; repeat constructor; apply Hrel || apply Hdbg.
Qed.

Lemma copy_to_bundle_spec name dir w u w' : runs (copy_to_bundle sqlite_path name dir) w u w' → apart dir → name ≠ helper_name →
  (∀ q, (∀ t, q ≠ dir +:+ t) → w_fs w' !! q = w_fs w !! q) ∧
  (w_fs w' !! dir = Some Dir → ∃ exe dll, w_fs w !! OUTPUT_EXE = Some (File exe) ∧ w_fs w !! sqlite_path = Some (File dll) ∧
     helper_at w' dir name exe dll).
Proof.
  unfold copy_to_bundle. intros (there & w1 & Hd & Hr)%runs_bind [Ho Hs] Hn. injection Hd as Hd <-.
  destruct there; cbn [when] in Hr.
  - apply runs_bind in Hr as ([] & w2 & Hi & Hp%runs_print). subst w'. cbn [w_fs].
    assert (∀ t, dir // t = dir +:+ ("/" +:+ t)) as Hj by done.
    apply install_flat_helper_spec in Hi as (exe & dll & ? & ? & ? & Hkeep).
    + split; [intros q Hq; apply Hkeep; [rewrite <- (str_app_nil_r dir)|rewrite Hj..]; apply Hq|]. intros _. by exists exe, dll.
    + rewrite <- (str_app_nil_r dir). apply Ho.
    + rewrite <- (str_app_nil_r dir). apply Hs.
    + rewrite Hj. apply Hs.
    + apply path_join_ne. congruence.
  - apply runs_ret in Hr as [_ <-]. split; [done|]. intros Hdir. by rewrite Hdir in Hd.
Qed.

Lemma build_helper_result w r w' : runs build_helper w r w' → r.1 = sqlite_path ∧ r.2 ≠ helper_name.
Proof.
  unfold build_helper. intros Hr. inv_runs. simpl. split; [done|].
  match goal with Hs : runs (sqlite_sidecar_name _) _ _ _ |- _ => by apply sidecar_not_helper in Hs as [? _] end.
Qed.

(** After a build every bundle that exists holds the helper that the build
    left in its output directory, and under the sidecar's own name, which is
    neither the system's name nor the helper's, the SQLite library of the first,
    checksummed build. *)
Theorem bundles_share_helper (release_only : bool) (w w' : world) (c : Z) (Hrun : runs (main release_only) w c w') :
  c = 0 ∧ ∃ name, name ≠ helper_name ∧ ∀ dir, dir ∈ bundle_targets release_only → w_fs w' !! dir = Some Dir →
    ∃ exe dll, w_fs w' !! OUTPUT_EXE = Some (File exe) ∧ w_fs w' !! sqlite_path = Some (File dll) ∧ helper_at w' dir name exe dll.
Proof.
  unfold main in Hrun. apply runs_bind in Hrun as ([sqlite name] & w1 & Hb & Hrun).
  apply build_helper_result in Hb as [Hsq Hname]. simpl in Hsq, Hname. subst sqlite.
  apply runs_bind in Hrun as ([] & w2 & Hfor & [<- <-]%runs_ret). split; [done|]. exists name. split; [done|].
  pose proof (targets_apart release_only) as Hap. unfold bundle_targets in *.
  set (release := PROJECT_ROOT // "build" // "windows" // "x64" // "runner" // "Release") in *.
  set (debug := PROJECT_ROOT // "build" // "windows" // "x64" // "runner" // "Debug") in *.
  assert (Hsep : ∀ x t, release +:+ x ≠ debug +:+ t) by (intros x t; unfold release, debug; path_ne).
  clearbody release debug. cbn [app] in *. apply Forall_cons in Hap as [Hrel Hap]. cbn [for_M] in Hfor.
  apply runs_bind in Hfor as ([] & w3 & Hc1 & Hfor). apply copy_to_bundle_spec in Hc1 as [Hk1 Hc1]; [|done|done].
  destruct release_only; cbn [for_M] in Hfor.
  - apply runs_ret in Hfor as [_ <-]. intros dir ->%list_elem_of_singleton Hd.
    destruct (Hc1 Hd) as (exe & dll & ? & ? & ?). exists exe, dll. rewrite !Hk1; [done|apply Hrel..].
  - apply Forall_cons in Hap as [Hdbg _]. apply runs_bind in Hfor as ([] & w4 & Hc2 & Hfor).
    apply copy_to_bundle_spec in Hc2 as [Hk2 Hc2]; [|done|done]. apply runs_ret in Hfor as [_ <-].
    intros dir [-> | ->%list_elem_of_singleton]%elem_of_cons Hd.
    + rewrite Hk2 in Hd by (intros t; rewrite <- (str_app_nil_r release); apply Hsep).
      destruct (Hc1 Hd) as (exe & dll & ? & ? & [? ?]). exists exe, dll.
      rewrite (Hk2 OUTPUT_EXE), (Hk2 sqlite_path), (Hk1 OUTPUT_EXE), (Hk1 sqlite_path); [|apply Hrel|apply Hrel|apply Hdbg|apply Hdbg].
      split_and!; [done|done|]. split; (rewrite Hk2; [done|intros t; apply Hsep]).
    + destruct (Hc2 Hd) as (exe & dll & ? & ? & ?). exists exe, dll.
      rewrite (Hk2 OUTPUT_EXE), (Hk2 sqlite_path); [done|apply Hdbg..].
Qed.
End elevated.

(** ** At work *)

Definition cli_out : string := "/r/build/elevated_runner/cli_out".
Definition flat_out : string := "/r/build/elevated_runner/flat_cli_out".
(** A machine whose Dart writes the files of a build. *)
Definition dart_host : Host := {|
  host_nt := true;
  host_run := λ argv _ w, (Ok (Proc 0 EmptyString EmptyString),
    if one_of (replace "/" "\" cli_out) argv then <[cli_out // "bundle" // "lib/sqlite3.dll" := File "SQLite"]> (<[cli_out := Dir]> (w_fs w))
    else if one_of (replace "/" "\" flat_out) argv
         then <[flat_out // "bundle/bin" // helper_name := File (example_exe "helper")]> (w_fs w)
         else w_fs w);
  host_which := λ c _, Some c;
  host_fetch := λ _ _, Raise (OSError "offline");
  host_now := λ _, 1767225600;
  host_utcoffset := 0;
  host_exn_str := λ _, "error";
  host_repr := λ _, "value";
  host_tmp := λ _, "/tmp/x";
  host_isatty := false;
  host_root := "/r"
|}.
Definition plain_paths : RealPath := {| real_path := λ p _, p |}.
Definition no_symlinks : Symlinks := {| is_symlink := λ _ _, false |}.
Definition helper_package : string := "/r/tool/plug_agente_elevated_runner".
Definition helper_world : world :=
  World (<["/r/build/windows/x64/runner/Release" := Dir]>
        (<[(helper_package // "lib") := Dir]> (<[(helper_package // "bin") := Dir]>
        (foldr (λ kv fs, <[fst kv := File (snd kv)]> fs) ∅
          [("/r/pubspec.yaml", "version: 1.9.1+1" +:+ nl);
           (helper_package // "lib/src/elevated_contract.dart", "const sqliteSidecarFileName = 'plug_sqlite.dll';" +:+ nl);
           (helper_package // "bin/plug_agente_elevated_runner.dart", "main() {}");
           (helper_package // "pubspec.lock", "packages:"); 
           (helper_package // "pubspec.yaml", "dependencies:" +:+ nl +:+ "  r:" +:+ nl +:+
              "    path: ../../packages/windows_action_runtime" +:+ nl)])))) ∅ [].
Definition helper_build : res Z * world :=
  main (H:=dart_host) (H0:=dropping_api) (H1:=plain_paths) (H2:=no_symlinks) true helper_world.

Theorem bundles_share_helper_witness :
  w_fs (snd helper_build) !! "/r/build/windows/x64/runner/Release" = Some Dir ∧
  0 = 0 ∧ ∃ name, name ≠ helper_name ∧ ∀ dir, dir ∈ bundle_targets (H:=dart_host) true → w_fs (snd helper_build) !! dir = Some Dir →
    ∃ exe dll, w_fs (snd helper_build) !! (OUTPUT_EXE (H:=dart_host)) = Some (File exe) ∧
      w_fs (snd helper_build) !! (sqlite_path (H:=dart_host)) = Some (File dll) ∧ helper_at (snd helper_build) dir name exe dll.
Proof.
  split; [vm_compute; reflexivity|].
  apply (bundles_share_helper (H:=dart_host) (H0:=dropping_api) (H1:=plain_paths) (H2:=no_symlinks) true helper_world (snd helper_build) 0).
  apply runs_eval. vm_compute. reflexivity.
Defined.
