(* ===== verification/ApplicationSource.v ===== *)
(** * The sources of an isolated application build (tool/updater/application_source.py)

    The source tree of a commit is taken from git: its inventory of blobs, the
    archive that is unpacked and compared with the inventory file by file, and
    the derivations that give the native code its private identity. Reading
    the tar format is Python's: the class [Tar] gives the entries of an archive. *)

From S2P Require Import Prelude PyStr PyRe PyHash PyJson Effects ScriptUtils WindowsFixture LifecyclePayload Commands Paths.

Local Open Scope Z_scope.

(** One entry of an archive: its name, its kind, the size in its header and the
    content behind it, [None] when there is none to extract. *)
Inductive tar_kind : Type := TarDir | TarReg | TarOther.
Record tar_entry : Type := TarEntry {
  te_name : string;
  te_kind : tar_kind;
  te_size : Z;
  te_content : option string
}.
(** The entries in the order of the archive; an error ends the iteration. *)
Class Tar : Type := { tar_entries : string → list (res tar_entry) }.

(** src: tool/updater/application_source.py:14-14 ENTRYPOINT *)
Definition ENTRYPOINT : string := "tool/homologation/desktop_bootstrap_fixture.dart".
(** src: tool/updater/application_source.py:15-15 SAFE_ENV *)
Definition SAFE_ENV : string :=
  "APP_ENV=homologation" +:+ nl +:+ "ENABLE_SQL_OPERATIONS=false" +:+ nl +:+ "AUTO_UPDATE_CHANNEL=internal" +:+ nl.
(** src: tool/updater/application_source.py:16-16 SUPPORTED_BOOTSTRAP_SHA256 *)
Definition SUPPORTED_BOOTSTRAP_SHA256 : string := "c4b88aa931bab28092890c97f164d22e9c10905e3858e94a29e6ca3ca2227fb7".
(** src: tool/updater/application_source.py:17-17 MAX_SOURCE_FILES *)
Definition MAX_SOURCE_FILES : Z := 10000.
(** src: tool/updater/application_source.py:18-18 MAX_ARCHIVE_BYTES *)
Definition MAX_ARCHIVE_BYTES : Z := 128 * 1024 * 1024.

(** src: tool/updater/application_source.py:21-26 relative_name *)
Definition relative_name (name : string) : res string :=
  _ ← raise_if (negb (fullmatch entry_name_re name) || startswith name "/" || (as_posix name != name) ||
                existsb (λ part, one_of part ["."; ".."; ".git"]) (posix_parts name))
        (RuntimeError "Invalid application source path");
  Ok name.

(** src: tool/updater/application_source.py:45-50 tool_environment *)
Definition environment_keys : list string :=
  ["PATH"; "PATHEXT"; "SYSTEMROOT"; "SYSTEMDRIVE"; "WINDIR"; "COMSPEC"; "OS"; "TEMP"; "TMP";
   "USERPROFILE"; "HOME"; "HOMEDRIVE"; "HOMEPATH"; "APPDATA"; "LOCALAPPDATA";
   "PROGRAMDATA"; "ALLUSERSPROFILE"; "PROGRAMFILES"; "PROGRAMFILES(X86)";
   "PROGRAMW6432"; "COMMONPROGRAMFILES"; "COMMONPROGRAMFILES(X86)";
   "COMMONPROGRAMW6432"; "PROCESSOR_ARCHITECTURE"; "NUMBER_OF_PROCESSORS"; "FLUTTER_ROOT"; "PUB_CACHE"].

(** src: tool/updater/application_source.py:44-51 tool_environment *)
Definition tool_environment (raw : gmap string string) : gmap string string :=
  filter (λ kv, one_of (py_upper (fst kv)) environment_keys = true) raw.

(** src: tool/updater/application_source.py:73-74 git_files
    The metadata of one line of [git ls-tree -z]: mode, kind and blob. *)
Definition tree_metadata (entry : string) : res (string * string * string * string) :=
  '(metadata, raw_name) ← from_option (partition (chr 9) entry) (ValueError "not enough values to unpack");
  _ ← raise_if (negb (is_ascii metadata)) UnicodeDecodeError;
  match split_char " " metadata with
  | [mode; kind; blob] => name ← decode raw_name; Ok (mode, kind, blob, name)
  | _ => Raise (ValueError "wrong number of values to unpack")
  end.

(** src: tool/updater/application_source.py:71-82 git_files
    One entry of the inventory. *)
Definition add_tree_entry (entry : string) (files : list (string * string)) : res (list (string * string)) :=
  '(mode, kind, blob, raw_name) ← tree_metadata entry;
  name ← relative_name raw_name;
  _ ← raise_if (negb (one_of mode ["100644"; "100755"]) || (kind != "blob"))
        (RuntimeError "Linked or nested Git inputs are refused");
  _ ← raise_if (startswith (path_name name) ".env" && (path_name name != ".env.example"))
        (RuntimeError "Environment files must not enter the application snapshot");
  _ ← raise_if (negb (fullmatch revision_re blob) || one_of name files.*1)
        (RuntimeError "Invalid application Git inventory");
  Ok (assoc_set name blob files).

(** src: tool/updater/application_source.py:69-82 git_files *)
Fixpoint add_tree_entries (entries : list string) (files : list (string * string)) : res (list (string * string)) :=
  match entries with
  | [] => Ok files
  | entry :: entries =>
      if nonempty entry then files ← add_tree_entry entry files; add_tree_entries entries files
      else add_tree_entries entries files
  end.

(** src: tool/updater/application_source.py:93-94 blob_hash *)
Definition blob_hash (content : string) : string := sha1_hex ("blob " +:+ py_str_int (len content) +:+ chr 0 +:+ content).

(** The native sources that carry the identity of the product. *)
Definition native_prefixes : list string := ["windows/updater/"; "windows/update_helper/"; "windows/install_channel/"].
(** src: tool/updater/application_source.py:129-130 requires_native_derivation *)
Definition is_native_source (name : string) : bool :=
  existsb (startswith name) native_prefixes && negb (contains name "/third_party/") &&
  one_of (path_suffix name) [".cpp"; ".h"].

(** src: tool/updater/application_source.py:127-130 requires_native_derivation *)
Definition requires_native_derivation (name : string) : bool :=
  one_of name [ENTRYPOINT; "windows/runner/main.cpp"; "windows/runner/win32_window.cpp"] || is_native_source name.

(** [content.decode("utf-8-sig")] *)
Definition decode_sig (content : string) : res string := decode (removeprefix content (chr 239 +:+ chr 187 +:+ chr 191)).

Definition dart_main : string := "Future<void> main() async {" +:+ nl.
Definition dart_imports : string :=
  "import 'package:flutter/services.dart';" +:+ nl +:+
  "import 'package:plug_agente/core/runtime/installation_bundle_check.dart';" +:+ nl.
Definition dart_checked_main : string :=
  "Future<void> main(List<String> args) async {" +:+ nl +:+
  "  if (args.contains('--installation-check')) {" +:+ nl +:+
  "    WidgetsFlutterBinding.ensureInitialized();" +:+ nl +:+
  "    final result = await checkInstallationBundle(rootBundle);" +:+ nl +:+
  "    exit(result.fold((_) => 0, (_) => 3));" +:+ nl +:+
  "  }" +:+ nl.

(** src: tool/updater/application_source.py:135-146 derived_bytes
    The entry point. *)
Definition derived_entrypoint (content : string) : res string :=
  text ← decode_sig content;
  _ ← raise_if (negb (count dart_main text =? 1)%nat) (RuntimeError "Unsupported bootstrap installation check contract");
  Ok (utf8_encode (replace dart_main dart_checked_main (dart_imports +:+ text))).

Definition crash_restart : string := "if (!is_installation_check && !is_update_validation) RegisterCrashRestart();".
Definition program_files_guard : string := "  PWSTR program_files = nullptr;".
Definition own_image_guard : string := "  wchar_t own_image[32768];".
Definition quoted_l (s : string) : string := "L" +:+ dq +:+ s +:+ dq.
(** src: tool/updater/application_source.py:149-152 derived_bytes *)
Definition runner_requirements : list (string * nat) :=
  [("PlugAgente_SingleInstance", 2%nat); ("FLUTTER_RUNNER_WIN32_WINDOW", 1%nat);
   (quoted_l "PlugAgenteUpdater", 1%nat); ("window.Create(" +:+ quoted_l "plug_agente", 1%nat);
   (crash_restart, 1%nat); (program_files_guard, 1%nat)].

(** src: tool/updater/application_source.py:147-167 derived_bytes
    The native runner. *)
Definition derived_runner (content identity : string) : res string :=
  text ← decode_sig content;
  _ ← raise_if (existsb (λ vc, negb (count (fst vc) text =? snd vc)%nat) runner_requirements)
        (RuntimeError "Unsupported native runner; review its isolation before building");
  let text := replace_all
    [("PlugAgente_SingleInstance", identity +:+ "_SingleInstance");
     ("FLUTTER_RUNNER_WIN32_WINDOW", identity +:+ "_WINDOW");
     (quoted_l "PlugAgenteUpdater", "L" +:+ dq +:+ identity +:+ "Updater" +:+ dq);
     ("window.Create(" +:+ quoted_l "plug_agente", "window.Create(L" +:+ dq +:+ identity +:+ dq);
     (crash_restart, "// The explicit fixture controller owns process lifetime.")] text in
  let guard_marker := if contains text own_image_guard then own_image_guard else program_files_guard in
  _ ← raise_if (negb (count guard_marker text =? 1)%nat) (RuntimeError "Unsupported native installation guard");
  Ok (utf8_encode (replace guard_marker
    ("  if (!is_installation_check && GetEnvironmentVariableW(" +:+ quoted_l "PLUG_AGENT_BOOTSTRAP_ROOT" +:+
     ", nullptr, 0) == 0) return EXIT_FAILURE;" +:+ nl +:+ nl +:+ guard_marker) text)).

(** src: tool/updater/application_source.py:133-176 derived_bytes *)
Definition derived_bytes (name content identity : string) : res string :=
  _ ← require_identity identity;
  if name == ENTRYPOINT then derived_entrypoint content
  else if name == "windows/runner/main.cpp" then derived_runner content identity
  else if name == "windows/runner/win32_window.cpp" then
    text ← decode_sig content;
    _ ← raise_if (negb (count "FLUTTER_RUNNER_WIN32_WINDOW" text =? 1)%nat) (RuntimeError "Unsupported native window class");
    Ok (utf8_encode (replace "FLUTTER_RUNNER_WIN32_WINDOW" (identity +:+ "_WINDOW") text))
  else if is_native_source name then
    text ← decode_sig content;
    rewritten ← rewrite_native text identity;
    Ok (utf8_encode rewritten)
  else Ok content.

(** [stream.read(limit)] *)
Definition read_at_most (limit : Z) (content : string) : string :=
  if len content <=? limit then content else str_take (Z.to_nat limit) content.

(** [root / name] *)
Definition path_at (root name : string) : string := fold_left path_join (posix_parts name) root.

Section source.
Context `{Host} `{Filesystem} `{Symlinks} `{Tar}.

(** src: tool/updater/application_source.py:33-38 source_root
    One directory on the way to the source root. *)
Definition check_source_directory (fresh : bool) (path : string) : M unit :=
  w ← get_world;
  there ← path_exists path;
  if (there : bool) || is_symlink path w then
    _ ← reject_reparse path;
    directory ← is_dir path;
    raise_when (negb directory) (RuntimeError "Application source root is not a directory")
  else raise_when (negb fresh) (RuntimeError "Application source root is absent").

(** src: tool/updater/application_source.py:29-41 source_root *)
Definition source_root (identity : string) (fresh : bool) : M string :=
  _ ← lift (require_identity identity);
  let root := PROJECT // "build" // ("a" +:+ identity_tail identity) in
  _ ← for_M (check_source_directory fresh) [PROJECT // "build"; root];
  there ← path_exists root;
  _ ← raise_when (fresh && there) (RuntimeError "Refusing an existing application source root");
  mret root.

(** src: tool/updater/application_source.py:54-60 git_output *)
Definition git_output (arguments : list string) : M string :=
  env ← get_env;
  try_catch
    (r ← run_proc_env (<["GIT_TERMINAL_PROMPT" := "0"]> (<["GIT_OPTIONAL_LOCKS" := "0"]> (tool_environment env)))
           ("git" :: arguments) PROJECT;
     _ ← raise_when (negb (returncode r =? 0)) (CalledProcessError (returncode r) ("git" :: arguments) (stdout r));
     mret (stdout r))
    (λ e, is_OSError e || is_SubprocessError e)
    (λ _, raise (RuntimeError "Application Git input could not be verified")).

(** src: tool/updater/application_source.py:63-90 git_files *)
Definition git_files (revision : string) : M (list (string * string)) :=
  _ ← raise_when (negb (fullmatch revision_re revision)) (RuntimeError "An explicit full application commit is required");
  kind ← git_output ["cat-file"; "-t"; revision];
  _ ← raise_when (strip kind != "commit") (RuntimeError "Application revision must identify a commit");
  _ ← git_output ["merge-base"; "--is-ancestor"; revision; "HEAD"];
  tree ← git_output ["ls-tree"; "-rz"; revision];
  files ← lift (add_tree_entries (split_char zero tree) []);
  _ ← raise_when (match files with [] => true | _ => false end || (MAX_SOURCE_FILES <? Z.of_nat (length files)) ||
                  negb (one_of ENTRYPOINT files.*1))
        (RuntimeError "Required bootstrap source is absent or exceeds its limit");
  entrypoint ← git_output ["show"; revision +:+ ":" +:+ ENTRYPOINT];
  _ ← raise_when (sha256_hex entrypoint != SUPPORTED_BOOTSTRAP_SHA256)
        (RuntimeError "Bootstrap contract changed; review its isolation before building");
  contract ← git_output ["show"; revision +:+ ":windows/updater/contract.h"];
  _ ← raise_when (negb (contains contract "constexpr bool kApplicationContractImplemented = false;"))
        (RuntimeError "Application snapshot must preserve the disabled production gate");
  mret files.

(** src: tool/updater/application_source.py:114-118 export_archive
    The content of an entry as the blob has it: git archives scripts with
    Windows line ends. *)
Definition blob_content (name blob content : string) : res string :=
  let content := if (blob_hash content != blob) && endswith name ".ps1" then replace (cr +:+ nl) nl content else content in
  _ ← raise_if (blob_hash content != blob) (RuntimeError "Application archive differs from the selected Git blob");
  Ok content.

(** src: tool/updater/application_source.py:103-122 export_archive
    One entry of the archive, with the names seen before it. *)
Definition export_entry (root : string) (files : list (string * string)) (entry : res tar_entry) (seen : list string)
    : M (list string) :=
  entry ← lift entry;
  name ← lift (relative_name (rstrip_chars "/" (te_name entry)));
  match te_kind entry with
  | TarDir => mret seen
  | kind =>
      blob ← lift (from_option (match kind with TarReg => assoc name files | _ => None end)
                     (RuntimeError "Application archive contains an invalid entry"));
      _ ← raise_when (one_of name seen || (MAX_ARCHIVE_BYTES <? te_size entry))
            (RuntimeError "Application archive contains an invalid entry");
      content ← lift (from_option (te_content entry) (RuntimeError "Application archive content is missing"));
      let content := read_at_most (MAX_ARCHIVE_BYTES + 1) content in
      _ ← raise_when (negb (len content =? te_size entry)) (RuntimeError "Application archive content is incomplete");
      content ← lift (blob_content name blob content);
      let target := path_at root name in
      _ ← mkdir (path_parent target);
      _ ← write_bytes target content;
      mret (name :: seen)
  end.

(** src: tool/updater/application_source.py:100-122 export_archive *)
Fixpoint export_entries (root : string) (files : list (string * string)) (entries : list (res tar_entry)) (seen : list string)
    : M (list string) :=
  match entries with
  | [] => mret seen
  | entry :: entries => seen ← export_entry root files entry seen; export_entries root files entries seen
  end.

(** src: tool/updater/application_source.py:97-124 export_archive *)
Definition export_archive (archive root : string) (files : list (string * string)) : M unit :=
  _ ← raise_when (MAX_ARCHIVE_BYTES <? len archive) (RuntimeError "Application archive exceeds its size limit");
  seen ← export_entries root files (tar_entries archive) [];
  raise_when (negb (forallb (λ name, one_of name seen) files.*1 && forallb (λ name, one_of name files.*1) seen))
    (RuntimeError "Application archive does not cover the full Git inventory").

(** src: tool/updater/application_source.py:179-187 source_bytes *)
Definition source_bytes (root name : string) : M string :=
  _ ← lift (relative_name name);
  _ ← reject_components root (posix_parts name);
  let path := path_at root name in
  regular ← is_file path;
  links ← link_count path;
  _ ← raise_when (negb regular || negb (links =? 1))
        (RuntimeError "Application source is not an independent regular file");
  read_bytes path.
End source.

(** ** Names and paths *)

Lemma relative_name_ok name name' : relative_name name = Ok name' →
  name' = name ∧ startswith name "/" = false ∧ as_posix name = name ∧ Forall (λ part, part ≠ "." ∧ part ≠ ".." ∧ part ≠ ".git") (posix_parts name).
Proof.
  unfold relative_name. intros Hr. inv_res. bool_simpl. split_and!; [done|done| |].
  - match goal with H : as_posix _ = _ |- _ => exact H end.
  - match goal with H : existsb _ _ = false |- _ => rename H into Hp end.
    apply Forall_forall. intros part Hin. assert (one_of part ["."; ".."; ".git"] = false) as Hone.
    { destruct (one_of part _) eqn:E; [|done]. rewrite <- Hp. symmetry. apply existsb_exists. exists part.
      by rewrite <- list_elem_of_In. }
    unfold one_of in Hone. simpl in Hone. bool_simpl. by split_and!.
Qed.

Lemma fold_path_join parts root : parts ≠ [] → fold_left path_join parts root = root // join "/" parts.
Proof.
  revert root. induction parts as [|p [|q parts] IH]; intros root Hne; [done|done|].
  cbn [fold_left]. change (fold_left path_join (q :: parts) (root // p) = root // join "/" (p :: q :: parts)).
  rewrite IH by done. unfold path_join, join. cbn [String.concat]. by rewrite !str_app_assoc.
Qed.

(** A relative name in normal form is its parts. *)
Lemma path_at_name root name : relative_name name = Ok name → path_at root name = if name == "." then root else root // name.
Proof.
  intros (_ & Hs & Hp & Hparts)%relative_name_ok. unfold path_at. unfold as_posix, posix_root in Hp. rewrite Hs in Hp.
  destruct (posix_parts name) as [|p ps] eqn:E.
  - simpl in Hp. by rewrite <- Hp.
  - rewrite fold_path_join by done. simpl in Hp. change (join "/" (p :: ps) = name) in Hp. rewrite Hp.
    destruct (String.eqb_spec name ".") as [->|]; [by vm_compute in E|done].
Qed.

Lemma root_path_join d a : d ≠ d // a.
Proof. unfold path_join. induction d as [|c d IH]; simpl; [done|]. intros [=]. by apply IH. Qed.

Lemma path_at_inj root a b : relative_name a = Ok a → relative_name b = Ok b → path_at root a = path_at root b → a = b.
Proof.
  intros Ha Hb. rewrite (path_at_name root a Ha), (path_at_name root b Hb).
  destruct (String.eqb_spec a ".") as [->|], (String.eqb_spec b ".") as [->|]; [done| | |apply path_join_inj].
  - by intros ?%root_path_join.
  - by intros Hr%eq_sym%root_path_join.
Qed.

(** ** Derivations *)

(** A source that needs no derivation is taken as it is. *)
Lemma derived_identity name content identity : requires_native_derivation name = false →
  require_identity identity = Ok identity → derived_bytes name content identity = Ok content.
Proof.
  unfold requires_native_derivation, derived_bytes, one_of. simpl. intros Hr ->. bool_simpl. simpl.
  repeat match goal with H : _ ≠ _ |- _ => apply String.eqb_neq in H; rewrite H end. by case_match.
Qed.

(** ** The inventory *)

(** What an inventory promises: names in normal form that stay below the root
    and are no environment files, each once, and git blobs. *)
Record inventory (files : list (string * string)) : Prop := {
  inv_nodup : NoDup files.*1;
  inv_entries : Forall (λ nb, relative_name nb.1 = Ok nb.1 ∧ matches revision_re nb.2 ∧
                              (startswith (path_name nb.1) ".env" = true → path_name nb.1 = ".env.example")) files
}.

Lemma inventory_nil : inventory [].
Proof. split; constructor. Qed.

Lemma add_tree_entry_inventory entry files files' : add_tree_entry entry files = Ok files' → inventory files → inventory files'.
Proof.
  unfold add_tree_entry. intros Hr Hinv. apply res_bind_Ok in Hr as ([[[mode kind] blob] raw] & _ & Hr). inv_res. bool_simpl.
  pose proof (proj1 (relative_name_ok _ _ H)) as ->.
  match goal with H : one_of _ files.*1 = false |- _ => rename H into Hnew end.
  assert (raw ∉ files.*1) as Hn by (intros ?%one_of_true; congruence). rewrite assoc_set_new by done.
  destruct Hinv as [Hnd Hall]. split.
  - rewrite fmap_app. apply NoDup_app. split_and!; [done| |apply NoDup_singleton].
    intros x Hx ->%list_elem_of_singleton. done.
  - apply Forall_app. split; [done|]. constructor; [|constructor]. simpl. split_and!; [done| |].
    + by apply fullmatch_matches.
    + intros Hs. match goal with H : (startswith _ _ && _)%bool = false |- _ => rewrite Hs in H; simpl in H end. by bool_simpl.
Qed.

Lemma add_tree_entries_inventory entries files files' : add_tree_entries entries files = Ok files' → inventory files → inventory files'.
Proof.
  revert files. induction entries as [|e entries IH]; intros files; cbn [add_tree_entries].
  - by intros [= <-].
  - destruct (nonempty e); [|apply IH]. intros (f & Hf & Hr)%res_bind_Ok Hinv. eapply IH; [done|]. by eapply add_tree_entry_inventory.
Qed.

Section proofs.
Context `{Host} `{Filesystem} `{Symlinks} `{Tar}.

Lemma runs_git_files revision w files w' : runs (git_files revision) w files w' →
  fullmatch revision_re revision = true ∧ inventory files ∧ (ENTRYPOINT ∈ files.*1) ∧ (Z.of_nat (length files) ≤ MAX_SOURCE_FILES).
Proof.
  unfold git_files. intros Hr. inv_runs. bool_simpl. split; [done|].
  match goal with H : add_tree_entries _ [] = Ok _ |- _ => apply add_tree_entries_inventory in H; [|apply inventory_nil] end.
  split_and!; [done| |done]. by apply one_of_true.
Qed.

(** ** The archive *)

(** How far the export has come: the seen names are on disk as their blobs, and
    nothing but them and their directories changed. *)
Record exported (root : string) (files : list (string * string)) (w0 : world) (seen : list string) (w : world) : Prop := {
  exp_seen : Forall (λ name, relative_name name = Ok name ∧ ∃ blob content, assoc name files = Some blob ∧
    w_fs w !! path_at root name = Some (File content) ∧ blob_hash content = blob) seen;
  exp_frame : ∀ q, w_fs w !! q ≠ w_fs w0 !! q →
    ∃ name, name ∈ seen ∧ (q = path_at root name ∨ q = path_parent (path_at root name))
}.

Lemma export_entry_spec root files entry seen w0 w seen' w' : exported root files w0 seen w →
  runs (export_entry root files entry seen) w seen' w' → exported root files w0 seen' w'.
Proof.
  intros [Hseen Hframe] Hr. unfold export_entry in Hr. apply runs_bind in Hr as (e & w1 & [_ <-]%runs_lift & Hr).
  apply runs_bind in Hr as (name & w1 & [Hname <-]%runs_lift & Hr). pose proof (proj1 (relative_name_ok _ _ Hname)) as Heq.
  rewrite <- Heq in Hname. clear Heq.
  assert (te_kind e = TarDir ∧ seen' = seen ∧ w' = w ∨ ∃ blob content, assoc name files = Some blob ∧ (name ∉ seen) ∧
    blob_hash content = blob ∧ seen' = name :: seen ∧
    ∃ w2, runs (mkdir (path_parent (path_at root name))) w tt w2 ∧ runs (write_bytes (path_at root name) content) w2 tt w')
    as [(_ & -> & ->)|(blob & content & Hblob & Hnew & Hhash & -> & w2 & Hmk & Hwr)]; [|by split|].
  { destruct (te_kind e); [left; apply runs_ret in Hr as [<- <-]; done|right|].
    2: by apply runs_bind in Hr as (? & ? & [? _]%runs_lift & _).
    apply runs_bind in Hr as (blob & w1 & [Hb%from_option_Ok <-]%runs_lift & Hr).
    apply runs_bind in Hr as ([] & w1 & [Hg <-]%runs_raise_when & Hr). bool_simpl.
    apply runs_bind in Hr as (c0 & w1 & [_ <-]%runs_lift & Hr). apply runs_bind in Hr as ([] & w1 & [_ <-]%runs_raise_when & Hr).
    apply runs_bind in Hr as (content & w1 & [Hc <-]%runs_lift & Hr). apply runs_bind in Hr as ([] & w2 & Hmk & Hr).
    apply runs_bind in Hr as ([] & w3 & Hwr & [<- <-]%runs_ret). exists blob, content.
    split_and!; [done|by intros ?%one_of_true; congruence| |done|eauto].
    unfold blob_content in Hc. inv_res. by bool_simpl. }
  pose proof (runs_write_bytes _ _ _ _ _ Hwr) as (Hfs & _). split.
  - constructor.
    + split; [done|]. exists blob, content. by rewrite Hfs, lookup_insert_eq.
    + apply Forall_forall. intros n Hin. rewrite Forall_forall in Hseen.
      destruct (Hseen n Hin) as (Hn & b & c & Hb & Hf & Hh). split; [done|]. exists b, c. split_and!; [done| |done].
      destruct (decide (n = name)) as [->|Hne]; [done|].
      rewrite Hfs, lookup_insert_ne by (intros ?%path_at_inj; congruence).
      destruct (runs_mkdir _ _ _ _ (path_at root n) Hmk) as [->|(_ & Hnone & _)]; [done|congruence].
  - intros q Hq. destruct (decide (q = path_at root name)) as [->|Hne]; [exists name; split; [by left|by left]|].
    rewrite Hfs, lookup_insert_ne in Hq by done. destruct (runs_mkdir _ _ _ _ q Hmk) as [He|(-> & _)].
    + rewrite He in Hq. apply Hframe in Hq as (n & ? & ?). exists n. split; [by right|done].
    + exists name. split; [by left|by right].
Qed.

Lemma export_entries_spec root files entries seen w0 w seen' w' : exported root files w0 seen w →
  runs (export_entries root files entries seen) w seen' w' → exported root files w0 seen' w'.
Proof.
  revert seen w. induction entries as [|e entries IH]; intros seen w Hexp; cbn [export_entries].
  - by intros [<- <-]%runs_ret.
  - intros (s & w1 & He & Hr)%runs_bind. eapply IH; [|exact Hr]. by eapply export_entry_spec.
Qed.

End proofs.

(** ** At work *)

Definition ls_tree : string := "100644 blob " +:+ blob_hash "int main() {}" +:+ chr 9 +:+ "windows/main.cpp" +:+ chr 0 +:+
  "100644 blob " +:+ blob_hash ("exit" +:+ nl) +:+ chr 9 +:+ "tool/run.ps1" +:+ chr 0.
Definition example_files : list (string * string) :=
  Eval vm_compute in match add_tree_entries (split_char zero ls_tree) [] with Ok files => files | Raise _ => [] end.

Example example_inventory : example_files.*1 = ["windows/main.cpp"; "tool/run.ps1"].
Proof. reflexivity. Qed.
Example refused_entries :
  (λ e, match add_tree_entries [e] [] with Ok _ => true | Raise _ => false end) <$>
    ["120000 blob " +:+ blob_hash "" +:+ chr 9 +:+ "link"; "100644 blob " +:+ blob_hash "" +:+ chr 9 +:+ "../up";
     "100644 blob " +:+ blob_hash "" +:+ chr 9 +:+ "app/.env"; "100644 blob " +:+ blob_hash "" +:+ chr 9 +:+ "app/.env.example"] =
  [false; false; false; true].
Proof. vm_compute. reflexivity. Qed.

(** An archive whose script has Windows line ends. *)
Definition example_tar : Tar := {| tar_entries := λ _,
  [Ok (TarEntry "windows/" TarDir 0 None); Ok (TarEntry "windows/main.cpp" TarReg 13 (Some "int main() {}"));
   Ok (TarEntry "tool/run.ps1" TarReg 6 (Some ("exit" +:+ cr +:+ nl)))] |}.
Definition export_world : world :=
  Eval vm_compute in snd (export_archive (H2:=example_tar) "tar" "/src" example_files (World ∅ ∅ [])).

