(* ===== verification/PinnedNative.v ===== *)
(** * The pinned native library (tool/odbc/build_pinned_native.py)

    When the lock file pins the ODBC package to a git revision, its native
    library is built from the sources of that revision, below the build directory
    of the workspace, and staged for the build hook together with a manifest of
    its origin. A library that was built before is used again when it still is
    the one of its manifest. The command of [prepare_package_native.py], which
    hands out the published library instead, is here as well. *)

From S2P Require Import Prelude PyStr PyRe PyReGroups PyHash PyJson PyJsonIndent TextFiles Effects ScriptUtils NativePackage Paths.
From S2P Require Import WindowsFixture LifecyclePayload Commands ApplicationSource.
From S2P Require BuildInstaller SignpathStaging.

Local Open Scope Z_scope.

(** src: tool/odbc/build_pinned_native.py:25-25 pinned_package *)
Definition resolved_ref_re : regex :=
  seqs [lit "resolved-ref: "; opt (anyc (dq +:+ "'")); RGroup 1 (times 40 (RChar is_lower_hex))].

(** src: tool/odbc/build_pinned_native.py:24-27 pinned_package
    The revision that a lock file pins the package to. *)
Definition locked_revision (lock : string) : res string :=
  let refuse := ValueError "odbc_fast must be locked to a full Git revision" in
  block ← from_option (re_search package_block_re lock) refuse;
  revision ← from_option (re_search resolved_ref_re (group_str 1 block)) refuse;
  _ ← raise_if (negb (contains (group_str 1 block) "source: git")) refuse;
  Ok (group_str 1 revision).

Section pinned.
Context `{Host} `{Filesystem} `{SignpathStaging.RealPath} `{Tar}.

(** [subprocess.check_output(argv, cwd=cwd)] *)
Definition check_output (argv : list string) (cwd : string) : M string :=
  r ← run_proc argv cwd;
  _ ← raise_when (negb (returncode r =? 0)) (CalledProcessError (returncode r) argv (stdout r));
  mret (stdout r).

(** [path.resolve()] *)
Definition resolved (path : string) : M string := w ← get_world; mret (SignpathStaging.real_path path w).

(** src: tool/odbc/build_pinned_native.py:22-36 pinned_package *)
Definition pinned_package (root : string) : M (string * string) :=
  lock ← read_text (root // "pubspec.lock");
  revision ← lift (locked_revision lock);
  let config := root // ".dart_tool/package_config.json" in
  text ← read_text config;
  v ← lift (loads text);
  packages ← lift (jitem "packages" v);
  packages ← lift (items_of packages);
  uri ← lift (package_uri "odbc_fast" packages);
  uri ← lift (match uri with JStr s => Ok s | _ => Raise (TypeError "Cannot mix str and non-str arguments") end);
  let package := package_directory (root // ".dart_tool") uri in
  head ← check_output ["git"; "-C"; path_str package; "rev-parse"; "HEAD"] host_cwd;
  let actual := strip (universal_newlines head) in
  _ ← raise_when (actual != revision) (ValueError "Resolved package checkout differs from pubspec.lock");
  mret (package, actual).

(** src: tool/odbc/build_pinned_native.py:43-51 stage_for_hook *)
Definition stage_for_hook (root binary : string) : M string :=
  let destination := root // "build/odbc-native/pinned" in
  _ ← mkdir destination;
  let artifact := destination // path_name binary in
  there ← path_exists artifact;
  stale ← (if negb there then mret true else
           a ← BuildInstaller.sha256 artifact; b ← BuildInstaller.sha256 binary; mret (a != b));
  _ ← when stale (copy_file binary artifact);
  _ ← copy_file (path_parent binary // "manifest.json") (destination // "manifest.json");
  resolved binary.

(** [tree.extractall(source, filter="data")]: names lose their leading slashes,
    and an entry that leads out of the directory is refused. The file systems of
    the model have no links, so that an archive with one cannot be extracted. *)
Definition extract_entry (target : string) (entry : res tar_entry) : M unit :=
  entry ← lift entry;
  let name := lstrip_by (char_in "/") (posix (te_name entry)) in
  _ ← raise_when (is_absolute name || one_of ".." (posix_parts name)) (ForeignError "OutsideDestinationError");
  match te_kind entry with
  | TarDir => mkdir (path_at target name)
  | TarReg =>
      content ← lift (from_option (te_content entry) (ForeignError "ReadError"));
      _ ← mkdir (path_parent (path_at target name));
      write_bytes (path_at target name) content
  | TarOther => raise (ForeignError "no links")
  end.
(** src: tool/odbc/build_pinned_native.py:80-81 build_source_native *)
Definition extract_all (archive target : string) : M unit := for_M (extract_entry target) (tar_entries archive).

(** src: tool/odbc/build_pinned_native.py:69-69 build_source_native *)
Definition library_name : string := if host_nt then "odbc_engine.dll" else "libodbc_engine.so".
(** src: tool/odbc/build_pinned_native.py:68-68 build_source_native *)
Definition revision_directory (root revision : string) : string := root // "build/odbc-native" // revision.
(** src: tool/odbc/build_pinned_native.py:83-84 build_source_native *)
Definition cargo_command (locked : bool) : list string :=
  ["cargo"; "build"; "-p"; "odbc_engine"; "--release"] ++ if locked then ["--locked"] else [].

(** src: tool/odbc/build_pinned_native.py:83-89 build_source_native
    The compiler's output is in the log when it ended. *)
Definition compile_native (source directory : string) (locked : bool) : M unit :=
  command ← resolve_command (cargo_command locked);
  let log := directory // "build.log" in
  _ ← write_bytes log EmptyString;
  r ← run_proc command (source // "native");
  _ ← append_bytes log (stdout r);
  raise_when (negb (returncode r =? 0)) (RuntimeError ("Native build failed; see " +:+ path_str log)).

(** src: tool/odbc/build_pinned_native.py:93-97 build_source_native *)
Definition record_provenance (source revision binary manifest : string) (locked : bool) : M unit :=
  binary_hash ← BuildInstaller.sha256 binary;
  lock_hash ← BuildInstaller.sha256 (source // "native/Cargo.lock");
  rustc ← check_output ["rustc"; "--version"] source;
  text ← lift (from_option (dumps_indent true (JObj
    [("revision", JStr revision); ("sha256", JStr binary_hash); ("cargo_lock_sha256", JStr lock_hash);
     ("locked_dependencies", JBool locked); ("rustc", JStr (strip (universal_newlines rustc)))])) (ValueError "not serializable"));
  write_text manifest text.

(** src: tool/odbc/build_pinned_native.py:67-98 build_source_native *)
Definition build_source_native (root package revision : string) : M string :=
  let directory := revision_directory root revision in
  let binary := directory // library_name in
  let manifest := directory // "manifest.json" in
  has_binary ← path_exists binary;
  has_manifest ← path_exists manifest;
  if has_binary && has_manifest then
    text ← read_text manifest;
    provenance ← lift (loads text);
    recorded ← lift (jitem "revision" provenance);
    same ← (if jeq recorded (JStr revision)
            then hash ← lift (jitem "sha256" provenance); actual ← BuildInstaller.sha256 binary; mret (jeq hash (JStr actual))
            else mret false);
    if (same : bool) then stage_for_hook root binary
    else raise (ValueError "Existing native artifact differs from its manifest")
  else
    _ ← mkdir directory;
    let source := directory // "source" in
    _ ← mkdir source;
    archive ← check_output ["git"; "-C"; path_str package; "archive"; revision] host_cwd;
    _ ← extract_all archive source;
    locked ← is_file (source // "native/Cargo.lock");
    _ ← print ("Building odbc_fast " +:+ revision);
    _ ← compile_native source directory locked;
    _ ← copy_file (source // "native/target/release" // path_name binary) binary;
    _ ← copy_file (source // "native/Cargo.lock") (directory // "Cargo.lock");
    _ ← record_provenance source revision binary manifest locked;
    stage_for_hook root binary.

(** src: tool/odbc/build_pinned_native.py:60-64 build_pinned_native *)
Definition build_pinned_native (root : string) : M string :=
  at_root ← resolved root;
  '(package, revision) ← pinned_package at_root;
  there ← is_file (package // "native/Cargo.lock");
  _ ← raise_when (negb there) (ValueError "Pinned native source must contain its tracked Cargo.lock");
  build_source_native root package revision.

(** src: tool/odbc/build_pinned_native.py:102-106 main
    The options of both commands. *)
Record args : Type := Args { a_root : string; a_github_env : option string; a_verify_bundle : option string }.

(** src: tool/odbc/build_pinned_native.py:110-113 main
    What both commands do with the library. *)
Definition hand_out (a : args) (label binary : string) : M unit :=
  _ ← match a_verify_bundle a with Some bundle => BuildInstaller.verify_native_bundle bundle binary | None => mret tt end;
  _ ← print (label +:+ path_str binary);
  match a_github_env a with
  | Some file => append_text file ("ODBC_FAST_NATIVE_LIBRARY=" +:+ path_str binary +:+ nl)
  | None => mret tt
  end.

(** src: tool/odbc/build_pinned_native.py:101-113 main *)
Definition main (a : args) : M unit :=
  binary ← build_pinned_native (a_root a);
  hand_out a "ODBC_FAST_NATIVE_LIBRARY=" binary.

(** src: tool/odbc/prepare_package_native.py:91-103 main *)
Definition prepare_main (a : args) : M unit :=
  binary ← prepare_native_library (a_root a);
  hand_out a "Published odbc_fast native asset: " binary.
End pinned.

(** ** The library that is handed out is the one of the locked revision *)

Lemma locked_revision_name lock revision : locked_revision lock = Ok revision →
  posix revision = revision ∧ revision ≠ "pinned".
Proof.
  unfold locked_revision. intros (block & _ & (mo & Hmo%from_option_Ok & Hr)%res_bind_Ok)%res_bind_Ok.
  apply res_bind_Ok in Hr as (_ & _ & [= <-]). unfold group_str. destruct (group 1 mo) as [t|] eqn:Ht; [|done]. simpl.
  eapply (search_group _ (times 40 (RChar is_lower_hex))) in Ht; [|exact Hmo| |by vm_compute].
  - apply matches_times_char in Ht as [Hhex Hlen]. split; [|by intros ->].
    apply posix_plain. apply andb_true_intro. split; [by destruct t|]. revert Hhex. apply str_all_impl.
    intros c Hc. apply negb_true_iff. unfold is_sep. destruct (Ascii.eqb_spec c "/") as [->|]; [done|].
    by destruct (Ascii.eqb_spec c "\") as [->|].
  - intros r1. simpl. set_solver.
Qed.

Section pinned_proofs.
Context `{Host} `{Filesystem} `{SignpathStaging.RealPath} `{Tar}.

Definition pinned_dir (root : string) : string := root // "build/odbc-native/pinned".

Lemma joined_apart d p x y : posix d = d → posix p = p → plain_name x = true → plain_name y = true → d ≠ p → d // x ≠ p // y.
Proof.
  intros Hd Hp Hx Hy Hne He. apply Hne. rewrite <- (path_parent_joined d x Hx Hd), He. by apply path_parent_joined.
Qed.

Lemma runs_file_sha256 p w h w' : runs (BuildInstaller.sha256 p) w h w' → w' = w ∧ ∃ b, w_fs w !! p = Some (File b) ∧ h = sha256_hex b.
Proof.
  intros Hr. apply runs_bind in Hr as (b & w1 & [<- Hb]%runs_read_bytes & [<- <-]%runs_ret). eauto.
Qed.

(** The copy for the hook: the library or one with its digest, and the manifest. *)
Definition staged (root directory name : string) (w : world) : Prop :=
  ∃ b a m, w_fs w !! (directory // name) = Some (File b) ∧ w_fs w !! (pinned_dir root // name) = Some (File a) ∧
    sha256_hex a = sha256_hex b ∧ w_fs w !! (directory // "manifest.json") = Some (File m) ∧
    w_fs w !! (pinned_dir root // "manifest.json") = Some (File m).

(** Nothing of [directory] changes but what is missing there. *)
Lemma runs_stage_for_hook root directory name w r w' :
  posix root = root → posix directory = directory → directory ≠ pinned_dir root → plain_name name = true →
  (name == "manifest.json") = false → runs (stage_for_hook root (directory // name)) w r w' →
  r = SignpathStaging.real_path (directory // name) w' ∧ staged root directory name w' ∧
  (∀ x, plain_name x = true → is_Some (w_fs w !! (directory // x)) → w_fs w' !! (directory // x) = w_fs w !! (directory // x)).
Proof.
  intros Hroot Hd Hne Hn Hnm Hr. apply String.eqb_neq in Hnm.
  assert (Hp : posix (pinned_dir root) = pinned_dir root) by (unfold pinned_dir, path_join; by rewrite !posix_app, Hroot).
  assert (Hm : plain_name "manifest.json" = true) by done.
  unfold stage_for_hook in Hr. cbv zeta in Hr. fold (pinned_dir root) in Hr.
  rewrite (path_name_joined directory name Hn Hd), (path_parent_joined directory name Hn Hd) in Hr.
  apply runs_bind in Hr as ([] & w1 & Hmk & Hr). apply runs_bind in Hr as (there & w2 & Hex & Hr).
  assert (w2 = w1) as -> by (unfold runs, path_exists in Hex; naive_solver). clear Hex.
  apply runs_bind in Hr as (stale & w2 & Hst & Hr). apply runs_bind in Hr as ([] & w3 & Hc & Hr).
  apply runs_bind in Hr as ([] & w4 & Hcm & Hr). apply runs_copy_file in Hcm as (m & Hm3 & Hfs4).
  apply runs_bind in Hr as (w5 & w6 & [= <- <-] & [<- <-]%runs_ret).
  assert (w2 = w1 ∧ (stale = false → ∃ a b, w_fs w1 !! (pinned_dir root // name) = Some (File a) ∧
            w_fs w1 !! (directory // name) = Some (File b) ∧ sha256_hex a = sha256_hex b)) as [-> Hfresh].
  { destruct (negb there); [by apply runs_ret in Hst as [<- <-]|].
    apply runs_bind in Hst as (h1 & w5 & (-> & a & Ha & ->)%runs_file_sha256 & Hst).
    apply runs_bind in Hst as (h2 & w5 & (-> & b & Hb & ->)%runs_file_sha256 & [<- <-]%runs_ret). split; [done|].
    intros Heq%negb_false_iff%String.eqb_eq. by exists a, b. }
  assert (Hb : ∃ a b, w_fs w3 !! (pinned_dir root // name) = Some (File a) ∧ w_fs w3 !! (directory // name) = Some (File b) ∧
     sha256_hex a = sha256_hex b ∧ ∀ q, q ≠ pinned_dir root // name → w_fs w3 !! q = w_fs w1 !! q).
  { destruct stale; simpl in Hc.
    - apply runs_copy_file in Hc as (b & Hb & Hfs). exists b, b. rewrite Hfs, lookup_insert_eq, lookup_insert_ne, Hb
        by (apply not_eq_sym, joined_apart; done). split_and!; [done..|]. intros q Hq. by rewrite lookup_insert_ne.
    - apply runs_ret in Hc as [_ <-]. destruct (Hfresh eq_refl) as (a & b & ? & ? & ?). by exists a, b. }
  destruct Hb as (a & b & Ha & Hb & Hab & Hkeep). split; [done|]. split.
  - exists b, a, m. rewrite Hfs4, lookup_insert_eq, !lookup_insert_ne
      by first [by apply path_join_ne, not_eq_sym|by apply not_eq_sym, joined_apart]. done.
  - intros x Hx [n Hxn]. rewrite Hfs4, lookup_insert_ne, Hkeep by (by apply not_eq_sym, joined_apart || by apply joined_apart).
    destruct (runs_mkdir _ _ _ _ (directory // x) Hmk) as [->|(_ & ? & _)]; [done|congruence].
Qed.

Lemma later_check_output argv cwd : steps later (check_output argv cwd).
Proof. unfold check_output. solve_steps. Qed.
Lemma later_extract_all archive target : steps later (extract_all archive target).
Proof. unfold extract_all, extract_entry. solve_steps. Qed.
Lemma later_compile_native source directory locked : steps later (compile_native source directory locked).
Proof. unfold compile_native, resolve_command. solve_steps. Qed.
Lemma same_file_sha256 p : steps (=) (BuildInstaller.sha256 p).
Proof. unfold BuildInstaller.sha256. solve_steps. Qed.
#[local] Hint Resolve later_check_output later_extract_all later_compile_native same_file_sha256 : py.
Lemma later_sha256 p : steps later (BuildInstaller.sha256 p).
Proof. unfold BuildInstaller.sha256. solve_steps. Qed.
#[local] Hint Resolve later_sha256 : py.
Lemma later_record_provenance source revision binary manifest locked : steps later (record_provenance source revision binary manifest locked).
Proof. unfold record_provenance. solve_steps. Qed.
#[local] Hint Resolve later_record_provenance : py.
Lemma later_stage root binary : steps later (stage_for_hook root binary).
Proof. unfold stage_for_hook, resolved. solve_steps. Qed.

#[local] Hint Resolve later_stage : py.
Lemma later_build_source root package revision : steps later (build_source_native root package revision).
Proof. unfold build_source_native. solve_steps. Qed.

Lemma runs_pinned_package root w package revision w' : runs (pinned_package root) w (package, revision) w' →
  ∃ lock head, runs (read_text (root // "pubspec.lock")) w lock w ∧ locked_revision lock = Ok revision ∧
    runs (check_output ["git"; "-C"; path_str package; "rev-parse"; "HEAD"] host_cwd) w head w' ∧
    strip (universal_newlines head) = revision.
Proof.
  intros Hr. apply runs_bind in Hr as (lock & w1 & Hl & Hr). pose proof Hl as [<- _]%runs_read_text.
  apply runs_bind in Hr as (rev & w1 & [Hrev <-]%runs_lift & Hr).
  apply runs_bind in Hr as (text & w1 & [<- _]%runs_read_text & Hr).
  do 5 (apply runs_bind in Hr as (? & w1 & [_ <-]%runs_lift & Hr)).
  apply runs_bind in Hr as (head & w1 & Hh & Hr).
  apply runs_bind in Hr as ([] & w2 & [Heq%negb_false_iff%String.eqb_eq <-]%runs_raise_when & [[= <- <-] <-]%runs_ret).
  exists lock, head. by rewrite Heq.
Qed.

(** What a manifest records of a library that was there at some moment. *)
Definition recorded_library (directory name revision : string) (w w' : world) : Prop :=
  ∃ bytes text provenance, once w w' (λ w1, w_fs w1 !! (directory // name) = Some (File bytes)) ∧
    runs (read_text (directory // "manifest.json")) w' text w' ∧ loads text = Ok provenance ∧
    jitem "revision" provenance = Ok (JStr revision) ∧ jitem "sha256" provenance = Ok (JStr (sha256_hex bytes)).

Lemma runs_record_provenance source revision directory name locked w u w' : plain_name name = true →
  (name == "manifest.json") = false →
  runs (record_provenance source revision (directory // name) (directory // "manifest.json") locked) w u w' →
  recorded_library directory name revision w w'.
Proof.
  intros Hn Hnm Hr. pose proof (later_runs _ _ _ _ (later_record_provenance source revision (directory // name) (directory // "manifest.json") locked) Hr) as Hl.
  apply runs_bind in Hr as (bh & w1 & (-> & b & Hb & ->)%runs_file_sha256 & Hr).
  apply runs_bind in Hr as (lh & w1 & (-> & l & Hlk & ->)%runs_file_sha256 & Hr).
  apply runs_bind in Hr as (rustc & w1 & Hrust & Hr).
  apply runs_bind in Hr as (text & w2 & [Ht <-]%runs_lift & Hr). apply from_option_Ok in Ht.
  apply runs_write_text_bytes in Hr as (Hfs & _ & _).
  match type of Ht with dumps_indent true ?v = _ => destruct (read_json_back true (directory // "manifest.json") v EmptyString w'
    (text_bytes text)) as (text' & Hrd & Hld); [by vm_compute|done|done|by exists text; rewrite str_app_nil_r|by rewrite Hfs, lookup_insert_eq|] end.
  eexists b, text', _. split; [by exists w|]. split; [exact Hrd|]. split; [exact Hld|done].
Qed.

Lemma path_exists_there p w b w' : runs (path_exists p) w b w' → w' = w ∧ (b = true → is_Some (w_fs w !! p)).
Proof. unfold runs, path_exists. intros [=<- <-]. split; [done|]. apply bool_decide_eq_true. Qed.

Lemma recorded_later directory name revision w w1 w' : recorded_library directory name revision w w1 → later w1 w' →
  (is_Some (w_fs w1 !! (directory // "manifest.json")) → w_fs w' !! (directory // "manifest.json") = w_fs w1 !! (directory // "manifest.json")) →
  recorded_library directory name revision w w'.
Proof.
  intros (b & text & v & Hb & Htext & Hrest) Hl Hkeep. exists b, text, v.
  split; [by eapply once_mono|]. split; [|done]. apply runs_read_text in Htext as [_ (bytes & t & Hf & Hd & ->)].
  apply runs_read_text. split; [done|]. exists bytes, t. rewrite Hkeep by eauto. done.
Qed.

Lemma recorded_earlier directory name revision w w1 w' : later w w1 → recorded_library directory name revision w1 w' →
  recorded_library directory name revision w w'.
Proof. intros Hl (b & text & v & Hb & Hrest). exists b, text, v. split; [|done]. by eapply once_mono. Qed.

Lemma runs_build_source_native root package revision w r w' : posix root = root → posix revision = revision → revision ≠ "pinned" →
  let directory := revision_directory root revision in
  runs (build_source_native root package revision) w r w' →
  r = SignpathStaging.real_path (directory // library_name) w' ∧ recorded_library directory library_name revision w w' ∧
  staged root directory library_name w'.
Proof.
  intros Hroot Hrev Hne directory Hr.
  assert (Hd : posix directory = directory) by (unfold directory, revision_directory, path_join; by rewrite !posix_app, Hroot, Hrev).
  assert (Hn : plain_name library_name = true) by (unfold library_name; by destruct host_nt).
  assert (Hnm : (library_name == "manifest.json") = false) by (unfold library_name; by destruct host_nt).
  assert (Hdp : directory ≠ pinned_dir root).
  { unfold directory, revision_directory, pinned_dir. change (root // "build/odbc-native/pinned") with (root +:+ "/" +:+ "build/odbc-native/pinned").
    change "build/odbc-native/pinned" with ("build/odbc-native" // "pinned"). unfold path_join. rewrite !str_app_assoc.
    intros He. apply Hne. do 4 apply str_app_inj_r in He. done. }
  unfold build_source_native in Hr. fold directory in Hr. cbv zeta in Hr.
  apply runs_bind in Hr as (has_binary & w1 & (-> & Hbin)%path_exists_there & Hr).
  apply runs_bind in Hr as (has_manifest & w1 & (-> & Hman)%path_exists_there & Hr).
  destruct (has_binary && has_manifest) eqn:Ehas.
  - apply runs_bind in Hr as (text & w1 & Htext & Hr). pose proof Htext as [<- _]%runs_read_text.
    apply runs_bind in Hr as (v & w1 & [Hv <-]%runs_lift & Hr). apply runs_bind in Hr as (rec & w1 & [Hrec <-]%runs_lift & Hr).
    apply runs_bind in Hr as (same & w1 & Hsame & Hr). destruct same; [|by apply runs_raise in Hr].
    destruct (jeq rec (JStr revision)) eqn:Ejr; [|by apply runs_ret in Hsame as [? _]]. apply jeq_str in Ejr as ->.
    apply runs_bind in Hsame as (hash & w2 & [Hhash <-]%runs_lift & Hsame).
    apply runs_bind in Hsame as (h & w2 & (-> & b & Hb & ->)%runs_file_sha256 & [Hj%jeq_str <-]%runs_ret). subst hash.
    pose proof (later_runs _ _ _ _ (later_stage _ _) Hr) as Hl.
    apply runs_stage_for_hook in Hr as (-> & Hst & Hkeep); [|done..].
    split; [done|]. split; [|done]. apply (recorded_later _ _ _ w w); [|done|by apply Hkeep].
    exists b, text, v. split; [exists w; by split_and!|done].
  - apply runs_bind in Hr as ([] & w1 & Hm1%later_runs & Hr); [|solve_steps].
    apply runs_bind in Hr as ([] & w2 & Hm2%later_runs & Hr); [|solve_steps].
    apply runs_bind in Hr as (archive & w3 & Hm3%later_runs & Hr); [|solve_steps].
    apply runs_bind in Hr as ([] & w4 & Hm4%later_runs & Hr); [|solve_steps].
    apply runs_bind in Hr as (locked & w5 & Hm5%later_runs & Hr); [|solve_steps].
    apply runs_bind in Hr as ([] & w6 & Hm6%later_runs & Hr); [|solve_steps].
    apply runs_bind in Hr as ([] & w7 & Hm7%later_runs & Hr); [|solve_steps].
    apply runs_bind in Hr as ([] & w8 & Hm8%later_runs & Hr); [|solve_steps].
    apply runs_bind in Hr as ([] & w9 & Hm9%later_runs & Hr); [|solve_steps].
    apply runs_bind in Hr as ([] & w10 & Hprov & Hr).
    apply runs_record_provenance in Hprov; [|done..].
    pose proof (later_runs _ _ _ _ (later_stage _ _) Hr) as Hl.
    apply runs_stage_for_hook in Hr as (-> & Hst & Hkeep); [|done..].
    split; [done|]. split; [|done]. apply (recorded_earlier _ _ _ w w9); [chain_later|].
    apply (recorded_later _ _ _ w9 w10); [done|done|by apply Hkeep].
Qed.

End pinned_proofs.

(** ** A library that was built before *)

Definition pinned_revision : string := "0123456789abcdef0123456789abcdef01234567".
Definition git_host : Host := {|
  host_nt := false;
  host_run := λ argv _ w,
    (Ok (Proc 0 (if one_of "rev-parse" argv then pinned_revision +:+ nl else EmptyString) EmptyString), w_fs w);
  host_which := λ _ _, None; host_fetch := λ u _, Raise (OSError u); host_now := λ _, 0; host_utcoffset := 0;
  host_exn_str := λ _, EmptyString; host_repr := λ _, EmptyString; host_tmp := λ _, "/tmp"; host_isatty := false; host_root := "/w" |}.
Definition same_paths : SignpathStaging.RealPath := {| SignpathStaging.real_path := λ p _, p |}.
Definition no_archives : Tar := {| tar_entries := λ _, [] |}.

Definition pinned_lock : string := join nl
  ["packages:"; "  odbc_fast:"; "    dependency: direct"; "    description:";
   "      resolved-ref: " +:+ dq +:+ pinned_revision +:+ dq; "    source: git"; "sdks:"; EmptyString].
Definition pinned_manifest : json := Eval vm_compute in
  JObj [("revision", JStr pinned_revision); ("sha256", JStr (sha256_hex "library"))].
Definition pinned_world : world := World (list_to_map
  [("/w/pubspec.lock", File pinned_lock);
   ("/w/.dart_tool/package_config.json", File ("{" +:+ dq +:+ "packages" +:+ dq +:+ ":[{" +:+ dq +:+ "name" +:+ dq +:+ ":" +:+ dq +:+
      "odbc_fast" +:+ dq +:+ "," +:+ dq +:+ "rootUri" +:+ dq +:+ ":" +:+ dq +:+ "file:///p" +:+ dq +:+ "}]}"));
   ("/p/native/Cargo.lock", File EmptyString);
   ("/w/build/odbc-native/" +:+ pinned_revision +:+ "/libodbc_engine.so", File "library");
   ("/w/build/odbc-native/" +:+ pinned_revision +:+ "/manifest.json",
      File (default EmptyString (render true ", " ": " pinned_manifest)))]) ∅ [].
Definition pinned_run : res string * world := Eval vm_compute in
  @build_pinned_native git_host linkless same_paths no_archives "/w" pinned_world.

