(* ===== verification/BenchmarkCollect.v ===== *)
(** * What a benchmark run records about its surroundings
    (tool/py/benchmark_common.py, third part)

    The time, the git state, the digest of the sources, the machine, and where
    the sources of the ODBC package are. The names of the platform and of the
    home directory are the host's: the class [Platform]. *)

From S2P Require Import Prelude PyStr PyRe PyHash PyJson PyNum PyLib Effects ScriptUtils BenchmarkMetrics BenchmarkSummary.
From S2P Require Import OdbcBenchmarkGate OdbcBenchmarkRunner.
From S2P Require Import NativePackage WindowsFixture LifecyclePayload Commands ApplicationSource PinnedNative.
From S2P Require SignpathStaging.

Local Open Scope Z_scope.

(** The functions of [platform], and [Path.home()]. *)
Class Platform : Type := {
  platform_name : string;
  platform_machine : string;
  platform_processor : string;
  platform_python : string;
  platform_node : string;
  home_directory : world → option string
}.

(** ** Time *)

(** src: tool/py/benchmark_common.py:62-63 run_id_now
    Of a time in seconds and the local zone. *)
Definition run_id (t offset : Z) : string := compact_stamp (t + offset).

(** [isoformat(timespec="seconds")] of a local time with its zone. *)
Definition offset_text (offset : Z) : string :=
  let a := Z.abs offset in
  (if offset <? 0 then "-" else "+") +:+ pad 2 (a / 3600) +:+ ":" +:+ pad 2 (a / 60 mod 60) +:+
  (if a mod 60 =? 0 then EmptyString else ":" +:+ pad 2 (a mod 60)).
(** src: tool/py/benchmark_common.py:66-67 captured_at_now
    Of a time in seconds and the local zone. *)
Definition captured_at (t offset : Z) : string :=
  let '(y, m, d) := civil_from_days ((t + offset) / 86400) in
  let secs := (t + offset) mod 86400 in
  pad 4 y +:+ "-" +:+ pad 2 m +:+ "-" +:+ pad 2 d +:+ "T" +:+ pad 2 (secs / 3600) +:+ ":" +:+ pad 2 (secs / 60 mod 60) +:+
  ":" +:+ pad 2 (secs mod 60) +:+ offset_text offset.

Example captured_at_example : captured_at 1767225600 (-10800) = "2025-12-31T21:00:00-03:00" ∧
  run_id 1767225600 (-10800) = "20251231_210000".
Proof. by vm_compute. Qed.

(** [json.dumps(d, sort_keys=True)] of a flat dictionary. *)
Definition dumps_flat (d : list (string * json)) : string :=
  "{" +:+ join ", " ((λ kv, dump_str true (fst kv) +:+ ": " +:+ dump_report true EmptyString (snd kv)) <$> sort_keys d) +:+ "}".

(** ** Where the ODBC package is *)

(** src: tool/py/benchmark_common.py:215-217 resolve_dart_odbc_fast_root
    Whether the lock file takes the package from git: the block of its entry. *)
Definition git_block (lock : string) : option string :=
  block ← re_search package_block_re lock;
  if contains (group_str 1 block) "source: git" then Some (group_str 1 block) else None.

(** src: tool/py/benchmark_common.py:114-116 collect_source_identity
    [for name in names: digest.update(name); digest.update(content)] *)
Definition digest_text (entries : list (string * string)) : string :=
  String.concat EmptyString ((λ nc, fst nc +:+ snd nc) <$> entries).

Section collect.
Context `{Host} `{Filesystem} `{SignpathStaging.RealPath} `{Tar} `{Platform}.

(** src: tool/py/benchmark_common.py:113-113 collect_source_identity
    [sorted(directory.rglob("*" + suffix))]: paths are ordered by their parts. *)
Definition tree_files (directory suffix : string) (w : world) : list string :=
  let found := List.filter (λ p, startswith p (directory +:+ "/") && endswith (path_key (path_name p)) suffix)
                 (fst <$> map_to_list (w_fs w)) in
  (sort_keys ((λ p, (replace "/" (chr 0) (path_key p), p)) <$> found)).*2.

(** src: tool/py/benchmark_common.py:62-63 run_id_now *)
Definition run_id_now : M string := t ← now; mret (run_id t host_utcoffset).
(** src: tool/py/benchmark_common.py:66-67 captured_at_now *)
Definition captured_at_now : M string := t ← now; mret (captured_at t host_utcoffset).

Definition tool_missing (e : exn) : bool := is_OSError e || is_SubprocessError e.

(** src: tool/py/benchmark_common.py:71-86 collect_git_metadata *)
Definition git_answer (arguments : list string) : M string :=
  try_catch
    (r ← run_proc ("git" :: arguments) PROJECT_ROOT;
     mret (if (returncode r =? 0) && nonempty (stdout r) then strip (stdout r) else "(not resolved)"))
    tool_missing (λ _, mret "(not resolved)").

(** src: tool/py/benchmark_common.py:88-101 collect_git_metadata *)
Definition working_tree_dirty : M bool :=
  try_catch
    (r ← run_proc ["git"; "status"; "--porcelain"] PROJECT_ROOT; mret (nonempty (strip (stdout r))))
    tool_missing (λ _, mret false).

(** src: tool/py/benchmark_common.py:114-116 collect_source_identity *)
Definition source_entry (root path : string) : M (string * string) :=
  content ← read_bytes path;
  mret (utf8_encode (str_drop (String.length root + 1) path), content).

(** src: tool/py/benchmark_common.py:111-119 collect_source_identity *)
Definition collect_source_identity (root : string) (revision : option string) : M (list (string * string)) :=
  w ← get_world;
  entries ← map_M (source_entry root) (tree_files (root // "lib") ".dart" w ++ [root // "pubspec.yaml"; root // "pubspec.lock"]);
  revision ← match revision with
             | Some r => mret r
             | None => text ← check_output ["git"; "rev-parse"; "HEAD"] root; mret (strip (universal_newlines text))
             end;
  mret [("commit_sha", revision); ("source_sha256", sha256_hex (digest_text entries))].

(** src: tool/py/benchmark_common.py:70-108 collect_git_metadata *)
Definition collect_git_metadata : M json :=
  dirty ← working_tree_dirty;
  commit ← git_answer ["rev-parse"; "HEAD"];
  branch ← git_answer ["rev-parse"; "--abbrev-ref"; "HEAD"];
  identity ← collect_source_identity PROJECT_ROOT None;
  mret (JObj [("commit_sha", JStr commit); ("branch", JStr branch); ("dirty", JBool dirty);
              ("source_sha256", JStr (default EmptyString (assoc "source_sha256" identity)))]).

(** src: tool/py/benchmark_common.py:160-162 collect_machine_metadata *)
Definition tool_version (executable : string) : M (string * json) :=
  command ← resolve_command [executable; "--version"];
  r ← run_proc command host_cwd;
  mret (executable +:+ "_version", JStr (strip (str_or (stdout r) (stderr r)))).

(** src: tool/py/benchmark_common.py:153-165 collect_machine_metadata *)
Definition collect_machine_metadata : M json :=
  versions ← map_M tool_version ["dart"; "flutter"];
  dependencies ← collect_dependency_versions PROJECT_ROOT;
  mret (JObj ([("platform", JStr platform_name); ("machine", JStr platform_machine);
               ("processor", JStr (str_or platform_processor "(unknown)")); ("python_version", JStr platform_python)] ++
              versions ++
              [("dependencies_sha256", JStr (sha256_hex (dumps_flat ((λ kv, (fst kv, JStr (snd kv))) <$> dependencies))));
               ("host_fingerprint", JStr (sha256_hex (utf8_encode platform_node)))])).

(** src: tool/py/benchmark_common.py:261-275 _published_odbc_fast_candidates *)
Definition published_odbc_fast_candidates (version : string) : M (list string) :=
  cache ← getenv_or "PUB_CACHE" EmptyString;
  local ← getenv_or "LOCALAPPDATA" EmptyString;
  w ← get_world;
  let roots :=
    (if nonempty (strip cache) then [posix (strip cache)] else []) ++
    (if nonempty (strip local) then [posix (strip local) // "Pub" // "Cache"] else []) ++
    (match home_directory w with Some home => [home // ".pub-cache"] | None => [] end) in
  mret ((λ root, root // "hosted" // "pub.dev" // ("odbc_fast-" +:+ version)) <$> roots).

(** src: tool/py/benchmark_common.py:238-240 resolve_dart_odbc_fast_root *)
Fixpoint first_package (candidates : list string) : M (option string) :=
  match candidates with
  | [] => mret None
  | candidate :: candidates =>
      here ← is_file (candidate // "pubspec.yaml");
      if (here : bool) then path ← resolved candidate; mret (Some path) else first_package candidates
  end.

(** src: tool/py/benchmark_common.py:217-227 resolve_dart_odbc_fast_root
    The package that is built from git. *)
Definition git_package (prepare_native : bool) (block : string) : M string :=
  if prepare_native then
    binary ← build_pinned_native PROJECT_ROOT;
    _ ← setenv "ODBC_FAST_NATIVE_LIBRARY" (path_str binary);
    mret (path_parent binary // "source")
  else
    revision ← lift (from_option (re_search resolved_ref_re block) (ValueError "A full native Git revision is required"));
    mret (PROJECT_ROOT // "build/odbc-native" // group_str 1 revision // "source").

(** src: tool/py/benchmark_common.py:209-241 resolve_dart_odbc_fast_root *)
Definition resolve_dart_odbc_fast_root (prepare_native : bool) : M (option string) :=
  env_root ← getenv_or "DART_ODBC_FAST_ROOT" EmptyString;
  let configured := if nonempty (strip env_root) then [posix (strip env_root)] else [] in
  let lock := PROJECT_ROOT // "pubspec.lock" in
  there ← path_exists lock;
  block ← (if (there : bool) then text ← read_text lock; mret (git_block text) else mret None);
  match block with
  | Some block => path ← git_package prepare_native block; mret (Some path)
  | None =>
      locked ← resolve_locked_odbc_fast_version;
      published ← match locked with
                  | Some version => if nonempty version then published_odbc_fast_candidates version else mret []
                  | None => mret []
                  end;
      first_package (configured ++ published ++ ["D:/Developer/dart_odbc_fast"; path_parent PROJECT_ROOT // "dart_odbc_fast"])
  end.
End collect.

(** ** Moments of a run *)

Section moments.
Context `{Host} `{Filesystem} `{SignpathStaging.RealPath} `{Tar} `{Platform} `{Clock}.

Lemma later_write_json path v : steps later (write_json path v).
Proof. unfold write_json, write_text. solve_steps. Qed.
Lemma later_bootstrap_env path : steps later (bootstrap_env path).
Proof. unfold bootstrap_env, import_dotenv_if_present. solve_steps. Qed.

Lemma later_build_pinned root : steps later (build_pinned_native root).
Proof.
  pose proof later_build_source. pose proof later_check_output. unfold build_pinned_native, resolved, pinned_package. solve_steps.
Qed.
#[local] Hint Resolve later_build_pinned : py.
Lemma later_first_package candidates : steps later (first_package candidates).
Proof. induction candidates; simpl; unfold resolved; solve_steps. Qed.
#[local] Hint Resolve later_first_package : py.
Lemma later_odbc_root prepare : steps later (resolve_dart_odbc_fast_root prepare).
Proof.
  unfold resolve_dart_odbc_fast_root, git_package, resolve_locked_odbc_fast_version, published_odbc_fast_candidates. solve_steps.
Qed.

Lemma later_native_environment root o : steps later (native_environment root o).
Proof. unfold native_environment, resolve_environment. solve_steps. Qed.
Lemma later_find_package paths : steps later (find_package paths).
Proof. induction paths; simpl; solve_steps. Qed.
Lemma later_benchmark_package path : steps later (resolve_benchmark_package path).
Proof. pose proof later_find_package. unfold resolve_benchmark_package. solve_steps. Qed.
Lemma later_read_positive name env dflt b : steps later (read_positive_float_env name env dflt b).
Proof. unfold read_positive_float_env. solve_steps. Qed.
Lemma later_missing b message : steps later (missing b message).
Proof. unfold missing. solve_steps. Qed.
#[local] Hint Resolve later_read_positive later_missing : py.
Lemma later_max_fallbacks env : steps later (max_fallbacks env).
Proof. unfold max_fallbacks. solve_steps. Qed.
Lemma later_enforce_speedups b scenarios f : steps later (enforce_speedups b scenarios f).
Proof. unfold enforce_speedups, judge_speedups. solve_steps. Qed.
#[local] Hint Resolve later_max_fallbacks later_enforce_speedups : py.
Lemma later_async_gates output env : steps later (enforce_async_benchmark_gates output env).
Proof. unfold enforce_async_benchmark_gates, resolve_environment. solve_steps. Qed.
Lemma later_streaming_gates output env : steps later (enforce_streaming_benchmark_gates output env).
Proof. unfold enforce_streaming_benchmark_gates, resolve_environment. solve_steps. Qed.
#[local] Hint Resolve later_native_environment later_benchmark_package later_async_gates later_streaming_gates : py.
Lemma later_async_benchmark r : steps later (run_odbc_async_benchmark r).
Proof. unfold run_odbc_async_benchmark, check_async, reset_benchmark_log, perf_now, read_log, write_text. solve_steps. Qed.
Lemma later_streaming_benchmark r : steps later (run_odbc_streaming_benchmark r).
Proof. unfold run_odbc_streaming_benchmark, check_streaming, reset_benchmark_log, perf_now, read_log, write_text. solve_steps. Qed.
End moments.
#[export] Hint Resolve later_write_json later_bootstrap_env later_odbc_root later_async_benchmark later_streaming_benchmark : py.

(** A platform, for theorems at work. *)
Definition unnamed_platform : Platform := {|
  platform_name := "Windows-11"; platform_machine := "AMD64"; platform_processor := EmptyString;
  platform_python := "3.12.4"; platform_node := "host"; home_directory := λ _, None |}.
