(* ===== verification/TransportQualification.v ===== *)
(** * Qualifying the transport (tool/benchmarks/measurement_guard.py,
    tool/benchmarks/run_transport_comparison.py and
    tool/benchmarks/prepare_transport_comparison.py)

    Two checkouts are measured one after the other, forwards and backwards, and
    a copy of the base against itself as a control. A run qualifies only when
    the control is stable and nothing that was measured changed meanwhile. *)

From S2P Require Import Prelude PyStr PyRe PyFloat PyHash PyJson PyNum PyLib Effects ScriptUtils BenchmarkMetrics BenchmarkSummary.
From S2P Require Import NativePackage WindowsFixture Commands ApplicationSource PinnedNative BenchmarkCollect TransportComparison TextFiles.
From S2P Require BuildInstaller CompareBenchmark SignpathStaging.
Import BuildInstaller (Machine, sys_executable) CompareBenchmark (any_res).

Local Open Scope Z_scope.

Abbreviation dict := (list (string * json)).

(** ** The guard (measurement_guard.py) *)

(** What the thread that watches the heart beat has seen until now, and the
    answers of Windows to the request for wakefulness and to its end. *)
Class Heartbeat : Type := {
  largest_gap : world → float;
  wake_granted : world → bool;
  wake_restored : world → bool
}.

(** src: tool/benchmarks/measurement_guard.py:16-20 file_set_identity
    What the digest is fed with for the files of a set. *)
Definition file_set_text (files : list (string * string)) : string :=
  String.concat EmptyString ((λ f, utf8_encode (fst f) +:+ chr 0 +:+ snd f +:+ chr 0) <$> files).

(** src: tool/benchmarks/measurement_guard.py:27-27 native_identity *)
Definition revision_re : regex := times 40 (RChar is_lower_hex).
(** src: tool/benchmarks/measurement_guard.py:36-36 native_identity *)
Definition digest_re : regex := times 64 (RChar is_lower_hex).
(** src: tool/benchmarks/measurement_guard.py:35-35 native_identity *)
Definition release_re : regex :=
  seqs [plus digit; lit "."; plus digit; lit "."; plus digit; opt (RSeq (anyc "-+") (plus (RChar suffix_char)))].

(** [re.fullmatch(r, v)] of a value that has to be a text. *)
Definition json_fullmatch (r : regex) (v : json) : res bool :=
  match v with JStr s => Ok (fullmatch r s) | _ => Raise (TypeError "expected string or bytes-like object") end.

(** src: tool/benchmarks/measurement_guard.py:44-44 validate_dependency_change
    The packages that two lock files do not give the same entry. *)
Definition changed_packages (base candidate : list (string * string)) : list string :=
  List.filter (λ k, negb (bool_decide (assoc k base = assoc k candidate)))
    (base.*1 ++ List.filter (λ k, negb (one_of k base.*1)) candidate.*1).
(** src: tool/benchmarks/measurement_guard.py:43-46 validate_dependency_change *)
Definition validate_dependency_change (base candidate : list (string * string)) (allow_odbc : bool) : res unit :=
  let differences := changed_packages base candidate in
  raise_if (negb (bool_decide (differences = [])) && (negb allow_odbc || negb (bool_decide (differences = ["odbc_fast"]))))
    (ValueError ("Unexpected dependency differences: " +:+ join ", " (snd <$> sort_keys ((λ k, (k, k)) <$> differences)))).

(** ** A run (run_transport_comparison.py) *)

(** src: tool/benchmarks/run_transport_comparison.py:20-27 HARNESS_FILES *)
Definition HARNESS_FILES : list string :=
  ["tool/benchmarks/benchmark_transport_pipeline.dart";
   "tool/benchmarks/benchmark_transport_pipeline_async_impl.dart";
   "tool/benchmarks/benchmark_transport_pipeline_async_stub.dart";
   "tool/benchmarks/benchmark_vm_diagnostics.dart";
   "test/infrastructure/codecs/transport_repeated_benchmark_test.dart";
   "test/infrastructure/codecs/transport_diagnostics_benchmark_test.dart"].

(** src: tool/benchmarks/run_transport_comparison.py:59-65 qualify *)
Definition qualify (control forward reverse : json) : res json :=
  let parts := [("control", control); ("forward", forward); ("reverse", reverse)] in
  let unsettled key := any_res (λ r, v ← jitem key r; Ok (truthy v)) in
  unstable ← first_true [(v ← jitem "failures" control; Ok (truthy v)); (v ← jitem "pending_metrics" control; Ok (truthy v))];
  if (unstable : bool) then
    Ok (JObj ([("status", JStr "inconclusive");
               ("reason", JStr "Identical-code control violated limits or has missing measurements")] ++ parts))
  else
    pending ← unsettled "pending_metrics" [forward; reverse];
    status ← (if (pending : bool) then Ok "inconclusive"
              else failed ← unsettled "failures" [forward; reverse]; Ok (if (failed : bool) then "fail" else "pass"));
    Ok (JObj (("status", JStr status) :: parts)).

(** src: tool/benchmarks/run_transport_comparison.py:69-79 main *)
Record args : Type := Args {
  a_base_dir : string; a_base_revision : option string; a_candidate_dir : string; a_output_dir : string;
  a_allow_odbc_change : bool; a_base_native : option string; a_candidate_native : option string;
  a_base_odbc_revision : option string; a_candidate_odbc_revision : option string }.

Definition given {A} (o : option A) : bool := match o with Some _ => true | None => false end.
Definition given_text (o : option string) : bool := nonempty (default EmptyString o).

(** src: tool/benchmarks/run_transport_comparison.py:80-85 main
    Both native libraries or none of them. *)
Definition bad_natives (a : args) : bool :=
  let both := given (a_base_native a) && given (a_candidate_native a) in
  (a_allow_odbc_change a && negb both) ||
  ((given (a_base_native a) || given (a_candidate_native a) || given_text (a_base_odbc_revision a) ||
    given_text (a_candidate_odbc_revision a)) && negb both).

(** src: tool/benchmarks/run_transport_comparison.py:120-120 main *)
Definition IGNORED : list string :=
  [".git"; ".dart_tool"; "build"; ".env"; "artifacts"; "node_modules"; "ephemeral"; ".plugin_symlinks"; "target"].

(** [report.update(...)] of a dict. *)
Definition set_key (key : string) (v : json) (report : json) : json :=
  match report with JObj d => JObj (assoc_set key v d) | v => v end.
Definition invalidate (reason : string) (report : json) : json :=
  set_key "reason" (JStr reason) (set_key "status" (JStr "inconclusive") report).
Definition texts (l : list (string * string)) : json := JObj ((λ kv, (fst kv, JStr (snd kv))) <$> l).

(** [d[key] = v] of a value that has to be a dict. *)
Definition set_item (key : string) (v : json) (d : json) : res json :=
  match d with JObj d => Ok (JObj (assoc_set key v d)) | _ => Raise (TypeError "object does not support item assignment") end.

(** src: tool/benchmarks/run_transport_comparison.py:106-106 main
    A line of [git ls-tree]: the description of the object, and the file name. *)
Definition tree_line (line : string) : res (string * string) :=
  from_option (partition (String (ascii_of_N 9) EmptyString) line) (ValueError "not enough values to unpack").

(** src: tool/benchmarks/run_transport_comparison.py:91-91 main *)
Definition in_progress : string :=
  replace "'" (chr 34) "{'status': 'inconclusive', 'reason': 'Measurement in progress'}".

Section run.
Context `{Host} `{Machine} `{SignpathStaging.RealPath} `{Filesystem} `{Tar} `{Platform} `{Heartbeat}.

(** src: tool/benchmarks/measurement_guard.py:14-21 file_set_identity *)
Definition file_set_identity (root : string) (filenames : list string) : M string :=
  files ← map_M (λ name, content ← read_bytes (root // name); mret (name, content)) (snd <$> sort_keys ((λ n, (n, n)) <$> filenames));
  mret (sha256_hex (file_set_text files)).

(** src: tool/benchmarks/measurement_guard.py:31-39 native_identity
    What the manifest beside a published library says of it. *)
Definition published_provenance (path digest : string) : M dict :=
  text ← read_text (path_parent path // "manifest.json");
  manifest ← lift (loads text);
  version ← lift (jget_default "version" (JStr EmptyString) manifest);
  let url := "https://github.com/cesar-carlos/dart_odbc_fast/releases/download/v" +:+ str_of version +:+ "/" +:+ path_name path in
  invalid ← lift (first_true
    [(v ← jget_or_null "source" manifest; Ok (negb (jeq v (JStr "pub.dev"))));
     (b ← json_fullmatch release_re version; Ok (negb b));
     (v ← jget_default "package_sha256" (JStr EmptyString) manifest; b ← json_fullmatch digest_re v; Ok (negb b));
     (v ← jget_or_null "url" manifest; Ok (negb (jeq v (JStr url))));
     (v ← jget_or_null "sha256" manifest; Ok (negb (jeq v (JStr digest))))]);
  _ ← raise_when invalid (ValueError "Published native provenance is invalid or differs from the binary");
  lift (res_map (λ key, v ← jitem key manifest; Ok (key, v)) ["source"; "version"; "package_sha256"; "url"]).

(** src: tool/benchmarks/measurement_guard.py:24-40 native_identity *)
Definition native_identity (path : string) (revision : option string) : M json :=
  content ← read_bytes path;
  let digest := sha256_hex content in
  provenance ← match revision with
               | Some r => _ ← raise_when (negb (fullmatch revision_re r)) (ValueError "A full native source revision is required");
                           mret [("revision", JStr r)]
               | None => published_provenance path digest
               end;
  real ← resolved path;
  mret (JObj (provenance ++ [("path", JStr (path_str real)); ("sha256", JStr digest)])).

(** src: tool/benchmarks/run_transport_comparison.py:36-39 run_measurement
    The library is put where an older checkout looks for it. *)
Definition place_library (library destination : string) : M unit :=
  _ ← mkdir (path_parent destination);
  from ← resolved library;
  to ← resolved destination;
  when (from != to) (copy_file library destination).

(** src: tool/benchmarks/run_transport_comparison.py:32-44 run_measurement
    The environment of a measurement. *)
Definition measurement_env (root : string) (native_library : option string) (legacy : bool) : M (gmap string string) :=
  env ← get_env;
  match native_library with
  | None => mret env
  | Some library =>
      real ← resolved library;
      let env := <["ODBC_FAST_NATIVE_LIBRARY" := path_str real]> env in
      if legacy then
        _ ← place_library library (root // "native/target/release" // path_name library);
        _ ← place_library library (root // "build/odbc-native/pinned" // path_name library);
        mret (<["ODBC_FAST_PREFER_LOCAL_BUILD" := "true"]> env)
      else mret env
  end.

(** src: tool/benchmarks/run_transport_comparison.py:30-56 run_measurement *)
Definition run_measurement (root output name : string) (diagnostics : bool) (native_library : option string) (legacy : bool) : M json :=
  let target := output // (name +:+ ".json") in
  env ← measurement_env root native_library legacy;
  let key := if diagnostics then "AGENT_TRANSPORT_DIAGNOSTICS_OUTPUT" else "AGENT_TRANSPORT_BENCH_OUTPUT" in
  let env := <[key := path_str target]> env in
  let file := if diagnostics then "transport_diagnostics_benchmark_test.dart" else "transport_repeated_benchmark_test.dart" in
  let command := ["flutter"; "test"; "test/infrastructure/codecs/" +:+ file] ++ (if diagnostics then ["--enable-vmservice"] else []) in
  _ ← print ("Measuring " +:+ name);
  let log := output // (name +:+ ".log") in
  _ ← write_bytes log EmptyString;
  argv ← resolve_command command;
  result ← run_proc_env env argv root;
  _ ← append_bytes log (stdout result);
  there ← is_file target;
  _ ← raise_when (negb (returncode result =? 0) || negb there) (ValueError (name +:+ " failed; see " +:+ name +:+ ".log"));
  text ← read_text target;
  lift (loads text).

(** src: tool/benchmarks/run_transport_comparison.py:100-110 main
    A checkout without a repository is compared with the reference, file by file. *)
Definition verify_archive (a : args) (base candidate : string) : M (option string) :=
  match a_base_revision a with
  | Some reference =>
      if nonempty reference then
        out ← check_output ["git"; "rev-parse"; reference +:+ "^{commit}"] candidate;
        let revision := strip (universal_newlines out) in
        tree ← check_output ["git"; "ls-tree"; "-r"; revision; "lib"] candidate;
        _ ← for_M (λ line,
              '(description, filename) ← lift (tree_line line);
              content ← read_bytes (base // filename);
              let actual := sha1_hex ("blob " +:+ py_str_int (len content) +:+ chr 0 +:+ content) in
              recorded ← lift (from_option (split_ws description !! 2%nat) IndexError);
              raise_when (actual != recorded) (ValueError ("Archive source differs from reference: " +:+ filename)))
            (splitlines (universal_newlines tree));
        mret (Some revision)
      else mret None
  | None => mret None
  end.

(** src: tool/benchmarks/run_transport_comparison.py:111-111 main *)
Definition pub_get (root : string) : M unit :=
  command ← resolve_command ["flutter"; "pub"; "get"]; _ ← check_output command root; mret tt.

(** src: tool/benchmarks/run_transport_comparison.py:114-117 main *)
Definition native_identities (a : args) : M dict :=
  match a_base_native a, a_candidate_native a with
  | Some b, Some c =>
      base ← native_identity b (a_base_odbc_revision a);
      candidate ← native_identity c (a_candidate_odbc_revision a);
      mret [("base", base); ("candidate", candidate)]
  | _, _ => mret []
  end.

(** What is known before the first measurement. *)
Record setting : Type := Setting {
  s_revision : option string; s_dependencies : json; s_native : dict;
  s_base : list (string * string); s_candidate : list (string * string); s_control : string }.

(** src: tool/benchmarks/run_transport_comparison.py:120-120 main *)
Definition ignored_source (name : string) : bool := existsb (λ p, path_key p == path_key name) IGNORED.

(** src: tool/benchmarks/run_transport_comparison.py:100-123 main *)
Definition set_up (a : args) (base candidate control_dir : string) : M setting :=
  revision ← verify_archive a base candidate;
  _ ← pub_get base;
  base_packages ← collect_dependency_provenance base;
  candidate_packages ← collect_dependency_provenance candidate;
  _ ← lift (validate_dependency_change base_packages candidate_packages (a_allow_odbc_change a));
  native ← native_identities a;
  base_source ← collect_source_identity base revision;
  candidate_source ← collect_source_identity candidate None;
  let control := control_dir // "source" in
  _ ← copy_tree ignored_source base control;
  _ ← pub_get control;
  control_source ← collect_source_identity control (assoc "commit_sha" base_source);
  _ ← raise_when (negb (bool_decide (control_source = base_source))) (ValueError "Identical-code control copy differs from base sources");
  mret (Setting revision (JObj [("base", texts base_packages); ("candidate", texts candidate_packages)]) native
          base_source candidate_source control).

Definition is_candidate (name : string) : bool := startswith name "candidate".

(** src: tool/benchmarks/run_transport_comparison.py:125-129 main
    The order of the measurements. *)
Definition measurement_plan (base candidate control : string) : list (string * string) :=
  [("control-1", base); ("control-2", control); ("base-forward", base); ("candidate-forward", candidate);
   ("candidate-reverse", candidate); ("base-reverse", base)].

(** src: tool/benchmarks/run_transport_comparison.py:131-137 main *)
Definition measure_heap (a : args) (output base candidate control : string) : M (string → json) :=
  control_1 ← run_measurement base output "control-1-diagnostics" true (a_base_native a) true;
  control_2 ← run_measurement control output "control-2-diagnostics" true (a_base_native a) true;
  base_heap ← run_measurement base output "base-diagnostics" true (a_base_native a) true;
  candidate_heap ← run_measurement candidate output "candidate-diagnostics" true (a_candidate_native a) false;
  old ← lift (any_res (λ d, v ← jget_or_null "diagnostics_version" d; Ok (negb (jeq v (JInt 2))))
                [control_1; control_2; base_heap; candidate_heap]);
  _ ← raise_when old (ValueError "Heap qualification requires diagnostics v2 without retained allocation profiles");
  mret (λ name, if name == "control-1" then control_1 else if name == "control-2" then control_2
                else if is_candidate name then candidate_heap else base_heap).

(** src: tool/benchmarks/run_transport_comparison.py:124-141 main
    The measurements by name, each with the growth of its heap. *)
Definition measure (a : args) (output base candidate control : string) : M dict :=
  measurements ← map_M (λ nr,
      let '(name, root) := nr in
      m ← run_measurement root output name false (if is_candidate name then a_candidate_native a else a_base_native a)
            (negb (is_candidate name));
      mret (name, m)) (measurement_plan base candidate control);
  heap ← measure_heap a output base candidate control;
  map_M (λ nm,
      let '(name, m) := nm in
      growth ← lift (jitem "heap_growth_bytes" (heap name));
      m ← lift (set_item "heap_growth_bytes" growth m);
      _ ← write_text (output // (name +:+ ".json")) (dump_report true EmptyString m);
      mret (name, m)) measurements.

(** src: tool/benchmarks/run_transport_comparison.py:143-145 main
    The verdict on the measurements. *)
Definition compared (measurements : dict) (a b : string) : res json :=
  x ← from_option (assoc a measurements) (KeyError a); y ← from_option (assoc b measurements) (KeyError b); compare x y.
(** src: tool/benchmarks/run_transport_comparison.py:142-150 main *)
Definition judge (measurements : dict) : res json :=
  control ← compared measurements "control-1" "control-2";
  forward ← compared measurements "base-forward" "candidate-forward";
  reverse ← compared measurements "base-reverse" "candidate-reverse";
  report ← qualify control forward reverse;
  control_reverse ← compared measurements "control-2" "control-1";
  let report := set_key "control_reverse" control_reverse report in
  unstable ← first_true [(v ← jitem "failures" control_reverse; Ok (truthy v)); (v ← jitem "pending_metrics" control_reverse; Ok (truthy v))];
  Ok (if (unstable : bool) then invalidate "Identical-code reverse control is unstable or incomplete" report else report).

(** src: tool/benchmarks/run_transport_comparison.py:151-154 main *)
Definition describe (s : setting) (machine : json) (gap : float) (harness : string) (report : json) : json :=
  foldl (λ r kv, set_key (fst kv) (snd kv) r) report
    [("base", texts (s_base s)); ("candidate", texts (s_candidate s)); ("dependencies", s_dependencies s);
     ("native", JObj (s_native s)); ("machine", machine); ("largest_heartbeat_gap_seconds", JFloat gap);
     ("heap_diagnostics_version", JInt 2); ("harness_sha256", JStr harness)].

(** src: tool/benchmarks/run_transport_comparison.py:157-159 main
    [native and (base differs or candidate differs)] *)
Definition natives_changed (a : args) (native : dict) : M bool :=
  match native, a_base_native a, a_candidate_native a with
  | _ :: _, Some b, Some c =>
      base ← native_identity b (a_base_odbc_revision a);
      if negb (jeq (default JNull (assoc "base" native)) base) then mret true
      else candidate ← native_identity c (a_candidate_odbc_revision a);
           mret (negb (jeq (default JNull (assoc "candidate" native)) candidate))
  | _, _, _ => mret false
  end.

(** src: tool/benchmarks/run_transport_comparison.py:160-161 main *)
Definition sources_changed (base candidate : string) (s : setting) : M bool :=
  b ← collect_source_identity base (s_revision s);
  if negb (bool_decide (s_base s = b)) then mret true
  else c ← collect_source_identity candidate None; mret (negb (bool_decide (s_candidate s = c))).

(** src: tool/benchmarks/run_transport_comparison.py:162-163 main *)
Fixpoint harness_changed (harness : string) (roots : list string) : M bool :=
  match roots with
  | [] => mret false
  | root :: roots => h ← file_set_identity root HARNESS_FILES; if h != harness then mret true else harness_changed harness roots
  end.

(** src: tool/benchmarks/measurement_guard.py:75-76 MeasurementGuard.interrupted *)
Definition interrupted (gap : float) : bool := fltb (f_lit "60") gap.

(** src: tool/benchmarks/run_transport_comparison.py:100-163 main
    The run under the guard: its report. *)
Definition qualification_run (a : args) (base candidate output control_dir harness : string) : M json :=
  s ← set_up a base candidate control_dir;
  measurements ← measure a output base candidate (s_control s);
  report ← lift (judge measurements);
  machine ← collect_machine_metadata;
  w ← get_world;
  let gap := largest_gap w in
  let report := describe s machine gap harness report in
  let report := if interrupted gap then invalidate "Measurement crossed a suspension or heartbeat interruption" report else report in
  changed ← natives_changed a (s_native s);
  let report := if (changed : bool) then invalidate "Native binaries changed during measurement" report else report in
  changed ← sources_changed base candidate s;
  let report := if (changed : bool) then invalidate "Application sources changed during measurement" report else report in
  changed ← harness_changed harness [base; candidate; s_control s];
  mret (if (changed : bool) then invalidate "Measurement harness changed during measurement" report else report).

(** src: tool/benchmarks/run_transport_comparison.py:164-164 main
    The errors that make a run inconclusive. *)
Definition run_error (e : exn) : bool :=
  is_ValueError e || is_OSError e || is_SubprocessError e || is_KeyError e || is_TypeError e.

(** src: tool/benchmarks/measurement_guard.py:58-65 MeasurementGuard.__enter__ *)
Definition guard_enter : M bool :=
  w ← get_world;
  _ ← raise_when (host_nt && negb (wake_granted w)) (OSError "Cannot request temporary benchmark wakefulness");
  mret host_nt.
(** src: tool/benchmarks/measurement_guard.py:78-84 MeasurementGuard.__exit__
    Of a guard that was granted wakefulness. *)
Definition guard_exit (granted : bool) : M unit :=
  w ← get_world;
  raise_when (granted && negb (wake_restored w)) (OSError "Cannot restore benchmark execution state").

(** src: tool/benchmarks/run_transport_comparison.py:96-168 main
    The run with its guard; the copy of the base is removed in the end. *)
Definition guarded (a : args) (base candidate output harness : string) : M json :=
  w ← get_world;
  let control_dir := host_tmp w in
  _ ← mkdir control_dir;
  w ← get_world;
  let granted := host_nt && wake_granted w in
  try_finally
    (try_catch (_ ← guard_enter; qualification_run a base candidate output control_dir harness) run_error
       (λ error, mret (JObj [("status", JStr "inconclusive"); ("reason", JStr (exn_str error))])))
    (_ ← guard_exit granted; remove_tree control_dir).

(** src: tool/benchmarks/run_transport_comparison.py:92-95 main
    The harness of the candidate replaces the one of the base. *)
Definition copy_harness (base candidate : string) : M unit :=
  for_M (λ name, _ ← mkdir (path_parent (base // name)); copy_file (candidate // name) (base // name)) HARNESS_FILES.

(** src: tool/benchmarks/run_transport_comparison.py:68-171 main *)
Definition main (a : args) : M Z :=
  _ ← raise_when (bad_natives a) (SystemExit (ExitCode 2));
  base ← resolved (a_base_dir a);
  candidate ← resolved (a_candidate_dir a);
  output ← resolved (a_output_dir a);
  _ ← raise_when (same_path base candidate) (SystemExit (ExitCode 2));
  _ ← mkdir output;
  harness ← file_set_identity candidate HARNESS_FILES;
  _ ← write_text (output // "comparison.json") in_progress;
  _ ← copy_harness base candidate;
  report ← guarded a base candidate output harness;
  _ ← write_text (output // "comparison.json") (dump_report true EmptyString report);
  status ← lift (jitem "status" report);
  _ ← print ("Transport qualification: " +:+ str_of status);
  lift (status_code report).
End run.

(** ** Preparing a comparison (prepare_transport_comparison.py) *)

(** src: tool/benchmarks/prepare_transport_comparison.py:19-24 main *)
Record prepare_args : Type := PrepareArgs {
  p_base_dir : string; p_output_dir : string; p_hosted_revision : option string; p_repository : option string }.

(** src: tool/benchmarks/prepare_transport_comparison.py:47-47 main
    The lock file names the version that the pubspec of the revision has. *)
Definition hosted_matches (block : option match_obj) (source_pubspec : string) : bool :=
  match block, re_search pubspec_version_re source_pubspec with
  | Some block, Some version => contains (group_str 1 block) ("version: " +:+ dq +:+ group_str 1 version +:+ dq)
  | _, _ => false
  end.

Section prepare.
Context `{Host} `{Machine} `{SignpathStaging.RealPath} `{Filesystem} `{Tar}.

(** src: tool/benchmarks/prepare_transport_comparison.py:52-56 main *)
Definition comparison_command (executable script : string) (a : prepare_args) (base baseline candidate : string) (revision : option string)
    : list string :=
  [executable; script; "--base-dir"; path_str base; "--output-dir"; path_str (p_output_dir a); "--allow-odbc-change";
   "--base-native-library"; path_str baseline; "--candidate-native-library"; path_str candidate] ++
  (if given_text revision then ["--base-odbc-revision"; default EmptyString revision] else []).

(** src: tool/benchmarks/prepare_transport_comparison.py:26-26 main
    [subprocess.run(argv, cwd=cwd, check=True)] *)
Definition run_checked (argv : list string) (cwd : string) : M unit := _ ← check_output argv cwd; mret tt.

Definition OWN_REPOSITORY : string := "https://github.com/cesar-carlos/dart_odbc_fast.git".

(** src: tool/benchmarks/prepare_transport_comparison.py:35-49 main
    The engine of the base, built from the revision that was named. *)
Definition explicit_baseline (a : prepare_args) (base revision : string) (block : option match_obj) : M string :=
  _ ← raise_when (negb (fullmatch revision_re revision)) (SystemExit (ExitCode 2));
  let checkout := default (PROJECT_ROOT // "build/transport-native-baseline") (p_repository a) in
  directory ← is_dir checkout;
  _ ← raise_when (given (p_repository a) && negb directory) (SystemExit (ExitCode 2));
  there ← path_exists checkout;
  _ ← when (negb there) (run_checked ["git"; "clone"; "--no-checkout"; OWN_REPOSITORY; path_str checkout] host_cwd);
  _ ← run_checked ["git"; "-C"; path_str checkout; "fetch"; "origin"; revision] host_cwd;
  out ← check_output ["git"; "-C"; path_str checkout; "show"; revision +:+ ":pubspec.yaml"] host_cwd;
  _ ← raise_when (negb (hosted_matches block (universal_newlines out)))
        (ValueError "Hosted package version differs from the explicit Git baseline");
  build_source_native base checkout revision.

(** src: tool/benchmarks/prepare_transport_comparison.py:27-49 main *)
Definition baseline_of (a : prepare_args) (base : string) : M string :=
  lock ← read_text (base // "pubspec.lock");
  let block := re_search package_block_re lock in
  if match block with Some block => contains (group_str 1 block) "source: git" | None => false end then build_pinned_native base
  else match p_hosted_revision a with
       | Some revision =>
           if nonempty revision then explicit_baseline a base revision block
           else _ ← raise_when (given (p_repository a)) (SystemExit (ExitCode 2)); prepare_native_library base
       | None => _ ← raise_when (given (p_repository a)) (SystemExit (ExitCode 2)); prepare_native_library base
       end.

(** src: tool/benchmarks/prepare_transport_comparison.py:51-51 main *)
Definition baseline_revision (baseline : string) : M (option string) :=
  text ← read_text (path_parent baseline // "manifest.json");
  manifest ← lift (loads text);
  revision ← lift (jget_or_null "revision" manifest);
  match revision with
  | JStr r => mret (Some r)
  | v => if truthy v then raise (TypeError "expected str, bytes or os.PathLike object") else mret None
  end.

(** src: tool/benchmarks/prepare_transport_comparison.py:18-57 main *)
Definition prepare_main (a : prepare_args) : M Z :=
  base ← resolved (p_base_dir a);
  command ← resolve_command ["flutter"; "pub"; "get"];
  _ ← run_checked command base;
  baseline ← baseline_of a base;
  candidate ← prepare_native_library PROJECT_ROOT;
  revision ← baseline_revision baseline;
  result ← run_proc (comparison_command sys_executable (path_str (PROJECT_ROOT // "tool/benchmarks/run_transport_comparison.py"))
                       a base baseline candidate revision) PROJECT_ROOT;
  mret (returncode result).
End prepare.

(** ** What a passing run means *)

Definition is_dict (v : json) : bool := match v with JObj _ => true | _ => false end.

Lemma set_key_dict key v r : is_dict r = true → is_dict (set_key key v r) = true.
Proof. by destruct r. Qed.
Lemma set_key_same key v r : is_dict r = true → jitem key (set_key key v r) = Ok v.
Proof. destruct r; try done. intros _. cbn. by rewrite assoc_set_same. Qed.
Lemma set_key_other key key' v r : key ≠ key' → jitem key (set_key key' v r) = jitem key r.
Proof. intros Hne. destruct r; try done. cbn. by rewrite assoc_set_other. Qed.

Lemma invalidate_status reason r : is_dict r = true → jitem "status" (invalidate reason r) = Ok (JStr "inconclusive").
Proof. intros Hr. unfold invalidate. rewrite set_key_other by done. by apply set_key_same. Qed.

(** A report that is still passing was not invalidated. *)
Lemma still_passing (c : bool) reason r : is_dict r = true →
  jitem "status" (if c then invalidate reason r else r) = Ok (JStr "pass") → c = false ∧ jitem "status" r = Ok (JStr "pass").
Proof. intros Hr. destruct c; [by rewrite invalidate_status|done]. Qed.
Lemma invalidate_dict (c : bool) reason r : is_dict r = true → is_dict (if c then invalidate reason r else r) = true.
Proof. intros Hr. destruct c; [|done]. unfold invalidate. by do 2 apply set_key_dict. Qed.

Lemma describe_dict s machine gap harness r : is_dict r = true → is_dict (describe s machine gap harness r) = true.
Proof. intros Hr. unfold describe. cbn [foldl]. by do 8 apply set_key_dict. Qed.
Lemma describe_keeps key s machine gap harness r :
  key ∉ ["base"; "candidate"; "dependencies"; "native"; "machine"; "largest_heartbeat_gap_seconds"; "heap_diagnostics_version"; "harness_sha256"] →
  jitem key (describe s machine gap harness r) = jitem key r.
Proof. intros Hk. rewrite !not_elem_of_cons in Hk. unfold describe. cbn [foldl fst snd]. rewrite !set_key_other by naive_solver. done. Qed.

(** Neither failures nor pending metrics. *)
Definition settled (section : json) : Prop :=
  ∃ f p, jitem "failures" section = Ok f ∧ truthy f = false ∧ jitem "pending_metrics" section = Ok p ∧ truthy p = false.

Lemma first_true_false tests : first_true tests = Ok false → Forall (λ t, t = Ok false) tests.
Proof.
  induction tests as [|t tests IH]; intros Ht; [constructor|]. apply res_bind_Ok in Ht as ([] & Hb & Ht); [done|].
  constructor; [done|by apply IH].
Qed.
Lemma not_truthy key r : (v ← jitem key r; Ok (truthy v)) = Ok false → ∃ v, jitem key r = Ok v ∧ truthy v = false.
Proof. intros (v & Hv & [= Ht])%res_bind_Ok. by exists v. Qed.

Lemma qualify_pass control forward reverse report : qualify control forward reverse = Ok report →
  is_dict report = true ∧
  (jitem "status" report = Ok (JStr "pass") →
   Forall settled [control; forward; reverse] ∧
   jitem "control" report = Ok control ∧ jitem "forward" report = Ok forward ∧ jitem "reverse" report = Ok reverse).
Proof.
  unfold qualify. intros (unstable & Hu & Hq)%res_bind_Ok. destruct unstable; [by injection Hq as <-|].
  apply res_bind_Ok in Hq as (pending & Hp & Hq). apply res_bind_Ok in Hq as (status & Hs & [= <-]). split; [done|].
  intros [= ->]. destruct pending; [done|]. apply res_bind_Ok in Hs as (failed & Hf & Hs). destruct failed; [done|].
  apply first_true_false in Hu. apply Forall_cons in Hu as [Hc1 [Hc2 _]%Forall_cons].
  apply res_bind_Ok in Hp as ([] & Hp1 & Hp); [done|]. apply res_bind_Ok in Hp as ([] & Hp2 & Hx); [done|].
  apply res_bind_Ok in Hf as ([] & Hf1 & Hf); [done|]. apply res_bind_Ok in Hf as ([] & Hf2 & Hy); [done|].
  repeat match goal with H : _ = Ok false |- _ => apply not_truthy in H as (? & ? & ?) end.
  split; [|done]. repeat constructor; by do 2 eexists.
Qed.

Section verdict.
Context `{Host} `{Machine} `{SignpathStaging.RealPath} `{Filesystem} `{Tar} `{Platform} `{Heartbeat}.

(** The four comparisons of a run whose verdict is [pass]. *)
Lemma judged_pass measurements report : judge measurements = Ok report →
  is_dict report = true ∧
  (jitem "status" report = Ok (JStr "pass") →
   ∃ control forward reverse control_reverse,
     compared measurements "control-1" "control-2" = Ok control ∧
     compared measurements "base-forward" "candidate-forward" = Ok forward ∧
     compared measurements "base-reverse" "candidate-reverse" = Ok reverse ∧
     compared measurements "control-2" "control-1" = Ok control_reverse ∧
     Forall settled [control; forward; reverse; control_reverse] ∧
     jitem "control" report = Ok control ∧ jitem "forward" report = Ok forward ∧ jitem "reverse" report = Ok reverse).
Proof.
  unfold judge. intros (control & Hc & (forward & Hf & (reverse & Hr & (r & Hq & (cr & Hcr & (unstable & Hu &
    [= <-])%res_bind_Ok)%res_bind_Ok)%res_bind_Ok)%res_bind_Ok)%res_bind_Ok)%res_bind_Ok.
  apply qualify_pass in Hq as [Hd Hq]. split; [by apply invalidate_dict, set_key_dict|].
  intros [-> Hst]%still_passing; [|by apply set_key_dict]. rewrite set_key_other in Hst by done.
  destruct (Hq Hst) as (Hall & Hk1 & Hk2 & Hk3). rewrite !set_key_other by done.
  exists control, forward, reverse, cr. split_and!; try done.
  apply first_true_false in Hu. apply Forall_cons in Hu as [Hc1 [Hc2 _]%Forall_cons].
  apply not_truthy in Hc1 as (f & ? & ?). apply not_truthy in Hc2 as (p & ? & ?).
  change [control; forward; reverse; cr] with ([control; forward; reverse] ++ [cr]). apply Forall_app. split; [done|].
  apply Forall_singleton. by exists f, p.
Qed.

(** The report of a run that passes: the measurements were taken between the set
    up and the checks that nothing changed, in this order. *)
Definition qualified_run (a : args) (base candidate output harness : string) (report : json) (w w' : world) : Prop :=
  ∃ control_dir s measurements r machine gap w1 w2 w3 w4 w5 w6 w7,
    later w w1 ∧ runs (set_up a base candidate control_dir) w1 s w2 ∧
    runs (measure a output base candidate (s_control s)) w2 measurements w3 ∧
    judge measurements = Ok r ∧ jitem "status" r = Ok (JStr "pass") ∧
    report = describe s machine gap harness r ∧ interrupted gap = false ∧ later w3 w4 ∧
    runs (natives_changed a (s_native s)) w4 false w5 ∧ runs (sources_changed base candidate s) w5 false w6 ∧
    runs (harness_changed harness [base; candidate; s_control s]) w6 false w7 ∧ later w7 w'.

Lemma later_machine : steps later collect_machine_metadata.
Proof. unfold collect_machine_metadata, tool_version, collect_dependency_versions, resolve_command. solve_steps. Qed.

Lemma runs_qualification a base candidate output control_dir harness w report w' :
  runs (qualification_run a base candidate output control_dir harness) w report w' →
  is_dict report = true ∧ (jitem "status" report = Ok (JStr "pass") → qualified_run a base candidate output harness report w w').
Proof.
  unfold qualification_run. intros Hr. apply runs_bind in Hr as (s & w2 & Hset & Hr).
  apply runs_bind in Hr as (ms & w3 & Hms & Hr). apply runs_bind in Hr as (r & w3' & [Hj <-]%runs_lift & Hr).
  apply runs_bind in Hr as (machine & w4 & Hm%(later_runs _ _ _ _ later_machine) & Hr).
  apply runs_bind in Hr as (u & w4' & Hu & Hr). injection Hu as <- <-. cbv zeta in Hr.
  apply runs_bind in Hr as (c1 & w5 & Hn & Hr). apply runs_bind in Hr as (c2 & w6 & Hs & Hr).
  apply runs_bind in Hr as (c3 & w7 & Hh & [<- <-]%runs_ret). destruct (judged_pass _ _ Hj) as [Hd _].
  assert (Hd0 : is_dict (describe s machine (largest_gap w4) harness r) = true) by (by apply describe_dict).
  split; [by repeat apply invalidate_dict|].
  intros [-> Hst]%still_passing; [|by repeat apply invalidate_dict]. apply still_passing in Hst as [-> Hst]; [|by repeat apply invalidate_dict].
  apply still_passing in Hst as [-> Hst]; [|by repeat apply invalidate_dict]. apply still_passing in Hst as [Hi Hst]; [|done].
  rewrite Hi. rewrite describe_keeps in Hst by set_solver.
  exists control_dir, s, ms, r, machine, (largest_gap w4), w, w2, w3, w4, w5, w6, w7. by split_and!.
Qed.

Lemma settled_pass base candidate section : compare base candidate = Ok section → settled section →
  jitem "status" section = Ok (JStr "pass").
Proof.
  unfold compare. intros Hc (f & p & Hf & Htf & Hp & Htp). do 5 (apply res_bind_Ok in Hc as (? & _ & Hc)).
  apply res_bind_Ok in Hc as ([ratio slow] & _ & Hc). apply res_bind_Ok in Hc as ([[grown pending] heap] & _ & Hc).
  do 2 (apply res_bind_Ok in Hc as (? & _ & Hc)). injection Hc as <-. injection Hf as <-. injection Hp as <-.
  destruct pending; [|done]. by destruct (concat _ ++ slow ++ grown).
Qed.

Lemma compare_ratio_float base candidate section : compare base candidate = Ok section →
  ∃ ratio, jitem "throughput_ratio" section = Ok (JFloat ratio).
Proof.
  unfold compare. intros Hc. do 5 (apply res_bind_Ok in Hc as (? & _ & Hc)).
  apply res_bind_Ok in Hc as ([ratio slow] & _ & Hc). apply res_bind_Ok in Hc as ([[grown pending] heap] & _ & Hc).
  do 2 (apply res_bind_Ok in Hc as (? & _ & Hc)). injection Hc as <-. by exists ratio.
Qed.

Lemma approved_of_sections report : jitem "status" report = Ok (JStr "pass") →
  Forall (λ name, good_section report name = Ok true) ["control"; "forward"; "reverse"] →
  approved_controlled_comparison report = Ok true.
Proof.
  intros Hs Hall. destruct report; try done. unfold approved_controlled_comparison.
  assert (jget_or_null "status" (JObj l) = Ok (JStr "pass")) as ->.
  { unfold jget_or_null, jget. cbn in Hs |- *. destruct (assoc "status" l); [by injection Hs as ->|done]. }
  cbn -[none_bad good_section].
  assert (none_bad (λ name, good_section (JObj l) name ≫= λ g : bool, Ok (negb g)) ["control"; "forward"; "reverse"] = Ok true)
    as ->; [|done].
  apply none_bad_true. eapply Forall_impl; [exact Hall|]. intros name Hg. cbn beta. by rewrite Hg.
Qed.

(** C37. A run that qualifies is approved. When the verdict on the measurements
    is [pass], their fields have the types the harness writes and the three
    throughput ratios are finite, then the report that the run publishes passes
    [approved_controlled_comparison]: the suite that attaches it and the
    promotion of a baseline, which both check its numbers again, accept it. *)
Theorem transport_approved (measurements : dict) (r : json) (s : setting) (machine : json) (gap : float) (harness : string)
    (Hjudge : judge measurements = Ok r) (Hpass : jitem "status" r = Ok (JStr "pass"))
    (Htyped : Forall (λ nm, typed_report (snd nm)) measurements)
    (Hfinite : ∀ name section ratio, name ∈ ["control"; "forward"; "reverse"] → jitem name r = Ok section →
       jitem "throughput_ratio" section = Ok (JFloat ratio) → isfinite ratio = true) :
  approved_controlled_comparison (describe s machine gap harness r) = Ok true.
Proof.
  destruct (judged_pass _ _ Hjudge) as [_ Hj]. destruct (Hj Hpass) as (control & forward & reverse & cr & Hc & Hf & Hr & _ & Hall & Hkc & Hkf & Hkr).
  assert (Hgood : ∀ name a b section, name ∈ ["control"; "forward"; "reverse"] → compared measurements a b = Ok section →
    settled section → jitem name r = Ok section → good_section (describe s machine gap harness r) name = Ok true).
  { intros name a b section Hn Hcmp Hset Hk. unfold compared in Hcmp.
    apply res_bind_Ok in Hcmp as (x & Hx & Hcmp). apply res_bind_Ok in Hcmp as (y & Hy & Hcmp).
    assert (Hty : ∀ k v, from_option (assoc k measurements) (KeyError k) = Ok v → typed_report v).
    { intros k v Hkv. destruct (assoc k measurements) eqn:Ha; [|done]. injection Hkv as ->. apply assoc_Some_elem in Ha.
      rewrite Forall_forall in Htyped. exact (Htyped _ Ha). }
    destruct (compare_ratio_float _ _ _ Hcmp) as [ratio Hratio].
    eapply (passing_section_approved x y section _ name ratio); [by eapply Hty|by eapply Hty|done| |done|by eapply Hfinite|].
    - by eapply settled_pass.
    - rewrite describe_keeps; [done|]. clear -Hn. set_solver. }
  rewrite !Forall_cons in Hall. destruct Hall as (Sc & Sf & Sr & _).
  apply approved_of_sections; [rewrite describe_keeps; [done|set_solver]|]. repeat constructor.
  - eapply (Hgood _ _ _ control); [set_solver|done..].
  - eapply (Hgood _ _ _ forward); [set_solver|done..].
  - eapply (Hgood _ _ _ reverse); [set_solver|done..].
Qed.
Lemma runs_resolved path w p w' : runs (resolved path) w p w' → p = SignpathStaging.real_path path w ∧ w = w'.
Proof. unfold resolved. by intros (? & ? & [= <- <-] & [= <- <-])%runs_bind. Qed.
Lemma same_resolved path : steps (=) (resolved path).
Proof. unfold resolved. solve_steps. Qed.
Lemma later_file_set root files : steps later (file_set_identity root files).
Proof. unfold file_set_identity. solve_steps. Qed.
Lemma later_copy_harness base candidate : steps later (copy_harness base candidate).
Proof. unfold copy_harness. solve_steps. Qed.
Lemma later_guard_enter : steps later guard_enter.
Proof. unfold guard_enter. solve_steps. Qed.
Lemma later_guard_exit granted : steps later (guard_exit granted).
Proof. unfold guard_exit. solve_steps. Qed.
#[local] Hint Resolve later_file_set later_copy_harness later_guard_enter later_guard_exit : py.

Lemma qualified_later a base candidate output harness report w w1 w2 w' : later w w1 → later w2 w' →
  qualified_run a base candidate output harness report w1 w2 → qualified_run a base candidate output harness report w w'.
Proof.
  intros Hl Hl' (d & s & ms & r & m & g & v1 & v2 & v3 & v4 & v5 & v6 & v7 & Hv1 & Hrest).
  exists d, s, ms, r, m, g, v1, v2, v3, v4, v5, v6, v7. split; [by etrans|].
  repeat (destruct Hrest as [? Hrest]; split; [done|]). by etrans.
Qed.

(** The guard was granted its wish, and nothing but the clean-up follows. *)
Lemma runs_guarded a base candidate output harness w report w' : runs (guarded a base candidate output harness) w report w' →
  jitem "status" report = Ok (JStr "pass") → qualified_run a base candidate output harness report w w'.
Proof.
  unfold guarded. intros Hr Hst. apply runs_bind in Hr as (v & w0 & Hv & Hr). injection Hv as <- <-. cbv zeta in Hr.
  apply runs_bind in Hr as ([] & w1 & Hm1%later_runs & Hr); [|solve_steps].
  apply runs_bind in Hr as (v & w2 & Hv & Hr). injection Hv as <- <-. cbv zeta in Hr.
  apply runs_try_finally in Hr as (w3 & Hr & Hf%later_runs); [|solve_steps].
  apply runs_try_catch in Hr as [Hr|(e & w4 & _ & _ & [<- _]%runs_ret)]; [|done].
  apply runs_bind in Hr as (granted & w4 & Hg%(later_runs _ _ _ _ later_guard_enter) & Hr).
  apply runs_qualification in Hr as [_ Hr]. specialize (Hr Hst).
  exact (qualified_later _ _ _ _ _ _ _ _ _ _ (transitivity Hm1 Hg) Hf Hr).
Qed.

Lemma status_zero report : status_code report = Ok 0 → jitem "status" report = Ok (JStr "pass").
Proof.
  unfold status_code. intros (status & Hs & Hz)%res_bind_Ok. rewrite Hs. destruct status; try done.
  case_match; simplify_eq/=; repeat (case_match; simplify_eq/=). done.
Qed.

End verdict.

(** ** A run that qualifies *)

Definition example_measurements : dict :=
  (λ n, (fst n, example_report (if is_candidate (fst n) then 104 else 100) 50)) <$> measurement_plan "b" "c" "d".
Definition example_verdict : json := Eval vm_compute in
  match judge (H:=idle_host) example_measurements with Ok r => r | Raise _ => JNull end.
Definition example_setting : setting := Setting None (JObj []) [] [("commit_sha", "c0ffee")] [("commit_sha", "beef")] "d".

Theorem transport_approved_witness :
  approved_controlled_comparison (describe example_setting JNull (f_lit "1.5") "ab" example_verdict) = Ok true.
Proof.
  apply (transport_approved (H:=idle_host) example_measurements).
  - vm_compute. reflexivity.
  - reflexivity.
  - repeat constructor; apply typed_reportb_ok; vm_compute; reflexivity.
  - intros name section ratio Hn. rewrite !elem_of_cons in Hn. destruct Hn as [->|[->|[->|Hn%elem_of_nil]]]; [..|done].
    all: intros [= <-] [= <-]; reflexivity.
Defined.

(** A run on a machine without Flutter. *)
Definition steady_heart : Heartbeat := {| largest_gap := λ _, f_lit "1.5"; wake_granted := λ _, true; wake_restored := λ _, true |}.
Definition checkouts : world := World (list_to_map (("base", Dir) :: ((λ p, ("candidate/" +:+ p, File p)) <$> HARNESS_FILES))) ∅ [].
Definition comparison_args : args := Args "base" None "candidate" "out" false None None None None.
Definition comparison_run : res Z * world :=
  main (H:=idle_host) (H1:=same_paths) (H2:=linkless) (H4:=unnamed_platform) (H5:=steady_heart) comparison_args checkouts.
Definition comparison_end : world := Eval vm_compute in snd comparison_run.

