(* ===== verification/DriverMatrix.v ===== *)
(** * The benchmark matrix of the ODBC drivers (tool/benchmarks/odbc_driver_matrix_benchmark.py)

    Both native benchmarks for every driver that has a data source, a summary
    file per driver, and an exit code that is 0 only when every one of them
    passed. *)

From S2P Require Import Prelude PyStr PyFloat PyJson PyNum Effects ScriptUtils BenchmarkMetrics BenchmarkSummary.
From S2P Require Import OdbcBenchmarkGate OdbcBenchmarkRunner.
From S2P Require Import NativePackage WindowsFixture LifecyclePayload Commands ApplicationSource PinnedNative BenchmarkCollect.
From S2P Require BuildInstaller SignpathStaging.
Import BuildInstaller (Machine, sys_executable).

Local Open Scope Z_scope.

(** src: tool/benchmarks/odbc_driver_matrix_benchmark.py:87-91 main *)
Record driver : Type := Driver { d_name : string; d_slug : string; d_dsn : string }.

(** src: tool/benchmarks/odbc_driver_matrix_benchmark.py:71-71 run_benchmark_for_driver *)
Definition report_of (mode log_name : string) (code : Z) (m : metrics) : json :=
  JObj [("mode", JStr mode); ("exit_code", JInt code);
        ("status", JStr (if code =? 0 then "pass" else if code =? 2 then "inconclusive" else "fail"));
        ("metrics", JObj ((λ kv, (fst kv, JFloat (snd kv))) <$> m)); ("log_file", JStr log_name)].

Section matrix.
Context `{Host} `{Filesystem} `{SignpathStaging.RealPath} `{Tar} `{Platform} `{Clock} `{Machine}.

(** src: tool/benchmarks/odbc_driver_matrix_benchmark.py:30-30 BENCHMARKS_DIR *)
Definition SCRIPTS_DIR : string := PROJECT_ROOT // "tool" // "benchmarks".

(** src: tool/benchmarks/odbc_driver_matrix_benchmark.py:33-38 invoke_benchmark *)
Definition invoke_benchmark (script_name : string) (output_directory : option string) : M Z :=
  let command := [sys_executable; path_str (SCRIPTS_DIR // script_name)] in
  match output_directory with
  | None => r ← run_proc command PROJECT_ROOT; mret (returncode r)
  | Some _ => run_streaming command (Some PROJECT_ROOT) None None
  end.

(** src: tool/benchmarks/odbc_driver_matrix_benchmark.py:68-71 run_benchmark_for_driver *)
Definition run_mode (d : driver) (package_root destination : string) (env : gmap string string)
    (mode : string * (request → M result)) : M (Z * json) :=
  let log_name := "driver_matrix_" +:+ d_slug d +:+ "_" +:+ fst mode +:+ ".log" in
  '(code, m, _) ← snd mode (Request package_root (destination // log_name) [] None (Some env));
  mret (code, report_of (fst mode) log_name code m).

(** src: tool/benchmarks/odbc_driver_matrix_benchmark.py:68-68 run_benchmark_for_driver *)
Definition modes : list (string * (request → M result)) :=
  [("async", run_odbc_async_benchmark); ("streaming", run_odbc_streaming_benchmark)].

(** src: tool/benchmarks/odbc_driver_matrix_benchmark.py:41-74 run_benchmark_for_driver *)
Definition run_benchmark_for_driver (output_directory : option string) (d : driver) : M unit :=
  if negb (nonempty (d_dsn d)) then print ("Skipping " +:+ d_name d +:+ ": DSN not configured")
  else
    _ ← print EmptyString;
    _ ← print ("==> " +:+ d_name d);
    _ ← print ("Native/adaptive pool eligible: " +:+ py_bool (d_name d != "SQL Anywhere"));
    found ← resolve_dart_odbc_fast_root true;
    package_root ← lift (from_option found (RuntimeError "Locked odbc_fast package not found"));
    env ← get_env;
    let env := <["ODBC_BENCH_DRIVER_DSN" := d_dsn d]> (<["ODBC_TEST_DSN" := d_dsn d]> env) in
    let destination := default (PROJECT_ROOT // "artifacts" // "driver_matrix") output_directory in
    _ ← mkdir destination;
    reports ← map_M (run_mode d package_root destination env) modes;
    _ ← write_json (destination // (d_slug d +:+ "_summary.json"))
          (JObj [("matrix_version", JInt 1); ("driver", JStr (d_name d)); ("scenarios", JArr reports.*2)]);
    raise_when (existsb (λ r, negb (fst r =? 0)) reports)
      (RuntimeError (d_name d +:+ ": one or more benchmark scenarios failed or are inconclusive")).

(** src: tool/benchmarks/odbc_driver_matrix_benchmark.py:86-104 main *)
Definition configured_drivers : M (list driver) :=
  anywhere ← get_effective_env_value ["ODBC_TEST_DSN"; "ODBC_DSN"];
  server ← get_effective_env_value ["ODBC_TEST_DSN_SQL_SERVER"; "ODBC_DSN_SQL_SERVER"];
  postgresql ← get_effective_env_value ["ODBC_TEST_DSN_POSTGRESQL"; "ODBC_DSN_POSTGRESQL"];
  mret [Driver "SQL Anywhere" "sql_anywhere" anywhere; Driver "SQL Server" "sql_server" server;
        Driver "PostgreSQL" "postgresql" postgresql].

(** src: tool/benchmarks/odbc_driver_matrix_benchmark.py:114-126 main
    Whether a driver failed; the others run all the same. *)
Fixpoint run_drivers (output_directory : option string) (drivers : list driver) (failed : bool) : M bool :=
  match drivers with
  | [] => mret failed
  | d :: drivers =>
      bad ← try_catch (_ ← run_benchmark_for_driver output_directory d; mret false) is_RuntimeError
              (λ e, _ ← eprint (exn_str e); mret true);
      run_drivers output_directory drivers (failed || bad)
  end.

(** src: tool/benchmarks/odbc_driver_matrix_benchmark.py:78-81 main *)
Record args : Type := Args { a_env_path : string; a_output_directory : string }.

(** src: tool/benchmarks/odbc_driver_matrix_benchmark.py:77-126 main *)
Definition main (a : args) : M Z :=
  _ ← import_dotenv_if_present (resolve_env_path (a_env_path a));
  let output_directory := if nonempty (a_output_directory a) then Some (posix (a_output_directory a)) else None in
  drivers ← configured_drivers;
  let configured := length (List.filter (λ d, nonempty (d_dsn d)) drivers) in
  _ ← print "Running ODBC driver benchmark matrix";
  _ ← print ("Configured drivers: " +:+ py_str_int (Z.of_nat configured));
  if (configured =? 0)%nat then _ ← print "No DSN configured; nothing to benchmark."; mret 2
  else failed ← run_drivers output_directory drivers false; mret (if (failed : bool) then 1 else 0).
End matrix.

(** ** What exit code 0 means *)

Section passed.
Context `{Host} `{Filesystem} `{SignpathStaging.RealPath} `{Tar} `{Platform} `{Clock} `{Machine}.

Lemma later_benchmark_driver out d : steps later (run_benchmark_for_driver out d).
Proof. unfold run_benchmark_for_driver, modes, run_mode, get_env. cbn [map_M fst snd]. solve_steps. Qed.
#[local] Hint Resolve later_benchmark_driver : py.

(** Both benchmarks of a driver ran with its data source and returned 0, and
    the summary says so. *)
Definition driver_passed (out : option string) (d : driver) (w w' : world) : Prop :=
  let destination := default (PROJECT_ROOT // "artifacts" // "driver_matrix") out in
  ∃ root env reports, env !! "ODBC_TEST_DSN" = Some (d_dsn d) ∧ env !! "ODBC_BENCH_DRIVER_DSN" = Some (d_dsn d) ∧
    Forall2 (λ mode report, during (run_mode d root destination env mode) (0, report) w w') modes reports ∧
    during (write_json (destination // (d_slug d +:+ "_summary.json"))
              (JObj [("matrix_version", JInt 1); ("driver", JStr (d_name d)); ("scenarios", JArr reports)])) tt w w'.

Lemma driver_passed_mono out d w0 w w' w1 : later w0 w → later w' w1 → driver_passed out d w w' → driver_passed out d w0 w1.
Proof.
  intros H0' H1' (root & env & reports & ? & ? & Hall & Hwrite). exists root, env, reports. split_and!; [done|done| |by eapply during_mono].
  eapply Forall2_impl; [exact Hall|]. intros mode report. by apply during_mono.
Qed.

Lemma runs_benchmark_driver out d w w' : nonempty (d_dsn d) = true → runs (run_benchmark_for_driver out d) w tt w' →
  driver_passed out d w w'.
Proof.
  unfold run_benchmark_for_driver. intros -> Hr. cbn [negb] in Hr.
  do 3 (apply runs_bind in Hr as ([] & ? & ?%later_runs & Hr); [|solve_steps]).
  apply runs_bind in Hr as (found & w4 & Hl4%later_runs & Hr); [|solve_steps].
  apply runs_bind in Hr as (root & w5 & [_ <-]%runs_lift & Hr).
  apply runs_bind in Hr as (env & w5 & Henv & Hr). assert (w5 = w4) as -> by (unfold runs, get_env in Henv; by inversion Henv).
  apply runs_bind in Hr as ([] & w6 & Hl6%later_runs & Hr); [|solve_steps].
  apply runs_bind in Hr as (reports & w7 & Hreports & Hr). unfold modes in Hreports. cbn [map_M] in Hreports.
  apply runs_bind in Hreports as ([c1 r1] & w8 & Hr1 & Hreports).
  apply runs_bind in Hreports as (rest & w9 & Hrest & [<- <-]%runs_ret).
  apply runs_bind in Hrest as ([c2 r2] & w10 & Hr2 & Hrest).
  apply runs_bind in Hrest as (nil & w11 & [<- <-]%runs_ret & [<- <-]%runs_ret).
  apply runs_bind in Hr as ([] & w11 & Hw & [Hcodes <-]%runs_raise_when). cbn [existsb fst] in Hcodes.
  apply orb_false_iff in Hcodes as [->%negb_false_iff%Z.eqb_eq [->%negb_false_iff%Z.eqb_eq _]%orb_false_iff].
  pose proof (later_runs _ _ _ _ (later_write_json _ _) Hw).
  assert (later w6 w8) by (eapply later_runs; [|exact Hr1]; unfold run_mode; solve_steps).
  assert (later w8 w10) by (eapply later_runs; [|exact Hr2]; unfold run_mode; solve_steps).
  exists root, (<["ODBC_BENCH_DRIVER_DSN" := d_dsn d]> (<["ODBC_TEST_DSN" := d_dsn d]> env)), [r1; r2].
  split_and!; [by simplify_map_eq|by simplify_map_eq| |].
  - repeat constructor; [exists w6, w8|exists w8, w10]; split_and!; (done || chain_later).
  - exists w10, w11. split_and!; (done || chain_later).
Qed.

Lemma runs_run_drivers out drivers failed w w' : runs (run_drivers out drivers failed) w false w' →
  failed = false ∧ later w w' ∧ ∀ d, d ∈ drivers → nonempty (d_dsn d) = true → driver_passed out d w w'.
Proof.
  revert failed w. induction drivers as [|d drivers IH]; intros failed w Hr.
  - apply runs_ret in Hr as [-> <-]. split_and!; [done|done|]. by intros d ?%elem_of_nil.
  - apply runs_bind in Hr as (bad & w1 & Hd & Hr). apply IH in Hr as ([-> ->]%orb_false_iff & Hl & Hall).
    apply runs_try_catch in Hd as [Hd|(e & w2 & _ & _ & Hd)].
    + apply runs_bind in Hd as ([] & w2 & Hd & [_ <-]%runs_ret). pose proof (later_runs _ _ _ _ (later_benchmark_driver _ _) Hd) as Hl1.
      split_and!; [done|by etrans|]. intros d' [->|Hin]%elem_of_cons Hne.
      * eapply driver_passed_mono; [reflexivity|exact Hl|]. by apply runs_benchmark_driver.
      * eapply driver_passed_mono; [exact Hl1|reflexivity|]. by apply Hall.
    + by apply runs_bind in Hd as ([] & w3 & _ & [? _]%runs_ret).
Qed.

(** The driver matrix exits with 0 only when there was something to run and
    all of it passed: at least one of the three drivers has a data source, and
    for every driver that has one both native benchmarks ran with that data
    source, returned 0, and are recorded in its summary file. It exits with 2
    exactly when no driver has a data source. *)
Theorem matrix_verdict (a : args) (w w' : world) (c : Z) (Hrun : runs (main a) w c w') :
  ∃ drivers, during configured_drivers drivers w w' ∧
    (c = 2 ↔ ∀ d, d ∈ drivers → nonempty (d_dsn d) = false) ∧
    (c = 0 → ∀ d, d ∈ drivers → nonempty (d_dsn d) = true →
       driver_passed (if nonempty (a_output_directory a) then Some (posix (a_output_directory a)) else None) d w w').
Proof.
  assert (Hlen : ∀ l : list driver, (length (List.filter (λ d, nonempty (d_dsn d)) l) =? 0)%nat = true ↔
                   ∀ d, d ∈ l → nonempty (d_dsn d) = false).
  { intros l. rewrite Nat.eqb_eq, length_zero_iff_nil. split.
    - intros Hnil d Hd%list_elem_of_In. destruct (nonempty (d_dsn d)) eqn:E; [|done].
      assert (Hf : In d (List.filter (λ d, nonempty (d_dsn d)) l)) by (by apply filter_In). by rewrite Hnil in Hf.
    - intros Hall. induction l as [|d l IH]; [done|]. simpl. rewrite (Hall d) by left. apply IH. intros; apply Hall; by right. }
  apply runs_bind in Hrun as ([] & w1 & Hl1%later_runs & Hrun); [|unfold import_dotenv_if_present; solve_steps].
  apply runs_bind in Hrun as (drivers & w2 & Hd & Hrun).
  do 2 (apply runs_bind in Hrun as ([] & ? & ?%later_runs & Hrun); [|solve_steps]).
  assert (Hld : later w1 w2).
  { eapply later_runs; [|exact Hd]. assert (∀ l, steps later (get_effective_env_value l)) by (intros l; induction l; simpl; solve_steps).
    unfold configured_drivers. solve_steps. }
  exists drivers. destruct (_ =? 0)%nat eqn:E.
  - apply runs_bind in Hrun as ([] & w5 & ?%later_runs & [<- <-]%runs_ret); [|solve_steps].
    split; [exists w1, w2; split_and!; (done || chain_later)|]. split; [|done]. split; [|done]. intros _. by apply Hlen.
  - apply runs_bind in Hrun as (failed & w5 & Hf & [<- <-]%runs_ret).
    assert (Hlf : later x0 w5) by (eapply later_runs; [|exact Hf]; clear; revert drivers; assert (∀ drivers failed out, steps later (run_drivers out drivers failed)) by (induction drivers; simpl; intros; solve_steps); auto).
    split; [exists w1, w2; split_and!; (done || chain_later)|]. split.
    + rewrite <- Hlen, E. by destruct failed.
    + intros Hc d Hin Hne. destruct failed; [done|]. apply runs_run_drivers in Hf as (_ & Hl & Hall).
      eapply driver_passed_mono; [|reflexivity|by apply Hall]. chain_later.
Qed.
End passed.

(** ** A machine with one data source and no package *)

Definition matrix_world : world := World {["C:/plug_agente/.env" := File ("ODBC_DSN_SQL_SERVER=Driver=x" +:+ nl)]} ∅ [].
Definition matrix_run (env_path : string) : res Z * world :=
  main (H:=idle_host) (H0:=linkless) (H1:=same_paths) (H2:=no_archives) (H3:=unnamed_platform) (H4:=still_clock)
    (Args env_path EmptyString) matrix_world.
Example matrix_codes : fst (matrix_run ".env") = Ok 1 ∧ fst (matrix_run "missing.env") = Ok 2.
Proof. by vm_compute. Qed.

Definition matrix_end : world := Eval vm_compute in snd (matrix_run ".env").
Lemma matrix_verdict_witness : ∃ drivers : list driver, 1 = 2 ↔ ∀ d, d ∈ drivers → nonempty (d_dsn d) = false.
Proof.
  destruct (matrix_verdict (H:=idle_host) (H0:=linkless) (H1:=same_paths) (H2:=no_archives) (H3:=unnamed_platform)
              (H4:=still_clock) (Args ".env" EmptyString) matrix_world matrix_end 1 ltac:(run_vm))
    as (drivers & _ & Hcode & _).
  exists drivers. exact Hcode.
Defined.
