(* ===== verification/BenchmarkSuite.v ===== *)
(** * The benchmark suite (tool/benchmarks/run_benchmark_suite.py)

    Plans the suites the environment allows, runs them, completes what they
    measured with the identity of the harness and of the machine, writes the
    summary and the report, and decides the exit code: 0 only for a run that
    qualifies. A suite is the Python dict that enters the summary. *)

From S2P Require Import Prelude PyStr PyRe PyFloat PyHash PyJson PyNum Effects ScriptUtils BenchmarkMetrics BenchmarkSummary.
From S2P Require Import OdbcBenchmarkRunner NativePackage WindowsFixture LifecyclePayload Commands ApplicationSource PinnedNative.
From S2P Require Import BenchmarkCollect Paths TextFiles.
From S2P Require CompareBenchmark SignpathStaging.

Local Open Scope Z_scope.

(** A dict with the keys in the order of insertion. *)
Definition dict : Type := list (string * json).
(** [d.update(e)] *)
Definition update (d e : dict) : dict := foldl (λ d kv, assoc_set (fst kv) (snd kv) d) d e.
Definition set_default (key : string) (v : json) (d : dict) : dict :=
  match assoc key d with Some _ => d | None => d ++ [(key, v)] end.
Definition of_metrics (m : metrics) : dict := (λ kv, (fst kv, JFloat (snd kv))) <$> m.
Definition the_dict (v : json) : dict := match v with JObj d => d | _ => [] end.

(** [round(f, 2)] of a float *)
Definition round2 (f : float) : float :=
  if isfinite f then default f (py_float (fixed false 2 f)) else f.
Example round2_examples : round2 (f_lit "1234.5678") = f_lit "1234.57" ∧ round2 (f_lit "2.675") = f_lit "2.67" ∧
  round2 (f_lit "0.125") = f_lit "0.12" ∧ round2 (f_inf true) = f_inf true.
Proof. by vm_compute. Qed.
(** [round(v, 2)] of a metric. *)
Definition round2_json (v : json) : res json :=
  match v with
  | JFloat f => Ok (JFloat (round2 f))
  | JInt z => Ok (JInt z)
  | JBool b => Ok (JInt (Z_of_bool b))
  | _ => Raise (TypeError "type has no __round__ method")
  end.

(** ** Plans *)

(** src: tool/benchmarks/run_benchmark_suite.py:98-98 TRANSPORT_TEST *)
Definition TRANSPORT_TEST : string := "test/infrastructure/codecs/transport_pipeline_benchmark_test.dart".
(** src: tool/benchmarks/run_benchmark_suite.py:99-99 PLUG_AGENTE_STACK_TEST *)
Definition PLUG_AGENTE_STACK_TEST : string := "test/tool/plug_agente_stack_benchmark_test.dart".
(** src: tool/benchmarks/run_benchmark_suite.py:100-100 GATEWAY_ENCODING_TEST *)
Definition GATEWAY_ENCODING_TEST : string := "test/tool/odbc_gateway_encoding_benchmark_test.dart".
(** src: tool/benchmarks/run_benchmark_suite.py:101-101 ODBC_HOT_PATHS_TEST *)
Definition ODBC_HOT_PATHS_TEST : string := "test/tool/odbc_hot_paths_benchmark_test.dart".
(** src: tool/benchmarks/run_benchmark_suite.py:102-102 TRANSPORT_DART_TOOL *)
Definition TRANSPORT_DART_TOOL : string := "tool/benchmarks/benchmark_transport_pipeline.dart".
(** src: tool/benchmarks/run_benchmark_suite.py:103-103 GATEWAY_ENCODING_TOOL *)
Definition GATEWAY_ENCODING_TOOL : string := "tool/benchmarks/benchmark_odbc_gateway_encoding.dart".
(** src: tool/benchmarks/run_benchmark_suite.py:105-108 DART_TOOL_SKIP_REASON *)
Definition DART_TOOL_SKIP_REASON : string :=
  "plain `dart run` cannot compile FFI/isolate offload in this workspace; " +:+
  "use flutter_test transport_pipeline or pass --no-skip-dart-tool for local experiments".

(** src: tool/benchmarks/run_benchmark_suite.py:141-153 build_suite_plans
    A plan; an absent command and package root are [\[\]] and [None]. *)
Record plan : Type := Plan {
  p_id : string; p_kind : string; p_enabled : bool;
  p_skip_reason : option string; p_command : list string; p_package_root : option string }.

(** src: tool/benchmarks/run_benchmark_suite.py:141-153 build_suite_plans *)
Definition flutter_plan (id test : string) (enabled : bool) (reason : option string) : plan :=
  Plan id "flutter_test" enabled reason ["flutter"; "test"; test; "--tags"; "perf"] None.
(** src: tool/benchmarks/run_benchmark_suite.py:451-460 run_transport_json_tool *)
Definition transport_json_command : list string :=
  ["dart"; "run"; TRANSPORT_DART_TOOL; "--json"; "--path"; "async"; "--iterations"; "4"].
(** src: tool/benchmarks/run_benchmark_suite.py:249-254 build_suite_plans *)
Definition skipped_plan (id kind reason : string) : plan := Plan id kind false (Some reason) [] None.

(** src: tool/benchmarks/run_benchmark_suite.py:111-136 filter_suite_plans *)
Fixpoint filter_suite_plans (plans : list plan) (only : option (list string)) (skip_dart_tool : bool) : list plan :=
  match plans with
  | [] => []
  | p :: plans =>
      let rest := filter_suite_plans plans only skip_dart_tool in
      let chosen := match only with Some ids => one_of (p_id p) ids | None => true end in
      if negb chosen then rest
      else if skip_dart_tool && (p_id p == "transport_pipeline_json") then
        match only with
        | Some _ => p :: rest
        | None => skipped_plan "transport_pipeline_json" "dart_tool" DART_TOOL_SKIP_REASON :: rest
        end
      else p :: rest
  end.

(** src: tool/benchmarks/run_benchmark_suite.py:170-170 build_suite_plans
    A switch of the environment. *)
Definition switched_on (env : gmap string string) (key : string) : bool :=
  one_of (py_lower (strip (default EmptyString (env !! key)))) ["1"; "true"; "yes"].

(** ** What a suite must have measured *)

(** src: tool/benchmarks/run_benchmark_suite.py:592-592 required_metric_keys *)
Definition CASES3 : list string := ["small_sql_repetitive"; "large_sql_low_compressibility"; "large_incompressible_blob"].
(** src: tool/benchmarks/run_benchmark_suite.py:594-594 required_metric_keys *)
Definition PERCENTILES : list string := ["50"; "95"; "99"].
(** src: tool/benchmarks/run_benchmark_suite.py:596-599 required_metric_keys *)
Definition HOT_PATHS : list string :=
  ["health_snapshot"; "pagination_materialization"; "bulk_insert_planning"; "construct_and_execute_empty_batch";
   "batch_executor_construction"; "empty_batch_first_execution"; "empty_batch_warmed_execution"].
(** src: tool/benchmarks/run_benchmark_suite.py:601-605 required_metric_keys *)
Definition STACK_VARIANTS : list (string * list string) :=
  [("config_metadata_cache", ["cold"; "warm"]); ("odbc_connection_string_ttl_cache", ["cold"; "warm"]);
   ("columnar_stream_emitter", ["row_map"; "wire_only"]);
   ("backpressure_stream_emitter", ["sequential_admission"; "concurrent_admission"]);
   ("queued_database_gateway", ["execute_query"]);
   ("sql_rpc_db_streaming_executor", ["cold_config_cache"; "warm_config_cache"])].
(** src: tool/benchmarks/run_benchmark_suite.py:612-614 required_metric_keys *)
Definition ASYNC_SCENARIOS : list string :=
  ["workerCount=1"; "workerCount=4"; "workerCount=4 columnar"; "workerCount=4 columnar compressed"; "native pool"; "prepared reuse"].

(** src: tool/benchmarks/run_benchmark_suite.py:589-616 required_metric_keys *)
Definition required_metric_keys (suite_id : string) : list string :=
  if suite_id == "transport_pipeline" then
    case ← CASES3; mode ← ["none"; "auto"; "gzip"]; signed ← ["False"; "True"]; direction ← ["send"; "receive"];
    percentile ← PERCENTILES;
    [case +:+ ".async." +:+ mode +:+ ".signed_" +:+ signed +:+ "." +:+ direction +:+ "_p" +:+ percentile +:+ "_us"]
  else if suite_id == "odbc_hot_paths" then
    case ← HOT_PATHS; percentile ← PERCENTILES; [case +:+ ".p" +:+ percentile +:+ "_us"]
  else if suite_id == "plug_agente_stack" then
    sv ← STACK_VARIANTS; variant ← snd sv; [fst sv +:+ "." +:+ variant +:+ ".median_us"]
  else if suite_id == "odbc_gateway_encoding" then
    ["median_us_balancedServer_rowMajor"; "median_us_highThroughput_rowMajor"]
  else if suite_id == "odbc_streaming" then
    mode ← ["streamQueryBuffer"; "streamQueryBatched"];
    field ← ["elapsed_ms"; "rows"; "rows_per_second"; "fetch_size"; "chunk_size"]; [mode +:+ "." +:+ field]
  else if suite_id == "odbc_async" then
    scenario ← ASYNC_SCENARIOS;
    field ← ["elapsed_ms"; "rows"; "queries_per_second"; "timeouts"; "fallbacks"; "failed_requests"];
    [scenario +:+ "." +:+ field]
  else [].

(** src: tool/benchmarks/run_benchmark_suite.py:622-622 complete_suite_metrics
    A finite number that is not negative. *)
Definition numeric (v : json) : res bool :=
  if is_number v && negb (is_bool v) then
    finite ← isfinite_json v;
    if (finite : bool) then Ok (match v with JInt z => 0 <=? z | JFloat f => fleb f_zero f | _ => false end) else Ok false
  else Ok false.
(** src: tool/benchmarks/run_benchmark_suite.py:624-624 complete_suite_metrics *)
Definition configured_text (key : string) (v : json) : bool :=
  match v with JStr _ => category (metric_metadata key) == "configuration" | _ => false end.

(** [all(test(x) for x in l)] for a test that may raise. *)
Fixpoint all_res {A} (f : A → res bool) (l : list A) : res bool :=
  match l with [] => Ok true | x :: l => b ← f x; if (b : bool) then all_res f l else Ok false end.

(** The value of a metric in a suite without a missing one. *)
Definition metrics_of (suite : dict) : dict := the_dict (default (JObj []) (assoc "metrics" suite)).

(** [required.issubset(metrics)] and what follows for metrics that are no dict. *)
Definition unmeasured (required : list string) (metrics : json) : res bool :=
  names ← items_of metrics;
  _ ← for_each hashable names;
  if negb (forallb (λ k, existsb (jeq (JStr k)) names) required) then Ok false
  else match required with [] => Raise (AttributeError "items") | _ => Raise (TypeError "list indices must be integers") end.

(** src: tool/benchmarks/run_benchmark_suite.py:619-625 complete_suite_metrics *)
Definition complete_suite_metrics (suite : dict) : res bool :=
  let metrics := default (JObj []) (assoc "metrics" suite) in
  id ← from_option (assoc "id" suite) (KeyError "id");
  let required := required_metric_keys (match id with JStr s => s | _ => EmptyString end) in
  match metrics with
  | JObj [] => Ok false
  | JObj m =>
      if negb (forallb (λ k, one_of k m.*1) required) then Ok false
      else
        measured ← all_res (λ k, numeric (default JNull (assoc k m))) required;
        if negb measured then Ok false
        else all_res (λ kv, n ← numeric (snd kv); Ok ((n : bool) || configured_text (fst kv) (snd kv))) m
  | _ => if truthy metrics then unmeasured required metrics else Ok false
  end.

(** ** Reading what the benchmarks printed *)

(** src: tool/benchmarks/run_benchmark_suite.py:359-359 run_odbc_hot_paths_flutter_test *)
Definition HOT_KEYS : list string := ["p50_us"; "p95_us"; "p99_us"; "input_payload_bytes"].

(** src: tool/benchmarks/run_benchmark_suite.py:356-362 run_odbc_hot_paths_flutter_test *)
Definition hot_scenario (m : metrics) (scenario : json) : res metrics :=
  match scenario with
  | JObj d =>
      match assoc "scenario" d with
      | Some (JStr name) =>
          fold_res (λ m key, set_number (name +:+ "." +:+ key) (default JNull (assoc key d)) m) HOT_KEYS m
      | _ => Ok m
      end
  | _ => Ok m
  end.

(** src: tool/benchmarks/run_benchmark_suite.py:349-362 run_odbc_hot_paths_flutter_test *)
Definition hot_line (m : metrics) (line : string) : res metrics :=
  match loads (strip_shell_log_prefix line) with
  | Ok (JObj d) =>
      if jeq (default JNull (assoc "benchmark" d)) (JStr "odbc_hot_paths") then
        scenarios ← items_of (default (JArr []) (assoc "scenarios" d)); fold_res hot_scenario scenarios m
      else Ok m
  | Ok _ | Raise JSONDecodeError => Ok m
  | Raise e => Raise e
  end.

(** src: tool/benchmarks/run_benchmark_suite.py:388-392 run_gateway_encoding_tool *)
Definition tool_scenario (m : metrics) (scenario : json) : res metrics :=
  name ← jget_or_null "scenario" scenario;
  median ← jget_or_null "median_us" scenario;
  match name with
  | JStr name => set_number ("median_us_" +:+ name) median m
  | _ => Ok m
  end.

(** src: tool/benchmarks/run_benchmark_suite.py:385-394 run_gateway_encoding_tool
    [payload.get("scenarios", \[\])] of the whole output; a text that is no JSON
    is reported by [None]. *)
Definition tool_metrics (output : string) : res (option metrics) :=
  match loads output with
  | Ok payload =>
      scenarios ← jget_default "scenarios" (JArr []) payload; scenarios ← items_of scenarios;
      m ← fold_res tool_scenario scenarios []; Ok (Some m)
  | Raise JSONDecodeError => Ok None
  | Raise e => Raise e
  end.

(** ** Suites *)

(** src: tool/benchmarks/run_benchmark_suite.py:437-445 run_transport_flutter_test
    The dict of a suite that ran a program. *)
Definition suite_of (id kind status : string) (wall : json) (exit_code : Z) (log_path : string) (m : dict) : dict :=
  [("id", JStr id); ("kind", JStr kind); ("status", JStr status); ("wall_ms", wall); ("exit_code", JInt exit_code);
   ("log_file", JStr (path_name log_path)); ("metrics", JObj m)].

(** src: tool/benchmarks/run_benchmark_suite.py:580-586 skipped_suite *)
Definition skipped_suite (suite_id kind reason : string) : dict :=
  [("id", JStr suite_id); ("kind", JStr kind); ("status", JStr "skipped"); ("reason", JStr reason)].

(** The text of a key of a suite. *)
Definition text_of (key : string) (suite : dict) : string :=
  match assoc key suite with Some (JStr s) => s | _ => EmptyString end.
Definition status_of (suite : dict) : string := text_of "status" suite.
Definition has_status (status : string) (suite : dict) : bool := status_of suite == status.

Section suite.
Context `{Host} `{Filesystem} `{SignpathStaging.RealPath} `{Tar} `{Platform} `{Clock}.

(** src: tool/py/benchmark_common.py:21-21 BASELINE_PATH *)
Definition BASELINE_PATH : string := BENCHMARKS_DIR // "baseline" // "summary.json".
(** src: tool/py/benchmark_common.py:25-25 SCHEMA_PATH *)
Definition SCHEMA_PATH : string := BENCHMARKS_DIR // "schema" // "summary.schema.json".

(** src: tool/benchmarks/run_benchmark_suite.py:139-263 build_suite_plans *)
Definition build_suite_plans : M (list plan) :=
  env ← get_env;
  let plans :=
    [flutter_plan "transport_pipeline" TRANSPORT_TEST true None;
     flutter_plan "plug_agente_stack" PLUG_AGENTE_STACK_TEST true None;
     flutter_plan "odbc_hot_paths" ODBC_HOT_PATHS_TEST (switched_on env "BENCHMARK_ODBC_HOT_PATHS")
       (Some "set BENCHMARK_ODBC_HOT_PATHS=1 to run the local ODBC hot-path benchmark");
     Plan "transport_pipeline_json" "dart_tool" true None transport_json_command None] in
  if odbc_dsn_configured env then
    odbc_root ← resolve_dart_odbc_fast_root false;
    let odbc id := match odbc_root with
                   | None => skipped_plan id "dart_odbc_fast" "DART_ODBC_FAST_ROOT not found (set env or clone dart_odbc_fast)"
                   | Some root => Plan id "dart_odbc_fast" true None [] (Some root)
                   end in
    mret (plans ++ [odbc "odbc_async"; odbc "odbc_streaming"] ++
          (if switched_on env "BENCHMARK_GATEWAY_ENCODING"
           then [flutter_plan "odbc_gateway_encoding" GATEWAY_ENCODING_TEST true None] else []))
  else
    let reason := "ODBC_TEST_DSN / ODBC_DSN not configured in .env" in
    mret (plans ++ [skipped_plan "odbc_async" "dart_odbc_fast" reason; skipped_plan "odbc_streaming" "dart_odbc_fast" reason]).

(** src: tool/benchmarks/run_benchmark_suite.py:272-280 print_dry_run *)
Definition print_plan (p : plan) : M unit :=
  _ ← print ("- [" +:+ (if p_enabled p then "would run" else "skip") +:+ "] " +:+ p_id p +:+ " (" +:+ p_kind p +:+ ")");
  _ ← match p_enabled p, p_command p with
      | true, _ :: _ => print ("    command: " +:+ join " " (p_command p))
      | _, _ => mret tt
      end;
  _ ← match p_enabled p, p_package_root p with
      | true, Some root => print ("    package_root: " +:+ path_str root)
      | _, _ => mret tt
      end;
  when (negb (p_enabled p)) (print ("    reason: " +:+ default "disabled" (p_skip_reason p))).

(** src: tool/benchmarks/run_benchmark_suite.py:266-280 print_dry_run *)
Definition print_dry_run (plans : list plan) : M unit :=
  _ ← print "Benchmark suite dry-run";
  _ ← print ("Project root: " +:+ path_str PROJECT_ROOT);
  _ ← print ("Baseline: " +:+ path_str BASELINE_PATH);
  _ ← print ("Schema: " +:+ path_str SCHEMA_PATH);
  _ ← print EmptyString;
  for_M print_plan plans.

(** src: tool/benchmarks/run_benchmark_suite.py:427-434 run_transport_flutter_test
    A program, timed, with its exit code and what its log holds. *)
Definition timed_program (command : list string) (log_path : string) : M (Z * json * string) :=
  started ← perf_now;
  exit_code ← run_streaming command (Some PROJECT_ROOT) None (Some log_path);
  ended ← perf_now;
  output ← read_log log_path;
  mret (exit_code, JFloat (round2 (fmul (fsub ended started) (f_lit "1000.0"))), output).
(** src: tool/benchmarks/run_benchmark_suite.py:429-429 run_transport_flutter_test *)
Definition flutter_command (test : string) : list string := ["flutter"; "test"; test; "--tags"; "perf"].
(** src: tool/benchmarks/run_benchmark_suite.py:436-436 run_transport_flutter_test *)
Definition pass_or (exit_code : Z) (status : string) : string := if exit_code =? 0 then "pass" else status.

(** src: tool/benchmarks/run_benchmark_suite.py:426-445 run_transport_flutter_test *)
Definition run_transport_flutter_test (log_path : string) : M dict :=
  '(exit_code, wall, output) ← timed_program (flutter_command TRANSPORT_TEST) log_path;
  m ← lift (parse_transport_markdown_metrics output);
  mret (suite_of "transport_pipeline" "flutter_test" (pass_or exit_code "fail") wall exit_code log_path (of_metrics m)).

(** src: tool/benchmarks/run_benchmark_suite.py:317-336 run_plug_agente_stack_flutter_test *)
Definition run_plug_agente_stack_flutter_test (log_path : string) : M dict :=
  '(exit_code, wall, output) ← timed_program (flutter_command PLUG_AGENTE_STACK_TEST) log_path;
  m ← lift (parse_plug_agente_stack_metrics output);
  mret (suite_of "plug_agente_stack" "flutter_test" (pass_or exit_code "fail") wall exit_code log_path (of_metrics m)).

(** src: tool/benchmarks/run_benchmark_suite.py:339-371 run_odbc_hot_paths_flutter_test *)
Definition run_odbc_hot_paths_flutter_test (log_path : string) : M dict :=
  '(exit_code, wall, output) ← timed_program (flutter_command ODBC_HOT_PATHS_TEST) log_path;
  m ← lift (fold_res hot_line (splitlines output) []);
  let status := if exit_code =? 0 then match m with [] => "inconclusive" | _ => "pass" end else "fail" in
  mret (suite_of "odbc_hot_paths" "flutter_test" status wall exit_code log_path (of_metrics m)).

(** src: tool/benchmarks/run_benchmark_suite.py:374-403 run_gateway_encoding_tool *)
Definition run_gateway_encoding_tool (log_path : string) : M dict :=
  '(exit_code, wall, output) ← timed_program ["dart"; "run"; GATEWAY_ENCODING_TOOL; "--json"] log_path;
  found ← lift (if exit_code =? 0 then tool_metrics output else Ok None);
  let status := match found with Some _ => "pass" | None => "error" end in
  mret (suite_of "odbc_gateway_encoding" "dart_tool" status wall exit_code log_path (of_metrics (default [] found))).

(** src: tool/benchmarks/run_benchmark_suite.py:448-493 run_transport_json_tool *)
Definition run_transport_json_tool (log_path : string) : M dict :=
  '(exit_code, wall, output) ← timed_program transport_json_command log_path;
  m ← lift (if exit_code =? 0
            then match loads output with
                 | Ok payload => parse_transport_json_metrics payload
                 | Raise JSONDecodeError => Ok []
                 | Raise e => Raise e
                 end
            else Ok []);
  let '(status, reason) :=
    if exit_code =? 0 then ("pass", [])
    else if is_dart_ffi_compile_failure exit_code output then ("skipped", [("reason", JStr DART_TOOL_SKIP_REASON)])
    else ("error", []) in
  mret (suite_of "transport_pipeline_json" "dart_tool" status wall exit_code log_path (of_metrics m) ++ reason).

(** src: tool/benchmarks/run_benchmark_suite.py:536-564 _odbc_fast_package_metrics *)
Definition odbc_fast_package_metrics (package_root : string) : M dict :=
  let pubspec := package_root // "pubspec.yaml" in
  here ← is_file pubspec;
  version ← (if (here : bool) then
               text ← read_text pubspec;
               mret (match re_search version_re text with Some mo => [("package_version", JStr (group_str 1 mo))] | None => [] end)
             else mret []);
  let manifest := path_parent package_root // "manifest.json" in
  built ← (if path_name package_root == "source" then is_file manifest else mret false);
  if (built : bool) then
    text ← read_text manifest;
    provenance ← lift (loads text);
    revision ← lift (jitem "revision" provenance);
    hash ← lift (jitem "sha256" provenance);
    mret (version ++ [("package_revision", revision); ("native_sha256", hash)])
  else
    revision ← try_catch
      (r ← run_proc ["git"; "rev-parse"; "--short=12"; "HEAD"] package_root;
       mret (if (returncode r =? 0) && nonempty (strip (stdout r)) then [("package_revision", JStr (strip (stdout r)))] else []))
      is_OSError (λ _, mret []);
    mret (version ++ revision).

(** src: tool/benchmarks/run_benchmark_suite.py:567-577 _odbc_fast_comparison_identity *)
Definition odbc_fast_comparison_identity (package_root : option string) : M dict :=
  match package_root with
  | None => mret [("package_source", JStr "unresolved")]
  | Some root =>
      metadata ← odbc_fast_package_metrics root;
      mret (("package_source", JStr "odbc_fast") ::
            omap (λ key, match assoc key metadata with
                         | Some JNull | None => None
                         | Some v => Some (key, v)
                         end) ["package_version"; "package_revision"; "native_sha256"])
  end.

(** src: tool/benchmarks/run_benchmark_suite.py:283-314 run_gateway_encoding_flutter_test *)
Definition run_gateway_encoding_flutter_test (log_path : string) : M dict :=
  '(exit_code, wall, output) ← timed_program (flutter_command GATEWAY_ENCODING_TEST) log_path;
  m ← lift (parse_gateway_encoding_metrics output);
  let empty := match m with [] => true | _ => false end in
  let skipping := contains output "Skipping:" in
  let status := if negb (exit_code =? 0) then "fail" else if empty then (if skipping then "skipped" else "error") else "pass" in
  package_root ← resolve_dart_odbc_fast_root true;
  identity ← odbc_fast_comparison_identity package_root;
  dsn ← getenv_or "ODBC_DSN" EmptyString;
  dsn ← getenv_or "ODBC_TEST_DSN" dsn;
  let identity := assoc_set "benchmark_profile" (JStr "gateway_materialized_rowMajor_v2") identity in
  let identity := assoc_set "driver_family" (JStr (get_dsn_driver_family dsn)) identity in
  mret (suite_of "odbc_gateway_encoding" "flutter_test" status wall exit_code log_path (of_metrics m) ++
        [("comparison_identity", JObj identity)] ++
        (if status == "skipped" then [("reason", JStr "ODBC DSN not configured in test env")] else [])).

(** src: tool/benchmarks/run_benchmark_suite.py:522-522 run_odbc_suite *)
Definition SIZE_SUFFIXES : list string :=
  [".rows"; ".workers"; ".query_count"; ".pool_size"; ".max_in_flight"; ".fetch_size"; ".chunk_size"].

(** src: tool/benchmarks/run_benchmark_suite.py:506-507 run_odbc_suite
    The repetitions that the report names; a log without a report is an error. *)
Definition sample_repeats (output : string) : res string :=
  report ← extract_json_object_from_output output;
  match report with
  | Some d => Ok (str_of (default (JStr "unknown") (assoc "repeats" d)))
  | None => Raise (AttributeError "get")
  end.

(** src: tool/benchmarks/run_benchmark_suite.py:508-517 run_odbc_suite *)
Definition streaming_identity (suite_id : string) (m identity : dict) : res dict :=
  if suite_id == "odbc_streaming" then
    fold_res (λ identity key,
      let v := default JNull (assoc key m) in
      if is_number v then z ← int_of_json v; Ok (assoc_set key (JStr (py_str_int z)) identity) else Ok identity)
      ["streamQueryBatched.rows"; "streamQueryBatched.fetch_size"; "streamQueryBatched.chunk_size"]
      (assoc_set "benchmark_profile" (JStr "native_streaming_v2") identity)
  else Ok identity.

(** src: tool/benchmarks/run_benchmark_suite.py:519-523 run_odbc_suite *)
Definition sized_identity (m identity : dict) : dict :=
  let identity := set_default "benchmark_profile" (JStr "native_async_v2") identity in
  let identity := assoc_set "workload" (JStr "deterministic_8000_rows_v1") identity in
  foldl (λ identity kv, if existsb (endswith (fst kv)) SIZE_SUFFIXES
                        then assoc_set (fst kv) (JStr (str_of (snd kv))) identity else identity) identity m.

(** src: tool/benchmarks/run_benchmark_suite.py:496-533 run_odbc_suite *)
Definition run_odbc_suite (suite_id package_root log_path : string) : M dict :=
  found ← resolve_dart_odbc_fast_root true;
  let package_root := default package_root found in
  let runner := if suite_id == "odbc_async" then run_odbc_async_benchmark else run_odbc_streaming_benchmark in
  '(exit_code, measured, output) ← runner (Request package_root log_path [] None None);
  streamed ← lift (if suite_id == "odbc_streaming" then parse_odbc_streaming_benchmark_metrics output else Ok []);
  package ← odbc_fast_package_metrics package_root;
  let m := update (update (of_metrics measured) (of_metrics streamed)) package in
  identity ← odbc_fast_comparison_identity (Some package_root);
  family ← resolve_benchmark_driver_family None;
  repeats ← lift (sample_repeats output);
  identity ← lift (streaming_identity suite_id m
    (assoc_set "sample_repeats" (JStr repeats) (assoc_set "driver_family" (JStr family) identity)));
  let status := if exit_code =? 0 then "pass" else if exit_code =? 2 then "inconclusive" else "fail" in
  wall ← lift (round2_json (default (JFloat f_zero) (assoc "wall_ms" m)));
  mret (suite_of suite_id "dart_odbc_fast" status wall exit_code log_path m ++
        [("comparison_identity", JObj (sized_identity m identity))]).

(** src: tool/benchmarks/run_benchmark_suite.py:406-423 enforce_columnar_speedup_gate *)
Definition enforce_columnar_speedup_gate (suites : list dict) : M Z :=
  raw ← getenv_or "BENCHMARK_COLUMNAR_MIN_SPEEDUP" EmptyString;
  let raw := strip raw in
  if negb (nonempty raw) then mret 0
  else match py_float raw with
       | None => _ ← eprint ("Invalid BENCHMARK_COLUMNAR_MIN_SPEEDUP: " +:+ raw); mret 2
       | Some min_speedup =>
           if negb (isfinite min_speedup) || fleb min_speedup f_zero then mret 2
           else match List.find (λ s, text_of "id" s == "odbc_async") suites with
                | Some native =>
                    if has_status "pass" native then mret 0
                    else _ ← eprint "Columnar gate inconclusive: valid native async measurements required"; mret 2
                | None => _ ← eprint "Columnar gate inconclusive: valid native async measurements required"; mret 2
                end
       end.

(** src: tool/benchmarks/run_benchmark_suite.py:628-635 harness_identity
    [sorted(directory.glob("*.dart"))] and the tests, each with its content. *)
Definition harness_identity : M string :=
  w ← get_world;
  let tools := List.filter (λ p, endswith (path_key (path_name p)) ".dart") (iterdir (PROJECT_ROOT // "tool/benchmarks") w) in
  let paths := (sort_keys ((λ p, (path_key p, p)) <$> tools)).*2 ++
               (path_join PROJECT_ROOT <$> [TRANSPORT_TEST; PLUG_AGENTE_STACK_TEST; GATEWAY_ENCODING_TEST; ODBC_HOT_PATHS_TEST]) in
  entries ← map_M (source_entry PROJECT_ROOT) paths;
  mret (sha256_hex (digest_text entries)).

(** ** The run *)

(** src: tool/benchmarks/run_benchmark_suite.py:744-758 main
    The suite of an enabled plan. *)
Definition run_plan (p : plan) (log_path : string) : M dict :=
  if p_id p == "transport_pipeline" then run_transport_flutter_test log_path
  else if p_id p == "plug_agente_stack" then run_plug_agente_stack_flutter_test log_path
  else if p_id p == "odbc_hot_paths" then run_odbc_hot_paths_flutter_test log_path
  else if p_id p == "transport_pipeline_json" then run_transport_json_tool log_path
  else if p_id p == "odbc_gateway_encoding" then run_gateway_encoding_flutter_test log_path
  else match p_package_root p with
       | Some root => if p_kind p == "dart_odbc_fast" then run_odbc_suite (p_id p) root log_path
                      else mret (skipped_suite (p_id p) (p_kind p) "unsupported plan")
       | None => if p_kind p == "dart_odbc_fast" then raise (KeyError "package_root")
                 else mret (skipped_suite (p_id p) (p_kind p) "unsupported plan")
       end.

(** src: tool/benchmarks/run_benchmark_suite.py:738-759 main
    A plan, run or skipped. *)
Definition perform (output_dir : string) (p : plan) : M dict :=
  if p_enabled p then run_plan p (output_dir // (p_id p +:+ ".log"))
  else mret (skipped_suite (p_id p) (p_kind p) (default "disabled" (p_skip_reason p))).

(** src: tool/benchmarks/run_benchmark_suite.py:776-776 main *)
Definition DRIVER_KEYS : list string := ["driver_name"; "driver_version"; "dbms_name"; "dbms_version"].

(** src: tool/benchmarks/run_benchmark_suite.py:772-776 main
    What the report in the log says of the driver. *)
Definition driver_identity (output_dir : string) (suite : dict) : M dict :=
  if nonempty (text_of "log_file" suite) then
    text ← read_text (output_dir // text_of "log_file" suite);
    payload ← lift (extract_json_object_from_output text);
    mret (match payload with
          | Some d => match assoc "driver" d with
                      | Some (JObj driver) =>
                          (λ kv, (fst kv, JStr (str_of (snd kv)))) <$> List.filter (λ kv : string * json, one_of (fst kv) DRIVER_KEYS) driver
                      | _ => []
                      end
          | None => []
          end)
  else mret [].

Definition metadata_json (m : metadata) : json :=
  JObj [("category", JStr (category m)); ("unit", JStr (unit_name m)); ("direction", JStr (direction m))].

(** src: tool/benchmarks/run_benchmark_suite.py:764-766 main
    A suite passes only with all it must measure. *)
Definition judge_suite (suite : dict) : res dict :=
  complete ← (if has_status "pass" suite then complete_suite_metrics suite else Ok true);
  Ok (if complete : bool then suite
      else assoc_set "reason" (JStr "Required benchmark metrics missing") (assoc_set "status" (JStr "inconclusive") suite)).

(** src: tool/benchmarks/run_benchmark_suite.py:767-777 main
    The identity of what was compared, and the meaning of the metrics. *)
Definition identify_suite (output_dir : string) (suite : dict) : M dict :=
  if has_status "skipped" suite then mret suite
  else
    let own := the_dict (default (JObj [("benchmark_profile", JStr (text_of "id" suite +:+ "_v2"))]) (assoc "comparison_identity" suite)) in
    harness ← harness_identity;
    env ← get_env;
    driver ← driver_identity output_dir suite;
    let identity := assoc_set "harness_sha256" (JStr harness) own in
    let identity := assoc_set "parameters_sha256" (JStr (sha256_hex (dumps_flat (collect_env_flags env)))) identity in
    mret (assoc_set "metric_metadata" (JObj ((λ kv, (fst kv, metadata_json (metric_metadata (fst kv)))) <$> metrics_of suite))
            (assoc_set "comparison_identity" (JObj (update identity driver)) suite)).

(** src: tool/benchmarks/run_benchmark_suite.py:763-777 main *)
Definition finish_suite (output_dir : string) (suite : dict) : M dict :=
  suite ← lift (judge_suite suite); identify_suite output_dir suite.

(** src: tool/benchmarks/run_benchmark_suite.py:778-778 main *)
Definition qualification (had_failure : bool) (suites : list dict) : string :=
  if had_failure then "fail"
  else if negb (existsb (has_status "pass") suites) || existsb (has_status "inconclusive") suites then "inconclusive"
  else "pass".

(** [os.path.relpath(path, start)]; [None] for different drives. *)
Fixpoint drop_common (a b : list string) : list string * list string :=
  match a, b with
  | x :: a', y :: b' => if same_path x y then drop_common a' b' else (a, b)
  | _, _ => (a, b)
  end.
(** src: tool/benchmarks/run_benchmark_suite.py:779-782 main *)
Definition relpath (path start : string) : option string :=
  let '(p, s) := (split_char "/" (abspath path), split_char "/" (abspath start)) in
  if host_nt && negb (same_path (hd EmptyString p) (hd EmptyString s)) then None
  else
    let '(p, s) := drop_common p s in
    Some (match ((λ _, "..") <$> s) ++ p with [] => "." | parts => join "/" parts end).

(** src: tool/benchmarks/run_benchmark_suite.py:802-807 main
    The controlled comparison that a run carries. *)
Definition judge_comparison (git comparison : json) : res json :=
  commit ← jitem "commit_sha" git;
  digest ← jitem "source_sha256" git;
  candidate ← jget_or_null "candidate" comparison;
  let inconclusive reason := JObj [("status", JStr "inconclusive"); ("reason", JStr reason)] in
  if negb (jeq candidate (JObj [("commit_sha", commit); ("source_sha256", digest)])) then
    Ok (inconclusive "Controlled comparison measures a different candidate source")
  else
    status ← jget_or_null "status" comparison;
    if jeq status (JStr "pass") then
      approved ← approved_controlled_comparison comparison;
      Ok (if approved : bool then comparison else inconclusive "Controlled comparison is incomplete or violates required gates")
    else Ok comparison.

(** src: tool/benchmarks/run_benchmark_suite.py:800-807 main *)
Definition attached_comparison (report : string) (git : json) : M json :=
  if nonempty report then
    text ← read_text (posix report);
    comparison ← lift (loads text);
    lift (judge_comparison git comparison)
  else mret (JObj [("status", JStr "inconclusive"); ("reason", JStr "No controlled comparison attached")]).

(** ** The report *)

(** The first line of the report has a character outside the model's alphabet:
    these are its bytes in UTF-8. *)
Definition report_title : string := "# Relatório de benchmark — plug_agente".
Definition o_acute : string := chr 243.
Definition e_acute : string := chr 233.
Definition c_cedilla : string := chr 231.
Definition a_tilde : string := chr 227.

(** src: tool/benchmarks/run_benchmark_suite.py:657-657 render_report
    [f"{v:.2f}"] of a number. *)
Definition two_digits (v : json) : res string :=
  if is_number v then f ← real_of_json v; Ok (fixed false 2 f) else Raise (ValueError "Unknown format code 'f'").

(** src: tool/benchmarks/run_benchmark_suite.py:653-667 render_report *)
Definition suite_lines (suite : dict) : res (list string) :=
  wall ← match assoc "wall_ms" suite with
         | Some v => t ← two_digits v; Ok ["- Wall time: " +:+ t +:+ " ms"]
         | None => Ok []
         end;
  let line label key := if nonempty (text_of key suite) then [label +:+ text_of key suite] else [] in
  Ok (["### " +:+ text_of "id" suite; "- Status: **" +:+ status_of suite +:+ "**"] ++ wall ++
      line "- Motivo: " "reason" ++
      (if nonempty (text_of "log_file" suite) then ["- Log: `" +:+ text_of "log_file" suite +:+ "`"] else []) ++
      match metrics_of suite with
      | [] => []
      | m => ("- M" +:+ e_acute +:+ "tricas:") ::
             ((λ kv, "  - `" +:+ fst kv +:+ "`: " +:+ str_of (snd kv)) <$> sort_keys m)
      end ++ [EmptyString]).

(** What the report says of a summary. *)
Record overview : Type := Overview {
  o_run_id : string; o_captured : string; o_git : json; o_machine : json; o_qualification : string; o_comparison : json }.

(** src: tool/benchmarks/run_benchmark_suite.py:638-680 render_report
    The text behind the title. *)
Definition render_report (o : overview) (suites : list dict) : res string :=
  commit ← jitem "commit_sha" (o_git o);
  branch ← jitem "branch" (o_git o);
  dirty ← jitem "dirty" (o_git o);
  platform ← jitem "platform" (o_machine o);
  status ← jitem "status" (o_comparison o);
  body ← res_map suite_lines suites;
  Ok (join nl ([EmptyString; EmptyString;
    "- Run ID: `" +:+ o_run_id o +:+ "`";
    "- Capturado em: " +:+ o_captured o;
    "- Commit: `" +:+ str_of commit +:+ "` (" +:+ str_of branch +:+ ")";
    "- Working tree dirty: " +:+ str_of dirty;
    "- Plataforma: " +:+ str_of platform;
    "- Validade das medi" +:+ c_cedilla +:+ chr 245 +:+ "es: **" +:+ o_qualification o +:+ "**";
    "- Compara" +:+ c_cedilla +:+ a_tilde +:+ "o controlada: **" +:+ str_of status +:+ "**";
    EmptyString; "## Suites"; EmptyString] ++ concat body ++
   ["## Compara" +:+ c_cedilla +:+ a_tilde +:+ "o com baseline"; EmptyString; "```bash";
    "python tool/benchmarks/compare_benchmark_summary.py \";
    "  --baseline benchmarks/baseline/summary.json \";
    "  --current benchmarks/results/" +:+ o_run_id o +:+ "/summary.json"; "```"; EmptyString])).

(** ** The command *)

(** src: tool/benchmarks/run_benchmark_suite.py:685-717 main
    The options, with the texts that argparse gives by default. *)
Record args : Type := Args {
  a_comparison_report : string; a_dry_run : bool; a_env_path : string; a_output_dir : string; a_only : string;
  a_skip_dart_tool : bool; a_compare_baseline : bool; a_compare_threshold : float }.

(** src: tool/benchmarks/run_benchmark_suite.py:720-720 main *)
Definition chosen_ids (a : args) : option (list string) :=
  match List.filter nonempty (strip <$> split_char "," (a_only a)) with [] => None | ids => Some ids end.

(** src: tool/benchmarks/run_benchmark_suite.py:719-727 main
    The plans of the run; an unknown suite is a usage error. *)
Definition planned (a : args) : M (list plan) :=
  _ ← bootstrap_env (resolve_env_path (a_env_path a));
  _ ← match chosen_ids a with
      | Some ids => plans ← build_suite_plans;
                    raise_when (negb (forallb (λ id, one_of id (p_id <$> plans)) ids)) (SystemExit (ExitCode 2))
      | None => mret tt
      end;
  plans ← build_suite_plans;
  mret (filter_suite_plans plans (chosen_ids a) (a_skip_dart_tool a)).

(** src: tool/benchmarks/run_benchmark_suite.py:783-799 main
    The summary of a run: the qualification is known, the comparison attached. *)
Definition summary_of (schema : string) (o : overview) (dependencies : list (string * string)) (flags : dict)
    (suites : list dict) : json :=
  JObj [("$schema", JStr schema); ("schema_version", JInt SCHEMA_VERSION); ("qualification", JStr (o_qualification o));
        ("comparison", o_comparison o); ("run_id", JStr (o_run_id o)); ("captured_at", JStr (o_captured o));
        ("git", o_git o); ("machine", o_machine o);
        ("dependencies", JObj ((λ kv, (fst kv, JStr (snd kv))) <$> dependencies)); ("env_flags", JObj flags);
        ("suites", JArr (JObj <$> suites));
        ("notes", JArr [JStr "Ephemeral run output; compare against benchmarks/baseline/summary.json.";
                        JStr "Legacy benchmark_logs/ format is not schema-compatible with this summary."])].

(** src: tool/benchmarks/run_benchmark_suite.py:778-807 main
    The summary of the finished suites. *)
Definition summarize (a : args) (run_id output_dir : string) (had_failure : bool) (suites : list dict) : M (json * overview) :=
  let schema := default (posix SCHEMA_PATH) (relpath SCHEMA_PATH output_dir) in
  captured ← captured_at_now;
  git ← collect_git_metadata;
  machine ← collect_machine_metadata;
  dependencies ← collect_dependency_versions PROJECT_ROOT;
  env ← get_env;
  comparison ← attached_comparison (a_comparison_report a) git;
  let o := Overview run_id captured git machine (qualification had_failure suites) comparison in
  mret (summary_of schema o dependencies (collect_env_flags env) suites, o).

(** src: tool/benchmarks/run_benchmark_suite.py:809-817 main *)
Definition publish (output_dir : string) (summary : json) (o : overview) (suites : list dict) : M unit :=
  let summary_path := output_dir // "summary.json" in
  let report_path := output_dir // "REPORT.md" in
  _ ← write_json summary_path summary;
  text ← lift (render_report o suites);
  _ ← write_bytes report_path (report_title +:+ utf8_encode (to_linesep host_nt text));
  _ ← print EmptyString;
  _ ← print ("Benchmark run complete: " +:+ path_str output_dir);
  _ ← print ("  summary: " +:+ path_str summary_path);
  print ("  report:  " +:+ path_str report_path).

(** src: tool/benchmarks/run_benchmark_suite.py:834-847 main
    The exit code, once everything is written. *)
Definition conclude (a : args) (compare_exit : Z) (had_failure : bool) (o : overview) (suites : list dict) : M Z :=
  if existsb (λ s, jeq (default JNull (assoc "exit_code" s)) (JInt 3)) suites then mret 3
  else
    columnar ← enforce_columnar_speedup_gate suites;
    if negb (columnar =? 0) then mret columnar
    else if negb (compare_exit =? 0) then mret compare_exit
    else
      status ← lift (jget_or_null "status" (o_comparison o));
      if nonempty (a_comparison_report a) && negb (jeq status (JStr "pass")) then
        mret (if jeq status (JStr "fail") then 1 else 2)
      else mret (if had_failure then 1 else if o_qualification o == "inconclusive" then 2 else 0).

(** src: tool/benchmarks/run_benchmark_suite.py:683-847 main *)
Definition main (a : args) : M Z :=
  plans ← planned a;
  if a_dry_run a then _ ← print_dry_run plans; mret 0
  else
    run_id ← run_id_now;
    let output_dir := if nonempty (a_output_dir a) then posix (a_output_dir a) else RESULTS_DIR // run_id in
    _ ← mkdir output_dir;
    performed ← map_M (perform output_dir) plans;
    let had_failure := existsb (λ s, has_status "fail" s || has_status "error" s) performed in
    suites ← map_M (finish_suite output_dir) performed;
    '(summary, o) ← summarize a run_id output_dir had_failure suites;
    _ ← publish output_dir summary o suites;
    compare_exit ← (if a_compare_baseline a
                    then CompareBenchmark.main (CompareBenchmark.Args BASELINE_PATH (Some (output_dir // "summary.json")) (a_compare_threshold a))
                    else mret 0);
    conclude a compare_exit had_failure o suites.
End suite.

(** ** What a run leaves of its suites *)

Definition STATUSES : list string := ["pass"; "fail"; "error"; "skipped"; "inconclusive"].
(** A suite of this plan; one that passes ended with exit code 0. *)
Definition suite_for (id : string) (suite : dict) : Prop :=
  text_of "id" suite = id ∧ status_of suite ∈ STATUSES ∧
  (has_status "pass" suite = true → assoc "exit_code" suite = Some (JInt 0)).

Lemma suite_for_program id kind status wall exit_code log_path m extra : status ∈ STATUSES →
  (status = "pass" → exit_code = 0) → suite_for id (suite_of id kind status wall exit_code log_path m ++ extra).
Proof. intros Hs Hp. split_and!; [done|done|]. intros Ht%String.eqb_eq. cbn in Ht |- *. by rewrite (Hp Ht). Qed.

Lemma suite_for_skipped id kind reason : suite_for id (skipped_suite id kind reason).
Proof. split_and!; [done| |done]. unfold STATUSES. cbn. set_solver. Qed.

Lemma pass_or_status exit_code status : status ∈ STATUSES → status ≠ "pass" →
  pass_or exit_code status ∈ STATUSES ∧ (pass_or exit_code status = "pass" → exit_code = 0).
Proof. unfold pass_or. intros Hs Hne. destruct (Z.eqb_spec exit_code 0); split; try done. unfold STATUSES. set_solver. Qed.

Section run.
Context `{Host} `{Filesystem} `{SignpathStaging.RealPath} `{Tar} `{Platform} `{Clock}.

Lemma run_plan_suite p log_path w suite w' : runs (run_plan p log_path) w suite w' → suite_for (p_id p) suite.
Proof.
  assert (Hstatus : ∀ s, s ∈ ["fail"; "error"; "skipped"; "inconclusive"] → s ∈ STATUSES ∧ s ≠ "pass").
  { intros s. unfold STATUSES. rewrite !elem_of_cons, elem_of_nil. naive_solver. }
  unfold run_plan. intros Hr.
  destruct (String.eqb_spec (p_id p) "transport_pipeline") as [->|_].
  { unfold run_transport_flutter_test in Hr. apply runs_bind in Hr as ([[code wall] output] & ? & _ & Hr). inv_runs.
    rewrite <- (app_nil_r (suite_of _ _ _ _ _ _ _)). apply suite_for_program; apply pass_or_status; apply Hstatus; set_solver. }
  destruct (String.eqb_spec (p_id p) "plug_agente_stack") as [->|_].
  { unfold run_plug_agente_stack_flutter_test in Hr. apply runs_bind in Hr as ([[code wall] output] & ? & _ & Hr). inv_runs.
    rewrite <- (app_nil_r (suite_of _ _ _ _ _ _ _)). apply suite_for_program; apply pass_or_status; apply Hstatus; set_solver. }
  destruct (String.eqb_spec (p_id p) "odbc_hot_paths") as [->|_].
  { unfold run_odbc_hot_paths_flutter_test in Hr. apply runs_bind in Hr as ([[code wall] output] & ? & _ & Hr). inv_runs.
    rewrite <- (app_nil_r (suite_of _ _ _ _ _ _ _)).
    destruct (Z.eqb_spec code 0); [|apply suite_for_program; [apply Hstatus; set_solver|done]].
    case_match; apply suite_for_program; try done; unfold STATUSES; set_solver. }
  destruct (String.eqb_spec (p_id p) "transport_pipeline_json") as [->|_].
  { unfold run_transport_json_tool in Hr. apply runs_bind in Hr as ([[code wall] output] & ? & _ & Hr). inv_runs.
    destruct (Z.eqb_spec code 0); [|destruct (is_dart_ffi_compile_failure _ _)]; inv_runs; apply suite_for_program; try done;
      unfold STATUSES; set_solver. }
  destruct (String.eqb_spec (p_id p) "odbc_gateway_encoding") as [->|_].
  { unfold run_gateway_encoding_flutter_test in Hr. apply runs_bind in Hr as ([[code wall] output] & ? & _ & Hr). inv_runs.
    apply suite_for_program; destruct (Z.eqb_spec code 0); cbn [negb]; repeat case_match; try done; unfold STATUSES; set_solver. }
  destruct (p_package_root p) as [root|], (_ == "dart_odbc_fast");
    try (by apply runs_raise in Hr); try (apply runs_ret in Hr as [<- _]; apply suite_for_skipped).
  unfold run_odbc_suite in Hr. inv_runs. destruct a0 as [[code measured] output]. inv_runs.
  apply suite_for_program; destruct (Z.eqb_spec code 0); try done; repeat case_match; unfold STATUSES; set_solver.
Qed.

Lemma perform_suite output_dir p w suite w' : runs (perform output_dir p) w suite w' → suite_for (p_id p) suite.
Proof.
  unfold perform. destruct (p_enabled p); [apply run_plan_suite|]. intros [<- _]%runs_ret. apply suite_for_skipped.
Qed.

(** A finished suite: it passes only with everything it must measure. *)
Definition finished (id : string) (suite : dict) : Prop :=
  suite_for id suite ∧ (has_status "pass" suite = true → complete_suite_metrics suite = Ok true).

Lemma text_of_other key k v suite : key ≠ k → text_of key (assoc_set k v suite) = text_of key suite.
Proof. intros. unfold text_of. by rewrite assoc_set_other. Qed.

Lemma complete_other k v suite : k ≠ "id" → k ≠ "metrics" → complete_suite_metrics (assoc_set k v suite) = complete_suite_metrics suite.
Proof. intros. unfold complete_suite_metrics. by rewrite !assoc_set_other. Qed.

Lemma finished_other id k v suite : k ∉ ["id"; "status"; "exit_code"; "metrics"] → finished id suite → finished id (assoc_set k v suite).
Proof.
  intros Hk. rewrite !not_elem_of_cons in Hk. destruct Hk as (? & ? & ? & ? & _). unfold finished, suite_for, has_status, status_of.
  by rewrite !text_of_other, complete_other, assoc_set_other.
Qed.

Lemma judged_finished id suite suite' : suite_for id suite → judge_suite suite = Ok suite' →
  finished id suite' ∧ (status_of suite' = status_of suite ∨ status_of suite' = "inconclusive").
Proof.
  intros Hs (complete & Hc & Hj)%res_bind_Ok. injection Hj as <-. destruct (has_status "pass" suite) eqn:Ep.
  - destruct complete; [split; [by split|by left]|].
    assert (Hst : status_of (assoc_set "reason" (JStr "Required benchmark metrics missing") (assoc_set "status" (JStr "inconclusive") suite)) = "inconclusive").
    { unfold status_of. rewrite text_of_other by done. unfold text_of. by rewrite assoc_set_same. }
    split; [|by right]. split; [|unfold has_status; by rewrite Hst]. destruct Hs as (Hid & _ & _). split_and!.
    + by rewrite !text_of_other.
    + rewrite Hst. unfold STATUSES. set_solver.
    + unfold has_status. by rewrite Hst.
  - injection Hc as <-. split; [|by left]. split; [done|]. by rewrite Ep.
Qed.

Lemma finish_finished output_dir id suite w suite' w' : suite_for id suite → runs (finish_suite output_dir suite) w suite' w' →
  finished id suite' ∧ (status_of suite' = status_of suite ∨ status_of suite' = "inconclusive").
Proof.
  intros Hs Hr. apply runs_bind in Hr as (judged & w1 & [Hj <-]%runs_lift & Hr).
  apply (judged_finished id) in Hj as [Hf Hst]; [|done].
  unfold identify_suite in Hr. destruct (has_status "skipped" judged); [by apply runs_ret in Hr as [<- _]|]. inv_runs.
  split; [apply finished_other; [set_solver|]; apply finished_other; [set_solver|done]|].
  unfold status_of. by rewrite !text_of_other.
Qed.
End run.

(** ** What exit code 0 means *)

(** The columnar gate: a minimum that is set is a positive number, and the
    native asynchronous suite was measured. *)
Definition columnar_ok (suites : list dict) (env : gmap string string) : Prop :=
  let raw := strip (default EmptyString (env !! "BENCHMARK_COLUMNAR_MIN_SPEEDUP")) in
  nonempty raw = true → ∃ min_speedup native, py_float raw = Some min_speedup ∧ isfinite min_speedup = true ∧
    fleb min_speedup f_zero = false ∧ native ∈ suites ∧ text_of "id" native = "odbc_async" ∧ has_status "pass" native = true.

(** The attached comparison is approved, and of the sources that ran. *)
Definition approved_for (git comparison : json) : Prop :=
  approved_controlled_comparison comparison = Ok true ∧
  ∃ commit digest candidate, jitem "commit_sha" git = Ok commit ∧ jitem "source_sha256" git = Ok digest ∧
    jget_or_null "candidate" comparison = Ok candidate ∧
    jeq candidate (JObj [("commit_sha", commit); ("source_sha256", digest)]) = true.

Section verdict.
Context `{Host} `{Filesystem} `{SignpathStaging.RealPath} `{Tar} `{Platform} `{Clock}.

Lemma columnar_zero suites w w' : runs (enforce_columnar_speedup_gate suites) w 0 w' →
  columnar_ok suites (w_env w') ∧ w_fs w' = w_fs w.
Proof.
  intros Hr. apply runs_bind in Hr as (raw & w1 & [<- ->]%runs_getenv_or & Hr). unfold columnar_ok.
  cbv zeta in Hr. set (raw := strip _) in Hr. destruct (nonempty raw) eqn:Ene; cbn [negb] in Hr.
  2: { apply runs_ret in Hr as [_ <-]. split; [|done]. fold raw. by rewrite Ene. }
  destruct (py_float raw) as [speed|] eqn:Ef; [|by inv_runs].
  destruct (negb (isfinite speed) || fleb speed f_zero) eqn:Ebad; [by inv_runs|].
  apply orb_false_iff in Ebad as [Hfin%negb_false_iff Hpos].
  destruct (List.find _ suites) as [native|] eqn:Efind; [|by inv_runs].
  destruct (has_status "pass" native) eqn:Ep; [|by inv_runs]. apply runs_ret in Hr as [_ <-].
  split; [|done]. fold raw. intros _. apply List.find_some in Efind as [Hin%list_elem_of_In Hid%String.eqb_eq]. rewrite Ef.
  by exists speed, native.
Qed.

Lemma judge_pass git comparison comparison' : judge_comparison git comparison = Ok comparison' →
  jget_or_null "status" comparison' = Ok (JStr "pass") → approved_for git comparison'.
Proof.
  unfold judge_comparison. intros (commit & Hc & (digest & Hd & (candidate & Hcand & Hj)%res_bind_Ok)%res_bind_Ok)%res_bind_Ok Hst.
  destruct (jeq candidate _) eqn:Ej; cbn [negb] in Hj; [|by injection Hj as <-].
  apply res_bind_Ok in Hj as (status & Hstatus & Hj). destruct (jeq status (JStr "pass")) eqn:Es.
  - apply res_bind_Ok in Hj as ([] & Ha & Hj); injection Hj as <-; [|done]. split; [done|]. by exists commit, digest, candidate.
  - injection Hj as <-. rewrite Hst in Hstatus. injection Hstatus as <-. done.
Qed.

Lemma runs_summarize a run_id output_dir had_failure suites w summary o w' :
  runs (summarize a run_id output_dir had_failure suites) w (summary, o) w' →
  (∃ schema dependencies flags, summary = summary_of schema o dependencies flags suites) ∧
  o_qualification o = qualification had_failure suites ∧
  (nonempty (a_comparison_report a) = true → jget_or_null "status" (o_comparison o) = Ok (JStr "pass") →
   approved_for (o_git o) (o_comparison o)).
Proof.
  unfold summarize. intros Hr.
  do 5 (apply runs_bind in Hr as (? & ? & _ & Hr)). apply runs_bind in Hr as (comparison & w6 & Hcmp & Hr).
  apply runs_ret in Hr as [[= <- <-] <-]. split; [by do 3 eexists|]. split; [done|]. cbn [o_comparison o_git].
  unfold attached_comparison in Hcmp. intros Hne Hst. rewrite Hne in Hcmp. inv_runs. by eapply judge_pass.
Qed.

(** The summary of a run is the JSON text in its file. *)
Definition summary_file (output_dir : string) (summary : json) (w : world) : Prop :=
  w_fs w !! (output_dir // "summary.json") = Some (File (text_bytes (dump_report false EmptyString summary +:+ nl))).

Lemma runs_publish output_dir summary o suites w u w' : runs (publish output_dir summary o suites) w u w' →
  summary_file output_dir summary w'.
Proof.
  intros Hr. unfold publish in Hr. apply runs_bind in Hr as ([] & w1 & Hw & Hr).
  apply runs_bind in Hw as ([] & w0 & _ & (Hfs & _)%runs_write_text_bytes).
  apply runs_bind in Hr as (text & w2 & [_ <-]%runs_lift & Hr).
  apply runs_bind in Hr as ([] & w2 & (Hfs2 & _)%runs_write_bytes & Hr).
  assert (Hk : w_fs w' = w_fs w2).
  { assert (Hs : ∀ m, steps same_fs (print m)) by (by intros m w3).
    repeat (apply runs_bind in Hr as ([] & ? & Hp%(λ h, h) & Hr); apply runs_print in Hp as ->).
    apply runs_print in Hr as ->. done. }
  unfold summary_file. rewrite Hk, Hfs2, lookup_insert_ne by (by apply path_join_ne). rewrite Hfs. apply lookup_insert_eq.
Qed.

Lemma same_fs_compare b : steps same_fs (CompareBenchmark.main b).
Proof.
  assert (∀ m, steps same_fs (print m)) by (by intros m w).
  assert (∀ paths, steps same_fs (CompareBenchmark.first_file paths)) by (induction paths; simpl; solve_steps).
  unfold CompareBenchmark.main, CompareBenchmark.current_path, CompareBenchmark.resolve_latest_results_summary, load_summary,
    CompareBenchmark.print_skipped, CompareBenchmark.verdict. solve_steps.
Qed.

Lemma conclude_zero a compare_exit had_failure o suites w w' : runs (conclude a compare_exit had_failure o suites) w 0 w' →
  compare_exit = 0 ∧ had_failure = false ∧ o_qualification o ≠ "inconclusive" ∧ columnar_ok suites (w_env w') ∧ w_fs w' = w_fs w ∧
  (nonempty (a_comparison_report a) = true → jget_or_null "status" (o_comparison o) = Ok (JStr "pass")).
Proof.
  unfold conclude. intros Hr. match type of Hr with context [existsb ?f ?l] => destruct (existsb f l) end; [by apply runs_ret in Hr as [? _]|].
  apply runs_bind in Hr as (columnar & w1 & Hc & Hr). destruct (Z.eqb_spec columnar 0) as [->|]; [|by apply runs_ret in Hr as [? _]].
  cbn [negb] in Hr. destruct (Z.eqb_spec compare_exit 0) as [->|]; [|by apply runs_ret in Hr as [? _]]. cbn [negb] in Hr.
  apply runs_bind in Hr as (status & w2 & [Hst <-]%runs_lift & Hr). apply columnar_zero in Hc as [Hcol Hfs].
  destruct (nonempty (a_comparison_report a)) eqn:En, (jeq status (JStr "pass")) eqn:Ej; cbn [negb andb] in Hr.
  2: { destruct (jeq status (JStr "fail")); by apply runs_ret in Hr as [? _]. }
  all: apply runs_ret in Hr as [Hcode <-]; destruct had_failure; [done|].
  all: destruct (String.eqb_spec (o_qualification o) "inconclusive"); [done|]; split_and!; try done.
  intros _. apply jeq_str in Ej as ->. done.
Qed.

Lemma map_M_Forall2 {A B} (f : A → M B) (P : A → B → Prop) l w l' w' :
  (∀ x y w1 w2, runs (f x) w1 y w2 → P x y) → runs (map_M f l) w l' w' → Forall2 P l l'.
Proof.
  intros Hf. revert w l' w'. induction l as [|x l IH]; intros w l' w' Hr.
  - cbn [map_M] in Hr. apply runs_ret in Hr as [<- _]. constructor.
  - cbn [map_M] in Hr. apply runs_bind in Hr as (y & w1 & Hy & Hr). apply runs_bind in Hr as (ys & w2 & Hys & [<- _]%runs_ret).
    constructor; [by eapply Hf|by eapply IH].
Qed.

Lemma qualification_pass had_failure suites : had_failure = false → qualification had_failure suites ≠ "inconclusive" →
  qualification had_failure suites = "pass" ∧ Exists (λ s, has_status "pass" s = true) suites ∧
  Forall (λ s, has_status "inconclusive" s = false) suites.
Proof.
  intros ->. unfold qualification. destruct (existsb (has_status "pass") suites) eqn:Ep; [|done]. cbn [negb orb].
  destruct (existsb (has_status "inconclusive") suites) eqn:Ei; [done|]. intros _. split; [done|]. split.
  - apply existsb_exists in Ep as (s & Hin%list_elem_of_In & Hs). apply Exists_exists. eauto.
  - apply Forall_forall. intros s Hs. destruct (has_status "inconclusive" s) eqn:E; [|done].
    assert (existsb (has_status "inconclusive") suites = true) as Ht; [|congruence].
    apply existsb_exists. exists s. split; [by apply list_elem_of_In|done].
Qed.

(** A suite of a run that exits with 0: it passed, ended with 0 and measured
    everything it has to, or it was skipped. *)
Definition counted_suite (suite : dict) : Prop :=
  (has_status "pass" suite = true ∧ assoc "exit_code" suite = Some (JInt 0) ∧ complete_suite_metrics suite = Ok true) ∨
  has_status "skipped" suite = true.

Lemma statuses_cases s : s ∈ STATUSES → (s == "fail") = false → (s == "error") = false → (s == "inconclusive") = false →
  s = "pass" ∨ s = "skipped".
Proof. unfold STATUSES. rewrite !elem_of_cons, elem_of_nil. intros [-> | [-> | [-> | [-> | [-> | []]]]]]; intros; first [done|auto]. Qed.

(** C35. A benchmark run that exits with 0 qualifies. Every plan left its suite in
    the summary, in the order of the plans; every suite was skipped or passed,
    and one that passed ended with exit code 0 and measured all its required
    metrics as finite numbers that are not negative; at least one passed. The
    summary on disk says so. The columnar gate held, the comparison with the
    baseline, if it was asked for, returned 0 on that summary, and a controlled
    comparison that was attached is approved and of the sources that ran. *)
Theorem suite_exit_zero (a : args) (w w' : world) (Hdry : a_dry_run a = false) (Hrun : runs (main a) w 0 w') :
  ∃ plans w1 output_dir suites summary schema o dependencies flags,
    runs (planned a) w plans w1 ∧ Forall2 (λ p s, text_of "id" s = p_id p) plans suites ∧
    Forall counted_suite suites ∧ Exists (λ s, has_status "pass" s = true) suites ∧
    summary = summary_of schema o dependencies flags suites ∧ o_qualification o = "pass" ∧ summary_file output_dir summary w' ∧
    columnar_ok suites (w_env w') ∧
    (a_compare_baseline a = true → ∃ w2 w3, w_fs w2 = w_fs w' ∧
       runs (CompareBenchmark.main (CompareBenchmark.Args BASELINE_PATH (Some (output_dir // "summary.json")) (a_compare_threshold a))) w2 0 w3) ∧
    (nonempty (a_comparison_report a) = true → approved_for (o_git o) (o_comparison o)).
Proof.
  unfold main in Hrun. apply runs_bind in Hrun as (plans & w1 & Hplans & Hrun). rewrite Hdry in Hrun.
  apply runs_bind in Hrun as (run_id & w2 & _ & Hrun). cbv zeta in Hrun.
  set (output_dir := if nonempty _ then _ else _) in Hrun.
  apply runs_bind in Hrun as ([] & w3 & _ & Hrun).
  apply runs_bind in Hrun as (performed & w4 & Hperf & Hrun). set (had_failure := existsb _ performed) in Hrun.
  apply runs_bind in Hrun as (suites & w5 & Hfin & Hrun).
  apply runs_bind in Hrun as ([summary o] & w6 & Hsum & Hrun).
  apply runs_bind in Hrun as ([] & w7 & Hpub%runs_publish & Hrun).
  apply runs_bind in Hrun as (compare_exit & w8 & Hcmp & Hrun).
  apply conclude_zero in Hrun as (-> & Hfail & Hq & Hcol & Hfs & Hst).
  apply runs_summarize in Hsum as ((schema & dependencies & flags & Hsum) & Hqual & Happ).
  rewrite Hqual in Hq. destruct (qualification_pass _ _ Hfail Hq) as (Hpass & Hex & Hinc).
  assert (Hfs8 : w_fs w8 = w_fs w7).
  { destruct (a_compare_baseline a); [|by apply runs_ret in Hcmp as [_ <-]].
    pose proof (same_fs_compare (CompareBenchmark.Args BASELINE_PATH (Some (output_dir // "summary.json")) (a_compare_threshold a)) w7) as Hs.
    unfold runs in Hcmp. by rewrite Hcmp in Hs. }
  apply (map_M_Forall2 _ (λ p s, suite_for (p_id p) s)) in Hperf; [|intros *; apply perform_suite].
  apply (map_M_Forall2 _ (λ s s', ∀ id, suite_for id s → finished id s' ∧ (status_of s' = status_of s ∨ status_of s' = "inconclusive"))) in Hfin;
    [|intros x y wa wb Hf id Hid; by eapply finish_finished].
  assert (Hall : Forall2 (λ p s, finished (p_id p) s ∧ has_status "fail" s = false ∧ has_status "error" s = false) plans suites).
  { clear -Hperf Hfin Hfail. subst had_failure. revert suites Hfin. induction Hperf as [|p s plans performed Hs Hperf IH]; intros suites Hfin.
    - inversion Hfin. constructor.
    - inversion Hfin as [|? s' ? suites' Hs' Hfin']; subst. cbn [existsb] in Hfail. apply orb_false_iff in Hfail as [Hf Hrest].
      apply orb_false_iff in Hf as [Hf He]. destruct (Hs' _ Hs) as [Hfinished Hstatus]. constructor; [|by apply IH].
      split; [done|]. unfold has_status in *. by destruct Hstatus as [-> | ->]. }
  exists plans, w1, output_dir, suites, summary, schema, o, dependencies, flags. split_and!; try done.
  - eapply Forall2_impl; [exact Hall|]. intros p s [[(Hid & _) _] _]. done.
  - apply Forall_forall. intros s Hs. rewrite Forall_forall in Hinc. specialize (Hinc s Hs).
    apply list_elem_of_lookup in Hs as [i Hi]. destruct (Forall2_lookup_r _ _ _ _ _ Hall Hi) as (p & _ & [(_ & Hstat & Hcode) Hcomp] & Hf & He).
    unfold counted_suite. destruct (statuses_cases _ Hstat Hf He Hinc) as [Hp|Hp].
    + left. unfold has_status in *. rewrite Hp in *. auto.
    + right. unfold has_status. by rewrite Hp.
  - by rewrite Hqual.
  - unfold summary_file in *. by rewrite Hfs, Hfs8.
  - intros Hcb. rewrite Hcb in Hcmp. exists w7, w8. split; [by rewrite Hfs, Hfs8|done].
  - intros Hne. by apply Happ, Hst.
Qed.
End verdict.

(** ** A run that qualifies *)

Definition hot_report : string :=
  let scenario name := "{'scenario': '" +:+ name +:+ "', 'p50_us': 1, 'p95_us': 2.5, 'p99_us': 3}" in
  replace "'" (chr 34)
    ("{'benchmark': 'odbc_hot_paths', 'scenarios': [" +:+ join ", " (scenario <$> HOT_PATHS) +:+ "]}" +:+ nl).
Definition suite_host : Host := {|
  host_nt := true;
  host_run := λ argv _ w,
    (Ok (Proc 0 (match argv with "flutter" :: "test" :: _ => hot_report | "git" :: "rev-parse" :: _ => "c0ffee" +:+ nl | _ => EmptyString end)
           EmptyString), w_fs w);
  host_which := λ _ _, None;
  host_fetch := λ _ _, Raise (OSError "offline");
  host_now := λ _, 1780000000;
  host_utcoffset := 0;
  host_exn_str := λ _, "error";
  host_repr := λ _, "value";
  host_tmp := λ _, "tmp";
  host_isatty := false;
  host_root := "C:/plug_agente"
|}.
Definition suite_world : world :=
  World (list_to_map ((λ p, ("C:/plug_agente/" +:+ p, File p)) <$>
           ["pubspec.yaml"; "pubspec.lock"; TRANSPORT_TEST; PLUG_AGENTE_STACK_TEST; GATEWAY_ENCODING_TEST; ODBC_HOT_PATHS_TEST]))
        {["BENCHMARK_ODBC_HOT_PATHS" := "1"]} [].
Definition suite_args : args := Args EmptyString false ".env" "out" "odbc_hot_paths" true false (f_lit "5.0").
Definition suite_run (a : args) (w : world) : res Z * world :=
  main (H:=suite_host) (H0:=linkless) (H1:=same_paths) (H2:=no_archives) (H3:=unnamed_platform) (H4:=still_clock) a w.
Example suite_codes : fst (suite_run suite_args suite_world) = Ok 0 ∧
  fst (suite_run suite_args (World (w_fs suite_world) ∅ [])) = Ok 2.
Proof. by vm_compute. Qed.

Definition suite_end : world := Eval vm_compute in snd (suite_run suite_args suite_world).
Theorem suite_exit_zero_witness : ∃ output_dir summary, summary_file (H:=suite_host) output_dir summary suite_end.
Proof.
  destruct (suite_exit_zero (H:=suite_host) (H0:=linkless) (H1:=same_paths) (H2:=no_archives) (H3:=unnamed_platform)
              (H4:=still_clock) suite_args suite_world suite_end ltac:(reflexivity) ltac:(run_vm))
    as (plans & w1 & output_dir & suites & summary & schema & o & dependencies & flags & _ & _ & _ & _ & _ & _ & Hfile & _).
  exact (ex_intro _ output_dir (ex_intro _ summary Hfile)).
Defined.
