(* ===== verification/PromoteBaseline.v ===== *)
(** * Promoting a benchmark run (tool/benchmarks/promote_benchmark_baseline.py)

    The baseline that later runs are compared with is replaced by the summary
    of a run only when that run qualified: complete measurements, a known
    machine, and an approved controlled comparison of the same sources. *)

From S2P Require Import Prelude PyStr PyFloat PyHash PyJson PyNum Effects ScriptUtils Commands BenchmarkMetrics BenchmarkSummary.
From S2P Require Import NativePackage WindowsFixture LifecyclePayload ApplicationSource PinnedNative BenchmarkCollect Paths TextFiles.
From S2P Require CompareBenchmark SignpathStaging.
From S2P Require Import BenchmarkSuite.
Import CompareBenchmark (any_res, source_of, resolve_latest_results_summary).

Local Open Scope Z_scope.

(** src: tool/benchmarks/promote_benchmark_baseline.py:23-23 promote_summary *)
Definition HOST_KEYS : list string := ["dart_version"; "flutter_version"; "dependencies_sha256"; "host_fingerprint"].

(** src: tool/benchmarks/promote_benchmark_baseline.py:23-23 promote_summary
    [not dependencies or not all(machine.get(key) ...)] *)
Definition known_host (summary : json) : res bool :=
  dependencies ← jget_or_null "dependencies" summary;
  if negb (truthy dependencies) then Ok false
  else all_res (λ key, machine ← jget_default "machine" (JObj []) summary; v ← jget_or_null key machine; Ok (truthy v)) HOST_KEYS.

(** src: tool/benchmarks/promote_benchmark_baseline.py:25-25 promote_summary *)
Definition qualifies (summary : json) : res bool :=
  q ← jget_or_null "qualification" summary;
  if negb (jeq q (JStr "pass")) then Ok false
  else comparison ← jget_default "comparison" (JObj []) summary; approved_controlled_comparison comparison.

(** src: tool/benchmarks/promote_benchmark_baseline.py:27-28 promote_summary *)
Definition same_source (summary : json) : res bool :=
  identity ← source_of summary;
  if negb (truthy (fst identity) && truthy (snd identity)) then Ok false
  else
    comparison ← jitem "comparison" summary;
    candidate ← jget_or_null "candidate" comparison;
    Ok (jeq candidate (JObj [("commit_sha", fst identity); ("source_sha256", snd identity)])).

(** src: tool/benchmarks/promote_benchmark_baseline.py:30-30 promote_summary *)
Fixpoint measured_suites (suites : list json) : res (list json) :=
  match suites with
  | [] => Ok []
  | s :: suites =>
      status ← jget_or_null "status" s; rest ← measured_suites suites;
      Ok (if jeq status (JStr "skipped") then rest else s :: rest)
  end.

(** src: tool/benchmarks/promote_benchmark_baseline.py:31-31 promote_summary *)
Definition measured_fully (suite : json) : res bool :=
  status ← jget_or_null "status" suite;
  if negb (jeq status (JStr "pass")) then Ok false
  else
    complete ← complete_suite_metrics (the_dict suite);
    if negb complete then Ok false
    else
      identity ← jget_or_null "comparison_identity" suite;
      if negb (truthy identity) then Ok false
      else metadata ← jget_or_null "metric_metadata" suite; Ok (truthy metadata).

(** src: tool/benchmarks/promote_benchmark_baseline.py:31-31 promote_summary *)
Definition complete_suites (summary : json) : res bool :=
  suites ← suites_of summary;
  measured ← measured_suites suites;
  match measured with [] => Ok false | _ => all_res measured_fully measured end.

(** [if not test: raise ValueError(message)] *)
Definition require (test : res bool) (message : string) : res unit :=
  ok ← test; raise_if (negb ok) (ValueError message).

Section promote.
Context `{Host}.

(** src: tool/benchmarks/promote_benchmark_baseline.py:21-34 promote_summary
    The run may become the baseline. *)
Definition promotable (summary : json) : res unit :=
  _ ← require (version ← jget_or_null "schema_version" summary; Ok (jeq version (JInt 2)))
        "Only complete v2 measurements can be promoted; v1 remains readable history";
  _ ← require (known_host summary) "Promotion requires SDK, dependency versions and host metadata";
  _ ← require (qualifies summary) "Promotion requires valid measurements and an approved controlled comparison";
  _ ← require (same_source summary) "Controlled comparison must identify the same measured source";
  _ ← require (complete_suites summary) "Incomplete or failed benchmark suites cannot be promoted";
  require (m ← flatten_suite_metrics summary []; Ok (match m with [] => false | _ => true end))
    "No performance metrics available for promotion".

(** src: tool/benchmarks/promote_benchmark_baseline.py:36-42 promote_summary
    The summary under its new name; the measured sources stay. *)
Definition promoted (source captured : string) (notes : list json) (summary : dict) : dict :=
  assoc_set "notes" (JArr (notes ++ [JStr ("Promoted from " +:+ source)]))
    (assoc_set "captured_at" (JStr captured)
      (assoc_set "$schema" (JStr "../schema/summary.schema.json") (assoc_set "run_id" (JStr "baseline") summary))).

(** src: tool/benchmarks/promote_benchmark_baseline.py:40-40 promote_summary *)
Definition notes_of (summary : json) : res (list json) :=
  v ← jget_or_null "notes" summary; if truthy v then items_of v else Ok [].

(** src: tool/benchmarks/promote_benchmark_baseline.py:57-65 main *)
Record args : Type := Args { a_source : option string; a_dry_run : bool }.

(** src: tool/benchmarks/promote_benchmark_baseline.py:19-52 promote_summary *)
Definition promote_summary (source : string) (dry_run : bool) : M string :=
  summary ← load_summary source;
  _ ← lift (promotable summary);
  captured ← captured_at_now;
  notes ← lift (notes_of summary);
  let summary := promoted source captured notes (the_dict summary) in
  if dry_run then
    _ ← print ("Would promote " +:+ path_str source +:+ " -> " +:+ path_str BASELINE_PATH);
    count ← lift (n ← json_len (default (JArr []) (assoc "suites" summary)); Ok (Z.of_nat n));
    _ ← print ("  suites: " +:+ py_str_int count);
    mret BASELINE_PATH
  else
    _ ← write_json BASELINE_PATH (JObj summary);
    _ ← print ("Promoted baseline: " +:+ path_str BASELINE_PATH);
    mret BASELINE_PATH.

(** src: tool/benchmarks/promote_benchmark_baseline.py:67-73 main *)
Definition source_path (a : args) : M (option string) :=
  match a_source a with Some source => mret (Some source) | None => resolve_latest_results_summary RESULTS_DIR end.

(** src: tool/benchmarks/promote_benchmark_baseline.py:55-84 main *)
Definition main (a : args) : M Z :=
  source ← source_path a;
  match source with
  | None => _ ← print "No --from path and no benchmarks/results/<run_id>/summary.json found."; mret 2
  | Some source =>
      here ← is_file source;
      if negb here then _ ← print ("Source summary not found: " +:+ path_str source); mret 2
      else try_catch (_ ← promote_summary source (a_dry_run a); mret 0) is_ValueError
             (λ error, _ ← print (exn_str error); mret 2)
  end.
End promote.

(** ** What becomes the baseline *)

(** A suite that passed and measured everything it has to. *)
Definition fully_measured (s : json) : Prop :=
  ∃ suite, s = JObj suite ∧ has_status "pass" suite = true ∧ complete_suite_metrics suite = Ok true.

(** The conditions under which the summary of a run may become the baseline. *)
Record may_promote `{Host} (summary : dict) : Prop := {
  of_schema : jeq (default JNull (assoc "schema_version" summary)) (JInt 2) = true;
  of_known_host : known_host (JObj summary) = Ok true;
  of_pass : jget_or_null "qualification" (JObj summary) = Ok (JStr "pass");
  of_comparison : ∃ comparison, assoc "comparison" summary = Some comparison ∧ approved_controlled_comparison comparison = Ok true ∧
    ∃ commit digest candidate, source_of (JObj summary) = Ok (commit, digest) ∧ truthy commit = true ∧ truthy digest = true ∧
      jget_or_null "candidate" comparison = Ok candidate ∧
      jeq candidate (JObj [("commit_sha", commit); ("source_sha256", digest)]) = true;
  of_suites : ∃ suites, suites_of (JObj summary) = Ok suites ∧
    Forall (λ s, jget_or_null "status" s = Ok (JStr "skipped") ∨ fully_measured s) suites ∧ Exists fully_measured suites;
  of_metrics : ∃ m, flatten_suite_metrics (JObj summary) [] = Ok m ∧ m ≠ []
}.

Lemma require_ok test message u : require test message = Ok u → test = Ok true.
Proof. unfold require. intros (b & -> & Hb)%res_bind_Ok. by destruct b. Qed.

Lemma all_res_true {A} (f : A → res bool) l : all_res f l = Ok true → Forall (λ x, f x = Ok true) l.
Proof.
  induction l as [|x l IH]; intros Hall; constructor; apply res_bind_Ok in Hall as ([] & Hx & Hr); try done. by apply IH.
Qed.

Section promotion.
Context `{Host}.

Lemma measured_fully_ok s : measured_fully s = Ok true → fully_measured s.
Proof.
  unfold measured_fully. intros (status & Hs & Hr)%res_bind_Ok. destruct (jeq status (JStr "pass")) eqn:Ep; [|done].
  apply jeq_str in Ep as ->. cbn [negb] in Hr. apply res_bind_Ok in Hr as ([] & Hc & Hr); [|done].
  destruct s as [| | | | | |suite]; try done. exists suite. split; [done|]. split; [|done].
  unfold has_status, status_of, text_of. cbn in Hs. destruct (assoc "status" suite) as [v|]; [|done]. by injection Hs as ->.
Qed.

Lemma measured_suites_ok suites measured : measured_suites suites = Ok measured →
  Forall (λ s, jget_or_null "status" s = Ok (JStr "skipped") ∨ s ∈ measured) suites ∧ measured ⊆ suites.
Proof.
  revert measured. induction suites as [|s suites IH]; intros measured Hm; [by injection Hm as <-|].
  apply res_bind_Ok in Hm as (status & Hs & (rest & [Hall Hsub]%IH & [= <-])%res_bind_Ok).
  destruct (jeq status (JStr "skipped")) eqn:Ej; (split; [constructor|]).
  - left. by apply jeq_str in Ej as ->.
  - done.
  - set_solver.
  - right. set_solver.
  - eapply Forall_impl; [exact Hall|]. set_solver.
  - set_solver.
Qed.

Lemma qualifies_ok summary : qualifies summary = Ok true →
  jget_or_null "qualification" summary = Ok (JStr "pass") ∧
  ∃ comparison, jget_default "comparison" (JObj []) summary = Ok comparison ∧ approved_controlled_comparison comparison = Ok true.
Proof.
  unfold qualifies. intros (q & Hq & Hr)%res_bind_Ok. destruct (jeq q (JStr "pass")) eqn:Eq; [|done]. apply jeq_str in Eq as ->.
  apply res_bind_Ok in Hr as (comparison & Hc & Ha). split; [done|]. by exists comparison.
Qed.

Lemma promotable_ok summary u : promotable (JObj summary) = Ok u → may_promote summary.
Proof.
  unfold promotable. intros (u1 & H1%require_ok & (u2 & H2%require_ok & (u3 & H3%require_ok & (u4 & H4%require_ok &
    (u5 & H5%require_ok & H6%require_ok)%res_bind_Ok)%res_bind_Ok)%res_bind_Ok)%res_bind_Ok)%res_bind_Ok.
  apply qualifies_ok in H3 as (Hq & comparison & Hc & Ha). constructor; try done.
  - apply res_bind_Ok in H1 as (v & Hv & [= Hj]). by injection Hv as <-.
  - unfold same_source in H4. apply res_bind_Ok in H4 as ([commit digest] & Hid & Hr).
    destruct (truthy (fst (commit, digest))) eqn:E1, (truthy (snd (commit, digest))) eqn:E2; try done. cbn [andb negb fst snd] in Hr.
    apply res_bind_Ok in Hr as (comparison' & Hc' & Hr). apply res_bind_Ok in Hr as (candidate & Hcand & [= Hj]).
    cbn in Hc'. destruct (assoc "comparison" summary) as [v|] eqn:Ec; [|done]. injection Hc' as ->.
    cbn in Hc. rewrite Ec in Hc. injection Hc as ->. exists comparison. split; [done|]. split; [done|].
    by exists commit, digest, candidate.
  - unfold complete_suites in H5. apply res_bind_Ok in H5 as (suites & Hs & (measured & Hm & Hr)%res_bind_Ok).
    exists suites. apply measured_suites_ok in Hm as [Hall Hsub].
    assert (Forall fully_measured measured ∧ measured ≠ []) as [Hfull Hne].
    { destruct measured as [|s measured]; [done|]. split; [|done]. eapply Forall_impl; [by apply all_res_true|]. apply measured_fully_ok. }
    rewrite Forall_forall in Hfull. split_and!; [done| |].
    + eapply Forall_impl; [exact Hall|]. intros s [?|?]; [by left|right; by apply Hfull].
    + destruct measured as [|s measured]; [done|]. apply Exists_exists. exists s. split; [apply Hsub; set_solver|apply Hfull; set_solver].
  - apply res_bind_Ok in H6 as (m & Hm & Hr). exists m. split; [done|]. by destruct m.
Qed.

(** The baseline on disk is this summary. *)
Definition baseline_is (summary : dict) (w : world) : Prop :=
  w_fs w !! BASELINE_PATH = Some (File (text_bytes (dump_report false EmptyString (JObj summary) +:+ nl))).

Lemma same_load_summary source : steps (=) (load_summary source).
Proof. unfold load_summary. solve_steps. Qed.
Lemma load_is_dict source w v w' : runs (load_summary source) w v w' → w' = w ∧ ∃ summary, v = JObj summary.
Proof.
  intros Hr. split; [by rewrite <- (runs_same _ _ _ _ (same_load_summary source) Hr)|].
  unfold load_summary in Hr. apply runs_bind in Hr as (text & w1 & _ & Hr). apply runs_bind in Hr as (summary & w2 & _ & Hr).
  apply runs_bind in Hr as (version & w3 & [Hv _]%runs_lift & Hr). apply runs_bind in Hr as ([] & w4 & _ & [<- _]%runs_ret).
  destruct summary; try done. by eexists.
Qed.

(** Promoting writes nothing on a dry run, and nothing unless the summary may
    become the baseline. *)
Lemma runs_promote source dry w p w' : runs (promote_summary source dry) w p w' →
  ∃ summary captured notes, runs (load_summary source) w (JObj summary) w ∧ may_promote summary ∧
    (dry = true → w_fs w' = w_fs w) ∧ (dry = false → baseline_is (promoted source captured notes summary) w').
Proof.
  unfold promote_summary. intros Hr. apply runs_bind in Hr as (v & w1 & Hload & Hr).
  destruct (load_is_dict _ _ _ _ Hload) as (-> & summary & ->).
  apply runs_bind in Hr as ([] & w1 & [Hp%promotable_ok <-]%runs_lift & Hr).
  apply runs_bind in Hr as (captured & w1 & Ht & Hr). apply runs_same in Ht as ->; [|unfold captured_at_now; solve_steps].
  apply runs_bind in Hr as (notes & w1 & [_ <-]%runs_lift & Hr). exists summary, captured, notes.
  split; [done|]. split; [done|]. cbv zeta in Hr. destruct dry; (split; [intros Hd|intros Hd]; try done).
  - inv_runs. repeat match goal with H : runs (print _) _ _ _ |- _ => apply runs_print in H as -> end. done.
  - apply runs_bind in Hr as ([] & w1 & Hw & Hr). apply runs_bind in Hr as ([] & w2 & ->%runs_print & [_ <-]%runs_ret).
    apply runs_bind in Hw as ([] & w0 & _ & (Hfs & _)%runs_write_text_bytes). unfold baseline_is. cbn [w_fs].
    rewrite Hfs. apply lookup_insert_eq.
Qed.

(** A promotion that raises [ValueError] has not written anything. *)
Lemma fails_promote source dry w e w' : fails (promote_summary source dry) w e w' → is_ValueError e = true → w_fs w' = w_fs w.
Proof.
  unfold promote_summary. intros Hf He. apply fails_bind in Hf as [Hf|(v & w1 & Hload & Hf)].
  { pose proof (same_load_summary source w) as Hs. unfold fails in Hf. rewrite Hf in Hs. simpl in Hs. by subst. }
  apply (runs_same _ _ _ _ (same_load_summary source)) in Hload as ->.
  apply fails_bind in Hf as [Hf|([] & w2 & [_ <-]%runs_lift & Hf)]; [by injection Hf as ? <-|].
  apply fails_bind in Hf as [Hf|(captured & w2 & Ht & Hf)]; [by injection Hf as ? <-|].
  apply runs_same in Ht as ->; [|unfold captured_at_now; solve_steps].
  apply fails_bind in Hf as [Hf|(notes & w2 & [_ <-]%runs_lift & Hf)]; [by injection Hf as ? <-|]. cbv zeta in Hf. destruct dry.
  - assert (steps same_fs (_ ← print ("Would promote " +:+ path_str source +:+ " -> " +:+ path_str BASELINE_PATH);
      count ← lift (n ← json_len (default (JArr []) (assoc "suites" (promoted source captured notes (the_dict v)))); Ok (Z.of_nat n));
      _ ← print ("  suites: " +:+ py_str_int count); mret BASELINE_PATH)) as Hs.
    { assert (∀ m, steps same_fs (print m)) by (by intros m w1). solve_steps. }
    specialize (Hs w). unfold fails in Hf. by rewrite Hf in Hs.
  - exfalso. eapply eq_true_false_abs; [exact He|]. revert w e w' Hf He.
    enough (raises (λ e, is_ValueError e = false) (_ ← write_json BASELINE_PATH (JObj (promoted source captured notes (the_dict v)));
      _ ← print ("Promoted baseline: " +:+ path_str BASELINE_PATH); mret BASELINE_PATH)) as Hr by (intros; by eapply Hr).
    unfold write_json, write_text. apply raises_bind; [apply raises_bind|]; intros; [| |apply raises_bind; [by intros ???|intros; apply raises_ret]].
    + intros w e w'. unfold mkdir. destruct (w_fs w !! _) as [[]|]; by intros [= <- <-].
    + intros w e w'. unfold write_bytes. destruct (w_fs w !! _) as [[]|]; by intros [= <- <-].
Qed.

(** C38. The baseline is replaced by a qualified run or not at all. Whatever the
    command answers, the code is 0 or 2, and 2 means that no file changed: a
    summary that does not qualify, is no JSON or is missing leaves the baseline
    as it was. With 0 the summary that was read may become the baseline: schema
    version 2, a known machine, an approved controlled comparison of the sources
    that were measured, every suite skipped or passed with all its metrics, at
    least one of them passed; and unless the run is dry, which changes nothing,
    the baseline on disk is that summary under its new name. *)
Theorem promotion_verdict (a : args) (w w' : world) (c : Z) (Hrun : runs (main a) w c w') :
  (c = 2 ∧ w_fs w' = w_fs w) ∨
  (c = 0 ∧ ∃ source summary captured notes,
     runs (source_path a) w (Some source) w ∧ runs (load_summary source) w (JObj summary) w ∧ may_promote summary ∧
     (a_dry_run a = true → w_fs w' = w_fs w) ∧
     (a_dry_run a = false → baseline_is (promoted source captured notes summary) w')).
Proof.
  unfold main in Hrun. apply runs_bind in Hrun as (source & w1 & Hsrc & Hrun).
  assert (w1 = w) as ->.
  { eapply runs_same; [|exact Hsrc]. pose proof CompareBenchmark.steps_eq_first_file.
    unfold source_path, resolve_latest_results_summary. destruct (a_source a); solve_steps. }
  destruct source as [source|].
  2: { apply runs_bind in Hrun as ([] & w2 & ->%runs_print & [<- <-]%runs_ret). by left. }
  apply runs_bind in Hrun as (here & w2 & [-> _]%runs_is_file & Hrun). destruct here; cbn [negb] in Hrun.
  2: { apply runs_bind in Hrun as ([] & w2 & ->%runs_print & [<- <-]%runs_ret). by left. }
  apply runs_try_catch in Hrun as [Hr|(e & w2 & Hf & He & Hr)].
  - apply runs_bind in Hr as (p & w2 & (summary & captured & notes & Hload & Hmay & Hdry & Hwet)%runs_promote & [<- <-]%runs_ret).
    right. split; [done|]. by exists source, summary, captured, notes.
  - apply runs_bind in Hr as ([] & w3 & ->%runs_print & [<- <-]%runs_ret). left. split; [done|]. cbn [w_fs].
    apply fails_bind in Hf as [Hf|(p & w3 & _ & Hf)]; [|done]. by eapply fails_promote.
Qed.
End promotion.

(** ** At work *)

Definition qualified_summary : dict :=
  [("schema_version", JInt 2); ("qualification", JStr "pass");
   ("comparison", match example_comparison with
                  | JObj d => JObj (d ++ [("candidate", JObj [("commit_sha", JStr "c0ffee"); ("source_sha256", JStr "beef")])])
                  | v => v
                  end);
   ("run_id", JStr "20260528_202640"); ("git", JObj [("commit_sha", JStr "c0ffee"); ("source_sha256", JStr "beef")]);
   ("machine", JObj ((λ k, (k, JStr "known")) <$> HOST_KEYS)); ("dependencies", JObj [("odbc_fast", JStr "3.0.0")]);
   ("suites", JArr
      [JObj [("id", JStr "transport_pipeline_json"); ("status", JStr "skipped")];
       JObj [("id", JStr "odbc_gateway_encoding"); ("status", JStr "pass");
             ("metrics", JObj [("median_us_balancedServer_rowMajor", JInt 12); ("median_us_highThroughput_rowMajor", JInt 9)]);
             ("comparison_identity", JObj [("benchmark_profile", JStr "p")]);
             ("metric_metadata", JObj [("median_us_balancedServer_rowMajor", JObj [])])]])].
Definition promotion_world : world :=
  World {["run.json" := File (dump_report false EmptyString (JObj qualified_summary))]} ∅ [].
Definition promotion (source : string) : res Z * world :=
  main (H:=idle_host) (Args (Some source) false) promotion_world.
Example promotion_codes : fst (promotion "run.json") = Ok 0 ∧ fst (promotion "other.json") = Ok 2.
Proof. by vm_compute. Qed.

Theorem promotion_verdict_witness : ∃ summary captured notes,
  may_promote (H:=idle_host) summary ∧ baseline_is (H:=idle_host) (promoted "run.json" captured notes summary) (snd (promotion "run.json")).
Proof.
  destruct (promotion_verdict (H:=idle_host) (Args (Some "run.json") false) promotion_world (snd (promotion "run.json")) 0
              (runs_eval (main (H:=idle_host) (Args (Some "run.json") false)) promotion_world 0 ltac:(vm_compute; reflexivity)))
    as [[Hc _]|(_ & source & summary & captured & notes & Hs & _ & Hm & _ & Hb)]; [discriminate Hc|].
  apply (f_equal fst) in Hs. injection Hs as <-. exact (ex_intro _ summary (ex_intro _ captured (ex_intro _ notes (conj Hm (Hb eq_refl))))).
Defined.
