(* ===== verification/IsolatedRuntime.v ===== *)
(** * The private C++ runtime of a fixture (tool/updater/isolated_runtime.py)

    The runtime libraries are unpacked from a signed package into an owned
    fixture, recorded in a manifest and bound to a build through a CMake
    toolchain file. Every later use checks the files again: their bytes, that
    they are AMD64 images, their Microsoft signature as PowerShell reports it,
    and their version. [protect_backup]
    (tool/updater/validate_existing_windows_installation.py) gives a directory
    to its owner first. *)

From S2P Require Import Prelude PyStr PyRe PyHash PyJson Effects TextFiles ScriptUtils WindowsFixture LifecyclePayload.
From S2P Require Import LifecycleHandoff Commands ApplicationSource.
From S2P Require Import PyCodec.
From S2P Require WindowsVersionInfo.

Local Open Scope Z_scope.

(** ** [csv.reader] *)

Inductive csv_state : Type := StartRecord | StartField | InField | InQuoted | QuoteInQuoted.

(** The reader at work: its state, the field so far and the fields before it. *)
Record csv : Type := Csv { csv_at : csv_state; csv_field : string; csv_fields : list string }.

Definition csv_save (next : csv_state) (r : csv) : csv := Csv next EmptyString (csv_fields r ++ [csv_field r]).
Definition csv_add (next : csv_state) (c : ascii) (r : csv) : csv :=
  Csv next (csv_field r +:+ String c EmptyString) (csv_fields r).
Definition csv_to (next : csv_state) (r : csv) : csv := Csv next (csv_field r) (csv_fields r).
Definition is_quote (c : ascii) : bool := Ascii.eqb c quote_char.
Definition is_comma (c : ascii) : bool := Ascii.eqb c ",".

Definition csv_char (r : csv) (c : ascii) : csv :=
  match csv_at r with
  | StartRecord | StartField =>
      if is_quote c then csv_to InQuoted r else if is_comma c then csv_save StartField r else csv_add InField c r
  | InField => if is_comma c then csv_save StartField r else csv_add InField c r
  | InQuoted => if is_quote c then csv_to QuoteInQuoted r else csv_add InQuoted c r
  | QuoteInQuoted =>
      if is_quote c then csv_add InQuoted c r else if is_comma c then csv_save StartField r else csv_add InField c r
  end.
(** The end of a line; a quoted field goes on with the next line. *)
Definition csv_eol (r : csv) : csv :=
  match csv_at r with
  | StartRecord | InQuoted => r
  | StartField | InField | QuoteInQuoted => csv_save StartRecord r
  end.
Fixpoint csv_line (r : csv) (line : string) : csv :=
  match line with EmptyString => csv_eol r | String c line => csv_line (csv_char r c) line end.

(** [next(csv.reader(lines))] *)
Fixpoint csv_record (r : csv) (lines : list string) : res (list string) :=
  match lines with
  | [] => match csv_at r with
          | StartRecord => Raise (ForeignError "StopIteration")
          | _ => Ok (csv_fields (csv_save StartRecord r))
          end
  | line :: lines =>
      let r := csv_line r line in
      match csv_at r with StartRecord => Ok (csv_fields r) | _ => csv_record r lines end
  end.
Definition csv_first (lines : list string) : res (list string) := csv_record (Csv StartRecord EmptyString []) lines.

Example csv_rows :
  csv_first ["a," +:+ dq +:+ "b,c" +:+ dq +:+ dq +:+ "d" +:+ dq +:+ ",e"] = Ok ["a"; "b,c" +:+ dq +:+ "d"; "e"] ∧
  csv_first [dq +:+ "a"; "b" +:+ dq +:+ ","] = Ok ["ab"; EmptyString] ∧ csv_first [EmptyString] = Ok [].
Proof. by vm_compute. Qed.

(** ** The runtime files *)

(** src: tool/updater/isolated_runtime.py:17-18 NAMES *)
Definition NAMES : list string :=
  ["concrt140.dll"; "msvcp140.dll"; "msvcp140_1.dll"; "msvcp140_2.dll";
   "msvcp140_atomic_wait.dll"; "msvcp140_codecvt_ids.dll"; "vcruntime140.dll"; "vcruntime140_1.dll"].
(** src: tool/updater/isolated_runtime.py:19-19 MAX_BYTES *)
Definition MAX_BYTES : Z := 32 * 1024 * 1024.

(** src: tool/updater/isolated_runtime.py:37-37 signed_metadata *)
Definition publisher_org : regex := seqs [lit "O=Microsoft Corporation"; RAlt (ch ",") REos].
(** [re.search(r"(?:^|,\s* )O=Microsoft Corporation(?:,|$)", publisher)]: without
    [MULTILINE], [^] is the start of the text. *)
Definition microsoft_publisher (publisher : string) : bool :=
  bool_decide (is_Some (re_match publisher_org publisher)) || search (seqs [ch ","; star space; publisher_org]) publisher.

(** src: tool/updater/isolated_runtime.py:37-38 signed_metadata
    The test of a signature report, the publisher only when the status is valid. *)
Definition signature_refused (metadata : json) : res bool :=
  status ← jget_or_null "status" metadata;
  if negb (jeq status (JStr "Valid")) then Ok true else
  publisher ← jget "publisher" metadata;
  match default (JStr EmptyString) publisher with
  | JStr s => Ok (negb (microsoft_publisher s))
  | _ => Raise (TypeError "expected string or bytes-like object")
  end.

(** src: tool/updater/isolated_runtime.py:31-33 signed_metadata *)
Definition signature_script : string :=
  "$ErrorActionPreference='Stop'; $p=$env:PLUG_FIXTURE_VERIFY_PATH; $s=Get-AuthenticodeSignature -LiteralPath $p; " +:+
  "$v=(Get-Item -LiteralPath $p).VersionInfo.FileVersionRaw.ToString(); " +:+
  "@{status=$s.Status.ToString(); publisher=$s.SignerCertificate.Subject; version=$v} | ConvertTo-Json -Compress".
(** src: tool/updater/isolated_runtime.py:34-34 signed_metadata *)
Definition signature_command : list string :=
  ["powershell.exe"; "-NoProfile"; "-NonInteractive"; "-Command"; signature_script].

(** src: tool/updater/isolated_runtime.py:45-49 runtime_file
    The header of an AMD64 image. *)
Definition require_amd64 (content : string) : res unit :=
  let refused := RuntimeError "Runtime must be an AMD64 PE image" in
  _ ← raise_if ((len content <? 64) || negb (startswith content "MZ")) refused;
  offset ← unpack_at 4 content 0x3C;
  _ ← raise_if ((len content - 6 <? offset) ||
                negb (WindowsVersionInfo.slice offset (offset + 4) content == "PE" +:+ chr 0 +:+ chr 0)) refused;
  machine ← unpack_at 2 content (offset + 4);
  raise_if (negb (machine =? 0x8664)) refused.

(** [tuple(int(part) for part in metadata\["version"\].split("."))] *)
Definition version_tuple (metadata : json) : res (list Z) :=
  v ← jitem "version" metadata;
  match v with
  | JStr s => res_map int_of (split_char "." s)
  | _ => Raise (AttributeError "split")
  end.

(** [a < b] on tuples. *)
Fixpoint tuple_lt (a b : list Z) : bool :=
  match a, b with
  | [], [] => false
  | [], _ :: _ => true
  | _ :: _, [] => false
  | x :: a, y :: b => if x =? y then tuple_lt a b else x <? y
  end.

(** src: tool/updater/isolated_runtime.py:51-56 runtime_file
    The version of a runtime file is recent enough. *)
Definition require_version (metadata : json) : res unit :=
  version ← try_except (version_tuple metadata) (λ e, is_KeyError e || is_ValueError e)
              (λ _, Raise (RuntimeError "Runtime version is not verifiable"));
  raise_if (negb (length version =? 4)%nat || tuple_lt version [14; 43; 0; 0])
    (RuntimeError "Runtime is older than the fixture minimum 14.43").

(** [x in path] for the characters that mean something to CMake. *)
Definition cmake_special : list string := [dq; ";"; "$"; nl; cr].

Section runtime.
Context `{Host} `{Filesystem} `{Symlinks} `{Tar}.

(** src: tool/updater/validate_existing_windows_installation.py:21-36 protect_backup *)
Definition protect_backup (evidence : string) : M unit :=
  let whoami := ["whoami"; "/user"; "/fo"; "csv"; "/nh"] in
  identity ← run_proc whoami host_cwd;
  _ ← raise_when (negb (returncode identity =? 0)) (CalledProcessError (returncode identity) whoami (stdout identity));
  row ← lift (csv_first (splitlines (stdout identity)));
  sid ← lift (from_option (row !! 1%nat) IndexError);
  _ ← raise_when (negb (startswith sid "S-1-") || str_any (λ c, negb (char_in "S-0123456789" c)) sid)
        (RuntimeError "Cannot identify the snapshot owner");
  protected ← run_proc ["icacls.exe"; path_str evidence; "/inheritance:r"; "/grant:r"; "*" +:+ sid +:+ ":(OI)(CI)(F)";
                        "*S-1-5-18:(OI)(CI)(F)"; "*S-1-5-32-544:(OI)(CI)(F)"; "/Q"] host_cwd;
  _ ← raise_when (negb (returncode protected =? 0)) (RuntimeError "Cannot protect the local installation snapshot");
  w ← get_world;
  for_M (λ child,
    inherited ← run_proc ["icacls.exe"; path_str child; "/reset"; "/T"; "/Q"] host_cwd;
    raise_when (negb (returncode inherited =? 0)) (RuntimeError "Cannot restore protected snapshot inheritance"))
    (iterdir evidence w).

(** src: tool/updater/isolated_runtime.py:22-26 digest *)
Definition digest (path : string) : M string :=
  _ ← reject_reparse path;
  regular ← is_file path;
  unbounded ← (if negb regular then mret true else
               links ← link_count path;
               if negb (links =? 1) then mret true else
               size ← file_size path; mret (MAX_BYTES <? size));
  _ ← raise_when unbounded (RuntimeError "Runtime input must be a bounded independent regular file");
  bytes ← read_bytes path;
  mret (sha256_hex bytes).

(** src: tool/updater/isolated_runtime.py:29-39 signed_metadata *)
Definition signed_metadata (path : string) : M json :=
  env ← get_env;
  r ← run_proc_env (<["PLUG_FIXTURE_VERIFY_PATH" := path_str path]> (tool_environment env)) signature_command host_cwd;
  _ ← raise_when (negb (returncode r =? 0)) (CalledProcessError (returncode r) signature_command (stdout r));
  text ← lift (decode_sig (stdout r));
  metadata ← lift (loads text);
  refused ← lift (signature_refused metadata);
  _ ← raise_when refused (RuntimeError "A valid Microsoft runtime signature is required");
  mret metadata.

(** src: tool/updater/isolated_runtime.py:42-59 runtime_file *)
Definition runtime_file (path : string) : M json :=
  hashed ← digest path;
  content ← read_bytes path;
  _ ← lift (require_amd64 content);
  metadata ← signed_metadata path;
  _ ← lift (require_version metadata);
  again ← digest path;
  _ ← raise_when (again != hashed) (RuntimeError "Runtime changed during signature verification");
  version ← lift (jitem "version" metadata);
  publisher ← lift (jitem "publisher" metadata);
  mret (JObj [("sha256", JStr hashed); ("version", version); ("publisher", publisher)]).

Definition crt_path (root name : string) : string := root // "x64/Microsoft.VC143.CRT" // name.

(** src: tool/updater/isolated_runtime.py:73-73 load_runtime
    One file of the inventory of [load_runtime]. *)
Definition runtime_entry (root name : string) : M (string * json) :=
  path ← require_fixture_artifact root (crt_path root name);
  entry ← runtime_file path;
  mret (name, entry).

(** src: tool/updater/isolated_runtime.py:71-72 load_runtime
    The header of the manifest. *)
Definition manifest_refused (state : json) (root : string) : res bool :=
  format ← jget_or_null "format" state;
  match format with
  | JInt 1 =>
      scope ← jget_or_null "scope" state;
      if negb (jeq scope (JStr "fixture-runtime-only")) then Ok true else
      recorded ← jget_or_null "root" state;
      Ok (negb (jeq recorded (JStr (path_str root))))
  | _ => Ok true
  end.

(** src: tool/updater/isolated_runtime.py:74-75 load_runtime
    All the files have one version. *)
Definition one_version (actual : list (string * json)) : res bool :=
  versions ← res_map (λ ne, jitem "version" (snd ne)) actual;
  Ok (match versions with [] => false | v :: versions => forallb (jeq v) versions end).

(** src: tool/updater/isolated_runtime.py:62-76 load_runtime *)
Definition load_runtime (path : string) : M json :=
  _ ← raise_when (path_name path != "runtime.json") (RuntimeError "The owned runtime.json is required");
  root ← require_fixture_root (path_parent path) false;
  path ← require_fixture_artifact root path;
  size ← file_size path;
  _ ← raise_when (65536 <? size) (RuntimeError "Runtime manifest exceeds its size limit");
  _ ← digest path;
  text ← read_text path;
  state ← lift (loads text);
  refused ← lift (manifest_refused state root);
  _ ← raise_when refused (RuntimeError "Unsupported runtime manifest");
  actual ← map_M (runtime_entry root) NAMES;
  files ← lift (jget_or_null "files" state);
  changed ← lift (if negb (jeq (JObj actual) files) then Ok true else one ← one_version actual; Ok (negb one));
  _ ← raise_when changed (RuntimeError "Runtime inventory or versions changed");
  mret state.

(** src: tool/updater/isolated_runtime.py:89-92 prepare_runtime
    Unpacking one file from the cabinet. *)
Definition expand_runtime (cab target name : string) : M unit :=
  env ← get_env;
  let command := ["expand.exe"; "-F:" +:+ name +:+ "_amd64"; path_str cab; path_str target] in
  r ← run_proc_env (tool_environment env) command host_cwd;
  _ ← raise_when (negb (returncode r =? 0)) (CalledProcessError (returncode r) command (stdout r));
  rename_new (target // (name +:+ "_amd64")) (target // name).

(** src: tool/updater/isolated_runtime.py:79-101 prepare_runtime *)
Definition prepare_runtime (output msi cab : string) : M string :=
  _ ← raise_when (negb host_nt) (RuntimeError "Private runtime preparation requires Windows");
  output ← require_fixture_root output true;
  package_hash ← digest msi;
  cabinet_hash ← digest cab;
  _ ← signed_metadata msi;
  _ ← mkdir_new output;
  _ ← protect_backup output;
  let target := output // "x64/Microsoft.VC143.CRT" in
  _ ← mkdir_new target;
  _ ← for_M (expand_runtime cab target) NAMES;
  files ← map_M (λ name, entry ← runtime_file (target // name); mret (name, entry)) NAMES;
  package_again ← digest msi;
  changed ← (if package_again != package_hash then mret true else
             cabinet_again ← digest cab; mret (cabinet_again != cabinet_hash));
  _ ← raise_when changed (RuntimeError "Runtime extraction inputs changed");
  let state := JObj [("format", JInt 1); ("scope", JStr "fixture-runtime-only"); ("root", JStr (path_str output));
                     ("packageSha256", JStr package_hash); ("cabinetSha256", JStr cabinet_hash); ("files", JObj files)] in
  let path := output // "runtime.json" in
  text ← lift (from_option (dumps_indent true (sorted_json state)) (TypeError "Object is not JSON serializable"));
  _ ← write_text path text;
  _ ← load_runtime path;
  mret path.

(** [Path(text)] as [as_posix()] writes it, which is how the file map names it. *)
Definition path_of (text : string) : string :=
  let p := if host_nt then posix text else text in
  let drive := if host_nt && has_drive p then str_take 2 p else EmptyString in
  let rest := str_drop (String.length drive) p in
  str_or (drive +:+ posix_root rest +:+ join "/" (posix_parts rest)) ".".

(** src: tool/updater/isolated_runtime.py:104-108 toolchain_content *)
Definition toolchain_content (runtime_root : string) : res string :=
  let path := path_of runtime_root in
  _ ← raise_if (existsb (contains path) cmake_special) (RuntimeError "Runtime path cannot enter the CMake toolchain");
  Ok ("set(MSVC_REDIST_DIR " +:+ dq +:+ path +:+ dq +:+ " CACHE PATH " +:+ dq +:+ "Private fixture runtime" +:+ dq +:+ ")" +:+ nl).

(** [path.absolute()] *)
Definition absolute (path : string) : string :=
  if host_nt then absolute_nt (posix path) else if startswith path "/" then path else host_cwd // path.

(** src: tool/updater/isolated_runtime.py:111-115 bind_runtime *)
Definition bind_runtime (path build_root : string) : M json :=
  state ← load_runtime path;
  let toolchain := build_root // "fixture-runtime.cmake" in
  root ← lift (path_item "root" state);
  content ← lift (toolchain_content root);
  _ ← write_text toolchain content;
  hashed ← digest path;
  mret (JObj [("path", JStr (path_str (absolute path))); ("sha256", JStr hashed); ("toolchain", JStr (path_str toolchain))]).

(** src: tool/updater/isolated_runtime.py:118-131 verify_runtime_reference *)
Definition verify_runtime_reference (reference : json) (build_root : string) : M unit :=
  _ ← raise_when (negb (names_are ["path"; "sha256"; "toolchain"] reference)) (RuntimeError "Invalid private runtime reference");
  text ← lift (path_item "path" reference);
  let path := path_of text in
  state ← load_runtime path;
  hashed ← digest path;
  recorded ← lift (jitem "sha256" reference);
  _ ← raise_when (negb (jeq (JStr hashed) recorded)) (RuntimeError "Private runtime manifest changed");
  let expected := build_root // "fixture-runtime.cmake" in
  toolchain_path ← lift (path_item "toolchain" reference);
  toolchain ← require_fixture_artifact build_root toolchain_path;
  _ ← digest toolchain;
  size ← file_size toolchain;
  _ ← raise_when (4096 <? size) (RuntimeError "Private runtime toolchain exceeds its size limit");
  changed ← (if negb (same_path toolchain expected) then mret true else
             text ← read_text toolchain;
             root ← lift (path_item "root" state);
             content ← lift (toolchain_content root);
             mret (text != content));
  raise_when changed (RuntimeError "Private runtime toolchain changed").

(** src: tool/updater/isolated_runtime.py:134-140 __main__ *)
Definition main (output msi cab : string) : M unit :=
  path ← prepare_runtime (absolute output) (absolute msi) (absolute cab);
  print (path_str path +:+ nl).
End runtime.

(** ** What a bound runtime guarantees *)

Lemma map_M_during {A B} (f : A → M B) l w ys w' : (∀ x, steps later (f x)) → runs (map_M f l) w ys w' →
  Forall2 (λ x y, during (f x) y w w') l ys.
Proof.
  intros Hf. revert w ys. induction l as [|x l IH]; intros w ys Hr; cbn [map_M] in Hr.
  - apply runs_ret in Hr as [<- _]. constructor.
  - apply runs_bind in Hr as (y & w1 & Hy & Hr). apply runs_bind in Hr as (ys' & w2 & Hys & Hr). apply runs_ret in Hr as [<- <-].
    pose proof (later_runs _ _ _ _ (Hf x) Hy) as Hl. assert (later w1 w2) as Hl2.
    { eapply later_runs; [|exact Hys]. apply steps_map_M; [apply _|done]. }
    constructor; [by eapply during_runs|]. eapply Forall2_impl; [by apply IH|]. intros a b. by apply during_mono.
Qed.

Section proofs.
Context `{Host} `{Filesystem} `{Symlinks} `{Tar}.

Lemma same_digest path : steps (=) (digest path).
Proof. unfold digest, reject_reparse. solve_steps. Qed.
#[local] Hint Resolve same_digest : py.

Lemma later_same {A} (m : M A) : steps (=) m → steps later m.
Proof. intros Hm w. by rewrite <- Hm. Qed.

Lemma later_signed_metadata path : steps later (signed_metadata path).
Proof. unfold signed_metadata, get_env. solve_steps. Qed.
#[local] Hint Resolve later_signed_metadata : py.
Lemma later_runtime_entry root name : steps later (runtime_entry root name).
Proof.
  unfold runtime_entry, runtime_file.
  repeat first [solve_steps1 | apply later_same; solve [eauto with py]].
Qed.

Lemma runs_runtime_digest path w h w' : runs (digest path) w h w' →
  w' = w ∧ linked path w = false ∧ nlink path w = 1 ∧
  ∃ bytes, w_fs w !! path = Some (File bytes) ∧ len bytes ≤ MAX_BYTES ∧ h = sha256_hex bytes.
Proof.
  intros Hr. pose proof (runs_same _ _ _ _ (same_digest path) Hr) as ->. split; [done|]. unfold digest in Hr.
  apply runs_bind in Hr as ([] & w1 & [-> [Hl _]]%runs_reject_reparse & Hr).
  apply runs_bind in Hr as (b & w1 & [-> _]%runs_is_file & Hr). apply runs_bind in Hr as (u & w1 & Hu & Hr).
  apply runs_bind in Hr as ([] & w2 & [-> <-]%runs_raise_when & Hr).
  apply runs_bind in Hr as (bytes & w2 & [<- Hb]%runs_read_bytes & Hr). apply runs_ret in Hr as [<- ->].
  destruct b; cbn [negb] in Hu; [|by apply runs_ret in Hu as [? _]].
  apply runs_bind in Hu as (n & w2 & Hn & Hu). injection Hn as <- <-.
  destruct (Z.eqb_spec (nlink path w) 1) as [Hone|]; cbn [negb] in Hu; [|by apply runs_ret in Hu as [? _]].
  apply runs_bind in Hu as (size & w3 & Hs & Hu). apply runs_ret in Hu as [Hlt _]. unfold file_size in Hs.
  apply runs_bind in Hs as (b' & w4 & [_ Hb']%runs_read_bytes & Hs). apply runs_ret in Hs as [<- _].
  split_and!; [done|done|]. exists bytes. rewrite Hb in Hb'. simplify_eq. by apply Z.ltb_ge in Hlt.
Qed.

(** A runtime file that was accepted between [w1] and [w2]: an independent file
    with an AMD64 image, the bytes of the entry before and after its signature
    was read, a valid Microsoft signature and a version of at least 14.43. *)
Definition trusted_file (path version : string) (entry : json) (w1 w2 : world) : Prop :=
  ∃ content after metadata publisher parts,
    entry = JObj [("sha256", JStr (sha256_hex content)); ("version", JStr version); ("publisher", publisher)] ∧
    w_fs w1 !! path = Some (File content) ∧ require_amd64 content = Ok tt ∧
    w_fs w2 !! path = Some (File after) ∧ sha256_hex after = sha256_hex content ∧
    runs (signed_metadata path) w1 metadata w2 ∧
    jitem "version" metadata = Ok (JStr version) ∧ jitem "publisher" metadata = Ok publisher ∧
    res_map int_of (split_char "." version) = Ok parts ∧ length parts = 4%nat ∧ tuple_lt parts [14; 43; 0; 0] = false.

Lemma require_version_ok metadata : require_version metadata = Ok tt → ∃ version parts,
  jitem "version" metadata = Ok (JStr version) ∧ res_map int_of (split_char "." version) = Ok parts ∧
  length parts = 4%nat ∧ tuple_lt parts [14; 43; 0; 0] = false.
Proof.
  unfold require_version. intros (parts & Hparts & Hold)%res_bind_Ok. apply raise_if_Ok in Hold. bool_simpl.
  unfold try_except in Hparts. destruct (version_tuple metadata) as [parts'|e] eqn:Ht; [|by destruct (_ || _)]. simplify_eq.
  unfold version_tuple in Ht. apply res_bind_Ok in Ht as (v & Hv & Ht). destruct v as [| | | |s| |]; try done.
  by exists s, parts.
Qed.

Lemma runs_runtime_file path w entry w' : runs (runtime_file path) w entry w' → ∃ version, trusted_file path version entry w w'.
Proof.
  unfold runtime_file. intros Hr.
  apply runs_bind in Hr as (h & w1 & (-> & _ & _ & b & Hb & _ & ->)%runs_runtime_digest & Hr).
  apply runs_bind in Hr as (content & w1 & [<- Hc]%runs_read_bytes & Hr). rewrite Hb in Hc. simplify_eq.
  apply runs_bind in Hr as ([] & w1 & [Himage <-]%runs_lift & Hr). apply runs_bind in Hr as (metadata & w1 & Hmeta & Hr).
  apply runs_bind in Hr as ([] & w2 & [(version & parts & Hv & Hparts & Hlen & Hlt)%require_version_ok <-]%runs_lift & Hr).
  apply runs_bind in Hr as (again & w2 & (-> & _ & _ & after & Ha & _ & ->)%runs_runtime_digest & Hr).
  apply runs_bind in Hr as ([] & w2 & [Heq <-]%runs_raise_when & Hr). bool_simpl.
  apply runs_bind in Hr as (v & w2 & [Hv' <-]%runs_lift & Hr). rewrite Hv in Hv'. injection Hv' as <-.
  apply runs_bind in Hr as (publisher & w2 & [Hp <-]%runs_lift & Hr). apply runs_ret in Hr as [<- <-].
  exists version, content, after, metadata, publisher, parts. by split_and!.
Qed.

Lemma runs_runtime_entry root name w ne w' : runs (runtime_entry root name) w ne w' →
  ne.1 = name ∧ ∃ version, trusted_file (abspath (crt_path root name)) version ne.2 w w'.
Proof.
  unfold runtime_entry. intros Hr. apply runs_bind in Hr as (p & w1 & (-> & -> & _)%runs_fixture_artifact & Hr).
  apply runs_bind in Hr as (entry & w1 & He%runs_runtime_file & Hr). by apply runs_ret in Hr as [<- <-].
Qed.

(** The files of a runtime, all of one version, each accepted between [w] and [w']. *)
Definition runtime_files (root : string) (actual : list (string * json)) (w w' : world) : Prop :=
  actual.*1 = NAMES ∧ ∃ version, Forall (λ ne, ∃ w1 w2, later w w1 ∧ later w2 w' ∧
    trusted_file (abspath (crt_path root ne.1)) version ne.2 w1 w2) actual.

Lemma trusted_version path version entry w1 w2 : trusted_file path version entry w1 w2 → jitem "version" entry = Ok (JStr version).
Proof. by intros (? & ? & ? & ? & ? & -> & _). Qed.

Lemma one_version_files root actual w w' :
  Forall2 (λ name ne, during (runtime_entry root name) ne w w') NAMES actual → one_version actual = Ok true →
  runtime_files root actual w w'.
Proof.
  intros Hall Hone. apply Forall2_flip in Hall.
  assert (Forall2 (λ ne name, ne.1 = name ∧ ∃ version w1 w2, later w w1 ∧ later w2 w' ∧
    trusted_file (abspath (crt_path root ne.1)) version ne.2 w1 w2) actual NAMES) as Hfiles.
  { eapply Forall2_impl; [exact Hall|]. intros ne name (w1 & w2 & Hw1 & [<- [version Ht]]%runs_runtime_entry & Hw2).
    split; [done|]. by exists version, w1, w2. }
  split.
  - clear -Hfiles. induction Hfiles as [|ne name l l' [<- _] _ IH]; [done|]. by rewrite fmap_cons, IH.
  - assert (Forall (λ ne, ∃ version w1 w2, later w w1 ∧ later w2 w' ∧
      trusted_file (abspath (crt_path root ne.1)) version ne.2 w1 w2) actual) as Htrusted.
    { eapply Forall2_Forall_l; [exact Hfiles|]. apply Forall_forall. naive_solver. }
    unfold one_version in Hone. apply res_bind_Ok in Hone as (versions & Hv & Hone). injection Hone as Hone.
    apply res_map_Ok in Hv. destruct versions as [|v versions]; [done|]. inversion Hv as [|ne ? l ? Hne Hl]; subst.
    inversion_clear Htrusted as [|? ? (version & w1 & w2 & Hw1 & Hw2 & Ht) Hrest].
    pose proof (trusted_version _ _ _ _ _ Ht) as Heq. rewrite Heq in Hne. injection Hne as <-. exists version.
    constructor; [by exists w1, w2|]. clear -Hl Hone Hrest. rewrite forallb_forall in Hone. revert versions Hl Hone.
    induction Hrest as [|ne l (version' & w1 & w2 & Hw1 & Hw2 & Ht) _ IH]; intros versions Hl Hone; [constructor|].
    inversion Hl as [|? v ? versions' Hv Hl']; subst. constructor.
    + pose proof (trusted_version _ _ _ _ _ Ht) as Heq. rewrite Heq in Hv. injection Hv as <-.
      assert (jeq (JStr version) (JStr version') = true) as [= ->]%jeq_str by (apply Hone; by left). by exists w1, w2.
    + apply (IH versions'); [done|]. intros x Hx. apply Hone. by right.
Qed.

(** What a manifest that was loaded promises. *)
Definition runtime_loaded (path : string) (state : json) (w w' : world) : Prop :=
  let root := abspath (path_parent path) in
  ∃ files actual, path_item "root" state = Ok (path_str root) ∧ jget_or_null "files" state = Ok files ∧
    jeq (JObj actual) files = true ∧ runtime_files root actual w w'.

Lemma jget_or_null_item k v x : jget_or_null k v = Ok x → x ≠ JNull → jitem k v = Ok x.
Proof.
  unfold jget_or_null, jget, jitem. destruct v as [| | | | | |l]; try done. simpl. destruct (assoc k l) as [y|]; simpl; by intros [= <-].
Qed.

Lemma runs_load_runtime path w state w' : runs (load_runtime path) w state w' → runtime_loaded path state w w'.
Proof.
  unfold load_runtime. intros Hr. apply runs_bind in Hr as ([] & w1 & [_ <-]%runs_raise_when & Hr).
  apply runs_bind in Hr as (root & w1 & [-> ->]%runs_fixture_root & Hr).
  apply runs_bind in Hr as (p & w1 & (-> & -> & _)%runs_fixture_artifact & Hr).
  apply runs_bind in Hr as (size & w1 & ->%(runs_same _ _ _ _ (same_file_size _)) & Hr).
  apply runs_bind in Hr as ([] & w1 & [_ <-]%runs_raise_when & Hr).
  apply runs_bind in Hr as (h & w1 & ->%(runs_same _ _ _ _ (same_digest _)) & Hr).
  apply runs_bind in Hr as (text & w1 & [<- _]%runs_read_text & Hr). apply runs_bind in Hr as (st & w1 & [_ <-]%runs_lift & Hr).
  apply runs_bind in Hr as (refused & w1 & [Href <-]%runs_lift & Hr).
  apply runs_bind in Hr as ([] & w1 & [-> <-]%runs_raise_when & Hr). apply runs_bind in Hr as (actual & w1 & Hactual & Hr).
  apply runs_bind in Hr as (files & w2 & [Hf <-]%runs_lift & Hr). apply runs_bind in Hr as (changed & w2 & [Hc <-]%runs_lift & Hr).
  apply runs_bind in Hr as ([] & w2 & [-> <-]%runs_raise_when & Hr). apply runs_ret in Hr as [<- <-].
  apply map_M_during in Hactual; [|apply later_runtime_entry].
  destruct (jeq (JObj actual) files) eqn:Hj; cbn [negb] in Hc; [|done].
  apply res_bind_Ok in Hc as (one & Hone & [= ->%negb_false_iff]). exists files, actual.
  split_and!; [|done|done|by apply one_version_files].
  unfold manifest_refused in Href. apply res_bind_Ok in Href as (format & _ & Href).
  destruct format as [| |z| | | |]; try done. destruct z as [|[]|]; try done.
  apply res_bind_Ok in Href as (scope & _ & Href). destruct (jeq scope _); cbn [negb] in Href; [|done].
  apply res_bind_Ok in Href as (recorded & Hrec & [= Hj2%negb_false_iff]).
  unfold path_item. by rewrite (jget_or_null_item _ _ _ Hrec), (jeq_str _ _ Hj2) by (by rewrite (jeq_str _ _ Hj2)).
Qed.
End proofs.

(** ** At work *)

(** An image as small as the check allows. *)
Definition example_image : string :=
  "MZ" +:+ concat_all (repeat (chr 0) 58) +:+ chr 64 +:+ concat_all (repeat (chr 0) 3) +:+ "PE" +:+ chr 0 +:+ chr 0 +:+ chr 0x64 +:+ chr 0x86.
Definition example_metadata : string :=
  let quoted s := dq +:+ s +:+ dq in
  "{" +:+ quoted "status" +:+ ":" +:+ quoted "Valid" +:+ "," +:+ quoted "publisher" +:+ ":" +:+ quoted "CN=M, O=Microsoft Corporation" +:+
  "," +:+ quoted "version" +:+ ":" +:+ quoted "14.44.35211.0" +:+ "}".

(** A Windows host whose programs all report a valid signature. *)
Definition signing_host : Host := {|
  host_nt := true; host_run := λ _ _ w, (Ok (Proc 0 example_metadata EmptyString), w_fs w);
  host_which := λ _ _, None; host_fetch := λ _ _, Raise (OSError "offline");
  host_now := λ _, 0; host_utcoffset := 0; host_exn_str := λ _, "error"; host_repr := λ _, "value";
  host_tmp := λ _, "C:/tmp"; host_isatty := false; host_root := "C:/plug_agente"
|}.
Definition plain_links : Symlinks := {| is_symlink := λ _ _, false |}.

Definition example_entry : json :=
  Eval vm_compute in JObj [("sha256", JStr (sha256_hex example_image)); ("version", JStr "14.44.35211.0");
                           ("publisher", JStr "CN=M, O=Microsoft Corporation")].
Definition example_state : json :=
  JObj [("format", JInt 1); ("scope", JStr "fixture-runtime-only"); ("root", JStr (path_str (H:=signing_host) fixture_dir));
        ("files", JObj ((λ name, (name, example_entry)) <$> NAMES))].
Definition example_manifest : string := Eval vm_compute in default EmptyString (dumps_compact true example_state).

Definition runtime_world : world :=
  World (list_to_map ([(fixture_dir // "runtime.json", File example_manifest); (fixture_dir // "x64", Dir);
                       (fixture_dir // "x64/Microsoft.VC143.CRT", Dir)] ++
                      ((λ name, (crt_path fixture_dir name, File example_image)) <$> NAMES)) ∪ w_fs fixture_world) ∅ [].

Definition bound : res json * world :=
  Eval vm_compute in bind_runtime (H:=signing_host) (H0:=linkless) (fixture_dir // "runtime.json") fixture_dir runtime_world.
Definition bound_world : world := snd bound.
Definition bound_reference : json := match fst bound with Ok reference => reference | Raise _ => JNull end.

Definition verified : res unit * world :=
  Eval vm_compute in verify_runtime_reference (H:=signing_host) (H0:=linkless) bound_reference fixture_dir bound_world.

