(* ===== verification/ApplicationBuild.v ===== *)
(** * The proof of an application build (tool/updater/application_build_proof.py)

    A build of the application leaves a proof: the commit, the hash of every
    source, and the hash of every file of its payload. The proof is believed
    only when all of it can be derived again from git and from the files on disk.
    A package of a private fixture then refers to such a build
    (tool/updater/application_package_binding.py). *)

From S2P Require Import Prelude PyStr PyRe PyHash PyJson Effects TextFiles ScriptUtils WindowsFixture LifecyclePayload.
From S2P Require Import LifecycleHandoff Commands ApplicationSource IsolatedRuntime.

Local Open Scope Z_scope.

(** src: tool/updater/application_build_proof.py:13-13 MAX_PROOF_BYTES *)
Definition MAX_PROOF_BYTES : Z := 2 * 1024 * 1024.

(** src: tool/updater/application_build_proof.py:16-17 canonical_hash *)
Definition canonical_hash (files : json) : res string :=
  text ← from_option (dumps_compact false files) (TypeError "Object is not JSON serializable");
  Ok (sha256_hex (utf8_encode text)).

(** A string among the members, as the regular expressions demand it. *)
Definition text_item (key : string) (state : json) : res string :=
  v ← jitem key state;
  match v with JStr s => Ok s | _ => Raise (TypeError "expected string or bytes-like object") end.

(** [key in state] *)
Definition has_key (key : string) (state : json) : bool :=
  match state with JObj l => one_of key l.*1 | _ => false end.

(** src: tool/updater/application_package_binding.py:8-8 REBUILT_TOOLS *)
Definition REBUILT_TOOLS : list string :=
  (λ name, "updater/plug_update_" +:+ name +:+ ".exe") <$> ["service"; "client"; "worker"].

(** src: tool/updater/application_package_binding.py:28-29 verify_application_package
    [{name: digest for name, digest in files.items() if name not in REBUILT_TOOLS}] *)
Definition without_rebuilt (files : list (string * json)) : list (string * json) :=
  List.filter (λ nd, negb (one_of (fst nd) REBUILT_TOOLS)) files.

(** [v.items()] *)
Definition jitems (v : json) : res (list (string * json)) :=
  match v with JObj l => Ok l | _ => Raise (AttributeError "items") end.

Section build.
Context `{Host} `{Filesystem} `{Symlinks} `{Tar}.

(** src: tool/updater/validate_windows_installation.py:28-30 sha256 *)
Definition sha256 (path : string) : M string := b ← read_bytes path; mret (sha256_hex b).

(** src: tool/updater/application_build_proof.py:25-37 verify_sources
    One source of the build. *)
Definition verify_source (root revision identity : string) (originals : list (string * string)) (nd : string * json) : M unit :=
  let '(name, digest) := nd in
  _ ← lift (ApplicationSource.relative_name name);
  _ ← raise_when (negb (match digest with JStr s => is_hex64 s | _ => false end)) (RuntimeError "Invalid application source digest");
  content ← source_bytes root name;
  _ ← raise_when (negb (jeq (JStr (sha256_hex content)) digest)) (RuntimeError "Application source changed after capture");
  if name == ".env" then
    raise_when (content != SAFE_ENV) (RuntimeError "Unexpected application environment input")
  else
    derived ← (if requires_native_derivation name then mret true
               else blob ← lift (from_option (assoc name originals) (KeyError name)); mret (blob_hash content != blob));
    when derived
      (original ← git_output ["show"; revision +:+ ":" +:+ name];
       expected ← lift (derived_bytes name original identity);
       raise_when (expected != content) (RuntimeError "Application derivation does not match the selected commit")).

(** src: tool/updater/application_build_proof.py:22-37 verify_sources
    The sources against the inventory of the commit. *)
Definition verify_inventory (root revision identity : string) (expected : json) (originals : list (string * string)) : M unit :=
  _ ← raise_when (negb (names_are (".env" :: originals.*1) expected))
        (RuntimeError "Application source inventory does not match the selected commit");
  items ← lift (jitems expected);
  for_M (verify_source root revision identity originals) items.

(** src: tool/updater/application_build_proof.py:20-37 verify_sources *)
Definition verify_sources (root revision identity : string) (expected : json) : M unit :=
  originals ← git_files revision; verify_inventory root revision identity expected originals.

(** src: tool/updater/application_build_proof.py:48-52 load_application_build
    The header of a proof, each test only when the ones before it passed. *)
Definition proof_refused (state : json) (root : string) : res bool :=
  format ← jget_or_null "format" state;
  match format with
  | JInt 1 =>
      scope ← jget_or_null "scope" state;
      if negb (jeq scope (JStr "source-qualified-isolated-bootstrap")) then Ok true else
      gate ← jget_or_null "productionActivationGate" state;
      match gate with
      | JBool false =>
          entrypoint ← jget_or_null "entrypoint" state;
          if negb (jeq entrypoint (JStr ENTRYPOINT)) then Ok true else
          recorded ← path_item "root" state;
          Ok (negb (same_path (path_of recorded) root))
      | _ => Ok true
      end
  | _ => Ok true
  end.

(** src: tool/updater/application_build_proof.py:65-66 load_application_build
    A file of the runtime is not what the payload has, [state.get("payloadFiles", {})] being looked up for each. *)
Fixpoint runtime_missing (state : json) (files : list (string * json)) : res bool :=
  match files with
  | [] => Ok false
  | (name, metadata) :: files =>
      payload ← jget "payloadFiles" state;
      digest ← jget_or_null name (default (JObj []) payload);
      expected ← jitem "sha256" metadata;
      if negb (jeq digest expected) then Ok true else runtime_missing state files
  end.

(** src: tool/updater/application_build_proof.py:61-66 load_application_build
    The private runtime of a build. *)
Definition verify_runtime_input (state : json) (root : string) : M unit :=
  reference ← lift (jitem "runtimeInput" state);
  _ ← verify_runtime_reference reference root;
  path ← lift (path_item "path" reference);
  runtime ← load_runtime (path_of path);
  recorded ← lift (jitem "files" runtime);
  files ← lift (jitems recorded);
  missing ← lift (runtime_missing state files);
  raise_when missing (RuntimeError "Application payload does not contain the verified private runtime").

(** src: tool/updater/application_build_proof.py:40-70 load_application_build *)
Definition load_application_build (path : string) : M json :=
  _ ← raise_when (path_name path != "application-build.json") (RuntimeError "The owned application-build.json is required");
  root ← require_fixture_root (path_parent path) false;
  path ← require_fixture_artifact root path;
  size ← file_size path;
  _ ← raise_when (MAX_PROOF_BYTES <? size) (RuntimeError "Application proof exceeds its size limit");
  text ← read_text path;
  state ← lift (loads text);
  refused ← lift (proof_refused state root);
  _ ← raise_when refused (RuntimeError "Unsupported application-build proof");
  named ← lift (text_item "identity" state);
  identity ← lift (require_identity named);
  source ← source_root identity false;
  recorded ← lift (path_item "sourceRoot" state);
  _ ← raise_when (negb (same_path (path_of recorded) source))
        (RuntimeError "Application source root does not match its identity");
  files ← lift (jget_or_null "sourceFiles" state);
  revision ← lift (text_item "revision" state);
  _ ← verify_sources source revision identity files;
  tree ← lift (jget_or_null "sourceTreeSha256" state);
  hash ← lift (canonical_hash files);
  _ ← raise_when (negb (jeq tree (JStr hash))) (RuntimeError "Application source-tree binding mismatch");
  _ ← when (has_key "runtimeInput" state) (verify_runtime_input state root);
  actual ← capture_payload root;
  payload ← lift (jget_or_null "payloadFiles" state);
  changed ← lift (if negb (jeq (JObj actual) payload) then Ok true else
                  h ← payload_tree_hash actual; recorded ← jget_or_null "payloadTreeSha256" state; Ok (negb (jeq (JStr h) recorded)));
  _ ← raise_when changed (RuntimeError "Application build payload changed");
  mret state.

(** src: tool/updater/application_package_binding.py:11-19 application_input *)
Definition application_input (path : string) : M (json * json) :=
  state ← load_application_build path;
  hash ← sha256 path;
  revision ← lift (jitem "revision" state);
  tree ← lift (jitem "sourceTreeSha256" state);
  payload ← lift (jitem "payloadTreeSha256" state);
  let reference := JObj [("path", JStr (path_str (absolute path))); ("sha256", JStr hash); ("revision", revision);
                         ("sourceTreeSha256", tree); ("payloadTreeSha256", payload)] in
  again ← load_application_build path;
  changed ← (if negb (jeq again state) then mret true else hash_again ← sha256 path; mret (hash_again != hash));
  _ ← raise_when changed (RuntimeError "Application build changed during package binding");
  mret (state, reference).

(** src: tool/updater/application_package_binding.py:22-31 verify_application_package *)
Definition verify_application_package (reference : json) (identity : string) (payload_files : json) : M unit :=
  let missing := RuntimeError "An explicit application-build reference is required" in
  path ← lift (match reference with
               | JObj l => match assoc "path" l with Some (JStr p) => Ok p | _ => Raise missing end
               | _ => Raise missing
               end);
  '(state, current) ← application_input (path_of path);
  changed ← lift (if negb (jeq current reference) then Ok true else
                  recorded ← jitem "identity" state; Ok (negb (jeq recorded (JStr identity))));
  _ ← raise_when changed (RuntimeError "Application build reference or package identity changed");
  built ← lift (jitem "payloadFiles" state);
  expected ← lift (jitems built);
  actual ← lift (jitems payload_files);
  raise_when (negb (jeq (JObj (without_rebuilt actual)) (JObj (without_rebuilt expected))))
    (RuntimeError "Packaged application differs from its verified build").
End build.

(** ** What a proof that was believed says *)

Section proofs.
Context `{Host} `{Filesystem} `{Symlinks} `{Tar}.

Lemma same_source_bytes root name : steps (=) (source_bytes root name).
Proof. pose proof same_components. unfold source_bytes. solve_steps. Qed.
Lemma same_sha256 path : steps (=) (sha256 path).
Proof. unfold sha256. solve_steps. Qed.
Lemma later_git_output arguments : steps later (git_output arguments).
Proof. unfold git_output, get_env. solve_steps. Qed.
Lemma later_git_files revision : steps later (git_files revision).
Proof. pose proof later_git_output. unfold git_files. solve_steps. Qed.
#[local] Hint Resolve same_source_bytes same_sha256 later_git_output later_git_files same_digest later_same : py.
Lemma later_verify_source root revision identity originals nd : steps later (verify_source root revision identity originals nd).
Proof. destruct nd as [name digest]. unfold verify_source. solve_steps. Qed.
#[local] Hint Resolve later_verify_source : py.
Lemma later_verify_sources root revision identity expected : steps later (verify_sources root revision identity expected).
Proof. unfold verify_sources, verify_inventory. solve_steps. Qed.
Lemma later_load_runtime path : steps later (load_runtime path).
Proof. pose proof later_runtime_entry. unfold load_runtime. solve_steps. Qed.
#[local] Hint Resolve later_verify_sources later_load_runtime : py.
Lemma later_verify_runtime_reference reference root : steps later (verify_runtime_reference reference root).
Proof. unfold verify_runtime_reference. solve_steps. Qed.

Lemma runs_source_bytes root name w content w' : runs (source_bytes root name) w content w' →
  w' = w ∧ w_fs w !! path_at root name = Some (File content) ∧ nlink (path_at root name) w = 1 ∧
  Forall (plain_entry w) (components root (posix_parts name)).
Proof.
  intros Hr. pose proof (runs_same _ _ _ _ (same_source_bytes root name) Hr) as ->. split; [done|]. unfold source_bytes in Hr.
  apply runs_bind in Hr as (n & w1 & [_ <-]%runs_lift & Hr).
  apply runs_bind in Hr as ([] & w1 & [-> Hplain]%runs_reject_components & Hr).
  apply runs_bind in Hr as (b & w1 & [-> _]%runs_is_file & Hr). apply runs_bind in Hr as (l & w1 & Hl & Hr).
  injection Hl as <- <-. apply runs_bind in Hr as ([] & w1 & [Hg <-]%runs_raise_when & Hr).
  apply runs_read_bytes in Hr as [_ Hc]. bool_simpl. by split_and!.
Qed.

(** A source that was verified between [w] and [w']: an independent file below
    the source root whose content has the recorded hash, and is either the blob
    of the commit or what the derivation makes of it. *)
Definition source_verified (root revision identity : string) (originals : list (string * string)) (w w' : world)
    (nd : string * json) : Prop :=
  ∃ content w1, later w w1 ∧ later w1 w' ∧ w_fs w1 !! path_at root nd.1 = Some (File content) ∧
    nlink (path_at root nd.1) w1 = 1 ∧ Forall (plain_entry w1) (components root (posix_parts nd.1)) ∧
    nd.2 = JStr (sha256_hex content) ∧
    if nd.1 == ".env" then content = SAFE_ENV
    else (requires_native_derivation nd.1 = false ∧ assoc nd.1 originals = Some (blob_hash content)) ∨
         ∃ original, during (git_output ["show"; revision +:+ ":" +:+ nd.1]) original w1 w' ∧
                     derived_bytes nd.1 original identity = Ok content.

Lemma source_verified_mono root revision identity originals w0 w w' w1 nd : later w0 w → later w' w1 →
  source_verified root revision identity originals w w' nd → source_verified root revision identity originals w0 w1 nd.
Proof.
  intros Ha Hb (content & v & Hv & Hv' & Hf & Hn & Hp & Hd & Hk). exists content, v. split_and!; try done; [by etrans|by etrans|].
  destruct (_ == ".env"); [done|]. destruct Hk as [?|(o & Ho & ?)]; [by left|]. right. exists o. split; [|done].
  eapply during_mono; [|exact Hb|exact Ho]. reflexivity.
Qed.

Lemma runs_verify_source root revision identity originals nd w w' :
  runs (verify_source root revision identity originals nd) w tt w' → source_verified root revision identity originals w w' nd.
Proof.
  destruct nd as [name digest]. unfold verify_source. intros Hr. apply runs_bind in Hr as (n & w1 & [_ <-]%runs_lift & Hr).
  apply runs_bind in Hr as ([] & w1 & [_ <-]%runs_raise_when & Hr).
  apply runs_bind in Hr as (content & w1 & (-> & Hf & Hn & Hp)%runs_source_bytes & Hr).
  apply runs_bind in Hr as ([] & w1 & [Hd%negb_false_iff%jeq_JStr <-]%runs_raise_when & Hr). exists content, w. simpl.
  destruct (name == ".env") eqn:Hname.
  - apply runs_raise_when in Hr as [Hc <-]. bool_simpl. by split_and!.
  - apply runs_bind in Hr as (derived & w1 & Hdr & Hr).
    assert (w1 = w ∧ (derived = false → requires_native_derivation name = false ∧ assoc name originals = Some (blob_hash content)))
      as [-> Hplain].
    { destruct (requires_native_derivation name); [by apply runs_ret in Hdr as [<- <-]|].
      apply runs_bind in Hdr as (blob & w2 & [Hb%from_option_Ok <-]%runs_lift & Hdr). apply runs_ret in Hdr as [<- <-].
      split; [done|]. intros Heq. bool_simpl. by subst. }
    destruct derived; simpl in Hr; [|apply runs_ret in Hr as [_ <-]; split_and!; try done; left; by apply Hplain].
    apply runs_bind in Hr as (original & w1 & Ho & Hr). apply runs_bind in Hr as (expected & w2 & [He <-]%runs_lift & Hr).
    apply runs_raise_when in Hr as [Heq <-]. bool_simpl. subst expected.
    pose proof (later_runs _ _ _ _ (later_git_output _) Ho). split_and!; try done. right. exists original.
    split; [by eapply during_runs|done].
Qed.

Lemma for_M_moments {A} (f : A → M unit) (P : world → world → A → Prop) l w w' : (∀ x, steps later (f x)) →
  (∀ x w w', runs (f x) w tt w' → P w w' x) →
  (∀ x w0 w w' w1, later w0 w → later w' w1 → P w w' x → P w0 w1 x) →
  runs (for_M f l) w tt w' → Forall (P w w') l.
Proof.
  intros Hf HP Hmono. revert w. induction l as [|x l IH]; intros w Hr; [constructor|].
  apply runs_bind in Hr as ([] & w1 & Hx & Hr). pose proof (later_runs _ _ _ _ (Hf x) Hx) as Hl1.
  assert (later w1 w') as Hl2 by (eapply later_runs; [|exact Hr]; apply steps_for_M; [apply _|done]).
  constructor; [by eapply Hmono; [| |by apply HP]|]. eapply Forall_impl; [by apply IH|]. intros y. by apply Hmono.
Qed.

(** The sources of an inventory under a private identity. *)
Definition inventory_holds (root revision identity : string) (originals : list (string * string)) (files : list (string * json))
    (w w' : world) : Prop :=
  (∀ name, name ∈ files.*1 ↔ name = ".env" ∨ name ∈ originals.*1) ∧
  Forall (source_verified root revision identity originals w w') files.

Lemma runs_verify_inventory root revision identity expected originals w w' :
  runs (verify_inventory root revision identity expected originals) w tt w' →
  ∃ files, expected = JObj files ∧ inventory_holds root revision identity originals files w w'.
Proof.
  unfold verify_inventory. intros Hr. apply runs_bind in Hr as ([] & w1 & [Hnames%negb_false_iff <-]%runs_raise_when & Hr).
  apply runs_bind in Hr as (files & w1 & [Hi <-]%runs_lift & Hr). destruct expected as [| | | | | |l]; try done.
  injection Hi as ->. exists files. split; [done|]. split.
  - unfold names_are in Hnames. apply andb_prop in Hnames as [Hall Hnames]. rewrite forallb_forall in Hall, Hnames.
    intros name. split.
    + intros Hin%list_elem_of_In%Hnames%one_of_true. by apply elem_of_cons in Hin.
    + intros Hin. apply one_of_true, Hall, list_elem_of_In. by apply elem_of_cons.
  - apply for_M_moments with (P := source_verified root revision identity originals) in Hr; [done|apply later_verify_source| |].
    + intros nd v v'. apply runs_verify_source.
    + intros nd v0 v v' v1. apply source_verified_mono.
Qed.

(** The sources of a commit: its inventory was read first. *)
Definition sources_verified (root revision identity : string) (files : list (string * json)) (w w' : world) : Prop :=
  ∃ originals w1, runs (git_files revision) w originals w1 ∧ inventory originals ∧ later w1 w' ∧
    inventory_holds root revision identity originals files w1 w'.

Lemma runs_verify_sources root revision identity expected w w' : runs (verify_sources root revision identity expected) w tt w' →
  ∃ files, expected = JObj files ∧ sources_verified root revision identity files w w'.
Proof.
  unfold verify_sources. intros Hr. apply runs_bind in Hr as (originals & w1 & Ho & Hr).
  assert (later w1 w') by (eapply later_runs; [|exact Hr]; unfold verify_inventory; solve_steps).
  apply runs_verify_inventory in Hr as (files & -> & Hh). exists files. split; [done|]. exists originals, w1.
  split_and!; [done| |done|done]. by apply runs_git_files in Ho as (_ & ? & _).
Qed.

(** C10. When the inventory check of a build passes, the build's files are
    exactly those of the commit and [.env], and every one of them was, at some
    moment of the check, an independent file below the source root, with no link
    on the way, whose content has the recorded SHA-256 and is the blob of the
    commit, or what the derivation for the private identity makes of what
    [git show] printed, or the safe environment. *)
Theorem sources_derived (root revision identity : string) (expected : json) (originals : list (string * string)) (w w' : world)
    (Hrun : runs (verify_inventory root revision identity expected originals) w tt w') :
  ∃ files, expected = JObj files ∧ (∀ name, name ∈ files.*1 ↔ name = ".env" ∨ name ∈ originals.*1) ∧
    ∀ name digest, (name, digest) ∈ files → ∃ content w1, later w w1 ∧ later w1 w' ∧
      w_fs w1 !! path_at root name = Some (File content) ∧ nlink (path_at root name) w1 = 1 ∧
      Forall (plain_entry w1) (components root (posix_parts name)) ∧ digest = JStr (sha256_hex content) ∧
      (if name == ".env" then content = SAFE_ENV
       else (requires_native_derivation name = false ∧ assoc name originals = Some (blob_hash content)) ∨
            ∃ original, during (git_output ["show"; revision +:+ ":" +:+ name]) original w1 w' ∧
                        derived_bytes name original identity = Ok content).
Proof.
  apply runs_verify_inventory in Hrun as (files & -> & Hnames & Hall). exists files. split_and!; [done|done|].
  intros name digest Hin. rewrite Forall_forall in Hall. by apply Hall in Hin.
Qed.

(** What a proof that was believed promises: the sources of its commit below the
    source root of its identity, with the recorded tree hash, and the payload on
    disk, with its own. *)
Lemma runs_load_application_build path w state w' : runs (load_application_build path) w state w' →
  ∃ identity revision source files payload w1 w2,
    text_item "identity" state = Ok identity ∧ require_identity identity = Ok identity ∧
    text_item "revision" state = Ok revision ∧ jget_or_null "sourceFiles" state = Ok (JObj files) ∧
    runs (source_root identity false) w source w1 ∧ later w2 w' ∧ sources_verified source revision identity files w1 w2 ∧
    (∃ hash, canonical_hash (JObj files) = Ok hash ∧ jget_or_null "sourceTreeSha256" state = Ok (JStr hash)) ∧
    runs (capture_payload (abspath (path_parent path))) w' payload w' ∧
    (∃ recorded, jget_or_null "payloadFiles" state = Ok recorded ∧ jeq (JObj payload) recorded = true) ∧
    (∃ hash, payload_tree_hash payload = Ok hash ∧ jget_or_null "payloadTreeSha256" state = Ok (JStr hash)).
Proof.
  unfold load_application_build. intros Hr. apply runs_bind in Hr as ([] & w1 & [_ <-]%runs_raise_when & Hr).
  apply runs_bind in Hr as (root & w1 & [-> ->]%runs_fixture_root & Hr).
  apply runs_bind in Hr as (p & w1 & (-> & -> & _)%runs_fixture_artifact & Hr).
  apply runs_bind in Hr as (size & w1 & ->%(runs_same _ _ _ _ (same_file_size _)) & Hr).
  apply runs_bind in Hr as ([] & w1 & [_ <-]%runs_raise_when & Hr).
  apply runs_bind in Hr as (text & w1 & [<- _]%runs_read_text & Hr). apply runs_bind in Hr as (st & w1 & [_ <-]%runs_lift & Hr).
  apply runs_bind in Hr as (refused & w1 & [_ <-]%runs_lift & Hr). apply runs_bind in Hr as ([] & w1 & [_ <-]%runs_raise_when & Hr).
  apply runs_bind in Hr as (named & w1 & [Hid <-]%runs_lift & Hr). apply runs_bind in Hr as (identity & w1 & [Hreq <-]%runs_lift & Hr).
  apply runs_bind in Hr as (source & w1 & Hsource & Hr). apply runs_bind in Hr as (rs & w2 & [_ <-]%runs_lift & Hr).
  apply runs_bind in Hr as ([] & w2 & [_ <-]%runs_raise_when & Hr). apply runs_bind in Hr as (fs & w2 & [Hfs <-]%runs_lift & Hr).
  apply runs_bind in Hr as (revision & w2 & [Hrev <-]%runs_lift & Hr).
  apply runs_bind in Hr as ([] & w2 & (files & -> & Hver)%runs_verify_sources & Hr).
  apply runs_bind in Hr as (tree & w3 & [Htree <-]%runs_lift & Hr). apply runs_bind in Hr as (hash & w3 & [Hhash <-]%runs_lift & Hr).
  apply runs_bind in Hr as ([] & w3 & [Hjt%negb_false_iff%jeq_str <-]%runs_raise_when & Hr). subst tree.
  apply runs_bind in Hr as ([] & w3 & Hrt & Hr).
  assert (later w2 w3).
  { eapply later_runs; [|exact Hrt]. pose proof later_verify_runtime_reference. unfold verify_runtime_input. solve_steps. }
  apply runs_bind in Hr as (actual & w4 & Hc & Hr). pose proof (runs_capture_payload _ _ _ _ Hc) as [-> _].
  apply runs_bind in Hr as (payload & w4 & [Hp <-]%runs_lift & Hr). apply runs_bind in Hr as (changed & w4 & [Hch <-]%runs_lift & Hr).
  apply runs_bind in Hr as ([] & w4 & [-> <-]%runs_raise_when & Hr). apply runs_ret in Hr as [<- <-].
  destruct (jeq (JObj actual) payload) eqn:Hj; cbn [negb] in Hch; [|done].
  apply res_bind_Ok in Hch as (h & Hh & Hch). apply res_bind_Ok in Hch as (rec & Hrec & [= Heq%negb_false_iff%jeq_JStr]). subst rec.
  assert (identity = named) as -> by (unfold require_identity in Hreq; apply res_bind_Ok in Hreq as (_ & _ & [= ->]); done).
  exists named, revision, source, files, actual, w1, w2. split_and!; try done; eauto.
Qed.

Lemma same_capture_entries root payload paths pending files : steps (=) (capture_entries root payload paths pending files).
Proof.
  revert pending files. induction paths as [|p paths IH]; intros pending files; cbn [capture_entries]; [solve_steps|].
  unfold capture_entry, reject_reparse. solve_steps; apply IH.
Qed.
Lemma same_capture_loop fuel root payload pending files : steps (=) (capture_loop fuel root payload pending files).
Proof.
  pose proof same_capture_entries. revert pending files.
  induction fuel as [|fuel IH]; intros pending files; cbn [capture_loop]; destruct pending; solve_steps; apply IH.
Qed.
Lemma same_capture_payload root : steps (=) (capture_payload root).
Proof. pose proof same_capture_loop. unfold capture_payload, reject_reparse. solve_steps. Qed.
#[local] Hint Resolve same_capture_payload : py.

Lemma later_load_application_build path : steps later (load_application_build path).
Proof.
  pose proof later_verify_runtime_reference. unfold load_application_build, source_root, verify_runtime_input, check_source_directory, reject_reparse.
  solve_steps.
Qed.

(** Every file of a package, other than the three tools built anew, is the file
    of that name of a build whose proof was believed at the end. *)
Lemma runs_verify_application_package reference identity payload w w' :
  runs (verify_application_package reference identity (JObj payload)) w tt w' →
  ∃ path state again built w1, later w w1 ∧ runs (load_application_build path) w1 again w' ∧ jeq again state = true ∧
    jitem "identity" state = Ok (JStr identity) ∧ jitem "payloadFiles" state = Ok (JObj built) ∧
    jeq (JObj (without_rebuilt payload)) (JObj (without_rebuilt built)) = true.
Proof.
  unfold verify_application_package, application_input. intros Hr.
  apply runs_bind in Hr as (path & w1 & [_ <-]%runs_lift & Hr). apply runs_bind in Hr as ([state current] & w1 & Hin & Hr).
  apply runs_bind in Hin as (state' & w2 & Hload & Hin). apply runs_bind in Hin as (h & w3 & ->%(runs_same _ _ _ _ (same_sha256 _)) & Hin).
  do 3 (apply runs_bind in Hin as (? & w3 & [_ <-]%runs_lift & Hin)).
  apply runs_bind in Hin as (again & w3 & Hagain & Hin). apply runs_bind in Hin as (changed & w4 & Hch & Hin).
  apply runs_bind in Hin as ([] & w5 & [-> <-]%runs_raise_when & Hin). apply runs_ret in Hin as [[= <- _] <-].
  destruct (jeq again state') eqn:Hj; cbn [negb] in Hch; [|by apply runs_ret in Hch as [? _]].
  apply runs_bind in Hch as (h2 & w5 & ->%(runs_same _ _ _ _ (same_sha256 _)) & Hch). apply runs_ret in Hch as [_ <-].
  apply runs_bind in Hr as (c & w5 & [Hc <-]%runs_lift & Hr). apply runs_bind in Hr as ([] & w5 & [-> <-]%runs_raise_when & Hr).
  destruct (jeq current reference); cbn [negb] in Hc; [|done].
  apply res_bind_Ok in Hc as (rec & Hrec & [= Heq%negb_false_iff%jeq_str]). subst rec.
  apply runs_bind in Hr as (built & w5 & [Hb <-]%runs_lift & Hr). apply runs_bind in Hr as (expected & w5 & [He <-]%runs_lift & Hr).
  apply runs_bind in Hr as (actual & w5 & [[= ->] <-]%runs_lift & Hr). apply runs_raise_when in Hr as [Hsame%negb_false_iff <-].
  destruct built as [| | | | | |l]; try done. injection He as ->.
  exists (path_of path), state', again, expected, w2. split_and!; try done. eapply later_runs; [|exact Hload]. apply later_load_application_build.
Qed.
End proofs.

(** ** At work *)

Definition window_source : string := "const wchar_t kClass[] = L" +:+ dq +:+ "FLUTTER_RUNNER_WIN32_WINDOW" +:+ dq +:+ ";".
Definition example_identity : string := "PlugAgenteHomologacao_0123456789ab".

(** A host whose git prints the window source. *)
Definition showing_host : Host := {|
  host_nt := false; host_run := λ _ _ w, (Ok (Proc 0 window_source EmptyString), w_fs w);
  host_which := λ _ _, None; host_fetch := λ _ _, Raise (OSError "offline");
  host_now := λ _, 0; host_utcoffset := 0; host_exn_str := λ _, "error"; host_repr := λ _, "value";
  host_tmp := λ _, "/tmp"; host_isatty := false; host_root := "/r"
|}.
Definition window_name : string := "windows/runner/win32_window.cpp".
Definition derived_window : string :=
  Eval vm_compute in match derived_bytes window_name window_source example_identity with Ok s => s | Raise _ => EmptyString end.
Definition example_originals : list (string * string) :=
  Eval vm_compute in [(window_name, blob_hash window_source); ("lib/a.dart", blob_hash "main();")].
Definition build_world : world :=
  World (list_to_map [("/src/windows", Dir); ("/src/windows/runner", Dir); ("/src/lib", Dir);
                      ("/src/" +:+ window_name, File derived_window); ("/src/lib/a.dart", File "main();");
                      ("/src/.env", File SAFE_ENV)]) ∅ [].
Definition example_sources : json :=
  Eval vm_compute in JObj [(".env", JStr (sha256_hex SAFE_ENV)); (window_name, JStr (sha256_hex derived_window));
                           ("lib/a.dart", JStr (sha256_hex "main();"))].

(** A file that differs from its blob although nothing derives it is refused. *)
Example plain_change_refused :
  fst (verify_source (H:=showing_host) (H0:=linkless) "/src" "commit" example_identity example_originals
         ("lib/a.dart", JStr (sha256_hex "main(1);")) (World (<["/src/lib/a.dart" := File "main(1);"]> (w_fs build_world)) ∅ [])) =
  Raise (RuntimeError "Application derivation does not match the selected commit").
Proof. vm_compute. reflexivity. Qed.

Theorem sources_derived_witness : ∃ w',
  derived_window = "const wchar_t kClass[] = L" +:+ dq +:+ example_identity +:+ "_WINDOW" +:+ dq +:+ ";" ∧
  ∃ files, example_sources = JObj files ∧ (∀ name, name ∈ files.*1 ↔ name = ".env" ∨ name ∈ example_originals.*1) ∧
    ∀ name digest, (name, digest) ∈ files → ∃ content w1, later build_world w1 ∧ later w1 w' ∧
      w_fs w1 !! path_at "/src" name = Some (File content) ∧ nlink (Filesystem:=linkless) (path_at "/src" name) w1 = 1 ∧
      Forall (plain_entry (H0:=linkless) w1) (components "/src" (posix_parts name)) ∧ digest = JStr (sha256_hex content) ∧
      (if name == ".env" then content = SAFE_ENV
       else (requires_native_derivation name = false ∧ assoc name example_originals = Some (blob_hash content)) ∨
            ∃ original, during (git_output (H:=showing_host) ["show"; "commit" +:+ ":" +:+ name]) original w1 w' ∧
                        derived_bytes name original example_identity = Ok content).
Proof.
  eexists. split; [reflexivity|].
  apply (sources_derived (H:=showing_host) (H0:=linkless) "/src" "commit" example_identity example_sources example_originals build_world).
  vm_compute. reflexivity.
Defined.
