(* ===== verification/ApplicationBuilder.v ===== *)
(** * Building the isolated application (tool/updater/build_isolated_application.py)

    The build of a commit in its own source root: the sources are exported from
    git, given their private identity and checked again after every step that
    runs a program. The receipt is accepted only when its proof loads. *)

From S2P Require Import Prelude PyStr PyRe PyHash PyJson Effects TextFiles ScriptUtils WindowsFixture LifecyclePayload.
From S2P Require Import LifecycleHandoff Commands ApplicationSource IsolatedRuntime ApplicationBuild.
From S2P Require BuildInstaller SignpathStaging WindowsVersionInfo.

Local Open Scope Z_scope.

(** [uuid.uuid4().hex] and [datetime.now(timezone.utc).isoformat()] *)
Class BuildClock : Type := {
  uuid4_hex : world → string;
  utc_isoformat : world → string
}.

(** The command of [subprocess.run]: its arguments, or the command line itself. *)
Inductive command : Type := Arguments_ (args : list string) | CommandLine (line : string).
Definition command_argv (c : command) : list string := match c with Arguments_ args => args | CommandLine line => [line] end.

(** The text has one of the characters that the command shell acts on, or ends a line. *)
Definition shell_special (text : string) : bool := str_any (char_in ("&|<>^%!" +:+ dq +:+ cr +:+ nl)) text.

Definition any_char : regex := RChar (λ _, true).
Definition word : regex := RChar is_word.
Definition odbc_block : regex :=
  seqs [RBol; lit ("  odbc_fast:" +:+ nl); RGroup 1 (star_lazy any_char);
        RLook (RAlt (seqs [RBol; lit "  "; word]) (seqs [RBol; lit "sdks:"]))].
Definition version_line : regex :=
  seqs [RBol; lit ("    version: " +:+ dq);
        RGroup 1 (seqs [plus digit; ch "."; plus digit; ch "."; plus digit]); lit dq].

(** src: tool/updater/build_isolated_application.py:43-44 native_cache
    The version of the ODBC package that a lock file pins. *)
Definition pinned_version (lock : string) : option string :=
  block ← re_search odbc_block lock;
  version ← re_search version_line (group_str 1 block);
  group 1 version.

Example pinned_version_found :
  pinned_version ("packages:" +:+ nl +:+ "  odbc_fast:" +:+ nl +:+ "    source: hosted" +:+ nl +:+
                  "    version: " +:+ dq +:+ "1.2.30" +:+ dq +:+ nl +:+ "  path:" +:+ nl +:+ "sdks:" +:+ nl) = Some "1.2.30" ∧
  pinned_version ("  odbc_fast:" +:+ nl +:+ "    version: " +:+ dq +:+ "1.2-dev" +:+ dq +:+ nl +:+ "sdks:" +:+ nl) = None.
Proof. by vm_compute. Qed.

(** src: tool/updater/build_isolated_application.py:103-103 build_application
    [shutil.ignore_patterns("*.pdb", "*.ilk", "*.lib", "*.exp", "*.log")]: Windows does not look at the case. *)
Definition ignored_output `{Host} (name : string) : bool :=
  existsb (endswith (if host_nt then py_lower name else name)) [".pdb"; ".ilk"; ".lib"; ".exp"; ".log"].

Section builder.
Context `{Host} `{Filesystem} `{Symlinks} `{Tar} `{BuildInstaller.Machine} `{SignpathStaging.RealPath} `{BuildClock}.

(** [path.resolve(strict=True)] *)
Definition resolve (path : string) : M string :=
  _ ← WindowsVersionInfo.resolve_strict path; w ← get_world; mret (SignpathStaging.real_path path w).

(** src: tool/updater/build_isolated_application.py:23-28 run_logged
    The output of the program is in the log when it ended. *)
Definition run_logged (c : command) (cwd : string) (environment : gmap string string) (log : string) : M unit :=
  _ ← create_bytes log EmptyString;
  try_catch
    (r ← run_proc_env environment (command_argv c) cwd;
     _ ← append_bytes log (stdout r);
     raise_when (negb (returncode r =? 0)) (CalledProcessError (returncode r) (command_argv c) EmptyString))
    (λ e, is_OSError e || is_SubprocessError e)
    (λ _, raise (RuntimeError ("Application build step failed; inspect private " +:+ path_name log))).

(** src: tool/updater/build_isolated_application.py:31-38 flutter_command *)
Definition flutter_command (flutter : string) (args : list string) : M string :=
  _ ← raise_when ((py_lower (path_name flutter) != "flutter.bat") || shell_special (path_str flutter))
        (RuntimeError "An explicit safe Flutter executable is required");
  _ ← raise_when (existsb shell_special args) (RuntimeError "Flutter arguments must contain only literal build options");
  comspec ← getenv_or "COMSPEC" "cmd.exe";
  mret (list2cmdline [comspec; "/d"; "/s"; "/c"] +:+ " " +:+ dq +:+ list2cmdline (path_str flutter :: args) +:+ dq).

(** src: tool/updater/build_isolated_application.py:41-54 native_cache *)
Definition native_cache (source cache : string) : M string :=
  lock ← read_text (source // "pubspec.lock");
  version ← lift (from_option (pinned_version lock) (RuntimeError "The snapshot must pin its published ODBC package"));
  let origin := cache // version // "windows_x64" in
  _ ← for_M reject_reparse [cache; cache // version; origin; origin // "manifest.json"; origin // "odbc_engine.dll"];
  let destination := source // "build/odbc-native/packages" // version // "windows_x64" in
  _ ← mkdir_new destination;
  _ ← for_M (λ name, copy_file (origin // name) (destination // name)) ["manifest.json"; "odbc_engine.dll"];
  mret (destination // "odbc_engine.dll").

(** src: tool/updater/build_isolated_application.py:78-81 build_application
    Giving one exported source its private identity. *)
Definition derive_source (source identity : string) (captured : list (string * json)) (name : string) : M (list (string * json)) :=
  let path := path_at source name in
  original ← read_bytes path;
  content ← lift (derived_bytes name original identity);
  _ ← write_bytes path content;
  mret (assoc_set name (JStr (sha256_hex content)) captured).

(** src: tool/updater/build_isolated_application.py:77-81 build_application *)
Fixpoint derive_sources (source identity : string) (captured : list (string * json)) (names : list string)
    : M (list (string * json)) :=
  match names with
  | [] => mret captured
  | name :: names => captured ← derive_source source identity captured name; derive_sources source identity captured names
  end.

(** src: tool/updater/build_isolated_application.py:85-87 build_application *)
Definition build_environment (env : gmap string string) : gmap string string :=
  <["AUTO_UPDATE_FEED_PUBLIC_KEY" := EmptyString]> (<["AUTO_UPDATE_REQUIRE_VALID_SIGNATURE" := "false"]>
    (<["CI" := "true"]> (<["FLUTTER_SUPPRESS_ANALYTICS" := "true"]> (tool_environment env)))).

(** src: tool/updater/build_isolated_application.py:89-92 build_application
    The runtime of the build and its environment. *)
Definition bind_build_runtime (runtime_manifest : option string) (output : string) (environment : gmap string string)
    : M (option json * gmap string string) :=
  match runtime_manifest with
  | None => mret (None, environment)
  | Some manifest =>
      reference ← bind_runtime manifest output;
      toolchain ← lift (path_item "toolchain" reference);
      mret (Some reference, <["CMAKE_TOOLCHAIN_FILE" := toolchain]> environment)
  end.

(** src: tool/updater/build_isolated_application.py:57-119 build_application *)
Definition build_application (output revision flutter cache : string) (runtime_manifest : option string) : M string :=
  _ ← raise_when (negb host_nt) (RuntimeError "Isolated desktop builds require Windows");
  output ← require_fixture_root output true;
  files ← git_files revision;
  flutter ← resolve flutter;
  _ ← flutter_command flutter ["--version"];
  cache ← resolve cache;
  w ← get_world;
  identity ← lift (require_identity ("PlugAgenteHomologacao_" +:+ str_take 12 (uuid4_hex w)));
  source ← source_root identity true;
  archive ← git_output ["archive"; "--format=tar"; revision];
  _ ← match runtime_manifest with Some manifest => _ ← load_runtime manifest; mret tt | None => mret tt end;
  _ ← mkdir_new output;
  _ ← protect_backup output;
  _ ← mkdir_new source;
  _ ← protect_backup source;
  _ ← export_archive archive source files;
  captured ← derive_sources source identity [] files.*1;
  _ ← write_bytes (source // ".env") SAFE_ENV;
  let captured := assoc_set ".env" (JStr (sha256_hex SAFE_ENV)) captured in
  _ ← verify_sources source revision identity (JObj captured);
  env ← get_env;
  '(runtime_reference, environment) ← bind_build_runtime runtime_manifest output (build_environment env);
  pub_get ← flutter_command flutter ["pub"; "get"; "--offline"; "--enforce-lockfile"];
  _ ← run_logged (CommandLine pub_get) source environment (output // "pub-get.log");
  _ ← verify_sources source revision identity (JObj captured);
  binary ← native_cache source cache;
  _ ← run_logged (Arguments_ [BuildInstaller.sys_executable; "-m"; "tool.odbc.prepare_package_native"]) source environment
        (output // "native-verify.log");
  let environment := <["ODBC_FAST_NATIVE_LIBRARY" := path_str binary]> environment in
  build ← flutter_command flutter ["build"; "windows"; "--release"; "--no-pub"; "--target"; ENTRYPOINT];
  _ ← run_logged (CommandLine build) source environment (output // "flutter-build.log");
  _ ← run_logged (Arguments_ [BuildInstaller.sys_executable; "tool/elevated/build_elevated_runner.py"; "--release-only"]) source
        environment (output // "elevated-helper.log");
  let release := source // "build/windows/x64/runner/Release" in
  _ ← run_logged (Arguments_ [BuildInstaller.sys_executable; "-m"; "tool.odbc.prepare_package_native"; "--verify-bundle"; path_str release])
        source environment (output // "bundle-verify.log");
  _ ← verify_sources source revision identity (JObj captured);
  _ ← copy_tree ignored_output release (output // "payload");
  payload ← capture_payload output;
  source_hash ← lift (canonical_hash (JObj captured));
  payload_hash ← lift (payload_tree_hash payload);
  w ← get_world;
  let state := [("format", JInt 1); ("scope", JStr "source-qualified-isolated-bootstrap"); ("root", JStr (path_str output));
                ("identity", JStr identity); ("revision", JStr revision); ("sourceRoot", JStr (path_str source));
                ("entrypoint", JStr ENTRYPOINT); ("productionActivationGate", JBool false);
                ("sourceFiles", JObj captured); ("sourceTreeSha256", JStr source_hash);
                ("payloadFiles", JObj payload); ("payloadTreeSha256", JStr payload_hash);
                ("builtAt", JStr (utc_isoformat w))] in
  let state := match runtime_reference with Some reference => state ++ [("runtimeInput", reference)] | None => state end in
  text ← lift (from_option (dumps_indent true (sorted_json (JObj state))) (TypeError "Object is not JSON serializable"));
  let encoded := utf8_encode text in
  _ ← raise_when (MAX_PROOF_BYTES <? len encoded) (RuntimeError "Application proof exceeds its size limit");
  let receipt := output // "application-build.json" in
  _ ← write_bytes receipt encoded;
  _ ← load_application_build receipt;
  mret receipt.

(** src: tool/updater/build_isolated_application.py:122-131 main
    After the arguments are parsed. *)
Definition main (output revision flutter cache : string) (runtime_manifest : option string) : M unit :=
  receipt ← build_application (absolute output) revision flutter cache runtime_manifest;
  print (path_str receipt +:+ nl).
End builder.

(** ** What a receipt stands for *)

Section proofs.
Context `{Host} `{Filesystem} `{Symlinks} `{Tar} `{BuildInstaller.Machine} `{SignpathStaging.RealPath} `{BuildClock}.

(** A command line for Flutter has no character that the shell would act on
    besides its own quotes. *)
Lemma flutter_command_literal flutter args w line w' : runs (flutter_command flutter args) w line w' →
  w' = w ∧ py_lower (path_name flutter) = "flutter.bat" ∧ Forall (λ s, shell_special s = false) (path_str flutter :: args) ∧
  line = list2cmdline [default "cmd.exe" (w_env w !! "COMSPEC"); "/d"; "/s"; "/c"] +:+ " " +:+ dq +:+
         list2cmdline (path_str flutter :: args) +:+ dq.
Proof.
  unfold flutter_command. intros Hr. apply runs_bind in Hr as ([] & w1 & [Hf <-]%runs_raise_when & Hr).
  apply runs_bind in Hr as ([] & w1 & [Ha <-]%runs_raise_when & Hr). apply runs_bind in Hr as (c & w1 & [<- ->]%runs_getenv_or & Hr).
  apply runs_ret in Hr as [<- <-]. bool_simpl. split_and!; [done|done| |done]. constructor; [done|].
  apply Forall_forall. intros s Hs. destruct (shell_special s) eqn:E; [|done]. rewrite <- Ha. symmetry.
  apply existsb_exists. exists s. by rewrite <- list_elem_of_In.
Qed.

(** The receipt of a build that returned was believed at the end. *)
Lemma runs_build_application output revision flutter cache manifest w receipt w' :
  runs (build_application output revision flutter cache manifest) w receipt w' →
  host_nt = true ∧ receipt = abspath output // "application-build.json" ∧
  ∃ state w1, runs (load_application_build receipt) w1 state w'.
Proof.
  unfold build_application. intros Hr. apply runs_bind in Hr as ([] & w1 & [Hnt%negb_false_iff _]%runs_raise_when & Hr).
  apply runs_bind in Hr as (root & w2 & Hroot & Hr). unfold require_fixture_root in Hroot.
  assert (root = abspath output) as -> by (by inv_runs). clear Hroot. revert Hr.
  repeat (try clear Hlast; intros (? & ? & Hlast & Hr)%runs_bind; revert Hr; try case_match).
  all: intros [<- <-]%runs_ret; eauto.
Qed.
End proofs.
