(* ===== verification/WindowsHost.v ===== *)
(** * A live Windows host

    What the lifecycle tools ask of Windows itself, the class [WindowsHost]: the
    registry, elevation, access control, file locks, SQLite, the clock and
    programs that read their standard input. And the monad of their phases: a
    phase keeps a record of what it has proved so far, a dict that survives the
    exception that ends it and is written to disk in the end. *)

From S2P Require Import Prelude PyStr PyRe PyHash PyJson Effects TextFiles ScriptUtils WindowsFixture LifecyclePayload.
From S2P Require Import Commands ApplicationSource IsolatedRuntime ApplicationBuild.

Local Open Scope Z_scope.

Inductive hive : Type := HKEY_CURRENT_USER | HKEY_LOCAL_MACHINE | HKEY_CLASSES_ROOT.
(** The data of a registry value. *)
Inductive reg_data : Type := RegBytes (bytes : string) | RegValue (v : json).

Class WindowsHost : Type := {
  (** [shell32.IsUserAnAdmin()] *)
  is_user_admin : world → bool;
  (** [winreg.OpenKey] and [winreg.QueryValueEx], in the 64-bit view when the code asks for it. *)
  reg_query : bool → hive → string → string → world → res (reg_data * Z);
  (** [winreg.OpenKey] alone. *)
  reg_key : hive → string → world → res unit;
  (** [shell32.CommandLineToArgvW] *)
  command_line_argv : string → option (list string);
  (** [subprocess.run(command, input=input, capture_output=True)] *)
  run_input : list string → string → world → res proc * gmap string node;
  (** Access control does not let this user open the path. *)
  access_denied : string → world → bool;
  (** [kernel32.CreateFileW] of an existing file that nobody may replace. *)
  create_file : string → world → option Z;
  (** Executing statements on a SQLite database: the files afterwards. *)
  sqlite_execute : string → list string → world → res (gmap string node);
  (** [time.monotonic()] in milliseconds. *)
  monotonic : world → Z;
  (** The files after a pause of a fifth of a second, in which others run. *)
  after_pause : world → gmap string node;
  (** [open(path)] without an encoding. *)
  locale_decode : string → res string
}.

(** ** Phases *)

Definition record : Type := list (string * json).
(** A phase returns or raises, and leaves its record in either case. *)
Definition P (A : Type) : Type := record → world → (res A * record) * world.

#[global] Instance P_ret : MRet P := λ A a s w, ((Ok a, s), w).
#[global] Instance P_bind : MBind P := λ A B f m s w,
  match m s w with
  | ((Ok a, s'), w') => f a s' w'
  | ((Raise e, s'), w') => ((Raise e, s'), w')
  end.

Definition act {A} (m : M A) : P A := λ s w, let '(r, w') := m w in ((r, s), w').
Definition raise_P {A} (e : exn) : P A := act (raise e).
Definition the_record : P record := λ s w, ((Ok s, s), w).
(** [result\[key\] = v] *)
Definition put (key : string) (v : json) : P unit := λ s w, ((Ok tt, assoc_set key v s), w).
(** [result\[key\].append(v)] *)
Definition push (key : string) (v : json) : P unit := λ s w,
  match assoc key s with
  | Some (JArr l) => ((Ok tt, assoc_set key (JArr (l ++ [v])) s), w)
  | Some _ => ((Raise (AttributeError "append"), s), w)
  | None => ((Raise (KeyError key), s), w)
  end.
(** [try: m except Exception as error: h error] *)
Definition except {A} (m : P A) (h : exn → P A) : P A := λ s w,
  match m s w with
  | ((Ok a, s'), w') => ((Ok a, s'), w')
  | ((Raise e, s'), w') => if is_Exception e then h e s' w' else ((Raise e, s'), w')
  end.
(** [try: m finally: f] *)
Definition finally {A} (m : P A) (f : P unit) : P A := λ s w,
  let '((r, s1), w1) := m s w in
  match f s1 w1 with
  | ((Ok _, s2), w2) => ((r, s2), w2)
  | ((Raise e, s2), w2) => ((Raise e, s2), w2)
  end.
(** A phase with its first record. *)
Definition phase {A} (s : record) (m : P A) : M A := λ w, let '((r, _), w') := m s w in (r, w').

(** ** Reasoning about phases *)

(** The phase returns. *)
Definition passes {A} (m : P A) (s : record) (w : world) (a : A) (s' : record) (w' : world) : Prop := m s w = ((Ok a, s'), w').

Lemma passes_ret {A} (a b : A) s w s' w' : passes (mret a) s w b s' w' ↔ a = b ∧ s = s' ∧ w = w'.
Proof. unfold passes, mret, P_ret. naive_solver. Qed.
Lemma passes_bind {A B} (m : P A) (k : A → P B) s w b s' w' :
  passes (m ≫= k) s w b s' w' ↔ ∃ a s1 w1, passes m s w a s1 w1 ∧ passes (k a) s1 w1 b s' w'.
Proof. unfold passes, mbind, P_bind. destruct (m s w) as [[[a|e] s1] w1]; split; naive_solver. Qed.
Lemma passes_act {A} (m : M A) s w a s' w' : passes (act m) s w a s' w' ↔ s' = s ∧ runs m w a w'.
Proof. unfold passes, act, runs. destruct (m w) as [r w1]. naive_solver. Qed.
Lemma passes_raise {A} e s w (a : A) s' w' : ¬ passes (raise_P e) s w a s' w'.
Proof. unfold raise_P. rewrite passes_act. by intros [_ ?%runs_raise]. Qed.
Lemma passes_record s w r s' w' : passes the_record s w r s' w' ↔ r = s ∧ s' = s ∧ w' = w.
Proof. unfold passes, the_record. naive_solver. Qed.
Lemma passes_put key v s w u s' w' : passes (put key v) s w u s' w' ↔ s' = assoc_set key v s ∧ w' = w.
Proof. unfold passes, put. destruct u. naive_solver. Qed.
Lemma passes_push key v s w u s' w' : passes (push key v) s w u s' w' ↔
  ∃ l, assoc key s = Some (JArr l) ∧ s' = assoc_set key (JArr (l ++ [v])) s ∧ w' = w.
Proof. unfold passes, push. destruct u, (assoc key s) as [[]|]; naive_solver. Qed.
Lemma passes_except {A} (m : P A) h s w a s' w' : passes (except m h) s w a s' w' ↔
  passes m s w a s' w' ∨ ∃ e s1 w1, m s w = ((Raise e, s1), w1) ∧ is_Exception e = true ∧ passes (h e) s1 w1 a s' w'.
Proof.
  unfold passes, except. destruct (m s w) as [[[b|e] s1] w1]; [naive_solver|].
  destruct (is_Exception e) eqn:E; split; try naive_solver; intros [?|(? & ? & ? & [= <- <- <-] & ? & ?)]; congruence.
Qed.
Lemma passes_finally {A} (m : P A) f s w a s' w' : passes (finally m f) s w a s' w' ↔
  ∃ s1 w1, passes m s w a s1 w1 ∧ passes f s1 w1 tt s' w'.
Proof.
  unfold passes, finally. destruct (m s w) as [[r s1] w1]. split.
  - destruct (f s1 w1) as [[[[]|e] s2] w2] eqn:Ef; [|done]. intros [= -> -> ->]. by exists s1, w1.
  - intros (s2 & w2 & [= -> -> ->] & ->). done.
Qed.
Lemma runs_phase {A} s (m : P A) w a w' : runs (phase s m) w a w' ↔ ∃ s', passes m s w a s' w'.
Proof. unfold runs, phase, passes. destruct (m s w) as [[r s1] w1]. naive_solver. Qed.

(** How the record may change, whether the phase returns or raises. *)
Definition records {A} (R : relation record) (m : P A) : Prop := ∀ s w, R s (snd (fst (m s w))).

Section records.
Context (R : relation record) `{!PreOrder R}.

Lemma records_ret {A} (a : A) : records R (mret a).
Proof. intros s w. reflexivity. Qed.
Lemma records_act {A} (m : M A) : records R (act m).
Proof. intros s w. unfold act. by destruct (m w). Qed.
Lemma records_raise {A} e : records R (raise_P e : P A).
Proof. intros s w. reflexivity. Qed.
Lemma records_record : records R the_record.
Proof. intros s w. reflexivity. Qed.
Lemma records_bind {A B} (m : P A) (k : A → P B) : records R m → (∀ a, records R (k a)) → records R (m ≫= k).
Proof.
  intros Hm Hk s w. unfold mbind, P_bind. specialize (Hm s w). destruct (m s w) as [[[a|e] s1] w1]; simpl in *; [|done].
  etrans; [done|apply Hk].
Qed.
Lemma records_except {A} (m : P A) h : records R m → (∀ e, records R (h e)) → records R (except m h).
Proof.
  intros Hm Hh s w. unfold except. specialize (Hm s w). destruct (m s w) as [[[a|e] s1] w1]; simpl in *; [done|].
  destruct (is_Exception e); [|done]. etrans; [done|apply Hh].
Qed.
Lemma records_finally {A} (m : P A) f : records R m → records R f → records R (finally m f).
Proof.
  intros Hm Hf s w. unfold finally. specialize (Hm s w). destruct (m s w) as [[r s1] w1]; simpl in *. specialize (Hf s1 w1).
  destruct (f s1 w1) as [[[u|e] s2] w2]; simpl in *; by etrans.
Qed.
End records.

(** The value under a key stays what it is. *)
Definition keeps_value (key : string) (v : json) : relation record := λ s s', assoc key s = Some v → assoc key s' = Some v.
#[export] Instance keeps_value_preorder key v : PreOrder (keeps_value key v).
Proof. unfold keeps_value. split; [by intros s Hs|]. intros a b c Hab Hbc Ha. by apply Hbc, Hab. Qed.

Lemma records_put key v key' v' : key ≠ key' ∨ v = v' → records (keeps_value key v) (put key' v').
Proof.
  intros Hk s w Ha. simpl. destruct (decide (key = key')) as [->|Hne]; [|by rewrite assoc_set_other].
  rewrite assoc_set_same. by destruct Hk as [?| ->].
Qed.
Lemma records_push key v key' v' : key ≠ key' → records (keeps_value key v) (push key' v').
Proof. intros Hne s w Ha. unfold push. destruct (assoc key' s) as [[]|]; simpl; try done. by rewrite assoc_set_other. Qed.

(** [solve_records] follows the structure of a phase down to its record. *)
Ltac solve_records1 :=
  match goal with
  | |- records _ (mret _) => apply records_ret; apply _
  | |- records _ (act _) => apply records_act; apply _
  | |- records _ (raise_P _) => apply records_raise; apply _
  | |- records _ the_record => apply records_record; apply _
  | |- records _ (put _ _) => apply records_put; first [by left | by right]
  | |- records _ (push _ _) => apply records_push; done
  | |- records _ (mbind _ _) => apply records_bind; [apply _| |intros ?]
  | |- records _ (except _ _) => apply records_except; [apply _| |intros ?]
  | |- records _ (finally _ _) => apply records_finally; [apply _| |]
  | |- records _ (match ?x with _ => _ end) => destruct x
  | |- records _ _ => solve [eauto with py]
  end.
Ltac solve_records := intros; repeat solve_records1.

(** [inv_passes] takes a phase that returned apart. *)
Ltac inv_passes1 :=
  match goal with
  | H : passes (mret _) _ _ _ _ _ |- _ => apply passes_ret in H as (? & ? & ?); subst
  | H : passes (mbind _ _) _ _ _ _ _ |- _ =>
      let a := fresh "a" in let s := fresh "s" in let w := fresh "w" in apply passes_bind in H as (a & s & w & ? & H)
  | H : passes (act _) _ _ _ _ _ |- _ => apply passes_act in H as [? ?]; subst
  | H : passes (raise_P _) _ _ _ _ _ |- _ => by apply passes_raise in H
  | H : passes the_record _ _ _ _ _ |- _ => apply passes_record in H as (? & ? & ?); subst
  | H : passes (put _ _) _ _ _ _ _ |- _ => apply passes_put in H as [? ?]; subst
  | H : passes (push _ _) _ _ _ _ _ |- _ => let l := fresh "l" in apply passes_push in H as (l & ? & ? & ?); subst
  end.
Ltac inv_passes := repeat inv_passes1.

(** ** The registry and programs *)

(** [{**v, key: x}] of an object. *)
Definition jset (key : string) (x v : json) : res json :=
  match v with JObj l => Ok (JObj (assoc_set key x l)) | _ => Raise (TypeError "item assignment") end.

Definition is_PermissionError (e : exn) : bool := match e with PermissionError _ => true | _ => false end.

(** [bytes.hex()] *)
Fixpoint hex_bytes (s : string) : string :=
  match s with
  | EmptyString => EmptyString
  | String c s => String (hex_digit (ord c / 16)) (String (hex_digit (ord c mod 16)) (hex_bytes s))
  end.

(** [bytes.decode("utf-8-sig", errors="replace")]: what is no character of the
    model's alphabet becomes a replacement, which is no word character. *)
Fixpoint decode_lossy (s : string) : string :=
  match s with
  | EmptyString => EmptyString
  | String c r =>
      if (ord c <? 128)%N then String c (decode_lossy r)
      else match r with
           | String d r' =>
               match utf8_decode (String c (String d EmptyString)) with
               | Some t => t +:+ decode_lossy r'
               | None => "?" +:+ decode_lossy r
               end
           | EmptyString => "?"
           end
  end.

Section host.
Context `{Host} `{Filesystem} `{WindowsHost}.

(** [os.environ\[key\]] *)
Definition environ_item (key : string) : M string := o ← getenv key; lift (from_option o (KeyError key)).

(** A registry value, [None] when the key or the value is missing. *)
Definition query_or_none (view64 : bool) (h : hive) (path name : string) : M (option (reg_data * Z)) :=
  try_catch (w ← get_world; r ← lift (reg_query view64 h path name w); mret (Some r)) is_missing (λ _, mret None).

(** src: tool/updater/validate_isolated_windows_lifecycle.py:210-216 registry_value
    A value without data is [None] as well. *)
Definition registry_value (h : hive) (path name : string) : M (option reg_data) :=
  r ← query_or_none true h path name; mret (match r with Some (RegValue JNull, _) | None => None | Some (v, _) => Some v end).

Definition RUN_KEY : string := "Software\Microsoft\Windows\CurrentVersion\Run".
(** src: tool/updater/validate_existing_windows_installation.py:59-64 registry_snapshot *)
Definition snapshot_entries : list (string * hive * string * string) :=
  [("startup", HKEY_CURRENT_USER, RUN_KEY, "Plug Agente");
   ("approved", HKEY_CURRENT_USER, "Software\Microsoft\Windows\CurrentVersion\Explorer\StartupApproved\Run", "Plug Agente");
   ("protocol", HKEY_CLASSES_ROOT, "plugdb\shell\open\command", EmptyString);
   ("updater_authorized", HKEY_LOCAL_MACHINE, "Software\Se7e Sistemas\PlugAgenteUpdater", "Authorized")].

(** src: tool/updater/validate_existing_windows_installation.py:55-71 registry_snapshot *)
Definition registry_snapshot : M json :=
  entries ← map_M (λ '(label, h, path, name),
    r ← query_or_none true h path name;
    mret (label, match r with
                 | Some (RegBytes b, kind) => JObj [("value", JStr (hex_bytes b)); ("kind", JInt kind)]
                 | Some (RegValue v, kind) => JObj [("value", v); ("kind", JInt kind)]
                 | None => JNull
                 end)) snapshot_entries;
  mret (JObj entries).

(** src: tool/updater/validate_windows_installation.py:82-90 lock_core_against_replacement *)
Definition lock_core_against_replacement (executable : string) : M Z :=
  w ← get_world;
  lift (from_option (create_file executable w) (RuntimeError "Could not protect the core executable during optional repair")).

(** src: tool/updater/validate_existing_windows_installation.py:106-106 verify_no_updater_mutations *)
Definition mutation_re : regex :=
  seqs [lit "--"; alts [lit "enroll"; lit "revoke"; lit "prepare-control"; lit "prepare-host-upgrade"]; RWordB].

(** src: tool/updater/validate_existing_windows_installation.py:105-109 verify_no_updater_mutations *)
Definition verify_no_updater_mutations (log : string) : M unit :=
  bytes ← read_bytes log;
  let text := universal_newlines (decode_lossy (removeprefix bytes (chr 239 +:+ chr 187 +:+ chr 191))) in
  let commands := mo_text <$> re_finditer mutation_re text in
  raise_when (match commands with [] => false | _ => true end)
    (RuntimeError ("Unrequested updater mutation in optional repair: " +:+
                   join ", " (sort_keys (dict_of ((λ c, (c, c)) <$> commands))).*1)).

(** [subprocess.run(command, input=input, capture_output=True)] *)
Definition run_program (command : list string) (input : option string) : M proc :=
  match input with
  | None => run_proc command host_cwd
  | Some text => λ w,
      let '(r, fs) := run_input command text w in
      (r, World fs (w_env w) (w_log w ++ [EvRun command host_cwd]))
  end.

(** A program, its output in a log, and its accepted exit codes. *)
Definition run_accepted (command : list string) (log : option string) (input : option string) (accepted : list Z)
    (refused : proc → exn) : M proc :=
  r ← run_program command input;
  _ ← match log with Some path => write_bytes path (stdout r +:+ stderr r) | None => mret tt end;
  _ ← raise_when (negb (existsb (Z.eqb (returncode r)) accepted)) (refused r);
  mret r.

(** [open(path, "wb")] and [open(path, "rb")] under access control. *)
Definition try_write (path bytes : string) : M unit :=
  w ← get_world; if access_denied path w then raise (PermissionError path) else write_bytes path bytes.
Definition try_read (path : string) : M string :=
  w ← get_world; if access_denied path w then raise (PermissionError path) else read_bytes path.
(** The operation is refused by access control. *)
Definition refused_access {A} (m : M A) : M bool := try_catch (_ ← m; mret false) is_PermissionError (λ _, mret true).

(** [path.mkdir(exist_ok=True)] *)
Definition mkdir_exist (p : string) : M unit :=
  parent ← is_dir (path_parent p);
  _ ← raise_when (negb parent) (FileNotFoundError p);
  mkdir p.

(** A pause of a fifth of a second, less than the second the log counts. *)
Definition pause : M unit := λ w, (Ok tt, World (after_pause w) (w_env w) (w_log w ++ [EvSleep 0])).

Lemma same_query b h path name : steps (=) (query_or_none b h path name).
Proof. unfold query_or_none. solve_steps. Qed.
#[local] Hint Resolve same_query : py.
Lemma same_registry_value h path name : steps (=) (registry_value h path name).
Proof. unfold registry_value. solve_steps. Qed.
Lemma same_registry_snapshot : steps (=) registry_snapshot.
Proof. unfold registry_snapshot. solve_steps. Qed.
Lemma later_run_program command input : steps later (run_program command input).
Proof.
  destruct input as [t|]; simpl; [|solve_steps]. intros w. destruct (run_input command t w) as [r fs]. by eapply log_ext_one.
Qed.
#[local] Hint Resolve later_run_program : py.
Lemma later_run_accepted command log input accepted refused : steps later (run_accepted command log input accepted refused).
Proof. unfold run_accepted. solve_steps. Qed.
Lemma later_pause : steps later pause.
Proof. intros w. by eapply log_ext_one. Qed.
End host.

#[export] Hint Resolve same_query same_registry_value same_registry_snapshot later_run_program later_run_accepted later_pause : py.
