(* ===== verification/LifecycleDriver.v ===== *)
(** * The lifecycle acceptance of a private fixture
      (tool/updater/validate_isolated_windows_lifecycle.py)

    Two phases accept an installer on a live Windows host. The administrator
    phase installs, repairs, upgrades and removes the fixture and hands over, in
    between, to the standard-user phase, which talks to the service without
    elevation. Each phase records what it has proved and writes its record to
    disk in the end, also when an exception ends it. *)

From S2P Require Import Prelude PyStr PyRe PyCodec PyHash PyJson Effects TextFiles ScriptUtils Crypto WindowsFixture LifecyclePayload.
From S2P Require Import LifecycleHandoff Commands ApplicationSource IsolatedRuntime ApplicationBuild WindowsHost.
From S2P Require ReleasePreflight UpdaterManifest.

Local Open Scope Z_scope.

(** [a is True], [a is False] *)
Definition is_true (v : json) : bool := match v with JBool true => true | _ => false end.
Definition is_false (v : json) : bool := match v with JBool false => true | _ => false end.

(** src: tool/updater/validate_isolated_windows_lifecycle.py:38-41 load_fixture
    The header of a fixture, each test only when the ones before it passed. *)
Definition fixture_refused `{Host} `{Filesystem} (state : json) (root : string) : res bool :=
  format ← jget_or_null "format" state;
  match format with
  | JInt 2 =>
      gate ← jget_or_null "productionActivationGate" state;
      if negb (is_false gate) then Ok true else
      recorded ← path_item "root" state;
      Ok (negb (same_path (path_of recorded) root))
  | _ => Ok true
  end.

(** src: tool/updater/validate_isolated_windows_lifecycle.py:42-43 load_fixture
    The names under which Windows knows the fixture. *)
Definition names_differ (state : json) (identity : string) : res bool :=
  name ← jitem "appName" state;
  if negb (jeq name (JStr ("Plug Agente Homologacao " +:+ identity_tail identity))) then Ok true else
  protocol ← jitem "protocol" state;
  Ok (negb (jeq protocol (JStr (replace "_" "-" (py_lower identity))))).

Definition is_text (v : json) : bool := match v with JStr _ => true | _ => false end.

(** [{**base, **changes}] *)
Definition updated (base changes : list (string * json)) : list (string * json) :=
  fold_left (λ l kv, assoc_set (fst kv) (snd kv) l) changes base.

Section driver.
Context `{Host} `{Filesystem} `{Symlinks} `{Tar} `{WindowsHost} `{Ed25519} `{Secrets}.

(** src: tool/updater/validate_isolated_windows_lifecycle.py:62-66 load_fixture
    The directories of the fixture below those of Windows. *)
Definition add_directories (state : json) (identity : string) : M json :=
  programs ← environ_item "ProgramFiles";
  name ← lift (path_item "appName" state);
  state ← lift (jset "app" (JStr (path_str (path_of programs // name))) state);
  data ← environ_item "ProgramData";
  state ← lift (jset "data" (JStr (path_str (path_of data // identity))) state);
  state ← lift (jset "control" (JStr (path_str (path_of programs // (identity +:+ "Updater")))) state);
  lift (jset "updaterData" (JStr (path_str (path_of data // (identity +:+ "Updater")))) state).

(** src: tool/updater/validate_isolated_windows_lifecycle.py:44-54 load_fixture
    The installer and the historical supervisor that the fixture is bound to. *)
Definition check_bindings (state : json) (root : string) : M unit :=
  path ← lift (path_item "installer" state);
  installer ← require_fixture_artifact root path;
  moved ← (if negb (same_path (path_parent installer) (root // "package")) then mret true else
           hash ← sha256 installer; recorded ← lift (jitem "installerSha256" state); mret (negb (jeq (JStr hash) recorded)));
  _ ← raise_when moved (RuntimeError "Fixture installer binding mismatch");
  service ← lift (jget_or_null "legacyService" state);
  unbound ← lift (if negb (is_text service) then Ok true else h ← jget_or_null "legacyServiceSha256" state; Ok (negb (is_text h)));
  _ ← raise_when unbound (RuntimeError "Historical supervisor binding is required before lifecycle execution");
  revision ← lift (jget_or_null "legacySourceCommit" state);
  _ ← raise_when (negb (match revision with JStr s => fullmatch revision_re s | _ => false end))
        (RuntimeError "Historical supervisor source revision is missing or invalid");
  path ← lift (path_item "legacyService" state);
  legacy ← require_fixture_artifact root path;
  moved ← (if negb (same_path legacy (root // "legacy/native/Release/plug_update_service.exe")) then mret true else
           hash ← sha256 legacy; recorded ← lift (jitem "legacyServiceSha256" state); mret (negb (jeq (JStr hash) recorded)));
  raise_when moved (RuntimeError "Historical supervisor binding mismatch").

(** src: tool/updater/validate_isolated_windows_lifecycle.py:29-66 load_fixture *)
Definition load_fixture (path : string) : M json :=
  _ ← raise_when (path_name path != "fixture.json") (RuntimeError "The owned fixture.json manifest is required");
  root ← require_fixture_root (path_parent path) false;
  path ← require_fixture_artifact root path;
  size ← file_size path;
  _ ← raise_when (256 * 1024 <? size) (RuntimeError "Lifecycle manifest exceeds its size limit");
  text ← read_text path;
  state ← lift (loads text);
  named ← lift (text_item "identity" state);
  identity ← lift (require_identity named);
  refused ← lift (fixture_refused state root);
  _ ← raise_when refused (RuntimeError "Fixture format, activation gate or root mismatch");
  differ ← lift (names_differ state identity);
  _ ← raise_when differ (RuntimeError "Fixture Windows identity mismatch");
  _ ← check_bindings state root;
  qualification ← lift (jget_or_null "payloadQualification" state);
  _ ← raise_when (negb (jeq qualification (JStr "bytes_only"))) (RuntimeError "Fixture payload qualification is invalid");
  files ← lift (jget_or_null "payloadFiles" state);
  tree ← lift (jget_or_null "payloadTreeSha256" state);
  _ ← verify_payload root files tree;
  _ ← when (has_key "applicationBuild" state)
        (reference ← lift (jitem "applicationBuild" state); verify_application_package reference identity files);
  _ ← assert_isolated_sources root identity;
  add_directories state identity.

(** src: tool/updater/validate_isolated_windows_lifecycle.py:69-80 verify_input_binding *)
Definition verify_input_binding (state : json) : P unit :=
  let failed := (_ ← put "status" (JStr "failed"); put "inputBindingVerified" (JBool false)) : P unit in
  current ← except (act (root ← lift (path_item "root" state); load_fixture (path_of root // "fixture.json")))
              (λ _, _ ← failed; raise_P (RuntimeError "Fixture inputs could not be reverified"));
  _ ← (if negb (jeq current state)
       then _ ← failed; raise_P (RuntimeError "Fixture input binding changed during the lifecycle") else mret tt);
  put "inputBindingVerified" (JBool true).

(** src: tool/updater/validate_isolated_windows_lifecycle.py:83-85 host_snapshot *)
Definition host_snapshot : M json := registry ← registry_snapshot; mret (JObj [("registry", registry)]).

(** src: tool/updater/validate_isolated_windows_lifecycle.py:88-98 verify_host_registration_preservation *)
Definition verify_host_registration_preservation (before : json) : P unit :=
  unchanged ← except (act (after ← host_snapshot; mret (jeq after before)))
                (λ _, _ ← put "status" (JStr "failed"); _ ← put "operationalRegistrationsPreserved" JNull;
                      raise_P (RuntimeError "Operational registrations could not be verified"));
  _ ← put "operationalRegistrationsPreserved" (JBool unchanged);
  if negb unchanged then
    _ ← put "status" (JStr "failed"); raise_P (RuntimeError "Operational registrations changed during the scoped lifecycle")
  else mret tt.

(** src: tool/updater/validate_isolated_windows_lifecycle.py:101-107 run *)
Definition run (command : list string) (log : option string) (input : option string) (accepted : list Z) : M string :=
  r ← run_accepted command log input accepted
        (λ r, RuntimeError (path_name (hd EmptyString command) +:+ " exited " +:+ py_str_int (returncode r) +:+
                            "; inspect the private phase log"));
  mret (stdout r).

(** [response.get("code")] in a message. *)
Definition code_text (response : json) : res string := code ← jget_or_null "code" response; Ok (str_of code).

(** src: tool/updater/validate_isolated_windows_lifecycle.py:110-117 ipc *)
Definition ipc (client : string) (request : list (string * json)) (expected_error : option string) : M json :=
  text ← lift (dumps (JObj (updated [("protocol", JInt 1)] request)));
  out ← run [path_str client; "--ipc"] None (Some (utf8_encode text)) [0; 1];
  response ← lift (loads_bytes dict_hook out);
  ok ← lift (jget_or_null "ok" response);
  _ ← match expected_error with
      | Some expected =>
          refused ← lift (if negb (is_false ok) then Ok false else code ← jget_or_null "code" response; Ok (jeq code (JStr expected)));
          code ← lift (code_text response);
          raise_when (negb refused) (RuntimeError ("IPC did not refuse with " +:+ expected +:+ ": " +:+ code))
      | None =>
          code ← lift (code_text response);
          raise_when (negb (is_true ok)) (RuntimeError ("Fixture IPC failed: " +:+ code))
      end;
  mret response.

(** src: tool/updater/validate_isolated_windows_lifecycle.py:120-127 signed_candidate *)
Definition signed_candidate (state : json) (changes : list (string * json)) : M json :=
  root ← lift (path_item "root" state);
  installer ← lift (path_item "installer" state);
  size ← file_size (path_of installer);
  hash ← lift (jitem "installerSha256" state);
  let payload :=
    [("formatVersion", JInt 1); ("version", JStr "1.8.7+2"); ("channel", JStr "stable");
     ("installer", JObj [("name", JStr "PlugAgente-Setup-1.8.7.exe"); ("size", JInt size); ("sha256", hash)]);
     ("requirements", JArr [JStr "app.files"]); ("protocol", JObj [("host", JInt 1); ("worker", JInt 1)]);
     ("data", JObj [("schema", JInt 1); ("rollbackProtocol", JInt 1)]);
     ("release", JObj [("commit", JStr (concat_all (repeat "a" 40))); ("tag", JStr "v1.8.7")])] in
  key ← read_bytes (path_of root // "fixture-private-key");
  lift (UpdaterManifest.sign (JObj (updated payload changes)) (b64encode key)).

(** src: tool/updater/validate_isolated_windows_lifecycle.py:137-139 standard_user_phase
    What both phases record of the fixture. *)
Definition fixture_record (state : json) : res (list (string * json)) :=
  format ← jitem "format" state;
  tree ← jitem "payloadTreeSha256" state;
  qualification ← jitem "payloadQualification" state;
  Ok [("fixtureFormat", format); ("payloadTreeSha256", tree); ("payloadQualification", qualification);
      ("applicationSourceVerified", JBool (has_key "applicationBuild" state))].

(** ** The standard-user phase *)

Definition check_passed (name : string) : P unit := push "checks" (JStr name).

(** src: tool/updater/validate_isolated_windows_lifecycle.py:146-159 standard_user_phase
    A write into the control directory and a read of the protected policy are refused. *)
Definition probe_denials (control updater_data : string) : P unit :=
  let probe := control // "standard-user-write-probe" in
  denied ← act (refused_access (try_write probe "refuse"));
  _ ← (if denied : bool then check_passed "control_directory_write_denied"
       else act (_ ← unlink probe; raise (RuntimeError "A standard user can write updater control files")));
  denied ← act (refused_access (try_read (updater_data // "policy.json")));
  if denied : bool then check_passed "protected_policy_read_denied"
  else raise_P (RuntimeError "A standard user can read the protected updater policy").

(** src: tool/updater/validate_isolated_windows_lifecycle.py:165-167 standard_user_phase
    One administrative command that a standard user may not run. *)
Definition administrative_refused (client command : string) : M unit :=
  out ← run [path_str client; command] None None [1];
  response ← lift (loads_bytes dict_hook out);
  code ← lift (jget_or_null "code" response);
  raise_when (negb (jeq code (JStr "administrator_required")))
    (RuntimeError "Standard user administrative transition was not refused").

(** src: tool/updater/validate_isolated_windows_lifecycle.py:169-173 standard_user_phase
    The data protection of the user, to a file and back. *)
Definition dpapi_roundtrip (client data : string) : M unit :=
  let clear := "private-fixture-vault-roundtrip" in
  out ← run [path_str client; "--protect-secrets"] None (Some clear) [0];
  response ← lift (loads_bytes dict_hook out);
  blob ← lift (jitem "blob" response);
  protected ← lift (match blob with JStr s => Ok s | _ => Raise (AttributeError "encode") end);
  back ← run [path_str client; "--unprotect-secrets"] None (Some (utf8_encode protected)) [0];
  _ ← raise_when (back != clear) (RuntimeError "Real DPAPI user roundtrip failed");
  write_text (data // "fixture-vault.dpapi") protected.

(** src: tool/updater/validate_isolated_windows_lifecycle.py:176-178 standard_user_phase
    [ipc] with a candidate that the service has to refuse. *)
Definition candidate_refused (state : json) (client : string) (prepare changes : list (string * json)) (error : string) : M unit :=
  candidate ← signed_candidate state changes;
  _ ← ipc client (updated prepare [("manifest", candidate)]) (Some error);
  mret tt.

(** src: tool/updater/validate_isolated_windows_lifecycle.py:180-183 standard_user_phase
    The signature of a candidate is replaced. *)
Definition tampered_refused (client : string) (prepare : list (string * json)) (candidate : json) : M unit :=
  tampered ← lift (jset "signatureBase64" (JStr (b64encode (concat_all (repeat (chr 0) 64)))) candidate);
  text ← lift (dumps (JObj (updated [("protocol", JInt 1)] (updated prepare [("manifest", tampered)]))));
  out ← run [path_str client; "--ipc"] None (Some (utf8_encode text)) [1];
  rejected ← lift (loads_bytes dict_hook out);
  ok ← lift (jget_or_null "ok" rejected);
  raise_when (negb (is_false ok)) (RuntimeError "Tampered manifest was accepted").

(** [ipc(client, {**prepare, "manifest": candidate})\["status"\]] *)
Definition prepare_candidate (client : string) (prepare : list (string * json)) (candidate : json) : M json :=
  response ← ipc client (updated prepare [("manifest", candidate)]) None;
  lift (jitem "status" response).
Definition operation_request (command : string) (operation : json) : list (string * json) :=
  [("command", JStr command); ("operationId", operation)].

(** src: tool/updater/validate_isolated_windows_lifecycle.py:185-193 standard_user_phase
    A candidate is prepared, not applied and cancelled. *)
Definition prepare_and_cancel (client : string) (prepare : list (string * json)) (candidate : json) : M unit :=
  prepared ← prepare_candidate client prepare candidate;
  operation ← lift (jitem "operationId" prepared);
  prepared_state ← lift (jitem "state" prepared);
  unbound ← (if negb (jeq prepared_state (JStr "preparing")) then mret true else
             again ← prepare_candidate client prepare candidate;
             operation_again ← lift (jitem "operationId" again);
             mret (negb (jeq operation_again operation)));
  _ ← raise_when unbound (RuntimeError "Preparation must be bound and idempotent");
  _ ← ipc client (operation_request "start" operation) (Some "transition_validation_required");
  response ← ipc client (operation_request "cancel" operation) None;
  cancelled ← lift (jitem "status" response);
  cancelled_state ← lift (jitem "state" cancelled);
  unsafe ← lift (if negb (jeq cancelled_state (JStr "deferred")) then Ok true else
                 owned ← jget_or_null "ownedByCaller" cancelled; Ok (negb (is_true owned)));
  _ ← raise_when unsafe (RuntimeError "Owned preparation did not cancel safely");
  _ ← ipc client (operation_request "cancel" operation) None;
  mret tt.

(** src: tool/updater/validate_isolated_windows_lifecycle.py:196-197 standard_user_phase
    One cycle of the twenty. *)
Definition cancel_cycle (client : string) (prepare : list (string * json)) (candidate : json) : M unit :=
  prepared ← prepare_candidate client prepare candidate;
  operation ← lift (jitem "operationId" prepared);
  _ ← ipc client (operation_request "cancel" operation) None;
  mret tt.

(** src: tool/updater/validate_isolated_windows_lifecycle.py:142-144 standard_user_phase
    The enrolled service answers, and does not activate the application. *)
Definition check_capabilities (client : string) : M unit :=
  response ← ipc client [("command", JStr "capabilities")] None;
  capabilities ← lift (jitem "capabilities" response);
  authorized ← lift (jitem "authorized" capabilities);
  activated ← lift (if negb (is_true authorized) then Ok true else
                    ready ← jitem "applicationReady" capabilities;
                    if negb (is_false ready) then Ok true else
                    contract ← jitem "recoveryContract" capabilities; Ok (negb (jeq contract (JInt 2))));
  raise_when activated (RuntimeError "Enrollment must not activate the unqualified application contract").

(** src: tool/updater/validate_isolated_windows_lifecycle.py:141-198 standard_user_phase
    The work of the phase, its checks in order. *)
Definition standard_user_checks (state : json) (root client : string) : P unit :=
  _ ← verify_input_binding state;
  _ ← act (check_capabilities client);
  _ ← check_passed "real_scm_pipe_identity_and_activation_gate";
  control ← act (lift (path_item "control" state));
  updater_data ← act (lift (path_item "updaterData" state));
  _ ← probe_denials (path_of control) (path_of updater_data);
  let copied := root // "unregistered-client.exe" in
  _ ← act (copy_file client copied);
  _ ← act (ipc copied [("command", JStr "capabilities")] (Some "client_image_rejected"));
  _ ← check_passed "unregistered_client_image_refused";
  _ ← act (for_M (administrative_refused client) ["--revoke"; "--remove-service"; "--prepare-host-upgrade"]);
  _ ← check_passed "administrative_transitions_denied";
  data ← act (lift (path_item "data" state));
  _ ← act (dpapi_roundtrip client (path_of data));
  _ ← check_passed "real_user_dpapi_roundtrip";
  installer ← act (lift (jitem "installer" state));
  let prepare := [("command", JStr "prepare"); ("installerPath", installer)] in
  _ ← act (candidate_refused state client prepare [("version", JStr "1.8.7+1")] "version_replay_rejected");
  _ ← act (candidate_refused state client prepare [("channel", JStr "beta")] "channel_rejected");
  _ ← act (candidate_refused state client prepare [("requirements", JArr [JStr "fixture.unapproved"])] "authorization_required");
  candidate ← act (signed_candidate state []);
  _ ← act (tampered_refused client prepare candidate);
  _ ← check_passed "replay_channel_capability_and_signature_refused";
  _ ← act (prepare_and_cancel client prepare candidate);
  _ ← check_passed "real_signed_staging_idempotence_blocked_apply_and_cancel";
  _ ← act (for_M (λ _, cancel_cycle client prepare candidate) (seq 0 20));
  check_passed "twenty_signed_prepare_cancel_cycles".

(** src: tool/updater/validate_isolated_windows_lifecycle.py:200-202 standard_user_phase
    A failure is recorded with its text. *)
Definition record_error (e : exn) : P unit := _ ← put "error" (JStr (exn_str e)); raise_P e.

(** src: tool/updater/validate_isolated_windows_lifecycle.py:207-207 standard_user_phase
    The record is published whatever happened. *)
Definition publish_record (state : json) : P unit := s ← the_record; act (write_result state (JObj s)).

(** src: tool/updater/validate_isolated_windows_lifecycle.py:136-139 standard_user_phase
    The record of a phase that claimed a handoff. *)
Definition standard_record (binding fixture : list (string * json)) : record :=
  updated [("status", JStr "failed"); ("elevated", JBool false); ("checks", JArr [])] (binding ++ fixture).

(** src: tool/updater/validate_isolated_windows_lifecycle.py:130-139 standard_user_phase
    Everything before the checks: the root, the client and the record. *)
Definition standard_start (state : json) : M (string * string * record) :=
  w ← get_world;
  _ ← raise_when (is_user_admin w) (RuntimeError "The caller phase must run without Windows elevation");
  root ← lift (path_item "root" state);
  control ← lift (path_item "control" state);
  handoff ← claim_handoff state;
  binding ← lift (result_binding handoff);
  fixture ← lift (fixture_record state);
  mret (path_of root, path_of control // "plug_update_client.exe", standard_record binding fixture).

(** src: tool/updater/validate_isolated_windows_lifecycle.py:130-207 standard_user_phase *)
Definition standard_user_phase (state : json) : M unit :=
  '(root, client, s) ← standard_start state;
  phase s (finally (except (_ ← standard_user_checks state root client; put "status" (JStr "passed")) record_error)
                   (finally (verify_input_binding state) (publish_record state))).

(** ** The administrator phase *)

(** src: tool/updater/validate_isolated_windows_lifecycle.py:219-233 command_arguments
    A value that is no text is no command line. *)
Definition command_arguments (command : option reg_data) : res (list string) :=
  match command with
  | None => Ok []
  | Some (RegValue (JStr text)) => from_option (command_line_argv text) (RuntimeError "Windows registry command cannot be parsed")
  | Some _ => Raise (ForeignError "ArgumentError")
  end.

Definition is_none {A} (o : option A) : bool := match o with None => true | Some _ => false end.

(** src: tool/updater/validate_isolated_windows_lifecycle.py:236-245 verify_integrations *)
Definition verify_integrations (state : json) (installed : bool) : M unit :=
  app ← lift (path_item "app" state);
  scheme ← lift (path_item "protocol" state);
  protocol ← registry_value HKEY_LOCAL_MACHINE ("Software\Classes\" +:+ scheme +:+ "\shell\open\command") EmptyString;
  name ← lift (path_item "appName" state);
  startup ← registry_value HKEY_CURRENT_USER RUN_KEY name;
  let program := path_str (path_of app // "plug_agente.exe") in
  if installed then
    opened ← lift (command_arguments protocol);
    differs ← lift (if bool_decide (opened ≠ [program; "%1"]) then Ok true else
                    started ← command_arguments startup; Ok (bool_decide (started ≠ [program; "--autostart"])));
    raise_when differs (RuntimeError "Installed Windows protocol/startup binding differs")
  else raise_when (negb (is_none protocol) || negb (is_none startup)) (RuntimeError "Uninstall left protocol or startup registrations").

(** src: tool/updater/validate_isolated_windows_lifecycle.py:252-254 administrator_phase
    The places of a fixture on the host. *)
Record places : Type := Places {
  pl_root : string; pl_app : string; pl_data : string; pl_control : string; pl_updater : string;
  pl_service : string; pl_installer : string
}.
Definition client_of (p : places) : string := pl_control p // "plug_update_client.exe".
(** src: tool/updater/validate_isolated_windows_lifecycle.py:267-267 administrator_phase *)
Definition common_options (p : places) : list string :=
  ["/VERYSILENT"; "/SUPPRESSMSGBOXES"; "/NORESTART"; "/NOCLOSEAPPLICATIONS"; "/DIR=" +:+ path_str (pl_app p)].
Definition log_of (p : places) (name : string) : string := pl_root p // name.
Definition service_key (p : places) : string := "SYSTEM\CurrentControlSet\Services\" +:+ pl_service p.

Definition phase_passed (name : string) : P unit := push "phases" (JStr name).
Definition record_text (s : record) : res string :=
  from_option (dumps_indent true (JObj s)) (TypeError "Object is not JSON serializable").

(** src: tool/updater/validate_isolated_windows_lifecycle.py:270-277 install *)
Definition install (p : places) (name : string) (repair automatic : bool) : P unit :=
  let options := common_options p ++
    ["/AUTOUPDATE=" +:+ (if automatic then "1" else "0");
     "/MERGETASKS=" +:+ (if repair && negb automatic then "!startup,!desktopicon,!autoupdate" else "startup,!desktopicon,autoupdate")] ++
    (if repair then ["/REPAIR=optional"] else []) in
  _ ← act (run (pl_installer p :: options ++ ["/LOG=" +:+ path_str (log_of p (name +:+ ".log"))])
             (Some (log_of p (name +:+ "-output.log"))) None [0]);
  _ ← phase_passed name;
  s ← the_record;
  act (text ← lift (record_text s); write_text (log_of p "lifecycle-progress.json") text).

(** src: tool/updater/validate_isolated_windows_lifecycle.py:279-284 uninstall *)
Definition uninstall (state : json) (p : places) (name : string) : P unit :=
  _ ← act (run [path_str (pl_app p // "unins000.exe"); "/VERYSILENT"; "/SUPPRESSMSGBOXES"; "/NORESTART";
                "/LOG=" +:+ path_str (log_of p (name +:+ ".log"))] (Some (log_of p (name +:+ "-output.log"))) None [0]);
  _ ← act (verify_integrations state false);
  _ ← act (there ← path_exists (pl_app p // "plug_agente.exe");
           left ← (if there : bool then mret true
                   else service ← registry_value HKEY_LOCAL_MACHINE (service_key p) "ImagePath"; mret (negb (is_none service)));
           raise_when left (RuntimeError "Uninstall left the fixture app or service"));
  phase_passed name.

(** src: tool/updater/validate_isolated_windows_lifecycle.py:299-302 administrator_phase
    The wait for the result of the standard-user phase; [None] when the fuel runs out. *)
Fixpoint wait_result (fuel : nat) (path : string) (deadline : Z) : M (option unit) :=
  there ← path_exists path;
  if there : bool then mret (Some tt)
  else
    w ← get_world;
    if deadline <? monotonic w then raise (RuntimeError "Standard-user controller did not complete")
    else match fuel with
         | O => mret None
         | S fuel => _ ← pause; wait_result fuel path deadline
         end.

(** The data a user keeps, with its hashes. *)
Definition RETAINED : list string := ["fixture-retention.sqlite"; "fixture-vault.dpapi"].
(** src: tool/updater/validate_isolated_windows_lifecycle.py:305-305 administrator_phase *)
Definition retained_hashes (data : string) : M (list (string * string)) :=
  map_M (λ name, hash ← sha256 (data // name); mret (data // name, hash)) RETAINED.

(** src: tool/updater/validate_isolated_windows_lifecycle.py:306-308 administrator_phase
    The components that an optional repair leaves alone: policy, worker, core. *)
Definition core_files (p : places) : list string :=
  [pl_updater p // "policy.json"; pl_control p // "workers/1.8.7+1/plug_update_worker.exe"; pl_app p // "plug_agente.exe"].

(** src: tool/updater/validate_isolated_windows_lifecycle.py:316-317 administrator_phase
    [any(sha256(path) != digest for path, digest in hashes)] *)
Fixpoint any_changed (hashes : list (string * string)) : M bool :=
  match hashes with
  | [] => mret false
  | (path, digest) :: hashes => hash ← sha256 path; if hash != digest then mret true else any_changed hashes
  end.

(** src: tool/updater/validate_isolated_windows_lifecycle.py:288-296 administrator_phase
    The first installation, its probes and the profile that has to survive. *)
Definition first_installation (state : json) (p : places) : P unit :=
  _ ← install p "clean_install_enrollment" false true;
  _ ← act (verify_integrations state true);
  let check := path_str (pl_app p // "plug_install_check.exe") in
  _ ← act (run [check; "--core"] (Some (log_of p "installed-core.log")) None [0]);
  _ ← act (run [check; "--odbc"] (Some (log_of p "installed-odbc.log")) None [0]);
  act (w ← get_world;
       fs ← lift (sqlite_execute (pl_data p // "fixture-retention.sqlite")
                    ["CREATE TABLE retained_profile (id TEXT PRIMARY KEY)";
                     "INSERT INTO retained_profile VALUES ('private-retained-profile')"] w);
       _ ← set_fs fs;
       _ ← mkdir_exist (pl_data p // "updates");
       write_bytes (pl_data p // "updates/download.tmp") "disposable-download").

(** src: tool/updater/validate_isolated_windows_lifecycle.py:297-304 administrator_phase
    The handover to the standard-user phase and back. *)
Definition standard_handover (fuel : nat) (state : json) (p : places) : P unit :=
  handoff ← act (create_handoff state);
  _ ← act (w ← get_world;
           o ← wait_result fuel (pl_root p // "standard-result.json") (monotonic w + 300000);
           lift (from_option o (ForeignError "out of fuel")));
  _ ← act (verify_result state handoff);
  phase_passed "standard_user_service_ipc_dpapi_and_denials".

(** src: tool/updater/validate_isolated_windows_lifecycle.py:306-317 administrator_phase
    The repair without the updater, while nobody may replace the core. *)
Definition optional_repair (p : places) : P unit :=
  before ← act (map_M (λ path, hash ← sha256 path; mret (path, hash)) (core_files p));
  _ ← act (lock_core_against_replacement (pl_app p // "plug_agente.exe"));
  _ ← install p "optional_repair_without_updater" true false;
  _ ← act (verify_no_updater_mutations (log_of p "optional_repair_without_updater.log"));
  act (changed ← any_changed before; raise_when changed (RuntimeError "Optional repair modified unrequested components")).

(** src: tool/updater/validate_isolated_windows_lifecycle.py:322-329 administrator_phase
    The historical supervisor is put in place of the installed one. *)
Definition plant_historical_host (state : json) (p : places) : M unit :=
  historical ← lift (path_item "legacyService" state);
  _ ← copy_file (path_of historical) (pl_control p // "plug_update_service.exe");
  bytes ← read_bytes (pl_updater p // "policy.json");
  text ← lift (locale_decode bytes);
  policy ← lift (loads (universal_newlines text));
  policy ← lift (jset "recoveryContract" (JInt 1) policy);
  policy ← lift (jset "enabled" (JBool true) policy);
  hash ← lift (jitem "legacyServiceSha256" state);
  hashes ← lift (jitem "binaryHashes" policy);
  hashes ← lift (jset "service" hash hashes);
  policy ← lift (jset "binaryHashes" hashes policy);
  text ← lift (dumps policy);
  _ ← write_text (pl_updater p // "policy.json") text;
  _ ← run ["sc.exe"; "start"; pl_service p] (Some (log_of p "legacy-host-start.log")) None [0];
  mret tt.

(** src: tool/updater/validate_isolated_windows_lifecycle.py:330-336 administrator_phase
    The historical supervisor is refused, and replaced when it is asked for. *)
Definition host_upgrade (p : places) : M unit :=
  _ ← run (pl_installer p :: common_options p ++ ["/REPAIR=optional"; "/AUTOUPDATE=1"; "/LOG=" +:+ path_str (log_of p "legacy-refused.log")])
        (Some (log_of p "legacy-refused-output.log")) None [7];
  refusal ← ReleasePreflight.read_text_sig (log_of p "legacy-refused.log");
  _ ← raise_when (negb (contains refusal "host_upgrade_required")) (RuntimeError "Legacy service contract was not explicitly refused");
  _ ← run (pl_installer p :: common_options p ++ ["/REPAIR=optional"; "/AUTOUPDATE=1"; "/UPGRADEUPDATERHOST=1";
             "/LOG=" +:+ path_str (log_of p "explicit-host-upgrade.log")]) (Some (log_of p "explicit-host-upgrade-output.log")) None [0];
  _ ← run [path_str (client_of p); "--check-host-contract"] (Some (log_of p "upgraded-host-contract.log")) None [0];
  installed ← sha256 (pl_control p // "plug_update_service.exe");
  packaged ← sha256 (pl_root p // "payload/updater/plug_update_service.exe");
  raise_when (installed != packaged) (RuntimeError "Explicit migration did not replace the historical supervisor").

(** src: tool/updater/validate_isolated_windows_lifecycle.py:318-337 administrator_phase
    The missing client is repaired, then the historical supervisor is migrated. *)
Definition repair_and_migrate (state : json) (p : places) : P unit :=
  _ ← act (unlink (client_of p));
  _ ← install p "repair_missing_client" true true;
  _ ← act (run [path_str (client_of p); "--check-host-contract"] (Some (log_of p "repaired-client-contract.log")) None [0]);
  _ ← act (run [path_str (client_of p); "--prepare-host-upgrade"] (Some (log_of p "legacy-host-stop.log")) None [0]);
  _ ← act (plant_historical_host state p);
  _ ← act (host_upgrade p);
  phase_passed "legacy_refused_then_explicit_host_upgrade".

(** src: tool/updater/validate_isolated_windows_lifecycle.py:339-340 administrator_phase
    The retained data is still what it was. *)
Definition require_retained (retained : list (string * string)) (message : string) : M unit :=
  changed ← any_changed retained; raise_when changed (RuntimeError message).

(** src: tool/updater/validate_isolated_windows_lifecycle.py:338-349 administrator_phase
    Reinstallation and removal, twice. *)
Definition reinstall_and_remove (state : json) (p : places) (retained : list (string * string)) : P unit :=
  _ ← install p "same_version_manual_reinstall" false true;
  _ ← act (require_retained retained "Reinstall changed private retained SQLite/vault data");
  _ ← uninstall state p "uninstall";
  _ ← act (cache ← path_exists (pl_data p // "updates");
           broken ← (if cache : bool then mret true else any_changed retained);
           raise_when broken (RuntimeError "Uninstall did not preserve profile data and remove download cache"));
  _ ← install p "reinstall_with_residual_policy" false true;
  _ ← act (verify_integrations state true);
  _ ← act (run [path_str (client_of p); "--check-host-contract"] (Some (log_of p "residual-policy-contract.log")) None [0]);
  _ ← uninstall state p "final_uninstall";
  act (require_retained retained "Final uninstall modified retained private data").

(** src: tool/updater/validate_isolated_windows_lifecycle.py:287-349 administrator_phase
    The work of the phase, its steps in order. *)
Definition administrator_checks (fuel : nat) (state : json) (p : places) : P unit :=
  _ ← verify_input_binding state;
  _ ← first_installation state p;
  _ ← standard_handover fuel state p;
  retained ← act (retained_hashes (pl_data p));
  _ ← optional_repair p;
  _ ← repair_and_migrate state p;
  reinstall_and_remove state p retained.

(** src: tool/updater/validate_isolated_windows_lifecycle.py:261-265 administrator_phase
    The record of the phase. *)
Definition administrator_record (identity : json) (fixture : list (string * json)) : record :=
  updated [("status", JStr "failed"); ("phases", JArr []); ("identity", identity); ("productionActivationGate", JBool false);
           ("operationalStateInspection", JStr "registration_metadata_only")] fixture.

Fixpoint any_exists (paths : list string) : M bool :=
  match paths with
  | [] => mret false
  | path :: paths => there ← path_exists path; if there : bool then mret true else any_exists paths
  end.

(** src: tool/updater/validate_isolated_windows_lifecycle.py:248-268 administrator_phase
    Everything before the first step: the places, the registrations of the host and the record. *)
Definition administrator_start (state : json) : M (places * json * record) :=
  w ← get_world;
  _ ← raise_when (negb (is_user_admin w)) (RuntimeError "Scoped installer acceptance requires Windows elevation");
  root ← lift (path_item "root" state);
  app ← lift (path_item "app" state);
  data ← lift (path_item "data" state);
  control ← lift (path_item "control" state);
  updater ← lift (path_item "updaterData" state);
  identity ← lift (path_item "identity" state);
  consumed ← any_exists [path_of app; path_of data; path_of control; path_of updater; path_of root // "lifecycle-result.json"];
  _ ← raise_when consumed (RuntimeError "Refusing an existing or already consumed fixture namespace");
  service ← registry_value HKEY_LOCAL_MACHINE ("SYSTEM\CurrentControlSet\Services\" +:+ identity +:+ "Updater") "ImagePath";
  _ ← raise_when (negb (is_none service)) (RuntimeError "Fixture service already exists");
  _ ← assert_fresh state;
  before ← host_snapshot;
  fixture ← lift (fixture_record state);
  installer ← lift (path_item "installer" state);
  mret (Places (path_of root) (path_of app) (path_of data) (path_of control) (path_of updater) (identity +:+ "Updater") installer,
        before, administrator_record (JStr identity) fixture).

Definition result_path (p : places) : string := pl_root p // "lifecycle-result.json".
(** src: tool/updater/validate_isolated_windows_lifecycle.py:361-361 administrator_phase *)
Definition write_record (p : places) : P unit :=
  s ← the_record; act (text ← lift (record_text s); write_text (result_path p) text).

(** src: tool/updater/validate_isolated_windows_lifecycle.py:248-361 administrator_phase *)
Definition administrator_phase (fuel : nat) (state : json) : M unit :=
  '(p, before, s) ← administrator_start state;
  phase s (finally (except (_ ← administrator_checks fuel state p; put "status" (JStr "passed")) record_error)
                   (finally (verify_host_registration_preservation before)
                            (finally (verify_input_binding state) (write_record p)))).

(** src: tool/updater/validate_isolated_windows_lifecycle.py:364-371 inspect_fixture *)
Definition inspect_fixture (path : string) : M json :=
  state ← load_fixture path;
  lift (format ← jitem "format" state;
        qualification ← jitem "payloadQualification" state;
        identity ← jitem "identity" state;
        payload ← jitem "payloadFiles" state;
        files ← jitems payload;
        tree ← jitem "payloadTreeSha256" state;
        installer ← jitem "installerSha256" state;
        legacy ← jitem "legacySourceCommit" state;
        Ok (JObj [("scope", JStr "fixture-integrity-only"); ("integrity", JStr "verified"); ("installationPerformed", JBool false);
                  ("installedState", JStr "not_checked"); ("buildSourceVerified", JBool false);
                  ("applicationSourceVerified", JBool (has_key "applicationBuild" state)); ("fixtureFormat", format);
                  ("payloadQualification", qualification); ("identity", identity);
                  ("payloadFiles", JInt (Z.of_nat (length files))); ("payloadTreeSha256", tree);
                  ("installerSha256", installer); ("legacySourceCommit", legacy)])).

Inductive phase_choice : Type := Inspect | Administrator | StandardUser.

(** src: tool/updater/validate_isolated_windows_lifecycle.py:374-390 main
    After the arguments are parsed. *)
Definition main (fuel : nat) (fixture : string) (chosen : phase_choice) (allow_machine_changes : bool) : M unit :=
  _ ← raise_when (negb host_nt) (SystemExit (ExitMsg "Windows fixture verification is required"));
  match chosen with
  | Inspect =>
      _ ← raise_when allow_machine_changes (SystemExit (ExitMsg "Inspection does not accept machine-change authorization"));
      report ← inspect_fixture fixture;
      text ← lift (dumps (sorted_json report));
      print (text +:+ nl)
  | _ =>
      _ ← raise_when (negb allow_machine_changes) (SystemExit (ExitMsg "Explicit Windows fixture authorization is required"));
      state ← load_fixture fixture;
      match chosen with Administrator => administrator_phase fuel state | _ => standard_user_phase state end
  end.
End driver.

(** ** What a record says in the end *)

(** The steps of the administrator phase, in order. *)
Definition PHASES : list string :=
  ["clean_install_enrollment"; "standard_user_service_ipc_dpapi_and_denials"; "optional_repair_without_updater";
   "repair_missing_client"; "legacy_refused_then_explicit_host_upgrade"; "same_version_manual_reinstall"; "uninstall";
   "reinstall_with_residual_policy"; "final_uninstall"].

(** [s'] is [s] with [names] appended to the list under [key], other keys left
    alone but for [key'] *)
Definition appended (key : string) (names : list string) (s s' : record) : Prop :=
  (∀ l, assoc key s = Some (JArr l) → assoc key s' = Some (JArr (l ++ (JStr <$> names)))) ∧
  (∀ k, k ≠ key → k ≠ "inputBindingVerified" → assoc k s' = assoc k s).

Lemma appended_nil key s : appended key [] s s.
Proof. split; [|done]. intros l. by rewrite app_nil_r. Qed.
Lemma appended_app key a b s1 s2 s3 : appended key a s1 s2 → appended key b s2 s3 → appended key (a ++ b) s1 s3.
Proof.
  intros [Ha Hka] [Hb Hkb]. split.
  - intros l Hl. rewrite (Hb _ (Ha _ Hl)), fmap_app. by rewrite app_assoc.
  - intros k ? ?. by rewrite Hkb, Hka.
Qed.
Lemma appended_put key v s : key ≠ "inputBindingVerified" → appended key [] s (assoc_set "inputBindingVerified" v s).
Proof.
  intros Hne. split; [|intros k Hk Hk'; by rewrite assoc_set_other].
  intros l Hl. rewrite assoc_set_other by done. by rewrite app_nil_r.
Qed.
Lemma appended_push key name s w s' w' : passes (push key (JStr name)) s w tt s' w' → appended key [name] s s'.
Proof.
  intros (l & Hl & -> & _)%passes_push. split; [|intros k Hk _; by rewrite assoc_set_other].
  intros l' Hl'. rewrite assoc_set_same. by simplify_eq.
Qed.

(** [appends key names m]: when [m] returns, it has appended [names]. *)
Definition appends {A} (key : string) (names : list string) (m : P A) : Prop :=
  ∀ s w a s' w', passes m s w a s' w' → appended key names s s'.

Section appends.
Context (key : string) (Hkey : key ≠ "inputBindingVerified").

Lemma appends_ret {A} (a : A) : appends key [] (mret a).
Proof. intros s w a' s' w' (_ & <- & _)%passes_ret. apply appended_nil. Qed.
Lemma appends_act {A} (m : M A) : appends key [] (act m).
Proof. intros s w a s' w' [-> _]%passes_act. apply appended_nil. Qed.
Lemma appends_raise {A} e names : appends key names (raise_P e : P A).
Proof. by intros s w a s' w' ?%passes_raise. Qed.
Lemma appends_record : appends key [] the_record.
Proof. intros s w a s' w' (_ & -> & _)%passes_record. apply appended_nil. Qed.
Lemma appends_push name : appends key [name] (push key (JStr name)).
Proof. intros s w [] s' w'. apply appended_push. Qed.
Lemma appends_bind {A B} (m : P A) (k : A → P B) a b : appends key a m → (∀ x, appends key b (k x)) → appends key (a ++ b) (m ≫= k).
Proof. intros Hm Hk s w y s' w' (x & s1 & w1 & Hx & Hy)%passes_bind. eapply appended_app; [by eapply Hm|by eapply Hk]. Qed.
(** A step that appends nothing. *)
Lemma appends_then {A B} (m : P A) (k : A → P B) names : appends key [] m → (∀ x, appends key names (k x)) → appends key names (m ≫= k).
Proof. by apply (appends_bind m k []). Qed.
Lemma appends_cons {A B} (m : P A) (k : A → P B) name names :
  appends key [name] m → (∀ x, appends key names (k x)) → appends key (name :: names) (m ≫= k).
Proof. by apply (appends_bind m k [name]). Qed.
Lemma appends_never {A} (m : M A) names : (∀ w a w', ¬ runs m w a w') → appends key names (act m).
Proof. intros Hm s w a s' w' [_ Hr]%passes_act. by destruct (Hm w a w'). Qed.
Lemma appends_prefix {A B} (m : P A) (k : A → P B) a names : take (length a) names = a → appends key a m →
  (∀ x, appends key (drop (length a) names) (k x)) → appends key names (m ≫= k).
Proof. intros Ha Hm Hk. rewrite <- (take_drop (length a) names), Ha. by apply appends_bind. Qed.
End appends.

(** [solve_appends] follows a phase and takes the names from the list as they are appended. *)
Ltac solve_appends1 :=
  match goal with
  | |- appends _ _ (push _ _ ≫= _) => apply appends_cons; [apply appends_push|intros ?]
  | |- appends _ _ (act _ ≫= _) => apply appends_then; [apply appends_act|intros ?]
  | |- appends _ _ (the_record ≫= _) => apply appends_then; [apply appends_record|intros ?]
  | |- appends _ _ (mret _) => apply appends_ret
  | |- appends _ _ (act _) => apply appends_act
  | |- appends _ _ (push _ _) => apply appends_push
  | |- appends _ _ (raise_P _) => apply appends_raise
  end.
Ltac solve_appends := repeat solve_appends1.

Section honest.
Context `{Host} `{Filesystem} `{Symlinks} `{Tar} `{WindowsHost} `{Ed25519} `{Secrets}.

Lemma passes_input_binding state s w u s' w' : passes (verify_input_binding state) s w u s' w' →
  s' = assoc_set "inputBindingVerified" (JBool true) s ∧
  ∃ root current, path_item "root" state = Ok root ∧ runs (load_fixture (path_of root // "fixture.json")) w current w' ∧
    jeq current state = true.
Proof.
  unfold verify_input_binding. intros Hp. apply passes_bind in Hp as (current & s1 & w1 & Hc & Hp).
  apply passes_except in Hc as [[-> Hc]%passes_act|(e & s2 & w2 & _ & _ & Hc)]; [|by inv_passes].
  apply passes_bind in Hp as ([] & s2 & w2 & Hj & Hp). apply passes_put in Hp as [-> ->].
  destruct (jeq current state) eqn:E; cbn [negb] in Hj; [|by inv_passes]. apply passes_ret in Hj as (_ & <- & <-).
  split; [done|]. apply runs_bind in Hc as (root & w3 & [Hr <-]%runs_lift & Hc). by exists root, current.
Qed.

Lemma appends_input_binding key state : key ≠ "inputBindingVerified" → appends key [] (verify_input_binding state).
Proof. intros Hne s w u s' w' [-> _]%passes_input_binding. by apply appended_put. Qed.

Lemma appends_probes control updater :
  appends "checks" ["control_directory_write_denied"; "protected_policy_read_denied"] (probe_denials control updater).
Proof.
  unfold probe_denials, check_passed. solve_appends. apply appends_cons; [|intros _; solve_appends; case_match; solve_appends].
  case_match; [apply appends_push|]. apply appends_never. intros w b w' ([] & w1 & _ & Hr)%runs_bind. by apply runs_raise in Hr.
Qed.

(** Each check is recorded when it passed, and in the order of the protocol. *)
Lemma standard_checks_recorded state root client : appends "checks" CHECKS (standard_user_checks state root client).
Proof.
  unfold standard_user_checks, CHECKS. apply appends_then; [by apply appends_input_binding|intros _].
  unfold check_passed. solve_appends.
  apply (appends_prefix _ _ _ ["control_directory_write_denied"; "protected_policy_read_denied"]); [done|apply appends_probes|intros _].
  unfold check_passed. solve_appends.
Qed.

Lemma appends_install p name repair automatic : appends "phases" [name] (install p name repair automatic).
Proof. unfold install, phase_passed. solve_appends. Qed.
Lemma appends_uninstall state p name : appends "phases" [name] (uninstall state p name).
Proof. unfold uninstall, phase_passed. solve_appends. Qed.
Ltac solve_phases := repeat first
  [ match goal with
    | |- appends _ _ (install _ _ _ _ ≫= _) => apply appends_cons; [apply appends_install|intros ?]
    | |- appends _ _ (uninstall _ _ _ ≫= _) => apply appends_cons; [apply appends_uninstall|intros ?]
    end
  | solve_appends1 ].

(** Each step is recorded when it passed, and in the order of the code. *)
Lemma administrator_phases_recorded fuel state p : appends "phases" PHASES (administrator_checks fuel state p).
Proof.
  unfold administrator_checks, PHASES. apply appends_then; [by apply appends_input_binding|intros _].
  apply appends_cons; [unfold first_installation; solve_phases|intros _].
  apply appends_cons; [unfold standard_handover, phase_passed; solve_phases|intros _]. solve_appends.
  apply appends_cons; [unfold optional_repair; solve_phases|intros _].
  apply (appends_prefix _ _ _ ["repair_missing_client"; "legacy_refused_then_explicit_host_upgrade"]);
    [done|unfold repair_and_migrate, phase_passed; solve_phases|intros _].
  unfold reinstall_and_remove. solve_phases.
Qed.

(** A failed record stays one, but for the last assignment of a phase that passed. *)
Abbreviation stays_failed := (keeps_value "status" (JStr "failed")).
Lemma failed_input_binding state : records stays_failed (verify_input_binding state).
Proof. unfold verify_input_binding. solve_records. Qed.
Lemma failed_registrations before : records stays_failed (verify_host_registration_preservation before).
Proof. unfold verify_host_registration_preservation. solve_records. Qed.
Lemma failed_standard_checks state root client : records stays_failed (standard_user_checks state root client).
Proof. pose proof failed_input_binding. unfold standard_user_checks, probe_denials, check_passed. solve_records. Qed.
Lemma failed_install p name repair automatic : records stays_failed (install p name repair automatic).
Proof. unfold install, phase_passed. solve_records. Qed.
Lemma failed_uninstall state p name : records stays_failed (uninstall state p name).
Proof. unfold uninstall, phase_passed. solve_records. Qed.
Lemma failed_administrator_checks fuel state p : records stays_failed (administrator_checks fuel state p).
Proof.
  pose proof failed_input_binding. pose proof failed_install. pose proof failed_uninstall.
  unfold administrator_checks, first_installation, standard_handover, optional_repair, repair_and_migrate, reinstall_and_remove, phase_passed.
  solve_records.
Qed.

(** A check at the end that raises an [Exception] leaves a failed record. *)
Definition fails_closed {A} (m : P A) : Prop :=
  ∀ s w e s' w', m s w = ((Raise e, s'), w') → is_Exception e = true → assoc "status" s' = Some (JStr "failed").

Definition is_failed (s : record) : Prop := assoc "status" s = Some (JStr "failed").

Lemma bind_raised {A B} (m : P A) (k : A → P B) s w e s' w' : (m ≫= k) s w = ((Raise e, s'), w') →
  m s w = ((Raise e, s'), w') ∨ ∃ a s1 w1, passes m s w a s1 w1 ∧ k a s1 w1 = ((Raise e, s'), w').
Proof. unfold passes, mbind, P_bind. destruct (m s w) as [[[a|e1] s1] w1]; naive_solver. Qed.

Lemma except_raised {A} (m : P A) h s w e s' w' : except m h s w = ((Raise e, s'), w') → is_Exception e = true →
  ∃ e1 s1 w1, m s w = ((Raise e1, s1), w1) ∧ h e1 s1 w1 = ((Raise e, s'), w').
Proof.
  unfold except. destruct (m s w) as [[[a|e1] s1] w1] eqn:E; [done|]. destruct (is_Exception e1) eqn:Ee; [naive_solver|].
  intros [= -> -> ->]. by rewrite Ee.
Qed.

Lemma input_binding_closed state : fails_closed (verify_input_binding state).
Proof.
  intros s w e s' w' Hr Hexn. unfold verify_input_binding in Hr. apply bind_raised in Hr as [Hr|(current & s1 & w1 & _ & Hr)].
  - apply except_raised in Hr as (e1 & s1 & w1 & _ & Hr); [|done]. injection Hr as _ <- _.
    by rewrite assoc_set_other, assoc_set_same.
  - apply bind_raised in Hr as [Hr|(u & s2 & w2 & _ & Hr)]; [|done]. case_match; [|done]. injection Hr as _ <- _.
    by rewrite assoc_set_other, assoc_set_same.
Qed.

Lemma registrations_closed before : fails_closed (verify_host_registration_preservation before).
Proof.
  intros s w e s' w' Hr Hexn. unfold verify_host_registration_preservation in Hr.
  apply bind_raised in Hr as [Hr|(unchanged & s1 & w1 & _ & Hr)].
  - apply except_raised in Hr as (e1 & s1 & w1 & _ & Hr); [|done]. injection Hr as _ <- _.
    by rewrite assoc_set_other, assoc_set_same.
  - apply bind_raised in Hr as [Hr|(u & s2 & w2 & _ & Hr)]; [done|]. case_match; [|done]. injection Hr as _ <- _.
    by rewrite assoc_set_same.
Qed.

Lemma finally_outcome {A} (m : P A) f s w r s' w' : finally m f s w = ((r, s'), w') →
  ∃ r1 s1 w1 r2, m s w = ((r1, s1), w1) ∧ f s1 w1 = ((r2, s'), w') ∧ r = match r2 with Ok _ => r1 | Raise e => Raise e end.
Proof.
  unfold finally. destruct (m s w) as [[r1 s1] w1]. destruct (f s1 w1) as [[[u|e] s2] w2] eqn:Ef; intros [= <- <- <-].
  - by exists r1, s1, w1, (Ok u).
  - by exists r1, s1, w1, (Raise e).
Qed.

(** A closing step ends in [last], on a failed record unless everything passed
    or [last] itself raised. *)
Definition closing (last f : P unit) : Prop := ∀ s w r s' w', f s w = ((r, s'), w') →
  ∃ s1 w1 rl, last s1 w1 = ((rl, s'), w') ∧ (is_failed s → is_failed s1) ∧
    (∀ e, r = Raise e → is_Exception e = true → is_failed s1 ∨ ∃ el, rl = Raise el).

Lemma closing_last last : closing last last.
Proof. intros s w r s' w' Hl. exists s, w, r. split_and!; [done|done|]. intros e -> _. right. by exists e. Qed.

Lemma closing_finally last m f : records stays_failed m → fails_closed m → closing last f → closing last (finally m f).
Proof.
  intros Hm Hc Hf s w r s' w' (r1 & s1 & w1 & r2 & Hr1 & Hr2 & ->)%finally_outcome.
  destruct (Hf _ _ _ _ _ Hr2) as (s2 & w2 & rl & Hl & Hkeep & Hraise). exists s2, w2, rl. split_and!; [done| |].
  - intros Hs. apply Hkeep. specialize (Hm s w Hs). by rewrite Hr1 in Hm.
  - intros e He Hexn. destruct r2 as [u|e2]; [|simplify_eq; by apply (Hraise e)]. left. apply Hkeep. subst r1.
    by eapply Hc.
Qed.

(** The outcome of a phase whose checks are guarded and closed in this way. *)
Lemma guarded_outcome (checks last f : P unit) s w r s' w' :
  records stays_failed checks → closing last f → is_failed s →
  finally (except (_ ← checks; put "status" (JStr "passed")) record_error) f s w = ((r, s'), w') →
  match r with
  | Ok _ => ∃ s1 w1, passes checks s w tt s1 w1 ∧ passes f (assoc_set "status" (JStr "passed") s1) w1 tt s' w'
  | Raise e => is_Exception e = true → ∃ s1 w1 rl, last s1 w1 = ((rl, s'), w') ∧ (is_failed s1 ∨ ∃ el, rl = Raise el)
  end.
Proof.
  intros Hchecks Hf Hs (r1 & s1 & w1 & r2 & Hr1 & Hr2 & ->)%finally_outcome.
  destruct (Hf _ _ _ _ _ Hr2) as (s2 & w2 & rl & Hl & Hkeep & Hraise). destruct r2 as [[]|e2].
  - destruct r1 as [[]|e].
    + assert (passes (except (_ ← checks; put "status" (JStr "passed")) record_error) s w tt s1 w1) as Hp by done.
      apply passes_except in Hp as [Hp|(e & s3 & w3 & _ & _ & Hp)]; [|unfold record_error in Hp; by inv_passes].
      apply passes_bind in Hp as ([] & s3 & w3 & Hc & [-> ->]%passes_put). by exists s3, w3.
    + intros Hexn. exists s2, w2, rl. split; [done|]. left. apply Hkeep.
      apply except_raised in Hr1 as (e1 & s3 & w3 & Hb & He); [|done].
      apply bind_raised in Hb as [Hb|(u & s4 & w4 & _ & Hb)]; [|done].
      specialize (Hchecks s w Hs). rewrite Hb in Hchecks. simpl in Hchecks. injection He as _ <- _.
      unfold is_failed. by rewrite assoc_set_other.
  - intros Hexn. exists s2, w2, rl. split; [done|]. by apply (Hraise e2).
Qed.

(** *** The standard-user phase *)

Lemma runs_handoff_same state handoff w w' : runs (handoff_differs state handoff) w false w' →
  w' = w ∧ ∃ phase binding, jitem "phaseId" handoff = Ok (JStr phase) ∧ jitem "fixtureBinding" handoff = Ok (JStr binding).
Proof.
  unfold handoff_differs. intros Hr. destruct (names_are _ handoff); cbn [negb] in Hr; [|by apply runs_ret in Hr as [? _]].
  apply runs_bind in Hr as (format & w1 & [_ <-]%runs_lift & Hr). destruct (jeq format _); cbn [negb] in Hr; [|by apply runs_ret in Hr as [? _]].
  apply runs_bind in Hr as (phase & w1 & [Hp <-]%runs_lift & Hr).
  destruct phase as [| | | |s| |]; cbn [negb] in Hr; try by apply runs_ret in Hr as [? _].
  destruct (is_hex64 s); cbn [negb] in Hr; [|by apply runs_ret in Hr as [? _]].
  apply runs_bind in Hr as (binding & w1 & [Hb <-]%runs_lift & Hr). apply runs_bind in Hr as (expected & w1 & He & Hr).
  pose proof (runs_same _ _ _ _ (same_binding state) He) as ->. apply runs_ret in Hr as [->%negb_false_iff%jeq_str <-].
  split; [done|]. exists s, expected. split; by eapply jget_or_null_item.
Qed.

Lemma runs_claim_binding state handoff w w' : runs (claim_handoff state) w handoff w' →
  ∃ phase binding, jitem "phaseId" handoff = Ok (JStr phase) ∧ jitem "fixtureBinding" handoff = Ok (JStr binding).
Proof.
  unfold claim_handoff. intros Hr. apply runs_bind in Hr as ([root h] & w1 & Hc & Hr).
  apply runs_bind in Hr as ([] & w2 & _ & Hr). apply runs_ret in Hr as [-> _]. unfold claim_check in Hc. inv_runs. simplify_eq.
  match goal with H : runs (handoff_differs _ _) _ _ _ |- _ => by apply runs_handoff_same in H as (_ & ?) end.
Qed.

(** The record before the checks. *)
Lemma runs_standard_start state w root client s w' : runs (standard_start state) w (root, client, s) w' →
  is_user_admin w = false ∧ ∃ handoff phase binding fixture,
    runs (claim_handoff state) w handoff w' ∧ jitem "phaseId" handoff = Ok (JStr phase) ∧
    jitem "fixtureBinding" handoff = Ok (JStr binding) ∧ fixture_record state = Ok fixture ∧
    s = standard_record [("format", JStr "isolated-standard-result-v1"); ("phaseId", JStr phase); ("fixtureBinding", JStr binding)] fixture.
Proof.
  unfold standard_start. intros Hr. apply runs_bind in Hr as (w0 & w1 & Hw & Hr). injection Hw as <- <-.
  apply runs_bind in Hr as ([] & w1 & [Hadmin <-]%runs_raise_when & Hr).
  apply runs_bind in Hr as (? & w1 & [_ <-]%runs_lift & Hr). apply runs_bind in Hr as (? & w1 & [_ <-]%runs_lift & Hr).
  apply runs_bind in Hr as (handoff & w1 & Hc & Hr). apply runs_bind in Hr as (binding & w2 & [Hb <-]%runs_lift & Hr).
  apply runs_bind in Hr as (fixture & w2 & [Hf <-]%runs_lift & Hr). apply runs_ret in Hr as [[= <- <- <-] <-]. split; [done|].
  destruct (runs_claim_binding _ _ _ _ Hc) as (phase & bound & Hp & Hfb). exists handoff, phase, bound, fixture.
  split_and!; try done. unfold result_binding in Hb. rewrite Hp, Hfb in Hb. simpl in Hb. by injection Hb as <-.
Qed.

Lemma fixture_record_keys state fixture : fixture_record state = Ok fixture → ∃ a b c d,
  fixture = [("fixtureFormat", a); ("payloadTreeSha256", b); ("payloadQualification", c); ("applicationSourceVerified", d)].
Proof. unfold fixture_record. intros Hr. inv_res. by eexists _, _, _, _. Qed.

(** A record with all the checks and the binding of its handoff is complete. *)
Lemma record_complete s handoff phase binding :
  jitem "phaseId" handoff = Ok (JStr phase) → jitem "fixtureBinding" handoff = Ok (JStr binding) →
  assoc "format" s = Some (JStr "isolated-standard-result-v1") → assoc "phaseId" s = Some (JStr phase) →
  assoc "fixtureBinding" s = Some (JStr binding) → assoc "status" s = Some (JStr "passed") →
  assoc "elevated" s = Some (JBool false) → assoc "checks" s = Some (JArr (JStr <$> CHECKS)) →
  result_incomplete (JObj s) handoff = Ok false.
Proof.
  intros Hp Hb Hformat Hphase Hbinding Hstatus Helevated Hchecks.
  unfold result_incomplete, result_binding, jget_or_null, jget. rewrite Hp, Hb, Hchecks. simpl.
  rewrite Hformat, Hphase, Hbinding, Hstatus, Helevated. simpl. by rewrite !String.eqb_refl.
Qed.

Lemma closing_publish state : closing (publish_record state) (finally (verify_input_binding state) (publish_record state)).
Proof. apply closing_finally; [apply failed_input_binding|apply input_binding_closed|apply closing_last]. Qed.

Lemma record_act {A} (f : record → M A) s w r s' w' : (the_record ≫= λ s, act (f s)) s w = ((r, s'), w') → s' = s ∧ f s w = (r, w').
Proof. unfold the_record, act, mbind, P_bind. destruct (f s w) as [[a|e] w1]; naive_solver. Qed.

Lemma publish_outcome state s w r s' w' : publish_record state s w = ((r, s'), w') → s' = s ∧ write_result state (JObj s) w = (r, w').
Proof. apply (record_act (λ s, write_result state (JObj s))). Qed.

(** A phase that returned ran its start and its guarded part. *)
Lemma phase_outcome {A} s (m : P A) w r w' : phase s m w = (r, w') → ∃ s', m s w = ((r, s'), w').
Proof. unfold phase. destruct (m s w) as [[r1 s1] w1]. intros [= -> ->]. by exists s1. Qed.

(** C8. The standard-user phase is honest. When it returns, it ran without
    elevation, it claimed a handoff, the fixture was verified again at the end,
    and the result it published is complete for that handoff: its status is
    passed and it lists the nine checks of the protocol, in order, so that the
    administrator's test of a result accepts it. When an exception ends the
    phase, no check had started, or the result it published is a failed one, or
    publishing it failed. *)
Theorem standard_phase_honest (state : json) (w : world) :
  match standard_user_phase state w with
  | (Ok _, w') => is_user_admin w = false ∧ ∃ handoff s w1 w2,
      runs (claim_handoff state) w handoff w1 ∧ result_incomplete (JObj s) handoff = Ok false ∧
      assoc "inputBindingVerified" s = Some (JBool true) ∧ runs (write_result state (JObj s)) w2 tt w' ∧
      ∃ root current w3, path_item "root" state = Ok root ∧
        runs (load_fixture (path_of root // "fixture.json")) w3 current w2 ∧ jeq current state = true
  | (Raise e, w') => is_Exception e = true →
      fails (standard_start state) w e w' ∨
      ∃ s w2 r, write_result state (JObj s) w2 = (r, w') ∧ (assoc "status" s = Some (JStr "failed") ∨ ∃ e', r = Raise e')
  end.
Proof.
  unfold standard_user_phase. destruct (standard_start state w) as [[[[root client] s]|e] w1] eqn:Hstart;
    cbn [mbind M_bind]; unfold mbind, M_bind; rewrite Hstart; [|by left].
  destruct (phase s _ w1) as [r w'] eqn:Hphase. apply phase_outcome in Hphase as [s' Hphase].
  pose proof (runs_standard_start _ _ _ _ _ _ Hstart) as (Hadmin & handoff & ph & binding & fixture & Hclaim & Hp & Hb & Hf & ->).
  apply fixture_record_keys in Hf as (fa & fb & fc & fd & ->).
  apply (guarded_outcome _ (publish_record state)) in Hphase; [|apply failed_standard_checks|apply closing_publish|done].
  destruct r as [[]|e].
  - destruct Hphase as (s1 & w2 & Hchecks & Hclose). split; [done|].
    apply standard_checks_recorded in Hchecks as [Hlist Hrest]. specialize (Hlist [] eq_refl).
    apply passes_finally in Hclose as (s2 & w3 & Hv & Hpub). apply passes_input_binding in Hv as [-> Hv].
    apply publish_outcome in Hpub as [-> Hpub]. exists handoff, (assoc_set "inputBindingVerified" (JBool true) (assoc_set "status" (JStr "passed") s1)), w1, w3. split_and!; [done| | |exact Hpub|].
    + eapply record_complete; [done|done|..]; rewrite assoc_set_other by done.
      4: by rewrite assoc_set_same.
      all: rewrite assoc_set_other by done; first [done | by rewrite Hrest].
    + apply assoc_set_same.
    + destruct Hv as (r & current & ? & ? & ?). by exists r, current, w2.
  - intros Hexn. right. destruct (Hphase Hexn) as (s1 & w2 & rl & Hl & Ho). apply publish_outcome in Hl as [-> Hl].
    by exists s1, w2, rl.
Qed.

(** *** The administrator phase *)

Lemma same_any_exists paths : steps (=) (any_exists paths).
Proof. induction paths; cbn [any_exists]; solve_steps. Qed.
Lemma same_administrator_start state : steps (=) (administrator_start state).
Proof.
  pose proof same_any_exists. pose proof same_any_entry. unfold administrator_start, assert_fresh, host_snapshot. solve_steps.
Qed.
Lemma same_any_changed hashes : steps (=) (any_changed hashes).
Proof. pose proof same_sha256. induction hashes as [|[path digest] hashes IH]; cbn [any_changed]; solve_steps. Qed.

(** The content of a file has this hash. *)
Definition has_hash (w : world) (path digest : string) : Prop := ∃ bytes, w_fs w !! path = Some (File bytes) ∧ digest = sha256_hex bytes.

Lemma runs_sha256 path w h w' : runs (sha256 path) w h w' → w' = w ∧ has_hash w path h.
Proof.
  unfold sha256. intros Hr. apply runs_bind in Hr as (b & w1 & [<- Hb]%runs_read_bytes & Hr). apply runs_ret in Hr as [<- <-].
  split; [done|]. by exists b.
Qed.

Lemma runs_any_changed hashes w w' : runs (any_changed hashes) w false w' → Forall (λ pd, has_hash w pd.1 pd.2) hashes.
Proof.
  induction hashes as [|[path digest] hashes IH]; cbn [any_changed]; intros Hr; [constructor|].
  apply runs_bind in Hr as (h & w1 & [-> Hh]%runs_sha256 & Hr). destruct (h != digest) eqn:E; [by apply runs_ret in Hr as [? _]|].
  bool_simpl. subst h. constructor; [done|by apply IH].
Qed.

Lemma runs_retained_hashes data w retained w' : runs (retained_hashes data) w retained w' →
  w' = w ∧ retained.*1 = (λ name, data // name) <$> RETAINED ∧ Forall (λ pd, has_hash w pd.1 pd.2) retained.
Proof.
  unfold retained_hashes, RETAINED. cbn [map_M]. intros Hr. inv_runs.
  repeat match goal with H : runs (sha256 _) _ _ _ |- _ => apply runs_sha256 in H as [-> ?] end.
  split_and!; [done|done|]. by repeat constructor.
Qed.

Lemma runs_require_retained retained message w u w' : runs (require_retained retained message) w u w' →
  w' = w ∧ Forall (λ pd, has_hash w pd.1 pd.2) retained.
Proof.
  unfold require_retained. intros Hr. apply runs_bind in Hr as (c & w1 & Hc & [-> <-]%runs_raise_when).
  pose proof (runs_same _ _ _ _ (same_any_changed retained) Hc) as ->. split; [done|]. by eapply runs_any_changed.
Qed.

(** The handover was verified, and the retained data of that moment is there in the end. *)
Definition data_retained (state : json) (p : places) (w' : world) : Prop :=
  ∃ handoff retained w1 w2, runs (verify_result state handoff) w1 tt w2 ∧
    retained.*1 = (λ name, pl_data p // name) <$> RETAINED ∧
    Forall (λ pd, has_hash w2 pd.1 pd.2 ∧ has_hash w' pd.1 pd.2) retained.

Lemma passes_reinstall state p retained s w u s' w' : passes (reinstall_and_remove state p retained) s w u s' w' →
  Forall (λ pd, has_hash w' pd.1 pd.2) retained.
Proof.
  unfold reinstall_and_remove. do 8 (intros (? & ? & ? & _ & Hp)%passes_bind; revert Hp).
  by intros [_ [-> ?]%runs_require_retained]%passes_act.
Qed.

Lemma passes_administrator_checks fuel state p s w u s' w' : passes (administrator_checks fuel state p) s w u s' w' →
  data_retained state p w'.
Proof.
  unfold administrator_checks. intros (? & ? & ? & _ & Hp)%passes_bind. apply passes_bind in Hp as (? & ? & ? & _ & Hp).
  apply passes_bind in Hp as (? & s3 & w3 & Hh & Hp). apply passes_bind in Hp as (retained & s4 & w4 & Hret & Hp).
  apply passes_act in Hret as [-> (-> & Hkeys & Hret)%runs_retained_hashes].
  apply passes_bind in Hp as (? & ? & ? & _ & Hp). apply passes_bind in Hp as (? & ? & ? & _ & Hp).
  apply passes_reinstall in Hp. unfold standard_handover, phase_passed in Hh. inv_passes.
  match goal with Hv : runs (verify_result _ _) _ ?u _ |- _ => destruct u; eexists _, retained, _, _; split; [exact Hv|] end.
  split; [done|]. apply Forall_and. by split.
Qed.

Lemma passes_registrations before s w u s' w' : passes (verify_host_registration_preservation before) s w u s' w' →
  w' = w ∧ s' = assoc_set "operationalRegistrationsPreserved" (JBool true) s ∧
  ∃ after, runs host_snapshot w after w ∧ jeq after before = true.
Proof.
  unfold verify_host_registration_preservation. intros Hp. apply passes_bind in Hp as (unchanged & s1 & w1 & Hc & Hp).
  apply passes_except in Hc as [[-> Hc]%passes_act|(e & s2 & w2 & _ & _ & Hc)]; [|by inv_passes].
  apply runs_bind in Hc as (after & w2 & Hs & Hc). apply runs_ret in Hc as [<- <-].
  assert (w2 = w) as -> by (eapply runs_same; [|exact Hs]; unfold host_snapshot; solve_steps).
  apply passes_bind in Hp as ([] & s2 & w2 & [-> ->]%passes_put & Hp).
  destruct (jeq after before) eqn:E; cbn [negb] in Hp; [|by inv_passes]. apply passes_ret in Hp as (_ & <- & <-).
  split_and!; [done|done|]. by exists after.
Qed.

Lemma write_record_outcome p s w r s' w' : write_record p s w = ((r, s'), w') → s' = s ∧
  (r = Ok tt → ∃ text, record_text s = Ok text ∧ w_fs w' !! result_path p = Some (File (text_bytes text))).
Proof.
  intros [-> Hr]%(record_act (λ s, text ← lift (record_text s); write_text (result_path p) text)). split; [done|].
  intros ->. cbn beta in Hr. apply runs_bind in Hr as (text & w2 & [Ht <-]%runs_lift & (Hfs & _)%runs_write_text_bytes).
  exists text. split; [done|]. by rewrite Hfs, lookup_insert_eq.
Qed.

Lemma runs_none_exists paths w w' : runs (any_exists paths) w false w' → Forall (λ path, w_fs w !! path = None) paths.
Proof.
  induction paths as [|path paths IH]; cbn [any_exists]; intros Hr; [constructor|].
  apply runs_bind in Hr as (there & w1 & [<- ->]%runs_path_exists & Hr). case_bool_decide as Hthere; [by apply runs_ret in Hr as [? _]|].
  constructor; [by apply eq_None_not_Some|by apply IH].
Qed.

Lemma runs_administrator_start state w p before s w' : runs (administrator_start state) w (p, before, s) w' →
  w' = w ∧ is_user_admin w = true ∧ runs host_snapshot w before w ∧ w_fs w !! result_path p = None ∧
  ∃ identity fixture, fixture_record state = Ok fixture ∧ s = administrator_record (JStr identity) fixture.
Proof.
  intros Hr. pose proof (runs_same _ _ _ _ (same_administrator_start state) Hr) as ->. split; [done|].
  unfold administrator_start in Hr.
  apply runs_bind in Hr as (w0 & w1 & Hw & Hr). injection Hw as <- <-.
  apply runs_bind in Hr as ([] & w1 & [Hadmin%negb_false_iff <-]%runs_raise_when & Hr).
  do 6 (apply runs_bind in Hr as (? & w1 & [_ <-]%runs_lift & Hr)).
  apply runs_bind in Hr as (consumed & w1 & Hc & Hr). pose proof (runs_same _ _ _ _ (same_any_exists _) Hc) as ->.
  apply runs_bind in Hr as ([] & w1 & [-> <-]%runs_raise_when & Hr).
  apply runs_bind in Hr as (service & w1 & ->%(runs_same _ _ _ _ (same_registry_value _ _ _)) & Hr).
  apply runs_bind in Hr as ([] & w1 & [_ <-]%runs_raise_when & Hr).
  apply runs_bind in Hr as ([] & w1 & Hfresh & Hr).
  assert (w1 = w) as -> by (pose proof same_any_entry; eapply runs_same; [|exact Hfresh]; unfold assert_fresh; solve_steps).
  apply runs_bind in Hr as (b & w1 & Hsnap & Hr).
  assert (w1 = w) as -> by (eapply runs_same; [|exact Hsnap]; unfold host_snapshot; solve_steps).
  apply runs_bind in Hr as (fixture & w1 & [Hf <-]%runs_lift & Hr). apply runs_bind in Hr as (installer & w1 & [_ <-]%runs_lift & Hr).
  apply runs_ret in Hr as [[= <- <- <-] _]. split_and!; [done|done| |by eexists _, fixture].
  apply runs_none_exists in Hc. rewrite !Forall_cons in Hc. unfold result_path. simpl. by destruct Hc as (_ & _ & _ & _ & ? & _).
Qed.

Definition closing_steps (before state : json) (p : places) : P unit :=
  finally (verify_host_registration_preservation before) (finally (verify_input_binding state) (write_record p)).
Lemma closing_write before state p : closing (write_record p) (closing_steps before state p).
Proof.
  apply closing_finally; [apply failed_registrations|apply registrations_closed|].
  apply closing_finally; [apply failed_input_binding|apply input_binding_closed|apply closing_last].
Qed.


(** *** The wait for the standard-user phase *)

(** The clock goes on by at least a fifth of a second in every pause. *)
Definition clock_advances : Prop := ∀ w, monotonic w + 200 ≤ monotonic (snd (pause w)).

(** C28. The wait for the result of the standard-user phase ends: with a clock
    that advances in every pause, 1502 rounds are enough for its five minutes. *)
Theorem wait_terminates (Hclock : clock_advances) (path : string) (w : world) :
  fst (wait_result 1502 path (monotonic w + 300000) w) ≠ Ok None.
Proof.
  assert (∀ fuel w0, monotonic w + 300000 < monotonic w0 + 200 * Z.of_nat fuel →
    fst (wait_result fuel path (monotonic w + 300000) w0) ≠ Ok None) as Hgo; [|apply Hgo; lia].
  intros fuel. induction fuel as [|fuel IH]; intros w0 Hfuel; cbn [wait_result];
    unfold mbind, M_bind, path_exists, get_world; case_bool_decide; try done;
    destruct (Z.ltb_spec (monotonic w + 300000) (monotonic w0)); try done; [lia|].
  pose proof (Hclock w0). destruct (pause w0) as [[[]|e] w1] eqn:Hpause; [|done]. apply IH. simpl in *. lia.
Qed.

(** *** The fixture *)

(** A file of the fixture that is where it has to be, with the recorded hash. *)
Definition bound_file (w : world) (root : string) (manifest : json) (key hash_key : string) (path : string) : Prop :=
  ∃ text hash, path_item key manifest = Ok text ∧ path = abspath text ∧ has_hash w path hash ∧
    jitem hash_key manifest = Ok (JStr hash) ∧
    ∃ parts, relative_parts path root = Some parts ∧ Forall (plain_entry w) (root :: components root parts).

Lemma runs_check_bindings manifest root w w' : runs (check_bindings manifest root) w tt w' →
  w' = w ∧ (∃ installer, bound_file w root manifest "installer" "installerSha256" installer ∧
                         same_path (path_parent installer) (root // "package") = true) ∧
  (∃ legacy, bound_file w root manifest "legacyService" "legacyServiceSha256" legacy ∧
             same_path legacy (root // "legacy/native/Release/plug_update_service.exe") = true) ∧
  (∃ revision, jitem "legacySourceCommit" manifest = Ok (JStr revision) ∧ fullmatch revision_re revision = true).
Proof.
  unfold check_bindings. intros Hr. apply runs_bind in Hr as (path & w1 & [Hp <-]%runs_lift & Hr).
  apply runs_bind in Hr as (a & w1 & (-> & -> & parts & bytes & Hparts & Hplain & _)%runs_fixture_artifact & Hr).
  apply runs_bind in Hr as (moved & w1 & Hm & Hr). apply runs_bind in Hr as ([] & w2 & [-> <-]%runs_raise_when & Hr).
  destruct (same_path (path_parent _) _) eqn:Hsame; cbn [negb] in Hm; [|by apply runs_ret in Hm as [? _]].
  apply runs_bind in Hm as (h & w2 & [-> Hh]%runs_sha256 & Hm). apply runs_bind in Hm as (rec & w2 & [Hrec <-]%runs_lift & Hm).
  apply runs_ret in Hm as [->%negb_false_iff%jeq_JStr <-].
  apply runs_bind in Hr as (service & w1 & [_ <-]%runs_lift & Hr). apply runs_bind in Hr as (unbound & w1 & [_ <-]%runs_lift & Hr).
  apply runs_bind in Hr as ([] & w1 & [_ <-]%runs_raise_when & Hr). apply runs_bind in Hr as (revision & w1 & [Hrev <-]%runs_lift & Hr).
  apply runs_bind in Hr as ([] & w1 & [Hmatch%negb_false_iff <-]%runs_raise_when & Hr).
  apply runs_bind in Hr as (lpath & w1 & [Hlp <-]%runs_lift & Hr).
  apply runs_bind in Hr as (l & w1 & (-> & -> & lparts & lbytes & Hlparts & Hlplain & _)%runs_fixture_artifact & Hr).
  apply runs_bind in Hr as (moved & w1 & Hm & Hr). apply runs_raise_when in Hr as [-> <-].
  destruct (same_path (abspath lpath) _) eqn:Hlsame; cbn [negb] in Hm; [|by apply runs_ret in Hm as [? _]].
  apply runs_bind in Hm as (lh & w2 & [-> Hlh]%runs_sha256 & Hm). apply runs_bind in Hm as (lrec & w2 & [Hlrec <-]%runs_lift & Hm).
  apply runs_ret in Hm as [->%negb_false_iff%jeq_JStr <-]. split; [done|]. split_and!.
  - exists (abspath path). split; [|done]. exists path, h. split_and!; try done. by exists parts.
  - exists (abspath lpath). split; [|done]. exists lpath, lh. split_and!; try done. by exists lparts.
  - destruct revision as [| | | |s| |]; try done. exists s. split; [|done]. by eapply jget_or_null_item.
Qed.

Lemma same_verify_payload root files tree : steps (=) (verify_payload root files tree).
Proof. pose proof same_capture_payload. unfold verify_payload. solve_steps. Qed.
Lemma same_isolated_sources root identity : steps (=) (assert_isolated_sources root identity).
Proof. unfold assert_isolated_sources, assert_isolated_source, ReleasePreflight.read_text_sig. solve_steps. Qed.
Lemma same_add_directories state identity : steps (=) (add_directories state identity).
Proof. unfold add_directories, environ_item. solve_steps. Qed.

(** C27. A fixture that was loaded is bound to what is on disk: its manifest is a
    bounded file inside the fixture, with a private identity; the installer, in
    its package directory, and the historical supervisor, in its own, are files
    of the fixture that no link leads out of, with the hashes of the manifest;
    the payload check passed; the application build, when there is one, was
    verified for this package; and the sources carry no operational identity. *)
Theorem load_fixture_sound (path : string) (w : world) (state : json) (w' : world) (Hrun : runs (load_fixture path) w state w') :
  let root := abspath (path_parent path) in
  ∃ bytes text manifest identity files tree,
    w_fs w !! abspath path = Some (File bytes) ∧ len bytes ≤ 256 * 1024 ∧ decode bytes = Ok text ∧
    loads (universal_newlines text) = Ok manifest ∧ text_item "identity" manifest = Ok identity ∧
    require_identity identity = Ok identity ∧
    (∃ installer, bound_file w root manifest "installer" "installerSha256" installer ∧
                  same_path (path_parent installer) (root // "package") = true) ∧
    (∃ legacy, bound_file w root manifest "legacyService" "legacyServiceSha256" legacy ∧
               same_path legacy (root // "legacy/native/Release/plug_update_service.exe") = true) ∧
    (∃ revision, jitem "legacySourceCommit" manifest = Ok (JStr revision) ∧ fullmatch revision_re revision = true) ∧
    jget_or_null "payloadFiles" manifest = Ok files ∧ jget_or_null "payloadTreeSha256" manifest = Ok tree ∧
    runs (verify_payload root files tree) w tt w ∧
    (if has_key "applicationBuild" manifest
     then ∃ reference, jitem "applicationBuild" manifest = Ok reference ∧
            runs (verify_application_package reference identity files) w tt w'
     else w' = w) ∧
    runs (assert_isolated_sources root identity) w' tt w' ∧ runs (add_directories manifest identity) w' state w'.
Proof.
  unfold load_fixture in Hrun. apply runs_bind in Hrun as ([] & w1 & [_ <-]%runs_raise_when & Hr).
  apply runs_bind in Hr as (root & w1 & [-> ->]%runs_fixture_root & Hr).
  apply runs_bind in Hr as (p & w1 & (-> & -> & _ & bytes & _ & _ & Hb)%runs_fixture_artifact & Hr).
  apply runs_bind in Hr as (size & w1 & Hs & Hr). pose proof (runs_same _ _ _ _ (same_file_size _) Hs) as ->.
  assert (size = len bytes) as ->.
  { unfold file_size in Hs. apply runs_bind in Hs as (b & w2 & [_ Hb2]%runs_read_bytes & Hs). apply runs_ret in Hs as [<- _]. by simplify_eq. }
  apply runs_bind in Hr as ([] & w1 & [Hlen%Z.ltb_ge <-]%runs_raise_when & Hr).
  apply runs_bind in Hr as (t0 & w1 & [<- (b2 & text & Hb2 & Ht & ->)]%runs_read_text & Hr). assert (b2 = bytes) as -> by (by simplify_eq).
  apply runs_bind in Hr as (manifest & w1 & [Hl <-]%runs_lift & Hr). apply runs_bind in Hr as (named & w1 & [Hid <-]%runs_lift & Hr).
  apply runs_bind in Hr as (identity & w1 & [Hreq <-]%runs_lift & Hr).
  assert (identity = named) as -> by (unfold require_identity in Hreq; apply res_bind_Ok in Hreq as (_ & _ & [= ->]); done).
  apply runs_bind in Hr as (refused & w1 & [_ <-]%runs_lift & Hr). apply runs_bind in Hr as ([] & w1 & [_ <-]%runs_raise_when & Hr).
  apply runs_bind in Hr as (differ & w1 & [_ <-]%runs_lift & Hr). apply runs_bind in Hr as ([] & w1 & [_ <-]%runs_raise_when & Hr).
  apply runs_bind in Hr as ([] & w1 & (-> & Hinstaller & Hlegacy & Hrev)%runs_check_bindings & Hr).
  apply runs_bind in Hr as (q & w1 & [_ <-]%runs_lift & Hr). apply runs_bind in Hr as ([] & w1 & [_ <-]%runs_raise_when & Hr).
  apply runs_bind in Hr as (files & w1 & [Hfiles <-]%runs_lift & Hr). apply runs_bind in Hr as (tree & w1 & [Htree <-]%runs_lift & Hr).
  apply runs_bind in Hr as ([] & w1 & Hp & Hr). pose proof (runs_same _ _ _ _ (same_verify_payload _ _ _) Hp) as ->.
  apply runs_bind in Hr as ([] & w1 & Hbuild & Hr). apply runs_bind in Hr as ([] & w2 & Hi & Hr).
  pose proof (runs_same _ _ _ _ (same_isolated_sources _ _) Hi) as ->. pose proof (runs_same _ _ _ _ (same_add_directories _ _) Hr) as ->.
  exists bytes, text, manifest, named, files, tree. split_and!; try done.
  destruct (has_key "applicationBuild" manifest); simpl in Hbuild; [|by apply runs_ret in Hbuild as [_ <-]].
  apply runs_bind in Hbuild as (reference & w2 & [Href <-]%runs_lift & Hbuild). by exists reference.
Qed.
End honest.

(** ** At work *)

(** A registry without entries, and a clock that counts the actions. *)
Definition quiet_windows (admin : bool) : WindowsHost := {|
  is_user_admin := λ _, admin; reg_query := λ _ _ path _ _, Raise (FileNotFoundError path);
  reg_key := λ _ path _, Raise (FileNotFoundError path); command_line_argv := λ _, None;
  run_input := λ _ _ w, (Raise (FileNotFoundError "program"), w_fs w); access_denied := λ _ _, true;
  create_file := λ _ _, None; sqlite_execute := λ _ _ w, Ok (w_fs w);
  monotonic := λ w, 200 * Z.of_nat (length (w_log w)); after_pause := w_fs; locale_decode := decode
|}.

Theorem wait_terminates_witness :
  length (w_log (snd (wait_result (H3:=quiet_windows false) 1502 "result.json" 300000 (World ∅ ∅ [])))) = 1501%nat ∧
  fst (wait_result (H3:=quiet_windows false) 1502 "result.json" (monotonic (WindowsHost:=quiet_windows false) (World ∅ ∅ []) + 300000) (World ∅ ∅ [])) ≠ Ok None.
Proof.
  split; [vm_compute; reflexivity|]. apply (wait_terminates (H3:=quiet_windows false)).
  intros w. simpl. rewrite length_app. simpl. lia.
Defined.

Definition fixture_contract : string := "constexpr bool kApplicationContractImplemented = false;".
Definition fixture_inventory : list (string * json) := Eval vm_compute in payload_inventory.
Definition lifecycle_manifest : json :=
  Eval vm_compute in JObj
    [("format", JInt 2); ("productionActivationGate", JBool false); ("root", JStr fixture_dir);
     ("identity", JStr example_identity); ("appName", JStr "Plug Agente Homologacao 0123456789ab");
     ("protocol", JStr "plugagentehomologacao-0123456789ab");
     ("installer", JStr (fixture_dir // "package/setup.exe")); ("installerSha256", JStr (sha256_hex "setup"));
     ("legacyService", JStr (fixture_dir // "legacy/native/Release/plug_update_service.exe"));
     ("legacyServiceSha256", JStr (sha256_hex "old")); ("legacySourceCommit", JStr (concat_all (repeat "0" 40)));
     ("payloadQualification", JStr "bytes_only"); ("payloadFiles", JObj fixture_inventory); ("payloadTreeSha256", payload_hash)].
Definition lifecycle_text : string := Eval vm_compute in default EmptyString (dumps_compact true lifecycle_manifest).

(** The payload of the fixture with its manifest, installer, historical supervisor and sources. *)
Definition lifecycle_world : world :=
  Eval vm_compute in World (list_to_map [(fixture_dir // "fixture.json", File lifecycle_text);
                      (fixture_dir // "package", Dir); (fixture_dir // "package/setup.exe", File "setup");
                      (fixture_dir // "legacy", Dir); (fixture_dir // "legacy/native", Dir); (fixture_dir // "legacy/native/Release", Dir);
                      (fixture_dir // "legacy/native/Release/plug_update_service.exe", File "old");
                      (fixture_dir // "windows/updater/contract.h", File fixture_contract)] ∪ w_fs payload_world)
        {["ProgramFiles" := "C:\Program Files"; "ProgramData" := "C:\ProgramData"]} [].
Definition lifecycle_loaded : res json * world :=
  Eval vm_compute in load_fixture (H:=fixture_host) (H0:=linkless) (H1:=plain_links) (fixture_dir // "fixture.json") lifecycle_world.
Definition lifecycle_state : json := match fst lifecycle_loaded with Ok state => state | Raise _ => JNull end.

Example lifecycle_app : jitem "app" lifecycle_state = Ok (JStr "C:\Program Files\Plug Agente Homologacao 0123456789ab").
Proof. reflexivity. Qed.

Theorem load_fixture_sound_witness :
  jitem "installer" lifecycle_state = Ok (JStr (fixture_dir // "package/setup.exe")) ∧
  let w := lifecycle_world in let w' := snd lifecycle_loaded in
  let root := abspath (H:=fixture_host) (H0:=linkless) (path_parent (fixture_dir // "fixture.json")) in
  ∃ bytes text manifest identity files tree,
    w_fs w !! abspath (H:=fixture_host) (H0:=linkless) (fixture_dir // "fixture.json") = Some (File bytes) ∧ len bytes ≤ 256 * 1024 ∧
    decode bytes = Ok text ∧ loads (universal_newlines text) = Ok manifest ∧ text_item "identity" manifest = Ok identity ∧
    require_identity identity = Ok identity ∧
    (∃ installer, bound_file (H:=fixture_host) (H0:=linkless) w root manifest "installer" "installerSha256" installer ∧
                  same_path (H:=fixture_host) (path_parent installer) (root // "package") = true) ∧
    (∃ legacy, bound_file (H:=fixture_host) (H0:=linkless) w root manifest "legacyService" "legacyServiceSha256" legacy ∧
               same_path (H:=fixture_host) legacy (root // "legacy/native/Release/plug_update_service.exe") = true) ∧
    (∃ revision, jitem "legacySourceCommit" manifest = Ok (JStr revision) ∧ fullmatch revision_re revision = true) ∧
    jget_or_null "payloadFiles" manifest = Ok files ∧ jget_or_null "payloadTreeSha256" manifest = Ok tree ∧
    runs (verify_payload (H:=fixture_host) (H0:=linkless) root files tree) w tt w ∧
    (if has_key "applicationBuild" manifest
     then ∃ reference, jitem "applicationBuild" manifest = Ok reference ∧
            runs (verify_application_package (H:=fixture_host) (H0:=linkless) (H1:=plain_links) reference identity files) w tt w'
     else w' = w) ∧
    runs (assert_isolated_sources root identity) w' tt w' ∧
    runs (add_directories (H:=fixture_host) manifest identity) w' lifecycle_state w'.
Proof.
  split; [reflexivity|].
  apply (load_fixture_sound (H:=fixture_host) (H0:=linkless) (H1:=plain_links) (fixture_dir // "fixture.json") lifecycle_world).
  run_vm.
Defined.
