(* ===== verification/InstallationValidation.v ===== *)
(** * Validating installers on a disposable machine
      (tool/updater/validate_windows_installation.py)

    A clean machine gets the installer, then the upgrade, then an optional
    repair of it, and loses everything again. The record of what has passed is
    written in the end, also when an exception ends the validation. *)

From S2P Require Import Prelude PyStr PyRe PyHash PyJson Effects TextFiles ScriptUtils WindowsFixture Crypto LifecyclePayload.
From S2P Require Import LifecycleHandoff Commands ApplicationSource IsolatedRuntime ApplicationBuild WindowsHost LifecycleDriver IniFile PinnedNative.
From S2P Require ReleasePreflight SignpathStaging.

Local Open Scope Z_scope.

(** src: tool/updater/validate_windows_installation.py:15-15 OS_BUILDS *)
Definition OS_BUILDS : list (string * Z) :=
  [("server2016", 14393); ("server2019", 17763); ("server2022", 20348); ("server2025", 26100)].

(** src: tool/updater/validate_windows_installation.py:18-25 matches_os *)
Definition matches_os (expected : string) (build : Z) (server : bool) : bool :=
  match assoc expected OS_BUILDS with
  | Some b => server && (build =? b)
  | None =>
      if expected == "windows10" then negb server && (10240 <=? build) && (build <? 22000)
      else if expected == "windows11" then negb server && (22000 <=? build)
      else false
  end.

(** src: tool/updater/validate_windows_installation.py:37-37 read_installed_version *)
Definition version_re : regex :=
  seqs [plus digit; lit "."; plus digit; lit "."; plus digit; lit "+"; plus digit].

(** src: tool/updater/validate_windows_installation.py:37-39 read_installed_version *)
Definition version_of (version : string) : res (list Z) :=
  _ ← raise_if (negb (fullmatch version_re version))
        (RuntimeError "Lifecycle validation requires installers with installation-check and repair metadata");
  res_map int_of (re_split (anyc ".+") version).

(** The text of a registry value. *)
Definition reg_text (v : reg_data) : res string :=
  match v with RegValue (JStr s) => Ok s | _ => Raise (TypeError "expected a registry text") end.

(** src: tool/updater/validate_windows_installation.py:64-66 assert_clean_machine
    What a clean machine has no key of. *)
Definition product_keys : list string :=
  ["SOFTWARE\Microsoft\Windows\CurrentVersion\Uninstall\" +:+ APP_GUID +:+ "_is1";
   "SYSTEM\CurrentControlSet\Services\PlugAgenteUpdater"; "SOFTWARE\Classes\plugdb"].

(** src: tool/updater/validate_windows_installation.py:170-176 main
    What the command was asked for. *)
Record args : Type := Args {
  a_installer : string; a_upgrade : string; a_expected_os : string; a_evidence : string; a_allow : bool }.

(** src: tool/updater/validate_windows_installation.py:116-116 validate *)
Definition RETAINED_TEXT : string := "user data retained across upgrade and uninstall".

(** The places of a validation: its directory, the evidence and the data of the user. *)
Record places : Type := Places { pl_app : string; pl_evidence : string; pl_retained : string }.

Section validation.
Context `{Host} `{Filesystem} `{Symlinks} `{WindowsHost} `{SignpathStaging.RealPath}.

(** src: tool/updater/validate_windows_installation.py:34-35 read_installed_version
    [ConfigParser().read(path, encoding="utf-8-sig")]: a file that cannot be opened is left out. *)
Definition read_ini (path : string) : M ini :=
  try_catch (text ← ReleasePreflight.read_text_sig path; lift (parse_ini text)) is_OSError (λ _, mret (Ini [] [])).

(** src: tool/updater/validate_windows_installation.py:33-39 read_installed_version *)
Definition read_installed_version (app : string) : M (list Z) :=
  metadata ← read_ini (app // "install-mode.ini");
  version ← lift (ini_get metadata "installation" "workerVersion" EmptyString);
  lift (version_of version).

(** src: tool/updater/validate_windows_installation.py:42-47 run *)
Definition run (command : list string) (log : string) (accepted : list Z) : M unit :=
  _ ← run_accepted command (Some log) None accepted
        (λ r, RuntimeError (path_name (hd EmptyString command) +:+ " failed with exit code " +:+ py_str_int (returncode r) +:+
                            "; see " +:+ path_str log));
  mret tt.

(** src: tool/updater/validate_windows_installation.py:55-58 assert_clean_machine
    A value below the key of the Windows version. *)
Definition version_value (name : string) : M string :=
  w ← get_world;
  r ← lift (reg_query false HKEY_LOCAL_MACHINE "SOFTWARE\Microsoft\Windows NT\CurrentVersion" name w);
  lift (reg_text (fst r)).

(** src: tool/updater/validate_windows_installation.py:67-72 assert_clean_machine *)
Definition refuse_key (name : string) (h : hive) : M unit :=
  w ← get_world;
  there ← try_catch (_ ← lift (reg_key h name w); mret true) is_missing (λ _, mret false);
  raise_when there (RuntimeError ("Existing Plug Agente state: " +:+ name +:+ "; use a clean VM")).

(** src: tool/updater/validate_windows_installation.py:73-78 assert_clean_machine *)
Definition refuse_data : M unit :=
  data ← environ_item "ProgramData";
  programs ← environ_item "ProgramFiles";
  for_M (λ path, there ← path_exists path;
                 raise_when there (RuntimeError ("Existing application data: " +:+ path_str path +:+ "; use a clean VM")))
    [path_of data // "PlugAgente"; path_of data // "PlugAgenteUpdater"; path_of programs // "PlugAgenteUpdater"; path_of programs // "Plug Agente"].

(** src: tool/updater/validate_windows_installation.py:50-79 assert_clean_machine
    A registry value that is no text is refused, where the code would fail later. *)
Definition assert_clean_machine (expected : string) : M json :=
  w ← get_world;
  _ ← raise_when (negb (is_user_admin w)) (RuntimeError "Run validation as administrator on a disposable test machine");
  number ← version_value "CurrentBuildNumber";
  build ← lift (int_of number);
  product ← version_value "ProductName";
  kind ← version_value "InstallationType";
  _ ← raise_when (negb (matches_os expected build (kind != "Client")))
        (RuntimeError ("Expected " +:+ expected +:+ ", found " +:+ product +:+ " build " +:+ py_str_int build));
  _ ← raise_when (kind == "Server Core") (RuntimeError "The Flutter desktop application requires Windows with Desktop Experience");
  _ ← for_M (λ name, for_M (refuse_key name) [HKEY_LOCAL_MACHINE; HKEY_CURRENT_USER]) product_keys;
  _ ← refuse_data;
  mret (JObj [("product", JStr product); ("build", JInt build); ("installationType", JStr kind)]).

(** src: tool/updater/validate_windows_installation.py:105-106 validate *)
Definition common_options (p : places) : list string :=
  ["/VERYSILENT"; "/SUPPRESSMSGBOXES"; "/NORESTART"; "/NOCLOSEAPPLICATIONS"; "/DIR=" +:+ path_str (pl_app p); "/AUTOUPDATE=0";
   "/MERGETASKS=!startup,!desktopicon,!autoupdate"].
Definition log_option (p : places) (name : string) : string := "/LOG=" +:+ path_str (pl_evidence p // name).
Definition executable (p : places) : string := pl_app p // "plug_agente.exe".
Definition phase_passed (name : string) : P unit := push "phases" (JStr name).

(** src: tool/updater/validate_windows_installation.py:110-113 validate
    An installer runs, and what it says of itself afterwards. *)
Definition install (p : places) (name installer : string) : P (list Z) :=
  w ← act get_world;
  _ ← act (run (path_str (SignpathStaging.real_path installer w) :: common_options p ++ [log_option p (name +:+ ".log")])
             (pl_evidence p // (name +:+ "-output.log")) [0]);
  _ ← phase_passed name;
  act (read_installed_version (pl_app p)).

(** src: tool/updater/validate_windows_installation.py:121-124 validate
    The version is recorded, and the installation checks itself. *)
Definition check_installed (p : places) (name : string) (version : list Z) : P unit :=
  _ ← put (name +:+ "Version") (JArr (JInt <$> version));
  let check := path_str (pl_app p // "plug_install_check.exe") in
  _ ← act (run [check; "--core"] (pl_evidence p // (name +:+ "-core.log")) [0]);
  act (run [check; "--odbc"] (pl_evidence p // (name +:+ "-odbc.log")) [0; 2]).

(** src: tool/updater/validate_windows_installation.py:126-136 validate *)
Definition optional_repair (p : places) (installer : string) : P unit :=
  _ ← act (before ← sha256 (executable p);
           _ ← lock_core_against_replacement (executable p);
           w ← get_world;
           _ ← run (path_str (SignpathStaging.real_path installer w) :: common_options p ++ ["/REPAIR=optional"; log_option p "repair.log"])
                 (pl_evidence p // "repair-output.log") [0];
           after ← sha256 (executable p);
           raise_when (after != before) (RuntimeError "Optional repair changed the application executable"));
  phase_passed "optional_repair".

(** src: tool/updater/validate_windows_installation.py:117-120 validate
    The upgrade is newer, and the data of the user is still there. *)
Definition check_upgrade (p : places) (initial version : list Z) : M unit :=
  _ ← raise_when (negb (tuple_lt initial version)) (RuntimeError "The upgrade must install a newer version or build");
  text ← read_text (pl_retained p);
  raise_when (text != RETAINED_TEXT) (RuntimeError "The upgrade did not preserve existing user data").

(** src: tool/updater/validate_windows_installation.py:109-136 validate
    The two phases, one after the other. *)
Definition installation_checks (a : args) (p : places) : P unit :=
  initial ← install p "installation" (a_installer a);
  _ ← act (write_text (pl_retained p) RETAINED_TEXT);
  _ ← check_installed p "installation" initial;
  version ← install p "upgrade" (a_upgrade a);
  _ ← act (check_upgrade p initial version);
  _ ← check_installed p "upgrade" version;
  optional_repair p (a_upgrade a).

(** src: tool/updater/validate_windows_installation.py:143-143 validate *)
Definition is_warning (name : string) : bool :=
  startswith (path_key name) "installation-warnings-" && endswith (path_key name) ".log".
(** src: tool/updater/validate_windows_installation.py:143-144 validate *)
Definition keep_warnings (p : places) : M unit :=
  w ← get_world;
  for_M (λ report, content ← read_bytes report; write_bytes (pl_evidence p // path_name report) content)
    (List.filter (λ path, is_warning (path_name path)) (iterdir (pl_app p) w)).

(** ["name" in result\["phases"\]] *)
Definition has_passed (name : string) (s : record) : bool :=
  match assoc "phases" s with Some (JArr l) => existsb (jeq (JStr name)) l | _ => false end.

(** [result\["status"\] == "passed"] *)
Definition is_passed (s : record) : bool := match assoc "status" s with Some v => jeq v (JStr "passed") | None => false end.

(** src: tool/updater/validate_windows_installation.py:149-154 validate
    What an uninstaller has to leave behind and has to remove. *)
Definition check_removed (p : places) (upgraded : bool) : M unit :=
  there ← path_exists (executable p);
  _ ← raise_when there (RuntimeError "Uninstall left the application executable behind");
  kept ← path_exists (pl_retained p);
  changed ← (if kept : bool then text ← read_text (pl_retained p); mret (text != RETAINED_TEXT) else mret false);
  _ ← raise_when changed (RuntimeError "Uninstall modified retained user data");
  kept ← (if upgraded then path_exists (pl_retained p) else mret true);
  raise_when (negb kept) (RuntimeError "Uninstall removed retained user data").

(** src: tool/updater/validate_windows_installation.py:143-157 validate
    Everything is removed again. *)
Definition clean_up (p : places) : P unit :=
  _ ← act (keep_warnings p);
  let uninstaller := pl_app p // "unins000.exe" in
  there ← act (path_exists uninstaller);
  s ← the_record;
  _ ← (if there : bool then
         _ ← act (run [path_str uninstaller; "/VERYSILENT"; "/SUPPRESSMSGBOXES"; "/NORESTART"; log_option p "uninstall.log"]
                    (pl_evidence p // "uninstall-output.log") [0]);
         _ ← act (check_removed p (has_passed "upgrade" s));
         phase_passed "uninstall"
       else mret tt);
  s ← the_record;
  if is_passed s && negb (has_passed "uninstall" s)
  then raise_P (RuntimeError "Uninstall was not validated") else mret tt.

(** src: tool/updater/validate_windows_installation.py:159-161 validate *)
Definition cleanup_failed (e : exn) : P unit :=
  _ ← put "status" (JStr "failed"); _ ← put "cleanupError" (JStr (exn_str e)); raise_P e.

(** src: tool/updater/validate_windows_installation.py:163-163 validate *)
Definition write_result (p : places) : P unit :=
  s ← the_record; act (text ← lift (record_text s); write_text (pl_evidence p // "result.json") text).

(** src: tool/updater/validate_windows_installation.py:108-163 validate *)
Definition validation (a : args) (p : places) : P unit :=
  finally (except (_ ← installation_checks a p; put "status" (JStr "passed")) record_error)
          (finally (except (clean_up p) cleanup_failed) (write_result p)).

(** src: tool/updater/validate_windows_installation.py:165-166 validate
    The directory is removed when nothing is left in it. *)
Definition remove_empty (root : string) : M unit := λ w,
  match w_fs w !! root with
  | Some Dir => match iterdir root w with
                | [] => (Ok tt, World (delete root (w_fs w)) (w_env w) (w_log w ++ [EvUnlink root]))
                | _ => (Ok tt, w)
                end
  | Some (File _) => (Raise (OSError root), w)
  | None => (Ok tt, w)
  end.

(** src: tool/updater/validate_windows_installation.py:94-102 validate
    Before the first installer runs: the places and the record. *)
Definition start (a : args) : M (string * string * record) :=
  _ ← raise_when (negb host_nt || negb (a_allow a)) (RuntimeError "Use --allow-machine-changes only on a disposable Windows VM");
  identity ← assert_clean_machine (a_expected_os a);
  w ← get_world;
  let evidence := SignpathStaging.real_path (a_evidence a) w in
  _ ← mkdir evidence;
  installer ← sha256 (a_installer a);
  upgrade ← sha256 (a_upgrade a);
  w ← get_world;
  let root := host_tmp w in
  _ ← mkdir root;
  mret (root, evidence,
        [("os", identity); ("status", JStr "failed"); ("phases", JArr []); ("installerSha256", JStr installer);
         ("upgradeSha256", JStr upgrade); ("testDirectory", JStr (path_str root))]).

(** src: tool/updater/validate_windows_installation.py:93-166 validate *)
Definition validate (a : args) : M unit :=
  '(root, evidence, s) ← start a;
  try_finally
    (data ← environ_item "ProgramData";
     phase s (validation a (Places (root // "application") evidence
                              (path_of data // "PlugAgente" // "installation-validation-data.txt"))))
    (remove_empty root).

(** src: tool/updater/validate_windows_installation.py:169-180 main
    The errors that become a message. *)
Definition main (a : args) : M unit :=
  try_catch (validate a) (λ e, is_OSError e || is_RuntimeError e || is_SubprocessError e)
    (λ e, raise (SystemExit (ExitMsg (exn_str e)))).
End validation.

(** ** An honest record *)

Definition PHASES : list string := ["installation"; "upgrade"; "optional_repair"; "uninstall"].

Section honest.
Context `{Host} `{Filesystem} `{Symlinks} `{WindowsHost} `{SignpathStaging.RealPath}.

Abbreviation stays_failed := (keeps_value "status" (JStr "failed")).

Lemma passes_phase_passed name s w s' w' l : assoc "phases" s = Some (JArr l) → passes (phase_passed name) s w tt s' w' →
  s' = assoc_set "phases" (JArr (l ++ [JStr name])) s ∧ w' = w.
Proof. unfold phase_passed. intros Hl (l' & Hl' & -> & ->)%passes_push. by simplify_eq. Qed.

Lemma passes_install p name installer s w version s' w' l : assoc "phases" s = Some (JArr l) →
  passes (install p name installer) s w version s' w' →
  s' = assoc_set "phases" (JArr (l ++ [JStr name])) s ∧ runs (read_installed_version (pl_app p)) w' version w'.
Proof.
  unfold install. intros Hl Hp. apply passes_bind in Hp as (w0 & s1 & w1 & [-> Hw]%passes_act & Hp). injection Hw as -> ->.
  apply passes_bind in Hp as ([] & s1 & w2 & [-> _]%passes_act & Hp).
  apply passes_bind in Hp as ([] & s2 & w3 & [-> ->]%(passes_phase_passed _ _ _ _ _ _ Hl) & [-> Hr]%passes_act). split; [done|].
  assert (w' = w2) as ->; [|done]. eapply runs_same; [|exact Hr].
  unfold read_installed_version, read_ini, ReleasePreflight.read_text_sig. solve_steps.
Qed.

Lemma passes_check_installed p name version s w s' w' : passes (check_installed p name version) s w tt s' w' →
  s' = assoc_set (name +:+ "Version") (JArr (JInt <$> version)) s.
Proof. unfold check_installed. intros Hp. inv_passes. done. Qed.

(** The executable is the same before and after the repair. *)
Definition repaired (p : places) (w' : world) : Prop :=
  ∃ w0 digest, runs (sha256 (executable p)) w0 digest w0 ∧ later w0 w' ∧ runs (sha256 (executable p)) w' digest w'.

Lemma passes_repair p installer s w s' w' l : assoc "phases" s = Some (JArr l) →
  passes (optional_repair p installer) s w tt s' w' →
  s' = assoc_set "phases" (JArr (l ++ [JStr "optional_repair"])) s ∧ repaired p w'.
Proof.
  unfold optional_repair. intros Hl Hp. apply passes_bind in Hp as ([] & s1 & w1 & [-> Hr]%passes_act & Hp).
  apply (passes_phase_passed _ _ _ _ _ _ Hl) in Hp as [-> ->]. split; [done|].
  assert (Hsha : steps (=) (sha256 (executable p))) by (unfold sha256; solve_steps).
  apply runs_bind in Hr as (before & w2 & Hb & Hr). pose proof (runs_same _ _ _ _ Hsha Hb) as ->.
  apply runs_bind in Hr as (u & w2 & Hu & Hr). assert (w2 = w) as ->.
  { eapply runs_same; [|exact Hu]. unfold lock_core_against_replacement. solve_steps. }
  apply runs_bind in Hr as (v & w2 & Hv & Hr). injection Hv as <- <-.
  apply runs_bind in Hr as ([] & w2 & Hrun & Hr). apply runs_bind in Hr as (after & w3 & Ha & [Heq <-]%runs_raise_when).
  pose proof (runs_same _ _ _ _ Hsha Ha) as ->. apply negb_false_iff, String.eqb_eq in Heq as ->. exists w, before. split; [done|]. split; [|done].
  eapply later_runs; [|exact Hrun]. unfold run. solve_steps.
Qed.

Lemma runs_check_upgrade p initial version w w' : runs (check_upgrade p initial version) w tt w' → tuple_lt initial version = true.
Proof. unfold check_upgrade. by intros ([] & w1 & [?%negb_false_iff _]%runs_raise_when & _)%runs_bind. Qed.

(** What the record says once the three phases of the installers have passed. *)
Definition installed_record (s : record) (l : list json) : Prop :=
  assoc "phases" s = Some (JArr (l ++ (JStr <$> ["installation"; "upgrade"; "optional_repair"]))) ∧
  ∃ v1 v2, assoc "installationVersion" s = Some (JArr (JInt <$> v1)) ∧ assoc "upgradeVersion" s = Some (JArr (JInt <$> v2)) ∧
    tuple_lt v1 v2 = true.

Lemma passes_installation_checks a p s w s' w' l : assoc "phases" s = Some (JArr l) →
  passes (installation_checks a p) s w tt s' w' → installed_record s' l ∧ repaired p w'.
Proof.
  unfold installation_checks. intros Hl Hp.
  apply passes_bind in Hp as (v1 & s1 & w1 & [-> _]%(passes_install _ _ _ _ _ _ _ _ _ Hl) & Hp).
  apply passes_bind in Hp as ([] & s2 & w2 & [-> _]%passes_act & Hp).
  apply passes_bind in Hp as ([] & s2 & w3 & ->%passes_check_installed & Hp).
  apply passes_bind in Hp as (v2 & s3 & w4 & Hi & Hp).
  eapply passes_install in Hi; [|by rewrite assoc_set_other, assoc_set_same]. destruct Hi as [-> _].
  apply passes_bind in Hp as ([] & s4 & w5 & [-> Hnew%runs_check_upgrade]%passes_act & Hp).
  apply passes_bind in Hp as ([] & s4 & w6 & ->%passes_check_installed & Hp).
  eapply passes_repair in Hp; [|by rewrite assoc_set_other, assoc_set_same]. destruct Hp as [-> Hrep]. split; [|done].
  split; [rewrite assoc_set_same; by rewrite <- !app_assoc|]. exists v1, v2.
  rewrite !(assoc_set_other "installationVersion"), assoc_set_same by done.
  rewrite (assoc_set_other "upgradeVersion"), assoc_set_same by done. done.
Qed.

(** *** Removing everything again *)

(** At the end of the clean-up the application is gone and the data of the user
    is what it was. *)
Definition removed (p : places) (w : world) : Prop :=
  w_fs w !! executable p = None ∧ runs (read_text (pl_retained p)) w RETAINED_TEXT w.

Lemma runs_check_removed p w w' : runs (check_removed p true) w tt w' → w' = w ∧ removed p w.
Proof.
  unfold check_removed. intros Hr. apply runs_bind in Hr as (there & w1 & Ht & Hr). injection Ht as <- <-.
  apply runs_bind in Hr as ([] & w1 & [Hno <-]%runs_raise_when & Hr). apply runs_bind in Hr as (kept & w1 & Hk & Hr).
  injection Hk as <- <-. apply runs_bind in Hr as (changed & w1 & Hc & Hr).
  assert (w1 = w) as ->. { eapply runs_same; [|exact Hc]. solve_steps. }
  apply runs_bind in Hr as ([] & w2 & [-> <-]%runs_raise_when & Hr). apply runs_bind in Hr as (kept & w2 & Hk & Hr).
  injection Hk as <- <-. apply runs_raise_when in Hr as [Hkept%negb_false_iff <-]. rewrite Hkept in Hc.
  apply runs_bind in Hc as (text & w2 & Ht & [Heq ->]%runs_ret). apply negb_false_iff, String.eqb_eq in Heq as ->.
  split; [done|]. split; [|done]. apply bool_decide_eq_false in Hno. by destruct (w_fs w !! executable p); [destruct Hno; eexists|].
Qed.

Lemma passes_clean_up p s w s' w' l : assoc "phases" s = Some (JArr (l ++ (JStr <$> ["installation"; "upgrade"; "optional_repair"]))) →
  is_passed s = true → has_passed "uninstall" s = false → passes (clean_up p) s w tt s' w' →
  s' = assoc_set "phases" (JArr (l ++ (JStr <$> PHASES))) s ∧ removed p w'.
Proof.
  unfold clean_up. intros Hl Hst Hun Hp. apply passes_bind in Hp as ([] & s1 & w1 & [-> _]%passes_act & Hp).
  apply passes_bind in Hp as (there & s1 & w2 & [-> Hthere]%passes_act & Hp).
  apply passes_bind in Hp as (s1 & s2 & w3 & (-> & -> & ->)%passes_record & Hp).
  apply passes_bind in Hp as ([] & s2 & w4 & Hrun & Hp).
  apply passes_bind in Hp as (s3 & s4 & w5 & (-> & -> & ->)%passes_record & Hp). destruct there.
  - apply passes_bind in Hrun as ([] & s3 & w3 & [-> _]%passes_act & Hrun).
    apply passes_bind in Hrun as ([] & s3 & w5 & [-> Hc]%passes_act & Hrun).
    assert (has_passed "upgrade" s = true) as Hup.
    { unfold has_passed. rewrite Hl, existsb_app. apply orb_true_iff. by right. }
    rewrite Hup in Hc. apply runs_check_removed in Hc as [-> Hrem].
    apply (passes_phase_passed _ _ _ _ _ _ Hl) in Hrun as [-> ->]. case_match; [by inv_passes|].
    apply passes_ret in Hp as (_ & <- & <-). split; [|done]. by rewrite <- app_assoc.
  - apply passes_ret in Hrun as (_ & <- & <-). rewrite Hst, Hun in Hp. by inv_passes.
Qed.

(** *** The record stays failed until everything has passed *)

Lemma failed_clean_up p : records stays_failed (clean_up p).
Proof. unfold clean_up, phase_passed. solve_records. Qed.
Lemma failed_installation_checks a p : records stays_failed (installation_checks a p).
Proof. unfold installation_checks, install, check_installed, optional_repair, phase_passed. solve_records. Qed.

Lemma failed_guarded_clean_up p : records stays_failed (except (clean_up p) cleanup_failed).
Proof. pose proof (failed_clean_up p). unfold cleanup_failed. solve_records. Qed.
Lemma clean_up_closed p : fails_closed (except (clean_up p) cleanup_failed).
Proof.
  intros s w e s' w' Hr Hexn. apply except_raised in Hr as (e1 & s1 & w1 & _ & Hr); [|done].
  injection Hr as _ <- _. by rewrite assoc_set_other, assoc_set_same.
Qed.
Lemma closing_result p : closing (write_result p) (finally (except (clean_up p) cleanup_failed) (write_result p)).
Proof. apply closing_finally; [apply failed_guarded_clean_up|apply clean_up_closed|apply closing_last]. Qed.

(** [result.json] holds the record. *)
Definition published (p : places) (s : record) (w : world) : Prop :=
  ∃ text, record_text s = Ok text ∧ w_fs w !! (pl_evidence p // "result.json") = Some (File (text_bytes text)).

Lemma write_result_outcome p s w r s' w' : write_result p s w = ((r, s'), w') →
  s' = s ∧ (r = Ok tt → published p s w').
Proof.
  unfold write_result. intros [-> Hr]%(record_act (λ s, text ← lift (record_text s); write_text (pl_evidence p // "result.json") text)).
  split; [done|]. intros ->. apply runs_bind in Hr as (text & w1 & [Ht <-]%runs_lift & Hw). exists text. split; [done|].
  apply runs_write_text_bytes in Hw as [-> _]. by rewrite lookup_insert_eq.
Qed.

(** What a record that passed says. *)
Definition passed_record (s : record) : Prop :=
  assoc "status" s = Some (JStr "passed") ∧ assoc "phases" s = Some (JArr (JStr <$> PHASES)) ∧
  ∃ v1 v2, assoc "installationVersion" s = Some (JArr (JInt <$> v1)) ∧ assoc "upgradeVersion" s = Some (JArr (JInt <$> v2)) ∧
    tuple_lt v1 v2 = true.

Lemma installation_outcome a p s w r s' w' : assoc "status" s = Some (JStr "failed") → assoc "phases" s = Some (JArr []) →
  validation a p s w = ((r, s'), w') →
  match r with
  | Ok _ => passed_record s' ∧ published p s' w' ∧ ∃ s1 w1 w2, passes (installation_checks a p) s w tt s1 w1 ∧ repaired p w1 ∧
      passes (clean_up p) (assoc_set "status" (JStr "passed") s1) w1 tt s' w2 ∧ removed p w2 ∧ passes (write_result p) s' w2 tt s' w'
  | Raise e => is_Exception e = true → published p s' w' ∧ is_failed s' ∨ ∃ w1 e', write_result p s' w1 = ((Raise e', s'), w')
  end.
Proof.
  intros Hs Hph Hv. pose proof (guarded_outcome _ _ _ _ _ _ _ _ (failed_installation_checks a p) (closing_result p) Hs Hv) as Ho.
  destruct r as [[]|e].
  - destruct Ho as (s1 & w1 & Hchecks & Ho). pose proof (passes_installation_checks _ _ _ _ _ _ [] Hph Hchecks) as [(Hphases & v1 & v2 & Hv1 & Hv2 & Hlt) Hrep].
    apply passes_finally in Ho as (s2 & w2 & Hc & Hw).
    apply passes_except in Hc as [Hc|(e & s3 & w3 & _ & _ & Hc)]; [|unfold cleanup_failed in Hc; by inv_passes].
    pose proof Hc as Hc'. apply (passes_clean_up _ _ _ _ _ []) in Hc' as [-> Hrem]; [|by rewrite assoc_set_other| |].
    + pose proof Hw as Hw'. apply write_result_outcome in Hw as [-> Hpub]. split; [|split; [by apply Hpub|by exists s1, w1, w2]].
      unfold passed_record. rewrite assoc_set_same.
      rewrite !(assoc_set_other _ "phases"), assoc_set_same, !(assoc_set_other _ "status") by done.
      split_and!; [done|done|]. by exists v1, v2.
    + unfold is_passed. by rewrite assoc_set_same.
    + unfold has_passed. rewrite assoc_set_other by done. by rewrite Hphases.
  - intros Hexn. destruct (Ho Hexn) as (s1 & w1 & rl & Hl & Hf). pose proof Hl as Hl'.
    apply write_result_outcome in Hl as [-> Hpub]. destruct rl as [[]|el].
    + left. split; [by apply Hpub|]. by destruct Hf as [?|[? ?]].
    + right. by exists w1, el.
Qed.

Lemma remove_empty_keeps root w r w' path b : remove_empty root w = (r, w') → w_fs w !! path = Some (File b) →
  w_fs w' !! path = Some (File b).
Proof.
  unfold remove_empty. intros Hr Hp. destruct (w_fs w !! root) as [[c|]|] eqn:E; simplify_eq; try done.
  destruct (iterdir root w); simplify_eq; [|done]. cbn. rewrite lookup_delete_ne; [done|]. intros ->. by rewrite E in Hp.
Qed.
Lemma remove_empty_published root w r w' p s : remove_empty root w = (r, w') → published p s w → published p s w'.
Proof. intros Hr (text & Ht & Hf). exists text. split; [done|]. by eapply remove_empty_keeps. Qed.

Lemma start_record a w root evidence s w' : runs (start a) w (root, evidence, s) w' →
  assoc "status" s = Some (JStr "failed") ∧ assoc "phases" s = Some (JArr []).
Proof.
  unfold start. intros Hr. do 3 apply runs_bind in Hr as (? & ? & _ & Hr). cbv zeta in Hr.
  do 5 apply runs_bind in Hr as (? & ? & _ & Hr). cbv zeta in Hr. apply runs_ret in Hr as [[= _ _ <-] _]. done.
Qed.

End honest.

(** ** A validation that passes *)

Example os_bounds :
  matches_os "windows10" 19045 false = true ∧ matches_os "windows10" 22000 false = false ∧ matches_os "windows11" 22000 false = true ∧
  matches_os "server2019" 17763 true = true ∧ matches_os "server2019" 17763 false = false ∧ matches_os "windows7" 7601 false = false.
Proof. by vm_compute. Qed.

(** A host on which the installers write, and the uninstaller removes, their files. *)
Definition disposable_run (argv : list string) (_ : string) (w : world) : res proc * gmap string node :=
  let app name := "C:/tmp/v/application/" +:+ name in
  let install version :=
    <[app "install-mode.ini" := File ("[installation]" +:+ nl +:+ "workerVersion=" +:+ version +:+ nl)]>
      (<[app "plug_agente.exe" := File "agent"]> (<[app "unins000.exe" := File "unins"]> (w_fs w))) in
  (Ok (Proc 0 EmptyString EmptyString),
   match argv with
   | "old.exe" :: _ => install "1.8.6+1"
   | "new.exe" :: _ => install "1.8.7+1"
   | "C:\tmp\v\application\unins000.exe" :: _ => delete (app "plug_agente.exe") (delete (app "unins000.exe") (w_fs w))
   | _ => w_fs w
   end).
Definition disposable_host : Host := {|
  host_nt := true; host_run := disposable_run; host_which := λ _ _, None; host_fetch := λ _ _, Raise (OSError "offline");
  host_now := λ _, 0; host_utcoffset := 0; host_exn_str := λ _, "error"; host_repr := λ _, "value";
  host_tmp := λ _, "C:/tmp/v"; host_isatty := false; host_root := "C:/plug_agente" |}.
Definition windows_10 : WindowsHost := {|
  is_user_admin := λ _, true;
  reg_query := λ _ _ _ name _,
    Ok (RegValue (JStr (if name == "CurrentBuildNumber" then "19045" else if name == "ProductName" then "Windows 10 Pro" else "Client")), 1);
  reg_key := λ _ path _, Raise (FileNotFoundError path);
  command_line_argv := λ _, None; run_input := λ _ _ w, (Raise (OSError "no pipe"), w_fs w);
  access_denied := λ _ _, false; create_file := λ _ _, Some 4; sqlite_execute := λ _ _ w, Ok (w_fs w);
  monotonic := λ _, 0; after_pause := w_fs; locale_decode := Ok |}.
Definition disposable_world : world :=
  World {["old.exe" := File "1"; "new.exe" := File "2"]} {["ProgramData" := "C:\ProgramData"; "ProgramFiles" := "C:\Program Files"]} [].
Definition disposable_validation (os : string) : res unit * world :=
  validate (H:=disposable_host) (H0:=linkless) (H2:=windows_10) (H3:=same_paths)
    (Args "old.exe" "new.exe" os "C:/evidence" true) disposable_world.
Example validation_passes : fst (disposable_validation "windows10") = Ok tt ∧
  fst (disposable_validation "windows11") = Raise (RuntimeError "Expected windows11, found Windows 10 Pro build 19045").
Proof. by vm_compute. Qed.
