(* ===== verification/ExistingInstallation.v ===== *)
(** * Repairing an existing installation
      (tool/updater/validate_existing_windows_installation.py)

    The preparation copies the installation of a live host and records what it
    found; the repair runs the installer over it and proves that nothing the
    record names was touched. The snapshots of the registry and the search of a
    log for commands that mutate the updater are in WindowsHost.v, the
    protection of a backup is in IsolatedRuntime.v. *)

From S2P Require Import Prelude PyStr PyRe PyHash PyJson PyNum Effects TextFiles ScriptUtils WindowsFixture Crypto LifecyclePayload.
From S2P Require Import LifecycleHandoff Commands ApplicationSource IsolatedRuntime ApplicationBuild ApplicationBuilder WindowsHost LifecycleDriver PinnedNative.
From S2P Require ReleasePreflight SignpathStaging InstallationValidation.
Import InstallationValidation (read_installed_version, reg_text, phase_passed, passes_phase_passed).

Local Open Scope Z_scope.

(** Reading SQLite: the names of the tables in order, the rows of a table, and
    the bytes of a consistent copy. *)
Class Database : Type := {
  table_names : string → world → res (list string);
  table_rows : string → string → world → res (list (list reg_data));
  database_copy : string → world → res string
}.

(** [json.dumps(v, separators=(",", ":"))] *)
Fixpoint dump_dense (v : json) : string :=
  match v with
  | JNull => "null"
  | JBool b => if b then "true" else "false"
  | JInt z => py_str_int z
  | JFloat f => json_float f
  | JStr s => dump_str true s
  | JArr l => "[" +:+ join "," (dump_dense <$> l) +:+ "]"
  | JObj l => "{" +:+ join "," ((λ kv, dump_str true (fst kv) +:+ ":" +:+ dump_dense (snd kv)) <$> l) +:+ "}"
  end.

(** src: tool/updater/validate_existing_windows_installation.py:50-50 configured_profile_digest
    A cell as JSON: bytes by their hexadecimal digits. *)
Definition cell (v : reg_data) : json :=
  match v with RegBytes b => JObj [("bytes", JStr (hex_bytes b))] | RegValue v => v end.

(** src: tool/updater/validate_existing_windows_installation.py:49-50 configured_profile_digest
    What stands for the rows of a table: their number and a digest. *)
Definition sorted_texts (l : list string) : list string := (sort_keys ((λ t, (t, t)) <$> l)).*2.
(** src: tool/updater/validate_existing_windows_installation.py:50-51 configured_profile_digest *)
Definition rows_digest (rows : list (list reg_data)) : json :=
  let canonical := sorted_texts ((λ row, dump_dense (JArr (cell <$> row))) <$> rows) in
  JObj [("rows", JInt (Z.of_nat (length rows))); ("sha256", JStr (sha256_hex (utf8_encode (join nl canonical))))].

(** src: tool/updater/validate_existing_windows_installation.py:43-43 configured_profile_digest *)
Definition profile_table (name : string) : bool :=
  existsb (contains name) ["config"; "client_token"; "hub_auth"; "hub_session"; "odbc_credential"].

(** src: tool/updater/validate_existing_windows_installation.py:194-200 main *)
Record args : Type := Args {
  a_prepare : bool; a_run_repair : bool; a_allow : bool; a_installer : option string; a_evidence : string }.

Section existing.
Context `{Host} `{Filesystem} `{Symlinks} `{WindowsHost} `{SignpathStaging.RealPath} `{BuildClock} `{Database}.

(** [database.as_uri()] is defined for an absolute path only. *)
Definition require_uri (path : string) : M unit :=
  raise_when (negb (is_absolute path)) (ValueError "relative path can't be expressed as a file URI").

(** src: tool/updater/validate_existing_windows_installation.py:39-52 configured_profile_digest *)
Definition configured_profile_digest (database : string) : M json :=
  _ ← require_uri database;
  w ← get_world;
  tables ← lift (table_names database w);
  let selected := List.filter profile_table tables in
  _ ← raise_when (match selected with [] => true | _ => false end) (RuntimeError "No configured-profile tables found");
  digests ← map_M (λ name, rows ← lift (table_rows database name w); mret (name, rows_digest rows)) selected;
  mret (JObj digests).

(** src: tool/updater/validate_existing_windows_installation.py:74-86 installation_paths
    The application, its data and the vault of the user. *)
Definition installation_paths : M (string * string * string) :=
  w ← get_world;
  location ← lift (reg_query true HKEY_LOCAL_MACHINE ("Software\Microsoft\Windows\CurrentVersion\Uninstall\" +:+ APP_GUID +:+ "_is1")
                     "InstallLocation" w);
  location ← lift (reg_text (fst location));
  let app := SignpathStaging.real_path (path_of location) w in
  programs ← environ_item "ProgramFiles";
  let expected := SignpathStaging.real_path (path_of programs // "Plug Agente") w in
  core ← is_file (app // "plug_agente.exe");
  _ ← raise_when (negb (same_path app expected) || negb core)
        (RuntimeError "Only the registered global Plug Agente installation is accepted");
  program_data ← environ_item "ProgramData";
  let data := path_of program_data // "PlugAgente" in
  roaming ← environ_item "APPDATA";
  let vault := path_of roaming // "Se7e Sistemas" // "Plug Agente" // "flutter_secure_storage.dat" in
  profile ← is_file (data // "agent_config.db");
  secrets ← is_file vault;
  _ ← raise_when (negb profile || negb secrets) (RuntimeError "Existing configured profile and encrypted vault are required");
  mret (app, data, vault).

(** src: tool/updater/validate_existing_windows_installation.py:92-97 updater_snapshot
    [os.walk(directory)] with its errors raised: the files below, in the order of their names. *)
Definition files_below (directory : string) : M (list string) := λ w,
  (match w_fs w !! directory with
   | Some Dir => Ok (omap (λ kv, match snd kv with File _ => if startswith (fst kv) (directory +:+ "/") then Some (fst kv) else None
                                             | Dir => None end) (map_to_list (w_fs w)))
   | Some (File _) => Raise (OSError directory)
   | None => Raise (FileNotFoundError directory)
   end, w).

(** The digests of files, each under a name. *)
Definition named_digests (name : string → string) (paths : list string) : M json :=
  digests ← map_M (λ path, digest ← sha256 path; mret (name path, JStr digest)) (sorted_texts paths);
  mret (JObj (dict_of digests)).

(** src: tool/updater/validate_existing_windows_installation.py:89-102 updater_snapshot *)
Definition updater_snapshot : M json :=
  programs ← environ_item "ProgramFiles";
  let control := path_of programs // "PlugAgenteUpdater" in
  program_data ← environ_item "ProgramData";
  let policy := path_of program_data // "PlugAgenteUpdater" // "policy.json" in
  files ← files_below control;
  executables ← named_digests (λ path, path_str (str_drop (String.length control + 1) path))
                  (List.filter (λ path, endswith (py_lower (path_name path)) ".exe") files);
  there ← is_file policy;
  digest ← (if there : bool then digest ← sha256 policy; mret (JStr digest) else mret JNull);
  mret (JObj [("executables", executables); ("policySha256", digest)]).

(** src: tool/updater/validate_existing_windows_installation.py:134-134 prepare
    [{path.name: sha256(path) for path in app.glob("*.exe")}] *)
Definition application_digests (app : string) : M json :=
  w ← get_world;
  named_digests path_name (List.filter (λ path, endswith (path_key (path_name path)) ".exe") (iterdir app w)).

(** src: tool/updater/validate_existing_windows_installation.py:122-125 prepare
    A consistent copy of a database, when there is one. *)
Definition back_up (data backup database : string) : M unit :=
  there ← is_file (data // database);
  when there
    (_ ← require_uri (data // database);
     w ← get_world;
     bytes ← lift (database_copy (data // database) w);
     write_bytes (backup // database) bytes).

(** src: tool/updater/validate_existing_windows_installation.py:116-128 prepare
    The protected copies. *)
Definition copy_installation (installer evidence app data vault : string) : M unit :=
  _ ← mkdir evidence;
  _ ← protect_backup evidence;
  let backup := evidence // "backup" in
  _ ← mkdir_new backup;
  _ ← copy_tree (λ _, false) app (backup // "application");
  _ ← for_M (back_up data backup) ["agent_config.db"; "sql_operations.db"];
  _ ← copy_file (data // "settings.json") (backup // "settings.json");
  _ ← copy_file vault (backup // "flutter_secure_storage.dat");
  copy_file installer (backup // "installer.exe").

(** src: tool/updater/validate_existing_windows_installation.py:129-134 prepare
    What was found. *)
Definition installation_state (installer evidence app data vault : string) : M json :=
  w ← get_world;
  let real p := SignpathStaging.real_path p w in
  digest ← sha256 installer;
  version ← read_installed_version app;
  profile ← configured_profile_digest (data // "agent_config.db");
  secrets ← sha256 vault;
  registry ← registry_snapshot;
  updater ← updater_snapshot;
  executables ← application_digests app;
  mret (JObj [("format", JInt 1); ("createdAt", JStr (utc_isoformat w)); ("status", JStr "prepared");
              ("app", JStr (path_str app)); ("data", JStr (path_str data)); ("vault", JStr (path_str vault));
              ("evidence", JStr (path_str (real evidence))); ("installer", JStr (path_str (real (evidence // "backup" // "installer.exe"))));
              ("installerSha256", JStr digest); ("version", JArr (JInt <$> version)); ("profile", profile);
              ("vaultSha256", JStr secrets); ("registry", registry); ("updater", updater); ("executables", executables)]).

(** src: tool/updater/validate_existing_windows_installation.py:112-136 prepare *)
Definition prepare (installer evidence : string) : M json :=
  '(app, data, vault) ← installation_paths;
  there ← path_exists evidence;
  _ ← raise_when there (RuntimeError "Refusing to overwrite a previous host-validation snapshot");
  _ ← copy_installation installer evidence app data vault;
  state ← installation_state installer evidence app data vault;
  _ ← write_text (evidence // "state.json") (dump_report true EmptyString state);
  mret state.

(** ** The repair *)

(** The tests of a conjunction, each only when the ones before it held. *)
Fixpoint all_hold (tests : list (M bool)) : M bool :=
  match tests with
  | [] => mret true
  | test :: tests => b ← test; if (b : bool) then all_hold tests else mret false
  end.

(** The state has this value under a key. *)
Definition recorded (key : string) (state v : json) : M bool := r ← lift (jitem key state); mret (jeq v r).
(** A snapshot taken now is the recorded one. *)
Definition still (key : string) (state : json) (snapshot : M json) : M bool := v ← snapshot; recorded key state v.
Definition digest_of (path : string) : M json := digest ← sha256 path; mret (JStr digest).

(** src: tool/updater/validate_existing_windows_installation.py:149-149 validate_repair *)
Definition profile_kept (state : json) (data vault : string) : M bool :=
  all_hold [still "profile" state (configured_profile_digest (data // "agent_config.db")); still "vaultSha256" state (digest_of vault)].

(** src: tool/updater/validate_existing_windows_installation.py:147-152 validate_repair
    The preparation still describes the host. *)
Definition verify_prepared (state : json) (app data vault installer : string) : M unit :=
  matches ← all_hold [recorded "status" state (JStr "prepared"); recorded "app" state (JStr (path_str app));
                      still "installerSha256" state (digest_of installer)];
  _ ← raise_when (negb matches) (RuntimeError "Prepared installation snapshot does not match");
  kept ← profile_kept state data vault;
  _ ← raise_when (negb kept) (RuntimeError "Profile changed since preparation; refresh snapshot before testing");
  integrated ← all_hold [still "updater" state updater_snapshot; still "registry" state registry_snapshot];
  raise_when (negb integrated) (RuntimeError "Windows integration changed since preparation; refresh snapshot before testing").

(** src: tool/updater/validate_existing_windows_installation.py:154-165 validate_repair
    The installer, while nobody may replace the core. *)
Definition run_repair (installer app evidence : string) : M unit :=
  _ ← lock_core_against_replacement (app // "plug_agente.exe");
  let command := [path_str installer; "/VERYSILENT"; "/SUPPRESSMSGBOXES"; "/NORESTART"; "/NOCLOSEAPPLICATIONS"; "/REPAIR=optional";
                  "/AUTOUPDATE=0"; "/MERGETASKS=!startup,!desktopicon,!autoupdate"; "/DIR=" +:+ path_str app;
                  "/LOG=" +:+ path_str (evidence // "repair.log")] in
  _ ← run_accepted command (Some (evidence // "repair-output.log")) None [0]
        (λ r, RuntimeError ("Optional repair failed: exit " +:+ py_str_int (returncode r)));
  mret tt.

(** src: tool/updater/validate_existing_windows_installation.py:171-176 validate_repair *)
Definition verify_preserved (state : json) (app data vault : string) : M unit :=
  same ← still "executables" state (application_digests app);
  _ ← raise_when (negb same) (RuntimeError "Optional repair modified installed executables");
  kept ← profile_kept state data vault;
  _ ← raise_when (negb kept) (RuntimeError "Optional repair modified the configured profile or encrypted vault");
  same ← still "registry" state registry_snapshot;
  raise_when (negb same) (RuntimeError "Optional repair modified startup, protocol or updater authorization").

(** src: tool/updater/validate_existing_windows_installation.py:179-183 validate_repair
    One of the checks an installation makes of itself. *)
Definition probe (app evidence : string) (mode : string * list string) : P unit :=
  let '(mode, arguments) := mode in
  _ ← act (run_accepted (path_str (app // "plug_install_check.exe") :: arguments) (Some (evidence // (mode +:+ ".log"))) None [0]
             (λ r, RuntimeError ("Installed " +:+ mode +:+ " probe failed: exit " +:+ py_str_int (returncode r))));
  phase_passed mode.
(** src: tool/updater/validate_existing_windows_installation.py:178-178 validate_repair *)
Definition probes (data : string) : list (string * list string) :=
  [("core", ["--core"]); ("odbc", ["--odbc"]); ("data", ["--data"; path_str data])].
Fixpoint for_P {A} (f : A → P unit) (l : list A) : P unit :=
  match l with [] => mret tt | x :: l => _ ← f x; for_P f l end.

(** src: tool/updater/validate_existing_windows_installation.py:142-146 validate_repair
    The state that was prepared, and where the installation is now. *)
Definition load_state (evidence : string) : M (json * (string * string * string) * string) :=
  w ← get_world;
  _ ← raise_when (negb (is_user_admin w)) (RuntimeError "Existing-installation repair requires Windows elevation");
  text ← read_text (evidence // "state.json");
  state ← lift (loads text);
  places ← installation_paths;
  installer ← lift (path_item "installer" state);
  mret (state, places, path_of installer).

(** src: tool/updater/validate_existing_windows_installation.py:142-183 validate_repair *)
Definition repair_checks (evidence : string) : P unit :=
  '(state, (app, data, vault), installer) ← act (load_state evidence);
  _ ← act (verify_prepared state app data vault installer);
  digest ← act (lift (jitem "installerSha256" state));
  _ ← put "installerSha256" digest;
  _ ← act (run_repair installer app evidence);
  _ ← phase_passed "real_installer_optional_repair";
  _ ← act (verify_no_updater_mutations (evidence // "repair.log"));
  _ ← act (same ← still "updater" state updater_snapshot;
           raise_when (negb same) (RuntimeError "Optional repair modified updater binaries or policy"));
  _ ← phase_passed "updater_binaries_policy_preserved_without_mutating_commands";
  _ ← act (verify_preserved state app data vault);
  _ ← phase_passed "profile_vault_executables_integrations_preserved";
  for_P (probe app evidence) (probes data).

(** src: tool/updater/validate_existing_windows_installation.py:190-190 validate_repair *)
Definition write_result (evidence : string) : P unit :=
  s ← the_record; act (write_text (evidence // "result.json") (dump_report true EmptyString (JObj s))).

(** src: tool/updater/validate_existing_windows_installation.py:139-190 validate_repair *)
Definition validate_repair (evidence : string) : M json :=
  phase [("status", JStr "failed"); ("phases", JArr [])]
    (_ ← finally (except (_ ← repair_checks evidence; put "status" (JStr "passed")) record_error) (write_result evidence);
     s ← the_record; mret (JObj s)).

(** src: tool/updater/validate_existing_windows_installation.py:205-205 main
    The preparation prints less than the state. *)
Definition prepared_summary (state : json) : res string :=
  status ← jitem "status" state; version ← jitem "version" state; evidence ← jitem "evidence" state;
  Ok (default EmptyString (render true ", " ": " (JObj [("status", status); ("version", version); ("evidence", evidence)]))).

(** src: tool/updater/validate_existing_windows_installation.py:193-209 main *)
Definition main (a : args) : M unit :=
  _ ← raise_when (negb host_nt) (SystemExit (ExitMsg "Windows is required"));
  w ← get_world;
  let evidence := SignpathStaging.real_path (a_evidence a) w in
  match a_prepare a && negb (a_run_repair a), a_installer a with
  | true, Some installer =>
      state ← prepare (SignpathStaging.real_path installer w) evidence;
      line ← lift (prepared_summary state); print line
  | _, _ =>
      if a_run_repair a && negb (a_prepare a) && a_allow a then
        result ← validate_repair evidence;
        line ← lift (from_option (render true ", " ": " result) (TypeError "Object is not JSON serializable")); print line
      else raise (SystemExit (ExitMsg "Choose preparation, or explicitly authorized real-host repair"))
  end.
End existing.

(** ** An honest repair *)

Definition REPAIR_PHASES : list string :=
  ["real_installer_optional_repair"; "updater_binaries_policy_preserved_without_mutating_commands";
   "profile_vault_executables_integrations_preserved"; "core"; "odbc"; "data"].

Section honest.
Context `{Host} `{Filesystem} `{Symlinks} `{WindowsHost} `{SignpathStaging.RealPath} `{BuildClock} `{Database}.

(** A snapshot taken at this moment is the one that was recorded. *)
Definition agrees (state : json) (key : string) (snapshot : M json) (w : world) : Prop :=
  ∃ v r, runs snapshot w v w ∧ jitem key state = Ok r ∧ jeq v r = true.

Lemma same_sha256_of path : steps (=) (sha256 path).
Proof. unfold sha256. solve_steps. Qed.
#[local] Hint Resolve same_sha256_of : py.
Lemma same_digest_of path : steps (=) (digest_of path).
Proof. unfold digest_of. solve_steps. Qed.
Lemma same_profile database : steps (=) (configured_profile_digest database).
Proof. unfold configured_profile_digest, require_uri. solve_steps. Qed.
Lemma same_named_digests name paths : steps (=) (named_digests name paths).
Proof. unfold named_digests. solve_steps. Qed.
#[local] Hint Resolve same_digest_of same_profile same_named_digests : py.
Lemma same_files_below directory : steps (=) (files_below directory).
Proof. intros w. reflexivity. Qed.
#[local] Hint Resolve same_files_below : py.
Lemma same_updater_snapshot : steps (=) updater_snapshot.
Proof. unfold updater_snapshot, environ_item. solve_steps. Qed.
Lemma same_application_digests app : steps (=) (application_digests app).
Proof. unfold application_digests. solve_steps. Qed.
#[local] Hint Resolve same_updater_snapshot same_application_digests : py.
Lemma same_still key state snapshot : steps (=) snapshot → steps (=) (still key state snapshot).
Proof. unfold still, recorded. intros Hs. solve_steps. Qed.

Lemma runs_still key state snapshot w w' : steps (=) snapshot → runs (still key state snapshot) w true w' →
  w' = w ∧ agrees state key snapshot w.
Proof.
  unfold still, recorded. intros Hs Hr. apply runs_bind in Hr as (v & w1 & Hv & Hr). pose proof (runs_same _ _ _ _ Hs Hv) as ->.
  apply runs_bind in Hr as (r & w2 & [Hk <-]%runs_lift & [Hj <-]%runs_ret). split; [done|]. by exists v, r.
Qed.

Lemma runs_all_hold tests w w' : Forall (steps (=)) tests → runs (all_hold tests) w true w' → w' = w ∧ Forall (λ test, runs test w true w) tests.
Proof.
  intros Hs. induction Hs as [|test tests Ht Hs IH]; simpl; [by intros [_ <-]%runs_ret|].
  intros (b & w1 & Hb & Hr)%runs_bind. pose proof (runs_same _ _ _ _ Ht Hb) as ->. destruct b; [|by apply runs_ret in Hr as [? _]].
  apply IH in Hr as [-> Hall]. split; [done|]. by constructor.
Qed.

Lemma runs_profile_kept state data vault w w' : runs (profile_kept state data vault) w true w' →
  w' = w ∧ agrees state "profile" (configured_profile_digest (data // "agent_config.db")) w ∧ agrees state "vaultSha256" (digest_of vault) w.
Proof.
  unfold profile_kept. intros [-> Hall]%runs_all_hold; [|repeat constructor; apply same_still; eauto with py].
  rewrite !Forall_cons in Hall. destruct Hall as (Hp & Hv & _). split; [done|].
  apply runs_still in Hp as [_ ?]; [|eauto with py]. by apply runs_still in Hv as [_ ?]; [|eauto with py].
Qed.

(** Before the repair: the preparation is this one, and nothing has changed since. *)
Lemma runs_verify_prepared state app data vault installer w w' : runs (verify_prepared state app data vault installer) w tt w' →
  w' = w ∧ jitem "app" state = Ok (JStr (path_str app)) ∧ agrees state "installerSha256" (digest_of installer) w ∧
  agrees state "profile" (configured_profile_digest (data // "agent_config.db")) w ∧ agrees state "vaultSha256" (digest_of vault) w ∧
  agrees state "updater" updater_snapshot w ∧ agrees state "registry" registry_snapshot w.
Proof.
  unfold verify_prepared. intros Hr.
  apply runs_bind in Hr as (b & w1 & Hm & Hr). apply runs_bind in Hr as ([] & w2 & [->%negb_false_iff <-]%runs_raise_when & Hr).
  apply runs_bind in Hr as (b & w2 & Hk & Hr). apply runs_bind in Hr as ([] & w3 & [->%negb_false_iff <-]%runs_raise_when & Hr).
  apply runs_bind in Hr as (b & w3 & Hi & Hr). apply runs_raise_when in Hr as [->%negb_false_iff <-].
  apply runs_all_hold in Hm as [-> Hm]; [|repeat constructor; unfold recorded; solve_steps; apply same_still; eauto with py].
  apply runs_profile_kept in Hk as (-> & Hp & Hv).
  apply runs_all_hold in Hi as [-> Hi]; [|repeat constructor; apply same_still; eauto with py].
  apply Forall_cons in Hm as [_ [Ha [Hd _]%Forall_cons]%Forall_cons]. apply Forall_cons in Hi as [Hu [Hg _]%Forall_cons].
  unfold recorded in Ha. apply runs_bind in Ha as (r & w1 & Ha & Hj). apply runs_lift in Ha as [Ha _]. apply runs_ret in Hj as [Hj _].
  apply runs_still in Hd as [_ ?]; [|eauto with py]. apply runs_still in Hu as [_ ?]; [|eauto with py].
  apply runs_still in Hg as [_ ?]; [|eauto with py]. split_and!; try done. rewrite Ha. f_equal. by destruct r; simpl in Hj; try done; apply String.eqb_eq in Hj as ->.
Qed.

(** After the repair: what the state records of the application is still there. *)
Lemma runs_verify_preserved state app data vault w w' : runs (verify_preserved state app data vault) w tt w' →
  w' = w ∧ agrees state "executables" (application_digests app) w ∧
  agrees state "profile" (configured_profile_digest (data // "agent_config.db")) w ∧ agrees state "vaultSha256" (digest_of vault) w ∧
  agrees state "registry" registry_snapshot w.
Proof.
  unfold verify_preserved. intros Hr.
  apply runs_bind in Hr as (b & w1 & Hm & Hr). apply runs_bind in Hr as ([] & w2 & [->%negb_false_iff <-]%runs_raise_when & Hr).
  apply runs_bind in Hr as (b & w2 & Hk & Hr). apply runs_bind in Hr as ([] & w3 & [->%negb_false_iff <-]%runs_raise_when & Hr).
  apply runs_bind in Hr as (b & w3 & Hi & Hr). apply runs_raise_when in Hr as [->%negb_false_iff <-].
  apply runs_still in Hm as [-> ?]; [|eauto with py]. apply runs_profile_kept in Hk as (-> & ? & ?).
  apply runs_still in Hi as [-> ?]; [|eauto with py]. done.
Qed.

(** *** The phases *)

Abbreviation stays_failed := (keeps_value "status" (JStr "failed")).

Lemma failed_probe app evidence mode : records stays_failed (probe app evidence mode).
Proof. unfold probe, phase_passed. solve_records. Qed.
#[local] Hint Resolve failed_probe : py.
Lemma failed_repair_checks evidence : records stays_failed (repair_checks evidence).
Proof. unfold repair_checks, phase_passed, probes. cbn [for_P]. solve_records. Qed.

Lemma passes_probes app evidence modes s w s' w' l : assoc "phases" s = Some (JArr l) → passes (for_P (probe app evidence) modes) s w tt s' w' →
  assoc "phases" s' = Some (JArr (l ++ (JStr <$> modes.*1))) ∧ (∀ k, k ≠ "phases" → assoc k s' = assoc k s).
Proof.
  revert s w l. induction modes as [|[mode arguments] modes IH]; intros s w l Hl Hp; cbn [for_P] in Hp.
  - apply passes_ret in Hp as (_ & <- & <-). by rewrite app_nil_r.
  - apply passes_bind in Hp as ([] & s1 & w1 & Hm & Hp). unfold probe in Hm.
    apply passes_bind in Hm as (r & s2 & w2 & [-> _]%passes_act & Hm). apply (passes_phase_passed _ _ _ _ _ _ Hl) in Hm as [-> ->].
    apply (IH _ _ (l ++ [JStr mode])) in Hp as [Hph Hk]; [|by rewrite assoc_set_same]. split; [by rewrite Hph, <- app_assoc|].
    intros k Hne. by rewrite Hk, assoc_set_other.
Qed.

(** What held around the repair: before it nothing had changed since the
    preparation, and after it every snapshot is still the recorded one. *)
Definition preserved (evidence : string) (w w' : world) : Prop :=
  ∃ state app data vault installer w1 w2,
    runs (load_state evidence) w (state, (app, data, vault), installer) w1 ∧
    agrees state "installerSha256" (digest_of installer) w1 ∧
    Forall (λ ks, agrees state (fst ks) (snd ks) w1 ∧ agrees state (fst ks) (snd ks) w2)
      [("profile", configured_profile_digest (data // "agent_config.db")); ("vaultSha256", digest_of vault);
       ("updater", updater_snapshot); ("registry", registry_snapshot)] ∧
    agrees state "executables" (application_digests app) w2 ∧
    runs (run_repair installer app evidence) w1 tt w2 ∧ runs (verify_no_updater_mutations (evidence // "repair.log")) w2 tt w2 ∧
    later w2 w'.

Lemma later_probe app evidence mode s w u s' w' : passes (probe app evidence mode) s w u s' w' → later w w'.
Proof.
  unfold probe. destruct mode as [mode arguments]. intros (r & s1 & w1 & [-> Hr]%passes_act & Hp)%passes_bind.
  apply passes_push in Hp as (l & _ & _ & ->). eapply later_runs; [|exact Hr]. solve_steps.
Qed.
Lemma later_probes app evidence modes s w u s' w' : passes (for_P (probe app evidence) modes) s w u s' w' → later w w'.
Proof.
  revert s w. induction modes as [|mode modes IH]; intros s w Hp; cbn [for_P] in Hp.
  - apply passes_ret in Hp as (_ & _ & <-). reflexivity.
  - apply passes_bind in Hp as (x & s1 & w1 & Hm%later_probe & Hp). etrans; [exact Hm|by eapply IH].
Qed.

Lemma passes_repair_checks evidence s w s' w' : assoc "phases" s = Some (JArr []) → passes (repair_checks evidence) s w tt s' w' →
  assoc "phases" s' = Some (JArr (JStr <$> REPAIR_PHASES)) ∧ preserved evidence w w'.
Proof.
  unfold repair_checks. intros Hl Hp. apply passes_bind in Hp as ([[state [[app data] vault]] installer] & s1 & w1 & [-> Hload]%passes_act & Hp).
  apply passes_bind in Hp as ([] & s1 & w2 & [-> Hv]%passes_act & Hp). apply runs_verify_prepared in Hv as (-> & Happ & Hi & Hpr & Hva & Hu & Hg).
  apply passes_bind in Hp as (digest & s1 & w2 & [-> [_ <-]%runs_lift]%passes_act & Hp).
  apply passes_bind in Hp as ([] & s1 & w2 & [-> ->]%passes_put & Hp).
  apply passes_bind in Hp as ([] & s1 & w2 & [-> Hrep]%passes_act & Hp).
  apply passes_bind in Hp as ([] & s1 & w3 & Hph & Hp). eapply passes_phase_passed in Hph; [|by rewrite assoc_set_other]. destruct Hph as [-> ->].
  apply passes_bind in Hp as ([] & s1 & w3 & [-> Hlog]%passes_act & Hp).
  assert (w3 = w2) as ->. { eapply runs_same; [|exact Hlog]. unfold verify_no_updater_mutations. solve_steps. }
  apply passes_bind in Hp as ([] & s1 & w3 & [-> Hup]%passes_act & Hp). apply runs_bind in Hup as (b & w4 & Hup & [->%negb_false_iff <-]%runs_raise_when).
  apply runs_still in Hup as [-> Hup]; [|eauto with py].
  apply passes_bind in Hp as ([] & s1 & w3 & Hph & Hp). eapply passes_phase_passed in Hph; [|by rewrite assoc_set_same]. destruct Hph as [-> ->].
  apply passes_bind in Hp as ([] & s1 & w3 & [-> Hkept]%passes_act & Hp). apply runs_verify_preserved in Hkept as (-> & He & Hp2 & Hv2 & Hg2).
  apply passes_bind in Hp as ([] & s1 & w3 & Hph & Hp). eapply passes_phase_passed in Hph; [|by rewrite assoc_set_same]. destruct Hph as [-> ->].
  pose proof Hp as Hl2%later_probes. eapply passes_probes in Hp; [|by rewrite assoc_set_same]. destruct Hp as [Hph _]. split; [by rewrite Hph|].
  exists state, app, data, vault, installer, w1, w2. split_and!; try done. by repeat constructor.
Qed.

(** [result.json] holds the record. *)
Definition published (evidence : string) (s : record) (w : world) : Prop :=
  w_fs w !! (evidence // "result.json") = Some (File (text_bytes (dump_report true EmptyString (JObj s)))).

Lemma repair_result_outcome evidence s w r s' w' : write_result evidence s w = ((r, s'), w') →
  s' = s ∧ (r = Ok tt → published evidence s w' ∧ later w w').
Proof.
  unfold write_result. intros [-> Hr]%(record_act (λ s, write_text (evidence // "result.json") (dump_report true EmptyString (JObj s)))).
  split; [done|]. intros ->. pose proof Hr as Hl%later_runs; [|solve_steps]. split; [|done].
  apply runs_write_text_bytes in Hr as [Hfs _]. unfold published. by rewrite Hfs, lookup_insert_eq.
Qed.

End honest.

(** ** A preparation and its repair *)

(** An installer that writes its log, and the file at [touched] besides. *)
Definition repair_host (touched : string) : Host := {|
  host_nt := true;
  host_run := λ argv _ w,
    (Ok (Proc 0 (match argv with "whoami" :: _ => dq +:+ "host\user" +:+ dq +:+ "," +:+ dq +:+ "S-1-5-21-7" +:+ dq +:+ cr +:+ nl | _ => EmptyString end)
           EmptyString),
     match argv with
     | "C:\evidence\backup\installer.exe" :: _ => <[touched := File "touched"]> (<["C:/evidence/repair.log" := File "Setup --quiet"]> (w_fs w))
     | _ => w_fs w
     end);
  host_which := λ _ _, None; host_fetch := λ _ _, Raise (OSError "offline"); host_now := λ _, 0; host_utcoffset := 0;
  host_exn_str := λ _, "error"; host_repr := λ _, "value"; host_tmp := λ _, "C:/tmp"; host_isatty := false; host_root := "C:/plug_agente" |}.
Definition installed_windows : WindowsHost := {|
  is_user_admin := λ _, true;
  reg_query := λ _ _ path name _,
    if name == "InstallLocation" then Ok (RegValue (JStr "C:\Program Files\Plug Agente"), 1) else Raise (FileNotFoundError path);
  reg_key := λ _ path _, Raise (FileNotFoundError path);
  command_line_argv := λ _, None; run_input := λ _ _ w, (Raise (OSError "no pipe"), w_fs w);
  access_denied := λ _ _, false; create_file := λ _ _, Some 4; sqlite_execute := λ _ _ w, Ok (w_fs w);
  monotonic := λ _, 0; after_pause := w_fs; locale_decode := Ok |}.
Definition small_database : Database := {|
  table_names := λ _ _, Ok ["agent_config"; "log"];
  table_rows := λ _ _ _, Ok [[RegValue (JInt 2); RegBytes "k"]; [RegValue (JInt 1); RegValue JNull]];
  database_copy := λ _ _, Ok "copy" |}.
Definition stopped_clock : BuildClock := {| uuid4_hex := λ _, "id"; utc_isoformat := λ _, "2026-01-01T00:00:00+00:00" |}.
Definition installed_world : world := World (list_to_map
  [("C:/Program Files/Plug Agente", Dir); ("C:/Program Files/Plug Agente/plug_agente.exe", File "agent");
   ("C:/Program Files/Plug Agente/install-mode.ini", File ("[installation]" +:+ nl +:+ "workerVersion=1.8.7+1"));
   ("C:/Program Files/PlugAgenteUpdater", Dir); ("C:/ProgramData/PlugAgente/agent_config.db", File "db");
   ("C:/ProgramData/PlugAgente/settings.json", File "{}");
   ("C:/Users/u/Se7e Sistemas/Plug Agente/flutter_secure_storage.dat", File "vault"); ("C:/setup.exe", File "setup")])
  {["ProgramFiles" := "C:\Program Files"; "ProgramData" := "C:\ProgramData"; "APPDATA" := "C:\Users\u"]} [].
Definition repaired_with (touched : string) : res json :=
  let host := repair_host touched in
  let w := snd (prepare (H:=host) (H0:=linkless) (H2:=installed_windows) (H3:=same_paths) (H4:=stopped_clock) (H5:=small_database)
                  "C:/setup.exe" "C:/evidence" installed_world) in
  fst (validate_repair (H:=host) (H0:=linkless) (H2:=installed_windows) (H3:=same_paths) (H5:=small_database) "C:/evidence" w).
Example repair_verdicts :
  (r ← repaired_with "C:/other"; jitem "status" r) = Ok (JStr "passed") ∧
  repaired_with "C:/Users/u/Se7e Sistemas/Plug Agente/flutter_secure_storage.dat" =
    Raise (RuntimeError "Optional repair modified the configured profile or encrypted vault") ∧
  repaired_with "C:/Program Files/PlugAgenteUpdater/new.EXE" = Raise (RuntimeError "Optional repair modified updater binaries or policy").
Proof. by vm_compute. Qed.
