(* ===== verification/FixtureBuild.v ===== *)
(** * Building the private fixture (tool/updater/isolated_windows_fixture.py)

    The installer and the service of a fixture are built from copies of the
    production sources in which only the identity of the product is replaced. A
    historical supervisor is built beside them from a commit of the local
    history. The manifest lists what the lifecycle driver checks again. *)

From S2P Require Import Prelude PyStr PyRe PyCodec PyHash PyJson PyNum Effects TextFiles ScriptUtils WindowsFixture Crypto LifecyclePayload.
From S2P Require Import LifecycleHandoff Commands ApplicationSource IsolatedRuntime ApplicationBuild ApplicationBuilder WindowsHost LifecycleDriver PinnedNative.
From S2P Require BuildInstaller ReleasePreflight SignpathStaging.

Local Open Scope Z_scope.

(** [str(uuid.uuid4())] for the installer and [Ed25519PrivateKey.generate()] in raw bytes. *)
Class FixtureSecrets : Type := {
  new_app_id : world → string;
  new_private_key : world → string
}.

(** src: tool/updater/isolated_windows_fixture.py:206-206 build_fixture *)
Definition payload_suffixes : list string := [".pdb"; ".ilk"; ".lib"; ".exp"; ".log"].

(** src: tool/updater/isolated_windows_fixture.py:215-215 build_fixture
    A source whose identity is replaced. *)
Definition native_source (path : string) : bool :=
  one_of (path_suffix path) [".cpp"; ".h"] && negb (one_of "third_party" (split_char "/" path)).

(** src: tool/updater/isolated_windows_fixture.py:167-170 build_legacy_supervisor
    A file of the historical source that is taken over. *)
Definition historical_source (path : string) : bool :=
  (one_of (path_suffix path) [".cpp"; ".h"] || (path_name path == "CMakeLists.txt")) && negb (one_of "third_party" (split_char "/" path)).

(** [{**state, **more}] *)
Definition extended (state more : list (string * json)) : list (string * json) :=
  fold_left (λ l kv, assoc_set (fst kv) (snd kv) l) more state.

Section build.
Context `{Host} `{BuildInstaller.Machine} `{Filesystem} `{Symlinks} `{Tar} `{Ed25519} `{BuildClock} `{FixtureSecrets} `{SignpathStaging.RealPath}.

(** src: tool/updater/isolated_windows_fixture.py:206-206 build_fixture *)
Definition payload_ignored (name : string) : bool :=
  existsb (endswith (path_key name)) payload_suffixes || (path_key name == "updater").

(** src: tool/updater/isolated_windows_fixture.py:236-237 build_fixture
    A program with its output in a log; only exit code zero is accepted. *)
Definition run_appending (environment : gmap string string) (command : list string) (log : string) : M unit :=
  r ← run_proc_env environment command host_cwd;
  _ ← append_bytes log (stdout r);
  raise_when (negb (returncode r =? 0)) (CalledProcessError (returncode r) command EmptyString).

(** src: tool/updater/isolated_windows_fixture.py:181-182 build_legacy_supervisor *)
Definition run_into (environment : gmap string string) (command : list string) (log : string) : M unit :=
  _ ← write_bytes log EmptyString; run_appending environment command log.

(** src: tool/updater/isolated_windows_fixture.py:235-237 build_fixture
    Several programs, each with a numbered log. *)
Fixpoint run_numbered (environment : gmap string string) (log : string → string) (index : Z) (commands : list (list string)) : M unit :=
  match commands with
  | [] => mret tt
  | command :: commands => _ ← run_into environment command (log (py_str_int index)); run_numbered environment log (index + 1) commands
  end.

(** src: tool/updater/isolated_windows_fixture.py:177-177 build_legacy_supervisor *)
Definition native_environment (public : string) : M (gmap string string) :=
  env ← get_env;
  mret (<["AUTO_UPDATE_REQUIRE_VALID_SIGNATURE" := "false"]> (<["AUTO_UPDATE_FEED_PUBLIC_KEY" := public]> env)).

(** src: tool/updater/isolated_windows_fixture.py:166-173 build_legacy_supervisor
    One file of the commit, with the private identity. *)
Definition take_historical (legacy identity revision relative : string) : M unit :=
  if negb (historical_source relative) then mret tt
  else
    content ← checked_output ["git"; "show"; revision +:+ ":" +:+ relative];
    original ← lift (decode_sig content);
    rewritten ← lift (rewrite_native original identity);
    write_text (legacy // relative) rewritten.

(** src: tool/updater/isolated_windows_fixture.py:161-173 build_legacy_supervisor *)
Definition take_directory (legacy identity revision name : string) : M unit :=
  _ ← copy_tree (λ _, false) (PROJECT // "windows" // name) (legacy // "windows" // name);
  tracked ← checked_output ["git"; "ls-tree"; "-r"; "--name-only"; revision; "windows/" +:+ name];
  for_M (take_historical legacy identity revision) (splitlines (universal_newlines tracked)).

(** src: tool/updater/isolated_windows_fixture.py:152-184 build_legacy_supervisor *)
Definition build_legacy_supervisor (output identity public_key revision : string) : M (list (string * json)) :=
  _ ← lift (require_identity identity);
  output ← require_fixture_root output false;
  revision ← require_legacy_revision revision;
  let legacy := output // "legacy" in
  there ← path_exists legacy;
  _ ← raise_when there (RuntimeError "Refusing to replace a historical supervisor fixture");
  _ ← for_M (take_directory legacy identity revision) ["updater"; "update_helper"];
  contract ← read_text (legacy // "windows/updater/contract.h");
  _ ← raise_when (negb (recovery_v1 contract))
        (RuntimeError "The explicit historical source must be the disabled recovery-v1 supervisor");
  environment ← native_environment public_key;
  configure ← cmake_path;
  build ← cmake_path;
  let native := path_str (legacy // "native") in
  _ ← run_numbered environment (λ index, output // ("legacy-native-" +:+ index +:+ ".log")) 0
        [[configure; "-S"; path_str (legacy // "windows/updater"); "-B"; native; "-A"; "x64"];
         [build; "--build"; native; "--config"; "Release"; "--target"; "plug_update_service"; "--parallel"; "4"]];
  let binary := legacy // "native/Release/plug_update_service.exe" in
  digest ← sha256 binary;
  mret [("legacyService", JStr (path_str binary)); ("legacyServiceSha256", JStr digest); ("legacySourceCommit", JStr revision)].

(** src: tool/updater/isolated_windows_fixture.py:214-218 build_fixture
    A source gets the private identity; the digest is the one of the original. *)
Definition rewrite_source (output identity path : string) : M (string * json) :=
  original ← ReleasePreflight.read_text_sig path;
  rewritten ← lift (rewrite_native original identity);
  _ ← write_text path rewritten;
  mret (path_str (str_drop (String.length output + 1) path), JStr (sha256_hex (utf8_encode original))).

(** src: tool/updater/isolated_windows_fixture.py:211-218 build_fixture *)
Definition copy_native (source_project output identity name : string) : M (list (string * json)) :=
  let destination := output // "windows" // name in
  _ ← copy_tree (λ _, false) (source_project // "windows" // name) destination;
  w ← get_world;
  map_M (rewrite_source output identity) (List.filter native_source (rglob destination w)).

(** src: tool/updater/isolated_windows_fixture.py:222-225 build_fixture *)
Definition rewrite_script (output identity app_id payload path : string) : M (string * json) :=
  original ← ReleasePreflight.read_text_sig path;
  rewritten ← lift (rewrite_installer original identity app_id payload);
  _ ← write_text (output // "installer" // path_name path) rewritten;
  mret ("installer/" +:+ path_name path, JStr (sha256_hex (utf8_encode original))).

(** src: tool/updater/isolated_windows_fixture.py:209-226 build_fixture
    The sources of the fixture, with the digests of their originals. *)
Definition derive_fixture (source_project output identity app_id : string) : M (list (string * json)) :=
  natives ← map_M (copy_native source_project output identity) ["updater"; "update_helper"; "install_channel"];
  _ ← mkdir_new (output // "test/fixtures");
  _ ← copy_file (source_project // "test/fixtures/updater_manifest_v1.json") (output // "test/fixtures/updater_manifest_v1.json");
  _ ← mkdir_new (output // "installer");
  w ← get_world;
  scripts ← map_M (rewrite_script output identity app_id (output // "payload"))
              (List.filter (λ path, endswith (path_key (path_name path)) ".iss") (iterdir (source_project // "installer") w));
  _ ← assert_isolated_sources output identity;
  mret (extended [] (concat natives ++ scripts)).

(** src: tool/updater/isolated_windows_fixture.py:193-198 build_fixture
    The build that was named: its state and the reference to it. *)
Definition named_application (application_build : option string) : M (option (json * json) * string) :=
  match application_build with
  | None => mret (None, PROJECT)
  | Some path =>
      '(application, reference) ← application_input path;
      source ← lift (path_item "sourceRoot" application);
      mret (Some (application, reference), path_of source)
  end.

(** src: tool/updater/isolated_windows_fixture.py:199-208 build_fixture
    The output directory with its payload; the identity of the fixture. *)
Definition prepare_output (output : string) (application : option (json * json)) : M (string * string) :=
  _ ← mkdir output;
  _ ← protect_backup output;
  w ← get_world;
  named ← lift (match application with
                | Some (application, _) => text_item "identity" application
                | None => Ok ("PlugAgenteHomologacao_" +:+ str_take 12 (uuid4_hex w))
                end);
  identity ← lift (require_identity named);
  w ← get_world;
  let app_id := py_upper (new_app_id w) in
  bundle ← match application with
           | Some (application, _) => root ← lift (path_item "root" application); mret (path_of root // "payload")
           | None => mret (PROJECT // "build/windows/x64/runner/Release")
           end;
  _ ← copy_tree payload_ignored bundle (output // "payload");
  complete ← is_file (output // "payload/data/app.so");
  _ ← raise_when (negb complete) (RuntimeError "An existing complete Release bundle is required");
  mret (identity, app_id).

(** src: tool/updater/isolated_windows_fixture.py:227-241 build_fixture
    The updater of the fixture, signed for by a key of its own. *)
Definition build_native (output : string) : M string :=
  w ← get_world;
  let private := new_private_key w in
  _ ← write_bytes (output // "fixture-private-key") private;
  let public := b64encode (ed_public private) in
  environment ← native_environment public;
  cmake ← cmake_path;
  let native := path_str (output // "native") in
  _ ← run_numbered environment (λ index, output // ("native-" +:+ index +:+ ".log")) 0
        [[cmake; "-S"; path_str (output // "windows/updater"); "-B"; native; "-A"; "x64"];
         [cmake; "--build"; native; "--config"; "Release"; "--parallel"; "4"]];
  let updater := output // "payload/updater" in
  _ ← mkdir_new updater;
  _ ← for_M (λ name, let file := "plug_update_" +:+ name +:+ ".exe" in
                     copy_file (output // "native/Release" // file) (updater // file)) ["service"; "client"; "worker"];
  mret public.

Definition INSTALLER_NAME : string := "package/PlugAgente-Setup-1.8.7.exe".

(** src: tool/updater/isolated_windows_fixture.py:244-248 build_fixture *)
Definition build_installer (output : string) : M unit :=
  let installer := output // INSTALLER_NAME in
  _ ← mkdir_new (path_parent installer);
  _ ← write_bytes (output // "installer-build.log") EmptyString;
  iscc ← BuildInstaller.find_iscc;
  env ← get_env;
  run_appending env [iscc; "/Q"; "/O" +:+ path_str (path_parent installer); "/DMyAppWorkerVersion=1.8.7+1"; path_str (output // "installer/setup.iss")]
    (output // "installer-build.log").

(** src: tool/updater/isolated_windows_fixture.py:250-254 build_fixture *)
Definition fixture_state (output identity app_id public digest real tree : string) (files sources : list (string * json))
    : list (string * json) :=
  [("format", JInt 2); ("payloadFiles", JObj files); ("payloadTreeSha256", JStr tree); ("payloadQualification", JStr "bytes_only");
   ("identity", JStr identity); ("appId", JStr app_id); ("protocol", JStr (replace "_" "-" (py_lower identity)));
   ("appName", JStr ("Plug Agente Homologacao " +:+ identity_tail identity)); ("root", JStr (path_str real));
   ("installer", JStr (path_str (output // INSTALLER_NAME))); ("installerSha256", JStr digest); ("publicKey", JStr public);
   ("originalSourceHashes", JObj sources); ("payloadVersion", JStr "1.8.7+1"); ("productionActivationGate", JBool false)].

(** src: tool/updater/isolated_windows_fixture.py:262-267 build_fixture *)
Definition write_manifest (output : string) (state : list (string * json)) : M string :=
  let manifest := output // "fixture.json" in
  let encoded := utf8_encode (dump_report true EmptyString (JObj state)) in
  _ ← raise_when (256 * 1024 <? len encoded) (RuntimeError "Lifecycle manifest exceeds its size limit");
  _ ← write_bytes manifest encoded;
  mret manifest.

(** src: tool/updater/isolated_windows_fixture.py:255-262 build_fixture
    The package is bound to the application it was built from. *)
Definition bind_package (reference : option json) (identity : string) (files : list (string * json)) : M unit :=
  match reference with Some reference => verify_application_package reference identity (JObj files) | None => mret tt end.

(** src: tool/updater/isolated_windows_fixture.py:187-268 build_fixture *)
Definition build_fixture (output legacy_revision : string) (application_build : option string) : M string :=
  _ ← raise_when (negb host_nt) (RuntimeError "Windows and a new private output directory are required");
  output ← require_fixture_root output true;
  revision ← require_legacy_revision legacy_revision;
  '(application, source_project) ← named_application application_build;
  let reference := snd <$> application in
  '(identity, app_id) ← prepare_output output application;
  sources ← derive_fixture source_project output identity app_id;
  public ← build_native output;
  files ← capture_payload output;
  tree ← lift (payload_tree_hash files);
  _ ← build_installer output;
  _ ← verify_payload output (JObj files) (JStr tree);
  w ← get_world;
  let real := SignpathStaging.real_path output w in
  digest ← sha256 (output // INSTALLER_NAME);
  let state := fixture_state output identity app_id public digest real tree files sources in
  _ ← bind_package reference identity files;
  let state := match reference with Some reference => assoc_set "applicationBuild" reference state | None => state end in
  legacy ← build_legacy_supervisor output identity public revision;
  let state := extended state legacy in
  _ ← match reference with
      | Some _ => captured ← capture_payload output; bind_package reference identity captured
      | None => mret tt
      end;
  _ ← verify_payload output (JObj files) (JStr tree);
  write_manifest output state.

(** src: tool/updater/isolated_windows_fixture.py:271-279 __main__
    The command prints where the manifest is. *)
Definition fixture_command (output legacy_revision : string) (application_build : option string) : M unit :=
  manifest ← build_fixture (absolute output) legacy_revision application_build; print (path_str manifest).
End build.

(** ** What a fixture is *)

Section sound.
Context `{Host} `{BuildInstaller.Machine} `{Filesystem} `{Symlinks} `{Tar} `{Ed25519} `{BuildClock} `{FixtureSecrets} `{SignpathStaging.RealPath}.

Lemma same_cmake_path : steps (=) cmake_path.
Proof. unfold cmake_path. solve_steps. Qed.
#[local] Hint Resolve same_cmake_path later_same same_sha256 : py.
Lemma later_run_appending environment command log : steps later (run_appending environment command log).
Proof. unfold run_appending. solve_steps. Qed.
#[local] Hint Resolve later_run_appending : py.
Lemma later_run_numbered environment log index commands : steps later (run_numbered environment log index commands).
Proof. revert index. induction commands as [|command commands IH]; intros index; cbn [run_numbered]; unfold run_into; solve_steps; apply IH. Qed.
#[local] Hint Resolve later_run_numbered : py.
Lemma later_checked_output argv : steps later (checked_output argv).
Proof. unfold checked_output. solve_steps. Qed.
#[local] Hint Resolve later_checked_output : py.
Lemma later_legacy_revision revision : steps later (require_legacy_revision revision).
Proof. unfold require_legacy_revision. solve_steps. Qed.
#[local] Hint Resolve later_legacy_revision : py.
Lemma later_legacy output identity public revision : steps later (build_legacy_supervisor output identity public revision).
Proof.
  pose proof same_fixture_root. pose proof same_sha256.
  unfold build_legacy_supervisor, take_directory, take_historical, native_environment. solve_steps.
Qed.
Lemma later_build_native output : steps later (build_native output).
Proof. unfold build_native, native_environment. solve_steps. Qed.
#[local] Hint Resolve later_legacy later_build_native : py.
Lemma later_iscc_found : steps later BuildInstaller.find_iscc.
Proof. pose proof BuildInstaller.later_find_tool. unfold BuildInstaller.find_iscc, BuildInstaller.exit_with. solve_steps. Qed.
Lemma later_prepare_output output application : steps later (prepare_output output application).
Proof. unfold prepare_output, protect_backup. solve_steps. Qed.
Lemma later_build_installer output : steps later (build_installer output).
Proof. pose proof later_iscc_found. unfold build_installer. solve_steps. Qed.
Lemma later_bind_package reference identity files : steps later (bind_package reference identity files).
Proof. pose proof later_load_application_build. unfold bind_package, verify_application_package, application_input. solve_steps. Qed.
Lemma later_named_application application_build : steps later (named_application application_build).
Proof. pose proof later_load_application_build. unfold named_application, application_input. solve_steps. Qed.

(** The rewritten sources were checked after the last of them was written. *)
Lemma runs_derive_fixture source_project output identity app_id w sources w' :
  runs (derive_fixture source_project output identity app_id) w sources w' → during (assert_isolated_sources output identity) tt w w'.
Proof.
  unfold derive_fixture. intros Hr.
  apply runs_bind in Hr as (natives & w1 & Hn%later_runs & Hr); [|unfold copy_native, rewrite_source, ReleasePreflight.read_text_sig; solve_steps].
  apply runs_bind in Hr as ([] & w2 & Hm%later_runs & Hr); [|solve_steps]. apply runs_bind in Hr as ([] & w3 & Hc%later_runs & Hr); [|solve_steps].
  apply runs_bind in Hr as ([] & w4 & Hd%later_runs & Hr); [|solve_steps]. apply runs_bind in Hr as (v & w5 & Hv & Hr). injection Hv as <- <-.
  apply runs_bind in Hr as (scripts & w5 & Hs%later_runs & Hr); [|unfold rewrite_script, ReleasePreflight.read_text_sig; solve_steps].
  apply runs_bind in Hr as ([] & w6 & Ha & Hr). apply runs_ret in Hr as [_ <-].
  exists w5, w6. split_and!; [chain_later|done|reflexivity].
Qed.

Lemma runs_legacy output identity public revision w legacy w' : runs (build_legacy_supervisor output identity public revision) w legacy w' →
  ∃ binary digest, legacy = [("legacyService", JStr binary); ("legacyServiceSha256", JStr digest); ("legacySourceCommit", JStr revision)].
Proof.
  unfold build_legacy_supervisor. intros Hr. do 2 apply runs_bind in Hr as (? & ? & _ & Hr).
  apply runs_bind in Hr as (rev & ? & Hrev & Hr). do 10 apply runs_bind in Hr as (? & ? & _ & Hr). apply runs_ret in Hr as [<- _].
  unfold require_legacy_revision in Hrev. apply runs_bind in Hrev as (? & ? & _ & Hrev). apply runs_bind in Hrev as (? & ? & _ & Hrev).
  apply runs_bind in Hrev as (? & ? & _ & Hrev). apply runs_ret in Hrev as [<- _]. by eexists _, _.
Qed.

Lemma runs_fresh_root output w root w' : runs (require_fixture_root output true) w root w' → w' = w ∧ root = abspath output ∧ w_fs w !! root = None.
Proof.
  intros Hr. pose proof (runs_same _ _ _ _ (same_fixture_root _ _) Hr) as ->. split; [done|]. unfold require_fixture_root in Hr.
  apply runs_bind in Hr as ([] & w1 & [_ <-]%runs_raise_when & Hr). apply runs_bind in Hr as ([] & w1 & _ & Hr).
  apply runs_bind in Hr as (there & w2 & Ht & Hr). injection Ht as <- <-. apply runs_bind in Hr as ([] & w2 & [Hn <-]%runs_raise_when & Hr).
  apply runs_ret in Hr as [<- <-]. split; [done|]. apply bool_decide_eq_false in Hn. by apply eq_None_not_Some.
Qed.

(** The manifest names this identity, this payload and this commit. *)
Definition manifest_of (state : list (string * json)) (root identity revision tree digest : string) (files : list (string * json)) : Prop :=
  assoc "format" state = Some (JInt 2) ∧ assoc "identity" state = Some (JStr identity) ∧
  assoc "payloadFiles" state = Some (JObj files) ∧ assoc "payloadTreeSha256" state = Some (JStr tree) ∧
  assoc "payloadQualification" state = Some (JStr "bytes_only") ∧ assoc "productionActivationGate" state = Some (JBool false) ∧
  assoc "installer" state = Some (JStr (path_str (root // INSTALLER_NAME))) ∧ assoc "installerSha256" state = Some (JStr digest) ∧
  assoc "legacySourceCommit" state = Some (JStr revision).

End sound.

(** ** A fixture that is built *)

Definition contract_text : string :=
  "constexpr int kRecoveryContractVersion = 1;" +:+ nl +:+ "constexpr bool kApplicationContractImplemented = false;" +:+ nl.
Definition example_revision : string := concat_all (repeat "a" 40).
Definition example_output : string := "C:/plug_agente/build/homologation/windows-lifecycle-a".
(** Compilers that write their products, and a history with one contract. *)
Definition compiling_run (argv : list string) (_ : string) (w : world) : res proc * gmap string node :=
  let answer (text : string) := Ok (Proc 0 text EmptyString) in
  let product directory name fs := <[example_output // directory // "native/Release" // name := File name]> fs in
  match argv with
  | "whoami" :: _ => (answer (dq +:+ "host\user" +:+ dq +:+ "," +:+ dq +:+ "S-1-5-21-7" +:+ dq +:+ cr +:+ nl), w_fs w)
  | "git" :: "show" :: _ => (answer contract_text, w_fs w)
  | ["git"; "ls-tree"; _; _; _; "windows/updater"] => (answer ("windows/updater/contract.h" +:+ nl), w_fs w)
  | ["cmake"; "--build"; _; _; _; _; _] =>
      (answer EmptyString,
       foldr (λ name, <[example_output // "native/Release" // ("plug_update_" +:+ name +:+ ".exe") := File name]>) (w_fs w) ["service"; "client"; "worker"])
  | "cmake" :: "--build" :: _ => (answer EmptyString, product "legacy" "plug_update_service.exe" (w_fs w))
  | "ISCC" :: _ => (answer EmptyString, <[example_output // INSTALLER_NAME := File "setup"]> (w_fs w))
  | _ => (answer EmptyString, w_fs w)
  end.
Definition compiling_host : Host := {|
  host_nt := true; host_run := compiling_run; host_which := λ c _, Some c; host_fetch := λ _ _, Raise (OSError "offline");
  host_now := λ _, 0; host_utcoffset := 0; host_exn_str := λ _, "error"; host_repr := λ _, "value";
  host_tmp := λ _, "C:/tmp"; host_isatty := false; host_root := "C:/plug_agente" |}.
Definition fixed_clock : BuildClock := {| uuid4_hex := λ _, "0123456789abcdef0123456789abcdef"; utc_isoformat := λ _, "2026-01-01T00:00:00+00:00" |}.
Definition fixed_secrets : FixtureSecrets := {|
  new_app_id := λ _, "01234567-89ab-cdef-0123-456789abcdef"; new_private_key := λ _, concat_all (repeat "k" 32) |}.
Definition product_world : world := World (list_to_map
  ([("C:/plug_agente/build", Dir); ("C:/plug_agente/build/homologation", Dir); ("C:/plug_agente/build/windows/x64/runner/Release", Dir);
    ("C:/plug_agente/build/windows/x64/runner/Release/data", Dir);
    ("C:/plug_agente/test/fixtures/updater_manifest_v1.json", File "{}");
    ("C:/plug_agente/installer/setup.iss", File ("CloseApplications=yes" +:+ nl));
    ("C:/plug_agente/windows/updater/contract.h", File contract_text)] ++
   ((λ name, ("C:/plug_agente/windows/" +:+ name, Dir)) <$> ["updater"; "update_helper"; "install_channel"]) ++
   ((λ name, ("C:/plug_agente/build/windows/x64/runner/Release/" +:+ name, File "x")) <$>
      REQUIRED_PAYLOAD_FILES))) ∅ [].
Definition example_build : res string * world :=
  build_fixture (H:=compiling_host) (H1:=linkless) (H2:=plain_links) (H5:=fixed_clock)
    (H6:=fixed_secrets) (H7:=same_paths) "build/homologation/windows-lifecycle-a" example_revision None product_world.
Definition example_end : world := Eval vm_compute in snd example_build.

